(* ===== verification/_CoqProject ===== *)
-Q . S2P
Prelude.v
Cbs.v
Cbb.v
Builder.v
Time.v
Ctype.v
Base64.v
Strtol.v
Sort.v
ChaCha.v
Poly1305.v
Aead.v
ChaChaCipher.v
CryptoInternal.v
MdHash.v
ShaLoop.v
Sha256.v
Sha512.v
Sha1.v
Md5.v
EvpDigest.v
EvpTables.v
EvpCipher.v
Modes.v
Sm4.v
Sm4Cipher.v
Hmac.v
Hkdf.v
Tls13KeySchedule.v
BnWord.v
BnWords.v
Bn.v
BnCtx.v
TlsBuffer.v
Tls13Msg.v
Tls13Handshake.v
Tls13Record.v
Tls13RecordLayer.v
Tls13Seal.v
Tls13Channel.v
Tls13RecordSafety.v
Tls13RecordOwner.v
Tls13ChaCha.v
