(* ===== verification/Prelude.v ===== *)
(** * A verification library for the libcrypto and libssl of OpenBSD

    ** What is modelled

    Five groups of C files under src/src/lib, and how they stand on each other:

    - parsing and building of byte strings (libcrypto/bytestring), the POSIX time
      conversion of ASN.1 times, and the constant-time and octet helpers;
    - bignum arithmetic up to signed multiplication and squaring (libcrypto/bn);
    - symmetric cryptography: ChaCha20, Poly1305 and their AEAD, MD5, SHA-1 and SHA-2,
      SM4 and the modes of block ciphers, the EVP digest and cipher interfaces, HMAC
      and HKDF;
    - libc: conversions of strings (numbers and base 64), sorting and searching;
    - TLS 1.3 (libssl): buffers, handshake messages, the handshake state machine,
      records, the record layer and the key schedule, on top of the others.

    The files of the library, in dependency order:

    - Prelude: the outcome monad and its weakest preconditions [wp], record update
      [r <| f := v |>], octet strings ([is_byte], [be_bytes], [be_val], [zread],
      [zwrite], [octets_at]), machine words ([u8], [u32], [u64]), tactics and hints;
    - Cbs: bytestring/bs_cbs.c, libc/string/timingsafe_memcmp.c.  A CBS is a window
      on an array, [CBS_ok]; a parser is a function to [option];
    - Cbb, Builder: bytestring/bs_cbb.c on a heap of CBBs and buffers (children,
      pending length prefixes, growth); Builder gives the abstract machine of a
      client, the refinement, and the round trip with Cbs;
    - Time: asn1/a_time_posix.c;
    - Ctype, Base64, Strtol: libc/net/base64.c against RFC 1521; the strtol and strtoul
      families, strtonum and atoi of libc/stdlib against the C standard;
    - Sort: bsearch.c, lsearch.c, heapsort.c and qsort.c of libc/stdlib, on elements and,
      where elements are exchanged by words, on octets;
    - ChaCha, Poly1305: chacha/chacha-merged.c and chacha.c, poly1305/poly1305-donna.c
      and poly1305.c, against RFC 8439;
    - Aead, ChaChaCipher: evp/evp_aead.c and evp/e_chacha20poly1305.c, the AEAD once
      as an EVP_AEAD and once as an EVP_CIPHER;
    - CryptoInternal: crypto_internal.h;
    - MdHash, ShaLoop: the buffering and the padding the hash functions have in common,
      and the message schedules of the SHA functions;
    - Sha256, Sha512, Sha1, Md5: sha/sha256.c, sha512.c and sha1.c against FIPS 180-4,
      md5/md5.c against RFC 1321;
    - EvpDigest, EvpTables: evp/evp_digest.c, evp/m_sha1.c and m_md5.c;
    - EvpCipher: evp/evp_cipher.c; Modes: modes/cbc128.c, cfb128.c, ofb128.c and ctr128.c
      against SP 800-38A; Sm4: sm4/sm4.c against GB/T 32907; Sm4Cipher: evp/e_sm4.c, and
      the theorems on EVP ciphers;
    - Hmac, Hkdf: hmac/hmac.c against RFC 2104, hkdf/hkdf.c against RFC 5869;
    - Tls13KeySchedule: libssl/tls13_key_schedule.c against RFC 8446, section 7;
    - BnWord, BnWords, Bn, BnCtx: bn_internal.h and bn_primitives.c (words), the word
      arrays of bn_add.c, bn_mul.c and bn_sqr.c, the BIGNUMs of bn_lib.c on a store of
      objects (so that operands may be the same object), and bn_ctx.c;
    - TlsBuffer: tls_buffer.c, tls_content.c;
    - Tls13Msg: tls13_handshake_msg.c over any reader and writer;
    - Tls13Handshake: tls13_handshake.c, the state machine over any handlers;
    - Tls13Record: tls13_record.c;
    - Tls13RecordLayer: tls13_record_layer.c over any AEAD, callbacks and wire;
    - Tls13Seal, Tls13Channel, Tls13RecordSafety: theorems on the record layer:
      protection and nonces, delivery, the invariant of its calls and alerts;
    - Tls13RecordOwner: the whole interface of the record layer as the calls of an owner
      who reacts to results, and the rule on keys under which none is undefined;
    - Tls13ChaCha: the record layer over Aead, and two ends over Tls13KeySchedule.

    ** How the code is read

    A function that returns 1 or 0 and changes a state [S] is a value of [M S A]: a
    result [Ret a s], a failure [Fail s] with the state as the failing call leaves
    it, or undefined behaviour [UB] (an access outside a buffer, a dangling pointer, a
    failed assertion).  [check b] is [if (!b) return 0], [valid o] a pointer or index
    that must be right, [try m] a call whose return value is tested.  A [goto err] is
    the failure branch with its clean-up.  Names are those of the code; the records
    have its fields, with a prefix where two structs share a name.  Integers are [Z]
    with the wrap-around of their C type written out: [size_t] and [unsigned long]
    have 64 bits, [int] 32 (LP64).  Where the code shares objects between pointers,
    the state is a heap or store with addresses (Cbb, Bn, BnCtx); where a buffer is
    passed in place of another, overlapping is a parameter (Aead).

    What is not under src, or not modelled, is a parameter: [malloc_ok] says which
    allocations succeed (every one may fail), the wire callbacks and the handshake
    handlers are arbitrary functions of a world.  Their promises are classes:

    - [Reader] (TlsBuffer), [Writer] (Tls13Msg): what a wire may do: give
      or take some octets, wait finitely often;
    - [Handlers], [Environment] (Tls13Handshake): what handlers and record layer give
      the state machine;
    - [AeadLaws] (Tls13Seal): opening is inverse to sealing;
      discharged for ChaCha20-Poly1305 in Tls13ChaCha;
    - [KeyLaws] (Tls13RecordOwner): nonces take a sequence number and labels expand to
      the octets asked for; discharged in Tls13ChaCha with HKDF;
    - [Comparator] (Sort): a comparison function orders the elements;
    - [DigestLaws] (EvpDigest): a method table streams a hash; discharged for all
      tables of m_sha1.c and m_md5.c; HMAC, HKDF and the key schedule hold over any instance;
    - [CipherLaws] (EvpCipher): a method table computes a function on whole blocks, piece
      by piece; discharged for the five tables of e_sm4.c;
    - [HkdfLaws] (Tls13ChaCha): labels expand to octets; discharged by the key
      schedule's own function.

    ** What is shown

    - Equivalence with a reference: ChaCha20, Poly1305, the AEAD (both interfaces,
      however the data are cut), SM4 and its modes, SHA-1, SHA-2 and MD5 (however the message is cut), HMAC, HKDF,
      the exporter, the comba multiplications and squarings.
    - Refinement: a CBB client sees an abstract builder, tls_buffer.c a queue,
      BN_CTX a stack of frames, the key schedule the machine of RFC 8446 up to the first
      call in order that fails.
    - Round trips: CBB with CBS, times with dates, base 64, encryption with decryption, handshake messages, records over
      any fragmentation, and two ends composed of key schedule, record layer and AEAD.
    - Safety and invariants: parsers stay in their window, no call of the record layer is
      undefined for an owner that moves records only with the keys installed, nonces do not repeat, a fatal alert silences, the messages
      of a handshake come in the order of RFC 8446 and the handshake ends.
    - Order: qsort and heapsort sort in place and touch nothing else, whatever memory
      there is; bsearch finds what a sorted array has.
    - Errors: which inputs and which lack of memory make a call fail, and what is left
      behind; opening a record succeeds on what was sealed only, decryption on what is padded.

    Every theorem with hypotheses has a witness, a concrete run.

    ** Bounds and fuel

    Recursions of the code that are not structural run on fuel; running out is [UB],
    or the theorems show it is not met.  Flushing a CBB: one more than the number
    of CBBs (children have no cycles).  Block and piece loops of ChaCha20 and the
    AEADs: the length of the message.  Sending: the octets left.  Waiting for the
    wire: a number of retries that the caller gives, and that the [stalls] of the
    wire bound; a loop of the record layer that is still asked to retry after them is a
    failure of the model, where the code would go on.  The perform loop of a handshake: TLS13_NUM_MESSAGE_TYPES.  The loop
    of HKDF: 256, since its counter is an octet.  An alert that interrupts an alert: 2.
    Sorting and searching: the number of elements for the loops, log2 of it and one for
    the frames of introsort.

    ** Not modelled

    Assembly and the architecture headers; the EVP_PKEY_CTX of digest contexts and
    ENGINEs; time-constancy itself (the constant-time functions are proved to compute
    what they should); deallocation beyond clearing, except in Cbb and BnCtx, where the
    store shows it.  The hashes but MD5, SHA-1 and SHA-2, AES and the other block ciphers, GCM, CCM and XTS, bs_ber.c, the ASN.1 templates, bignum
    division and modular arithmetic, public key operations, X.509, the rest of libc, the handlers of
    TLS messages, the TLS 1.2 stack, libtls and the programs are left out; those with
    logic of their own and no I/O come next: bs_ber.c, bignum shifts and division. *)

From Stdlib Require Export ZArith Zbitwise Lia List.
From stdpp Require Export base tactics numbers list.

#[export] Set Default Goal Selector "!".
#[export] Set Warnings "-clear-no-such-hyp,-register-all".
Open Scope Z_scope.

(** ** Outcomes of C functions

    A C function that returns 1 on success and 0 on error, and that may
    modify the state [S] in both cases, is a function from [S] to
    [outcome S A]: [Ret a s] is "return 1" with the out parameters [a],
    [Fail s] is "return 0" with the state as the failing call left it, and
    [UB] marks undefined behaviour (an access outside a buffer, a null or
    dangling pointer, a failed [assert], a recursion that does not end). *)

Inductive outcome (S A : Type) : Type :=
  | Ret (a : A) (s : S)
  | Fail (s : S)
  | UB.
Arguments Ret {S A} a s.
Arguments Fail {S A} s.
Arguments UB {S A}.

Definition M (S A : Type) : Type := S -> outcome S A.

#[global] Instance M_ret {S} : MRet (M S) := fun A a s => Ret a s.
#[global] Instance M_bind {S} : MBind (M S) := fun A B k m s =>
  match m s with
  | Ret a s' => k a s'
  | Fail s' => Fail s'
  | UB => UB
  end.

Definition fail {S A} : M S A := fun s => Fail s.
Definition ub {S A} : M S A := fun _ => UB.
Definition gets {S A} (f : S -> A) : M S A := fun s => Ret (f s) s.
Definition modify {S} (f : S -> S) : M S unit := fun s => Ret tt (f s).
(** [if (!b) return 0;] *)
Definition check {S} (b : bool) : M S unit := fun s => if b then Ret tt s else Fail s.
(** An obligation of the C program: undefined behaviour unless [b]. *)
Definition must {S} (b : bool) : M S unit := fun s => if b then Ret tt s else UB.
(** A pointer or an index that has to be valid. *)
Definition valid {S A} (o : option A) : M S A := fun s =>
  match o with Some a => Ret a s | None => UB end.
(** Run [m] on a local copy of type [T]: its final state is returned with
    its result, the caller's state is left alone. *)
Definition on_local {S T A} (m : M T A) (t : T) : M S (A * T) := fun s =>
  match m t with
  | Ret a t' => Ret (a, t') s
  | Fail _ => Fail s
  | UB => UB
  end.
(** The C idiom [if (f(...))]: the return code as a boolean. *)
Definition try {S A} (m : M S A) : M S (option A) := fun s =>
  match m s with
  | Ret a s' => Ret (Some a) s'
  | Fail s' => Ret None s'
  | UB => UB
  end.

(** ** A program logic for outcomes

    [wp m s Q E]: run from [s], [m] is not undefined behaviour, its result
    and final state satisfy [Q] when it succeeds and its final state
    satisfies [E] when it fails. *)

Definition wp {S A} (m : M S A) (s : S) (Q : A -> S -> Prop) (E : S -> Prop) : Prop :=
  match m s with
  | Ret a s' => Q a s'
  | Fail s' => E s'
  | UB => False
  end.

(** ** Machine integers: unsigned integers as [Z] with explicit wrap-around *)

Definition u8 (x : Z) : Z := x mod 2 ^ 8.
Definition u16 (x : Z) : Z := x mod 2 ^ 16.
Definition u32 (x : Z) : Z := x mod 2 ^ 32.
Definition u64 (x : Z) : Z := x mod 2 ^ 64.
Definition SIZE_MAX : Z := 2 ^ 64 - 1.
Definition is_byte (b : Z) : Prop := 0 <= b < 256.
Definition is_word (w : Z) : Prop := 0 <= w < 2 ^ 64.
#[global] Instance is_byte_dec b : Decision (is_byte b).
Proof. unfold is_byte. apply _. Defined.
#[global] Instance is_word_dec b : Decision (is_word b).
Proof. unfold is_word. apply _. Defined.

(** ** Arrays indexed by [Z] *)

Definition zlen {A} (l : list A) : Z := Z.of_nat (length l).
(** A block of 16 octets. *)
Definition block16 (x : list Z) : Prop := Forall is_byte x /\ zlen x = 16.
Definition ztake {A} (n : Z) (l : list A) : list A := take (Z.to_nat n) l.
Definition zdrop {A} (n : Z) (l : list A) : list A := drop (Z.to_nat n) l.
Definition zget {A} (l : list A) (i : Z) : option A :=
  if 0 <=? i then l !! Z.to_nat i else None.
(** Store [bs] at offset [i]; [None] when it does not fit. *)
Definition zwrite {A} (l : list A) (i : Z) (bs : list A) : option (list A) :=
  if (0 <=? i) && (i + zlen bs <=? zlen l)
  then Some (ztake i l ++ bs ++ zdrop (i + zlen bs) l)
  else None.
Definition zset {A} (l : list A) (i : Z) (x : A) : option (list A) := zwrite l i [x].
Definition zrep {A} (n : Z) (x : A) : list A := replicate (Z.to_nat n) x.

(** The octets a pointer with a length stands for. *)
Definition octets_at (p : list Z) (n : Z) : option (list Z) := if (0 <=? n) && (n <=? zlen p) then Some (ztake n p) else None.

(** Big-endian value of a byte string. *)
Definition be_val (l : list Z) : Z := fold_left (fun acc b => acc * 256 + b) l 0.
(** The [n] low-order octets of [v], most significant first. *)
Fixpoint be_bytes (n : nat) (v : Z) : list Z :=
  match n with
  | O => []
  | S n' => be_bytes n' (v / 256) ++ [v mod 256]
  end.

(** Little-endian. *)
Definition le_val (l : list Z) : Z := foldr (fun b acc => b + 256 * acc) 0 l.
Fixpoint le_bytes (n : nat) (v : Z) : list Z :=
  match n with
  | O => []
  | S n' => v mod 256 :: le_bytes n' (v / 256)
  end.

(** ** Hints and tactics *)

Create HintDb csimp.
Create Rewrite HintDb csimp.

(** Case on the scrutinee of a boolean test and turn it into an
    arithmetic fact. *)
Ltac zcase :=
  match goal with
  | |- context [if ?a <? ?b then _ else _] => destruct (Z.ltb_spec a b)
  | |- context [if ?a <=? ?b then _ else _] => destruct (Z.leb_spec a b)
  | |- context [if ?a =? ?b then _ else _] => destruct (Z.eqb_spec a b)
  | |- context [if negb (?a =? ?b) then _ else _] => destruct (Z.eqb_spec a b)
  end; cbn [negb].

(** Equate options, pairs and outcomes componentwise, integers by [lia]. *)
Ltac split_lia :=
  repeat match goal with
  | |- @eq Z _ _ => lia
  | |- Some _ = Some _ => f_equal
  | |- (_, _) = (_, _) => f_equal
  | |- Ret _ _ = Ret _ _ => f_equal
  end; try done.

(** Unfold the monad operations applied to a state. *)
Ltac mstep :=
  cbv [mret M_ret mbind M_bind fail ub gets modify check must valid on_local try];
  cbv beta iota.

(** ** Record update

    [r <| f := v |>] is the record [r] with [v] in its field [f].  An [Eta]
    instance lists the fields of a record type. *)

Class Eta (R : Type) : Type := eta : R -> R.
Class Setter {R T : Type} (field : R -> T) : Type := set_field : T -> R -> R.
Arguments set_field {R T} field {_} v r /.

Ltac build_setter field :=
  lazymatch type of field with
  | ?R -> ?T =>
      let e := constr:(_ : Eta R) in
      let e := eval hnf in e in
      let e := eval cbv beta delta [eta] in e in
      lazymatch eval pattern field in e with
      | ?g _ =>
          let s := eval cbv beta in (fun v : T => g (fun _ : R => v)) in
          exact s
      end
  end.

#[export] Hint Extern 0 (Setter ?field) => build_setter field : typeclass_instances.

Notation "r <| f := v |>" := (set_field f v r) (at level 1, left associativity, f at level 99, v at level 200).

(** ** Generic lemmas *)

Lemma u64_small x : 0 <= x < 2 ^ 64 -> u64 x = x.
Proof. apply Z.mod_small. Qed.

Section wp_rules.
Context {S : Type}.
Implicit Types (s : S) (E : S -> Prop).

Lemma wp_ret {A} (a : A) s Q E : Q a s -> wp (mret a) s Q E.
Proof. done. Qed.

Lemma wp_bind {A B} (m : M S A) (k : A -> M S B) s Q E :
  wp m s (fun a s' => wp (k a) s' Q E) E -> wp (mbind k m) s Q E.
Proof. unfold wp. mstep. by destruct (m s). Qed.

Lemma wp_conseq {A} (m : M S A) s (Q Q' : A -> S -> Prop) E E' :
  wp m s Q' E' -> (forall a s', Q' a s' -> Q a s') -> (forall s', E' s' -> E s') -> wp m s Q E.
Proof. unfold wp. destruct (m s); auto. Qed.

Lemma wp_and {A} (m : M S A) s (Q Q' : A -> S -> Prop) E E' :
  wp m s Q E -> wp m s Q' E' -> wp m s (fun a s' => Q a s' /\ Q' a s') (fun s' => E s' /\ E' s').
Proof. unfold wp. destruct (m s); auto. Qed.

Lemma wp_fail {A} s (Q : A -> S -> Prop) E : E s -> wp fail s Q E.
Proof. done. Qed.

Lemma wp_check b s (Q : unit -> S -> Prop) E :
  (b = true -> Q tt s) -> (b = false -> E s) -> wp (check b) s Q E.
Proof. unfold wp, check. destruct b; auto. Qed.

Lemma wp_must (b : bool) s (Q : unit -> S -> Prop) E : b = true -> Q tt s -> wp (must b) s Q E.
Proof. unfold wp, must. by intros ->. Qed.

Lemma wp_valid {A} (o : option A) a s (Q : A -> S -> Prop) E :
  o = Some a -> Q a s -> wp (valid o) s Q E.
Proof. unfold wp, valid. by intros ->. Qed.

Lemma wp_gets {A} (f : S -> A) s (Q : A -> S -> Prop) E : Q (f s) s -> wp (gets f) s Q E.
Proof. done. Qed.

Lemma wp_modify (f : S -> S) s (Q : unit -> S -> Prop) E : Q tt (f s) -> wp (modify f) s Q E.
Proof. done. Qed.

Lemma wp_try {A} (m : M S A) s (Q : option A -> S -> Prop) E :
  wp m s (fun a s' => Q (Some a) s') (fun s' => Q None s') -> wp (try m) s Q E.
Proof. unfold wp, try. by destruct (m s). Qed.

Lemma wp_on_local {T A} (m : M T A) t s (Q : A * T -> S -> Prop) E :
  wp m t (fun a t' => Q (a, t') s) (fun _ => E s) -> wp (on_local m t) s Q E.
Proof. unfold wp, on_local. by destruct (m t). Qed.

(** Extraction of what a [wp] says of a run. *)
Lemma wp_Ret {A} (m : M S A) s Q E a s' : wp m s Q E -> m s = Ret a s' -> Q a s'.
Proof. unfold wp. intros H Hm. by rewrite Hm in H. Qed.

Lemma wp_total {A} (m : M S A) s Q :
  wp m s Q (fun _ => False) -> exists a s', m s = Ret a s' /\ Q a s'.
Proof. unfold wp. destruct (m s); [eauto|done|done]. Qed.

(** A run whose outcome is known in every case. *)
Lemma wp_result {A} (m : M S A) s r :
  wp m s (fun a s' => r = Ret a s') (fun s' => r = Fail s') -> m s = r.
Proof. unfold wp. by destruct (m s). Qed.
End wp_rules.

Section arrays.
Context {A : Type}.
Implicit Types (l k : list A) (i n : Z).

Lemma zlen_nonneg l : 0 <= zlen l.
Proof. unfold zlen. lia. Qed.

Lemma zlen_nil : zlen (@nil A) = 0.
Proof. reflexivity. Qed.

Lemma zlen_cons x l : zlen (x :: l) = 1 + zlen l.
Proof. unfold zlen. cbn [length]. lia. Qed.

Lemma zlen_app l k : zlen (l ++ k) = zlen l + zlen k.
Proof. unfold zlen. rewrite length_app. lia. Qed.

Lemma zlen_rep n (x : A) : 0 <= n -> zlen (zrep n x) = n.
Proof. unfold zlen, zrep. rewrite length_replicate. lia. Qed.

Lemma zlen_ztake n l : 0 <= n <= zlen l -> zlen (ztake n l) = n.
Proof. unfold zlen, ztake. rewrite length_take. lia. Qed.

Lemma zlen_zdrop n l : 0 <= n <= zlen l -> zlen (zdrop n l) = zlen l - n.
Proof. unfold zlen, zdrop. rewrite length_drop. lia. Qed.

Lemma zlen_nil_inv l : zlen l = 0 -> l = [].
Proof. destruct l; [done|]. rewrite zlen_cons. pose proof (zlen_nonneg l). lia. Qed.

Lemma ztake_0 l : ztake 0 l = [].
Proof. reflexivity. Qed.

Lemma zdrop_0 l : zdrop 0 l = l.
Proof. reflexivity. Qed.

Lemma ztake_zdrop n l : ztake n l ++ zdrop n l = l.
Proof. apply take_drop. Qed.

Lemma ztake_all n l : zlen l <= n -> ztake n l = l.
Proof. unfold zlen, ztake. intros. apply take_ge. lia. Qed.

Lemma ztake_app_exact n l k : zlen l = n -> ztake n (l ++ k) = l.
Proof. unfold zlen, ztake. intros. apply take_app_length'. lia. Qed.

Lemma zdrop_app_exact n l k : zlen l = n -> zdrop n (l ++ k) = k.
Proof. unfold zlen, zdrop. intros. apply drop_app_length'. lia. Qed.

Lemma ztake_app_le n l k : n <= zlen l -> ztake n (l ++ k) = ztake n l.
Proof. unfold zlen, ztake. intros. apply take_app_le. lia. Qed.

Lemma ztake_app_ge n l k :
  zlen l <= n -> ztake n (l ++ k) = l ++ ztake (n - zlen l) k.
Proof.
  unfold zlen, ztake. intros. rewrite take_app_ge by lia.
  by replace (Z.to_nat n - length l)%nat with (Z.to_nat (n - Z.of_nat (length l))) by lia.
Qed.

Lemma zdrop_app_le n l k : n <= zlen l -> zdrop n (l ++ k) = zdrop n l ++ k.
Proof. unfold zlen, zdrop. intros. apply drop_app_le. lia. Qed.

Lemma zdrop_app_ge n l k :
  zlen l <= n -> zdrop n (l ++ k) = zdrop (n - zlen l) k.
Proof.
  unfold zlen, zdrop. intros. rewrite drop_app_ge by lia.
  by replace (Z.to_nat n - length l)%nat with (Z.to_nat (n - Z.of_nat (length l))) by lia.
Qed.

Lemma zdrop_zdrop n m l : 0 <= n -> 0 <= m -> zdrop n (zdrop m l) = zdrop (m + n) l.
Proof.
  unfold zdrop. intros. rewrite drop_drop.
  by replace (Z.to_nat m + Z.to_nat n)%nat with (Z.to_nat (m + n)) by lia.
Qed.

Lemma ztake_ztake n m l : n <= m -> ztake n (ztake m l) = ztake n l.
Proof.
  unfold ztake. intros. rewrite take_take.
  by replace (Z.to_nat n `min` Z.to_nat m)%nat with (Z.to_nat n) by lia.
Qed.

Lemma zdrop_ztake n m l :
  0 <= n <= m -> zdrop n (ztake m l) = ztake (m - n) (zdrop n l).
Proof.
  unfold ztake, zdrop. intros. rewrite take_drop_commute. do 2 f_equal. lia.
Qed.

Lemma zget_cons_0 x l : zget (x :: l) 0 = Some x.
Proof. reflexivity. Qed.

Lemma zget_cons_S x l i : 0 < i -> zget (x :: l) i = zget l (i - 1).
Proof.
  intros. unfold zget. rewrite !(proj2 (Z.leb_le _ _)) by lia.
  replace (Z.to_nat i) with (S (Z.to_nat (i - 1))) by lia. done.
Qed.

Lemma zget_app_l l k i : i < zlen l -> zget (l ++ k) i = zget l i.
Proof.
  unfold zget, zlen. intros. destruct (Z.leb_spec 0 i); [|done].
  apply lookup_app_l. lia.
Qed.

Lemma zget_app_r l k i : zlen l <= i -> zget (l ++ k) i = zget k (i - zlen l).
Proof.
  unfold zget, zlen. intros. rewrite !(proj2 (Z.leb_le _ _)) by lia.
  rewrite lookup_app_r by lia. f_equal. lia.
Qed.

Lemma zget_ztake l n i : i < n -> zget (ztake n l) i = zget l i.
Proof.
  unfold zget, ztake. intros. destruct (Z.leb_spec 0 i); [|done].
  rewrite lookup_take. case_decide; [done|lia].
Qed.

Lemma zget_zdrop l n i : 0 <= n -> 0 <= i -> zget (zdrop n l) i = zget l (n + i).
Proof.
  unfold zget, zdrop. intros. rewrite !(proj2 (Z.leb_le _ _)) by lia.
  rewrite lookup_drop. f_equal. lia.
Qed.

Lemma zget_Some l i : 0 <= i < zlen l -> exists x, zget l i = Some x.
Proof.
  unfold zget, zlen. intros. rewrite (proj2 (Z.leb_le _ _)) by lia.
  apply lookup_lt_is_Some_2. lia.
Qed.

Lemma zget_lt l i x : zget l i = Some x -> 0 <= i < zlen l.
Proof.
  unfold zget, zlen. destruct (Z.leb_spec 0 i); [|done].
  intros ?%lookup_lt_Some. lia.
Qed.

Lemma zget_Forall (P : A -> Prop) l i x : Forall P l -> zget l i = Some x -> P x.
Proof.
  unfold zget. destruct (0 <=? i); [|done]. intros. by eapply Forall_lookup_1.
Qed.

Lemma ztake_cons n x l : 0 < n -> ztake n (x :: l) = x :: ztake (n - 1) l.
Proof.
  intros. unfold ztake. replace (Z.to_nat n) with (S (Z.to_nat (n - 1))) by lia. done.
Qed.

Lemma zdrop_cons n x l : 0 < n -> zdrop n (x :: l) = zdrop (n - 1) l.
Proof.
  intros. unfold zdrop. replace (Z.to_nat n) with (S (Z.to_nat (n - 1))) by lia. done.
Qed.

Lemma zdrop_cons_get l i x :
  zget l i = Some x -> zdrop i l = x :: zdrop (i + 1) l.
Proof.
  intros H. pose proof (zget_lt _ _ _ H). unfold zget, zdrop in *.
  rewrite (proj2 (Z.leb_le _ _)) in H by lia.
  rewrite (drop_S _ _ _ H). by replace (Z.to_nat (i + 1)) with (S (Z.to_nat i)) by lia.
Qed.

Lemma zwrite_mid l1 l2 l3 bs :
  zlen bs = zlen l2 ->
  zwrite (l1 ++ l2 ++ l3) (zlen l1) bs = Some (l1 ++ bs ++ l3).
Proof.
  intros H. unfold zwrite. rewrite !zlen_app.
  pose proof (zlen_nonneg l1). pose proof (zlen_nonneg l3). pose proof (zlen_nonneg l2).
  rewrite (proj2 (Z.leb_le _ _)) by lia. rewrite (proj2 (Z.leb_le _ _)) by lia.
  cbn [andb]. rewrite ztake_app_exact by done.
  rewrite zdrop_app_ge by lia. rewrite zdrop_app_exact by lia. done.
Qed.

Lemma zwrite_fits l i bs : 0 <= i -> i + zlen bs <= zlen l -> exists l', zwrite l i bs = Some l'.
Proof. intros. unfold zwrite. rewrite !(proj2 (Z.leb_le _ _)) by lia. by eexists. Qed.

Lemma zlen_zwrite l i bs l' : zwrite l i bs = Some l' -> zlen l' = zlen l.
Proof.
  unfold zwrite. destruct (Z.leb_spec 0 i); cbn [andb]; [|done].
  destruct (Z.leb_spec (i + zlen bs) (zlen l)); [|done]. intros [= <-].
  pose proof (zlen_nonneg bs).
  rewrite !zlen_app, zlen_ztake, zlen_zdrop by lia. lia.
Qed.

Lemma Forall_ztake (P : A -> Prop) n l : Forall P l -> Forall P (ztake n l).
Proof. apply Forall_take. Qed.

Lemma Forall_zdrop (P : A -> Prop) n l : Forall P l -> Forall P (zdrop n l).
Proof. apply Forall_drop. Qed.
End arrays.

(** Cut a list at [n]. *)
Lemma split_at {A} (l : list A) n : 0 <= n <= zlen l ->
  exists l1 l2, l = l1 ++ l2 /\ zlen l1 = n /\ length l1 = Z.to_nat n /\ ztake n l = l1 /\ zdrop n l = l2.
Proof.
  intros Hn. exists (ztake n l), (zdrop n l). rewrite ztake_zdrop.
  pose proof (zlen_ztake n l Hn) as Hl. split_and!; [done..|unfold zlen in Hl; lia|done|done].
Qed.

#[export] Hint Resolve zlen_nonneg Forall_ztake Forall_zdrop : csimp.
#[export] Hint Rewrite @zlen_app @zlen_cons @zlen_nil : csimp.

(** Lengths of explicit lists. *)
Ltac zlen_lia := unfold zlen; cbn [length]; lia.

(** Explicit lists of octets. *)
Ltac bytes_tac := repeat (constructor; [unfold is_byte; lia|]); constructor.

Ltac zlen_pos l :=
  lazymatch goal with
  | _ : 0 <= zlen l |- _ => fail
  | _ => pose proof (zlen_nonneg l)
  end.

Ltac zlen_solve :=
  autorewrite with csimp in *;
  repeat match goal with
  | |- context [zlen ?l] => zlen_pos l
  | _ : context [zlen ?l] |- _ => zlen_pos l
  end;
  lia.

(** ** Big-endian octet strings *)

Lemma length_be_bytes n v : length (be_bytes n v) = n.
Proof.
  revert v. induction n as [|n IH]; intros v; cbn [be_bytes]; [done|].
  rewrite length_app, IH. cbn. lia.
Qed.

Lemma zlen_be_bytes n v : zlen (be_bytes n v) = Z.of_nat n.
Proof. unfold zlen. by rewrite length_be_bytes. Qed.

Lemma is_byte_be_bytes n v : Forall is_byte (be_bytes n v).
Proof.
  revert v. induction n as [|n IH]; intros v; cbn [be_bytes]; [constructor|].
  apply Forall_app. split; [done|]. constructor; [|constructor].
  unfold is_byte. apply Z.mod_pos_bound. lia.
Qed.

Lemma fold_be_val l a :
  fold_left (fun acc b => acc * 256 + b) l a = a * 256 ^ zlen l + be_val l.
Proof.
  unfold be_val. revert a. induction l as [|x l IH]; intros a; cbn [fold_left].
  - unfold zlen. cbn. lia.
  - rewrite IH, (IH (0 * 256 + x)), zlen_cons.
    rewrite Z.pow_add_r, Z.pow_1_r by (pose proof (zlen_nonneg l); lia). ring.
Qed.

Lemma be_val_cons x l : be_val (x :: l) = x * 256 ^ zlen l + be_val l.
Proof. unfold be_val at 1. cbn [fold_left]. rewrite fold_be_val. f_equal. Qed.

Lemma be_val_app l k : be_val (l ++ k) = be_val l * 256 ^ zlen k + be_val k.
Proof. unfold be_val at 1. rewrite fold_left_app. apply fold_be_val. Qed.

Lemma be_val_snoc l x : be_val (l ++ [x]) = be_val l * 256 + x.
Proof. rewrite be_val_app. reflexivity. Qed.

Lemma pow256_pos n : 0 <= n -> 0 < 256 ^ n.
Proof. intros. apply Z.pow_pos_nonneg; lia. Qed.

Lemma be_val_bounds l : Forall is_byte l -> 0 <= be_val l < 256 ^ zlen l.
Proof.
  induction 1 as [|x l Hx Hl IH]; [by change (0 <= 0 < 1); lia|].
  rewrite be_val_cons, zlen_cons. pose proof (pow256_pos (zlen l) (zlen_nonneg l)).
  rewrite Z.pow_add_r, Z.pow_1_r by (pose proof (zlen_nonneg l); lia).
  unfold is_byte in Hx. nia.
Qed.

Lemma be_val_bytes n v : be_val (be_bytes n v) = v mod 256 ^ Z.of_nat n.
Proof.
  revert v. induction n as [|n IH]; intros v; cbn [be_bytes].
  - cbn. by rewrite Z.mod_1_r.
  - rewrite be_val_snoc, IH, Nat2Z.inj_succ, Z.pow_succ_r by lia.
    rewrite Z.rem_mul_r by (try apply Z.pow_nonzero; lia). lia.
Qed.

Lemma be_bytes_val l : Forall is_byte l -> be_bytes (length l) (be_val l) = l.
Proof.
  induction l as [|x l IH] using rev_ind; [done|].
  intros [Hl Hx]%Forall_app. inversion Hx as [|? ? Hb _]; subst.
  rewrite length_app, Nat.add_comm. cbn [length Nat.add be_bytes].
  rewrite be_val_snoc. unfold is_byte in Hb.
  rewrite Z.div_add_l, (Z.div_small x), Z.add_0_r by lia.
  rewrite Z.add_comm, Z_mod_plus_full, Z.mod_small by lia. by rewrite IH.
Qed.


Lemma be_bytes_cons n v :
  be_bytes (S n) v = (v / 256 ^ Z.of_nat n) mod 256 :: be_bytes n v.
Proof.
  revert v. induction n as [|n IH]; intros v.
  - cbn [be_bytes app]. by rewrite Z.div_1_r.
  - change (be_bytes (S (S n)) v) with (be_bytes (S n) (v / 256) ++ [v mod 256]).
    rewrite IH. cbn [app be_bytes]. f_equal.
    rewrite Z.div_div, <- Z.pow_succ_r by (try apply Z.pow_pos_nonneg; lia).
    by rewrite Nat2Z.inj_succ.
Qed.

Lemma be_bytes_app n m v :
  be_bytes (n + m) v = be_bytes n (v / 256 ^ Z.of_nat m) ++ be_bytes m v.
Proof.
  revert v. induction m as [|m IH]; intros v.
  - cbn [be_bytes]. rewrite Nat.add_0_r, app_nil_r. f_equal. symmetry. apply Z.div_1_r.
  - rewrite Nat.add_succ_r. cbn [be_bytes]. rewrite IH, <- app_assoc.
    rewrite Nat2Z.inj_succ, Z.pow_succ_r, Z.div_div by (try apply Z.pow_pos_nonneg; lia). done.
Qed.

Lemma be_bytes_mod n v : be_bytes n (v mod 256 ^ Z.of_nat n) = be_bytes n v.
Proof.
  rewrite <- be_val_bytes. rewrite <- (length_be_bytes n v) at 1.
  apply be_bytes_val, is_byte_be_bytes.
Qed.

(** ** Little-endian octet strings *)

Lemma length_le_bytes n v : length (le_bytes n v) = n.
Proof. revert v. induction n as [|n IH]; intros v; cbn; [done|]. by rewrite IH. Qed.

Lemma zlen_le_bytes n v : zlen (le_bytes n v) = Z.of_nat n.
Proof. unfold zlen. by rewrite length_le_bytes. Qed.

Lemma is_byte_le_bytes n v : Forall is_byte (le_bytes n v).
Proof.
  revert v. induction n as [|n IH]; intros v; cbn; constructor; [|done].
  unfold is_byte. apply Z.mod_pos_bound. lia.
Qed.

Lemma le_val_bounds l : Forall is_byte l -> 0 <= le_val l < 256 ^ zlen l.
Proof.
  induction 1 as [|x l Hx Hl IH]; [by change (0 <= 0 < 1); lia|].
  rewrite zlen_cons, Z.pow_add_r, Z.pow_1_r by (pose proof (zlen_nonneg l); lia).
  unfold is_byte in Hx. cbn. change (foldr _ 0 l) with (le_val l). nia.
Qed.

Lemma le_val_app l k : le_val (l ++ k) = le_val l + 256 ^ zlen l * le_val k.
Proof.
  induction l as [|x l IH]; [unfold zlen; cbn [length app]; rewrite Z.pow_0_r; cbn [le_val foldr]; lia|].
  cbn. change (foldr _ 0 ?l) with (le_val l). rewrite IH, zlen_cons.
  rewrite Z.pow_add_r, Z.pow_1_r by (pose proof (zlen_nonneg l); lia). ring.
Qed.

Lemma le_val_bytes n v : le_val (le_bytes n v) = v mod 256 ^ Z.of_nat n.
Proof.
  revert v. induction n as [|n IH]; intros v; cbn [le_bytes]; [cbn; by rewrite Z.mod_1_r|].
  cbn. change (foldr _ 0 ?l) with (le_val l). rewrite IH, Nat2Z.inj_succ, Z.pow_succ_r by lia.
  rewrite Z.rem_mul_r by (try apply Z.pow_nonzero; lia). lia.
Qed.

Lemma le_bytes_val l : Forall is_byte l -> le_bytes (length l) (le_val l) = l.
Proof.
  induction 1 as [|x l Hx Hl IH]; [done|]. cbn. change (foldr _ 0 l) with (le_val l). unfold is_byte in Hx.
  rewrite Z.mul_comm, Z_mod_plus_full, Z.mod_small, Z.div_add, Z.div_small by lia. by rewrite Z.add_0_l, IH.
Qed.

(** The next step has a known result. *)
Ltac vbind E := apply wp_bind; eapply wp_valid; [exact E|].

(** ** Octets written and read *)

Lemma zrep_add {A} n m (x : A) : 0 <= n -> 0 <= m -> zrep (n + m) x = zrep n x ++ zrep m x.
Proof. intros. unfold zrep. by rewrite Z2Nat.inj_add, replicate_add by done. Qed.

Lemma is_byte_zrep n b : is_byte b -> Forall is_byte (zrep n b).
Proof. apply Forall_replicate. Qed.

Lemma zwrite_take (l : list Z) i bs l' : zwrite l i bs = Some l' -> ztake (i + zlen bs) l' = ztake i l ++ bs.
Proof.
  unfold zwrite. destruct (Z.leb_spec 0 i), (Z.leb_spec (i + zlen bs) (zlen l)); cbn [andb]; try done. intros [= <-].
  pose proof (zlen_nonneg bs). rewrite app_assoc. apply ztake_app_exact. rewrite zlen_app, zlen_ztake by lia. lia.
Qed.

Lemma zwrite_bytes (l : list Z) i bs l' : zwrite l i bs = Some l' -> Forall is_byte l -> Forall is_byte bs -> Forall is_byte l'.
Proof.
  unfold zwrite. destruct (_ && _); [|done]. intros [= <-] Hl Hb. rewrite !Forall_app.
  split; [by apply Forall_ztake|]. split; [done|by apply Forall_zdrop].
Qed.

Lemma octets_at_all p n : n = zlen p -> octets_at p n = Some p.
Proof.
  intros ->. unfold octets_at. pose proof (zlen_nonneg p). rewrite !(proj2 (Z.leb_le _ _)) by lia. cbn [andb]. by rewrite ztake_all by lia.
Qed.

Lemma octets_at_le p n : 0 <= n <= zlen p -> octets_at p n = Some (ztake n p).
Proof. intros. unfold octets_at. by rewrite !(proj2 (Z.leb_le _ _)) by lia. Qed.

Lemma zwrite_ok {A} (l : list A) i bs : 0 <= i -> i + zlen bs <= zlen l -> zwrite l i bs = Some (ztake i l ++ bs ++ zdrop (i + zlen bs) l).
Proof. intros. unfold zwrite. by rewrite !(proj2 (Z.leb_le _ _)) by lia. Qed.

(** ** Bits *)

Lemma land_shiftl_low k x b : 0 <= k -> 0 <= b < 2 ^ k -> Z.land (Z.shiftl x k) b = 0.
Proof.
  intros Hk Hb. apply Z.bits_inj'. intros i Hi.
  rewrite Z.land_spec, Z.bits_0, Z.shiftl_spec by lia.
  destruct (Z.ltb_spec i k).
  - rewrite Z.testbit_neg_r by lia. done.
  - rewrite <- (Z.mod_small b (2 ^ k)), Z.mod_pow2_bits_high by lia. apply andb_false_r.
Qed.

(** Shifting in [k] low bits. *)
Lemma lor_shiftl_low k x b :
  0 <= k -> 0 <= b < 2 ^ k -> Z.lor (Z.shiftl x k) b = x * 2 ^ k + b.
Proof.
  intros Hk Hb. pose proof (Z.add_lor_land (Z.shiftl x k) b) as H.
  rewrite land_shiftl_low, Z.shiftl_mul_pow2 in * by lia. lia.
Qed.

(** Masks of the form [2^k - 1]. *)
Lemma land_ones_mod x k : 0 <= k -> Z.land x (2 ^ k - 1) = x mod 2 ^ k.
Proof. intros. rewrite <- Z.land_ones by lia. by rewrite Z.ones_equiv. Qed.

(** A single-bit test. *)
Lemma land_pow2 x k :
  0 <= k -> Z.land x (2 ^ k) = if Z.testbit x k then 2 ^ k else 0.
Proof.
  intros Hk. apply Z.bits_inj'. intros i Hi. rewrite Z.land_spec, Z.pow2_bits_eqb by lia.
  destruct (Z.eqb_spec k i) as [->|Hne].
  - destruct (Z.testbit x i); [by rewrite Z.pow2_bits_true by lia|by rewrite Z.bits_0].
  - rewrite andb_false_r. destruct (Z.testbit x k); [|by rewrite Z.bits_0].
    rewrite Z.pow2_bits_false; done.
Qed.

(** The top bit of an [k+1]-bit integer. *)
Lemma testbit_top x k : 0 <= k -> 0 <= x < 2 ^ (k + 1) -> Z.testbit x k = (2 ^ k <=? x).
Proof.
  intros Hk Hx. rewrite Z.pow_add_r, Z.pow_1_r in Hx by lia.
  pose proof (Z.pow_pos_nonneg 2 k).
  destruct (Z.leb_spec (2 ^ k) x).
  - apply Z.testbit_true; [lia|]. replace (x / 2 ^ k) with 1; [done|].
    apply Z.div_unique with (x - 2 ^ k); lia.
  - apply Z.testbit_false; [lia|]. rewrite Z.div_small by lia. done.
Qed.

Lemma mod_lxor a b k : 0 <= k -> Z.lxor a b mod 2 ^ k = Z.lxor (a mod 2 ^ k) (b mod 2 ^ k).
Proof.
  intros Hk. apply Z.bits_inj'. intros i Hi. rewrite Z.lxor_spec. destruct (Z.ltb_spec i k).
  - by rewrite !Z.mod_pow2_bits_low, Z.lxor_spec by lia.
  - by rewrite !Z.mod_pow2_bits_high by lia.
Qed.

Lemma lxor_byte a b : is_byte a -> is_byte b -> is_byte (Z.lxor a b).
Proof.
  unfold is_byte. intros Ha Hb. rewrite <- (Z.mod_small a (2 ^ 8)), <- (Z.mod_small b (2 ^ 8)), <- mod_lxor by (cbn; lia).
  apply Z.mod_pos_bound. lia.
Qed.

(** A property of octets that computes holds when it holds on all 256. *)
Lemma byte_forall (P : Z -> bool) :
  forallb P (map Z.of_nat (seq 0 256)) = true -> forall b, is_byte b -> P b = true.
Proof.
  intros H b Hb. rewrite forallb_forall in H. apply H.
  unfold is_byte in Hb. rewrite <- (Z2Nat.id b) by lia.
  apply in_map, in_seq. lia.
Qed.

Lemma land_byte_0x80 b : is_byte b -> (Z.land b 0x80 =? 0) = (b <? 128).
Proof.
  intros Hb. apply Bool.eqb_prop. revert b Hb.
  apply (byte_forall (fun b => Bool.eqb (Z.land b 0x80 =? 0) (b <? 128))).
  by vm_compute.
Qed.

Lemma land_byte_0x7f b : is_byte b -> Z.land b 0x7f = if b <? 128 then b else b - 128.
Proof.
  intros Hb. apply Z.eqb_eq. revert b Hb.
  apply (byte_forall (fun b => Z.land b 0x7f =? (if b <? 128 then b else b - 128))).
  by vm_compute.
Qed.
