(* ===== verification/Cbs.v ===== *)
(** * CBS: the byte string parser of libcrypto/bytestring/bs_cbs.c

    A [CBS] is a window of [cbs_len] octets starting at [cbs_data] in a
    buffer that the parser only reads; a C pointer into that buffer is the
    list of the octets from the pointer to the end of the buffer.  Every
    operation is a computation of the monad [M CBS]; reading outside the
    buffer is [UB].  The out parameters of a C function are the result of
    the computation, so they have a value only when it returns 1. *)

From S2P Require Import Prelude.
Open Scope Z_scope.

Record CBS : Type := mkCBS {
  cbs_data : list Z;
  cbs_initial_len : Z;
  cbs_len : Z;
}.

Definition CBS_init (data : list Z) (len : Z) : CBS :=
  {| cbs_data := data; cbs_initial_len := len; cbs_len := len |}.

Definition CBS_data (cbs : CBS) : list Z := cbs_data cbs.
Definition CBS_len (cbs : CBS) : Z := cbs_len cbs.

Definition CBS_dup (cbs : CBS) : CBS :=
  let out := CBS_init (CBS_data cbs) (CBS_len cbs) in
  {| cbs_data := cbs_data out;
     cbs_initial_len := cbs_initial_len cbs;
     cbs_len := cbs_len out |}.

Definition cbs_advance (n : Z) (cbs : CBS) : CBS :=
  {| cbs_data := zdrop n (cbs_data cbs);
     cbs_initial_len := cbs_initial_len cbs;
     cbs_len := cbs_len cbs - n |}.

Definition cbs_get (n : Z) : M CBS (list Z) :=
  cbs ← gets id;
  check (n <=? cbs_len cbs);;
  must (n <=? zlen (cbs_data cbs));;
  modify (cbs_advance n);;
  mret (cbs_data cbs).

Definition cbs_peek (n : Z) : M CBS (list Z) :=
  cbs ← gets id;
  check (n <=? cbs_len cbs);;
  mret (cbs_data cbs).

Definition CBS_offset (cbs : CBS) : Z := u64 (cbs_initial_len cbs - cbs_len cbs).

Definition CBS_skip (len : Z) : M CBS unit :=
  _ ← cbs_get len;
  mret tt.

(** [data[i]] for [i < n]: the octets a C loop or library call reads. *)
Definition read_bytes {S} (data : list Z) (n : Z) : M S (list Z) :=
  must (n <=? zlen data);;
  mret (ztake n data).

Definition CBS_contains_zero_byte (cbs : CBS) : M CBS bool :=
  bs ← read_bytes (cbs_data cbs) (cbs_len cbs);
  mret (bool_decide (0 ∈ bs)).

Section allocation.
(** Whether [malloc(n)] and [strndup] get their memory. *)
Context (malloc_ok : Z -> bool).

(** The stored buffer; [None] is the NULL pointer. *)
Definition CBS_stow : M CBS (option (list Z) * Z) :=
  cbs ← gets id;
  if cbs_len cbs =? 0 then mret (None, 0)
  else
    check (malloc_ok (cbs_len cbs));;
    bs ← read_bytes (cbs_data cbs) (cbs_len cbs);
    mret (Some bs, cbs_len cbs).

(** The string stored by [strndup]: its octets and the final NUL. *)
Definition CBS_strdup : M CBS (list Z) :=
  cbs ← gets id;
  z ← CBS_contains_zero_byte cbs;
  check (negb z);;
  check (malloc_ok (u64 (cbs_len cbs + 1)));;
  bs ← read_bytes (cbs_data cbs) (cbs_len cbs);
  mret (bs ++ [0]).
End allocation.

(** [dst] after the call, and the number of octets copied. *)
Definition CBS_write_bytes (dst : list Z) (dst_len : Z) : M CBS (list Z * Z) :=
  cbs ← gets id;
  check (cbs_len cbs <=? dst_len);;
  bs ← read_bytes (cbs_data cbs) (cbs_len cbs);
  dst' ← valid (zwrite dst 0 bs);
  mret (dst', cbs_len cbs).

(** libc/string/timingsafe_memcmp.c, on the octets [p1] and [p2]. *)
Fixpoint timingsafe_memcmp (p1 p2 : list Z) (res done : Z) : Z :=
  match p1, p2 with
  | a :: p1', b :: p2' =>
      let lt := Z.shiftr (a - b) 8 in
      let gt := Z.shiftr (b - a) 8 in
      let cmp := lt - gt in
      let res := Z.lor res (Z.land cmp (Z.lnot done)) in
      let done := Z.lor done (Z.lor lt gt) in
      timingsafe_memcmp p1' p2' res done
  | _, _ => res
  end.

Definition CBS_mem_equal (data : list Z) (len : Z) : M CBS bool :=
  cbs ← gets id;
  if negb (len =? cbs_len cbs) then mret false
  else
    p1 ← read_bytes (cbs_data cbs) len;
    p2 ← read_bytes data len;
    mret (timingsafe_memcmp p1 p2 0 0 =? 0).

(** [for (i = 0; i < len; i++) { result <<= 8; result |= data[i]; }] *)
Fixpoint cbs_u_loop {S} (data : list Z) (i : Z) (n : nat) (result : Z) : M S Z :=
  match n with
  | O => mret result
  | S n' =>
      b ← valid (zget data i);
      cbs_u_loop data (i + 1) n' (Z.lor (u32 (Z.shiftl result 8)) b)
  end.

Definition cbs_get_u (len : Z) : M CBS Z :=
  check (negb ((len <? 1) || (4 <? len)));;
  data ← cbs_get len;
  cbs_u_loop data 0 (Z.to_nat len) 0.

Definition CBS_get_u8 : M CBS Z :=
  v ← cbs_get 1;
  valid (zget v 0).

Definition CBS_get_u16 : M CBS Z :=
  v ← cbs_get_u 2;
  mret (u16 v).

Definition CBS_get_u24 : M CBS Z := cbs_get_u 3.

Definition CBS_get_u32 : M CBS Z := cbs_get_u 4.

Definition CBS_get_u64 : M CBS Z :=
  cbs ← gets id;
  check (8 <=? cbs_len cbs);;
  a ← CBS_get_u32;
  b ← CBS_get_u32;
  mret (Z.lor (u64 (Z.shiftl a 32)) b).

Definition CBS_get_last_u8 : M CBS Z :=
  cbs ← gets id;
  check (negb (cbs_len cbs =? 0));;
  out ← valid (zget (cbs_data cbs) (cbs_len cbs - 1));
  modify (fun cbs => {| cbs_data := cbs_data cbs;
                        cbs_initial_len := cbs_initial_len cbs;
                        cbs_len := cbs_len cbs - 1 |});;
  mret out.

Definition CBS_get_bytes (len : Z) : M CBS CBS :=
  v ← cbs_get len;
  mret (CBS_init v len).

Definition cbs_get_length_prefixed (len_len : Z) : M CBS CBS :=
  len ← cbs_get_u len_len;
  CBS_get_bytes len.

Definition CBS_get_u8_length_prefixed : M CBS CBS := cbs_get_length_prefixed 1.
Definition CBS_get_u16_length_prefixed : M CBS CBS := cbs_get_length_prefixed 2.
Definition CBS_get_u24_length_prefixed : M CBS CBS := cbs_get_length_prefixed 3.

Definition cbs_peek_u (len : Z) : M CBS Z :=
  check (negb ((len <? 1) || (4 <? len)));;
  data ← cbs_peek len;
  cbs_u_loop data 0 (Z.to_nat len) 0.

Definition CBS_peek_u8 : M CBS Z :=
  v ← cbs_peek 1;
  valid (zget v 0).

Definition CBS_peek_u16 : M CBS Z :=
  v ← cbs_peek_u 2;
  mret (u16 v).

Definition CBS_peek_u24 : M CBS Z := cbs_peek_u 3.
Definition CBS_peek_u32 : M CBS Z := cbs_peek_u 4.

Definition CBS_peek_last_u8 : M CBS Z :=
  cbs ← gets id;
  check (negb (cbs_len cbs =? 0));;
  valid (zget (cbs_data cbs) (cbs_len cbs - 1)).

(** ** ASN.1 *)

Definition CBS_ASN1_CONSTRUCTED : Z := 0x20.
Definition CBS_ASN1_BOOLEAN : Z := 0x1.
Definition CBS_ASN1_INTEGER : Z := 0x2.
Definition CBS_ASN1_OCTETSTRING : Z := 0x4.
Definition CBS_ASN1_SEQUENCE : Z := Z.lor CBS_ASN1_CONSTRUCTED 0x10.
Definition CBS_ASN1_SET : Z := Z.lor CBS_ASN1_CONSTRUCTED 0x11.

(** The element with its header, its tag and the length of its header. *)
Definition cbs_get_any_asn1_element_internal (strict : bool) : M CBS (CBS * Z * Z) :=
  header ← gets id;
  '(tag, header) ← on_local CBS_get_u8 header;
  '(length_byte, header) ← on_local CBS_get_u8 header;
  (* CBS limitation: long form tags are not supported. *)
  check (negb (Z.land tag 0x1f =? 0x1f));;
  if Z.land length_byte 0x80 =? 0 then
    (* Short form length. *)
    let len := length_byte + 2 in
    out ← CBS_get_bytes len;
    mret (out, tag, 2)
  else
    (* Long form length. *)
    let num_bytes := Z.land length_byte 0x7f in
    check (negb (num_bytes =? 0x7f));;
    if num_bytes =? 0 then
      (* Indefinite form: not DER, and only for constructed elements. *)
      check (negb strict);;
      check (negb (Z.land tag CBS_ASN1_CONSTRUCTED =? 0));;
      out ← CBS_get_bytes 2;
      mret (out, tag, 2)
    else
      check (num_bytes <=? 4);;
      '(len32, _) ← on_local (cbs_get_u num_bytes) header;
      check (negb (len32 <? 128));;
      check (negb (Z.shiftr len32 ((num_bytes - 1) * 8) =? 0));;
      let len := len32 in
      check (negb (u64 (len + 2 + num_bytes) <? len));;
      let len := u64 (len + (2 + num_bytes)) in
      out ← CBS_get_bytes len;
      mret (out, tag, 2 + num_bytes).

Definition CBS_get_any_asn1_element : M CBS (CBS * Z * Z) :=
  cbs_get_any_asn1_element_internal true.

Definition cbs_get_asn1 (tag_value : Z) (skip_header : bool) : M CBS CBS :=
  '(out, tag, header_len) ← CBS_get_any_asn1_element;
  check (tag =? tag_value);;
  if skip_header then
    '(_, out) ← on_local (CBS_skip header_len) out;
    mret out
  else mret out.

Definition CBS_get_asn1 (tag_value : Z) : M CBS CBS := cbs_get_asn1 tag_value true.
Definition CBS_get_asn1_element (tag_value : Z) : M CBS CBS := cbs_get_asn1 tag_value false.

Definition CBS_peek_asn1_tag (tag_value : Z) : M CBS bool :=
  cbs ← gets id;
  if CBS_len cbs <? 1 then mret false
  else if Z.land tag_value 0x1f =? 0x1f then mret false
  else
    b ← valid (zget (CBS_data cbs) 0);
    mret (b =? tag_value).

(** The loop of [CBS_get_asn1_uint64], over [data[i..len-1]]. *)
Fixpoint asn1_uint64_loop {S} (data : list Z) (i : Z) (n : nat) (out : Z) : M S Z :=
  match n with
  | O => mret out
  | S n' =>
      check (Z.shiftr out 56 =? 0);;
      b ← valid (zget data i);
      asn1_uint64_loop data (i + 1) n' (Z.lor (u64 (Z.shiftl out 8)) b)
  end.

Definition CBS_get_asn1_uint64 : M CBS Z :=
  bytes ← CBS_get_asn1 CBS_ASN1_INTEGER;
  let data := CBS_data bytes in
  let len := CBS_len bytes in
  (* An INTEGER is encoded with at least one content octet. *)
  check (negb (len =? 0));;
  d0 ← valid (zget data 0);
  (* Negative number. *)
  check (Z.land d0 0x80 =? 0);;
  (* Smallest encoding rule: no excessive leading zeros. *)
  (if (d0 =? 0) && (1 <? len) then
     d1 ← valid (zget data 1);
     check (negb (Z.land d1 0x80 =? 0))
   else mret tt);;
  asn1_uint64_loop data 0 (Z.to_nat len) 0.

(** [None] when the element is absent ([*out_present = 0]). *)
Definition CBS_get_optional_asn1 (tag : Z) : M CBS (option CBS) :=
  present ← CBS_peek_asn1_tag tag;
  if present : bool then
    out ← CBS_get_asn1 tag;
    mret (Some out)
  else mret None.

Definition CBS_get_optional_asn1_octet_string (tag : Z) : M CBS (CBS * bool) :=
  child ← CBS_get_optional_asn1 tag;
  match child with
  | Some child =>
      '(out, child) ← on_local (CBS_get_asn1 CBS_ASN1_OCTETSTRING) child;
      check (CBS_len child =? 0);;
      mret (out, true)
  | None => mret (CBS_init [] 0, false)
  end.

Definition CBS_get_optional_asn1_uint64 (tag default_value : Z) : M CBS Z :=
  child ← CBS_get_optional_asn1 tag;
  match child with
  | Some child =>
      '(out, child) ← on_local CBS_get_asn1_uint64 child;
      check (CBS_len child =? 0);;
      mret out
  | None => mret default_value
  end.

Definition CBS_get_optional_asn1_bool (tag default_value : Z) : M CBS Z :=
  child ← CBS_get_optional_asn1 tag;
  match child with
  | Some child =>
      '(child2, child) ← on_local (CBS_get_asn1 CBS_ASN1_BOOLEAN) child;
      check (negb (negb (CBS_len child2 =? 1) || negb (CBS_len child =? 0)));;
      boolean ← valid (zget (CBS_data child2) 0);
      if boolean =? 0 then mret 0
      else if boolean =? 0xff then mret 1
      else fail
  | None => mret default_value
  end.

(** ** Specification vocabulary *)

(** The octets a CBS stands for. *)
Definition contents (c : CBS) : list Z := ztake (cbs_len c) (cbs_data c).

(** A window that lies inside its buffer of octets. *)
Definition CBS_ok (c : CBS) : Prop :=
  Forall is_byte (cbs_data c) /\ 0 <= cbs_len c <= cbs_initial_len c /\
  cbs_len c <= zlen (cbs_data c) /\ cbs_initial_len c < 2 ^ 64.

(** Number of length octets after the initial one in the DER encoding of
    the length [n] (X.690, 8.1.3 and 10.1), for [n < 2^32]. *)
Definition der_len_octets (n : Z) : nat :=
  if n <? 128 then 0%nat
  else if n <? 2 ^ 8 then 1%nat
  else if n <? 2 ^ 16 then 2%nat
  else if n <? 2 ^ 24 then 3%nat
  else 4%nat.

Definition der_len (n : Z) : list Z :=
  match der_len_octets n with
  | O => [n]
  | k => (128 + Z.of_nat k) :: be_bytes k n
  end.

Definition der_header (tag n : Z) : list Z := tag :: der_len n.

Definition der_element (tag : Z) (content : list Z) : list Z :=
  der_header tag (zlen content) ++ content.

(** A tag in one identifier octet. *)
Definition asn1_tag_ok (tag : Z) : Prop := is_byte tag /\ Z.land tag 0x1f <> 0x1f.

(** The minimal two's complement octets of a non-negative integer. *)
Definition int_octets (v : Z) : list Z :=
  let k := Z.to_nat (Z.log2 (2 * v + 1) / 8 + 1) in be_bytes k v.

(** The header of an element as a pure function of the octets: its tag,
    the length of the header and the length of the element. *)
Definition asn1_header (strict : bool) (l : list Z) : option (Z * Z * Z) :=
  match l with
  | tag :: lb :: rest =>
      if Z.land tag 0x1f =? 0x1f then None
      else if lb <? 128 then Some (tag, 2, lb + 2)
      else
        let nb := lb - 128 in
        if nb =? 127 then None
        else if nb =? 0 then
          if strict || (Z.land tag CBS_ASN1_CONSTRUCTED =? 0) then None
          else Some (tag, 2, 2)
        else if (4 <? nb) || (zlen rest <? nb) then None
        else
          let n := be_val (ztake nb rest) in
          if (n <? 128) || (n <? 256 ^ (nb - 1)) then None
          else Some (tag, 2 + nb, n + (2 + nb))
  | _ => None
  end.

(** ** Lemmas *)

Lemma zlen_contents c : CBS_ok c -> zlen (contents c) = cbs_len c.
Proof. intros (_ & ? & ? & _). apply zlen_ztake. lia. Qed.

Lemma contents_byte c : CBS_ok c -> Forall is_byte (contents c).
Proof. intros (? & _). by apply Forall_ztake. Qed.

Lemma CBS_init_ok data n :
  Forall is_byte data -> 0 <= n <= zlen data -> n < 2 ^ 64 -> CBS_ok (CBS_init data n).
Proof. intros. repeat split; cbn; auto; lia. Qed.

Lemma cbs_advance_ok n c : CBS_ok c -> 0 <= n <= cbs_len c -> CBS_ok (cbs_advance n c).
Proof.
  intros (? & ? & ? & ?) ?. repeat split; cbn; auto with csimp; try lia.
  rewrite zlen_zdrop by lia. lia.
Qed.

Lemma contents_advance n c :
  0 <= n <= cbs_len c -> contents (cbs_advance n c) = zdrop n (contents c).
Proof. intros. unfold contents. cbn. by rewrite zdrop_ztake. Qed.

Lemma contents_init_data c n :
  n <= cbs_len c -> contents (CBS_init (cbs_data c) n) = ztake n (contents c).
Proof. intros. unfold contents. cbn. by rewrite ztake_ztake. Qed.

Lemma advance_advance n m c :
  0 <= n -> 0 <= m -> cbs_advance m (cbs_advance n c) = cbs_advance (n + m) c.
Proof.
  intros. unfold cbs_advance. cbn. rewrite zdrop_zdrop by lia. f_equal. lia.
Qed.

Lemma advance_0 c : cbs_advance 0 c = c.
Proof. destruct c. unfold cbs_advance. cbn. rewrite zdrop_0. f_equal. lia. Qed.

#[export] Hint Resolve cbs_advance_ok contents_byte : csimp.

Lemma cbs_get_spec n c :
  CBS_ok c -> 0 <= n ->
  cbs_get n c = if n <=? cbs_len c then Ret (cbs_data c) (cbs_advance n c) else Fail c.
Proof.
  intros (_ & ? & ? & _) ?. unfold cbs_get. mstep. cbn [id].
  destruct (Z.leb_spec n (cbs_len c)); [|done].
  by rewrite (proj2 (Z.leb_le _ _)) by lia.
Qed.

Lemma cbs_u_loop_spec {S} data i n r (s : S) :
  0 <= i -> i + Z.of_nat n <= zlen data -> Forall is_byte data ->
  (n <= 4)%nat -> 0 <= r < 256 ^ (4 - Z.of_nat n) ->
  cbs_u_loop data i n r s =
  Ret (r * 256 ^ Z.of_nat n + be_val (ztake (Z.of_nat n) (zdrop i data))) s.
Proof.
  revert i r. induction n as [|n IH]; intros i r Hi Hlen Hb Hn Hr; cbn [cbs_u_loop].
  - mstep. f_equal. rewrite ztake_0. cbn. lia.
  - destruct (zget_Some data i) as [b Hg]; [lia|].
    pose proof (zget_Forall _ _ _ _ Hb Hg) as Hbyte.
    mstep. rewrite Hg. cbv beta iota.
    assert (Hr' : u32 (Z.shiftl r 8) = Z.shiftl r 8).
    { unfold u32. rewrite Z.shiftl_mul_pow2 by lia. apply Z.mod_small.
      assert (256 ^ (4 - Z.of_nat (Datatypes.S n)) <= 256 ^ 3)
        by (apply Z.pow_le_mono_r; lia). lia. }
    rewrite Hr', lor_shiftl_low by (unfold is_byte in Hbyte; lia).
    assert (Hp : 256 ^ (4 - Z.of_nat n) = 256 * 256 ^ (4 - Z.of_nat (Datatypes.S n))).
    { rewrite <- Z.pow_succ_r by lia. f_equal. lia. }
    rewrite IH by (unfold is_byte in Hbyte; try lia; auto).
    f_equal. rewrite (zdrop_cons_get _ _ _ Hg).
    replace (Z.of_nat (Datatypes.S n)) with (1 + Z.of_nat n) by lia.
    rewrite ztake_cons by lia.
    replace (1 + Z.of_nat n - 1) with (Z.of_nat n) by lia. rewrite be_val_cons.
    rewrite zlen_ztake by (rewrite zlen_zdrop by lia; lia).
    rewrite Z.pow_add_r, Z.pow_1_r by lia. change (2 ^ 8) with 256. ring.
Qed.

(** [cbs_get_u] reads a big-endian integer. *)
Lemma cbs_get_u_spec n c :
  CBS_ok c -> 1 <= n <= 4 ->
  cbs_get_u n c =
  if n <=? cbs_len c
  then Ret (be_val (ztake n (contents c))) (cbs_advance n c) else Fail c.
Proof.
  intros Hc Hn. unfold cbs_get_u. mstep.
  rewrite (proj2 (Z.ltb_ge _ _)), (proj2 (Z.ltb_ge _ _)) by lia. cbn [orb negb].
  rewrite cbs_get_spec by (auto; lia).
  destruct (Z.leb_spec n (cbs_len c)); [|done].
  destruct Hc as (? & ? & ? & ?).
  rewrite cbs_u_loop_spec; try lia; auto.
  f_equal. rewrite zdrop_0, Z2Nat.id by lia.
  unfold contents. rewrite ztake_ztake by lia. lia.
Qed.

Lemma CBS_get_u8_spec c :
  CBS_ok c ->
  CBS_get_u8 c =
  match contents c with
  | [] => Fail c
  | b :: _ => Ret b (cbs_advance 1 c)
  end.
Proof.
  intros Hc. unfold CBS_get_u8. mstep. rewrite cbs_get_spec by (auto; lia).
  pose proof (zlen_contents c Hc) as Hl. unfold contents in *.
  destruct (Z.leb_spec 1 (cbs_len c)).
  - destruct (zget_Some (cbs_data c) 0) as [b Hg]; [destruct Hc as (?&?&?&?); lia|].
    rewrite Hg. rewrite <- (zdrop_0 (cbs_data c)), (zdrop_cons_get _ _ _ Hg).
    by rewrite ztake_cons by lia.
  - rewrite (zlen_nil_inv (ztake (cbs_len c) (cbs_data c))); [done|].
    destruct Hc as (?&?&?&?). lia.
Qed.

Lemma CBS_get_bytes_spec n c :
  CBS_ok c -> 0 <= n ->
  CBS_get_bytes n c =
  if n <=? cbs_len c
  then Ret (CBS_init (cbs_data c) n) (cbs_advance n c) else Fail c.
Proof.
  intros. unfold CBS_get_bytes. mstep. rewrite cbs_get_spec by auto.
  by destruct (n <=? cbs_len c).
Qed.

(** Spec in terms of a prefix of the contents. *)
Lemma cbs_get_u_prefix bs rest c :
  CBS_ok c -> contents c = bs ++ rest -> 1 <= zlen bs <= 4 ->
  cbs_get_u (zlen bs) c = Ret (be_val bs) (cbs_advance (zlen bs) c).
Proof.
  intros Hc Hcon Hn. rewrite cbs_get_u_spec by auto.
  pose proof (zlen_contents c Hc). rewrite Hcon in *.
  pose proof (zlen_nonneg rest). rewrite zlen_app in *.
  rewrite (proj2 (Z.leb_le _ _)) by lia. by rewrite ztake_app_exact.
Qed.

Lemma CBS_get_bytes_prefix bs rest c :
  CBS_ok c -> contents c = bs ++ rest ->
  CBS_get_bytes (zlen bs) c = Ret (CBS_init (cbs_data c) (zlen bs)) (cbs_advance (zlen bs) c).
Proof.
  intros Hc Hcon. rewrite CBS_get_bytes_spec by auto with csimp.
  pose proof (zlen_contents c Hc). rewrite Hcon in *.
  pose proof (zlen_nonneg rest). rewrite zlen_app in *.
  by rewrite (proj2 (Z.leb_le _ _)) by lia.
Qed.

Lemma on_local_eq {S T A} (m : M T A) (t : T) (s : S) :
  on_local m t s =
  match m t with Ret a t' => Ret (a, t') s | Fail _ => Fail s | UB => UB end.
Proof. reflexivity. Qed.

(** The element parser takes the header the pure function describes and
    fails without moving otherwise. *)
Lemma element_internal_spec strict c :
  CBS_ok c ->
  cbs_get_any_asn1_element_internal strict c =
  match asn1_header strict (contents c) with
  | Some (tag, hl, n) =>
      if n <=? cbs_len c
      then Ret (CBS_init (cbs_data c) n, tag, hl) (cbs_advance n c)
      else Fail c
  | None => Fail c
  end.
Proof.
  intros Hc. unfold cbs_get_any_asn1_element_internal. mstep. cbn [id].
  rewrite CBS_get_u8_spec by done.
  pose proof (zlen_contents c Hc) as Hlen. pose proof (contents_byte c Hc) as Hby.
  destruct (contents c) as [|tag l] eqn:Hcon; [done|]. cbv beta iota.
  assert (Hl1 : 1 <= cbs_len c) by (rewrite zlen_cons in Hlen; zlen_solve).
  assert (Hc1 : CBS_ok (cbs_advance 1 c)) by (apply cbs_advance_ok; auto; lia).
  rewrite CBS_get_u8_spec by done.
  rewrite contents_advance, Hcon, zdrop_cons, zdrop_0 by lia.
  destruct l as [|lb rest]; [done|]. cbv beta iota.
  rewrite advance_advance by lia. change (1 + 1) with 2.
  inversion_clear Hby as [|? ? Htag Hby']. inversion_clear Hby' as [|? ? Hlb Hrest].
  assert (Hl2 : cbs_len c = 2 + zlen rest) by (rewrite !zlen_cons in Hlen; lia).
  cbn [asn1_header]. destruct (Z.eqb_spec (Z.land tag 31) 31); [done|]. cbn [negb].
  cbv beta iota. rewrite land_byte_0x80, land_byte_0x7f by done.
  destruct (Z.ltb_spec lb 128).
  { rewrite CBS_get_bytes_spec by (auto; unfold is_byte in Hlb; lia). by zcase. }
  cbv beta iota zeta. destruct (Z.eqb_spec (lb - 128) 127); [done|]. cbn [negb].
  destruct (Z.eqb_spec (lb - 128) 0).
  { cbv beta iota. destruct strict; [done|]. cbn [orb negb].
    destruct (Z.eqb_spec (Z.land tag CBS_ASN1_CONSTRUCTED) 0); [done|]. cbn [negb].
    rewrite CBS_get_bytes_spec by (auto; lia). by zcase. }
  cbv beta iota. rewrite Z.leb_antisym. destruct (Z.ltb_spec 4 (lb - 128)); [done|].
  cbn [negb orb]. cbv beta iota.
  assert (Hc2 : CBS_ok (cbs_advance 2 c)) by (apply cbs_advance_ok; auto; zlen_solve).
  assert (Hcon2 : contents (cbs_advance 2 c) = rest).
  { rewrite contents_advance, Hcon by zlen_solve. by rewrite !zdrop_cons by lia. }
  rewrite cbs_get_u_spec by (auto; lia). rewrite Hcon2. cbn [cbs_advance cbs_len].
  replace (cbs_len c - 2) with (zlen rest) by lia.
  rewrite Z.leb_antisym. destruct (Z.ltb_spec (zlen rest) (lb - 128)); [done|].
  cbn [negb]. cbv beta iota.
  set (v := be_val (ztake (lb - 128) rest)).
  assert (Hn : 0 <= v < 256 ^ (lb - 128)).
  { rewrite <- (zlen_ztake (lb - 128) rest) by lia. apply be_val_bounds. auto with csimp. }
  assert (256 ^ (lb - 128) <= 256 ^ 4) by (apply Z.pow_le_mono_r; lia).
  destruct (Z.ltb_spec v 128); [done|]. cbn [negb orb]. cbv beta iota.
  rewrite Z.shiftr_div_pow2 by lia.
  replace (2 ^ ((lb - 128 - 1) * 8)) with (256 ^ (lb - 128 - 1))
    by (rewrite Z.mul_comm, Z.pow_mul_r by lia; done).
  pose proof (pow256_pos (lb - 128 - 1)) as Hpos.
  destruct (Z.ltb_spec v (256 ^ (lb - 128 - 1))).
  { rewrite Z.div_small by lia. done. }
  destruct (Z.eqb_spec (v / 256 ^ (lb - 128 - 1)) 0) as [E|_].
  { apply Z.div_small_iff in E; lia. }
  cbn [negb]. cbv beta iota. unfold u64. rewrite !Z.mod_small by lia.
  destruct (Z.ltb_spec (v + 2 + (lb - 128)) v); [lia|]. cbn [negb]. cbv beta iota.
  rewrite CBS_get_bytes_spec by (auto; lia). by zcase.
Qed.

Lemma der_len_octets_unique n k :
  (1 <= k <= 4)%nat -> 128 <= n -> 256 ^ (Z.of_nat k - 1) <= n < 256 ^ Z.of_nat k ->
  der_len_octets n = k.
Proof.
  intros Hk Hn Hb. unfold der_len_octets.
  rewrite (proj2 (Z.ltb_ge n 128)) by lia.
  assert (k = 1 \/ k = 2 \/ k = 3 \/ k = 4)%nat as [-> | [-> | [-> | ->]]] by lia;
    cbn in Hb; repeat (zcase; try lia).
Qed.

Lemma der_len_octets_spec n :
  0 <= n < 2 ^ 32 ->
  (der_len_octets n = 0%nat /\ n < 128) \/
  (exists k, der_len_octets n = S k /\ (k < 4)%nat /\ 128 <= n /\
     256 ^ Z.of_nat k <= n < 256 ^ (Z.of_nat k + 1)).
Proof.
  intros Hn. unfold der_len_octets.
  repeat zcase; (left; split; [done|lia]) || right;
    [exists 0%nat | exists 1%nat | exists 2%nat | exists 3%nat];
    (split; [done|]); (split; [lia|]); (split; [lia|]); cbn; lia.
Qed.

Lemma zlen_der_len n : zlen (der_len n) = 1 + Z.of_nat (der_len_octets n).
Proof.
  unfold der_len. destruct (der_len_octets n) eqn:E; [done|].
  rewrite zlen_cons, zlen_be_bytes. done.
Qed.

Lemma is_byte_der_len n : 0 <= n < 2 ^ 32 -> Forall is_byte (der_len n).
Proof.
  intros Hn. unfold der_len.
  destruct (der_len_octets_spec n Hn) as [(-> & ?)|(k & -> & ? & _)].
  - constructor; [unfold is_byte; lia|constructor].
  - constructor; [unfold is_byte; lia|apply is_byte_be_bytes].
Qed.

Lemma zlen_der_element tag content :
  zlen (der_element tag content) = zlen (der_header tag (zlen content)) + zlen content.
Proof. unfold der_element. by rewrite zlen_app. Qed.

Lemma zlen_der_header tag n : zlen (der_header tag n) = 2 + Z.of_nat (der_len_octets n).
Proof. unfold der_header. rewrite zlen_cons, zlen_der_len. lia. Qed.

(** A DER element is recognised, strictly or not. *)
Lemma asn1_header_complete strict tag content rest :
  asn1_tag_ok tag -> zlen content < 2 ^ 32 ->
  asn1_header strict (der_element tag content ++ rest) =
  Some (tag, zlen (der_header tag (zlen content)), zlen (der_element tag content)).
Proof.
  intros [Htag Hlow] Hc. rewrite zlen_der_element, zlen_der_header.
  pose proof (zlen_nonneg content) as Hnn.
  unfold der_element, der_header, der_len.
  destruct (der_len_octets_spec (zlen content)) as [(-> & ?)|(k & Hk & ? & ? & Hb)]; [lia|..].
  - cbn [app asn1_header]. rewrite (proj2 (Z.eqb_neq _ _) Hlow).
    rewrite (proj2 (Z.ltb_lt _ _)) by lia. split_lia.
  - rewrite Hk. cbn [app asn1_header]. rewrite (proj2 (Z.eqb_neq _ _) Hlow).
    replace (128 + Z.of_nat (S k) - 128) with (Z.of_nat (S k)) by lia.
    do 3 (zcase; [lia|]).
    rewrite (proj2 (Z.ltb_ge _ _)) by lia. cbn [orb].
    rewrite <- app_assoc, zlen_app, zlen_be_bytes.
    pose proof (zlen_nonneg (content ++ rest)).
    rewrite (proj2 (Z.ltb_ge _ _)) by lia.
    rewrite ztake_app_exact by apply zlen_be_bytes. rewrite be_val_bytes.
    replace (Z.of_nat (S k)) with (Z.of_nat k + 1) by lia.
    rewrite Z.mod_small by lia. rewrite (proj2 (Z.ltb_ge _ _)) by lia.
    replace (Z.of_nat k + 1 - 1) with (Z.of_nat k) by lia.
    rewrite (proj2 (Z.ltb_ge _ _)) by lia. cbn [orb]. split_lia.
Qed.

(** What the strict parser accepts is a DER element. *)
Lemma asn1_header_sound l tag hl n :
  Forall is_byte l -> asn1_header true l = Some (tag, hl, n) -> n <= zlen l ->
  exists content rest,
    l = der_element tag content ++ rest /\ asn1_tag_ok tag /\ zlen content < 2 ^ 32 /\
    hl = zlen (der_header tag (zlen content)) /\ n = zlen (der_element tag content).
Proof.
  intros Hl H Hn. destruct l as [|t [|lb l]]; try done. cbn [asn1_header] in H.
  inversion_clear Hl as [|? ? Ht Hl']. inversion_clear Hl' as [|? ? Hlb Hl].
  destruct (Z.eqb_spec (Z.land t 31) 31); [done|].
  rewrite !zlen_cons in Hn. unfold is_byte in Hlb, Ht.
  destruct (Z.ltb_spec lb 128) as [Hs|Hs].
  - injection H as <- <- <-.
    exists (ztake lb l), (zdrop lb l).
    rewrite zlen_der_element, zlen_der_header, zlen_ztake by lia.
    unfold der_element, der_header, der_len. rewrite zlen_ztake by lia.
    assert (der_len_octets lb = 0%nat) as ->.
    { unfold der_len_octets. by rewrite (proj2 (Z.ltb_lt _ _)). }
    cbn [app]. rewrite ztake_zdrop. repeat split; auto; lia.
  - destruct (Z.eqb_spec (lb - 128) 127); [done|].
    destruct (Z.eqb_spec (lb - 128) 0); [done|].
    destruct (Z.ltb_spec 4 (lb - 128)); [done|].
    destruct (Z.ltb_spec (zlen l) (lb - 128)); [done|]. cbn [orb] in H.
    set (nb := lb - 128) in *. set (v := be_val (ztake nb l)) in *.
    destruct (Z.ltb_spec v 128); [done|].
    destruct (Z.ltb_spec v (256 ^ (nb - 1))); [done|]. cbn [orb] in H.
    injection H as <- <- <-.
    assert (Hv : 0 <= v < 256 ^ nb).
    { rewrite <- (zlen_ztake nb l) by lia. apply be_val_bounds. auto with csimp. }
    assert (256 ^ nb <= 256 ^ 4) by (apply Z.pow_le_mono_r; lia).
    assert (Hk : der_len_octets v = Z.to_nat nb).
    { apply der_len_octets_unique; try lia. rewrite Z2Nat.id by lia. lia. }
    exists (ztake v (zdrop nb l)), (zdrop v (zdrop nb l)).
    assert (Hzl : zlen (ztake v (zdrop nb l)) = v).
    { apply zlen_ztake. rewrite zlen_zdrop by lia. lia. }
    rewrite zlen_der_element, zlen_der_header, Hzl, Hk.
    unfold der_element, der_header, der_len. rewrite Hzl, Hk.
    replace (Z.to_nat nb) with (S (Z.to_nat (nb - 1))) by lia.
    replace (S (Z.to_nat (nb - 1))) with (length (ztake nb l)) at 2.
    2: { pose proof (zlen_ztake nb l). unfold zlen in *. lia. }
    unfold v at 1. rewrite be_bytes_val by auto with csimp.
    split; [|repeat split; auto; lia].
    cbn [app]. rewrite <- app_assoc, ztake_zdrop, ztake_zdrop. f_equal. f_equal. lia.
Qed.

(** The DER element parser, completely. *)
Lemma any_asn1_element_Ret c out tag hl c' :
  CBS_ok c ->
  CBS_get_any_asn1_element c = Ret (out, tag, hl) c' <->
  exists content rest,
    contents c = der_element tag content ++ rest /\
    asn1_tag_ok tag /\ zlen content < 2 ^ 32 /\
    hl = zlen (der_header tag (zlen content)) /\
    out = CBS_init (cbs_data c) (zlen (der_element tag content)) /\
    c' = cbs_advance (zlen (der_element tag content)) c.
Proof.
  intros Hc. unfold CBS_get_any_asn1_element. rewrite element_internal_spec by done.
  pose proof (zlen_contents c Hc) as Hlen. split.
  - destruct (asn1_header true (contents c)) as [[[t h] n]|] eqn:E; [|done].
    destruct (Z.leb_spec n (cbs_len c)); [|done]. intros [= <- <- <- <-].
    destruct (asn1_header_sound _ _ _ _ (contents_byte c Hc) E) as (ct & rest & ? & ? & ? & ? & ->);
      [lia|]. eauto 10.
  - intros (ct & rest & Hcon & Ht & Hl & -> & -> & ->).
    rewrite Hcon, asn1_header_complete by done.
    rewrite Hcon, zlen_app in Hlen. pose proof (zlen_nonneg rest).
    by rewrite (proj2 (Z.leb_le _ _)) by lia.
Qed.

(** [CBS_get_asn1] takes an element with the wanted tag and drops its header. *)
Lemma CBS_get_asn1_spec tag c :
  CBS_ok c ->
  CBS_get_asn1 tag c =
  match asn1_header true (contents c) with
  | Some (t, hl, n) =>
      if n <=? cbs_len c then
        if t =? tag
        then Ret (cbs_advance hl (CBS_init (cbs_data c) n)) (cbs_advance n c)
        else Fail (cbs_advance n c)
      else Fail c
  | None => Fail c
  end.
Proof.
  intros Hc. unfold CBS_get_asn1, cbs_get_asn1, CBS_get_any_asn1_element. mstep.
  rewrite element_internal_spec by done.
  destruct (asn1_header true (contents c)) as [[[t hl] n]|] eqn:E; [|done].
  pose proof (zlen_contents c Hc) as Hlen.
  destruct (Z.leb_spec n (cbs_len c)); [|done]. cbv beta iota.
  destruct (Z.eqb_spec t tag); [|done]. cbv beta iota.
  destruct (asn1_header_sound _ _ _ _ (contents_byte c Hc) E) as
    (ct & rest & Hcon & _ & Hcl & -> & ->); [lia|].
  rewrite zlen_der_element, zlen_der_header in *.
  unfold CBS_skip. mstep. destruct Hc as (? & ? & ? & ?).
  pose proof (zlen_nonneg ct).
  rewrite cbs_get_spec; [|apply CBS_init_ok; auto; lia|lia]. cbn [CBS_init cbs_len].
  by rewrite (proj2 (Z.leb_le _ _)) by lia.
Qed.

Lemma CBS_get_asn1_Ret tag c content rest :
  CBS_ok c -> asn1_tag_ok tag -> zlen content < 2 ^ 32 ->
  contents c = der_element tag content ++ rest ->
  exists out, CBS_get_asn1 tag c = Ret out (cbs_advance (zlen (der_element tag content)) c) /\
    contents out = content /\ CBS_ok out.
Proof.
  intros Hc Ht Hl Hcon. rewrite CBS_get_asn1_spec by done.
  pose proof (zlen_contents c Hc) as Hlen. pose proof (zlen_nonneg rest).
  rewrite Hcon, asn1_header_complete by done. rewrite Hcon, zlen_app in Hlen.
  rewrite (proj2 (Z.leb_le _ _)), Z.eqb_refl by lia. eexists. split; [done|].
  pose proof (zlen_nonneg content). pose proof Hc as (? & ? & ? & ?).
  rewrite zlen_der_element in *.
  pose proof (zlen_nonneg (der_header tag (zlen content))).
  split.
  - rewrite contents_advance by (cbn; lia). rewrite contents_init_data by lia.
    rewrite Hcon, ztake_app_exact by apply zlen_der_element.
    unfold der_element. by rewrite zdrop_app_exact.
  - apply cbs_advance_ok; [apply CBS_init_ok; auto; lia|cbn; lia].
Qed.

Lemma CBS_get_asn1_inv tag c out c' :
  CBS_ok c -> CBS_get_asn1 tag c = Ret out c' ->
  asn1_tag_ok tag /\ zlen (contents out) < 2 ^ 32 /\ CBS_ok out /\
  contents c = der_element tag (contents out) ++ contents c' /\
  c' = cbs_advance (zlen (der_element tag (contents out))) c.
Proof.
  intros Hc. pose proof (CBS_get_asn1_spec tag c Hc) as Hs.
  pose proof (zlen_contents c Hc) as Hlen.
  destruct (asn1_header true (contents c)) as [[[t hl] n]|] eqn:E; [|congruence].
  destruct (Z.leb_spec n (cbs_len c)); [|congruence].
  destruct (Z.eqb_spec t tag) as [->|]; [|congruence].
  destruct (asn1_header_sound _ _ _ _ (contents_byte c Hc) E) as
    (ct & rest & Hcon & Ht & Hcl & -> & Hn); [lia|].
  destruct (CBS_get_asn1_Ret tag c ct rest Hc Ht Hcl Hcon) as (out' & Hr & Hco & Hok).
  rewrite Hr. intros [= -> <-]. rewrite Hco. repeat split; auto; try apply Ht; try apply Hok.
  rewrite contents_advance, Hcon, zdrop_app_exact; [done|done|].
  rewrite <- Hn. split; [|done]. subst n. apply zlen_nonneg.
Qed.

Lemma asn1_uint64_loop_spec {S} data i n r (s : S) :
  0 <= i -> i + Z.of_nat n <= zlen data -> Forall is_byte data -> 0 <= r < 2 ^ 64 ->
  let v := r * 256 ^ Z.of_nat n + be_val (ztake (Z.of_nat n) (zdrop i data)) in
  asn1_uint64_loop data i n r s = if v <? 2 ^ 64 then Ret v s else Fail s.
Proof.
  revert i r. induction n as [|n IH]; intros i r Hi Hlen Hb Hr; cbn [asn1_uint64_loop].
  - cbn zeta. rewrite ztake_0. change (be_val []) with 0. rewrite Z.mul_1_r, Z.add_0_r.
    by rewrite (proj2 (Z.ltb_lt _ _)) by lia.
  - destruct (zget_Some data i) as [b Hg]; [lia|].
    pose proof (zget_Forall _ _ _ _ Hb Hg) as Hbyte.
    cbn zeta. rewrite (zdrop_cons_get _ _ _ Hg), ztake_cons, be_val_cons by lia.
    replace (Z.of_nat (Datatypes.S n) - 1) with (Z.of_nat n) by lia.
    rewrite zlen_ztake by (rewrite zlen_zdrop by lia; lia).
    rewrite Nat2Z.inj_succ, Z.pow_succ_r by lia.
    pose proof (pow256_pos (Z.of_nat n)) as Hp.
    assert (Hbv : 0 <= be_val (ztake (Z.of_nat n) (zdrop (i + 1) data)))
      by (apply be_val_bounds; auto with csimp).
    mstep. rewrite Z.shiftr_div_pow2, Hg by lia. cbv beta iota.
    destruct (Z.eqb_spec (r / 2 ^ 56) 0) as [E|E]; cbv beta iota.
    + apply Z.div_small_iff in E; [|lia].
      assert (Hr' : u64 (Z.shiftl r 8) = Z.shiftl r 8).
      { unfold u64. rewrite Z.shiftl_mul_pow2 by lia. apply Z.mod_small. lia. }
      rewrite Hr', lor_shiftl_low by (unfold is_byte in Hbyte; lia).
      rewrite IH by (unfold is_byte in Hbyte; try lia; auto). cbn zeta.
      replace ((r * 2 ^ 8 + b) * 256 ^ Z.of_nat n) with
        (r * (256 * 256 ^ Z.of_nat n) + b * 256 ^ Z.of_nat n) by ring.
      by rewrite Z.add_assoc.
    + assert (2 ^ 56 <= r) by (destruct (Z.lt_ge_cases r (2 ^ 56)); [|done];
        exfalso; apply E, Z.div_small; lia).
      rewrite (proj2 (Z.ltb_ge _ _)); [done|]. unfold is_byte in Hbyte. nia.
Qed.

(** The octets of an INTEGER the parser accepts as an unsigned value. *)
Definition uint_octets_ok (l : list Z) : Prop :=
  Forall is_byte l /\
  match l with
  | [] => False
  | [a] => a < 128
  | a :: b :: _ => a < 128 /\ (a = 0 -> 128 <= b)
  end.

Lemma log2_octets w k :
  0 <= k -> 0 < w -> (0 < k -> 256 ^ k <= w) -> w < 256 ^ (k + 1) -> Z.log2 w / 8 = k.
Proof.
  intros Hk Hw Hlo Hhi. change 256 with (2 ^ 8) in *. rewrite <- !Z.pow_mul_r in * by lia.
  assert (Z.log2 w < 8 * (k + 1)) by (apply Z.log2_lt_pow2; lia).
  assert (8 * k <= Z.log2 w).
  { destruct (Z.eq_dec k 0) as [->|]; [pose proof (Z.log2_nonneg w); lia|].
    apply Z.log2_le_pow2; lia. }
  symmetry. apply Z.div_unique with (Z.log2 w - 8 * k); lia.
Qed.

Lemma uint_octets_canonical l : uint_octets_ok l -> l = int_octets (be_val l).
Proof.
  intros [Hl H]. pose proof (be_val_bounds l Hl) as Hb. unfold int_octets.
  enough (Z.log2 (2 * be_val l + 1) / 8 = zlen l - 1) as ->.
  { unfold zlen. replace (Z.to_nat (Z.of_nat (length l) - 1 + 1)) with (length l) by lia.
    by rewrite be_bytes_val. }
  pose proof (zlen_nonneg l). destruct l as [|a l]; [done|].
  inversion_clear Hl as [|? ? Ha Hl']. pose proof (be_val_bounds l Hl') as Hbl.
  rewrite be_val_cons in *. rewrite zlen_cons in *. pose proof (zlen_nonneg l).
  pose proof (pow256_pos (zlen l)). unfold is_byte in Ha.
  replace (1 + zlen l - 1) with (zlen l) by lia. apply log2_octets; try nia.
  - intros Hpos. destruct l as [|b l]; [by change (0 < 0) in Hpos|].
    inversion_clear Hl' as [|? ? Hb' Hl'']. pose proof (be_val_bounds l Hl'') as Hbl'.
    rewrite be_val_cons in *. rewrite zlen_cons in *. pose proof (zlen_nonneg l).
    rewrite Z.pow_add_r, Z.pow_1_r in * by lia. unfold is_byte in Hb'.
    pose proof (pow256_pos (zlen l)). destruct (Z.eq_dec a 0); nia.
  - rewrite Z.pow_add_r, Z.pow_1_r by lia.
    assert (a < 128) by (destruct l; tauto). nia.
Qed.

Lemma int_octets_ok v : 0 <= v -> uint_octets_ok (int_octets v) /\ be_val (int_octets v) = v.
Proof.
  intros Hv. unfold int_octets. set (q := Z.log2 (2 * v + 1) / 8).
  pose proof (Z.log2_nonneg (2 * v + 1)).
  assert (Hq : 0 <= q) by (apply Z.div_pos; lia).
  pose proof (Z.log2_spec (2 * v + 1)) as [Hlo Hhi]; [lia|].
  assert (H8 : 8 * q <= Z.log2 (2 * v + 1) < 8 * q + 8).
  { pose proof (Z.div_mod (Z.log2 (2 * v + 1)) 8). pose proof (Z.mod_pos_bound (Z.log2 (2 * v + 1)) 8). lia. }
  assert (Hup : 2 * v + 1 < 256 ^ (q + 1)).
  { change 256 with (2 ^ 8). rewrite <- Z.pow_mul_r by lia.
    eapply Z.lt_le_trans; [exact Hhi|]. apply Z.pow_le_mono_r; lia. }
  assert (Hdn : 256 ^ q <= 2 * v + 1).
  { change 256 with (2 ^ 8). rewrite <- Z.pow_mul_r by lia.
    eapply Z.le_trans; [|exact Hlo]. apply Z.pow_le_mono_r; lia. }
  clearbody q. rewrite Z2Nat.inj_add, Nat.add_comm by lia.
  replace (Z.to_nat 1 + Z.to_nat q)%nat with (S (Z.to_nat q)) by lia.
  pose proof (pow256_pos q Hq). rewrite Z.pow_add_r, Z.pow_1_r in Hup by lia. split.
  - split; [apply is_byte_be_bytes|]. rewrite be_bytes_cons, Z2Nat.id by lia.
    assert (Hh : v / 256 ^ q < 128) by (apply Z.div_lt_upper_bound; lia).
    assert (0 <= v / 256 ^ q) by (apply Z.div_pos; lia).
    rewrite Z.mod_small by lia.
    destruct (Z.to_nat q) as [|m] eqn:Em; [done|]. rewrite be_bytes_cons. split; [done|].
    intros Hz. apply Z.div_small_iff in Hz; [|lia].
    replace q with (Z.of_nat m + 1) in * by lia. pose proof (pow256_pos (Z.of_nat m)).
    rewrite Z.pow_add_r, Z.pow_1_r in * by lia.
    rewrite Z.mod_small.
    + apply Z.div_le_lower_bound; lia.
    + split; [apply Z.div_pos; lia|apply Z.div_lt_upper_bound; lia].
  - rewrite be_val_bytes. replace (Z.of_nat (S (Z.to_nat q))) with (q + 1) by lia.
    rewrite Z.pow_add_r, Z.pow_1_r by lia. apply Z.mod_small. lia.
Qed.

(** *** timingsafe_memcmp *)

Lemma sign_shift a b :
  is_byte a -> is_byte b -> Z.shiftr (a - b) 8 = if a <? b then -1 else 0.
Proof.
  unfold is_byte. intros. rewrite Z.shiftr_div_pow2 by lia. zcase.
  - symmetry. apply Z.div_unique with (a - b + 256); lia.
  - apply Z.div_small. lia.
Qed.

Lemma timingsafe_memcmp_done p1 p2 res :
  Forall is_byte p1 -> Forall is_byte p2 -> timingsafe_memcmp p1 p2 res (-1) = res.
Proof.
  intros H1. revert p2 res. induction H1 as [|a p1 Ha H1 IH]; intros p2 res H2; [done|].
  destruct H2 as [|b p2 Hb H2]; [done|]. cbn [timingsafe_memcmp].
  change (Z.lnot (-1)) with 0. rewrite Z.land_0_r, Z.lor_0_r.
  rewrite !sign_shift by done.
  replace (Z.lor (-1) _) with (-1) by (repeat zcase; done). by apply IH.
Qed.

(** The sign of the first difference. *)
Fixpoint lex_cmp (p1 p2 : list Z) : Z :=
  match p1, p2 with
  | a :: p1', b :: p2' => if a <? b then -1 else if b <? a then 1 else lex_cmp p1' p2'
  | _, _ => 0
  end.

Lemma timingsafe_memcmp_lex p1 p2 :
  Forall is_byte p1 -> Forall is_byte p2 -> timingsafe_memcmp p1 p2 0 0 = lex_cmp p1 p2.
Proof.
  intros H1. revert p2. induction H1 as [|a p1 Ha H1 IH]; intros p2 H2; [done|].
  destruct H2 as [|b p2 Hb H2]; [done|]. cbn [timingsafe_memcmp lex_cmp].
  change (Z.lnot 0) with (-1). rewrite Z.land_m1_r, Z.lor_0_l, !sign_shift by done.
  destruct (Z.ltb_spec a b), (Z.ltb_spec b a); try lia; cbn -[timingsafe_memcmp];
    rewrite ?timingsafe_memcmp_done by done; auto.
Qed.

Lemma lex_cmp_eq p1 p2 : length p1 = length p2 -> lex_cmp p1 p2 = 0 <-> p1 = p2.
Proof.
  revert p2. induction p1 as [|a p1 IH]; intros [|b p2] Hl; try done.
  cbn [lex_cmp]. injection Hl as Hl. specialize (IH p2 Hl).
  destruct (Z.ltb_spec a b); [split; [done|intros [= -> _]; lia]|].
  destruct (Z.ltb_spec b a); [split; [done|intros [= -> _]; lia]|].
  rewrite IH. split; [intros ->; f_equal; lia|congruence].
Qed.

(** *** A logic for safety: no access outside the window *)

(** [c'] stands for a part of what [c] stands for. *)
Definition window_in (c' c : CBS) : Prop :=
  CBS_ok c' /\ exists pre post, contents c = pre ++ contents c' ++ post.

Lemma window_in_refl c : CBS_ok c -> window_in c c.
Proof. intros. split; [done|]. exists [], []. by rewrite app_nil_r. Qed.

Lemma window_in_trans c1 c2 c3 : window_in c1 c2 -> window_in c2 c3 -> window_in c1 c3.
Proof.
  intros [Hok (p & q & H1)] [_ (p' & q' & H2)]. split; [done|].
  exists (p' ++ p), (q ++ q'). rewrite H2, H1, <- !app_assoc. done.
Qed.

Lemma window_in_advance n c : CBS_ok c -> 0 <= n <= cbs_len c -> window_in (cbs_advance n c) c.
Proof.
  intros Hc Hn. split; [by apply cbs_advance_ok|].
  exists (ztake n (contents c)), []. rewrite contents_advance by done.
  by rewrite app_nil_r, ztake_zdrop.
Qed.

Lemma window_in_init c n : CBS_ok c -> 0 <= n <= cbs_len c -> window_in (CBS_init (cbs_data c) n) c.
Proof.
  intros Hc Hn. pose proof Hc as (? & ? & ? & ?).
  split; [apply CBS_init_ok; auto; lia|].
  exists [], (zdrop n (contents c)). rewrite contents_init_data by lia.
  by rewrite app_nil_l, ztake_zdrop.
Qed.

(** [m] never leaves the window, and its result satisfies [R]. *)
Definition safe {A} (R : CBS -> A -> Prop) (m : M CBS A) : Prop :=
  forall c, CBS_ok c ->
  match m c with
  | Ret a c' => window_in c' c /\ R c a
  | Fail c' => window_in c' c
  | UB => False
  end.

Definition anything {A} : CBS -> A -> Prop := fun _ _ => True.
Definition within : CBS -> CBS -> Prop := fun c out => window_in out c.

Lemma safe_bind {A B} R Q (m : M CBS A) (k : A -> M CBS B) :
  safe R m ->
  (forall c a c', CBS_ok c -> R c a -> window_in c' c ->
     match k a c' with
     | Ret b c'' => window_in c'' c' /\ Q c b
     | Fail c'' => window_in c'' c'
     | UB => False
     end) ->
  safe Q (mbind k m).
Proof.
  intros Hm Hk c Hc. specialize (Hm c Hc). mstep. destruct (m c) as [a c'|c'|]; [|done|done].
  destruct Hm as [Hw HR]. specialize (Hk c a c' Hc HR Hw).
  destruct (k a c') as [b c''|c''|]; [|by eapply window_in_trans|done].
  destruct Hk. split; [by eapply window_in_trans|done].
Qed.

Lemma cbs_get_safe n :
  0 <= n -> safe (fun c v => v = cbs_data c /\ n <= cbs_len c) (cbs_get n).
Proof.
  intros Hn c Hc. rewrite cbs_get_spec by done. zcase; [|by apply window_in_refl].
  split; [apply window_in_advance; auto; lia|done].
Qed.

Lemma cbs_get_u_safe n : safe (fun _ v => 0 <= v < 2 ^ 32) (cbs_get_u n).
Proof.
  intros c Hc. destruct (Z.ltb_spec n 1) as [|Hn].
  { unfold cbs_get_u. mstep. rewrite (proj2 (Z.ltb_lt _ _)) by lia. by apply window_in_refl. }
  destruct (Z.ltb_spec 4 n).
  { unfold cbs_get_u. mstep. rewrite (proj2 (Z.ltb_lt 4 n)), orb_true_r by lia.
    by apply window_in_refl. }
  rewrite cbs_get_u_spec by (auto; lia). zcase; [|by apply window_in_refl].
  split; [apply window_in_advance; auto; lia|].
  pose proof (be_val_bounds (ztake n (contents c))) as Hb.
  rewrite zlen_ztake in Hb by (rewrite zlen_contents by done; lia).
  assert (256 ^ n <= 256 ^ 4) by (apply Z.pow_le_mono_r; lia).
  specialize (Hb ltac:(auto with csimp)). lia.
Qed.

Lemma CBS_get_u8_safe : safe (fun _ b => is_byte b) CBS_get_u8.
Proof.
  intros c Hc. rewrite CBS_get_u8_spec by done.
  pose proof (contents_byte c Hc) as Hb. pose proof (zlen_contents c Hc) as Hl.
  destruct (contents c) as [|b l]; [by apply window_in_refl|].
  inversion_clear Hb. split; [|done].
  apply window_in_advance; [done|]. rewrite zlen_cons in Hl. zlen_solve.
Qed.

Lemma CBS_get_bytes_safe n : 0 <= n -> safe within (CBS_get_bytes n).
Proof.
  intros Hn c Hc. rewrite CBS_get_bytes_spec by done. zcase; [|by apply window_in_refl].
  split; [apply window_in_advance|apply window_in_init]; auto; lia.
Qed.

Lemma element_internal_safe strict :
  safe (fun c r => let '(out, _, hl) := r in window_in out c /\ 0 <= hl <= cbs_len out)
    (cbs_get_any_asn1_element_internal strict).
Proof.
  intros c Hc. rewrite element_internal_spec by done.
  destruct (asn1_header strict (contents c)) as [[[t hl] n]|] eqn:E; [|by apply window_in_refl].
  assert (0 <= hl <= n).
  { destruct (contents c) as [|tag [|lb l]] eqn:Hcon; try done. cbn [asn1_header] in E.
    pose proof (contents_byte c Hc) as Hb. rewrite Hcon in Hb.
    inversion_clear Hb as [|? ? _ Hb']. inversion_clear Hb' as [|? ? Hlb Hb].
    unfold is_byte in Hlb.
    repeat case_match; simplify_eq; lia. }
  zcase; [|by apply window_in_refl].
  split; [apply window_in_advance; auto; lia|]. split; [apply window_in_init; auto; lia|].
  done.
Qed.

Lemma window_in_ok c' c : window_in c' c -> CBS_ok c'.
Proof. by intros []. Qed.

#[export] Hint Resolve window_in_ok window_in_refl : csimp.

(** Weakening the result of a safe parser. *)
Lemma safe_weaken {A} (R Q : CBS -> A -> Prop) m :
  (forall c a, CBS_ok c -> R c a -> Q c a) -> safe R m -> safe Q m.
Proof.
  intros HRQ Hm c Hc. specialize (Hm c Hc). destruct (m c); auto.
  destruct Hm. auto.
Qed.

Lemma safe_ret {A} (R : CBS -> A -> Prop) c a :
  CBS_ok c -> R c a -> window_in c c /\ R c a.
Proof. auto with csimp. Qed.

Lemma CBS_get_asn1_safe tag : safe within (CBS_get_asn1 tag).
Proof.
  intros c Hc. destruct (CBS_get_asn1 tag c) as [out c'|c'|] eqn:E.
  - pose proof (CBS_get_asn1_inv _ _ _ _ Hc E) as (_ & _ & Hok & Hcon & ->).
    pose proof (zlen_contents c Hc) as Hl. rewrite Hcon, zlen_app in Hl.
    split.
    + apply window_in_advance; [done|]. zlen_solve.
    + split; [done|]. unfold der_element in Hcon. rewrite <- app_assoc in Hcon. eauto.
  - rewrite CBS_get_asn1_spec in E by done. repeat case_match; simplify_eq; auto with csimp.
    apply window_in_advance; [done|].
    pose proof (asn1_header_sound _ _ _ _ (contents_byte c Hc) H) as (ct & rest & ? & ? & ? & ? & ->).
    { rewrite zlen_contents by done. lia. }
    zlen_solve.
  - rewrite CBS_get_asn1_spec in E by done. repeat case_match; done.
Qed.

Lemma CBS_peek_asn1_tag_spec tag c :
  CBS_ok c ->
  CBS_peek_asn1_tag tag c =
  Ret (match contents c with
       | b :: _ => negb (Z.land tag 0x1f =? 0x1f) && (b =? tag)
       | [] => false
       end) c.
Proof.
  intros Hc. unfold CBS_peek_asn1_tag, CBS_len, CBS_data. mstep. cbn [id].
  pose proof (zlen_contents c Hc) as Hl.
  destruct (Z.ltb_spec (cbs_len c) 1).
  { rewrite (zlen_nil_inv (contents c)); [done|]. zlen_solve. }
  destruct (zget_Some (cbs_data c) 0) as [b Hg]; [destruct Hc as (?&?&?&?); lia|].
  unfold contents. rewrite <- (zdrop_0 (cbs_data c)), (zdrop_cons_get _ _ _ Hg).
  rewrite ztake_cons by lia. destruct (Z.land tag 31 =? 31); [done|].
  by rewrite zget_cons_0.
Qed.

Lemma CBS_get_optional_asn1_safe tag :
  safe (fun c r => match r with Some out => window_in out c | None => True end)
    (CBS_get_optional_asn1 tag).
Proof.
  intros c Hc. unfold CBS_get_optional_asn1. mstep.
  rewrite CBS_peek_asn1_tag_spec by done.
  destruct (match contents c with [] => _ | _ => _ end); [|by auto with csimp].
  pose proof (CBS_get_asn1_safe tag c Hc) as Hs.
  by destruct (CBS_get_asn1 tag c).
Qed.

Definition uint_octets_okb (l : list Z) : bool :=
  match l with
  | [] => false
  | [a] => a <? 128
  | a :: b :: _ => (a <? 128) && (negb (a =? 0) || (128 <=? b))
  end.

Lemma uint_octets_okb_spec l :
  Forall is_byte l -> uint_octets_okb l = true <-> uint_octets_ok l.
Proof.
  intros Hl. unfold uint_octets_ok. destruct l as [|a [|b l]]; cbn.
  - split; [done|tauto].
  - rewrite Z.ltb_lt. tauto.
  - rewrite andb_true_iff, Z.ltb_lt, orb_true_iff, negb_true_iff, Z.eqb_neq, Z.leb_le.
    split; [intros [? ?]; split; [done|lia]|intros (_ & ? & ?); lia].
Qed.

Lemma CBS_get_asn1_uint64_spec c :
  CBS_ok c ->
  CBS_get_asn1_uint64 c =
  match CBS_get_asn1 CBS_ASN1_INTEGER c with
  | Ret bytes c' =>
      if uint_octets_okb (contents bytes) && (be_val (contents bytes) <? 2 ^ 64)
      then Ret (be_val (contents bytes)) c' else Fail c'
  | Fail c' => Fail c'
  | UB => UB
  end.
Proof.
  intros Hc. unfold CBS_get_asn1_uint64, CBS_data, CBS_len. mstep.
  destruct (CBS_get_asn1 CBS_ASN1_INTEGER c) as [b c'|c'|] eqn:E; [|done|done].
  pose proof (CBS_get_asn1_inv _ _ _ _ Hc E) as (_ & _ & Hok & _ & _).
  pose proof (zlen_contents b Hok) as Hl. pose proof (contents_byte b Hok) as Hb.
  destruct Hok as (Hby & ? & ? & _).
  assert (Hg : forall i, i < cbs_len b -> zget (cbs_data b) i = zget (contents b) i)
    by (intros; unfold contents; by rewrite zget_ztake).
  assert (Hloop : forall s : CBS, asn1_uint64_loop (cbs_data b) 0 (Z.to_nat (cbs_len b)) 0 s =
    if be_val (contents b) <? 2 ^ 64 then Ret (be_val (contents b)) s else Fail s).
  { intros s. rewrite asn1_uint64_loop_spec by (auto; lia).
    by rewrite Z2Nat.id, zdrop_0, Z.mul_0_l, Z.add_0_l by lia. }
  destruct (contents b) as [|a l] eqn:Hcon.
  { rewrite zlen_nil in Hl. by rewrite <- Hl. }
  rewrite zlen_cons in Hl. pose proof (zlen_nonneg l).
  destruct (Z.eqb_spec (cbs_len b) 0); [lia|]. cbn [negb]. cbv beta iota.
  inversion_clear Hb as [|? ? Ha Hb']. rewrite !Hg, zget_cons_0 by lia. cbv beta iota.
  rewrite land_byte_0x80 by done. cbn [uint_octets_okb].
  destruct (Z.ltb_spec 1 (cbs_len b)).
  - destruct l as [|d l]; [rewrite zlen_nil in Hl; lia|]. inversion_clear Hb'.
    rewrite Hg, zget_cons_S by lia. change (zget (d :: l) (1 - 1)) with (Some d).
    cbv beta iota. rewrite land_byte_0x80, Z.leb_antisym by done.
    destruct (a <? 128); [|done]. cbn [andb]. cbv beta iota.
    destruct (a =? 0); cbn [andb negb orb]; [destruct (d <? 128)|]; cbn [negb andb];
      cbv beta iota; by rewrite ?Hloop.
  - destruct l as [|d l]; [|rewrite zlen_cons in Hl; zlen_solve].
    rewrite andb_false_r. destruct (a <? 128); cbv beta iota; by rewrite ?Hloop.
Qed.

Lemma CBS_get_asn1_uint64_safe : safe (fun _ v => 0 <= v < 2 ^ 64) CBS_get_asn1_uint64.
Proof.
  intros c Hc. rewrite CBS_get_asn1_uint64_spec by done.
  pose proof (CBS_get_asn1_safe CBS_ASN1_INTEGER c Hc) as Hs.
  destruct (CBS_get_asn1 CBS_ASN1_INTEGER c) as [b c'|c'|]; try done.
  destruct Hs as [Hw [Hok _]]. pose proof (be_val_bounds _ (contents_byte b Hok)).
  destruct (uint_octets_okb (contents b)); cbn [andb]; [|done]. zcase; [split; [done|lia]|done].
Qed.

(** Sequencing when what follows is safe whatever the state reached. *)
Lemma safe_seq {A B} (R : CBS -> A -> Prop) (Q : CBS -> B -> Prop) (m : M CBS A) (k : A -> M CBS B) :
  safe R m ->
  (forall c a, R c a -> safe (fun c' b => window_in c' c -> Q c b) (k a)) ->
  safe Q (mbind k m).
Proof.
  intros Hm Hk. eapply safe_bind; [exact Hm|]. intros c a c' Hc HR Hw.
  specialize (Hk c a HR c' (window_in_ok _ _ Hw)).
  destruct (k a c'); [|done|done]. destruct Hk as [? HQ]. auto.
Qed.

Lemma safe_mret {A} (R : CBS -> A -> Prop) a : (forall c, CBS_ok c -> R c a) -> safe R (mret a).
Proof. intros HR c Hc. split; auto with csimp. Qed.

Lemma safe_fail {A} (R : CBS -> A -> Prop) : safe R fail.
Proof. intros c Hc. by apply window_in_refl. Qed.

Lemma safe_check_then {A} (R : CBS -> A -> Prop) b m :
  (b = true -> safe R m) -> safe R (check b;; m).
Proof.
  intros Hm c Hc. mstep. destruct b; [by apply Hm|by apply window_in_refl].
Qed.

Lemma CBS_skip_safe n : 0 <= n -> safe anything (CBS_skip n).
Proof.
  intros Hn. eapply safe_seq; [by apply cbs_get_safe|]. intros. by apply safe_mret.
Qed.

Lemma length_prefixed_safe n : safe within (cbs_get_length_prefixed n).
Proof.
  eapply safe_seq; [apply cbs_get_u_safe|]. intros c len [Hlen _].
  eapply safe_weaken; [|apply CBS_get_bytes_safe; lia].
  intros. by eapply window_in_trans.
Qed.

Lemma CBS_get_u64_safe : safe (fun _ v => 0 <= v < 2 ^ 64) CBS_get_u64.
Proof.
  unfold CBS_get_u64, CBS_get_u32. intros c Hc. mstep. cbn [id].
  destruct (Z.leb_spec 8 (cbs_len c)); [|by apply window_in_refl].
  pose proof (cbs_get_u_safe 4 c Hc) as H4. destruct (cbs_get_u 4 c) as [a c1|c1|]; [|done|done].
  destruct H4 as [Hw Ha]. pose proof (cbs_get_u_safe 4 c1 (window_in_ok _ _ Hw)) as H5.
  destruct (cbs_get_u 4 c1) as [b c2|c2|]; [|by eapply window_in_trans|done].
  destruct H5 as [Hw' Hb]. split; [by eapply window_in_trans|].
  unfold u64. rewrite Z.shiftl_mul_pow2, Z.mod_small by lia.
  rewrite <- Z.shiftl_mul_pow2, lor_shiftl_low by lia. lia.
Qed.

Lemma cbs_last_octet c :
  CBS_ok c -> cbs_len c <> 0 ->
  exists b, zget (cbs_data c) (cbs_len c - 1) = Some b /\ is_byte b.
Proof.
  intros (Hb & ? & ? & _) Hz. destruct (zget_Some (cbs_data c) (cbs_len c - 1)) as [b Hg]; [lia|].
  exists b. split; [done|]. by eapply zget_Forall.
Qed.

Lemma CBS_get_last_u8_safe : safe (fun _ b => is_byte b) CBS_get_last_u8.
Proof.
  intros c Hc. unfold CBS_get_last_u8. mstep. cbn [id].
  destruct (Z.eqb_spec (cbs_len c) 0); [by apply window_in_refl|]. cbn [negb].
  destruct (cbs_last_octet c Hc) as (b & -> & Hb); [done|]. split; [|done].
  pose proof Hc as (? & ? & ? & ?). split; [repeat split; cbn; auto; lia|].
  exists [], (zdrop (cbs_len c - 1) (contents c)). unfold contents. cbn [cbs_len cbs_data app].
  rewrite <- (ztake_zdrop (cbs_len c - 1) (ztake (cbs_len c) (cbs_data c))) at 1.
  by rewrite ztake_ztake by lia.
Qed.

Lemma CBS_peek_last_u8_safe : safe (fun _ b => is_byte b) CBS_peek_last_u8.
Proof.
  intros c Hc. unfold CBS_peek_last_u8. mstep. cbn [id].
  destruct (Z.eqb_spec (cbs_len c) 0); [by apply window_in_refl|]. cbn [negb].
  destruct (cbs_last_octet c Hc) as (b & -> & Hb); auto with csimp.
Qed.

Lemma cbs_peek_u_safe n : safe anything (cbs_peek_u n).
Proof.
  intros c Hc. unfold cbs_peek_u, cbs_peek. mstep. cbn [id].
  destruct (Z.ltb_spec n 1); [by apply window_in_refl|].
  destruct (Z.ltb_spec 4 n); [by apply window_in_refl|]. cbn [orb negb].
  destruct (Z.leb_spec n (cbs_len c)); [|by apply window_in_refl].
  destruct Hc as (? & ? & ? & ?). pose proof (pow256_pos (4 - Z.of_nat (Z.to_nat n))).
  rewrite cbs_u_loop_spec by (try lia; auto). split; [apply window_in_refl|done].
  repeat split; auto; lia.
Qed.

Lemma CBS_peek_u8_safe : safe (fun _ b => is_byte b) CBS_peek_u8.
Proof.
  intros c Hc. unfold CBS_peek_u8, cbs_peek. mstep. cbn [id].
  destruct (Z.leb_spec 1 (cbs_len c)); [|by apply window_in_refl].
  pose proof Hc as (Hb & ? & ? & _). destruct (zget_Some (cbs_data c) 0) as [b Hg]; [lia|].
  rewrite Hg. split; [by apply window_in_refl|by eapply zget_Forall].
Qed.

Lemma CBS_get_asn1_element_safe tag : safe within (CBS_get_asn1_element tag).
Proof.
  eapply safe_seq; [apply (element_internal_safe true)|]. intros c [[out t] hl] [Hw _].
  apply safe_check_then. intros _. by apply safe_mret.
Qed.

(** An optional element is parsed on a local CBS. *)
Lemma optional_safe {A B} tag (m : M CBS A) (R : CBS -> A -> Prop) (k : A * CBS -> M CBS B) d :
  safe R m ->
  (forall a child, CBS_ok child -> (exists c, CBS_ok c /\ R c a) -> safe anything (k (a, child))) ->
  safe anything
    (child ← CBS_get_optional_asn1 tag;
     match child with
     | Some child => r ← on_local m child; k r
     | None => mret d
     end).
Proof.
  intros Hm Hk. eapply safe_seq; [apply CBS_get_optional_asn1_safe|].
  intros c [child|] Hw; [|by apply safe_mret].
  intros c' Hc'. mstep. specialize (Hm child (window_in_ok _ _ Hw)).
  destruct (m child) as [a ch'|ch'|]; [|by apply window_in_refl|done].
  destruct Hm as [Hch HR].
  specialize (Hk a ch' (window_in_ok _ _ Hch) ltac:(eauto using window_in_ok) c' Hc').
  by destruct (k (a, ch') c') as [? ?| |]; [destruct Hk|..].
Qed.

Lemma optional_octet_string_safe tag : safe anything (CBS_get_optional_asn1_octet_string tag).
Proof.
  unfold CBS_get_optional_asn1_octet_string.
  apply (optional_safe tag (CBS_get_asn1 CBS_ASN1_OCTETSTRING) within
    (fun '(out, child) => check (CBS_len child =? 0);; mret (out, true))).
  - apply CBS_get_asn1_safe.
  - intros. apply safe_check_then. intros. by apply safe_mret.
Qed.

Lemma optional_uint64_safe tag d : safe anything (CBS_get_optional_asn1_uint64 tag d).
Proof.
  unfold CBS_get_optional_asn1_uint64.
  apply (optional_safe tag CBS_get_asn1_uint64 (fun _ v => 0 <= v < 2 ^ 64)
    (fun '(out, child) => check (CBS_len child =? 0);; mret out)).
  - apply CBS_get_asn1_uint64_safe.
  - intros. apply safe_check_then. intros. by apply safe_mret.
Qed.

Lemma optional_bool_safe tag d : safe anything (CBS_get_optional_asn1_bool tag d).
Proof.
  unfold CBS_get_optional_asn1_bool.
  apply (optional_safe tag (CBS_get_asn1 CBS_ASN1_BOOLEAN) within
    (fun '(child2, child) =>
      check (negb (negb (CBS_len child2 =? 1) || negb (CBS_len child =? 0)));;
      boolean ← valid (zget (CBS_data child2) 0);
      if boolean =? 0 then mret 0 else if boolean =? 0xff then mret 1 else fail)).
  - apply CBS_get_asn1_safe.
  - intros a child Hch (c & Hc & [(Hb & ? & ? & _) _]). apply safe_check_then.
    unfold CBS_len, CBS_data. intros Hlen.
    destruct (Z.eqb_spec (cbs_len a) 1); [|done].
    destruct (zget_Some (cbs_data a) 0) as [b Hg]; [lia|].
    intros c' Hc'. mstep. rewrite Hg. cbv beta iota.
    destruct (b =? 0); [by apply safe_mret|].
    destruct (b =? 255); [by apply safe_mret|by apply (safe_fail (A := Z) anything)].
Qed.

Lemma read_bytes_spec c :
  CBS_ok c -> read_bytes (cbs_data c) (cbs_len c) c = Ret (contents c) c.
Proof.
  intros (_ & ? & ? & _). unfold read_bytes. mstep.
  by rewrite (proj2 (Z.leb_le _ _)) by lia.
Qed.

Lemma CBS_stow_safe malloc_ok : safe anything (CBS_stow malloc_ok).
Proof.
  intros c Hc. unfold CBS_stow. mstep. cbn [id].
  destruct (cbs_len c =? 0); [by apply safe_mret|].
  destruct (malloc_ok (cbs_len c)); [|by apply window_in_refl].
  rewrite read_bytes_spec by done. by apply safe_mret.
Qed.

Lemma CBS_strdup_safe malloc_ok : safe anything (CBS_strdup malloc_ok).
Proof.
  intros c Hc. unfold CBS_strdup, CBS_contains_zero_byte. mstep. cbn [id].
  rewrite read_bytes_spec by done. cbv beta iota.
  destruct (bool_decide _); [by apply window_in_refl|]. cbn [negb].
  destruct (malloc_ok _); [|by apply window_in_refl].
  rewrite read_bytes_spec by done. split; [by apply window_in_refl|done].
Qed.

Lemma CBS_write_bytes_spec dst dst_len c :
  CBS_ok c -> dst_len <= zlen dst ->
  CBS_write_bytes dst dst_len c =
  if cbs_len c <=? dst_len
  then Ret (contents c ++ zdrop (cbs_len c) dst, cbs_len c) c else Fail c.
Proof.
  intros Hc Hd. unfold CBS_write_bytes. mstep. cbn [id].
  destruct (Z.leb_spec (cbs_len c) dst_len); [|done].
  rewrite read_bytes_spec by done. cbv beta iota. unfold zwrite.
  rewrite zlen_contents, !(proj2 (Z.leb_le _ _)) by (auto; lia). done.
Qed.

(** A conjunction of parsers of several result types. *)
Definition safe_parser {A} (m : M CBS A) : Prop := safe anything m.

Lemma safe_any {A} R (m : M CBS A) : safe R m -> safe_parser m.
Proof. apply safe_weaken. done. Qed.

Lemma CBS_get_asn1_uint64_Ret c v c' :
  CBS_ok c ->
  CBS_get_asn1_uint64 c = Ret v c' <->
  0 <= v < 2 ^ 64 /\ contents c = der_element CBS_ASN1_INTEGER (int_octets v) ++ contents c' /\
  c' = cbs_advance (zlen (der_element CBS_ASN1_INTEGER (int_octets v))) c.
Proof.
  intros Hc. rewrite CBS_get_asn1_uint64_spec by done. split.
  - destruct (CBS_get_asn1 CBS_ASN1_INTEGER c) as [b c1|c1|] eqn:E; [|done|done].
    pose proof (CBS_get_asn1_inv _ _ _ _ Hc E) as (_ & _ & Hok & Hcon & Hadv).
    pose proof (contents_byte b Hok) as Hb.
    destruct (uint_octets_okb (contents b)) eqn:Eb; [|done]. cbn [andb].
    apply uint_octets_okb_spec in Eb; [|done].
    destruct (Z.ltb_spec (be_val (contents b)) (2 ^ 64)); [|done].
    intros [= <- <-]. rewrite <- (uint_octets_canonical _ Eb).
    pose proof (be_val_bounds _ Hb). auto with lia.
  - intros (Hv & Hcon & ->). destruct (int_octets_ok v) as [Hok Hval]; [lia|].
    edestruct (CBS_get_asn1_Ret CBS_ASN1_INTEGER c (int_octets v)) as (out & -> & -> & _);
      [done|..|exact Hcon|].
    + split; [unfold is_byte, CBS_ASN1_INTEGER; lia|done].
    + unfold int_octets. rewrite zlen_be_bytes.
      assert (Z.log2 (2 * v + 1) <= Z.log2 (2 ^ 65)) by (apply Z.log2_le_mono; lia).
      assert (Z.log2 (2 * v + 1) / 8 <= 65 / 8) by (apply Z.div_le_mono; [lia|done]).
      change (65 / 8) with 8 in *. lia.
    + rewrite (proj2 (uint_octets_okb_spec _ (proj1 Hok))), Hval by done.
      by rewrite (proj2 (Z.ltb_lt _ _)) by lia.
Qed.

Lemma CBS_mem_equal_spec data len c :
  CBS_ok c -> Forall is_byte data -> 0 <= len <= zlen data ->
  CBS_mem_equal data len c = Ret (bool_decide (contents c = ztake len data)) c.
Proof.
  intros Hc Hd Hlen. unfold CBS_mem_equal. mstep. cbn [id].
  pose proof (zlen_contents c Hc) as Hl.
  destruct (Z.eqb_spec len (cbs_len c)) as [->|Hne]; cbn [negb].
  - rewrite read_bytes_spec by done. cbv beta iota. unfold read_bytes. mstep.
    rewrite (proj2 (Z.leb_le _ _)) by lia.
    rewrite timingsafe_memcmp_lex by auto with csimp. f_equal.
    apply eq_true_iff_eq. rewrite Z.eqb_eq, bool_decide_eq_true. apply lex_cmp_eq.
    pose proof (zlen_ztake (cbs_len c) data). unfold zlen in *. lia.
  - rewrite bool_decide_eq_false_2; [done|]. intros E. rewrite E, zlen_ztake in Hl by lia. lia.
Qed.

(** *** Properties *)

(** C18. The strict element parser accepts exactly the DER encodings with a
    one-octet tag and a content shorter than 2^32 octets; it returns the
    element, its tag and the length of its header, and moves past it. *)
Theorem CBS_get_any_asn1_element_DER c out tag hl c' :
  CBS_ok c ->
  CBS_get_any_asn1_element c = Ret (out, tag, hl) c' <->
  exists content rest,
    contents c = der_element tag content ++ rest /\
    asn1_tag_ok tag /\ zlen content < 2 ^ 32 /\
    hl = zlen (der_header tag (zlen content)) /\
    out = CBS_init (cbs_data c) (zlen (der_element tag content)) /\
    c' = cbs_advance (zlen (der_element tag content)) c.
Proof. apply any_asn1_element_Ret. Qed.

(** A SEQUENCE holding INTEGER 5, followed by another octet. *)
Definition sample : CBS := CBS_init [0x30; 3; 2; 1; 5; 7] 6.

Lemma sample_ok : CBS_ok sample.
Proof.
  apply CBS_init_ok; [bytes_tac|zlen_lia|lia].
Defined.

Lemma CBS_get_any_asn1_element_DER_witness :
  CBS_ok sample /\
  exists content rest, contents sample = der_element 0x30 content ++ rest.
Proof.
  split; [exact sample_ok|].
  destruct (proj1 (CBS_get_any_asn1_element_DER sample (CBS_init (cbs_data sample) 5) 0x30 2
    (cbs_advance 5 sample) sample_ok) eq_refl) as (content & rest & H & _).
  exists content, rest. exact H.
Defined.

(** An unsigned INTEGER is accepted exactly in its unique minimal
    encoding and only below 2^64. *)
Theorem CBS_get_asn1_uint64_canonical c v c' :
  CBS_ok c ->
  CBS_get_asn1_uint64 c = Ret v c' <->
  0 <= v < 2 ^ 64 /\ contents c = der_element CBS_ASN1_INTEGER (int_octets v) ++ contents c' /\
  c' = cbs_advance (zlen (der_element CBS_ASN1_INTEGER (int_octets v))) c.
Proof. apply CBS_get_asn1_uint64_Ret. Qed.

Lemma CBS_get_asn1_uint64_canonical_witness :
  CBS_ok (cbs_advance 2 sample) /\
  CBS_get_asn1_uint64 (cbs_advance 2 sample) = Ret 5 (cbs_advance 5 sample).
Proof.
  assert (H : CBS_ok (cbs_advance 2 sample)).
  { apply cbs_advance_ok; [exact sample_ok|cbn; lia]. }
  split; [exact H|]. apply (CBS_get_asn1_uint64_canonical _ 5 _ H).
  split; [lia|]. split; reflexivity.
Defined.

(** C26. No parser reads outside the window it was given, whatever the
    octets are: on success and on error the CBS still stands for a part of
    what it stood for, and the call is never undefined behaviour. *)
Theorem CBS_parsers_stay_in_window n tag d malloc_ok :
  0 <= n ->
  safe_parser (CBS_skip n) /\ safe_parser (CBS_get_bytes n) /\
  safe_parser CBS_get_u8 /\ safe_parser (cbs_get_u n) /\ safe_parser CBS_get_u64 /\
  safe_parser CBS_get_last_u8 /\ safe_parser (cbs_get_length_prefixed n) /\
  safe_parser CBS_peek_u8 /\ safe_parser (cbs_peek_u n) /\ safe_parser CBS_peek_last_u8 /\
  safe_parser (cbs_get_any_asn1_element_internal true) /\
  safe_parser (cbs_get_any_asn1_element_internal false) /\
  safe_parser (CBS_get_asn1 tag) /\ safe_parser (CBS_get_asn1_element tag) /\
  safe_parser CBS_get_asn1_uint64 /\ safe_parser (CBS_get_optional_asn1 tag) /\
  safe_parser (CBS_get_optional_asn1_octet_string tag) /\
  safe_parser (CBS_get_optional_asn1_uint64 tag d) /\
  safe_parser (CBS_get_optional_asn1_bool tag d) /\
  safe_parser (CBS_stow malloc_ok) /\ safe_parser (CBS_strdup malloc_ok).
Proof.
  intros Hn.
  repeat split; eapply safe_any;
    first [ by apply CBS_skip_safe | by apply CBS_get_bytes_safe | apply CBS_get_u8_safe
          | apply cbs_get_u_safe | apply CBS_get_u64_safe | apply CBS_get_last_u8_safe
          | apply length_prefixed_safe | apply CBS_peek_u8_safe | apply cbs_peek_u_safe
          | apply CBS_peek_last_u8_safe | apply element_internal_safe | apply CBS_get_asn1_safe
          | apply CBS_get_asn1_element_safe | apply CBS_get_asn1_uint64_safe
          | apply CBS_get_optional_asn1_safe | apply optional_octet_string_safe
          | apply optional_uint64_safe | apply optional_bool_safe | apply CBS_stow_safe
          | apply CBS_strdup_safe ].
Qed.

Lemma CBS_parsers_stay_in_window_witness :
  0 <= 2 /\ match CBS_skip 2 sample with UB => False | _ => True end.
Proof.
  split; [lia|].
  pose proof (proj1 (CBS_parsers_stay_in_window 2 0x30 0 (fun _ => true) ltac:(lia))
    sample sample_ok) as H.
  destruct (CBS_skip 2 sample); [exact I|exact I|exact H].
Defined.

(** The constant-time comparison decides equality of the contents with
    the given octets. *)
Theorem CBS_mem_equal_correct data len c :
  CBS_ok c -> Forall is_byte data -> 0 <= len <= zlen data ->
  CBS_mem_equal data len c = Ret (bool_decide (contents c = ztake len data)) c.
Proof. apply CBS_mem_equal_spec. Qed.

Lemma CBS_mem_equal_correct_witness :
  CBS_ok sample /\
  CBS_mem_equal [0x30; 3; 2; 1; 5; 7; 9] 6 sample = Ret true sample.
Proof.
  split; [exact sample_ok|].
  apply (CBS_mem_equal_correct [0x30; 3; 2; 1; 5; 7; 9] 6 sample sample_ok).
  - bytes_tac.
  - zlen_lia.
Defined.
