(* ===== verification/Cbb.v ===== *)
(** * CBB: the byte string builder of libcrypto/bytestring/bs_cbb.c

    Several [CBB]s share one growing buffer: the top-level one and, for a
    pending length-prefixed element, a child that the caller provides.  The
    state is the heap those objects live in: [cbbs] maps the address of a
    [CBB] to the object and [bases] the address of a [struct cbb_buffer_st]
    to the buffer.  Dereferencing an address that is not in the heap and
    writing outside a buffer are [UB].  Whether an allocation of [n] octets
    succeeds is the parameter [malloc_ok]. *)

From S2P Require Import Prelude Cbs.
From stdpp Require Export gmap.
Open Scope Z_scope.

(** Addresses. *)
Abbreviation ptr := nat (only parsing).

Record cbb_buffer_st : Type := mkBuffer {
  base_buf : list Z;
  base_len : Z;
  base_cap : Z;
  base_can_resize : bool;
}.

Record CBB : Type := mkCBB {
  cbb_base : option ptr;
  cbb_offset : Z;
  cbb_child : option ptr;
  cbb_pending_len_len : Z;
  cbb_pending_is_asn1 : bool;
  cbb_is_top_level : bool;
}.

Record heap : Type := mkHeap {
  bases : gmap nat cbb_buffer_st;
  cbbs : gmap nat CBB;
}.

(** ** Memory access *)

Definition load_cbb (p : ptr) : M heap CBB := fun h => valid (cbbs h !! p) h.
Definition load_base (b : ptr) : M heap cbb_buffer_st := fun h => valid (bases h !! b) h.
Definition store_cbb (p : ptr) (c : CBB) : M heap unit :=
  modify (fun h => mkHeap (bases h) (<[p := c]> (cbbs h))).
Definition store_base (b : ptr) (st : cbb_buffer_st) : M heap unit :=
  modify (fun h => mkHeap (<[b := st]> (bases h)) (cbbs h)).
Definition free_base (b : ptr) : M heap unit :=
  modify (fun h => mkHeap (delete b (bases h)) (cbbs h)).
(** A block with a local [CBB] at [p]: the object is gone after the block,
    however the block ends. *)
Definition with_local {A} (p : ptr) (m : M heap A) : M heap A := fun h =>
  let leave h := mkHeap (bases h) (delete p (cbbs h)) in
  match m h with
  | Ret a h' => Ret a (leave h')
  | Fail h' => Fail (leave h')
  | UB => UB
  end.

(** [memcpy(base->buf + i, bs, ...)]; the buffer has to be large enough. *)
Definition base_write (b : ptr) (i : Z) (bs : list Z) : M heap unit :=
  st ← load_base b;
  buf ← valid (zwrite (base_buf st) i bs);
  store_base b (mkBuffer buf (base_len st) (base_cap st) (base_can_resize st)).

Definition zeroed_CBB : CBB := mkCBB None 0 None 0 false false.

(** ** Operations *)

Definition CBB_INITIAL_SIZE : Z := 64.

Section operations.
Context (malloc_ok : Z -> bool).

(** [calloc(1, sizeof(struct cbb_buffer_st))]. *)
Definition sizeof_cbb_buffer_st : Z := 32.

Definition cbb_init (cbb : ptr) (buf : list Z) (cap : Z) : M heap unit :=
  check (malloc_ok sizeof_cbb_buffer_st);;
  b ← gets (fun h => fresh (dom (bases h)));
  store_base b (mkBuffer buf 0 cap true);;
  c ← load_cbb cbb;
  store_cbb cbb (mkCBB (Some b) (cbb_offset c) (cbb_child c) (cbb_pending_len_len c)
    (cbb_pending_is_asn1 c) true).

Definition CBB_init (cbb : ptr) (initial_capacity : Z) : M heap unit :=
  store_cbb cbb zeroed_CBB;;
  let initial_capacity :=
    if initial_capacity =? 0 then CBB_INITIAL_SIZE else initial_capacity in
  check (malloc_ok initial_capacity);;
  cbb_init cbb (zrep initial_capacity 0) initial_capacity.

Definition CBB_init_fixed (cbb : ptr) (buf : list Z) (len : Z) : M heap unit :=
  store_cbb cbb zeroed_CBB;;
  cbb_init cbb buf len;;
  c ← load_cbb cbb;
  b ← valid (cbb_base c);
  st ← load_base b;
  store_base b (mkBuffer (base_buf st) (base_len st) (base_cap st) false).

Definition CBB_cleanup (cbb : ptr) : M heap unit :=
  c ← load_cbb cbb;
  (match cbb_base c with
   | Some b => _ ← load_base b; free_base b
   | None => mret tt
   end);;
  store_cbb cbb (mkCBB None (cbb_offset c) None (cbb_pending_len_len c)
    (cbb_pending_is_asn1 c) (cbb_is_top_level c)).

(** The offset of the [len] new octets. *)
Definition cbb_buffer_add (base : option ptr) (len : Z) : M heap Z :=
  match base with
  | None => fail
  | Some b =>
      st ← load_base b;
      let newlen := u64 (base_len st + len) in
      check (negb (newlen <? base_len st));;
      (if base_cap st <? newlen then
         let newcap := u64 (base_cap st * 2) in
         check (base_can_resize st);;
         let newcap :=
           if (newcap <? base_cap st) || (newcap <? newlen) then newlen else newcap in
         check (malloc_ok newcap);;
         (* recallocarray: the old octets, then zeros *)
         store_base b (mkBuffer (base_buf st ++ zrep (newcap - base_cap st) 0)
           (base_len st) newcap (base_can_resize st))
       else mret tt);;
      st ← load_base b;
      store_base b (mkBuffer (base_buf st) newlen (base_cap st) (base_can_resize st));;
      mret (base_len st)
  end.

(** [for (i = n - 1; i < n; i--) { buf[i] = v; v >>= 8; }]: the final [v]. *)
Fixpoint put_be_loop (b : ptr) (off : Z) (n : nat) (v : Z) : M heap Z :=
  match n with
  | O => mret v
  | S i =>
      base_write b (off + Z.of_nat i) [u8 v];;
      put_be_loop b off i (Z.shiftr v 8)
  end.

(** The DER case of [CBB_flush]: make room for the length octets, write
    the initial one, and return the new [offset], [pending_len_len] and
    [len]. *)
Definition cbb_flush_asn1 (b : ptr) (offset pending_len_len child_start len : Z) :
    M heap (Z * Z * Z) :=
  check (pending_len_len =? 1);;
  check (negb (0xfffffffe <? len));;
  let len_len :=
    if 0xffffff <? len then 5
    else if 0xffff <? len then 4
    else if 0xff <? len then 3
    else if 0x7f <? len then 2
    else 1 in
  '(initial_length_byte, len) ←
    (if len_len =? 1 then mret (u8 len, 0)
     else
       let extra_bytes := len_len - 1 in
       _ ← cbb_buffer_add (Some b) extra_bytes;
       st ← load_base b;
       (* memmove *)
       must (child_start + len <=? zlen (base_buf st));;
       base_write b (child_start + extra_bytes)
         (ztake len (zdrop child_start (base_buf st)));;
       mret (Z.lor 0x80 (len_len - 1), len));
  base_write b offset [initial_length_byte];;
  mret (offset + 1, u8 (len_len - 1), len).

(** The part of [CBB_flush] after the child is flushed: write the pending
    length prefix and detach the child. *)
Definition cbb_flush_prefix (cbb b child : ptr) : M heap unit :=
  c ← load_cbb cbb;
  st ← load_base b;
  let child_start := u64 (cbb_offset c + cbb_pending_len_len c) in
  check (negb (child_start <? cbb_offset c));;
  check (negb (base_len st <? child_start));;
  let len := base_len st - child_start in
  '(offset, pending_len_len, len) ←
    (if cbb_pending_is_asn1 c
     then cbb_flush_asn1 b (cbb_offset c) (cbb_pending_len_len c) child_start len
     else mret (cbb_offset c, cbb_pending_len_len c, len));
  store_cbb cbb (mkCBB (cbb_base c) offset (cbb_child c) pending_len_len
    (cbb_pending_is_asn1 c) (cbb_is_top_level c));;
  len ← put_be_loop b offset (Z.to_nat pending_len_len) len;
  check (len =? 0);;
  ch ← load_cbb child;
  store_cbb child (mkCBB None (cbb_offset ch) (cbb_child ch) (cbb_pending_len_len ch)
    (cbb_pending_is_asn1 ch) (cbb_is_top_level ch));;
  c ← load_cbb cbb;
  store_cbb cbb (mkCBB (cbb_base c) 0 None 0 false (cbb_is_top_level c)).

(** [fuel] bounds the depth of the recursion; running out of it stands
    for a recursion that does not end (a cycle of children). *)
Fixpoint cbb_flush_rec (fuel : nat) (cbb : ptr) : M heap unit :=
  match fuel with
  | O => ub
  | S fuel =>
      c ← load_cbb cbb;
      match cbb_base c with
      | None => fail
      | Some b =>
          match cbb_child c with
          | None => mret tt
          | Some child =>
              if cbb_pending_len_len c =? 0 then mret tt
              else
                cbb_flush_rec fuel child;;
                cbb_flush_prefix cbb b child
          end
      end
  end.

Definition CBB_flush (cbb : ptr) : M heap unit := fun h =>
  cbb_flush_rec (S (size (cbbs h))) cbb h.

Definition cbb_add_u (cbb : ptr) (v len_len : Z) : M heap unit :=
  if len_len =? 0 then mret tt
  else
    check (negb (4 <? len_len));;
    CBB_flush cbb;;
    c ← load_cbb cbb;
    buf ← cbb_buffer_add (cbb_base c) len_len;
    b ← valid (cbb_base c);
    _ ← put_be_loop b buf (Z.to_nat len_len) v;
    mret tt.

(** [out_data]: [None] is a NULL argument, [Some true] says that
    [*out_data] is not NULL; [out_len]: whether the argument is not NULL.
    The result is the buffer and the length stored. *)
Definition CBB_finish (cbb : ptr) (out_data : option bool) (out_len : bool) :
    M heap (list Z * Z) :=
  c ← load_cbb cbb;
  check (cbb_is_top_level c);;
  CBB_flush cbb;;
  c ← load_cbb cbb;
  b ← valid (cbb_base c);
  st ← load_base b;
  check (negb (base_can_resize st && (bool_decide (out_data = None) || negb out_len)));;
  check (negb (bool_decide (out_data = Some true)));;
  CBB_cleanup cbb;;
  mret (base_buf st, base_len st).

Definition CBB_discard_child (cbb : ptr) : M heap unit :=
  c ← load_cbb cbb;
  match cbb_child c with
  | None => mret tt
  | Some child =>
      b ← valid (cbb_base c);
      st ← load_base b;
      store_base b (mkBuffer (base_buf st) (cbb_offset c) (base_cap st) (base_can_resize st));;
      ch ← load_cbb child;
      store_cbb child (mkCBB None (cbb_offset ch) (cbb_child ch) (cbb_pending_len_len ch)
        (cbb_pending_is_asn1 ch) (cbb_is_top_level ch));;
      c ← load_cbb cbb;
      store_cbb cbb (mkCBB (cbb_base c) 0 None 0 false (cbb_is_top_level c))
  end.

Definition cbb_set_offset (cbb : ptr) (off : Z) : M heap unit :=
  c ← load_cbb cbb;
  store_cbb cbb (mkCBB (cbb_base c) off (cbb_child c) (cbb_pending_len_len c)
    (cbb_pending_is_asn1 c) (cbb_is_top_level c)).

(** [memset(out_contents, 0, sizeof(CBB))] and the assignments that make
    it the pending child of [cbb]. *)
Definition cbb_attach (cbb out_contents : ptr) (len_len : Z) (is_asn1 : bool) : M heap unit :=
  c ← load_cbb cbb;
  store_cbb out_contents (mkCBB (cbb_base c) 0 None 0 false false);;
  c ← load_cbb cbb;
  store_cbb cbb (mkCBB (cbb_base c) (cbb_offset c) (Some out_contents) len_len is_asn1
    (cbb_is_top_level c)).

Definition cbb_add_length_prefixed (cbb out_contents : ptr) (len_len : Z) : M heap unit :=
  CBB_flush cbb;;
  c ← load_cbb cbb;
  b ← valid (cbb_base c);
  st ← load_base b;
  cbb_set_offset cbb (base_len st);;
  (prefix_bytes ← cbb_buffer_add (Some b) len_len;
   base_write b prefix_bytes (zrep len_len 0));;
  cbb_attach cbb out_contents len_len false.

Definition CBB_add_u8_length_prefixed cbb out_contents := cbb_add_length_prefixed cbb out_contents 1.
Definition CBB_add_u16_length_prefixed cbb out_contents := cbb_add_length_prefixed cbb out_contents 2.
Definition CBB_add_u24_length_prefixed cbb out_contents := cbb_add_length_prefixed cbb out_contents 3.
Definition CBB_add_u32_length_prefixed cbb out_contents := cbb_add_length_prefixed cbb out_contents 4.

Definition CBB_add_u8 (cbb : ptr) (value : Z) : M heap unit :=
  check (negb (0xff <? value));;
  cbb_add_u cbb (u32 value) 1.

Definition CBB_add_u16 (cbb : ptr) (value : Z) : M heap unit :=
  check (negb (0xffff <? value));;
  cbb_add_u cbb (u32 value) 2.

Definition CBB_add_u24 (cbb : ptr) (value : Z) : M heap unit :=
  check (negb (0xffffff <? value));;
  cbb_add_u cbb (u32 value) 3.

Definition CBB_add_u32 (cbb : ptr) (value : Z) : M heap unit :=
  check (negb (0xffffffff <? value));;
  cbb_add_u cbb (u32 value) 4.

Definition CBB_add_u64 (cbb : ptr) (value : Z) : M heap unit :=
  let a := u32 (Z.shiftr value 32) in
  let b := u32 (Z.land value 0xffffffff) in
  CBB_add_u32 cbb a;;
  CBB_add_u32 cbb b.

Definition CBB_add_asn1 (cbb out_contents : ptr) (tag : Z) : M heap unit :=
  check (negb (0xff <? tag));;
  check (negb (Z.land tag 0x1f =? 0x1f));;
  CBB_flush cbb;;
  CBB_add_u8 cbb tag;;
  c ← load_cbb cbb;
  b ← valid (cbb_base c);
  st ← load_base b;
  cbb_set_offset cbb (base_len st);;
  CBB_add_u8 cbb 0;;
  cbb_attach cbb out_contents 1 true.

Definition CBB_add_bytes (cbb : ptr) (data : list Z) : M heap unit :=
  CBB_flush cbb;;
  c ← load_cbb cbb;
  dest ← cbb_buffer_add (cbb_base c) (zlen data);
  b ← valid (cbb_base c);
  base_write b dest data.

(** The offset of the reserved octets in the buffer. *)
Definition CBB_add_space (cbb : ptr) (len : Z) : M heap Z :=
  CBB_flush cbb;;
  c ← load_cbb cbb;
  out_data ← cbb_buffer_add (cbb_base c) len;
  b ← valid (cbb_base c);
  base_write b out_data (zrep len 0);;
  mret out_data.

(** The loop of [CBB_add_asn1_uint64] for [i = 8 - n .. 7]: the final [started]. *)
Fixpoint add_asn1_uint64_loop (child : ptr) (value : Z) (n : nat) (started : bool) :
    M heap bool :=
  match n with
  | O => mret started
  | S n' =>
      let byte := Z.land (Z.shiftr value (8 * Z.of_nat n')) 0xff in
      if negb started && (byte =? 0) then add_asn1_uint64_loop child value n' started
      else
        (if negb started && negb (Z.land byte 0x80 =? 0) then CBB_add_u8 child 0
         else mret tt);;
        CBB_add_u8 child byte;;
        add_asn1_uint64_loop child value n' true
  end.

(** [child] is the address of the local [CBB child]. *)
Definition CBB_add_asn1_uint64 (cbb child : ptr) (value : Z) : M heap unit :=
  with_local child
    (CBB_add_asn1 cbb child CBS_ASN1_INTEGER;;
     started ← add_asn1_uint64_loop child value 8 false;
     (if negb started then CBB_add_u8 child 0 else mret tt);;
     CBB_flush cbb).
End operations.

(** ** Specification: the chain of open elements *)

Inductive kind : Type :=
  | Fixed (n : Z)
  | Asn1.

(** The octets reserved for the length of a pending element. *)
Definition hole (k : kind) : Z := match k with Fixed n => n | Asn1 => 1 end.
Definition is_asn1 (k : kind) : bool := match k with Fixed _ => false | Asn1 => true end.
Definition kind_ok (k : kind) : Prop := match k with Fixed n => 1 <= n <= 4 | Asn1 => True end.

(** The length prefix of a content of [n] octets, when it has one. *)
Definition prefix (k : kind) (n : Z) : option (list Z) :=
  match k with
  | Fixed m => if n <? 256 ^ m then Some (be_bytes (Z.to_nat m) n) else None
  | Asn1 => if n <=? 0xfffffffe then Some (der_len n) else None
  end.

(** A [CBB] with a pending child: its own octets, the kind of length prefix
    pending and the octets now in its place. *)
Record frame : Type := mkFrame {
  f_ptr : ptr;
  f_bytes : list Z;
  f_kind : kind;
  f_hole : list Z;
}.

Definition frame_ok (f : frame) : Prop := kind_ok (f_kind f) /\ zlen (f_hole f) = hole (f_kind f).

(** The chain from the outermost [CBB]: frames, then the [CBB] at [q] that
    has no child and holds the octets [bs]. *)
Definition root (fs : list frame) (q : ptr) : ptr :=
  match fs with [] => q | f :: _ => f_ptr f end.
Definition ptrs (fs : list frame) (q : ptr) : list ptr := map f_ptr fs ++ [q].

(** The octets in the buffer. *)
Fixpoint image (fs : list frame) (bs : list Z) : list Z :=
  match fs with
  | [] => bs
  | f :: fs' => f_bytes f ++ f_hole f ++ image fs' bs
  end.

(** What the chain stands for: every pending element closed. *)
Fixpoint collapse (fs : list frame) (bs : list Z) : option (list Z) :=
  match fs with
  | [] => Some bs
  | f :: fs' =>
      c ← collapse fs' bs;
      px ← prefix (f_kind f) (zlen c);
      Some (f_bytes f ++ px ++ c)
  end.

(** A chain without the octets that stand in for the lengths: what the
    client knows of it. *)
Definition erase (f : frame) : ptr * list Z * kind := (f_ptr f, f_bytes f, f_kind f).
Definition erased : Type := list (ptr * list Z * kind) * ptr * list Z.
(** The room it takes in the buffer. *)
Definition esize (e : erased) : Z :=
  let '(fs, _, c) := e in
  fold_right (fun '(_, bs, k) n => zlen bs + hole k + n) (zlen c) fs.

(** The objects of a chain whose octets start at offset [start]. *)
Fixpoint frames_repr (m : gmap nat CBB) (b : ptr) (start : Z) (top : bool)
    (fs : list frame) (q : ptr) : Prop :=
  match fs with
  | [] => exists off, m !! q = Some (mkCBB (Some b) off None 0 false top)
  | f :: fs' =>
      m !! f_ptr f = Some (mkCBB (Some b) (start + zlen (f_bytes f)) (Some (root fs' q))
        (hole (f_kind f)) (is_asn1 (f_kind f)) top) /\
      frames_repr m b (start + zlen (f_bytes f) + hole (f_kind f)) false fs' q
  end.

Definition buffer_ok (st : cbb_buffer_st) : Prop :=
  zlen (base_buf st) = base_cap st /\ 0 <= base_len st <= base_cap st /\ base_cap st < 2 ^ 64.

(** The buffer at [b] holds the octets [C]. *)
Definition buffer_at (h : heap) (b : ptr) (C : list Z) (resize : bool) : Prop :=
  exists st, bases h !! b = Some st /\ buffer_ok st /\
    ztake (base_len st) (base_buf st) = C /\ base_can_resize st = resize.

(** The chain [fs], [q], [bs] is what the heap holds after the octets [pre]
    of the enclosing elements. *)
Definition repr (h : heap) (b : ptr) (pre : list Z) (top resize : bool)
    (fs : list frame) (q : ptr) (bs : list Z) : Prop :=
  buffer_at h b (pre ++ image fs bs) resize /\
  frames_repr (cbbs h) b (zlen pre) top fs q /\
  NoDup (ptrs fs q) /\ Forall frame_ok fs.

(** Only the buffer [b] and the objects [ps] change. *)
Definition same_outside (h h' : heap) (b : ptr) (ps : list ptr) : Prop :=
  (forall p, p ∉ ps -> cbbs h' !! p = cbbs h !! p) /\
  (forall b', b' <> b -> bases h' !! b' = bases h !! b').

(** Only the buffer [b] changes. *)
Definition only_base (h h' : heap) (b : ptr) : Prop :=
  cbbs h' = cbbs h /\ (forall b', b' <> b -> bases h' !! b' = bases h !! b').

(** An allocation of [n] octets can not be refused. *)
Definition roomy (malloc_ok : Z -> bool) (resize : bool) (n : Z) : Prop :=
  resize = true /\ (forall k, malloc_ok k = true) /\ n < 2 ^ 64.

(** ** Lemmas: memory access *)

Lemma only_base_refl h b : only_base h h b.
Proof. done. Qed.

Lemma only_base_trans h1 h2 h3 b : only_base h1 h2 b -> only_base h2 h3 b -> only_base h1 h3 b.
Proof.
  intros [E1 B1] [E2 B2]. split; [congruence|]. intros. by rewrite B2, B1.
Qed.

Lemma same_outside_refl h b ps : same_outside h h b ps.
Proof. done. Qed.

Lemma same_outside_trans h1 h2 h3 b ps ps' :
  same_outside h1 h2 b ps -> same_outside h2 h3 b ps' -> ps ⊆ ps' -> same_outside h1 h3 b ps'.
Proof.
  intros [P1 B1] [P2 B2] Hsub. split.
  - intros p Hp. rewrite P2, P1; [done| |done]. intros Hin. by apply Hp, Hsub.
  - intros b' Hb. by rewrite B2, B1.
Qed.

Lemma same_outside_only_base h h' b ps : only_base h h' b -> same_outside h h' b ps.
Proof. intros [E B]. unfold same_outside. rewrite E. done. Qed.

Lemma wp_load_cbb p c h (Q : CBB -> heap -> Prop) E :
  cbbs h !! p = Some c -> Q c h -> wp (load_cbb p) h Q E.
Proof. unfold wp, load_cbb, valid. by intros ->. Qed.

Lemma wp_load_base b st h (Q : cbb_buffer_st -> heap -> Prop) E :
  bases h !! b = Some st -> Q st h -> wp (load_base b) h Q E.
Proof. unfold wp, load_base, valid. by intros ->. Qed.

Lemma wp_store_cbb p c h (Q : unit -> heap -> Prop) E :
  Q tt (mkHeap (bases h) (<[p := c]> (cbbs h))) -> wp (store_cbb p c) h Q E.
Proof. done. Qed.

Lemma wp_store_base b st h (Q : unit -> heap -> Prop) E :
  Q tt (mkHeap (<[b := st]> (bases h)) (cbbs h)) -> wp (store_base b st) h Q E.
Proof. done. Qed.

Lemma buffer_at_store h b st C r :
  buffer_ok st -> ztake (base_len st) (base_buf st) = C -> base_can_resize st = r ->
  buffer_at (mkHeap (<[b := st]> (bases h)) (cbbs h)) b C r /\
  only_base h (mkHeap (<[b := st]> (bases h)) (cbbs h)) b.
Proof.
  intros Hok HC Hr. split.
  - exists st. cbn. rewrite lookup_insert_eq. auto.
  - split; [done|]. intros b' Hb. cbn. by rewrite lookup_insert_ne.
Qed.

Lemma buffer_at_len h b C r st :
  buffer_at h b C r -> bases h !! b = Some st -> base_len st = zlen C.
Proof.
  intros (st' & Hst & (? & ? & ?) & <- & _) Hl. simplify_eq. rewrite zlen_ztake; lia.
Qed.

Lemma buffer_at_bound h b C r : buffer_at h b C r -> zlen C < 2 ^ 64.
Proof. intros (st & _ & (? & ? & ?) & <- & _). rewrite zlen_ztake; lia. Qed.

Lemma wp_base_write h b C1 old C2 new r :
  buffer_at h b (C1 ++ old ++ C2) r -> zlen new = zlen old ->
  wp (base_write b (zlen C1) new) h
    (fun _ h' => buffer_at h' b (C1 ++ new ++ C2) r /\ only_base h h' b) (fun _ => False).
Proof.
  intros (st & Hst & (Hcap & Hlen & Hmax) & HC & Hr) Hnew. unfold base_write.
  apply wp_bind. eapply wp_load_base; [done|].
  pose proof (ztake_zdrop (base_len st) (base_buf st)) as Hbuf. rewrite HC in Hbuf.
  assert (HL : base_len st = zlen C1 + zlen new + zlen C2).
  { rewrite <- (zlen_ztake (base_len st) (base_buf st)) by lia. rewrite HC, !zlen_app. lia. }
  assert (Hz : base_len st + zlen (zdrop (base_len st) (base_buf st)) = base_cap st).
  { rewrite zlen_zdrop; lia. }
  apply wp_bind. eapply wp_valid.
  { rewrite <- Hbuf, <- !app_assoc. by apply zwrite_mid. }
  apply wp_store_base, buffer_at_store; [|cbn|done].
  - repeat split; cbn; try lia. rewrite !zlen_app. lia.
  - rewrite !app_assoc. apply ztake_app_exact. rewrite !zlen_app. lia.
Qed.

Section growth.
Context (malloc_ok : Z -> bool).

Lemma wp_buffer_add h b C r n :
  buffer_at h b C r -> 0 <= n < 2 ^ 64 ->
  wp (cbb_buffer_add malloc_ok (Some b) n) h
    (fun off h' => off = zlen C /\
       exists junk, zlen junk = n /\ buffer_at h' b (C ++ junk) r /\ only_base h h' b)
    (fun h' => h' = h /\ ~ roomy malloc_ok r (zlen C + n)).
Proof.
  intros Hb Hn. pose proof Hb as (st & Hst & (Hcap & Hlen & Hmax) & HC & Hr).
  pose proof (buffer_at_len _ _ _ _ _ Hb Hst) as HL. unfold cbb_buffer_add.
  apply wp_bind. eapply wp_load_base; [done|]. cbv beta zeta.
  assert (Hu : (u64 (base_len st + n) = base_len st + n /\ base_len st + n < 2 ^ 64) \/
    (u64 (base_len st + n) = base_len st + n - 2 ^ 64 /\ 2 ^ 64 <= base_len st + n)).
  { unfold u64. destruct (Z.lt_ge_cases (base_len st + n) (2 ^ 64)).
    - left. split; [apply Z.mod_small|]; lia.
    - right. split; [|done]. symmetry. apply Z.mod_unique with 1; lia. }
  apply wp_bind, wp_check; intros Hc.
  2: { split; [done|]. unfold roomy. destruct (Z.ltb_spec (u64 (base_len st + n)) (base_len st));
       [|done]. lia. }
  destruct (Z.ltb_spec (u64 (base_len st + n)) (base_len st)); [done|].
  destruct Hu as [[Hu ?]|[Hu ?]]; [|lia]. rewrite Hu in *.
  apply wp_bind. destruct (Z.ltb_spec (base_cap st) (base_len st + n)).
  - apply wp_bind, wp_check; intros Hcan.
    2: { split; [done|]. unfold roomy. intuition congruence. }
    apply wp_bind, wp_check; intros Hma.
    2: { split; [done|]. unfold roomy. intros (_ & Hm & _). by rewrite Hm in Hma. }
    set (newcap := if (_ || _) then _ else _) in *.
    assert (Hnc : base_len st + n <= newcap < 2 ^ 64 /\ base_cap st <= newcap).
    { pose proof (Z.mod_pos_bound (base_cap st * 2) (2 ^ 64)). unfold newcap, u64.
      destruct (Z.ltb_spec ((base_cap st * 2) mod 2 ^ 64) (base_cap st)); cbn [orb]; [lia|].
      destruct (Z.ltb_spec ((base_cap st * 2) mod 2 ^ 64) (base_len st + n)); lia. }
    clearbody newcap.
    apply wp_store_base. apply wp_bind. eapply wp_load_base; [cbn; apply lookup_insert_eq|].
    cbn [base_buf base_len base_cap base_can_resize].
    apply wp_bind, wp_store_base, wp_ret. split; [lia|].
    exists (ztake n (zdrop (base_len st) (base_buf st ++ zrep (newcap - base_cap st) 0))).
    assert (Hz : zlen (base_buf st ++ zrep (newcap - base_cap st) 0) = newcap).
    { rewrite zlen_app, zlen_rep; lia. }
    split; [apply zlen_ztake; rewrite zlen_zdrop; lia|].
    cbn. rewrite insert_insert_eq. apply buffer_at_store; [repeat split; cbn; lia| |done].
    cbn. rewrite <- HC.
    rewrite <- (ztake_zdrop (base_len st) (ztake _ (_ ++ _))), ztake_ztake, zdrop_ztake by lia.
    rewrite ztake_app_le by lia. do 2 f_equal. lia.
  - apply wp_ret. apply wp_bind. eapply wp_load_base; [done|].
    apply wp_bind, wp_store_base, wp_ret. split; [done|].
    exists (ztake n (zdrop (base_len st) (base_buf st))).
    split; [apply zlen_ztake; rewrite zlen_zdrop; lia|].
    apply buffer_at_store; [repeat split; cbn; lia| |done].
    cbn. rewrite <- HC.
    rewrite <- (ztake_zdrop (base_len st) (ztake _ _)), ztake_ztake, zdrop_ztake by lia.
    do 2 f_equal. lia.
Qed.
End growth.

Lemma wp_put_be_loop h b C1 old C2 r v :
  buffer_at h b (C1 ++ old ++ C2) r -> 0 <= v ->
  wp (put_be_loop b (zlen C1) (length old) v) h
    (fun v' h' => v' = v / 256 ^ zlen old /\
       buffer_at h' b (C1 ++ be_bytes (length old) v ++ C2) r /\ only_base h h' b)
    (fun _ => False).
Proof.
  revert h C2 v. induction old as [|x old IH] using rev_ind; intros h C2 v Hb Hv.
  - apply wp_ret. split; [symmetry; apply Z.div_1_r|]. split; [done|apply only_base_refl].
  - rewrite length_app, Nat.add_comm. cbn [length Nat.add put_be_loop be_bytes].
    apply wp_bind.
    assert (Hb' : buffer_at h b ((C1 ++ old) ++ [x] ++ C2) r) by (by rewrite <- !app_assoc in *).
    replace (zlen C1 + Z.of_nat (length old)) with (zlen (C1 ++ old)) by apply zlen_app.
    eapply wp_conseq; [by apply (wp_base_write h b (C1 ++ old) [x] C2 [u8 v] r Hb')| |done].
    intros [] h1 [Hb1 Ho1]. rewrite <- app_assoc in Hb1.
    eapply wp_conseq; [apply (IH h1 ([u8 v] ++ C2) (Z.shiftr v 8) Hb1)| |done].
    + by apply Z.shiftr_nonneg.
    + intros v' h2 (-> & Hb2 & Ho2). rewrite Z.shiftr_div_pow2 in * by lia.
      split; [|split; [|by eapply only_base_trans]].
      * rewrite zlen_app, Z.add_comm, Z.pow_add_r by (try apply zlen_nonneg; done).
        change (2 ^ 8) with 256. change (256 ^ zlen [x]) with 256.
        pose proof (pow256_pos (zlen old) (zlen_nonneg old)).
        by rewrite Z.div_div by lia.
      * change (2 ^ 8) with 256 in Hb2. by rewrite <- !app_assoc.
Qed.

Lemma buffer_at_eq h b C C' r : buffer_at h b C r -> C = C' -> buffer_at h b C' r.
Proof. by intros ? <-. Qed.

Ltac app_tac := rewrite <- ?app_assoc; cbn [app]; done.

(** Reading back a part of the octets. *)
Lemma buffer_at_read h b C1 c C2 r st :
  buffer_at h b (C1 ++ c ++ C2) r -> bases h !! b = Some st ->
  ztake (zlen c) (zdrop (zlen C1) (base_buf st)) = c /\ zlen C1 + zlen c <= zlen (base_buf st).
Proof.
  intros (st' & Hst & (Hcap & Hlen & _) & HC & _) Hl.
  assert (st' = st) as -> by congruence.
  assert (HL : base_len st = zlen C1 + (zlen c + zlen C2)).
  { rewrite <- (zlen_ztake (base_len st) (base_buf st)) by lia. by rewrite HC, !zlen_app. }
  pose proof (zlen_nonneg C2). split; [|lia].
  rewrite <- (ztake_zdrop (base_len st) (base_buf st)), HC, <- !app_assoc.
  rewrite zdrop_app_exact by done. by rewrite ztake_app_exact.
Qed.

Lemma der_len_octets_len_len n :
  (if 0xffffff <? n then 5 else if 0xffff <? n then 4 else if 0xff <? n then 3
   else if 0x7f <? n then 2 else 1) = 1 + Z.of_nat (der_len_octets n).
Proof. unfold der_len_octets. repeat zcase; lia. Qed.

Section flush.
Context (malloc_ok : Z -> bool).

(** The DER case: the length octets of [c] are in place, except for the
    low-order ones that the caller still has to write. *)
Lemma wp_flush_asn1 h b C1 hl c r :
  buffer_at h b (C1 ++ hl ++ c) r -> zlen hl = 1 ->
  wp (cbb_flush_asn1 malloc_ok b (zlen C1) 1 (zlen C1 + 1) (zlen c)) h
    (fun res h' => only_base h h' b /\ zlen c <= 0xfffffffe /\
       exists x X v, zlen X = Z.of_nat (der_len_octets (zlen c)) /\
         res = (zlen C1 + 1, zlen X, v) /\ 0 <= v /\ v / 256 ^ zlen X = 0 /\
         buffer_at h' b (C1 ++ [x] ++ X ++ c) r /\
         x :: be_bytes (length X) v = der_len (zlen c))
    (fun h' => h' = h /\
       ~ (zlen c <= 0xfffffffe /\ roomy malloc_ok r (zlen C1 + zlen (der_len (zlen c)) + zlen c))).
Proof.
  intros Hb Hhl. pose proof (zlen_nonneg c) as Hc0. pose proof (zlen_nonneg C1) as HC0.
  unfold cbb_flush_asn1. apply wp_bind, wp_check; intros; [|done].
  apply wp_bind, wp_check; intros Hmax.
  2: { split; [done|]. destruct (Z.ltb_spec 4294967294 (zlen c)); [lia|done]. }
  destruct (Z.ltb_spec 4294967294 (zlen c)) as [|Hmax']; [done|].
  rewrite der_len_octets_len_len. cbv zeta. rewrite zlen_der_len. unfold der_len.
  destruct (der_len_octets_spec (zlen c)) as [(-> & Hs)|(k & -> & Hk & _ & Hkb)]; [lia|..].
  - (* short form *)
    change (1 + Z.of_nat 0 =? 1) with true. cbv iota.
    apply wp_bind, wp_ret. cbv beta iota. apply wp_bind.
    assert (Hu : u8 (zlen c) = zlen c) by (apply Z.mod_small; lia). rewrite Hu.
    eapply wp_conseq; [apply (wp_base_write h b C1 hl c [zlen c] r Hb); by rewrite Hhl| |done].
    intros [] h1 [Hb1 Ho]. apply wp_ret. split; [done|]. split; [lia|].
    exists (zlen c), [], 0. by repeat split.
  - (* long form *)
    destruct (Z.eqb_spec (1 + Z.of_nat (S k)) 1); [lia|].
    replace (1 + Z.of_nat (S k) - 1) with (Z.of_nat (S k)) by lia.
    apply wp_bind, wp_bind. eapply wp_conseq; [apply (wp_buffer_add malloc_ok h b _ r _ Hb); lia| |].
    2: { intros h' [-> Hr]. split; [done|]. intros [_ (? & ? & ?)]. apply Hr.
         repeat split; auto. rewrite !zlen_app. lia. }
    intros off h1 (-> & junk & Hj & Hb1 & Ho1).
    pose proof Hb1 as (st & Hst & _). apply wp_bind. eapply wp_load_base; [done|].
    assert (Hb1' : buffer_at h1 b ((C1 ++ hl) ++ c ++ junk) r) by
      (eapply buffer_at_eq; [exact Hb1|app_tac]).
    destruct (buffer_at_read _ _ _ _ _ _ _ Hb1' Hst) as [Hread Hin].
    rewrite zlen_app, Hhl in Hread, Hin.
    apply wp_bind, wp_must; [by apply Z.leb_le|]. rewrite Hread.
    set (X := ztake (Z.of_nat (S k)) (c ++ junk)).
    assert (HX : zlen X = Z.of_nat (S k)) by (apply zlen_ztake; rewrite zlen_app; lia).
    assert (Hb2 : buffer_at h1 b ((C1 ++ hl ++ X) ++ zdrop (Z.of_nat (S k)) (c ++ junk) ++ []) r).
    { eapply buffer_at_eq; [exact Hb1'|]. unfold X.
      by rewrite app_nil_r, <- !app_assoc, ztake_zdrop. }
    assert (Hpos : zlen C1 + 1 + Z.of_nat (S k) = zlen (C1 ++ hl ++ X))
      by (rewrite !zlen_app; lia).
    rewrite Hpos. apply wp_bind. eapply wp_conseq;
      [apply (wp_base_write h1 b _ _ [] c r Hb2); rewrite zlen_zdrop, zlen_app; rewrite ?zlen_app; lia| |done].
    intros [] h2 [Hb3 Ho2]. apply wp_ret. cbv beta iota.
    assert (Hb4 : buffer_at h2 b (C1 ++ hl ++ X ++ c) r).
    { eapply buffer_at_eq; [exact Hb3|]. by rewrite app_nil_r, <- !app_assoc. }
    assert (Hlor : Z.lor 128 (Z.of_nat (S k)) = 128 + Z.of_nat (S k)).
    { assert (k = 0 \/ k = 1 \/ k = 2 \/ k = 3)%nat as [->|[->|[->| ->]]] by lia; done. }
    rewrite Hlor. apply wp_bind. eapply wp_conseq;
      [apply (wp_base_write h2 b C1 hl (X ++ c) [128 + Z.of_nat (S k)] r Hb4); by rewrite Hhl| |done].
    intros [] h3 [Hb5 Ho3]. apply wp_ret.
    split; [eapply only_base_trans; [|eassumption]; by eapply only_base_trans|]. split; [lia|].
    exists (128 + Z.of_nat (S k)), X, (zlen c).
    assert (Hu : u8 (Z.of_nat (S k)) = zlen X) by (rewrite HX; apply Z.mod_small; lia).
    rewrite Hu. repeat split; auto.
    + apply Z.div_small. split; [lia|].
      rewrite HX. replace (Z.of_nat (S k)) with (Z.of_nat k + 1) by lia. lia.
    + do 2 f_equal. unfold zlen in HX. lia.
Qed.
End flush.

Section flush_rec.
Context (malloc_ok : Z -> bool).

Lemma repr_leaf_intro h b pre top r p bs off :
  buffer_at h b (pre ++ bs) r -> cbbs h !! p = Some (mkCBB (Some b) off None 0 false top) ->
  repr h b pre top r [] p bs.
Proof.
  intros Hb Hp. split; [done|]. split; [by exists off|].
  split; [apply NoDup_singleton|constructor].
Qed.

Lemma wp_flush_prefix h b pre top r f q c :
  repr h b pre top r [f] q c ->
  wp (cbb_flush_prefix malloc_ok (f_ptr f) b q) h
    (fun _ h' => exists px, prefix (f_kind f) (zlen c) = Some px /\
       repr h' b pre top r [] (f_ptr f) (f_bytes f ++ px ++ c) /\
       same_outside h h' b (ptrs [f] q))
    (fun h' => (exists hl, repr h' b pre top r [mkFrame (f_ptr f) (f_bytes f) (f_kind f) hl] q c) /\
       same_outside h h' b (ptrs [f] q) /\
       forall px, prefix (f_kind f) (zlen c) = Some px ->
         ~ roomy malloc_ok r (zlen (pre ++ f_bytes f ++ px ++ c))).
Proof.
  destruct f as [p bs0 k hl]. cbn [f_ptr f_bytes f_kind f_hole].
  intros (Hb & [Hp [off Hq]] & Hnd & Hfs). cbn in Hb, Hp, Hq.
  assert (Hok : frame_ok (mkFrame p bs0 k hl)) by (by inversion Hfs).
  destruct Hok as [Hk Hhl]. cbn in Hk, Hhl.
  assert (Hpq : p <> q).
  { unfold ptrs in Hnd. cbn in Hnd. apply NoDup_cons in Hnd as [Hn _]. intros ->. apply Hn, elem_of_cons. by left. }
  pose proof (buffer_at_bound _ _ _ _ Hb) as Hbd.
  pose proof Hb as (st & Hst & _). pose proof (buffer_at_len _ _ _ _ _ Hb Hst) as HL.
  rewrite !zlen_app in HL, Hbd.
  pose proof (zlen_nonneg pre). pose proof (zlen_nonneg bs0). pose proof (zlen_nonneg c).
  unfold cbb_flush_prefix. apply wp_bind. eapply wp_load_cbb; [done|].
  apply wp_bind. eapply wp_load_base; [done|].
  cbn [cbb_offset cbb_pending_len_len cbb_pending_is_asn1 cbb_base cbb_child cbb_is_top_level].
  rewrite Hhl in *. assert (Hh : 1 <= hole k) by (destruct k; cbn in *; lia).
  assert (Hu : u64 (zlen pre + zlen bs0 + hole k) = zlen pre + zlen bs0 + hole k)
    by (apply Z.mod_small; lia). rewrite Hu.
  apply wp_bind, wp_check; [intros _|intros Hx; destruct (Z.ltb_spec (zlen pre + zlen bs0 + hole k) (zlen pre + zlen bs0)); [lia|done]].
  apply wp_bind, wp_check; [intros _|intros Hx; destruct (Z.ltb_spec (base_len st) (zlen pre + zlen bs0 + hole k)); [lia|done]].
  replace (base_len st - (zlen pre + zlen bs0 + hole k)) with (zlen c) by lia.
  assert (HbC : buffer_at h b ((pre ++ bs0) ++ hl ++ c) r)
    by (eapply buffer_at_eq; [exact Hb|app_tac]).
  assert (HC1 : zlen pre + zlen bs0 = zlen (pre ++ bs0)) by (by rewrite zlen_app).
  (* the octets before the loop *)
  apply wp_bind, wp_conseq with
    (Q' := fun res h' => only_base h h' b /\
       exists x1 X v, res = (zlen (pre ++ bs0 ++ x1), zlen X, v) /\ 0 <= v /\
         buffer_at h' b ((pre ++ bs0 ++ x1) ++ X ++ c) r /\
         ((x1 = [] /\ zlen X = hole k) \/ v / 256 ^ zlen X = 0) /\
         prefix k (zlen c) = if v / 256 ^ zlen X =? 0 then Some (x1 ++ be_bytes (length X) v) else None)
    (E' := fun h' => h' = h /\ is_asn1 k = true /\ forall px, prefix k (zlen c) = Some px ->
         ~ roomy malloc_ok r (zlen (pre ++ bs0 ++ px ++ c))).
  { destruct k as [n|]; cbn [is_asn1].
    - apply wp_ret. split; [apply only_base_refl|]. exists [], hl, (zlen c). cbn in *.
      rewrite app_nil_r. split; [by rewrite Hhl, HC1|]. split; [done|].
      split; [by rewrite <- app_assoc in *|]. split; [by left|].
      rewrite Hhl. replace (Z.to_nat n) with (length hl) by (unfold zlen in Hhl; lia).
      pose proof (pow256_pos n).
      destruct (Z.ltb_spec (zlen c) (256 ^ n)).
      + by rewrite Z.div_small by lia.
      + destruct (Z.eqb_spec (zlen c / 256 ^ n) 0) as [E|]; [|done].
        apply Z.div_small_iff in E; lia.
    - cbn in Hhl, Hh |- *. rewrite HC1.
      eapply wp_conseq; [by apply (wp_flush_asn1 malloc_ok h b (pre ++ bs0) hl c r)| |].
      + intros res h' (Ho & Hmax & x & X & v & HX & -> & Hv & Hdiv & Hb' & Hder).
        split; [done|]. exists [x], X, v.
        split; [by rewrite app_assoc, (zlen_app _ [x])|]. split; [done|].
        split; [by eapply buffer_at_eq; [exact Hb'|app_tac]|].
        split; [by right|]. rewrite Hdiv, Z.eqb_refl, (proj2 (Z.leb_le _ _)) by lia.
        cbn [app]. by rewrite Hder.
      + intros h' [-> Hno]. split; [done|]. split; [done|]. intros px Hpx Hroom. apply Hno.
        destruct (Z.leb_spec (zlen c) 0xfffffffe); [|done]. injection Hpx as <-.
        split; [done|]. rewrite !zlen_app in *.
        by replace (zlen pre + zlen bs0 + zlen (der_len (zlen c)) + zlen c) with
          (zlen pre + (zlen bs0 + (zlen (der_len (zlen c)) + zlen c))) by lia. }
  2: { intros h' (-> & Ha & Hno). split; [|by split; [apply same_outside_refl|]].
       exists hl. split; [done|]. split; [by split; [|exists off]|]. split; [done|].
       constructor; [done|constructor]. }
  intros res h1 ([Hc1 Hbs1] & x1 & X & v & -> & Hv & Hb1 & Hhole & Hpx). cbv beta iota.
  apply wp_bind, wp_store_cbb. rewrite Hc1.
  replace (Z.to_nat (zlen X)) with (length X) by (unfold zlen; lia).
  apply wp_bind. eapply wp_conseq;
    [apply (wp_put_be_loop (mkHeap (bases h1) _) b _ X c r v); [exact Hb1|done]| |done].
  intros v' h2 (-> & Hb2 & [Hc2 Hbs2]). cbn in Hc2, Hbs2.
  assert (Hsame : forall cb cq, same_outside h
    (mkHeap (bases h2) (<[p := cb]> (<[q := cq]> (cbbs h2)))) b [p; q]).
  { intros cb cq. split.
    - intros p' Hp'. cbn. apply not_elem_of_cons in Hp' as [? Hp'].
      apply not_elem_of_cons in Hp' as [? _].
      by rewrite Hc2, !lookup_insert_ne by congruence.
    - intros b' Hb'. cbn. by rewrite Hbs2, Hbs1. }
  apply wp_bind, wp_check; intros Hz.
  - apply wp_bind. eapply wp_load_cbb; [rewrite Hc2, lookup_insert_ne; done|].
    apply wp_bind, wp_store_cbb. apply wp_bind.
    eapply wp_load_cbb; [cbn; rewrite Hc2, lookup_insert_ne, lookup_insert_eq; done|].
    apply wp_store_cbb. rewrite Hpx, Hz. eexists. split; [done|]. split.
    + eapply repr_leaf_intro; [|cbn; apply lookup_insert_eq].
      eapply buffer_at_eq; [exact Hb2|app_tac].
    + apply Hsame.
  - rewrite Hpx, Hz. split; [|split; [|done]].
    + destruct Hhole as [[-> Hhole]|Hd]; [|by rewrite Hd in Hz].
      exists (be_bytes (length X) v). split; [|split; [|split; [done|]]].
      * eapply buffer_at_eq; [exact Hb2|]. cbn. app_tac.
      * cbn. rewrite Hc2. split.
        -- rewrite lookup_insert_eq. repeat f_equal; [|done].
           rewrite app_nil_r. by rewrite zlen_app.
        -- exists off. by rewrite lookup_insert_ne.
      * constructor; [|constructor]. split; [done|]. cbn.
        rewrite zlen_be_bytes. by fold (zlen X).
    + split.
      * intros p' Hp'. rewrite Hc2, lookup_insert_ne; [done|].
        intros ->. apply Hp', elem_of_cons. by left.
      * intros b' Hb'. by rewrite Hbs2, Hbs1.
Qed.

Lemma roomy_mono r n m : roomy malloc_ok r n -> m <= n -> roomy malloc_ok r m.
Proof. intros (? & ? & ?) ?. repeat split; auto; lia. Qed.

Lemma zlen_prefix k n px : kind_ok k -> prefix k n = Some px -> hole k <= zlen px.
Proof.
  destruct k as [m|]; cbn; intros Hk.
  - destruct (n <? 256 ^ m); [|done]. intros [= <-]. rewrite zlen_be_bytes. lia.
  - destruct (n <=? 4294967294); [|done]. intros [= <-]. rewrite zlen_der_len. lia.
Qed.

Lemma repr_tail h b pre top r f fs q c :
  repr h b pre top r (f :: fs) q c ->
  repr h b (pre ++ f_bytes f ++ f_hole f) false r fs q c.
Proof.
  intros (Hb & [_ Hfr] & Hnd & Hfs). inversion_clear Hfs as [|? ? [_ Hh] Hfs'].
  split; [|split; [|split; [|done]]].
  - eapply buffer_at_eq; [exact Hb|]. cbn. app_tac.
  - rewrite !zlen_app, Hh. by rewrite Z.add_assoc.
  - unfold ptrs in *. cbn in Hnd. by apply NoDup_cons in Hnd as [_ ?].
Qed.

Lemma repr_cons h h' b pre top r f fs q c fs' q' c' :
  repr h b pre top r (f :: fs) q c ->
  repr h' b (pre ++ f_bytes f ++ f_hole f) false r fs' q' c' ->
  root fs' q' = root fs q -> ptrs fs' q' ⊆ ptrs fs q ->
  same_outside h h' b (ptrs fs q) ->
  repr h' b pre top r (f :: fs') q' c'.
Proof.
  intros (Hb & [Hp Hfr] & Hnd & Hfs) (Hb' & Hfr' & Hnd' & Hfs') Hroot Hsub (Hsame & _).
  apply NoDup_cons in Hnd as [Hni _]. inversion_clear Hfs as [|? ? Hok Hfs''].
  split; [|split; [|split]].
  - eapply buffer_at_eq; [exact Hb'|]. cbn. app_tac.
  - cbn. rewrite Hsame by done. rewrite Hroot. split; [done|].
    destruct Hok as [_ Hh]. rewrite !zlen_app, Hh in Hfr'. by rewrite Z.add_assoc in Hfr'.
  - apply NoDup_cons. split; [|done]. intros Hin. by apply Hni, Hsub.
  - by constructor.
Qed.

Lemma wp_flush_rec fuel h b pre top r fs q c :
  repr h b pre top r fs q c -> (length fs < fuel)%nat ->
  wp (cbb_flush_rec malloc_ok fuel (root fs q)) h
    (fun _ h' => exists out, collapse fs c = Some out /\
       repr h' b pre top r [] (root fs q) out /\ same_outside h h' b (ptrs fs q))
    (fun h' => (exists fs' q' c', repr h' b pre top r fs' q' c' /\
         root fs' q' = root fs q /\ ptrs fs' q' ⊆ ptrs fs q) /\
       same_outside h h' b (ptrs fs q) /\
       forall out, collapse fs c = Some out -> ~ roomy malloc_ok r (zlen (pre ++ out))).
Proof.
  revert h pre top fs. induction fuel as [|fuel IH]; intros h pre top fs Hr Hf; [lia|].
  destruct fs as [|f fs]; cbn [cbb_flush_rec].
  { pose proof Hr as (_ & [off Hq] & _). apply wp_bind. eapply wp_load_cbb; [exact Hq|].
    cbn [cbb_base cbb_child]. apply wp_ret. exists c. split; [done|].
    split; [done|apply same_outside_refl]. }
  pose proof Hr as (Hb & [Hp Hfr] & Hnd & Hfs). apply wp_bind.
  eapply wp_load_cbb; [exact Hp|]. cbn [cbb_base cbb_child cbb_pending_len_len].
  inversion_clear Hfs as [|? ? [Hk Hh] Hfs'].
  destruct (Z.eqb_spec (hole (f_kind f)) 0) as [E|_].
  { destruct (f_kind f); cbn in *; lia. }
  pose proof (repr_tail _ _ _ _ _ _ _ _ _ Hr) as Hr'. cbn [length] in Hf.
  apply wp_bind. eapply wp_conseq; [apply (IH _ _ _ _ Hr'); lia| |].
  - intros _ h1 (out1 & Hout1 & Hr1 & Hs1).
    assert (Hsub1 : ptrs [] (root fs q) ⊆ ptrs fs q).
    { unfold ptrs. destruct fs; cbn; set_solver. }
    assert (Hr1' : repr h1 b pre top r [f] (root fs q) out1) by (by eapply repr_cons).
    assert (Hsub2 : ptrs [f] (root fs q) ⊆ ptrs (f :: fs) q).
    { unfold ptrs in *. cbn in *. set_solver. }
    assert (Hs1' : same_outside h h1 b (ptrs (f :: fs) q)).
    { eapply same_outside_trans; [exact Hs1|apply same_outside_refl|].
      unfold ptrs. cbn. set_solver. }
    eapply wp_conseq; [apply (wp_flush_prefix _ _ _ _ _ _ _ _ Hr1')| |].
    + intros _ h2 (px & Hpx & Hr2 & Hs2). exists (f_bytes f ++ px ++ out1).
      cbn [collapse]. rewrite Hout1. cbn. rewrite Hpx. split; [done|]. split; [done|].
      eapply same_outside_trans; [exact Hs1'| |done].
      by eapply same_outside_trans; [exact Hs2|apply same_outside_refl|].
    + intros h2 ([hl Hr2] & Hs2 & Hno). split; [|split].
      * eexists _, _, _. split; [exact Hr2|]. split; [done|]. exact Hsub2.
      * eapply same_outside_trans; [exact Hs1'| |done].
        by eapply same_outside_trans; [exact Hs2|apply same_outside_refl|].
      * intros out. cbn [collapse]. rewrite Hout1. cbn.
        destruct (prefix (f_kind f) (zlen out1)) as [px|] eqn:Hpx; [|done].
        cbn. intros [= <-]. by apply Hno.
  - intros h1 ((fs' & q' & c' & Hr1 & Hroot & Hsub) & Hs1 & Hno). split; [|split].
    + exists (f :: fs'), q', c'. split; [by eapply repr_cons|]. split; [done|].
      unfold ptrs in *. cbn. set_solver.
    + eapply same_outside_trans; [exact Hs1|apply same_outside_refl|].
      unfold ptrs. cbn. set_solver.
    + intros out. cbn [collapse]. destruct (collapse fs c) as [out1|] eqn:Hout1; [|done].
      cbn. destruct (prefix (f_kind f) (zlen out1)) as [px|] eqn:Hpx; [|done].
      cbn. intros [= <-] Hroom. apply (Hno out1 eq_refl). eapply roomy_mono; [exact Hroom|].
      pose proof (zlen_prefix _ _ _ Hk Hpx). rewrite !zlen_app, Hh. lia.
Qed.

(** The fuel of [CBB_flush] is enough: the objects of the chain are distinct. *)
Lemma repr_fuel h b pre top r fs q c :
  repr h b pre top r fs q c -> (length fs < S (size (cbbs h)))%nat.
Proof.
  intros (_ & Hfr & Hnd & _). cut (list_to_set (ptrs fs q) ⊆ dom (cbbs h)).
  - intros Hsub%subseteq_size. rewrite size_list_to_set, size_dom in Hsub by done.
    unfold ptrs in Hsub. rewrite length_app, length_map in Hsub. cbn in Hsub. lia.
  - clear Hnd. generalize dependent (zlen pre). revert top.
    induction fs as [|f fs IH]; intros top start Hfr; unfold ptrs in *; cbn in *.
    + destruct Hfr as [off Hq]. pose proof (elem_of_dom_2 _ _ _ Hq). set_solver.
    + destruct Hfr as [Hp Hfr]. pose proof (elem_of_dom_2 _ _ _ Hp).
      specialize (IH _ _ Hfr). set_solver.
Qed.

Lemma wp_CBB_flush h b pre top r fs q c :
  repr h b pre top r fs q c ->
  wp (CBB_flush malloc_ok (root fs q)) h
    (fun _ h' => exists out, collapse fs c = Some out /\
       repr h' b pre top r [] (root fs q) out /\ same_outside h h' b (ptrs fs q))
    (fun h' => (exists fs' q' c', repr h' b pre top r fs' q' c' /\
         root fs' q' = root fs q /\ ptrs fs' q' ⊆ ptrs fs q) /\
       same_outside h h' b (ptrs fs q) /\
       forall out, collapse fs c = Some out -> ~ roomy malloc_ok r (zlen (pre ++ out))).
Proof. intros Hr. apply wp_flush_rec; [done|]. by eapply repr_fuel. Qed.
End flush_rec.

(** ** The operations on a chain *)

Section chain_operations.
Context (malloc_ok : Z -> bool).

(** After a failure the chain is still well formed, and the failure has
    a reason: a length that has no prefix, or memory. *)
Definition failed h h' b pre top r fs q (ps : list ptr) : Prop :=
  (exists fs' q' c', repr h' b pre top r fs' q' c' /\
     root fs' q' = root fs q /\ ptrs fs' q' ⊆ ptrs fs q) /\
  same_outside h h' b ps.

Lemma leaf_store h b pre top r p bs off :
  cbbs h !! p = Some (mkCBB (Some b) off None 0 false top) ->
  buffer_at h b (pre ++ bs) r -> repr h b pre top r [] p bs.
Proof. intros. by eapply repr_leaf_intro. Qed.

Lemma repr_leaf_base h h' b pre top r p bs bs' :
  repr h b pre top r [] p bs -> only_base h h' b -> buffer_at h' b (pre ++ bs') r ->
  repr h' b pre top r [] p bs'.
Proof.
  intros (_ & [off Hp] & _) [Hc _] Hb. eapply repr_leaf_intro; [done|]. by rewrite Hc.
Qed.

Lemma failed_leaf h h' b pre top r fs q p bs :
  repr h' b pre top r [] p bs -> p = root fs q -> same_outside h h' b (ptrs fs q) ->
  failed h h' b pre top r fs q (ptrs fs q).
Proof.
  intros Hr -> Hs. split; [|done]. exists [], (root fs q), bs. split; [done|]. split; [done|].
  unfold ptrs. destruct fs; cbn; set_solver.
Qed.

(** Appending to a leaf: [cbb_buffer_add] and then a write of what was
    added. *)
Lemma wp_leaf_add h b pre top r p bs n :
  repr h b pre top r [] p bs -> 0 <= n < 2 ^ 64 ->
  wp (cbb_buffer_add malloc_ok (Some b) n) h
    (fun off h' => off = zlen (pre ++ bs) /\ only_base h h' b /\
       exists junk, zlen junk = n /\ repr h' b pre top r [] p (bs ++ junk))
    (fun h' => h' = h /\ ~ roomy malloc_ok r (zlen (pre ++ bs) + n)).
Proof.
  intros Hr Hn. pose proof Hr as (Hb & _). cbn [image] in Hb.
  eapply wp_conseq; [by apply (wp_buffer_add malloc_ok h b _ r n Hb)| |done].
  intros off h' (-> & junk & Hj & Hb' & Ho). split; [done|]. split; [done|].
  exists junk. split; [done|]. eapply repr_leaf_base; [done..|]. by rewrite app_assoc.
Qed.

Lemma wp_leaf_write h b pre top r p bs junk new :
  repr h b pre top r [] p (bs ++ junk) -> zlen new = zlen junk ->
  wp (base_write b (zlen (pre ++ bs)) new) h
    (fun _ h' => only_base h h' b /\ repr h' b pre top r [] p (bs ++ new)) (fun _ => False).
Proof.
  intros Hr Hn. pose proof Hr as (Hb & _). cbn [image] in Hb.
  assert (Hb' : buffer_at h b ((pre ++ bs) ++ junk ++ []) r)
    by (eapply buffer_at_eq; [exact Hb|]; by rewrite app_nil_r, app_assoc).
  eapply wp_conseq; [by apply (wp_base_write h b _ _ _ new r Hb')| |done].
  intros _ h' [Hb2 Ho]. split; [done|]. eapply repr_leaf_base; [done..|].
  eapply buffer_at_eq; [exact Hb2|]. by rewrite app_nil_r, app_assoc.
Qed.

(** The common shape of an operation on [p]: flush, then an action on the
    leaf [p] that ends with the octets [post out]. *)
Definition appends {A} (m : M heap A) (p : ptr) (post : list Z -> list Z) : Prop :=
  forall h b pre top r fs q c,
    repr h b pre top r fs q c -> root fs q = p ->
    wp m h
      (fun _ h' => exists out, collapse fs c = Some out /\
         repr h' b pre top r [] p (post out) /\ same_outside h h' b (ptrs fs q) /\
         (fs = [] -> only_base h h' b))
      (fun h' => failed h h' b pre top r fs q (ptrs fs q) /\
         forall out, collapse fs c = Some out ->
           ~ roomy malloc_ok r (zlen (pre ++ post out))).

Lemma root_in_ptrs fs q : [root fs q] ⊆ ptrs fs q.
Proof. unfold ptrs. destruct fs; cbn; set_solver. Qed.

Lemma same_outside_mono h h' b ps ps' :
  same_outside h h' b ps -> ps ⊆ ps' -> same_outside h h' b ps'.
Proof.
  intros. eapply same_outside_trans; [done|apply same_outside_refl|done].
Qed.

Lemma same_outside_step h1 h2 h3 b ps ps' :
  same_outside h1 h2 b ps' -> same_outside h2 h3 b ps -> ps ⊆ ps' -> same_outside h1 h3 b ps'.
Proof.
  intros H12 H23 Hsub. eapply same_outside_trans; [exact H12| |done].
  by eapply same_outside_mono.
Qed.

Lemma CBB_flush_leaf h b pre top r p out :
  repr h b pre top r [] p out -> CBB_flush malloc_ok p h = Ret tt h.
Proof.
  intros (_ & [off Hp] & _). unfold CBB_flush. cbn [cbb_flush_rec]. unfold load_cbb. mstep.
  by rewrite Hp.
Qed.

Lemma appends_after_flush {A} (m : M heap A) p post :
  (forall out, zlen out <= zlen (post out)) ->
  (forall h b pre top r out, repr h b pre top r [] p out ->
     wp m h (fun _ h' => repr h' b pre top r [] p (post out) /\ only_base h h' b)
       (fun h' => (exists out', repr h' b pre top r [] p out') /\ only_base h h' b /\
          ~ roomy malloc_ok r (zlen (pre ++ post out)))) ->
  appends (CBB_flush malloc_ok p;; m) p post.
Proof.
  intros Hlen Hm h b pre top r fs q c Hr <-. apply wp_bind.
  pose proof (root_in_ptrs fs q) as Hin.
  assert (Hleaf : forall h1, fs = [] -> CBB_flush malloc_ok (root fs q) h = Ret tt h1 -> h1 = h).
  { intros h1 -> Hfl. erewrite CBB_flush_leaf in Hfl by exact Hr. congruence. }
  pose proof (wp_CBB_flush malloc_ok _ _ _ _ _ _ _ _ Hr) as Hw. revert Hw Hleaf. unfold wp at 1 2.
  destruct (CBB_flush malloc_ok (root fs q) h) as [[] h1|h1|]; intros Hw Hleaf; [| |done].
  - destruct Hw as (out & Hout & Hr1 & Hs1).
    eapply wp_conseq; [by apply Hm| |].
    + intros _ h2 [Hr2 Ho2]. exists out. split; [done|]. split; [done|]. split.
      * eapply same_outside_step; [done| |exact Hin]. by apply same_outside_only_base.
      * intros E. by rewrite (Hleaf h1 E eq_refl) in Ho2.
    + intros h2 ([out' Hr2] & Ho2 & Hno). split; [|intros ? ?; simplify_eq; done].
      eapply failed_leaf; [done..|]. eapply same_outside_step; [done| |exact Hin].
      by apply same_outside_only_base.
  - destruct Hw as (Hf & Hs & Hno). split; [by split|]. intros out Hout Hroom.
    apply (Hno out Hout). eapply roomy_mono; [exact Hroom|].
    rewrite !zlen_app. specialize (Hlen out). lia.
Qed.

Lemma appends_seq {A B} (m1 : M heap A) (m2 : A -> M heap B) p post1 post2 :
  (forall out, zlen (post1 out) <= zlen (post2 (post1 out))) ->
  appends m1 p post1 -> (forall a, appends (m2 a) p post2) ->
  appends (mbind m2 m1) p (fun out => post2 (post1 out)).
Proof.
  intros Hlen H1 H2 h b pre top r fs q c Hr Hroot. apply wp_bind.
  pose proof (root_in_ptrs fs q) as Hin. rewrite Hroot in Hin.
  eapply wp_conseq; [by apply (H1 _ _ _ _ _ _ _ _ Hr)| |].
  - intros a h1 (out & Hout & Hr1 & Hs1 & Ho1).
    eapply wp_conseq; [by apply (H2 a _ _ _ _ _ _ _ _ Hr1)| |].
    + intros _ h2 (out2 & [= <-] & Hr2 & Hs2 & Ho2). exists out. split; [done|]. split; [done|].
      split; [by eapply same_outside_step|]. intros E. eapply only_base_trans; eauto.
    + intros h2 [((fs' & q' & c' & Hr' & Hroot' & Hsub') & Hs2) Hno]. split.
      * split; [|by eapply same_outside_step].
        exists fs', q', c'. split; [done|]. split; [by rewrite Hroot'|].
        etrans; [exact Hsub'|done].
      * intros ? ?. simplify_eq. by apply Hno.
  - intros h1 [Hf Hno]. split; [done|]. intros out Hout Hroom.
    apply (Hno out Hout). eapply roomy_mono; [exact Hroom|].
    rewrite !zlen_app. specialize (Hlen out). lia.
Qed.

Lemma appends_ext {A} (m : M heap A) p post post' :
  (forall out, post' out = post out) -> appends m p post -> appends m p post'.
Proof.
  intros He Hm h b pre top r fs q c Hr Hroot.
  eapply wp_conseq; [by apply (Hm h b pre top r fs q c)|..]; setoid_rewrite He; auto.
Qed.

Lemma appends_check {A} (b : bool) (m : M heap A) p post :
  b = true -> appends m p post -> appends (check b;; m) p post.
Proof. intros -> Hm h ? pre top r fs q c Hr Hroot. by apply Hm. Qed.

Lemma CBB_flush_appends p : appends (CBB_flush malloc_ok p) p (fun out => out).
Proof.
  intros h b pre top r fs q c Hr <-.
  pose proof (wp_CBB_flush malloc_ok _ _ _ _ _ _ _ _ Hr) as Hw. revert Hw. unfold wp.
  destruct (CBB_flush malloc_ok (root fs q) h) as [[] h1|h1|] eqn:E; [|intros (? & ? & ?); split; [by split|done]|done].
  intros (out & ? & ? & ?). exists out. split; [done|]. split; [done|]. split; [done|].
  intros ->. erewrite CBB_flush_leaf in E by exact Hr. injection E as <-. done.
Qed.

Lemma CBB_add_bytes_appends p data :
  zlen data < 2 ^ 64 -> appends (CBB_add_bytes malloc_ok p data) p (fun out => out ++ data).
Proof.
  intros Hd. pose proof (zlen_nonneg data). apply appends_after_flush.
  { intros. rewrite zlen_app. lia. }
  intros h b pre top r out Hr. pose proof Hr as (_ & [off Hp] & _).
  apply wp_bind. eapply wp_load_cbb; [exact Hp|]. cbn [cbb_base].
  apply wp_bind. eapply wp_conseq; [apply (wp_leaf_add _ _ _ _ _ _ _ _ Hr); lia| |].
  - intros o h1 (-> & Ho1 & junk & Hj & Hr1). apply wp_bind.
    apply (wp_valid (Some b) b); [done|].
    eapply wp_conseq; [apply (wp_leaf_write _ _ _ _ _ _ _ _ _ Hr1); by rewrite Hj| |done].
    intros _ h2 [Ho2 Hr2]. split; [done|].
    by eapply only_base_trans.
  - intros h1 [-> Hno]. split; [by exists out|]. split; [apply only_base_refl|].
    by rewrite app_assoc, zlen_app.
Qed.

Lemma CBB_add_space_appends p n :
  0 <= n < 2 ^ 64 -> appends (CBB_add_space malloc_ok p n) p (fun out => out ++ zrep n 0).
Proof.
  intros Hn. apply appends_after_flush.
  { intros. rewrite zlen_app, zlen_rep; lia. }
  intros h b pre top r out Hr. pose proof Hr as (_ & [off Hp] & _).
  apply wp_bind. eapply wp_load_cbb; [exact Hp|]. cbn [cbb_base].
  apply wp_bind. eapply wp_conseq; [apply (wp_leaf_add _ _ _ _ _ _ _ _ Hr); lia| |].
  - intros o h1 (-> & Ho1 & junk & Hj & Hr1). apply wp_bind.
    apply (wp_valid (Some b) b); [done|]. apply wp_bind.
    eapply wp_conseq; [apply (wp_leaf_write _ _ _ _ _ _ _ _ _ Hr1); by rewrite Hj, zlen_rep by lia| |done].
    intros _ h2 [Ho2 Hr2]. apply wp_ret. split; [done|].
    by eapply only_base_trans.
  - intros h1 [-> Hno]. split; [by exists out|]. split; [apply only_base_refl|].
    by rewrite app_assoc, zlen_app, zlen_rep by lia.
Qed.

Lemma cbb_add_u_appends p v n :
  0 <= v -> 1 <= n <= 4 ->
  appends (cbb_add_u malloc_ok p v n) p (fun out => out ++ be_bytes (Z.to_nat n) v).
Proof.
  intros Hv Hn. unfold cbb_add_u. destruct (Z.eqb_spec n 0); [lia|].
  destruct (Z.ltb_spec 4 n); [lia|]. apply appends_check; [done|].
  apply appends_after_flush.
  { intros. rewrite zlen_app, zlen_be_bytes. lia. }
  intros h b pre top r out Hr. pose proof Hr as (_ & [off Hp] & _).
  apply wp_bind. eapply wp_load_cbb; [exact Hp|]. cbn [cbb_base].
  apply wp_bind. eapply wp_conseq; [apply (wp_leaf_add _ _ _ _ _ _ _ _ Hr); lia| |].
  - intros o h1 (-> & Ho1 & junk & Hj & Hr1). apply wp_bind.
    apply (wp_valid (Some b) b); [done|]. apply wp_bind.
    pose proof Hr1 as (Hb1 & _). cbn [image] in Hb1.
    assert (Hb1' : buffer_at h1 b ((pre ++ out) ++ junk ++ []) r)
      by (eapply buffer_at_eq; [exact Hb1|]; by rewrite app_nil_r, app_assoc).
    replace (Z.to_nat n) with (length junk) by (unfold zlen in Hj; lia).
    eapply wp_conseq; [by apply (wp_put_be_loop h1 b _ junk [] r v Hb1')| |done].
    intros _ h2 (_ & Hb2 & Ho2). apply wp_ret. split.
    + eapply repr_leaf_base; [exact Hr1|done|]. eapply buffer_at_eq; [exact Hb2|].
      by rewrite app_nil_r, app_assoc.
    + by eapply only_base_trans.
  - intros h1 [-> Hno]. split; [by exists out|]. split; [apply only_base_refl|].
    rewrite app_assoc, zlen_app, zlen_be_bytes, Z2Nat.id by lia. done.
Qed.

Lemma CBB_add_u8_appends p v :
  0 <= v < 256 -> appends (CBB_add_u8 malloc_ok p v) p (fun out => out ++ [v]).
Proof.
  intros Hv. apply appends_check; [destruct (Z.ltb_spec 0xff v); [lia|done]|].
  assert (Hu : u32 v = v) by (apply Z.mod_small; lia). rewrite Hu.
  replace [v] with (be_bytes (Z.to_nat 1) v).
  - apply cbb_add_u_appends; lia.
  - change (be_bytes (Z.to_nat 1) v) with ([] ++ [v mod 256]). by rewrite Z.mod_small by lia.
Qed.

Lemma CBB_add_u32_appends p v :
  0 <= v < 2 ^ 32 -> appends (CBB_add_u32 malloc_ok p v) p (fun out => out ++ be_bytes 4 v).
Proof.
  intros Hv. apply appends_check; [destruct (Z.ltb_spec 0xffffffff v); [lia|done]|].
  assert (Hu : u32 v = v) by (apply Z.mod_small; lia). rewrite Hu.
  apply cbb_add_u_appends; lia.
Qed.

Lemma CBB_add_u64_appends p v :
  0 <= v < 2 ^ 64 -> appends (CBB_add_u64 malloc_ok p v) p (fun out => out ++ be_bytes 8 v).
Proof.
  intros Hv. unfold CBB_add_u64.
  change 0xffffffff with (2 ^ 32 - 1). rewrite land_ones_mod, Z.shiftr_div_pow2 by lia.
  assert (0 <= v / 2 ^ 32 < 2 ^ 32)
    by (split; [apply Z.div_pos; lia|apply Z.div_lt_upper_bound; lia]).
  pose proof (Z.mod_pos_bound v (2 ^ 32)).
  assert (Ha : u32 (v / 2 ^ 32) = v / 2 ^ 32) by (apply Z.mod_small; lia).
  assert (Hb : u32 (v mod 2 ^ 32) = v mod 2 ^ 32) by (apply Z.mod_small; lia).
  rewrite Ha, Hb.
  eapply appends_ext; [|apply (appends_seq _ (fun _ => CBB_add_u32 malloc_ok p (v mod 2 ^ 32)) p
    (fun out => out ++ be_bytes 4 (v / 2 ^ 32)) (fun out => out ++ be_bytes 4 (v mod 2 ^ 32)))].
  - intros out. change 8%nat with (4 + 4)%nat. rewrite be_bytes_app, app_assoc.
    by rewrite <- (be_bytes_mod 4 v).
  - intros out. rewrite (zlen_app (out ++ _)), zlen_be_bytes. lia.
  - by apply CBB_add_u32_appends.
  - intros _. apply CBB_add_u32_appends, Z.mod_pos_bound. lia.
Qed.

(** *** Operations that may change the chain *)

(** The object at [p] can still be cleaned up. *)
Definition alive (h : heap) (b : ptr) (p : ptr) : Prop :=
  (exists c, cbbs h !! p = Some c /\ cbb_base c = Some b) /\ is_Some (bases h !! b).

(** [m] closes what hangs below [p], leaving the octets [out] in [p], and
    then turns the leaf [p] into the chain that [post out] describes, with
    new objects among [extra].  When it fails, either the lengths are to
    blame or the memory. *)
Definition transforms {A} (m : M heap A) (p : ptr) (extra : list ptr)
    (post : list Z -> erased) : Prop :=
  forall h b pre top r fs q c,
    repr h b pre top r fs q c -> root fs q = p -> (forall x, x ∈ extra -> x ∉ ptrs fs q) ->
    wp m h
      (fun _ h' => exists out fs' q' c', collapse fs c = Some out /\
         post out = (map erase fs', q', c') /\
         repr h' b pre top r fs' q' c' /\ root fs' q' = p /\
         ptrs fs' q' ⊆ extra ++ ptrs fs q /\
         same_outside h h' b (extra ++ ptrs fs q))
      (fun h' => alive h' b p /\ same_outside h h' b (extra ++ ptrs fs q) /\
         forall out, collapse fs c = Some out ->
           ~ roomy malloc_ok r (zlen pre + esize (post out))).

Lemma repr_alive h b pre top r fs q c : repr h b pre top r fs q c -> alive h b (root fs q).
Proof.
  intros ((st & Hst & _) & Hfr & _). split; [|by exists st].
  destruct fs; cbn in *; [destruct Hfr as [off ->]|destruct Hfr as [-> _]]; eauto.
Qed.

Lemma failed_alive h h' b pre top r fs q ps :
  failed h h' b pre top r fs q ps -> alive h' b (root fs q).
Proof. intros ((fs' & q' & c' & Hr & <- & _) & _). by eapply repr_alive. Qed.

Lemma appends_transforms {A} (m : M heap A) p post :
  appends m p post -> transforms m p [] (fun out => ([], p, post out)).
Proof.
  intros Hm h b pre top r fs q c Hr Hroot _.
  eapply wp_conseq; [by apply (Hm _ _ _ _ _ _ _ _ Hr)| |].
  - intros _ h' (out & Hout & Hr' & Hs & _). exists out, [], p, (post out).
    split_and!; [done..| |done]. rewrite <- Hroot. apply root_in_ptrs.
  - intros h' [Hf Hno]. split; [rewrite <- Hroot; by eapply failed_alive|].
    split; [apply Hf|]. intros out Hout. cbn. rewrite <- zlen_app. by apply Hno.
Qed.

(** The same, from a leaf. *)
Definition leaf_transforms {A} (m : M heap A) (p : ptr) (extra : list ptr)
    (post : list Z -> erased) : Prop :=
  forall h b pre top r out,
    repr h b pre top r [] p out -> p ∉ extra ->
    wp m h
      (fun _ h' => exists fs' q' c', post out = (map erase fs', q', c') /\
         repr h' b pre top r fs' q' c' /\ root fs' q' = p /\
         ptrs fs' q' ⊆ p :: extra /\ same_outside h h' b (p :: extra))
      (fun h' => alive h' b p /\ same_outside h h' b (p :: extra) /\
         ~ roomy malloc_ok r (zlen pre + esize (post out))).

Lemma transforms_after {A B} (m1 : M heap A) (m2 : A -> M heap B) p extra post1 post2 :
  (forall out, zlen (post1 out) <= esize (post2 (post1 out))) ->
  appends m1 p post1 -> (forall a, leaf_transforms (m2 a) p extra post2) ->
  transforms (mbind m2 m1) p extra (fun out => post2 (post1 out)).
Proof.
  intros Hlen H1 H2 h b pre top r fs q c Hr Hroot Hx. apply wp_bind.
  pose proof (root_in_ptrs fs q) as Hin. rewrite Hroot in Hin.
  assert (Hsub : p :: extra ⊆ extra ++ ptrs fs q) by set_solver.
  eapply wp_conseq; [by apply (H1 _ _ _ _ _ _ _ _ Hr)| |].
  - intros a h1 (out & Hout & Hr1 & Hs1 & _).
    assert (Hs1' : same_outside h h1 b (extra ++ ptrs fs q))
      by (eapply same_outside_mono; [exact Hs1|set_solver]).
    eapply wp_conseq; [apply (H2 a _ _ _ _ _ _ Hr1)| |].
    + intros Hx1. apply (Hx p Hx1), Hin. set_solver.
    + intros _ h2 (fs' & q' & c' & Hpost & Hr2 & Hroot2 & Hp2 & Hs2).
      exists out, fs', q', c'. split_and!; [done..|by etrans|]. by eapply same_outside_step.
    + intros h2 (Ha & Hs2 & Hno). split_and!; [done|by eapply same_outside_step|].
      intros ? ?. simplify_eq. by apply Hno.
  - intros h1 [Hf Hno]. split; [rewrite <- Hroot; by eapply failed_alive|].
    split; [eapply same_outside_mono; [apply Hf|set_solver]|]. intros out Hout Hroom.
    apply (Hno out Hout). eapply roomy_mono; [exact Hroom|].
    rewrite zlen_app. specialize (Hlen out). lia.
Qed.

Lemma transforms_check {A} (b : bool) (m : M heap A) p extra post :
  b = true -> transforms m p extra post -> transforms (check b;; m) p extra post.
Proof. intros -> Hm h ? pre top r fs q c Hr Hroot Hx. by apply Hm. Qed.

Lemma wp_assoc {A B C} (m1 : M heap A) (m2 : A -> M heap B) (m3 : B -> M heap C) h Q E :
  wp (mbind m3 (mbind m2 m1)) h Q E -> wp (mbind (fun a => mbind m3 (m2 a)) m1) h Q E.
Proof. unfold wp. mstep. by destruct (m1 h). Qed.

Lemma transforms_assoc {A B C} (m1 : M heap A) (m2 : A -> M heap B) (m3 : B -> M heap C)
    p extra post :
  transforms (mbind m3 (mbind m2 m1)) p extra post ->
  transforms (mbind (fun a => mbind m3 (m2 a)) m1) p extra post.
Proof.
  intros Hm h b pre top r fs q c Hr Hroot Hx. apply wp_assoc. by apply Hm.
Qed.

(** *** Opening an element *)

Lemma wp_set_offset h b pre top r p out off :
  repr h b pre top r [] p out ->
  wp (cbb_set_offset p off) h
    (fun _ h' => repr h' b pre top r [] p out /\
       cbbs h' !! p = Some (mkCBB (Some b) off None 0 false top) /\ same_outside h h' b [p])
    (fun _ => False).
Proof.
  intros (Hb & [off0 Hp] & _). apply wp_bind. eapply wp_load_cbb; [exact Hp|].
  apply wp_store_cbb. cbn [cbb_base cbb_child cbb_pending_len_len cbb_pending_is_asn1 cbb_is_top_level].
  split; [eapply repr_leaf_intro; [exact Hb|]; apply lookup_insert_eq|].
  split; [apply lookup_insert_eq|]. split; [|done].
  intros p' Hp'. apply lookup_insert_ne. intros ->. apply Hp', elem_of_cons. by left.
Qed.

Lemma wp_attach h b pre top r p child bs k hl :
  buffer_at h b (pre ++ bs ++ hl) r ->
  cbbs h !! p = Some (mkCBB (Some b) (zlen (pre ++ bs)) None 0 false top) ->
  child <> p -> kind_ok k -> zlen hl = hole k ->
  wp (cbb_attach p child (hole k) (is_asn1 k)) h
    (fun _ h' => repr h' b pre top r [mkFrame p bs k hl] child [] /\
       same_outside h h' b [child; p])
    (fun _ => False).
Proof.
  intros Hb Hp Hne Hk Hh. apply wp_bind. eapply wp_load_cbb; [exact Hp|].
  apply wp_bind, wp_store_cbb. apply wp_bind.
  eapply wp_load_cbb; [cbn; rewrite lookup_insert_ne; done|]. apply wp_store_cbb.
  cbn [cbbs bases cbb_base cbb_offset cbb_is_top_level]. split; [|split; [|done]].
  - split; [|split; [split|split]].
    + eapply buffer_at_eq; [exact Hb|]. cbn. by rewrite app_nil_r.
    + cbn. by rewrite lookup_insert_eq, zlen_app.
    + exists 0. cbn. by rewrite lookup_insert_ne, lookup_insert_eq.
    + unfold ptrs. cbn. apply NoDup_cons. split; [|apply NoDup_singleton].
      intros Hin%list_elem_of_singleton. done.
    + repeat constructor; done.
  - intros p' Hp'. cbn. rewrite !lookup_insert_ne; [done|..]; intros ->; apply Hp'; set_solver.
Qed.

Lemma repr_read h b pre top r p out :
  repr h b pre top r [] p out ->
  exists st off, cbbs h !! p = Some (mkCBB (Some b) off None 0 false top) /\
    bases h !! b = Some st /\ base_len st = zlen (pre ++ out).
Proof.
  intros (Hb & [off Hp] & _). pose proof Hb as (st & Hst & _).
  exists st, off. split_and!; [done..|]. by eapply buffer_at_len.
Qed.

(** Reserve the octets of the length, then attach the child. *)
Lemma opens_leaf {A} (reserve : ptr -> M heap A) p child k :
  kind_ok k ->
  (forall h b pre top r out off, repr h b pre top r [] p out ->
     cbbs h !! p = Some (mkCBB (Some b) off None 0 false top) ->
     wp (reserve b) h
       (fun _ h' => exists hl, zlen hl = hole k /\ repr h' b pre top r [] p (out ++ hl) /\ only_base h h' b)
       (fun h' => alive h' b p /\ same_outside h h' b [p] /\
          ~ roomy malloc_ok r (zlen (pre ++ out) + hole k))) ->
  leaf_transforms (
    c ← load_cbb p;
    b ← valid (cbb_base c);
    st ← load_base b;
    cbb_set_offset p (base_len st);;
    reserve b;;
    cbb_attach p child (hole k) (is_asn1 k)) p [child] (fun out => ([(p, out, k)], child, [])).
Proof.
  intros Hk Hres h b pre top r out Hr Hne.
  destruct (repr_read _ _ _ _ _ _ _ Hr) as (st & off & Hp & Hst & HL).
  apply wp_bind. eapply wp_load_cbb; [exact Hp|]. cbn [cbb_base].
  apply wp_bind. apply (wp_valid (Some b) b); [done|]. apply wp_bind.
  eapply wp_load_base; [exact Hst|]. rewrite HL. apply wp_bind.
  eapply wp_conseq; [apply (wp_set_offset _ _ _ _ _ _ _ (zlen (pre ++ out)) Hr)| |done].
  intros _ h1 (Hr1 & Hp1 & Hs1). apply wp_bind.
  assert (Hsub : [p] ⊆ [p; child]) by set_solver.
  eapply wp_conseq; [apply (Hres _ _ _ _ _ _ _ Hr1 Hp1)| |].
  - intros _ h2 (hl & Hhl & (Hb2 & _) & Ho2). cbn [image] in Hb2.
    pose proof Ho2 as [Hc2 _]. rewrite <- Hc2 in Hp1.
    eapply wp_conseq; [apply (wp_attach h2 b pre top r p child out k hl)| |done]; auto.
    + intros ->. apply Hne. set_solver.
    + intros _ h3 [Hr3 Hs3]. exists [mkFrame p out k hl], child, []. split_and!; [done..| | |].
      * done.
      * unfold ptrs. cbn. set_solver.
      * eapply same_outside_trans; [exact Hs1| |exact Hsub].
        eapply same_outside_trans; [by apply (same_outside_only_base _ _ _ [])| |set_solver].
        eapply same_outside_mono; [exact Hs3|set_solver].
  - intros h2 (Ha & Ho2 & Hno). split_and!; [done| |].
    + eapply same_outside_trans; [exact Hs1| |exact Hsub]. by eapply same_outside_mono.
    + cbn [esize fold_right]. rewrite zlen_app in Hno. rewrite zlen_nil.
      replace (zlen pre + (zlen out + hole k + 0)) with (zlen pre + zlen out + hole k) by lia. done.
Qed.

Lemma cbb_add_length_prefixed_transforms p child n :
  1 <= n <= 4 ->
  transforms (cbb_add_length_prefixed malloc_ok p child n) p [child]
    (fun out => ([(p, out, Fixed n)], child, [])).
Proof.
  intros Hn. apply (transforms_after _ _ p [child] (fun out => out)
    (fun out => ([(p, out, Fixed n)], child, []))).
  - intros out. cbn. rewrite zlen_nil. lia.
  - apply CBB_flush_appends.
  - intros _. apply (opens_leaf (fun b => prefix_bytes ← cbb_buffer_add malloc_ok (Some b) n;
      base_write b prefix_bytes (zrep n 0)) p child (Fixed n) Hn).
    intros h b pre top r out off Hr Hp. apply wp_bind.
    eapply wp_conseq; [apply (wp_leaf_add _ _ _ _ _ _ _ n Hr); lia| |].
    + intros o h1 (-> & Ho1 & junk & Hj & Hr1).
      eapply wp_conseq; [apply (wp_leaf_write _ _ _ _ _ _ _ _ _ Hr1); by rewrite Hj, zlen_rep by lia| |done].
      intros _ h2 [Ho2 Hr2]. exists (zrep n 0). split_and!; [rewrite zlen_rep; cbn; lia|done|].
      by eapply only_base_trans.
    + intros h1 [-> Hno]. split_and!; [by eapply (repr_alive _ _ _ _ _ _ _ _ Hr)|done|done].
Qed.

Lemma CBB_add_asn1_transforms p child tag :
  0 <= tag < 256 -> Z.land tag 0x1f <> 0x1f ->
  transforms (CBB_add_asn1 malloc_ok p child tag) p [child]
    (fun out => ([(p, out ++ [tag], Asn1)], child, [])).
Proof.
  intros Ht Hm. unfold CBB_add_asn1.
  apply transforms_check; [destruct (Z.ltb_spec 0xff tag); [lia|done]|].
  apply transforms_check; [destruct (Z.eqb_spec (Z.land tag 0x1f) 0x1f); done|].
  apply transforms_assoc.
  apply (transforms_after _ _ p [child] (fun out => out ++ [tag])
    (fun out => ([(p, out, Asn1)], child, []))).
  { intros out. cbn. rewrite zlen_nil. lia. }
  { apply (appends_seq (CBB_flush malloc_ok p) (fun _ => CBB_add_u8 malloc_ok p tag) p
      (fun out => out) (fun out => out ++ [tag])).
    - intros. rewrite zlen_app. pose proof (zlen_nonneg [tag]). lia.
    - apply CBB_flush_appends.
    - intros _. by apply CBB_add_u8_appends. }
  intros _. apply (opens_leaf (fun _ => CBB_add_u8 malloc_ok p 0) p child Asn1); [done|].
  intros h b pre top r out off Hr Hp.
  eapply wp_conseq; [apply (CBB_add_u8_appends p 0 ltac:(lia) _ _ _ _ _ _ _ _ Hr); done| |].
  - intros _ h1 (out' & [= <-] & Hr1 & _ & Ho1). exists [0]. split_and!; [done..|]. by apply Ho1.
  - intros h1 [Hf Hno]. split_and!; [by eapply (failed_alive _ _ _ _ _ _ []), Hf|apply Hf|].
    specialize (Hno out eq_refl). rewrite app_assoc, zlen_app in Hno. done.
Qed.

(** *** A sequence of octets written to a leaf *)

Definition emits {A} (m : M heap A) (p : ptr) (a : A) (octets : list Z) : Prop :=
  forall h b pre top r bs, repr h b pre top r [] p bs ->
    wp m h
      (fun a' h' => a' = a /\ repr h' b pre top r [] p (bs ++ octets) /\ only_base h h' b)
      (fun h' => same_outside h h' b [p] /\ alive h' b p /\
         ~ roomy malloc_ok r (zlen (pre ++ bs) + zlen octets)).

Lemma emits_ret {A} p (a : A) : emits (mret a) p a [].
Proof. intros h b pre top r bs Hr. apply wp_ret. by rewrite app_nil_r. Qed.

Lemma emits_bind {A B} (m : M heap A) (k : A -> M heap B) p a b o1 o2 :
  emits m p a o1 -> emits (k a) p b o2 -> emits (mbind k m) p b (o1 ++ o2).
Proof.
  intros H1 H2 h c pre top r bs Hr. apply wp_bind.
  eapply wp_conseq; [apply (H1 _ _ _ _ _ _ Hr)| |].
  - intros a' h1 (-> & Hr1 & Ho1). eapply wp_conseq; [apply (H2 _ _ _ _ _ _ Hr1)| |].
    + intros b' h2 (-> & Hr2 & Ho2). rewrite app_assoc. split_and!; [done..|].
      by eapply only_base_trans.
    + intros h2 (Hs & Ha & Hno). split_and!; [|done|].
      * eapply same_outside_trans; [by apply (same_outside_only_base _ _ _ [])|exact Hs|set_solver].
      * rewrite app_assoc, zlen_app in Hno. rewrite (zlen_app o1). by rewrite Z.add_assoc.
  - intros h1 (Hs & Ha & Hno). split_and!; [done..|]. intros Hroom. apply Hno.
    eapply roomy_mono; [exact Hroom|]. rewrite (zlen_app o1). zlen_solve.
Qed.

Lemma emits_u8 p v : 0 <= v < 256 -> emits (CBB_add_u8 malloc_ok p v) p tt [v].
Proof.
  intros Hv h b pre top r bs Hr.
  eapply wp_conseq; [apply (CBB_add_u8_appends p v Hv _ _ _ _ _ _ _ _ Hr); done| |].
  - intros [] h1 (out & [= <-] & Hr1 & _ & Ho). split_and!; [done..|]. by apply Ho.
  - intros h1 [Hf Hno]. split_and!; [apply Hf|by eapply (failed_alive _ _ _ _ _ _ [])|].
    specialize (Hno bs eq_refl). by rewrite app_assoc, zlen_app in Hno.
Qed.

Lemma byte_of_shift v n :
  Z.land (Z.shiftr v (8 * Z.of_nat n)) 0xff = (v / 256 ^ Z.of_nat n) mod 256.
Proof.
  change 0xff with (2 ^ 8 - 1). rewrite land_ones_mod, Z.shiftr_div_pow2 by lia.
  by rewrite Z.pow_mul_r by lia.
Qed.

Lemma mod_256_succ v n :
  v mod 256 ^ Z.of_nat (S n) =
  ((v / 256 ^ Z.of_nat n) mod 256) * 256 ^ Z.of_nat n + v mod 256 ^ Z.of_nat n.
Proof.
  rewrite Nat2Z.inj_succ, Z.pow_succ_r, (Z.mul_comm 256) by lia.
  pose proof (pow256_pos (Z.of_nat n)). rewrite Z.rem_mul_r by lia. lia.
Qed.

Lemma uint64_loop_started p v n :
  emits (add_asn1_uint64_loop malloc_ok p v n true) p true (be_bytes n v).
Proof.
  induction n as [|n IH]; [apply emits_ret|]. cbn [add_asn1_uint64_loop negb andb].
  rewrite byte_of_shift, be_bytes_cons.
  pose proof (Z.mod_pos_bound (v / 256 ^ Z.of_nat n) 256).
  apply (emits_bind _ _ p tt true [] (_ :: _)); [apply emits_ret|].
  apply (emits_bind _ _ p tt true [_] _); [apply emits_u8; lia|]. exact IH.
Qed.

Lemma uint64_loop_spec p v n :
  let w := v mod 256 ^ Z.of_nat n in
  emits (add_asn1_uint64_loop malloc_ok p v n false) p (negb (w =? 0))
    (if w =? 0 then [] else int_octets w).
Proof.
  induction n as [|n IH]; cbv zeta; [change (256 ^ Z.of_nat 0) with 1; rewrite Z.mod_1_r; apply emits_ret|].
  cbn [add_asn1_uint64_loop negb andb]. cbv zeta. rewrite byte_of_shift, mod_256_succ.
  set (x := (v / 256 ^ Z.of_nat n) mod 256).
  assert (Hx : 0 <= x < 256) by (apply Z.mod_pos_bound; lia).
  pose proof (pow256_pos (Z.of_nat n)) as Hp.
  pose proof (Z.mod_pos_bound v (256 ^ Z.of_nat n)) as Hm.
  destruct (Z.eqb_spec x 0) as [->|Hx0]; [apply IH|].
  destruct (Z.eqb_spec (x * 256 ^ Z.of_nat n + v mod 256 ^ Z.of_nat n) 0) as [E|_]; [nia|].
  assert (Hoct : int_octets (x * 256 ^ Z.of_nat n + v mod 256 ^ Z.of_nat n) =
    (if x <? 128 then [] else [0]) ++ [x] ++ be_bytes n v).
  { set (l := _ ++ _ ++ _). assert (Hl : uint_octets_ok l).
    { split; subst l.
      - apply Forall_app. split; [destruct (x <? 128); bytes_tac|].
        constructor; [exact Hx|apply is_byte_be_bytes].
      - destruct (Z.ltb_spec x 128); cbn [app]; [destruct (be_bytes n v)|]; lia. }
    rewrite (uint_octets_canonical l Hl). f_equal. subst l.
    rewrite be_val_app. replace (be_val (if _ : bool then _ else _)) with 0 by (by destruct (x <? 128)).
    cbn [app]. rewrite be_val_cons, zlen_be_bytes, be_val_bytes. lia. }
  rewrite Hoct. cbn [negb]. apply (emits_bind _ _ p tt).
  - rewrite land_byte_0x80 by done. destruct (Z.ltb_spec x 128); [apply emits_ret|apply emits_u8; lia].
  - apply (emits_bind _ _ p tt); [apply emits_u8; lia|apply uint64_loop_started].
Qed.

Lemma wp_with_local {A} p (m : M heap A) h Q E :
  wp m h (fun a h' => Q a (mkHeap (bases h') (delete p (cbbs h'))))
    (fun h' => E (mkHeap (bases h') (delete p (cbbs h')))) ->
  wp (with_local p m) h Q E.
Proof. unfold wp, with_local. by destruct (m h). Qed.

Lemma uint64_octets_emitted p v :
  0 <= v < 2 ^ 64 ->
  emits (started ← add_asn1_uint64_loop malloc_ok p v 8 false;
         if negb started then CBB_add_u8 malloc_ok p 0 else mret tt) p tt (int_octets v).
Proof.
  intros Hv. pose proof (uint64_loop_spec p v 8) as H. cbv zeta in H.
  rewrite (Z.mod_small v) in H by (change (256 ^ Z.of_nat 8) with (2 ^ 64); lia).
  replace (int_octets v) with
    ((if v =? 0 then [] else int_octets v) ++ (if v =? 0 then [0] else [])).
  2: { destruct (Z.eqb_spec v 0) as [->|]; [done|apply app_nil_r]. }
  eapply emits_bind; [exact H|]. rewrite negb_involutive.
  destruct (v =? 0); [apply emits_u8; lia|apply emits_ret].
Qed.

Lemma zlen_int_octets v : 0 <= v < 2 ^ 64 -> 1 <= zlen (int_octets v) <= 9.
Proof.
  intros Hv. unfold int_octets. rewrite zlen_be_bytes.
  assert (Z.log2 (2 * v + 1) < 65) by (apply Z.log2_lt_pow2; lia).
  pose proof (Z.log2_nonneg (2 * v + 1)).
  assert (0 <= Z.log2 (2 * v + 1) / 8 <= 8); [|lia].
  split; [apply Z.div_pos; lia|]. apply Z.lt_succ_r, Z.div_lt_upper_bound; lia.
Qed.

Lemma alive_same_outside h h' b b' ps p :
  alive h b' p -> same_outside h h' b ps -> p ∉ ps -> b' <> b -> alive h' b' p.
Proof. intros [Hc Hb] [Hs Hs'] Hp Hne. split; [by rewrite Hs|by rewrite Hs']. Qed.

Lemma alive_delete h b p child :
  p <> child -> alive h b p -> alive (mkHeap (bases h) (delete child (cbbs h))) b p.
Proof. intros Hne [Hc Hb]. split; [|done]. cbn. by rewrite lookup_delete_ne. Qed.

Lemma same_outside_delete h h' b ps child :
  same_outside h h' b ps -> child ∈ ps ->
  same_outside h (mkHeap (bases h') (delete child (cbbs h'))) b ps.
Proof.
  intros [Hs Hb] Hin. split; [|done]. intros p Hp. cbn.
  rewrite lookup_delete_ne; [by apply Hs|]. by intros ->.
Qed.

Lemma CBB_add_asn1_uint64_transforms p child v :
  0 <= v < 2 ^ 64 -> p <> child ->
  transforms (CBB_add_asn1_uint64 malloc_ok p child v) p [child]
    (fun out => ([], p, out ++ der_element CBS_ASN1_INTEGER (int_octets v))).
Proof.
  intros Hv Hpc h b pre top r fs q c Hr Hroot Hx.
  pose proof (zlen_int_octets v Hv) as Hn.
  assert (Hin : p ∈ ptrs fs q) by (rewrite <- Hroot; apply (root_in_ptrs fs q); set_solver).
  assert (Hder : forall out, zlen (out ++ der_element CBS_ASN1_INTEGER (int_octets v)) =
    zlen out + 2 + zlen (int_octets v)).
  { intros out. unfold der_element, der_header. autorewrite with csimp. rewrite zlen_der_len.
    destruct (der_len_octets_spec (zlen (int_octets v))) as [(-> & _)|(? & _ & _ & ? & _)]; lia. }
  apply wp_with_local. unfold CBB_add_asn1_uint64. apply wp_bind.
  eapply wp_conseq; [apply (CBB_add_asn1_transforms p child CBS_ASN1_INTEGER ltac:(done) ltac:(done)
    _ _ _ _ _ _ _ _ Hr Hroot Hx)| |].
  2: { intros h1 (Ha & Hs & Hno). split_and!; [by apply alive_delete| |].
       - apply same_outside_delete; [done|set_solver].
       - intros out Hout Hroom. apply (Hno out Hout). eapply roomy_mono; [exact Hroom|].
         cbn. rewrite Hder, zlen_app. change (zlen [_]) with 1. change (zlen []) with 0. lia. }
  intros _ h1 (out & fs1 & q1 & c1 & Hout & Hpost & Hr1 & Hroot1 & Hp1 & Hs1).
  destruct fs1 as [|[p1 bs1 k1 hl] [|? ?]]; [discriminate Hpost| |discriminate Hpost]. injection Hpost as <- <- <- <- <-.
  assert (Hpc1 : forall h2, alive h2 b p ->
    same_outside h h2 b ([child] ++ ptrs fs q) ->
    alive (mkHeap (bases h2) (delete child (cbbs h2))) b p /\
    same_outside h (mkHeap (bases h2) (delete child (cbbs h2))) b ([child] ++ ptrs fs q)).
  { intros h2 Ha Hs. split; [by apply alive_delete|].
    apply same_outside_delete; [done|set_solver]. }
  pose proof (repr_tail _ _ _ _ _ _ _ _ _ Hr1) as Hr1'. cbn [f_bytes f_hole] in Hr1'.
  apply wp_assoc. apply wp_bind.
  assert (Hhl : zlen hl = 1).
  { destruct Hr1 as (_ & _ & _ & Hf). inversion_clear Hf as [|? ? [_ Hh] _]. exact Hh. }
  eapply wp_conseq; [apply (uint64_octets_emitted child v Hv _ _ _ _ _ _ Hr1')| |].
  2: { intros h2 (Hs2 & [_ Hb2] & Hno).
       assert (Ha1 : alive h2 b p).
       { split; [|exact Hb2]. destruct (repr_alive _ _ _ _ _ _ _ _ Hr1) as [Hc1 _].
         cbn [root f_ptr] in Hc1. rewrite (proj1 Hs2); [exact Hc1|set_solver]. }
       assert (Hs3 : same_outside h h2 b ([child] ++ ptrs fs q))
         by (eapply same_outside_step; [exact Hs1|exact Hs2|set_solver]).
       destruct (Hpc1 h2 Ha1 Hs3) as [Ha2 Hs4]. split_and!; [exact Ha2|exact Hs4|].
       intros out' Hout' Hroom. simplify_eq. apply Hno. eapply roomy_mono; [exact Hroom|].
       cbn [esize fold_right]. rewrite Hder. autorewrite with csimp. lia. }
  intros _ h2 (_ & Hr2 & Ho2). cbn [app] in Hr2.
  assert (Hr3 : repr h2 b pre top r [mkFrame p (out ++ [CBS_ASN1_INTEGER]) Asn1 hl] child (int_octets v)).
  { eapply repr_cons; [exact Hr1|exact Hr2|done|done|]. by apply same_outside_only_base. }
  assert (Hcol : collapse [mkFrame p (out ++ [CBS_ASN1_INTEGER]) Asn1 hl] (int_octets v) =
    Some (out ++ der_element CBS_ASN1_INTEGER (int_octets v))).
  { cbn [collapse f_bytes f_kind prefix]. cbn. destruct (Z.leb_spec (zlen (int_octets v)) 4294967294); [|lia].
    cbn. by rewrite <- app_assoc. }
  assert (Hps : ptrs [mkFrame p (out ++ [CBS_ASN1_INTEGER]) Asn1 hl] child ⊆ [child] ++ ptrs fs q)
    by (unfold ptrs at 1; cbn; set_solver).
  assert (Hs2 : same_outside h h2 b ([child] ++ ptrs fs q)).
  { eapply same_outside_trans; [exact Hs1| |done]. by apply same_outside_only_base. }
  eapply wp_conseq; [apply (wp_CBB_flush malloc_ok _ _ _ _ _ _ _ _ Hr3)| |]; rewrite Hcol.
  - intros _ h3 (out' & [= <-] & (Hb3 & [off Hf3] & Hnd & _) & Hs3). cbn [root f_ptr] in Hf3, Hnd.
    exists out, [], p, (out ++ der_element CBS_ASN1_INTEGER (int_octets v)).
    split_and!; [done|done| |done| |].
    + eapply repr_leaf_intro; [exact Hb3|]. cbn. by rewrite lookup_delete_ne.
    + unfold ptrs at 1. cbn. set_solver.
    + apply same_outside_delete; [|set_solver]. by eapply same_outside_step.
  - intros h3 ((fs' & q' & c' & Hr4 & Hroot4 & _) & Hs3 & Hno).
    destruct (Hpc1 h3) as [Ha Hs4].
    + change p with (root [mkFrame p (out ++ [CBS_ASN1_INTEGER]) Asn1 hl] child).
      rewrite <- Hroot4. by eapply repr_alive.
    + by eapply same_outside_step.
    + split_and!; [exact Ha|exact Hs4|]. intros out' Hout'. simplify_eq.
      specialize (Hno _ eq_refl). by rewrite zlen_app in Hno.
Qed.
End chain_operations.
