(* ===== verification/Builder.v ===== *)
(** * The builder of CBB.v as an abstract machine

    What a client of libcrypto/bytestring/bs_cbb.c may rely on: a stack of
    open elements, each with the octets written to it, and operations that
    close what hangs below their argument and append to it.  The concrete
    operations of [Cbb] on the heap refine this machine. *)

From S2P Require Import Prelude Cbs Cbb.
Open Scope Z_scope.

(** ** The abstract machine *)

Definition eptrs (fs : list (ptr * list Z * kind)) (q : ptr) : list ptr := map (fun f => f.1.1) fs ++ [q].
Definition eroot (B : erased) : ptr :=
  match B.1.1 with [] => B.1.2 | f :: _ => f.1.1 end.

(** The chain above and from [p] on. *)
Fixpoint locate (p : ptr) (fs : list (ptr * list Z * kind)) (q : ptr) :
    option (list (ptr * list Z * kind) * list (ptr * list Z * kind)) :=
  match fs with
  | [] => if decide (p = q) then Some ([], []) else None
  | f :: fs' =>
      if decide (p = f.1.1) then Some ([], fs)
      else '(l, r) ← locate p fs' q; Some (f :: l, r)
  end.

(** Close all the elements of a chain. *)
Fixpoint eclose (fs : list (ptr * list Z * kind)) (c : list Z) : option (list Z) :=
  match fs with
  | [] => Some c
  | (_, bs, k) :: fs' =>
      out ← eclose fs' c;
      px ← prefix k (zlen out);
      Some (bs ++ px ++ out)
  end.

(** The octets have to be counted by a [size_t]. *)
Definition a_store (B : erased) : M erased unit := fun B0 =>
  if esize B <? 2 ^ 64 then Ret tt B else Fail B0.

(** Close what hangs below [p], then replace the leaf [p]; the objects
    [extra] are new.  The client must not pass an object that is not open. *)
Definition a_at (p : ptr) (extra : list ptr) (post : list Z -> erased) : M erased unit := fun B =>
  let '(fs, q, c) := B in
  match locate p fs q with
  | None => UB
  | Some (l, r) =>
      if forallb (fun x => bool_decide (x ∉ eptrs fs q)) extra then
        match eclose r c with
        | None => Fail B
        | Some out => let '(fs', q', c') := post out in a_store (l ++ fs', q', c') B
        end
      else UB
  end.

Definition a_append (p : ptr) (octets : list Z) : M erased unit :=
  a_at p [] (fun out => ([], p, out ++ octets)).
Definition a_open (p child : ptr) (octets : list Z) (k : kind) : M erased unit :=
  a_at p [child] (fun out => ([(p, out ++ octets, k)], child, [])).
Definition a_discard (p : ptr) : M erased unit := fun B =>
  let '(fs, q, c) := B in
  match locate p fs q with
  | None => UB
  | Some (l, []) => Ret tt B
  | Some (l, (_, bs, _) :: _) => Ret tt (l, p, bs)
  end.

(** ** Commands *)

Inductive cmd : Type :=
  | Flush (p : ptr)
  | Bytes (p : ptr) (data : list Z)
  | Space (p : ptr) (n : Z)
  | U8 (p : ptr) (v : Z)
  | U16 (p : ptr) (v : Z)
  | U24 (p : ptr) (v : Z)
  | U32 (p : ptr) (v : Z)
  | U64 (p : ptr) (v : Z)
  | U8_prefixed (p child : ptr)
  | U16_prefixed (p child : ptr)
  | U24_prefixed (p child : ptr)
  | U32_prefixed (p child : ptr)
  | Asn1_open (p child : ptr) (tag : Z)
  | Asn1_uint64 (p child : ptr) (v : Z)
  | Discard (p : ptr).

(** The arguments are in the range of their C types. *)
Definition cmd_ok (c : cmd) : Prop :=
  match c with
  | Bytes _ data => zlen data < 2 ^ 64
  | Space _ n => 0 <= n < 2 ^ 64
  | U8 _ v | U16 _ v | U24 _ v | U32 _ v | U64 _ v | Asn1_uint64 _ _ v => 0 <= v < 2 ^ 64
  | Asn1_open _ _ tag => 0 <= tag < 2 ^ 32
  | _ => True
  end.

Section exec.
Context (malloc_ok : Z -> bool).

(** The call of a command. *)
Definition exec (c : cmd) : M heap unit :=
  match c with
  | Flush p => CBB_flush malloc_ok p
  | Bytes p data => CBB_add_bytes malloc_ok p data
  | Space p n => _ ← CBB_add_space malloc_ok p n; mret tt
  | U8 p v => CBB_add_u8 malloc_ok p v
  | U16 p v => CBB_add_u16 malloc_ok p v
  | U24 p v => CBB_add_u24 malloc_ok p v
  | U32 p v => CBB_add_u32 malloc_ok p v
  | U64 p v => CBB_add_u64 malloc_ok p v
  | U8_prefixed p child => CBB_add_u8_length_prefixed malloc_ok p child
  | U16_prefixed p child => CBB_add_u16_length_prefixed malloc_ok p child
  | U24_prefixed p child => CBB_add_u24_length_prefixed malloc_ok p child
  | U32_prefixed p child => CBB_add_u32_length_prefixed malloc_ok p child
  | Asn1_open p child tag => CBB_add_asn1 malloc_ok p child tag
  | Asn1_uint64 p child v => CBB_add_asn1_uint64 malloc_ok p child v
  | Discard p => CBB_discard_child p
  end.

Fixpoint exec_all (cs : list cmd) : M heap unit :=
  match cs with
  | [] => mret tt
  | c :: cs' => exec c;; exec_all cs'
  end.
End exec.

(** What a command means. *)
Definition denote (c : cmd) : M erased unit :=
  match c with
  | Flush p => a_append p []
  | Bytes p data => a_append p data
  | Space p n => a_append p (zrep n 0)
  | U8 p v => check (v <? 2 ^ 8);; a_append p (be_bytes 1 v)
  | U16 p v => check (v <? 2 ^ 16);; a_append p (be_bytes 2 v)
  | U24 p v => check (v <? 2 ^ 24);; a_append p (be_bytes 3 v)
  | U32 p v => check (v <? 2 ^ 32);; a_append p (be_bytes 4 v)
  | U64 p v => a_append p (be_bytes 8 v)
  | U8_prefixed p child => a_open p child [] (Fixed 1)
  | U16_prefixed p child => a_open p child [] (Fixed 2)
  | U24_prefixed p child => a_open p child [] (Fixed 3)
  | U32_prefixed p child => a_open p child [] (Fixed 4)
  | Asn1_open p child tag =>
      check ((tag <? 2 ^ 8) && negb (Z.land tag 0x1f =? 0x1f));;
      a_open p child [tag] Asn1
  | Asn1_uint64 p child v =>
      a_at p [child] (fun out => ([], p, out ++ der_element CBS_ASN1_INTEGER (int_octets v)))
  | Discard p => a_discard p
  end.

Fixpoint denote_all (cs : list cmd) : M erased unit :=
  match cs with
  | [] => mret tt
  | c :: cs' => denote c;; denote_all cs'
  end.

(** What a run of commands on a new builder produces. *)
Definition build (p : ptr) (cs : list cmd) : outcome erased (list Z) :=
  (denote_all cs;; a_append p [];; gets (fun B => B.2)) ([], p, []).

(** ** The concrete chain and its abstraction *)

Lemma eclose_erase fs c : eclose (map erase fs) c = collapse fs c.
Proof. induction fs as [|f fs IH]; [done|]. cbn. by rewrite IH. Qed.

Lemma eptrs_erase fs q : eptrs (map erase fs) q = ptrs fs q.
Proof. unfold eptrs, ptrs. by rewrite map_map. Qed.

Lemma eroot_erase fs q c : eroot (map erase fs, q, c) = root fs q.
Proof. by destruct fs. Qed.

Lemma image_app fs1 fs2 c : image (fs1 ++ fs2) c = image fs1 [] ++ image fs2 c.
Proof. induction fs1 as [|f fs1 IH]; [done|]. cbn. by rewrite IH, <- !app_assoc. Qed.

Lemma zlen_image fs q c : Forall frame_ok fs -> zlen (image fs c) = esize (map erase fs, q, c).
Proof.
  cbn. induction 1 as [|f fs [_ Hh] Hfs IH]; [done|]. cbn. rewrite !zlen_app, Hh, IH. lia.
Qed.

Lemma esize_app l fs q c :
  esize (l ++ fs, q, c) = esize (l, q, []) + esize (fs, q, c).
Proof.
  cbn. induction l as [|[[p bs] k] l IH]; cbn; [by rewrite zlen_nil|]. rewrite IH. lia.
Qed.

Lemma esize_ptr fs q q' c : esize (fs, q, c) = esize (fs, q', c).
Proof. done. Qed.

(** [top] of the part of a chain that comes after [l]. *)
Definition top_after {A} (l : list A) (top : bool) : bool := match l with [] => top | _ => false end.

Lemma repr_sub h b pre top r l fs q c :
  repr h b pre top r (l ++ fs) q c ->
  repr h b (pre ++ image l []) (top_after l top) r fs q c.
Proof.
  revert pre top. induction l as [|f l IH]; intros pre top Hr; cbn in *.
  - by rewrite app_nil_r.
  - apply repr_tail in Hr. apply IH in Hr. rewrite <- !app_assoc in Hr.
    by destruct l.
Qed.

Lemma repr_plug h h' b pre top r l fs q c fs' q' c' ps :
  repr h b pre top r (l ++ fs) q c ->
  repr h' b (pre ++ image l []) (top_after l top) r fs' q' c' ->
  root fs' q' = root fs q ->
  (forall x, x ∈ map f_ptr l -> x ∉ ptrs fs' q') ->
  same_outside h h' b ps -> (forall x, x ∈ map f_ptr l -> x ∉ ps) ->
  repr h' b pre top r (l ++ fs') q' c'.
Proof.
  revert pre top. induction l as [|f l IH]; intros pre top Hr Hr' Hroot Hni Hs Hps.
  - cbn in *. by rewrite app_nil_r in Hr'.
  - cbn [app] in *.
    assert (Hrt : root (l ++ fs') q' = root (l ++ fs) q) by (destruct l; [done|reflexivity]).
    assert (H2 : repr h' b (pre ++ f_bytes f ++ f_hole f) false r (l ++ fs') q' c').
    { apply IH; [by eapply repr_tail| |done| |done|].
      - cbn in Hr'. rewrite <- !app_assoc. by destruct l.
      - intros x Hx. apply Hni. cbn. set_solver.
      - intros x Hx. apply Hps. cbn. set_solver. }
    destruct Hr as (Hb & [Hp Hfr] & Hnd & Hfs). destruct H2 as (Hb2 & Hfr2 & Hnd2 & Hfs2).
    inversion_clear Hfs as [|? ? Hok Hfs''].
    split; [|split; [|split]].
    + eapply buffer_at_eq; [exact Hb2|]. cbn. app_tac.
    + cbn. rewrite (proj1 Hs) by (apply Hps; cbn; set_solver). rewrite Hrt. split; [done|].
      destruct Hok as [_ Hh]. rewrite !zlen_app, Hh in Hfr2. by rewrite Z.add_assoc in Hfr2.
    + unfold ptrs. cbn. apply NoDup_cons. split; [|done].
      apply NoDup_cons in Hnd as [Hni1 _].
      assert (Hf1 : f_ptr f ∉ ptrs fs' q') by (apply Hni; cbn; set_solver).
      unfold ptrs in *. rewrite !map_app in *. set_solver.
    + by constructor.
Qed.

Lemma locate_erase p fs q l r :
  locate p (map erase fs) q = Some (l, r) ->
  exists fl fr, fs = fl ++ fr /\ l = map erase fl /\ r = map erase fr /\ root fr q = p.
Proof.
  revert l r. induction fs as [|f fs IH]; intros l r; cbn.
  - case_decide; [|done]. intros [= <- <-]. by exists [], [].
  - case_decide; [intros [= <- <-]; by exists [], (f :: fs)|].
    destruct (locate p (map erase fs) q) as [[l' r']|]; cbn; [|done].
    intros [= <- <-]. destruct (IH _ _ eq_refl) as (fl & fr & -> & -> & -> & Hp).
    by exists (f :: fl), fr.
Qed.

Lemma locate_root fs q : locate (root fs q) (map erase fs) q = Some ([], map erase fs).
Proof. destruct fs; cbn [map locate root]; rewrite decide_True; done. Qed.

Section refinement.
Context (malloc_ok : Z -> bool).

(** The heap holds the abstract state [B] in the buffer [b]. *)
Definition holds (h : heap) (b : ptr) (resize : bool) (B : erased) : Prop :=
  exists fs q c, B = (map erase fs, q, c) /\ repr h b [] true resize fs q c.

(** Memory is never refused. *)
Definition memory_suffices (resize : bool) : Prop :=
  resize = true /\ forall n, malloc_ok n = true.

Definition same_bases (h h' : heap) (b : ptr) : Prop :=
  forall b', b' <> b -> bases h' !! b' = bases h !! b'.

(** The concrete [m] does what the abstract [am] says, unless an
    allocation is refused; the heap is never misused. *)
Definition refines (m : M heap unit) (am : M erased unit) : Prop :=
  forall h b r B, holds h b r B -> am B <> UB ->
    wp m h
      (fun _ h' => exists B', am B = Ret tt B' /\ holds h' b r B' /\ eroot B' = eroot B /\ same_bases h h' b)
      (fun h' => alive h' b (eroot B) /\ same_bases h h' b /\
         (memory_suffices r -> exists B', am B = Fail B')).

Lemma refines_check (c c' : bool) m am :
  c = c' -> refines m am -> refines (check c;; m) (check c';; am).
Proof.
  intros <- Hm. destruct c; [exact Hm|]. intros h b r B (fs & q & cc & -> & Hr) _.
  unfold wp. cbn. rewrite eroot_erase. split; [by eapply repr_alive|].
  split; [done|]. eauto.
Qed.

Lemma not_roomy r n : ~ roomy malloc_ok r n -> memory_suffices r -> 2 ^ 64 <= n.
Proof. intros Hno [? ?]. apply Z.nlt_ge. intros ?. by apply Hno. Qed.

Lemma holds_bound h b r B : holds h b r B -> esize B < 2 ^ 64.
Proof.
  intros (fs & q & c & -> & (Hb & _ & _ & Hfs)). apply buffer_at_bound in Hb.
  cbn [app] in Hb. by rewrite (zlen_image _ q) in Hb.
Qed.

Lemma refines_transforms {A} (m : M heap A) (m' : M heap unit) p extra post :
  (forall h Q E, wp m h (fun _ => Q) E -> wp m' h (fun _ => Q) E) ->
  transforms malloc_ok m p extra post ->
  refines m' (a_at p extra post).
Proof.
  intros Hmm Hm h b r B (fs & q & c & -> & Hr) Hub. apply Hmm. clear Hmm m'.
  unfold a_at in *. destruct (locate p (map erase fs) q) as [[l r']|] eqn:Hloc; [|done].
  destruct (locate_erase _ _ _ _ _ Hloc) as (fl & fr & -> & -> & -> & Hp). clear Hloc.
  destruct (forallb _ extra) eqn:Hex; [|done].
  rewrite forallb_forall in Hex.
  assert (Hx : forall x, x ∈ extra -> x ∉ ptrs (fl ++ fr) q).
  { intros x Hx%list_elem_of_In. specialize (Hex x Hx). rewrite eptrs_erase in Hex.
    by apply bool_decide_eq_true in Hex. }
  clear Hex Hub. rewrite eclose_erase.
  assert (Hsub : ptrs fr q ⊆ ptrs (fl ++ fr) q) by (unfold ptrs; rewrite map_app; set_solver).
  assert (Hx' : forall x, x ∈ extra -> x ∉ ptrs fr q) by (intros x H1 H2; apply (Hx x H1), Hsub, H2).
  assert (Hdisj : forall x, x ∈ map f_ptr fl -> x ∉ extra ++ ptrs fr q).
  { destruct Hr as (_ & _ & Hnd & _). unfold ptrs in *. rewrite map_app, <- app_assoc in *.
    apply NoDup_app in Hnd as (_ & Hd & _). intros x Hxl. specialize (Hd x Hxl).
    rewrite elem_of_app. intros [He|He]; [|done]. apply (Hx x He). set_solver. }
  pose proof (repr_sub _ _ _ _ _ _ _ _ _ Hr) as Hrs. cbn [app] in Hrs.
  assert (Hfl : Forall frame_ok fl).
  { destruct Hr as (_ & _ & _ & Hf). by apply Forall_app in Hf as [? _]. }
  eapply wp_conseq; [apply (Hm _ _ _ _ _ _ _ _ Hrs Hp Hx')| |].
  - intros _ h' (out & fs' & q' & c' & -> & -> & Hr' & Hroot & Hsub' & Hs).
    assert (Hr2 : repr h' b [] true r (fl ++ fs') q' c').
    { eapply (repr_plug h h' b [] true r fl fr q c); [exact Hr|exact Hr'|by rewrite Hroot| |exact Hs|done].
      intros x Hxl Hin. apply (Hdisj x Hxl), Hsub', Hin. }
    assert (Hh : holds h' b r (map erase fl ++ map erase fs', q', c')).
    { exists (fl ++ fs'), q', c'. by rewrite map_app. }
    pose proof (holds_bound _ _ _ _ Hh). eexists. unfold a_store.
    rewrite (proj2 (Z.ltb_lt _ _)) by done. split_and!; [done|exact Hh| |exact (proj2 Hs)].
    rewrite <- map_app, !eroot_erase. destruct fl; [by cbn; rewrite Hroot|done].
  - intros h' (Ha & Hs & Hno). rewrite eroot_erase. split_and!; [|exact (proj2 Hs)|].
    + destruct fl as [|f fl]; [by rewrite <- Hp in Ha|]. cbn [app root].
      destruct Ha as [_ Hb]. split; [|done].
      pose proof (repr_alive _ _ _ _ _ _ _ _ Hr) as [Hc _]. cbn [app root] in Hc.
      rewrite (proj1 Hs); [done|]. apply Hdisj. cbn. set_solver.
    + intros Hmem. destruct (collapse fr c) as [out|]; [|by eauto].
      specialize (Hno out eq_refl). apply not_roomy in Hno; [|done].
      destruct (post out) as [[fs' q'] c'] eqn:Hpost. unfold a_store.
      rewrite (proj2 (Z.ltb_ge _ _)); [by eauto|].
      rewrite esize_app, <- (zlen_image fl q') by done. exact Hno.
Qed.

Lemma refines_appends {A} (m : M heap A) (m' : M heap unit) p octets :
  (forall h Q E, wp m h (fun _ => Q) E -> wp m' h (fun _ => Q) E) ->
  appends malloc_ok m p (fun out => out ++ octets) ->
  refines m' (a_append p octets).
Proof. intros Hmm Hm. eapply refines_transforms; [exact Hmm|]. by apply appends_transforms. Qed.

Lemma refines_discard p : refines (CBB_discard_child p) (a_discard p).
Proof.
  intros h b r B (fs & q & c & -> & Hr) Hub. unfold a_discard in *.
  destruct (locate p (map erase fs) q) as [[l r']|] eqn:Hloc; [|done].
  destruct (locate_erase _ _ _ _ _ Hloc) as (fl & fr & -> & -> & -> & Hp). clear Hloc Hub.
  pose proof (repr_sub _ _ _ _ _ _ _ _ _ Hr) as (Hb & Hfr & Hnd & Hfs). cbn [app] in Hb, Hfr.
  unfold CBB_discard_child. destruct fr as [|[p1 bs k hl] fr].
  - cbn [root] in Hp. subst. destruct Hfr as [off Hq]. apply wp_bind.
    eapply wp_load_cbb; [exact Hq|]. cbn [cbb_child]. apply wp_ret.
    eexists. split_and!; [done| |done|done]. exists (fl ++ []), p, c. by rewrite map_app.
  - cbn [root f_ptr] in Hp. subst. destruct Hfr as [Hp Hfr].
    cbn [f_ptr f_bytes f_kind] in Hp, Hfr. apply wp_bind.
    eapply wp_load_cbb; [exact Hp|]. cbn [cbb_child cbb_base cbb_offset].
    apply wp_bind. apply (wp_valid (Some b) b); [done|].
    pose proof Hb as (st & Hst & (Hcap & Hlen & Hmax) & HC & Hres).
    pose proof (buffer_at_len _ _ _ _ _ Hb Hst) as HL.
    apply wp_bind. eapply wp_load_base; [exact Hst|]. apply wp_bind, wp_store_base.
    assert (Hch : exists ch, cbbs h !! root fr q = Some ch).
    { destruct fr; cbn in *; [destruct Hfr as [off Hq]|destruct Hfr as [Hq _]]; eauto. }
    assert (Hne : p <> root fr q).
    { apply NoDup_cons in Hnd as [Hni _]. intros ->. apply Hni. destruct fr; cbn; set_solver. }
    destruct Hch as [ch Hch]. apply wp_bind. eapply wp_load_cbb; [exact Hch|].
    apply wp_bind, wp_store_cbb. apply wp_bind.
    eapply wp_load_cbb; [cbn; rewrite lookup_insert_ne by done; exact Hp|].
    apply wp_store_cbb. cbn [cbb_base cbb_is_top_level bases cbbs].
    eexists. split_and!; [done| | |intros b' Hb'; cbn; by rewrite lookup_insert_ne].
    2: { destruct fl; done. }
    exists (fl ++ []), p, bs. rewrite map_app, app_nil_r. split; [done|].
    cbn [image f_bytes f_hole] in *.
    eapply (repr_plug h _ b [] true r fl _ q c [] p bs [p; root fr q]); [exact Hr| |done| | |].
    + eapply repr_leaf_intro; [|cbn; apply lookup_insert_eq].
      eexists. split; [cbn; apply lookup_insert_eq|]. cbn [base_len base_buf base_cap base_can_resize].
      rewrite app_assoc in HC, HL. rewrite zlen_app, (zlen_app (image fl [])) in HL.
      pose proof (zlen_nonneg (image fl [])). pose proof (zlen_nonneg bs).
      pose proof (zlen_nonneg (hl ++ image fr c)). split_and!; [|  |done].
      * repeat split; cbn; lia.
      * rewrite <- (ztake_ztake _ (base_len st)), HC by lia.
        apply ztake_app_exact. by rewrite zlen_app.
    + intros x Hx. destruct Hr as (_ & _ & Hnd' & _). unfold ptrs in *.
      rewrite map_app, <- app_assoc in Hnd'. apply NoDup_app in Hnd' as (_ & Hd & _).
      specialize (Hd x Hx). cbn in *. set_solver.
    + split; [|intros b' Hb'; cbn; by rewrite lookup_insert_ne].
      intros x Hx. cbn. rewrite !lookup_insert_ne; [done|..]; intros <-; apply Hx; set_solver.
    + intros x Hx. destruct Hr as (_ & _ & Hnd' & _). unfold ptrs in *.
      rewrite map_app, <- app_assoc in Hnd'. apply NoDup_app in Hnd' as (_ & Hd & _).
      specialize (Hd x Hx). destruct fr; cbn in *; set_solver.
Qed.

Lemma wp_unit {A} (m : M heap A) h (Q : heap -> Prop) E :
  wp m h (fun _ => Q) E -> wp (_ ← m; mret tt) h (fun _ => Q) E.
Proof. unfold wp. mstep. by destruct (m h). Qed.

Lemma refines_add_u p v n :
  0 <= v < 2 ^ 64 -> 1 <= n <= 4 ->
  refines (check (negb (256 ^ n - 1 <? v));; cbb_add_u malloc_ok p (u32 v) n)
    (check (v <? 256 ^ n);; a_append p (be_bytes (Z.to_nat n) v)).
Proof.
  intros Hv Hn h b r B Hh Hub.
  destruct (Z.ltb_spec v (256 ^ n)).
  - assert (256 ^ n <= 256 ^ 4) by (apply Z.pow_le_mono_r; lia).
    change (256 ^ 4) with (2 ^ 32) in *.
    replace (u32 v) with v by (symmetry; apply Z.mod_small; lia).
    revert h b r B Hh Hub. apply refines_check; [destruct (Z.ltb_spec (256 ^ n - 1) v); [lia|done]|].
    eapply refines_appends; [by intros|]. apply cbb_add_u_appends; lia.
  - destruct (Z.ltb_spec (256 ^ n - 1) v); [|lia]. unfold wp. cbn.
    destruct Hh as (fs & q & c & -> & Hr). rewrite eroot_erase.
    split; [by eapply repr_alive|]. split; [done|]. eauto.
Qed.

Lemma refines_prefixed p child n :
  1 <= n <= 4 ->
  refines (cbb_add_length_prefixed malloc_ok p child n) (a_open p child [] (Fixed n)).
Proof.
  intros Hn h b r B Hh Hub.
  assert (E : a_open p child [] (Fixed n) B = a_at p [child] (fun out => ([(p, out, Fixed n)], child, [])) B).
  { unfold a_open, a_at. destruct B as [[fs q] c]. destruct (locate p fs q) as [[l r']|]; [|done].
    destruct (forallb _ _); [|done]. destruct (eclose r' c); [|done]. by rewrite app_nil_r. }
  rewrite E in *. revert h b r B Hh Hub E. intros h b r B Hh Hub _. revert h b r B Hh Hub.
  eapply refines_transforms; [by intros|]. by apply cbb_add_length_prefixed_transforms.
Qed.

Lemma a_at_not_fail_ptr p extra post B x :
  a_at p extra post B <> UB -> x ∈ extra -> x <> p.
Proof.
  unfold a_at. destruct B as [[fs q] c]. destruct (locate p fs q) as [[l r]|] eqn:Hloc; [|done].
  destruct (forallb _ extra) eqn:Hex; [|done]. rewrite forallb_forall in Hex.
  intros _ Hx ->. specialize (Hex p). rewrite <- list_elem_of_In in Hex. specialize (Hex Hx).
  apply bool_decide_eq_true in Hex. apply Hex. clear -Hloc. revert l r Hloc.
  unfold eptrs. induction fs as [|f fs IH]; intros l r; cbn; case_decide; subst; [set_solver|done|set_solver|].
  destruct (locate p fs q) as [[l' r']|]; [|done]. specialize (IH _ _ eq_refl). set_solver.
Qed.

(** Every call does what its command means. *)
Lemma exec_refines c : cmd_ok c -> refines (exec malloc_ok c) (denote c).
Proof.
  destruct c as [p|p data|p n|p v|p v|p v|p v|p v|p ch|p ch|p ch|p ch|p ch tag|p ch v|p]; cbn [cmd_ok]; intros Hok.
  - eapply refines_appends; [by intros|]. eapply appends_ext; [|apply CBB_flush_appends].
    intros. apply app_nil_r.
  - eapply refines_appends; [by intros|]. by apply CBB_add_bytes_appends.
  - eapply refines_appends; [intros; by apply wp_unit|]. by apply CBB_add_space_appends.
  - by apply (refines_add_u p v 1).
  - by apply (refines_add_u p v 2).
  - by apply (refines_add_u p v 3).
  - by apply (refines_add_u p v 4).
  - eapply refines_appends; [by intros|]. by apply CBB_add_u64_appends.
  - by apply refines_prefixed.
  - by apply refines_prefixed.
  - by apply refines_prefixed.
  - by apply refines_prefixed.
  - cbn [denote exec]. destruct (Z.ltb_spec tag (2 ^ 8)) as [Ht|Ht]; cbn [andb].
    + destruct (Z.eqb_spec (Z.land tag 0x1f) 0x1f) as [Hm|Hm]; cbn [negb].
      * intros h b r B (fs & q & c & -> & Hr) _. unfold CBB_add_asn1, wp. cbn.
        rewrite (proj2 (Z.ltb_ge _ _)) by lia. rewrite Hm. cbn. rewrite eroot_erase.
        split; [by eapply repr_alive|]. split; [done|]. eauto.
      * eapply refines_transforms; [by intros|]. apply CBB_add_asn1_transforms; [lia|done].
    + intros h b r B (fs & q & c & -> & Hr) _. unfold CBB_add_asn1, wp. cbn.
      rewrite (proj2 (Z.ltb_lt _ _)) by lia. cbn. rewrite eroot_erase.
      split; [by eapply repr_alive|]. split; [done|]. eauto.
  - intros h b r B Hh Hub. pose proof (a_at_not_fail_ptr _ _ _ _ ch Hub ltac:(set_solver)).
    revert h b r B Hh Hub. eapply refines_transforms; [by intros|].
    by apply CBB_add_asn1_uint64_transforms.
  - apply refines_discard.
Qed.

Lemma refines_seq m1 m2 am1 am2 :
  refines m1 am1 -> refines m2 am2 -> refines (m1;; m2) (am1;; am2).
Proof.
  intros H1 H2 h b r B Hh Hub. apply wp_bind. unfold mbind, M_bind in Hub |- *.
  destruct (am1 B) as [[] B1|B1|] eqn:E1; [| |done].
  - eapply wp_conseq; [apply (H1 _ _ _ _ Hh); by rewrite E1| |].
    + intros [] h1 (B' & E' & Hh1 & Hroot & Hs). rewrite E1 in E'. injection E' as <-.
      eapply wp_conseq; [by apply (H2 _ _ _ _ Hh1)| |].
      * intros [] h2 (B2 & E2 & Hh2 & Hroot2 & Hs2). exists B2.
        split_and!; [done..|congruence|]. intros b' Hb'. by rewrite Hs2, Hs.
      * intros h2 (Ha & Hs2 & Hf). split_and!; [by rewrite Hroot in Ha| |done].
        intros b' Hb'. by rewrite Hs2, Hs.
    + intros h1 (Ha & Hs & Hf). split_and!; [done..|]. intros Hm. destruct (Hf Hm); congruence.
  - eapply wp_conseq; [apply (H1 _ _ _ _ Hh); by rewrite E1| |].
    + intros [] h1 (B' & ? & _). congruence.
    + intros h1 (Ha & Hs & Hf). split_and!; [done..|]. eauto.
Qed.

Lemma exec_all_refines cs : Forall cmd_ok cs -> refines (exec_all malloc_ok cs) (denote_all cs).
Proof.
  induction 1 as [|c cs Hc Hcs IH]; [|by apply refines_seq; [apply exec_refines|]].
  intros h b r B Hh _. apply wp_ret. by exists B.
Qed.

(** *** Creation and completion *)

Lemma CBB_init_spec h p cap :
  0 <= cap < 2 ^ 64 ->
  wp (CBB_init malloc_ok p cap) h
    (fun _ h' => exists b, bases h !! b = None /\ holds h' b true ([], p, []) /\ same_bases h h' b)
    (fun h' => (exists c, cbbs h' !! p = Some c /\ cbb_base c = None) /\ bases h' = bases h /\
       ~ forall n, malloc_ok n = true).
Proof.
  intros Hcap. unfold CBB_init. apply wp_bind, wp_store_cbb.
  set (n := if cap =? 0 then CBB_INITIAL_SIZE else cap).
  assert (Hn : 0 < n < 2 ^ 64).
  { unfold n, CBB_INITIAL_SIZE. destruct (Z.eqb_spec cap 0); lia. }
  cbv zeta. set (h0 := mkHeap _ _).
  assert (Hp : cbbs h0 !! p = Some zeroed_CBB) by apply lookup_insert_eq.
  assert (Hfail : forall n, malloc_ok n = false -> ~ forall n, malloc_ok n = true) by congruence.
  apply wp_bind, wp_check; intros Hm; [|split_and!; eauto].
  unfold cbb_init. apply wp_bind, wp_check; intros Hm2; [|split_and!; eauto].
  apply wp_bind, wp_gets. apply wp_bind, wp_store_base.
  set (b := fresh _). assert (Hb : bases h !! b = None).
  { apply not_elem_of_dom. apply is_fresh. }
  apply wp_bind. eapply wp_load_cbb; [exact Hp|]. apply wp_store_cbb.
  exists b. split_and!; [done| |intros b' Hb'; cbn; by rewrite lookup_insert_ne].
  exists [], p, []. split; [done|]. eapply repr_leaf_intro; [|cbn; apply lookup_insert_eq].
  eexists. split; [cbn; apply lookup_insert_eq|]. split; [|done].
  split_and!; cbn; [apply zlen_rep; lia|lia..].
Qed.

Lemma CBB_cleanup_alive h b p :
  alive h b p -> exists h', CBB_cleanup p h = Ret tt h' /\ bases h' = delete b (bases h).
Proof.
  intros [(c & Hp & Hc) [st Hb]]. unfold CBB_cleanup, load_cbb, load_base, free_base, store_cbb.
  mstep. rewrite Hp, Hc, Hb. eexists. split; [done|]. done.
Qed.

Lemma CBB_cleanup_null h p c :
  cbbs h !! p = Some c -> cbb_base c = None ->
  exists h', CBB_cleanup p h = Ret tt h' /\ bases h' = bases h.
Proof.
  intros Hp Hc. unfold CBB_cleanup, load_cbb, store_cbb. mstep. rewrite Hp, Hc. eauto.
Qed.

Lemma delete_same_bases h h' b :
  bases h !! b = None -> same_bases h h' b -> delete b (bases h') = bases h.
Proof.
  intros Hb Hs. apply map_eq. intros b'. destruct (decide (b' = b)) as [->|Hne].
  - by rewrite lookup_delete_eq.
  - by rewrite lookup_delete_ne, Hs.
Qed.

Lemma CBB_finish_spec h b r B :
  holds h b r B ->
  wp (CBB_finish malloc_ok (eroot B) (Some false) true) h
    (fun '(buf, len) h' => exists out, a_append (eroot B) [] B = Ret tt ([], eroot B, out) /\
       ztake len buf = out /\ len = zlen out /\ exists h1, same_bases h h1 b /\ bases h' = delete b (bases h1))
    (fun h' => alive h' b (eroot B) /\ same_bases h h' b /\
       (memory_suffices r -> exists B', a_append (eroot B) [] B = Fail B')).
Proof.
  intros (fs & q & c & -> & Hr). rewrite eroot_erase. unfold CBB_finish.
  assert (Hp : exists ch, cbbs h !! root fs q = Some ch /\ cbb_is_top_level ch = true).
  { destruct Hr as (_ & Hfr & _). destruct fs; cbn in *; [destruct Hfr as [off ?]|destruct Hfr as [? _]]; eauto. }
  destruct Hp as (ch & Hch & Htop). apply wp_bind. eapply wp_load_cbb; [exact Hch|].
  apply wp_bind, wp_check; [intros _|congruence]. apply wp_bind.
  assert (E : forall out, collapse fs c = Some out ->
    a_append (root fs q) [] (map erase fs, q, c) = a_store ([], root fs q, out) (map erase fs, q, c)).
  { intros out Hout. unfold a_append, a_at.
    rewrite locate_root. cbn [forallb]. rewrite eclose_erase, Hout. by rewrite (app_nil_r out). }
  eapply wp_conseq; [apply (CBB_flush_appends malloc_ok _ _ _ _ _ _ _ _ _ Hr); done| |].
  - intros _ h1 (out & Hout & Hr1 & [_ Hs] & _).
    destruct (repr_read _ _ _ _ _ _ _ Hr1) as (st & off & Hp1 & Hst & HL).
    cbn [app] in HL. apply wp_bind. eapply wp_load_cbb; [exact Hp1|]. cbn [cbb_base].
    apply wp_bind. apply (wp_valid (Some b) b); [done|]. apply wp_bind.
    eapply wp_load_base; [exact Hst|]. apply wp_bind, wp_check; [intros _|by rewrite andb_comm].
    apply wp_bind, wp_check; [intros _|done].
    destruct (CBB_cleanup_alive h1 b (root fs q)) as (h2 & Hcl & Hb2).
    { by apply (repr_alive _ _ _ _ _ _ _ _ Hr1). }
    apply wp_bind. unfold wp at 1. rewrite Hcl. apply wp_ret. exists out.
    pose proof (holds_bound h1 b r ([], root fs q, out)) as Hbd.
    rewrite (E _ Hout). unfold a_store. rewrite (proj2 (Z.ltb_lt _ _)).
    2: { apply Hbd. by exists [], (root fs q), out. }
    destruct Hr1 as ((st' & Hst' & _ & HC & _) & _). assert (st' = st) as -> by congruence.
    split_and!; [done|done|done|]. by exists h1.
  - intros h1 [Hf Hno]. split_and!; [by eapply failed_alive|exact (proj2 (proj2 Hf))|].
    intros Hmem. unfold a_append, a_at.
    rewrite locate_root. cbn [forallb]. rewrite eclose_erase. destruct (collapse fs c) as [out|]; [|by eauto].
    specialize (Hno _ eq_refl). apply not_roomy in Hno; [|done]. rewrite (app_nil_r out).
    unfold a_store. rewrite (proj2 (Z.ltb_ge _ _)); [by eauto|]. exact Hno.
Qed.
(** *** A child used again

    An operation closes what hangs below its argument before it makes a new child,
    so that the object of a closed child may be passed again. *)

Lemma bind_run {S A B} (m : M S A) (k : A -> M S B) s :
  mbind k m s = match m s with Ret a s' => k a s' | Fail s' => Fail s' | UB => UB end.
Proof using. done. Qed.

Lemma exec_cmds_app cs1 cs2 h : exec_all malloc_ok (cs1 ++ cs2) h = (exec_all malloc_ok cs1;; exec_all malloc_ok cs2) h.
Proof.
  revert h. induction cs1 as [|c cs1 IH]; intros h; [done|]. cbn [app exec_all]. unfold mbind, M_bind in *.
  destruct (exec malloc_ok c h) as [[] h1|h1|]; [|done..]. by rewrite IH.
Qed.

Lemma flush_first h b r B child n :
  holds h b r B ->
  (CBB_flush malloc_ok (eroot B);; cbb_add_length_prefixed malloc_ok (eroot B) child n) h =
  cbb_add_length_prefixed malloc_ok (eroot B) child n h.
Proof.
  intros (fs & q & c & -> & Hr). rewrite eroot_erase. unfold cbb_add_length_prefixed. rewrite !bind_run.
  pose proof (wp_CBB_flush malloc_ok _ _ _ _ _ _ _ _ Hr) as Hw. unfold wp in Hw.
  destruct (CBB_flush malloc_ok (root fs q) h) as [[] h1|h1|]; [|done..]. destruct Hw as (out & _ & Hr1 & _).
  by rewrite bind_run, (CBB_flush_leaf _ _ _ _ _ _ _ _ Hr1).
Qed.

Lemma exec_reopen cs1 cs2 child h b r B :
  Forall cmd_ok cs1 -> denote_all cs1 B <> UB -> holds h b r B ->
  exec_all malloc_ok (cs1 ++ U8_prefixed (eroot B) child :: cs2) h =
  exec_all malloc_ok (cs1 ++ Flush (eroot B) :: U8_prefixed (eroot B) child :: cs2) h.
Proof.
  intros Hcs Hub Hh. rewrite !exec_cmds_app, !bind_run.
  pose proof (exec_all_refines cs1 Hcs h b r B Hh Hub) as Hw. unfold wp in Hw.
  destruct (exec_all malloc_ok cs1 h) as [[] h1|h1|]; [|done..]. destruct Hw as (B' & _ & Hh1 & <- & _).
  cbn [exec_all exec]. pose proof (flush_first h1 b r B' child 1 Hh1) as E. unfold CBB_add_u8_length_prefixed.
  rewrite !bind_run in *. by destruct (CBB_flush malloc_ok (eroot B') h1) as [[] h2|h2|]; rewrite <- E, ?bind_run.
Qed.
End refinement.

(** ** The refinement theorem *)

Lemma build_eq p cs :
  build p cs =
  match denote_all cs ([], p, []) with
  | Ret _ B =>
      match a_append p [] B with
      | Ret _ B' => Ret B'.2 B'
      | Fail B' => Fail B'
      | UB => UB
      end
  | Fail B => Fail B
  | UB => UB
  end.
Proof.
  unfold build. unfold mbind, M_bind, gets. destruct (denote_all cs _) as [[] B|B|]; [|done..].
  by destruct (a_append p [] B) as [[] B'|B'|].
Qed.

Lemma builder_wp malloc_ok h p cap cs :
  0 <= cap < 2 ^ 64 -> Forall cmd_ok cs -> build p cs <> UB ->
  wp (CBB_init malloc_ok p cap;; exec_all malloc_ok cs;; CBB_finish malloc_ok p (Some false) true) h
    (fun '(buf, len) h' => (exists B, build p cs = Ret (ztake len buf) B) /\
       len = zlen (ztake len buf) /\ bases h' = bases h)
    (fun h' => (exists h'', CBB_cleanup p h' = Ret tt h'' /\ bases h'' = bases h) /\
       ((forall n, malloc_ok n = true) -> exists B, build p cs = Fail B)).
Proof.
  intros Hcap Hcs Hub.
  rewrite build_eq in *.
  apply wp_bind. eapply wp_conseq; [by apply CBB_init_spec| |].
  2: { intros h1 ((c & Hp & Hc) & Hb & Hm). split; [|done].
       destruct (CBB_cleanup_null _ _ _ Hp Hc) as (h2 & ? & ?). exists h2. split; [done|congruence]. }
  intros _ h1 (b & Hb & Hh & Hs). apply wp_bind.
  assert (Hclean : forall h2 B, eroot B = p -> alive h2 b (eroot B) -> same_bases h h2 b ->
    exists h'', CBB_cleanup p h2 = Ret tt h'' /\ bases h'' = bases h).
  { intros h2 B <- Ha Hs2. destruct (CBB_cleanup_alive _ _ _ Ha) as (h3 & Hc & Hb3).
    exists h3. split; [done|]. rewrite Hb3. by apply delete_same_bases. }
  eapply wp_conseq; [apply (exec_all_refines malloc_ok cs Hcs _ _ _ _ Hh); by destruct (denote_all _ _)| |].
  - intros [] h2 (B & E & Hh2 & Hroot & Hs2). rewrite E in *. change (eroot ([], p, [])) with p in Hroot.
    assert (Hs12 : same_bases h h2 b) by (intros b' Hb'; by rewrite Hs2, Hs).
    pose proof (CBB_finish_spec malloc_ok _ _ _ _ Hh2) as Hf. rewrite Hroot in Hf.
    eapply wp_conseq; [exact Hf| |].
    + intros [buf len] h3 (out & Ea & <- & Hlen & h4 & Hs4 & Hb4). cbn [fst snd]. rewrite Ea.
      split_and!; [by eexists; reflexivity|exact Hlen|]. rewrite Hb4. apply delete_same_bases; [done|].
      intros b' Hb'. by rewrite Hs4, Hs12.
    + intros h3 (Ha & Hs3 & Hno). split.
      * apply (Hclean h3 B); [done|by rewrite Hroot|]. intros b' Hb'. by rewrite Hs3, Hs12.
      * intros Hm. destruct (Hno (conj eq_refl Hm)) as [B' ->]. by eexists.
  - intros h2 (Ha & Hs2 & Hno). split.
    + apply (Hclean h2 ([], p, [])); [done..|]. intros b' Hb'. by rewrite Hs2, Hs.
    + intros Hm. destruct (Hno (conj eq_refl Hm)) as [B' ->]. by eexists.
Qed.

(** ** Round trip: trees of elements *)

Inductive tree : Type :=
  | Prim (tag : Z) (content : list Z)
  | Node (tag : Z) (children : list tree).

Section tree_ind.
Variable P : tree -> Prop.
Hypothesis HP : forall tag content, P (Prim tag content).
Hypothesis HN : forall tag ts, Forall P ts -> P (Node tag ts).

Fixpoint tree_rect' (t : tree) : P t :=
  match t with
  | Prim tag content => HP tag content
  | Node tag ts =>
      HN tag ts ((fix go (l : list tree) : Forall P l :=
        match l with
        | [] => List.Forall_nil P
        | x :: l' => List.Forall_cons P x l' (tree_rect' x) (go l')
        end) ts)
  end.
End tree_ind.

(** The DER encoding. *)
Fixpoint der_tree (t : tree) : list Z :=
  match t with
  | Prim tag content => der_element tag content
  | Node tag ts => der_element tag (concat (map der_tree ts))
  end.

Fixpoint tree_ok (t : tree) : Prop :=
  match t with
  | Prim tag content => asn1_tag_ok tag /\ Forall is_byte content
  | Node tag ts => asn1_tag_ok tag /\ fold_right (fun t P => tree_ok t /\ P) True ts
  end.

(** The calls that write [t] to [p], with the children from [c] on. *)
Fixpoint tree_cmds (p c : ptr) (t : tree) : list cmd :=
  match t with
  | Prim tag content => [Asn1_open p c tag; Bytes c content; Flush p]
  | Node tag ts => [Asn1_open p c tag] ++ concat (map (tree_cmds c (S c)) ts) ++ [Flush p]
  end.

(** The calls that read [t] back. *)
Fixpoint read_tree (t : tree) (cbs : CBS) : option CBS :=
  match t with
  | Prim tag content =>
      match CBS_get_asn1 tag cbs with
      | Ret out cbs' => if bool_decide (contents out = content) then Some cbs' else None
      | _ => None
      end
  | Node tag ts =>
      match CBS_get_asn1 tag cbs with
      | Ret out cbs' =>
          match foldl (fun o t => o ≫= read_tree t) (Some out) ts with
          | Some rest => if CBS_len rest =? 0 then Some cbs' else None
          | None => None
          end
      | _ => None
      end
  end.

Lemma denote_all_app cs1 cs2 B B' :
  denote_all cs1 B = Ret tt B' -> denote_all (cs1 ++ cs2) B = denote_all cs2 B'.
Proof.
  revert B. induction cs1 as [|c cs1 IH]; intros B; cbn; unfold mret, M_ret, mbind, M_bind.
  - by intros [= <-].
  - destruct (denote c B) as [[] B1|?|]; [apply IH|done|done].
Qed.

Lemma locate_app p l fs q a r :
  p ∉ map (fun f => f.1.1) l -> locate p fs q = Some (a, r) -> locate p (l ++ fs) q = Some (l ++ a, r).
Proof.
  intros Hni Hloc. induction l as [|f l IH]; [done|]. cbn in *.
  rewrite decide_False by set_solver. by rewrite IH by set_solver.
Qed.

Lemma esize_leaf l q c : esize (l, q, c) = esize (l, q, []) + zlen c.
Proof. pose proof (esize_app l [] q c) as H. by rewrite app_nil_r in H. Qed.

Lemma esize_snoc l p q bs k c :
  esize (l ++ [(p, bs, k)], q, c) = esize (l, p, bs) + hole k + zlen c.
Proof.
  rewrite esize_app, (esize_leaf l p bs), (esize_ptr l q p). cbn [esize fold_right]. lia.
Qed.

Lemma esize_grow l q c x : esize (l, q, c ++ x) = esize (l, q, c) + zlen x.
Proof. rewrite (esize_leaf l q c), esize_leaf, zlen_app. lia. Qed.

Section steps.
Context (l : list (ptr * list Z * kind)) (p : ptr).
Hypothesis Hp : p ∉ map (fun f => f.1.1) l.

Lemma open_step c bs tag :
  asn1_tag_ok tag -> c ∉ eptrs l p -> esize (l, p, bs) + 2 < 2 ^ 64 ->
  denote (Asn1_open p c tag) (l, p, bs) = Ret tt (l ++ [(p, bs ++ [tag], Asn1)], c, []).
Proof.
  intros [Ht Hm] Hc Hs. unfold denote. mstep. unfold is_byte in Ht.
  rewrite (proj2 (Z.ltb_lt _ _)) by lia. rewrite (proj2 (Z.eqb_neq _ _)) by done.
  cbn [andb negb]. unfold a_open, a_at.
  assert (Hloc : locate p l p = Some (l, [])).
  { rewrite <- (app_nil_r l) at 1. erewrite locate_app; [by rewrite app_nil_r|done|].
    cbn. by rewrite decide_True. }
  rewrite Hloc. cbn [forallb]. rewrite bool_decide_eq_true_2 by done. cbn [andb eclose].
  unfold a_store. rewrite esize_snoc. rewrite (esize_leaf l p) in Hs |- *. rewrite zlen_app.
  change (zlen [tag]) with 1. change (zlen (@nil Z)) with 0. cbn [hole].
  by rewrite (proj2 (Z.ltb_lt _ _)) by lia.
Qed.

Lemma append_step bs data :
  esize (l, p, bs) + zlen data < 2 ^ 64 ->
  a_append p data (l, p, bs) = Ret tt (l, p, bs ++ data).
Proof.
  intros Hs. unfold a_append, a_at.
  assert (Hloc : locate p l p = Some (l, [])).
  { rewrite <- (app_nil_r l) at 1. erewrite locate_app; [by rewrite app_nil_r|done|].
    cbn. by rewrite decide_True. }
  rewrite Hloc. cbn [forallb eclose]. unfold a_store. rewrite app_nil_r.
  rewrite (esize_leaf l p) in *. rewrite zlen_app.
  by rewrite (proj2 (Z.ltb_lt _ _)) by lia.
Qed.

Lemma flush_step c bs content :
  zlen content <= 0xfffffffe ->
  esize (l, p, bs) + zlen (der_len (zlen content) ++ content) < 2 ^ 64 ->
  a_append p [] (l ++ [(p, bs, Asn1)], c, content) =
  Ret tt (l, p, bs ++ der_len (zlen content) ++ content).
Proof.
  intros Hc Hs. unfold a_append, a_at.
  rewrite (locate_app p l [(p, bs, Asn1)] c [] [(p, bs, Asn1)]) by (try done; cbn; by rewrite decide_True).
  cbn [forallb eclose]. cbn. rewrite (proj2 (Z.leb_le _ _)) by lia. cbn.
  rewrite !app_nil_r. unfold a_store. rewrite (esize_leaf l p) in Hs |- *. rewrite zlen_app.
  by rewrite (proj2 (Z.ltb_lt _ _)) by lia.
Qed.
End steps.

Definition ptrs_below (l : list (ptr * list Z * kind)) (p c : ptr) : Prop :=
  (forall x, x ∈ eptrs l p -> (x < c)%nat) /\ p ∉ map (fun f => f.1.1) l.

Lemma ptrs_below_push l p c f :
  ptrs_below l p c -> f.1.1 = p -> ptrs_below (l ++ [f]) c (S c) /\ c ∉ eptrs l p.
Proof.
  intros [Hlt Hni] Hf. unfold ptrs_below, eptrs in *. rewrite map_app. cbn. rewrite Hf.
  assert (Hc : c ∉ map (fun f => f.1.1) l ++ [p]) by (intros Hin; specialize (Hlt c Hin); lia).
  split; [|done]. split; [|done]. intros x Hx.
  apply elem_of_app in Hx as [Hx|Hx]; [specialize (Hlt x Hx); lia|].
  apply list_elem_of_singleton in Hx. lia.
Qed.

Lemma zlen_der_element_eq tag content :
  zlen (der_element tag content) = 1 + zlen (der_len (zlen content) ++ content).
Proof. unfold der_element, der_header. cbn [app]. by rewrite zlen_cons. Qed.

(** A list of trees, given the property of each. *)
Lemma denote_trees_of ts :
  Forall (fun t => forall l p c bs,
    tree_ok t -> ptrs_below l p c -> esize (l, p, bs) + zlen (der_tree t) < 2 ^ 64 ->
    zlen (der_tree t) <= 0xfffffffe ->
    denote_all (tree_cmds p c t) (l, p, bs) = Ret tt (l, p, bs ++ der_tree t)) ts ->
  forall l p c bs,
    fold_right (fun t P => tree_ok t /\ P) True ts -> ptrs_below l p c ->
    esize (l, p, bs) + zlen (concat (map der_tree ts)) < 2 ^ 64 ->
    zlen (concat (map der_tree ts)) <= 0xfffffffe ->
    denote_all (concat (map (tree_cmds p c) ts)) (l, p, bs) =
    Ret tt (l, p, bs ++ concat (map der_tree ts)).
Proof.
  induction 1 as [|t ts Ht Hts IH]; intros l p c bs Hok Hlt Hs Hmax; cbn in Hok |- *.
  - by rewrite app_nil_r.
  - cbn [map concat] in Hs, Hmax. rewrite zlen_app in *. destruct Hok as [Hok Hoks].
    pose proof (zlen_nonneg (der_tree t)). pose proof (zlen_nonneg (concat (map der_tree ts))).
    erewrite denote_all_app; [|apply Ht; try done; lia].
    rewrite IH; [by rewrite <- app_assoc|done..| |lia]. rewrite esize_grow. lia.
Qed.

Lemma read_trees_of ts :
  Forall (fun t => forall cbs rest,
    tree_ok t -> CBS_ok cbs -> contents cbs = der_tree t ++ rest -> zlen (der_tree t) <= 0xfffffffe ->
    read_tree t cbs = Some (cbs_advance (zlen (der_tree t)) cbs)) ts ->
  forall cbs rest,
    fold_right (fun t P => tree_ok t /\ P) True ts -> CBS_ok cbs ->
    contents cbs = concat (map der_tree ts) ++ rest -> zlen (concat (map der_tree ts)) <= 0xfffffffe ->
    foldl (fun o t => o ≫= read_tree t) (Some cbs) ts =
    Some (cbs_advance (zlen (concat (map der_tree ts))) cbs).
Proof.
  induction 1 as [|t ts Ht Hts IH]; intros cbs rest Hok Hc Hcon Hmax; cbn in Hok |- *.
  - change (zlen []) with 0. by rewrite advance_0.
  - cbn in Hcon, Hmax. rewrite zlen_app in *. destruct Hok as [Hok Hoks].
    pose proof (zlen_nonneg (der_tree t)). pose proof (zlen_nonneg (concat (map der_tree ts))).
    pose proof (zlen_nonneg rest). rewrite <- app_assoc in Hcon.
    pose proof (zlen_contents cbs Hc) as Hl. rewrite Hcon, !zlen_app in Hl.
    rewrite (Ht cbs _ Hok Hc Hcon) by lia. cbn.
    rewrite (IH _ rest); [by rewrite advance_advance|done| | |lia].
    + apply cbs_advance_ok; [done|lia].
    + rewrite contents_advance by lia. rewrite Hcon. by rewrite zdrop_app_exact.
Qed.

Lemma denote_tree t l p c bs :
  tree_ok t -> ptrs_below l p c ->
  esize (l, p, bs) + zlen (der_tree t) < 2 ^ 64 -> zlen (der_tree t) <= 0xfffffffe ->
  denote_all (tree_cmds p c t) (l, p, bs) = Ret tt (l, p, bs ++ der_tree t).
Proof.
  revert l p c bs. apply (tree_rect' (fun t => forall l p c bs,
    tree_ok t -> ptrs_below l p c -> esize (l, p, bs) + zlen (der_tree t) < 2 ^ 64 ->
    zlen (der_tree t) <= 0xfffffffe ->
    denote_all (tree_cmds p c t) (l, p, bs) = Ret tt (l, p, bs ++ der_tree t))).
  - intros tag content l p c bs [Ht Hb] Hlt Hs Hmax. cbn [der_tree tree_cmds denote_all] in *.
    destruct (ptrs_below_push l p c (p, bs ++ [tag], Asn1) Hlt eq_refl) as [[_ Hni] Hc].
    rewrite zlen_der_element_eq in *. pose proof (zlen_nonneg content).
    pose proof (zlen_der_len (zlen content)). rewrite zlen_app in *.
    unfold mbind at 1, M_bind at 1. rewrite open_step; [|apply Hlt|done|done|lia].
    unfold mbind at 1, M_bind at 1. change (denote (Bytes c content)) with (a_append c content).
    rewrite append_step; [|done|].
    2: { rewrite esize_snoc, esize_grow. change (zlen [tag]) with 1. cbn [hole].
         change (zlen (@nil Z)) with 0. lia. }
    unfold mbind at 1, M_bind at 1. change (denote (Flush p)) with (a_append p []). cbn [app].
    rewrite flush_step; [|apply Hlt|lia|].
    + unfold der_element, der_header. by rewrite <- app_assoc.
    + rewrite esize_grow, zlen_app. change (zlen [tag]) with 1. lia.
  - intros tag ts IH l p c bs [Ht Hts] Hlt Hs Hmax. cbn [der_tree tree_cmds] in *.
    destruct (ptrs_below_push l p c (p, bs ++ [tag], Asn1) Hlt eq_refl) as [Hlt' Hc].
    rewrite zlen_der_element_eq in *. set (content := concat (map der_tree ts)) in *.
    pose proof (zlen_nonneg content). pose proof (zlen_der_len (zlen content)). rewrite zlen_app in *.
    cbn [app denote_all]. unfold mbind at 1, M_bind at 1.
    rewrite open_step; [|apply Hlt|done|done|lia].
    erewrite denote_all_app; [|apply (denote_trees_of ts IH _ _ _ [] Hts Hlt')].
    + cbn [denote_all app]. unfold mbind at 1, M_bind at 1. fold content.
      change (denote (Flush p)) with (a_append p []).
      rewrite flush_step; [|apply Hlt|lia|].
      * unfold der_element, der_header. by rewrite <- app_assoc.
      * rewrite esize_grow, zlen_app. change (zlen [tag]) with 1. lia.
    + fold content. rewrite esize_snoc, esize_grow. change (zlen [tag]) with 1. cbn [hole].
      change (zlen (@nil Z)) with 0. lia.
    + fold content. lia.
Qed.

(** Reading back. *)
Lemma read_tree_spec t cbs rest :
  tree_ok t -> CBS_ok cbs -> contents cbs = der_tree t ++ rest -> zlen (der_tree t) <= 0xfffffffe ->
  read_tree t cbs = Some (cbs_advance (zlen (der_tree t)) cbs).
Proof.
  revert cbs rest. apply (tree_rect' (fun t => forall cbs rest,
    tree_ok t -> CBS_ok cbs -> contents cbs = der_tree t ++ rest -> zlen (der_tree t) <= 0xfffffffe ->
    read_tree t cbs = Some (cbs_advance (zlen (der_tree t)) cbs))).
  - intros tag content cbs rest [Ht Hb] Hc Hcon Hmax. cbn [der_tree read_tree] in *.
    rewrite zlen_der_element_eq, zlen_app in Hmax. pose proof (zlen_nonneg (der_len (zlen content))).
    destruct (CBS_get_asn1_Ret tag cbs content rest) as (out & -> & Hout & _); [done|done|lia|done|].
    by rewrite bool_decide_eq_true_2.
  - intros tag ts IH cbs rest [Ht Hts] Hc Hcon Hmax. cbn [der_tree read_tree] in *.
    rewrite zlen_der_element_eq, zlen_app in Hmax. pose proof (zlen_nonneg (der_len (zlen (concat (map der_tree ts))))).
    destruct (CBS_get_asn1_Ret tag cbs (concat (map der_tree ts)) rest Hc Ht ltac:(lia) Hcon) as (out & -> & Hout & Hok).
    rewrite (read_trees_of ts IH out []); [|done|done|by rewrite app_nil_r|lia].
    pose proof (zlen_contents out Hok) as Hl. rewrite Hout in Hl. unfold CBS_len, cbs_advance. cbn.
    by rewrite Hl, Z.sub_diag.
Qed.

Lemma is_byte_der_element tag content :
  asn1_tag_ok tag -> Forall is_byte content -> zlen content < 2 ^ 32 ->
  Forall is_byte (der_element tag content).
Proof.
  intros [Ht _] Hb Hl. pose proof (zlen_nonneg content).
  constructor; [exact Ht|]. apply Forall_app. split; [apply is_byte_der_len; lia|done].
Qed.

Lemma zlen_der_element_le tag content : zlen content <= zlen (der_element tag content).
Proof. rewrite zlen_der_element_eq, zlen_app. pose proof (zlen_nonneg (der_len (zlen content))). lia. Qed.

(** The octets of a tree are octets and its calls have arguments in range. *)
Lemma tree_wf t :
  tree_ok t -> zlen (der_tree t) <= 0xfffffffe ->
  Forall is_byte (der_tree t) /\ forall p c, Forall cmd_ok (tree_cmds p c t).
Proof.
  revert t. apply (tree_rect' (fun t => tree_ok t -> zlen (der_tree t) <= 0xfffffffe ->
    Forall is_byte (der_tree t) /\ forall p c, Forall cmd_ok (tree_cmds p c t))).
  - intros tag content [Ht Hb] Hmax. cbn [der_tree] in *. pose proof (zlen_der_element_le tag content).
    split; [apply is_byte_der_element; auto; lia|]. intros p c.
    destruct Ht as [Ht _]. unfold is_byte in Ht. repeat constructor; cbn; lia.
  - intros tag ts IH [Ht Hts] Hmax. cbn [der_tree] in *. set (content := concat _) in *.
    pose proof (zlen_der_element_le tag content).
    assert (Hall : Forall is_byte content /\ forall p c, Forall cmd_ok (concat (map (tree_cmds p c) ts))).
    { assert (Hc : zlen content <= 0xfffffffe) by lia. clear H Hmax. subst content.
      induction IH as [|t ts Ht' _ IHts]; [by split|]. cbn in Hts, Hc |- *. rewrite zlen_app in Hc.
      pose proof (zlen_nonneg (der_tree t)). pose proof (zlen_nonneg (concat (map der_tree ts))).
      destruct Ht' as [Hb1 Hc1]; [apply Hts|lia|]. destruct IHts as [Hb2 Hc2]; [apply Hts|lia|].
      split; [by apply Forall_app|]. intros p c. apply Forall_app. auto. }
    destruct Hall as [Hb Hc]. split; [apply is_byte_der_element; auto; lia|].
    intros p c. destruct Ht as [Ht _]. unfold is_byte in Ht.
    constructor; [cbn; lia|]. cbn [app]. apply Forall_app. split; [apply Hc|]. by repeat constructor.
Qed.

Lemma build_tree p t :
  tree_ok t -> zlen (der_tree t) <= 0xfffffffe ->
  build p (tree_cmds p (S p) t) = Ret (der_tree t) ([], p, der_tree t).
Proof.
  intros Ht Hmax. rewrite build_eq, denote_tree; [|done| |cbn; change (zlen []) with 0; lia|done].
  - rewrite append_step; [|set_solver|cbn; change (zlen []) with 0; lia]. by rewrite app_nil_r.
  - split; [|set_solver]. cbn. intros x Hx%list_elem_of_singleton. lia.
Qed.

(** ** The properties *)

(** C1. A client that creates a builder with [CBB_init], makes any sequence
    of calls and ends with [CBB_finish] gets what the abstract machine
    builds: no call is undefined behaviour, the octets returned are exactly
    the abstract ones, the call fails only when the abstract machine does or
    an allocation is refused, and a failure can be cleaned up.  In both cases
    every buffer header allocated on the way is freed. *)
Theorem CBB_refines_builder malloc_ok h p cap cs :
  0 <= cap < 2 ^ 64 -> Forall cmd_ok cs -> build p cs <> UB ->
  match (CBB_init malloc_ok p cap;; exec_all malloc_ok cs;; CBB_finish malloc_ok p (Some false) true) h with
  | Ret (buf, len) h' =>
      (exists B, build p cs = Ret (ztake len buf) B) /\ len = zlen (ztake len buf) /\ bases h' = bases h
  | Fail h' =>
      (exists h'', CBB_cleanup p h' = Ret tt h'' /\ bases h'' = bases h) /\
      ((forall n, malloc_ok n = true) -> exists B, build p cs = Fail B)
  | UB => False
  end.
Proof.
  intros Hcap Hcs Hub. pose proof (builder_wp malloc_ok h p cap cs Hcap Hcs Hub) as Hw.
  revert Hw. unfold wp.
  match goal with |- match ?x with _ => _ end -> _ => destruct x as [[buf len] h1|h1|] end; auto.
Qed.

Definition sample_cmds : list cmd :=
  [Asn1_open 0 1 0x30; Asn1_uint64 1 2 200; Bytes 1 [5; 0]; Flush 0; U16_prefixed 0 1; U8 1 7].

Lemma CBB_refines_builder_witness :
  build 0 sample_cmds = Ret [0x30; 6; 2; 2; 0; 200; 5; 0; 0; 1; 7] ([], 0%nat, [0x30; 6; 2; 2; 0; 200; 5; 0; 0; 1; 7]) /\
  match (CBB_init (fun _ => true) 0 2;; exec_all (fun _ => true) sample_cmds;;
         CBB_finish (fun _ => true) 0 (Some false) true) (mkHeap ∅ ∅) with
  | Ret (buf, len) h' => exists B, build 0 sample_cmds = Ret (ztake len buf) B
  | _ => False
  end.
Proof.
  split; [by vm_compute|].
  assert (Hcap : 0 <= 2 < 2 ^ 64) by lia.
  assert (Hcs : Forall cmd_ok sample_cmds) by (repeat constructor; cbn; lia).
  assert (Hub : build 0 sample_cmds <> UB) by (vm_compute; discriminate).
  pose proof (CBB_refines_builder (fun _ => true) (mkHeap ∅ ∅) 0 2 sample_cmds Hcap Hcs Hub) as H.
  revert H. match goal with |- match ?x with _ => _ end -> _ => destruct x as [[buf len] h'|h'|] end; intros H.
  - exact (proj1 H).
  - destruct H as [_ H]. destruct (H (fun _ => eq_refl)) as [B HB]. vm_compute in HB. discriminate HB.
  - exact H.
Defined.


(** C7. What the builder writes the parser reads back: the calls that write
    a tree of elements succeed whenever memory suffices, return the DER
    encoding of the tree, and the parser of bs_cbs.c recovers the tree from
    it and leaves nothing over. *)
Theorem CBB_CBS_roundtrip h p cap t :
  0 <= cap < 2 ^ 64 -> tree_ok t -> zlen (der_tree t) <= 0xfffffffe ->
  exists buf len h',
    (CBB_init (fun _ => true) p cap;; exec_all (fun _ => true) (tree_cmds p (S p) t);;
     CBB_finish (fun _ => true) p (Some false) true) h = Ret (buf, len) h' /\
    ztake len buf = der_tree t /\
    exists rest, read_tree t (CBS_init (ztake len buf) len) = Some rest /\ CBS_len rest = 0.
Proof.
  intros Hcap Ht Hmax. destruct (tree_wf t Ht Hmax) as [Hb Hc].
  pose proof (build_tree p t Ht Hmax) as Hbuild.
  pose proof (builder_wp (fun _ => true) h p cap (tree_cmds p (S p) t) Hcap (Hc p (S p))) as Hw.
  rewrite Hbuild in Hw. specialize (Hw ltac:(done)). revert Hw. unfold wp.
  match goal with |- match ?x with _ => _ end -> _ => destruct x as [[buf len] h1|h1|] end.
  - intros ([B [= Hbuf HB]] & Hlen & _). exists buf, len, h1. split_and!; [done..|].
    rewrite <- Hbuf in *. exists (cbs_advance (zlen (der_tree t)) (CBS_init (der_tree t) len)).
    split; [|cbn; lia]. pose proof (zlen_nonneg (der_tree t)).
    apply read_tree_spec with []; [done| | |done].
    + apply CBS_init_ok; [done|lia..].
    + unfold contents. cbn. rewrite app_nil_r. apply ztake_all. lia.
  - intros [_ Hf]. destruct (Hf ltac:(done)); done.
  - done.
Qed.

Lemma CBB_CBS_roundtrip_witness :
  let t := Node 0x30 [Prim 2 [5]; Node 0x31 [Prim 4 []]] in
  tree_ok t /\ der_tree t = [0x30; 7; 2; 1; 5; 0x31; 2; 4; 0] /\
  exists buf len h',
    (CBB_init (fun _ => true) 3 0;; exec_all (fun _ => true) (tree_cmds 3 4 t);;
     CBB_finish (fun _ => true) 3 (Some false) true) (mkHeap ∅ ∅) = Ret (buf, len) h' /\
    ztake len buf = der_tree t.
Proof.
  intros t.
  assert (Htag : forall x, (0 <=? x) && (x <? 256) && negb (Z.land x 0x1f =? 0x1f) = true -> asn1_tag_ok x).
  { intros x Hx. unfold asn1_tag_ok, is_byte. lia. }
  assert (Ht : tree_ok t).
  { cbn. split_and!; try (apply Htag; reflexivity); try done; bytes_tac. }
  split; [exact Ht|]. split; [reflexivity|].
  destruct (CBB_CBS_roundtrip (mkHeap ∅ ∅) 3 0 t ltac:(lia) Ht ltac:(vm_compute; discriminate))
    as (buf & len & h' & H1 & H2 & _).
  exists buf, len, h'. split; [exact H1|exact H2].
Defined.
