(* ===== verification/Time.v ===== *)
(** * UTC time: libcrypto/asn1/a_time_posix.c

    Conversion between [struct tm] and POSIX time.  C integers are [Z];
    [/] and [%] truncate, so they are [Z.quot] and [Z.rem].  The sums that
    the code guards against overflow are obligations ([must]). *)

From S2P Require Import Prelude.
Open Scope Z_scope.

Definition SECS_PER_HOUR : Z := 60 * 60.
Definition SECS_PER_DAY : Z := 24 * SECS_PER_HOUR.

(** The members of [struct tm] the code reads and writes. *)
Record tm : Type := mkTm {
  tm_year : Z;
  tm_mon : Z;
  tm_mday : Z;
  tm_hour : Z;
  tm_min : Z;
  tm_sec : Z;
}.

Definition tm_zero : tm := mkTm 0 0 0 0 0 0.

Definition is_int64 (x : Z) : bool := (- 2 ^ 63 <=? x) && (x <=? 2 ^ 63 - 1).
Definition is_int32 (x : Z) : bool := (- 2 ^ 31 <=? x) && (x <=? 2 ^ 31 - 1).

Definition days_in_month (year month : Z) : Z :=
  match month with
  | 1 | 3 | 5 | 7 | 8 | 10 | 12 => 31
  | 4 | 6 | 9 | 11 => 30
  | 2 =>
      if (Z.rem year 4 =? 0) && negb (Z.rem year 100 =? 0) || (Z.rem year 400 =? 0) then 29 else 28
  | _ => 0
  end.

Definition is_valid_date (year month day : Z) : bool :=
  if (day <? 1) || (month <? 1) || (year <? 0) || (9999 <? year) then false
  else if 12 <? month then false
  else day <=? days_in_month year month.

Definition is_valid_time (hours minutes seconds : Z) : bool :=
  (0 <=? hours) && (0 <=? minutes) && (0 <=? seconds) && (hours <=? 23) &&
  (minutes <=? 59) && (seconds <=? 59).

Definition MIN_POSIX_TIME : Z := -62167219200.
Definition MAX_POSIX_TIME : Z := 253402300799.

Definition is_valid_posix_time (time : Z) : bool :=
  (MIN_POSIX_TIME <=? time) && (time <=? MAX_POSIX_TIME).

Definition posix_time_from_utc (year month day hours minutes seconds : Z) : option Z :=
  if negb (is_valid_date year month day) || negb (is_valid_time hours minutes seconds) then None
  else
    let year := if month <=? 2 then year - 1 else year in
    let era := Z.quot (if 0 <=? year then year else year - 399) 400 in
    let year_of_era := year - era * 400 in
    let day_of_year :=
      Z.quot (153 * (if 2 <? month then month - 3 else month + 9) + 2) 5 + day - 1 in
    let day_of_era :=
      year_of_era * 365 + Z.quot year_of_era 4 - Z.quot year_of_era 100 + day_of_year in
    let posix_days := era * 146097 + day_of_era - 719468 in
    Some (posix_days * SECS_PER_DAY + hours * SECS_PER_HOUR + minutes * 60 + seconds).

Definition utc_from_posix_time (time : Z) : option (Z * Z * Z * Z * Z * Z) :=
  if negb (is_valid_posix_time time) then None
  else
    let days := Z.quot time SECS_PER_DAY in
    let leftover_seconds := Z.rem time SECS_PER_DAY in
    let '(days, leftover_seconds) :=
      if leftover_seconds <? 0 then (days - 1, leftover_seconds + SECS_PER_DAY)
      else (days, leftover_seconds) in
    let days := days + 719468 in
    let era := Z.quot (if 0 <? days then days else days - 146096) 146097 in
    let day_of_era := days - era * 146097 in
    let year_of_era :=
      Z.quot (day_of_era - Z.quot day_of_era 1460 + Z.quot day_of_era 36524 -
        Z.quot day_of_era 146096) 365 in
    let out_year := year_of_era + era * 400 in
    let day_of_year :=
      day_of_era - (365 * year_of_era + Z.quot year_of_era 4 - Z.quot year_of_era 100) in
    let month_of_year := Z.quot (5 * day_of_year + 2) 153 in
    let out_month := if month_of_year <? 10 then month_of_year + 3 else month_of_year - 9 in
    let out_year := if out_month <=? 2 then out_year + 1 else out_year in
    let out_day := day_of_year - Z.quot (153 * month_of_year + 2) 5 + 1 in
    let out_hours := Z.quot leftover_seconds SECS_PER_HOUR in
    let leftover_seconds := Z.rem leftover_seconds SECS_PER_HOUR in
    let out_minutes := Z.quot leftover_seconds 60 in
    let out_seconds := Z.rem leftover_seconds 60 in
    Some (out_year, out_month, out_day, out_hours, out_minutes, out_seconds).

Definition OPENSSL_tm_to_posix (t : tm) : option Z :=
  posix_time_from_utc (tm_year t + 1900) (tm_mon t + 1) (tm_mday t) (tm_hour t) (tm_min t) (tm_sec t).

(** The state is [*out_tm], which is cleared before the conversion. *)
Definition OPENSSL_posix_to_tm (time : Z) : M tm unit :=
  modify (fun _ => tm_zero);;
  match utc_from_posix_time time with
  | None => fail
  | Some (y, m, d, hh, mm, ss) => modify (fun _ => mkTm (y - 1900) (m - 1) d hh mm ss)
  end.

(** [small_time_t]: the platform has a 32-bit [time_t] ([SMALL_TIME_T]). *)
Definition asn1_time_tm_to_time_t (small_time_t : bool) (t : tm) : option Z :=
  match OPENSSL_tm_to_posix t with
  | None => None
  | Some posix_time =>
      if small_time_t && negb (is_int32 posix_time) then None else Some posix_time
  end.

Definition asn1_time_time_t_to_tm (time : Z) : M tm unit := OPENSSL_posix_to_tm time.
Definition OPENSSL_timegm := asn1_time_tm_to_time_t.
Definition OPENSSL_gmtime (time : Z) : M tm unit := asn1_time_time_t_to_tm time.

Definition OPENSSL_gmtime_adj (offset_day offset_sec : Z) : M tm unit :=
  t ← gets (fun t => t);
  match OPENSSL_tm_to_posix t with
  | None => fail
  | Some posix_time =>
      must (is_int64 (offset_day * SECS_PER_DAY));;
      let posix_time := posix_time + offset_day * SECS_PER_DAY in
      must (is_int64 posix_time);;
      check (negb ((0 <? posix_time) && (2 ^ 63 - 1 - posix_time <? offset_sec)));;
      check (negb ((posix_time <? 0) && (offset_sec <? - 2 ^ 63 - posix_time)));;
      let posix_time := posix_time + offset_sec in
      must (is_int64 posix_time);;
      OPENSSL_posix_to_tm posix_time
  end.

(** [*out_days] and [*out_secs]. *)
Definition OPENSSL_gmtime_diff (from to : tm) : option (Z * Z) :=
  match OPENSSL_tm_to_posix to, OPENSSL_tm_to_posix from with
  | Some time_to, Some time_from =>
      let timediff := time_to - time_from in
      let daydiff := Z.quot timediff SECS_PER_DAY in
      let timediff := Z.rem timediff SECS_PER_DAY in
      Some (daydiff, timediff)
  | _, _ => None
  end.

(** ** The calendar as a specification: one day after the other *)

Definition next_date (y m d : Z) : Z * Z * Z :=
  if d <? days_in_month y m then (y, m, d + 1)
  else if m <? 12 then (y, m + 1, 1)
  else (y + 1, 1, 1).

(** ** The day number of a date *)

(** Day of the year that starts on March 1. *)
Definition doy_of (m d : Z) : Z := (153 * (if 2 <? m then m - 3 else m + 9) + 2) / 5 + d - 1.
(** The year that starts on March 1. *)
Definition march_year (y m : Z) : Z := if m <=? 2 then y - 1 else y.
(** The first day of a March year. *)
Definition year_start (y : Z) : Z := 365 * y + y / 4 - y / 100 + y / 400.
Definition day_number (y m d : Z) : Z :=
  year_start (march_year y m) + doy_of m d - 719468.

Definition yoe_of (doe : Z) : Z := (doe - doe / 1460 + doe / 36524 - doe / 146096) / 365.

Ltac euclid := Z.to_euclidean_division_equations; lia.

Lemma yoe_of_mono a b : 0 <= a <= b -> b < 146097 -> yoe_of a <= yoe_of b.
Proof. intros. unfold yoe_of. apply Z.div_le_mono; [lia|]. euclid. Qed.

(** Check a property of [lo], [lo + 1], ... *)
Fixpoint all_from (n : nat) (lo : Z) (P : Z -> bool) : bool :=
  match n with O => true | S n' => P lo && all_from n' (lo + 1) P end.

Lemma all_from_spec n lo P :
  all_from n lo P = true -> forall x, lo <= x < lo + Z.of_nat n -> P x = true.
Proof.
  revert lo. induction n as [|n IH]; intros lo; cbn [all_from]; [lia|].
  intros [H1 H2]%andb_prop x Hx. destruct (Z.eq_dec x lo) as [->|]; [done|].
  apply (IH (lo + 1)); [done|lia].
Qed.

Lemma yoe_of_ends y :
  0 <= y < 400 -> yoe_of (year_start y) = y /\ yoe_of (Z.min (year_start (y + 1) - 1) 146096) = y.
Proof.
  intros Hy.
  assert (H : (yoe_of (year_start y) =? y) && (yoe_of (Z.min (year_start (y + 1) - 1) 146096) =? y) = true).
  { revert y Hy. apply (all_from_spec 400 0
      (fun y => (yoe_of (year_start y) =? y) && (yoe_of (Z.min (year_start (y + 1) - 1) 146096) =? y))).
    by vm_compute. }
  lia.
Qed.

Lemma yoe_of_year y doe :
  0 <= y < 400 -> year_start y <= doe < year_start (y + 1) -> doe < 146097 -> yoe_of doe = y.
Proof.
  intros Hy Hd Hmax. destruct (yoe_of_ends y Hy) as [H1 H2].
  assert (0 <= year_start y) by (unfold year_start; euclid).
  pose proof (yoe_of_mono (year_start y) doe). pose proof (yoe_of_mono doe (Z.min (year_start (y + 1) - 1) 146096)).
  lia.
Qed.

Lemma year_start_step y : year_start (y + 1) - year_start y = 337 + days_in_month (y + 1) 2.
Proof.
  unfold year_start, days_in_month.
  destruct (_ && _ || _) eqn:E.
  - apply orb_prop in E. rewrite andb_true_iff, negb_true_iff in E. euclid.
  - apply orb_false_elim in E. rewrite andb_false_iff, negb_false_iff in E. euclid.
Qed.

(** The month and the day of a day of the year. *)
Definition month_of (doy : Z) : Z :=
  let mp := (5 * doy + 2) / 153 in if mp <? 10 then mp + 3 else mp - 9.
Definition mday_of (doy : Z) : Z := let mp := (5 * doy + 2) / 153 in doy - (153 * mp + 2) / 5 + 1.

(** A month number is one of twelve. *)
Lemma month_cases m :
  1 <= m <= 12 ->
  m = 1 \/ m = 2 \/ m = 3 \/ m = 4 \/ m = 5 \/ m = 6 \/ m = 7 \/ m = 8 \/ m = 9 \/ m = 10 \/ m = 11 \/ m = 12.
Proof. lia. Qed.

Lemma days_in_february y : 28 <= days_in_month y 2 <= 29.
Proof. unfold days_in_month. destruct (_ && _ || _); lia. Qed.

Lemma doy_month y m d :
  1 <= m <= 12 -> 1 <= d <= days_in_month y m ->
  month_of (doy_of m d) = m /\ mday_of (doy_of m d) = d /\
  0 <= doy_of m d < 337 + (if m <=? 2 then days_in_month y 2 else 28).
Proof.
  intros Hm Hd. pose proof (days_in_february y) as Hf.
  set (P := fun m d => implb (d <=? days_in_month 2000 m)
    ((month_of (doy_of m d) =? m) && (mday_of (doy_of m d) =? d) && (0 <=? doy_of m d) &&
     (if m =? 2 then doy_of m d =? 336 + d else doy_of m d <? 337))).
  assert (HP : P m d = true).
  { assert (Hall : all_from 12 1 (fun m => all_from 31 1 (P m)) = true) by (by vm_compute).
    apply (all_from_spec 31 1); [|].
    - apply (all_from_spec 12 1 (fun m => all_from 31 1 (P m)) Hall m). lia.
    - split; [lia|]. assert (days_in_month y m <= 31); [|lia].
      unfold days_in_month. repeat case_match; lia. }
  assert (Hle : days_in_month y m <= days_in_month 2000 m).
  { destruct (Z.eq_dec m 2) as [->|]; [apply days_in_february|].
    unfold days_in_month. repeat case_match; lia. }
  unfold P in HP. rewrite (proj2 (Z.leb_le _ _)) in HP by lia. cbn [implb] in HP.
  destruct (Z.eqb_spec m 2) as [->|]; [cbn [Z.leb Z.compare Pos.compare Pos.compare_cont]; lia|].
  destruct (Z.leb_spec m 2); lia.
Qed.

Lemma month_doy y doy :
  0 <= doy < 337 + days_in_month (y + 1) 2 ->
  let m := month_of doy in
  let d := mday_of doy in
  1 <= m <= 12 /\ 1 <= d <= days_in_month (if m <=? 2 then y + 1 else y) m /\ doy_of m d = doy.
Proof.
  intros Hd. pose proof (days_in_february (y + 1)) as Hf.
  set (P := fun doy => let m := month_of doy in let d := mday_of doy in
    (1 <=? m) && (m <=? 12) && (1 <=? d) && (doy_of m d =? doy) &&
    (if m =? 2 then d =? doy - 336 else d <=? days_in_month 2000 m)).
  assert (HP : P doy = true).
  { apply (all_from_spec 366 0 P); [by vm_compute|lia]. }
  unfold P in HP. cbv zeta in *. destruct (Z.eqb_spec (month_of doy) 2) as [E|Hne].
  - rewrite E in *. cbn [Z.leb Z.compare Pos.compare Pos.compare_cont]. lia.
  - assert (forall y', days_in_month y' (month_of doy) = days_in_month 2000 (month_of doy)) as ->; [|lia].
    intros y'. unfold days_in_month. repeat case_match; lia.
Qed.

Lemma year_start_era era yoe :
  year_start (yoe + 400 * era) = 146097 * era + year_start yoe.
Proof. unfold year_start. euclid. Qed.

Lemma year_start_400 yoe : 0 <= yoe < 400 -> year_start yoe = 365 * yoe + yoe / 4 - yoe / 100.
Proof. intros. unfold year_start. rewrite (Z.div_small yoe 400) by lia. lia. Qed.

Lemma year_start_mono a b : a <= b -> year_start a <= year_start b.
Proof. intros. unfold year_start. euclid. Qed.

Lemma yoe_of_spec doe :
  0 <= doe < 146097 ->
  0 <= yoe_of doe < 400 /\ year_start (yoe_of doe) <= doe < year_start (yoe_of doe + 1).
Proof.
  intros Hd. set (y := yoe_of doe).
  assert (Hy : 0 <= y < 400).
  { pose proof (yoe_of_mono 0 doe). pose proof (yoe_of_mono doe 146096).
    change (yoe_of 0) with 0 in *. change (yoe_of 146096) with 399 in *. lia. }
  split; [done|]. destruct (yoe_of_ends y Hy) as [H1 H2]. split.
  - apply Z.nlt_ge. intros Hlt. destruct (Z.eq_dec y 0) as [E|].
    { rewrite E in Hlt. change (year_start 0) with 0 in Hlt. lia. }
    destruct (yoe_of_ends (y - 1)) as [_ H3]; [lia|]. rewrite Z.sub_add in H3.
    pose proof (yoe_of_mono doe (Z.min (year_start y - 1) 146096)). fold y in H. lia.
  - apply Z.nle_gt. intros Hle. destruct (Z.eq_dec y 399) as [E|].
    { rewrite E in Hle. change (year_start (399 + 1)) with 146097 in Hle. lia. }
    destruct (yoe_of_ends (y + 1)) as [H3 _]; [lia|].
    assert (0 <= year_start (y + 1)) by (change 0 with (year_start 0); apply year_start_mono; lia).
    pose proof (yoe_of_mono (year_start (y + 1)) doe). fold y in H0. lia.
Qed.

(** ** The code computes the day number and its inverse *)

(** The date of a day number. *)
Definition date_of (n : Z) : Z * Z * Z :=
  let days := n + 719468 in
  let y := yoe_of (days mod 146097) + 400 * (days / 146097) in
  let doy := days - year_start y in
  let m := month_of doy in
  ((if m <=? 2 then y + 1 else y), m, mday_of doy).

Definition time_number (hh mm ss : Z) : Z := hh * 3600 + mm * 60 + ss.

Lemma days_in_month_le y m : days_in_month y m <= 31.
Proof. unfold days_in_month. repeat case_match; lia. Qed.

Lemma days_in_month_period y m k : 0 <= y -> 0 <= y + 400 * k -> days_in_month (y + 400 * k) m = days_in_month y m.
Proof.
  intros. unfold days_in_month. rewrite !Z.rem_mod_nonneg by lia.
  replace ((y + 400 * k) mod 4) with (y mod 4) by euclid.
  replace ((y + 400 * k) mod 100) with (y mod 100) by euclid.
  by replace ((y + 400 * k) mod 400) with (y mod 400) by euclid.
Qed.

Lemma is_valid_date_spec y m d :
  is_valid_date y m d = true <-> 0 <= y <= 9999 /\ 1 <= m <= 12 /\ 1 <= d <= days_in_month y m.
Proof.
  unfold is_valid_date. destruct (_ || _) eqn:E; [lia|]. destruct (Z.ltb_spec 12 m); lia.
Qed.

Lemma is_valid_time_spec hh mm ss :
  is_valid_time hh mm ss = true <-> 0 <= hh <= 23 /\ 0 <= mm <= 59 /\ 0 <= ss <= 59.
Proof. unfold is_valid_time. lia. Qed.

Lemma posix_time_from_utc_eq y m d hh mm ss :
  posix_time_from_utc y m d hh mm ss =
  if is_valid_date y m d && is_valid_time hh mm ss
  then Some (day_number y m d * 86400 + time_number hh mm ss) else None.
Proof.
  unfold posix_time_from_utc.
  destruct (is_valid_date y m d) eqn:Ed; [|done]. destruct (is_valid_time hh mm ss) eqn:Et; [|done].
  cbn [negb orb andb]. apply is_valid_date_spec in Ed. apply is_valid_time_spec in Et.
  f_equal. unfold day_number, time_number, SECS_PER_DAY, SECS_PER_HOUR, doy_of.
  fold (march_year y m). set (Y := march_year y m).
  assert (HY : -1 <= Y <= 9999) by (unfold Y, march_year; destruct (m <=? 2); lia).
  assert (Hera : Z.quot (if 0 <=? Y then Y else Y - 399) 400 = Y / 400).
  { destruct (Z.leb_spec 0 Y); [apply Z.quot_div_nonneg; lia|].
    replace Y with (-1) by lia. done. }
  rewrite Hera. set (b := 153 * _ + 2).
  assert (0 <= b) by (unfold b; destruct (Z.ltb_spec 2 m); lia).
  rewrite (Z.quot_div_nonneg b), !(Z.quot_div_nonneg (_ - _)) by euclid.
  unfold year_start. clearbody b. euclid.
Qed.

Lemma floor_quot_rem a :
  (if Z.rem a 86400 <? 0 then (Z.quot a 86400 - 1, Z.rem a 86400 + 86400)
   else (Z.quot a 86400, Z.rem a 86400)) = (a / 86400, a mod 86400).
Proof. destruct (Z.ltb_spec (Z.rem a 86400) 0); f_equal; euclid. Qed.

Lemma utc_from_posix_time_eq t :
  utc_from_posix_time t =
  if is_valid_posix_time t
  then let s := t mod 86400 in
       Some (date_of (t / 86400), s / 3600, (s mod 3600) / 60, s mod 60) else None.
Proof.
  unfold utc_from_posix_time. destruct (is_valid_posix_time t) eqn:Ev; [|done]. cbn [negb].
  unfold is_valid_posix_time, MIN_POSIX_TIME, MAX_POSIX_TIME in Ev.
  change SECS_PER_DAY with 86400. change SECS_PER_HOUR with 3600.
  cbv zeta. rewrite floor_quot_rem.
  set (s := t mod 86400). assert (Hs : 0 <= s < 86400) by (apply Z.mod_pos_bound; lia).
  unfold date_of. set (days := t / 86400 + 719468).
  assert (Hdays : -60 <= days <= 3652364).
  { apply andb_prop in Ev as [?%Z.leb_le ?%Z.leb_le]. unfold days.
    pose proof (Z.div_le_lower_bound t 86400 (-719528)). pose proof (Z.div_lt_upper_bound t 86400 2932897). lia. }
  clearbody s days.
  assert (Hera : Z.quot (if 0 <? days then days else days - 146096) 146097 = days / 146097).
  { destruct (Z.ltb_spec 0 days); [apply Z.quot_div_nonneg; lia|]. euclid. }
  rewrite Hera. set (era := days / 146097).
  assert (Hdoe : days - era * 146097 = days mod 146097) by (unfold era; euclid). rewrite Hdoe.
  assert (Hd : 0 <= days mod 146097 < 146097) by (apply Z.mod_pos_bound; lia).
  set (doe := days mod 146097) in *.
  destruct (yoe_of_spec doe Hd) as [Hy Hys].
  assert (Hyoe : Z.quot (doe - Z.quot doe 1460 + Z.quot doe 36524 - Z.quot doe 146096) 365 = yoe_of doe).
  { unfold yoe_of. rewrite !(Z.quot_div_nonneg doe) by lia. apply Z.quot_div_nonneg; [euclid|lia]. }
  rewrite Hyoe. set (yoe := yoe_of doe) in *.
  assert (Hdoy : doe - (365 * yoe + Z.quot yoe 4 - Z.quot yoe 100) = days - year_start (yoe + 400 * era)).
  { rewrite year_start_era, (year_start_400 yoe), !(Z.quot_div_nonneg yoe) by lia. lia. }
  rewrite Hdoy. set (doy := days - year_start (yoe + 400 * era)) in *.
  assert (Hdoy0 : 0 <= doy).
  { unfold doy. rewrite year_start_era. lia. }
  rewrite (Z.quot_div_nonneg (5 * doy + 2)) by lia.
  rewrite (Z.quot_div_nonneg (153 * _ + 2)) by euclid.
  rewrite !(Z.quot_div_nonneg s), Z.rem_mod_nonneg by lia.
  assert (0 <= s mod 3600) by (apply Z.mod_pos_bound; lia).
  rewrite Z.quot_div_nonneg, Z.rem_mod_nonneg by lia.
  rewrite Z.mod_mod_divide by (by exists 60).
  fold (month_of doy) (mday_of doy). rewrite (Z.mul_comm era 400). done.
Qed.

(** The two are inverse to each other. *)
Lemma date_of_number y m d :
  0 <= y -> 1 <= m <= 12 -> 1 <= d <= days_in_month y m -> date_of (day_number y m d) = (y, m, d).
Proof.
  intros Hy Hm Hd. destruct (doy_month y m d Hm Hd) as (Hmo & Hda & Hdoy).
  unfold date_of, day_number. rewrite Z.sub_add. set (Y := march_year y m). set (doy := doy_of m d) in *.
  assert (HY : -1 <= Y) by (unfold Y, march_year; destruct (m <=? 2); lia).
  pose proof (year_start_step Y) as Hstep. pose proof (days_in_february (Y + 1)) as Hfeb.
  assert (Hdoy' : 0 <= doy < year_start (Y + 1) - year_start Y).
  { rewrite Hstep. unfold Y, march_year in *. destruct (m <=? 2); [rewrite Z.sub_add in *|]; lia. }
  assert (Hsplit : Y = Y mod 400 + 400 * (Y / 400)) by euclid.
  assert (Hm400 : 0 <= Y mod 400 < 400) by (apply Z.mod_pos_bound; lia).
  pose proof (year_start_era (Y / 400) (Y mod 400)) as Hera. rewrite <- Hsplit in Hera.
  pose proof (year_start_era (Y / 400) (Y mod 400 + 1)) as Hera1.
  replace (Y mod 400 + 1 + 400 * (Y / 400)) with (Y + 1) in Hera1 by lia.
  assert (H0 : 0 <= year_start (Y mod 400)) by (change 0 with (year_start 0); apply year_start_mono; lia).
  assert (H400 : year_start (Y mod 400 + 1) <= 146097) by (change 146097 with (year_start 400); apply year_start_mono; lia).
  set (days := year_start Y + doy).
  assert (Hdiv : days / 146097 = Y / 400) by (symmetry; apply Z.div_unique with (days - 146097 * (Y / 400)); lia).
  assert (Hmod : days mod 146097 = days - 146097 * (Y / 400)) by (rewrite Z.mod_eq by lia; lia).
  rewrite Hdiv, Hmod, (yoe_of_year (Y mod 400)) by (unfold days; lia).
  rewrite <- Hsplit. replace (days - year_start Y) with doy by (unfold days; lia).
  rewrite Hmo, Hda. f_equal. f_equal. unfold Y, march_year. destruct (m <=? 2); lia.
Qed.

Lemma number_of_date n :
  let '(y, m, d) := date_of n in
  1 <= m <= 12 /\ 1 <= d <= days_in_month y m /\ day_number y m d = n.
Proof.
  unfold date_of. set (days := n + 719468).
  assert (Hd : 0 <= days mod 146097 < 146097) by (apply Z.mod_pos_bound; lia).
  destruct (yoe_of_spec _ Hd) as [Hy Hys].
  set (yoe := yoe_of (days mod 146097)) in *. set (Y := yoe + 400 * (days / 146097)).
  pose proof (year_start_era (days / 146097) yoe) as H1. fold Y in H1.
  pose proof (year_start_era (days / 146097) (yoe + 1)) as H2.
  replace (yoe + 1 + 400 * (days / 146097)) with (Y + 1) in H2 by (unfold Y; lia).
  assert (Hsplit : days = 146097 * (days / 146097) + days mod 146097) by euclid.
  set (doy := days - year_start Y).
  assert (Hdoy : 0 <= doy < 337 + days_in_month (Y + 1) 2).
  { pose proof (year_start_step Y). unfold doy. lia. }
  destruct (month_doy Y doy Hdoy) as (Hm & Hda & Hdo).
  split; [exact Hm|]. split; [exact Hda|]. unfold day_number. rewrite Hdo.
  replace (march_year (if month_of doy <=? 2 then Y + 1 else Y) (month_of doy)) with Y.
  - unfold doy, days. lia.
  - unfold march_year. destruct (month_of doy <=? 2); lia.
Qed.

(** Consecutive dates have consecutive numbers. *)
Lemma day_number_next y m d :
  1 <= m <= 12 -> 1 <= d <= days_in_month y m ->
  let '(y', m', d') := next_date y m d in day_number y' m' d' = day_number y m d + 1.
Proof.
  intros Hm Hd. unfold next_date. destruct (Z.ltb_spec d (days_in_month y m)).
  { unfold day_number, doy_of. lia. }
  assert (d = days_in_month y m) as -> by lia.
  destruct (Z.ltb_spec m 12).
  - destruct (Z.eq_dec m 2) as [->|].
    + unfold day_number, march_year, doy_of. pose proof (year_start_step (y - 1)).
      rewrite Z.sub_add in *. change (2 + 1 <=? 2) with false. change (2 <=? 2) with true.
      change (2 <? 2 + 1) with true. change (2 <? 2) with false. cbv iota. euclid.
    + replace (day_number y (m + 1) 1 = day_number y m (days_in_month y m) + 1)
        with (day_number y (m + 1) 1 = day_number y m (days_in_month 2000 m) + 1).
      2: { unfold days_in_month. repeat case_match; done. }
      unfold day_number, march_year.
      destruct (month_cases m Hm) as [->|[->|[->|[->|[->|[->|[->|[->|[->|[->|[->| ->]]]]]]]]]]];
        try lia; match goal with |- context [?a + 1 <=? 2] => let b := eval vm_compute in (a + 1) in change (a + 1) with b end;
        repeat match goal with |- context [doy_of ?a ?b] => let c := eval vm_compute in (doy_of a b) in change (doy_of a b) with c end;
        repeat match goal with |- context [?a <=? ?b] => let c := eval vm_compute in (a <=? b) in change (a <=? b) with c end; cbv iota; lia.
  - assert (m = 12) as -> by lia. unfold day_number, march_year.
    change (days_in_month y 12) with 31. change (doy_of 12 31) with 305. change (doy_of 1 1) with 306.
    change (12 <=? 2) with false. change (1 <=? 2) with true. cbv iota. replace (y + 1 - 1) with y by lia. lia.
Qed.

Lemma doy_range y m d :
  1 <= m <= 12 -> 1 <= d <= days_in_month y m ->
  if m <=? 2 then 306 <= doy_of m d <= 365 else 0 <= doy_of m d <= 305.
Proof.
  intros Hm Hd.
  set (P := fun m d => implb (d <=? days_in_month 2000 m)
    (if m <=? 2 then (306 <=? doy_of m d) && (doy_of m d <=? 365)
     else (0 <=? doy_of m d) && (doy_of m d <=? 305))).
  assert (Hle : days_in_month y m <= days_in_month 2000 m).
  { destruct (Z.eq_dec m 2) as [->|]; [apply days_in_february|].
    unfold days_in_month. repeat case_match; lia. }
  assert (HP : P m d = true).
  { assert (Hall : all_from 12 1 (fun m => all_from 31 1 (P m)) = true) by (by vm_compute).
    apply (all_from_spec 31 1).
    - apply (all_from_spec 12 1 (fun m => all_from 31 1 (P m)) Hall m). lia.
    - pose proof (days_in_month_le y m). lia. }
  unfold P in HP. rewrite (proj2 (Z.leb_le _ _)) in HP by lia. cbn [implb] in HP.
  destruct (m <=? 2); lia.
Qed.

(** The supported days are those of the years 0 to 9999. *)
Lemma day_number_range y m d :
  1 <= m <= 12 -> 1 <= d <= days_in_month y m ->
  0 <= y <= 9999 <-> -719528 <= day_number y m d <= 2932896.
Proof.
  intros Hm Hd. pose proof (doy_range y m d Hm Hd) as Hr. unfold day_number, march_year.
  destruct (m <=? 2).
  - pose proof (year_start_mono (-1) (y - 1)). pose proof (year_start_mono (y - 1) 9998).
    pose proof (year_start_mono (y - 1) (-2)). pose proof (year_start_mono 9999 (y - 1)).
    change (year_start (-1)) with (-366) in *. change (year_start (-2)) with (-731) in *.
    change (year_start 9998) with 3651694 in *. change (year_start 9999) with 3652059 in *. lia.
  - pose proof (year_start_mono 0 y). pose proof (year_start_mono y 9999).
    pose proof (year_start_mono y (-1)). pose proof (year_start_mono 10000 y).
    change (year_start (-1)) with (-366) in *. change (year_start 0) with 0 in *.
    change (year_start 9999) with 3652059 in *. change (year_start 10000) with 3652425 in *. lia.
Qed.

Lemma is_valid_posix_time_spec t :
  is_valid_posix_time t = true <-> -719528 <= t / 86400 <= 2932896.
Proof. unfold is_valid_posix_time, MIN_POSIX_TIME, MAX_POSIX_TIME. rewrite andb_true_iff, !Z.leb_le. euclid. Qed.

Lemma time_split s :
  0 <= s < 86400 ->
  is_valid_time (s / 3600) ((s mod 3600) / 60) (s mod 60) = true /\
  time_number (s / 3600) ((s mod 3600) / 60) (s mod 60) = s.
Proof.
  intros Hs. rewrite is_valid_time_spec. unfold time_number.
  rewrite <- (Z.mod_mod_divide s 3600 60) by (by exists 60).
  set (r := s mod 3600). assert (0 <= r < 3600) by (apply Z.mod_pos_bound; lia).
  assert (s = 3600 * (s / 3600) + r) by (unfold r; euclid). clearbody r. euclid.
Qed.

Lemma time_join hh mm ss :
  is_valid_time hh mm ss = true ->
  let s := time_number hh mm ss in
  0 <= s < 86400 /\ s / 3600 = hh /\ (s mod 3600) / 60 = mm /\ s mod 60 = ss.
Proof.
  intros H%is_valid_time_spec. cbv zeta. unfold time_number. split; [lia|].
  assert (E1 : (hh * 3600 + mm * 60 + ss) / 3600 = hh) by (symmetry; apply Z.div_unique with (mm * 60 + ss); lia).
  assert (E2 : (hh * 3600 + mm * 60 + ss) mod 3600 = mm * 60 + ss) by (symmetry; apply Z.mod_unique with hh; lia).
  split; [exact E1|]. rewrite E2. split; [symmetry; apply Z.div_unique with ss; lia|].
  symmetry. apply Z.mod_unique with (hh * 60 + mm); lia.
Qed.

Lemma posix_of_utc_of_posix t :
  is_valid_posix_time t = true ->
  exists y m d hh mm ss, utc_from_posix_time t = Some (y, m, d, hh, mm, ss) /\
    posix_time_from_utc y m d hh mm ss = Some t.
Proof.
  intros Hv. rewrite utc_from_posix_time_eq, Hv. cbv zeta.
  pose proof (number_of_date (t / 86400)) as Hd. destruct (date_of (t / 86400)) as [[y m] d].
  destruct Hd as (Hm & Hda & Hn). do 6 eexists. split; [done|].
  destruct (time_split (t mod 86400)) as [Ht Hs]; [apply Z.mod_pos_bound; lia|].
  rewrite posix_time_from_utc_eq, Ht, Hs, Hn.
  rewrite (proj2 (is_valid_date_spec y m d)).
  - cbn [andb]. f_equal. euclid.
  - split; [|done]. apply (day_number_range y m d Hm Hda). rewrite Hn. by apply is_valid_posix_time_spec.
Qed.

Lemma utc_of_posix_of_utc y m d hh mm ss t :
  posix_time_from_utc y m d hh mm ss = Some t ->
  is_valid_posix_time t = true /\ utc_from_posix_time t = Some (y, m, d, hh, mm, ss).
Proof.
  rewrite posix_time_from_utc_eq. destruct (is_valid_date y m d) eqn:Hd; [|done].
  destruct (is_valid_time hh mm ss) eqn:Ht; [|done]. cbn [andb]. intros [= <-].
  apply is_valid_date_spec in Hd as (Hy & Hm & Hd).
  destruct (time_join _ _ _ Ht) as (Hs & Hh & Hmi & Hse). set (s := time_number hh mm ss) in *.
  set (n := day_number y m d).
  assert (E1 : (n * 86400 + s) / 86400 = n) by (symmetry; apply Z.div_unique with s; lia).
  assert (E2 : (n * 86400 + s) mod 86400 = s) by (symmetry; apply Z.mod_unique with n; lia).
  assert (Hv : is_valid_posix_time (n * 86400 + s) = true).
  { apply is_valid_posix_time_spec. rewrite E1. by apply day_number_range. }
  split; [done|]. rewrite utc_from_posix_time_eq, Hv, E1, E2. cbv zeta. unfold n.
  rewrite date_of_number, Hh, Hmi, Hse by (done || lia). done.
Qed.

Lemma posix_to_tm_ok t tm0 :
  is_valid_posix_time t = true ->
  exists tm1, OPENSSL_posix_to_tm t tm0 = Ret tt tm1 /\ OPENSSL_tm_to_posix tm1 = Some t.
Proof.
  intros Hv. destruct (posix_of_utc_of_posix t Hv) as (y & m & d & hh & mm & ss & H1 & H2).
  unfold OPENSSL_posix_to_tm. mstep. rewrite H1. eexists. split; [done|].
  unfold OPENSSL_tm_to_posix. cbn. by replace (y - 1900 + 1900) with y by lia; replace (m - 1 + 1) with m by lia.
Qed.

Lemma posix_to_tm_bad t tm0 :
  is_valid_posix_time t = false -> OPENSSL_posix_to_tm t tm0 = Fail tm_zero.
Proof. intros Hv. unfold OPENSSL_posix_to_tm. mstep. by rewrite utc_from_posix_time_eq, Hv. Qed.

Lemma tm_to_posix_ok tm1 t :
  OPENSSL_tm_to_posix tm1 = Some t ->
  is_valid_posix_time t = true /\ forall tm0, OPENSSL_posix_to_tm t tm0 = Ret tt tm1.
Proof.
  intros [Hv Hu]%utc_of_posix_of_utc. split; [done|]. intros tm0. unfold OPENSSL_posix_to_tm. mstep.
  rewrite Hu. destruct tm1. cbn. repeat f_equal; lia.
Qed.

(** ** Properties *)

(** C28. Converting a time to a broken-down UTC date and back is the
    identity in both directions, on exactly the years 0000 to 9999: every
    time in range has a date that converts back to it, and every date that
    converts has a time in range that converts back to that date. *)
Theorem OPENSSL_posix_tm_inverse t tm1 tm0 :
  (is_valid_posix_time t = true ->
   exists tm2, OPENSSL_posix_to_tm t tm0 = Ret tt tm2 /\ OPENSSL_tm_to_posix tm2 = Some t) /\
  (is_valid_posix_time t = false -> OPENSSL_posix_to_tm t tm0 = Fail tm_zero) /\
  (OPENSSL_tm_to_posix tm1 = Some t ->
   is_valid_posix_time t = true /\ OPENSSL_posix_to_tm t tm0 = Ret tt tm1).
Proof.
  split; [apply posix_to_tm_ok|]. split; [apply posix_to_tm_bad|].
  intros H. destruct (tm_to_posix_ok _ _ H). auto.
Qed.

(** 2000-02-29 23:59:59 UTC. *)
Definition leap_day : tm := mkTm 100 1 29 23 59 59.

Lemma OPENSSL_posix_tm_inverse_witness :
  OPENSSL_tm_to_posix leap_day = Some 951868799 /\
  OPENSSL_posix_to_tm 951868799 tm_zero = Ret tt leap_day.
Proof.
  split; [by vm_compute|].
  apply (proj2 (proj2 (OPENSSL_posix_tm_inverse 951868799 leap_day tm_zero))). by vm_compute.
Defined.

(** The conversion agrees with the calendar: the epoch is zero, and from
    any date the next date of the proleptic Gregorian calendar is exactly
    86400 seconds later. *)
Theorem posix_time_from_utc_calendar y m d hh mm ss t :
  posix_time_from_utc y m d hh mm ss = Some t ->
  posix_time_from_utc 1970 1 1 0 0 0 = Some 0 /\
  let '(y', m', d') := next_date y m d in
  posix_time_from_utc y' m' d' hh mm ss = if y' <=? 9999 then Some (t + 86400) else None.
Proof.
  rewrite (posix_time_from_utc_eq y). destruct (is_valid_date y m d) eqn:Hd; [|done].
  destruct (is_valid_time hh mm ss) eqn:Ht; [|done]. cbn [andb]. intros [= <-]. split; [done|].
  apply is_valid_date_spec in Hd as (Hy & Hm & Hd).
  pose proof (day_number_next y m d Hm Hd) as Hn.
  assert (Hnext : let '(y', m', d') := next_date y m d in 0 <= y' /\ 1 <= m' <= 12 /\ 1 <= d' <= days_in_month y' m').
  { unfold next_date. destruct (Z.ltb_spec d (days_in_month y m)); [lia|].
    destruct (Z.ltb_spec m 12); [|cbn; lia]. split_and!; try lia.
    unfold days_in_month. repeat case_match; lia. }
  destruct (next_date y m d) as [[y' m'] d']. rewrite posix_time_from_utc_eq, Ht, andb_true_r, Hn.
  destruct (Z.leb_spec y' 9999).
  - rewrite (proj2 (is_valid_date_spec y' m' d')) by lia. f_equal. lia.
  - destruct (is_valid_date y' m' d') eqn:Hv; [|done]. apply is_valid_date_spec in Hv. lia.
Qed.

Lemma posix_time_from_utc_calendar_witness :
  next_date 2000 2 28 = (2000, 2, 29) /\ posix_time_from_utc 2000 2 29 0 0 0 = Some (951696000 + 86400).
Proof.
  split; [by vm_compute|].
  exact (proj2 (posix_time_from_utc_calendar 2000 2 28 0 0 0 951696000 ltac:(by vm_compute))).
Defined.

(** [OPENSSL_gmtime_adj] shifts a valid date by any [int] number of days
    and any [int64_t] number of seconds without overflow: it succeeds exactly
    when the shifted time is in range, and then the new date stands for the
    shifted time. *)
Theorem OPENSSL_gmtime_adj_correct tm0 t days secs :
  OPENSSL_tm_to_posix tm0 = Some t -> is_int32 days = true -> is_int64 secs = true ->
  let t' := t + days * 86400 + secs in
  match OPENSSL_gmtime_adj days secs tm0 with
  | Ret _ tm1 => is_valid_posix_time t' = true /\ OPENSSL_tm_to_posix tm1 = Some t'
  | Fail _ => is_valid_posix_time t' = false
  | UB => False
  end.
Proof.
  intros Ht Hd Hs. cbv zeta. unfold OPENSSL_gmtime_adj.
  destruct (tm_to_posix_ok _ _ Ht) as [Hv _].
  unfold is_int32, is_int64 in *.
  unfold is_valid_posix_time, MIN_POSIX_TIME, MAX_POSIX_TIME in Hv.
  mstep. rewrite Ht. change SECS_PER_DAY with 86400.
  apply andb_prop in Hd as [?%Z.leb_le ?%Z.leb_le], Hs as [?%Z.leb_le ?%Z.leb_le].
  apply andb_prop in Hv as [?%Z.leb_le ?%Z.leb_le].
  rewrite !(proj2 (Z.leb_le _ _)) by lia. cbn [andb].
  set (u := t + days * 86400) in *. assert (Hu : - 2 ^ 62 <= u <= 2 ^ 62) by lia.
  assert (Hbad : u + secs < MIN_POSIX_TIME \/ MAX_POSIX_TIME < u + secs -> is_valid_posix_time (u + secs) = false).
  { unfold is_valid_posix_time. intros. apply andb_false_iff. rewrite !Z.leb_gt. lia. }
  unfold MIN_POSIX_TIME, MAX_POSIX_TIME in Hbad.
  destruct ((0 <? u) && (2 ^ 63 - 1 - u <? secs)) eqn:E1; cbn [negb].
  { apply andb_prop in E1 as [?%Z.ltb_lt ?%Z.ltb_lt]. apply Hbad. lia. }
  destruct ((u <? 0) && (secs <? - 2 ^ 63 - u)) eqn:E2; cbn [negb].
  { apply andb_prop in E2 as [?%Z.ltb_lt ?%Z.ltb_lt]. apply Hbad. lia. }
  apply andb_false_iff in E1, E2. rewrite !Z.ltb_ge in E1, E2.
  rewrite !(proj2 (Z.leb_le _ _)) by lia. cbn [andb].
  destruct (is_valid_posix_time (u + secs)) eqn:Ev.
  - destruct (posix_to_tm_ok _ tm0 Ev) as (tm1 & -> & ?). done.
  - by rewrite posix_to_tm_bad.
Qed.

Lemma OPENSSL_gmtime_adj_correct_witness :
  OPENSSL_tm_to_posix leap_day = Some 951868799 /\
  match OPENSSL_gmtime_adj (-1) 2 leap_day with
  | Ret _ tm1 => OPENSSL_tm_to_posix tm1 = Some (951868799 + -1 * 86400 + 2)
  | _ => False
  end.
Proof.
  assert (H0 : OPENSSL_tm_to_posix leap_day = Some 951868799) by (by vm_compute).
  split; [exact H0|].
  pose proof (OPENSSL_gmtime_adj_correct leap_day 951868799 (-1) 2 H0 eq_refl eq_refl) as H.
  cbv zeta in H. destruct (OPENSSL_gmtime_adj (-1) 2 leap_day) as [[] tm1|tm1|].
  - exact (proj2 H).
  - vm_compute in H. discriminate H.
  - exact H.
Defined.

(** [OPENSSL_gmtime_diff] splits the difference of two dates into days
    and seconds of the same sign, both of which fit an [int]. *)
Theorem OPENSSL_gmtime_diff_correct from to t1 t2 :
  OPENSSL_tm_to_posix from = Some t1 -> OPENSSL_tm_to_posix to = Some t2 ->
  exists days secs, OPENSSL_gmtime_diff from to = Some (days, secs) /\
    t2 - t1 = days * 86400 + secs /\ Z.abs secs < 86400 /\
    (t1 <= t2 -> 0 <= days /\ 0 <= secs) /\ (t2 <= t1 -> days <= 0 /\ secs <= 0) /\
    is_int32 days = true /\ is_int32 secs = true.
Proof.
  intros H1 H2. destruct (tm_to_posix_ok _ _ H1) as [Hv1 _]. destruct (tm_to_posix_ok _ _ H2) as [Hv2 _].
  unfold OPENSSL_gmtime_diff. rewrite H1, H2. do 2 eexists. split; [done|].
  change SECS_PER_DAY with 86400.
  unfold is_valid_posix_time, MIN_POSIX_TIME, MAX_POSIX_TIME in *.
  apply andb_prop in Hv1 as [?%Z.leb_le ?%Z.leb_le], Hv2 as [?%Z.leb_le ?%Z.leb_le].
  unfold is_int32. rewrite !andb_true_iff, !Z.leb_le. split_and!; euclid.
Qed.

Lemma OPENSSL_gmtime_diff_correct_witness :
  exists days secs, OPENSSL_gmtime_diff leap_day (mkTm 70 0 1 0 0 0) = Some (days, secs) /\
    0 - 951868799 = days * 86400 + secs.
Proof.
  destruct (OPENSSL_gmtime_diff_correct leap_day (mkTm 70 0 1 0 0 0) 951868799 0
    ltac:(by vm_compute) ltac:(by vm_compute)) as (days & secs & H1 & H2 & _).
  exists days, secs. split; [exact H1|exact H2].
Defined.
