(* ===== verification/Ctype.v ===== *)
(** * Character classes

    The functions of <ctype.h> in the C locale, for the values of an octet or of a
    [char]; strings are lists of octets up to and with the NUL. *)

From S2P Require Import Prelude.
Open Scope Z_scope.

Definition isspace (c : Z) : bool := ((9 <=? c) && (c <=? 13)) || (c =? 32).
Definition isdigit (c : Z) : bool := (48 <=? c) && (c <=? 57).
Definition isupper (c : Z) : bool := (65 <=? c) && (c <=? 90).
Definition islower (c : Z) : bool := (97 <=? c) && (c <=? 122).
Definition isalpha (c : Z) : bool := isupper c || islower c.
Definition isxdigit (c : Z) : bool := isdigit c || ((65 <=? c) && (c <=? 70)) || ((97 <=? c) && (c <=? 102)).

(** The value of an octet as a [char], which is signed. *)
Definition char_of (c : Z) : Z := if c <? 128 then c else c - 256.

(** Case analysis on the comparisons of a goal. *)
Ltac zbools :=
  repeat (match goal with
  | |- context [?a <? ?b] => destruct (Z.ltb_spec a b)
  | |- context [?a <=? ?b] => destruct (Z.leb_spec a b)
  | |- context [?a =? ?b] => destruct (Z.eqb_spec a b)
  end; try (exfalso; lia)); cbn [negb andb orb].
