(* ===== verification/Base64.v ===== *)
(** * Base 64

    lib/libc/net/base64.c.  A string is the list of its octets with the NUL at its end;
    the state is the array [target] points to, [None] when [b64_pton] gets a null
    pointer.  The specification is RFC 1521: groups of 24 bits as four digits. *)

From S2P Require Import Prelude Ctype.
Open Scope Z_scope.

(** The alphabet, [Base64], as octets. *)
Definition Base64 : list Z :=
  map Z.of_nat (seq 65 26 ++ seq 97 26 ++ seq 48 10 ++ [43; 47]%nat).
Definition Pad64 : Z := 61.

(** [strchr(p, ch) - p], for [ch] other than NUL. *)
Fixpoint strchr (p : list Z) (ch : Z) : option Z :=
  match p with
  | [] => None
  | c :: p => if c =? ch then Some 0 else i ← strchr p ch; Some (1 + i)
  end.

(** ** Encoding *)

(** [target[i] = x] *)
Definition put (i x : Z) : M (list Z) unit :=
  t ← gets id; t ← valid (zset t i x); modify (fun _ => t).
Definition put_digit (i output : Z) : M (list Z) unit :=
  d ← valid (zget Base64 output); put i d.

(** [while (2 < srclength)]: what is left of [src], and [datalength]. *)
Fixpoint ntop_loop (targsize : Z) (src : list Z) (datalength : Z) : M (list Z) (list Z * Z) :=
  match src with
  | input0 :: input1 :: input2 :: src =>
      let output0 := Z.shiftr input0 2 in
      let output1 := Z.shiftl (Z.land input0 0x03) 4 + Z.shiftr input1 4 in
      let output2 := Z.shiftl (Z.land input1 0x0f) 2 + Z.shiftr input2 6 in
      let output3 := Z.land input2 0x3f in
      check (negb (targsize <? u64 (datalength + 4)));;
      put_digit datalength output0;;
      put_digit (datalength + 1) output1;;
      put_digit (datalength + 2) output2;;
      put_digit (datalength + 3) output3;;
      ntop_loop targsize src (datalength + 4)
  | _ => mret (src, datalength)
  end.

(** The last one or two octets, with padding. *)
Definition ntop_tail (targsize : Z) (src : list Z) (datalength : Z) : M (list Z) Z :=
  if negb (zlen src =? 0) then
    let input0 := nth 0 src 0 in
    let input1 := nth 1 src 0 in
    let input2 := nth 2 src 0 in
    let output0 := Z.shiftr input0 2 in
    let output1 := Z.shiftl (Z.land input0 0x03) 4 + Z.shiftr input1 4 in
    let output2 := Z.shiftl (Z.land input1 0x0f) 2 + Z.shiftr input2 6 in
    check (negb (targsize <? u64 (datalength + 4)));;
    put_digit datalength output0;;
    put_digit (datalength + 1) output1;;
    (if zlen src =? 1 then put (datalength + 2) Pad64 else put_digit (datalength + 2) output2);;
    put (datalength + 3) Pad64;;
    mret (datalength + 4)
  else mret datalength.

(** The length; a failure is the return value -1. *)
Definition b64_ntop (src : list Z) (targsize : Z) : M (list Z) Z :=
  '(src, datalength) ← ntop_loop targsize src 0;
  datalength ← ntop_tail targsize src datalength;
  check (negb (targsize <=? datalength));;
  put datalength 0;;
  mret datalength.

(** ** Decoding *)

Definition target_t : Type := option (list Z).

(** [target[i] = f(target[i])] *)
Definition target_set (i : Z) (f : Z -> Z) : M target_t unit :=
  t ← gets id; buf ← valid t;
  x ← valid (zget buf i); buf ← valid (zset buf i (f x));
  modify (fun _ => Some buf).

(** [if (target) { ... }] *)
Definition if_target (m : M target_t unit) : M target_t unit :=
  t ← gets id;
  match t with
  | Some _ => m
  | None => mret tt
  end.

(** [tarindex++] of an [int]. *)
Definition int_incr (i : Z) : M target_t Z := must (i <? 2 ^ 31 - 1);; mret (i + 1).

(** The bits of a digit in two octets of the target. *)
Definition put_split (targsize tarindex high nextbyte : Z) : M target_t unit :=
  if_target (
    check (negb (targsize <=? tarindex));;
    target_set tarindex (fun x => u8 (Z.lor x high));;
    if tarindex + 1 <? targsize then target_set (tarindex + 1) (fun _ => nextbyte)
    else check (nextbyte =? 0)).

(** [switch (state)]: the new [tarindex] and [state]. *)
Definition pton_digit (targsize pos tarindex state : Z) : M target_t (Z * Z) :=
  if state =? 0 then
    if_target (check (negb (targsize <=? tarindex));; target_set tarindex (fun _ => u8 (Z.shiftl pos 2)));;
    mret (tarindex, 1)
  else if state =? 1 then
    put_split targsize tarindex (Z.shiftr pos 4) (u8 (Z.shiftl (Z.land pos 0x0f) 4));;
    tarindex ← int_incr tarindex;
    mret (tarindex, 2)
  else if state =? 2 then
    put_split targsize tarindex (Z.shiftr pos 2) (u8 (Z.shiftl (Z.land pos 0x03) 6));;
    tarindex ← int_incr tarindex;
    mret (tarindex, 3)
  else
    if_target (check (negb (targsize <=? tarindex));; target_set tarindex (fun x => u8 (Z.lor x pos)));;
    tarindex ← int_incr tarindex;
    mret (tarindex, 0).

(** The loop: [ch], the rest of [src], [tarindex] and [state]. *)
Fixpoint pton_loop (targsize : Z) (src : list Z) (tarindex state : Z) : M target_t (Z * list Z * Z * Z) :=
  match src with
  | [] => ub
  | ch :: src =>
      if ch =? 0 then mret (ch, src, tarindex, state)
      else if isspace ch then pton_loop targsize src tarindex state
      else if ch =? Pad64 then mret (ch, src, tarindex, state)
      else
        match strchr Base64 ch with
        | None => fail
        | Some pos =>
            '(tarindex, state) ← pton_digit targsize pos tarindex state;
            pton_loop targsize src tarindex state
        end
  end.

(** [for (; ch != '\0'; ch = *src++) if (!isspace(ch)) break;] *)
Fixpoint skip_spaces (ch : Z) (src : list Z) : M target_t (Z * list Z) :=
  if (ch =? 0) || negb (isspace ch) then mret (ch, src)
  else
    match src with
    | [] => ub
    | ch :: src => skip_spaces ch src
    end.

(** [for (; ch != '\0'; ch = *src++) if (!isspace(ch)) return (-1);] *)
Fixpoint only_spaces (ch : Z) (src : list Z) : M target_t unit :=
  if ch =? 0 then mret tt
  else if negb (isspace ch) then fail
  else
    match src with
    | [] => ub
    | ch :: src => only_spaces ch src
    end.

(** [ch = *src++] *)
Definition next_char (src : list Z) : M target_t (Z * list Z) :=
  match src with
  | [] => ub
  | ch :: src => mret (ch, src)
  end.

(** The extra bits are zero. *)
Definition extra_bits (targsize tarindex : Z) : M target_t unit :=
  t ← gets id;
  match t with
  | Some buf => if tarindex <? targsize then x ← valid (zget buf tarindex); check (negb (negb (x =? 0))) else mret tt
  | None => mret tt
  end.

(** After the loop. *)
Definition pton_end (targsize : Z) (ch : Z) (src : list Z) (tarindex state : Z) : M target_t Z :=
  (if ch =? Pad64 then
     '(ch, src) ← next_char src;
     if (state =? 0) || (state =? 1) then fail
     else
       '(ch, src) ← (if state =? 2 then
                       '(ch, src) ← skip_spaces ch src;
                       check (ch =? Pad64);;
                       next_char src
                     else mret (ch, src));
       only_spaces ch src;;
       extra_bits targsize tarindex
   else check (state =? 0));;
  mret tarindex.

Definition b64_pton (src : list Z) (targsize : Z) : M target_t Z :=
  '(ch, src, tarindex, state) ← pton_loop targsize src 0 0;
  pton_end targsize ch src tarindex state.

(** ** RFC 1521 *)

(** The digit of six bits, and the digits of a group of 24 bits. *)
Definition digit (x : Z) : Z := nth (Z.to_nat x) Base64 0.
Definition group (v : Z) : list Z := [digit (v / 2 ^ 18); digit (v / 2 ^ 12 mod 64); digit (v / 2 ^ 6 mod 64); digit (v mod 64)].

(** Groups of three octets; zero bits fill the last one, and "=" stands for digits that
    have no bits of the octets. *)
Fixpoint base64 (d : list Z) : list Z :=
  match d with
  | [] => []
  | [a] => ztake 2 (group (be_val [a; 0; 0])) ++ [Pad64; Pad64]
  | [a; b] => ztake 3 (group (be_val [a; b; 0])) ++ [Pad64]
  | a :: b :: c :: d => group (be_val [a; b; c]) ++ base64 d
  end.

(** The characters of a string that are not white space. *)
Definition strip (s : list Z) : list Z := List.filter (fun c => negb (isspace c)) s.

(** *** The alphabet *)

Lemma digit_index x : 0 <= x < 64 -> strchr Base64 (digit x) = Some x /\ isspace (digit x) = false /\ (digit x =? Pad64) = false /\ (digit x =? 0) = false.
Proof.
  intros Hx. assert (H : forallb (fun x => bool_decide (strchr Base64 (digit x) = Some x) && negb (isspace (digit x)) && negb (digit x =? Pad64) && negb (digit x =? 0))
    (map Z.of_nat (seq 0 64)) = true) by (vm_compute; reflexivity).
  rewrite forallb_forall in H. specialize (H x).
  assert (Hin : In x (map Z.of_nat (seq 0 64))) by (apply in_map_iff; exists (Z.to_nat x); split; [lia|apply in_seq; lia]). specialize (H Hin).
  apply andb_prop in H as [[[H H1]%andb_prop H2]%andb_prop H3]. apply bool_decide_eq_true in H. by rewrite negb_true_iff in *.
Qed.

Lemma strchr_zget p ch i : strchr p ch = Some i -> zget p i = Some ch /\ 0 <= i < zlen p.
Proof.
  revert i. induction p as [|c p IH]; intros i; cbn [strchr]; [done|]. pose proof (zlen_nonneg p). rewrite zlen_cons.
  destruct (Z.eqb_spec c ch) as [->|].
  - intros [= <-]. split; [done|lia].
  - destruct (strchr p ch) as [j|] eqn:E; [|done]. intros [= <-]. destruct (IH j eq_refl) as [E1 E2].
    rewrite zget_cons_S by lia. replace (1 + j - 1) with j by lia. split; [done|lia].
Qed.

Lemma zget_digit x : 0 <= x < 64 -> zget Base64 x = Some (digit x).
Proof. intros Hx. destruct (digit_index x Hx) as (E & _). by apply strchr_zget in E as [E _]. Qed.

Lemma index_digit c x : strchr Base64 c = Some x -> 0 <= x < 64 /\ digit x = c.
Proof.
  intros [E Hx]%strchr_zget. change (zlen Base64) with 64 in Hx. split; [done|]. rewrite zget_digit in E by done. by injection E.
Qed.

(** *** The bits of a string without white space

    [st] digits of a group have been read, [p] is what their bits leave for the next octet. *)
Fixpoint b64_bits (st : nat) (p : Z) (l : list Z) : option (list Z) :=
  match l with
  | [] => if (st =? 0)%nat then Some [] else None
  | c :: l =>
      if c =? Pad64 then
        match st with
        | 0%nat | 1%nat => None
        | 2%nat => if bool_decide (l = [Pad64]) && (p =? 0) then Some [] else None
        | _ => if bool_decide (l = []) && (p =? 0) then Some [] else None
        end
      else
        x ← strchr Base64 c;
        match st with
        | 0%nat => b64_bits 1 x l
        | 1%nat => r ← b64_bits 2 (x mod 16) l; Some (4 * p + x / 16 :: r)
        | 2%nat => r ← b64_bits 3 (x mod 4) l; Some (16 * p + x / 4 :: r)
        | _ => r ← b64_bits 0 0 l; Some (64 * p + x :: r)
        end
  end.

Lemma bits_digit st p x l : 0 <= x < 64 -> b64_bits st p (digit x :: l) =
  match st with
  | 0%nat => b64_bits 1 x l
  | 1%nat => r ← b64_bits 2 (x mod 16) l; Some (4 * p + x / 16 :: r)
  | 2%nat => r ← b64_bits 3 (x mod 4) l; Some (16 * p + x / 4 :: r)
  | _ => r ← b64_bits 0 0 l; Some (64 * p + x :: r)
  end.
Proof. intros Hx. destruct (digit_index x Hx) as (E & _ & E2 & _). cbn [b64_bits]. by rewrite E2, E. Qed.

Lemma group_bits x y z w :
  0 <= x < 64 -> 0 <= y < 64 -> 0 <= z < 64 -> 0 <= w < 64 ->
  group (be_val [4 * x + y / 16; 16 * (y mod 16) + z / 4; 64 * (z mod 4) + w]) = [digit x; digit y; digit z; digit w].
Proof.
  intros Hx Hy Hz Hw. unfold group.
  assert (Hv : be_val [4 * x + y / 16; 16 * (y mod 16) + z / 4; 64 * (z mod 4) + w] = x * 2 ^ 18 + y * 2 ^ 12 + z * 2 ^ 6 + w).
  { unfold be_val. cbn [fold_left]. Z.to_euclidean_division_equations. lia. }
  rewrite Hv. clear Hv.
  assert (E1 : (x * 2 ^ 18 + y * 2 ^ 12 + z * 2 ^ 6 + w) / 2 ^ 18 = x) by (Z.to_euclidean_division_equations; lia).
  assert (E2 : (x * 2 ^ 18 + y * 2 ^ 12 + z * 2 ^ 6 + w) / 2 ^ 12 = x * 64 + y) by (Z.to_euclidean_division_equations; lia).
  assert (E3 : (x * 2 ^ 18 + y * 2 ^ 12 + z * 2 ^ 6 + w) / 2 ^ 6 = x * 4096 + y * 64 + z) by (Z.to_euclidean_division_equations; lia).
  rewrite E1, E2, E3. repeat f_equal; Z.to_euclidean_division_equations; lia.
Qed.

(** The digits of three octets. *)
Lemma bits_group a b c l :
  is_byte a -> is_byte b -> is_byte c ->
  exists x y z w, group (be_val [a; b; c]) = [digit x; digit y; digit z; digit w] /\
    0 <= x < 64 /\ 0 <= y < 64 /\ 0 <= z < 64 /\ 0 <= w < 64 /\
    a = 4 * x + y / 16 /\ b = 16 * (y mod 16) + z / 4 /\ c = 64 * (z mod 4) + w /\
    b64_bits 0 0 (group (be_val [a; b; c]) ++ l) = (r ← b64_bits 0 0 l; Some (a :: b :: c :: r)).
Proof.
  intros Ha Hb Hc. unfold is_byte in *.
  assert (H : exists x y z w, 0 <= x < 64 /\ 0 <= y < 64 /\ 0 <= z < 64 /\ 0 <= w < 64 /\
    a = 4 * x + y / 16 /\ b = 16 * (y mod 16) + z / 4 /\ c = 64 * (z mod 4) + w).
  { exists (a / 4), (16 * (a mod 4) + b / 16), (4 * (b mod 16) + c / 64), (c mod 64).
    assert (Hdiv : forall v k, 0 < k -> v = k * (v / k) + v mod k /\ 0 <= v mod k < k) by (intros v k Hk; split; [by apply Z.div_mod; lia|by apply Z.mod_pos_bound]).
    destruct (Hdiv a 4 ltac:(lia)), (Hdiv b 16 ltac:(lia)), (Hdiv c 64 ltac:(lia)).
    generalize dependent (a / 4). generalize dependent (a mod 4). generalize dependent (b / 16). generalize dependent (b mod 16).
    generalize dependent (c / 64). generalize dependent (c mod 64). clear Hdiv. intros c0 Hc0 c1 Ec b0 Hb0 b1 Eb a0 Ha0 a1 Ea.
    repeat split; try lia; Z.to_euclidean_division_equations; lia. }
  destruct H as (x & y & z & w & Hx & Hy & Hz & Hw & -> & -> & ->). exists x, y, z, w. rewrite group_bits by done. split; [done|].
  do 7 (split; [done|]). cbn [app]. rewrite !bits_digit by done. by destruct (b64_bits 0 0 l).
Qed.

Lemma bits_base64 d : Forall is_byte d -> b64_bits 0 0 (base64 d) = Some d.
Proof.
  induction d as [d IH] using (induction_ltof1 _ (@length Z)). unfold ltof in IH. intros Hd.
  destruct d as [|a [|b [|c d]]]; [done|..].
  - apply Forall_cons in Hd as [Ha _]. cbn [base64].
    destruct (bits_group a 0 0 [] Ha ltac:(done) ltac:(done)) as (x & y & z & w & -> & Hx & Hy & Hz & Hw & Ea & Eb & _ & _).
    change (ztake 2 [digit x; digit y; digit z; digit w] ++ [Pad64; Pad64]) with [digit x; digit y; Pad64; Pad64].
    rewrite !bits_digit by done. replace (y mod 16) with 0 by (Z.to_euclidean_division_equations; lia). by rewrite Ea.
  - apply Forall_cons in Hd as [Ha [Hb _]%Forall_cons]. cbn [base64].
    destruct (bits_group a b 0 [] Ha Hb ltac:(done)) as (x & y & z & w & -> & Hx & Hy & Hz & Hw & Ea & Eb & Ec & _).
    change (ztake 3 [digit x; digit y; digit z; digit w] ++ [Pad64]) with [digit x; digit y; digit z; Pad64].
    rewrite !bits_digit by done. replace (z mod 4) with 0 by lia. by rewrite Ea, Eb.
  - apply Forall_cons in Hd as [Ha [Hb [Hc Hd]%Forall_cons]%Forall_cons]. cbn [base64].
    destruct (bits_group a b c (base64 d) Ha Hb Hc) as (x & y & z & w & _ & _ & _ & _ & _ & _ & _ & _ & ->).
    rewrite IH by (cbn [length]; lia || done). done.
Qed.

Lemma base64_bits l : forall d, b64_bits 0 0 l = Some d -> l = base64 d /\ Forall is_byte d.
Proof.
  induction l as [l IH] using (induction_ltof1 _ (@length Z)). unfold ltof in IH. intros d.
  assert (Hpad : forall c st p l, (c =? Pad64) = false -> b64_bits st p (c :: l) <> None -> exists x, c = digit x /\ 0 <= x < 64).
  { clear. intros c st p l Ec Hb. cbn [b64_bits] in Hb. rewrite Ec in Hb. destruct (strchr Base64 c) as [x|] eqn:E; [|done].
    apply index_digit in E as [? <-]. by exists x. }
  destruct l as [|c0 l]; [by intros [= <-]|]. intros E.
  destruct (c0 =? Pad64) eqn:E0; [cbn [b64_bits] in E; by rewrite E0 in E|]. destruct (Hpad c0 0%nat 0 l E0) as (x & -> & Hx); [congruence|].
  rewrite bits_digit in E by done. destruct l as [|c1 l]; [done|].
  destruct (c1 =? Pad64) eqn:E1; [cbn [b64_bits] in E; by rewrite E1 in E|]. destruct (Hpad c1 1%nat x l E1) as (y & -> & Hy); [congruence|].
  rewrite bits_digit in E by done. destruct l as [|c2 l]; [done|].
  destruct (c2 =? Pad64) eqn:E2.
  { cbn [b64_bits] in E. rewrite E2 in E. apply Z.eqb_eq in E2 as ->.
    destruct (decide (l = [Pad64])) as [->|]; [|by rewrite bool_decide_eq_false_2 in E].
    destruct (Z.eqb_spec (y mod 16) 0) as [E3|]; [|done]. injection E as <-.
    assert (Ha : is_byte (4 * x + y / 16)) by (unfold is_byte; Z.to_euclidean_division_equations; lia). split; [|by constructor].
    cbn [base64].
    assert (G : group (be_val [4 * x + y / 16; 0; 0]) = [digit x; digit y; digit 0; digit 0]).
    { pose proof (group_bits x y 0 0 Hx Hy ltac:(done) ltac:(done)) as G. rewrite E3 in G. exact G. }
    rewrite G. done. }
  destruct (Hpad c2 2%nat (y mod 16) l E2) as (z & -> & Hz); [intros E'; by rewrite E' in E|].
  rewrite bits_digit in E by done. destruct l as [|c3 l]; [done|].
  destruct (c3 =? Pad64) eqn:E3.
  { cbn [b64_bits] in E. rewrite E3 in E. apply Z.eqb_eq in E3 as ->.
    destruct (decide (l = [])) as [->|]; [|by rewrite bool_decide_eq_false_2 in E].
    destruct (Z.eqb_spec (z mod 4) 0) as [E4|]; [|done]. injection E as <-.
    split; [|do 2 (constructor; [unfold is_byte; Z.to_euclidean_division_equations; lia|]); constructor].
    cbn [base64].
    assert (G : group (be_val [4 * x + y / 16; 16 * (y mod 16) + z / 4; 0]) = [digit x; digit y; digit z; digit 0]).
    { pose proof (group_bits x y z 0 Hx Hy Hz ltac:(done)) as G. rewrite E4 in G. exact G. }
    by rewrite G. }
  destruct (Hpad c3 3%nat (z mod 4) l E3) as (w & -> & Hw); [intros E'; by rewrite E' in E|].
  rewrite bits_digit in E by done. destruct (b64_bits 0 0 l) as [r|] eqn:El; [|done]. injection E as <-.
  destruct (IH l ltac:(cbn [length]; lia) r El) as [-> Hr].
  split; [cbn [base64]; by rewrite group_bits|]. do 3 (constructor; [unfold is_byte; Z.to_euclidean_division_equations; lia|]). done.
Qed.

(** The bits the decoder puts together. *)
Lemma lor_scaled k p b : 0 <= k -> 0 <= b < 2 ^ k -> Z.lor (2 ^ k * p) b = 2 ^ k * p + b.
Proof. intros Hk Hb. rewrite (Z.mul_comm _ p), <- Z.shiftl_mul_pow2 by lia. rewrite lor_shiftl_low by lia. by rewrite Z.shiftl_mul_pow2 by lia. Qed.

Lemma digit_bits x p : 0 <= x < 64 ->
  u8 (Z.shiftl x 2) = 4 * x /\
  u8 (Z.shiftl (Z.land x 0x0f) 4) = 16 * (x mod 16) /\ u8 (Z.shiftl (Z.land x 0x03) 6) = 64 * (x mod 4) /\
  (0 <= p < 64 -> u8 (Z.lor (4 * p) (Z.shiftr x 4)) = 4 * p + x / 16) /\
  (0 <= p < 16 -> u8 (Z.lor (16 * p) (Z.shiftr x 2)) = 16 * p + x / 4) /\
  (0 <= p < 4 -> u8 (Z.lor (64 * p) x) = 64 * p + x).
Proof.
  intros Hx. change 0x0f with (2 ^ 4 - 1). change 0x03 with (2 ^ 2 - 1). rewrite !land_ones_mod by lia.
  rewrite !Z.shiftl_mul_pow2, !Z.shiftr_div_pow2 by lia. unfold u8.
  pose proof (Z.mod_pos_bound x 16 ltac:(lia)). pose proof (Z.mod_pos_bound x 4 ltac:(lia)).
  change (2 ^ 4) with 16. change (2 ^ 2) with 4. change (2 ^ 8) with 256. change (2 ^ 6) with 64.
  assert (0 <= x / 16 < 4) by (Z.to_euclidean_division_equations; lia). assert (0 <= x / 4 < 16) by (Z.to_euclidean_division_equations; lia).
  split; [rewrite Z.mod_small; lia|]. split; [rewrite Z.mod_small; lia|]. split; [rewrite Z.mod_small; lia|].
  split; [|split]; intros Hp.
  - rewrite (lor_scaled 2) by (change (2 ^ 2) with 4; lia). change (2 ^ 2) with 4. apply Z.mod_small. lia.
  - rewrite (lor_scaled 4) by (change (2 ^ 4) with 16; lia). change (2 ^ 4) with 16. apply Z.mod_small. lia.
  - rewrite (lor_scaled 6) by (change (2 ^ 6) with 64; lia). change (2 ^ 6) with 64. apply Z.mod_small. lia.
Qed.

(** *** The decoder *)

Lemma zset_ok {A} (l : list A) i x : 0 <= i < zlen l ->
  exists l', zset l i x = Some l' /\ zlen l' = zlen l /\ zget l' i = Some x /\ ztake i l' = ztake i l /\
    ztake (i + 1) l' = ztake i l ++ [x].
Proof.
  intros Hi. unfold zset. rewrite zwrite_ok by (change (zlen [x]) with 1; lia). eexists. split; [reflexivity|]. change (zlen [x]) with 1.
  assert (Hl : zlen (ztake i l) = i) by (apply zlen_ztake; lia).
  split; [rewrite !zlen_app, Hl, zlen_zdrop by lia; change (zlen [x]) with 1; lia|].
  split; [rewrite zget_app_r by lia; by rewrite Hl, Z.sub_diag|].
  split; [by rewrite ztake_app_exact|]. rewrite app_assoc. apply ztake_app_exact. rewrite zlen_app, Hl. done.
Qed.

Lemma wp_target_set buf i f (Q : unit -> target_t -> Prop) E :
  0 <= i < zlen buf ->
  (forall x buf', zget buf i = Some x -> zlen buf' = zlen buf -> zget buf' i = Some (f x) -> ztake i buf' = ztake i buf ->
     ztake (i + 1) buf' = ztake i buf ++ [f x] -> Q tt (Some buf')) ->
  wp (target_set i f) (Some buf) Q E.
Proof.
  intros Hi HQ. unfold target_set. apply wp_bind, wp_gets. cbn [id]. apply wp_bind. eapply wp_valid; [reflexivity|].
  destruct (zget_Some buf i Hi) as [x Ex]. destruct (zset_ok buf i (f x) Hi) as (buf' & E1 & E2 & E3 & E4 & E5).
  apply wp_bind. eapply wp_valid; [exact Ex|]. apply wp_bind. eapply wp_valid; [exact E1|]. apply wp_modify. by eapply HQ.
Qed.

Lemma wp_if_target m buf Q E : wp m (Some buf) Q E -> wp (if_target m) (Some buf) Q E.
Proof. intros H. unfold if_target. by apply wp_bind, wp_gets. Qed.

Lemma wp_int_incr i t (Q : Z -> target_t -> Prop) E : i < 2 ^ 31 - 1 -> Q (i + 1) t -> wp (int_incr i) t Q E.
Proof. intros Hi HQ. unfold int_incr. apply wp_bind, wp_must; [by apply Z.ltb_lt|]. by apply wp_ret. Qed.

Lemma wp_put_split targsize buf ti high next (Q : unit -> target_t -> Prop) (E : target_t -> Prop) :
  0 <= ti -> targsize <= zlen buf ->
  (forall t, targsize <= ti -> E t) -> (forall t, ti + 1 = targsize -> next <> 0 -> E t) ->
  (forall y buf', ti < targsize -> zget buf ti = Some y -> zlen buf' = zlen buf -> ztake (ti + 1) buf' = ztake ti buf ++ [u8 (Z.lor y high)] ->
     (ti + 1 < targsize /\ zget buf' (ti + 1) = Some next) \/ (ti + 1 = targsize /\ next = 0) -> Q tt (Some buf')) ->
  wp (put_split targsize ti high next) (Some buf) Q E.
Proof.
  intros Hti Hbuf HE1 HE2 HQ. apply wp_if_target. apply wp_bind, wp_check; intros Hc; [apply negb_true_iff, Z.leb_gt in Hc|apply negb_false_iff, Z.leb_le in Hc; by apply HE1].
  apply wp_bind, wp_target_set; [lia|]. intros y buf1 Ey L1 _ _ T1.
  destruct (Z.ltb_spec (ti + 1) targsize) as [Hlt|Hge].
  - apply wp_target_set; [lia|]. intros z buf2 _ L2 G2 T2 _. eapply HQ; [done|exact Ey|congruence|by rewrite T2|by left].
  - apply wp_check; intros Hn; [apply Z.eqb_eq in Hn|apply Z.eqb_neq in Hn; apply HE2; [lia|done]].
    eapply HQ; [done|exact Ey|done|done|]. right. split; [lia|done].
Qed.

(** What is in the array when [st] digits of a group have been read. *)
Definition pending (targsize : Z) (st : nat) (p ti : Z) (buf : list Z) : Prop :=
  match st with
  | 0%nat => p = 0
  | 1%nat => 0 <= p < 64 /\ ti < targsize /\ zget buf ti = Some (4 * p)
  | 2%nat => 0 <= p < 16 /\ ((ti < targsize /\ zget buf ti = Some (16 * p)) \/ (ti = targsize /\ p = 0))
  | _ => 0 <= p < 4 /\ ((ti < targsize /\ zget buf ti = Some (64 * p)) \/ (ti = targsize /\ p = 0))
  end.

Definition decoded (targsize : Z) (st : nat) (p ti : Z) (full buf : list Z) : Prop :=
  (st < 4)%nat /\ 0 <= ti <= targsize /\ targsize <= zlen buf /\ ztake ti buf = full /\ pending targsize st p ti buf.

(** Room for the octets of the rest. *)
Definition no_room (targsize ti : Z) (o : option (list Z)) : Prop :=
  match o with
  | Some r => targsize < ti + zlen r
  | None => True
  end.

Lemma no_room_cons targsize ti o (x : Z) : targsize <= ti -> no_room targsize ti (r ← o; Some (x :: r)).
Proof. intros H. destruct o as [r|]; cbn; [|done]. rewrite zlen_cons. pose proof (zlen_nonneg r). lia. Qed.

Lemma bits_pending st p l r : b64_bits st p l = Some r -> st = 1%nat \/ (st <> 0%nat /\ p <> 0) -> 0 < zlen r.
Proof.
  intros E Hst. assert (Hc : forall (o : option (list Z)) x, (r ← o; Some (x :: r)) = Some r -> 0 < zlen r).
  { intros [r'|] x; cbn; [intros [= <-]; rewrite zlen_cons; pose proof (zlen_nonneg r'); lia|done]. }
  destruct l as [|c l]; cbn [b64_bits] in E; [by destruct st as [|?], Hst as [?|[? ?]]|].
  destruct (c =? Pad64).
  - destruct st as [|[|[|st]]]; [done..| |]; (destruct Hst as [?|[_ Hp]]; [done|]);
      rewrite (proj2 (Z.eqb_neq p 0) Hp), andb_false_r in E; done.
  - destruct (strchr Base64 c) as [x|]; [|done]. cbn [mbind option_bind] in E.
    destruct st as [|[|[|st]]]; [by destruct Hst as [?|[? ?]]|by eapply Hc..].
Qed.

Lemma no_room_pending targsize ti st p l x : st <> 0%nat -> p <> 0 -> ti + 1 = targsize -> no_room targsize ti (r ← b64_bits st p l; Some (x :: r)).
Proof.
  intros Hst Hp Hti. destruct (b64_bits st p l) as [r|] eqn:E; cbn; [|done]. apply bits_pending in E; [|by right]. rewrite zlen_cons. lia.
Qed.

(** One digit. *)
Lemma wp_pton_digit targsize x st p ti full buf (Q : Z * Z -> target_t -> Prop) (E : target_t -> Prop) :
  0 <= x < 64 -> decoded targsize st p ti full buf -> ti < 2 ^ 31 - 1 ->
  (forall t, (forall l, no_room targsize ti (b64_bits st p (digit x :: l))) -> E t) ->
  (forall st' p' out buf', (forall l, b64_bits st p (digit x :: l) = (r ← b64_bits st' p' l; Some (out ++ r))) -> zlen out <= 1 ->
     decoded targsize st' p' (ti + zlen out) (full ++ out) buf' -> Q (ti + zlen out, Z.of_nat st') (Some buf')) ->
  wp (pton_digit targsize x ti (Z.of_nat st)) (Some buf) Q E.
Proof.
  intros Hx (Hst & Hti & Hbuf & Hfull & Hp) Hint HE HQ.
  assert (HQ1 : forall st' p' o buf', (forall l, b64_bits st p (digit x :: l) = (r ← b64_bits st' p' l; Some (o :: r))) ->
     (st' < 4)%nat -> ti < targsize -> zlen buf' = zlen buf -> ztake (ti + 1) buf' = ztake ti buf ++ [o] -> pending targsize st' p' (ti + 1) buf' ->
     Q (ti + 1, Z.of_nat st') (Some buf')).
  { intros st' p' o buf' Hl H1 H2 H3 H4 H5. apply (HQ st' p' [o]); [done|done|]. change (zlen [o]) with 1.
    split; [done|]. split; [lia|]. split; [lia|]. split; [by rewrite H4, Hfull|done]. }
  destruct (digit_bits x p Hx) as (B0 & N1 & N2 & B1 & B2 & B3). unfold pton_digit. pose proof (Z.mod_pos_bound x 16 ltac:(lia)). pose proof (Z.mod_pos_bound x 4 ltac:(lia)).
  destruct st as [|[|[|[|st]]]]; [| | | |lia]; cbn [Z.of_nat Pos.of_succ_nat Pos.succ Z.eqb Pos.eqb pending] in *.
  - apply wp_bind, wp_if_target, wp_bind, wp_check; intros Hc; [apply negb_true_iff, Z.leb_gt in Hc|apply negb_false_iff, Z.leb_le in Hc].
    + apply wp_target_set; [lia|]. intros y buf' _ L G T _. apply wp_ret. specialize (HQ 1%nat x [] buf').
      change (zlen (@nil Z)) with 0 in HQ. rewrite Z.add_0_r, app_nil_r in HQ. apply HQ; [|done|].
      { intros l. rewrite bits_digit by done. by destruct (b64_bits 1 x l). }
      split; [lia|]. split; [lia|]. split; [lia|]. split; [congruence|]. split; [done|]. split; [done|]. by rewrite G, B0.
    + apply HE. intros l. rewrite bits_digit by done. destruct (b64_bits 1 x l) as [r|] eqn:E1; cbn; [|done].
      apply bits_pending in E1; [lia|by left].
  - destruct Hp as (Hp & Hlt & Hg). apply wp_bind, wp_put_split; [lia|lia|lia| |].
    + intros t Ht Hn. apply HE. intros l. rewrite bits_digit by done. apply no_room_pending; [done|lia|done].
    + intros y buf' _ Hy L T Hor. apply wp_bind, wp_int_incr; [done|]. apply wp_ret. rewrite Hg in Hy. injection Hy as <-.
      apply (HQ1 2%nat (x mod 16) (4 * p + x / 16)); [intros l; by rewrite bits_digit|lia|done|done|by rewrite T, B1|].
      rewrite N1 in Hor. cbn [pending]. split; [lia|]. destruct Hor as [?|[? ?]]; [by left|right; lia].
  - destruct Hp as (Hp & Hor0). apply wp_bind, wp_put_split; [lia|lia| | |].
    + intros t Hge. apply HE. intros l. rewrite bits_digit by done. by apply no_room_cons.
    + intros t Ht Hn. apply HE. intros l. rewrite bits_digit by done. apply no_room_pending; [done|lia|done].
    + intros y buf' Hlt Hy L T Hor. apply wp_bind, wp_int_incr; [done|]. apply wp_ret. destruct Hor0 as [[_ Hg]|]; [|lia]. rewrite Hg in Hy. injection Hy as <-.
      apply (HQ1 3%nat (x mod 4) (16 * p + x / 4)); [intros l; by rewrite bits_digit|lia|done|done|by rewrite T, B2|].
      rewrite N2 in Hor. cbn [pending]. split; [lia|]. destruct Hor as [?|[? ?]]; [by left|right; lia].
  - destruct Hp as (Hp & Hor0). apply wp_bind, wp_if_target, wp_bind, wp_check; intros Hc; [apply negb_true_iff, Z.leb_gt in Hc|apply negb_false_iff, Z.leb_le in Hc].
    + apply wp_target_set; [lia|]. intros y buf' Hy L G _ T. destruct Hor0 as [[_ Hg]|]; [|lia]. rewrite Hg in Hy. injection Hy as <-.
      apply wp_bind, wp_int_incr; [done|]. apply wp_ret.
      apply (HQ1 0%nat 0 (64 * p + x)); [intros l; by rewrite bits_digit|lia|done|done|by rewrite T, B3|done].
    + apply HE. intros l. rewrite bits_digit by done. by apply no_room_cons.
Qed.

(** *** White space *)

Lemma strip_space c s : isspace c = true -> strip (c :: s) = strip s.
Proof. intros E. unfold strip. cbn [List.filter]. by rewrite E. Qed.
Lemma strip_char c s : isspace c = false -> strip (c :: s) = c :: strip s.
Proof. intros E. unfold strip. cbn [List.filter]. by rewrite E. Qed.

Lemma skip_spaces_nul junk : skip_spaces 0 junk = mret (0, junk).
Proof. by destruct junk. Qed.
Lemma only_spaces_nul junk : only_spaces 0 junk = mret tt.
Proof. by destruct junk. Qed.

Lemma wp_skip_spaces s ch junk t (Q : Z * list Z -> target_t -> Prop) E :
  Forall (fun c => c <> 0) (ch :: s) ->
  (strip (ch :: s) = [] -> Q (0, junk) t) ->
  (forall c s', strip (ch :: s) = c :: strip s' -> c <> 0 -> Forall (fun c => c <> 0) s' -> Q (c, s' ++ 0 :: junk) t) ->
  wp (skip_spaces ch (s ++ 0 :: junk)) t Q E.
Proof.
  intros Hs HQ0 HQ. revert ch Hs HQ0 HQ. induction s as [|c s IH]; intros ch Hs HQ0 HQ.
  - apply Forall_cons in Hs as [Hc _]. cbn [app skip_spaces]. rewrite (proj2 (Z.eqb_neq ch 0) Hc). cbn [orb].
    destruct (isspace ch) eqn:Es; cbn [negb].
    + rewrite skip_spaces_nul. apply wp_ret, HQ0. by rewrite strip_space.
    + apply wp_ret, (HQ ch []); [by rewrite strip_char|done|done].
  - apply Forall_cons in Hs as [Hc Hs]. cbn [app skip_spaces]. rewrite (proj2 (Z.eqb_neq ch 0) Hc). cbn [orb].
    destruct (isspace ch) eqn:Es; cbn [negb].
    + apply IH; [done|..]; rewrite <- (strip_space ch) by done; done.
    + apply wp_ret, (HQ ch (c :: s)); [by rewrite strip_char|done|done].
Qed.

Lemma wp_only_spaces s ch junk t (Q : unit -> target_t -> Prop) (E : target_t -> Prop) :
  Forall (fun c => c <> 0) (ch :: s) ->
  (strip (ch :: s) = [] -> Q tt t) -> (strip (ch :: s) <> [] -> E t) -> wp (only_spaces ch (s ++ 0 :: junk)) t Q E.
Proof.
  intros Hs HQ HE. revert ch Hs HQ HE. induction s as [|c s IH]; intros ch Hs HQ HE.
  - apply Forall_cons in Hs as [Hc _]. cbn [app only_spaces]. rewrite (proj2 (Z.eqb_neq ch 0) Hc).
    destruct (isspace ch) eqn:Es; cbn [negb].
    + rewrite only_spaces_nul. apply wp_ret, HQ. by rewrite strip_space.
    + apply wp_fail, HE. by rewrite strip_char.
  - apply Forall_cons in Hs as [Hc Hs]. cbn [app only_spaces]. rewrite (proj2 (Z.eqb_neq ch 0) Hc).
    destruct (isspace ch) eqn:Es; cbn [negb].
    + apply IH; [done|..]; rewrite <- (strip_space ch) by done; done.
    + apply wp_fail, HE. by rewrite strip_char.
Qed.

(** *** After the loop *)

Lemma wp_extra_bits targsize st p ti full buf (Q : unit -> target_t -> Prop) (E : target_t -> Prop) :
  decoded targsize st p ti full buf -> (st = 2 \/ st = 3)%nat ->
  (p = 0 -> Q tt (Some buf)) -> (p <> 0 -> E (Some buf)) -> wp (extra_bits targsize ti) (Some buf) Q E.
Proof.
  intros (_ & Hti & Hbuf & _ & Hp) Hst HQ HE. unfold extra_bits. apply wp_bind, wp_gets. cbn [id].
  assert (H : (ti < targsize /\ exists m, 0 < m /\ zget buf ti = Some (m * p)) \/ (ti = targsize /\ p = 0)).
  { destruct Hst as [-> | ->]; destruct Hp as [_ [[? ?]|?]]; [left|by right|left|by right]; (split; [done|]); [by exists 16|by exists 64]. }
  destruct H as [(Hlt & m & Hm & Hg)|[-> H0]].
  - rewrite (proj2 (Z.ltb_lt _ _) Hlt). apply wp_bind. eapply wp_valid; [exact Hg|]. rewrite negb_involutive.
    apply wp_check; intros H; [apply HQ|apply HE]; [apply Z.eqb_eq in H|apply Z.eqb_neq in H]; nia.
  - rewrite Z.ltb_irrefl. apply wp_ret. by apply HQ.
Qed.

(** A character and what follows it, up to the NUL. *)
Definition uncons (s junk : list Z) : Z * list Z :=
  match s with
  | [] => (0, junk)
  | c :: s => (c, s ++ 0 :: junk)
  end.

Lemma next_char_uncons s junk : next_char (s ++ 0 :: junk) = mret (uncons s junk).
Proof. by destruct s. Qed.

(** Only white space may follow, and the extra bits must be zero. *)
Lemma wp_trailer targsize st p ti full buf s junk (Q : unit -> target_t -> Prop) (E : target_t -> Prop) :
  decoded targsize st p ti full buf -> (st = 2 \/ st = 3)%nat -> Forall (fun c => c <> 0) s ->
  (strip s = [] -> p = 0 -> Q tt (Some buf)) -> (strip s <> [] \/ p <> 0 -> E (Some buf)) ->
  wp (only_spaces (fst (uncons s junk)) (snd (uncons s junk));; extra_bits targsize ti) (Some buf) Q E.
Proof.
  intros Hdec Hst Hs HQ HE. apply wp_bind. destruct s as [|c s]; cbn [uncons fst snd].
  - rewrite only_spaces_nul. apply wp_ret. eapply wp_extra_bits; [done|done|by apply HQ|intros Hp; apply HE; by right].
  - apply wp_only_spaces; [done| |intros H; apply HE; by left].
    intros Hsp. eapply wp_extra_bits; [done|done|by apply HQ|intros Hp; apply HE; by right].
Qed.

(** The first pad character. *)
Lemma wp_pton_end targsize st p ti full buf s junk (Q : Z -> target_t -> Prop) (E : target_t -> Prop) :
  decoded targsize st p ti full buf -> Forall (fun c => c <> 0) s ->
  (b64_bits st p (Pad64 :: strip s) = Some [] -> Q ti (Some buf)) -> (b64_bits st p (Pad64 :: strip s) = None -> E (Some buf)) ->
  wp (pton_end targsize Pad64 (s ++ 0 :: junk) ti (Z.of_nat st)) (Some buf) Q E.
Proof.
  intros Hdec Hs HQ HE. cbn [b64_bits] in HQ, HE. rewrite Z.eqb_refl in HQ, HE. unfold pton_end. rewrite Z.eqb_refl, next_char_uncons.
  apply wp_bind, wp_bind, wp_ret. pose proof Hdec as (Hst & _). destruct (uncons s junk) as [ch src] eqn:Eu.
  destruct st as [|[|[|[|st]]]]; [by apply wp_fail, HE..| | |lia]; cbn [Z.of_nat Pos.of_succ_nat Pos.succ Z.eqb Pos.eqb orb].
  - destruct s as [|c s]; injection Eu as <- <-; apply wp_bind, wp_bind.
    + rewrite skip_spaces_nul. by apply wp_ret, wp_bind, wp_fail, HE.
    + apply wp_skip_spaces; [done| |].
      * intros Hsp. rewrite Hsp in HE. by apply wp_bind, wp_fail, HE.
      * intros c' s' Hsp Hc Hs'. rewrite Hsp in HQ, HE. apply wp_bind, wp_check; intros Hpad; [apply Z.eqb_eq in Hpad as ->|apply Z.eqb_neq in Hpad].
        -- rewrite next_char_uncons. apply wp_ret. rewrite (surjective_pairing (uncons s' junk)).
           eapply wp_trailer; [exact Hdec|by left|done| |].
           ++ intros E1 ->. apply wp_ret, HQ. rewrite E1. by rewrite bool_decide_eq_true_2.
           ++ intros [H1|H1]; apply HE; [rewrite bool_decide_eq_false_2 by congruence|rewrite (proj2 (Z.eqb_neq p 0) H1), andb_false_r]; done.
        -- apply HE. by rewrite bool_decide_eq_false_2 by congruence.
  - apply wp_bind, wp_ret. change ch with (fst (ch, src)). change src with (snd (ch, src)) at 2. rewrite <- Eu.
    eapply wp_trailer; [exact Hdec|by right|done| |].
    + intros E1 ->. apply wp_ret, HQ. rewrite E1. by rewrite bool_decide_eq_true_2.
    + intros [H1|H1]; apply HE; [by rewrite bool_decide_eq_false_2|rewrite (proj2 (Z.eqb_neq p 0) H1), andb_false_r; done].
Qed.

(** The whole decoder, from the middle of a string. *)
Lemma wp_pton s junk targsize : forall st p ti full buf,
  decoded targsize st p ti full buf -> Forall (fun c => c <> 0) s -> ti + zlen s < 2 ^ 31 ->
  wp (pton_loop targsize (s ++ 0 :: junk) ti (Z.of_nat st)) (Some buf)
    (fun '(ch, src, tarindex, state) t => wp (pton_end targsize ch src tarindex state) t
       (fun n t => exists buf' r, t = Some buf' /\ b64_bits st p (strip s) = Some r /\ n = ti + zlen r /\ n <= targsize /\ ztake n buf' = full ++ r)
       (fun _ => no_room targsize ti (b64_bits st p (strip s))))
    (fun _ => no_room targsize ti (b64_bits st p (strip s))).
Proof.
  induction s as [|c s IH]; intros st p ti full buf Hdec Hs Hlen.
  - cbn [app pton_loop]. apply wp_ret. unfold pton_end. cbn [Z.eqb]. apply wp_bind, wp_check; intros Hst; [apply Z.eqb_eq in Hst|apply Z.eqb_neq in Hst].
    + apply wp_ret. exists buf, []. destruct st as [|st]; [|lia]. destruct Hdec as (_ & Hti & _ & Hfull & _).
      rewrite zlen_nil, Z.add_0_r, app_nil_r. split; [done|]. split; [done|]. split; [done|]. split; [lia|done].
    + by destruct st.
  - apply Forall_cons in Hs as [Hc Hs]. rewrite zlen_cons in Hlen. pose proof (zlen_nonneg s). cbn [app pton_loop]. rewrite (proj2 (Z.eqb_neq c 0) Hc).
    destruct (isspace c) eqn:Esp; [rewrite strip_space by done; apply IH; [done|done|lia]|]. rewrite strip_char by done.
    destruct (Z.eqb_spec c Pad64) as [->|Hpad].
    + apply wp_ret. eapply wp_pton_end; [exact Hdec|done| |].
      * intros E. exists buf, []. destruct Hdec as (_ & Hti & _ & Hfull & _). rewrite zlen_nil, Z.add_0_r, app_nil_r.
        split; [done|]. split; [done|]. split; [done|]. split; [lia|done].
      * intros E. by rewrite E.
    + destruct (strchr Base64 c) as [x|] eqn:Ex.
      2: { apply wp_fail. cbn [b64_bits]. by rewrite (proj2 (Z.eqb_neq c Pad64) Hpad), Ex. }
      apply index_digit in Ex as [Hx <-]. apply wp_bind.
      eapply wp_pton_digit; [done|exact Hdec|lia| |].
      * intros _ Hno. apply Hno.
      * intros st' p' out buf' Hbits Hout Hdec'.
        assert (Hno : no_room targsize (ti + zlen out) (b64_bits st' p' (strip s)) -> no_room targsize ti (b64_bits st p (digit x :: strip s))).
        { rewrite Hbits. destruct (b64_bits st' p' (strip s)) as [r|]; cbn; [|done]. rewrite zlen_app. lia. }
        eapply wp_conseq; [apply (IH st' p' (ti + zlen out) (full ++ out) buf' Hdec' Hs); lia| |done].
        intros [[[ch src] ti'] st''] t Hend. eapply wp_conseq; [exact Hend| |done].
        intros n t' (buf2 & r & -> & Er & -> & Hn & Ht). exists buf2, (out ++ r). rewrite Hbits, Er, zlen_app, app_assoc.
        split; [done|]. split; [done|]. split; [lia|]. split; [lia|]. by rewrite <- Ht.
Qed.

(** *** The encoder *)

Lemma wp_put buf i x (Q : unit -> list Z -> Prop) E :
  0 <= i < zlen buf -> (forall buf', zlen buf' = zlen buf -> ztake (i + 1) buf' = ztake i buf ++ [x] -> Q tt buf') -> wp (put i x) buf Q E.
Proof.
  intros Hi HQ. unfold put. apply wp_bind, wp_gets. cbn [id]. destruct (zset_ok buf i x Hi) as (buf' & E1 & E2 & _ & _ & E5).
  apply wp_bind. eapply wp_valid; [exact E1|]. apply wp_modify. by apply HQ.
Qed.

Lemma wp_put_digit buf i x y (Q : unit -> list Z -> Prop) E :
  x = y -> 0 <= y < 64 -> 0 <= i < zlen buf -> (forall buf', zlen buf' = zlen buf -> ztake (i + 1) buf' = ztake i buf ++ [digit y] -> Q tt buf') ->
  wp (put_digit i x) buf Q E.
Proof. intros Ex Hy Hi HQ. subst x. unfold put_digit. apply wp_bind. eapply wp_valid; [by apply zget_digit|]. by apply wp_put. Qed.

(** The bits of a group, as the encoder computes them. *)
Lemma group_outputs a b c : is_byte a -> is_byte b -> is_byte c ->
  exists x y z w, group (be_val [a; b; c]) = [digit x; digit y; digit z; digit w] /\
    0 <= x < 64 /\ 0 <= y < 64 /\ 0 <= z < 64 /\ 0 <= w < 64 /\
    Z.shiftr a 2 = x /\ Z.shiftl (Z.land a 0x03) 4 + Z.shiftr b 4 = y /\ Z.shiftl (Z.land b 0x0f) 2 + Z.shiftr c 6 = z /\ Z.land c 0x3f = w.
Proof.
  intros Ha Hb Hc. destruct (bits_group a b c [] Ha Hb Hc) as (x & y & z & w & E & Hx & Hy & Hz & Hw & -> & -> & -> & _).
  exists x, y, z, w. do 5 (split; [done|]). change 0x0f with (2 ^ 4 - 1). change 0x03 with (2 ^ 2 - 1). change 0x3f with (2 ^ 6 - 1). rewrite !land_ones_mod by lia.
  rewrite !Z.shiftl_mul_pow2, !Z.shiftr_div_pow2 by lia. repeat split; Z.to_euclidean_division_equations; lia.
Qed.

(** Four stores in a row. *)
Lemma wp_put4 {B} buf dl c0 c1 c2 c3 (m0 m1 m2 m3 : M (list Z) unit) (k : M (list Z) B) Q E :
  let puts i m c := forall buf (Q : unit -> list Z -> Prop) E, 0 <= i < zlen buf ->
    (forall buf', zlen buf' = zlen buf -> ztake (i + 1) buf' = ztake i buf ++ [c] -> Q tt buf') -> wp m buf Q E in
  puts dl m0 c0 -> puts (dl + 1) m1 c1 -> puts (dl + 2) m2 c2 -> puts (dl + 3) m3 c3 -> 0 <= dl -> dl + 4 <= zlen buf ->
  (forall buf', zlen buf' = zlen buf -> ztake (dl + 4) buf' = ztake dl buf ++ [c0; c1; c2; c3] -> wp k buf' Q E) ->
  wp (m0;; m1;; m2;; m3;; k) buf Q E.
Proof.
  intros puts P0 P1 P2 P3 Hdl Hroom Hk.
  apply wp_bind, P0; [lia|]. intros b1 L1 T1. apply wp_bind, P1; [lia|]. intros b2 L2 T2.
  apply wp_bind, P2; [lia|]. intros b3 L3 T3. apply wp_bind, P3; [lia|]. intros b4 L4 T4. apply Hk; [lia|].
  replace (dl + 4) with (dl + 3 + 1) by lia. rewrite T4. replace (dl + 3) with (dl + 2 + 1) by lia. rewrite T3.
  replace (dl + 2) with (dl + 1 + 1) by lia. by rewrite T2, T1, <- !app_assoc.
Qed.

(** The characters written so far, and room for them. *)
Definition encoding (targsize dl : Z) (e buf : list Z) : Prop :=
  targsize <= zlen buf < 2 ^ 63 /\ 0 <= dl <= targsize /\ ztake dl buf = e.

Lemma wp_ntop_room {B} targsize dl e buf (k : M (list Z) B) Q (E : list Z -> Prop) :
  encoding targsize dl e buf -> (targsize < dl + 4 -> E buf) -> (dl + 4 <= targsize -> wp k buf Q E) ->
  wp (check (negb (targsize <? u64 (dl + 4)));; k) buf Q E.
Proof.
  intros (Hbuf & Hdl & _) HE HQ. rewrite u64_small by lia.
  apply wp_bind, wp_check; intros H; [apply negb_true_iff, Z.ltb_ge in H; by apply HQ|apply negb_false_iff, Z.ltb_lt in H; by apply HE].
Qed.

Lemma zlen_base64_cons a b c d : zlen (base64 (a :: b :: c :: d)) = 4 + zlen (base64 d).
Proof. cbn [base64]. by rewrite zlen_app. Qed.

Lemma wp_ntop_loop targsize src : forall dl e buf,
  encoding targsize dl e buf -> Forall is_byte src ->
  wp (ntop_loop targsize src dl) buf
    (fun '(rest, dl') buf' => exists e', encoding targsize dl' (e ++ e') buf' /\ dl' = dl + zlen e' /\ base64 src = e' ++ base64 rest /\
       zlen rest <= 2 /\ Forall is_byte rest)
    (fun _ => targsize < dl + zlen (base64 src)).
Proof.
  induction src as [src IH] using (induction_ltof1 _ (@length Z)). unfold ltof in IH. intros dl e buf Henc Hb.
  assert (Hdone : zlen src <= 2 -> exists e', encoding targsize dl (e ++ e') buf /\ dl = dl + zlen e' /\ base64 src = e' ++ base64 src /\
    zlen src <= 2 /\ Forall is_byte src).
  { intros Hl. exists []. rewrite app_nil_r, zlen_nil. split; [done|]. split; [lia|]. split; [done|]. by split. }
  destruct src as [|a [|b [|c src]]]; [by apply wp_ret, Hdone..|].
  apply Forall_cons in Hb as [Ha [Hb [Hc Hsrc]%Forall_cons]%Forall_cons]. clear Hdone.
  destruct (group_outputs a b c Ha Hb Hc) as (x & y & z & w & G & Hx & Hy & Hz & Hw & Ex & Ey & Ez & Ew).
  pose proof (zlen_nonneg (base64 src)) as Hpos. rewrite zlen_base64_cons. cbn [ntop_loop]. cbv zeta.
  eapply wp_ntop_room; [exact Henc|lia|]. intros Hroom. destruct Henc as (Hbuf & Hdl & He).
  apply (wp_put4 buf dl (digit x) (digit y) (digit z) (digit w)); [by intros ? ? ? ? ?; eapply wp_put_digit..|lia|lia|].
  intros buf' L T. rewrite He in T. eapply wp_conseq; [apply (IH src ltac:(cbn [length]; lia) (dl + 4) (e ++ [digit x; digit y; digit z; digit w]) buf')| |].
  - split; [lia|]. split; [lia|done].
  - done.
  - intros [rest dl'] buf2 (e' & Henc' & -> & E & Hl & Hr). exists ([digit x; digit y; digit z; digit w] ++ e').
    rewrite app_assoc. split; [done|]. split; [rewrite zlen_app; change (zlen [digit x; digit y; digit z; digit w]) with 4; lia|].
    split; [cbn [base64]; by rewrite G, E, app_assoc|done].
  - intros ? H. cbn beta in H. lia.
Qed.

Lemma wp_ntop_tail targsize src dl e buf :
  encoding targsize dl e buf -> Forall is_byte src -> zlen src <= 2 ->
  wp (ntop_tail targsize src dl) buf (fun n buf' => n = dl + zlen (base64 src) /\ encoding targsize n (e ++ base64 src) buf')
    (fun _ => targsize < dl + zlen (base64 src)).
Proof.
  intros Henc Hb Hl. unfold ntop_tail. destruct src as [|a src].
  { cbn [zlen length Z.of_nat Z.eqb negb]. apply wp_ret. cbn [base64]. by rewrite app_nil_r, zlen_nil, Z.add_0_r. }
  assert (Hshape : exists b three pad, (src = [] \/ src = [b]) /\ is_byte b /\ base64 (a :: src) = three ++ [pad; Pad64] /\
    nth 1 (a :: src) 0 = b /\ nth 2 (a :: src) 0 = 0 /\ three = ztake 2 (group (be_val [a; b; 0])) /\
    pad = if zlen (a :: src) =? 1 then Pad64 else nth 2 (group (be_val [a; b; 0])) 0).
  { destruct src as [|b [|c src]].
    - exists 0, (ztake 2 (group (be_val [a; 0; 0]))), Pad64. split; [by left|done].
    - exists b, (ztake 2 (group (be_val [a; b; 0]))), (nth 2 (group (be_val [a; b; 0])) 0). apply Forall_cons in Hb as [_ [Hb _]%Forall_cons]. split; [by right|done].
    - rewrite !zlen_cons in Hl. pose proof (zlen_nonneg src). lia. }
  destruct Hshape as (b & three & pad & _ & Hbb & E64 & E1 & E2 & Et & Ep).
  rewrite (proj2 (Z.eqb_neq (zlen (a :: src)) 0)) by (rewrite zlen_cons; pose proof (zlen_nonneg src); lia). cbn [negb]. cbv zeta.
  rewrite E1, E2. change (nth 0 (a :: src) 0) with a. apply Forall_cons in Hb as [Ha _].
  destruct (group_outputs a b 0 Ha Hbb ltac:(done)) as (x & y & z & w & G & Hx & Hy & Hz & Hw & Ex & Ey & Ez & Ew).
  rewrite G in *. change (ztake 2 [digit x; digit y; digit z; digit w]) with [digit x; digit y] in Et. cbn [nth] in Ep. subst three.
  assert (L64 : zlen (base64 (a :: src)) = 4) by (by rewrite E64). rewrite L64.
  eapply wp_ntop_room; [exact Henc|lia|]. intros Hroom. destruct Henc as (Hbuf & Hdl & He).
  apply (wp_put4 buf dl (digit x) (digit y) pad Pad64); [by intros ? ? ? ? ?; eapply wp_put_digit..| |by intros ? ? ? ? ?; apply wp_put|lia|lia|].
  - intros b0 Q0 E0 H0 HQ0. rewrite Ep in HQ0. destruct (zlen (a :: src) =? 1); [by apply wp_put|by eapply wp_put_digit].
  - intros buf' L T. apply wp_ret. split; [done|]. split; [lia|]. split; [lia|]. rewrite T, He, E64. done.
Qed.

Lemma wp_ntop src targsize buf :
  Forall is_byte src -> targsize <= zlen buf < 2 ^ 63 -> 0 <= targsize ->
  wp (b64_ntop src targsize) buf
    (fun n buf' => n = zlen (base64 src) /\ n < targsize /\ ztake (n + 1) buf' = base64 src ++ [0])
    (fun _ => targsize <= zlen (base64 src)).
Proof.
  intros Hsrc Hbuf Htar. unfold b64_ntop. apply wp_bind.
  eapply wp_conseq; [apply (wp_ntop_loop targsize src 0 [] buf); [split; [done|]; split; [lia|done]|done]| |intros ? H; cbn beta in H; lia].
  intros [rest dl] b1 (e' & Henc & -> & E & Hl & Hr). rewrite app_nil_l, Z.add_0_l in *. apply wp_bind.
  assert (El : zlen (base64 src) = zlen e' + zlen (base64 rest)) by (by rewrite E, zlen_app).
  eapply wp_conseq; [by apply (wp_ntop_tail targsize rest (zlen e') e' b1)| |intros ? H; cbn beta in H; lia].
  intros n b2 (-> & Hb2 & Hn & Ht). rewrite <- El, <- E in *.
  apply wp_bind, wp_check; intros H; [apply negb_true_iff, Z.leb_gt in H|apply negb_false_iff, Z.leb_le in H; done].
  apply wp_bind, wp_put; [lia|]. intros b3 L3 T3. apply wp_ret. split; [done|]. split; [done|]. by rewrite T3, Ht.
Qed.

(** ** The theorems *)

(** b64_ntop writes the encoding of RFC 1521 and a NUL, and fails exactly when there
    is no room for them; nothing outside the target is written. *)
Theorem b64_ntop_correct src targsize buf :
  Forall is_byte src -> 0 <= targsize <= zlen buf -> zlen buf < 2 ^ 63 ->
  match b64_ntop src targsize buf with
  | Ret n buf' => n = zlen (base64 src) /\ n < targsize /\ ztake (n + 1) buf' = base64 src ++ [0]
  | Fail _ => targsize <= zlen (base64 src)
  | UB => False
  end.
Proof. intros Hsrc Htar Hbuf. apply (wp_ntop src targsize buf); [done|lia|lia]. Qed.

Lemma b64_ntop_correct_witness :
  b64_ntop [77; 97; 110; 33] 9 (zrep 9 7) = Ret 8 [84; 87; 70; 117; 73; 81; 61; 61; 0] /\
  match b64_ntop [77; 97; 110; 33] 8 (zrep 9 7) with
  | Ret n buf' => n = zlen (base64 [77; 97; 110; 33]) /\ n < 8 /\ ztake (n + 1) buf' = base64 [77; 97; 110; 33] ++ [0]
  | Fail _ => 8 <= zlen (base64 [77; 97; 110; 33])
  | UB => False
  end.
Proof.
  split; [vm_compute; reflexivity|].
  apply (b64_ntop_correct [77; 97; 110; 33] 8 (zrep 9 7)); [by apply (bool_decide_unpack _)|by vm_compute|by vm_compute].
Defined.

(** C36. b64_pton accepts exactly the encodings of RFC 1521 with white space anywhere, and
    gives back the octets that were encoded: a string whose digits are not those of the
    encoder, down to the unused bits of the last one, is refused, and so is one that
    encodes more octets than the target takes. *)
Theorem b64_pton_exact s junk targsize buf :
  Forall (fun c => c <> 0) s -> zlen s < 2 ^ 31 -> 0 <= targsize <= zlen buf ->
  match b64_pton (s ++ 0 :: junk) targsize (Some buf) with
  | Ret n t => exists buf' d, t = Some buf' /\ strip s = base64 d /\ Forall is_byte d /\ n = zlen d /\ n <= targsize /\ ztake n buf' = d
  | Fail _ => forall d, Forall is_byte d -> strip s = base64 d -> targsize < zlen d
  | UB => False
  end.
Proof.
  intros Hs Hlen Htar.
  assert (Hdec : decoded targsize 0 0 0 [] buf) by (split; [lia|]; split; [lia|]; split; [lia|done]).
  pose proof (wp_pton s junk targsize 0 0 0 [] buf Hdec Hs ltac:(lia)) as H. unfold b64_pton.
  match goal with |- match ?m ?st with _ => _ end => enough (Hw : wp m st
    (fun n t => exists buf' r, t = Some buf' /\ b64_bits 0 0 (strip s) = Some r /\ n = 0 + zlen r /\ n <= targsize /\ ztake n buf' = [] ++ r)
    (fun _ => no_room targsize 0 (b64_bits 0 0 (strip s)))) end.
  - unfold wp in Hw. match type of Hw with match ?o with _ => _ end => destruct o as [n t|t|] end; [| |done].
    + destruct Hw as (buf' & d & -> & E & -> & Hn & Ht). destruct (base64_bits _ _ E) as [E' Hd]. exists buf', d. by rewrite Z.add_0_l in *.
    + intros d Hd E. rewrite E, (bits_base64 d Hd) in Hw. exact Hw.
  - apply wp_bind. eapply wp_conseq; [exact H|intros [[[? ?] ?] ?] t Ht; exact Ht|done].
Qed.

(** "TWFu IQ==", and the same with a bit set that no octet has. *)
Lemma b64_pton_exact_witness :
  b64_pton [84; 87; 70; 117; 32; 73; 82; 61; 61; 0] 4 (Some (zrep 4 7)) = Fail (Some [77; 97; 110; 33]) /\
  match b64_pton ([84; 87; 70; 117; 32; 73; 81; 61; 61] ++ 0 :: []) 4 (Some (zrep 4 7)) with
  | Ret n t => exists buf' d, t = Some buf' /\ strip [84; 87; 70; 117; 32; 73; 81; 61; 61] = base64 d /\ Forall is_byte d /\ n = zlen d /\ n <= 4 /\ ztake n buf' = d
  | Fail _ => forall d, Forall is_byte d -> strip [84; 87; 70; 117; 32; 73; 81; 61; 61] = base64 d -> 4 < zlen d
  | UB => False
  end.
Proof.
  split; [vm_compute; reflexivity|].
  apply (b64_pton_exact [84; 87; 70; 117; 32; 73; 81; 61; 61] [] 4 (zrep 4 7)); [repeat (constructor; [lia|]); constructor|by vm_compute|by vm_compute].
Defined.
