(* ===== verification/Strtol.v ===== *)
(** * Numbers from strings

    lib/libc/stdlib/strtol.c, strtoll.c, strtoimax.c, strtoul.c, strtoull.c, strtoumax.c,
    strtonum.c, atoi.c, atol.c and atoll.c.  The first three are one function, and so are
    the next three: with 64-bit longs their types have the same range.  A pointer into
    the string is the rest of the string from there; errno is an argument and a result;
    [None] is undefined behaviour: a read behind the string, an overflow of a signed
    integer.  The specification is the subject sequence of the C standard. *)

From S2P Require Import Prelude Ctype.
Open Scope Z_scope.

Definition LONG_MIN : Z := - 2 ^ 63.
Definition LONG_MAX : Z := 2 ^ 63 - 1.
Definition ULONG_MAX : Z := 2 ^ 64 - 1.
Definition EINVAL : Z := 22.
Definition ERANGE : Z := 34.

(** The return value, [*endptr] and errno. *)
Definition number : Type := Z * list Z * Z.

(** [*s] *)
Definition at_ptr (s : list Z) : option Z := hd_error s.

(** [do { c = (unsigned char) *s++; } while (isspace(c));]: [c] and the position of [c]. *)
Fixpoint skip_space (p : list Z) : option (Z * list Z) :=
  match p with
  | [] => None
  | c :: s => if isspace c then skip_space s else Some (c, p)
  end.

(** The sign: [neg], [c] and the position of [c]. *)
Definition sign (c : Z) (p : list Z) : option (bool * Z * list Z) :=
  if c =? 45 then c ← at_ptr (tail p); Some (true, char_of c, tail p)
  else if c =? 43 then c ← at_ptr (tail p); Some (false, char_of c, tail p)
  else Some (false, c, p).

(** The prefix of a hexadecimal number and the default bases. *)
Definition prefix (base c : Z) (p : list Z) : option (Z * Z * list Z) :=
  let s := tail p in
  hex ← (if ((base =? 0) || (base =? 16)) && (c =? 48) then
           x ← at_ptr s;
           if (x =? 120) || (x =? 88) then h ← at_ptr (tail s); Some (isxdigit h) else Some false
         else Some false);
  '(base, c, p) ← (if hex : bool then c ← at_ptr (tail s); Some (16, char_of c, tail s) else Some (base, c, p));
  Some (if base =? 0 then if c =? 48 then 8 else 10 else base, c, p).

(** [c] as a digit. *)
Definition digit_of (c : Z) : option Z :=
  if isdigit c then Some (c - 48)
  else if isalpha c then Some (c - if isupper c then 65 - 10 else 97 - 10)
  else None.

(** The result of an operation on [long]. *)
Definition long (x : Z) : option Z := if (LONG_MIN <=? x) && (x <=? LONG_MAX) then Some x else None.

(** ** strtol, strtoll, strtoimax *)

Definition cutoffs (neg : bool) (base : Z) : Z * Z :=
  let cutoff := if neg then LONG_MIN else LONG_MAX in
  let cutlim := Z.rem cutoff base in
  let cutoff := Z.quot cutoff base in
  if neg then
    let '(cutlim, cutoff) := if 0 <? cutlim then (cutlim - base, cutoff + 1) else (cutlim, cutoff) in
    (cutoff, - cutlim)
  else (cutoff, cutlim).

(** One digit: [any], [acc] and errno. *)
Definition acc_digit (neg : bool) (base cutoff cutlim c acc any errno : Z) : option (Z * Z * Z) :=
  if any <? 0 then Some (any, acc, errno)
  else if neg then
    if (acc <? cutoff) || ((acc =? cutoff) && (cutlim <? c)) then Some (-1, LONG_MIN, ERANGE)
    else acc ← long (acc * base); acc ← long (acc - c); Some (1, acc, errno)
  else
    if (cutoff <? acc) || ((acc =? cutoff) && (cutlim <? c)) then Some (-1, LONG_MAX, ERANGE)
    else acc ← long (acc * base); acc ← long (acc + c); Some (1, acc, errno).

(** The loop over the digits, with its step as a parameter: [acc], [any], errno and the
    position of the character that ends it. *)
Fixpoint digits_loop (step : Z -> Z -> Z -> Z -> option (Z * Z * Z)) (base : Z) (p : list Z) (c acc any errno : Z) :
    option (Z * Z * Z * list Z) :=
  match p with
  | [] => None
  | _ :: s =>
      match digit_of c with
      | None => Some (acc, any, errno, p)
      | Some d =>
          if base <=? d then Some (acc, any, errno, p)
          else
            '(any, acc, errno) ← step d acc any errno;
            c ← at_ptr s;
            digits_loop step base s c acc any errno
      end
  end.

Definition bad_base (base : Z) : bool := (base <? 0) || (base =? 1) || (36 <? base).

Definition strtol (nptr : list Z) (base errno : Z) : option number :=
  if bad_base base then Some (0, nptr, EINVAL) else
  '(c, p) ← skip_space nptr;
  '(neg, c, p) ← sign c p;
  '(base, c, p) ← prefix base c p;
  let '(cutoff, cutlim) := cutoffs neg base in
  '(acc, any, errno, p) ← digits_loop (acc_digit neg base cutoff cutlim) base p c 0 0 errno;
  Some (acc, if negb (any =? 0) then p else nptr, errno).
Definition strtoll : list Z -> Z -> Z -> option number := strtol.
Definition strtoimax : list Z -> Z -> Z -> option number := strtol.

(** ** strtoul, strtoull, strtoumax *)

Definition uacc_digit (base cutoff cutlim c acc any errno : Z) : option (Z * Z * Z) :=
  if any <? 0 then Some (any, acc, errno)
  else if (cutoff <? acc) || ((acc =? cutoff) && (cutlim <? c)) then Some (-1, ULONG_MAX, ERANGE)
  else Some (1, u64 (u64 (acc * base) + c), errno).

Definition strtoul (nptr : list Z) (base errno : Z) : option number :=
  if bad_base base then Some (0, nptr, EINVAL) else
  '(c, p) ← skip_space nptr;
  '(neg, c, p) ← sign c p;
  '(base, c, p) ← prefix base c p;
  let cutoff := ULONG_MAX / base in
  let cutlim := ULONG_MAX mod base in
  '(acc, any, errno, p) ← digits_loop (uacc_digit base cutoff cutlim) base p c 0 0 errno;
  let acc := if neg && (0 <? any) then u64 (- acc) else acc in
  Some (acc, if negb (any =? 0) then p else nptr, errno).
Definition strtoull : list Z -> Z -> Z -> option number := strtoul.
Definition strtoumax : list Z -> Z -> Z -> option number := strtoul.

(** ** The functions on top *)

(** The conversion to [int] keeps the low 32 bits. *)
Definition int_of (x : Z) : Z := (x + 2 ^ 31) mod 2 ^ 32 - 2 ^ 31.
Definition atoi (str : list Z) (errno : Z) : option (Z * Z) := '(v, _, errno) ← strtol str 10 errno; Some (int_of v, errno).
Definition atol (str : list Z) (errno : Z) : option (Z * Z) := '(v, _, errno) ← strtol str 10 errno; Some (v, errno).
Definition atoll (str : list Z) (errno : Z) : option (Z * Z) := '(v, _, errno) ← strtoll str 10 errno; Some (v, errno).

(** [error]: 0, or the reason. *)
Inductive strtonum_error : Type := no_error | INVALID | TOOSMALL | TOOLARGE.

Definition ev_err (saved : Z) (error : strtonum_error) : Z :=
  match error with
  | no_error => saved
  | INVALID => EINVAL
  | TOOSMALL | TOOLARGE => ERANGE
  end.

(** The value, [*errstrp] as the error it stands for, and errno. *)
Definition strtonum (numstr : list Z) (minval maxval errno : Z) : option (Z * strtonum_error * Z) :=
  '(ll, error) ← (if maxval <? minval then Some (0, INVALID)
                  else
                    '(ll, ep, errno) ← strtoll numstr 10 0;
                    c ← at_ptr ep;
                    Some (ll,
                      if bool_decide (numstr = ep) || negb (c =? 0) then INVALID
                      else if ((ll =? LONG_MIN) && (errno =? ERANGE)) || (ll <? minval) then TOOSMALL
                      else if ((ll =? LONG_MAX) && (errno =? ERANGE)) || (maxval <? ll) then TOOLARGE
                      else no_error));
  Some (match error with no_error => ll | _ => 0 end, error, ev_err errno error).

(** ** The subject sequence *)

(** The string without leading white space, the sign, the base and the digits with what
    follows them. *)
Fixpoint skip (p : list Z) : list Z :=
  match p with
  | c :: s => if isspace c then skip s else p
  | [] => []
  end.

Definition split_sign (p : list Z) : bool * list Z :=
  match p with
  | 45 :: s => (true, s)
  | 43 :: s => (false, s)
  | _ => (false, p)
  end.

Definition split_base (base : Z) (p : list Z) : Z * list Z :=
  match p with
  | 48 :: x :: h :: s =>
      if ((base =? 0) || (base =? 16)) && ((x =? 120) || (x =? 88)) && isxdigit h then (16, h :: s)
      else (if base =? 0 then 8 else base, p)
  | 48 :: _ => (if base =? 0 then 8 else base, p)
  | _ => (if base =? 0 then 10 else base, p)
  end.

Fixpoint split_digits (base : Z) (p : list Z) : list Z * list Z :=
  match p with
  | [] => ([], [])
  | c :: s =>
      match digit_of c with
      | Some d => if d <? base then let '(ds, rest) := split_digits base s in (d :: ds, rest) else ([], p)
      | None => ([], p)
      end
  end.

(** The value of digits, the most significant first, behind [acc]. *)
Definition value (base : Z) (ds : list Z) (acc : Z) : Z := fold_left (fun acc d => acc * base + d) ds acc.

(** The sign, the digits' value, whether there are any, and the rest of the string. *)
Definition subject (base : Z) (nptr : list Z) : bool * Z * bool * list Z :=
  let '(neg, p) := split_sign (skip nptr) in
  let '(base, p) := split_base base p in
  let '(ds, rest) := split_digits base p in
  (neg, value base ds 0, bool_decide (ds <> []), rest).

Definition clamp (lo hi x : Z) : Z := Z.max lo (Z.min hi x).

(** ** Scanning *)

Lemma char_class c : is_byte c -> digit_of (char_of c) = digit_of c /\ (char_of c =? 48) = (c =? 48).
Proof.
  intros Hc. unfold is_byte in Hc. unfold char_of. destruct (Z.ltb_spec c 128); [done|]. unfold digit_of, isalpha, isdigit, isupper, islower.
  split; zbools; done || lia.
Qed.

(** [c] is the character at [p], as an octet or as a [char]. *)
Definition reads (c : Z) (p : list Z) : Prop :=
  exists b s, p = b :: s /\ digit_of c = digit_of b /\ (c =? 48) = (b =? 48) /\ 0 ∈ p /\ Forall is_byte p.

Lemma reads_char b s : 0 ∈ b :: s -> Forall is_byte (b :: s) -> reads (char_of b) (b :: s).
Proof.
  intros H0 Hb. destruct (char_class b) as [E1 E2]; [by apply Forall_inv in Hb|]. exists b, s. by split_and!.
Qed.

Lemma in_tail b s : b <> 0 -> 0 ∈ b :: s -> 0 ∈ s.
Proof. intros Hb [H|H]%elem_of_cons; [by subst|done]. Qed.

Lemma has_head s : 0 ∈ s -> exists b s', s = b :: s'.
Proof. destruct s as [|b s]; [by intros ?%elem_of_nil|by exists b, s]. Qed.

Lemma skip_space_ok p : 0 ∈ p -> exists b s, skip p = b :: s /\ skip_space p = Some (b, skip p) /\ 0 ∈ skip p /\ (Forall is_byte p -> Forall is_byte (skip p)).
Proof.
  induction p as [|c s IH]; intros H0; [by apply elem_of_nil in H0|]. cbn [skip skip_space]. destruct (isspace c) eqn:Es.
  - destruct IH as (b & s' & E1 & E2 & E3 & E4); [eapply in_tail; [|exact H0]; by intros ->|].
    exists b, s'. split_and!; [done..|]. intros H. apply Forall_cons in H as [_ H]. by apply E4.
  - exists c, s. by split_and!.
Qed.

Lemma split_sign_head b s : split_sign (b :: s) = if b =? 45 then (true, s) else if b =? 43 then (false, s) else (false, b :: s).
Proof.
  destruct (Z.eqb_spec b 45) as [->|]; [done|]. destruct (Z.eqb_spec b 43) as [->|]; [done|].
  unfold split_sign. destruct b as [|b|b]; [done| |done]. do 7 (destruct b as [b|b|]; try done).
Qed.

Lemma sign_ok b s : 0 ∈ b :: s -> Forall is_byte (b :: s) ->
  exists c, sign b (b :: s) = Some (fst (split_sign (b :: s)), c, snd (split_sign (b :: s))) /\ reads c (snd (split_sign (b :: s))).
Proof.
  intros H0 Hb. unfold sign. rewrite split_sign_head. cbn [tail].
  assert (Hs : b <> 0 -> exists b' s', s = b' :: s' /\ at_ptr s = Some b' /\ reads (char_of b') s).
  { intros Hne. apply in_tail in H0; [|done]. destruct (has_head s H0) as (b' & s' & ->). exists b', s'. split; [done|]. split; [done|].
    apply reads_char; [done|]. by apply Forall_cons in Hb as [_ Hb]. }
  destruct (Z.eqb_spec b 45) as [->|H45]; [|destruct (Z.eqb_spec b 43) as [->|H43]].
  1,2: destruct Hs as (b' & s' & -> & E & Hr); [done|]; rewrite E; cbn [mbind option_bind fst snd]; by eexists.
  exists b. split; [done|]. exists b, s. by split_and!.
Qed.

Lemma split_base_head base b s : split_base base (b :: s) =
  match s with
  | x :: h :: s' =>
      if (b =? 48) && (((base =? 0) || (base =? 16)) && ((x =? 120) || (x =? 88)) && isxdigit h) then (16, h :: s')
      else (if base =? 0 then if b =? 48 then 8 else 10 else base, b :: s)
  | _ => (if base =? 0 then if b =? 48 then 8 else 10 else base, b :: s)
  end.
Proof.
  destruct (Z.eqb_spec b 48) as [->|Hb].
  - destruct s as [|x [|h s]]; cbn [split_base andb]; [by destruct (base =? 0)..|]. by destruct (_ && _).
  - assert (E : split_base base (b :: s) = (if base =? 0 then 10 else base, b :: s)).
    { unfold split_base. destruct b as [|b|b]; [done| |done]. do 7 (destruct b as [b|b|]; try done). }
    rewrite E. destruct s as [|x [|h s]]; cbn [andb]; by destruct (base =? 0).
Qed.

Lemma prefix_ok base c p : reads c p ->
  exists c', prefix base c p = Some (fst (split_base base p), c', snd (split_base base p)) /\ reads c' (snd (split_base base p)).
Proof.
  intros Hr. pose proof Hr as (b & s & -> & Hd & H48 & H0 & Hb). rewrite split_base_head. unfold prefix. cbn [tail]. rewrite H48.
  destruct (Z.eqb_spec b 48) as [->|Hne].
  2: { rewrite andb_false_r. cbn [mbind option_bind andb]. rewrite H48. destruct s as [|x [|h s]]; by exists c. }
  assert (H0s : 0 ∈ s) by (by apply in_tail in H0). destruct (has_head s H0s) as (x & s1 & ->).
  destruct ((base =? 0) || (base =? 16)) eqn:Eb; cbn [andb mbind option_bind at_ptr hd_error].
  2: { rewrite H48. cbn [fst snd]. destruct s1 as [|h s1]; by exists c. }
  destruct ((x =? 120) || (x =? 88)) eqn:Ex; cbn [andb mbind option_bind].
  2: { rewrite H48. destruct s1 as [|h s1]; by exists c. }
  assert (H0s1 : 0 ∈ s1). { eapply in_tail; [|exact H0s]. intros ->. done. }
  destruct (has_head s1 H0s1) as (h & s2 & ->). cbn [tail at_ptr hd_error mbind option_bind].
  destruct (isxdigit h) eqn:Eh; cbn [mbind option_bind].
  - exists (char_of h). split; [done|]. cbn [snd]. apply reads_char; [done|]. by apply Forall_cons in Hb as [_ [_ Hb]%Forall_cons].
  - rewrite H48. by exists c.
Qed.

(** The steps over all digits. *)
Fixpoint steps (step : Z -> Z -> Z -> Z -> option (Z * Z * Z)) (ds : list Z) (acc any errno : Z) : option (Z * Z * Z) :=
  match ds with
  | [] => Some (any, acc, errno)
  | d :: ds => '(any, acc, errno) ← step d acc any errno; steps step ds acc any errno
  end.

Lemma digits_loop_ok step base p : forall c acc any errno, reads c p ->
  digits_loop step base p c acc any errno =
    '(any, acc, errno) ← steps step (fst (split_digits base p)) acc any errno; Some (acc, any, errno, snd (split_digits base p)).
Proof.
  induction p as [|b s IH]; intros c acc any errno (b' & s' & E & Hd & _ & H0 & Hb); [done|]. injection E as <- <-.
  cbn [digits_loop split_digits]. rewrite Hd. destruct (digit_of b) as [d|] eqn:Ed; [|done].
  rewrite Z.leb_antisym. destruct (d <? base); cbn [negb]; [|done].
  assert (H0s : 0 ∈ s) by (eapply in_tail; [|exact H0]; by intros ->).
  destruct (split_digits base s) as [ds rest] eqn:Es. cbn [fst snd steps] in *. destruct (step d acc any errno) as [[[any' acc'] errno']|]; [|done]. cbn [mbind option_bind].
  destruct (has_head s H0s) as (b' & s' & ->). cbn [at_ptr hd_error mbind option_bind]. apply IH. exists b', s'. apply Forall_cons in Hb as [_ Hb]. by split_and!.
Qed.

Lemma digit_bounds c d : digit_of c = Some d -> 0 <= d.
Proof. unfold digit_of, isalpha, isdigit, isupper, islower. zbools; try done; intros [= <-]; lia. Qed.

Lemma split_digits_bounds base p : Forall (fun d => 0 <= d < base) (fst (split_digits base p)).
Proof.
  induction p as [|c s IH]; [constructor|]. cbn [split_digits]. destruct (digit_of c) as [d|] eqn:Ed; [|constructor].
  destruct (Z.ltb_spec d base); [|constructor]. destruct (split_digits base s). constructor; [|done]. split; [by eapply digit_bounds|done].
Qed.

Lemma value_mono base ds acc : 1 <= base -> 0 <= acc -> Forall (fun d => 0 <= d < base) ds -> acc <= value base ds acc.
Proof.
  intros Hbase Hacc Hds. revert acc Hacc. induction Hds as [|d ds Hd Hds IH]; intros acc Hacc; [done|]. unfold value in *. cbn [fold_left].
  specialize (IH (acc * base + d) ltac:(nia)). nia.
Qed.

(** The test on the next digit: is the value too large? *)
Lemma cutoff_test hi base v d : 2 <= base -> 0 <= v -> 0 <= d < base ->
  (hi / base <? v) || ((v =? hi / base) && (hi mod base <? d)) = (hi <? v * base + d).
Proof.
  intros Hbase Hv Hd. pose proof (Z.div_mod hi base ltac:(lia)) as E. pose proof (Z.mod_pos_bound hi base ltac:(lia)) as Hm.
  set (q := hi / base) in *. set (r := hi mod base) in *. clearbody q r.
  destruct (Z.ltb_spec hi (v * base + d)), (Z.ltb_spec q v), (Z.eqb_spec v q), (Z.ltb_spec r d); cbn; try done; exfalso; nia.
Qed.

(** ** strtol *)

Section signed.
Context (neg : bool) (base : Z) (Hbase : 2 <= base <= 36).
Let hi : Z := if neg then 2 ^ 63 else 2 ^ 63 - 1.
Let sgn (v : Z) : Z := if neg then - v else v.

Lemma cutoffs_ok : cutoffs neg base = (sgn (hi / base), hi mod base).
Proof using Hbase.
  unfold cutoffs, sgn, hi, LONG_MIN, LONG_MAX. destruct neg.
  - rewrite Z.rem_opp_l, Z.quot_opp_l, Z.rem_mod_nonneg, Z.quot_div_nonneg by lia.
    pose proof (Z.mod_pos_bound (2 ^ 63) base ltac:(lia)). destruct (Z.ltb_spec 0 (- (2 ^ 63 mod base))); [lia|]. by rewrite Z.opp_involutive.
  - by rewrite Z.rem_mod_nonneg, Z.quot_div_nonneg by lia.
Qed.

Lemma acc_digit_ok v d any errno : 0 <= any -> 0 <= v <= hi -> 0 <= d < base ->
  acc_digit neg base (sgn (hi / base)) (hi mod base) d (sgn v) any errno =
    Some (if hi <? v * base + d then (-1, sgn hi, ERANGE) else (1, sgn (v * base + d), errno)).
Proof using Hbase.
  intros Hany Hv Hd. unfold acc_digit. rewrite (proj2 (Z.ltb_ge any 0) Hany). pose proof (cutoff_test hi base v d ltac:(lia) ltac:(lia) Hd) as Ht.
  assert (Hsum : (hi <? v * base + d) = false -> v * base + d <= hi /\ v * base <= hi) by (intros ?%Z.ltb_ge; lia).
  unfold sgn, hi, long, LONG_MIN, LONG_MAX in *. destruct neg.
  - replace (- v <? - (2 ^ 63 / base)) with (2 ^ 63 / base <? v) by (zbools; done || lia). replace (- v =? - (2 ^ 63 / base)) with (v =? 2 ^ 63 / base) by (zbools; done || lia).
    rewrite Ht. destruct (2 ^ 63 <? v * base + d); [done|]. destruct (Hsum eq_refl). 
    rewrite (proj2 (Z.leb_le _ (- v * base))), (proj2 (Z.leb_le (- v * base) _)) by nia. cbn [andb mbind option_bind].
    rewrite (proj2 (Z.leb_le _ (- v * base - d))), (proj2 (Z.leb_le (- v * base - d) _)) by nia. cbn [andb mbind option_bind].
    do 3 f_equal. lia.
  - rewrite Ht. destruct (_ <? v * base + d); [done|]. destruct (Hsum eq_refl).
    rewrite (proj2 (Z.leb_le _ (v * base))), (proj2 (Z.leb_le (v * base) _)) by nia. cbn [andb mbind option_bind].
    rewrite (proj2 (Z.leb_le _ (v * base + d))), (proj2 (Z.leb_le (v * base + d) _)) by nia. done.
Qed.

Lemma steps_overflowed ds acc errno :
  steps (acc_digit neg base (sgn (hi / base)) (hi mod base)) ds acc (-1) errno = Some (-1, acc, errno).
Proof using. induction ds as [|d ds IH]; [done|]. cbn [steps]. unfold acc_digit at 1. cbn [Z.ltb Z.compare mbind option_bind]. exact IH. Qed.

Lemma signed_steps ds : Forall (fun d => 0 <= d < base) ds -> forall v any errno, 0 <= any -> 0 <= v <= hi ->
  steps (acc_digit neg base (sgn (hi / base)) (hi mod base)) ds (sgn v) any errno =
    Some (if hi <? value base ds v then (-1, sgn hi, ERANGE) else (if bool_decide (ds = []) then any else 1, sgn (value base ds v), errno)).
Proof using Hbase.
  induction 1 as [|d ds Hd Hds IH]; intros v any errno Hany Hv.
  - cbn [value fold_left steps]. by rewrite (proj2 (Z.ltb_ge hi v)) by lia.
  - cbn [steps]. rewrite acc_digit_ok by done. change (value base (d :: ds) v) with (value base ds (v * base + d)).
    destruct (Z.ltb_spec hi (v * base + d)) as [Hover|Hin]; cbn [mbind option_bind].
    + rewrite steps_overflowed. pose proof (value_mono base ds (v * base + d) ltac:(lia) ltac:(nia) Hds).
      by rewrite (proj2 (Z.ltb_lt hi _)) by lia.
    + rewrite IH by nia. rewrite (bool_decide_eq_false_2 (d :: ds = [])) by done. by destruct (bool_decide (ds = [])).
Qed.
End signed.

(** ** strtoul *)

Section unsigned.
Context (base : Z) (Hbase : 2 <= base <= 36).

Lemma uacc_digit_ok v d any errno : 0 <= any -> 0 <= v <= ULONG_MAX -> 0 <= d < base ->
  uacc_digit base (ULONG_MAX / base) (ULONG_MAX mod base) d v any errno =
    Some (if ULONG_MAX <? v * base + d then (-1, ULONG_MAX, ERANGE) else (1, v * base + d, errno)).
Proof using Hbase.
  intros Hany Hv Hd. unfold uacc_digit. rewrite (proj2 (Z.ltb_ge any 0) Hany), cutoff_test by lia.
  destruct (Z.ltb_spec ULONG_MAX (v * base + d)); [done|]. unfold ULONG_MAX in *. rewrite (u64_small (v * base)), u64_small by nia. done.
Qed.

Lemma usteps_overflowed ds acc errno :
  steps (uacc_digit base (ULONG_MAX / base) (ULONG_MAX mod base)) ds acc (-1) errno = Some (-1, acc, errno).
Proof using. induction ds as [|d ds IH]; [done|]. cbn [steps]. unfold uacc_digit at 1. cbn [Z.ltb Z.compare mbind option_bind]. exact IH. Qed.

Lemma unsigned_steps ds : Forall (fun d => 0 <= d < base) ds -> forall v any errno, 0 <= any -> 0 <= v <= ULONG_MAX ->
  steps (uacc_digit base (ULONG_MAX / base) (ULONG_MAX mod base)) ds v any errno =
    Some (if ULONG_MAX <? value base ds v then (-1, ULONG_MAX, ERANGE) else (if bool_decide (ds = []) then any else 1, value base ds v, errno)).
Proof using Hbase.
  induction 1 as [|d ds Hd Hds IH]; intros v any errno Hany Hv.
  - cbn [value fold_left steps]. by rewrite (proj2 (Z.ltb_ge ULONG_MAX v)) by lia.
  - cbn [steps]. rewrite uacc_digit_ok by done. change (value base (d :: ds) v) with (value base ds (v * base + d)).
    destruct (Z.ltb_spec ULONG_MAX (v * base + d)) as [Hover|Hin]; cbn [mbind option_bind].
    + rewrite usteps_overflowed. pose proof (value_mono base ds (v * base + d) ltac:(lia) ltac:(nia) Hds).
      by rewrite (proj2 (Z.ltb_lt ULONG_MAX _)) by lia.
    + rewrite IH by nia. rewrite (bool_decide_eq_false_2 (d :: ds = [])) by done. by destruct (bool_decide (ds = [])).
Qed.
End unsigned.

(** ** The subject sequence is what is converted *)

Definition good_base (base : Z) : Prop := base = 0 \/ 2 <= base <= 36.

Lemma split_base_good base p : good_base base -> 2 <= fst (split_base base p) <= 36.
Proof.
  intros Hb. destruct p as [|b s]; [unfold split_base; destruct (Z.eqb_spec base 0), Hb; cbn; lia|].
  assert (H : 2 <= (if base =? 0 then if b =? 48 then 8 else 10 else base) <= 36) by (destruct (Z.eqb_spec base 0), (b =? 48), Hb; lia).
  rewrite split_base_head. destruct s as [|x [|h s]]; [done..|]. destruct (_ && _); [cbn; lia|done].
Qed.

Lemma bad_base_good base : good_base base -> bad_base base = false.
Proof. intros [-> |[H1 H2]]; [done|]. unfold bad_base. zbools; done || lia. Qed.

(** All that comes before the loop. *)
Lemma scan_ok base str :
  0 ∈ str -> Forall is_byte str -> good_base base ->
  exists b neg base' c0 c p q ds rest, skip_space str = Some (b, skip str) /\ sign b (skip str) = Some (neg, c0, q) /\ prefix base c0 q = Some (base', c, p) /\
    2 <= base' <= 36 /\ reads c p /\ split_digits base' p = (ds, rest) /\ Forall (fun d => 0 <= d < base') ds /\
    subject base str = (neg, value base' ds 0, bool_decide (ds <> []), rest).
Proof.
  intros H0 Hb Hbase. destruct (skip_space_ok str H0) as (b & s & Es & E1 & H0' & Hb'). specialize (Hb' Hb). rewrite Es in *.
  destruct (sign_ok b s H0' Hb') as (c0 & E2 & Hr). destruct (prefix_ok base c0 _ Hr) as (c & E3 & Hr').
  pose proof (split_base_good base (snd (split_sign (b :: s))) Hbase) as Hg.
  unfold subject. rewrite Es. destruct (split_sign (b :: s)) as [neg q]. cbn [fst snd] in *. destruct (split_base base q) as [base' p]. cbn [fst snd] in *.
  destruct (split_digits base' p) as [ds rest] eqn:Ed. pose proof (split_digits_bounds base' p) as Hds. rewrite Ed in Hds.
  exists b, neg, base', c0, c, p, q, ds, rest.
  do 6 (split; [assumption|]). split; [assumption|reflexivity].
Qed.

Lemma value_nonneg base ds : 2 <= base -> Forall (fun d => 0 <= d < base) ds -> 0 <= value base ds 0.
Proof. intros Hb Hds. apply value_mono; [lia|lia|done]. Qed.

Lemma strtol_eq base str errno : 0 ∈ str -> Forall is_byte str -> good_base base ->
  let '(neg, v, any, rest) := subject base str in
  let x := if neg : bool then - v else v in
  strtol str base errno = Some (clamp LONG_MIN LONG_MAX x, if any : bool then rest else str,
    if (LONG_MIN <=? x) && (x <=? LONG_MAX) then errno else ERANGE).
Proof.
  intros H0 Hb Hbase. destruct (scan_ok base str H0 Hb Hbase) as (b & neg & base' & c0 & c & p & q & ds & rest & E1 & E2 & E3 & Hb' & Hr & Ed & Hds & ->).
  unfold strtol. rewrite bad_base_good by done. rewrite E1. cbn [mbind option_bind]. rewrite E2. cbn [mbind option_bind]. rewrite E3. cbn [mbind option_bind].
  rewrite (cutoffs_ok neg base' Hb'), (digits_loop_ok _ base' p c 0 0 errno Hr), Ed. cbn [fst snd].
  pose proof (signed_steps neg base' Hb' ds Hds 0 0 errno ltac:(lia) ltac:(by destruct neg)) as Hsteps.
  cbv beta in Hsteps. replace (if neg then - 0 else 0) with 0 in Hsteps by (by destruct neg). rewrite Hsteps. clear Hsteps. pose proof (value_nonneg base' ds ltac:(lia) Hds) as Hv.
  cbn [mbind option_bind]. assert (Hnil : ds = [] -> value base' ds 0 = 0) by (by intros ->). set (v := value base' ds 0) in *. clearbody v.
  unfold clamp, LONG_MIN, LONG_MAX in *. destruct (decide (ds = [])) as [Ed0|Ed0].
  - rewrite (Hnil Ed0). rewrite bool_decide_eq_true_2, (bool_decide_eq_false_2 (ds <> [])) by (done || auto). by destruct neg.
  - rewrite bool_decide_eq_false_2, (bool_decide_eq_true_2 (ds <> [])) by done.
    destruct neg; [destruct (Z.ltb_spec (2 ^ 63) v)|destruct (Z.ltb_spec (2 ^ 63 - 1) v)]; cbn [mbind option_bind Z.eqb negb]; do 2 f_equal; try (f_equal; lia).
    all: zbools; done || lia.
Qed.

Lemma strtoul_eq base str errno : 0 ∈ str -> Forall is_byte str -> good_base base ->
  let '(neg, v, any, rest) := subject base str in
  strtoul str base errno = Some (if ULONG_MAX <? v then ULONG_MAX else if neg : bool then u64 (- v) else v, if any : bool then rest else str,
    if ULONG_MAX <? v then ERANGE else errno).
Proof.
  intros H0 Hb Hbase. destruct (scan_ok base str H0 Hb Hbase) as (b & neg & base' & c0 & c & p & q & ds & rest & E1 & E2 & E3 & Hb' & Hr & Ed & Hds & ->).
  unfold strtoul. rewrite bad_base_good by done. rewrite E1. cbn [mbind option_bind]. rewrite E2. cbn [mbind option_bind]. rewrite E3. cbn [mbind option_bind].
  rewrite (digits_loop_ok _ base' p c 0 0 errno Hr), Ed. cbn [fst snd]. rewrite (unsigned_steps base' Hb' ds Hds 0 0 errno) by (unfold ULONG_MAX; lia).
  cbn [mbind option_bind]. assert (Hnil : ds = [] -> value base' ds 0 = 0) by (by intros ->). set (v := value base' ds 0) in *. clearbody v.
  destruct (decide (ds = [])) as [Ed0|Ed0].
  - rewrite (Hnil Ed0). rewrite bool_decide_eq_true_2, (bool_decide_eq_false_2 (ds <> [])) by (done || auto). by destruct neg.
  - rewrite bool_decide_eq_false_2, (bool_decide_eq_true_2 (ds <> [])) by done. destruct (ULONG_MAX <? v); cbn [mbind option_bind]; by destruct neg.
Qed.

(** A string that is read to its end is not where it began. *)
Lemma split_digits_rest base p : forall ds rest, split_digits base p = (ds, rest) -> (length rest + length ds = length p)%nat.
Proof.
  induction p as [|c s IH]; intros ds rest; cbn [split_digits]; [by intros [= <- <-]|].
  destruct (digit_of c) as [d|]; [|intros [= <- <-]; cbn; lia]. destruct (d <? base); [|intros [= <- <-]; cbn; lia].
  destruct (split_digits base s) as [ds' rest']. intros [= <- <-]. specialize (IH ds' rest' eq_refl). cbn [length]. lia.
Qed.

Lemma subject_rest base str neg v rest : subject base str = (neg, v, true, rest) -> rest <> str.
Proof.
  unfold subject. intros E Er.
  assert (H1 : (length (skip str) <= length str)%nat) by (clear; induction str as [|c s IH]; cbn [skip]; [lia|]; destruct (isspace c); cbn [length]; lia).
  assert (H2 : forall p, (length (snd (split_sign p)) <= length p)%nat).
  { clear. intros [|b s]; [done|]. rewrite split_sign_head. destruct (b =? 45), (b =? 43); cbn; lia. }
  assert (H3 : forall p, (length (snd (split_base base p)) <= length p)%nat).
  { clear. intros [|b s]; [done|]. rewrite split_base_head. destruct s as [|x [|h s]]; [cbn; lia..|]. destruct (_ && _); cbn; lia. }
  specialize (H2 (skip str)). destruct (split_sign (skip str)) as [neg' p]. specialize (H3 p). destruct (split_base base p) as [b q].
  destruct (split_digits b q) as [ds rest'] eqn:Ed. injection E as _ _ Ea ->. apply bool_decide_eq_true in Ea. subst rest.
  apply split_digits_rest in Ed. cbn [snd] in *. destruct ds; [done|]. cbn [length] in Ed. lia.
Qed.

Lemma subject_nul base str : 0 ∈ str -> 0 ∈ snd (subject base str).
Proof.
  intros H0. unfold subject. destruct (skip_space_ok str H0) as (b & s & Es & _ & H0' & _).
  assert (H2 : forall p, 0 ∈ p -> 0 ∈ snd (split_sign p)).
  { clear. intros [|b s] H; [done|]. rewrite split_sign_head. destruct (Z.eqb_spec b 45) as [->|]; [by apply elem_of_cons in H as [?|?]|].
    destruct (Z.eqb_spec b 43) as [->|]; [by apply elem_of_cons in H as [?|?]|done]. }
  assert (H3 : forall p, 0 ∈ p -> 0 ∈ snd (split_base base p)).
  { clear. intros [|b s] H; [done|]. rewrite split_base_head. destruct s as [|x [|h s]]; [done..|].
    destruct ((b =? 48) && _) eqn:E; [|done]. apply andb_prop in E as [->%Z.eqb_eq [[_ Hx]%andb_prop _]%andb_prop]. cbn [snd].
    apply elem_of_cons in H as [?|[<-|?]%elem_of_cons]; [done|cbn in Hx; done|done]. }
  assert (H4 : forall b p, 0 ∈ p -> 0 ∈ snd (split_digits b p)).
  { clear. intros b p. induction p as [|c s IH]; intros H; cbn [split_digits]; [done|]. destruct (digit_of c) as [d|] eqn:Ed; [|done].
    destruct (d <? b); [|done]. destruct (split_digits b s). cbn [snd] in *. apply IH. apply elem_of_cons in H as [<-|?]; done. }
  specialize (H2 _ H0'). destruct (split_sign (skip str)) as [neg p]. specialize (H3 p H2). destruct (split_base base p) as [b' q]. specialize (H4 b' q H3).
  by destruct (split_digits b' q).
Qed.

(** ** The theorems *)

(** C37. strtol on any string that ends: the value of the subject sequence clamped to the
    range of [long], errno set exactly when it was out of range, [*endptr] behind the
    last digit, or at the start when there is none; nothing behind the NUL is read, and
    no operation overflows. *)
Theorem strtol_correct base str errno : 0 ∈ str -> Forall is_byte str -> good_base base ->
  let '(neg, v, any, rest) := subject base str in
  let x := if neg : bool then - v else v in
  strtol str base errno = Some (clamp LONG_MIN LONG_MAX x, if any : bool then rest else str,
    if (LONG_MIN <=? x) && (x <=? LONG_MAX) then errno else ERANGE).
Proof. apply strtol_eq. Qed.

(** " -0x8000000000000001;" *)
Lemma strtol_correct_witness :
  let str := [32; 45; 48; 120; 56; 48; 48; 48; 48; 48; 48; 48; 48; 48; 48; 48; 48; 48; 48; 49; 59; 0] in
  strtol str 0 0 = Some (LONG_MIN, [59; 0], ERANGE) /\
  let '(neg, v, any, rest) := subject 0 str in
  let x := if neg : bool then - v else v in
  strtol str 0 0 = Some (clamp LONG_MIN LONG_MAX x, if any : bool then rest else str, if (LONG_MIN <=? x) && (x <=? LONG_MAX) then 0 else ERANGE).
Proof.
  split; [vm_compute; reflexivity|].
  apply (strtol_correct 0 [32; 45; 48; 120; 56; 48; 48; 48; 48; 48; 48; 48; 48; 48; 48; 48; 48; 48; 48; 49; 59; 0] 0);
    [by apply (bool_decide_unpack _)|by apply (bool_decide_unpack _)|by left].
Defined.

(** strtoul on any string that ends: the value modulo 2^64, negated for a minus sign,
    or ULONG_MAX and ERANGE when the digits stand for more. *)
Theorem strtoul_correct base str errno : 0 ∈ str -> Forall is_byte str -> good_base base ->
  let '(neg, v, any, rest) := subject base str in
  strtoul str base errno = Some (if ULONG_MAX <? v then ULONG_MAX else if neg : bool then u64 (- v) else v, if any : bool then rest else str,
    if ULONG_MAX <? v then ERANGE else errno).
Proof. apply strtoul_eq. Qed.

(** "-1" *)
Lemma strtoul_correct_witness :
  strtoul [45; 49; 0] 10 0 = Some (ULONG_MAX, [0], 0) /\
  let '(neg, v, any, rest) := subject 10 [45; 49; 0] in
  strtoul [45; 49; 0] 10 0 = Some (if ULONG_MAX <? v then ULONG_MAX else if neg : bool then u64 (- v) else v, if any : bool then rest else [45; 49; 0],
    if ULONG_MAX <? v then ERANGE else 0).
Proof.
  split; [vm_compute; reflexivity|].
  apply (strtoul_correct 10 [45; 49; 0] 0); [by apply (bool_decide_unpack _)|by apply (bool_decide_unpack _)|by right].
Defined.

(** C38. strtonum accepts exactly the strings that are a decimal number, with white space
    and a sign before it, between the limits; it tells apart what is no number, what is
    below and what is above, also beyond the range of [long long], and leaves errno alone
    on success. *)
Theorem strtonum_correct str minval maxval errno :
  0 ∈ str -> Forall is_byte str -> LONG_MIN <= minval -> maxval <= LONG_MAX ->
  let '(neg, v, any, rest) := subject 10 str in
  let x := if neg : bool then - v else v in
  strtonum str minval maxval errno = Some (
    if (maxval <? minval) || negb (any && bool_decide (hd_error rest = Some 0)) then (0, INVALID, EINVAL)
    else if x <? minval then (0, TOOSMALL, ERANGE)
    else if maxval <? x then (0, TOOLARGE, ERANGE)
    else (x, no_error, errno)).
Proof.
  intros H0 Hb Hmin Hmax. pose proof (strtol_eq 10 str 0 H0 Hb ltac:(by right)) as E.
  pose proof (subject_rest 10 str) as Hrest. pose proof (subject_nul 10 str H0) as Hnul.
  destruct (subject 10 str) as [[[neg v] any] rest]. cbn [snd] in Hnul. cbv zeta in *. set (x := if neg then - v else v) in *. clearbody x.
  unfold strtonum. destruct (Z.ltb_spec maxval minval); [done|]. unfold strtoll. rewrite E. cbn [mbind option_bind orb].
  destruct any; cbn [andb negb].
  - destruct (has_head rest Hnul) as (c & s & ->). cbn [at_ptr hd_error mbind option_bind]. rewrite (bool_decide_eq_false_2 (str = c :: s)) by (intros Heq; by eapply Hrest).
    cbn [orb]. destruct (Z.eqb_spec c 0) as [->|Hc]; [rewrite (bool_decide_eq_true_2 (Some 0 = Some 0)) by done|by rewrite (bool_decide_eq_false_2 (Some c = Some 0)) by congruence].
    cbn [negb]. unfold clamp, LONG_MIN, LONG_MAX, ERANGE in *.
    destruct (Z.ltb_spec x minval), (Z.ltb_spec maxval x), (Z.leb_spec (- 2 ^ 63) x), (Z.leb_spec x (2 ^ 63 - 1)); try lia; cbn [andb Z.eqb Pos.eqb]; rewrite ?andb_true_r, ?andb_false_r; cbn [orb];
      try rewrite (Z.max_r _ (Z.min _ _)) by lia; try rewrite Z.min_r by lia; try rewrite Z.max_r by lia; zbools; cbn; try done; try lia.
  - destruct (has_head str H0) as (c & s & Es). rewrite Es at 1. cbn [at_ptr hd_error mbind option_bind]. by rewrite (bool_decide_eq_true_2 (str = str)).
Qed.

(** "9223372036854775808" is too large, whatever the limit. *)
Lemma strtonum_correct_witness :
  let str := [57; 50; 50; 51; 51; 55; 50; 48; 51; 54; 56; 53; 52; 55; 55; 53; 56; 48; 56; 0] in
  strtonum [32; 43; 52; 50; 0] 0 42 7 = Some (42, no_error, 7) /\
  let '(neg, v, any, rest) := subject 10 str in
  let x := if neg : bool then - v else v in
  strtonum str 0 LONG_MAX 7 = Some (
    if (LONG_MAX <? 0) || negb (any && bool_decide (hd_error rest = Some 0)) then (0, INVALID, EINVAL)
    else if x <? 0 then (0, TOOSMALL, ERANGE) else if LONG_MAX <? x then (0, TOOLARGE, ERANGE) else (x, no_error, 7)).
Proof.
  split; [vm_compute; reflexivity|].
  apply (strtonum_correct [57; 50; 50; 51; 51; 55; 50; 48; 51; 54; 56; 53; 52; 55; 55; 53; 56; 48; 56; 0] 0 LONG_MAX 7);
    [by apply (bool_decide_unpack _)|by apply (bool_decide_unpack _)|by vm_compute|by vm_compute].
Defined.
