(* ===== verification/Sort.v ===== *)
(** * Sorting and searching: bsearch, lsearch, heapsort, qsort

    [lib/libc/stdlib/bsearch.c], [lsearch.c], [heapsort.c], [qsort.c].
    An array is the list of its elements and a pointer into it is the index
    of an element, so that [a + i * es] is [a + i] and a length in octets
    [r] is [r / es] elements; an access outside the list is undefined
    behaviour.  The exchange of two runs of elements by words, which is all
    that looks inside an element, is modelled on octets ([swapfunc]), and
    [swapfunc_elements] is the bridge between the two levels.  The state
    also holds the outcomes of the calls of [malloc] to come; there is no
    memory once the list is empty.

    The caller's comparison is a parameter with the laws C11 7.22.5 asks of
    it ([Comparator]).  [introsort] is a loop with a true recursion on the
    smaller part: the loop has its own fuel, and [stack] counts the frames
    of the recursion, so that [qsort_correct] also says that
    [log2 nmemb + 1] frames are enough. *)
From S2P Require Import Prelude.
From Stdlib Require Import Sorting.Sorted.

(** The memory a sort works on. *)
Record array (A : Type) : Type := mkArray {
  elems : list A;
  mallocs : list bool;
}.
Arguments mkArray {A} _ _.
Arguments elems {A} _.
Arguments mallocs {A} _.
#[export] Instance eta_array {A} : Eta (array A) := fun s => mkArray (elems s) (mallocs s).

Definition elem {A} (i : Z) : M (array A) A := fun s => valid (zget (elems s) i) s.
Definition store {A} (i : Z) (x : A) : M (array A) unit := fun s =>
  match zset (elems s) i x with Some l => Ret tt (s <| elems := l |>) | None => UB end.
Definition malloc {A} : M (array A) bool := fun s =>
  match mallocs s with
  | b :: bs => Ret b (s <| mallocs := bs |>)
  | [] => Ret false s
  end.

(** ** bsearch and lsearch *)

Section search.
Context {K A : Type} (compar : K -> A -> Z).

(** [for (lim = nmemb; lim != 0; lim >>= 1)] *)
Fixpoint bsearch_loop (fuel : nat) (key : K) (base lim : Z) : M (array A) (option Z) :=
  if lim =? 0 then mret None else
  match fuel with
  | O => ub
  | S fuel =>
      let p := base + Z.shiftr lim 1 in
      x ← elem p;
      let cmp := compar key x in
      if cmp =? 0 then mret (Some p)
      else if 0 <? cmp then bsearch_loop fuel key (p + 1) (Z.shiftr (lim - 1) 1)
      else bsearch_loop fuel key base (Z.shiftr lim 1)
  end.

Definition bsearch (key : K) (base0 nmemb : Z) : M (array A) (option Z) :=
  bsearch_loop (Z.to_nat nmemb) key base0 nmemb.

(** [for (element = base; element < end; element += width)] *)
Fixpoint lfind_loop (fuel : nat) (key : K) (element end_ : Z) : M (array A) (option Z) :=
  if element <? end_ then
    match fuel with
    | O => ub
    | S fuel =>
        x ← elem element;
        if compar key x =? 0 then mret (Some element) else lfind_loop fuel key (element + 1) end_
    end
  else mret None.

Definition lfind (key : K) (base nelp : Z) : M (array A) (option Z) :=
  lfind_loop (Z.to_nat nelp) key base (base + nelp).
End search.

(** The element found or added, and [*nelp]. *)
Definition lsearch {A} (compar : A -> A -> Z) (key : A) (base nelp : Z) : M (array A) (Z * Z) :=
  element ← lfind compar key base nelp;
  match element with
  | Some p => mret (p, nelp)
  | None => store (base + nelp) key;; mret (base + nelp, nelp + 1)
  end.

Section sort.
Context {A : Type} (compar : A -> A -> Z).

(** [compar] on the elements two pointers point to. *)
Definition cmp_at (i j : Z) : M (array A) Z := x ← elem i; y ← elem j; mret (compar x y).

(** ** heapsort *)

(** SWAP *)
Definition SWAP (a b : Z) : M (array A) unit :=
  x ← elem a; y ← elem b; store a y;; store b x.

(** The larger of the children of a node whose first child is [child_i]. *)
Definition larger_child (base nmemb child_i : Z) : M (array A) Z :=
  if child_i <? nmemb then
    c ← cmp_at (base + child_i) (base + child_i + 1);
    mret (if c <? 0 then child_i + 1 else child_i)
  else mret child_i.

Fixpoint CREATE (fuel : nat) (base nmemb par_i : Z) : M (array A) unit :=
  let child_i := par_i * 2 in
  if child_i <=? nmemb then
    match fuel with
    | O => ub
    | S fuel =>
        child_i ← larger_child base nmemb child_i;
        c ← cmp_at (base + child_i) (base + par_i);
        if c <=? 0 then mret tt
        else SWAP (base + par_i) (base + child_i);; CREATE fuel base nmemb child_i
    end
  else mret tt.

(** COPY *)
Definition COPY (a b : Z) : M (array A) unit := x ← elem b; store a x.

(** The first loop of SELECT: its final [par_i]. *)
Fixpoint SELECT_down (fuel : nat) (base nmemb par_i : Z) : M (array A) Z :=
  let child_i := par_i * 2 in
  if child_i <=? nmemb then
    match fuel with
    | O => ub
    | S fuel =>
        child_i ← larger_child base nmemb child_i;
        COPY (base + par_i) (base + child_i);;
        SELECT_down fuel base nmemb child_i
    end
  else mret par_i.

(** The second loop of SELECT. *)
Fixpoint SELECT_up (fuel : nat) (base : Z) (k : A) (child_i : Z) : M (array A) unit :=
  match fuel with
  | O => ub
  | S fuel =>
      let par_i := Z.shiftr child_i 1 in
      if child_i =? 1 then store (base + child_i) k
      else
        x ← elem (base + par_i);
        if compar k x <? 0 then store (base + child_i) k
        else COPY (base + child_i) (base + par_i);; SELECT_up fuel base k par_i
  end.

Definition SELECT (base nmemb : Z) (k : A) : M (array A) unit :=
  par_i ← SELECT_down (Z.to_nat nmemb) base nmemb 1;
  SELECT_up (S (Z.to_nat par_i)) base k par_i.

(** [for (l = nmemb / 2 + 1; --l;)] *)
Fixpoint create_loop (fuel : nat) (base nmemb l : Z) : M (array A) unit :=
  let l := l - 1 in
  if l =? 0 then mret tt
  else
    match fuel with
    | O => ub
    | S fuel => CREATE (Z.to_nat nmemb) base nmemb l;; create_loop fuel base nmemb l
    end.

(** [while (nmemb > 1)] *)
Fixpoint select_loop (fuel : nat) (base nmemb : Z) : M (array A) unit :=
  if 1 <? nmemb then
    match fuel with
    | O => ub
    | S fuel =>
        k ← elem (base + nmemb);
        COPY (base + nmemb) (base + 1);;
        SELECT base (nmemb - 1) k;;
        select_loop fuel base (nmemb - 1)
    end
  else mret tt.

Definition heapsort (vbase nmemb size : Z) : M (array A) unit :=
  if nmemb <=? 1 then mret tt
  else
    check (negb (size =? 0));;
    m ← malloc; check m;;
    let base := vbase - 1 in
    create_loop (Z.to_nat nmemb) base nmemb (nmemb / 2 + 1);;
    select_loop (Z.to_nat nmemb) base nmemb.

(** ** qsort *)

(** [vecswap(a, b, n)] as it reads on elements: [swapfunc_elements] *)
Fixpoint vecswap (a b : Z) (n : nat) : M (array A) unit :=
  match n with
  | O => mret tt
  | S n => SWAP a b;; vecswap (a + 1) (b + 1) n
  end.

Definition med3 (a b c : Z) : M (array A) Z :=
  ab ← cmp_at a b;
  if ab <? 0 then
    bc ← cmp_at b c;
    if bc <? 0 then mret b else ac ← cmp_at a c; mret (if ac <? 0 then c else a)
  else
    bc ← cmp_at b c;
    if 0 <? bc then mret b else ac ← cmp_at a c; mret (if ac <? 0 then a else c).

(** [for (pl = pm; pl > a && cmp(pl - es, pl) > 0; pl -= es)] *)
Fixpoint insert_loop (fuel : nat) (a pl : Z) : M (array A) unit :=
  if a <? pl then
    match fuel with
    | O => ub
    | S fuel =>
        c ← cmp_at (pl - 1) pl;
        if 0 <? c then SWAP pl (pl - 1);; insert_loop fuel a (pl - 1) else mret tt
    end
  else mret tt.

(** [for (pm = a + es; pm < a + n * es; pm += es)] *)
Fixpoint insertion_loop (fuel : nat) (a n pm : Z) : M (array A) unit :=
  if pm <? a + n then
    match fuel with
    | O => ub
    | S fuel => insert_loop (Z.to_nat n) a pm;; insertion_loop fuel a n (pm + 1)
    end
  else mret tt.

(** [while (pb <= pc && (cmp_result = cmp(pb, a)) <= 0)]: its final [pa] and [pb] *)
Fixpoint scan_up (fuel : nat) (a pa pb pc : Z) : M (array A) (Z * Z) :=
  if pb <=? pc then
    match fuel with
    | O => ub
    | S fuel =>
        cmp_result ← cmp_at pb a;
        if cmp_result <=? 0 then
          if cmp_result =? 0 then SWAP pa pb;; scan_up fuel a (pa + 1) (pb + 1) pc
          else scan_up fuel a pa (pb + 1) pc
        else mret (pa, pb)
    end
  else mret (pa, pb).

(** [while (pb <= pc && (cmp_result = cmp(pc, a)) >= 0)]: its final [pc] and [pd] *)
Fixpoint scan_down (fuel : nat) (a pb pc pd : Z) : M (array A) (Z * Z) :=
  if pb <=? pc then
    match fuel with
    | O => ub
    | S fuel =>
        cmp_result ← cmp_at pc a;
        if 0 <=? cmp_result then
          if cmp_result =? 0 then SWAP pc pd;; scan_down fuel a pb (pc - 1) (pd - 1)
          else scan_down fuel a pb (pc - 1) pd
        else mret (pc, pd)
    end
  else mret (pc, pd).

(** The [for (;;)] of the partition: the final [(pa, pb, pc, pd)]. *)
Fixpoint partition_loop (fuel : nat) (a n pa pb pc pd : Z) : M (array A) (Z * Z * Z * Z) :=
  match fuel with
  | O => ub
  | S fuel =>
      '(pa, pb) ← scan_up (Z.to_nat n) a pa pb pc;
      '(pc, pd) ← scan_down (Z.to_nat n) a pb pc pd;
      if pc <? pb then mret (pa, pb, pc, pd)
      else SWAP pb pc;; partition_loop fuel a n pa (pb + 1) (pc - 1) pd
  end.

(** The choice of the partition element. *)
Definition choose_pivot (a n : Z) : M (array A) Z :=
  let pm := a + n / 2 in
  if 7 <? n then
    let pl := a in
    let pn := a + (n - 1) in
    '(pl, pm, pn) ←
      (if 40 <? n then
         let s := n / 8 in
         pl ← med3 pl (pl + s) (pl + 2 * s);
         pm ← med3 (pm - s) pm (pm + s);
         pn ← med3 (pn - 2 * s) (pn - s) pn;
         mret (pl, pm, pn)
       else mret (pl, pm, pn));
    med3 pl pm pn
  else mret pm.

(** From the choice of the partition element to the lengths [r] and [s] of
    the two parts that are left to sort. *)
Definition partition (a n : Z) : M (array A) (Z * Z) :=
  pm ← choose_pivot a n;
  SWAP a pm;;
  '(pa, pb, pc, pd) ← partition_loop (Z.to_nat n) a n (a + 1) (a + 1) (a + (n - 1)) (a + (n - 1));
  let pn := a + n in
  let r := if pa - a <? pb - pa then pa - a else pb - pa in
  vecswap a (pb - r) (Z.to_nat r);;
  let r := if pd - pc <? pn - pd - 1 then pd - pc else pn - pd - 1 in
  vecswap pb (pn - r) (Z.to_nat r);;
  mret (pb - pa, pd - pc).

(** The body of introsort from the label [loop], with [rec] for its
    recursive calls. *)
Fixpoint introsort_loop (rec : Z -> Z -> Z -> M (array A) unit) (fuel : nat) (es a n maxdepth : Z) :
  M (array A) unit :=
  match fuel with
  | O => ub
  | S fuel =>
      if n <? 7 then insertion_loop (Z.to_nat n) a n (a + 1)
      else
        sorted ← (if maxdepth =? 0 then try (heapsort a n es) else mret None);
        match sorted with
        | Some _ => mret tt
        | None =>
            let maxdepth := u64 (maxdepth - 1) in
            '(r, s) ← partition a n;
            let pn := a + n in
            if r <? s then
              if 1 <? s then
                (if 1 <? r then rec a r maxdepth else mret tt);;
                introsort_loop rec fuel es (pn - s) s maxdepth
              else mret tt
            else
              if 1 <? r then
                (if 1 <? s then rec (pn - s) s maxdepth else mret tt);;
                introsort_loop rec fuel es a r maxdepth
              else mret tt
        end
  end.

Fixpoint introsort (stack : nat) (es a n maxdepth : Z) : M (array A) unit :=
  match stack with
  | O => ub
  | S stack => introsort_loop (introsort stack es) (S (Z.to_nat n)) es a n maxdepth
  end.

(** [for (i = n; i > 0; i >>= 1) maxdepth++;] *)
Fixpoint depth_loop (fuel : nat) (i maxdepth : Z) : Z :=
  match fuel with
  | O => maxdepth
  | S fuel => if 0 <? i then depth_loop fuel (Z.shiftr i 1) (maxdepth + 1) else maxdepth
  end.

Definition qsort (a n es : Z) : M (array A) unit :=
  let maxdepth := depth_loop 64 n 0 * 2 in
  introsort (S (Z.to_nat (Z.log2 n))) es a n maxdepth.
End sort.

(** ** swapfunc *)

Inductive swaptype : Type :=
  | SWAPTYPE_BYTEV
  | SWAPTYPE_INTV
  | SWAPTYPE_LONGV
  | SWAPTYPE_INT
  | SWAPTYPE_LONG.

(** [sizeof(int)] and [sizeof(long)] on LP64. *)
Definition sizeof_int : Z := 4.
Definition sizeof_long : Z := 8.

Definition TYPE_ALIGNED (size a es : Z) : bool := (a mod size =? 0) && (es mod size =? 0).

(** The choice qsort makes for an array at address [a]. *)
Definition choose_swaptype (a es : Z) : swaptype :=
  if TYPE_ALIGNED sizeof_long a es then
    if es =? sizeof_long then SWAPTYPE_LONG else SWAPTYPE_LONGV
  else if negb (sizeof_int =? sizeof_long) && TYPE_ALIGNED sizeof_int a es then
    if es =? sizeof_int then SWAPTYPE_INT else SWAPTYPE_INTV
  else SWAPTYPE_BYTEV.

(** The do loop of swapcode for a type of [w] octets: [mem] holds the
    octets and [pi], [pj] are offsets in it. *)
Definition octets (p n : Z) : M (list Z) (list Z) := fun mem => valid (octets_at (zdrop p mem) n) mem.
Definition put_octets (p : Z) (bs : list Z) : M (list Z) unit := fun mem =>
  match zwrite mem p bs with Some mem' => Ret tt mem' | None => UB end.
Fixpoint swapcode_loop (fuel : nat) (w pi pj i : Z) : M (list Z) unit :=
  match fuel with
  | O => ub
  | S fuel =>
      t ← octets pi w;
      u ← octets pj w;
      put_octets pi u;;
      put_octets pj t;;
      let i := u64 (i - 1) in
      if 0 <? i then swapcode_loop fuel w (pi + w) (pj + w) i else mret tt
  end.
Definition swapcode (w parmi parmj n : Z) : M (list Z) unit :=
  swapcode_loop (Z.to_nat n) w parmi parmj (n / w).

Definition swapfunc (a b n : Z) (ty : swaptype) : M (list Z) unit :=
  match ty with
  | SWAPTYPE_INT | SWAPTYPE_INTV => swapcode sizeof_int a b n
  | SWAPTYPE_LONG | SWAPTYPE_LONGV => swapcode sizeof_long a b n
  | SWAPTYPE_BYTEV => swapcode 1 a b n
  end.

(** The macros [swap] and [vecswap]. *)
Definition swap (ty : swaptype) (es a b : Z) : M (list Z) unit :=
  match ty with
  | SWAPTYPE_INT =>
      t ← octets a sizeof_int; u ← octets b sizeof_int; put_octets a u;; put_octets b t
  | SWAPTYPE_LONG =>
      t ← octets a sizeof_long; u ← octets b sizeof_long; put_octets a u;; put_octets b t
  | _ => swapfunc a b es ty
  end.
Definition vecswap_octets (ty : swaptype) (a b n : Z) : M (list Z) unit :=
  if 0 <? n then swapfunc a b n ty else mret tt.

#[local] Ltac Zify.zify_post_hook ::= Z.to_euclidean_division_equations.

(** * Arrays as functions of the index *)

Section views.
Context {A : Type} (d : A).
Implicit Types (l k : list A) (i j : Z).

Definition at_ (l : list A) (i : Z) : A := default d (l !! Z.to_nat i).
Definition upd (l : list A) (i : Z) (x : A) : list A := <[Z.to_nat i := x]> l.
Definition swapped (l : list A) (i j : Z) : list A := upd (upd l i (at_ l j)) j (at_ l i).

Lemma zget_at l i : 0 <= i < zlen l -> zget l i = Some (at_ l i).
Proof.
  intros Hi. destruct (zget_Some l i Hi) as [x Hx]. rewrite Hx. unfold at_.
  unfold zget in Hx. rewrite (proj2 (Z.leb_le _ _)) in Hx by lia. by rewrite Hx.
Qed.

Lemma zlen_upd l i x : zlen (upd l i x) = zlen l.
Proof. unfold upd, zlen. by rewrite length_insert. Qed.

Lemma zlen_swapped l i j : zlen (swapped l i j) = zlen l.
Proof. unfold swapped. by rewrite !zlen_upd. Qed.

Lemma zset_upd l i x : 0 <= i < zlen l -> zset l i x = Some (upd l i x).
Proof.
  intros Hi. unfold zset, zwrite, upd. change (zlen [x]) with 1.
  rewrite !(proj2 (Z.leb_le _ _)) by lia. cbn [andb]. f_equal.
  rewrite insert_take_drop by (unfold zlen in Hi; lia).
  unfold ztake, zdrop. by replace (Z.to_nat (i + 1)) with (S (Z.to_nat i)) by lia.
Qed.

Lemma at_upd l i j x : 0 <= i < zlen l -> 0 <= j ->
  at_ (upd l i x) j = if j =? i then x else at_ l j.
Proof.
  intros Hi Hj. unfold at_, upd. destruct (Z.eqb_spec j i) as [->|Hne].
  - rewrite list_lookup_insert_eq; [done|]. unfold zlen in Hi. lia.
  - rewrite list_lookup_insert_ne; [done|]. lia.
Qed.

Lemma at_swapped l i j x : 0 <= i < zlen l -> 0 <= j < zlen l -> 0 <= x ->
  at_ (swapped l i j) x = if x =? j then at_ l i else if x =? i then at_ l j else at_ l x.
Proof. intros. unfold swapped. rewrite !at_upd by (rewrite ?zlen_upd; lia). done. Qed.

Lemma at_ext l k : zlen l = zlen k -> (forall i, 0 <= i < zlen l -> at_ l i = at_ k i) -> l = k.
Proof.
  intros Hl H. apply list_eq. intros n. destruct (decide (n < length l)%nat) as [Hn|Hn].
  - specialize (H (Z.of_nat n)). unfold zlen in *. unfold at_ in H. rewrite !Nat2Z.id in H.
    destruct (lookup_lt_is_Some_2 l n) as [x Hx]; [lia|].
    destruct (lookup_lt_is_Some_2 k n) as [y Hy]; [lia|].
    rewrite Hx, Hy in *. cbn in H. f_equal. apply H. lia.
  - unfold zlen in Hl. by rewrite !lookup_ge_None_2 by lia.
Qed.

Lemma swapped_perm l i j : 0 <= i < zlen l -> 0 <= j < zlen l -> swapped l i j ≡ₚ l.
Proof.
  intros Hi Hj. unfold swapped, upd. unfold zlen in *.
  destruct (lookup_lt_is_Some_2 l (Z.to_nat i)) as [x Hx]; [lia|].
  destruct (lookup_lt_is_Some_2 l (Z.to_nat j)) as [y Hy]; [lia|].
  unfold at_. rewrite Hx, Hy. cbn [default].
  by apply Permutation_insert_swap.
Qed.
End views.

(** * Runs of an array program

    [runs m l Q]: on an array with the elements [l], whatever memory is
    left, [m] returns and its result and the elements it leaves satisfy
    [Q]. *)

Definition runs {A B} (m : M (array A) B) (l : list A) (Q : B -> list A -> Prop) : Prop :=
  forall ms, wp m (mkArray l ms) (fun b s' => Q b (elems s')) (fun _ => False).

Section runs_rules.
Context {A : Type} (d : A).
Implicit Types (l k : list A).

Lemma runs_ret {B} (b : B) l Q : Q b l -> runs (mret b) l Q.
Proof. intros H ms. by apply wp_ret. Qed.

Lemma runs_bind {B C} (m : M (array A) B) (f : B -> M (array A) C) l Q :
  runs m l (fun b l' => runs (f b) l' Q) -> runs (mbind f m) l Q.
Proof.
  intros H ms. apply wp_bind. eapply wp_conseq; [apply H| |done].
  intros b [l' ms'] Hb. apply Hb.
Qed.

Lemma runs_conseq {B} (m : M (array A) B) l (Q Q' : B -> list A -> Prop) :
  runs m l Q' -> (forall b l', Q' b l' -> Q b l') -> runs m l Q.
Proof. intros H HQ ms. eapply wp_conseq; [apply H| |done]. intros b s'. apply HQ. Qed.

Lemma runs_seq {B C} (m : M (array A) B) (f : B -> M (array A) C) l Q Q' :
  runs m l Q' -> (forall b l', Q' b l' -> runs (f b) l' Q) -> runs (mbind f m) l Q.
Proof. intros H Hf. apply runs_bind. eapply runs_conseq; [exact H|exact Hf]. Qed.

Lemma runs_elem i l (Q : A -> list A -> Prop) : 0 <= i < zlen l -> Q (at_ d l i) l -> runs (elem i) l Q.
Proof. intros Hi HQ ms. unfold elem, wp, valid. cbn [elems]. by rewrite (zget_at d) by done. Qed.

Lemma runs_store i x l (Q : unit -> list A -> Prop) :
  0 <= i < zlen l -> Q tt (upd l i x) -> runs (store i x) l Q.
Proof. intros Hi HQ ms. unfold store, wp. cbn [elems]. by rewrite zset_upd. Qed.

Lemma runs_cmp_at compar i j l Q :
  0 <= i < zlen l -> 0 <= j < zlen l -> Q (compar (at_ d l i) (at_ d l j)) l ->
  runs (cmp_at compar i j) l Q.
Proof. intros. apply runs_bind, runs_elem; [done|]. by apply runs_bind, runs_elem, runs_ret. Qed.

Lemma runs_SWAP i j l Q :
  0 <= i < zlen l -> 0 <= j < zlen l -> Q tt (swapped d l i j) -> runs (SWAP i j) l Q.
Proof.
  intros. apply runs_bind, runs_elem; [done|]. apply runs_bind, runs_elem; [done|].
  apply runs_bind, runs_store; [done|]. apply runs_store; [by rewrite zlen_upd|done].
Qed.

Lemma runs_COPY i j l Q :
  0 <= i < zlen l -> 0 <= j < zlen l -> Q tt (upd l i (at_ d l j)) -> runs (COPY i j) l Q.
Proof. intros. apply runs_bind, runs_elem; [done|]. by apply runs_store. Qed.
End runs_rules.

(** ** Rearrangement of a part of an array *)

(** [k] is a permutation of [l] that differs only in [lo .. hi - 1]. *)
Definition rearr {A} (lo hi : Z) (l k : list A) : Prop :=
  k ≡ₚ l /\ forall i, 0 <= i -> i < lo \/ hi <= i -> k !! Z.to_nat i = l !! Z.to_nat i.

Section rearr.
Context {A : Type} (d : A).
Implicit Types (l k m : list A) (lo hi : Z).

#[global] Instance rearr_refl lo hi : Reflexive (@rearr A lo hi).
Proof. done. Qed.
#[global] Instance rearr_trans lo hi : Transitive (@rearr A lo hi).
Proof.
  intros l k m [P1 H1] [P2 H2]. split; [by rewrite P2|].
  intros i Hi Ho. by rewrite H2, H1.
Qed.

Lemma rearr_zlen lo hi l k : rearr lo hi l k -> zlen k = zlen l.
Proof. intros [HP _]. unfold zlen. by rewrite HP. Qed.

Lemma rearr_weaken lo hi lo' hi' l k : lo' <= lo -> hi <= hi' -> rearr lo hi l k -> rearr lo' hi' l k.
Proof. intros ?? [HP H]. split; [done|]. intros i Hi Ho. apply H; lia. Qed.

Lemma rearr_at lo hi l k i : rearr lo hi l k -> 0 <= i -> i < lo \/ hi <= i -> at_ d k i = at_ d l i.
Proof. intros [_ H] Hi Ho. unfold at_. by rewrite H. Qed.

Lemma rearr_swapped lo hi l i j : 0 <= lo -> hi <= zlen l -> lo <= i < hi -> lo <= j < hi ->
  rearr lo hi l (swapped d l i j).
Proof.
  intros. split; [apply swapped_perm; lia|].
  intros x Hx Ho. unfold swapped, upd. rewrite !list_lookup_insert_ne by lia. done.
Qed.

(** A property of all elements of the part is kept. *)
Lemma rearr_all (P : A -> Prop) lo hi l k :
  rearr lo hi l k -> 0 <= lo <= hi -> hi <= zlen l ->
  (forall i, lo <= i < hi -> P (at_ d l i)) -> forall i, lo <= i < hi -> P (at_ d k i).
Proof.
  intros Hr Hlo Hhi HP. pose proof (rearr_zlen _ _ _ _ Hr) as Hlen. destruct Hr as [Hp Ho].
  set (mid := fun m => take (Z.to_nat (hi - lo)) (drop (Z.to_nat lo) m)).
  assert (Hsplit : forall m, m = take (Z.to_nat lo) m ++ mid m ++ drop (Z.to_nat hi) m).
  { intros m. rewrite <- (take_drop (Z.to_nat lo) m) at 1. f_equal. unfold mid.
    rewrite <- (take_drop (Z.to_nat (hi - lo)) (drop (Z.to_nat lo) m)) at 1. f_equal.
    rewrite drop_drop. f_equal. lia. }
  assert (Et : take (Z.to_nat lo) k = take (Z.to_nat lo) l).
  { apply list_eq. intros n. rewrite !lookup_take. case_decide; [|done].
    specialize (Ho (Z.of_nat n)). rewrite Nat2Z.id in Ho. apply Ho; lia. }
  assert (Ed : drop (Z.to_nat hi) k = drop (Z.to_nat hi) l).
  { apply list_eq. intros n. rewrite !lookup_drop. specialize (Ho (hi + Z.of_nat n)).
    replace (Z.to_nat (hi + Z.of_nat n)) with (Z.to_nat hi + n)%nat in Ho by lia. apply Ho; lia. }
  assert (Hm : mid k ≡ₚ mid l).
  { rewrite (Hsplit k), (Hsplit l), Et, Ed in Hp.
    apply Permutation_app_inv_l, Permutation_app_inv_r in Hp. exact Hp. }
  assert (Hmid : forall m i, zlen m = zlen l -> lo <= i < hi ->
    mid m !! Z.to_nat (i - lo) = Some (at_ d m i)).
  { intros m i Hml Hi. unfold mid. rewrite lookup_take, lookup_drop. case_decide; [|lia].
    replace (Z.to_nat lo + Z.to_nat (i - lo))%nat with (Z.to_nat i) by lia.
    unfold at_. destruct (lookup_lt_is_Some_2 m (Z.to_nat i)) as [x Hx]; [unfold zlen in *; lia|].
    by rewrite Hx. }
  assert (HF : Forall P (mid k)).
  { rewrite Hm. apply Forall_lookup_2. intros n x Hn.
    pose proof (lookup_lt_Some _ _ _ Hn) as Hlt. unfold mid in Hlt.
    rewrite length_take in Hlt. specialize (Hmid l (lo + Z.of_nat n) eq_refl ltac:(lia)).
    replace (Z.to_nat (lo + Z.of_nat n - lo)) with n in Hmid by lia.
    rewrite Hmid in Hn. injection Hn as <-. apply HP. lia. }
  intros i Hi. eapply Forall_lookup_1; [exact HF|]. by apply Hmid.
Qed.
End rearr.

#[export] Hint Rewrite @zlen_upd @zlen_swapped : csimp.

(** ** Comparison functions (C11 7.22.5) *)

Class Comparator {A} (compar : A -> A -> Z) : Prop := {
  cmp_anti x y : Z.sgn (compar x y) = - Z.sgn (compar y x);
  cmp_trans x y z : compar x y <= 0 -> compar y z <= 0 -> compar x z <= 0;
}.

Section order.
Context {A : Type} (compar : A -> A -> Z) `{!Comparator compar} (d : A).

Definition cle (x y : A) : Prop := compar x y <= 0.

Lemma cmp_signs x y :
  (compar x y < 0 /\ 0 < compar y x) \/ (compar x y = 0 /\ compar y x = 0) \/
  (0 < compar x y /\ compar y x < 0).
Proof.
  pose proof (cmp_anti x y) as H.
  destruct (Z.sgn_spec (compar x y)) as [[? E1]|[[? E1]|[? E1]]];
  destruct (Z.sgn_spec (compar y x)) as [[? E2]|[[? E2]|[? E2]]]; lia.
Qed.

#[global] Instance cle_refl : Reflexive cle.
Proof. intros x. unfold cle. destruct (cmp_signs x x); lia. Qed.
#[global] Instance cle_trans : Transitive cle.
Proof. intros x y z. apply cmp_trans. Qed.

Lemma cle_total x y : cle x y \/ cle y x.
Proof. unfold cle. destruct (cmp_signs x y) as [|[|]]; lia. Qed.

Lemma ncle x y : 0 < compar x y -> cle y x.
Proof. unfold cle. destruct (cmp_signs x y) as [|[|]]; lia. Qed.

Lemma cle_ge x y : 0 <= compar x y -> cle y x.
Proof. unfold cle. destruct (cmp_signs x y) as [|[|]]; lia. Qed.

(** The part [lo .. hi - 1] is in order. *)
Definition sorted (lo hi : Z) (l : list A) : Prop :=
  forall i j, lo <= i <= j -> j < hi -> cle (at_ d l i) (at_ d l j).
End order.

(** * bsearch and lsearch *)

Section search_proofs.
Context {K A : Type} (compar : K -> A -> Z) (d : A).
Implicit Types (l : list A).

(** The elements that are less than the key come first, those greater last. *)
Definition split_by (key : K) (lo hi : Z) l : Prop := forall i j, lo <= i <= j -> j < hi ->
  Z.sgn (compar key (at_ d l j)) <= Z.sgn (compar key (at_ d l i)).

(** What a search of a part of [l] may return. *)
Definition search_result (key : K) (lo hi : Z) l (r : option Z) : Prop :=
  match r with
  | Some p => lo <= p < hi /\ compar key (at_ d l p) = 0
  | None => forall i, lo <= i < hi -> compar key (at_ d l i) <> 0
  end.

Lemma bsearch_loop_ok fuel key base lim l : 0 <= base -> 0 <= lim <= Z.of_nat fuel -> base + lim <= zlen l ->
  split_by key base (base + lim) l ->
  runs (bsearch_loop compar fuel key base lim) l
    (fun r l' => l' = l /\ search_result key base (base + lim) l r).
Proof.
  revert base lim. induction fuel as [|fuel IH]; intros base lim Hb Hlim Hl Hs; cbn [bsearch_loop];
    (destruct (Z.eqb_spec lim 0) as [->|Hne]; [apply runs_ret; split; [done|intros i Hi; lia]|]); [lia|].
  rewrite !Z.shiftr_div_pow2 by lia. change (2 ^ 1) with 2.
  set (p := base + lim / 2). assert (Hp : base <= p < base + lim) by (unfold p; lia).
  apply runs_bind, (runs_elem d); [lia|]. cbv zeta.
  destruct (Z.eqb_spec (compar key (at_ d l p)) 0) as [E|E]; [by apply runs_ret|].
  destruct (Z.ltb_spec 0 (compar key (at_ d l p))) as [G|G]; (eapply runs_conseq; [apply IH; try lia|]).
  - intros i j ??. apply Hs; lia.
  - intros r l' [-> Hr]. split; [done|]. unfold search_result in *. destruct r as [q|]; [lia|].
    intros i Hi. destruct (Z.le_gt_cases i p) as [Hip|Hip]; [|apply Hr; lia].
    pose proof (Hs i p). lia.
  - intros i j ??. apply Hs; lia.
  - intros r l' [-> Hr]. split; [done|]. unfold search_result in *. destruct r as [q|]; [lia|].
    intros i Hi. destruct (Z.le_gt_cases p i) as [Hip|Hip]; [|apply Hr; lia].
    pose proof (Hs p i). lia.
Qed.

Lemma lfind_loop_ok fuel key base nelp l : 0 <= base -> 0 <= nelp <= Z.of_nat fuel -> base + nelp <= zlen l ->
  runs (lfind_loop compar fuel key base (base + nelp)) l
    (fun r l' => l' = l /\ search_result key base (base + nelp) l r).
Proof.
  revert base nelp. induction fuel as [|fuel IH]; intros base nelp Hb Hn Hl; cbn [lfind_loop]; zcase;
    try (apply runs_ret; split; [done|intros i Hi; lia]); [lia|].
  apply runs_bind, (runs_elem d); [lia|].
  destruct (Z.eqb_spec (compar key (at_ d l base)) 0) as [E|E]; [apply runs_ret; split; [done|split; [lia|done]]|].
  replace (base + nelp) with (base + 1 + (nelp - 1)) by lia.
  eapply runs_conseq; [apply IH; lia|].
  intros r l' [-> Hr]. split; [done|]. unfold search_result in *. destruct r as [q|]; [lia|].
  intros i Hi. destruct (Z.eq_dec i base) as [->|]; [done|]. apply Hr. lia.
Qed.
End search_proofs.

(** * Insertion sort *)

(** Look at an exchanged or overwritten array at known indices. *)
Ltac at_cases :=
  rewrite ?zlen_swapped, ?zlen_upd in *;
  repeat (rewrite at_swapped by (rewrite ?zlen_swapped, ?zlen_upd; lia));
  repeat (rewrite at_upd by (rewrite ?zlen_swapped, ?zlen_upd; lia));
  repeat match goal with
  | |- context [if ?x =? ?y then _ else _] => destruct (Z.eqb_spec x y); try lia
  end.

Section insertion.
Context {A : Type} (compar : A -> A -> Z) `{!Comparator compar} (d : A).
Implicit Types (l : list A).
#[local] Abbreviation at_ := (at_ d).
#[local] Abbreviation sorted := (sorted compar d).
#[local] Abbreviation cle := (cle compar).

Lemma insert_loop_ok fuel a pl pm l : 0 <= a <= pl -> pl <= pm < zlen l -> pl - a < Z.of_nat fuel ->
  (forall i j, a <= i <= j -> j <= pm -> i <> pl -> j <> pl -> cle (at_ l i) (at_ l j)) ->
  (forall j, pl <= j <= pm -> cle (at_ l pl) (at_ l j)) ->
  runs (insert_loop compar fuel a pl) l (fun _ l' => rearr a (pm + 1) l l' /\ sorted a (pm + 1) l').
Proof.
  revert pl l. induction fuel as [|fuel IH]; intros pl l Ha Hpm Hf Hs Hpl; [lia|].
  cbn [insert_loop]. destruct (Z.ltb_spec a pl) as [Hlt|Hge].
  - apply runs_bind, (runs_cmp_at d); [lia..|]. destruct (Z.ltb_spec 0 (compar (at_ l (pl - 1)) (at_ l pl))) as [Hc|Hc].
    + apply runs_bind, (runs_SWAP d); [lia..|]. eapply runs_conseq; [apply IH; rewrite ?zlen_swapped; try lia|].
      * intros i j ????. at_cases; apply Hs; lia.
      * intros j ?. at_cases; first [by apply ncle | apply Hpl; lia].
      * intros _ l' [Hr Hso]. split; [|done]. etrans; [|exact Hr]. apply rearr_swapped; lia.
    + apply runs_ret. split; [done|]. intros i j ??.
      destruct (Z.eq_dec i pl) as [->|]; [apply Hpl; lia|].
      destruct (Z.eq_dec j pl) as [->|]; [|apply Hs; lia].
      trans (at_ l (pl - 1)); [apply Hs; lia|exact Hc].
  - apply runs_ret. split; [done|]. intros i j ??.
    destruct (Z.eq_dec i pl) as [->|]; [apply Hpl; lia|]. apply Hs; lia.
Qed.

Lemma insertion_loop_ok fuel a n pm l : 0 <= a -> a < pm -> a + n <= zlen l -> a + n - pm <= Z.of_nat fuel ->
  sorted a pm l ->
  runs (insertion_loop compar fuel a n pm) l (fun _ l' => rearr a (a + n) l l' /\ sorted a (a + n) l').
Proof.
  revert pm l. induction fuel as [|fuel IH]; intros pm l Ha Hpm Hl Hf Hs; cbn [insertion_loop]; zcase; try lia.
  1,3: apply runs_ret; split; [done|]; intros i j ??; apply Hs; lia.
  eapply runs_seq; [apply (insert_loop_ok _ a pm pm); try lia|].
  - intros i j ????. apply Hs; lia.
  - intros j ?. by replace j with pm by lia.
  - intros _ l' [Hr Hs']. pose proof (rearr_zlen _ _ _ _ Hr).
    eapply runs_conseq; [apply IH; [lia..|done]|]. intros _ l'' [Hr' Hs'']. split; [|done].
    etrans; [|exact Hr']. eapply rearr_weaken; [..|exact Hr]; lia.
Qed.

(** Parts of less than two elements. *)
Lemma sorted_short lo hi l : hi <= lo + 1 -> sorted lo hi l.
Proof. intros ? i j ??. by replace j with i by lia. Qed.
End insertion.

(** * heapsort *)

Section heap.
Context {A : Type} (compar : A -> A -> Z) `{!Comparator compar} (d : A).
Implicit Types (l : list A).
#[local] Abbreviation at_ := (at_ d).
#[local] Abbreviation sorted := (sorted compar d).
#[local] Abbreviation cle := (cle compar).

(** The nodes [1 .. nmemb] of the tree at [base] from the node [i0] on are
    not greater than their parents. *)
Definition heap (base nmemb i0 : Z) l : Prop := forall c, 2 <= c <= nmemb -> i0 <= c / 2 ->
  cle (at_ l (base + c)) (at_ l (base + c / 2)).

Lemma heap_root base nmemb l i : heap base nmemb 1 l -> 1 <= i <= nmemb ->
  cle (at_ l (base + i)) (at_ l (base + 1)).
Proof.
  intros Hh. induction (Z.lt_wf 0 i) as [i _ IH]. intros Hi.
  destruct (Z.eq_dec i 1) as [->|]; [done|]. trans (at_ l (base + i / 2)); [apply Hh; lia|]. apply IH; lia.
Qed.

Lemma larger_child_ok base nmemb child_i l : 0 <= base + 1 -> base + nmemb < zlen l -> 1 <= child_i <= nmemb ->
  runs (larger_child compar base nmemb child_i) l (fun r l' => l' = l /\
    (r = child_i \/ r = child_i + 1) /\ r <= nmemb /\
    forall c, c = child_i \/ c = child_i + 1 -> c <= nmemb -> cle (at_ l (base + c)) (at_ l (base + r))).
Proof.
  intros Hb Hl Hc. unfold larger_child. zcase.
  - apply runs_bind, (runs_cmp_at d), runs_ret; [lia..|]. split; [done|].
    destruct (Z.ltb_spec (compar (at_ l (base + child_i)) (at_ l (base + child_i + 1))) 0) as [E|E];
      (split; [lia|]; split; [lia|]); rewrite <- ?Z.add_assoc in E; intros c [->| ->] _; try done.
    + unfold cle. lia.
    + by apply cle_ge.
  - apply runs_ret. split; [done|]. split; [lia|]. split; [lia|]. intros c [->| ->] ?; [done|lia].
Qed.

Lemma CREATE_ok fuel base nmemb par_i i0 l : 0 <= base + 1 -> base + nmemb < zlen l ->
  1 <= i0 <= par_i -> par_i <= nmemb -> nmemb - par_i <= Z.of_nat fuel ->
  (forall c, 2 <= c <= nmemb -> i0 <= c / 2 -> c / 2 <> par_i -> cle (at_ l (base + c)) (at_ l (base + c / 2))) ->
  (forall c, 2 <= c <= nmemb -> c / 2 = par_i -> i0 <= par_i / 2 -> cle (at_ l (base + c)) (at_ l (base + par_i / 2))) ->
  runs (CREATE compar fuel base nmemb par_i) l
    (fun _ l' => rearr (base + 1) (base + nmemb + 1) l l' /\ heap base nmemb i0 l').
Proof.
  revert par_i l. induction fuel as [|fuel IH]; intros par_i l Hb Hl Hi Hp Hf H1 H2; cbn [CREATE]; zcase; try lia;
    try (apply runs_ret; split; [done|]; intros c ??; apply H1; lia).
  eapply runs_seq; [apply larger_child_ok; lia|]. intros r l' [-> (Hr & Hrn & Hmax)].
  apply runs_bind, (runs_cmp_at d); [lia..|]. destruct (Z.leb_spec (compar (at_ l (base + r)) (at_ l (base + par_i))) 0) as [Hc|Hc].
  - apply runs_ret. split; [done|]. intros c ??. destruct (Z.eq_dec (c / 2) par_i) as [E|]; [|by apply H1].
    rewrite E. trans (at_ l (base + r)); [apply Hmax; lia|exact Hc].
  - apply runs_bind, (runs_SWAP d); [lia..|]. eapply runs_conseq; [apply IH; rewrite ?zlen_swapped; try lia|].
    + intros c ???. at_cases; try (apply Hmax; lia); try (by apply ncle).
      * replace c with par_i by lia. apply H2; lia.
      * apply H1; lia.
    + intros c ???. at_cases. replace r with (c / 2) by lia. apply H1; lia.
    + intros _ l' [Hre Hh]. split; [|done]. etrans; [|exact Hre]. apply rearr_swapped; lia.
Qed.

(** The hole moves from [p] to [c]. *)
Lemma upd_move l p c k : 0 <= p < zlen l -> 0 <= c < zlen l -> p <> c ->
  upd (upd l p (at_ l c)) c k = swapped d (upd l p k) p c.
Proof.
  intros. apply (at_ext d); rewrite ?zlen_swapped, ?zlen_upd; [done|].
  intros i Hi. rewrite at_swapped by (rewrite ?zlen_upd; lia).
  rewrite !at_upd by (rewrite ?zlen_upd; lia).
  destruct (Z.eqb_spec i c), (Z.eqb_spec i p), (Z.eqb_spec p p), (Z.eqb_spec c p); done || lia.
Qed.

(** [l] with [k] put into the hole [h] is [l0] rearranged in the heap. *)
Definition hole_in (base nmemb : Z) (k : A) (l0 : list A) (h : Z) l : Prop :=
  1 <= h <= nmemb /\ zlen l = zlen l0 /\ rearr (base + 1) (base + nmemb + 1) l0 (upd l (base + h) k).

Lemma hole_move base nmemb k l0 h h' l : 0 <= base + 1 -> base + nmemb < zlen l0 -> h <> h' ->
  1 <= h' <= nmemb -> hole_in base nmemb k l0 h l ->
  hole_in base nmemb k l0 h' (upd l (base + h) (at_ l (base + h'))).
Proof.
  intros ???? (Hh & Hz & Hr). split; [lia|]. split; [by rewrite zlen_upd|].
  etrans; [exact Hr|]. rewrite upd_move by lia. apply rearr_swapped; rewrite ?zlen_upd; lia.
Qed.

Lemma SELECT_down_ok fuel base nmemb k l0 par_i l : 0 <= base + 1 -> base + nmemb < zlen l0 ->
  nmemb - par_i <= Z.of_nat fuel -> heap base nmemb 1 l -> hole_in base nmemb k l0 par_i l ->
  runs (SELECT_down compar fuel base nmemb par_i) l
    (fun h l' => nmemb < 2 * h /\ heap base nmemb 1 l' /\ hole_in base nmemb k l0 h l').
Proof.
  revert par_i l. induction fuel as [|fuel IH]; intros par_i l Hb Hl Hf Hh Ho; pose proof Ho as (Hi & Hz & _);
    cbn [SELECT_down]; zcase; try lia; try (apply runs_ret; split; [lia|done]).
  eapply runs_seq; [apply larger_child_ok; lia|]. intros r l' [-> (Hr & Hrn & Hmax)].
  apply runs_bind, (runs_COPY d); [lia..|]. apply IH; try lia; [|apply hole_move; lia || done].
  intros c ??. at_cases; try done.
  - replace c with par_i by lia. trans (at_ l (base + par_i)); [|apply Hh; lia].
    replace par_i with (r / 2) by lia. apply Hh; lia.
  - apply Hmax; lia.
  - by apply Hh.
Qed.

Lemma SELECT_up_ok fuel base nmemb k l0 h l : 0 <= base + 1 -> base + nmemb < zlen l0 ->
  h < Z.of_nat fuel -> heap base nmemb 1 l -> hole_in base nmemb k l0 h l ->
  (forall c, 2 <= c <= nmemb -> c / 2 = h -> cle (at_ l (base + c)) k) ->
  runs (SELECT_up compar fuel base k h) l
    (fun _ l' => heap base nmemb 1 l' /\ rearr (base + 1) (base + nmemb + 1) l0 l').
Proof.
  revert h l. induction fuel as [|fuel IH]; intros h l Hb Hl Hf Hh Ho Hk; pose proof Ho as (Hi & Hz & Hr); [lia|].
  assert (Hput : (2 <= h -> cle k (at_ l (base + h / 2))) -> heap base nmemb 1 (upd l (base + h) k)).
  { intros Hpar c ??. at_cases; [|apply Hk; lia|by apply Hh].
    replace c with h in * by lia. apply Hpar. lia. }
  cbn [SELECT_up]. rewrite Z.shiftr_div_pow2 by lia. change (2 ^ 1) with 2.
  destruct (Z.eqb_spec h 1) as [->|]; [apply runs_store; [lia|split; [apply Hput; lia|done]]|].
  apply runs_bind, (runs_elem d); [lia|].
  destruct (Z.ltb_spec (compar k (at_ l (base + h / 2))) 0) as [Hc|Hc].
  { apply runs_store; [lia|]. split; [|done]. apply Hput. intros _. unfold cle. lia. }
  apply runs_bind, (runs_COPY d); [lia..|]. pose proof (cle_ge _ _ _ Hc) as Hk2.
  apply IH; try lia; [|apply hole_move; lia || done|].
  - intros c ??. at_cases; [by replace c with h by lia| |by apply Hh].
    trans (at_ l (base + h)); [|apply Hh; lia]. replace h with (c / 2) by lia. by apply Hh.
  - intros c ??. at_cases; try done. trans (at_ l (base + h / 2)); [|done].
    replace (h / 2) with (c / 2) by lia. apply Hh; lia.
Qed.

Lemma SELECT_ok base nmemb k l0 l : 0 <= base + 1 -> base + nmemb < zlen l0 ->
  heap base nmemb 1 l -> hole_in base nmemb k l0 1 l ->
  runs (SELECT compar base nmemb k) l
    (fun _ l' => heap base nmemb 1 l' /\ rearr (base + 1) (base + nmemb + 1) l0 l').
Proof.
  intros Hb Hl Hh Ho. pose proof Ho as (? & _).
  eapply runs_seq; [apply SELECT_down_ok; [done|exact Hl|lia|done..]|].
  intros h l' (Hh2 & Hh' & Ho'). pose proof Ho' as (? & _). apply SELECT_up_ok; try done; [lia|].
  intros c ??. lia.
Qed.

Lemma create_loop_ok fuel base nmemb i l : 0 <= base + 1 -> base + nmemb < zlen l ->
  1 <= i <= nmemb -> i - 1 <= Z.of_nat fuel -> heap base nmemb i l ->
  runs (create_loop compar fuel base nmemb i) l
    (fun _ l' => rearr (base + 1) (base + nmemb + 1) l l' /\ heap base nmemb 1 l').
Proof.
  revert i l. induction fuel as [|fuel IH]; intros i l Hb Hl Hi Hf Hh; cbn [create_loop];
    (destruct (Z.eqb_spec (i - 1) 0) as [E|E]; [apply runs_ret; split; [done|]; by replace 1 with i by lia|]); [lia|].
  eapply runs_seq; [apply (CREATE_ok _ _ _ _ (i - 1)); try lia|].
  - intros c ???. apply Hh; lia.
  - intros _ l' [Hr Hh']. pose proof (rearr_zlen _ _ _ _ Hr).
    eapply runs_conseq; [apply IH; [lia..|done]|]. intros _ l'' [Hr' ?]. split; [|done]. by etrans.
Qed.

(** The loop of selections: the nodes after [m] of [1 .. n] are in place. *)
Lemma select_loop_ok fuel base n m l : 0 <= base + 1 -> base + n < zlen l -> 1 <= m <= n ->
  m <= Z.of_nat fuel -> heap base m 1 l -> sorted (base + m + 1) (base + n + 1) l ->
  (forall i j, 1 <= i <= m -> m < j <= n -> cle (at_ l (base + i)) (at_ l (base + j))) ->
  runs (select_loop compar fuel base m) l
    (fun _ l' => rearr (base + 1) (base + n + 1) l l' /\ sorted (base + 1) (base + n + 1) l').
Proof.
  revert m l. induction fuel as [|fuel IH]; intros m l Hb Hl Hm Hf Hh Hs Ho; [lia|].
  cbn [select_loop]. destruct (Z.ltb_spec 1 m) as [Hm1|Hm1]; cycle 1.
  { apply runs_ret. split; [done|]. intros i j ??. destruct (Z.eq_dec i j) as [->|]; [done|].
    destruct (Z.eq_dec i (base + 1)) as [->|]; [|apply Hs; lia].
    replace j with (base + (j - base)) by lia. apply Ho; lia. }
  apply runs_bind, (runs_elem d); [lia|]. apply runs_bind, (runs_COPY d); [lia..|].
  set (l0 := swapped d l (base + m) (base + 1)).
  assert (Hz0 : zlen l0 = zlen l) by apply zlen_swapped.
  eapply runs_seq; [apply (SELECT_ok _ _ _ l0); [done|lia|..]|].
  - intros c ??. at_cases. apply Hh; lia.
  - split; [lia|]. split; [by rewrite zlen_upd|]. unfold l0, swapped. reflexivity.
  - intros _ l' [Hh' Hr]. pose proof (rearr_zlen _ _ _ _ Hr) as Hz.
    assert (Hr0 : rearr (base + 1) (base + n + 1) l l').
    { etrans; [apply (rearr_swapped d _ _ _ (base + m) (base + 1)); lia|].
      eapply rearr_weaken; [..|exact Hr]; lia. }
    assert (Hat : forall j, m < j <= n -> at_ l' (base + j) = at_ l (base + j)).
    { intros j Hj. rewrite (rearr_at d _ _ _ _ _ Hr) by lia. unfold l0. by at_cases. }
    assert (Hatm : at_ l' (base + m) = at_ l (base + 1)).
    { rewrite (rearr_at d _ _ _ _ _ Hr) by lia. unfold l0. by at_cases. }
    eapply runs_conseq; [apply (IH (m - 1)); try lia; [done|..]|].
    + intros i j ??. destruct (Z.eq_dec i j) as [->|]; [done|].
      replace j with (base + (j - base)) by lia. rewrite Hat by lia.
      destruct (Z.eq_dec i (base + m)) as [->|]; [rewrite Hatm; apply Ho; lia|].
      replace i with (base + (i - base)) by lia. rewrite Hat by lia. apply Hs; lia.
    + intros i j ??. revert i H.
      enough (Hall : forall i, base + 1 <= i < base + m -> cle (at_ l' i) (at_ l' (base + j))) by (intros; apply Hall; lia).
      apply (rearr_all d (fun x => cle x (at_ l' (base + j))) (base + 1) (base + m) l0);
        [by replace (base + m) with (base + (m - 1) + 1) by lia|lia..|].
      intros i Hi. assert (Hroot : cle (at_ l0 i) (at_ l (base + 1))).
      { assert (Hroot : forall c, 1 <= c <= m -> cle (at_ l (base + c)) (at_ l (base + 1))) by (intros; by apply (heap_root base m)).
        unfold l0. at_cases; [by apply Hroot; lia|].
        replace i with (base + (i - base)) by lia. apply Hroot; lia. }
      destruct (Z.eq_dec j m) as [->|]; [by rewrite Hatm|]. rewrite Hat by lia.
      trans (at_ l (base + 1)); [done|]. apply Ho; lia.
    + intros _ l'' [Hr' ?]. split; [|done]. by etrans.
Qed.

(** heapsort with memory, and without. *)
Lemma heapsort_sorts vbase nmemb size l ms : 0 <= vbase -> 0 <= nmemb -> vbase + nmemb <= zlen l ->
  wp (heapsort compar vbase nmemb size) (mkArray l ms)
    (fun _ s' => rearr vbase (vbase + nmemb) l (elems s') /\ sorted vbase (vbase + nmemb) (elems s'))
    (fun s' => elems s' = l /\ 1 < nmemb /\ (size = 0 \/ hd false ms = false)).
Proof.
  intros Hv Hn Hl. unfold heapsort. destruct (Z.leb_spec nmemb 1) as [Hn1|Hn1].
  { apply wp_ret. split; [done|]. apply sorted_short; [done|lia]. }
  apply wp_bind, wp_check; intros Es; [|split; [done|]; split; [lia|left; lia]].
  assert (Hrun : forall ms', wp (create_loop compar (Z.to_nat nmemb) (vbase - 1) nmemb (nmemb / 2 + 1);;
      select_loop compar (Z.to_nat nmemb) (vbase - 1) nmemb) (mkArray l ms')
    (fun _ s' => rearr vbase (vbase + nmemb) l (elems s') /\ sorted vbase (vbase + nmemb) (elems s')) (fun _ => False)).
  { eapply (runs_seq (create_loop compar (Z.to_nat nmemb) (vbase - 1) nmemb (nmemb / 2 + 1))
      (fun _ => select_loop compar (Z.to_nat nmemb) (vbase - 1) nmemb) l (fun _ l' => rearr vbase (vbase + nmemb) l l' /\ sorted vbase (vbase + nmemb) l')).
    - apply create_loop_ok; try lia. intros c ??. lia.
    - intros _ l' [Hr Hh]. pose proof (rearr_zlen _ _ _ _ Hr).
      eapply runs_conseq; [apply (select_loop_ok _ _ nmemb nmemb); [lia..|done|apply sorted_short; [done|lia]|intros; lia]|].
      intros _ l'' [Hr' Hs']. replace (vbase - 1 + 1) with vbase in * by lia.
      replace (vbase - 1 + nmemb + 1) with (vbase + nmemb) in * by lia. split; [|done]. by etrans. }
  destruct ms as [|b ms]; apply wp_bind; unfold malloc, wp at 1; cbn [mallocs].
  - apply wp_bind, wp_check; [done|]. intros _. split; [done|]. split; [lia|by right].
  - apply wp_bind, wp_check; intros Eb.
    + eapply wp_conseq; [apply Hrun|done|done].
    + split; [done|]. split; [lia|]. by right.
Qed.
End heap.

(** * Partition *)

Section partition.
Context {A : Type} (compar : A -> A -> Z) `{!Comparator compar} (d : A).
Implicit Types (l : list A).
#[local] Abbreviation at_ := (at_ d).

Lemma med3_ok a b c lo hi l : 0 <= lo -> hi <= zlen l -> lo <= a < hi -> lo <= b < hi -> lo <= c < hi ->
  runs (med3 compar a b c) l (fun m l' => l' = l /\ lo <= m < hi).
Proof.
  intros. unfold med3. apply runs_bind, (runs_cmp_at d); [lia..|].
  destruct (_ <? 0); apply runs_bind, (runs_cmp_at d); try lia; case_match; try (by apply runs_ret);
    (apply runs_bind, (runs_cmp_at d); [lia..|]; apply runs_ret; case_match; (split; [done|lia])).
Qed.

Lemma choose_pivot_ok a n l : 0 <= a -> 7 <= n -> a + n <= zlen l ->
  runs (choose_pivot compar a n) l (fun m l' => l' = l /\ a <= m < a + n).
Proof.
  intros Ha Hn Hl. unfold choose_pivot. zcase; [|apply runs_ret; split; [done|lia]].
  eapply (runs_seq _ _ _ _ (fun '(pl, pm, pn) l' =>
    l' = l /\ a <= pl < a + n /\ a <= pm < a + n /\ a <= pn < a + n)).
  - zcase; [|apply runs_ret; split_and!; try done; lia].
    eapply runs_seq; [apply (med3_ok _ _ _ a (a + n)); lia|]. intros pl ? [-> ?].
    eapply runs_seq; [apply (med3_ok _ _ _ a (a + n)); lia|]. intros pm ? [-> ?].
    eapply runs_seq; [apply (med3_ok _ _ _ a (a + n)); lia|]. intros pn ? [-> ?].
    apply runs_ret. split_and!; try done; lia.
  - intros [[pl pm] pn] ? (-> & ? & ? & ?). apply (med3_ok _ _ _ a (a + n)); lia.
Qed.

(** The runs of [n] elements at [i] and at [j] exchanged. *)
Lemma vecswap_ok n i j lo hi l : 0 <= lo -> hi <= zlen l -> lo <= i -> i + Z.of_nat n <= j -> j + Z.of_nat n <= hi ->
  runs (vecswap i j n) l (fun _ l' => rearr lo hi l l' /\ forall x, 0 <= x ->
    at_ l' x = if (i <=? x) && (x <? i + Z.of_nat n) then at_ l (x - i + j)
               else if (j <=? x) && (x <? j + Z.of_nat n) then at_ l (x - j + i) else at_ l x).
Proof.
  revert i j l. induction n as [|n IH]; intros i j l Hlo Hhi Hi Hij Hj; cbn [vecswap].
  - apply runs_ret. split; [done|]. intros x Hx.
    destruct (Z.leb_spec i x), (Z.ltb_spec x (i + Z.of_nat 0)), (Z.leb_spec j x), (Z.ltb_spec x (j + Z.of_nat 0));
      cbn [andb]; done || lia.
  - apply runs_bind, (runs_SWAP d); [lia..|].
    eapply runs_conseq; [apply (IH (i + 1) (j + 1)); rewrite ?zlen_swapped; lia|].
    intros _ l' [Hr Hat]. split; [etrans; [|exact Hr]; apply rearr_swapped; lia|].
    intros x Hx. rewrite Hat by done.
    destruct (Z.leb_spec (i + 1) x), (Z.ltb_spec x (i + 1 + Z.of_nat n)), (Z.leb_spec (j + 1) x),
      (Z.ltb_spec x (j + 1 + Z.of_nat n)), (Z.leb_spec i x), (Z.ltb_spec x (i + Z.of_nat (S n))),
      (Z.leb_spec j x), (Z.ltb_spec x (j + Z.of_nat (S n))); cbn [andb]; try lia; at_cases; try done; f_equal; lia.
Qed.

(** The array during the partition of [a .. e - 1] by the element at [a]:
    the equal elements are before [pa] and after [pd], the less between
    [pa] and [pb], the greater between [pc] and [pd]. *)
Record parted (a e : Z) (v : A) (l : list A) (pa pb pc pd : Z) : Prop := {
  parted_range : 0 <= a < pa /\ pa <= pb <= pc + 1 /\ pc <= pd < e /\ e <= zlen l;
  parted_pivot : at_ l a = v;
  parted_eql : forall i, a <= i < pa -> compar (at_ l i) v = 0;
  parted_less : forall i, pa <= i < pb -> compar (at_ l i) v < 0;
  parted_greater : forall i, pc < i <= pd -> 0 < compar (at_ l i) v;
  parted_eqr : forall i, pd < i < e -> compar (at_ l i) v = 0;
}.

(** One more element is classified, as the test of the loops finds. *)
Ltac classified :=
  match goal with H : parted _ _ _ _ _ _ _ _ |- _ =>
    first [ apply (parted_eql _ _ _ _ _ _ _ _ H); lia | apply (parted_less _ _ _ _ _ _ _ _ H); lia
          | apply (parted_greater _ _ _ _ _ _ _ _ H); lia | apply (parted_eqr _ _ _ _ _ _ _ _ H); lia ]
  end.
Ltac classify :=
  intros i ?; at_cases; first
    [ assumption | lia | classified
    | match goal with H : context [compar (at_ ?l ?x) ?v] |- context [compar (at_ ?l ?y) ?v] =>
        destruct (Z.eq_dec y x) as [->|]; [lia|classified] end ].
Ltac parted_step := constructor; [at_cases; lia|at_cases; try done; try congruence|classify..].

Lemma scan_up_ok fuel a e v pa pb pc pd l : parted a e v l pa pb pc pd -> pc - pb < Z.of_nat fuel ->
  runs (scan_up compar fuel a pa pb pc) l (fun '(pa', pb') l' => rearr a e l l' /\
    parted a e v l' pa' pb' pc pd /\ pb <= pb' /\ (pb' <= pc -> 0 < compar (at_ l' pb') v)).
Proof.
  revert pa pb l. induction fuel as [|fuel IH]; intros pa pb l Hp Hf; pose proof (parted_range _ _ _ _ _ _ _ _ Hp) as Hr;
    pose proof (parted_pivot _ _ _ _ _ _ _ _ Hp) as Hv; cbn [scan_up]; zcase; try lia;
    try (apply runs_ret; split_and!; done || lia).
  apply runs_bind, (runs_cmp_at d); [lia..|]. rewrite Hv.
  destruct (Z.leb_spec (compar (at_ l pb) v) 0) as [Hc|Hc]; [|by apply runs_ret].
  destruct (Z.eqb_spec (compar (at_ l pb) v) 0) as [E|E].
  - apply runs_bind, (runs_SWAP d); [lia..|]. eapply runs_conseq; [apply IH; [parted_step|lia]|].
    intros [pa' pb'] l' (Hr' & ? & ? & ?). split_and!; try done; [|lia]. etrans; [|exact Hr']. apply rearr_swapped; lia.
  - eapply runs_conseq; [apply IH; [parted_step|lia]|].
    intros [pa' pb'] l' (? & ? & ? & ?). split_and!; done || lia.
Qed.

Lemma scan_down_ok fuel a e v pa pb pc pd l : parted a e v l pa pb pc pd -> pc - pb < Z.of_nat fuel ->
  (pb <= pc -> 0 < compar (at_ l pb) v) ->
  runs (scan_down compar fuel a pb pc pd) l (fun '(pc', pd') l' => rearr a e l l' /\
    parted a e v l' pa pb pc' pd' /\ pc' <= pc /\
    (pb <= pc' -> compar (at_ l' pc') v < 0 /\ 0 < compar (at_ l' pb) v)).
Proof.
  revert pc pd l. induction fuel as [|fuel IH]; intros pc pd l Hp Hf Hb; pose proof (parted_range _ _ _ _ _ _ _ _ Hp) as Hr;
    pose proof (parted_pivot _ _ _ _ _ _ _ _ Hp) as Hv; cbn [scan_down]; zcase; try lia;
    try (apply runs_ret; split_and!; done || lia).
  apply runs_bind, (runs_cmp_at d); [lia..|]. rewrite Hv.
  destruct (Z.leb_spec 0 (compar (at_ l pc) v)) as [Hc|Hc].
  2: { apply runs_ret. split_and!; try done; intros; try subst; split_and?; auto; lia. }
  destruct (Z.eqb_spec (compar (at_ l pc) v) 0) as [E|E].
  - apply runs_bind, (runs_SWAP d); [lia..|].
    eapply runs_conseq; [apply IH; [parted_step|lia|intros; at_cases; apply Hb; lia]|].
    intros [pc' pd'] l' (Hr' & ? & ? & ?). split_and!; try done; [|lia]. etrans; [|exact Hr']. apply rearr_swapped; lia.
  - eapply runs_conseq; [apply IH; [parted_step|lia|intros; apply Hb; lia]|].
    intros [pc' pd'] l' (? & ? & ? & ?). split_and!; done || lia.
Qed.

Lemma partition_loop_ok fuel a n v pa pb pc pd l : parted a (a + n) v l pa pb pc pd -> pc - pb + 1 < Z.of_nat fuel ->
  runs (partition_loop compar fuel a n pa pb pc pd) l (fun '(pa', pb', pc', pd') l' => rearr a (a + n) l l' /\
    parted a (a + n) v l' pa' pb' pc' pd' /\ pc' = pb' - 1).
Proof.
  revert pa pb pc pd l. induction fuel as [|fuel IH]; intros pa pb pc pd l Hp Hf;
    pose proof (parted_range _ _ _ _ _ _ _ _ Hp) as Hr; [lia|]. cbn [partition_loop].
  eapply runs_seq; [apply (scan_up_ok _ _ _ _ _ _ _ _ _ Hp); lia|]. intros [pa1 pb1] l1 (Hr1 & Hp1 & Hb1 & Hg).
  pose proof (parted_range _ _ _ _ _ _ _ _ Hp1).
  eapply runs_seq; [apply (scan_down_ok _ _ _ _ _ _ _ _ _ Hp1); [lia|done]|].
  intros [pc1 pd1] l2 (Hr2 & Hp2 & Hc1 & Hg2). pose proof (parted_range _ _ _ _ _ _ _ _ Hp2).
  assert (Hr12 : rearr a (a + n) l l2) by (by etrans).
  zcase; [apply runs_ret; split_and!; done || lia|].
  destruct Hg2 as [Hl2 Hg2]; [lia|].
  assert (Hne : pb1 <> pc1) by (intros ->; lia).
  pose proof (parted_pivot _ _ _ _ _ _ _ _ Hp2) as Hv2.
  apply runs_bind, (runs_SWAP d); [lia..|]. eapply runs_conseq; [apply IH; [parted_step|lia]|].
  intros [[[pa' pb'] pc'] pd'] l' (Hr' & ? & ?). split_and!; try done. etrans; [exact Hr12|].
  etrans; [|exact Hr']. apply rearr_swapped; lia.
Qed.

(** The result: [r] lesser elements first, [s] greater ones last. *)
Definition parts (a n r s : Z) l : Prop := 0 <= r /\ 0 <= s /\ r + s < n /\ exists v,
  (forall i, a <= i < a + r -> compar (at_ l i) v < 0) /\
  (forall i, a + r <= i < a + n - s -> compar (at_ l i) v = 0) /\
  (forall i, a + n - s <= i < a + n -> 0 < compar (at_ l i) v).

Lemma partition_ok a n l : 0 <= a -> 7 <= n -> a + n <= zlen l ->
  runs (partition compar a n) l (fun '(r, s) l' => rearr a (a + n) l l' /\ parts a n r s l').
Proof.
  intros Ha Hn Hl. eapply runs_seq; [by apply choose_pivot_ok|]. intros pm ? [-> Hpm].
  apply runs_bind, (runs_SWAP d); [lia..|]. set (l1 := swapped d l a pm).
  assert (Hr1 : rearr a (a + n) l l1) by (apply rearr_swapped; lia).
  assert (Hz1 : zlen l1 = zlen l) by apply zlen_swapped. set (v := at_ l1 a).
  eapply runs_seq; [apply (partition_loop_ok _ _ _ v); [|lia]|].
  { constructor; [lia|done|..]; intros i ?; try lia. replace i with a by lia. fold v. destruct (cmp_signs compar v v); lia. }
  intros [[[pa pb] pc] pd] l2 (Hr2 & Hp & Epc). pose proof (parted_range _ _ _ _ _ _ _ _ Hp) as Hrg.
  cbv zeta. set (r := if pa - a <? pb - pa then pa - a else pb - pa).
  assert (Hrr : 0 <= r /\ r <= pa - a /\ r <= pb - pa /\ (r = pa - a \/ r = pb - pa)) by (unfold r; zcase; lia).
  set (s := if pd - pc <? a + n - pd - 1 then pd - pc else a + n - pd - 1).
  assert (Hss : 0 <= s /\ s <= pd - pc /\ s <= a + n - pd - 1 /\ (s = pd - pc \/ s = a + n - pd - 1)) by (unfold s; zcase; lia).
  clearbody r s.
  eapply runs_seq; [apply (vecswap_ok _ _ _ a (a + n)); lia|]. intros _ l3 [Hr3 Hat3].
  pose proof (rearr_zlen _ _ _ _ Hr3).
  eapply runs_seq; [apply (vecswap_ok _ _ _ a (a + n)); lia|]. intros _ l4 [Hr4 Hat4].
  apply runs_ret. split; [etrans; [exact Hr1|]; etrans; [exact Hr2|]; by etrans|].
  split; [lia|]. split; [lia|]. split; [lia|]. exists v.
  destruct Hp as [_ _ H1 H2 H3 H4].
  rewrite Z2Nat.id in Hat3, Hat4 by lia. clear Hr1 Hr2 Hr3 Hr4.
  split; [|split]; intros i Hi; destruct (Z.lt_ge_cases i pb); rewrite Hat4 by lia;
    repeat match goal with |- context [if ?b then _ else _] => destruct b eqn:? end; rewrite Hat3 by lia;
    repeat match goal with |- context [if ?b then _ else _] => destruct b eqn:? end;
    first [apply H1; lia|apply H2; lia|apply H3; lia|apply H4; lia|lia].
Qed.
End partition.

(** * introsort and qsort *)

Section introsort.
Context {A : Type} (compar : A -> A -> Z) `{!Comparator compar} (d : A).
Implicit Types (l : list A).
#[local] Abbreviation at_ := (at_ d).
#[local] Abbreviation sorted := (sorted compar d).
#[local] Abbreviation parts := (parts compar d).

(** What a sort of the [n] elements from [a] on does. *)
Definition sorts_part (a n : Z) l (l' : list A) : Prop := rearr a (a + n) l l' /\ sorted a (a + n) l'.
Definition sorts (m : Z -> Z -> Z -> M (array A) unit) (bound : Z) : Prop := forall a n maxdepth l,
  0 <= a -> 1 < n < bound -> a + n <= zlen l -> runs (m a n maxdepth) l (fun _ => sorts_part a n l).

Lemma sorted_rearr lo hi lo' hi' l l' : rearr lo' hi' l l' -> 0 <= lo -> hi <= lo' \/ hi' <= lo ->
  sorted lo hi l -> sorted lo hi l'.
Proof. intros Hr ?? Hs i j ??. rewrite !(rearr_at d _ _ _ _ _ Hr) by lia. by apply Hs. Qed.

Lemma parts_left a n r s l l' : 0 <= a -> a + n <= zlen l -> rearr a (a + r) l l' ->
  parts a n r s l -> parts a n r s l'.
Proof.
  intros Ha Hl Hr (? & ? & ? & v & H1 & H2 & H3). do 3 (split; [done|]). exists v.
  split; [|split]; try (intros i Hi; rewrite (rearr_at d _ _ _ _ _ Hr) by lia; auto; fail).
  apply (rearr_all d (fun x => compar x v < 0) _ _ l); done || lia.
Qed.

Lemma parts_right a n r s l l' : 0 <= a -> a + n <= zlen l -> rearr (a + n - s) (a + n) l l' ->
  parts a n r s l -> parts a n r s l'.
Proof.
  intros Ha Hl Hr (? & ? & ? & v & H1 & H2 & H3). do 3 (split; [done|]). exists v.
  split; [|split]; try (intros i Hi; rewrite (rearr_at d _ _ _ _ _ Hr) by lia; auto; fail).
  apply (rearr_all d (fun x => 0 < compar x v) _ _ l); done || lia.
Qed.

Lemma parts_sorted a n r s l : parts a n r s l -> sorted a (a + r) l -> sorted (a + n - s) (a + n) l ->
  sorted a (a + n) l.
Proof.
  intros (? & ? & ? & v & H1 & H2 & H3) Hl Hr i j ??.
  assert (Hle : forall x, a <= x < a + n - s -> cle compar (at_ l x) v).
  { intros x Hx. unfold cle. destruct (Z.lt_ge_cases x (a + r)); [specialize (H1 x)|specialize (H2 x)]; lia. }
  assert (Hge : forall x, a + r <= x < a + n -> cle compar v (at_ l x)).
  { intros x Hx. apply cle_ge; [done|].
    destruct (Z.lt_ge_cases x (a + n - s)); [specialize (H2 x)|specialize (H3 x)]; lia. }
  destruct (Z.lt_ge_cases j (a + r)); [apply Hl; lia|].
  destruct (Z.le_gt_cases (a + n - s) i); [apply Hr; lia|].
  trans v; [apply Hle; lia|apply Hge; lia].
Qed.

Lemma try_heapsort_ok a n es l : 0 <= a -> 0 <= n -> a + n <= zlen l ->
  runs (try (heapsort compar a n es)) l
    (fun o l' => match o with Some _ => sorts_part a n l l' | None => l' = l end).
Proof.
  intros Ha Hn Hl ms. apply wp_try. eapply wp_conseq; [by apply (heapsort_sorts compar d)|done|].
  by intros s' (? & _).
Qed.

Lemma introsort_loop_ok rec bound fuel es a n maxdepth l : sorts rec bound ->
  0 <= a -> 0 <= n < 2 * bound -> a + n <= zlen l -> n < Z.of_nat fuel ->
  runs (introsort_loop compar rec fuel es a n maxdepth) l (fun _ => sorts_part a n l).
Proof.
  intros Hrec. revert a n maxdepth l. induction fuel as [|fuel IH]; intros a n maxdepth l Ha Hn Hl Hf; [lia|].
  cbn [introsort_loop]. destruct (Z.ltb_spec n 7) as [Hn7|Hn7].
  { apply insertion_loop_ok; try done || lia. apply sorted_short; [done|lia]. }
  eapply (runs_seq _ _ _ _ (fun o l' => match o with Some _ => sorts_part a n l l' | None => l' = l end)).
  { destruct (maxdepth =? 0); [apply try_heapsort_ok; lia|by apply runs_ret]. }
  intros [o|] l' Ho; [by apply runs_ret|subst l'].
  eapply runs_seq; [apply (partition_ok compar d); lia|]. intros [r s] l1 [Hr1 Hp]. cbv zeta.
  pose proof (rearr_zlen _ _ _ _ Hr1) as Hz1. pose proof Hp as (Hr0 & Hs0 & Hrs & _).
  (* the two parts, whichever comes first *)
  assert (Hboth : forall l2 l3 lo hi lo' hi', rearr lo hi l1 l2 -> rearr lo' hi' l2 l3 ->
    a <= lo -> hi <= a + n -> a <= lo' -> hi' <= a + n -> rearr a (a + n) l l3).
  { intros. etrans; [exact Hr1|]. etrans; eapply rearr_weaken; [| |eassumption| | |eassumption]; lia. }
  destruct (Z.ltb_spec r s) as [Hlt|Hge]; zcase; try (apply runs_ret; split; [done|];
    eapply parts_sorted; [exact Hp|apply sorted_short; [done|lia]..]).
  - eapply (runs_seq _ _ _ _ (fun _ => sorts_part a r l1)).
    { zcase; [apply Hrec; lia|]. apply runs_ret. split; [done|]. apply sorted_short; [done|lia]. }
    intros _ l2 [Hr2 Hs2]. pose proof (rearr_zlen _ _ _ _ Hr2).
    eapply runs_conseq; [apply IH; lia|]. intros _ l3 [Hr3 Hs3].
    replace (a + n - s + s) with (a + n) in * by lia. split; [apply (Hboth _ _ _ _ _ _ Hr2 Hr3); lia|].
    apply (parts_sorted a n r s); [|eapply sorted_rearr; [exact Hr3|lia..|done]|done].
    apply (parts_right a n r s l2); [lia..|done|]. apply (parts_left a n r s l1); [lia..|done|done].
  - eapply (runs_seq _ _ _ _ (fun _ => sorts_part (a + n - s) s l1)).
    { zcase; [apply Hrec; lia|]. apply runs_ret. split; [done|]. apply sorted_short; [done|lia]. }
    intros _ l2 [Hr2 Hs2]. pose proof (rearr_zlen _ _ _ _ Hr2).
    eapply runs_conseq; [apply IH; lia|]. intros _ l3 [Hr3 Hs3].
    replace (a + n - s + s) with (a + n) in * by lia. split; [apply (Hboth _ _ _ _ _ _ Hr2 Hr3); lia|].
    apply (parts_sorted a n r s); [|done|eapply sorted_rearr; [exact Hr3|lia..|done]].
    apply (parts_left a n r s l2); [lia..|done|]. apply (parts_right a n r s l1); [lia..|done|done].
Qed.

Lemma introsort_ok stack es : sorts (introsort compar stack es) (2 ^ Z.of_nat stack).
Proof.
  induction stack as [|stack IH]; intros a n maxdepth l Ha Hn Hl; [cbn in Hn; lia|].
  cbn [introsort]. apply (introsort_loop_ok _ _ _ _ _ _ _ _ IH); try lia.
  rewrite Nat2Z.inj_succ, Z.pow_succ_r in Hn; lia.
Qed.

Lemma qsort_ok a n es l : 0 <= a -> 0 <= n -> a + n <= zlen l ->
  runs (qsort compar a n es) l (fun _ => sorts_part a n l).
Proof.
  intros Ha Hn Hl. unfold qsort. cbn [introsort].
  apply (introsort_loop_ok _ (2 ^ Z.of_nat (Z.to_nat (Z.log2 n)))); try lia; [apply introsort_ok|].
  rewrite Z2Nat.id by apply Z.log2_nonneg. destruct (Z.eq_dec n 0) as [->|]; [cbn; lia|].
  pose proof (Z.log2_spec n) as Hlog. rewrite Z.pow_succ_r in Hlog by apply Z.log2_nonneg. lia.
Qed.
End introsort.

(** * The functions on arrays between other objects *)

Section lists.
Context {A : Type} (compar : A -> A -> Z) `{!Comparator compar}.
Implicit Types (l : list A).

Lemma rearr_middle l1 l2 l3 k : rearr (zlen l1) (zlen l1 + zlen l2) (l1 ++ l2 ++ l3) k ->
  exists l2', k = l1 ++ l2' ++ l3 /\ l2' ≡ₚ l2.
Proof.
  intros Hr. pose proof (rearr_zlen _ _ _ _ Hr) as Hz. destruct Hr as [Hp Ho]. unfold zlen in *. rewrite !length_app in Hz.
  set (n1 := length l1) in *. set (n2 := length l2) in *.
  exists (take n2 (drop n1 k)).
  assert (E : k = l1 ++ take n2 (drop n1 k) ++ l3).
  { rewrite <- (take_drop n1 k) at 1. rewrite <- (take_drop n2 (drop n1 k)) at 1. f_equal; [|f_equal].
    - apply list_eq. intros i. rewrite lookup_take. case_decide.
      + specialize (Ho (Z.of_nat i)). rewrite Nat2Z.id in Ho. rewrite Ho by lia. by rewrite lookup_app_l by (fold n1; lia).
      + symmetry. apply lookup_ge_None_2. fold n1. lia.
    - rewrite drop_drop. apply list_eq. intros i. rewrite lookup_drop.
      specialize (Ho (Z.of_nat (n1 + n2 + i))). rewrite Nat2Z.id in Ho. rewrite Ho by lia.
      rewrite !lookup_app_r by (fold n1 n2; lia). f_equal. fold n1 n2. lia. }
  split; [exact E|]. rewrite E in Hp. by apply Permutation_app_inv_l, Permutation_app_inv_r in Hp.
Qed.

Lemma at_middle d l1 l2 l3 i x : l2 !! i = Some x -> at_ d (l1 ++ l2 ++ l3) (zlen l1 + Z.of_nat i) = x.
Proof.
  intros Hx. pose proof (lookup_lt_Some _ _ _ Hx). unfold at_, zlen.
  replace (Z.to_nat (Z.of_nat (length l1) + Z.of_nat i)) with (length l1 + i)%nat by lia.
  rewrite lookup_app_r by lia. replace (length l1 + i - length l1)%nat with i by lia.
  rewrite lookup_app_l by done. by rewrite Hx.
Qed.

Lemma StronglySorted_lookup (R : A -> A -> Prop) l :
  StronglySorted R l <-> forall i j x y, (i < j)%nat -> l !! i = Some x -> l !! j = Some y -> R x y.
Proof.
  induction l as [|z l IH]; [split; [done|constructor]|]. split.
  - intros [Hs Hz]%StronglySorted_inv [|i] [|j] x y Hij; try lia; cbn.
    + intros [= <-] Hy. by apply (Forall_lookup_1 _ _ _ _ Hz Hy).
    + apply IH; [done|lia].
  - intros H. constructor.
    + apply IH. intros i j x y ?. apply (H (S i) (S j)). lia.
    + apply Forall_lookup_2. intros i y Hy. by apply (H 0%nat (S i)); [lia|..].
Qed.

Lemma sorted_middle d l1 l2 l3 : sorted compar d (zlen l1) (zlen l1 + zlen l2) (l1 ++ l2 ++ l3) ->
  StronglySorted (cle compar) l2.
Proof.
  intros Hs. apply StronglySorted_lookup. intros i j x y Hle Hx Hy.
  rewrite <- (at_middle d l1 l2 l3 i x Hx), <- (at_middle d l1 l2 l3 j y Hy).
  pose proof (lookup_lt_Some _ _ _ Hy). apply Hs; unfold zlen; lia.
Qed.

(** [l2] in order. *)
Definition sorting_of l2 l2' : Prop := l2' ≡ₚ l2 /\ StronglySorted (cle compar) l2'.

Lemma sorts_part_middle d l1 l2 l3 k : sorts_part compar d (zlen l1) (zlen l2) (l1 ++ l2 ++ l3) k ->
  exists l2', k = l1 ++ l2' ++ l3 /\ sorting_of l2 l2'.
Proof.
  intros [Hr Hs]. apply rearr_middle in Hr as (l2' & -> & Hp). exists l2'. split; [done|]. split; [done|].
  apply (sorted_middle d l1 l2' l3). replace (zlen l2') with (zlen l2); [done|]. unfold zlen. by rewrite Hp.
Qed.

Lemma qsort_runs l1 l2 l3 es ms : exists l2' ms',
  qsort compar (zlen l1) (zlen l2) es (mkArray (l1 ++ l2 ++ l3) ms) = Ret tt (mkArray (l1 ++ l2' ++ l3) ms') /\
  sorting_of l2 l2'.
Proof.
  destruct l2 as [|d l2].
  - exists [], ms. split; [|split; [done|constructor]]. unfold qsort. cbn [introsort introsort_loop].
    change (zlen (@nil A)) with 0. rewrite (proj2 (Z.ltb_lt 0 7)) by lia. 
    change (Z.to_nat 0) with 0%nat. cbn [insertion_loop]. rewrite (proj2 (Z.ltb_ge _ _)) by lia. done.
  - destruct (wp_total _ _ _ (qsort_ok compar d (zlen l1) (zlen (d :: l2)) es (l1 ++ (d :: l2) ++ l3) (zlen_nonneg _)
      (zlen_nonneg _) ltac:(rewrite !zlen_app; pose proof (zlen_nonneg l3); lia) ms)) as ([] & [k ms'] & E & Hk).
    apply sorts_part_middle in Hk as (l2' & Ek & Hs). cbn [elems] in Ek. subst k. eauto.
Qed.

(** qsort always returns, whatever memory heapsort finds, with the
    elements in order and everything around the array unchanged; nothing
    outside the array is accessed, and the recursion needs at most
    [log2 nmemb + 1] frames.  The elements have a size: with [es = 0] every
    pointer into the array is the same and indices do not stand for them. *)
Theorem qsort_correct l1 l2 l3 es ms : 1 <= es ->
  exists l2' ms', qsort compar (zlen l1) (zlen l2) es (mkArray (l1 ++ l2 ++ l3) ms) =
    Ret tt (mkArray (l1 ++ l2' ++ l3) ms') /\ l2' ≡ₚ l2 /\ StronglySorted (cle compar) l2'.
Proof. intros _. apply qsort_runs. Qed.

(** heapsort fails exactly when there is something to sort and the
    elements have no size or there is no memory, and then it leaves the
    array alone; otherwise it puts the elements in order. *)
Theorem heapsort_correct l1 l2 l3 size ms :
  let s := mkArray (l1 ++ l2 ++ l3) ms in
  if (1 <? zlen l2) && ((size =? 0) || negb (hd false ms))
  then exists s', heapsort compar (zlen l1) (zlen l2) size s = Fail s' /\ elems s' = elems s
  else exists l2' ms', heapsort compar (zlen l1) (zlen l2) size s = Ret tt (mkArray (l1 ++ l2' ++ l3) ms') /\
    l2' ≡ₚ l2 /\ StronglySorted (cle compar) l2'.
Proof.
  cbv zeta. destruct (Z.ltb_spec 1 (zlen l2)) as [Hn|Hn]; cbn [andb]; cycle 1.
  { exists l2, ms. unfold heapsort. rewrite (proj2 (Z.leb_le _ _)) by lia. split; [done|]. split; [done|].
    destruct l2 as [|x [|y l2]]; [repeat constructor..|]. rewrite !zlen_cons in Hn. pose proof (zlen_nonneg l2). lia. }
  destruct (zget_Some l2 0) as [d _]; [lia|].
  pose proof (heapsort_sorts compar d (zlen l1) (zlen l2) size (l1 ++ l2 ++ l3) ms (zlen_nonneg _) (zlen_nonneg _)
    ltac:(rewrite !zlen_app; pose proof (zlen_nonneg l3); lia)) as Hw.
  destruct (Z.eqb_spec size 0) as [->|Hsz]; cbn [orb].
  { unfold heapsort. rewrite (proj2 (Z.leb_gt _ _)) by lia. eexists. split; [reflexivity|done]. }
  destruct ms as [|[] ms]; cbn [hd negb] in *.
  1,3: unfold heapsort; rewrite (proj2 (Z.leb_gt _ _)), (proj2 (Z.eqb_neq _ _)) by lia;
    eexists; (split; [reflexivity|done]).
  unfold wp in Hw. destruct heapsort as [[] [k ms']|s'|]; [|by destruct Hw as (_ & _ & [|])|done].
  apply sorts_part_middle in Hw as (l2' & Ek & Hs). cbn [elems] in Ek. subst k. eauto.
Qed.

Lemma split_by_sorted d key l : StronglySorted (cle compar) l -> split_by compar d key 0 (zlen l) l.
Proof.
  intros Hs i j ??. destruct (Z.eq_dec i j) as [->|]; [done|]. unfold at_, zlen in *.
  destruct (lookup_lt_is_Some_2 l (Z.to_nat i)) as [x Hx]; [lia|].
  destruct (lookup_lt_is_Some_2 l (Z.to_nat j)) as [y Hy]; [lia|].
  rewrite Hx, Hy. cbn [from_option id].
  pose proof (proj1 (StronglySorted_lookup _ _) Hs (Z.to_nat i) (Z.to_nat j) x y ltac:(lia) Hx Hy) as Hxy.
  pose proof (cmp_trans key x y) as H1. pose proof (cmp_trans x y key) as H2. unfold cle in Hxy.
  pose proof (Z.sgn_spec (compar key x)). pose proof (Z.sgn_spec (compar key y)).
  destruct (cmp_signs compar key x) as [|[|]], (cmp_signs compar key y) as [|[|]]; try lia; exfalso;
    first [specialize (H1 ltac:(lia) ltac:(lia)); lia|specialize (H2 ltac:(lia) ltac:(lia)); lia].
Qed.

(** Put an array in order and look for a key. *)
Definition sort_then_search (key : A) (es n : Z) : M (array A) (option Z) := qsort compar 0 n es;; bsearch compar key 0 n.

(** bsearch in an array that qsort has put in order finds an element
    that compares equal to the key exactly when the array had one, and
    reads nothing outside it. *)
Theorem qsort_bsearch l key es ms : 1 <= es ->
  exists l' r ms', sort_then_search key es (zlen l) (mkArray l ms) = Ret r (mkArray l' ms') /\
    match r with
    | Some p => exists x, zget l' p = Some x /\ x ∈ l /\ compar key x = 0
    | None => forall x, x ∈ l -> compar key x <> 0
    end.
Proof.
  intros _. destruct (qsort_runs [] l [] es ms) as (l' & ms' & E & Hp & Hs).
  rewrite !app_nil_r in E. cbn [app] in E. change (zlen []) with 0 in E.
  assert (Hlen : zlen l' = zlen l) by (unfold zlen; by rewrite Hp).
  unfold sort_then_search, mbind, M_bind. rewrite E. destruct (Z.eq_dec (zlen l) 0) as [H0|H0].
  { rewrite H0. exists l', None, ms'. split; [done|]. intros x Hx. apply zlen_nil_inv in H0. rewrite H0 in Hx. by apply not_elem_of_nil in Hx. }
  destruct (zget_Some l' 0) as [d _]; [pose proof (zlen_nonneg l); lia|].
  destruct (wp_total _ _ _ (bsearch_loop_ok compar d (Z.to_nat (zlen l)) key 0 (zlen l) l' ltac:(lia)
    ltac:(pose proof (zlen_nonneg l); lia) ltac:(lia) ltac:(rewrite <- Hlen; by apply split_by_sorted) ms'))
    as (r & [k ms''] & Er & Hk & Hr).
  cbn [elems] in Hk. subst k. exists l', r, ms''. split; [exact Er|]. unfold search_result in Hr. destruct r as [p|].
  - exists (at_ d l' p). split; [apply zget_at; lia|]. split; [|apply Hr]. rewrite <- Hp.
    unfold at_. destruct (lookup_lt_is_Some_2 l' (Z.to_nat p)) as [x Hx]; [unfold zlen in *; lia|].
    rewrite Hx. by apply list_elem_of_lookup_2 in Hx.
  - intros x Hx. rewrite <- Hp in Hx. apply list_elem_of_lookup_1 in Hx as [i Hi].
    pose proof (lookup_lt_Some _ _ _ Hi). specialize (Hr (Z.of_nat i)). unfold at_ in Hr.
    rewrite Nat2Z.id, Hi in Hr. apply Hr. unfold zlen in *. lia.
Qed.

(** lsearch finds an element that compares equal to the key or adds the key
    at the end, where the caller has room for it. *)
Lemma lsearch_ok l1 l2 x l3 key : runs (lsearch compar key (zlen l1) (zlen l2)) (l1 ++ l2 ++ x :: l3)
  (fun '(p, n) l' =>
    (l' = l1 ++ l2 ++ x :: l3 /\ n = zlen l2 /\ exists y, zget l2 (p - zlen l1) = Some y /\ compar key y = 0) \/
    (l' = l1 ++ l2 ++ key :: l3 /\ n = zlen l2 + 1 /\ p = zlen l1 + zlen l2 /\ forall y, y ∈ l2 -> compar key y <> 0)).
Proof.
  pose proof (zlen_nonneg l1). pose proof (zlen_nonneg l2). pose proof (zlen_nonneg l3).
  assert (Hat : forall i y, l2 !! i = Some y -> at_ x (l1 ++ l2 ++ x :: l3) (zlen l1 + Z.of_nat i) = y) by (intros; by apply at_middle).
  eapply runs_seq; [apply (lfind_loop_ok compar x); [lia|lia|rewrite !zlen_app, zlen_cons; lia]|].
  intros [p|] l' [-> Hr]; unfold search_result in Hr.
  - apply runs_ret. left. split; [done|]. split; [done|]. destruct (zget_Some l2 (p - zlen l1)) as [y Hy]; [lia|].
    exists y. split; [done|]. unfold zget in Hy. rewrite (proj2 (Z.leb_le _ _)) in Hy by lia.
    rewrite <- (Hat _ _ Hy). rewrite Z2Nat.id by lia. replace (zlen l1 + (p - zlen l1)) with p by lia. apply Hr.
  - apply runs_bind, runs_store; [rewrite !zlen_app, zlen_cons; lia|]. apply runs_ret. right.
    split; [|split; [done|split; [done|]]].
    + unfold upd, zlen. rewrite insert_app_r_alt by lia. f_equal. rewrite insert_app_r_alt by lia. f_equal.
      by replace (Z.to_nat _ - length l1 - length l2)%nat with 0%nat by lia.
    + intros y [i Hi]%list_elem_of_lookup_1. rewrite <- (Hat _ _ Hi). apply Hr.
      pose proof (lookup_lt_Some _ _ _ Hi). unfold zlen. lia.
Qed.
End lists.

(** * swapfunc on elements *)

Section octets.
Implicit Types (mem bs : list Z) (xs : list (list Z)).
#[local] Abbreviation oct := (at_ 0).

Lemma at_ztake (l : list Z) n x : 0 <= x < n -> oct (ztake n l) x = oct l x.
Proof. intros. unfold at_, ztake. rewrite lookup_take. case_decide; [done|lia]. Qed.

Lemma at_zdrop (l : list Z) n x : 0 <= n -> 0 <= x -> oct (zdrop n l) x = oct l (n + x).
Proof. intros. unfold at_, zdrop. rewrite lookup_drop. do 2 f_equal. lia. Qed.

Lemma at_app {A} (d : A) (l k : list A) x : 0 <= x -> at_ d (l ++ k) x = if x <? zlen l then at_ d l x else at_ d k (x - zlen l).
Proof.
  intros. unfold at_, zlen. destruct (Z.ltb_spec x (Z.of_nat (length l))).
  - by rewrite lookup_app_l by lia.
  - rewrite lookup_app_r by lia. do 2 f_equal. lia.
Qed.

(** Octets stored at [p]. *)
Lemma put_octets_at mem p bs : 0 <= p -> p + zlen bs <= zlen mem ->
  exists mem', put_octets p bs mem = Ret tt mem' /\ zlen mem' = zlen mem /\
    forall x, 0 <= x -> oct mem' x = if (p <=? x) && (x <? p + zlen bs) then oct bs (x - p) else oct mem x.
Proof.
  intros Hp Hl. destruct (zwrite_fits mem p bs Hp Hl) as [mem' E]. exists mem'. unfold put_octets. rewrite E.
  split; [done|]. split; [by eapply zlen_zwrite|]. intros x Hx. unfold zwrite in E. destruct (_ && _); [|done]. injection E as <-.
  pose proof (zlen_nonneg bs). rewrite !at_app by (rewrite ?zlen_ztake; lia). rewrite zlen_ztake by lia.
  destruct (Z.leb_spec p x), (Z.ltb_spec x p), (Z.ltb_spec x (p + zlen bs)); cbn [andb]; try lia; try (apply at_ztake; lia);
    rewrite at_app by lia; destruct (Z.ltb_spec (x - p) (zlen bs)); try lia; first [done | rewrite at_zdrop by lia; f_equal; lia].
Qed.

Lemma octets_ok mem p n : 0 <= p -> 0 <= n -> p + n <= zlen mem -> octets p n mem = Ret (ztake n (zdrop p mem)) mem.
Proof.
  intros. unfold octets, valid, octets_at. rewrite zlen_zdrop by lia. rewrite !(proj2 (Z.leb_le _ _)) by lia. done.
Qed.

(** Two runs of octets of the same length: apart, or the same. *)
Definition apart (pi pj len : Z) : Prop := pi + len <= pj \/ pj + len <= pi \/ pi = pj.
(** [mem] with the two runs exchanged. *)
Definition exchanged (pi pj len : Z) mem mem' : Prop := zlen mem' = zlen mem /\ forall x, 0 <= x ->
  oct mem' x = if (pi <=? x) && (x <? pi + len) then oct mem (x - pi + pj)
               else if (pj <=? x) && (x <? pj + len) then oct mem (x - pj + pi) else oct mem x.

(** Decide every boolean test of the goal. *)
Ltac case_tests := repeat match goal with |- context [if ?b then _ else _] => destruct b eqn:? end.

Lemma exchange_octets pi pj w mem : 0 <= w -> 0 <= pi -> 0 <= pj -> pi + w <= zlen mem -> pj + w <= zlen mem -> apart pi pj w ->
  exists mem', (t ← octets pi w; u ← octets pj w; put_octets pi u;; put_octets pj t) mem = Ret tt mem' /\ exchanged pi pj w mem mem'.
Proof.
  intros Hw Hpi Hpj Hi Hj Ha. unfold mbind, M_bind. rewrite !octets_ok by lia.
  assert (Hz : forall p, 0 <= p -> p + w <= zlen mem -> zlen (ztake w (zdrop p mem)) = w).
  { intros p Hp Hl. rewrite zlen_ztake; [done|]. rewrite zlen_zdrop; lia. }
  destruct (put_octets_at mem pi (ztake w (zdrop pj mem)) Hpi) as (m1 & E1 & Hz1 & H1); [rewrite Hz; lia|]. rewrite E1.
  destruct (put_octets_at m1 pj (ztake w (zdrop pi mem)) Hpj) as (m2 & E2 & Hz2 & H2); [rewrite Hz; lia|]. rewrite E2.
  exists m2. split; [done|]. split; [lia|]. intros x Hx. rewrite H2, H1 by done. rewrite !Hz by lia. unfold apart in Ha.
  case_tests; try lia; try (rewrite at_ztake, at_zdrop by lia; f_equal; lia); done.
Qed.

Lemma swapcode_loop_ok fuel w i : forall pi pj mem, 0 < w -> 1 <= i < 2 ^ 64 -> i <= Z.of_nat fuel -> 0 <= pi -> 0 <= pj ->
  pi + i * w <= zlen mem -> pj + i * w <= zlen mem -> apart pi pj (i * w) ->
  exists mem', swapcode_loop fuel w pi pj i mem = Ret tt mem' /\ exchanged pi pj (i * w) mem mem'.
Proof.
  revert i. induction fuel as [|fuel IH]; intros i pi pj mem Hw Hi Hf Hpi Hpj Hli Hlj Ha; [lia|].
  assert (Ha1 : apart pi pj w) by (unfold apart in *; nia).
  destruct (exchange_octets pi pj w mem) as (m1 & E1 & Hz1 & H1); [lia|lia|lia|nia|nia|done|].
  assert (Estep : swapcode_loop (S fuel) w pi pj i mem =
    (if 0 <? u64 (i - 1) then swapcode_loop fuel w (pi + w) (pj + w) (u64 (i - 1)) else mret tt) m1).
  { revert E1. cbn [swapcode_loop]. unfold mbind, M_bind. destruct (octets pi w mem) as [t m|m|]; [|done..]. destruct (octets pj w m) as [u m'|m'|]; [|done..].
    destruct (put_octets pi u m') as [[] m2|m2|]; [|done..]. by intros ->. }
  rewrite Estep. rewrite u64_small by lia. destruct (Z.ltb_spec 0 (i - 1)) as [Hm|Hm]; cycle 1.
  { exists m1. split; [done|]. replace (i * w) with w by nia. by split. }
  assert (Ha2 : apart (pi + w) (pj + w) ((i - 1) * w)) by (unfold apart in *; nia).
  destruct (IH (i - 1) (pi + w) (pj + w) m1) as (m2 & E2 & Hz2 & H2); [lia|lia|lia|lia|lia|nia|nia|done|].
  exists m2. split; [exact E2|]. split; [lia|]. intros x Hx. rewrite H2 by done. unfold apart in *.
  assert (Eiw : i * w = w + (i - 1) * w) by lia. rewrite Eiw in *. set (v := (i - 1) * w) in *. assert (0 <= v) by nia. clearbody v.
  case_tests; try lia; (rewrite H1 by lia; case_tests; try lia; f_equal; lia).
Qed.

(** The width of the words of a swaptype. *)
Definition width (ty : swaptype) : Z :=
  match ty with
  | SWAPTYPE_INT | SWAPTYPE_INTV => sizeof_int
  | SWAPTYPE_LONG | SWAPTYPE_LONGV => sizeof_long
  | SWAPTYPE_BYTEV => 1
  end.

Lemma choose_swaptype_divides a es : 0 < es -> (width (choose_swaptype a es) | es) /\
  match choose_swaptype a es with SWAPTYPE_INT => es = sizeof_int | SWAPTYPE_LONG => es = sizeof_long | _ => True end.
Proof.
  intros Hes. unfold choose_swaptype, TYPE_ALIGNED.
  destruct ((a mod sizeof_long =? 0) && (es mod sizeof_long =? 0)) eqn:El.
  - apply andb_true_iff in El as [_ El%Z.eqb_eq]. apply Z.mod_divide in El; [|done]. destruct (Z.eqb_spec es sizeof_long); by split.
  - destruct (negb _ && _) eqn:Ei; [|split; [apply Z.divide_1_l|done]].
    apply andb_true_iff in Ei as [_ Ei]. apply andb_true_iff in Ei as [_ Ei%Z.eqb_eq]. apply Z.mod_divide in Ei; [|done]. destruct (Z.eqb_spec es sizeof_int); by split.
Qed.

Lemma width_pos ty : 0 < width ty.
Proof. by destruct ty. Qed.

Lemma swapfunc_ok ty pi pj n mem : (width ty | n) -> 0 < n < 2 ^ 64 -> 0 <= pi -> 0 <= pj -> pi + n <= zlen mem -> pj + n <= zlen mem -> apart pi pj n ->
  exists mem', swapfunc pi pj n ty mem = Ret tt mem' /\ exchanged pi pj n mem mem'.
Proof.
  intros [q ->] Hn Hpi Hpj Hi Hj Ha. pose proof (width_pos ty).
  replace (swapfunc pi pj (q * width ty) ty) with (swapcode (width ty) pi pj (q * width ty)) by (by destruct ty).
  unfold swapcode. rewrite Z.div_mul by lia. apply swapcode_loop_ok; try done; nia.
Qed.

(** ** Arrays of elements of [es] octets *)

Context (es : Z) (Hes : 0 < es).
Definition sized xs : Prop := Forall (fun x => zlen x = es) xs.

Lemma mjoin_cons (x : list Z) xs : mjoin (x :: xs) = x ++ mjoin xs.
Proof using. done. Qed.

Lemma zlen_mjoin xs : sized xs -> zlen (mjoin xs) = zlen xs * es.
Proof using. induction 1 as [|x xs Hx Hxs IH]; [done|]. rewrite mjoin_cons, zlen_app, zlen_cons, IH. lia. Qed.

Lemma at_mjoin xs e k : sized xs -> 0 <= e < zlen xs -> 0 <= k < es -> oct (mjoin xs) (e * es + k) = oct (at_ [] xs e) k.
Proof using Hes.
  intros Hs. revert e. induction Hs as [|x xs Hx Hxs IH]; intros e He Hk; [unfold zlen in He; cbn in He; lia|].
  rewrite mjoin_cons, at_app by nia. rewrite zlen_cons in He. destruct (Z.eq_dec e 0) as [->|Hne].
  - rewrite (proj2 (Z.ltb_lt _ _)) by lia. by replace (0 * es + k) with k by lia.
  - rewrite (proj2 (Z.ltb_ge _ _)) by nia. replace (e * es + k - zlen x) with ((e - 1) * es + k) by lia. rewrite IH by lia.
    f_equal. unfold at_. replace (Z.to_nat e) with (S (Z.to_nat (e - 1))) by lia. done.
Qed.

(** Octets exchanged are elements exchanged. *)
Lemma exchanged_elements i j n xs xs' mem' : sized xs -> sized xs' -> zlen xs' = zlen xs -> 0 <= i -> 0 <= j -> 0 <= n -> i + n <= zlen xs -> j + n <= zlen xs ->
  (forall x, 0 <= x < zlen xs -> at_ [] xs' x = if (i <=? x) && (x <? i + n) then at_ [] xs (x - i + j)
     else if (j <=? x) && (x <? j + n) then at_ [] xs (x - j + i) else at_ [] xs x) ->
  exchanged (i * es) (j * es) (n * es) (mjoin xs) mem' -> mem' = mjoin xs'.
Proof using Hes.
  intros Hs Hs' Hz Hi Hj Hn Hli Hlj Hx' [Hzm Hm]. apply (at_ext 0); [by rewrite Hzm, !zlen_mjoin, Hz|].
  rewrite Hzm, zlen_mjoin by done. intros y Hy. rewrite Hm by lia.
  set (e := y / es). set (k := y mod es). pose proof (Z.mod_pos_bound y es Hes) as Hk. fold k in Hk.
  assert (Ey : y = e * es + k) by (unfold e, k; pose proof (Z.div_mod y es); lia). clearbody e k. subst y.
  assert (He : 0 <= e < zlen xs) by nia. rewrite (at_mjoin xs'), Hx' by (done || lia).
  assert (Ht : forall p, (p * es <=? e * es + k) && (e * es + k <? p * es + n * es) = (p <=? e) && (e <? p + n)).
  { intros p. destruct (Z.leb_spec p e), (Z.leb_spec (p * es) (e * es + k)), (Z.ltb_spec e (p + n)), (Z.ltb_spec (e * es + k) (p * es + n * es)); cbn [andb]; try done; nia. }
  rewrite !Ht. case_tests.
  - replace (e * es + k - i * es + j * es) with ((e - i + j) * es + k) by lia. apply at_mjoin; [done|lia|lia].
  - replace (e * es + k - j * es + i * es) with ((e - j + i) * es + k) by lia. apply at_mjoin; [done|lia|lia].
  - by apply at_mjoin.
Qed.

Lemma sized_perm xs xs' : xs' ≡ₚ xs -> sized xs -> sized xs'.
Proof using. unfold sized. by intros ->. Qed.

(** vecswap on octets is [vecswap] on elements, with any type of words that
    divide an element. *)
Lemma swapfunc_elements ty i j n xs ms : (width ty | es) -> sized xs -> zlen xs * es < 2 ^ 64 ->
  0 <= i -> i + Z.of_nat n <= j -> j + Z.of_nat n <= zlen xs ->
  exists s, vecswap i j n (mkArray xs ms) = Ret tt s /\ vecswap_octets ty (i * es) (j * es) (Z.of_nat n * es) (mjoin xs) = Ret tt (mjoin (elems s)).
Proof using Hes.
  intros Hw Hs Hsz Hi Hij Hj. pose proof (vecswap_ok [] n i j 0 (zlen xs) xs) as Hv. specialize (Hv ltac:(lia) ltac:(lia) Hi Hij Hj ms).
  destruct (wp_total _ _ _ Hv) as ([] & s & E & [Hr Hat]). exists s. split; [exact E|].
  unfold vecswap_octets. destruct n as [|n].
  { cbn [vecswap] in E. injection E as <-. done. }
  rewrite (proj2 (Z.ltb_lt _ _)) by nia.
  destruct (swapfunc_ok ty (i * es) (j * es) (Z.of_nat (S n) * es) (mjoin xs)) as (mem' & E' & Hex);
    [by apply Z.divide_mul_r|nia|nia|nia|rewrite zlen_mjoin by done; nia|rewrite zlen_mjoin by done; nia|left; nia|].
  rewrite E'. f_equal. eapply exchanged_elements; [exact Hs| | | | | | | | |exact Hex]; try lia.
  - eapply sized_perm; [apply Hr|done].
  - by eapply rearr_zlen.
  - intros x Hx. apply Hat. lia.
Qed.

(** The swap of two elements, which may be the same. *)
Lemma swap_elements ty i j xs ms : (width ty | es) -> match ty with SWAPTYPE_INT => es = sizeof_int | SWAPTYPE_LONG => es = sizeof_long | _ => True end ->
  sized xs -> zlen xs * es < 2 ^ 64 -> 0 <= i < zlen xs -> 0 <= j < zlen xs ->
  exists s, SWAP i j (mkArray xs ms) = Ret tt s /\ swap ty es (i * es) (j * es) (mjoin xs) = Ret tt (mjoin (elems s)).
Proof using Hes.
  intros Hw Hty Hs Hsz Hi Hj.
  destruct (wp_total _ _ _ (runs_SWAP [] i j xs (fun _ l => l = swapped [] xs i j) Hi Hj eq_refl ms)) as ([] & s & E & Es).
  exists s. split; [exact E|]. rewrite Es.
  assert (Ha : apart (i * es) (j * es) es) by (unfold apart; destruct (Z.lt_trichotomy i j) as [?|[->|?]]; [left; nia|by right; right|right; left; nia]).
  assert (Hex : exists mem', swap ty es (i * es) (j * es) (mjoin xs) = Ret tt mem' /\ exchanged (i * es) (j * es) es (mjoin xs) mem').
  { assert (Hl : forall p, p < zlen xs -> p * es + es <= zlen (mjoin xs)) by (intros; rewrite zlen_mjoin by done; nia).
    assert (Hgen : exists mem', swapfunc (i * es) (j * es) es ty (mjoin xs) = Ret tt mem' /\ exchanged (i * es) (j * es) es (mjoin xs) mem').
    { apply swapfunc_ok; [done|nia|nia|nia|apply Hl; lia|apply Hl; lia|done]. }
    destruct ty; try exact Hgen; cbn [swap]; rewrite <- Hty; (apply exchange_octets; [lia|nia|nia|apply Hl; lia|apply Hl; lia|done]). }
  destruct Hex as (mem' & -> & Hex). f_equal. rewrite <- (Z.mul_1_l es) in Hex at 3.
  eapply exchanged_elements; [exact Hs| | | | | | | | |exact Hex]; try lia.
  - eapply sized_perm; [by apply swapped_perm|done].
  - apply zlen_swapped.
  - intros x Hx. rewrite at_swapped by lia.
    destruct (Z.eqb_spec x j), (Z.eqb_spec x i); case_tests; try lia; try done; f_equal; lia.
Qed.
(** With the type of words qsort chooses for the array, whatever its address. *)
Corollary qsort_swaps_elements addr i j xs ms : sized xs -> zlen xs * es < 2 ^ 64 -> 0 <= i < zlen xs -> 0 <= j < zlen xs ->
  exists s, SWAP i j (mkArray xs ms) = Ret tt s /\ swap (choose_swaptype addr es) es (i * es) (j * es) (mjoin xs) = Ret tt (mjoin (elems s)).
Proof using Hes. destruct (choose_swaptype_divides addr es Hes) as [??]. by apply swap_elements. Qed.
End octets.

(** * The sorts on integers *)

Definition compare_ints (x y : Z) : Z := if x <? y then -1 else if y <? x then 1 else 0.
#[export] Instance compare_ints_comparator : Comparator compare_ints.
Proof.
  split; unfold compare_ints.
  - intros x y. destruct (Z.ltb_spec x y), (Z.ltb_spec y x); done || lia.
  - intros x y z. destruct (Z.ltb_spec x y), (Z.ltb_spec y x), (Z.ltb_spec y z), (Z.ltb_spec z y), (Z.ltb_spec x z), (Z.ltb_spec z x); lia.
Qed.

(** Fifty elements, many of them equal, between two others that stay. *)
Definition some_ints : list Z := map (fun i => (i * i * 7 + 3) mod 23) (seqZ 0 50).

Example qsort_runs_on_ints : match qsort compare_ints 1 50 4 (mkArray (99 :: some_ints ++ [98]) []) with
  | Ret _ s => bool_decide (elems s = 99 :: flat_map (fun v => List.filter (Z.eqb v) some_ints) (seqZ 0 23) ++ [98])
  | _ => false end = true.
Proof. vm_compute. reflexivity. Qed.

(** With no depth left introsort uses heapsort, and goes on without it when
    there is no memory for it. *)
Example introsort_out_of_depth : forall ms, ms = [true] \/ ms = [] ->
  match introsort compare_ints 6 4 0 50 0 (mkArray some_ints ms) with
  | Ret _ s => bool_decide (elems s = flat_map (fun v => List.filter (Z.eqb v) some_ints) (seqZ 0 23)) && bool_decide (mallocs s = [])
  | _ => false end = true.
Proof. intros ms [-> | ->]; vm_compute; reflexivity. Qed.
