(* ===== verification/ChaCha.v ===== *)
(** * ChaCha20

    lib/libcrypto/chacha/chacha-merged.c and chacha.c: the key and nonce setup,
    the block function, [chacha_encrypt_bytes] with the key stream it keeps for
    later, the streaming [ChaCha], the one-shot [CRYPTO_chacha_20] and the HChaCha20
    and XChaCha20 constructions.  A buffer and its length are a list of octets;
    encryption in place reads every block before it is written, so the output is
    returned.  [None] is an access outside a buffer. *)

From S2P Require Import Prelude.
Open Scope Z_scope.

Definition CHACHA_BLOCKLEN : Z := 64.
Definition UINT32_MAX : Z := 2 ^ 32 - 1.

Record chacha_ctx : Type := mkChacha { input : list Z; ks : list Z; unused : Z }.
#[global] Instance chacha_eta : Eta chacha_ctx := fun x => mkChacha (input x) (ks x) (unused x).

(** ** The macros *)

Definition ROTL32 (v n : Z) : Z := Z.lor (u32 (Z.shiftl v n)) (Z.shiftr v (32 - n)).

Definition U8TO32_LITTLE (p0 p1 p2 p3 : Z) : Z :=
  Z.lor (Z.lor (Z.lor p0 (Z.shiftl p1 8)) (Z.shiftl p2 16)) (Z.shiftl p3 24).

Definition U32TO8_LITTLE (v : Z) : list Z :=
  [u8 v; u8 (Z.shiftr v 8); u8 (Z.shiftr v 16); u8 (Z.shiftr v 24)].

(** [U8TO32_LITTLE(p + 0)], [U8TO32_LITTLE(p + 4)], ... *)
Fixpoint load_words (n : nat) (p : list Z) : option (list Z) :=
  match n, p with
  | O, _ => Some []
  | S n, p0 :: p1 :: p2 :: p3 :: p => ws ← load_words n p; Some (U8TO32_LITTLE p0 p1 p2 p3 :: ws)
  | S _, _ => None
  end.

Definition store_words (ws : list Z) : list Z := concat (map U32TO8_LITTLE ws).

Definition PLUS (v w : Z) : Z := u32 (v + w).
Definition PLUSONE (v : Z) : Z := PLUS v 1.

Definition QUARTERROUND (a b c d : Z) : Z * Z * Z * Z :=
  let a := PLUS a b in let d := ROTL32 (Z.lxor d a) 16 in
  let c := PLUS c d in let b := ROTL32 (Z.lxor b c) 12 in
  let a := PLUS a b in let d := ROTL32 (Z.lxor d a) 8 in
  let c := PLUS c d in let b := ROTL32 (Z.lxor b c) 7 in
  (a, b, c, d).

Definition sigma : list Z :=
  [0x65; 0x78; 0x70; 0x61; 0x6e; 0x64; 0x20; 0x33; 0x32; 0x2d; 0x62; 0x79; 0x74; 0x65; 0x20; 0x6b].
Definition tau : list Z :=
  [0x65; 0x78; 0x70; 0x61; 0x6e; 0x64; 0x20; 0x31; 0x36; 0x2d; 0x62; 0x79; 0x74; 0x65; 0x20; 0x6b].

(** ** Setup *)

Definition chacha_keysetup (x : chacha_ctx) (k : list Z) (kbits : Z) : option chacha_ctx :=
  k4 ← load_words 4 k;
  let '(k, constants) := if kbits =? 256 then (zdrop 16 k, sigma) else (k, tau) in
  k8 ← load_words 4 k;
  c ← load_words 4 constants;
  Some (x <| input := c ++ k4 ++ k8 ++ zdrop 12 (input x) |>).

(** [counter]: [None] is NULL. *)
Definition chacha_ivsetup (x : chacha_ctx) (iv : list Z) (counter : option (list Z)) : option chacha_ctx :=
  ctr ← (match counter with None => Some [0; 0] | Some counter => load_words 2 counter end);
  iv ← load_words 2 iv;
  Some (x <| input := ztake 12 (input x) ++ ctr ++ iv |>).

(** ** Encryption *)

(** The variables [x0] to [x15]. *)
Definition words : Type := Z * Z * Z * Z * Z * Z * Z * Z * Z * Z * Z * Z * Z * Z * Z * Z.

(** The body of [for (i = 20; i > 0; i -= 2)]. *)
Definition double_round (x : words) : words :=
  let '(x0, x1, x2, x3, x4, x5, x6, x7, x8, x9, x10, x11, x12, x13, x14, x15) := x in
  let '(x0, x4, x8, x12) := QUARTERROUND x0 x4 x8 x12 in
  let '(x1, x5, x9, x13) := QUARTERROUND x1 x5 x9 x13 in
  let '(x2, x6, x10, x14) := QUARTERROUND x2 x6 x10 x14 in
  let '(x3, x7, x11, x15) := QUARTERROUND x3 x7 x11 x15 in
  let '(x0, x5, x10, x15) := QUARTERROUND x0 x5 x10 x15 in
  let '(x1, x6, x11, x12) := QUARTERROUND x1 x6 x11 x12 in
  let '(x2, x7, x8, x13) := QUARTERROUND x2 x7 x8 x13 in
  let '(x3, x4, x9, x14) := QUARTERROUND x3 x4 x9 x14 in
  (x0, x1, x2, x3, x4, x5, x6, x7, x8, x9, x10, x11, x12, x13, x14, x15).

Definition to_words (l : list Z) : option words :=
  match l with
  | [x0; x1; x2; x3; x4; x5; x6; x7; x8; x9; x10; x11; x12; x13; x14; x15] =>
      Some (x0, x1, x2, x3, x4, x5, x6, x7, x8, x9, x10, x11, x12, x13, x14, x15)
  | _ => None
  end.

Definition of_words (x : words) : list Z :=
  let '(x0, x1, x2, x3, x4, x5, x6, x7, x8, x9, x10, x11, x12, x13, x14, x15) := x in
  [x0; x1; x2; x3; x4; x5; x6; x7; x8; x9; x10; x11; x12; x13; x14; x15].

(** The rounds, and the addition of [j0] to [j15]. *)
Definition chacha_block (j : list Z) : option (list Z) :=
  x ← to_words j;
  Some (zip_with PLUS (of_words (Nat.iter 10 double_round x)) j).

(** [j12] and [j13]. *)
Definition increment (j : list Z) : option (list Z) :=
  j12 ← j !! 12%nat;
  j13 ← j !! 13%nat;
  let j12 := PLUSONE j12 in
  let j13 := if j12 =? 0 then PLUSONE j13 else j13 in
  Some (<[12%nat := j12]> (<[13%nat := j13]> j)).

(** [for (;;)]: [c] is what has been stored. The octets of [tmp] behind the
    message are never copied out; here they are zero. *)
Fixpoint encrypt_loop (fuel : nat) (x : chacha_ctx) (j m c : list Z) : option (chacha_ctx * list Z) :=
  match fuel with
  | O => None
  | S fuel =>
      let bytes := zlen m in
      let m64 := if bytes <? 64 then m ++ zrep (64 - bytes) 0 else m in
      ws ← chacha_block j;
      let x := if bytes <? 64 then x <| ks := store_words ws |> else x in
      mw ← load_words 16 m64;
      let out := store_words (zip_with Z.lxor ws mw) in
      j ← increment j;
      if bytes <=? 64 then
        j12 ← j !! 12%nat;
        j13 ← j !! 13%nat;
        Some (x <| input := <[12%nat := j12]> (<[13%nat := j13]> (input x)) |> <| unused := u8 (64 - bytes) |>,
              c ++ ztake bytes out)
      else encrypt_loop fuel x j (zdrop 64 m) (c ++ out)
  end.

Definition chacha_encrypt_bytes (x : chacha_ctx) (m : list Z) : option (chacha_ctx * list Z) :=
  if zlen m =? 0 then Some (x, []) else encrypt_loop (length m) x (input x) m [].

(** [while (len > 0)], in pieces of at most [UINT32_MAX] octets. *)
Fixpoint encrypt_pieces (fuel : nat) (x : chacha_ctx) (m c : list Z) : option (chacha_ctx * list Z) :=
  if 0 <? zlen m then
    match fuel with
    | O => None
    | S fuel =>
        let n := if UINT32_MAX <? zlen m then UINT32_MAX else zlen m in
        '(x, out) ← chacha_encrypt_bytes x (ztake n m);
        encrypt_pieces fuel x (zdrop n m) (c ++ out)
    end
  else Some (x, c).

(** ** chacha.c *)

(** A context on the stack is not initialised; the setup sets all of [input]. *)
Definition no_chacha_ctx : chacha_ctx := mkChacha (zrep 16 0) (zrep 64 0) 0.

Definition ChaCha_set_key (ctx : chacha_ctx) (key : list Z) (keybits : Z) : option chacha_ctx :=
  ctx ← chacha_keysetup ctx key keybits;
  Some (ctx <| unused := 0 |>).

Definition ChaCha_set_iv (ctx : chacha_ctx) (iv : list Z) (counter : option (list Z)) : option chacha_ctx :=
  ctx ← chacha_ivsetup ctx iv counter;
  Some (ctx <| unused := 0 |>).

(** Consume remaining keystream, if any exists. *)
Definition use_leftover (ctx : chacha_ctx) (m : list Z) : option (chacha_ctx * list Z * list Z) :=
  if 0 <? unused ctx then
    let l := if unused ctx <? zlen m then unused ctx else zlen m in
    let k := zdrop (64 - unused ctx) (ks ctx) in
    if (unused ctx <=? 64) && (l <=? zlen k) then
      Some (ctx <| unused := u8 (unused ctx - l) |>, zip_with Z.lxor (ztake l m) k, zdrop l m)
    else None
  else Some (ctx, [], m).

Definition ChaCha (ctx : chacha_ctx) (m : list Z) : option (chacha_ctx * list Z) :=
  '(ctx, out, m) ← use_leftover ctx m;
  encrypt_pieces (length m) ctx m out.

Definition CRYPTO_chacha_20 (m key iv : list Z) (counter : Z) : option (list Z) :=
  ctx ← chacha_keysetup no_chacha_ctx key 256;
  ctx ← chacha_ivsetup ctx iv None;
  let ctx :=
    if negb (counter =? 0)
    then ctx <| input := <[12%nat := u32 counter]> (<[13%nat := u32 (Z.shiftr counter 32)]> (input ctx)) |>
    else ctx in
  '(_, out) ← encrypt_pieces (length m) ctx m [];
  Some out.

Definition CRYPTO_hchacha_20 (key nonce : list Z) : option (list Z) :=
  c ← load_words 4 sigma;
  k ← load_words 8 key;
  n ← load_words 4 nonce;
  x ← to_words (c ++ k ++ n);
  let ws := of_words (Nat.iter 10 double_round x) in
  Some (store_words (take 4 ws ++ drop 12 ws)).

Definition CRYPTO_xchacha_20 (m key iv : list Z) : option (list Z) :=
  subkey ← CRYPTO_hchacha_20 key iv;
  CRYPTO_chacha_20 m subkey (zdrop 16 iv) 0.

(** ** Words and octets *)

Definition is_u32 (w : Z) : Prop := 0 <= w < 2 ^ 32.

Lemma u32_is_u32 x : is_u32 (u32 x).
Proof. unfold is_u32, u32. apply Z.mod_pos_bound. lia. Qed.

Lemma lor_shiftl_high a b k : 0 <= k -> 0 <= a < 2 ^ k -> Z.lor a (Z.shiftl b k) = a + b * 2 ^ k.
Proof. intros. rewrite Z.lor_comm, lor_shiftl_low by done. lia. Qed.

Lemma load_le p0 p1 p2 p3 :
  is_byte p0 -> is_byte p1 -> is_byte p2 -> is_byte p3 -> U8TO32_LITTLE p0 p1 p2 p3 = le_val [p0; p1; p2; p3].
Proof.
  unfold is_byte, U8TO32_LITTLE. intros. rewrite (lor_shiftl_high p0 p1 8) by lia.
  rewrite (lor_shiftl_high (p0 + _) p2 16) by lia. rewrite (lor_shiftl_high _ p3 24) by lia. cbn [le_val foldr]. lia.
Qed.

Lemma load_is_u32 p0 p1 p2 p3 :
  is_byte p0 -> is_byte p1 -> is_byte p2 -> is_byte p3 -> is_u32 (U8TO32_LITTLE p0 p1 p2 p3).
Proof. intros. rewrite load_le by done. unfold is_byte, is_u32 in *. cbn [le_val foldr]. lia. Qed.

Lemma store_le v : U32TO8_LITTLE v = le_bytes 4 v.
Proof.
  unfold U32TO8_LITTLE, u8. cbn [le_bytes]. change (2 ^ 8) with 256.
  rewrite !Z.shiftr_div_pow2, !Z.div_div by lia. reflexivity.
Qed.

Lemma load_words_ok n p :
  Forall is_byte p -> 4 * Z.of_nat n <= zlen p ->
  exists ws, load_words n p = Some ws /\ length ws = n /\ Forall is_u32 ws.
Proof.
  revert p. induction n as [|n IH]; intros p Hp Hl; [by exists []|].
  destruct p as [|p0 [|p1 [|p2 [|p3 p]]]]; try (unfold zlen in Hl; cbn [length] in Hl; lia).
  repeat (apply Forall_cons in Hp as [? Hp]).
  destruct (IH p Hp) as (ws & E & El & Hw); [unfold zlen in *; cbn [length] in Hl; lia|].
  eexists. cbn [load_words]. rewrite E. split; [reflexivity|]. split; [cbn; lia|]. constructor; [by apply load_is_u32|done].
Qed.

Lemma load_words_take n p : load_words n p = load_words n (ztake (4 * Z.of_nat n) p).
Proof.
  revert p. induction n as [|n IH]; intros p; [done|].
  destruct p as [|p0 [|p1 [|p2 [|p3 p]]]]; try (rewrite ztake_all; [done|zlen_lia]).
  rewrite !ztake_cons by lia. replace (4 * Z.of_nat (S n) - 1 - 1 - 1 - 1) with (4 * Z.of_nat n) by lia.
  cbn [load_words]. by rewrite IH.
Qed.

Lemma length_store_words ws : length (store_words ws) = (4 * length ws)%nat.
Proof. unfold store_words. induction ws as [|w ws IH]; [done|]. cbn in *. lia. Qed.

Lemma is_byte_store_words ws : Forall is_byte (store_words ws).
Proof.
  unfold store_words. induction ws as [|w ws IH]; [constructor|]. cbn [map concat]. apply Forall_app. split; [|done].
  rewrite store_le. apply is_byte_le_bytes.
Qed.

Lemma store_lxor v w : U32TO8_LITTLE (Z.lxor v w) = zip_with Z.lxor (U32TO8_LITTLE v) (U32TO8_LITTLE w).
Proof. unfold U32TO8_LITTLE, u8. cbn [zip_with]. by rewrite !Z.shiftr_lxor, !mod_lxor by lia. Qed.

Lemma store_load p0 p1 p2 p3 :
  is_byte p0 -> is_byte p1 -> is_byte p2 -> is_byte p3 -> U32TO8_LITTLE (U8TO32_LITTLE p0 p1 p2 p3) = [p0; p1; p2; p3].
Proof.
  intros. rewrite load_le, store_le by done. change 4%nat with (length [p0; p1; p2; p3]). apply le_bytes_val. do 4 (constructor; [done|]). constructor.
Qed.

Definition xor_octets (m k : list Z) : list Z := zip_with Z.lxor m k.

(** Octets and words are combined alike. *)
Lemma xor_words n ws m mw :
  Forall is_byte m -> length m = (4 * n)%nat -> length ws = n -> load_words n m = Some mw ->
  store_words (zip_with Z.lxor ws mw) = xor_octets m (store_words ws).
Proof.
  revert ws m mw. induction n as [|n IH]; intros ws m mw Hm Hl Hw E.
  - destruct ws; [|done]. by destruct m.
  - destruct ws as [|w ws]; [done|]. destruct m as [|p0 [|p1 [|p2 [|p3 m]]]]; try (cbn in Hl; lia).
    cbn [load_words] in E. destruct (load_words n m) as [mw'|] eqn:E'; [|done]. injection E as <-.
    repeat (apply Forall_cons in Hm as [? Hm]). unfold store_words in *. cbn [zip_with map concat].
    rewrite (IH ws m mw' Hm); [|cbn in Hl; lia|cbn in Hw; lia|done].
    rewrite store_lxor, store_load by done. unfold xor_octets. rewrite store_le. cbn [le_bytes app zip_with].
    by rewrite !(Z.lxor_comm (_ mod _)).
Qed.

Lemma length_xor_octets m k : (length m <= length k)%nat -> length (xor_octets m k) = length m.
Proof. intros. unfold xor_octets. rewrite length_zip_with. lia. Qed.

Lemma is_byte_xor m k : Forall is_byte m -> Forall is_byte k -> Forall is_byte (xor_octets m k).
Proof.
  intros Hm. revert k. unfold xor_octets. induction Hm as [|x m Hx Hm IH]; intros k Hk; [constructor|].
  destruct Hk; [constructor|]. constructor; [by apply lxor_byte|]. by apply IH.
Qed.

Lemma xor_octets_twice m k : (length m <= length k)%nat -> xor_octets (xor_octets m k) k = m.
Proof.
  revert k. unfold xor_octets. induction m as [|x m IH]; intros [|y k] Hl; cbn in *; [done|done|lia|].
  rewrite IH by lia. by rewrite Z.lxor_assoc, Z.lxor_nilpotent, Z.lxor_0_r.
Qed.

(** ** The key stream *)

(** The sixteen words of an input. *)
Definition input_ok (j : list Z) : Prop := length j = 16%nat /\ Forall is_u32 j.

(** The words 12 and 13 are the counter of blocks. *)
Definition at_counter (j : list Z) (n : Z) : list Z :=
  <[12%nat := u32 n]> (<[13%nat := u32 (n / 2 ^ 32)]> j).

Definition block_octets (j : list Z) (n : Z) : list Z :=
  match chacha_block (at_counter j n) with Some ws => store_words ws | None => [] end.

(** The octet at position [p] of the key stream, that is the octet [p mod 64] of
    the block of counter [p / 64]. *)
Definition octet (j : list Z) (p : Z) : Z := default 0 (zget (block_octets j (p / 64)) (p mod 64)).

Definition keystream (j : list Z) (p : Z) (n : Z) : list Z := map (octet j) (seqZ p n).

Lemma to_words_ok j : length j = 16%nat -> exists x, to_words j = Some x.
Proof. intros H. do 16 (destruct j as [|? j]; [done|]). destruct j; [by eexists|done]. Qed.

Lemma length_of_words x : length (of_words x) = 16%nat.
Proof. repeat (destruct x as [x ?]). reflexivity. Qed.

Lemma at_counter_ok j n : input_ok j -> input_ok (at_counter j n).
Proof.
  intros [Hl Hw]. unfold at_counter. split; [by rewrite !length_insert|].
  do 2 (apply Forall_insert; [|apply u32_is_u32]). done.
Qed.

Lemma at_counter_twice j n m : at_counter (at_counter j n) m = at_counter j m.
Proof.
  unfold at_counter. rewrite (list_insert_insert_ne _ 13 12) by done.
  by rewrite !list_insert_insert_eq.
Qed.

Lemma chacha_block_ok j :
  length j = 16%nat -> exists ws, chacha_block j = Some ws /\ length ws = 16%nat.
Proof.
  intros Hl. unfold chacha_block. destruct (to_words_ok j Hl) as [x ->]. eexists. split; [reflexivity|].
  by rewrite length_zip_with, length_of_words, Hl.
Qed.

Lemma length_block_octets j n : length j = 16%nat -> length (block_octets j n) = 64%nat.
Proof.
  intros Hl. unfold block_octets. destruct (chacha_block_ok (at_counter j n)) as (ws & -> & Hws).
  - unfold at_counter. by rewrite !length_insert.
  - by rewrite length_store_words, Hws.
Qed.

Lemma is_byte_block_octets j n : Forall is_byte (block_octets j n).
Proof. unfold block_octets. destruct (chacha_block _); [apply is_byte_store_words|constructor]. Qed.

Lemma increment_ok j n : length j = 16%nat -> increment (at_counter j n) = Some (at_counter j (n + 1)).
Proof.
  intros Hl. unfold increment, at_counter.
  rewrite list_lookup_insert_eq, list_lookup_insert_ne, list_lookup_insert_eq by (rewrite ?length_insert; lia).
  cbn [mbind option_bind]. f_equal. unfold PLUSONE, PLUS.
  assert (E12 : u32 (u32 n + 1) = u32 (n + 1)) by (unfold u32; apply Zplus_mod_idemp_l).
  rewrite E12. rewrite (list_insert_insert_ne _ 13 12) by done. rewrite list_insert_insert_eq.
  rewrite list_insert_insert_eq. do 2 f_equal. unfold u32 in *.
  destruct (Z.eqb_spec ((n + 1) mod 2 ^ 32) 0).
  - rewrite Zplus_mod_idemp_l. f_equal. Z.to_euclidean_division_equations. lia.
  - f_equal. Z.to_euclidean_division_equations. lia.
Qed.

Lemma length_keystream j p n : length (keystream j p n) = Z.to_nat n.
Proof. unfold keystream. by rewrite length_map, length_seqZ. Qed.

Lemma keystream_app j p n m :
  0 <= n -> 0 <= m -> keystream j p (n + m) = keystream j p n ++ keystream j (p + n) m.
Proof. intros. unfold keystream. by rewrite seqZ_app, map_app by lia. Qed.

Lemma octet_byte j p : is_byte (octet j p).
Proof.
  unfold octet. destruct (zget _ _) eqn:E; [|cbn; unfold is_byte; lia].
  eapply zget_Forall; [apply is_byte_block_octets|done].
Qed.

Lemma keystream_byte j p n : Forall is_byte (keystream j p n).
Proof. unfold keystream. apply Forall_map, Forall_forall. intros. apply octet_byte. Qed.

(** A part of one block. *)
Lemma keystream_block j b i n :
  length j = 16%nat -> 0 <= i -> 0 <= n -> i + n <= 64 ->
  keystream j (64 * b + i) n = ztake n (zdrop i (block_octets j b)).
Proof.
  intros Hl Hi Hn Hin. apply list_eq. intros k. unfold ztake, zdrop, keystream.
  pose proof (length_block_octets j b Hl) as Hb.
  rewrite list_lookup_fmap. destruct (decide (Z.of_nat k < n)) as [Hk|Hk].
  - rewrite lookup_seqZ_lt by lia. rewrite lookup_take_lt, lookup_drop by lia. cbn [fmap option_fmap option_map].
    unfold octet. replace ((64 * b + i + Z.of_nat k) / 64) with b by (Z.to_euclidean_division_equations; lia).
    replace ((64 * b + i + Z.of_nat k) mod 64) with (i + Z.of_nat k) by (Z.to_euclidean_division_equations; lia).
    unfold zget. rewrite (proj2 (Z.leb_le _ _)) by lia.
    replace (Z.to_nat (i + Z.of_nat k)) with (Z.to_nat i + k)%nat by lia.
    destruct (lookup_lt_is_Some_2 (block_octets j b) (Z.to_nat i + k)) as [y ->]; [lia|done].
  - rewrite lookup_seqZ_ge by lia. symmetry. apply lookup_ge_None_2. rewrite length_take. lia.
Qed.

(** ** One call of chacha_encrypt_bytes *)

(** [x] is at position [p] of the key stream of [j]: the counter is that of the
    next whole block, and [ks] holds the octets left of the block before. *)
Definition chacha_at (j : list Z) (p : Z) (x : chacha_ctx) : Prop :=
  input x = at_counter j ((p + 63) / 64) /\ unused x = - p mod 64 /\
  (0 < unused x -> ks x = block_octets j (p / 64)).

Lemma xor_octets_app m1 m2 k1 k2 :
  length m1 = length k1 -> xor_octets (m1 ++ m2) (k1 ++ k2) = xor_octets m1 k1 ++ xor_octets m2 k2.
Proof. apply zip_with_app. Qed.

Lemma ztake_xor n m k : ztake n (xor_octets m k) = xor_octets (ztake n m) (ztake n k).
Proof.
  unfold ztake, xor_octets. revert m k. induction (Z.to_nat n) as [|i IH]; intros [|x m] [|y k]; cbn; try done. by rewrite IH.
Qed.

Lemma zlen_keystream j p n : 0 <= n -> zlen (keystream j p n) = n.
Proof. intros. unfold zlen. rewrite length_keystream. lia. Qed.

Section stream.
Context (j : list Z) (Hj : input_ok j).
Implicit Types x : chacha_ctx.

Lemma encrypt_loop_ok fuel x b0 n m c :
  input x = at_counter j b0 -> Forall is_byte m -> (0 < length m <= fuel)%nat ->
  exists x', encrypt_loop fuel x (at_counter j n) m c = Some (x', c ++ xor_octets m (keystream j (64 * n) (zlen m))) /\
    chacha_at j (64 * n + zlen m) x'.
Proof using Hj.
  destruct Hj as [Hl _]. revert x n m c. induction fuel as [|fuel IH]; intros x n m c Hx Hm Hf; [lia|].
  cbn [encrypt_loop]. set (b := block_octets j n).
  assert (Hlc : length (at_counter j n) = 16%nat) by (unfold at_counter; by rewrite !length_insert).
  destruct (chacha_block_ok _ Hlc) as (ws & Ews & Hws). rewrite Ews. cbn [mbind option_bind].
  assert (Eb : store_words ws = b) by (unfold b, block_octets; by rewrite Ews).
  pose proof (length_block_octets j n Hl) as Hb. fold b in Hb.
  set (m64 := if zlen m <? 64 then _ else m).
  assert (Hm64 : Forall is_byte m64 /\ 64 <= zlen m64 /\ ztake (zlen m) (ztake 64 m64) = ztake 64 m).
  { unfold m64. destruct (Z.ltb_spec (zlen m) 64).
    - pose proof (zlen_nonneg m). split.
      { apply Forall_app. split; [done|]. unfold zrep. apply Forall_replicate. unfold is_byte. lia. }
      rewrite zlen_app, zlen_rep by lia. split; [lia|].
      rewrite ztake_ztake, ztake_app_exact, ztake_all by lia. done.
    - split; [done|]. split; [lia|]. rewrite ztake_all; [done|]. rewrite zlen_ztake by lia. lia. }
  destruct Hm64 as (Hmb & Hml & Hmt). clearbody m64.
  destruct (load_words_ok 16 (ztake 64 m64)) as (mw & Emw & _); [by apply Forall_ztake|rewrite zlen_ztake by lia; lia|].
  rewrite load_words_take. change (4 * Z.of_nat 16) with 64. rewrite Emw. cbn [mbind option_bind].
  assert (Eo : store_words (zip_with Z.lxor ws mw) = xor_octets (ztake 64 m64) b).
  { rewrite <- Eb. apply (xor_words 16); [by apply Forall_ztake| |done|done].
    pose proof (zlen_ztake 64 m64 ltac:(lia)). unfold zlen in *. lia. }
  rewrite Eo, increment_ok by done. cbn [mbind option_bind].
  set (x1 := if zlen m <? 64 then _ else x).
  assert (Hx1 : input x1 = at_counter j b0) by (unfold x1; destruct (_ <? 64); exact Hx).
  destruct (Z.leb_spec (zlen m) 64) as [H64|H64].
  - unfold at_counter at 1 2.
    rewrite list_lookup_insert_eq, list_lookup_insert_ne, list_lookup_insert_eq by (rewrite ?length_insert; lia).
    cbn [mbind option_bind]. eexists. split.
    + pose proof (zlen_nonneg m). f_equal. f_equal. f_equal. rewrite ztake_xor, Hmt, (ztake_all 64 m) by lia.
      replace (64 * n) with (64 * n + 0) by lia. rewrite keystream_block by (done || lia). by rewrite zdrop_0.
    + assert (0 < zlen m) by (unfold zlen; lia). split; [|split].
      * cbn [set_field input]. rewrite Hx1. change (at_counter (at_counter j b0) (n + 1) = at_counter j ((64 * n + zlen m + 63) / 64)).
        rewrite at_counter_twice. f_equal. Z.to_euclidean_division_equations. lia.
      * cbn [set_field unused]. unfold u8. change (2 ^ 8) with 256. Z.to_euclidean_division_equations. lia.
      * cbn [set_field unused ks]. unfold u8. rewrite Z.mod_small by lia. intros Hu.
        unfold x1. rewrite (proj2 (Z.ltb_lt _ _)) by lia. cbn [set_field ks]. rewrite Eb. unfold b. f_equal.
        Z.to_euclidean_division_equations. lia.
  - assert (El : zlen m = 64 + zlen (zdrop 64 m)) by (rewrite zlen_zdrop by lia; lia).
    destruct (IH x1 (n + 1) (zdrop 64 m) (c ++ xor_octets (ztake 64 m64) b)) as (x' & E & Hat); [done|by apply Forall_zdrop|unfold zlen in *; lia|].
    exists x'. split; [|rewrite El; by replace (64 * n + (64 + zlen (zdrop 64 m))) with (64 * (n + 1) + zlen (zdrop 64 m)) by lia].
    rewrite E. f_equal. f_equal. rewrite <- app_assoc. f_equal.
    rewrite El, keystream_app by (pose proof (zlen_nonneg (zdrop 64 m)); lia).
    assert (Et : ztake 64 m64 = ztake 64 m) by (rewrite <- Hmt; symmetry; apply ztake_all; rewrite zlen_ztake by lia; lia).
    rewrite Et. symmetry. rewrite <- (ztake_zdrop 64 m) at 1.
    rewrite xor_octets_app.
    + f_equal; [|f_equal; f_equal; lia].
      replace (64 * n) with (64 * n + 0) by lia. rewrite keystream_block, zdrop_0 by (done || lia). f_equal. apply ztake_all. unfold zlen. lia.
    + rewrite length_keystream. pose proof (zlen_ztake 64 m ltac:(lia)) as H. unfold zlen in H. lia.
Qed.

Lemma chacha_encrypt_bytes_ok x n m :
  input x = at_counter j n -> Forall is_byte m -> m <> [] ->
  exists x', chacha_encrypt_bytes x m = Some (x', xor_octets m (keystream j (64 * n) (zlen m))) /\
    chacha_at j (64 * n + zlen m) x'.
Proof using Hj.
  intros Hx Hm Hne. unfold chacha_encrypt_bytes. destruct (Z.eqb_spec (zlen m) 0) as [E|E].
  - by apply zlen_nil_inv in E.
  - rewrite Hx. apply (encrypt_loop_ok _ x n); [done|done|]. unfold zlen in E. lia.
Qed.

(** The octet [i] of a long message meets this position of the key stream: the
    next piece starts with a new block. *)
Definition piece_pos (n i : Z) : Z := 64 * n + i / UINT32_MAX * 2 ^ 32 + i mod UINT32_MAX.

Definition pieces_stream (n len : Z) : list Z := map (fun i => octet j (piece_pos n i)) (seqZ 0 len).

Lemma pieces_stream_short n len : 0 <= len <= UINT32_MAX -> pieces_stream n len = keystream j (64 * n) len.
Proof using.
  intros Hlen. unfold pieces_stream, keystream. apply list_eq. intros k. rewrite !list_lookup_fmap.
  destruct (decide (Z.of_nat k < len)) as [Hk|Hk].
  - rewrite !lookup_seqZ_lt by lia. cbn [fmap option_fmap option_map]. do 2 f_equal. unfold piece_pos.
    rewrite Z.div_small, Z.mod_small by lia. lia.
  - by rewrite !lookup_seqZ_ge by lia.
Qed.

Lemma pieces_stream_more n len :
  0 <= len -> pieces_stream n (UINT32_MAX + len) = keystream j (64 * n) UINT32_MAX ++ pieces_stream (n + 2 ^ 26) len.
Proof using.
  intros Hlen. rewrite <- pieces_stream_short by (unfold UINT32_MAX; lia). unfold pieces_stream.
  rewrite seqZ_app, map_app by (unfold UINT32_MAX; lia). apply (f_equal (app _)). rewrite Z.add_0_l.
  apply list_eq. intros k. rewrite !list_lookup_fmap. destruct (decide (Z.of_nat k < len)) as [Hk|Hk].
  - rewrite !lookup_seqZ_lt by lia. cbn [fmap option_fmap option_map]. do 2 f_equal. unfold piece_pos, UINT32_MAX.
    Z.to_euclidean_division_equations. lia.
  - by rewrite !lookup_seqZ_ge by lia.
Qed.

Lemma encrypt_pieces_ok fuel : forall x n m c,
  input x = at_counter j n -> Forall is_byte m -> (length m <= fuel)%nat ->
  exists x', encrypt_pieces fuel x m c = Some (x', c ++ xor_octets m (pieces_stream n (zlen m))) /\
    (m = [] -> x' = x) /\ (m <> [] -> zlen m <= UINT32_MAX -> chacha_at j (64 * n + zlen m) x').
Proof using Hj.
  induction fuel as [|fuel IH]; intros x n m c Hx Hm Hf; destruct (decide (m = [])) as [->|Hne].
  1, 3: exists x; split; [cbn; by rewrite app_nil_r|done].
  { destruct m; [done|cbn in Hf; lia]. }
  assert (H0 : 0 < zlen m) by (destruct m; [done|rewrite zlen_cons; pose proof (zlen_nonneg m); lia]).
  cbn [encrypt_pieces]. rewrite (proj2 (Z.ltb_lt _ _)) by done.
  set (k := if UINT32_MAX <? zlen m then UINT32_MAX else zlen m).
  assert (Hk : 0 < k <= zlen m /\ k <= UINT32_MAX /\ (k = UINT32_MAX \/ k = zlen m))
    by (unfold k; destruct (Z.ltb_spec UINT32_MAX (zlen m)); unfold UINT32_MAX in *; lia).
  clearbody k. destruct Hk as (Hk0 & HkU & Hk).
  destruct (split_at m k) as (m1 & m2 & Em & Hl1 & _ & -> & ->); [lia|]. rewrite Em in Hm. apply Forall_app in Hm as [Hm1 Hm2].
  destruct (chacha_encrypt_bytes_ok x n m1 Hx Hm1) as (x1 & -> & Hat1); [intros ->; change (zlen []) with 0 in Hl1; lia|].
  cbn [mbind option_bind]. rewrite Hl1 in *. assert (El : zlen m = k + zlen m2) by (rewrite Em, zlen_app; lia).
  assert (Hlen2 : (length m2 <= fuel)%nat) by (unfold zlen in *; lia). pose proof (zlen_nonneg m2).
  destruct (decide (m2 = [])) as [->|Hne2].
  - destruct (IH x1 ((64 * n + k + 63) / 64) [] (c ++ xor_octets m1 (keystream j (64 * n) k)) (proj1 Hat1) Hm2 Hlen2) as (x' & -> & He & _).
    rewrite He in * by done. exists x1. rewrite app_nil_r in Em. subst m1. change (zlen []) with 0 in El.
    split; [|split; [done|]].
    + cbn. rewrite app_nil_r, El, Z.add_0_r, pieces_stream_short by lia. done.
    + intros _ _. by rewrite El, Z.add_0_r.
  - assert (0 < zlen m2) by (destruct m2; [done|rewrite zlen_cons; pose proof (zlen_nonneg m2); lia]).
    destruct Hk as [->|]; [|lia].
    destruct (IH x1 (n + 2 ^ 26) m2 (c ++ xor_octets m1 (keystream j (64 * n) UINT32_MAX))) as (x' & -> & _ & _); [|done|done|].
    { rewrite (proj1 Hat1). f_equal. unfold UINT32_MAX. Z.to_euclidean_division_equations. lia. }
    exists x'. split; [|split; [done|lia]]. f_equal. f_equal. rewrite <- app_assoc. f_equal.
    rewrite El, pieces_stream_more, Em, xor_octets_app by first [done|rewrite length_keystream; unfold zlen in *; lia]. done.
Qed.
End stream.

(** ** The block function of RFC 8439 *)

(** Section 2.1: the quarter round on the words [i], [j], [k] and [l] of a state. *)
Definition rotl (v n : Z) : Z := v * 2 ^ n mod 2 ^ 32 + v / 2 ^ (32 - n).

Definition step (a b d : nat) (n : Z) (s : list Z) : list Z :=
  let sum := (s !!! a + s !!! b) mod 2 ^ 32 in
  <[d := rotl (Z.lxor (s !!! d) sum) n]> (<[a := sum]> s).

Definition quarter_round (i j k l : nat) (s : list Z) : list Z :=
  step k l j 7 (step i j l 8 (step k l j 12 (step i j l 16 s))).

(** Section 2.3: column rounds and diagonal rounds. *)
Definition inner_block (s : list Z) : list Z :=
  quarter_round 3 4 9 14 (quarter_round 2 7 8 13 (quarter_round 1 6 11 12 (quarter_round 0 5 10 15
    (quarter_round 3 7 11 15 (quarter_round 2 6 10 14 (quarter_round 1 5 9 13 (quarter_round 0 4 8 12 s))))))).

(** The [n] little-endian words of an octet string. *)
Fixpoint le_words (n : nat) (p : list Z) : list Z :=
  match n with
  | O => []
  | S n => le_val (ztake 4 p) :: le_words n (zdrop 4 p)
  end.

(** "expand 32-byte k" *)
Definition rfc_constants : list Z := [0x61707865; 0x3320646e; 0x79622d32; 0x6b206574].

Definition rfc_state (key : list Z) (counter : Z) (nonce : list Z) : list Z :=
  rfc_constants ++ le_words 8 key ++ [counter mod 2 ^ 32] ++ le_words 3 nonce.

Definition rfc_block (key : list Z) (counter : Z) (nonce : list Z) : list Z :=
  let s := rfc_state key counter nonce in
  concat (map (le_bytes 4) (zip_with (fun v w => (v + w) mod 2 ^ 32) (Nat.iter 10 inner_block s) s)).

Lemma ROTL32_rotl v n : is_u32 v -> 0 < n < 32 -> ROTL32 v n = rotl v n /\ is_u32 (rotl v n).
Proof.
  unfold is_u32, ROTL32, rotl, u32. intros Hv Hn.
  assert (E : Z.shiftl v n mod 2 ^ 32 = Z.shiftl (v mod 2 ^ (32 - n)) n).
  { rewrite !Z.shiftl_mul_pow2 by lia. replace (2 ^ 32) with (2 ^ (32 - n) * 2 ^ n) by (rewrite <- Z.pow_add_r by lia; f_equal; lia).
    by rewrite Z.mul_mod_distr_r by (apply Z.pow_nonzero; lia). }
  assert (Hd : 0 <= v / 2 ^ (32 - n) < 2 ^ n).
  { split; [apply Z.div_pos; [lia|apply Z.pow_pos_nonneg; lia]|]. apply Z.div_lt_upper_bound; [apply Z.pow_pos_nonneg; lia|].
    rewrite <- Z.pow_add_r by lia. replace (32 - n + n) with 32 by lia. lia. }
  rewrite E, Z.shiftr_div_pow2, lor_shiftl_low by lia.
  rewrite <- (Z.shiftl_mul_pow2 v n), E, Z.shiftl_mul_pow2 by lia.
  split; [done|]. pose proof (Z.mod_pos_bound v (2 ^ (32 - n)) ltac:(apply Z.pow_pos_nonneg; lia)).
  assert (2 ^ 32 = 2 ^ (32 - n) * 2 ^ n) as -> by (rewrite <- Z.pow_add_r by lia; f_equal; lia).
  nia.
Qed.

Lemma lxor_u32 a b : is_u32 a -> is_u32 b -> is_u32 (Z.lxor a b).
Proof.
  unfold is_u32. intros Ha Hb. rewrite <- (Z.mod_small a (2 ^ 32)), <- (Z.mod_small b (2 ^ 32)), <- mod_lxor by lia.
  apply Z.mod_pos_bound. lia.
Qed.

Lemma PLUS_u32 a b : is_u32 (PLUS a b).
Proof. apply u32_is_u32. Qed.

Lemma rotl_u32 v n : is_u32 v -> 0 < n < 32 -> is_u32 (rotl v n).
Proof. intros. by apply ROTL32_rotl. Qed.

Lemma ROTL32_u32 v n : is_u32 v -> 0 < n < 32 -> is_u32 (ROTL32 v n).
Proof. intros. destruct (ROTL32_rotl v n) as [-> ?]; done. Qed.

Ltac u32_tac :=
  repeat first [assumption|apply PLUS_u32|apply lxor_u32|apply rotl_u32; [|lia]|apply ROTL32_u32; [|lia]].

Lemma step_at a b d n s x y z :
  s !! a = Some x -> s !! b = Some y -> s !! d = Some z ->
  step a b d n s = <[d := rotl (Z.lxor z (PLUS x y)) n]> (<[a := PLUS x y]> s).
Proof. intros Ha Hb Hd. unfold step. by rewrite !list_lookup_total_alt, Ha, Hb, Hd. Qed.

Ltac lookup_tac :=
  repeat first [rewrite list_lookup_insert_eq by (rewrite ?length_insert; eauto using lookup_lt_Some)
               |rewrite list_lookup_insert_ne by done]; try done.

Lemma QUARTERROUND_ok a b c d :
  is_u32 a -> is_u32 b -> is_u32 c -> is_u32 d ->
  exists a' b' c' d', QUARTERROUND a b c d = (a', b', c', d') /\ is_u32 a' /\ is_u32 b' /\ is_u32 c' /\ is_u32 d' /\
    forall i j k l s, i <> j /\ i <> k /\ i <> l /\ j <> k /\ j <> l /\ k <> l ->
      s !! i = Some a -> s !! j = Some b -> s !! k = Some c -> s !! l = Some d ->
      quarter_round i j k l s = <[i := a']> (<[j := b']> (<[k := c']> (<[l := d']> s))).
Proof.
  intros Ha Hb Hc Hd. unfold QUARTERROUND. cbv zeta.
  rewrite !(fun v n H Hn => proj1 (ROTL32_rotl v n H Hn)) by (u32_tac || lia).
  do 4 eexists. split; [reflexivity|]. do 4 (split; [u32_tac|]).
  intros i j k l s (? & ? & ? & ? & ? & ?) Hi Hj Hk Hl. unfold quarter_round.
  rewrite (step_at i j l 16 s a b d) by done.
  erewrite (step_at k l j 12) by lookup_tac. erewrite (step_at i j l 8) by lookup_tac. erewrite (step_at k l j 7) by lookup_tac.
  apply list_eq. intros m. destruct (decide (m = i)) as [->|]; [lookup_tac|]. destruct (decide (m = j)) as [->|]; [lookup_tac|].
  destruct (decide (m = k)) as [->|]; [lookup_tac|]. destruct (decide (m = l)) as [->|]; lookup_tac.
Qed.

(** One quarter round of a state, given by its words. *)
Ltac quarter_tac :=
  lazymatch goal with
  | |- context [QUARTERROUND ?a ?b ?c ?d] =>
      let a' := fresh "a" in let b' := fresh "b" in let c' := fresh "c" in let d' := fresh "d" in
      let E := fresh "E" in
      destruct (QUARTERROUND_ok a b c d) as (a' & b' & c' & d' & -> & ? & ? & ? & ? & E); [assumption..|];
      match goal with |- context [quarter_round ?i ?j ?k ?l (?w :: ?s)] => rewrite (E i j k l (w :: s)) by (split_and?; done) end;
      clear E; cbn [insert list_insert]
  end.

Lemma double_round_ok x :
  Forall is_u32 (of_words x) ->
  of_words (double_round x) = inner_block (of_words x) /\ Forall is_u32 (of_words (double_round x)).
Proof.
  intros H. repeat (destruct x as [x ?]). cbn [of_words] in H. repeat (apply Forall_cons in H as [? H]). clear H.
  unfold double_round, inner_block. cbn [of_words]. do 8 quarter_tac.
  split; [reflexivity|]. by repeat (constructor; [assumption|]).
Qed.

Lemma rounds_ok n x :
  Forall is_u32 (of_words x) ->
  of_words (Nat.iter n double_round x) = Nat.iter n inner_block (of_words x) /\ Forall is_u32 (of_words (Nat.iter n double_round x)).
Proof.
  intros Hx. induction n as [|n [IH1 IH2]]; [done|]. rewrite !Nat.iter_succ.
  destruct (double_round_ok _ IH2) as [E ?]. split; [by rewrite E, IH1|done].
Qed.

Lemma of_to_words j x : to_words j = Some x -> of_words x = j.
Proof. do 17 (destruct j as [|? j]; [by intros [= <-] || done|]). done. Qed.

Lemma chacha_block_rfc j :
  input_ok j -> store_words <$> chacha_block j =
    Some (concat (map (le_bytes 4) (zip_with (fun v w => (v + w) mod 2 ^ 32) (Nat.iter 10 inner_block j) j))).
Proof.
  intros [Hl Hj]. unfold chacha_block. destruct (to_words_ok j Hl) as [x E]. rewrite E. apply of_to_words in E. subst j.
  cbn [mbind option_bind fmap option_fmap option_map]. f_equal. unfold store_words.
  rewrite (proj1 (rounds_ok 10 x Hj)). f_equal. apply map_ext. apply store_le.
Qed.

(** ** The setup *)

Lemma load_le_words n p :
  Forall is_byte p -> 4 * Z.of_nat n <= zlen p -> load_words n p = Some (le_words n p).
Proof.
  revert p. induction n as [|n IH]; intros p Hp Hl; [done|].
  destruct p as [|p0 [|p1 [|p2 [|p3 p]]]]; try (unfold zlen in Hl; cbn [length] in Hl; lia).
  repeat (apply Forall_cons in Hp as [? Hp]). cbn [load_words]. rewrite IH; [|done|unfold zlen in *; cbn [length] in Hl; lia].
  rewrite load_le by done. reflexivity.
Qed.

Lemma length_le_words n p : length (le_words n p) = n.
Proof. revert p. induction n as [|n IH]; intros p; [done|]. cbn. by rewrite IH. Qed.

Lemma le_words_u32 n p : Forall is_byte p -> 4 * Z.of_nat n <= zlen p -> Forall is_u32 (le_words n p).
Proof.
  intros Hp Hl. destruct (load_words_ok n p Hp Hl) as (ws & E & _ & H). rewrite load_le_words in E by done. by injection E as ->.
Qed.

Definition chacha_input (key iv : list Z) : list Z := rfc_constants ++ le_words 8 key ++ [0; 0] ++ le_words 2 iv.

Definition octets_ok (n : Z) (l : list Z) : Prop := zlen l = n /\ Forall is_byte l.

Lemma chacha_input_ok key iv : octets_ok 32 key -> octets_ok 8 iv -> input_ok (chacha_input key iv).
Proof.
  intros [Hk Bk] [Hi Bi]. unfold chacha_input. split; [by rewrite !length_app, !length_le_words|].
  assert (Hc : Forall is_u32 rfc_constants) by (unfold rfc_constants, is_u32; repeat (constructor; [lia|]); constructor).
  assert (H0 : Forall is_u32 [0; 0]) by (unfold is_u32; repeat (constructor; [lia|]); constructor).
  repeat (apply Forall_app; split); try done; apply le_words_u32; (done || lia).
Qed.

Lemma le_words_split n m p : le_words (n + m) p = le_words n p ++ le_words m (zdrop (4 * Z.of_nat n) p).
Proof.
  revert p. induction n as [|n IH]; intros p; [done|]. cbn [le_words Nat.add app]. rewrite IH.
  by rewrite zdrop_zdrop by lia; replace (4 + 4 * Z.of_nat n) with (4 * Z.of_nat (S n)) by lia.
Qed.

(** The [counter] argument of [chacha_ivsetup]. *)
Definition counter_ok (counter : option (list Z)) : Prop :=
  match counter with None => True | Some c => octets_ok 8 c end.

Definition counter_val (counter : option (list Z)) : Z :=
  match counter with None => 0 | Some c => le_val c end.

Lemma counter_words counter :
  counter_ok counter ->
  match counter with None => Some [0; 0] | Some counter => load_words 2 counter end =
    Some [u32 (counter_val counter); u32 (counter_val counter / 2 ^ 32)].
Proof.
  destruct counter as [c|]; [|done]. intros [Hl Hc]. rewrite load_le_words by (done || lia). cbn [le_words counter_val].
  destruct (split_at c 4) as (c1 & c2 & -> & Hl1 & _ & -> & ->); [lia|]. rewrite zlen_app in Hl. apply Forall_app in Hc as [H1 H2].
  rewrite (ztake_all 4 c2) by lia. rewrite le_val_app, Hl1. change (256 ^ 4) with (2 ^ 32).
  pose proof (le_val_bounds _ H1) as B1. pose proof (le_val_bounds _ H2) as B2. rewrite Hl1 in B1. replace (zlen c2) with 4 in B2 by lia.
  change (256 ^ 4) with (2 ^ 32) in *. unfold u32. do 3 f_equal.
  - Z.to_euclidean_division_equations. lia.
  - f_equal. Z.to_euclidean_division_equations. lia.
Qed.

Lemma setup_ok x key iv counter :
  octets_ok 32 key -> octets_ok 8 iv -> counter_ok counter -> length (input x) = 16%nat ->
  exists x1, chacha_keysetup x key 256 = Some x1 /\ length (input x1) = 16%nat /\
    forall u, exists x2, chacha_ivsetup (x1 <| unused := u |>) iv counter = Some x2 /\
      input x2 = at_counter (chacha_input key iv) (counter_val counter).
Proof.
  intros [Hk Bk] [Hi Bi] Hc Hx. unfold chacha_keysetup. cbn [Z.eqb Pos.eqb].
  rewrite (load_le_words 4 key), (load_le_words 4 (zdrop 16 key)) by (first [done|by apply Forall_zdrop|rewrite ?zlen_zdrop; lia]).
  change (load_words 4 sigma) with (Some rfc_constants). cbn [mbind option_bind].
  eexists. split; [reflexivity|]. cbn [set_field input]. split.
  { rewrite !length_app, !length_le_words. unfold zdrop. rewrite length_drop, Hx. reflexivity. }
  intros u. unfold chacha_ivsetup. rewrite counter_words, load_le_words by (done || lia). cbn [mbind option_bind].
  eexists. split; [reflexivity|]. cbn [set_field input].
  assert (E : rfc_constants ++ le_words 4 key ++ le_words 4 (zdrop 16 key) ++ zdrop 12 (input x) =
              (rfc_constants ++ le_words 8 key) ++ zdrop 12 (input x)).
  { change 8%nat with (4 + 4)%nat. rewrite le_words_split. change (4 * Z.of_nat 4) with 16. by rewrite <- !app_assoc. }
  rewrite E, ztake_app_exact by (unfold zlen; rewrite length_app, length_le_words; reflexivity).
  unfold chacha_input, at_counter. rewrite <- app_assoc.
  assert (Hl : length (le_words 8 key) = 8%nat) by apply length_le_words.
  destruct (le_words 8 key) as [|k0 w]; [done|]. do 8 (destruct w as [|? w]; try done).
Qed.

(** ** The key stream of RFC 8439 *)

(** With a counter of 64 bits and a nonce of 8 octets: the high half of the counter
    stands in front of the nonce. *)
Definition rfc_octet (key iv : list Z) (p : Z) : Z :=
  default 0 (zget (rfc_block key (p / 64) (le_bytes 4 (p / 64 / 2 ^ 32) ++ iv)) (p mod 64)).

Definition rfc_keystream (key iv : list Z) (p n : Z) : list Z := map (rfc_octet key iv) (seqZ p n).

Lemma octet_rfc key iv p : octets_ok 32 key -> octets_ok 8 iv -> octet (chacha_input key iv) p = rfc_octet key iv p.
Proof.
  intros Hk Hi. unfold octet, rfc_octet. do 2 f_equal. set (n := p / 64).
  pose proof (at_counter_ok _ n (chacha_input_ok _ _ Hk Hi)) as Hj. pose proof (chacha_block_rfc _ Hj) as Hb.
  unfold block_octets. destruct (chacha_block (at_counter (chacha_input key iv) n)) as [ws|]; [|discriminate Hb]. cbn [fmap option_fmap option_map] in Hb. apply (inj Some) in Hb. rewrite Hb. clear Hb.
  unfold rfc_block. cbv zeta. enough (E : at_counter (chacha_input key iv) n = rfc_state key n (le_bytes 4 (n / 2 ^ 32) ++ iv)) by (rewrite E; reflexivity).
  unfold rfc_state, at_counter, chacha_input. change 3%nat with (1 + 2)%nat. rewrite (le_words_split 1 2).
  cbn [le_words]. change (4 * Z.of_nat 1) with 4. rewrite ztake_app_exact, zdrop_app_exact by apply zlen_le_bytes.
  rewrite le_val_bytes. change (256 ^ Z.of_nat 4) with (2 ^ 32). unfold u32.
  assert (Hl : length (le_words 8 key) = 8%nat) by apply length_le_words.
  destruct (le_words 8 key) as [|k0 w]; [done|]. do 8 (destruct w as [|? w]; try done).
Qed.

Lemma keystream_rfc key iv p n :
  octets_ok 32 key -> octets_ok 8 iv -> keystream (chacha_input key iv) p n = rfc_keystream key iv p n.
Proof. intros Hk Hi. apply map_ext. intros i. by apply octet_rfc. Qed.

(** ** The properties *)

Lemma CRYPTO_chacha_20_eq m key iv counter :
  octets_ok 32 key -> octets_ok 8 iv -> 0 <= counter < 2 ^ 64 -> Forall is_byte m ->
  CRYPTO_chacha_20 m key iv counter =
    Some (xor_octets m (pieces_stream (chacha_input key iv) counter (zlen m))).
Proof.
  intros Hk Hi Hc Hm. unfold CRYPTO_chacha_20.
  destruct (setup_ok no_chacha_ctx key iv None Hk Hi I eq_refl) as (x1 & -> & _ & H2).
  destruct (H2 (unused x1)) as (x2 & E2 & Hin). cbn [mbind option_bind].
  change (x1 <| unused := unused x1 |>) with (eta x1) in E2. assert (E1 : eta x1 = x1) by (by destruct x1). rewrite E1 in E2.
  rewrite E2. cbn [mbind option_bind]. set (x := if negb _ then _ else _).
  assert (Hx : input x = at_counter (chacha_input key iv) counter).
  { unfold x. destruct (Z.eqb_spec counter 0) as [->|]; cbn [negb]; [done|]. cbn [set_field input]. rewrite Hin.
    rewrite Z.shiftr_div_pow2 by lia. apply at_counter_twice. }
  destruct (encrypt_pieces_ok _ (chacha_input_ok _ _ Hk Hi) (length m) x counter m [] Hx Hm (le_n _)) as (x' & -> & _). done.
Qed.

(** The one-shot function combines the message with the key stream of RFC 8439
    (with a 64-bit counter): for at most [UINT32_MAX] octets exactly that; in a
    longer message each piece of [UINT32_MAX] octets after the first starts at the
    next multiple of 2^32 octets of the key stream. *)
Theorem CRYPTO_chacha_20_keystream m key iv counter :
  octets_ok 32 key -> octets_ok 8 iv -> 0 <= counter < 2 ^ 64 -> Forall is_byte m ->
  CRYPTO_chacha_20 m key iv counter =
    Some (xor_octets m (map (fun i => rfc_octet key iv (64 * counter + i / UINT32_MAX * 2 ^ 32 + i mod UINT32_MAX)) (seqZ 0 (zlen m)))) /\
  (zlen m <= UINT32_MAX ->
     CRYPTO_chacha_20 m key iv counter = Some (xor_octets m (rfc_keystream key iv (64 * counter) (zlen m)))).
Proof.
  intros Hk Hi Hc Hm. rewrite CRYPTO_chacha_20_eq by done. split.
  - unfold pieces_stream. do 2 f_equal. apply map_ext. intros i. by rewrite octet_rfc.
  - intros Hl. rewrite pieces_stream_short, keystream_rfc by (done || (pose proof (zlen_nonneg m); lia)). done.
Qed.

(** The key of RFC 8439, section 2.4.2, the second half of its nonce, and its text. *)
Definition rfc_key : list Z := map Z.of_nat (seq 0 32).
Definition rfc_iv : list Z := [0; 0; 0; 0x4a; 0; 0; 0; 0].

Lemma rfc_key_ok : octets_ok 32 rfc_key.
Proof. split; [done|]. by apply (bool_decide_unpack _). Qed.

Lemma rfc_iv_ok : octets_ok 8 rfc_iv.
Proof. split; [done|]. by apply (bool_decide_unpack _). Qed.

(** "Ladies and Gentle": the first octets of the ciphertext in RFC 8439, section 2.4.2. *)
Lemma CRYPTO_chacha_20_keystream_witness :
  let m := [0x4c; 0x61; 0x64; 0x69; 0x65; 0x73; 0x20; 0x61] in
  CRYPTO_chacha_20 m rfc_key rfc_iv 1 = Some [0x6e; 0x2e; 0x35; 0x9a; 0x25; 0x68; 0xf9; 0x80] /\
  (zlen m <= UINT32_MAX ->
     CRYPTO_chacha_20 m rfc_key rfc_iv 1 = Some (xor_octets m (rfc_keystream rfc_key rfc_iv (64 * 1) (zlen m)))).
Proof.
  split; [by vm_compute|].
  apply (CRYPTO_chacha_20_keystream [0x4c; 0x61; 0x64; 0x69; 0x65; 0x73; 0x20; 0x61] rfc_key rfc_iv 1 rfc_key_ok rfc_iv_ok); [lia|].
  by apply (bool_decide_unpack _).
Defined.

Lemma xor_octets_last m x k y : length m = length k -> xor_octets (m ++ [x]) (k ++ [y]) = xor_octets m k ++ [Z.lxor x y].
Proof. intros. unfold xor_octets. by rewrite zip_with_app. Qed.

(** A message longer than [UINT32_MAX] octets is not encrypted with the key
    stream of the RFC: after the first piece the last octet of its last block is
    skipped. *)
Theorem CRYPTO_chacha_20_skips_an_octet :
  exists key iv, octets_ok 32 key /\ octets_ok 8 iv /\
    forall m, Forall is_byte m -> zlen m = UINT32_MAX + 1 ->
      CRYPTO_chacha_20 m key iv 0 <> Some (xor_octets m (rfc_keystream key iv 0 (zlen m))).
Proof.
  exists rfc_key, rfc_iv. split; [apply rfc_key_ok|]. split; [apply rfc_iv_ok|]. intros m Hm Hl.
  rewrite CRYPTO_chacha_20_eq by first [apply rfc_key_ok|apply rfc_iv_ok|lia|done].
  destruct m as [|x m _] using rev_ind; [done|]. rewrite Hl.
  assert (Hl' : zlen m = UINT32_MAX) by (rewrite zlen_app in Hl; change (zlen [x]) with 1 in Hl; lia).
  rewrite <- keystream_rfc by first [apply rfc_key_ok|apply rfc_iv_ok].
  rewrite pieces_stream_more by lia. rewrite keystream_app by (unfold UINT32_MAX; lia). change (64 * 0) with 0.
  set (k := keystream _ 0 UINT32_MAX). assert (Hk : length m = length k).
  { unfold k. rewrite length_keystream. unfold zlen in Hl'. lia. }
  set (y := octet (chacha_input rfc_key rfc_iv) (2 ^ 32)). set (z := octet (chacha_input rfc_key rfc_iv) UINT32_MAX).
  assert (E1 : pieces_stream (chacha_input rfc_key rfc_iv) (0 + 2 ^ 26) 1 = [y]) by reflexivity.
  assert (E2 : keystream (chacha_input rfc_key rfc_iv) (0 + UINT32_MAX) 1 = [z]) by reflexivity.
  rewrite E1, E2, !xor_octets_last by done. intros [= E]. apply app_inj_2 in E as [_ E]; [|done]. injection E as E.
  apply (f_equal (Z.lxor x)) in E. rewrite <- !Z.lxor_assoc, Z.lxor_nilpotent, !Z.lxor_0_l in E.
  rename E into Hyz. vm_compute in Hyz. discriminate Hyz.
Qed.

(** ** Streaming *)

Lemma keystream_sub j p n :
  input_ok j -> 0 <= p -> 0 <= n -> p mod 64 + n <= 64 -> keystream j p n = ztake n (zdrop (p mod 64) (block_octets j (p / 64))).
Proof.
  intros [Hl _] Hp Hn Hs. rewrite <- keystream_block by (first [done|Z.to_euclidean_division_equations; lia]).
  f_equal. Z.to_euclidean_division_equations. lia.
Qed.

Lemma use_leftover_ok j p x m :
  input_ok j -> 0 <= p -> chacha_at j p x ->
  exists x' n, use_leftover x m = Some (x', xor_octets (ztake n m) (keystream j p n), zdrop n m) /\
    0 <= n <= zlen m /\ chacha_at j (p + n) x' /\ (zdrop n m <> [] -> (p + n) mod 64 = 0).
Proof.
  intros Hj Hp (Hin & Hu & Hks). pose proof (zlen_nonneg m) as Hm. unfold use_leftover.
  destruct (Z.ltb_spec 0 (unused x)) as [H0|H0].
  - specialize (Hks H0). set (l := if unused x <? zlen m then unused x else zlen m).
    assert (Hl : 0 <= l <= zlen m /\ l <= unused x /\ (l = unused x \/ l = zlen m)).
    { unfold l. destruct (Z.ltb_spec (unused x) (zlen m)); lia. }
    clearbody l. destruct Hl as (Hl & Hlu & Hor).
    assert (Hb : zlen (block_octets j (p / 64)) = 64) by (unfold zlen; by rewrite length_block_octets by apply Hj).
    assert (E64 : 64 - unused x = p mod 64) by (Z.to_euclidean_division_equations; lia).
    rewrite E64, Hks, zlen_zdrop by (Z.to_euclidean_division_equations; lia).
    rewrite !(proj2 (Z.leb_le _ _)) by (Z.to_euclidean_division_equations; lia). cbn [andb].
    eexists _, l. split; [|split; [done|split]].
    + do 3 f_equal. rewrite keystream_sub by (done || (Z.to_euclidean_division_equations; lia)).
      set (k := zdrop _ _). change (zip_with Z.lxor (ztake l m) k) with (xor_octets (ztake l m) k).
      rewrite <- (ztake_all l (xor_octets (ztake l m) k)) at 1; [by rewrite ztake_xor, ztake_ztake by lia|].
      unfold zlen, xor_octets. rewrite length_zip_with. pose proof (zlen_ztake l m Hl) as E. unfold zlen in E. lia.
    + cbn. split; [|split].
      * cbn [set_field input]. rewrite Hin. f_equal. Z.to_euclidean_division_equations. lia.
      * cbn [set_field unused]. unfold u8. change (2 ^ 8) with 256. Z.to_euclidean_division_equations. lia.
      * cbn [set_field unused ks]. unfold u8. change (2 ^ 8) with 256. rewrite Hks. intros Hpos. f_equal. Z.to_euclidean_division_equations. lia.
    + intros Hne. destruct Hor as [->| ->].
      * rewrite Hu. Z.to_euclidean_division_equations. lia.
      * destruct Hne. apply zlen_nil_inv. rewrite zlen_zdrop by lia. lia.
  - assert (Hmod : p mod 64 = 0) by (Z.to_euclidean_division_equations; lia).
    exists x, 0. rewrite Z.add_0_r. split; [done|]. split; [lia|]. split; [by split_and!|done].
Qed.

Lemma ChaCha_ok j p x m :
  input_ok j -> 0 <= p -> chacha_at j p x -> Forall is_byte m -> zlen m <= UINT32_MAX ->
  exists x', ChaCha x m = Some (x', xor_octets m (keystream j p (zlen m))) /\ chacha_at j (p + zlen m) x'.
Proof.
  intros Hj Hp Hat Hm Hl. destruct (use_leftover_ok j p x m Hj Hp Hat) as (x1 & n & E & Hn & Hat1 & Hal).
  unfold ChaCha. rewrite E. cbn [mbind option_bind].
  destruct (split_at m n Hn) as (m1 & m2 & -> & Hl1 & _ & E1 & E2). rewrite E1, E2 in *.
  rewrite zlen_app, Hl1 in *. pose proof (zlen_nonneg m2) as Hl2. apply Forall_app in Hm as [Hm1 Hm2].
  rewrite keystream_app by lia. rewrite xor_octets_app by (rewrite length_keystream; unfold zlen in *; lia).
  destruct (decide (m2 = [])) as [->|Hne].
  - exists x1. change (zlen []) with 0. rewrite Z.add_0_r. split; [|done]. cbn. by rewrite app_nil_r.
  - specialize (Hal Hne). set (q := (p + n) / 64). assert (Eq : p + n = 64 * q) by (unfold q; Z.to_euclidean_division_equations; lia).
    destruct (encrypt_pieces_ok j Hj (length m2) x1 q m2 (xor_octets m1 (keystream j p n))) as (x' & -> & _ & Hat2).
    + rewrite (proj1 Hat1). f_equal. rewrite Eq. Z.to_euclidean_division_equations. lia.
    + done.
    + lia.
    + exists x'. rewrite pieces_stream_short by lia. rewrite Eq. split; [done|]. rewrite Z.add_assoc, Eq. apply Hat2; [done|lia].
Qed.

(** A sequence of calls, with what they put out. *)
Fixpoint ChaCha_all (x : chacha_ctx) (ms : list (list Z)) : option (chacha_ctx * list Z) :=
  match ms with
  | [] => Some (x, [])
  | m :: ms => '(x, out) ← ChaCha x m; '(x, outs) ← ChaCha_all x ms; Some (x, out ++ outs)
  end.

Definition chunk_ok (m : list Z) : Prop := Forall is_byte m /\ zlen m <= UINT32_MAX.

Lemma ChaCha_all_ok j ms : forall p x,
  input_ok j -> 0 <= p -> chacha_at j p x -> Forall chunk_ok ms ->
  exists x', ChaCha_all x ms = Some (x', xor_octets (concat ms) (keystream j p (zlen (concat ms)))) /\
    chacha_at j (p + zlen (concat ms)) x'.
Proof.
  induction ms as [|m ms IH]; intros p x Hj Hp Hat Hms.
  { exists x. cbn [ChaCha_all concat]. change (zlen []) with 0. by rewrite Z.add_0_r. }
  apply Forall_cons in Hms as [[Hm Hl] Hms]. pose proof (zlen_nonneg m). pose proof (zlen_nonneg (concat ms)).
  destruct (ChaCha_ok j p x m Hj Hp Hat Hm Hl) as (x1 & E1 & Hat1). cbn [ChaCha_all concat]. rewrite E1. cbn [mbind option_bind].
  destruct (IH (p + zlen m) x1 Hj ltac:(lia) Hat1 Hms) as (x2 & E2 & Hat2). rewrite E2. cbn [mbind option_bind].
  exists x2. rewrite zlen_app, Z.add_assoc. split; [|done]. rewrite keystream_app by lia.
  rewrite xor_octets_app by (rewrite length_keystream; unfold zlen; lia). done.
Qed.

Lemma ChaCha_set_ok x key iv counter :
  octets_ok 32 key -> octets_ok 8 iv -> counter_ok counter -> length (input x) = 16%nat ->
  exists x1 x2, ChaCha_set_key x key 256 = Some x1 /\ ChaCha_set_iv x1 iv counter = Some x2 /\
    chacha_at (chacha_input key iv) (64 * counter_val counter) x2.
Proof.
  intros Hk Hi Hc Hx. unfold ChaCha_set_key, ChaCha_set_iv.
  destruct (setup_ok x key iv counter Hk Hi Hc Hx) as (x1 & -> & _ & H2). destruct (H2 0) as (x2 & E2 & Hin).
  cbn [mbind option_bind]. do 2 eexists. split; [reflexivity|]. rewrite E2. cbn [mbind option_bind]. split; [reflexivity|].
  split; [|split]; cbn [set_field input unused ks].
  - rewrite Hin. f_equal. Z.to_euclidean_division_equations. lia.
  - Z.to_euclidean_division_equations. lia.
  - lia.
Qed.

(** However a message is cut into calls of [ChaCha], the key stream goes on
    where the call before stopped: the octets put out are those of the one-shot
    function on the whole message. *)
Theorem ChaCha_streaming key iv counter ms :
  octets_ok 32 key -> octets_ok 8 iv -> counter_ok counter -> Forall chunk_ok ms ->
  exists x1 x2 x3 out,
    ChaCha_set_key no_chacha_ctx key 256 = Some x1 /\ ChaCha_set_iv x1 iv counter = Some x2 /\
    ChaCha_all x2 ms = Some (x3, out) /\
    out = xor_octets (concat ms) (rfc_keystream key iv (64 * counter_val counter) (zlen (concat ms))) /\
    (zlen (concat ms) <= UINT32_MAX -> CRYPTO_chacha_20 (concat ms) key iv (counter_val counter) = Some out).
Proof.
  intros Hk Hi Hc Hms. destruct (ChaCha_set_ok no_chacha_ctx key iv counter Hk Hi Hc eq_refl) as (x1 & x2 & E1 & E2 & Hat).
  assert (Hv : 0 <= counter_val counter < 2 ^ 64).
  { destruct counter as [c|]; cbn [counter_val]; [|lia]. destruct Hc as [Hl Hc]. apply le_val_bounds in Hc. by rewrite Hl in Hc. }
  destruct (ChaCha_all_ok _ ms (64 * counter_val counter) x2 (chacha_input_ok _ _ Hk Hi) ltac:(lia) Hat Hms) as (x3 & E3 & _).
  exists x1, x2, x3. eexists. split; [done|]. split; [done|]. split; [exact E3|]. rewrite keystream_rfc by done. split; [done|].
  intros Hl. rewrite CRYPTO_chacha_20_eq, pieces_stream_short, keystream_rfc by
    first [done|pose proof (zlen_nonneg (concat ms)); lia|apply Forall_concat; eapply Forall_impl; [exact Hms|by intros ? []]].
  done.
Qed.

Lemma ChaCha_streaming_witness :
  let ms := [[1; 2; 3]; zrep 70 9; []; zrep 60 4] in
  Forall chunk_ok ms /\
  exists x1 x2 x3 out,
    ChaCha_set_key no_chacha_ctx rfc_key 256 = Some x1 /\ ChaCha_set_iv x1 rfc_iv (Some [1; 0; 0; 0; 0; 0; 0; 9]) = Some x2 /\
    ChaCha_all x2 ms = Some (x3, out) /\
    out = xor_octets (concat ms) (rfc_keystream rfc_key rfc_iv (64 * le_val [1; 0; 0; 0; 0; 0; 0; 9]) (zlen (concat ms))) /\
    (zlen (concat ms) <= UINT32_MAX -> CRYPTO_chacha_20 (concat ms) rfc_key rfc_iv (le_val [1; 0; 0; 0; 0; 0; 0; 9]) = Some out).
Proof.
  assert (H : Forall chunk_ok [[1; 2; 3]; zrep 70 9; []; zrep 60 4]).
  { repeat (constructor; [split; [by apply (bool_decide_unpack _)|by vm_compute]|]). constructor. }
  split; [exact H|].
  apply (ChaCha_streaming rfc_key rfc_iv (Some [1; 0; 0; 0; 0; 0; 0; 9]) [[1; 2; 3]; zrep 70 9; []; zrep 60 4] rfc_key_ok rfc_iv_ok); [|exact H].
  split; [done|]. by apply (bool_decide_unpack _).
Defined.
