(* ===== verification/Poly1305.v ===== *)
(** * Poly1305

    lib/libcrypto/poly1305/poly1305-donna.c: the message authentication code with
    numbers modulo 2^130 - 5 in five limbs of 26 bits.  [unsigned long] has 64 bits;
    a sum of products is taken modulo 2^64 once, which is what the single operations
    amount to.  A buffer and its length are a list of octets, [None] is an access
    outside a buffer. *)

From S2P Require Import Prelude.
Open Scope Z_scope.

Definition poly1305_block_size : Z := 16.

(** ** Data *)

Definition limbs : Type := Z * Z * Z * Z * Z.

Record poly1305_state : Type := mkPoly {
  p_r : limbs;
  p_h : limbs;
  p_pad : Z * Z * Z * Z;
  p_leftover : Z;
  p_buffer : list Z;
  p_final : bool;
}.
#[global] Instance poly_eta : Eta poly1305_state := fun st =>
  mkPoly (p_r st) (p_h st) (p_pad st) (p_leftover st) (p_buffer st) (p_final st).

(** [U8TO32(p)] *)
Definition U8TO32 (p : list Z) : option Z :=
  match p with
  | p0 :: p1 :: p2 :: p3 :: _ =>
      Some (Z.lor (Z.lor (Z.lor (Z.land p0 0xff) (Z.shiftl (Z.land p1 0xff) 8)) (Z.shiftl (Z.land p2 0xff) 16))
                  (Z.shiftl (Z.land p3 0xff) 24))
  | _ => None
  end.

Definition U32TO8 (v : Z) : list Z :=
  [Z.land v 0xff; Z.land (Z.shiftr v 8) 0xff; Z.land (Z.shiftr v 16) 0xff; Z.land (Z.shiftr v 24) 0xff].

(** ** Operations *)

Definition poly1305_init (ctx : poly1305_state) (key : list Z) : option poly1305_state :=
  k0 ← U8TO32 key;
  k3 ← U8TO32 (zdrop 3 key);
  k6 ← U8TO32 (zdrop 6 key);
  k9 ← U8TO32 (zdrop 9 key);
  k12 ← U8TO32 (zdrop 12 key);
  (* r &= 0xffffffc0ffffffc0ffffffc0fffffff *)
  let r := (Z.land k0 0x3ffffff, Z.land (Z.shiftr k3 2) 0x3ffff03, Z.land (Z.shiftr k6 4) 0x3ffc0ff,
            Z.land (Z.shiftr k9 6) 0x3f03fff, Z.land (Z.shiftr k12 8) 0x00fffff) in
  p0 ← U8TO32 (zdrop 16 key);
  p1 ← U8TO32 (zdrop 20 key);
  p2 ← U8TO32 (zdrop 24 key);
  p3 ← U8TO32 (zdrop 28 key);
  Some (mkPoly r (0, 0, 0, 0, 0) (p0, p1, p2, p3) 0 (p_buffer ctx) false).

(** (partial) h %= p *)
Definition partial_reduce (d : limbs) : limbs :=
  let '(d0, d1, d2, d3, d4) := d in
  let c := Z.shiftr d0 26 in let h0 := Z.land d0 0x3ffffff in let d1 := u64 (d1 + c) in
  let c := Z.shiftr d1 26 in let h1 := Z.land d1 0x3ffffff in let d2 := u64 (d2 + c) in
  let c := Z.shiftr d2 26 in let h2 := Z.land d2 0x3ffffff in let d3 := u64 (d3 + c) in
  let c := Z.shiftr d3 26 in let h3 := Z.land d3 0x3ffffff in let d4 := u64 (d4 + c) in
  let c := Z.shiftr d4 26 in let h4 := Z.land d4 0x3ffffff in let h0 := u64 (h0 + u64 (c * 5)) in
  let c := Z.shiftr h0 26 in let h0 := Z.land h0 0x3ffffff in let h1 := u64 (h1 + c) in
  (h0, h1, h2, h3, h4).

(** The body of [while (bytes >= poly1305_block_size)]. *)
Definition poly1305_block (r : limbs) (hibit : Z) (h : limbs) (m : list Z) : option limbs :=
  let '(r0, r1, r2, r3, r4) := r in
  let s1 := u64 (r1 * 5) in
  let s2 := u64 (r2 * 5) in
  let s3 := u64 (r3 * 5) in
  let s4 := u64 (r4 * 5) in
  let '(h0, h1, h2, h3, h4) := h in
  (* h += m[i] *)
  m0 ← U8TO32 m;
  m3 ← U8TO32 (zdrop 3 m);
  m6 ← U8TO32 (zdrop 6 m);
  m9 ← U8TO32 (zdrop 9 m);
  m12 ← U8TO32 (zdrop 12 m);
  let h0 := u64 (h0 + Z.land m0 0x3ffffff) in
  let h1 := u64 (h1 + Z.land (Z.shiftr m3 2) 0x3ffffff) in
  let h2 := u64 (h2 + Z.land (Z.shiftr m6 4) 0x3ffffff) in
  let h3 := u64 (h3 + Z.land (Z.shiftr m9 6) 0x3ffffff) in
  let h4 := u64 (h4 + Z.lor (Z.shiftr m12 8) hibit) in
  (* h *= r *)
  let d0 := u64 (h0 * r0 + h1 * s4 + h2 * s3 + h3 * s2 + h4 * s1) in
  let d1 := u64 (h0 * r1 + h1 * r0 + h2 * s4 + h3 * s3 + h4 * s2) in
  let d2 := u64 (h0 * r2 + h1 * r1 + h2 * r0 + h3 * s4 + h4 * s3) in
  let d3 := u64 (h0 * r3 + h1 * r2 + h2 * r1 + h3 * r0 + h4 * s4) in
  let d4 := u64 (h0 * r4 + h1 * r3 + h2 * r2 + h3 * r1 + h4 * r0) in
  Some (partial_reduce (d0, d1, d2, d3, d4)).

(** [fuel] bounds the iterations; each takes a block off [m]. *)
Fixpoint blocks_loop (fuel : nat) (r : limbs) (hibit : Z) (h : limbs) (m : list Z) : option limbs :=
  if poly1305_block_size <=? zlen m then
    match fuel with
    | O => None
    | S fuel =>
        h ← poly1305_block r hibit h m;
        blocks_loop fuel r hibit h (zdrop poly1305_block_size m)
    end
  else Some h.

Definition poly1305_blocks (st : poly1305_state) (m : list Z) : option poly1305_state :=
  let hibit := if p_final st then 0 else Z.shiftl 1 24 in (* 1 << 128 *)
  h ← blocks_loop (length m) (p_r st) hibit (p_h st) m;
  Some (st <| p_h := h |>).

(** Handle leftover: [None] in the result is the early return. *)
Definition update_leftover (st : poly1305_state) (m : list Z) : option (poly1305_state * option (list Z)) :=
  if negb (p_leftover st =? 0) then
    let want := poly1305_block_size - p_leftover st in
    let want := if zlen m <? want then zlen m else want in
    buffer ← zwrite (p_buffer st) (p_leftover st) (ztake want m);
    let m := zdrop want m in
    let st := st <| p_buffer := buffer |> <| p_leftover := p_leftover st + want |> in
    if p_leftover st <? poly1305_block_size then Some (st, None)
    else
      st ← poly1305_blocks st (ztake poly1305_block_size (p_buffer st));
      Some (st <| p_leftover := 0 |>, Some m)
  else Some (st, Some m).

(** Process full blocks. *)
Definition update_blocks (st : poly1305_state) (m : list Z) : option (poly1305_state * list Z) :=
  if poly1305_block_size <=? zlen m then
    let want := Z.land (zlen m) (Z.lnot (poly1305_block_size - 1)) in
    st ← poly1305_blocks st (ztake want m);
    Some (st, zdrop want m)
  else Some (st, m).

Definition poly1305_update (st : poly1305_state) (m : list Z) : option poly1305_state :=
  '(st, m) ← update_leftover st m;
  match m with
  | None => Some st
  | Some m =>
      '(st, m) ← update_blocks st m;
      (* store leftover *)
      if negb (zlen m =? 0) then
        buffer ← zwrite (p_buffer st) (p_leftover st) m;
        Some (st <| p_buffer := buffer |> <| p_leftover := p_leftover st + zlen m |>)
      else Some st
  end.

(** Process the remaining block. *)
Definition finish_block (st : poly1305_state) : option poly1305_state :=
  if negb (p_leftover st =? 0) then
    buffer ← zwrite (p_buffer st) (p_leftover st) [1];
    buffer ← zwrite buffer (p_leftover st + 1) (zrep (poly1305_block_size - (p_leftover st + 1)) 0);
    poly1305_blocks (st <| p_buffer := buffer |> <| p_final := true |>) (ztake poly1305_block_size buffer)
  else Some st.

(** From "fully carry h" to "h = h % (2^128)": the four words of the number. *)
Definition finish_reduce (h : limbs) : Z * Z * Z * Z :=
  let '(h0, h1, h2, h3, h4) := h in
  (* fully carry h *)
  let c := Z.shiftr h1 26 in let h1 := Z.land h1 0x3ffffff in let h2 := u64 (h2 + c) in
  let c := Z.shiftr h2 26 in let h2 := Z.land h2 0x3ffffff in let h3 := u64 (h3 + c) in
  let c := Z.shiftr h3 26 in let h3 := Z.land h3 0x3ffffff in let h4 := u64 (h4 + c) in
  let c := Z.shiftr h4 26 in let h4 := Z.land h4 0x3ffffff in let h0 := u64 (h0 + u64 (c * 5)) in
  let c := Z.shiftr h0 26 in let h0 := Z.land h0 0x3ffffff in let h1 := u64 (h1 + c) in
  (* compute h + -p *)
  let g0 := u64 (h0 + 5) in
  let c := Z.shiftr g0 26 in let g0 := Z.land g0 0x3ffffff in let g1 := u64 (h1 + c) in
  let c := Z.shiftr g1 26 in let g1 := Z.land g1 0x3ffffff in let g2 := u64 (h2 + c) in
  let c := Z.shiftr g2 26 in let g2 := Z.land g2 0x3ffffff in let g3 := u64 (h3 + c) in
  let c := Z.shiftr g3 26 in let g3 := Z.land g3 0x3ffffff in let g4 := u64 (h4 + c - Z.shiftl 1 26) in
  (* select h if h < p, or h + -p if h >= p *)
  let mask := u64 (Z.shiftr g4 63 - 1) in
  let g0 := Z.land g0 mask in
  let g1 := Z.land g1 mask in
  let g2 := Z.land g2 mask in
  let g3 := Z.land g3 mask in
  let g4 := Z.land g4 mask in
  let mask := u64 (Z.lnot mask) in
  let h0 := Z.lor (Z.land h0 mask) g0 in
  let h1 := Z.lor (Z.land h1 mask) g1 in
  let h2 := Z.lor (Z.land h2 mask) g2 in
  let h3 := Z.lor (Z.land h3 mask) g3 in
  let h4 := Z.lor (Z.land h4 mask) g4 in
  (* h = h % (2^128) *)
  (Z.land (Z.lor h0 (u64 (Z.shiftl h1 26))) 0xffffffff,
   Z.land (Z.lor (Z.shiftr h1 6) (u64 (Z.shiftl h2 20))) 0xffffffff,
   Z.land (Z.lor (Z.shiftr h2 12) (u64 (Z.shiftl h3 14))) 0xffffffff,
   Z.land (Z.lor (Z.shiftr h3 18) (u64 (Z.shiftl h4 8))) 0xffffffff).

(** mac = (h + pad) % (2^128) *)
Definition finish_mac (h pad : Z * Z * Z * Z) : list Z :=
  let '(h0, h1, h2, h3) := h in
  let '(p0, p1, p2, p3) := pad in
  let f := u64 (h0 + p0) in let h0 := f in
  let f := u64 (h1 + p1 + Z.shiftr f 32) in let h1 := f in
  let f := u64 (h2 + p2 + Z.shiftr f 32) in let h2 := f in
  let f := u64 (h3 + p3 + Z.shiftr f 32) in let h3 := f in
  U32TO8 h0 ++ U32TO8 h1 ++ U32TO8 h2 ++ U32TO8 h3.

(** The authenticator, and the state with the key and the accumulator zeroed. *)
Definition poly1305_finish (st : poly1305_state) : option (list Z * poly1305_state) :=
  st ← finish_block st;
  Some (finish_mac (finish_reduce (p_h st)) (p_pad st),
        st <| p_h := (0, 0, 0, 0, 0) |> <| p_r := (0, 0, 0, 0, 0) |> <| p_pad := (0, 0, 0, 0) |>).

(** A state on the stack; its buffer is not initialised. *)
Definition no_poly1305_state : poly1305_state :=
  mkPoly (0, 0, 0, 0, 0) (0, 0, 0, 0, 0) (0, 0, 0, 0) 0 (zrep 16 0) false.

(** poly1305.c *)
Definition CRYPTO_poly1305_init := poly1305_init.
Definition CRYPTO_poly1305_update := poly1305_update.
Definition CRYPTO_poly1305_finish := poly1305_finish.

(** ** Poly1305 of RFC 8439, section 2.5 *)

Definition poly_p : Z := 2 ^ 130 - 5.
Definition clamp (r : Z) : Z := Z.land r 0x0ffffffc0ffffffc0ffffffc0fffffff.

(** [n] blocks of at most 16 octets, each with an octet 1 behind it. *)
Fixpoint rfc_accumulate (n : nat) (r a : Z) (m : list Z) : Z :=
  match n with
  | O => a
  | S n => rfc_accumulate n r ((a + le_val (ztake 16 m ++ [1])) * r mod poly_p) (zdrop 16 m)
  end.

Definition rfc_poly1305_mac (key m : list Z) : list Z :=
  let r := clamp (le_val (ztake 16 key)) in
  let s := le_val (ztake 16 (zdrop 16 key)) in
  le_bytes 16 (rfc_accumulate (Z.to_nat ((zlen m + 15) / 16)) r 0 m + s).

(** ** Limbs *)

Definition val (h : limbs) : Z :=
  let '(h0, h1, h2, h3, h4) := h in h0 + h1 * 2 ^ 26 + h2 * 2 ^ 52 + h3 * 2 ^ 78 + h4 * 2 ^ 104.

Definition limbs_ok (h : limbs) : Prop :=
  let '(h0, h1, h2, h3, h4) := h in
  0 <= h0 < 2 ^ 26 /\ 0 <= h1 < 2 ^ 26 /\ 0 <= h2 < 2 ^ 26 /\ 0 <= h3 < 2 ^ 26 /\ 0 <= h4 < 2 ^ 26.

(** What a block leaves: the carry into [h1] is not passed on. *)
Definition partly_reduced (h : limbs) : Prop :=
  let '(h0, h1, h2, h3, h4) := h in
  0 <= h0 < 2 ^ 26 /\ 0 <= h1 < 2 ^ 26 + 2 ^ 11 /\ 0 <= h2 < 2 ^ 26 /\ 0 <= h3 < 2 ^ 26 /\ 0 <= h4 < 2 ^ 26.

Lemma land_26 x : Z.land x 0x3ffffff = x mod 2 ^ 26.
Proof. exact (land_ones_mod x 26 ltac:(lia)). Qed.

Lemma land_32 x : Z.land x 0xffffffff = x mod 2 ^ 32.
Proof. exact (land_ones_mod x 32 ltac:(lia)). Qed.

Lemma land_8 x : Z.land x 0xff = x mod 2 ^ 8.
Proof. exact (land_ones_mod x 8 ltac:(lia)). Qed.

Lemma shr x k : 0 <= k -> Z.shiftr x k = x / 2 ^ k.
Proof. apply Z.shiftr_div_pow2. Qed.

Lemma lor_disjoint a b k : 0 <= k -> 0 <= a < 2 ^ k -> Z.lor a (Z.shiftl b k) = a + b * 2 ^ k.
Proof. intros. rewrite Z.lor_comm, lor_shiftl_low by done. lia. Qed.

Lemma U8TO32_ok p : Forall is_byte p -> 4 <= zlen p -> U8TO32 p = Some (le_val (ztake 4 p)).
Proof.
  intros Hp Hl. destruct p as [|p0 [|p1 [|p2 [|p3 p]]]]; try (unfold zlen in Hl; cbn [length] in Hl; lia).
  repeat (apply Forall_cons in Hp as [? Hp]). unfold is_byte in *. cbn [U8TO32].
  rewrite !land_8, !Z.mod_small by (cbn; lia).
  rewrite (lor_disjoint p0 p1 8) by lia. rewrite (lor_disjoint (p0 + _) p2 16) by lia. rewrite (lor_disjoint _ p3 24) by lia.
  unfold ztake, le_val. change (Z.to_nat 4) with 4%nat. cbn [take foldr]. rewrite take_0. cbn [foldr]. f_equal. lia.
Qed.

(** Octets as digits of a number. *)
Lemma le_val_ztake n p : Forall is_byte p -> 0 <= n <= zlen p -> le_val (ztake n p) = le_val p mod 256 ^ n.
Proof.
  intros Hp Hn. destruct (split_at p n Hn) as (p1 & p2 & -> & Hl & _ & -> & _). apply Forall_app in Hp as [H1 H2].
  rewrite le_val_app, Hl, Z.mul_comm, Z_mod_plus_full. symmetry. apply Z.mod_small. rewrite <- Hl. by apply le_val_bounds.
Qed.

Lemma le_val_zdrop n p : Forall is_byte p -> 0 <= n <= zlen p -> le_val (zdrop n p) = le_val p / 256 ^ n.
Proof.
  intros Hp Hn. destruct (split_at p n Hn) as (p1 & p2 & -> & Hl & _ & _ & ->). apply Forall_app in Hp as [H1 H2].
  pose proof (le_val_bounds _ H1) as Hb. rewrite Hl in Hb.
  rewrite le_val_app, Hl, Z.mul_comm, Z.div_add, Z.div_small by lia. lia.
Qed.

(** The word at offset [i] of a block. *)
Lemma U8TO32_at i p : Forall is_byte p -> 0 <= i -> i + 4 <= zlen p ->
  U8TO32 (zdrop i p) = Some (le_val p / 2 ^ (8 * i) mod 2 ^ 32).
Proof.
  intros Hp Hi Hl. rewrite U8TO32_ok by (first [by apply Forall_zdrop|rewrite zlen_zdrop; lia]).
  rewrite le_val_ztake by (first [by apply Forall_zdrop|rewrite zlen_zdrop; lia]).
  rewrite le_val_zdrop by (done || lia). replace (256 ^ i) with (2 ^ (8 * i)) by (rewrite Z.pow_mul_r by lia; done). done.
Qed.

(** The limb of weight [2^k] of a block read as [v]. *)
Lemma limb_of v b s : 0 <= b -> 0 <= s <= 6 -> Z.land (Z.shiftr (v / 2 ^ b mod 2 ^ 32) s) 0x3ffffff = v / 2 ^ (b + s) mod 2 ^ 26.
Proof.
  intros Hb Hs. rewrite land_26, shr by lia.
  replace (2 ^ 32) with (2 ^ (s + (32 - s))) by (f_equal; lia).
  rewrite Z.pow_add_r, Z.rem_mul_r by (first [apply Z.pow_nonzero; lia|apply Z.pow_pos_nonneg; lia|lia]).
  rewrite Z.mul_comm, Z.div_add, (Z.div_small (_ mod 2 ^ s)), Z.add_0_l by
    (first [apply Z.pow_nonzero; lia|apply Z.mod_pos_bound, Z.pow_pos_nonneg; lia]).
  rewrite Z.div_div, <- Z.pow_add_r by (first [apply Z.pow_nonzero; lia|apply Z.pow_pos_nonneg; lia|lia]).
  replace (2 ^ (32 - s)) with (2 ^ 26 * 2 ^ (6 - s)) by (rewrite <- Z.pow_add_r by lia; f_equal; lia).
  rewrite Z.rem_mul_r, Z.mul_comm, Z_mod_plus_full by (first [apply Z.pow_pos_nonneg; lia|lia]). by rewrite Z.mod_mod.
Qed.

(** ** One block *)

Lemma partial_reduce_ok d0 d1 d2 d3 d4 :
  0 <= d0 < 2 ^ 60 -> 0 <= d1 < 2 ^ 60 -> 0 <= d2 < 2 ^ 60 -> 0 <= d3 < 2 ^ 60 -> 0 <= d4 < 2 ^ 60 ->
  partly_reduced (partial_reduce (d0, d1, d2, d3, d4)) /\
  exists q, val (partial_reduce (d0, d1, d2, d3, d4)) = val (d0, d1, d2, d3, d4) - q * poly_p.
Proof.
  intros H0 H1 H2 H3 H4. unfold partial_reduce. cbv zeta. rewrite !land_26, !shr by lia.
  set (c0 := d0 / 2 ^ 26). assert (B0 : 0 <= c0 < 2 ^ 34) by (unfold c0; Z.to_euclidean_division_equations; lia).
  rewrite (u64_small (d1 + c0)) by lia. set (c1 := (d1 + c0) / 2 ^ 26).
  assert (B1 : 0 <= c1 < 2 ^ 35) by (unfold c1; Z.to_euclidean_division_equations; lia).
  rewrite (u64_small (d2 + c1)) by lia. set (c2 := (d2 + c1) / 2 ^ 26).
  assert (B2 : 0 <= c2 < 2 ^ 35) by (unfold c2; Z.to_euclidean_division_equations; lia).
  rewrite (u64_small (d3 + c2)) by lia. set (c3 := (d3 + c2) / 2 ^ 26).
  assert (B3 : 0 <= c3 < 2 ^ 35) by (unfold c3; Z.to_euclidean_division_equations; lia).
  rewrite (u64_small (d4 + c3)) by lia. set (c4 := (d4 + c3) / 2 ^ 26).
  assert (B4 : 0 <= c4 < 2 ^ 34 + 2 ^ 10) by (unfold c4; Z.to_euclidean_division_equations; lia).
  pose proof (Z.mod_pos_bound d0 (2 ^ 26) ltac:(lia)).
  rewrite (u64_small (c4 * 5)), (u64_small (d0 mod 2 ^ 26 + c4 * 5)) by lia. set (c5 := (d0 mod 2 ^ 26 + c4 * 5) / 2 ^ 26).
  assert (B5 : 0 <= c5 < 2 ^ 11) by (unfold c5; Z.to_euclidean_division_equations; lia).
  pose proof (Z.mod_pos_bound (d1 + c0) (2 ^ 26) ltac:(lia)). rewrite (u64_small ((d1 + c0) mod 2 ^ 26 + c5)) by lia.
  split; [unfold partly_reduced|exists c4; unfold val, poly_p].
  - pose proof (fun x => Z.mod_pos_bound x (2 ^ 26) ltac:(lia)) as Hm. repeat split; first [apply Hm|lia].
  - subst c0 c1 c2 c3 c4 c5. Z.to_euclidean_division_equations. lia.
Qed.

Lemma mul_bound x y a b : 0 <= x < a -> 0 <= y < b -> 0 <= x * y < a * b.
Proof. nia. Qed.

(** The products: what overflows 2^130 comes back five times. *)
Lemma products_ok r0 r1 r2 r3 r4 h0 h1 h2 h3 h4 :
  exists q,
    val (h0 * r0 + h1 * (r4 * 5) + h2 * (r3 * 5) + h3 * (r2 * 5) + h4 * (r1 * 5),
         h0 * r1 + h1 * r0 + h2 * (r4 * 5) + h3 * (r3 * 5) + h4 * (r2 * 5),
         h0 * r2 + h1 * r1 + h2 * r0 + h3 * (r4 * 5) + h4 * (r3 * 5),
         h0 * r3 + h1 * r2 + h2 * r1 + h3 * r0 + h4 * (r4 * 5),
         h0 * r4 + h1 * r3 + h2 * r2 + h3 * r1 + h4 * r0) =
    val (h0, h1, h2, h3, h4) * val (r0, r1, r2, r3, r4) - q * poly_p.
Proof.
  exists (h1 * r4 + h2 * r3 + h3 * r2 + h4 * r1 + (h2 * r4 + h3 * r3 + h4 * r2) * 2 ^ 26 +
          (h3 * r4 + h4 * r3) * 2 ^ 52 + h4 * r4 * 2 ^ 78).
  unfold val, poly_p. ring.
Qed.

Lemma block_limbs v :
  v mod 2 ^ 128 = val (v mod 2 ^ 26, v / 2 ^ 26 mod 2 ^ 26, v / 2 ^ 52 mod 2 ^ 26, v / 2 ^ 78 mod 2 ^ 26, v / 2 ^ 104 mod 2 ^ 24).
Proof.
  unfold val.
  assert (Hs : forall a b, 0 <= a -> 0 <= b -> v mod 2 ^ (a + b) = v mod 2 ^ a + (v / 2 ^ a mod 2 ^ b) * 2 ^ a).
  { intros a b Ha Hb. rewrite Z.pow_add_r, Z.rem_mul_r by (first [apply Z.pow_nonzero; lia|apply Z.pow_pos_nonneg; lia|lia]). lia. }
  change 128 with (104 + 24). rewrite Hs by lia. change 104 with (78 + 26) at 1. rewrite Hs by lia.
  change 78 with (52 + 26) at 1. rewrite Hs by lia. change 52 with (26 + 26) at 1. by rewrite Hs by lia.
Qed.

(** A sum of five products, each below [2^57]. *)
Lemma sum_small x0 x1 x2 x3 x4 :
  0 <= x0 < 2 ^ 57 -> 0 <= x1 < 2 ^ 57 -> 0 <= x2 < 2 ^ 57 -> 0 <= x3 < 2 ^ 57 -> 0 <= x4 < 2 ^ 57 ->
  u64 (x0 + x1 + x2 + x3 + x4) = x0 + x1 + x2 + x3 + x4 /\ 0 <= x0 + x1 + x2 + x3 + x4 < 2 ^ 60.
Proof. intros. split; [apply u64_small; lia|lia]. Qed.

Lemma product_small x y : 0 <= x < 2 ^ 28 -> 0 <= y < 2 ^ 29 -> 0 <= x * y < 2 ^ 57.
Proof. intros Hx Hy. exact (mul_bound x y _ _ Hx Hy). Qed.

(** [hibit] is 1 << 24 or 0. *)
Definition hibit_ok (hibit : Z) : Prop := hibit = 0 \/ hibit = Z.shiftl 1 24.

Lemma top_limb v hibit :
  hibit_ok hibit -> Z.lor (Z.shiftr (v / 2 ^ 96 mod 2 ^ 32) 8) hibit = v / 2 ^ 104 mod 2 ^ 24 + hibit.
Proof.
  intros Hhi. rewrite shr by lia. change (2 ^ 32) with (2 ^ 8 * 2 ^ 24).
  rewrite Z.rem_mul_r, (Z.mul_comm (2 ^ 8)), Z.div_add, (Z.div_small (_ mod 2 ^ 8)), Z.add_0_l, Z.div_div, <- Z.pow_add_r by
    (first [lia|apply Z.mod_pos_bound; lia]).
  change (96 + 8) with 104. pose proof (Z.mod_pos_bound (v / 2 ^ 104) (2 ^ 24) ltac:(lia)).
  destruct Hhi as [->| ->]; [by rewrite Z.lor_0_r, Z.add_0_r|]. by rewrite lor_disjoint by lia.
Qed.

Lemma poly1305_block_ok r h hibit m :
  limbs_ok r -> partly_reduced h -> hibit_ok hibit -> Forall is_byte m -> 16 <= zlen m ->
  exists h', poly1305_block r hibit h m = Some h' /\ partly_reduced h' /\
    val h' mod poly_p = (val h + le_val (ztake 16 m) + hibit * 2 ^ 104) * val r mod poly_p.
Proof.
  intros Hr Hh Hhi Hm Hl. destruct r as [[[[r0 r1] r2] r3] r4], h as [[[[h0 h1] h2] h3] h4].
  destruct Hr as (? & ? & ? & ? & ?), Hh as (? & ? & ? & ? & ?).
  unfold poly1305_block. change (U8TO32 m) with (U8TO32 (zdrop 0 m)). rewrite !U8TO32_at by (done || lia). cbn [mbind option_bind].
  set (v := le_val m). change (8 * 12) with 96. rewrite (top_limb v) by done.
  change (Z.land (v / 2 ^ (8 * 0) mod 2 ^ 32) 0x3ffffff) with (Z.land (Z.shiftr (v / 2 ^ (8 * 0) mod 2 ^ 32) 0) 0x3ffffff).
  rewrite !limb_of by lia. change (v / 2 ^ (8 * 0 + 0)) with (v / 1). rewrite Z.div_1_r.
  change (8 * 3 + 2) with 26. change (8 * 6 + 4) with 52. change (8 * 9 + 6) with 78.
  rewrite le_val_ztake by (done || lia). fold v. change (256 ^ 16) with (2 ^ 128). rewrite block_limbs.
  pose proof (fun x => Z.mod_pos_bound x (2 ^ 26) ltac:(lia)) as Hmod.
  pose proof (Z.mod_pos_bound (v / 2 ^ 104) (2 ^ 24) ltac:(lia)).
  pose proof (Hmod v). pose proof (Hmod (v / 2 ^ 26)). pose proof (Hmod (v / 2 ^ 52)). pose proof (Hmod (v / 2 ^ 78)). clear Hmod.
  set (t0 := v mod 2 ^ 26) in *. set (t1 := v / 2 ^ 26 mod 2 ^ 26) in *. set (t2 := v / 2 ^ 52 mod 2 ^ 26) in *.
  set (t3 := v / 2 ^ 78 mod 2 ^ 26) in *. set (t4 := v / 2 ^ 104 mod 2 ^ 24) in *. clearbody t0 t1 t2 t3 t4. clear v Hm Hl.
  assert (Hhb : 0 <= hibit <= 2 ^ 24) by (destruct Hhi as [->| ->]; [lia|rewrite Z.shiftl_mul_pow2 by lia; lia]).
  rewrite (u64_small (h0 + t0)), (u64_small (h1 + t1)), (u64_small (h2 + t2)), (u64_small (h3 + t3)), (u64_small (h4 + _)) by lia.
  rewrite (u64_small (r1 * 5)), (u64_small (r2 * 5)), (u64_small (r3 * 5)), (u64_small (r4 * 5)) by lia.
  replace ((val (h0, h1, h2, h3, h4) + val (t0, t1, t2, t3, t4) + hibit * 2 ^ 104)) with
    (val (h0 + t0, h1 + t1, h2 + t2, h3 + t3, h4 + (t4 + hibit))) by (unfold val; ring).
  assert (Hb0 : 0 <= h0 + t0 < 2 ^ 28) by lia. assert (Hb1 : 0 <= h1 + t1 < 2 ^ 28) by lia. assert (Hb2 : 0 <= h2 + t2 < 2 ^ 28) by lia.
  assert (Hb3 : 0 <= h3 + t3 < 2 ^ 28) by lia. assert (Hb4 : 0 <= h4 + (t4 + hibit) < 2 ^ 28) by lia.
  set (g0 := h0 + t0) in *. set (g1 := h1 + t1) in *. set (g2 := h2 + t2) in *. set (g3 := h3 + t3) in *. set (g4 := h4 + (t4 + hibit)) in *.
  clearbody g0 g1 g2 g3 g4. cbv zeta.
  destruct (products_ok r0 r1 r2 r3 r4 g0 g1 g2 g3 g4) as [q Eq].
  repeat match goal with
  | |- context [u64 (?a + ?b + ?c + ?d + ?e)] =>
      let E := fresh "E" in let B := fresh "B" in
      destruct (sum_small a b c d e) as [E B]; [apply product_small; lia..|]; rewrite E; clear E;
      set (a + b + c + d + e) in *
  end.
  eexists. split; [reflexivity|].
  destruct (partial_reduce_ok z z0 z1 z2 z3) as [Hp [q' Eq']]; [assumption..|]. split; [done|].
  rewrite Eq', Eq. rewrite <- (Z_mod_plus_full (_ * _) (- (q + q'))). f_equal. ring.
Qed.

(** ** The final reduction *)

Definition words_val (w : Z * Z * Z * Z) : Z :=
  let '(w0, w1, w2, w3) := w in w0 + w1 * 2 ^ 32 + w2 * 2 ^ 64 + w3 * 2 ^ 96.

Definition words_ok (w : Z * Z * Z * Z) : Prop :=
  let '(w0, w1, w2, w3) := w in 0 <= w0 < 2 ^ 32 /\ 0 <= w1 < 2 ^ 32 /\ 0 <= w2 < 2 ^ 32 /\ 0 <= w3 < 2 ^ 32.

(** Fully carried, every limb has 26 bits. *)
Lemma full_carry h0 h1 h2 h3 h4 :
  partly_reduced (h0, h1, h2, h3, h4) ->
  let c1 := h1 / 2 ^ 26 in let c2 := (h2 + c1) / 2 ^ 26 in let c3 := (h3 + c2) / 2 ^ 26 in let c4 := (h4 + c3) / 2 ^ 26 in
  let c0 := (h0 + c4 * 5) / 2 ^ 26 in
  let k := ((h0 + c4 * 5) mod 2 ^ 26, h1 mod 2 ^ 26 + c0, (h2 + c1) mod 2 ^ 26, (h3 + c2) mod 2 ^ 26, (h4 + c3) mod 2 ^ 26) in
  limbs_ok k /\ val k = val (h0, h1, h2, h3, h4) - c4 * poly_p.
Proof.
  intros (H0 & H1 & H2 & H3 & H4). cbv zeta. unfold limbs_ok, val, poly_p.
  assert (Hc1 : h1 / 2 ^ 26 = 0 /\ h1 mod 2 ^ 26 = h1 /\ h1 < 2 ^ 26 \/ h1 / 2 ^ 26 = 1 /\ 0 <= h1 mod 2 ^ 26 < 2 ^ 11 /\ h1 = 2 ^ 26 + h1 mod 2 ^ 26).
  { destruct (Z.ltb_spec h1 (2 ^ 26)); [left|right]; Z.to_euclidean_division_equations; lia. }
  destruct Hc1 as [(-> & -> & ?)|(-> & ? & Eh1)].
  - rewrite !Z.add_0_r. rewrite (Z.div_small h2), (Z.mod_small h2), !Z.add_0_r by lia.
    rewrite (Z.div_small h3), (Z.mod_small h3), !Z.add_0_r by lia. rewrite (Z.div_small h4), (Z.mod_small h4) by lia.
    rewrite Z.mul_0_l, !Z.add_0_r, (Z.div_small h0), (Z.mod_small h0), !Z.add_0_r by lia. lia.
  - set (l1 := h1 mod 2 ^ 26) in *. clearbody l1. Z.to_euclidean_division_equations. lia.
Qed.

(** Selecting by a mask of zeros or ones. *)
Lemma select_limb h g : 0 <= h < 2 ^ 64 -> 0 <= g < 2 ^ 64 ->
  Z.lor (Z.land h (u64 (Z.lnot 0))) (Z.land g 0) = h /\
  Z.lor (Z.land h (u64 (Z.lnot (2 ^ 64 - 1)))) (Z.land g (2 ^ 64 - 1)) = g.
Proof.
  intros Hh Hg. change (u64 (Z.lnot 0)) with (2 ^ 64 - 1). change (u64 (Z.lnot (2 ^ 64 - 1))) with 0.
  rewrite !land_ones_mod, !Z.land_0_r, Z.lor_0_r, Z.lor_0_l, !Z.mod_small by lia. done.
Qed.

(** The words of a number of five limbs. *)
Lemma pack_words h0 h1 h2 h3 h4 :
  limbs_ok (h0, h1, h2, h3, h4) ->
  let w := (Z.land (Z.lor h0 (u64 (Z.shiftl h1 26))) 0xffffffff, Z.land (Z.lor (Z.shiftr h1 6) (u64 (Z.shiftl h2 20))) 0xffffffff,
            Z.land (Z.lor (Z.shiftr h2 12) (u64 (Z.shiftl h3 14))) 0xffffffff, Z.land (Z.lor (Z.shiftr h3 18) (u64 (Z.shiftl h4 8))) 0xffffffff) in
  words_ok w /\ words_val w = val (h0, h1, h2, h3, h4) mod 2 ^ 128.
Proof.
  intros (H0 & H1 & H2 & H3 & H4). cbv zeta. rewrite !land_32, !shr by lia.
  rewrite !u64_small by (rewrite Z.shiftl_mul_pow2 by lia; lia).
  rewrite (lor_disjoint h0) by lia. rewrite !lor_disjoint by (Z.to_euclidean_division_equations; lia).
  split; [repeat split; first [apply Z.mod_pos_bound; lia]|].
  unfold words_val, val. symmetry.
  set (a1 := h1 / 2 ^ 6). set (a2 := h2 / 2 ^ 12). set (a3 := h3 / 2 ^ 18).
  assert (E : h0 + h1 * 2 ^ 26 + h2 * 2 ^ 52 + h3 * 2 ^ 78 + h4 * 2 ^ 104 =
    (h0 + h1 * 2 ^ 26) mod 2 ^ 32 + (a1 + h2 * 2 ^ 20) mod 2 ^ 32 * 2 ^ 32 + (a2 + h3 * 2 ^ 14) mod 2 ^ 32 * 2 ^ 64 +
      (a3 + h4 * 2 ^ 8) mod 2 ^ 32 * 2 ^ 96 + (h4 / 2 ^ 24) * 2 ^ 128).
  { unfold a1, a2, a3. Z.to_euclidean_division_equations. lia. }
  rewrite E, Z_mod_plus_full. apply Z.mod_small.
  pose proof (fun x => Z.mod_pos_bound x (2 ^ 32) ltac:(lia)) as Hm.
  pose proof (Hm (h0 + h1 * 2 ^ 26)). pose proof (Hm (a1 + h2 * 2 ^ 20)). pose proof (Hm (a2 + h3 * 2 ^ 14)). pose proof (Hm (a3 + h4 * 2 ^ 8)). lia.
Qed.

(** h + -p, and its sign. *)
Lemma minus_p k0 k1 k2 k3 k4 :
  limbs_ok (k0, k1, k2, k3, k4) ->
  let c0 := (k0 + 5) / 2 ^ 26 in let c1 := (k1 + c0) / 2 ^ 26 in let c2 := (k2 + c1) / 2 ^ 26 in let c3 := (k3 + c2) / 2 ^ 26 in
  let g := ((k0 + 5) mod 2 ^ 26, (k1 + c0) mod 2 ^ 26, (k2 + c1) mod 2 ^ 26, (k3 + c2) mod 2 ^ 26, k4 + c3 - 2 ^ 26) in
  val g = val (k0, k1, k2, k3, k4) - poly_p /\ - 2 ^ 26 <= k4 + c3 - 2 ^ 26 <= 0 /\
  0 <= c0 <= 1 /\ 0 <= c1 <= 1 /\ 0 <= c2 <= 1 /\ 0 <= c3 <= 1.
Proof.
  intros (H0 & H1 & H2 & H3 & H4). cbv zeta. unfold val, poly_p.
  assert (Hc : forall x c, 0 <= x < 2 ^ 26 -> 0 <= c <= 5 -> 0 <= (x + c) / 2 ^ 26 <= 1 /\ x + c = (x + c) mod 2 ^ 26 + (x + c) / 2 ^ 26 * 2 ^ 26).
  { intros x c Hx Hcc. Z.to_euclidean_division_equations. lia. }
  destruct (Hc k0 5 H0 ltac:(lia)) as [B0 E0]. set (c0 := (k0 + 5) / _) in *. clearbody c0.
  destruct (Hc k1 c0 H1 ltac:(lia)) as [B1 E1]. set (c1 := (k1 + c0) / _) in *. clearbody c1.
  destruct (Hc k2 c1 H2 ltac:(lia)) as [B2 E2]. set (c2 := (k2 + c1) / _) in *. clearbody c2.
  destruct (Hc k3 c2 H3 ltac:(lia)) as [B3 E3]. set (c3 := (k3 + c2) / _) in *. clearbody c3.
  lia.
Qed.

Lemma mod_p v : 0 <= v < 2 ^ 130 -> v mod poly_p = if v <? poly_p then v else v - poly_p.
Proof.
  unfold poly_p. intros Hv. destruct (Z.ltb_spec v (2 ^ 130 - 5)); [apply Z.mod_small; lia|].
  symmetry. apply (Z.mod_unique_pos _ _ 1); lia.
Qed.

Lemma val_bound h : limbs_ok h -> 0 <= val h < 2 ^ 130.
Proof. destruct h as [[[[h0 h1] h2] h3] h4]. unfold limbs_ok, val. lia. Qed.

Lemma finish_reduce_ok h :
  partly_reduced h -> words_ok (finish_reduce h) /\ words_val (finish_reduce h) = val h mod poly_p mod 2 ^ 128.
Proof.
  intros Hh. destruct h as [[[[h0 h1] h2] h3] h4]. pose proof (full_carry _ _ _ _ _ Hh) as Hk. cbv zeta in Hk.
  destruct Hh as (H0 & H1 & H2 & H3 & H4). unfold finish_reduce. cbv zeta. rewrite !land_26, !(shr _ 26), !(shr _ 63) by lia.
  rewrite (u64_small (h2 + _)), (u64_small (h3 + _)), (u64_small (h4 + _)) by (Z.to_euclidean_division_equations; lia).
  set (c4 := (h4 + _) / 2 ^ 26) in *. assert (0 <= c4 <= 1) by (subst c4; Z.to_euclidean_division_equations; lia).
  rewrite (u64_small (c4 * 5)), (u64_small (h0 + _)) by lia.
  rewrite (u64_small (h1 mod 2 ^ 26 + _)) by (Z.to_euclidean_division_equations; lia).
  set (k0 := (h0 + c4 * 5) mod 2 ^ 26) in *. set (k1 := h1 mod 2 ^ 26 + _) in *. set (k2 := (h2 + _) mod _) in *.
  set (k3 := (h3 + _) mod _) in *. set (k4 := (h4 + _) mod _) in *. destruct Hk as [Hk Ek]. clearbody k0 k1 k2 k3 k4 c4.
  assert (Ev : val (h0, h1, h2, h3, h4) mod poly_p = val (k0, k1, k2, k3, k4) mod poly_p).
  { rewrite Ek. unfold Z.sub. by rewrite <- Z.mul_opp_l, Z_mod_plus_full. }
  rewrite Ev. clear Ev Ek c4 h0 h1 h2 h3 h4 H0 H1 H2 H3 H4 H. rewrite mod_p by (apply val_bound; exact Hk).
  pose proof (minus_p _ _ _ _ _ Hk) as Hg. cbv zeta in Hg. destruct Hg as (Eg & Hg4 & Hc0 & Hc1 & Hc2 & Hc3).
  pose proof Hk as (B0 & B1 & B2 & B3 & B4).
  rewrite (u64_small (k0 + 5)), (u64_small (k1 + _)), (u64_small (k2 + _)), (u64_small (k3 + _)) by lia.
  change (Z.shiftl 1 26) with (2 ^ 26).
  pose proof (fun x => Z.mod_pos_bound x (2 ^ 26) ltac:(lia)) as Hm.
  set (g3 := (k3 + _) mod _) in *. set (c3 := (k3 + _) / _) in *.
  set (g2 := (k2 + _) mod _) in *. set (g1 := (k1 + _) mod _) in *. set (g0 := (k0 + 5) mod _) in *.
  assert (G0 : 0 <= g0 < 2 ^ 26) by apply Hm. assert (G1 : 0 <= g1 < 2 ^ 26) by apply Hm.
  assert (G2 : 0 <= g2 < 2 ^ 26) by apply Hm. assert (G3 : 0 <= g3 < 2 ^ 26) by apply Hm. clearbody g0 g1 g2 g3 c3.
  set (g4 := k4 + c3 - 2 ^ 26) in *. clearbody g4. clear Hm Hc0 Hc1 Hc2 Hc3.
  assert (Hs : g4 = 0 /\ u64 (u64 g4 / 2 ^ 63 - 1) = 2 ^ 64 - 1 \/ g4 < 0 /\ u64 (u64 g4 / 2 ^ 63 - 1) = 0).
  { destruct (Z.eq_dec g4 0) as [->|]; [by left|right]. split; [lia|]. unfold u64.
    replace (g4 mod 2 ^ 64) with (g4 + 2 ^ 64) by (Z.to_euclidean_division_equations; lia).
    replace ((g4 + 2 ^ 64) / 2 ^ 63) with 1 by (Z.to_euclidean_division_equations; lia). done. }
  destruct Hs as [[-> ->]|[Hneg ->]].
  - change (u64 0) with 0.
    rewrite (proj2 (select_limb k0 g0 ltac:(lia) ltac:(lia))), (proj2 (select_limb k1 g1 ltac:(lia) ltac:(lia))),
      (proj2 (select_limb k2 g2 ltac:(lia) ltac:(lia))), (proj2 (select_limb k3 g3 ltac:(lia) ltac:(lia))),
      (proj2 (select_limb k4 0 ltac:(lia) ltac:(lia))).
    assert (Hgl : limbs_ok (g0, g1, g2, g3, 0)) by (unfold limbs_ok; lia).
    destruct (pack_words _ _ _ _ _ Hgl) as [? E]. split; [done|]. rewrite E, Eg.
    pose proof (val_bound _ Hgl). destruct (Z.ltb_spec (val (k0, k1, k2, k3, k4)) poly_p); [lia|done].
  - rewrite (proj1 (select_limb k0 g0 ltac:(lia) ltac:(lia))), (proj1 (select_limb k1 g1 ltac:(lia) ltac:(lia))),
      (proj1 (select_limb k2 g2 ltac:(lia) ltac:(lia))), (proj1 (select_limb k3 g3 ltac:(lia) ltac:(lia))).
    assert (Hu : 0 <= u64 g4 < 2 ^ 64) by (unfold u64; apply Z.mod_pos_bound; lia).
    rewrite (proj1 (select_limb k4 (u64 g4) ltac:(lia) Hu)).
    destruct (pack_words _ _ _ _ _ Hk) as [? E]. split; [done|]. rewrite E.
    assert (val (g0, g1, g2, g3, g4) < 0) by (unfold val; lia).
    destruct (Z.ltb_spec (val (k0, k1, k2, k3, k4)) poly_p); [done|lia].
Qed.

Lemma le_bytes_app n m v : le_bytes (n + m) v = le_bytes n v ++ le_bytes m (v / 256 ^ Z.of_nat n).
Proof.
  revert v. induction n as [|n IH]; intros v; [cbn; by rewrite Z.div_1_r|]. cbn [Nat.add le_bytes app]. f_equal. rewrite IH.
  do 2 f_equal. rewrite Nat2Z.inj_succ, Z.pow_succ_r, Z.div_div by (try apply Z.pow_pos_nonneg; lia). done.
Qed.

Lemma le_bytes_mod n v : le_bytes n (v mod 256 ^ Z.of_nat n) = le_bytes n v.
Proof. rewrite <- le_val_bytes. rewrite <- (length_le_bytes n v) at 1. apply le_bytes_val, is_byte_le_bytes. Qed.

Lemma U32TO8_le v : U32TO8 v = le_bytes 4 v.
Proof.
  unfold U32TO8. rewrite !land_8, !shr by lia. change (2 ^ 8) with 256. cbn [le_bytes]. rewrite !Z.div_div by lia. done.
Qed.

Lemma finish_mac_ok h pad :
  words_ok h -> words_ok pad -> finish_mac h pad = le_bytes 16 (words_val h + words_val pad).
Proof.
  destruct h as [[[h0 h1] h2] h3], pad as [[[p0 p1] p2] p3]. intros (? & ? & ? & ?) (? & ? & ? & ?). unfold finish_mac. cbv zeta.
  rewrite !shr by lia.
  rewrite (u64_small (h0 + p0)) by lia. set (f0 := (h0 + p0) / 2 ^ 32). assert (0 <= f0 <= 1) by (subst f0; Z.to_euclidean_division_equations; lia).
  rewrite (u64_small (h1 + p1 + f0)) by lia. set (f1 := (h1 + p1 + f0) / 2 ^ 32).
  assert (0 <= f1 <= 1) by (subst f1; Z.to_euclidean_division_equations; lia).
  rewrite (u64_small (h2 + p2 + f1)) by lia. set (f2 := (h2 + p2 + f1) / 2 ^ 32).
  assert (0 <= f2 <= 1) by (subst f2; Z.to_euclidean_division_equations; lia).
  rewrite (u64_small (h3 + p3 + f2)) by lia. rewrite !U32TO8_le. set (v := words_val _ + words_val _).
  change 16%nat with (4 + (4 + (4 + 4)))%nat. rewrite !le_bytes_app. change (256 ^ Z.of_nat 4) with (2 ^ 32).
  assert (E : v = (h0 + p0) + ((h1 + p1) + ((h2 + p2) + (h3 + p3) * 2 ^ 32) * 2 ^ 32) * 2 ^ 32) by (unfold v, words_val; lia).
  assert (E1 : v / 2 ^ 32 = (h1 + p1 + f0) + ((h2 + p2) + (h3 + p3) * 2 ^ 32) * 2 ^ 32) by (rewrite E, Z.div_add by lia; fold f0; lia).
  assert (E2 : v / 2 ^ 32 / 2 ^ 32 = (h2 + p2 + f1) + (h3 + p3) * 2 ^ 32) by (rewrite E1, Z.div_add by lia; fold f1; lia).
  assert (E3 : v / 2 ^ 32 / 2 ^ 32 / 2 ^ 32 = h3 + p3 + f2) by (rewrite E2, Z.div_add by lia; fold f2; lia).
  assert (Hm : forall x y, le_bytes 4 (x + y * 2 ^ 32) = le_bytes 4 x).
  { intros x y. rewrite <- le_bytes_mod. change (256 ^ Z.of_nat 4) with (2 ^ 32). rewrite Z_mod_plus_full.
    exact (le_bytes_mod 4 x). }
  rewrite E3, E2, E1, E, !Hm. done.
Qed.

(** ** The key *)

Definition key_ok (key : list Z) : Prop := Forall is_byte key /\ zlen key = 32.

Lemma mod_land a b k : 0 <= k -> Z.land a b mod 2 ^ k = Z.land (a mod 2 ^ k) (b mod 2 ^ k).
Proof.
  intros Hk. apply Z.bits_inj'. intros i Hi. rewrite Z.land_spec. destruct (Z.ltb_spec i k).
  - by rewrite !Z.mod_pow2_bits_low, Z.land_spec by lia.
  - by rewrite !Z.mod_pow2_bits_high by lia.
Qed.

Lemma land_mod_r a b k : 0 <= k -> Z.land a (b mod 2 ^ k) = Z.land (a mod 2 ^ k) (b mod 2 ^ k).
Proof.
  intros Hk. apply Z.bits_inj'. intros i Hi. rewrite !Z.land_spec. destruct (Z.ltb_spec i k).
  - by rewrite !Z.mod_pow2_bits_low by lia.
  - by rewrite !Z.mod_pow2_bits_high, !andb_false_r by lia.
Qed.

(** The limb of weight [2^k] of the clamped number. *)
Lemma land_limb w x a mask k :
  0 <= k -> 0 <= w -> mask = 0x0ffffffc0ffffffc0ffffffc0fffffff / 2 ^ k mod 2 ^ w -> a mod 2 ^ w = x / 2 ^ k mod 2 ^ w ->
  Z.land a mask = clamp x / 2 ^ k mod 2 ^ w.
Proof.
  intros Hk Hw -> Ha. unfold clamp. rewrite <- !(shr _ k), Z.shiftr_land, mod_land, !(shr _ k), land_mod_r by lia. by rewrite Ha.
Qed.

Lemma clamp_val x : clamp x = val (clamp x mod 2 ^ 26, clamp x / 2 ^ 26 mod 2 ^ 26, clamp x / 2 ^ 52 mod 2 ^ 26,
                                   clamp x / 2 ^ 78 mod 2 ^ 26, clamp x / 2 ^ 104 mod 2 ^ 24).
Proof.
  rewrite <- block_limbs. unfold clamp. rewrite mod_land by lia.
  change (0x0ffffffc0ffffffc0ffffffc0fffffff mod 2 ^ 128) with 0x0ffffffc0ffffffc0ffffffc0fffffff.
  apply (land_mod_r x 0x0ffffffc0ffffffc0ffffffc0fffffff 128). lia.
Qed.

Lemma clamp_mod x : clamp (x mod 2 ^ 128) = clamp x.
Proof. symmetry. apply (land_mod_r x 0x0ffffffc0ffffffc0ffffffc0fffffff 128). lia. Qed.

Lemma poly1305_init_ok ctx key :
  key_ok key ->
  exists r pad, poly1305_init ctx key = Some (mkPoly r (0, 0, 0, 0, 0) pad 0 (p_buffer ctx) false) /\
    limbs_ok r /\ val r = clamp (le_val (ztake 16 key)) /\ words_ok pad /\ words_val pad = le_val (ztake 16 (zdrop 16 key)).
Proof.
  intros [Hk Hl]. unfold poly1305_init. change (U8TO32 key) with (U8TO32 (zdrop 0 key)). rewrite !U8TO32_at by (done || lia).
  cbn [mbind option_bind]. do 2 eexists. split; [reflexivity|]. set (v := le_val key).
  assert (Hl26 : forall b s mask, 0 <= b -> 0 <= s <= 6 -> mask = 0x0ffffffc0ffffffc0ffffffc0fffffff / 2 ^ (b + s) mod 2 ^ 26 ->
    Z.land (Z.shiftr (v / 2 ^ b mod 2 ^ 32) s) mask = clamp v / 2 ^ (b + s) mod 2 ^ 26).
  { intros b s mask Hb Hs Hm. apply land_limb; [lia|lia|done|]. rewrite <- land_26. by apply limb_of. }
  assert (E0 : Z.land (v / 2 ^ (8 * 0) mod 2 ^ 32) 0x3ffffff = clamp v mod 2 ^ 26).
  { rewrite <- (Z.div_1_r (clamp v)). exact (Hl26 0 0 0x3ffffff ltac:(lia) ltac:(lia) eq_refl). }
  assert (E1 := Hl26 (8 * 3) 2 0x3ffff03 ltac:(lia) ltac:(lia) eq_refl).
  assert (E2 := Hl26 (8 * 6) 4 0x3ffc0ff ltac:(lia) ltac:(lia) eq_refl).
  assert (E3 := Hl26 (8 * 9) 6 0x3f03fff ltac:(lia) ltac:(lia) eq_refl).
  assert (E4 : Z.land (Z.shiftr (v / 2 ^ (8 * 12) mod 2 ^ 32) 8) 0x00fffff = clamp v / 2 ^ 104 mod 2 ^ 24).
  { apply land_limb; [lia|lia|done|]. pose proof (top_limb v 0 ltac:(by left)) as E. rewrite Z.lor_0_r, Z.add_0_r in E.
    change (8 * 12) with 96. rewrite E. apply Z.mod_mod. lia. }
  rewrite E0, E1, E2, E3, E4. change (8 * 3 + 2) with 26. change (8 * 6 + 4) with 52. change (8 * 9 + 6) with 78.
  pose proof (fun x => Z.mod_pos_bound x (2 ^ 26) ltac:(lia)) as Hm. pose proof (fun x => Z.mod_pos_bound x (2 ^ 32) ltac:(lia)) as Hm32.
  split; [|split; [|split]].
  - pose proof (Z.mod_pos_bound (clamp v / 2 ^ 104) (2 ^ 24) ltac:(lia)). repeat split; first [apply Hm|lia].
  - rewrite <- clamp_val. rewrite le_val_ztake by (done || lia). change (256 ^ 16) with (2 ^ 128). by rewrite clamp_mod.
  - repeat split; apply Hm32.
  - rewrite le_val_ztake by (first [by apply Forall_zdrop|rewrite zlen_zdrop; lia]). rewrite le_val_zdrop by (done || lia). fold v.
    assert (Hs : forall x a b, 0 <= a -> 0 <= b -> x mod 2 ^ (a + b) = x mod 2 ^ a + (x / 2 ^ a mod 2 ^ b) * 2 ^ a).
    { intros x a b Ha Hb. rewrite Z.pow_add_r, Z.rem_mul_r by (first [apply Z.pow_nonzero; lia|apply Z.pow_pos_nonneg; lia|lia]). lia. }
    set (y := v / 256 ^ 16).
    pose proof (Hs y 96 32 ltac:(lia) ltac:(lia)) as E96. pose proof (Hs y 64 32 ltac:(lia) ltac:(lia)) as E64.
    pose proof (Hs y 32 32 ltac:(lia) ltac:(lia)) as E32. change (96 + 32) with 128 in E96. change (64 + 32) with 96 in E64. change (32 + 32) with 64 in E32.
    unfold words_val. change (256 ^ 16) with (2 ^ 128) at 1. rewrite E96, E64, E32. unfold y.
    change (256 ^ 16) with (2 ^ 128). rewrite !Z.div_div, <- !Z.pow_add_r by lia. reflexivity.
Qed.

(** ** Whole blocks *)

Definition whole (m : list Z) : Prop := zlen m mod 16 = 0.

Definition blocks (m : list Z) : nat := Z.to_nat (zlen m / 16).

Lemma blocks_step m : 16 <= zlen m -> blocks m = S (blocks (zdrop 16 m)).
Proof. intros Hl. unfold blocks. rewrite zlen_zdrop by lia. Z.to_euclidean_division_equations. lia. Qed.

Lemma le_val_snoc1 l : le_val (l ++ [1]) = le_val l + 256 ^ zlen l.
Proof. rewrite le_val_app. cbn [le_val foldr]. lia. Qed.

Lemma add_mul_mod a b x r : a mod poly_p = b mod poly_p -> (a + x) * r mod poly_p = (b + x) * r mod poly_p.
Proof.
  intros E. rewrite Z.mul_mod, (Z.mul_mod (b + x)) by done. do 2 f_equal.
  rewrite Z.add_mod, (Z.add_mod b) by done. by rewrite E.
Qed.

Lemma rfc_accumulate_app n k r a m1 m2 :
  zlen m1 = 16 * Z.of_nat n -> rfc_accumulate (n + k) r a (m1 ++ m2) = rfc_accumulate k r (rfc_accumulate n r a m1) m2.
Proof.
  revert a m1. induction n as [|n IH]; intros a m1 Hl.
  - by rewrite (zlen_nil_inv m1) by lia.
  - cbn [Nat.add rfc_accumulate]. rewrite ztake_app_le, zdrop_app_le by lia. apply IH. rewrite zlen_zdrop by lia. lia.
Qed.

Lemma blocks_loop_ok r : limbs_ok r -> forall fuel h m,
  partly_reduced h -> Forall is_byte m -> (length m <= fuel)%nat ->
  exists h', blocks_loop fuel r (Z.shiftl 1 24) h m = Some h' /\ partly_reduced h' /\
    val h' mod poly_p = rfc_accumulate (blocks m) (val r) (val h mod poly_p) m.
Proof.
  intros Hr. induction fuel as [|fuel IH]; intros h m Hh Hm Hf.
  { destruct m; [|cbn in Hf; lia]. by exists h. }
  cbn [blocks_loop]. unfold poly1305_block_size. destruct (Z.leb_spec 16 (zlen m)) as [Hl|Hl].
  - destruct (poly1305_block_ok r h (Z.shiftl 1 24) m Hr Hh ltac:(by right) Hm Hl) as (h1 & -> & Hh1 & E1). cbn [mbind option_bind].
    destruct (IH h1 (zdrop 16 m) Hh1 ltac:(by apply Forall_zdrop)) as (h' & -> & Hh' & E').
    { pose proof (zlen_zdrop 16 m ltac:(lia)) as E. unfold zlen in *. lia. }
    exists h'. split; [done|]. split; [done|]. rewrite E', (blocks_step m) by done. cbn [rfc_accumulate].
    f_equal. rewrite E1, le_val_snoc1, zlen_ztake by lia. change (Z.shiftl 1 24 * 2 ^ 104) with (256 ^ 16).
    rewrite <- Z.add_assoc. apply add_mul_mod. by rewrite Z.mod_mod.
  - exists h. split; [done|]. split; [done|]. unfold blocks. pose proof (zlen_nonneg m). by rewrite Z.div_small by lia.
Qed.

(** ** The state after some octets *)

(** The key, and the whole blocks [full] accumulated. *)
Definition poly_core (key full : list Z) (st : poly1305_state) : Prop :=
  limbs_ok (p_r st) /\ val (p_r st) = clamp (le_val (ztake 16 key)) /\
  words_ok (p_pad st) /\ words_val (p_pad st) = le_val (ztake 16 (zdrop 16 key)) /\
  p_final st = false /\ partly_reduced (p_h st) /\ whole full /\
  val (p_h st) mod poly_p = rfc_accumulate (blocks full) (clamp (le_val (ztake 16 key))) 0 full.

Definition poly_at (key msg : list Z) (st : poly1305_state) : Prop :=
  zlen (p_buffer st) = 16 /\ Forall is_byte (p_buffer st) /\
  exists full rest, msg = full ++ rest /\ poly_core key full st /\ zlen rest < 16 /\
    p_leftover st = zlen rest /\ ztake (zlen rest) (p_buffer st) = rest.

Lemma poly1305_blocks_ok key full st m :
  poly_core key full st -> Forall is_byte m -> whole m ->
  exists h', poly1305_blocks st m = Some (st <| p_h := h' |>) /\ poly_core key (full ++ m) (st <| p_h := h' |>).
Proof.
  intros (Hr & Er & Hp & Ep & Hf & Hh & Hw & Eh) Hm Hwm.
  unfold poly1305_blocks. rewrite Hf. destruct (blocks_loop_ok _ Hr (length m) _ m Hh Hm (le_n _)) as (h' & -> & Hh' & E').
  exists h'. split; [done|]. split; [exact Hr|]. split; [exact Er|]. split; [exact Hp|]. split; [exact Ep|]. split; [exact Hf|].
  split; [exact Hh'|]. unfold whole in *. pose proof (zlen_nonneg full). pose proof (zlen_nonneg m).
  split; [rewrite zlen_app; Z.to_euclidean_division_equations; lia|].
  cbn [set_field p_h]. rewrite E', Eh, Er.
  replace (blocks (full ++ m)) with (blocks full + blocks m)%nat by (unfold blocks; rewrite zlen_app; Z.to_euclidean_division_equations; lia).
  symmetry. apply rfc_accumulate_app. unfold blocks. Z.to_euclidean_division_equations. lia.
Qed.

(** Octets stored behind those of the buffer. *)
Lemma zwrite_behind (b : list Z) l m b' :
  Forall is_byte b -> Forall is_byte m -> 0 <= l -> l + zlen m <= zlen b -> zwrite b l m = Some b' ->
  Forall is_byte b' /\ zlen b' = zlen b /\ ztake (l + zlen m) b' = ztake l b ++ m.
Proof.
  intros Hb Hm Hl Hfit Ew. pose proof (zlen_zwrite _ _ _ _ Ew) as El. pose proof (zlen_nonneg m).
  unfold zwrite in Ew. rewrite !(proj2 (Z.leb_le _ _)) in Ew by lia. injection Ew as <-. split; [|split; [done|]].
  - rewrite !Forall_app. split; [by apply Forall_ztake|]. split; [done|by apply Forall_zdrop].
  - rewrite app_assoc. apply ztake_app_exact. rewrite zlen_app, zlen_ztake by lia. done.
Qed.

Lemma poly_leftover key msg st : poly_at key msg st -> 0 <= p_leftover st < 16.
Proof. intros (_ & _ & full & rest & _ & _ & ? & -> & _). pose proof (zlen_nonneg rest). lia. Qed.

(** Octets put into the buffer without filling it. *)
Lemma buffered key msg st m :
  poly_at key msg st -> Forall is_byte m -> p_leftover st + zlen m < 16 ->
  exists buffer, zwrite (p_buffer st) (p_leftover st) m = Some buffer /\
    poly_at key (msg ++ m) (st <| p_buffer := buffer |> <| p_leftover := p_leftover st + zlen m |>).
Proof.
  intros (Hbl & Hb & full & rest & -> & Hc & Hrl & Hl & Hrest) Hm Hlt. pose proof (zlen_nonneg rest).
  destruct (zwrite_fits (p_buffer st) (p_leftover st) m) as [b' Ew]; [lia|lia|]. exists b'. split; [done|].
  destruct (zwrite_behind (p_buffer st) (p_leftover st) m b' Hb Hm ltac:(lia) ltac:(lia) Ew) as (Hb' & Hl' & Ht). rewrite Hl in *.
  split; [cbn; lia|]. split; [exact Hb'|]. exists full, (rest ++ m). rewrite app_assoc, zlen_app. split; [done|]. split; [exact Hc|].
  split; [lia|]. split; [done|]. cbn [set_field p_buffer]. by rewrite Ht, Hrest.
Qed.

Lemma update_leftover_ok key msg st m :
  poly_at key msg st -> Forall is_byte m ->
  exists st' om, update_leftover st m = Some (st', om) /\
    match om with
    | None => poly_at key (msg ++ m) st'
    | Some m2 => exists m1, m = m1 ++ m2 /\ poly_at key (msg ++ m1) st' /\ p_leftover st' = 0
    end.
Proof.
  intros Hat Hm. pose proof (poly_leftover _ _ _ Hat) as Hlo. pose proof (zlen_nonneg m). unfold update_leftover.
  destruct (Z.eqb_spec (p_leftover st) 0) as [E0|E0]; cbn [negb].
  { exists st, (Some m). split; [done|]. exists []. by rewrite app_nil_r. }
  unfold poly1305_block_size. set (want := if zlen m <? 16 - p_leftover st then zlen m else 16 - p_leftover st).
  assert (Hwant : 0 <= want <= zlen m /\ want <= 16 - p_leftover st /\ (want = zlen m \/ want = 16 - p_leftover st)).
  { unfold want. destruct (Z.ltb_spec (zlen m) (16 - p_leftover st)); lia. }
  clearbody want. destruct Hwant as (Hw1 & Hw2 & Hor).
  destruct (split_at m want Hw1) as (m1 & m2 & -> & Hl1 & _ & -> & ->). apply Forall_app in Hm as [Hm1 Hm2]. rewrite zlen_app in *.
  destruct (Z.ltb_spec (p_leftover st + want) 16) as [Hlt|Hge].
  - destruct (buffered key msg st m1 Hat Hm1 ltac:(lia)) as (b & -> & Hat'). cbn [mbind option_bind set_field p_leftover p_buffer].
    rewrite (proj2 (Z.ltb_lt _ _)) by lia. eexists _, None. split; [reflexivity|].
    rewrite (zlen_nil_inv m2), app_nil_r by lia. rewrite <- Hl1. exact Hat'.
  - destruct Hat as (Hbl & Hb & full & rest & -> & Hc & Hrl & Hl & Hrest).
    destruct (zwrite_fits (p_buffer st) (p_leftover st) m1) as [b Ew]; [lia|lia|].
    destruct (zwrite_behind (p_buffer st) (p_leftover st) m1 b Hb Hm1 ltac:(lia) ltac:(lia) Ew) as (Hb' & Hl' & Ht).
    rewrite Ew. cbn [mbind option_bind set_field p_leftover p_buffer]. rewrite (proj2 (Z.ltb_ge _ _)) by lia.
    assert (E16 : ztake 16 b = rest ++ m1) by (rewrite Hl, Hrest in Ht; rewrite <- Ht; f_equal; lia).
    rewrite E16. pose proof (zlen_nonneg rest).
    set (st1 := st <| p_buffer := b |> <| p_leftover := p_leftover st + want |>).
    destruct (poly1305_blocks_ok key full st1 (rest ++ m1)) as (h' & E & Hc'); [exact Hc|by rewrite <- E16; apply Forall_ztake| |].
    { unfold whole. rewrite zlen_app. replace (zlen rest + zlen m1) with 16 by lia. done. }
    match goal with |- context [poly1305_blocks ?s _] => change s with st1 end. rewrite E. cbn [mbind option_bind].
    eexists _, (Some m2). split; [reflexivity|]. exists m1. split; [done|]. split; [|done].
    split; [cbn; lia|]. split; [exact Hb'|]. exists (full ++ rest ++ m1), []. rewrite app_nil_r, app_assoc.
    split; [done|]. split; [rewrite <- app_assoc; exact Hc'|]. split; [done|]. split; done.
Qed.

Lemma update_blocks_ok key msg st m :
  poly_at key msg st -> p_leftover st = 0 -> Forall is_byte m ->
  exists st' k m', update_blocks st m = Some (st', m') /\ m = k ++ m' /\ zlen m' < 16 /\
    poly_at key (msg ++ k) st' /\ p_leftover st' = 0.
Proof.
  intros Hat H0 Hm. unfold update_blocks, poly1305_block_size. destruct (Z.leb_spec 16 (zlen m)) as [Hl|Hl].
  - cbv zeta. set (want := Z.land _ _).
    assert (Ew : want = 16 * (zlen m / 16)).
    { unfold want. change (16 - 1) with (Z.ones 4). rewrite <- Z.ldiff_land, Z.ldiff_ones_r, Z.shiftl_mul_pow2, Z.shiftr_div_pow2 by lia.
      change (2 ^ 4) with 16. lia. }
    destruct (split_at m want) as (k & m' & -> & Hk & _ & -> & ->); [Z.to_euclidean_division_equations; lia|].
    rewrite zlen_app in *. apply Forall_app in Hm as [Hmk Hm'].
    destruct Hat as (Hbl & Hb & full & rest & -> & Hc & _ & Hlo & _). rewrite H0 in Hlo. symmetry in Hlo. apply zlen_nil_inv in Hlo as ->.
    destruct (poly1305_blocks_ok key full st k Hc Hmk) as (h' & -> & Hc'); [unfold whole; Z.to_euclidean_division_equations; lia|].
    cbn [mbind option_bind]. eexists _, k, m'. split; [reflexivity|]. split; [done|]. split; [Z.to_euclidean_division_equations; lia|].
    split; [|done]. split; [done|]. split; [done|]. exists (full ++ k), []. by rewrite !app_nil_r.
  - exists st, [], m. by rewrite app_nil_r.
Qed.

Lemma poly1305_update_ok key msg st m :
  poly_at key msg st -> Forall is_byte m ->
  exists st', poly1305_update st m = Some st' /\ poly_at key (msg ++ m) st'.
Proof.
  intros Hat Hm. unfold poly1305_update. destruct (update_leftover_ok key msg st m Hat Hm) as (st1 & om & -> & H1).
  cbn [mbind option_bind]. destruct om as [m2|]; [|by exists st1]. destruct H1 as (m1 & -> & Hat1 & H0).
  apply Forall_app in Hm as [_ Hm2]. rewrite (app_assoc msg).
  destruct (update_blocks_ok _ _ _ m2 Hat1 H0 Hm2) as (st2 & k & m' & -> & -> & Hl & Hat2 & H2). cbn [mbind option_bind].
  apply Forall_app in Hm2 as [_ Hm']. rewrite (app_assoc (msg ++ m1)). destruct (Z.eqb_spec (zlen m') 0) as [E0|E0]; cbn [negb].
  - exists st2. split; [done|]. by rewrite (zlen_nil_inv m'), app_nil_r.
  - destruct (buffered _ _ _ m' Hat2 Hm' ltac:(lia)) as (b & -> & Hat3). cbn [mbind option_bind]. by eexists.
Qed.

(** ** The authenticator *)

Lemma le_val_zeros n : le_val (zrep n 0) = 0.
Proof. unfold zrep. induction (Z.to_nat n) as [|k IH]; [done|]. cbn. unfold le_val in IH. lia. Qed.

Lemma blocks_loop_one fuel r hibit h m h' :
  zlen m = 16 -> poly1305_block r hibit h m = Some h' -> blocks_loop (S fuel) r hibit h m = Some h'.
Proof.
  intros Hl E. cbn [blocks_loop]. unfold poly1305_block_size. rewrite Hl, E. cbn [mbind option_bind].
  change (16 <=? 16) with true. assert (Ez : zdrop 16 m = []) by (apply zlen_nil_inv; rewrite zlen_zdrop by lia; lia).
  rewrite Ez. by destruct fuel.
Qed.

Lemma finish_block_ok key msg st :
  poly_at key msg st ->
  exists st', finish_block st = Some st' /\ partly_reduced (p_h st') /\ p_pad st' = p_pad st /\
    val (p_h st') mod poly_p = rfc_accumulate (Z.to_nat ((zlen msg + 15) / 16)) (clamp (le_val (ztake 16 key))) 0 msg.
Proof.
  intros (Hbl & Hb & full & rest & -> & Hc & Hrl & Hl & Hrest). pose proof (zlen_nonneg rest). pose proof (zlen_nonneg full).
  destruct Hc as (Hr & Er & Hp & Ep & Hf & Hh & Hw & Eh). unfold whole in Hw.
  assert (Efull : zlen full = 16 * Z.of_nat (blocks full)) by (unfold blocks; Z.to_euclidean_division_equations; lia).
  unfold finish_block. destruct (Z.eqb_spec (p_leftover st) 0) as [E0|E0]; cbn [negb].
  - exists st. split; [done|]. split; [done|]. split; [done|]. rewrite Eh. rewrite (zlen_nil_inv rest), app_nil_r by lia.
    f_equal. unfold blocks. Z.to_euclidean_division_equations. lia.
  - unfold poly1305_block_size. destruct (zwrite_fits (p_buffer st) (p_leftover st) [1]) as [b1 E1]; [lia|change (zlen [1]) with 1; lia|].
    rewrite E1. cbn [mbind option_bind].
    destruct (zwrite_behind (p_buffer st) (p_leftover st) [1] b1 Hb) as (Hb1 & Hl1 & Ht1); [by repeat constructor|lia|change (zlen [1]) with 1; lia|done|].
    change (zlen [1]) with 1 in Ht1. set (n := 16 - (p_leftover st + 1)).
    assert (Hzn : zlen (zrep n 0) = n) by (apply zlen_rep; lia).
    destruct (zwrite_fits b1 (p_leftover st + 1) (zrep n 0)) as [b2 E2]; [lia|lia|]. rewrite E2. cbn [mbind option_bind].
    destruct (zwrite_behind b1 (p_leftover st + 1) (zrep n 0) b2 Hb1) as (Hb2 & Hl2 & Ht2);
      [by apply Forall_replicate|lia|lia|done|].
    rewrite Hzn in Ht2. replace (p_leftover st + 1 + n) with 16 in Ht2 by lia. rewrite Ht1, Hl, Hrest in Ht2.
    assert (Hz16 : zlen (ztake 16 b2) = 16) by (rewrite zlen_ztake; lia).
    unfold poly1305_blocks. cbn [set_field p_final p_r p_h]. remember (ztake 16 b2) as blk eqn:Eblk.
    replace (length blk) with (S 15) by (unfold zlen in Hz16; lia).
    destruct (poly1305_block_ok (p_r st) (p_h st) 0 blk Hr Hh ltac:(by left)) as (h' & Eb & Hh' & Eh');
      [subst blk; by apply Forall_ztake|lia|]. rewrite (blocks_loop_one _ _ _ _ _ _ Hz16 Eb).
    cbn [mbind option_bind]. eexists. split; [reflexivity|]. split; [done|]. split; [done|].
    cbn [set_field p_h]. rewrite Eh', zlen_app, Er.
    replace (Z.to_nat ((zlen full + zlen rest + 15) / 16)) with (blocks full + 1)%nat by (Z.to_euclidean_division_equations; lia).
    rewrite rfc_accumulate_app by done. cbn [rfc_accumulate]. rewrite <- Eh, (ztake_all 16 rest), (ztake_all 16 blk) by lia.
    rewrite Z.mul_0_l, Z.add_0_r, Ht2. rewrite !le_val_app, le_val_zeros, Z.mul_0_r, Z.add_0_r. apply add_mul_mod. by rewrite Z.mod_mod.
Qed.

(** A sequence of updates. *)
Fixpoint poly1305_updates (st : poly1305_state) (ms : list (list Z)) : option poly1305_state :=
  match ms with
  | [] => Some st
  | m :: ms => st ← CRYPTO_poly1305_update st m; poly1305_updates st ms
  end.

Lemma poly1305_updates_ok key ms : forall msg st,
  poly_at key msg st -> Forall (Forall is_byte) ms ->
  exists st', poly1305_updates st ms = Some st' /\ poly_at key (msg ++ concat ms) st'.
Proof.
  induction ms as [|m ms IH]; intros msg st Hat Hms; [exists st; cbn; by rewrite app_nil_r|].
  apply Forall_cons in Hms as [Hm Hms]. destruct (poly1305_update_ok key msg st m Hat Hm) as (st1 & E1 & Hat1).
  cbn [poly1305_updates concat]. unfold CRYPTO_poly1305_update. rewrite E1, app_assoc. by apply IH.
Qed.

Lemma poly1305_init_at ctx key :
  key_ok key -> zlen (p_buffer ctx) = 16 -> Forall is_byte (p_buffer ctx) ->
  exists st, CRYPTO_poly1305_init ctx key = Some st /\ poly_at key [] st.
Proof.
  intros Hk Hl Hb. destruct (poly1305_init_ok ctx key Hk) as (r & pad & E & Hr & Er & Hp & Ep). eexists. split; [exact E|].
  split; [done|]. split; [done|]. exists [], []. split; [done|]. split; [|done]. split; [done|]. split; [done|]. split; [done|]. split; [done|].
  split; [done|]. split; [cbn; lia|]. done.
Qed.

Lemma poly1305_finish_ok key msg st :
  poly_at key msg st -> exists st', CRYPTO_poly1305_finish st = Some (rfc_poly1305_mac key msg, st').
Proof.
  intros Hat. destruct (finish_block_ok _ _ _ Hat) as (st1 & E & Hh & Epad & Eh). unfold CRYPTO_poly1305_finish, poly1305_finish.
  rewrite E. cbn [mbind option_bind]. eexists. do 2 f_equal. rewrite Epad.
  destruct (finish_reduce_ok _ Hh) as [Hw Ew]. destruct Hat as (_ & _ & full & rest & _ & Hc & _).
  destruct Hc as (_ & _ & Hp & Ep & _). rewrite finish_mac_ok, Ew, Eh, Ep by done. unfold rfc_poly1305_mac.
  rewrite <- le_bytes_mod, <- (le_bytes_mod 16 (rfc_accumulate _ _ _ _ + _)). change (256 ^ Z.of_nat 16) with (2 ^ 128). f_equal.
  apply Zplus_mod_idemp_l.
Qed.

(** C11. Poly1305 over limbs is the Poly1305 of RFC 8439: however the message is cut
    into updates, the authenticator is the polynomial of its blocks modulo 2^130 - 5
    plus the second half of the key modulo 2^128; no sum or product overflows. *)
Theorem poly1305_correct ctx key ms :
  key_ok key -> zlen (p_buffer ctx) = 16 -> Forall is_byte (p_buffer ctx) -> Forall (Forall is_byte) ms ->
  exists st0 st st', CRYPTO_poly1305_init ctx key = Some st0 /\ poly1305_updates st0 ms = Some st /\
    CRYPTO_poly1305_finish st = Some (rfc_poly1305_mac key (concat ms), st').
Proof.
  intros Hk Hl Hb Hms. destruct (poly1305_init_at ctx key Hk Hl Hb) as (st0 & E0 & Hat0).
  destruct (poly1305_updates_ok key ms [] st0 Hat0 Hms) as (st & E & Hat).
  destruct (poly1305_finish_ok _ _ _ Hat) as (st' & E'). by exists st0, st, st'.
Qed.

(** The key, the message and the tag of RFC 8439, section 2.5.2. *)
Definition mac_key : list Z :=
  [0x85; 0xd6; 0xbe; 0x78; 0x57; 0x55; 0x6d; 0x33; 0x7f; 0x44; 0x52; 0xfe; 0x42; 0xd5; 0x06; 0xa8;
   0x01; 0x03; 0x80; 0x8a; 0xfb; 0x0d; 0xb2; 0xfd; 0x4a; 0xbf; 0xf6; 0xaf; 0x41; 0x49; 0xf5; 0x1b].
Definition mac_message : list (list Z) :=
  [[0x43; 0x72; 0x79; 0x70; 0x74; 0x6f; 0x67; 0x72; 0x61; 0x70; 0x68; 0x69; 0x63; 0x20; 0x46; 0x6f; 0x72; 0x75; 0x6d]; [];
   [0x20; 0x52; 0x65; 0x73; 0x65; 0x61; 0x72; 0x63; 0x68; 0x20; 0x47; 0x72; 0x6f; 0x75; 0x70]].

Lemma poly1305_correct_witness :
  rfc_poly1305_mac mac_key (concat mac_message) =
    [0xa8; 0x06; 0x1d; 0xc1; 0x30; 0x51; 0x36; 0xc6; 0xc2; 0x2b; 0x8b; 0xaf; 0x0c; 0x01; 0x27; 0xa9] /\
  exists st0 st st', CRYPTO_poly1305_init no_poly1305_state mac_key = Some st0 /\ poly1305_updates st0 mac_message = Some st /\
    CRYPTO_poly1305_finish st = Some (rfc_poly1305_mac mac_key (concat mac_message), st').
Proof.
  split; [by vm_compute|].
  apply (poly1305_correct no_poly1305_state mac_key mac_message); [split; [by apply (bool_decide_unpack _)|done]|done| |];
    by apply (bool_decide_unpack _).
Defined.
