(* ===== verification/Aead.v ===== *)
(** * The ChaCha20-Poly1305 AEAD

    lib/libcrypto/evp/evp_aead.c and evp/e_chacha20poly1305.c: the EVP_AEAD
    interface and its two instances ChaCha20-Poly1305 (RFC 8439) and
    XChaCha20-Poly1305.  (The EVP_CIPHER of the second file is in ChaChaCipher.v.)
    The output buffer is the state of the functions that seal and open.  A
    message is encrypted in place or into a buffer that does not overlap it from
    below ([check_alias]), so the octets read are those of the caller. *)

From stdpp Require Import gmap.
From S2P Require Import Prelude Cbs Cbb ChaCha Poly1305.
Open Scope Z_scope.

Definition POLY1305_TAG_LEN : Z := 16.
Definition CHACHA20_CONSTANT_LEN : Z := 4.
Definition CHACHA20_IV_LEN : Z := 8.
Definition CHACHA20_NONCE_LEN : Z := CHACHA20_CONSTANT_LEN + CHACHA20_IV_LEN.
Definition XCHACHA20_NONCE_LEN : Z := 24.

(** ** The EVP_AEAD interface *)

(** The buffer [out] of [max_out_len] octets and [*out_len]. *)
Record aead_out : Type := mkOut { out : list Z; out_len : Z }.

(** [S] is the type of [ctx->aead_state]. Of the context the functions see
    [ctx->aead->nonce_len] and [ctx->aead_state]; then come nonce, input and
    additional data. *)
Record EVP_AEAD {S : Type} : Type := mkEVP_AEAD {
  key_len : Z;
  nonce_len : Z;
  overhead : Z;
  max_tag_len : Z;
  aead_init : list Z -> Z -> option S;
  aead_seal : Z -> S -> list Z -> list Z -> list Z -> M aead_out unit;
  aead_open : Z -> S -> list Z -> list Z -> list Z -> M aead_out unit;
}.
Arguments EVP_AEAD S : clear implicits.
Arguments mkEVP_AEAD {S}.

(** [None] is NULL. *)
Record EVP_AEAD_CTX {S : Type} : Type := mkAeadCtx { ctx_aead : option (EVP_AEAD S); aead_state : option S }.
Arguments EVP_AEAD_CTX S : clear implicits.
Arguments mkAeadCtx {S}.

Definition EVP_AEAD_key_length {S} (aead : EVP_AEAD S) : Z := key_len aead.
Definition EVP_AEAD_nonce_length {S} (aead : EVP_AEAD S) : Z := nonce_len aead.
Definition EVP_AEAD_max_overhead {S} (aead : EVP_AEAD S) : Z := overhead aead.
Definition EVP_AEAD_max_tag_len {S} (aead : EVP_AEAD S) : Z := max_tag_len aead.

Section evp_aead.
Context {S : Type}.

Definition EVP_AEAD_CTX_init (aead : EVP_AEAD S) (key : list Z) (tag_len : Z) : M (EVP_AEAD_CTX S) unit :=
  modify (fun ctx => mkAeadCtx (Some aead) (aead_state ctx));;
  check (zlen key =? key_len aead);;
  match aead_init aead key tag_len with
  | None => fail
  | Some st => modify (fun ctx => mkAeadCtx (ctx_aead ctx) (Some st))
  end.

(** The state is erased and freed. *)
Definition EVP_AEAD_CTX_cleanup : M (EVP_AEAD_CTX S) unit :=
  ctx ← gets id;
  match ctx_aead ctx with
  | None => mret tt
  | Some _ => modify (fun _ => mkAeadCtx None None)
  end.

(** Whether [out] may be written while [in] is read: the addresses. *)
Definition check_alias (in_p in_len out_p : Z) : bool :=
  if out_p <=? in_p then true
  else if in_p + in_len <=? out_p then true
  else false.

(** [error:] the output is cleared. *)
Definition clear_out : M aead_out unit := modify (fun o => mkOut (zrep (zlen (out o)) 0) 0).

Definition or_clear (m : M aead_out unit) : M aead_out unit :=
  r ← try m;
  match r with
  | Some _ => mret tt
  | None => clear_out;; fail
  end.

(** [in_p] and [out_p] are the addresses of the buffers. *)
Definition EVP_AEAD_CTX_seal (ctx : EVP_AEAD_CTX S) (in_p out_p : Z) (nonce input ad : list Z) : M aead_out unit :=
  aead ← valid (ctx_aead ctx);
  or_clear (
    let possible_out_len := u64 (zlen input + overhead aead) in
    check (negb (possible_out_len <? zlen input));;
    check (check_alias in_p (zlen input) out_p);;
    st ← valid (aead_state ctx);
    aead_seal aead (nonce_len aead) st nonce input ad).

Definition EVP_AEAD_CTX_open (ctx : EVP_AEAD_CTX S) (in_p out_p : Z) (nonce input ad : list Z) : M aead_out unit :=
  aead ← valid (ctx_aead ctx);
  or_clear (
    check (check_alias in_p (zlen input) out_p);;
    st ← valid (aead_state ctx);
    aead_open aead (nonce_len aead) st nonce input ad).
End evp_aead.

(** ** ChaCha20-Poly1305 *)

Record aead_chacha20_poly1305_ctx : Type := mkC20 { c20_key : list Z; c20_tag_len : Z }.

(** [for (i = 0; i < sizeof(length_bytes); i++)] *)
Fixpoint length_bytes (n : nat) (j : Z) : list Z :=
  match n with
  | O => []
  | S n => u8 j :: length_bytes n (Z.shiftr j 8)
  end.

(** [data]: [None] is NULL. *)
Definition poly1305_update_with_length (poly1305 : poly1305_state) (data : option (list Z)) (data_len : Z) : option poly1305_state :=
  poly1305 ← (match data with
              | None => Some poly1305
              | Some data => CRYPTO_poly1305_update poly1305 (ztake data_len data)
              end);
  CRYPTO_poly1305_update poly1305 (length_bytes 8 data_len).

Definition poly1305_pad16 (poly1305 : poly1305_state) (data_len : Z) : option poly1305_state :=
  let pad_len := data_len mod 16 in
  if pad_len =? 0 then Some poly1305 else CRYPTO_poly1305_update poly1305 (zrep (16 - pad_len) 0).

Definition poly1305_update_with_pad16 (poly1305 : poly1305_state) (data : list Z) : option poly1305_state :=
  poly1305 ← CRYPTO_poly1305_update poly1305 data;
  poly1305_pad16 poly1305 (zlen data).

(** The first four octets of the nonce are the high half of the counter. *)
Definition nonce_ctr (nonce : list Z) : option Z :=
  match nonce with
  | n0 :: n1 :: n2 :: n3 :: _ => Some (u64 (Z.shiftl (U8TO32_LITTLE n0 n1 n2 n3) 32))
  | _ => None
  end.

(** Octets stored at [out + i]. *)
Definition write_out (i : Z) (bs : list Z) : M aead_out unit :=
  o ← gets id;
  buf ← valid (zwrite (out o) i bs);
  modify (fun o => mkOut buf (out_len o)).

Definition set_out_len (n : Z) : M aead_out unit := modify (fun o => mkOut (out o) n).

(** The tag behind the ciphertext. *)
Definition put_tag (poly1305 : poly1305_state) (in_len tag_len : Z) : M aead_out unit :=
  '(tag, _) ← valid (CRYPTO_poly1305_finish poly1305);
  if negb (tag_len =? POLY1305_TAG_LEN) then
    write_out in_len (ztake tag_len tag);;
    set_out_len (in_len + tag_len)
  else
    write_out in_len tag;;
    set_out_len (in_len + POLY1305_TAG_LEN).

Section aead_chacha20_poly1305.
Context (malloc_ok : Z -> bool).

Definition sizeof_aead_chacha20_poly1305_ctx : Z := 33.

Definition aead_chacha20_poly1305_init (key : list Z) (tag_len : Z) : option aead_chacha20_poly1305_ctx :=
  let tag_len := if tag_len =? 0 then POLY1305_TAG_LEN else tag_len in
  if POLY1305_TAG_LEN <? tag_len then None
  else if negb (zlen key =? 32) then None
  else if negb (malloc_ok sizeof_aead_chacha20_poly1305_ctx) then None
  else Some (mkC20 key tag_len).

Definition aead_chacha20_poly1305_seal (aead_nonce_len : Z) (c20_ctx : aead_chacha20_poly1305_ctx)
    (nonce input ad : list Z) : M aead_out unit :=
  o ← gets id;
  check (negb (zlen (out o) <? u64 (zlen input + c20_tag_len c20_ctx)));;
  check (zlen nonce =? aead_nonce_len);;
  ctr ← valid (nonce_ctr nonce);
  let iv := zdrop CHACHA20_CONSTANT_LEN nonce in
  poly1305_key ← valid (CRYPTO_chacha_20 (zrep 32 0) (c20_key c20_ctx) iv ctr);
  poly1305 ← valid (CRYPTO_poly1305_init no_poly1305_state poly1305_key);
  poly1305 ← valid (poly1305_update_with_pad16 poly1305 ad);
  enc ← valid (CRYPTO_chacha_20 input (c20_key c20_ctx) iv (u64 (ctr + 1)));
  write_out 0 enc;;
  poly1305 ← valid (poly1305_update_with_pad16 poly1305 enc);
  poly1305 ← valid (poly1305_update_with_length poly1305 None (zlen ad));
  poly1305 ← valid (poly1305_update_with_length poly1305 None (zlen input));
  put_tag poly1305 (zlen input) (c20_tag_len c20_ctx).

Definition aead_chacha20_poly1305_open (aead_nonce_len : Z) (c20_ctx : aead_chacha20_poly1305_ctx)
    (nonce input ad : list Z) : M aead_out unit :=
  check (negb (zlen input <? c20_tag_len c20_ctx));;
  check (zlen nonce =? aead_nonce_len);;
  let plaintext_len := zlen input - c20_tag_len c20_ctx in
  o ← gets id;
  check (negb (zlen (out o) <? plaintext_len));;
  ctr ← valid (nonce_ctr nonce);
  let iv := zdrop CHACHA20_CONSTANT_LEN nonce in
  poly1305_key ← valid (CRYPTO_chacha_20 (zrep 32 0) (c20_key c20_ctx) iv ctr);
  poly1305 ← valid (CRYPTO_poly1305_init no_poly1305_state poly1305_key);
  poly1305 ← valid (poly1305_update_with_pad16 poly1305 ad);
  poly1305 ← valid (poly1305_update_with_pad16 poly1305 (ztake plaintext_len input));
  poly1305 ← valid (poly1305_update_with_length poly1305 None (zlen ad));
  poly1305 ← valid (poly1305_update_with_length poly1305 None plaintext_len);
  '(mac, _) ← valid (CRYPTO_poly1305_finish poly1305);
  check (timingsafe_memcmp (ztake (c20_tag_len c20_ctx) mac) (zdrop plaintext_len input) 0 0 =? 0);;
  plain ← valid (CRYPTO_chacha_20 (ztake plaintext_len input) (c20_key c20_ctx) iv (u64 (ctr + 1)));
  write_out 0 plain;;
  set_out_len plaintext_len.

Definition aead_xchacha20_poly1305_seal (aead_nonce_len : Z) (c20_ctx : aead_chacha20_poly1305_ctx)
    (nonce input ad : list Z) : M aead_out unit :=
  o ← gets id;
  check (negb (zlen (out o) <? u64 (zlen input + c20_tag_len c20_ctx)));;
  check (zlen nonce =? aead_nonce_len);;
  subkey ← valid (CRYPTO_hchacha_20 (c20_key c20_ctx) nonce);
  enc ← valid (CRYPTO_chacha_20 input subkey (zdrop 16 nonce) 1);
  write_out 0 enc;;
  poly1305_key ← valid (CRYPTO_chacha_20 (zrep 32 0) subkey (zdrop 16 nonce) 0);
  poly1305 ← valid (CRYPTO_poly1305_init no_poly1305_state poly1305_key);
  poly1305 ← valid (poly1305_update_with_pad16 poly1305 ad);
  poly1305 ← valid (poly1305_update_with_pad16 poly1305 enc);
  poly1305 ← valid (poly1305_update_with_length poly1305 None (zlen ad));
  poly1305 ← valid (poly1305_update_with_length poly1305 None (zlen input));
  put_tag poly1305 (zlen input) (c20_tag_len c20_ctx).

Definition aead_xchacha20_poly1305_open (aead_nonce_len : Z) (c20_ctx : aead_chacha20_poly1305_ctx)
    (nonce input ad : list Z) : M aead_out unit :=
  check (negb (zlen input <? c20_tag_len c20_ctx));;
  check (zlen nonce =? aead_nonce_len);;
  let plaintext_len := zlen input - c20_tag_len c20_ctx in
  o ← gets id;
  check (negb (zlen (out o) <? plaintext_len));;
  subkey ← valid (CRYPTO_hchacha_20 (c20_key c20_ctx) nonce);
  poly1305_key ← valid (CRYPTO_chacha_20 (zrep 32 0) subkey (zdrop 16 nonce) 0);
  poly1305 ← valid (CRYPTO_poly1305_init no_poly1305_state poly1305_key);
  poly1305 ← valid (poly1305_update_with_pad16 poly1305 ad);
  poly1305 ← valid (poly1305_update_with_pad16 poly1305 (ztake plaintext_len input));
  poly1305 ← valid (poly1305_update_with_length poly1305 None (zlen ad));
  poly1305 ← valid (poly1305_update_with_length poly1305 None plaintext_len);
  '(mac, _) ← valid (CRYPTO_poly1305_finish poly1305);
  check (timingsafe_memcmp (ztake (c20_tag_len c20_ctx) mac) (zdrop plaintext_len input) 0 0 =? 0);;
  plain ← valid (CRYPTO_chacha_20 (ztake plaintext_len input) subkey (zdrop 16 nonce) 1);
  write_out 0 plain;;
  set_out_len plaintext_len.

Definition aead_chacha20_poly1305 : EVP_AEAD aead_chacha20_poly1305_ctx :=
  mkEVP_AEAD 32 CHACHA20_NONCE_LEN POLY1305_TAG_LEN POLY1305_TAG_LEN
    aead_chacha20_poly1305_init aead_chacha20_poly1305_seal aead_chacha20_poly1305_open.
Definition EVP_aead_chacha20_poly1305 : EVP_AEAD aead_chacha20_poly1305_ctx := aead_chacha20_poly1305.

Definition aead_xchacha20_poly1305 : EVP_AEAD aead_chacha20_poly1305_ctx :=
  mkEVP_AEAD 32 XCHACHA20_NONCE_LEN POLY1305_TAG_LEN POLY1305_TAG_LEN
    aead_chacha20_poly1305_init aead_xchacha20_poly1305_seal aead_xchacha20_poly1305_open.
Definition EVP_aead_xchacha20_poly1305 : EVP_AEAD aead_chacha20_poly1305_ctx := aead_xchacha20_poly1305.
End aead_chacha20_poly1305.

(** ** The AEAD of RFC 8439, section 2.8 *)

Definition rfc_pad16 (l : list Z) : list Z := zrep ((- zlen l) mod 16) 0.

Definition rfc_mac_data (ad enc : list Z) : list Z :=
  ad ++ rfc_pad16 ad ++ enc ++ rfc_pad16 enc ++ le_bytes 8 (zlen ad) ++ le_bytes 8 (zlen enc).

(** [n] octets of the key stream that starts with the block [k]. *)
Definition rfc_stream (key nonce : list Z) (k n : Z) : list Z :=
  map (fun i => default 0 (zget (rfc_block key (k + i / 64) nonce) (i mod 64))) (seqZ 0 n).

(** Ciphertext and the first [tag_len] octets of the tag. *)
Definition rfc_seal (key nonce plain ad : list Z) (tag_len : Z) : list Z :=
  let enc := xor_octets plain (rfc_stream key nonce 1 (zlen plain)) in
  enc ++ ztake tag_len (rfc_poly1305_mac (rfc_stream key nonce 0 32) (rfc_mac_data ad enc)).

(** HChaCha20: the rounds without the final addition; the first and the last row. *)
Definition rfc_hchacha (key nonce : list Z) : list Z :=
  let s := Nat.iter 10 inner_block (rfc_constants ++ le_words 8 key ++ le_words 4 nonce) in
  concat (map (le_bytes 4) (take 4 s ++ drop 12 s)).

(** XChaCha20-Poly1305: under the derived key, with the rest of the nonce. *)
Definition rfc_xseal (key nonce plain ad : list Z) (tag_len : Z) : list Z :=
  rfc_seal (rfc_hchacha key (ztake 16 nonce)) (zrep 4 0 ++ zdrop 16 nonce) plain ad tag_len.

(** ** The authenticated data *)

Lemma length_bytes_le n j : 0 <= j -> length_bytes n j = le_bytes n j.
Proof.
  revert j. induction n as [|n IH]; intros j Hj; [done|]. cbn [length_bytes le_bytes]. unfold u8.
  rewrite Z.shiftr_div_pow2 by lia. change (2 ^ 8) with 256. rewrite IH by (apply Z.div_pos; lia). done.
Qed.

Lemma is_byte_rfc_pad16 l : Forall is_byte (rfc_pad16 l).
Proof. by apply is_byte_zrep. Qed.

Section mac.
Context (key : list Z).

Lemma pad16_ok msg st n data :
  poly_at key msg st -> n = zlen data ->
  exists st', poly1305_pad16 st n = Some st' /\ poly_at key (msg ++ rfc_pad16 data) st'.
Proof using.
  intros Hat ->. unfold poly1305_pad16, rfc_pad16. destruct (Z.eqb_spec (zlen data mod 16) 0) as [E|E].
  - exists st. replace (- zlen data mod 16) with 0 by (Z.to_euclidean_division_equations; lia). by rewrite app_nil_r.
  - replace (- zlen data mod 16) with (16 - zlen data mod 16) by (Z.to_euclidean_division_equations; lia).
    apply (poly1305_update_ok _ _ _ _ Hat). by apply is_byte_zrep.
Qed.

Lemma with_pad16_ok msg st data :
  poly_at key msg st -> Forall is_byte data ->
  exists st', poly1305_update_with_pad16 st data = Some st' /\ poly_at key (msg ++ data ++ rfc_pad16 data) st'.
Proof using.
  intros Hat Hd. unfold poly1305_update_with_pad16, CRYPTO_poly1305_update.
  destruct (poly1305_update_ok key msg st data Hat Hd) as (st1 & -> & Hat1). cbn [mbind option_bind].
  rewrite app_assoc. by apply pad16_ok.
Qed.

Lemma with_length_ok msg st n :
  poly_at key msg st -> 0 <= n -> exists st', poly1305_update_with_length st None n = Some st' /\ poly_at key (msg ++ le_bytes 8 n) st'.
Proof using.
  intros Hat Hn. unfold poly1305_update_with_length. cbn [mbind option_bind]. rewrite length_bytes_le by done.
  apply (poly1305_update_ok _ _ _ _ Hat), is_byte_le_bytes.
Qed.

(** The authenticator over additional data and ciphertext. *)
Lemma mac_chain ad enc n :
  key_ok key -> Forall is_byte ad -> Forall is_byte enc -> n = zlen enc ->
  exists p0 p1 p2 p3 p4 p5, CRYPTO_poly1305_init no_poly1305_state key = Some p0 /\
    poly1305_update_with_pad16 p0 ad = Some p1 /\ poly1305_update_with_pad16 p1 enc = Some p2 /\
    poly1305_update_with_length p2 None (zlen ad) = Some p3 /\ poly1305_update_with_length p3 None n = Some p4 /\
    CRYPTO_poly1305_finish p4 = Some (rfc_poly1305_mac key (rfc_mac_data ad enc), p5).
Proof using.
  intros Hk Ha He ->.
  destruct (poly1305_init_at no_poly1305_state key Hk eq_refl ltac:(by apply (bool_decide_unpack _))) as (p0 & E0 & H0).
  destruct (with_pad16_ok [] p0 ad H0 Ha) as (p1 & E1 & H1). destruct (with_pad16_ok _ p1 enc H1 He) as (p2 & E2 & H2).
  destruct (with_length_ok _ p2 _ H2 (zlen_nonneg ad)) as (p3 & E3 & H3).
  destruct (with_length_ok _ p3 _ H3 (zlen_nonneg enc)) as (p4 & E4 & H4).
  destruct (poly1305_finish_ok _ _ _ H4) as (p5 & E5). exists p0, p1, p2, p3, p4, p5.
  rewrite E5. unfold rfc_mac_data. cbn [app]. by rewrite <- !app_assoc.
Qed.
End mac.

(** ** The key stream *)

Lemma length_pieces_stream j n len : length (pieces_stream j n len) = Z.to_nat len.
Proof. unfold pieces_stream. by rewrite length_map, length_seqZ. Qed.

Lemma pieces_stream_byte j n len : Forall is_byte (pieces_stream j n len).
Proof. apply Forall_map, Forall_forall. intros. apply octet_byte. Qed.

Lemma xor_zeros n k : xor_octets (zrep n 0) k = ztake n k.
Proof.
  unfold xor_octets, zrep, ztake. revert k. induction (Z.to_nat n) as [|i IH]; intros [|x k]; try done.
  cbn [replicate zip_with take]. by rewrite IH.
Qed.

Lemma zlen_xor_octets m k : zlen m <= zlen k -> zlen (xor_octets m k) = zlen m.
Proof. unfold zlen. intros. rewrite length_xor_octets; lia. Qed.

(** ChaCha20 under a key, an IV and a counter: the one-time key of the
    authenticator, and encryption. *)
Definition otk (key iv : list Z) (ctr : Z) : list Z := pieces_stream (chacha_input key iv) ctr 32.
Definition encrypt (key iv : list Z) (ctr : Z) (m : list Z) : list Z :=
  xor_octets m (pieces_stream (chacha_input key iv) (ctr + 1) (zlen m)).
Definition core_seal (key iv : list Z) (ctr : Z) (plain ad : list Z) (tag_len : Z) : list Z :=
  let enc := encrypt key iv ctr plain in
  enc ++ ztake tag_len (rfc_poly1305_mac (otk key iv ctr) (rfc_mac_data ad enc)).

Section core.
Context (key iv : list Z) (ctr : Z) (Hkey : octets_ok 32 key) (Hiv : octets_ok 8 iv) (Hctr : 0 <= ctr < 2 ^ 64 - 1).

Lemma zlen_encrypt m : zlen (encrypt key iv ctr m) = zlen m.
Proof using. apply zlen_xor_octets. unfold zlen. rewrite length_pieces_stream. lia. Qed.

Lemma is_byte_encrypt m : Forall is_byte m -> Forall is_byte (encrypt key iv ctr m).
Proof using. intros Hm. apply is_byte_xor; [done|apply pieces_stream_byte]. Qed.

Lemma encrypt_twice m : encrypt key iv ctr (encrypt key iv ctr m) = m.
Proof using.
  unfold encrypt at 1. rewrite zlen_encrypt. apply xor_octets_twice. rewrite length_pieces_stream. unfold zlen. lia.
Qed.

Lemma otk_ok : key_ok (otk key iv ctr).
Proof using. split; [apply pieces_stream_byte|]. unfold zlen, otk. by rewrite length_pieces_stream. Qed.

Lemma otk_eq : CRYPTO_chacha_20 (zrep 32 0) key iv ctr = Some (otk key iv ctr).
Proof using Hkey Hiv Hctr.
  rewrite CRYPTO_chacha_20_eq by first [done | lia | by apply is_byte_zrep]. reflexivity.
Qed.

Lemma encrypt_eq m : Forall is_byte m -> CRYPTO_chacha_20 m key iv (ctr + 1) = Some (encrypt key iv ctr m).
Proof using Hkey Hiv Hctr. intros. by rewrite CRYPTO_chacha_20_eq by first [done | lia]. Qed.

Lemma zlen_rfc_mac k m : zlen (rfc_poly1305_mac k m) = 16.
Proof using. apply zlen_le_bytes. Qed.

Lemma zlen_core_seal plain ad tag_len : 0 <= tag_len <= 16 -> zlen (core_seal key iv ctr plain ad tag_len) = zlen plain + tag_len.
Proof using. intros. unfold core_seal. by rewrite zlen_app, zlen_encrypt, zlen_ztake by (rewrite zlen_rfc_mac; lia). Qed.
End core.

(** ** HChaCha20 *)

Lemma hchacha_ok key nonce :
  octets_ok 32 key -> Forall is_byte nonce -> 16 <= zlen nonce ->
  CRYPTO_hchacha_20 key nonce = Some (rfc_hchacha key (ztake 16 nonce)) /\ octets_ok 32 (rfc_hchacha key (ztake 16 nonce)).
Proof.
  intros [Hk Bk] Bn Hn. unfold CRYPTO_hchacha_20. change (load_words 4 sigma) with (Some rfc_constants).
  rewrite (load_words_take 4 nonce), !load_le_words by first [done|lia|by apply Forall_ztake|rewrite zlen_ztake; lia].
  cbn [mbind option_bind]. set (j := rfc_constants ++ le_words 8 key ++ le_words 4 _).
  assert (Hj : length j = 16%nat) by (unfold j; by rewrite !length_app, !length_le_words).
  destruct (to_words_ok j Hj) as [x E]. rewrite E. cbn [mbind option_bind]. pose proof (of_to_words _ _ E) as Ex.
  assert (Hx : Forall is_u32 (of_words x)).
  { rewrite Ex. unfold j. repeat (apply Forall_app; split); [|by apply le_words_u32; [|lia]|].
    - unfold rfc_constants, is_u32. repeat (constructor; [lia|]); constructor.
    - apply le_words_u32; [by apply Forall_ztake|]. rewrite zlen_ztake; lia. }
  destruct (rounds_ok 10 x Hx) as [Er _]. rewrite Er, Ex.
  assert (Es : store_words (take 4 (Nat.iter 10 inner_block j) ++ drop 12 (Nat.iter 10 inner_block j)) = rfc_hchacha key (ztake 16 nonce)).
  { unfold store_words, rfc_hchacha. cbv zeta. fold j. f_equal. apply map_ext. apply store_le. }
  rewrite Es. split; [done|]. rewrite <- Es. split; [|apply is_byte_store_words].
  unfold zlen. rewrite length_store_words, length_app, length_take, length_drop, <- Ex, <- Er, length_of_words. done.
Qed.

(** ** Sealing and opening under ChaCha20 *)

Definition c20_ok (c : aead_chacha20_poly1305_ctx) : Prop := octets_ok 32 (c20_key c) /\ 1 <= c20_tag_len c <= POLY1305_TAG_LEN.

(** The buffer with [bs] at its start. *)
Definition filled (bs : list Z) (o : aead_out) : aead_out := mkOut (bs ++ zdrop (zlen bs) (out o)) (zlen bs).

Lemma wp_write_out i bs o (Q : unit -> aead_out -> Prop) E pre :
  pre = ztake i (out o) -> 0 <= i -> i + zlen bs <= zlen (out o) ->
  Q tt (mkOut (pre ++ bs ++ zdrop (i + zlen bs) (out o)) (out_len o)) -> wp (write_out i bs) o Q E.
Proof.
  intros -> Hi Hl HQ. unfold write_out. apply wp_bind, wp_gets, wp_bind. cbn [id].
  eapply wp_valid; [|by apply wp_modify]. unfold zwrite. by rewrite !(proj2 (Z.leb_le _ _)) by lia.
Qed.

Lemma wp_put_tag p key msg in_len tag_len o enc p' (Q : unit -> aead_out -> Prop) E :
  CRYPTO_poly1305_finish p = Some (rfc_poly1305_mac key msg, p') -> 1 <= tag_len <= 16 ->
  zlen enc = in_len -> ztake in_len (out o) = enc -> in_len + tag_len <= zlen (out o) ->
  Q tt (filled (enc ++ ztake tag_len (rfc_poly1305_mac key msg)) o) ->
  wp (put_tag p in_len tag_len) o Q E.
Proof.
  intros Hp Ht Hl Henc Hfit HQ. unfold put_tag. vbind Hp. cbv beta iota. pose proof (zlen_rfc_mac key msg) as Hm. pose proof (zlen_nonneg enc).
  set (tag := ztake tag_len (rfc_poly1305_mac key msg)) in *.
  assert (Htl : zlen tag = tag_len) by (apply zlen_ztake; lia).
  assert (HQ' : Q tt (mkOut (enc ++ tag ++ zdrop (in_len + zlen tag) (out o)) (in_len + tag_len))).
  { unfold filled in HQ. rewrite zlen_app, Htl, Hl, <- app_assoc in HQ. by rewrite Htl. }
  destruct (Z.eqb_spec tag_len POLY1305_TAG_LEN) as [E16|E16]; cbn [negb].
  - assert (Et : rfc_poly1305_mac key msg = tag).
    { unfold tag. rewrite E16. symmetry. apply ztake_all. rewrite Hm. done. }
    rewrite Et. apply wp_bind. apply (wp_write_out _ _ _ _ _ enc); [done|lia|lia|]. rewrite E16 in HQ'. by apply wp_modify.
  - apply wp_bind. apply (wp_write_out _ _ _ _ _ enc); [done|lia|lia|]. by apply wp_modify.
Qed.

(** The tag of an input against that of the additional data and the ciphertext. *)
Lemma tag_matches tag_len mac l :
  zlen mac = 16 -> 1 <= tag_len <= 16 -> Forall is_byte mac -> Forall is_byte l -> zlen l = tag_len ->
  (timingsafe_memcmp (ztake tag_len mac) l 0 0 =? 0) = bool_decide (ztake tag_len mac = l).
Proof.
  intros Hm Ht Bm Bl Hl. rewrite timingsafe_memcmp_lex by (done || by apply Forall_ztake).
  apply eq_true_iff_eq. rewrite Z.eqb_eq, bool_decide_eq_true. apply lex_cmp_eq.
  pose proof (zlen_ztake tag_len mac ltac:(lia)) as E. unfold zlen in *. lia.
Qed.

Section sealing.
Context (key iv : list Z) (ctr tag_len : Z) (Hkey : octets_ok 32 key) (Hiv : octets_ok 8 iv) (Hctr : 0 <= ctr < 2 ^ 64 - 1).
Context (Htag : 1 <= tag_len <= 16) (ad : list Z) (Had : Forall is_byte ad).

(** An input is the sealing of a plaintext, or of none. *)
Lemma open_or_not input :
  Forall is_byte input -> tag_len <= zlen input ->
  let enc := ztake (zlen input - tag_len) input in
  bool_decide (ztake tag_len (rfc_poly1305_mac (otk key iv ctr) (rfc_mac_data ad enc)) = zdrop (zlen input - tag_len) input) = true <->
  input = core_seal key iv ctr (encrypt key iv ctr enc) ad tag_len.
Proof using.
  intros Hb Hl enc. rewrite bool_decide_eq_true. unfold core_seal. rewrite encrypt_twice.
  pose proof (ztake_zdrop (zlen input - tag_len) input) as Ei. fold enc in Ei. split.
  - intros ->. by symmetry.
  - intros E. rewrite <- Ei in E at 1. by apply app_inv_head in E.
Qed.

(** A plaintext is sealed in one way. *)
Lemma core_seal_inj plain plain' :
  core_seal key iv ctr plain ad tag_len = core_seal key iv ctr plain' ad tag_len -> plain = plain'.
Proof using Htag.
  intros E. assert (Hz : zlen plain = zlen plain').
  { apply (f_equal zlen) in E. rewrite !zlen_core_seal in E by lia. lia. }
  unfold core_seal in E. apply app_inj_1 in E as [E _]; [|pose proof (zlen_encrypt key iv ctr plain); pose proof (zlen_encrypt key iv ctr plain'); unfold zlen in *; lia].
  by rewrite <- (encrypt_twice key iv ctr plain), E, encrypt_twice.
Qed.

Lemma core_seal_enc plain :
  ztake (zlen (core_seal key iv ctr plain ad tag_len) - tag_len) (core_seal key iv ctr plain ad tag_len) = encrypt key iv ctr plain.
Proof using Htag.
  rewrite zlen_core_seal by lia. unfold core_seal. apply ztake_app_exact. rewrite zlen_encrypt. lia.
Qed.
End sealing.

(** What a sealing function does: under key, IV and counter it fills the buffer,
    or it fails and leaves it. *)
Definition seals_as (m : M aead_out unit) (n key_tag : Z) (key iv : list Z) (ctr : Z) (nonce input ad : list Z) : Prop :=
  forall o (Q : unit -> aead_out -> Prop) (E : aead_out -> Prop),
  (zlen nonce = n -> zlen input + key_tag <= zlen (out o) -> Q tt (filled (core_seal key iv ctr input ad key_tag) o)) ->
  (zlen nonce <> n \/ zlen (out o) < zlen input + key_tag -> E o) ->
  wp m o Q E.

(** What an opening function does: the buffer gets the only plaintext that the
    input is a sealing of. *)
Definition opens_as (m : M aead_out unit) (n key_tag : Z) (key iv : list Z) (ctr : Z) (nonce input ad : list Z) : Prop :=
  forall o (Q : unit -> aead_out -> Prop) (E : aead_out -> Prop),
  (forall plain, zlen nonce = n -> Forall is_byte plain -> input = core_seal key iv ctr plain ad key_tag -> zlen plain <= zlen (out o) -> Q tt (filled plain o)) ->
  ((zlen nonce <> n \/ (forall plain, Forall is_byte plain -> zlen plain <= zlen (out o) -> input <> core_seal key iv ctr plain ad key_tag)) -> E o) ->
  wp m o Q E.

Lemma nonce_ctr_ok nonce :
  Forall is_byte nonce -> 4 <= zlen nonce -> nonce_ctr nonce = Some (le_val (ztake 4 nonce) * 2 ^ 32) /\
    0 <= le_val (ztake 4 nonce) < 2 ^ 32.
Proof.
  intros Hb Hl. destruct nonce as [|n0 [|n1 [|n2 [|n3 nonce]]]]; try (unfold zlen in Hl; cbn [length] in Hl; lia).
  repeat (apply Forall_cons in Hb as [? Hb]). change (ztake 4 (n0 :: n1 :: n2 :: n3 :: nonce)) with [n0; n1; n2; n3].
  assert (Hv : 0 <= le_val [n0; n1; n2; n3] < 2 ^ 32) by (apply (le_val_bounds [n0; n1; n2; n3]); repeat (apply Forall_cons; split; [done|]); constructor).
  split; [|done]. unfold nonce_ctr. rewrite load_le by done. f_equal. rewrite Z.shiftl_mul_pow2 by lia. apply u64_small. lia.
Qed.

(** The ciphertext is in the buffer and the authenticator has seen everything. *)
Lemma wp_put_tag_behind p p' key iv ctr input ad tag_len o (Q : unit -> aead_out -> Prop) E :
  let enc := encrypt key iv ctr input in
  CRYPTO_poly1305_finish p = Some (rfc_poly1305_mac (otk key iv ctr) (rfc_mac_data ad enc), p') ->
  1 <= tag_len <= 16 -> zlen input + tag_len <= zlen (out o) ->
  Q tt (filled (core_seal key iv ctr input ad tag_len) o) ->
  wp (put_tag p (zlen input) tag_len) (mkOut (enc ++ zdrop (zlen enc) (out o)) (out_len o)) Q E.
Proof.
  intros enc Hp Ht Hfit HQ. pose proof (zlen_encrypt key iv ctr input) as Hz. fold enc in Hz. pose proof (zlen_nonneg input).
  assert (Ho : zlen (enc ++ zdrop (zlen enc) (out o)) = zlen (out o)) by (rewrite zlen_app, zlen_zdrop; lia).
  eapply (wp_put_tag _ _ _ _ _ _ enc); [exact Hp|lia|done|by apply ztake_app_exact|cbn [out]; lia|].
  change (enc ++ ztake tag_len (rfc_poly1305_mac _ _)) with (core_seal key iv ctr input ad tag_len). unfold filled in *. cbn [out].
  rewrite zlen_core_seal in HQ |- * by lia. rewrite zdrop_app_ge by lia. rewrite zdrop_zdrop by lia.
  by replace (zlen enc + (zlen input + tag_len - zlen enc)) with (zlen input + tag_len) by lia.
Qed.

Lemma wp_write_enc key iv ctr input o (Q : unit -> aead_out -> Prop) E :
  let enc := encrypt key iv ctr input in
  zlen input <= zlen (out o) -> Q tt (mkOut (enc ++ zdrop (zlen enc) (out o)) (out_len o)) -> wp (write_out 0 enc) o Q E.
Proof.
  intros enc Hfit HQ. pose proof (zlen_encrypt key iv ctr input) as Hz. fold enc in Hz.
  by apply (wp_write_out _ _ _ _ _ []); [done|lia|lia|].
Qed.

Section functions.
Context (c : aead_chacha20_poly1305_ctx) (Hc : c20_ok c) (nonce input ad : list Z).
Context (Hnonce : Forall is_byte nonce) (Hinput : Forall is_byte input) (Had : Forall is_byte ad).

Lemma wp_chacha_seal :
  zlen input + 16 < 2 ^ 64 ->
  seals_as (aead_chacha20_poly1305_seal CHACHA20_NONCE_LEN c nonce input ad) CHACHA20_NONCE_LEN (c20_tag_len c)
    (c20_key c) (zdrop 4 nonce) (le_val (ztake 4 nonce) * 2 ^ 32) nonce input ad.
Proof using Type*.
  intros Hsize o Q E HQ HE. destruct Hc as [Hk Ht]. unfold POLY1305_TAG_LEN in Ht. pose proof (zlen_nonneg input).
  unfold aead_chacha20_poly1305_seal. apply wp_bind, wp_gets. cbn [id]. rewrite u64_small by lia.
  apply wp_bind, wp_check; intros H1; [apply negb_true_iff, Z.ltb_ge in H1|apply negb_false_iff, Z.ltb_lt in H1; by apply HE; right].
  apply wp_bind, wp_check; intros H2; [apply Z.eqb_eq in H2|apply Z.eqb_neq in H2; by apply HE; left].
  pose proof H2 as H12. change CHACHA20_NONCE_LEN with 12 in H12.
  destruct (nonce_ctr_ok nonce Hnonce ltac:(lia)) as [E1 Hv]. set (ctr := le_val (ztake 4 nonce) * 2 ^ 32) in *. set (iv := zdrop 4 nonce) in *.
  assert (Hiv : octets_ok 8 iv) by (split; [unfold iv; rewrite zlen_zdrop; lia|by apply Forall_zdrop]).
  assert (Hctr : 0 <= ctr < 2 ^ 64 - 1) by (unfold ctr; lia). vbind E1. cbv zeta. change (zdrop CHACHA20_CONSTANT_LEN nonce) with iv.
  vbind (otk_eq _ _ _ Hk Hiv Hctr). pose proof (zlen_encrypt (c20_key c) iv ctr input) as Hz.
  destruct (mac_chain (otk (c20_key c) iv ctr) ad (encrypt (c20_key c) iv ctr input) (zlen input) (otk_ok (c20_key c) iv ctr) Had
    (is_byte_encrypt (c20_key c) iv ctr input Hinput) (eq_sym Hz))
    as (p0 & p1 & p2 & p3 & p4 & p5 & M0 & M1 & M2 & M3 & M4 & M5).
  vbind M0. vbind M1. rewrite u64_small by lia. vbind (encrypt_eq _ _ _ Hk Hiv Hctr _ Hinput).
  apply wp_bind, wp_write_enc; [lia|]. vbind M2. vbind M3. vbind M4. eapply wp_put_tag_behind; [exact M5|lia|lia|]. by apply HQ.
Qed.

(** The authenticator is compared, and the ciphertext decrypted behind it. *)
Lemma wp_open_tail key iv ctr tag_len o (Q : unit -> aead_out -> Prop) (E : aead_out -> Prop) :
  octets_ok 32 key -> octets_ok 8 iv -> 0 <= ctr < 2 ^ 64 - 1 -> 1 <= tag_len <= 16 -> tag_len <= zlen input ->
  let plaintext_len := zlen input - tag_len in let enc := ztake plaintext_len input in
  plaintext_len <= zlen (out o) ->
  (forall plain, Forall is_byte plain -> input = core_seal key iv ctr plain ad tag_len -> zlen plain <= zlen (out o) -> Q tt (filled plain o)) ->
  ((forall plain, Forall is_byte plain -> zlen plain <= zlen (out o) -> input <> core_seal key iv ctr plain ad tag_len) -> E o) ->
  wp (check (timingsafe_memcmp (ztake tag_len (rfc_poly1305_mac (otk key iv ctr) (rfc_mac_data ad enc))) (zdrop plaintext_len input) 0 0 =? 0);;
      plain ← valid (CRYPTO_chacha_20 enc key iv (ctr + 1));
      write_out 0 plain;; set_out_len plaintext_len) o Q E.
Proof using Hinput Had.
  intros Hk Hiv Hctr Ht Hl plaintext_len enc Hfit HQ HE.
  assert (Henc : zlen enc = plaintext_len) by (apply zlen_ztake; unfold plaintext_len; lia).
  assert (Hbe : Forall is_byte enc) by (by apply Forall_ztake).
  assert (Hbp : Forall is_byte (encrypt key iv ctr enc)) by (by apply is_byte_encrypt).
  pose proof (zlen_encrypt key iv ctr enc) as Hz.
  rewrite tag_matches; [|apply zlen_rfc_mac|done|apply is_byte_le_bytes|by apply Forall_zdrop|unfold plaintext_len; rewrite zlen_zdrop; lia].
  pose proof (open_or_not key iv ctr tag_len ad input Hinput Hl) as Hor. cbv zeta in Hor. fold plaintext_len in Hor. fold enc in Hor.
  apply wp_bind, wp_check; intros Hck.
  - apply Hor in Hck. vbind (encrypt_eq _ _ _ Hk Hiv Hctr _ Hbe). apply wp_bind. rewrite <- Henc, <- Hz.
    apply (wp_write_out _ _ _ _ _ []); [done|lia|lia|]. apply wp_modify. apply HQ; [done|done|lia].
  - apply HE. intros plain Hb Hp E'. apply not_true_iff_false in Hck. apply Hck, Hor.
    rewrite E' at 1. f_equal. unfold enc, plaintext_len. rewrite E', core_seal_enc by done. by rewrite encrypt_twice.
Qed.

Lemma wp_chacha_open :
  opens_as (aead_chacha20_poly1305_open CHACHA20_NONCE_LEN c nonce input ad) CHACHA20_NONCE_LEN (c20_tag_len c)
    (c20_key c) (zdrop 4 nonce) (le_val (ztake 4 nonce) * 2 ^ 32) nonce input ad.
Proof using Type*.
  intros o Q E HQ HE. destruct Hc as [Hk Ht]. unfold POLY1305_TAG_LEN in Ht. pose proof (zlen_nonneg input).
  unfold aead_chacha20_poly1305_open.
  apply wp_bind, wp_check; intros H0; [apply negb_true_iff, Z.ltb_ge in H0|apply negb_false_iff, Z.ltb_lt in H0].
  2: { apply HE. right. intros plain _ _ E'. apply (f_equal zlen) in E'. rewrite zlen_core_seal in E' by lia. pose proof (zlen_nonneg plain). lia. }
  apply wp_bind, wp_check; intros H2; [apply Z.eqb_eq in H2|apply Z.eqb_neq in H2; by apply HE; left].
  cbv zeta. apply wp_bind, wp_gets. cbn [id].
  apply wp_bind, wp_check; intros H1; [apply negb_true_iff, Z.ltb_ge in H1|apply negb_false_iff, Z.ltb_lt in H1].
  2: { apply HE. right. intros plain _ Hp E'. apply (f_equal zlen) in E'. rewrite zlen_core_seal in E' by lia. lia. }
  pose proof H2 as H12. change CHACHA20_NONCE_LEN with 12 in H12.
  destruct (nonce_ctr_ok nonce Hnonce ltac:(lia)) as [E1 Hv]. set (ctr := le_val (ztake 4 nonce) * 2 ^ 32) in *. set (iv := zdrop 4 nonce) in *.
  assert (Hiv : octets_ok 8 iv) by (split; [unfold iv; rewrite zlen_zdrop; lia|by apply Forall_zdrop]).
  assert (Hctr : 0 <= ctr < 2 ^ 64 - 1) by (unfold ctr; lia). vbind E1. cbv zeta. change (zdrop CHACHA20_CONSTANT_LEN nonce) with iv.
  vbind (otk_eq _ _ _ Hk Hiv Hctr).
  destruct (mac_chain (otk (c20_key c) iv ctr) ad (ztake (zlen input - c20_tag_len c) input) (zlen input - c20_tag_len c) (otk_ok (c20_key c) iv ctr) Had
    (Forall_ztake _ _ _ Hinput) ltac:(rewrite zlen_ztake; lia)) as (p0 & p1 & p2 & p3 & p4 & p5 & M0 & M1 & M2 & M3 & M4 & M5).
  vbind M0. vbind M1. vbind M2. vbind M3. vbind M4. vbind M5. rewrite u64_small by lia.
  apply wp_open_tail; [done..|lia|done|done| |].
  - intros plain Hb Ei Hp. by apply HQ.
  - intros Hno. apply HE. by right.
Qed.

Lemma wp_xchacha_seal :
  zlen input + 16 < 2 ^ 64 ->
  seals_as (aead_xchacha20_poly1305_seal XCHACHA20_NONCE_LEN c nonce input ad) XCHACHA20_NONCE_LEN (c20_tag_len c)
    (rfc_hchacha (c20_key c) (ztake 16 nonce)) (zdrop 16 nonce) 0 nonce input ad.
Proof using Type*.
  intros Hsize o Q E HQ HE. destruct Hc as [Hk Ht]. unfold POLY1305_TAG_LEN in Ht. pose proof (zlen_nonneg input).
  unfold aead_xchacha20_poly1305_seal. apply wp_bind, wp_gets. cbn [id]. rewrite u64_small by lia.
  apply wp_bind, wp_check; intros H1; [apply negb_true_iff, Z.ltb_ge in H1|apply negb_false_iff, Z.ltb_lt in H1; by apply HE; right].
  apply wp_bind, wp_check; intros H2; [apply Z.eqb_eq in H2|apply Z.eqb_neq in H2; by apply HE; left].
  pose proof H2 as H24. change XCHACHA20_NONCE_LEN with 24 in H24.
  destruct (hchacha_ok _ nonce Hk Hnonce ltac:(lia)) as [E1 Hsub]. set (subkey := rfc_hchacha _ _) in *. set (iv := zdrop 16 nonce) in *.
  assert (Hiv : octets_ok 8 iv) by (split; [unfold iv; rewrite zlen_zdrop; lia|by apply Forall_zdrop]).
  vbind E1. vbind (encrypt_eq subkey iv 0 Hsub Hiv ltac:(lia) _ Hinput). apply wp_bind, wp_write_enc; [lia|].
  vbind (otk_eq subkey iv 0 Hsub Hiv ltac:(lia)). pose proof (zlen_encrypt subkey iv 0 input) as Hz.
  destruct (mac_chain (otk subkey iv 0) ad (encrypt subkey iv 0 input) (zlen input) (otk_ok subkey iv 0) Had
    (is_byte_encrypt subkey iv 0 input Hinput) (eq_sym Hz)) as (p0 & p1 & p2 & p3 & p4 & p5 & M0 & M1 & M2 & M3 & M4 & M5).
  vbind M0. vbind M1. vbind M2. vbind M3. vbind M4. eapply wp_put_tag_behind; [exact M5|lia|lia|]. by apply HQ.
Qed.

Lemma wp_xchacha_open :
  opens_as (aead_xchacha20_poly1305_open XCHACHA20_NONCE_LEN c nonce input ad) XCHACHA20_NONCE_LEN (c20_tag_len c)
    (rfc_hchacha (c20_key c) (ztake 16 nonce)) (zdrop 16 nonce) 0 nonce input ad.
Proof using Type*.
  intros o Q E HQ HE. destruct Hc as [Hk Ht]. unfold POLY1305_TAG_LEN in Ht. pose proof (zlen_nonneg input).
  unfold aead_xchacha20_poly1305_open.
  apply wp_bind, wp_check; intros H0; [apply negb_true_iff, Z.ltb_ge in H0|apply negb_false_iff, Z.ltb_lt in H0].
  2: { apply HE. right. intros plain _ _ E'. apply (f_equal zlen) in E'. rewrite zlen_core_seal in E' by lia. pose proof (zlen_nonneg plain). lia. }
  apply wp_bind, wp_check; intros H2; [apply Z.eqb_eq in H2|apply Z.eqb_neq in H2; by apply HE; left].
  cbv zeta. apply wp_bind, wp_gets. cbn [id].
  apply wp_bind, wp_check; intros H1; [apply negb_true_iff, Z.ltb_ge in H1|apply negb_false_iff, Z.ltb_lt in H1].
  2: { apply HE. right. intros plain _ Hp E'. apply (f_equal zlen) in E'. rewrite zlen_core_seal in E' by lia. lia. }
  pose proof H2 as H24. change XCHACHA20_NONCE_LEN with 24 in H24.
  destruct (hchacha_ok _ nonce Hk Hnonce ltac:(lia)) as [E1 Hsub]. set (subkey := rfc_hchacha _ _) in *. set (iv := zdrop 16 nonce) in *.
  assert (Hiv : octets_ok 8 iv) by (split; [unfold iv; rewrite zlen_zdrop; lia|by apply Forall_zdrop]).
  vbind E1. vbind (otk_eq subkey iv 0 Hsub Hiv ltac:(lia)).
  destruct (mac_chain (otk subkey iv 0) ad (ztake (zlen input - c20_tag_len c) input) (zlen input - c20_tag_len c) (otk_ok subkey iv 0) Had
    (Forall_ztake _ _ _ Hinput) ltac:(rewrite zlen_ztake; lia)) as (p0 & p1 & p2 & p3 & p4 & p5 & M0 & M1 & M2 & M3 & M4 & M5).
  vbind M0. vbind M1. vbind M2. vbind M3. vbind M4. vbind M5.
  apply (wp_open_tail subkey iv 0); [done..|lia|lia|done|done| |].
  - intros plain Hb Ei Hp. by apply HQ.
  - intros Hno. apply HE. by right.
Qed.
End functions.

(** ** The specification *)

Lemma rfc_block_counter key n n' nonce : n mod 2 ^ 32 = n' mod 2 ^ 32 -> rfc_block key n nonce = rfc_block key n' nonce.
Proof. intros E. unfold rfc_block, rfc_state. by rewrite E. Qed.

Lemma stream_rfc key nonce k n :
  octets_ok 32 key -> octets_ok 12 nonce -> 0 <= k <= 1 -> 0 <= n <= UINT32_MAX ->
  pieces_stream (chacha_input key (zdrop 4 nonce)) (le_val (ztake 4 nonce) * 2 ^ 32 + k) n = rfc_stream key nonce k n.
Proof.
  intros Hk [Hl Hb] Hk1 Hn. assert (Hiv : octets_ok 8 (zdrop 4 nonce)) by (split; [rewrite zlen_zdrop; lia|by apply Forall_zdrop]).
  rewrite pieces_stream_short, keystream_rfc by done. unfold rfc_keystream, rfc_stream.
  assert (Hl4 : zlen (ztake 4 nonce) = 4) by (apply zlen_ztake; lia).
  pose proof (le_val_bounds (ztake 4 nonce) (Forall_ztake _ _ _ Hb)) as Hv. rewrite Hl4 in Hv. change (256 ^ 4) with (2 ^ 32) in Hv.
  set (v := le_val (ztake 4 nonce)) in *. apply list_eq. intros i. rewrite !list_lookup_fmap.
  destruct (decide (Z.of_nat i < n)) as [Hi|Hi]; [|rewrite !lookup_seqZ_ge by lia; cbn [fmap option_fmap option_map]; reflexivity].
  rewrite (lookup_seqZ_lt _ _ i) by lia. rewrite (lookup_seqZ_lt _ _ i) by lia. cbn [fmap option_fmap option_map]. f_equal. rewrite Z.add_0_l. unfold rfc_octet, UINT32_MAX in *.
  set (p := 64 * (v * 2 ^ 32 + k) + Z.of_nat i).
  assert (Ep : p / 64 = v * 2 ^ 32 + (k + Z.of_nat i / 64)) by (unfold p; Z.to_euclidean_division_equations; lia).
  assert (Em : p mod 64 = Z.of_nat i mod 64) by (unfold p; Z.to_euclidean_division_equations; lia).
  assert (Ev : p / 64 / 2 ^ 32 = v) by (rewrite Ep; Z.to_euclidean_division_equations; lia).
  assert (En : le_bytes 4 v ++ zdrop 4 nonce = nonce).
  { unfold v. replace 4%nat with (length (ztake 4 nonce)) by (unfold zlen in Hl4; lia).
    rewrite le_bytes_val by (by apply Forall_ztake). apply ztake_zdrop. }
  rewrite Ev, En, Em, (rfc_block_counter key (p / 64) (k + Z.of_nat i / 64)); [reflexivity|]. rewrite Ep, Z.add_comm. apply Z_mod_plus_full.
Qed.

Lemma core_seal_rfc key nonce plain ad tag_len :
  octets_ok 32 key -> octets_ok 12 nonce -> zlen plain <= UINT32_MAX ->
  core_seal key (zdrop 4 nonce) (le_val (ztake 4 nonce) * 2 ^ 32) plain ad tag_len = rfc_seal key nonce plain ad tag_len.
Proof.
  intros Hk Hn Hl. pose proof (zlen_nonneg plain). unfold core_seal, encrypt, otk, rfc_seal.
  pose proof (stream_rfc key nonce 0 32 Hk Hn ltac:(lia) ltac:(unfold UINT32_MAX; lia)) as E0. rewrite Z.add_0_r in E0.
  pose proof (stream_rfc key nonce 1 (zlen plain) Hk Hn ltac:(lia) ltac:(lia)) as E1. rewrite E0, E1. reflexivity.
Qed.

Lemma core_seal_xrfc key nonce plain ad tag_len :
  octets_ok 32 key -> octets_ok 24 nonce -> zlen plain <= UINT32_MAX ->
  core_seal (rfc_hchacha key (ztake 16 nonce)) (zdrop 16 nonce) 0 plain ad tag_len = rfc_xseal key nonce plain ad tag_len.
Proof.
  intros Hk [Hn Bn] Hl. unfold rfc_xseal. rewrite <- core_seal_rfc; [done| | |done].
  - by apply hchacha_ok; [|done|lia].
  - split; [rewrite zlen_app, zlen_zdrop by lia; rewrite Hn; done|]. apply Forall_app. split; [by apply is_byte_zrep|by apply Forall_zdrop].
Qed.

(** The two AEADs. *)
Inductive variant : Type := ChaCha20_Poly1305 | XChaCha20_Poly1305.

Definition variant_aead (malloc_ok : Z -> bool) (v : variant) : EVP_AEAD aead_chacha20_poly1305_ctx :=
  match v with
  | ChaCha20_Poly1305 => EVP_aead_chacha20_poly1305 malloc_ok
  | XChaCha20_Poly1305 => EVP_aead_xchacha20_poly1305 malloc_ok
  end.

Definition variant_nonce_len (v : variant) : Z :=
  match v with ChaCha20_Poly1305 => 12 | XChaCha20_Poly1305 => 24 end.

Definition variant_seal (v : variant) : list Z -> list Z -> list Z -> list Z -> Z -> list Z :=
  match v with ChaCha20_Poly1305 => rfc_seal | XChaCha20_Poly1305 => rfc_xseal end.

(** Key, IV and counter of the ChaCha20 underneath. *)
Definition variant_params (v : variant) (key nonce : list Z) : list Z * list Z * Z :=
  match v with
  | ChaCha20_Poly1305 => (key, zdrop 4 nonce, le_val (ztake 4 nonce) * 2 ^ 32)
  | XChaCha20_Poly1305 => (rfc_hchacha key (ztake 16 nonce), zdrop 16 nonce, 0)
  end.

Definition variant_core (v : variant) (key nonce plain ad : list Z) (tag_len : Z) : list Z :=
  let '(k, iv, ctr) := variant_params v key nonce in core_seal k iv ctr plain ad tag_len.

Lemma variant_core_rfc v key nonce plain ad tag_len :
  octets_ok 32 key -> octets_ok (variant_nonce_len v) nonce -> zlen plain <= UINT32_MAX ->
  variant_core v key nonce plain ad tag_len = variant_seal v key nonce plain ad tag_len.
Proof. destruct v; [apply core_seal_rfc|apply core_seal_xrfc]. Qed.

Lemma zlen_variant_core v key nonce plain ad tag_len :
  0 <= tag_len <= 16 -> zlen (variant_core v key nonce plain ad tag_len) = zlen plain + tag_len.
Proof. intros. destruct v; by apply zlen_core_seal. Qed.

(** ** The EVP_AEAD interface *)

Definition variant_ctx malloc_ok (v : variant) (c : aead_chacha20_poly1305_ctx) : EVP_AEAD_CTX aead_chacha20_poly1305_ctx :=
  mkAeadCtx (Some (variant_aead malloc_ok v)) (Some c).

Lemma wp_or_clear m o (Q : unit -> aead_out -> Prop) (E : aead_out -> Prop) :
  wp m o Q (fun o' => zlen (out o') = zlen (out o) /\ E (mkOut (zrep (zlen (out o)) 0) 0)) -> wp (or_clear m) o Q E.
Proof.
  intros Hm. unfold or_clear. apply wp_bind, wp_try. eapply wp_conseq; [exact Hm| |]; cbn beta.
  - intros [] o' HQ. by apply wp_ret.
  - intros o' (Hl & HE). apply wp_bind, wp_modify, wp_fail. by rewrite Hl.
Qed.

Section evp_ok.
Context (malloc_ok : Z -> bool) (v : variant).

(** What initialisation does. *)
Lemma EVP_AEAD_CTX_init_ok key tag_len ctx :
  octets_ok 32 key -> 0 <= tag_len ->
  wp (EVP_AEAD_CTX_init (variant_aead malloc_ok v) key tag_len) ctx
    (fun _ ctx' => exists c, ctx' = variant_ctx malloc_ok v c /\ c20_ok c /\ c20_key c = key /\
       c20_tag_len c = if tag_len =? 0 then POLY1305_TAG_LEN else tag_len)
    (fun _ => POLY1305_TAG_LEN < tag_len \/ malloc_ok sizeof_aead_chacha20_poly1305_ctx = false).
Proof using.
  intros [Hl Hb] Ht. unfold EVP_AEAD_CTX_init. apply wp_bind, wp_modify.
  assert (Ek : key_len (variant_aead malloc_ok v) = 32) by (by destruct v).
  assert (Ei : aead_init (variant_aead malloc_ok v) = aead_chacha20_poly1305_init malloc_ok) by (by destruct v).
  apply wp_bind, wp_check; [intros _|rewrite Ek, Hl; done]. rewrite Ei. unfold aead_chacha20_poly1305_init. cbv zeta.
  set (t := if tag_len =? 0 then POLY1305_TAG_LEN else tag_len).
  assert (Ht' : 1 <= t /\ (tag_len = 0 /\ t = 16 \/ t = tag_len)) by (unfold t, POLY1305_TAG_LEN; destruct (Z.eqb_spec tag_len 0); lia).
  clearbody t. unfold POLY1305_TAG_LEN in *.
  destruct (Z.ltb_spec 16 t); [apply wp_fail; lia|]. rewrite Hl. change (negb (32 =? 32)) with false. cbv iota.
  destruct (malloc_ok _) eqn:Em; cbn [negb]; [|apply wp_fail; by right].
  apply wp_modify. exists (mkC20 key t). split; [done|]. split; [split; [done|cbn; unfold POLY1305_TAG_LEN; lia]|]. done.
Qed.

Context (c : aead_chacha20_poly1305_ctx) (Hc : c20_ok c) (nonce input ad : list Z).
Context (Hnonce : Forall is_byte nonce) (Hinput : Forall is_byte input) (Had : Forall is_byte ad).

Lemma variant_seals :
  zlen input + 16 < 2 ^ 64 ->
  let '(k, iv, ctr) := variant_params v (c20_key c) nonce in
  seals_as (aead_seal (variant_aead malloc_ok v) (nonce_len (variant_aead malloc_ok v)) c nonce input ad) (variant_nonce_len v)
    (c20_tag_len c) k iv ctr nonce input ad.
Proof using Hc Hnonce Hinput Had. intros. destruct v; [by apply wp_chacha_seal|by apply wp_xchacha_seal]. Qed.

Lemma variant_opens :
  let '(k, iv, ctr) := variant_params v (c20_key c) nonce in
  opens_as (aead_open (variant_aead malloc_ok v) (nonce_len (variant_aead malloc_ok v)) c nonce input ad) (variant_nonce_len v)
    (c20_tag_len c) k iv ctr nonce input ad.
Proof using Hc Hnonce Hinput Had. destruct v; [by apply wp_chacha_open|by apply wp_xchacha_open]. Qed.

(** The call fails and the output buffer is cleared. *)
Definition cleared (o : aead_out) : aead_out := mkOut (zrep (zlen (out o)) 0) 0.

Lemma wp_EVP_seal in_p out_p o (Q : unit -> aead_out -> Prop) (E : aead_out -> Prop) :
  zlen input + 16 < 2 ^ 64 ->
  (zlen nonce = variant_nonce_len v -> zlen input + c20_tag_len c <= zlen (out o) -> check_alias in_p (zlen input) out_p = true ->
     Q tt (filled (variant_core v (c20_key c) nonce input ad (c20_tag_len c)) o)) ->
  (zlen nonce <> variant_nonce_len v \/ zlen (out o) < zlen input + c20_tag_len c \/ check_alias in_p (zlen input) out_p = false -> E (cleared o)) ->
  wp (EVP_AEAD_CTX_seal (variant_ctx malloc_ok v c) in_p out_p nonce input ad) o Q E.
Proof using Hc Hnonce Hinput Had.
  intros Hsize HQ HE. pose proof (variant_seals Hsize) as Hs. unfold variant_core in HQ.
  destruct (variant_params v (c20_key c) nonce) as [[k iv] ctr]. pose proof (zlen_nonneg input).
  unfold EVP_AEAD_CTX_seal. apply wp_bind. eapply wp_valid; [reflexivity|]. apply wp_or_clear.
  assert (Eo : overhead (variant_aead malloc_ok v) = 16) by (by destruct v). rewrite Eo, u64_small by lia. cbv zeta.
  apply wp_bind, wp_check; [intros _|intros Hbad; apply negb_false_iff, Z.ltb_lt in Hbad; lia].
  apply wp_bind, wp_check; intros Ha; [|split; [done|]; apply HE; by right; right].
  apply wp_bind. eapply wp_valid; [reflexivity|]. apply Hs.
  - intros Hn Hl. by apply HQ.
  - intros Hno. split; [done|]. apply HE. destruct Hno; [by left|by right; left].
Qed.

Lemma wp_EVP_open in_p out_p o (Q : unit -> aead_out -> Prop) (E : aead_out -> Prop) :
  (forall plain, zlen nonce = variant_nonce_len v -> check_alias in_p (zlen input) out_p = true -> Forall is_byte plain ->
     input = variant_core v (c20_key c) nonce plain ad (c20_tag_len c) -> zlen plain <= zlen (out o) -> Q tt (filled plain o)) ->
  (zlen nonce <> variant_nonce_len v \/ check_alias in_p (zlen input) out_p = false \/
     (forall plain, Forall is_byte plain -> zlen plain <= zlen (out o) -> input <> variant_core v (c20_key c) nonce plain ad (c20_tag_len c)) -> E (cleared o)) ->
  wp (EVP_AEAD_CTX_open (variant_ctx malloc_ok v c) in_p out_p nonce input ad) o Q E.
Proof using Hc Hnonce Hinput Had.
  intros HQ HE. pose proof variant_opens as Hs. unfold variant_core in HQ, HE.
  destruct (variant_params v (c20_key c) nonce) as [[k iv] ctr].
  unfold EVP_AEAD_CTX_open. apply wp_bind. eapply wp_valid; [reflexivity|]. apply wp_or_clear.
  apply wp_bind, wp_check; intros Ha; [|split; [done|]; apply HE; by right; left].
  apply wp_bind. eapply wp_valid; [reflexivity|]. apply Hs.
  - intros plain Hn Hb Ei Hl. by apply HQ.
  - intros Hno. split; [done|]. apply HE. destruct Hno; [by left|by right; right].
Qed.
End evp_ok.

(** C4. Sealing with ChaCha20-Poly1305 or XChaCha20-Poly1305 is the AEAD of RFC 8439
    (with the derived key of HChaCha20 for the latter): a context initialised with
    a key and a tag length seals a message of at most [UINT32_MAX] octets to its
    encryption followed by the authenticator over additional data and ciphertext,
    cut to the tag length; it fails exactly for a wrong nonce length, too small a
    buffer or an output that overwrites its input, and then clears the buffer. *)
Theorem EVP_AEAD_CTX_seal_rfc8439 malloc_ok v key tag_len ctx0 ctx in_p out_p nonce input ad o :
  octets_ok 32 key -> 0 <= tag_len -> EVP_AEAD_CTX_init (variant_aead malloc_ok v) key tag_len ctx0 = Ret tt ctx ->
  Forall is_byte nonce -> Forall is_byte input -> Forall is_byte ad -> zlen input <= UINT32_MAX ->
  let tag_len := if tag_len =? 0 then 16 else tag_len in
  EVP_AEAD_CTX_seal ctx in_p out_p nonce input ad o =
    if (zlen nonce =? variant_nonce_len v) && (zlen input + tag_len <=? zlen (out o)) && check_alias in_p (zlen input) out_p
    then Ret tt (filled (variant_seal v key nonce input ad tag_len) o)
    else Fail (cleared o).
Proof.
  intros Hk Ht Hinit Hn Hi Ha Hl t.
  pose proof (wp_Ret _ _ _ _ _ _ (EVP_AEAD_CTX_init_ok malloc_ok v key tag_len ctx0 Hk Ht) Hinit) as (c & -> & Hc & Ek & Et).
  change (if tag_len =? 0 then _ else _) with t in Et.
  apply wp_result. apply wp_EVP_seal; [done..|unfold UINT32_MAX in Hl; lia| |]; rewrite ?Ek, Et.
  - intros Hn1 Hl1 ->. rewrite (proj2 (Z.eqb_eq _ _)) by done. rewrite (proj2 (Z.leb_le _ _)) by done. cbn [andb].
    by rewrite variant_core_rfc by done.
  - intros Hno. destruct (_ && _) eqn:Eb; [|done]. apply andb_true_iff in Eb as [[H1%Z.eqb_eq H2%Z.leb_le]%andb_true_iff H3].
    destruct Hno as [?|[?|?]]; [done|lia|congruence].
Qed.

Lemma zlen_variant_seal v key nonce plain ad tag_len :
  0 <= tag_len <= 16 -> zlen (variant_seal v key nonce plain ad tag_len) = zlen plain + tag_len.
Proof.
  intros Ht. assert (H : forall key nonce, zlen (rfc_seal key nonce plain ad tag_len) = zlen plain + tag_len).
  { intros k n. unfold rfc_seal. cbv zeta. rewrite zlen_app, zlen_ztake by (rewrite zlen_rfc_mac; lia). f_equal. apply zlen_xor_octets.
    unfold rfc_stream, zlen. rewrite length_map, length_seqZ. lia. }
  destruct v; apply H.
Qed.

(** C3. Opening accepts exactly what sealing produces: for any nonce, additional data
    and input of at most [UINT32_MAX] octets, the call either succeeds, and the input
    is the sealing under key, nonce and additional data of the octets it puts out, or
    it fails with the buffer cleared, and then the nonce length is wrong, the output
    would overwrite the input, or the input is the sealing of no plaintext that fits. *)
Theorem EVP_AEAD_CTX_open_exact malloc_ok v key tag_len ctx0 ctx in_p out_p nonce input ad o :
  octets_ok 32 key -> 0 <= tag_len -> EVP_AEAD_CTX_init (variant_aead malloc_ok v) key tag_len ctx0 = Ret tt ctx ->
  Forall is_byte nonce -> Forall is_byte input -> Forall is_byte ad -> zlen input <= UINT32_MAX ->
  let tag_len := if tag_len =? 0 then 16 else tag_len in
  match EVP_AEAD_CTX_open ctx in_p out_p nonce input ad o with
  | Ret _ o' => exists plain, Forall is_byte plain /\ o' = filled plain o /\ input = variant_seal v key nonce plain ad tag_len
  | Fail o' => o' = cleared o /\
      (zlen nonce <> variant_nonce_len v \/ check_alias in_p (zlen input) out_p = false \/
       forall plain, Forall is_byte plain -> zlen plain <= zlen (out o) -> input <> variant_seal v key nonce plain ad tag_len)
  | UB => False
  end.
Proof.
  intros Hk Ht Hinit Hn Hi Ha Hl t.
  pose proof (wp_Ret _ _ _ _ _ _ (EVP_AEAD_CTX_init_ok malloc_ok v key tag_len ctx0 Hk Ht) Hinit) as (c & -> & Hc & Ek & Et).
  change (if tag_len =? 0 then _ else _) with t in Et.
  pose proof Hc as [_ Htl]. unfold POLY1305_TAG_LEN in Htl. rewrite Et in Htl.
  enough (Hw : wp (EVP_AEAD_CTX_open (variant_ctx malloc_ok v c) in_p out_p nonce input ad) o
    (fun _ o' => exists plain, Forall is_byte plain /\ o' = filled plain o /\ input = variant_seal v key nonce plain ad t)
    (fun o' => o' = cleared o /\ (zlen nonce <> variant_nonce_len v \/ check_alias in_p (zlen input) out_p = false \/
       forall plain, Forall is_byte plain -> zlen plain <= zlen (out o) -> input <> variant_seal v key nonce plain ad t))) by exact Hw.
  apply wp_EVP_open; [done..| |]; rewrite Ek, Et.
  - intros plain Hn1 _ Hb Ei Hp. exists plain. split; [done|]. split; [done|]. rewrite Ei. apply variant_core_rfc; [done..|].
    apply (f_equal zlen) in Ei. rewrite zlen_variant_core in Ei by lia. lia.
  - intros Hno. split; [done|]. destruct (decide (zlen nonce = variant_nonce_len v)) as [Hn1|]; [|by left].
    destruct Hno as [?|[?|Hno]]; [done|by right; left|]. right. right. intros plain Hb Hp Ei. apply (Hno plain Hb Hp).
    rewrite Ei. symmetry. apply variant_core_rfc; [done..|]. apply (f_equal zlen) in Ei. rewrite zlen_variant_seal in Ei by lia. lia.
Qed.

(** ** Concrete runs *)

(** Test vectors of ChaCha20-Poly1305 and XChaCha20-Poly1305. *)
Definition test_key : list Z := map (Z.add 0x80) (seqZ 0 32).
Definition test_nonce : list Z := [7; 0; 0; 0; 64; 65; 66; 67; 68; 69; 70; 71].
Definition test_ad : list Z := [49; 50; 51; 52; 53; 54; 55; 56; 57; 97; 98; 99; 100; 101; 102; 48].
Definition test_sealed : list Z := [174; 62; 210; 248; 36; 249; 1; 168; 153; 64; 82; 248; 82; 18; 124; 25; 106].
Definition xtest_key : list Z :=
  [235; 39; 150; 156; 122; 191; 154; 255; 121; 52; 142; 30; 119; 241; 252; 186; 117; 8; 206; 178; 154; 116; 113; 150; 27; 1; 122; 239; 156; 234; 241; 194].
Definition xtest_nonce : list Z := [153; 0; 9; 49; 30; 171; 52; 89; 193; 190; 232; 75; 91; 134; 11; 181; 189; 249; 60; 123; 236; 135; 103; 226].
Definition xtest_plain : list Z := [231; 236; 61; 75; 159].
Definition xtest_sealed : list Z := [102; 189; 72; 72; 97; 7; 227; 27; 77; 208; 245; 31; 8; 25; 160; 100; 28; 134; 56; 15; 50].

Abbreviation no_ctx := (mkAeadCtx None None).

Lemma test_key_ok : octets_ok 32 test_key /\ octets_ok 32 xtest_key.
Proof. split; (split; [done|]; by apply (bool_decide_unpack _)). Qed.

Lemma EVP_AEAD_CTX_seal_rfc8439_witness :
  let aead := variant_aead (fun _ => true) ChaCha20_Poly1305 in
  let ctx := variant_ctx (fun _ => true) ChaCha20_Poly1305 (mkC20 test_key 16) in
  EVP_AEAD_CTX_init aead test_key 0 no_ctx = Ret tt ctx /\
  EVP_AEAD_CTX_seal ctx 0 100 test_nonce [49] test_ad (mkOut (zrep 18 9) 0) = Ret tt (mkOut (test_sealed ++ [9]) 17) /\
  EVP_AEAD_CTX_seal ctx 0 100 test_nonce [49] test_ad (mkOut (zrep 18 9) 0) =
    Ret tt (filled (rfc_seal test_key test_nonce [49] test_ad 16) (mkOut (zrep 18 9) 0)).
Proof.
  assert (E : EVP_AEAD_CTX_init (variant_aead (fun _ => true) ChaCha20_Poly1305) test_key 0 no_ctx =
    Ret tt (variant_ctx (fun _ => true) ChaCha20_Poly1305 (mkC20 test_key 16))) by reflexivity.
  split; [exact E|]. split; [vm_compute; reflexivity|].
  apply (EVP_AEAD_CTX_seal_rfc8439 (fun _ => true) ChaCha20_Poly1305 test_key 0 no_ctx _ 0 100 test_nonce [49] test_ad (mkOut (zrep 18 9) 0)
    (proj1 test_key_ok) ltac:(lia) E); [by apply (bool_decide_unpack _)..|]. by vm_compute.
Defined.

Lemma EVP_AEAD_CTX_open_exact_witness :
  let aead := variant_aead (fun _ => true) XChaCha20_Poly1305 in
  let ctx := variant_ctx (fun _ => true) XChaCha20_Poly1305 (mkC20 xtest_key 16) in
  EVP_AEAD_CTX_open ctx 0 0 xtest_nonce xtest_sealed [] (mkOut (zrep 21 9) 0) = Ret tt (mkOut (xtest_plain ++ zrep 16 9) 5) /\
  EVP_AEAD_CTX_open ctx 0 0 xtest_nonce xtest_sealed [0] (mkOut (zrep 21 9) 0) = Fail (mkOut (zrep 21 0) 0) /\
  exists plain, Forall is_byte plain /\ mkOut (xtest_plain ++ zrep 16 9) 5 = filled plain (mkOut (zrep 21 9) 0) /\
    xtest_sealed = rfc_xseal xtest_key xtest_nonce plain [] 16.
Proof.
  assert (E : EVP_AEAD_CTX_init (variant_aead (fun _ => true) XChaCha20_Poly1305) xtest_key 16 no_ctx =
    Ret tt (variant_ctx (fun _ => true) XChaCha20_Poly1305 (mkC20 xtest_key 16))) by reflexivity.
  assert (Eo : EVP_AEAD_CTX_open (variant_ctx (fun _ => true) XChaCha20_Poly1305 (mkC20 xtest_key 16)) 0 0 xtest_nonce xtest_sealed []
    (mkOut (zrep 21 9) 0) = Ret tt (mkOut (xtest_plain ++ zrep 16 9) 5)) by (vm_compute; reflexivity).
  split; [exact Eo|]. split; [vm_compute; reflexivity|].
  pose proof (EVP_AEAD_CTX_open_exact (fun _ => true) XChaCha20_Poly1305 xtest_key 16 no_ctx _ 0 0 xtest_nonce xtest_sealed [] (mkOut (zrep 21 9) 0)
    (proj2 test_key_ok) ltac:(lia) E ltac:(by apply (bool_decide_unpack _)) ltac:(by apply (bool_decide_unpack _)) ltac:(constructor) ltac:(by vm_compute)) as H.
  cbv zeta in H. rewrite Eo in H. exact H.
Defined.
