(* ===== verification/ChaChaCipher.v ===== *)
(** * ChaCha20-Poly1305 as an EVP_CIPHER

    The second half of lib/libcrypto/evp/e_chacha20poly1305.c: the AEAD within the
    init/update/final interface of EVP_CIPHER, where the kind of an update follows
    from which of its pointers are NULL, and its controls.  The state is
    [ctx->cipher_data]; [Fail] is the return value 0 or -1. *)

From stdpp Require Import gmap.
From S2P Require Import Prelude Cbs Cbb ChaCha Poly1305 Aead.
Open Scope Z_scope.

Definition EVP_CTRL_INIT : Z := 0x0.
Definition EVP_CTRL_AEAD_SET_IVLEN : Z := 0x9.
Definition EVP_CTRL_AEAD_GET_TAG : Z := 0x10.
Definition EVP_CTRL_AEAD_SET_TAG : Z := 0x11.
Definition EVP_CTRL_AEAD_SET_IV_FIXED : Z := 0x12.
Definition EVP_CTRL_AEAD_GET_IVLEN : Z := 0x25.
Definition INT_MAX : Z := 2 ^ 31 - 1.

Record chacha20_poly1305_ctx : Type := mkCipher {
  cp_chacha : chacha_ctx;
  cp_poly1305 : poly1305_state;
  cp_key : list Z;
  cp_nonce : list Z;
  cp_nonce_len : Z;
  cp_tag : list Z;
  cp_tag_len : Z;
  cp_ad_len : Z;
  cp_in_len : Z;
  cp_in_ad : bool;
  cp_started : bool;
}.
#[global] Instance cipher_eta : Eta chacha20_poly1305_ctx := fun c =>
  mkCipher (cp_chacha c) (cp_poly1305 c) (cp_key c) (cp_nonce c) (cp_nonce_len c) (cp_tag c) (cp_tag_len c) (cp_ad_len c)
    (cp_in_len c) (cp_in_ad c) (cp_started c).

(** Conversion of [size_t] to [int]. *)
Definition to_int (n : Z) : Z := (n + 2 ^ 31) mod 2 ^ 32 - 2 ^ 31.
Section cipher.
Context (malloc_ok : Z -> bool).
Abbreviation cpx_upd f := (modify (S := chacha20_poly1305_ctx) f).

(** The nonce is built in place; the buffer of the CBB is [cpx->nonce]. *)
Definition build_nonce (nonce iv : list Z) (nonce_len : Z) : outcome heap (list Z * Z) :=
  (CBB_init_fixed malloc_ok 0 nonce CHACHA20_NONCE_LEN;;
   CBB_add_space malloc_ok 0 (CHACHA20_NONCE_LEN - nonce_len);;
   iv ← valid (octets_at iv nonce_len);
   CBB_add_bytes malloc_ok 0 iv;;
   CBB_finish malloc_ok 0 None false) (mkHeap ∅ ∅).

(** What a failed builder has stored. *)
Definition built_so_far (h : heap) (nonce : list Z) : list Z :=
  match cbbs h !! 0%nat with
  | Some (mkCBB (Some b) _ _ _ _ _) => match bases h !! b with Some st => base_buf st | None => nonce end
  | _ => nonce
  end.

(** [None] is NULL. *)
Definition chacha20_poly1305_init (key iv : option (list Z)) : M chacha20_poly1305_ctx unit :=
  match key, iv with
  | None, None => mret tt
  | _, _ =>
      cpx_upd (fun cpx => cpx <| cp_started := false |>);;
      (match key with
       | None => mret tt
       | Some key => key ← valid (octets_at key 32); cpx_upd (fun cpx => cpx <| cp_key := key |>)
       end);;
      (match iv with
       | None => mret tt
       | Some iv =>
           cpx ← gets id;
           match build_nonce (cp_nonce cpx) iv (cp_nonce_len cpx) with
           | Ret (nonce, _) _ => cpx_upd (fun cpx => cpx <| cp_nonce := nonce |>)
           | Fail h => cpx_upd (fun cpx => cpx <| cp_nonce := built_so_far h (cp_nonce cpx) |>);; fail
           | UB => ub
           end
       end)
  end.

(** [if (!cpx->started)] *)
Definition cipher_start : M chacha20_poly1305_ctx unit :=
  cpx ← gets id;
  ctr ← valid (nonce_ctr (cp_nonce cpx));
  let iv := zdrop CHACHA20_CONSTANT_LEN (cp_nonce cpx) in
  chacha ← valid (ChaCha_set_key (cp_chacha cpx) (cp_key cpx) (8 * 32));
  chacha ← valid (ChaCha_set_iv chacha iv None);
  let chacha := chacha <| input := <[13%nat := u32 (Z.shiftr ctr 32)]> (<[12%nat := u32 ctr]> (input chacha)) |> in
  '(chacha, poly1305_key) ← valid (ChaCha chacha (zrep 32 0));
  poly1305 ← valid (CRYPTO_poly1305_init (cp_poly1305 cpx) poly1305_key);
  cpx_upd (fun cpx => cpx <| cp_chacha := chacha <| unused := 0 |> |> <| cp_poly1305 := poly1305 |>
    <| cp_ad_len := 0 |> <| cp_in_len := 0 |> <| cp_in_ad := false |> <| cp_started := true |>).

Definition poly_update (data : list Z) : M chacha20_poly1305_ctx unit :=
  cpx ← gets id;
  poly1305 ← valid (CRYPTO_poly1305_update (cp_poly1305 cpx) data);
  cpx_upd (fun cpx => cpx <| cp_poly1305 := poly1305 |>).

Definition poly_pad16 (data_len : Z) : M chacha20_poly1305_ctx unit :=
  cpx ← gets id;
  poly1305 ← valid (poly1305_pad16 (cp_poly1305 cpx) data_len);
  cpx_upd (fun cpx => cpx <| cp_poly1305 := poly1305 |>).

Definition poly_length (data_len : Z) : M chacha20_poly1305_ctx unit :=
  cpx ← gets id;
  poly1305 ← valid (poly1305_update_with_length (cp_poly1305 cpx) None data_len);
  cpx_upd (fun cpx => cpx <| cp_poly1305 := poly1305 |>).

Definition poly_finish : M chacha20_poly1305_ctx (list Z) :=
  cpx ← gets id;
  '(tag, poly1305) ← valid (CRYPTO_poly1305_finish (cp_poly1305 cpx));
  cpx_upd (fun cpx => cpx <| cp_poly1305 := poly1305 |>);;
  mret tag.

(** Update with AD or plaintext/ciphertext: what is stored at [out]. *)
Definition cipher_update (encrypt out_given : bool) (data : list Z) (len : Z) : M chacha20_poly1305_ctx (list Z) :=
  (if negb encrypt || negb out_given then poly_update data else mret tt);;
  out ← (if negb out_given then
           cpx_upd (fun cpx => cpx <| cp_ad_len := u64 (cp_ad_len cpx + len) |> <| cp_in_ad := true |>);;
           mret []
         else
           cpx ← gets id;
           '(chacha, out) ← valid (ChaCha (cp_chacha cpx) data);
           cpx_upd (fun cpx => cpx <| cp_chacha := chacha |> <| cp_in_len := u64 (cp_in_len cpx + len) |>);;
           mret out);
  (if encrypt && out_given then poly_update out else mret tt);;
  mret out.

Definition cipher_final (encrypt : bool) : M chacha20_poly1305_ctx unit :=
  cpx ← gets id;
  poly_pad16 (cp_in_len cpx);;
  poly_length (cp_ad_len cpx);;
  poly_length (cp_in_len cpx);;
  (if encrypt then
     tag ← poly_finish;
     cpx_upd (fun cpx => cpx <| cp_tag := tag |> <| cp_tag_len := 16 |>)
   else
     check (negb (cp_tag_len cpx <=? 0));;
     tag ← poly_finish;
     must (cp_tag_len cpx <=? zlen (cp_tag cpx));;
     check (timingsafe_memcmp (ztake (cp_tag_len cpx) tag) (ztake (cp_tag_len cpx) (cp_tag cpx)) 0 0 =? 0));;
  cpx_upd (fun cpx => cpx <| cp_started := false |>).

(** The return value, and the octets stored at [out]. *)
Definition chacha20_poly1305_cipher (encrypt out_given : bool) (input : option (list Z)) (len : Z) :
    M chacha20_poly1305_ctx (Z * list Z) :=
  cpx ← gets id;
  (if negb (cp_started cpx) then cipher_start else mret tt);;
  cpx ← gets id;
  check (negb (SIZE_MAX - cp_in_len cpx <? len));;
  check (negb ((0 <? cp_in_len cpx) && bool_decide (input <> None) && negb out_given));;
  (if cp_in_ad cpx && (bool_decide (input = None) || out_given) then
     poly_pad16 (cp_ad_len cpx);;
     cpx_upd (fun cpx => cpx <| cp_in_ad := false |>)
   else mret tt);;
  match input with
  | Some input =>
      data ← valid (octets_at input len);
      out ← cipher_update encrypt out_given data len;
      mret (to_int len, out)
  | None =>
      cipher_final encrypt;;
      mret (to_int len, [])
  end.

Definition zero_cipher_ctx : chacha20_poly1305_ctx :=
  mkCipher (mkChacha (zrep 16 0) (zrep 64 0) 0) (mkPoly (0, 0, 0, 0, 0) (0, 0, 0, 0, 0) (0, 0, 0, 0) 0 (zrep 16 0) false)
    (zrep 32 0) (zrep 12 0) 0 (zrep 16 0) 0 0 0 false false.

Definition chacha20_poly1305_cleanup : M chacha20_poly1305_ctx unit := cpx_upd (fun _ => zero_cipher_ctx).

(** [ptr]: the octets it points to, [None] for NULL; the result is what is stored
    there, an [int] as a number. *)
Definition chacha20_poly1305_ctrl (encrypt : bool) (type arg : Z) (ptr : option (list Z)) : M chacha20_poly1305_ctx (Z + list Z) :=
  cpx ← gets id;
  if type =? EVP_CTRL_INIT then
    cpx_upd (fun _ => zero_cipher_ctx <| cp_nonce_len := 12 |>);;
    mret (inr [])
  else if type =? EVP_CTRL_AEAD_GET_IVLEN then
    check (negb (INT_MAX <? cp_nonce_len cpx));;
    _ ← valid ptr;
    mret (inl (cp_nonce_len cpx))
  else if type =? EVP_CTRL_AEAD_SET_IVLEN then
    check (negb ((arg <=? 0) || (12 <? arg)));;
    cpx_upd (fun cpx => cpx <| cp_nonce_len := arg |>);;
    mret (inr [])
  else if type =? EVP_CTRL_AEAD_SET_TAG then
    check (negb encrypt);;
    check (negb ((arg <=? 0) || (16 <? arg)));;
    match ptr with
    | None => mret (inr [])
    | Some ptr =>
        octets ← valid (octets_at ptr arg);
        tag ← valid (zwrite (cp_tag cpx) 0 octets);
        cpx_upd (fun cpx => cpx <| cp_tag := tag |> <| cp_tag_len := arg |>);;
        mret (inr [])
    end
  else if type =? EVP_CTRL_AEAD_GET_TAG then
    check encrypt;;
    check (negb ((arg <=? 0) || (cp_tag_len cpx <? arg)));;
    _ ← valid ptr;
    tag ← valid (octets_at (cp_tag cpx) arg);
    mret (inr tag)
  else if type =? EVP_CTRL_AEAD_SET_IV_FIXED then
    check (arg =? 12);;
    ptr ← valid ptr;
    nonce ← valid (octets_at ptr arg);
    cpx_upd (fun cpx => cpx <| cp_nonce := nonce |>);;
    mret (inr [])
  else fail.
End cipher.

(** ** The nonce *)

Lemma split_list (n : nat) (l : list Z) : length l = n -> l = map (fun i => nth i l 0) (seq 0 n).
Proof.
  intros <-. induction l as [|x l IH]; [done|]. cbn [length seq map nth]. f_equal. rewrite <- seq_shift, map_map. exact IH.
Qed.

Lemma build_nonce_ok malloc_ok nonce iv n :
  malloc_ok sizeof_cbb_buffer_st = true -> zlen nonce = 12 -> 1 <= n <= 12 -> n <= zlen iv ->
  exists h, build_nonce malloc_ok nonce iv n = Ret (zrep (12 - n) 0 ++ ztake n iv, 12) h.
Proof.
  intros Hm Hl Hn Hiv. pose proof (zlen_ztake n iv ltac:(lia)) as Hz. unfold build_nonce, octets_at, CBB_init_fixed, cbb_init, store_cbb. mstep. rewrite Hm.
  rewrite !(proj2 (Z.leb_le _ _)) by lia. cbn [andb]. set (l := ztake n iv) in *. clearbody l. clear Hiv iv.
  unfold zlen in Hl, Hz. apply (Nat2Z.inj _ 12) in Hl.
  assert (Hn' : exists k : nat, n = Z.of_nat k /\ (1 <= k <= 12)%nat) by (exists (Z.to_nat n); lia). destruct Hn' as (k & -> & Hk).
  apply Nat2Z.inj in Hz.
  do 12 (destruct nonce as [|? nonce]; [done|]). destruct nonce; [|done].
  assert (Hc : In k (seq 1 12)) by (apply in_seq; lia). cbn [seq In] in Hc. clear Hk Hn.
  destruct_or! Hc; subst k;
    repeat (destruct l as [|? l]; try done); eexists; vm_compute; reflexivity.
Qed.

(** ** The state between calls *)

(** The start of the key stream: the block after the one-time key. *)
Definition text_ctr (nonce : list Z) : Z := le_val (ztake 4 nonce) * 2 ^ 32.
Definition text_stream (key nonce : list Z) (p n : Z) : list Z :=
  keystream (chacha_input key (zdrop 4 nonce)) (64 * (text_ctr nonce + 1) + p) n.
Definition mac_key_of (key nonce : list Z) : list Z := otk key (zdrop 4 nonce) (text_ctr nonce).

(** A context that can be started: the arrays have their sizes. *)
Definition startable (key nonce : list Z) (c : chacha20_poly1305_ctx) : Prop :=
  cp_key c = key /\ cp_nonce c = nonce /\ length (input (cp_chacha c)) = 16%nat /\
  zlen (p_buffer (cp_poly1305 c)) = 16 /\ Forall is_byte (p_buffer (cp_poly1305 c)) /\
  zlen (cp_tag c) = 16 /\ Forall is_byte (cp_tag c).

(** The additional data [ad] and the ciphertext [enc] have been seen; [in_ad]: the
    additional data is not padded yet. *)
Definition running (key nonce ad enc : list Z) (in_ad : bool) (c : chacha20_poly1305_ctx) : Prop :=
  startable key nonce c /\ cp_started c = true /\
  chacha_at (chacha_input key (zdrop 4 nonce)) (64 * (text_ctr nonce + 1) + zlen enc) (cp_chacha c) /\
  cp_ad_len c = zlen ad /\ cp_in_len c = zlen enc /\ cp_in_ad c = in_ad /\
  poly_at (mac_key_of key nonce) (if in_ad then ad else ad ++ rfc_pad16 ad ++ enc) (cp_poly1305 c).

Section cipher_ok.
Context (key nonce : list Z) (Hkey : octets_ok 32 key) (Hnonce : octets_ok 12 nonce).

Lemma iv_ok : octets_ok 8 (zdrop 4 nonce).
Proof using Hnonce. destruct Hnonce as [Hl Hb]. split; [rewrite zlen_zdrop; lia|by apply Forall_zdrop]. Qed.

Lemma stream_input_ok : input_ok (chacha_input key (zdrop 4 nonce)).
Proof using Hkey Hnonce. apply chacha_input_ok; [done|apply iv_ok]. Qed.

Lemma text_ctr_ok : nonce_ctr nonce = Some (text_ctr nonce) /\ 0 <= text_ctr nonce < 2 ^ 64 - 1.
Proof using Hnonce. destruct Hnonce as [Hl Hb]. destruct (nonce_ctr_ok nonce Hb ltac:(lia)) as [E Hv]. split; [done|]. unfold text_ctr. lia. Qed.

Lemma mac_key_ok : key_ok (mac_key_of key nonce).
Proof using. unfold mac_key_of. apply otk_ok. Qed.

Lemma wp_cipher_start c (Q : unit -> chacha20_poly1305_ctx -> Prop) E :
  startable key nonce c ->
  (forall c', running key nonce [] [] false c' -> cp_tag c' = cp_tag c /\ cp_tag_len c' = cp_tag_len c -> Q tt c') ->
  wp cipher_start c Q E.
Proof using Hkey Hnonce.
  intros (Ek & En & Hin & Hbl & Hbb & Htag) HQ. destruct text_ctr_ok as [Ectr Hctr]. pose proof iv_ok as Hiv.
  pose proof stream_input_ok as Hj. set (j := chacha_input key (zdrop 4 nonce)) in *. set (ctr := text_ctr nonce) in *.
  unfold cipher_start. apply wp_bind, wp_gets. cbn [id]. rewrite En, Ek. vbind Ectr. cbv zeta.
  change (zdrop CHACHA20_CONSTANT_LEN nonce) with (zdrop 4 nonce).
  destruct (ChaCha_set_ok (cp_chacha c) key (zdrop 4 nonce) None Hkey Hiv I Hin) as (x1 & x2 & E1 & E2 & (Hin2 & Hu2 & _)).
  vbind E1. vbind E2. fold j in Hin2. cbn [counter_val] in Hin2, Hu2. change ((64 * 0 + 63) / 64) with 0 in Hin2.
  set (x := x2 <| input := _ |>).
  assert (Hat : chacha_at j (64 * ctr) x).
  { split; [|split].
    - unfold x. cbn [set_field input]. rewrite Hin2, Z.shiftr_div_pow2, (list_insert_insert_ne _ 13 12) by (done || lia).
      replace ((64 * ctr + 63) / 64) with ctr by (Z.to_euclidean_division_equations; lia). apply (at_counter_twice j 0 ctr).
    - change (unused x) with (unused x2). rewrite Hu2. Z.to_euclidean_division_equations. lia.
    - change (unused x) with (unused x2). rewrite Hu2. Z.to_euclidean_division_equations. lia. }
  destruct (ChaCha_ok j (64 * ctr) x (zrep 32 0) Hj ltac:(lia) Hat ltac:(by apply is_byte_zrep) ltac:(by vm_compute)) as (x' & E3 & Hat3).
  change (zlen (zrep 32 0)) with 32 in E3, Hat3.
  assert (Eotk : xor_octets (zrep 32 0) (keystream j (64 * ctr) 32) = mac_key_of key nonce).
  { unfold mac_key_of, otk. fold j ctr. rewrite pieces_stream_short by (by vm_compute). rewrite xor_zeros. apply ztake_all.
    by rewrite zlen_keystream. }
  rewrite Eotk in E3. vbind E3.
  destruct (poly1305_init_at (cp_poly1305 c) _ mac_key_ok Hbl Hbb) as (p & E4 & Hp). vbind E4. apply wp_modify.
  apply HQ; [|done]. split; [|split; [done|]].
  - split; [done|]. split; [done|]. split; [|split; [apply Hp|split; [apply Hp|done]]].
    cbn [set_field cp_chacha input]. destruct Hat3 as (-> & _). unfold at_counter. by rewrite !length_insert; apply Hj.
  - split; [|done]. cbn [set_field cp_chacha]. change (zlen []) with 0. fold ctr j. destruct Hat3 as (Hi & _ & _). split; [|split].
    + cbn [set_field input]. rewrite Hi. f_equal. Z.to_euclidean_division_equations. lia.
    + cbn [set_field unused]. Z.to_euclidean_division_equations. lia.
    + cbn [set_field unused]. lia.
Qed.

Lemma wp_poly_update msg data c (Q : unit -> chacha20_poly1305_ctx -> Prop) E :
  poly_at (mac_key_of key nonce) msg (cp_poly1305 c) -> Forall is_byte data ->
  (forall p, poly_at (mac_key_of key nonce) (msg ++ data) p -> Q tt (c <| cp_poly1305 := p |>)) ->
  wp (poly_update data) c Q E.
Proof using.
  intros Hp Hd HQ. unfold poly_update. apply wp_bind, wp_gets. cbn [id].
  destruct (poly1305_update_ok _ _ _ data Hp Hd) as (p & E1 & Hp1). vbind E1. by apply wp_modify, HQ.
Qed.

Lemma wp_poly_pad16 msg data n c (Q : unit -> chacha20_poly1305_ctx -> Prop) E :
  poly_at (mac_key_of key nonce) msg (cp_poly1305 c) -> n = zlen data ->
  (forall p, poly_at (mac_key_of key nonce) (msg ++ rfc_pad16 data) p -> Q tt (c <| cp_poly1305 := p |>)) ->
  wp (poly_pad16 n) c Q E.
Proof using.
  intros Hp Hn HQ. unfold poly_pad16. apply wp_bind, wp_gets. cbn [id].
  destruct (pad16_ok _ _ _ n data Hp Hn) as (p & E1 & Hp1). vbind E1. by apply wp_modify, HQ.
Qed.

Lemma wp_poly_length msg n c (Q : unit -> chacha20_poly1305_ctx -> Prop) E :
  poly_at (mac_key_of key nonce) msg (cp_poly1305 c) -> 0 <= n ->
  (forall p, poly_at (mac_key_of key nonce) (msg ++ le_bytes 8 n) p -> Q tt (c <| cp_poly1305 := p |>)) ->
  wp (poly_length n) c Q E.
Proof using.
  intros Hp Hn HQ. unfold poly_length. apply wp_bind, wp_gets. cbn [id].
  destruct (with_length_ok _ _ _ n Hp Hn) as (p & E1 & Hp1). vbind E1. by apply wp_modify, HQ.
Qed.
(** Running, or about to be started. *)
Definition ready (ad enc : list Z) (in_ad : bool) (c : chacha20_poly1305_ctx) : Prop :=
  running key nonce ad enc in_ad c \/ startable key nonce c /\ cp_started c = false /\ ad = [] /\ enc = [] /\ in_ad = false.

Definition same_tag (c c' : chacha20_poly1305_ctx) : Prop := cp_tag c' = cp_tag c /\ cp_tag_len c' = cp_tag_len c.

Lemma running_poly ad enc in_ad c p :
  running key nonce ad enc in_ad c -> zlen (p_buffer p) = 16 -> Forall is_byte (p_buffer p) -> startable key nonce (c <| cp_poly1305 := p |>).
Proof using. intros ((? & ? & ? & _ & _ & ?) & _) Hl Hb. by split_and?. Qed.

(** The beginning of every call: the context is started, lengths are compared, and
    the additional data is padded when text or the end follows it. *)
Lemma wp_cipher_begin encrypt out_given inp len ad enc in_ad c (Q : Z * list Z -> chacha20_poly1305_ctx -> Prop) E :
  ready ad enc in_ad c -> 0 <= len -> zlen enc + len < 2 ^ 64 -> (in_ad = true -> enc = []) ->
  (inp <> None -> out_given = false -> enc = []) ->
  (forall c', same_tag c c' -> running key nonce ad enc (in_ad && negb (bool_decide (inp = None) || out_given)) c' ->
     wp (match inp with
         | Some input => data ← valid (octets_at input len); out ← cipher_update encrypt out_given data len; mret (to_int len, out)
         | None => cipher_final encrypt;; mret (to_int len, [])
         end) c' Q E) ->
  wp (chacha20_poly1305_cipher encrypt out_given inp len) c Q E.
Proof using Hkey Hnonce.
  intros Hr Hlen Hsize Hia Hno HQ. unfold chacha20_poly1305_cipher. apply wp_bind, wp_gets. cbn [id].
  assert (Hrun : forall c', same_tag c c' -> running key nonce ad enc in_ad c' ->
    wp (cpx ← gets id;
        check (negb (SIZE_MAX - cp_in_len cpx <? len));;
        check (negb ((0 <? cp_in_len cpx) && bool_decide (inp <> None) && negb out_given));;
        (if cp_in_ad cpx && (bool_decide (inp = None) || out_given) then
           poly_pad16 (cp_ad_len cpx);;
           modify (fun cpx => cpx <| cp_in_ad := false |>)
         else mret tt);;
        match inp with
        | Some input => data ← valid (octets_at input len); out ← cipher_update encrypt out_given data len; mret (to_int len, out)
        | None => cipher_final encrypt;; mret (to_int len, [])
        end) c' Q E).
  { intros c' Htag Hrun. pose proof Hrun as (Hst & Hs & Hat & Hal & Hil & Hin & Hp). pose proof (zlen_nonneg enc).
    apply wp_bind, wp_gets. cbn [id].
    apply wp_bind, wp_check; [intros _|unfold SIZE_MAX; intros Hbad; apply negb_false_iff, Z.ltb_lt in Hbad; lia].
    apply wp_bind, wp_check; [intros _|intros Hbad; exfalso].
    2: { apply negb_false_iff, andb_true_iff in Hbad as [[Hpos%Z.ltb_lt Hi%bool_decide_eq_true]%andb_true_iff Ho%negb_true_iff].
         rewrite (Hno Hi Ho) in Hil. change (zlen []) with 0 in Hil. lia. }
    rewrite Hin. apply wp_bind. destruct in_ad; cbn [andb].
    - rewrite (Hia eq_refl) in *. destruct (bool_decide (inp = None) || out_given) eqn:Epad; cbn [negb] in HQ.
      + apply wp_bind, (wp_poly_pad16 ad ad); [done|done|]. intros p Hp'. apply wp_modify. apply HQ; [exact Htag|].
        split; [|split; [done|]].
        * pose proof (running_poly _ _ _ _ p Hrun (proj1 Hp') (proj1 (proj2 Hp'))) as Hsp. exact Hsp.
        * split; [done|]. split; [done|]. split; [done|]. split; [done|]. by rewrite app_nil_r.
      + apply wp_ret, HQ; done.
    - apply wp_ret, HQ; done. }
  apply wp_bind. destruct Hr as [Hr|(Hst & Hs & -> & -> & ->)].
  - pose proof Hr as (_ & -> & _). cbn [negb]. apply wp_ret. by apply Hrun.
  - rewrite Hs. cbn [negb]. apply wp_cipher_start; [done|]. intros c' Hc' Htag. by apply Hrun.
Qed.

(** An update with additional data. *)
Lemma wp_cipher_ad encrypt ad in_ad c data (Q : Z * list Z -> chacha20_poly1305_ctx -> Prop) E :
  ready ad [] in_ad c -> (in_ad = true \/ ad = []) -> Forall is_byte data -> zlen ad + zlen data < 2 ^ 64 ->
  (forall c', same_tag c c' -> running key nonce (ad ++ data) [] true c' -> Q (to_int (zlen data), []) c') ->
  wp (chacha20_poly1305_cipher encrypt false (Some data) (zlen data)) c Q E.
Proof using Hkey Hnonce.
  intros Hr Hia Hd Hsize HQ. pose proof (zlen_nonneg ad). pose proof (zlen_nonneg data).
  eapply (wp_cipher_begin encrypt false (Some data) (zlen data) ad [] in_ad c); [exact Hr|lia|change (zlen []) with 0; lia|done|done|].
  intros c' Htag Hrun. replace (in_ad && _) with in_ad in Hrun by (by destruct in_ad).
  apply wp_bind. eapply (wp_valid _ data); [unfold octets_at; rewrite !(proj2 (Z.leb_le _ _)) by lia; cbn [andb]; by rewrite ztake_all by lia|].
  unfold cipher_update. rewrite orb_true_r, andb_false_r. cbn [negb]. apply wp_bind, wp_bind.
  destruct Hrun as (Hst & Hs & Hat & Hal & Hil & Hin & Hp).
  assert (Hp1 : poly_at (mac_key_of key nonce) ad (cp_poly1305 c')).
  { destruct Hia as [-> | ->]; [done|]. by destruct in_ad. }
  apply (wp_poly_update ad); [done|done|]. intros p Hp'.
  apply wp_bind, wp_bind, wp_modify, wp_ret, wp_bind, wp_ret, wp_ret, wp_ret. apply HQ; [exact Htag|].
  split; [|split; [done|split; [done|]]].
  - destruct Hst as (? & ? & ? & _ & _ & ?). split; [done|]. split; [done|]. split; [done|]. split; [apply (proj1 Hp')|]. split; [apply (proj1 (proj2 Hp'))|done].
  - split; [|split; [exact Hil|split; [done|exact Hp']]]. cbn [set_field cp_ad_len]. rewrite Hal, zlen_app. apply u64_small. lia.
Qed.

(** An update with text. *)
Lemma wp_cipher_text (encrypt : bool) ad enc in_ad c data (Q : Z * list Z -> chacha20_poly1305_ctx -> Prop) E :
  ready ad enc in_ad c -> (in_ad = true -> enc = []) -> chunk_ok data -> zlen enc + zlen data < 2 ^ 64 ->
  let out := xor_octets data (text_stream key nonce (zlen enc) (zlen data)) in
  (forall c', same_tag c c' -> running key nonce ad (enc ++ (if encrypt then out else data)) false c' -> Q (to_int (zlen data), out) c') ->
  wp (chacha20_poly1305_cipher encrypt true (Some data) (zlen data)) c Q E.
Proof using Hkey Hnonce.
  intros Hr Hia [Hd Hmax] Hsize out HQ. pose proof (zlen_nonneg enc). pose proof (zlen_nonneg data).
  eapply (wp_cipher_begin encrypt true (Some data) (zlen data) ad enc in_ad c); [exact Hr|lia|lia|done|done|].
  intros c' Htag Hrun. rewrite orb_true_r, andb_false_r in Hrun.
  apply wp_bind. eapply (wp_valid _ data); [unfold octets_at; rewrite !(proj2 (Z.leb_le _ _)) by lia; cbn [andb]; by rewrite ztake_all by lia|].
  destruct Hrun as (Hst & Hs & Hat & Hal & Hil & Hin & Hp). destruct (text_ctr_ok) as [_ Hctr].
  destruct (ChaCha_ok _ (64 * (text_ctr nonce + 1) + zlen enc) _ data stream_input_ok ltac:(lia) Hat Hd Hmax) as (x & Ex & Hat').
  change (xor_octets data (keystream _ _ _)) with out in Ex.
  assert (Hzo : zlen out = zlen data) by (apply zlen_xor_octets; unfold text_stream; rewrite zlen_keystream; lia).
  assert (Hbo : Forall is_byte out) by (apply is_byte_xor; [done|apply keystream_byte]).
  assert (Hend : forall p msg, zlen msg = zlen data -> poly_at (mac_key_of key nonce) (ad ++ rfc_pad16 ad ++ enc ++ msg) p ->
    running key nonce ad (enc ++ msg) false (c' <| cp_poly1305 := p |> <| cp_chacha := x |> <| cp_in_len := u64 (cp_in_len c' + zlen data) |>)).
  { intros p msg Hz Hp'. split; [|split; [done|split; [|split; [done|split; [|split; [done|done]]]]]].
    - destruct Hst as (? & ? & _ & _ & _ & ?). split; [done|]. split; [done|].
      split; [cbn [set_field cp_chacha]; destruct Hat' as (-> & _); unfold at_counter; rewrite !length_insert; apply stream_input_ok|].
      split; [apply Hp'|split; [apply Hp'|done]].
    - cbn [set_field cp_chacha]. rewrite zlen_app, Hz, Z.add_assoc. exact Hat'.
    - cbn [set_field cp_in_len]. rewrite Hil, zlen_app, Hz. apply u64_small. lia. }
  unfold cipher_update. destruct encrypt; cbn [negb orb andb].
  - apply wp_bind, wp_bind, wp_ret, wp_bind, wp_bind, wp_gets. cbn [id]. vbind Ex. apply wp_bind, wp_modify, wp_ret, wp_bind.
    apply (wp_poly_update (ad ++ rfc_pad16 ad ++ enc)); [done|done|]. intros p Hp'. apply wp_ret, wp_ret. apply HQ; [exact Htag|].
    rewrite <- !app_assoc in Hp'. exact (Hend p out Hzo Hp').
  - apply wp_bind, wp_bind. apply (wp_poly_update (ad ++ rfc_pad16 ad ++ enc)); [done|done|]. intros p Hp'.
    apply wp_bind, wp_bind, wp_gets. cbn [id]. vbind Ex. apply wp_bind, wp_modify, wp_ret, wp_bind, wp_ret, wp_ret, wp_ret. apply HQ; [exact Htag|].
    rewrite <- !app_assoc in Hp'. exact (Hend p data eq_refl Hp').
Qed.

(** The end: the tag. *)
Abbreviation mac_of ad enc := (rfc_poly1305_mac (mac_key_of key nonce) (rfc_mac_data ad enc)).

Lemma wp_cipher_final (encrypt : bool) ad enc in_ad c (Q : Z * list Z -> chacha20_poly1305_ctx -> Prop) (E : chacha20_poly1305_ctx -> Prop) :
  ready ad enc in_ad c -> (in_ad = true -> enc = []) -> zlen ad < 2 ^ 64 -> zlen enc < 2 ^ 64 ->
  (if encrypt then forall c', cp_tag c' = mac_of ad enc -> cp_tag_len c' = 16 -> Q (0, []) c'
   else 0 <= cp_tag_len c <= 16 /\
     (1 <= cp_tag_len c -> ztake (cp_tag_len c) (mac_of ad enc) = ztake (cp_tag_len c) (cp_tag c) -> forall c', Q (0, []) c') /\
     (cp_tag_len c = 0 \/ ztake (cp_tag_len c) (mac_of ad enc) <> ztake (cp_tag_len c) (cp_tag c) -> forall c', E c')) ->
  wp (chacha20_poly1305_cipher encrypt false None 0) c Q E.
Proof using Hkey Hnonce.
  intros Hr Hia Had Henc HQ. pose proof (zlen_nonneg enc). pose proof (zlen_nonneg ad).
  eapply (wp_cipher_begin encrypt false None 0 ad enc in_ad c); [exact Hr|lia|lia|done|done|].
  intros c' [Et El] Hrun. replace (in_ad && _) with false in Hrun by (by destruct in_ad).
  destruct Hrun as ((_ & _ & _ & _ & _ & Htl & Htb) & _ & _ & Hal & Hil & _ & Hp). apply wp_bind. unfold cipher_final.
  apply wp_bind, wp_gets. cbn [id]. apply wp_bind. apply (wp_poly_pad16 _ enc _ _ _ _ Hp Hil). intros p1 Hp1.
  apply wp_bind. eapply wp_poly_length; [exact Hp1|cbn [set_field cp_ad_len]; lia|]. intros p2 Hp2.
  apply wp_bind. eapply wp_poly_length; [exact Hp2|cbn [set_field cp_in_len]; lia|]. intros p3 Hp3. apply wp_bind.
  assert (Hmac : exists p4, CRYPTO_poly1305_finish p3 = Some (mac_of ad enc, p4)).
  { destruct (poly1305_finish_ok _ _ _ Hp3) as (p4 & E4). exists p4. rewrite E4, Hal, Hil. unfold rfc_mac_data. by rewrite <- !app_assoc. }
  destruct Hmac as (p4 & E4). set (s := c' <| cp_poly1305 := p3 |>).
  change (c' <| cp_poly1305 := p1 |> <| cp_poly1305 := p2 |> <| cp_poly1305 := p3 |>) with s.
  assert (Es : cp_poly1305 s = p3) by done. clearbody s. rewrite El, Et in *. destruct encrypt.
  - unfold poly_finish. apply wp_bind, wp_bind, wp_gets. cbn [id]. rewrite Es. vbind E4. apply wp_bind, wp_modify, wp_ret, wp_modify, wp_modify, wp_ret.
    by apply HQ.
  - destruct HQ as (Hlen & Hok & Hno).
    apply wp_bind, wp_check; [intros Hpos%negb_true_iff%Z.leb_gt|intros Hz%negb_false_iff%Z.leb_le; apply Hno; lia].
    unfold poly_finish. apply wp_bind, wp_bind, wp_gets. cbn [id]. rewrite Es. vbind E4. apply wp_bind, wp_modify, wp_ret.
    apply wp_bind, wp_must; [apply Z.leb_le; lia|].
    rewrite (tag_matches (cp_tag_len c) (mac_of ad enc)); [|apply zlen_rfc_mac|lia|apply is_byte_le_bytes|by apply Forall_ztake|apply zlen_ztake; lia].
    apply wp_check; intros Heq.
    + apply wp_modify, wp_ret, Hok; [lia|]. by apply bool_decide_eq_true in Heq.
    + apply Hno. right. by apply bool_decide_eq_false in Heq.
Qed.

(** ** Any sequence of updates *)
Fixpoint cipher_ads (encrypt : bool) (ads : list (list Z)) : M chacha20_poly1305_ctx unit :=
  match ads with
  | [] => mret tt
  | ad :: ads => chacha20_poly1305_cipher encrypt false (Some ad) (zlen ad);; cipher_ads encrypt ads
  end.

Fixpoint cipher_texts (encrypt : bool) (ms : list (list Z)) : M chacha20_poly1305_ctx (list Z) :=
  match ms with
  | [] => mret []
  | m :: ms =>
      '(_, out) ← chacha20_poly1305_cipher encrypt true (Some m) (zlen m);
      rest ← cipher_texts encrypt ms;
      mret (out ++ rest)
  end.

Lemma wp_cipher_ads encrypt ads (Q : unit -> chacha20_poly1305_ctx -> Prop) E : forall ad in_ad c,
  ready ad [] in_ad c -> (in_ad = true \/ ad = []) -> Forall (Forall is_byte) ads -> zlen ad + zlen (concat ads) < 2 ^ 64 ->
  (forall c' in_ad', same_tag c c' -> ready (ad ++ concat ads) [] in_ad' c' -> Q tt c') ->
  wp (cipher_ads encrypt ads) c Q E.
Proof using Hkey Hnonce.
  induction ads as [|a ads IH]; intros ad in_ad c Hr Hia Hads Hsize HQ; cbn [cipher_ads concat] in *.
  - apply wp_ret. apply (HQ c in_ad); [done|]. by rewrite app_nil_r.
  - apply Forall_cons in Hads as [Ha Hads]. rewrite zlen_app in Hsize. pose proof (zlen_nonneg (concat ads)).
    apply wp_bind. apply (wp_cipher_ad encrypt ad in_ad); [done|done|done|lia|]. intros c1 [Et El] Hr1.
    apply (IH (ad ++ a) true); [by left|by left|done|rewrite zlen_app; lia|]. intros c2 in_ad' [Et2 El2] Hr2.
    apply (HQ c2 in_ad'); [split; congruence|]. by rewrite app_assoc.
Qed.

Lemma wp_cipher_texts (encrypt : bool) E ms : forall (Q : list Z -> chacha20_poly1305_ctx -> Prop) ad enc in_ad c,
  ready ad enc in_ad c -> (in_ad = true -> enc = []) -> Forall chunk_ok ms -> zlen enc + zlen (concat ms) < 2 ^ 64 ->
  let out := xor_octets (concat ms) (text_stream key nonce (zlen enc) (zlen (concat ms))) in
  (forall c' in_ad', same_tag c c' -> let enc' := enc ++ (if encrypt then out else concat ms) in
     ready ad enc' in_ad' c' -> (in_ad' = true -> enc' = []) -> Q out c') ->
  wp (cipher_texts encrypt ms) c Q E.
Proof using Hkey Hnonce.
  induction ms as [|m ms IH]; intros Q ad enc in_ad c Hr Hia Hms Hsize out HQ; cbn [cipher_texts concat] in *.
  - apply wp_ret. apply (HQ c in_ad); [done| |]; subst out; destruct encrypt; cbn [xor_octets zip_with]; by rewrite app_nil_r.
  - apply Forall_cons in Hms as [Hm Hms]. pose proof (zlen_nonneg (concat ms)) as Hn. pose proof (zlen_nonneg m) as Hn1.
    subst out. rewrite zlen_app in *. unfold text_stream in HQ. rewrite keystream_app in HQ by lia.
    rewrite xor_octets_app in HQ by (rewrite length_keystream; unfold zlen; lia).
    apply wp_bind. apply (wp_cipher_text encrypt ad enc in_ad); [done|done|done|lia|]. intros c1 [Et El] Hr1. cbn [fst snd].
    set (out1 := xor_octets m (text_stream key nonce (zlen enc) (zlen m))) in *.
    assert (Hz : zlen (if encrypt then out1 else m) = zlen m).
    { destruct encrypt; [|done]. apply zlen_xor_octets. unfold text_stream. by rewrite zlen_keystream. }
    apply wp_bind. apply (IH _ ad (enc ++ (if encrypt then out1 else m)) false); [by left|done|done|rewrite zlen_app, Hz; lia|].
    intros c2 in_ad' [Et2 El2] Hr2 Hia2. apply wp_ret. unfold text_stream in *. rewrite zlen_app, Hz in *.
    rewrite !Z.add_assoc in *. subst out1. apply (HQ c2 in_ad'); [split; congruence| |];
      destruct encrypt; by rewrite ?app_assoc.
Qed.

Lemma text_stream_rfc n : 0 <= n <= UINT32_MAX -> text_stream key nonce 0 n = rfc_stream key nonce 1 n.
Proof using Hkey Hnonce.
  intros Hn. rewrite <- stream_rfc by (done || lia). rewrite pieces_stream_short by done. unfold text_stream, text_ctr. by rewrite Z.add_0_r.
Qed.

Lemma mac_key_rfc : mac_key_of key nonce = rfc_stream key nonce 0 32.
Proof using Hkey Hnonce.
  rewrite <- stream_rfc; [|done|done|lia|by vm_compute]. unfold mac_key_of, otk, text_ctr. by rewrite Z.add_0_r.
Qed.

Lemma seal_of_stream plain ad tag_len :
  zlen plain <= UINT32_MAX ->
  let enc := xor_octets plain (text_stream key nonce 0 (zlen plain)) in
  rfc_seal key nonce plain ad tag_len = enc ++ ztake tag_len (mac_of ad enc).
Proof using Hkey Hnonce.
  intros Hl enc. unfold rfc_seal. rewrite <- mac_key_rfc, <- text_stream_rfc; [done|]. pose proof (zlen_nonneg plain). lia.
Qed.

Lemma text_twice m n : n = zlen m -> xor_octets (xor_octets m (text_stream key nonce 0 n)) (text_stream key nonce 0 n) = m.
Proof using. intros ->. apply xor_octets_twice. unfold text_stream. rewrite length_keystream. unfold zlen. lia. Qed.

(** Ciphertext and tag are a sealing, or of nothing. *)
Lemma open_of_stream enc tag ad :
  zlen enc <= UINT32_MAX -> 1 <= zlen tag <= 16 ->
  let out := xor_octets enc (text_stream key nonce 0 (zlen enc)) in
  (ztake (zlen tag) (mac_of ad enc) = tag -> enc ++ tag = rfc_seal key nonce out ad (zlen tag)) /\
  (ztake (zlen tag) (mac_of ad enc) <> tag -> forall plain, enc ++ tag <> rfc_seal key nonce plain ad (zlen tag)).
Proof using Hkey Hnonce.
  intros Hl Ht out. pose proof (zlen_nonneg enc).
  assert (Hz : zlen out = zlen enc) by (apply zlen_xor_octets; unfold text_stream; rewrite zlen_keystream; lia).
  split.
  - intros E. rewrite seal_of_stream by (by rewrite Hz). rewrite Hz. unfold out. by rewrite text_twice, E by done.
  - intros Hne plain E. assert (Hp : zlen plain = zlen enc).
    { apply (f_equal zlen) in E. change (rfc_seal _ _ _ _ _) with (variant_seal ChaCha20_Poly1305 key nonce plain ad (zlen tag)) in E.
      rewrite zlen_variant_seal, zlen_app in E by lia. lia. }
    rewrite seal_of_stream in E by lia. apply app_inj_1 in E as [E1 E2].
    + apply Hne. rewrite E1 at 1. by rewrite <- E2.
    + unfold zlen in Hp. rewrite length_xor_octets; [lia|]. unfold text_stream. rewrite length_keystream. unfold zlen. lia.
Qed.
End cipher_ok.

(** ** Whole operations *)

(** The calls a caller makes, in their order. *)
Definition begin_run malloc_ok (encrypt : bool) (key iv : list Z) : M chacha20_poly1305_ctx unit :=
  chacha20_poly1305_ctrl encrypt EVP_CTRL_INIT 0 None;;
  chacha20_poly1305_ctrl encrypt EVP_CTRL_AEAD_SET_IVLEN (zlen iv) None;;
  chacha20_poly1305_init malloc_ok (Some key) (Some iv).

Definition seal_run malloc_ok (key iv : list Z) (ads ms : list (list Z)) : M chacha20_poly1305_ctx (list Z * (Z + list Z)) :=
  begin_run malloc_ok true key iv;;
  cipher_ads true ads;;
  out ← cipher_texts true ms;
  chacha20_poly1305_cipher true false None 0;;
  tag ← chacha20_poly1305_ctrl true EVP_CTRL_AEAD_GET_TAG 16 (Some (zrep 16 0));
  mret (out, tag).

Definition open_run malloc_ok (key iv : list Z) (ads cs : list (list Z)) (tag : list Z) : M chacha20_poly1305_ctx (list Z) :=
  begin_run malloc_ok false key iv;;
  chacha20_poly1305_ctrl false EVP_CTRL_AEAD_SET_TAG (zlen tag) (Some tag);;
  cipher_ads false ads;;
  out ← cipher_texts false cs;
  chacha20_poly1305_cipher false false None 0;;
  mret out.

(** A shorter nonce is padded on the left. *)
Definition padded_iv (iv : list Z) : list Z := zrep (12 - zlen iv) 0 ++ iv.

Definition run_ok malloc_ok (key iv : list Z) (ads ms : list (list Z)) : Prop :=
  malloc_ok sizeof_cbb_buffer_st = true /\ octets_ok 32 key /\ 1 <= zlen iv <= 12 /\ Forall is_byte iv /\
  Forall (Forall is_byte) ads /\ zlen (concat ads) < 2 ^ 64 /\ Forall (Forall is_byte) ms /\ zlen (concat ms) <= UINT32_MAX.

(** The case of [switch (type)] that applies. *)
Ltac ctrl_case :=
  repeat match goal with
  | |- context [?a =? ?b] =>
      let v := eval vm_compute in (a =? b) in
      match v with true => change (a =? b) with true | false => change (a =? b) with false end
  end; cbv iota.

Section runs.
Context malloc_ok (key iv : list Z) (ads ms : list (list Z)) (Hok : run_ok malloc_ok key iv ads ms).
Abbreviation nonce := (padded_iv iv).

Lemma padded_ok : octets_ok 12 nonce.
Proof using Hok.
  destruct Hok as (_ & _ & Hl & Hb & _). split.
  - unfold padded_iv. rewrite zlen_app, zlen_rep by lia. lia.
  - apply Forall_app. split; [by apply is_byte_zrep|done].
Qed.

Lemma chunks_ok : Forall chunk_ok ms.
Proof using Hok.
  destruct Hok as (_ & _ & _ & _ & _ & _ & Hb & Hl). clear Hok. induction ms as [|m l IH]; [done|].
  apply Forall_cons in Hb as [H1 H2]. cbn [concat] in Hl. rewrite zlen_app in Hl. pose proof (zlen_nonneg m). pose proof (zlen_nonneg (concat l)).
  apply Forall_cons. split; [split; [done|lia]|]. apply IH; [done|lia].
Qed.

Lemma wp_begin_run encrypt c (Q : unit -> chacha20_poly1305_ctx -> Prop) E :
  (forall c', ready key nonce [] [] false c' -> cp_tag_len c' = 0 -> Q tt c') -> wp (begin_run malloc_ok encrypt key iv) c Q E.
Proof using Hok.
  destruct Hok as (Hm & [Hk Hkb] & Hl & Hb & _). intros HQ. unfold begin_run. apply wp_bind. unfold chacha20_poly1305_ctrl at 1.
  apply wp_bind, wp_gets, wp_bind, wp_modify, wp_ret. apply wp_bind. unfold chacha20_poly1305_ctrl. apply wp_bind, wp_gets. cbn [id]. ctrl_case.
  apply wp_bind, wp_check; [intros _|intros Hbad; apply negb_false_iff, orb_true_iff in Hbad as [?%Z.leb_le|?%Z.ltb_lt]; lia].
  apply wp_bind, wp_modify, wp_ret. unfold chacha20_poly1305_init. apply wp_bind, wp_modify, wp_bind, wp_bind.
  eapply (wp_valid _ key); [unfold octets_at; rewrite Hk; cbn [Z.leb Z.compare Pos.compare Pos.compare_cont andb]; by rewrite ztake_all by lia|].
  apply wp_modify, wp_bind, wp_gets. cbn [id set_field cp_nonce cp_nonce_len].
  destruct (build_nonce_ok malloc_ok (zrep 12 0) iv (zlen iv) Hm eq_refl Hl ltac:(lia)) as (h & Eb). cbn in Eb |- *. rewrite Eb, ztake_all by lia.
  apply wp_modify. apply HQ; [|done]. right. split; [|done]. split; [done|]. split; [done|]. split; [done|]. split; [done|].
  split; [by apply is_byte_zrep|]. split; [done|]. by apply is_byte_zrep.
Qed.

(** Setting the tag to compare with. *)
Lemma wp_set_tag tag c (Q : Z + list Z -> chacha20_poly1305_ctx -> Prop) E :
  ready key nonce [] [] false c -> Forall is_byte tag -> 1 <= zlen tag <= 16 ->
  (forall c', ready key nonce [] [] false c' -> ztake (zlen tag) (cp_tag c') = tag -> cp_tag_len c' = zlen tag -> Q (inr []) c') ->
  wp (chacha20_poly1305_ctrl false EVP_CTRL_AEAD_SET_TAG (zlen tag) (Some tag)) c Q E.
Proof using.
  intros Hr Hb Ht HQ. unfold chacha20_poly1305_ctrl. apply wp_bind, wp_gets. cbn [id].
  ctrl_case.
  apply wp_bind, wp_check; [intros _|done].
  apply wp_bind, wp_check; [intros _|intros Hbad; apply negb_false_iff, orb_true_iff in Hbad as [?%Z.leb_le|?%Z.ltb_lt]; lia].
  apply wp_bind. eapply (wp_valid _ tag); [unfold octets_at; rewrite !(proj2 (Z.leb_le _ _)) by lia; cbn [andb]; by rewrite ztake_all by lia|].
  assert (Hl : zlen (cp_tag c) = 16 /\ Forall is_byte (cp_tag c)).
  { destruct Hr as [(Hs & _)|[Hs _]]; apply Hs. }
  destruct Hl as [Hl Htb]. apply wp_bind. eapply wp_valid; [unfold zwrite; rewrite !(proj2 (Z.leb_le _ _)) by lia; reflexivity|].
  apply wp_bind, wp_modify, wp_ret. set (t := ztake 0 _ ++ _).
  assert (Ht' : t = tag ++ zdrop (zlen tag) (cp_tag c)) by done.
  assert (Hok' : zlen t = 16 /\ Forall is_byte t).
  { rewrite Ht'. split; [rewrite zlen_app, zlen_zdrop; lia|]. apply Forall_app. split; [done|by apply Forall_zdrop]. }
  apply HQ; [|cbn [set_field cp_tag]; rewrite Ht'; by apply ztake_app_exact|done].
  destruct Hr as [(Hs & Hrest)|[Hs Hrest]]; [left|right]; (split; [|exact Hrest]);
    destruct Hs as (? & ? & ? & ? & ? & _); (split; [done|split; [done|split; [done|split; [done|split; [done|exact Hok']]]]]).
Qed.

(** C24. Encrypting through the EVP_CIPHER interface is the AEAD of RFC 8439 however
    the caller cuts the additional data and the plaintext into updates: ciphertext and
    tag together are the sealing of the whole under the padded nonce. *)
Theorem EVP_cipher_seal_streaming c :
  exists c' out tag, seal_run malloc_ok key iv ads ms c = Ret (out, inr tag) c' /\
    out ++ tag = rfc_seal key nonce (concat ms) (concat ads) 16.
Proof using Hok.
  enough (H : wp (seal_run malloc_ok key iv ads ms) c
    (fun r _ => exists out tag, r = (out, inr tag) /\ out ++ tag = rfc_seal key nonce (concat ms) (concat ads) 16) (fun _ => False)).
  { apply wp_total in H as ([o t] & c' & E & out & tag & [= -> ->] & Hr). by exists c', out, tag. }
  pose proof Hok as (_ & Hk & _ & _ & Ha & Hal & _ & Hl). pose proof padded_ok as Hn. pose proof (zlen_nonneg (concat ms)) as Hms.
  unfold seal_run. apply wp_bind, wp_begin_run. intros c1 Hr1 _.
  apply wp_bind. eapply wp_cipher_ads; [done|done|exact Hr1|by right|done|exact Hal|]. intros c2 in_ad Hs2 Hr2. cbn [app] in Hr2.
  apply wp_bind. eapply wp_cipher_texts; [done|done|exact Hr2|done|apply chunks_ok|change (zlen []) with 0; unfold UINT32_MAX in Hl; lia|].
  cbv zeta. change (zlen []) with 0. cbn [app]. set (out := xor_octets _ _).
  assert (Hz : zlen out = zlen (concat ms)) by (apply zlen_xor_octets; unfold text_stream; rewrite zlen_keystream; lia).
  intros c3 in_ad3 _ Hr3 Hia3. apply wp_bind. eapply wp_cipher_final; [done|done|exact Hr3|done|done|rewrite Hz; unfold UINT32_MAX in Hl; lia|].
  cbv iota. intros c4 Et El. apply wp_bind. unfold chacha20_poly1305_ctrl. apply wp_bind, wp_gets. cbn [id].
  ctrl_case.
  rewrite El, Et. apply wp_bind, wp_check; [intros _|done]. apply wp_bind, wp_check; [intros _|done].
  apply wp_bind. eapply wp_valid; [done|]. apply wp_bind.
  eapply wp_valid; [unfold octets_at; rewrite zlen_rfc_mac; cbn [Z.leb Z.compare Pos.compare Pos.compare_cont andb]; reflexivity|].
  apply wp_ret, wp_ret. eexists _, _. split; [reflexivity|]. symmetry. by apply seal_of_stream.
Qed.

(** C32. Decrypting through the EVP_CIPHER interface accepts exactly the sealings of RFC
    8439, however additional data and ciphertext are cut: the final call succeeds only
    if ciphertext and tag are the sealing of what was put out, and it fails only if
    they are the sealing of nothing. *)
Theorem EVP_cipher_open_streaming tag c :
  Forall is_byte tag -> 1 <= zlen tag <= 16 ->
  match open_run malloc_ok key iv ads ms tag c with
  | Ret plain _ => concat ms ++ tag = rfc_seal key nonce plain (concat ads) (zlen tag)
  | Fail _ => forall plain, concat ms ++ tag <> rfc_seal key nonce plain (concat ads) (zlen tag)
  | UB => False
  end.
Proof using Hok.
  intros Htb Ht.
  enough (H : wp (open_run malloc_ok key iv ads ms tag) c
    (fun plain _ => concat ms ++ tag = rfc_seal key nonce plain (concat ads) (zlen tag))
    (fun _ => forall plain, concat ms ++ tag <> rfc_seal key nonce plain (concat ads) (zlen tag))) by exact H.
  pose proof Hok as (_ & Hk & _ & _ & Ha & Hal & _ & Hl). pose proof padded_ok as Hn. pose proof (zlen_nonneg (concat ms)) as Hms.
  destruct (open_of_stream key nonce Hk Hn (concat ms) tag (concat ads) Hl Ht) as [Hyes Hno].
  unfold open_run. apply wp_bind, wp_begin_run. intros c1 Hr1 _. apply wp_bind. apply wp_set_tag; [done|done|done|].
  intros c1' Hr1' Et El. apply wp_bind. eapply wp_cipher_ads; [done|done|exact Hr1'|by right|done|exact Hal|].
  intros c2 in_ad [Et2 El2] Hr2. cbn [app] in Hr2.
  apply wp_bind. eapply wp_cipher_texts; [done|done|exact Hr2|done|apply chunks_ok|change (zlen []) with 0; unfold UINT32_MAX in Hl; lia|].
  cbv zeta iota. change (zlen []) with 0. cbn [app]. set (out := xor_octets _ _) in *.
  intros c3 in_ad3 [Et3 El3] Hr3 Hia3. apply wp_bind. eapply wp_cipher_final; [done|done|exact Hr3|done|done|unfold UINT32_MAX in Hl; lia|].
  cbv iota. rewrite El3, El2, El, Et3, Et2, Et. split; [lia|]. split.
  - intros _ E c4. apply wp_ret, Hyes, E.
  - intros [?|E] c4; [lia|]. exact (Hno E).
Qed.
End runs.

(** ** Concrete runs: a test vector, cut in pieces *)

Definition chunk_ads : list (list Z) := [ztake 5 test_ad; []; zdrop 5 test_ad].
Definition run_iv : list Z := [7; 0; 0; 0; 64; 65; 66; 67; 68; 69; 70; 71].

Lemma run_ok_test ms : Forall (Forall is_byte) ms -> zlen (concat ms) <= UINT32_MAX -> run_ok (fun _ => true) test_key run_iv chunk_ads ms.
Proof.
  intros Hb Hl. split; [done|]. split; [apply test_key_ok|]. split; [by vm_compute|]. split; [by apply (bool_decide_unpack _)|].
  split; [by apply (bool_decide_unpack _)|]. by split.
Qed.

Lemma EVP_cipher_open_streaming_witness :
  open_run (fun _ => true) test_key run_iv chunk_ads [ztake 1 test_sealed] (zdrop 1 test_sealed) zero_cipher_ctx <> UB /\
  match open_run (fun _ => true) test_key run_iv chunk_ads [ztake 1 test_sealed] (zdrop 1 test_sealed) zero_cipher_ctx with
  | Ret plain _ => plain = [49]
  | _ => False
  end /\
  match open_run (fun _ => true) test_key run_iv chunk_ads [[0]] (zdrop 1 test_sealed) zero_cipher_ctx with
  | Ret _ _ => False
  | Fail _ => forall plain, [0] ++ zdrop 1 test_sealed <> rfc_seal test_key (padded_iv run_iv) plain (concat chunk_ads) 16
  | UB => False
  end.
Proof.
  split; [by vm_compute|]. split; [vm_compute; reflexivity|].
  pose proof (EVP_cipher_open_streaming (fun _ => true) test_key run_iv chunk_ads [[0]]
    ltac:(apply run_ok_test; [by apply (bool_decide_unpack _)|by vm_compute]) (zdrop 1 test_sealed) zero_cipher_ctx
    ltac:(by apply (bool_decide_unpack _)) ltac:(by vm_compute)) as H.
  destruct (open_run _ _ _ _ [[0]] _ _) eqn:E; [|exact H|exact H].
  assert (Hf : match open_run (fun _ => true) test_key run_iv chunk_ads [[0]] (zdrop 1 test_sealed) zero_cipher_ctx with Fail _ => true | _ => false end = true)
    by (vm_compute; reflexivity).
  by rewrite E in Hf.
Defined.

Lemma EVP_cipher_seal_streaming_witness :
  match seal_run (fun _ => true) test_key run_iv chunk_ads [[]; [49]] zero_cipher_ctx with
  | Ret (out, inr tag) _ => out ++ tag = test_sealed
  | _ => False
  end /\
  exists c' out tag, seal_run (fun _ => true) test_key run_iv chunk_ads [[]; [49]] zero_cipher_ctx = Ret (out, inr tag) c' /\
    out ++ tag = rfc_seal test_key (padded_iv run_iv) [49] (concat chunk_ads) 16.
Proof.
  split; [vm_compute; reflexivity|].
  apply (EVP_cipher_seal_streaming (fun _ => true) test_key run_iv chunk_ads [[]; [49]]
    ltac:(apply run_ok_test; [by apply (bool_decide_unpack _)|by vm_compute]) zero_cipher_ctx).
Defined.
