(* ===== verification/CryptoInternal.v ===== *)
(** * Internal helpers of libcrypto

    lib/libcrypto/crypto_internal.h: comparisons without branches, loads and stores
    of words in a fixed octet order, and rotations, as generic C (an architecture may
    replace them).  An [int] result is a number; [None] is an access outside a
    buffer. *)

From S2P Require Import Prelude.
Open Scope Z_scope.

(** ** Without branches, on [size_t] *)

Definition crypto_ct_ne_zero (v : Z) : Z := Z.shiftr (Z.lor v (u64 (Z.lnot (u64 (v - 1))))) (8 * 8 - 1).
Definition crypto_ct_ne_zero_mask (v : Z) : Z := u64 (0 - crypto_ct_ne_zero v).
Definition crypto_ct_eq_zero (v : Z) : Z := 1 - crypto_ct_ne_zero v.
Definition crypto_ct_eq_zero_mask (v : Z) : Z := u64 (0 - crypto_ct_eq_zero v).

Definition crypto_ct_lt (a b : Z) : Z :=
  Z.shiftr (Z.land (Z.lor (u64 (a - b)) (Z.land b (u64 (Z.lnot a)))) (Z.lor b (u64 (Z.lnot a)))) (8 * 8 - 1).
Definition crypto_ct_lt_mask (a b : Z) : Z := u64 (0 - crypto_ct_lt a b).
Definition crypto_ct_gt (a b : Z) : Z := crypto_ct_lt b a.
Definition crypto_ct_gt_mask (a b : Z) : Z := u64 (0 - crypto_ct_gt a b).

(** ** On [uint8_t], which is promoted to [int] *)

Definition crypto_ct_ne_zero_u8 (v : Z) : Z := Z.shiftr (u8 (Z.lor v (Z.lnot (v - 1)))) (1 * 8 - 1).
Definition crypto_ct_ne_zero_mask_u8 (v : Z) : Z := u8 (0 - crypto_ct_ne_zero_u8 v).
Definition crypto_ct_eq_zero_u8 (v : Z) : Z := 1 - crypto_ct_ne_zero_u8 v.
Definition crypto_ct_eq_zero_mask_u8 (v : Z) : Z := u8 (0 - crypto_ct_eq_zero_u8 v).
Definition crypto_ct_ne_u8 (a b : Z) : Z := crypto_ct_ne_zero_u8 (u8 (a - b)).
Definition crypto_ct_ne_mask_u8 (a b : Z) : Z := u8 (0 - crypto_ct_ne_u8 a b).
Definition crypto_ct_eq_u8 (a b : Z) : Z := crypto_ct_eq_zero_u8 (u8 (a - b)).
Definition crypto_ct_eq_mask_u8 (a b : Z) : Z := u8 (0 - crypto_ct_eq_u8 a b).

(** ** Loads and stores *)

Definition crypto_load_be32toh (src : list Z) : option Z := if 4 <=? zlen src then Some (be_val (ztake 4 src)) else None.
Definition crypto_store_htobe32 (v : Z) : list Z := be_bytes 4 v.
Definition crypto_load_be64toh (src : list Z) : option Z := if 8 <=? zlen src then Some (be_val (ztake 8 src)) else None.
Definition crypto_store_htobe64 (v : Z) : list Z := be_bytes 8 v.
Definition crypto_load_le32toh (src : list Z) : option Z := if 4 <=? zlen src then Some (le_val (ztake 4 src)) else None.
Definition crypto_store_htole32 (v : Z) : list Z := le_bytes 4 v.

(** ** Rotations *)

Definition crypto_rol_u32 (v shift : Z) : Z := Z.lor (u32 (Z.shiftl v shift)) (Z.shiftr v (32 - shift)).
Definition crypto_ror_u32 (v shift : Z) : Z := Z.lor (u32 (Z.shiftl v (32 - shift))) (Z.shiftr v shift).
Definition crypto_rol_u64 (v shift : Z) : Z := Z.lor (u64 (Z.shiftl v shift)) (Z.shiftr v (64 - shift)).
Definition crypto_ror_u64 (v shift : Z) : Z := Z.lor (u64 (Z.shiftl v (64 - shift))) (Z.shiftr v shift).

(** [crypto_load_be32toh(&in[0 * 4])], [crypto_load_be32toh(&in[1 * 4])], ... *)
Fixpoint load_be32 (n : nat) (input : list Z) : option (list Z) :=
  match n with
  | O => Some []
  | S n => w ← crypto_load_be32toh input; ws ← load_be32 n (zdrop 4 input); Some (w :: ws)
  end.
Fixpoint load_be64 (n : nat) (input : list Z) : option (list Z) :=
  match n with
  | O => Some []
  | S n => w ← crypto_load_be64toh input; ws ← load_be64 n (zdrop 8 input); Some (w :: ws)
  end.
Fixpoint load_le32 (n : nat) (input : list Z) : option (list Z) :=
  match n with
  | O => Some []
  | S n => w ← crypto_load_le32toh input; ws ← load_le32 n (zdrop 4 input); Some (w :: ws)
  end.

(** ** The words of a block *)

(** The words a block stands for, [size] octets each. *)
Fixpoint words_of (val : list Z -> Z) (size : Z) (n : nat) (m : list Z) : list Z :=
  match n with
  | O => []
  | S n => val (ztake size m) :: words_of val size n (zdrop size m)
  end.

Lemma length_words_of val size n m : length (words_of val size n m) = n.
Proof. revert m. induction n as [|n IH]; intros m; [done|]. cbn [words_of length]. by rewrite IH. Qed.

Lemma load_be32_ok n m : 4 * Z.of_nat n <= zlen m -> load_be32 n m = Some (words_of be_val 4 n m).
Proof.
  revert m. induction n as [|n IH]; intros m Hl; [done|]. cbn [load_be32 words_of]. unfold crypto_load_be32toh.
  rewrite (proj2 (Z.leb_le _ _)) by lia. cbn [mbind option_bind]. rewrite IH by (rewrite zlen_zdrop; lia). done.
Qed.

Lemma load_be64_ok n m : 8 * Z.of_nat n <= zlen m -> load_be64 n m = Some (words_of be_val 8 n m).
Proof.
  revert m. induction n as [|n IH]; intros m Hl; [done|]. cbn [load_be64 words_of]. unfold crypto_load_be64toh.
  rewrite (proj2 (Z.leb_le _ _)) by lia. cbn [mbind option_bind]. rewrite IH by (rewrite zlen_zdrop; lia). done.
Qed.

Lemma load_le32_ok n m : 4 * Z.of_nat n <= zlen m -> load_le32 n m = Some (words_of le_val 4 n m).
Proof.
  revert m. induction n as [|n IH]; intros m Hl; [done|]. cbn [load_le32 words_of]. unfold crypto_load_le32toh.
  rewrite (proj2 (Z.leb_le _ _)) by lia. cbn [mbind option_bind]. rewrite IH by (rewrite zlen_zdrop; lia). done.
Qed.

(** ** The comparisons *)

Lemma u64_lnot a : 0 <= a < 2 ^ 64 -> u64 (Z.lnot a) = 2 ^ 64 - 1 - a.
Proof. intros Ha. unfold u64, Z.lnot. symmetry. apply Z.mod_unique with (q := -1); lia. Qed.

Lemma top_bit_val x : 0 <= x < 2 ^ 64 -> Z.shiftr x 63 = if 2 ^ 63 <=? x then 1 else 0.
Proof.
  intros Hx. rewrite Z.shiftr_div_pow2 by lia. destruct (Z.leb_spec (2 ^ 63) x); symmetry.
  - apply Z.div_unique with (r := x - 2 ^ 63); lia.
  - symmetry. apply Z.div_small. lia.
Qed.

Lemma top_bit x : 0 <= x < 2 ^ 64 -> Z.testbit x 63 = (2 ^ 63 <=? x).
Proof.
  intros Hx. pose proof (top_bit_val x Hx) as E. rewrite Z.testbit_odd, E. by destruct (_ <=? _).
Qed.

Lemma bits_64 x : 0 <= x -> (forall i, 64 <= i -> Z.testbit x i = false) -> x < 2 ^ 64.
Proof.
  intros Hx Hb. assert (E : x mod 2 ^ 64 = x).
  { apply Z.bits_inj'. intros i Hi. destruct (Z.ltb_spec i 64); [by rewrite Z.mod_pow2_bits_low|].
    rewrite Z.mod_pow2_bits_high by lia. by rewrite Hb. }
  rewrite <- E. apply Z.mod_pos_bound. lia.
Qed.

Lemma high_bits x i : 0 <= x < 2 ^ 64 -> 64 <= i -> Z.testbit x i = false.
Proof. intros Hx Hi. rewrite <- (Z.mod_small x (2 ^ 64)) by done. apply Z.mod_pow2_bits_high. lia. Qed.

Lemma lor_word a b : 0 <= a < 2 ^ 64 -> 0 <= b < 2 ^ 64 -> 0 <= Z.lor a b < 2 ^ 64.
Proof.
  intros Ha Hb. assert (0 <= Z.lor a b) by (apply Z.lor_nonneg; lia). split; [done|]. apply bits_64; [done|].
  intros i Hi. by rewrite Z.lor_spec, !high_bits by done.
Qed.

Lemma land_word a b : 0 <= a < 2 ^ 64 -> 0 <= b < 2 ^ 64 -> 0 <= Z.land a b < 2 ^ 64.
Proof.
  intros Ha Hb. assert (0 <= Z.land a b) by (apply Z.land_nonneg; lia). split; [done|]. apply bits_64; [done|].
  intros i Hi. by rewrite Z.land_spec, !high_bits by done.
Qed.

Lemma shift_top x : 0 <= x < 2 ^ 64 -> Z.shiftr x (8 * 8 - 1) = Z.b2z (Z.testbit x 63).
Proof. intros Hx. rewrite top_bit by done. change (8 * 8 - 1) with 63. rewrite top_bit_val by done. by destruct (_ <=? _). Qed.

Lemma crypto_ct_ne_zero_eq v : is_word v -> crypto_ct_ne_zero v = if v =? 0 then 0 else 1.
Proof.
  unfold is_word. intros Hv. unfold crypto_ct_ne_zero.
  assert (Hw : 0 <= u64 (v - 1) < 2 ^ 64) by (apply Z.mod_pos_bound; lia).
  rewrite u64_lnot by done. assert (Hw' : 0 <= 2 ^ 64 - 1 - u64 (v - 1) < 2 ^ 64) by lia.
  rewrite shift_top by (by apply lor_word). rewrite Z.lor_spec, !top_bit by done. unfold u64.
  destruct (Z.eqb_spec v 0) as [-> |Hne]; [done|]. rewrite (Z.mod_small (v - 1)) by lia.
  destruct (Z.leb_spec (2 ^ 63) v), (Z.leb_spec (2 ^ 63) (2 ^ 64 - 1 - (v - 1))); try done. lia.
Qed.

Lemma crypto_ct_lt_eq a b : is_word a -> is_word b -> crypto_ct_lt a b = if a <? b then 1 else 0.
Proof.
  unfold is_word. intros Ha Hb. unfold crypto_ct_lt. rewrite u64_lnot by done.
  assert (Hn : 0 <= 2 ^ 64 - 1 - a < 2 ^ 64) by lia. assert (Hd : 0 <= u64 (a - b) < 2 ^ 64) by (apply Z.mod_pos_bound; lia).
  rewrite shift_top by (apply land_word; apply lor_word; try done; by apply land_word).
  rewrite Z.land_spec, !Z.lor_spec, Z.land_spec, !top_bit by done.
  assert (Eu : u64 (a - b) = if a <? b then a - b + 2 ^ 64 else a - b).
  { unfold u64. destruct (Z.ltb_spec a b); [symmetry; apply Z.mod_unique with (q := -1); lia|apply Z.mod_small; lia]. }
  rewrite Eu. destruct (Z.ltb_spec a b); destruct (Z.leb_spec (2 ^ 63) b), (Z.leb_spec (2 ^ 63) (2 ^ 64 - 1 - a)); cbn [andb orb Z.b2z];
    rewrite ?orb_true_r, ?orb_false_r, ?andb_true_r, ?andb_false_r; cbn [Z.b2z]; try lia;
    match goal with |- context [2 ^ 63 <=? ?x] => destruct (Z.leb_spec (2 ^ 63) x) end; try done; lia.
Qed.

(** The comparisons of octets. *)
Lemma crypto_ct_ne_zero_u8_eq v : is_byte v -> crypto_ct_ne_zero_u8 v = if v =? 0 then 0 else 1.
Proof.
  intros Hv. assert (H : forallb (fun v => crypto_ct_ne_zero_u8 v =? (if v =? 0 then 0 else 1)) (seqZ 0 256) = true) by (vm_compute; reflexivity).
  rewrite forallb_forall in H. apply Z.eqb_eq, H. apply list_elem_of_In, elem_of_seqZ. unfold is_byte in Hv. lia.
Qed.

(** The comparisons without branches are those with branches, as a bit and as a
    mask of ones, on words and on octets. *)
Theorem crypto_ct_correct a b :
  (is_word a -> is_word b ->
    crypto_ct_lt a b = Z.b2z (a <? b) /\ crypto_ct_gt a b = Z.b2z (b <? a) /\
    crypto_ct_ne_zero a = Z.b2z (negb (a =? 0)) /\ crypto_ct_eq_zero a = Z.b2z (a =? 0) /\
    crypto_ct_lt_mask a b = (if a <? b then 2 ^ 64 - 1 else 0) /\ crypto_ct_gt_mask a b = (if b <? a then 2 ^ 64 - 1 else 0) /\
    crypto_ct_ne_zero_mask a = (if a =? 0 then 0 else 2 ^ 64 - 1) /\ crypto_ct_eq_zero_mask a = (if a =? 0 then 2 ^ 64 - 1 else 0)) /\
  (is_byte a -> is_byte b ->
    crypto_ct_ne_u8 a b = Z.b2z (negb (a =? b)) /\ crypto_ct_eq_u8 a b = Z.b2z (a =? b) /\
    crypto_ct_ne_mask_u8 a b = (if a =? b then 0 else 255) /\ crypto_ct_eq_mask_u8 a b = (if a =? b then 255 else 0) /\
    crypto_ct_ne_zero_mask_u8 a = (if a =? 0 then 0 else 255) /\ crypto_ct_eq_zero_mask_u8 a = (if a =? 0 then 255 else 0)).
Proof.
  split.
  - intros Ha Hb. unfold crypto_ct_lt_mask, crypto_ct_gt_mask, crypto_ct_gt, crypto_ct_ne_zero_mask, crypto_ct_eq_zero_mask, crypto_ct_eq_zero.
    rewrite !crypto_ct_lt_eq, !crypto_ct_ne_zero_eq by done.
    destruct (a <? b), (b <? a), (a =? 0); by vm_compute.
  - intros Ha Hb. assert (Hd : is_byte (u8 (a - b)) /\ (u8 (a - b) =? 0) = (a =? b)).
    { unfold is_byte, u8 in *. change (2 ^ 8) with 256. split; [apply Z.mod_pos_bound; lia|].
      apply eq_true_iff_eq. rewrite !Z.eqb_eq. Z.to_euclidean_division_equations. lia. }
    destruct Hd as [Hd E]. unfold crypto_ct_ne_mask_u8, crypto_ct_eq_mask_u8, crypto_ct_ne_u8, crypto_ct_eq_u8, crypto_ct_ne_zero_mask_u8,
      crypto_ct_eq_zero_mask_u8, crypto_ct_eq_zero_u8. rewrite !crypto_ct_ne_zero_u8_eq, E by done. destruct (a =? b), (a =? 0); by vm_compute.
Qed.

Lemma crypto_ct_correct_witness :
  crypto_ct_lt 3 (2 ^ 63) = 1 /\ crypto_ct_lt 3 (2 ^ 63) = Z.b2z (3 <? 2 ^ 63).
Proof.
  split; [by vm_compute|]. destruct (crypto_ct_correct 3 (2 ^ 63)) as [H _]. destruct H as [H _]; [unfold is_word; lia..|]. exact H.
Defined.
