(* ===== verification/MdHash.v ===== *)
(** * Buffering and padding of the hash functions

    MD5_Update, SHA1_Update and SHA256_Update (lib/libcrypto/md5/md5.c, sha/sha1.c,
    sha/sha256.c) are the same function over different block functions, and so are
    the three _Final functions up to the order of the octets of the length.  They
    are modelled here once, with the block function as a parameter; SHA512_Update
    (Sha512.v) shares the lemmas on the buffer.  The specification is the iterated
    hash: the padded message cut into blocks. *)

From S2P Require Import Prelude.
Open Scope Z_scope.

(** The fields all contexts have; [chain] stands for the chaining variables. *)
Record md_ctx {chain : Type} : Type := mkMd { md_h : chain; md_Nl : Z; md_Nh : Z; md_data : list Z; md_num : Z }.
Arguments md_ctx chain : clear implicits.
Arguments mkMd {chain}.
#[global] Instance md_eta {chain} : Eta (md_ctx chain) := fun c => mkMd (md_h c) (md_Nl c) (md_Nh c) (md_data c) (md_num c).

(** [while (num--)]: one block after the other. *)
Fixpoint block_data_order {chain} (block : chain -> list Z -> option chain) (cblock : Z) (num : nat) (h : chain) (input : list Z) :
    option chain :=
  match num with
  | O => Some h
  | S num => h ← block h (ztake cblock input); block_data_order block cblock num h (zdrop cblock input)
  end.

Section md.
Context {chain : Type} (block : chain -> list Z -> option chain).
Abbreviation CBLOCK := 64.
Abbreviation blocks := (block_data_order block CBLOCK).

(** The number of bits, in two words. *)
Definition count_bits (c : md_ctx chain) (len : Z) : md_ctx chain :=
  let l := Z.land (u32 (md_Nl c + u32 (Z.shiftl (u32 len) 3))) 0xffffffff in
  let Nh := if l <? md_Nl c then u32 (md_Nh c + 1) else md_Nh c in
  c <| md_Nh := u32 (Nh + u32 (Z.shiftr len 29)) |> <| md_Nl := l |>.

(** The buffer is filled up: what is left of [data], [None] when all of it is used. *)
Definition fill_buffer (c : md_ctx chain) (data : list Z) : option (md_ctx chain * option (list Z)) :=
  let len := zlen data in
  let n := md_num c in
  if negb (n =? 0) then
    if (CBLOCK <=? len) || (CBLOCK <=? u64 (len + n)) then
      p ← zwrite (md_data c) n (ztake (CBLOCK - n) data);
      h ← blocks 1 (md_h c) p;
      Some (c <| md_h := h |> <| md_num := 0 |> <| md_data := zrep CBLOCK 0 |>, Some (zdrop (CBLOCK - n) data))
    else
      p ← zwrite (md_data c) n data;
      Some (c <| md_data := p |> <| md_num := u32 (n + u32 len) |>, None)
  else Some (c, Some data).

(** Whole blocks are hashed from where they are, the rest is kept. *)
Definition update_rest (c : md_ctx chain) (data : list Z) : option (md_ctx chain) :=
  let n := zlen data / CBLOCK in
  '(c, data) ← (if 0 <? n then
                  h ← blocks (Z.to_nat n) (md_h c) data;
                  Some (c <| md_h := h |>, zdrop (n * CBLOCK) data)
                else Some (c, data));
  if negb (zlen data =? 0) then
    p ← zwrite (md_data c) 0 data;
    Some (c <| md_num := u32 (zlen data) |> <| md_data := p |>)
  else Some c.

Definition md_update (c : md_ctx chain) (data : list Z) : option (md_ctx chain) :=
  if zlen data =? 0 then Some c else
  '(c, data) ← fill_buffer (count_bits c (zlen data)) data;
  match data with
  | None => Some c
  | Some data => update_rest c data
  end.

End md.

(** The end of a message, for blocks of [B] octets with a length of [L] octets. *)
Section final.
Context {chain : Type} (block : chain -> list Z -> option chain) (B L : Z).
Abbreviation blocks := (block_data_order block B).

(** [if (n > (CBLOCK - 8))]: no room for the length in this block. *)
Definition final_room (h : chain) (p : list Z) (n : Z) : option (chain * list Z * Z) :=
  if B - L <? n then
    p ← zwrite p n (zrep (B - n) 0);
    h ← blocks 1 h p;
    Some (h, p, 0)
  else Some (h, p, n).

(** The one bit, the zeros, the length. *)
Definition final_block (h : chain) (p : list Z) (n : Z) (len : list Z) : option (chain * list Z) :=
  p ← zset p n 0x80;
  '(h, p, n) ← final_room h p (n + 1);
  p ← zwrite p n (zrep (B - L - n) 0);
  p ← zwrite p (B - L) len;
  h ← blocks 1 h p;
  Some (h, p).
End final.

(** [len_octets Nh Nl]: how the two words are stored at the end of the last block. *)
Definition md_final {chain} (block : chain -> list Z -> option chain) (len_octets : Z -> Z -> list Z) (c : md_ctx chain) : option (md_ctx chain) :=
  '(h, _) ← final_block block 64 8 (md_h c) (md_data c) (md_num c) (len_octets (md_Nh c) (md_Nl c));
  Some (c <| md_h := h |> <| md_num := 0 |> <| md_data := zrep 64 0 |>).

(** ** The iterated hash *)

Fixpoint iterate {chain} (compress : chain -> list Z -> chain) (B : Z) (n : nat) (h : chain) (m : list Z) : chain :=
  match n with
  | O => h
  | S n => iterate compress B n (compress h (ztake B m)) (zdrop B m)
  end.

(** A one bit, zeros up to the room for the length, the length. *)
Definition md_pad (B : Z) (len_octets : list Z) (m : list Z) : list Z :=
  m ++ [0x80] ++ zrep ((B - zlen len_octets - 1 - zlen m) mod B) 0 ++ len_octets.

(** The chaining variables after the padded message. *)
Definition md_hash {chain} (compress : chain -> list Z -> chain) (B : Z) (len_octets : list Z) (h0 : chain) (m : list Z) : chain :=
  let p := md_pad B len_octets m in
  iterate compress B (Z.to_nat (zlen p / B)) h0 p.

Section iterated.
Context {chain : Type} (block : chain -> list Z -> option chain) (compress : chain -> list Z -> chain) (B : Z) (HB : 0 < B).
Context (Hblock : forall h m, zlen m = B -> Forall is_byte m -> block h m = Some (compress h m)).

Lemma iterate_app n1 n2 h m1 m2 :
  zlen m1 = Z.of_nat n1 * B -> iterate compress B (n1 + n2) h (m1 ++ m2) = iterate compress B n2 (iterate compress B n1 h m1) m2.
Proof using HB.
  revert h m1. induction n1 as [|n1 IH]; intros h m1 Hl.
  - by rewrite (zlen_nil_inv m1) by lia.
  - cbn [Nat.add iterate]. rewrite ztake_app_le, zdrop_app_le by lia. apply IH. rewrite zlen_zdrop by lia. lia.
Qed.

Lemma blocks_ok n h m :
  Z.of_nat n * B <= zlen m -> Forall is_byte m -> block_data_order block B n h m = Some (iterate compress B n h m).
Proof using HB Hblock.
  revert h m. induction n as [|n IH]; intros h m Hl Hm; [done|]. cbn [block_data_order iterate].
  rewrite Hblock by (by (rewrite zlen_ztake by lia) || by apply Forall_ztake). cbn [mbind option_bind].
  apply IH; [rewrite zlen_zdrop by lia; lia|by apply Forall_zdrop].
Qed.

(** ** The buffer

    The whole blocks of the message are in the chaining variables, the rest is at the
    start of the buffer. *)
Definition buffered (h0 : chain) (msg : list Z) (h : chain) (data : list Z) (num : Z) : Prop :=
  exists n full, msg = full ++ ztake num data /\ zlen full = Z.of_nat n * B /\ h = iterate compress B n h0 full /\
    0 <= num < B /\ zlen data = B /\ Forall is_byte data /\ Forall is_byte msg.

Lemma buffered_start h0 data : zlen data = B -> Forall is_byte data -> buffered h0 [] h0 data 0.
Proof using HB. intros Hl Hb. exists O, []. by split_and!; try lia. Qed.

(** Octets that do not fill the buffer. *)
Lemma buffered_more h0 msg h data num bs :
  buffered h0 msg h data num -> Forall is_byte bs -> num + zlen bs < B ->
  exists p, zwrite data num bs = Some p /\ buffered h0 (msg ++ bs) h p (num + zlen bs).
Proof using HB.
  intros (n & full & -> & Hf & -> & Hn & Hl & Hd & Hm) Hb Hroom. pose proof (zlen_nonneg bs).
  destruct (zwrite_fits data num bs) as [p E]; [lia..|]. exists p. split; [done|]. exists n, full.
  rewrite (zwrite_take _ _ _ _ E), app_assoc. split; [done|]. split; [done|]. split; [done|]. split; [lia|].
  split; [by rewrite (zlen_zwrite _ _ _ _ E)|]. split; [by eapply zwrite_bytes|]. rewrite <- app_assoc, app_assoc. by apply Forall_app.
Qed.

(** Octets that fill it: one more block. *)
Lemma buffered_full h0 msg h data num bs data' :
  buffered h0 msg h data num -> Forall is_byte bs -> num + zlen bs = B -> zlen data' = B -> Forall is_byte data' ->
  exists p, zwrite data num bs = Some p /\ block_data_order block B 1 h p = Some (compress h p) /\ zlen p = B /\ Forall is_byte p /\
    buffered h0 (msg ++ bs) (compress h p) data' 0.
Proof using HB Hblock.
  intros (n & full & -> & Hf & -> & Hn & Hl & Hd & Hm) Hb Hroom Hl' Hb'. pose proof (zlen_nonneg bs).
  destruct (zwrite_fits data num bs) as [p E]; [lia..|]. exists p. split; [done|].
  assert (Hp : zlen p = B) by (by rewrite (zlen_zwrite _ _ _ _ E)). assert (Hpb : Forall is_byte p) by (by eapply zwrite_bytes).
  split; [rewrite blocks_ok by (done || lia); cbn [iterate]; by rewrite ztake_all by lia|]. split; [done|]. split; [done|].
  assert (Ep : p = ztake num data ++ bs) by (rewrite <- (zwrite_take _ _ _ _ E); symmetry; apply ztake_all; lia).
  exists (n + 1)%nat, (full ++ p). rewrite ztake_0, app_nil_r.
  split; [by rewrite Ep, app_assoc|]. split; [rewrite zlen_app; lia|].
  split; [rewrite iterate_app by done; cbn [iterate]; by rewrite ztake_all by lia|]. split; [lia|]. split; [done|]. split; [done|].
  by apply Forall_app.
Qed.

(** Whole blocks that by-pass the empty buffer. *)
Lemma buffered_blocks h0 msg h data n bs :
  buffered h0 msg h data 0 -> Forall is_byte bs -> Z.of_nat n * B <= zlen bs ->
  exists h', block_data_order block B n h bs = Some h' /\ buffered h0 (msg ++ ztake (Z.of_nat n * B) bs) h' data 0.
Proof using HB Hblock.
  intros (k & full & -> & Hf & -> & Hn & Hl & Hd & Hm) Hb Hlen. rewrite ztake_0, app_nil_r in *. eexists.
  split; [by apply blocks_ok|]. exists (k + n)%nat, (full ++ ztake (Z.of_nat n * B) bs). rewrite ztake_0, app_nil_r.
  split; [done|]. split; [rewrite zlen_app, zlen_ztake by lia; lia|].
  split; [|split; [lia|split; [done|split; [done|apply Forall_app; split; [done|by apply Forall_ztake]]]]].
  rewrite iterate_app by done. rewrite <- (ztake_zdrop (Z.of_nat n * B) bs) at 1.
  rewrite <- (Nat.add_0_r n) at 1. rewrite iterate_app by (rewrite zlen_ztake; lia). done.
Qed.

(** The hash, from the buffer: the padding completes the last block or two. *)
Lemma buffered_hash h0 msg h data num len_octets :
  buffered h0 msg h data num -> 0 <= zlen len_octets < B -> Forall is_byte len_octets ->
  exists n, md_hash compress B len_octets h0 msg =
      iterate compress B n h (ztake num data ++ [0x80] ++ zrep (Z.of_nat n * B - zlen len_octets - 1 - num) 0 ++ len_octets) /\
    n = (if B - zlen len_octets <? num + 1 then 2%nat else 1%nat).
Proof using HB.
  intros (k & full & -> & Hf & -> & Hn & Hl & Hd & Hm) Hlo Hb. set (L := zlen len_octets) in *.
  exists (if B - L <? num + 1 then 2%nat else 1%nat). split; [|done]. unfold md_hash, md_pad. fold L.
  assert (Hmsg : zlen (full ++ ztake num data) = Z.of_nat k * B + num) by (rewrite zlen_app, Hf, zlen_ztake; lia).
  rewrite Hmsg.
  set (z := (B - L - 1 - (Z.of_nat k * B + num)) mod B).
  assert (Hz : z = Z.of_nat (if B - L <? num + 1 then 2%nat else 1%nat) * B - L - 1 - num).
  { unfold z. symmetry. apply Z.mod_unique with (q := - Z.of_nat k - (if B - L <? num + 1 then 1 else 0)).
    - left. destruct (Z.ltb_spec (B - L) (num + 1)); lia.
    - destruct (Z.ltb_spec (B - L) (num + 1)); lia. }
  assert (Hz0 : 0 <= z) by (unfold z; apply Z.mod_pos_bound; lia).
  rewrite <- Hz, <- app_assoc. set (tail := ztake num data ++ _).
  assert (Ht : zlen tail = Z.of_nat (if B - L <? num + 1 then 2%nat else 1%nat) * B).
  { unfold tail. rewrite !zlen_app, zlen_ztake, zlen_rep by lia. change (zlen [128]) with 1. fold L. lia. }
  rewrite zlen_app, Hf, Ht, <- Z.mul_add_distr_r, Z.div_mul by lia. rewrite <- Nat2Z.inj_add, Nat2Z.id. by apply iterate_app.
Qed.
End iterated.

(** The last blocks. *)
Section final_ok.
Context {chain : Type} (block : chain -> list Z -> option chain) (compress : chain -> list Z -> chain) (B L : Z) (HBL : 0 < L < B).
Context (Hblock : forall h m, zlen m = B -> Forall is_byte m -> block h m = Some (compress h m)).

(** The block in which the length is stored, after the padding [pre] has been written. *)
Lemma final_room_ok h p pre len :
  zlen p = B -> Forall is_byte p -> 1 <= zlen pre <= B -> ztake (zlen pre) p = pre -> zlen len = L ->
  let k := if B - L <? zlen pre then 2%nat else 1%nat in
  exists h' p' n, final_room block B L h p (zlen pre) = Some (h', p', n) /\ zlen p' = B /\ Forall is_byte p' /\ 0 <= n <= B - L /\
    compress h' (ztake n p' ++ zrep (B - L - n) 0 ++ len) = iterate compress B k h (pre ++ zrep (Z.of_nat k * B - L - zlen pre) 0 ++ len).
Proof using HBL Hblock.
  intros Hp Hb Hn Hpre Hl k. unfold final_room, k. set (n := zlen pre) in *. destruct (Z.ltb_spec (B - L) n).
  - assert (Lz : zlen (zrep (B - n) 0) = B - n) by (apply zlen_rep; lia). destruct (zwrite_fits p n (zrep (B - n) 0)) as [p2 E2]; [lia..|].
    rewrite E2. cbn [mbind option_bind]. pose proof (zlen_zwrite _ _ _ _ E2) as L2.
    pose proof (zwrite_take _ _ _ _ E2) as T2. rewrite Lz, Hpre, ztake_all in T2 by lia.
    assert (B2 : Forall is_byte p2) by (eapply zwrite_bytes; [exact E2|done|by apply is_byte_zrep]).
    rewrite (blocks_ok block compress B) by (done || lia). cbn [mbind option_bind iterate]. eexists _, _, _.
    split; [reflexivity|]. split; [lia|]. split; [done|]. split; [lia|].
    assert (Et : pre ++ zrep (Z.of_nat 2 * B - L - n) 0 ++ len = p2 ++ zrep (B - L) 0 ++ len).
    { replace (Z.of_nat 2 * B - L - n) with ((B - n) + (B - L)) by lia. rewrite zrep_add by lia. by rewrite T2, <- !app_assoc. }
    rewrite Et, ztake_app_exact, zdrop_app_exact by lia. rewrite (ztake_all B p2) by lia. rewrite ztake_0, app_nil_l, Z.sub_0_r.
    rewrite (ztake_all B (zrep (B - L) 0 ++ len)); [done|]. rewrite zlen_app, Hl, zlen_rep by lia. lia.
  - eexists _, _, _. split; [reflexivity|]. split; [done|]. split; [done|]. split; [lia|]. cbn [iterate]. rewrite Hpre.
    replace (Z.of_nat 1 * B - L - n) with (B - L - n) by lia. rewrite ztake_all; [done|].
    rewrite !zlen_app, Hl, zlen_rep by lia. fold n. lia.
Qed.

(** The hash, with the length as it is stored. *)
Lemma final_block_ok h0 msg h data num len :
  buffered compress B h0 msg h data num -> zlen len = L -> Forall is_byte len ->
  exists p, final_block block B L h data num len = Some (md_hash compress B len h0 msg, p).
Proof using HBL Hblock.
  intros Hbuf Hll Hlb. destruct (buffered_hash compress B ltac:(lia) _ _ _ _ _ len Hbuf ltac:(lia) Hlb) as (n & Ehash & En). rewrite Hll in *.
  destruct Hbuf as (k & full & _ & _ & _ & Hn & Hd & Hdb & _). unfold final_block, zset.
  destruct (zwrite_fits data num [0x80]) as [p1 E1]; [lia|change (zlen [0x80]) with 1; lia|].
  rewrite E1. cbn [mbind option_bind]. pose proof (zlen_zwrite _ _ _ _ E1) as L1. pose proof (zwrite_take _ _ _ _ E1) as T1.
  pose proof (zwrite_bytes _ _ _ _ E1 Hdb ltac:(by apply (bool_decide_unpack _))) as B1. set (pre := ztake num data ++ [0x80]) in *.
  assert (Lpre : zlen pre = num + 1) by (unfold pre; rewrite zlen_app, zlen_ztake by lia; done). change (zlen [0x80]) with 1 in T1.
  destruct (final_room_ok h p1 pre len) as (h' & p & n' & Er & Lp & Bp & Hn' & Ec); [lia|done|lia|by rewrite Lpre|done|].
  rewrite Lpre in *. rewrite Er. cbn [mbind option_bind]. cbv zeta in Ec. rewrite <- En in Ec.
  rewrite (app_assoc (ztake num data) [0x80]) in Ehash. fold pre in Ehash.
  replace (Z.of_nat n * B - L - (num + 1)) with (Z.of_nat n * B - L - 1 - num) in Ec by lia. rewrite <- Ehash in Ec.
  assert (Lz : zlen (zrep (B - L - n') 0) = B - L - n') by (apply zlen_rep; lia).
  destruct (zwrite_fits p n' (zrep (B - L - n') 0)) as [p3 E3]; [lia..|]. rewrite E3. cbn [mbind option_bind].
  pose proof (zwrite_take _ _ _ _ E3) as T3. rewrite Lz in T3. replace (n' + (B - L - n')) with (B - L) in T3 by lia.
  pose proof (zlen_zwrite _ _ _ _ E3) as L3. pose proof (zwrite_bytes _ _ _ _ E3 Bp ltac:(by apply is_byte_zrep)) as B3.
  destruct (zwrite_fits p3 (B - L) len) as [p4 E4]; [lia..|]. rewrite E4. cbn [mbind option_bind].
  pose proof (zwrite_take _ _ _ _ E4) as T4. rewrite Hll in T4. pose proof (zlen_zwrite _ _ _ _ E4) as L4. rewrite ztake_all in T4 by lia.
  rewrite (blocks_ok block compress B); [|lia|done|lia|by eapply zwrite_bytes].
  cbn [iterate mbind option_bind]. exists p4. rewrite T4, T3, <- app_assoc, ztake_all, Ec; [done|]. rewrite !zlen_app, Hll, zlen_ztake, zlen_rep by lia. lia.
Qed.
End final_ok.

(** ** Update and final *)

Lemma count_bits_ok {chain} (c : md_ctx chain) v len :
  0 <= len -> 0 <= md_Nl c < 2 ^ 32 -> 0 <= md_Nh c < 2 ^ 32 -> md_Nh c * 2 ^ 32 + md_Nl c = v mod 2 ^ 64 ->
  let c' := count_bits c len in
  0 <= md_Nl c' < 2 ^ 32 /\ 0 <= md_Nh c' < 2 ^ 32 /\ md_Nh c' * 2 ^ 32 + md_Nl c' = (v + 8 * len) mod 2 ^ 64.
Proof.
  intros Hlen Hl Hh Hv c'. cbn [count_bits c' set_field md_Nl md_Nh]. clear c'. generalize dependent (md_Nh c). intros Nh Hh Hv.
  generalize dependent (md_Nl c). intros Nl Hl Hv. rewrite Z.shiftl_mul_pow2, Z.shiftr_div_pow2 by lia.
  change 0xffffffff with (Z.ones 32). rewrite Z.land_ones by lia. unfold u32.
  set (x := len mod 2 ^ 32 * 2 ^ 3 mod 2 ^ 32). set (y := len / 2 ^ 29 mod 2 ^ 32).
  assert (Hxy : (y * 2 ^ 32 + x) = (8 * len) mod 2 ^ 64 /\ 0 <= x < 2 ^ 32 /\ 0 <= y < 2 ^ 32).
  { unfold x, y. Z.to_euclidean_division_equations. lia. }
  clearbody x y. destruct Hxy as (Exy & Hx & Hy). rewrite Z.mod_mod by lia.
  split; [apply Z.mod_pos_bound; lia|]. split; [destruct (_ <? _); apply Z.mod_pos_bound; lia|].
  destruct (Z.ltb_spec ((Nl + x) mod 2 ^ 32) Nl); Z.to_euclidean_division_equations; lia.
Qed.

Section md_ok.
Context {chain : Type} (block : chain -> list Z -> option chain) (compress : chain -> list Z -> chain).
Context (Hblock : forall h m, zlen m = 64 -> Forall is_byte m -> block h m = Some (compress h m)).

(** The context after the octets [msg]. *)
Definition md_at (h0 : chain) (msg : list Z) (c : md_ctx chain) : Prop :=
  buffered compress 64 h0 msg (md_h c) (md_data c) (md_num c) /\
  0 <= md_Nl c < 2 ^ 32 /\ 0 <= md_Nh c < 2 ^ 32 /\ md_Nh c * 2 ^ 32 + md_Nl c = (8 * zlen msg) mod 2 ^ 64.

Lemma md_at_start h0 : md_at h0 [] (mkMd h0 0 0 (zrep 64 0) 0).
Proof using. split; [|done]. apply buffered_start; [lia|done|by apply (bool_decide_unpack _)]. Qed.

Lemma zeros_ok n : 0 <= n -> zlen (zrep n 0) = n /\ Forall is_byte (zrep n 0).
Proof using. intros. split; [by apply zlen_rep|by apply Forall_replicate]. Qed.

(** Octets behind an empty buffer. *)
Lemma update_rest_ok h0 msg c bs :
  buffered compress 64 h0 msg (md_h c) (md_data c) 0 -> md_num c = 0 -> Forall is_byte bs ->
  exists c', update_rest block c bs = Some c' /\ md_Nl c' = md_Nl c /\ md_Nh c' = md_Nh c /\
    buffered compress 64 h0 (msg ++ bs) (md_h c') (md_data c') (md_num c').
Proof using Hblock.
  intros Hbuf Hnum Hb. unfold update_rest. set (n := zlen bs / 64). pose proof (zlen_nonneg bs) as Hpos.
  assert (Hn : 64 * n <= zlen bs < 64 * n + 64).
  { unfold n. pose proof (Z.div_mod (zlen bs) 64 ltac:(lia)). pose proof (Z.mod_pos_bound (zlen bs) 64 ltac:(lia)). lia. }
  clearbody n.
  assert (H : exists c1 rest m1, (if 0 <? n then
      h ← block_data_order block 64 (Z.to_nat n) (md_h c) bs; Some (c <| md_h := h |>, zdrop (n * 64) bs) else Some (c, bs)) = Some (c1, rest) /\
    md_num c1 = 0 /\ md_Nl c1 = md_Nl c /\ md_Nh c1 = md_Nh c /\ msg ++ bs = m1 ++ rest /\ zlen rest < 64 /\ Forall is_byte rest /\
    buffered compress 64 h0 m1 (md_h c1) (md_data c1) 0).
  { destruct (Z.ltb_spec 0 n).
    - destruct (buffered_blocks block compress 64 ltac:(lia) Hblock _ _ _ _ (Z.to_nat n) bs Hbuf Hb ltac:(lia)) as (h' & E & Hbuf').
      rewrite E. cbn [mbind option_bind]. rewrite Z2Nat.id in Hbuf' by lia. do 3 eexists. split; [reflexivity|].
      split; [done|]. split; [done|]. split; [done|]. split; [by rewrite <- (ztake_zdrop (n * 64) bs), app_assoc at 1|].
      split; [rewrite zlen_zdrop; lia|]. split; [by apply Forall_zdrop|exact Hbuf'].
    - exists c, bs, msg. split; [done|]. split; [done|]. split; [done|]. split; [done|]. split; [done|]. split; [lia|done]. }
  destruct H as (c1 & rest & m1 & -> & En & <- & <- & -> & Hr & Hrb & Hbuf'). cbn [mbind option_bind]. pose proof (zlen_nonneg rest).
  destruct (Z.eqb_spec (zlen rest) 0) as [E0|E0]; cbn [negb].
  - exists c1. rewrite (zlen_nil_inv rest E0), app_nil_r, En. done.
  - destruct (buffered_more compress 64 ltac:(lia) _ _ _ _ _ rest Hbuf' Hrb ltac:(lia)) as (p & -> & Hp).
    cbn [mbind option_bind]. eexists. split; [reflexivity|]. cbn [set_field md_h md_data md_num md_Nl md_Nh].
    unfold u32. by rewrite Z.mod_small by lia.
Qed.

Lemma md_update_ok h0 msg c data :
  md_at h0 msg c -> Forall is_byte data -> exists c', md_update block c data = Some c' /\ md_at h0 (msg ++ data) c'.
Proof using Hblock.
  intros (Hbuf & Hl & Hh & Hv) Hd. pose proof (zlen_nonneg data) as Hlen. unfold md_update.
  destruct (Z.eqb_spec (zlen data) 0) as [E0|E0].
  { exists c. rewrite (zlen_nil_inv data E0), app_nil_r. done. }
  destruct (count_bits_ok c _ (zlen data) Hlen Hl Hh Hv) as (Hl' & Hh' & Hv'). rewrite <- Z.mul_add_distr_l, <- zlen_app in Hv'.
  assert (Hbuf' : buffered compress 64 h0 msg (md_h (count_bits c (zlen data))) (md_data (count_bits c (zlen data))) (md_num (count_bits c (zlen data)))) by done.
  set (c1 := count_bits c (zlen data)) in *. clearbody c1. clear c Hbuf Hl Hh Hv.
  assert (Hrest : forall m1 c2 rest, buffered compress 64 h0 m1 (md_h c2) (md_data c2) 0 -> md_num c2 = 0 -> md_Nl c2 = md_Nl c1 -> md_Nh c2 = md_Nh c1 ->
    Forall is_byte rest -> m1 ++ rest = msg ++ data -> exists c', update_rest block c2 rest = Some c' /\ md_at h0 (msg ++ data) c').
  { intros m1 c2 rest Hb2 Hnum EN1 EN2 Hr Em. destruct (update_rest_ok h0 m1 c2 rest Hb2 Hnum Hr) as (c' & E & E1 & E2 & Hb3).
    rewrite Em in Hb3. exists c'. split; [done|]. split; [done|]. rewrite E1, E2, EN1, EN2. done. }
  unfold fill_buffer. pose proof Hbuf' as (_ & _ & _ & _ & _ & Hn & _ & _ & Hmsg).
  destruct (Z.eqb_spec (md_num c1) 0) as [En|En]; cbn [negb mbind option_bind].
  { apply (Hrest msg); [by rewrite <- En|done..]. }
  destruct (Z.leb_spec 64 (zlen data + md_num c1)) as [Hfull|Hless].
  - replace ((64 <=? zlen data) || (64 <=? u64 (zlen data + md_num c1))) with true.
    2: { symmetry. apply orb_true_iff. destruct (Z.leb_spec 64 (zlen data)); [by left|right]. rewrite u64_small by lia. by apply Z.leb_le. }
    destruct (buffered_full block compress 64 ltac:(lia) Hblock _ _ _ _ _ (ztake (64 - md_num c1) data) (zrep 64 0) Hbuf')
      as (p & E1 & E2 & _ & _ & Hb2); [by apply Forall_ztake|rewrite zlen_ztake; lia|by apply zeros_ok..|].
    rewrite E1. cbn [mbind option_bind]. rewrite E2. cbn [mbind option_bind].
    apply (Hrest (msg ++ ztake (64 - md_num c1) data)); [exact Hb2|done|done|done|by apply Forall_zdrop|by rewrite <- app_assoc, ztake_zdrop].
  - replace ((64 <=? zlen data) || (64 <=? u64 (zlen data + md_num c1))) with false.
    2: { symmetry. apply orb_false_iff. rewrite u64_small by lia. split; apply Z.leb_gt; lia. }
    destruct (buffered_more compress 64 ltac:(lia) _ _ _ _ _ data Hbuf' Hd ltac:(lia)) as (p & E1 & Hb2).
    rewrite E1. cbn [mbind option_bind]. eexists. split; [reflexivity|]. unfold md_at. cbn [set_field md_h md_data md_num md_Nl md_Nh].
    unfold u32. rewrite !Z.mod_small by (rewrite ?Z.mod_small; lia). done.
Qed.

(** The length as it is stored, and the hash. *)
Lemma md_final_ok lo h0 msg c :
  md_at h0 msg c -> (forall a b, zlen (lo a b) = 8 /\ Forall is_byte (lo a b)) ->
  exists c', md_final block lo c = Some c' /\ md_h c' = md_hash compress 64 (lo (md_Nh c) (md_Nl c)) h0 msg.
Proof using Hblock.
  intros (Hbuf & _) Hlo. destruct (Hlo (md_Nh c) (md_Nl c)) as [Hll Hlb]. unfold md_final.
  destruct (final_block_ok block compress 64 8 ltac:(lia) Hblock h0 msg _ _ _ _ Hbuf Hll Hlb) as (p & ->). cbn [mbind option_bind]. by eexists.
Qed.
End md_ok.

(** Any number of updates, of a context of type [C]. *)
Fixpoint updates {C} (update : C -> list Z -> option C) (c : C) (ms : list (list Z)) : option C :=
  match ms with
  | [] => Some c
  | m :: ms => c ← update c m; updates update c ms
  end.

Lemma updates_ok {C} (update : C -> list Z -> option C) (at_msg : list Z -> C -> Prop) ms :
  (forall msg c data, at_msg msg c -> Forall is_byte data -> exists c', update c data = Some c' /\ at_msg (msg ++ data) c') ->
  Forall (Forall is_byte) ms -> forall msg c, at_msg msg c -> exists c', updates update c ms = Some c' /\ at_msg (msg ++ concat ms) c'.
Proof.
  intros Hupd. induction 1 as [|m ms Hm Hms IH]; intros msg c Hat; cbn [updates concat].
  - exists c. by rewrite app_nil_r.
  - destruct (Hupd msg c m Hat Hm) as (c1 & -> & Hat1). cbn [mbind option_bind]. rewrite app_assoc. by apply IH.
Qed.
