(* ===== verification/ShaLoop.v ===== *)
(** * The schedule and the rounds of the SHA functions

    sha1_block_data_order, sha256_block_data_order and sha512_block_data_order
    (lib/libcrypto/sha/) keep sixteen words of the message schedule and replace them in
    place after sixteen rounds.  FIPS 180-4 has all the words of the schedule.  This file
    has the parts all three share, and the loop of SHA-2, which is the same function for
    both widths of the words; the lemma [sha2_loop_ok] says that loop and standard
    agree. *)

From S2P Require Import Prelude.
Open Scope Z_scope.

(** ** Rounds over a schedule *)

Section rounds.
(** The state after the round [t] with a word of the schedule. *)
Context {V : Type} (step : nat -> V -> Z -> V).

Definition fips_rounds (n : nat) (W : list Z) (v : V) : V := fold_left (fun v t => step t v (nth t W 0)) (seq 0 n) v.

(** The rounds [i] to [i + 15], with the sixteen words at hand. *)
Definition rounds16 (i : nat) (X : list Z) (v : V) : V := fold_left (fun v t => step (i + t) v (nth t X 0)) (seq 0 16) v.

Lemma fips_rounds_ext n W W' v : (n <= length W)%nat -> fips_rounds n (W ++ W') v = fips_rounds n W v.
Proof using.
  unfold fips_rounds. intros Hn. assert (H : forall k m v, (k + m <= length W)%nat ->
    fold_left (fun v t => step t v (nth t (W ++ W') 0)) (seq k m) v = fold_left (fun v t => step t v (nth t W 0)) (seq k m) v).
  { intros k m. revert k. induction m as [|m IH]; intros k u Hm; [done|]. cbn [seq fold_left]. rewrite app_nth1 by lia. apply IH. lia. }
  by apply H.
Qed.

(** Sixteen more rounds. *)
Lemma fips_rounds_app W X v : length X = 16%nat ->
  fips_rounds (length W + 16) (W ++ X) v = rounds16 (length W) X (fips_rounds (length W) W v).
Proof using.
  intros Hl. unfold fips_rounds at 1. rewrite seq_app, fold_left_app. cbn [Nat.add].
  change (fold_left (fun v t => step t v (nth t (W ++ X) 0)) (seq 0 (length W)) v) with (fips_rounds (length W) (W ++ X) v).
  rewrite fips_rounds_ext by lia. unfold rounds16. generalize (fips_rounds (length W) W v). clear v.
  assert (H : forall n k v, (k + n <= 16)%nat -> fold_left (fun v t => step t v (nth t (W ++ X) 0)) (seq (length W + k) n) v =
    fold_left (fun v t => step (length W + t) v (nth t X 0)) (seq k n) v).
  { induction n as [|n IH]; intros k u Hk; [done|]. cbn [seq fold_left]. rewrite (app_nth2 W) by lia.
    replace (length W + k - length W)%nat with k by lia. rewrite <- Nat.add_succ_r. apply IH. lia. }
  intros v. specialize (H 16%nat 0%nat v). rewrite Nat.add_0_r in H. by apply H.
Qed.
End rounds.

(** The words of the schedule, each from those before. *)
Fixpoint fips_expand (word : list Z -> Z) (n : nat) (W : list Z) : list Z :=
  match n with
  | O => W
  | S n => fips_expand word n (W ++ [word W])
  end.

(** [*W0] is replaced, with the words at the positions [call] as the other arguments. *)
Definition schedule16 (update : Z -> Z -> Z -> Z -> Z) (calls : list (nat * nat * nat * nat)) (X : list Z) : list Z :=
  fold_left (fun X '(i0, i1, i2, i3) => <[i0 := update (nth i0 X 0) (nth i1 X 0) (nth i2 X 0) (nth i3 X 0)]> X) calls X.

Lemma length_schedule16 update calls X : length (schedule16 update calls X) = length X.
Proof.
  unfold schedule16. revert X. induction calls as [|[[[i0 i1] i2] i3] calls IH]; intros X; cbn [fold_left]; [done|].
  rewrite IH. apply length_insert.
Qed.

(** ** SHA-2 *)

(** [h[8]] *)
Definition words8 : Type := Z * Z * Z * Z * Z * Z * Z * Z.
Definition list8 (h : words8) : list Z := let '(h0, h1, h2, h3, h4, h5, h6, h7) := h in [h0; h1; h2; h3; h4; h5; h6; h7].

(** [&X[0], X[1], X[9], X[14]] to [&X[15], X[0], X[8], X[13]] *)
Definition schedule_calls : list (nat * nat * nat * nat) :=
  [(0, 1, 9, 14); (1, 2, 10, 15); (2, 3, 11, 0); (3, 4, 12, 1); (4, 5, 13, 2); (5, 6, 14, 3); (6, 7, 15, 4); (7, 8, 0, 5); (8, 9, 1, 6); (9, 10, 2, 7); (10, 11, 3, 8); (11, 12, 4, 9); (12, 13, 5, 10); (13, 14, 6, 11); (14, 15, 7, 12); (15, 0, 8, 13)]%nat.

Section sha2.
(** The new [*W0], the state after a round, the constants. *)
Context (update : Z -> Z -> Z -> Z -> Z) (round : words8 -> Z -> Z -> words8) (K : list Z).

Definition sha2_schedule (X : list Z) : list Z := schedule16 update schedule_calls X.

(** The rounds [i] to [i + 15]. *)
Definition sha2_rounds (i : nat) (X : list Z) (v : words8) : words8 :=
  fold_left (fun v t => round v (nth (i + t) K 0) (nth t X 0)) (seq 0 16) v.

(** [for (i = ...; ...; i += 16)], [n] times. *)
Fixpoint sha2_loop (n i : nat) (X : list Z) (v : words8) : words8 :=
  match n with
  | O => v
  | S n => let X := sha2_schedule X in sha2_loop n (i + 16) X (sha2_rounds i X v)
  end.

(** FIPS 180-4, section 6: the words and the rounds. *)
Definition sha2_word (W : list Z) : Z :=
  let t := length W in update (nth (t - 16) W 0) (nth (t - 15) W 0) (nth (t - 7) W 0) (nth (t - 2) W 0).
Definition sha2_step (t : nat) (v : words8) (w : Z) : words8 := round v (nth t K 0) w.

Lemma sha2_expand_step n l x0 x1 x2 x3 x4 x5 x6 x7 x8 x9 x10 x11 x12 x13 x14 x15 :
  fips_expand sha2_word (S n) (l ++ [x0; x1; x2; x3; x4; x5; x6; x7; x8; x9; x10; x11; x12; x13; x14; x15]) =
  fips_expand sha2_word n ((l ++ [x0]) ++ [x1; x2; x3; x4; x5; x6; x7; x8; x9; x10; x11; x12; x13; x14; x15; update x0 x1 x9 x14]).
Proof using.
  cbn [fips_expand]. f_equal. rewrite <- !app_assoc. cbn [app]. do 16 f_equal. unfold sha2_word.
  rewrite length_app. cbn [length]. rewrite !app_nth2 by lia.
  replace (length l + 16 - 2 - length l)%nat with 14%nat by lia. replace (length l + 16 - 7 - length l)%nat with 9%nat by lia.
  replace (length l + 16 - 15 - length l)%nat with 1%nat by lia. replace (length l + 16 - 16 - length l)%nat with 0%nat by lia. done.
Qed.

Lemma sha2_schedule_expand n l X : length X = 16%nat ->
  fips_expand sha2_word (16 + n) (l ++ X) = fips_expand sha2_word n ((l ++ X) ++ sha2_schedule X).
Proof using.
  intros Hl. do 16 (destruct X as [|? X]; [done|]). destruct X; [|done]. clear Hl. cbn [Nat.add]. rewrite !sha2_expand_step, <- !app_assoc.
  unfold sha2_schedule, schedule16. generalize (fips_expand sha2_word n). intros f. generalize update. intros upd. apply (f_equal f). apply (f_equal (app l)).
  vm_compute. reflexivity.
Qed.

(** The loop, after the words [l ++ X] of the schedule. *)
Lemma sha2_loop_app n : forall l X v, length X = 16%nat ->
  let W := l ++ X in
  sha2_loop n (length W) X (fips_rounds sha2_step (length W) W v) =
  fips_rounds sha2_step (length W + 16 * n) (fips_expand sha2_word (16 * n) W) v.
Proof using.
  induction n as [|n IH]; intros l X v Hl W; cbn [sha2_loop].
  - rewrite Nat.mul_0_r, Nat.add_0_r. done.
  - replace (16 * S n)%nat with (16 + 16 * n)%nat by lia.
    assert (E : fips_expand sha2_word (16 + 16 * n) W = fips_expand sha2_word (16 * n) (W ++ sha2_schedule X)) by (by apply sha2_schedule_expand).
    rewrite E. clear E. assert (Hs : length (sha2_schedule X) = 16%nat) by (unfold sha2_schedule; by rewrite length_schedule16).
    change (sha2_rounds (length W) (sha2_schedule X) (fips_rounds sha2_step (length W) W v))
      with (rounds16 sha2_step (length W) (sha2_schedule X) (fips_rounds sha2_step (length W) W v)).
    rewrite <- fips_rounds_app by done. specialize (IH W (sha2_schedule X) v Hs). cbv zeta in IH. rewrite length_app, Hs in IH.
    rewrite IH. by rewrite Nat.add_assoc.
Qed.

Lemma sha2_loop_ok n X v : length X = 16%nat ->
  sha2_loop n 16 X (sha2_rounds 0 X v) = fips_rounds sha2_step (16 * S n) (fips_expand sha2_word (16 * n) X) v.
Proof using.
  intros Hl. pose proof (sha2_loop_app n [] X v Hl) as H. cbv zeta in H. rewrite app_nil_l, Hl in H.
  replace (16 * S n)%nat with (16 + 16 * n)%nat by lia. rewrite <- H. clear H.
  pose proof (fips_rounds_app sha2_step [] X v Hl) as H0. rewrite app_nil_l in H0. cbn [length Nat.add] in H0. by rewrite H0.
Qed.
End sha2.
