(* ===== verification/Sha256.v ===== *)
(** * SHA-256 and SHA-224

    lib/libcrypto/sha/sha256.c, every function, with the generic block function.  The
    context's buffer and counters are those of MdHash.v.  The specification is FIPS
    180-4: the message schedule of 64 words, the rounds over it, and the iteration
    over the padded message. *)

From S2P Require Import Prelude CryptoInternal MdHash ShaLoop.
Open Scope Z_scope.

Definition SHA224_DIGEST_LENGTH : Z := 28.
Definition SHA256_DIGEST_LENGTH : Z := 32.

Record SHA256_CTX : Type := mkSHA256 { sc_md : md_ctx words8; sc_md_len : Z }.

Definition K256 : list Z :=
  [1116352408; 1899447441; 3049323471; 3921009573; 961987163; 1508970993; 2453635748; 2870763221;
   3624381080; 310598401; 607225278; 1426881987; 1925078388; 2162078206; 2614888103; 3248222580;
   3835390401; 4022224774; 264347078; 604807628; 770255983; 1249150122; 1555081692; 1996064986;
   2554220882; 2821834349; 2952996808; 3210313671; 3336571891; 3584528711; 113926993; 338241895;
   666307205; 773529912; 1294757372; 1396182291; 1695183700; 1986661051; 2177026350; 2456956037;
   2730485921; 2820302411; 3259730800; 3345764771; 3516065817; 3600352804; 4094571909; 275423344;
   430227734; 506948616; 659060556; 883997877; 958139571; 1322822218; 1537002063; 1747873779;
   1955562222; 2024104815; 2227730452; 2361852424; 2428436474; 2756734187; 3204031479; 3329325298].

Definition Sigma0 (x : Z) : Z := Z.lxor (Z.lxor (crypto_ror_u32 x 2) (crypto_ror_u32 x 13)) (crypto_ror_u32 x 22).
Definition Sigma1 (x : Z) : Z := Z.lxor (Z.lxor (crypto_ror_u32 x 6) (crypto_ror_u32 x 11)) (crypto_ror_u32 x 25).
Definition sigma0 (x : Z) : Z := Z.lxor (Z.lxor (crypto_ror_u32 x 7) (crypto_ror_u32 x 18)) (Z.shiftr x 3).
Definition sigma1 (x : Z) : Z := Z.lxor (Z.lxor (crypto_ror_u32 x 17) (crypto_ror_u32 x 19)) (Z.shiftr x 10).
Definition Ch (x y z : Z) : Z := Z.lxor (Z.land x y) (Z.land (u32 (Z.lnot x)) z).
Definition Maj (x y z : Z) : Z := Z.lxor (Z.lxor (Z.land x y) (Z.land x z)) (Z.land y z).

(** The new [*W0]. *)
Definition sha256_msg_schedule_update (W0 W1 W9 W14 : Z) : Z := u32 (sigma1 W14 + W9 + sigma0 W1 + W0).

Definition sha256_round (v : words8) (Kt Wt : Z) : words8 :=
  let '(a, b, c, d, e, f, g, h) := v in
  let T1 := u32 (h + Sigma1 e + Ch e f g + Kt + Wt) in
  let T2 := u32 (Sigma0 a + Maj a b c) in
  (u32 (T1 + T2), a, b, c, u32 (d + T1), e, f, g).

(** The words added to the chaining variables. *)
Definition add8 (x y : words8) : words8 :=
  let '(x0, x1, x2, x3, x4, x5, x6, x7) := x in
  let '(y0, y1, y2, y3, y4, y5, y6, y7) := y in
  (u32 (x0 + y0), u32 (x1 + y1), u32 (x2 + y2), u32 (x3 + y3), u32 (x4 + y4), u32 (x5 + y5), u32 (x6 + y6), u32 (x7 + y7)).

(** The body of [while (num--)]. *)
Definition sha256_block (h : words8) (input : list Z) : option words8 :=
  X ← load_be32 16 input;
  let v := sha2_rounds sha256_round K256 0 X h in
  let v := sha2_loop sha256_msg_schedule_update sha256_round K256 3 16 X v in
  Some (add8 h v).

Definition sha256_block_data_order (ctx : SHA256_CTX) (input : list Z) (num : nat) : option SHA256_CTX :=
  let md := sc_md ctx in
  h ← block_data_order sha256_block 64 num (md_h md) input;
  Some (mkSHA256 (md <| md_h := h |>) (sc_md_len ctx)).

Definition zero_md {chain} (h : chain) : md_ctx chain := mkMd h 0 0 (zrep 64 0) 0.

Definition SHA224_Init : SHA256_CTX :=
  mkSHA256 (zero_md (3238371032, 914150663, 812702999, 4144912697, 4290775857, 1750603025, 1694076839, 3204075428)) SHA224_DIGEST_LENGTH.
Definition SHA256_Init : SHA256_CTX :=
  mkSHA256 (zero_md (1779033703, 3144134277, 1013904242, 2773480762, 1359893119, 2600822924, 528734635, 1541459225)) SHA256_DIGEST_LENGTH.

Definition SHA256_Update (c : SHA256_CTX) (data : list Z) : option SHA256_CTX :=
  md ← md_update sha256_block (sc_md c) data; Some (mkSHA256 md (sc_md_len c)).
Definition SHA224_Update (c : SHA256_CTX) (data : list Z) : option SHA256_CTX := SHA256_Update c data.

Definition SHA256_Transform (c : SHA256_CTX) (data : list Z) : option SHA256_CTX := sha256_block_data_order c data 1.

(** [htobe32(c->Nh)], [htobe32(c->Nl)] *)
Definition be_length (Nh Nl : Z) : list Z := be_bytes 4 Nh ++ be_bytes 4 Nl.

(** The words of the digest; [None] when the return value is 0. *)
Definition digest_octets (md_len : Z) (h : words8) : option (list Z) :=
  let store n := concat (map crypto_store_htobe32 (take n (list8 h))) in
  if md_len =? SHA224_DIGEST_LENGTH then Some (store 7%nat)
  else if md_len =? SHA256_DIGEST_LENGTH then Some (store 8%nat)
  else if SHA256_DIGEST_LENGTH <? md_len then None
  else Some (store (Z.to_nat (md_len / 4))).

(** The digest, when the return value is 1, and the context. *)
Definition SHA256_Final (c : SHA256_CTX) : option (option (list Z) * SHA256_CTX) :=
  md ← md_final sha256_block be_length (sc_md c);
  Some (digest_octets (sc_md_len c) (md_h md), mkSHA256 md (sc_md_len c)).
Definition SHA224_Final (c : SHA256_CTX) : option (option (list Z) * SHA256_CTX) := SHA256_Final c.

Definition SHA224 (d : list Z) : option (option (list Z)) :=
  c ← SHA256_Update SHA224_Init d; '(md, _) ← SHA256_Final c; Some md.
Definition SHA256 (d : list Z) : option (option (list Z)) :=
  c ← SHA256_Update SHA256_Init d; '(md, _) ← SHA256_Final c; Some md.

(** ** FIPS 180-4 *)

Definition fips_compress (h : words8) (m : list Z) : words8 :=
  add8 h (fips_rounds (sha2_step sha256_round K256) 64 (fips_expand (sha2_word sha256_msg_schedule_update) 48 (words_of be_val 4 16 m)) h).

(** The digest of a message: the first [n] words. *)
Definition fips_sha256 (h0 : words8) (n : nat) (m : list Z) : list Z :=
  concat (map (be_bytes 4) (take n (list8 (md_hash fips_compress 64 (be_bytes 8 (8 * zlen m)) h0 m)))).

Lemma sha256_block_ok h m : zlen m = 64 -> Forall is_byte m -> sha256_block h m = Some (fips_compress h m).
Proof.
  intros Hm _. unfold sha256_block, fips_compress. rewrite load_be32_ok by lia. cbn [mbind option_bind].
  rewrite (sha2_loop_ok sha256_msg_schedule_update sha256_round K256 3) by apply length_words_of. apply eq_refl.
Qed.

(** *** Streaming *)

Lemma be_length_ok Nh Nl v : 0 <= Nl < 2 ^ 32 -> Nh * 2 ^ 32 + Nl = v mod 2 ^ 64 -> be_length Nh Nl = be_bytes 8 v.
Proof.
  intros Hl Hv. unfold be_length. rewrite <- (be_bytes_mod 8 v). change (256 ^ Z.of_nat 8) with (2 ^ 64). rewrite <- Hv.
  change 8%nat with (4 + 4)%nat. rewrite be_bytes_app. change (256 ^ Z.of_nat 4) with (2 ^ 32).
  rewrite Z.div_add_l, (Z.div_small Nl), Z.add_0_r by lia. f_equal. rewrite <- (be_bytes_mod 4 (_ + Nl)). change (256 ^ Z.of_nat 4) with (2 ^ 32).
  rewrite Z.add_comm, Z_mod_plus_full. symmetry. apply be_bytes_mod.
Qed.

Lemma be_length_size a b : zlen (be_length a b) = 8 /\ Forall is_byte (be_length a b).
Proof. unfold be_length. rewrite zlen_app, !zlen_be_bytes, Forall_app. split; [done|]. split; apply is_byte_be_bytes. Qed.

(** The context after [msg]. *)
Definition sha256_at (init : SHA256_CTX) (msg : list Z) (c : SHA256_CTX) : Prop :=
  md_at fips_compress (md_h (sc_md init)) msg (sc_md c) /\ sc_md_len c = sc_md_len init.

Definition is_init (init : SHA256_CTX) : Prop := init = SHA256_Init \/ init = SHA224_Init.

Lemma sha256_at_start init : is_init init -> sha256_at init [] init.
Proof. intros [-> | ->]; (split; [apply md_at_start|done]). Qed.

Lemma SHA256_Update_ok init msg c data :
  sha256_at init msg c -> Forall is_byte data -> exists c', SHA256_Update c data = Some c' /\ sha256_at init (msg ++ data) c'.
Proof.
  intros [Hat Hl] Hd. destruct (md_update_ok _ _ sha256_block_ok _ _ _ data Hat Hd) as (md & E & Hat').
  unfold SHA256_Update. rewrite E. cbn [mbind option_bind]. by eexists.
Qed.

(** The digest of a message under one of the two initial values. *)
Definition sha2_32 (init : SHA256_CTX) (m : list Z) : list Z :=
  fips_sha256 (md_h (sc_md init)) (Z.to_nat (sc_md_len init / 4)) m.

Lemma SHA256_Final_ok init msg c :
  is_init init -> sha256_at init msg c -> exists c', SHA256_Final c = Some (Some (sha2_32 init msg), c').
Proof.
  intros Hi [Hat Hl]. destruct (md_final_ok _ _ sha256_block_ok be_length _ _ _ Hat be_length_size) as (md & E & Eh).
  destruct Hat as (_ & HN & _ & Hv). rewrite (be_length_ok _ _ _ HN Hv) in Eh.
  unfold SHA256_Final. rewrite E. cbn [mbind option_bind]. eexists. do 2 f_equal. rewrite Hl, Eh.
  unfold sha2_32, fips_sha256. by destruct Hi as [-> | ->].
Qed.

(** C10. SHA-256 and SHA-224 are the functions of FIPS 180-4 however the message is cut
    into updates: no access is out of bounds, and the digest is that of the whole
    message.  (The length in the padding is taken modulo 2^64, as in the standard for
    messages of less than 2^61 octets.) *)
Theorem SHA256_streaming init ms :
  is_init init -> Forall (Forall is_byte) ms ->
  exists c c', updates SHA256_Update init ms = Some c /\ SHA256_Final c = Some (Some (sha2_32 init (concat ms)), c').
Proof.
  intros Hi Hms. destruct (updates_ok _ _ ms (SHA256_Update_ok init) Hms [] init (sha256_at_start init Hi)) as (c & E & Hat).
  destruct (SHA256_Final_ok init _ c Hi Hat) as (c' & E'). by exists c, c'.
Qed.

(** The digest of "abc", cut in three. *)
Lemma SHA256_streaming_witness :
  sha2_32 SHA256_Init [97; 98; 99] = [186; 120; 22; 191; 143; 1; 207; 234; 65; 65; 64; 222; 93; 174; 34; 35;
    176; 3; 97; 163; 150; 23; 122; 156; 180; 16; 255; 97; 242; 0; 21; 173] /\
  exists c c', updates SHA256_Update SHA256_Init [[97]; []; [98; 99]] = Some c /\
    SHA256_Final c = Some (Some (sha2_32 SHA256_Init [97; 98; 99]), c').
Proof.
  split; [vm_compute; reflexivity|].
  apply (SHA256_streaming SHA256_Init [[97]; []; [98; 99]]); [by left|by apply (bool_decide_unpack _)].
Defined.
