(* ===== verification/Sha512.v ===== *)
(** * SHA-512 and its truncations

    lib/libcrypto/sha/sha512.c, every function, with the generic block function.  Its
    update function is not the one of MdHash.v; the lemmas on the buffer and the
    padding are.  The specification is FIPS 180-4. *)

From S2P Require Import Prelude CryptoInternal MdHash ShaLoop.
Open Scope Z_scope.

Definition SHA512_224_DIGEST_LENGTH : Z := 28.
Definition SHA512_256_DIGEST_LENGTH : Z := 32.
Definition SHA384_DIGEST_LENGTH : Z := 48.
Definition SHA512_DIGEST_LENGTH : Z := 64.

(** [md_data] is the union [u], as octets. *)
Record SHA512_CTX : Type := mkSHA512 { s5_md : md_ctx words8; s5_md_len : Z }.

Definition K512 : list Z :=
  [4794697086780616226; 8158064640168781261; 13096744586834688815; 16840607885511220156;
   4131703408338449720; 6480981068601479193; 10538285296894168987; 12329834152419229976;
   15566598209576043074; 1334009975649890238; 2608012711638119052; 6128411473006802146;
   8268148722764581231; 9286055187155687089; 11230858885718282805; 13951009754708518548;
   16472876342353939154; 17275323862435702243; 1135362057144423861; 2597628984639134821;
   3308224258029322869; 5365058923640841347; 6679025012923562964; 8573033837759648693;
   10970295158949994411; 12119686244451234320; 12683024718118986047; 13788192230050041572;
   14330467153632333762; 15395433587784984357; 489312712824947311; 1452737877330783856;
   2861767655752347644; 3322285676063803686; 5560940570517711597; 5996557281743188959;
   7280758554555802590; 8532644243296465576; 9350256976987008742; 10552545826968843579;
   11727347734174303076; 12113106623233404929; 14000437183269869457; 14369950271660146224;
   15101387698204529176; 15463397548674623760; 17586052441742319658; 1182934255886127544;
   1847814050463011016; 2177327727835720531; 2830643537854262169; 3796741975233480872;
   4115178125766777443; 5681478168544905931; 6601373596472566643; 7507060721942968483;
   8399075790359081724; 8693463985226723168; 9568029438360202098; 10144078919501101548;
   10430055236837252648; 11840083180663258601; 13761210420658862357; 14299343276471374635;
   14566680578165727644; 15097957966210449927; 16922976911328602910; 17689382322260857208;
   500013540394364858; 748580250866718886; 1242879168328830382; 1977374033974150939;
   2944078676154940804; 3659926193048069267; 4368137639120453308; 4836135668995329356;
   5532061633213252278; 6448918945643986474; 6902733635092675308; 7801388544844847127].

Definition Sigma0 (x : Z) : Z := Z.lxor (Z.lxor (crypto_ror_u64 x 28) (crypto_ror_u64 x 34)) (crypto_ror_u64 x 39).
Definition Sigma1 (x : Z) : Z := Z.lxor (Z.lxor (crypto_ror_u64 x 14) (crypto_ror_u64 x 18)) (crypto_ror_u64 x 41).
Definition sigma0 (x : Z) : Z := Z.lxor (Z.lxor (crypto_ror_u64 x 1) (crypto_ror_u64 x 8)) (Z.shiftr x 7).
Definition sigma1 (x : Z) : Z := Z.lxor (Z.lxor (crypto_ror_u64 x 19) (crypto_ror_u64 x 61)) (Z.shiftr x 6).
Definition Ch (x y z : Z) : Z := Z.lxor (Z.land x y) (Z.land (u64 (Z.lnot x)) z).
Definition Maj (x y z : Z) : Z := Z.lxor (Z.lxor (Z.land x y) (Z.land x z)) (Z.land y z).

(** The new [*W0]. *)
Definition sha512_msg_schedule_update (W0 W1 W9 W14 : Z) : Z := u64 (sigma1 W14 + W9 + sigma0 W1 + W0).

Definition sha512_round (v : words8) (Kt Wt : Z) : words8 :=
  let '(a, b, c, d, e, f, g, h) := v in
  let T1 := u64 (h + Sigma1 e + Ch e f g + Kt + Wt) in
  let T2 := u64 (Sigma0 a + Maj a b c) in
  (u64 (T1 + T2), a, b, c, u64 (d + T1), e, f, g).

(** The words added to the chaining variables. *)
Definition add8 (x y : words8) : words8 :=
  let '(x0, x1, x2, x3, x4, x5, x6, x7) := x in
  let '(y0, y1, y2, y3, y4, y5, y6, y7) := y in
  (u64 (x0 + y0), u64 (x1 + y1), u64 (x2 + y2), u64 (x3 + y3), u64 (x4 + y4), u64 (x5 + y5), u64 (x6 + y6), u64 (x7 + y7)).

(** The body of [while (num--)]. *)
Definition sha512_block (h : words8) (input : list Z) : option words8 :=
  X ← load_be64 16 input;
  let v := sha2_rounds sha512_round K512 0 X h in
  let v := sha2_loop sha512_msg_schedule_update sha512_round K512 4 16 X v in
  Some (add8 h v).

Definition sha512_block_data_order (ctx : SHA512_CTX) (input : list Z) (num : nat) : option SHA512_CTX :=
  let md := s5_md ctx in
  h ← block_data_order sha512_block 128 num (md_h md) input;
  Some (mkSHA512 (md <| md_h := h |>) (s5_md_len ctx)).

Definition zero_md128 (h : words8) : md_ctx words8 := mkMd h 0 0 (zrep 128 0) 0.

Definition SHA384_Init : SHA512_CTX :=
  mkSHA512 (zero_md128 (14680500436340154072, 7105036623409894663, 10473403895298186519, 1526699215303891257, 7436329637833083697, 10282925794625328401, 15784041429090275239, 5167115440072839076)) SHA384_DIGEST_LENGTH.
Definition SHA512_Init : SHA512_CTX :=
  mkSHA512 (zero_md128 (7640891576956012808, 13503953896175478587, 4354685564936845355, 11912009170470909681, 5840696475078001361, 11170449401992604703, 2270897969802886507, 6620516959819538809)) SHA512_DIGEST_LENGTH.
Definition SHA512_224_Init : SHA512_CTX :=
  mkSHA512 (zero_md128 (10105294471447203234, 8350123849800275158, 2160240930085379202, 7466358040605728719, 1111592415079452072, 8638871050018654530, 4583966954114332360, 1230299281376055969)) SHA512_224_DIGEST_LENGTH.
Definition SHA512_256_Init : SHA512_CTX :=
  mkSHA512 (zero_md128 (2463787394917988140, 11481187982095705282, 2563595384472711505, 10824532655140301501, 10819967247969091555, 13717434660681038226, 3098927326965381290, 1060366662362279074)) SHA512_256_DIGEST_LENGTH.

(** The number of bits, in two words; [sizeof(len) >= 8]. *)
Definition count_bits128 (c : md_ctx words8) (len : Z) : md_ctx words8 :=
  let l := Z.land (u64 (md_Nl c + u64 (Z.shiftl len 3))) 0xffffffffffffffff in
  let Nh := if l <? md_Nl c then u64 (md_Nh c + 1) else md_Nh c in
  c <| md_Nh := u64 (Nh + Z.shiftr len 61) |> <| md_Nl := l |>.

(** The buffer is filled up: what is left of [data], [None] when all of it is used. *)
Definition fill_buffer128 (c : md_ctx words8) (data : list Z) : option (md_ctx words8 * option (list Z)) :=
  if negb (md_num c =? 0) then
    let n := 128 - md_num c in
    if zlen data <? n then
      p ← zwrite (md_data c) (md_num c) data;
      Some (c <| md_data := p |> <| md_num := u32 (md_num c + u32 (zlen data)) |>, None)
    else
      p ← zwrite (md_data c) (md_num c) (ztake n data);
      h ← block_data_order sha512_block 128 1 (md_h c) p;
      Some (c <| md_data := p |> <| md_num := 0 |> <| md_h := h |>, Some (zdrop n data))
  else Some (c, Some data).

Definition update_rest128 (c : md_ctx words8) (data : list Z) : option (md_ctx words8) :=
  '(c, data) ← (if 128 <=? zlen data then
                  h ← block_data_order sha512_block 128 (Z.to_nat (zlen data / 128)) (md_h c) data;
                  Some (c <| md_h := h |>, zdrop (zlen data - zlen data mod 128) data)
                else Some (c, data));
  if negb (zlen data =? 0) then
    p ← zwrite (md_data c) 0 data;
    Some (c <| md_data := p |> <| md_num := zlen data |>)
  else Some c.

Definition SHA512_Update (c : SHA512_CTX) (data : list Z) : option SHA512_CTX :=
  if zlen data =? 0 then Some c else
  '(md, data) ← fill_buffer128 (count_bits128 (s5_md c) (zlen data)) data;
  match data with
  | None => Some (mkSHA512 md (s5_md_len c))
  | Some data => md ← update_rest128 md data; Some (mkSHA512 md (s5_md_len c))
  end.
Definition SHA384_Update (c : SHA512_CTX) (data : list Z) : option SHA512_CTX := SHA512_Update c data.
Definition SHA512_224_Update (c : SHA512_CTX) (data : list Z) : option SHA512_CTX := SHA512_Update c data.
Definition SHA512_256_Update (c : SHA512_CTX) (data : list Z) : option SHA512_CTX := SHA512_Update c data.

Definition SHA512_Transform (c : SHA512_CTX) (data : list Z) : option SHA512_CTX := sha512_block_data_order c data 1.

(** [htobe64(c->Nh)], [htobe64(c->Nl)] *)
Definition be_length128 (Nh Nl : Z) : list Z := be_bytes 8 Nh ++ be_bytes 8 Nl.

(** The words of the digest; [None] when the return value is 0. *)
Definition digest_octets64 (md_len : Z) (h : words8) : option (list Z) :=
  let store n := concat (map crypto_store_htobe64 (take (Z.to_nat n) (list8 h))) in
  if md_len =? SHA512_224_DIGEST_LENGTH then
    let n := SHA512_224_DIGEST_LENGTH / 8 in
    Some (store n ++ crypto_store_htobe32 (Z.shiftr (nth (Z.to_nat n) (list8 h) 0) 32))
  else if md_len =? SHA512_256_DIGEST_LENGTH then Some (store (SHA512_256_DIGEST_LENGTH / 8))
  else if md_len =? SHA384_DIGEST_LENGTH then Some (store (SHA384_DIGEST_LENGTH / 8))
  else if md_len =? SHA512_DIGEST_LENGTH then Some (store (SHA512_DIGEST_LENGTH / 8))
  else None.

(** The digest, when the return value is 1, and the context.  The buffer keeps the last
    block, the count of its octets the old value. *)
Definition SHA512_Final (c : SHA512_CTX) : option (option (list Z) * SHA512_CTX) :=
  let md := s5_md c in
  '(h, p) ← final_block sha512_block 128 16 (md_h md) (md_data md) (md_num md) (be_length128 (md_Nh md) (md_Nl md));
  Some (digest_octets64 (s5_md_len c) h, mkSHA512 (md <| md_h := h |> <| md_data := p |>) (s5_md_len c)).
Definition SHA384_Final (c : SHA512_CTX) : option (option (list Z) * SHA512_CTX) := SHA512_Final c.
Definition SHA512_224_Final (c : SHA512_CTX) : option (option (list Z) * SHA512_CTX) := SHA512_Final c.
Definition SHA512_256_Final (c : SHA512_CTX) : option (option (list Z) * SHA512_CTX) := SHA512_Final c.

Definition SHA384 (d : list Z) : option (option (list Z)) :=
  c ← SHA512_Update SHA384_Init d; '(md, _) ← SHA512_Final c; Some md.
Definition SHA512 (d : list Z) : option (option (list Z)) :=
  c ← SHA512_Update SHA512_Init d; '(md, _) ← SHA512_Final c; Some md.

(** ** FIPS 180-4 *)

Definition fips_compress512 (h : words8) (m : list Z) : words8 :=
  add8 h (fips_rounds (sha2_step sha512_round K512) 80 (fips_expand (sha2_word sha512_msg_schedule_update) 64 (words_of be_val 8 16 m)) h).

(** The digest of a message: the first octets of the chaining variables. *)
Definition fips_sha512 (h0 : words8) (md_len : Z) (m : list Z) : list Z :=
  ztake md_len (concat (map (be_bytes 8) (list8 (md_hash fips_compress512 128 (be_bytes 16 (8 * zlen m)) h0 m)))).

Lemma sha512_block_ok h m : zlen m = 128 -> Forall is_byte m -> sha512_block h m = Some (fips_compress512 h m).
Proof.
  intros Hm _. unfold sha512_block, fips_compress512. rewrite load_be64_ok by lia. cbn [mbind option_bind].
  rewrite (sha2_loop_ok sha512_msg_schedule_update sha512_round K512 4) by apply length_words_of. apply eq_refl.
Qed.

(** *** Streaming *)

Lemma count_bits128_ok c v len :
  0 <= len -> 0 <= md_Nl c < 2 ^ 64 -> 0 <= md_Nh c < 2 ^ 64 -> md_Nh c * 2 ^ 64 + md_Nl c = v mod 2 ^ 128 ->
  let c' := count_bits128 c len in
  0 <= md_Nl c' < 2 ^ 64 /\ 0 <= md_Nh c' < 2 ^ 64 /\ md_Nh c' * 2 ^ 64 + md_Nl c' = (v + 8 * len) mod 2 ^ 128.
Proof.
  intros Hlen Hl Hh Hv c'. cbn [count_bits128 c' set_field md_Nl md_Nh]. clear c'. generalize dependent (md_Nh c). intros Nh Hh Hv.
  generalize dependent (md_Nl c). intros Nl Hl Hv. rewrite Z.shiftl_mul_pow2, Z.shiftr_div_pow2 by lia.
  change 0xffffffffffffffff with (Z.ones 64). rewrite Z.land_ones by lia. unfold u64.
  set (x := len * 2 ^ 3 mod 2 ^ 64). set (y := len / 2 ^ 61).
  assert (Hxy : (y * 2 ^ 64 + x) = 8 * len /\ 0 <= x < 2 ^ 64 /\ 0 <= y).
  { unfold x, y. Z.to_euclidean_division_equations. lia. }
  clearbody x y. destruct Hxy as (Exy & Hx & Hy). rewrite Z.mod_mod by lia.
  split; [apply Z.mod_pos_bound; lia|]. split; [destruct (_ <? _); apply Z.mod_pos_bound; lia|]. rewrite <- Exy.
  destruct (Z.ltb_spec ((Nl + x) mod 2 ^ 64) Nl); Z.to_euclidean_division_equations; lia.
Qed.

(** The context after the octets [msg]. *)
Definition md_at128 (h0 : words8) (msg : list Z) (c : md_ctx words8) : Prop :=
  buffered fips_compress512 128 h0 msg (md_h c) (md_data c) (md_num c) /\
  0 <= md_Nl c < 2 ^ 64 /\ 0 <= md_Nh c < 2 ^ 64 /\ md_Nh c * 2 ^ 64 + md_Nl c = (8 * zlen msg) mod 2 ^ 128.

Lemma md_at128_start h0 : md_at128 h0 [] (zero_md128 h0).
Proof. split; [|done]. apply buffered_start; [lia|done|by apply is_byte_zrep]. Qed.

(** Octets behind an empty buffer. *)
Lemma update_rest128_ok h0 msg c bs :
  buffered fips_compress512 128 h0 msg (md_h c) (md_data c) 0 -> md_num c = 0 -> Forall is_byte bs ->
  exists c', update_rest128 c bs = Some c' /\ md_Nl c' = md_Nl c /\ md_Nh c' = md_Nh c /\
    buffered fips_compress512 128 h0 (msg ++ bs) (md_h c') (md_data c') (md_num c').
Proof.
  intros Hbuf Hnum Hb. unfold update_rest128. pose proof (zlen_nonneg bs) as Hpos.
  assert (Hn : zlen bs = 128 * (zlen bs / 128) + zlen bs mod 128 /\ 0 <= zlen bs mod 128 < 128).
  { split; [apply Z.div_mod; lia|apply Z.mod_pos_bound; lia]. }
  set (n := zlen bs / 128) in *. set (r := zlen bs mod 128) in *. clearbody n r.
  assert (H : exists c1 rest m1, (if 128 <=? zlen bs then
      h ← block_data_order sha512_block 128 (Z.to_nat n) (md_h c) bs; Some (c <| md_h := h |>, zdrop (zlen bs - r) bs) else Some (c, bs)) = Some (c1, rest) /\
    md_num c1 = 0 /\ md_Nl c1 = md_Nl c /\ md_Nh c1 = md_Nh c /\ msg ++ bs = m1 ++ rest /\ zlen rest < 128 /\ Forall is_byte rest /\
    buffered fips_compress512 128 h0 m1 (md_h c1) (md_data c1) 0).
  { destruct (Z.leb_spec 128 (zlen bs)).
    - destruct (buffered_blocks sha512_block fips_compress512 128 ltac:(lia) sha512_block_ok _ _ _ _ (Z.to_nat n) bs Hbuf Hb ltac:(lia)) as (h' & E & Hbuf').
      rewrite E. cbn [mbind option_bind]. rewrite Z2Nat.id in Hbuf' by lia. do 3 eexists. split; [reflexivity|].
      split; [done|]. split; [done|]. split; [done|]. replace (zlen bs - r) with (n * 128) by lia.
      split; [by rewrite <- (ztake_zdrop (n * 128) bs), app_assoc at 1|].
      split; [rewrite zlen_zdrop; lia|]. split; [by apply Forall_zdrop|exact Hbuf'].
    - exists c, bs, msg. split; [done|]. split; [done|]. split; [done|]. split; [done|]. split; [done|]. split; [lia|done]. }
  destruct H as (c1 & rest & m1 & -> & En & <- & <- & -> & Hr & Hrb & Hbuf'). cbn [mbind option_bind]. pose proof (zlen_nonneg rest).
  destruct (Z.eqb_spec (zlen rest) 0) as [E0|E0]; cbn [negb].
  - exists c1. rewrite (zlen_nil_inv rest E0), app_nil_r, En. done.
  - destruct (buffered_more fips_compress512 128 ltac:(lia) _ _ _ _ _ rest Hbuf' Hrb ltac:(lia)) as (p & -> & Hp).
    cbn [mbind option_bind]. eexists. split; [reflexivity|]. done.
Qed.

Lemma md_update128_ok h0 msg c data :
  md_at128 h0 msg (s5_md c) -> Forall is_byte data ->
  exists c', SHA512_Update c data = Some c' /\ md_at128 h0 (msg ++ data) (s5_md c') /\ s5_md_len c' = s5_md_len c.
Proof.
  destruct c as [c md_len]. cbn [s5_md s5_md_len]. intros (Hbuf & Hl & Hh & Hv) Hd. pose proof (zlen_nonneg data) as Hlen. unfold SHA512_Update. cbn [s5_md s5_md_len].
  destruct (Z.eqb_spec (zlen data) 0) as [E0|E0].
  { eexists. split; [reflexivity|]. rewrite (zlen_nil_inv data E0), app_nil_r. done. }
  destruct (count_bits128_ok c _ (zlen data) ltac:(lia) Hl Hh Hv) as (Hl' & Hh' & Hv'). rewrite <- Z.mul_add_distr_l, <- zlen_app in Hv'.
  assert (Hbuf' : buffered fips_compress512 128 h0 msg (md_h (count_bits128 c (zlen data))) (md_data (count_bits128 c (zlen data))) (md_num (count_bits128 c (zlen data)))) by done.
  set (c1 := count_bits128 c (zlen data)) in *. clearbody c1. clear c Hbuf Hl Hh Hv.
  assert (Hrest : forall m1 c2 rest, buffered fips_compress512 128 h0 m1 (md_h c2) (md_data c2) 0 -> md_num c2 = 0 -> md_Nl c2 = md_Nl c1 -> md_Nh c2 = md_Nh c1 ->
    Forall is_byte rest -> m1 ++ rest = msg ++ data -> exists c', (md ← update_rest128 c2 rest; Some (mkSHA512 md md_len)) = Some c' /\
      md_at128 h0 (msg ++ data) (s5_md c') /\ s5_md_len c' = md_len).
  { intros m1 c2 rest Hb2 Hnum EN1 EN2 Hr Em. destruct (update_rest128_ok h0 m1 c2 rest Hb2 Hnum Hr) as (c' & E & E1 & E2 & Hb3).
    rewrite Em in Hb3. rewrite E. cbn [mbind option_bind]. eexists. split; [reflexivity|]. split; [|done]. split; [done|]. cbn [s5_md]. by rewrite E1, E2, EN1, EN2. }
  unfold fill_buffer128. pose proof Hbuf' as (_ & _ & _ & _ & _ & Hn & _ & _ & Hmsg).
  destruct (Z.eqb_spec (md_num c1) 0) as [En|En]; cbn [negb mbind option_bind].
  { apply (Hrest msg); [by rewrite <- En|done..]. }
  destruct (Z.ltb_spec (zlen data) (128 - md_num c1)) as [Hless|Hfull].
  - destruct (buffered_more fips_compress512 128 ltac:(lia) _ _ _ _ _ data Hbuf' Hd ltac:(lia)) as (p & E1 & Hb2).
    rewrite E1. cbn [mbind option_bind]. eexists. split; [reflexivity|]. split; [|done]. unfold md_at128. cbn [s5_md set_field md_h md_data md_num md_Nl md_Nh].
    unfold u32. rewrite !Z.mod_small by (rewrite ?Z.mod_small; lia). done.
  - destruct (zwrite_fits (md_data c1) (md_num c1) (ztake (128 - md_num c1) data)) as [p E1]; [lia|rewrite zlen_ztake by lia; destruct Hbuf' as (? & ? & _ & _ & _ & _ & -> & _); lia|].
    destruct (buffered_full sha512_block fips_compress512 128 ltac:(lia) sha512_block_ok _ _ _ _ _ (ztake (128 - md_num c1) data) p Hbuf')
      as (p' & E1' & E2 & _ & _ & Hb2); [by apply Forall_ztake|rewrite zlen_ztake; lia| |  |].
    { rewrite (zlen_zwrite _ _ _ _ E1). by destruct Hbuf' as (? & ? & _ & _ & _ & _ & -> & _). }
    { eapply zwrite_bytes; [exact E1| |by apply Forall_ztake]. by destruct Hbuf' as (? & ? & _ & _ & _ & _ & _ & ? & _). }
    rewrite E1 in E1'. injection E1' as <-. rewrite E1. cbn [mbind option_bind]. rewrite E2. cbn [mbind option_bind].
    apply (Hrest (msg ++ ztake (128 - md_num c1) data)); [exact Hb2|done|done|done|by apply Forall_zdrop|by rewrite <- app_assoc, ztake_zdrop].
Qed.

Lemma be_length128_ok Nh Nl v : 0 <= Nl < 2 ^ 64 -> Nh * 2 ^ 64 + Nl = v mod 2 ^ 128 -> be_length128 Nh Nl = be_bytes 16 v.
Proof.
  intros Hl Hv. unfold be_length128. rewrite <- (be_bytes_mod 16 v). change (256 ^ Z.of_nat 16) with (2 ^ 128). rewrite <- Hv.
  change 16%nat with (8 + 8)%nat. rewrite be_bytes_app. change (256 ^ Z.of_nat 8) with (2 ^ 64).
  rewrite Z.div_add_l, (Z.div_small Nl), Z.add_0_r by lia. f_equal. rewrite <- (be_bytes_mod 8 (_ + Nl)). change (256 ^ Z.of_nat 8) with (2 ^ 64).
  rewrite Z.add_comm, Z_mod_plus_full. symmetry. apply be_bytes_mod.
Qed.

Definition is_init512 (init : SHA512_CTX) : Prop :=
  init = SHA512_Init \/ init = SHA384_Init \/ init = SHA512_256_Init \/ init = SHA512_224_Init.

Definition sha512_at (init : SHA512_CTX) (msg : list Z) (c : SHA512_CTX) : Prop :=
  md_at128 (md_h (s5_md init)) msg (s5_md c) /\ s5_md_len c = s5_md_len init.

Lemma sha512_at_start init : is_init512 init -> sha512_at init [] init.
Proof. intros [-> |[-> |[-> | ->]]]; (split; [apply md_at128_start|done]). Qed.

(** The digest of a message under one of the initial values. *)
Definition sha2_64 (init : SHA512_CTX) (m : list Z) : list Z := fips_sha512 (md_h (s5_md init)) (s5_md_len init) m.

Lemma ztake_words n k l : (n <= length l)%nat -> 0 <= k ->
  ztake (8 * Z.of_nat n + k) (concat (map (be_bytes 8) l)) = concat (map (be_bytes 8) (take n l)) ++ ztake k (concat (map (be_bytes 8) (drop n l))).
Proof.
  intros Hn Hk. revert l Hn. induction n as [|n IH]; intros l Hn; [done|].
  destruct l as [|w l]; [cbn in Hn; lia|]. cbn [map concat take drop]. rewrite <- app_assoc, <- IH by (cbn in Hn; lia).
  assert (Hw : zlen (be_bytes 8 w) = 8) by apply zlen_be_bytes. rewrite ztake_app_ge by lia. rewrite Hw. do 2 f_equal. lia.
Qed.

(** Whole words, and half a word more for SHA-512/224. *)
Lemma digest_octets64_ok init h :
  is_init512 init -> digest_octets64 (s5_md_len init) h = Some (ztake (s5_md_len init) (concat (map (be_bytes 8) (list8 h)))).
Proof.
  destruct h as [[[[[[[h0 h1] h2] h3] h4] h5] h6] h7]. intros [-> |[-> |[-> | ->]]]; unfold digest_octets64; cbn [s5_md_len list8].
  - change (s5_md_len SHA512_Init) with (8 * Z.of_nat 8 + 0). rewrite ztake_words by (cbn; lia). by rewrite app_nil_r.
  - change (s5_md_len SHA384_Init) with (8 * Z.of_nat 6 + 0). rewrite ztake_words by (cbn; lia). by rewrite app_nil_r.
  - change (s5_md_len SHA512_256_Init) with (8 * Z.of_nat 4 + 0). rewrite ztake_words by (cbn; lia). by rewrite app_nil_r.
  - change (s5_md_len SHA512_224_Init) with (8 * Z.of_nat 3 + 4). rewrite ztake_words by (cbn; lia). cbn [drop map concat].
    rewrite ztake_app_le by (rewrite zlen_be_bytes; lia). assert (E : be_bytes 8 h3 = be_bytes 4 (h3 / 2 ^ 32) ++ be_bytes 4 h3) by apply (be_bytes_app 4 4).
    rewrite E, ztake_app_exact by apply zlen_be_bytes. rewrite <- Z.shiftr_div_pow2 by lia. done.
Qed.

Lemma SHA512_Final_ok init msg c :
  is_init512 init -> sha512_at init msg c -> exists c', SHA512_Final c = Some (Some (sha2_64 init msg), c').
Proof.
  intros Hi [(Hbuf & HN & _ & Hv) Hl]. unfold SHA512_Final.
  assert (Hlen : forall a b, zlen (be_length128 a b) = 16 /\ Forall is_byte (be_length128 a b)).
  { intros a b. unfold be_length128. rewrite zlen_app, !zlen_be_bytes. split; [done|]. apply Forall_app. split; apply is_byte_be_bytes. }
  destruct (Hlen (md_Nh (s5_md c)) (md_Nl (s5_md c))) as [Hll Hlb].
  destruct (final_block_ok sha512_block fips_compress512 128 16 ltac:(lia) sha512_block_ok _ _ _ _ _ _ Hbuf Hll Hlb) as (p & ->).
  rewrite (be_length128_ok _ _ _ HN Hv). cbn [mbind option_bind]. eexists. do 2 f_equal. rewrite Hl. by apply digest_octets64_ok.
Qed.

Lemma SHA512_Update_ok init msg c data :
  sha512_at init msg c -> Forall is_byte data ->
  exists c', SHA512_Update c data = Some c' /\ sha512_at init (msg ++ data) c'.
Proof.
  intros [Hat Hl] Hd. destruct (md_update128_ok _ _ _ data Hat Hd) as (c' & E & Hat' & El). exists c'. split; [done|]. split; [done|congruence].
Qed.

(** C34. SHA-512, SHA-384, SHA-512/256 and SHA-512/224 are the functions of FIPS 180-4
    however the message is cut into updates: no access is out of bounds, and the digest
    is that of the whole message.  (The length in the padding is taken modulo 2^128.) *)
Theorem SHA512_streaming init ms :
  is_init512 init -> Forall (Forall is_byte) ms ->
  exists c c', updates SHA512_Update init ms = Some c /\ SHA512_Final c = Some (Some (sha2_64 init (concat ms)), c').
Proof.
  intros Hi Hms. destruct (updates_ok _ _ ms (SHA512_Update_ok init) Hms [] init (sha512_at_start init Hi)) as (c & E & Hat).
  destruct (SHA512_Final_ok init _ c Hi Hat) as (c' & E'). by exists c, c'.
Qed.

(** The SHA-512/224 digest of three letters, cut in three. *)
Lemma SHA512_streaming_witness :
  be_val (sha2_64 SHA512_224_Init [97; 98; 99]) = 7393314743542483730848332159511077469561813289363421559130144973994 /\
  exists c c', updates SHA512_Update SHA512_224_Init [[97]; []; [98; 99]] = Some c /\
    SHA512_Final c = Some (Some (sha2_64 SHA512_224_Init [97; 98; 99]), c').
Proof.
  split; [vm_compute; reflexivity|].
  apply (SHA512_streaming SHA512_224_Init [[97]; []; [98; 99]]); [by do 3 right|by apply (bool_decide_unpack _)].
Defined.
