(* ===== verification/Sha1.v ===== *)
(** * SHA-1

    lib/libcrypto/sha/sha1.c, every function, with the generic block function.  The
    buffer and the counters are those of MdHash.v.  The specification is FIPS 180-4: 80
    words of schedule, 80 rounds whose function and constant depend on the number of the
    round. *)

From S2P Require Import Prelude CryptoInternal MdHash ShaLoop Sha256.
Open Scope Z_scope.

Definition SHA_DIGEST_LENGTH : Z := 20.

(** [h0, h1, h2, h3, h4] *)
Definition words5 : Type := Z * Z * Z * Z * Z.
Definition list5 (h : words5) : list Z := let '(h0, h1, h2, h3, h4) := h in [h0; h1; h2; h3; h4].
Definition SHA_CTX : Type := md_ctx words5.

Definition Ch (x y z : Z) : Z := Z.lxor (Z.land x y) (Z.land (u32 (Z.lnot x)) z).
Definition Parity (x y z : Z) : Z := Z.lxor (Z.lxor x y) z.
Definition Maj (x y z : Z) : Z := Z.lxor (Z.lxor (Z.land x y) (Z.land x z)) (Z.land y z).

(** The new [*W0]. *)
Definition sha1_msg_schedule_update (W0 W2 W8 W13 : Z) : Z := crypto_rol_u32 (Z.lxor (Z.lxor (Z.lxor W13 W8) W2) W0) 1.

Definition sha1_round1 (v : words5) (Wt : Z) : words5 :=
  let '(a, b, c, d, e) := v in
  let Kt := 1518500249 in
  let T := u32 (crypto_rol_u32 a 5 + Ch b c d + e + Kt + Wt) in
  (T, a, crypto_rol_u32 b 30, c, d).
Definition sha1_round2 (v : words5) (Wt : Z) : words5 :=
  let '(a, b, c, d, e) := v in
  let Kt := 1859775393 in
  let T := u32 (crypto_rol_u32 a 5 + Parity b c d + e + Kt + Wt) in
  (T, a, crypto_rol_u32 b 30, c, d).
Definition sha1_round3 (v : words5) (Wt : Z) : words5 :=
  let '(a, b, c, d, e) := v in
  let Kt := 2400959708 in
  let T := u32 (crypto_rol_u32 a 5 + Maj b c d + e + Kt + Wt) in
  (T, a, crypto_rol_u32 b 30, c, d).
Definition sha1_round4 (v : words5) (Wt : Z) : words5 :=
  let '(a, b, c, d, e) := v in
  let Kt := 3395469782 in
  let T := u32 (crypto_rol_u32 a 5 + Parity b c d + e + Kt + Wt) in
  (T, a, crypto_rol_u32 b 30, c, d).

(** [&X0, X2, X8, X13] to [&X15, X1, X7, X12] *)
Definition sha1_schedule_calls : list (nat * nat * nat * nat) :=
  [(0, 2, 8, 13); (1, 3, 9, 14); (2, 4, 10, 15); (3, 5, 11, 0); (4, 6, 12, 1); (5, 7, 13, 2); (6, 8, 14, 3); (7, 9, 15, 4); (8, 10, 0, 5); (9, 11, 1, 6); (10, 12, 2, 7); (11, 13, 3, 8); (12, 14, 4, 9); (13, 15, 5, 10); (14, 0, 6, 11); (15, 1, 7, 12)]%nat.

(** The rounds of a block, over the four round functions. *)
Section sha1_block.
Context (update : Z -> Z -> Z -> Z -> Z) (round1 round2 round3 round4 : words5 -> Z -> words5).

(** Calls of one round function, with [X_i] to [X_(i + n - 1)]. *)
Definition sha1_calls (round : words5 -> Z -> words5) (X : list Z) (i n : nat) (v : words5) : words5 :=
  fold_left (fun v t => round v (nth t X 0)) (seq i n) v.

Definition sha1_rounds (X : list Z) (v : words5) : words5 :=
  let v := sha1_calls round1 X 0 16 v in
  let X := schedule16 update sha1_schedule_calls X in
  let v := sha1_calls round1 X 0 4 v in
  let v := sha1_calls round2 X 4 12 v in
  let X := schedule16 update sha1_schedule_calls X in
  let v := sha1_calls round2 X 0 8 v in
  let v := sha1_calls round3 X 8 8 v in
  let X := schedule16 update sha1_schedule_calls X in
  let v := sha1_calls round3 X 0 12 v in
  let v := sha1_calls round4 X 12 4 v in
  let X := schedule16 update sha1_schedule_calls X in
  sha1_calls round4 X 0 16 v.

(** FIPS 180-4, section 6.1: the words, and the round function of the round [t]. *)
Definition sha1_word (W : list Z) : Z :=
  let t := length W in update (nth (t - 16) W 0) (nth (t - 14) W 0) (nth (t - 8) W 0) (nth (t - 3) W 0).
Definition sha1_step (t : nat) (v : words5) (w : Z) : words5 :=
  if (t <? 20)%nat then round1 v w else if (t <? 40)%nat then round2 v w else if (t <? 60)%nat then round3 v w else round4 v w.

Lemma sha1_expand_step n l x0 x1 x2 x3 x4 x5 x6 x7 x8 x9 x10 x11 x12 x13 x14 x15 :
  fips_expand sha1_word (S n) (l ++ [x0; x1; x2; x3; x4; x5; x6; x7; x8; x9; x10; x11; x12; x13; x14; x15]) =
  fips_expand sha1_word n ((l ++ [x0]) ++ [x1; x2; x3; x4; x5; x6; x7; x8; x9; x10; x11; x12; x13; x14; x15; update x0 x2 x8 x13]).
Proof using.
  cbn [fips_expand]. f_equal. rewrite <- !app_assoc. cbn [app]. do 16 f_equal. unfold sha1_word.
  rewrite length_app. cbn [length]. rewrite !app_nth2 by lia.
  replace (length l + 16 - 3 - length l)%nat with 13%nat by lia. replace (length l + 16 - 8 - length l)%nat with 8%nat by lia.
  replace (length l + 16 - 14 - length l)%nat with 2%nat by lia. replace (length l + 16 - 16 - length l)%nat with 0%nat by lia. done.
Qed.

Lemma sha1_schedule_expand n l X : length X = 16%nat ->
  fips_expand sha1_word (16 + n) (l ++ X) = fips_expand sha1_word n ((l ++ X) ++ schedule16 update sha1_schedule_calls X).
Proof using.
  intros Hl. do 16 (destruct X as [|? X]; [done|]). destruct X; [|done]. clear Hl. cbn [Nat.add]. rewrite !sha1_expand_step, <- !app_assoc.
  unfold schedule16. generalize (fips_expand sha1_word n). intros f. generalize update. intros upd. apply (f_equal f). apply (f_equal (app l)).
  vm_compute. reflexivity.
Qed.

(** Sixteen rounds of the standard, and the words that follow. *)
Lemma sha1_sixteen n l X v : length X = 16%nat ->
  let X' := schedule16 update sha1_schedule_calls X in
  fips_expand sha1_word (16 + n) (l ++ X) = fips_expand sha1_word n ((l ++ X) ++ X') /\ length X' = 16%nat /\
  fips_rounds sha1_step (length l + 16) (l ++ X) v = rounds16 sha1_step (length l) X (fips_rounds sha1_step (length l) l v).
Proof using.
  intros Hl X'. split; [by apply sha1_schedule_expand|]. split; [unfold X'; by rewrite length_schedule16|by apply fips_rounds_app].
Qed.

Lemma sha1_rounds_ok X v : length X = 16%nat -> sha1_rounds X v = fips_rounds sha1_step 80 (fips_expand sha1_word 64 X) v.
Proof using.
  intros H0.
  destruct (sha1_sixteen 48 [] X v H0) as (E1 & H1 & R0). set (X1 := schedule16 update sha1_schedule_calls X) in *.
  destruct (sha1_sixteen 32 X X1 v H1) as (E2 & H2 & R1). set (X2 := schedule16 update sha1_schedule_calls X1) in *.
  destruct (sha1_sixteen 16 (X ++ X1) X2 v H2) as (E3 & H3 & R2). set (X3 := schedule16 update sha1_schedule_calls X2) in *.
  destruct (sha1_sixteen 0 ((X ++ X1) ++ X2) X3 v H3) as (E4 & H4 & R3). set (X4 := schedule16 update sha1_schedule_calls X3) in *.
  pose proof (fips_rounds_app sha1_step (((X ++ X1) ++ X2) ++ X3) X4 v H4) as R4.
  change (16 + 48)%nat with 64%nat in E1. change (16 + 32)%nat with 48%nat in E2. change (16 + 16)%nat with 32%nat in E3. change (16 + 0)%nat with 16%nat in E4.
  rewrite app_nil_l in E1. rewrite E1, E2, E3, E4. change (fips_expand sha1_word 0 ((((X ++ X1) ++ X2) ++ X3) ++ X4)) with ((((X ++ X1) ++ X2) ++ X3) ++ X4).
  rewrite !length_app, H0, H1, H2, H3 in *. cbn [Nat.add length app] in R0, R1, R2, R3, R4. rewrite R4, R3, R2, R1, R0.
  unfold sha1_rounds. fold X1. fold X2. fold X3. fold X4. clearbody X1 X2 X3 X4. reflexivity.
Qed.
End sha1_block.

(** The words added to the chaining variables. *)
Definition add5 (x y : words5) : words5 :=
  let '(x0, x1, x2, x3, x4) := x in
  let '(y0, y1, y2, y3, y4) := y in
  (u32 (x0 + y0), u32 (x1 + y1), u32 (x2 + y2), u32 (x3 + y3), u32 (x4 + y4)).

(** The body of [while (num--)]. *)
Definition sha1_block (h : words5) (input : list Z) : option words5 :=
  X ← load_be32 16 input;
  Some (add5 h (sha1_rounds sha1_msg_schedule_update sha1_round1 sha1_round2 sha1_round3 sha1_round4 X h)).

Definition sha1_block_data_order (ctx : SHA_CTX) (input : list Z) (num : nat) : option SHA_CTX :=
  h ← block_data_order sha1_block 64 num (md_h ctx) input;
  Some (ctx <| md_h := h |>).

Definition SHA1_Init : SHA_CTX := zero_md (1732584193, 4023233417, 2562383102, 271733878, 3285377520).
Definition SHA1_Update (c : SHA_CTX) (data : list Z) : option SHA_CTX := md_update sha1_block c data.
Definition SHA1_Transform (c : SHA_CTX) (data : list Z) : option SHA_CTX := sha1_block_data_order c data 1.

(** The digest and the context. *)
Definition SHA1_Final (c : SHA_CTX) : option (list Z * SHA_CTX) :=
  c ← md_final sha1_block be_length c;
  Some (concat (map crypto_store_htobe32 (list5 (md_h c))), c).

Definition SHA1 (d : list Z) : option (list Z) :=
  c ← SHA1_Update SHA1_Init d; '(md, _) ← SHA1_Final c; Some md.

(** ** FIPS 180-4 *)

Definition fips_compress1 (h : words5) (m : list Z) : words5 :=
  add5 h (fips_rounds (sha1_step sha1_round1 sha1_round2 sha1_round3 sha1_round4) 80
           (fips_expand (sha1_word sha1_msg_schedule_update) 64 (words_of be_val 4 16 m)) h).

Definition fips_sha1 (m : list Z) : list Z :=
  concat (map (be_bytes 4) (list5 (md_hash fips_compress1 64 (be_bytes 8 (8 * zlen m)) (md_h SHA1_Init) m))).

Lemma sha1_block_ok h m : zlen m = 64 -> Forall is_byte m -> sha1_block h m = Some (fips_compress1 h m).
Proof.
  intros Hm _. unfold sha1_block, fips_compress1. rewrite load_be32_ok by lia. cbn [mbind option_bind].
  by rewrite sha1_rounds_ok by apply length_words_of.
Qed.

Definition sha1_at (msg : list Z) (c : SHA_CTX) : Prop := md_at fips_compress1 (md_h SHA1_Init) msg c.

Lemma sha1_at_start : sha1_at [] SHA1_Init.
Proof. apply md_at_start. Qed.

Lemma SHA1_Update_ok msg c data : sha1_at msg c -> Forall is_byte data -> exists c', SHA1_Update c data = Some c' /\ sha1_at (msg ++ data) c'.
Proof. apply md_update_ok, sha1_block_ok. Qed.

Lemma SHA1_Final_ok msg c : sha1_at msg c -> exists c', SHA1_Final c = Some (fips_sha1 msg, c').
Proof.
  intros Hat. destruct (md_final_ok _ _ sha1_block_ok be_length _ _ _ Hat be_length_size) as (md & E & Eh).
  destruct Hat as (_ & HN & _ & Hv). rewrite (be_length_ok _ _ _ HN Hv) in Eh.
  unfold SHA1_Final. rewrite E. cbn [mbind option_bind]. eexists. do 2 f_equal. rewrite Eh. done.
Qed.

(** SHA-1 is the function of FIPS 180-4 however the message is cut into updates: the
    sixteen words that are replaced in place and the four kinds of rounds give the 80
    rounds of the standard, no access is out of bounds, and the digest is that of the
    whole message. *)
Theorem SHA1_streaming ms :
  Forall (Forall is_byte) ms ->
  exists c c', updates SHA1_Update SHA1_Init ms = Some c /\ SHA1_Final c = Some (fips_sha1 (concat ms), c').
Proof.
  intros Hms. destruct (updates_ok _ _ ms SHA1_Update_ok Hms [] _ sha1_at_start) as (c & E & Hat).
  destruct (SHA1_Final_ok _ c Hat) as (c' & E'). by exists c, c'.
Qed.

(** The digest of "abc", cut in three. *)
Lemma SHA1_streaming_witness :
  be_val (fips_sha1 [97; 98; 99]) = 968236873715988614170569073515315707566766479517 /\
  exists c c', updates SHA1_Update SHA1_Init [[97]; []; [98; 99]] = Some c /\ SHA1_Final c = Some (fips_sha1 [97; 98; 99], c').
Proof.
  split; [vm_compute; reflexivity|].
  apply (SHA1_streaming [[97]; []; [98; 99]]). by apply (bool_decide_unpack _).
Defined.
