(* ===== verification/Md5.v ===== *)
(** * MD5

    lib/libcrypto/md5/md5.c, every function, with the generic block function.  The buffer
    and the counters are those of MdHash.v.  The specification is RFC 1321: 64 operations
    on registers that change their roles, the word, the shift and the constant of each
    computed from its number.  The constants are the digits of sines, in fixed point. *)

From S2P Require Import Prelude CryptoInternal MdHash Sha256.
Open Scope Z_scope.

Definition MD5_DIGEST_LENGTH : Z := 16.

(** [A, B, C, D] *)
Definition words4 : Type := Z * Z * Z * Z.
Definition list4 (h : words4) : list Z := let '(A, B, C, D) := h in [A; B; C; D].
Definition MD5_CTX : Type := md_ctx words4.

Definition md5_F (x y z : Z) : Z := Z.lor (Z.land x y) (Z.land (u32 (Z.lnot x)) z).
Definition md5_G (x y z : Z) : Z := Z.lor (Z.land x z) (Z.land y (u32 (Z.lnot z))).
Definition md5_H (x y z : Z) : Z := Z.lxor (Z.lxor x y) z.
Definition md5_I (x y z : Z) : Z := Z.lxor y (Z.lor x (u32 (Z.lnot z))).

(** The new [*a]. *)
Definition md5_round1 (a b c d x t s : Z) : Z := u32 (b + crypto_rol_u32 (u32 (a + md5_F b c d + x + t)) s).
Definition md5_round2 (a b c d x t s : Z) : Z := u32 (b + crypto_rol_u32 (u32 (a + md5_G b c d + x + t)) s).
Definition md5_round3 (a b c d x t s : Z) : Z := u32 (b + crypto_rol_u32 (u32 (a + md5_H b c d + x + t)) s).
Definition md5_round4 (a b c d x t s : Z) : Z := u32 (b + crypto_rol_u32 (u32 (a + md5_I b c d + x + t)) s).

(** The first argument of a call; the others follow in a cycle. *)
Inductive md5_reg : Type := rA | rB | rC | rD.

(** [md5_roundN(&A, B, C, D, Xk, t, s)] *)
Definition md5_call (round : Z -> Z -> Z -> Z -> Z -> Z -> Z -> Z) (X : list Z) (v : words4) (call : md5_reg * nat * Z * Z) : words4 :=
  let '(A, B, C, D) := v in
  let '(r, k, t, s) := call in
  let x := nth k X 0 in
  match r with
  | rA => (round A B C D x t s, B, C, D)
  | rD => (A, B, C, round D A B C x t s)
  | rC => (A, B, round C D A B x t s, D)
  | rB => (A, round B C D A x t s, C, D)
  end.

Definition md5_calls1 : list (md5_reg * nat * Z * Z) :=
  [(rA, 0%nat, 3614090360, 7); (rD, 1%nat, 3905402710, 12); (rC, 2%nat, 606105819, 17); (rB, 3%nat, 3250441966, 22);
   (rA, 4%nat, 4118548399, 7); (rD, 5%nat, 1200080426, 12); (rC, 6%nat, 2821735955, 17); (rB, 7%nat, 4249261313, 22);
   (rA, 8%nat, 1770035416, 7); (rD, 9%nat, 2336552879, 12); (rC, 10%nat, 4294925233, 17); (rB, 11%nat, 2304563134, 22);
   (rA, 12%nat, 1804603682, 7); (rD, 13%nat, 4254626195, 12); (rC, 14%nat, 2792965006, 17); (rB, 15%nat, 1236535329, 22)].
Definition md5_calls2 : list (md5_reg * nat * Z * Z) :=
  [(rA, 1%nat, 4129170786, 5); (rD, 6%nat, 3225465664, 9); (rC, 11%nat, 643717713, 14); (rB, 0%nat, 3921069994, 20);
   (rA, 5%nat, 3593408605, 5); (rD, 10%nat, 38016083, 9); (rC, 15%nat, 3634488961, 14); (rB, 4%nat, 3889429448, 20);
   (rA, 9%nat, 568446438, 5); (rD, 14%nat, 3275163606, 9); (rC, 3%nat, 4107603335, 14); (rB, 8%nat, 1163531501, 20);
   (rA, 13%nat, 2850285829, 5); (rD, 2%nat, 4243563512, 9); (rC, 7%nat, 1735328473, 14); (rB, 12%nat, 2368359562, 20)].
Definition md5_calls3 : list (md5_reg * nat * Z * Z) :=
  [(rA, 5%nat, 4294588738, 4); (rD, 8%nat, 2272392833, 11); (rC, 11%nat, 1839030562, 16); (rB, 14%nat, 4259657740, 23);
   (rA, 1%nat, 2763975236, 4); (rD, 4%nat, 1272893353, 11); (rC, 7%nat, 4139469664, 16); (rB, 10%nat, 3200236656, 23);
   (rA, 13%nat, 681279174, 4); (rD, 0%nat, 3936430074, 11); (rC, 3%nat, 3572445317, 16); (rB, 6%nat, 76029189, 23);
   (rA, 9%nat, 3654602809, 4); (rD, 12%nat, 3873151461, 11); (rC, 15%nat, 530742520, 16); (rB, 2%nat, 3299628645, 23)].
Definition md5_calls4 : list (md5_reg * nat * Z * Z) :=
  [(rA, 0%nat, 4096336452, 6); (rD, 7%nat, 1126891415, 10); (rC, 14%nat, 2878612391, 15); (rB, 5%nat, 4237533241, 21);
   (rA, 12%nat, 1700485571, 6); (rD, 3%nat, 2399980690, 10); (rC, 10%nat, 4293915773, 15); (rB, 1%nat, 2240044497, 21);
   (rA, 8%nat, 1873313359, 6); (rD, 15%nat, 4264355552, 10); (rC, 6%nat, 2734768916, 15); (rB, 13%nat, 1309151649, 21);
   (rA, 4%nat, 4149444226, 6); (rD, 11%nat, 3174756917, 10); (rC, 2%nat, 718787259, 15); (rB, 9%nat, 3951481745, 21)].

Definition md5_calls (X : list Z) (v : words4) : words4 :=
  let v := fold_left (md5_call md5_round1 X) md5_calls1 v in
  let v := fold_left (md5_call md5_round2 X) md5_calls2 v in
  let v := fold_left (md5_call md5_round3 X) md5_calls3 v in
  fold_left (md5_call md5_round4 X) md5_calls4 v.

(** The words added to the chaining variables. *)
Definition add4 (x y : words4) : words4 :=
  let '(x0, x1, x2, x3) := x in
  let '(y0, y1, y2, y3) := y in
  (u32 (x0 + y0), u32 (x1 + y1), u32 (x2 + y2), u32 (x3 + y3)).

(** The body of [while (num-- > 0)]. *)
Definition md5_block (h : words4) (input : list Z) : option words4 :=
  X ← load_le32 16 input;
  Some (add4 h (md5_calls X h)).

Definition md5_block_data_order (c : MD5_CTX) (input : list Z) (num : nat) : option MD5_CTX :=
  h ← block_data_order md5_block 64 num (md_h c) input;
  Some (c <| md_h := h |>).

Definition MD5_Init : MD5_CTX := zero_md (1732584193, 4023233417, 2562383102, 271733878).
Definition MD5_Update (c : MD5_CTX) (data : list Z) : option MD5_CTX := md_update md5_block c data.
Definition MD5_Transform (c : MD5_CTX) (data : list Z) : option MD5_CTX := md5_block_data_order c data 1.

(** [htole32(c->Nl)], [htole32(c->Nh)] *)
Definition le_length (Nh Nl : Z) : list Z := le_bytes 4 Nl ++ le_bytes 4 Nh.

(** The digest and the context. *)
Definition MD5_Final (c : MD5_CTX) : option (list Z * MD5_CTX) :=
  c ← md_final md5_block le_length c;
  Some (concat (map crypto_store_htole32 (list4 (md_h c))), c).

Definition MD5 (d : list Z) : option (list Z) :=
  c ← MD5_Update MD5_Init d; '(md, _) ← MD5_Final c; Some md.

(** ** RFC 1321 *)

(** Sine and cosine of [i] with 96 binary digits, by the power series at 1 and the addition
    formulas: 40 terms leave less than the last digit, and 64 steps lose less than ten. *)
Definition one96 : Z := 2 ^ 96.
Fixpoint power_series (n : nat) (k term : Z) : Z :=
  match n with
  | O => 0
  | S n => term - power_series n (k + 2) (term / ((k + 1) * (k + 2)))
  end.
Definition sin_1 : Z := power_series 40 1 one96.
Definition cos_1 : Z := power_series 40 0 one96.
(** The digits after the point of |sin(i)|, |sin(i + 1)|, ... *)
Fixpoint sines (n : nat) (s1 c1 s c : Z) : list Z :=
  match n with
  | O => []
  | S n => Z.shiftr (Z.abs s) 64 :: sines n s1 c1 (Z.shiftr (s * c1 + c * s1) 96) (Z.shiftr (c * c1 - s * s1) 96)
  end.

(** "the integer part of 4294967296 times abs(sin(i))", for [i] from 1 to 64 *)
Definition T : list Z := let s1 := sin_1 in let c1 := cos_1 in sines 64 s1 c1 s1 c1.

(** Operation [i], from 0: the function, the word, the constant and the shift. *)
Definition rfc1321_op (T : list Z) (i : nat) : nat * nat * Z * Z :=
  let r := (i / 16)%nat in
  let k := nth r [i; 5 * i + 1; 3 * i + 5; 7 * i]%nat 0%nat in
  let s := nth (i mod 4) (nth r [[7; 12; 17; 22]; [5; 9; 14; 20]; [4; 11; 16; 23]; [6; 10; 15; 21]] []) 0 in
  (r, (k mod 16)%nat, nth i T 0, s).
Definition rfc1321_ops : list (nat * nat * Z * Z) := let t := T in map (rfc1321_op t) (seq 0 64).

(** [a = b + ((a + F(b, c, d) + X[k] + T[i]) <<< s)], after which the registers move on:
    [abcd] is followed by [dabc]. *)
Definition rfc1321_step (X : list Z) (v : words4) (op : nat * nat * Z * Z) : words4 :=
  let '(a, b, c, d) := v in
  let '(r, k, t, s) := op in
  let F := nth r [md5_F; md5_G; md5_H; md5_I] md5_F in
  (d, (b + crypto_rol_u32 ((a + F b c d + nth k X 0 + t) mod 2 ^ 32) s) mod 2 ^ 32, b, c).

Definition rfc1321_compress (h : words4) (m : list Z) : words4 :=
  add4 h (fold_left (rfc1321_step (words_of le_val 4 16 m)) rfc1321_ops h).

Definition rfc1321 (m : list Z) : list Z :=
  concat (map (le_bytes 4) (list4 (md_hash rfc1321_compress 64 (le_bytes 8 (8 * zlen m)) (md_h MD5_Init) m))).

(** *** The calls of the code are the operations *)

(** The first arguments run through [A, D, C, B]. *)
Fixpoint in_cycles (calls : list (md5_reg * nat * Z * Z)) : bool :=
  match calls with
  | [] => true
  | (rA, _, _, _) :: (rD, _, _, _) :: (rC, _, _, _) :: (rB, _, _, _) :: calls => in_cycles calls
  | _ => false
  end.

Definition as_op (r : nat) (call : md5_reg * nat * Z * Z) : nat * nat * Z * Z := let '(_, k, t, s) := call in (r, k, t, s).

Lemma calls_are_steps r round X n : forall calls v, length calls = (4 * n)%nat -> in_cycles calls = true ->
  (forall a b c d x t s, round a b c d x t s =
     (b + crypto_rol_u32 ((a + nth r [md5_F; md5_G; md5_H; md5_I] md5_F b c d + x + t) mod 2 ^ 32) s) mod 2 ^ 32) ->
  fold_left (md5_call round X) calls v = fold_left (rfc1321_step X) (map (as_op r) calls) v.
Proof.
  induction n as [|n IH]; intros calls v Hl Hc Hround; [by destruct calls|].
  destruct calls as [|[[[[] k0] t0] s0] [|[[[[] k1] t1] s1] [|[[[[] k2] t2] s2] [|[[[[] k3] t3] s3] calls]]]]; try done.
  cbn [in_cycles] in Hc. cbn [length] in Hl. destruct v as [[[A B] C] D].
  cbn [fold_left map as_op]. rewrite <- IH by (done || lia). f_equal. unfold md5_call, rfc1321_step. by rewrite !Hround.
Qed.

Lemma operations : map (as_op 0) md5_calls1 ++ map (as_op 1) md5_calls2 ++ map (as_op 2) md5_calls3 ++ map (as_op 3) md5_calls4 =
  rfc1321_ops.
Proof. vm_compute. reflexivity. Qed.

Lemma md5_calls_ok X v : md5_calls X v = fold_left (rfc1321_step X) rfc1321_ops v.
Proof.
  rewrite <- operations, !fold_left_app. unfold md5_calls.
  rewrite (calls_are_steps 0 md5_round1 X 4), (calls_are_steps 1 md5_round2 X 4), (calls_are_steps 2 md5_round3 X 4), (calls_are_steps 3 md5_round4 X 4) by done.
  done.
Qed.

Lemma md5_block_ok h m : zlen m = 64 -> Forall is_byte m -> md5_block h m = Some (rfc1321_compress h m).
Proof.
  intros Hm _. unfold md5_block, rfc1321_compress. rewrite load_le32_ok by lia. cbn [mbind option_bind]. by rewrite md5_calls_ok.
Qed.

(** *** Streaming *)

Lemma le_length_ok Nh Nl v : 0 <= Nl < 2 ^ 32 -> 0 <= Nh < 2 ^ 32 -> Nh * 2 ^ 32 + Nl = v mod 2 ^ 64 -> le_length Nh Nl = le_bytes 8 v.
Proof.
  intros Hl Hh Hv. assert (Hb : Forall is_byte (le_length Nh Nl)) by (apply Forall_app; split; apply is_byte_le_bytes).
  assert (Hlen : length (le_length Nh Nl) = 8%nat) by (unfold le_length; by rewrite length_app, !length_le_bytes).
  rewrite <- (le_bytes_val (le_length Nh Nl)), Hlen by done. rewrite <- (le_bytes_val (le_bytes 8 v)) by apply is_byte_le_bytes.
  rewrite length_le_bytes, le_val_bytes. unfold le_length. rewrite le_val_app, !le_val_bytes, zlen_le_bytes.
  change (256 ^ Z.of_nat 4) with (2 ^ 32). change (256 ^ Z.of_nat 8) with (2 ^ 64). rewrite <- Hv, !Z.mod_small by lia. f_equal. lia.
Qed.

Lemma le_length_size a b : zlen (le_length a b) = 8 /\ Forall is_byte (le_length a b).
Proof. unfold le_length. rewrite zlen_app, !zlen_le_bytes, Forall_app. split; [done|]. split; apply is_byte_le_bytes. Qed.

Definition md5_at (msg : list Z) (c : MD5_CTX) : Prop := md_at rfc1321_compress (md_h MD5_Init) msg c.

Lemma md5_at_start : md5_at [] MD5_Init.
Proof. apply md_at_start. Qed.

Lemma MD5_Update_ok msg c data : md5_at msg c -> Forall is_byte data -> exists c', MD5_Update c data = Some c' /\ md5_at (msg ++ data) c'.
Proof. apply md_update_ok, md5_block_ok. Qed.

Lemma MD5_Final_ok msg c : md5_at msg c -> exists c', MD5_Final c = Some (rfc1321 msg, c').
Proof.
  intros Hat. destruct (md_final_ok _ _ md5_block_ok le_length _ _ _ Hat le_length_size) as (md & E & Eh).
  destruct Hat as (_ & HN & HM & Hv). rewrite (le_length_ok _ _ _ HN HM Hv) in Eh.
  unfold MD5_Final. rewrite E. cbn [mbind option_bind]. eexists. do 2 f_equal. by rewrite Eh.
Qed.

(** MD5 is the function of RFC 1321 however the message is cut into updates: the 64
    calls with their constants are its 64 operations, no access is out of bounds, and the
    digest is that of the whole message. *)
Theorem MD5_streaming ms :
  Forall (Forall is_byte) ms ->
  exists c c', updates MD5_Update MD5_Init ms = Some c /\ MD5_Final c = Some (rfc1321 (concat ms), c').
Proof.
  intros Hms. destruct (updates_ok _ _ ms MD5_Update_ok Hms [] _ md5_at_start) as (c & E & Hat).
  destruct (MD5_Final_ok _ c Hat) as (c' & E'). by exists c, c'.
Qed.

(** The digest of "abc", cut in three. *)
Lemma MD5_streaming_witness :
  be_val (rfc1321 [97; 98; 99]) = 191415658344158766168031473277922803570 /\
  exists c c', updates MD5_Update MD5_Init [[97]; []; [98; 99]] = Some c /\ MD5_Final c = Some (rfc1321 [97; 98; 99], c').
Proof.
  split; [vm_compute; reflexivity|].
  apply (MD5_streaming [[97]; []; [98; 99]]). by apply (bool_decide_unpack _).
Defined.
