(* ===== verification/EvpDigest.v ===== *)
(** * The EVP_MD interface

    lib/libcrypto/evp/evp_digest.c, and the method tables of SHA-224 and SHA-256 of
    evp/m_sha1.c.  A method table is a record of operations on the context
    [ctx->md_data] points to, of type [D]; tables are told apart by their [type].
    [Fail] is the return value 0.  The methods copy, cleanup and md_ctrl are NULL in
    every table of the library and are left out, and [ctx->pctx] is NULL: contexts
    of the EVP_DigestSign functions are not modelled.

    The class [DigestLaws] states what a table promises its users: HMAC and HKDF are
    proved against it. *)

From S2P Require Import Prelude MdHash Sha256.
Open Scope Z_scope.

Definition EVP_MAX_MD_SIZE : Z := 64.
Definition EVP_MD_CTX_FLAG_ONESHOT : Z := 0x0001.
Definition EVP_MD_CTX_FLAG_CLEANED : Z := 0x0002.
Definition EVP_MD_CTX_FLAG_REUSE : Z := 0x0004.
Definition EVP_MD_CTX_FLAG_NO_INIT : Z := 0x0100.
Definition EVP_MD_CTX_FLAG_KEEP_PKEY_CTX : Z := 0x0400.

(** [dg_zero] is the context [calloc] makes. *)
Record EVP_MD {D : Type} : Type := mkEVP_MD {
  dg_type : Z;
  dg_md_size : Z;
  dg_block_size : Z;
  dg_ctx_size : Z;
  dg_zero : D;
  dg_init : M D unit;
  dg_update : list Z -> M D unit;
  dg_final : M D (list Z);
}.
Arguments EVP_MD D : clear implicits.
Arguments mkEVP_MD {D}.

Record EVP_MD_CTX {D : Type} : Type := mkMdCtx {
  mc_digest : option (EVP_MD D);
  mc_flags : Z;
  mc_md_data : option D;
  mc_update : option (list Z -> M D unit);
}.
Arguments EVP_MD_CTX D : clear implicits.
Arguments mkMdCtx {D}.
#[global] Instance md_ctx_eta {D} : Eta (EVP_MD_CTX D) := fun c => mkMdCtx (mc_digest c) (mc_flags c) (mc_md_data c) (mc_update c).

Section evp_digest.
Context {D : Type} (malloc_ok : Z -> bool).
Abbreviation ctx_upd f := (modify (S := EVP_MD_CTX D) f).

Definition same_digest (a : option (EVP_MD D)) (b : option (EVP_MD D)) : bool :=
  match a, b with
  | Some a, Some b => dg_type a =? dg_type b
  | None, None => true
  | _, _ => false
  end.

Definition EVP_MD_CTX_test_flags (c : EVP_MD_CTX D) (flags : Z) : Z := Z.land (mc_flags c) flags.
Definition EVP_MD_CTX_set_flags (c : EVP_MD_CTX D) (flags : Z) : EVP_MD_CTX D := c <| mc_flags := Z.lor (mc_flags c) flags |>.
Definition EVP_MD_CTX_clear_flags (c : EVP_MD_CTX D) (flags : Z) : EVP_MD_CTX D := c <| mc_flags := Z.ldiff (mc_flags c) flags |>.

Definition EVP_MD_CTX_legacy_clear : M (EVP_MD_CTX D) unit := ctx_upd (fun _ => mkMdCtx None 0 None None).

(** A method on [ctx->md_data]. *)
Definition on_md_data {A} (m : M D A) : M (EVP_MD_CTX D) A := fun c =>
  match mc_md_data c with
  | None => UB
  | Some d =>
      match m d with
      | Ret a d => Ret a (c <| mc_md_data := Some d |>)
      | Fail d => Fail (c <| mc_md_data := Some d |>)
      | UB => UB
      end
  end.

Definition EVP_DigestInit_ex (type : EVP_MD D) : M (EVP_MD_CTX D) unit :=
  ctx_upd (fun c => EVP_MD_CTX_clear_flags c EVP_MD_CTX_FLAG_CLEANED);;
  c ← gets id;
  (if negb (same_digest (mc_digest c) (Some type)) then
     (match mc_digest c, mc_md_data c with
      | Some d, Some _ =>
          if negb (dg_ctx_size d =? 0) && (EVP_MD_CTX_test_flags c EVP_MD_CTX_FLAG_REUSE =? 0)
          then ctx_upd (fun c => c <| mc_md_data := None |>) else mret tt
      | _, _ => mret tt
      end);;
     ctx_upd (fun c => c <| mc_digest := Some type |>);;
     c ← gets id;
     if (Z.land (mc_flags c) EVP_MD_CTX_FLAG_NO_INIT =? 0) && negb (dg_ctx_size type =? 0) then
       ctx_upd (fun c => c <| mc_update := Some (dg_update type) |>);;
       if malloc_ok (dg_ctx_size type) then ctx_upd (fun c => c <| mc_md_data := Some (dg_zero type) |>)
       else ctx_upd (fun c => c <| mc_md_data := None |>);; fail
     else mret tt
   else mret tt);;
  c ← gets id;
  if negb (Z.land (mc_flags c) EVP_MD_CTX_FLAG_NO_INIT =? 0) then mret tt
  else
    digest ← valid (mc_digest c);
    on_md_data (dg_init digest).

Definition EVP_DigestInit (type : EVP_MD D) : M (EVP_MD_CTX D) unit :=
  EVP_MD_CTX_legacy_clear;;
  EVP_DigestInit_ex type.

Definition EVP_DigestUpdate (data : list Z) : M (EVP_MD_CTX D) unit :=
  c ← gets id;
  update ← valid (mc_update c);
  on_md_data (update data).

(** The digest; its length is [*size]. *)
Definition EVP_DigestFinal_ex : M (EVP_MD_CTX D) (list Z) :=
  c ← gets id;
  digest ← valid (mc_digest c);
  check (negb (EVP_MAX_MD_SIZE <? u64 (dg_md_size digest)));;
  ret ← try (on_md_data (dg_final digest));
  ctx_upd (fun c => c <| mc_md_data := Some (dg_zero digest) |>);;
  match ret with
  | Some md => mret md
  | None => fail
  end.

(** Everything is freed and cleared. *)
Definition EVP_MD_CTX_cleanup : M (EVP_MD_CTX D) unit :=
  c ← gets id;
  (match mc_digest c, mc_md_data c with
   | Some d, Some _ =>
       if negb (dg_ctx_size d =? 0) && (EVP_MD_CTX_test_flags c EVP_MD_CTX_FLAG_REUSE =? 0)
       then ctx_upd (fun c => c <| mc_md_data := None |>) else mret tt
   | _, _ => mret tt
   end);;
  ctx_upd (fun _ => mkMdCtx None 0 None None).

Definition EVP_MD_CTX_init : M (EVP_MD_CTX D) unit := EVP_MD_CTX_cleanup.
Definition EVP_MD_CTX_reset : M (EVP_MD_CTX D) unit := EVP_MD_CTX_cleanup.

Definition EVP_DigestFinal : M (EVP_MD_CTX D) (list Z) :=
  ret ← try EVP_DigestFinal_ex;
  EVP_MD_CTX_cleanup;;
  match ret with
  | Some md => mret md
  | None => fail
  end.

Definition EVP_Digest (data : list Z) (type : EVP_MD D) : M (EVP_MD_CTX D) (list Z) :=
  EVP_MD_CTX_legacy_clear;;
  ctx_upd (fun c => EVP_MD_CTX_set_flags c EVP_MD_CTX_FLAG_ONESHOT);;
  ret ← try (EVP_DigestInit_ex type;; EVP_DigestUpdate data;; EVP_DigestFinal_ex);
  EVP_MD_CTX_cleanup;;
  match ret with
  | Some md => mret md
  | None => fail
  end.

(** The state is [out]; [from] is [in]. *)
Definition EVP_MD_CTX_copy_ex (from : EVP_MD_CTX D) : M (EVP_MD_CTX D) unit :=
  check (negb (same_digest (mc_digest from) None));;
  out ← gets id;
  tmp_buf ← (if same_digest (mc_digest out) (mc_digest from) then
               ctx_upd (fun c => EVP_MD_CTX_set_flags c EVP_MD_CTX_FLAG_REUSE);;
               mret (mc_md_data out)
             else mret None);
  EVP_MD_CTX_cleanup;;
  ctx_upd (fun _ => EVP_MD_CTX_clear_flags (from <| mc_md_data := None |>) EVP_MD_CTX_FLAG_KEEP_PKEY_CTX);;
  (match mc_md_data from, mc_digest from with
   | Some d, Some digest =>
       if negb (dg_ctx_size digest =? 0) then
         (match tmp_buf with
          | Some _ => mret tt
          | None => check (malloc_ok (dg_ctx_size digest))
          end);;
         ctx_upd (fun c => c <| mc_md_data := Some d |>)
       else mret tt
   | _, _ => mret tt
   end);;
  ctx_upd (fun c => c <| mc_update := mc_update from |>).

Definition EVP_MD_CTX_copy (from : EVP_MD_CTX D) : M (EVP_MD_CTX D) unit :=
  EVP_MD_CTX_legacy_clear;;
  EVP_MD_CTX_copy_ex from.

Definition EVP_MD_CTX_md (c : option (EVP_MD_CTX D)) : option (EVP_MD D) := c ← c; mc_digest c.
Definition EVP_MD_type (md : EVP_MD D) : Z := dg_type md.
(** -1 without a table. *)
Definition EVP_MD_size (md : option (EVP_MD D)) : Z := match md with Some md => dg_md_size md | None => -1 end.
Definition EVP_MD_block_size (md : EVP_MD D) : Z := dg_block_size md.
End evp_digest.

(** ** SHA-224 and SHA-256 *)

Definition NID_sha224 : Z := 675.
Definition NID_sha256 : Z := 672.

Definition zero_SHA256_CTX : SHA256_CTX := mkSHA256 (zero_md (0, 0, 0, 0, 0, 0, 0, 0)) 0.

Definition sha224_init : M SHA256_CTX unit := modify (fun _ => SHA224_Init).
Definition sha256_init : M SHA256_CTX unit := modify (fun _ => SHA256_Init).
(** A hash function on the state. *)
Definition sha256_update (data : list Z) : M SHA256_CTX unit :=
  c ← gets id; c ← valid (SHA256_Update c data); modify (fun _ => c).
Definition sha256_final : M SHA256_CTX (list Z) :=
  c ← gets id; '(md, c) ← valid (SHA256_Final c);
  modify (fun _ => c);;
  match md with
  | Some md => mret md
  | None => fail
  end.
Definition sha224_update (data : list Z) : M SHA256_CTX unit := sha256_update data.
Definition sha224_final : M SHA256_CTX (list Z) := sha256_final.

Definition sizeof_SHA256_CTX : Z := 112.
Definition sha224_md : EVP_MD SHA256_CTX :=
  mkEVP_MD NID_sha224 SHA224_DIGEST_LENGTH 64 (8 + sizeof_SHA256_CTX) zero_SHA256_CTX sha224_init sha224_update sha224_final.
Definition sha256_md : EVP_MD SHA256_CTX :=
  mkEVP_MD NID_sha256 SHA256_DIGEST_LENGTH 64 (8 + sizeof_SHA256_CTX) zero_SHA256_CTX sha256_init sha256_update sha256_final.
Definition EVP_sha224 : EVP_MD SHA256_CTX := sha224_md.
Definition EVP_sha256 : EVP_MD SHA256_CTX := sha256_md.

(** ** What a method table promises *)

(** [digest_at msg d]: the context has taken the octets [msg]. *)
Class DigestLaws {D : Type} (md : EVP_MD D) (hash : list Z -> list Z) : Type := {
  digest_at : list Z -> D -> Prop;
  digest_init : forall d, exists d', dg_init md d = Ret tt d' /\ digest_at [] d';
  digest_update : forall msg d data, digest_at msg d -> Forall is_byte data ->
    exists d', dg_update md data d = Ret tt d' /\ digest_at (msg ++ data) d';
  digest_final : forall msg d, digest_at msg d -> exists d', dg_final md d = Ret (hash msg) d';
  digest_size : forall msg, zlen (hash msg) = dg_md_size md;
  digest_bytes : forall msg, Forall is_byte (hash msg);
  digest_sizes : 0 < dg_md_size md <= EVP_MAX_MD_SIZE /\ dg_md_size md <= dg_block_size md <= 144 /\ dg_ctx_size md <> 0;
}.

Lemma zlen_concat_words (size : nat) ws : zlen (concat (map (be_bytes size) ws)) = Z.of_nat size * Z.of_nat (length ws).
Proof. induction ws as [|w ws IH]; cbn [map concat length]; [by rewrite zlen_nil; lia|]. rewrite zlen_app, zlen_be_bytes, IH. lia. Qed.

Lemma bytes_concat_words (size : nat) ws : Forall is_byte (concat (map (be_bytes size) ws)).
Proof. induction ws as [|w ws IH]; cbn [map concat]; [constructor|]. apply Forall_app. split; [apply is_byte_be_bytes|done]. Qed.

Lemma sha2_32_ok init m : is_init init -> zlen (sha2_32 init m) = sc_md_len init /\ Forall is_byte (sha2_32 init m).
Proof.
  intros Hi. unfold sha2_32, fips_sha256. split; [|apply bytes_concat_words]. rewrite zlen_concat_words, length_take.
  destruct (md_hash _ _ _ _ _) as [[[[[[[? ?] ?] ?] ?] ?] ?] ?]. by destruct Hi as [-> | ->].
Qed.

Lemma sha256_update_eq init msg d data :
  sha256_at init msg d -> Forall is_byte data -> exists d', sha256_update data d = Ret tt d' /\ sha256_at init (msg ++ data) d'.
Proof.
  intros Hat Hd. destruct (SHA256_Update_ok init msg d data Hat Hd) as (d' & E & Hat'). exists d'. split; [|done].
  unfold sha256_update. mstep. unfold id. by rewrite E.
Qed.

Lemma sha256_final_eq init msg d : is_init init -> sha256_at init msg d -> exists d', sha256_final d = Ret (sha2_32 init msg) d'.
Proof.
  intros Hi Hat. destruct (SHA256_Final_ok init msg d Hi Hat) as (d' & E). exists d'. unfold sha256_final. mstep. unfold id. by rewrite E.
Qed.

#[global] Instance sha256_laws : DigestLaws sha256_md (sha2_32 SHA256_Init).
Proof.
  refine {| digest_at := sha256_at SHA256_Init |}.
  - intros d. exists SHA256_Init. split; [done|]. apply sha256_at_start. by left.
  - apply sha256_update_eq.
  - intros msg d. apply sha256_final_eq. by left.
  - intros m. apply sha2_32_ok. by left.
  - intros m. apply sha2_32_ok. by left.
  - by vm_compute.
Defined.

#[global] Instance sha224_laws : DigestLaws sha224_md (sha2_32 SHA224_Init).
Proof.
  refine {| digest_at := sha256_at SHA224_Init |}.
  - intros d. exists SHA224_Init. split; [done|]. apply sha256_at_start. by right.
  - apply sha256_update_eq.
  - intros msg d. apply sha256_final_eq. by right.
  - intros m. apply sha2_32_ok. by right.
  - intros m. apply sha2_32_ok. by right.
  - by vm_compute.
Defined.

Section digest_ok.
Context {D : Type} (malloc_ok : Z -> bool) (md : EVP_MD D) (hash : list Z -> list Z) `{HL : !DigestLaws md hash}.

(** A context that has taken [msg]. *)
Definition ctx_at (msg : list Z) (c : EVP_MD_CTX D) : Prop :=
  mc_digest c = Some md /\ mc_update c = Some (dg_update md) /\ Z.land (mc_flags c) EVP_MD_CTX_FLAG_NO_INIT = 0 /\
  exists d, mc_md_data c = Some d /\ digest_at msg d.

(** A context that may be initialised: unused, or used with this table, or with one of
    another type. *)
Definition ctx_sane (c : EVP_MD_CTX D) : Prop :=
  Z.land (mc_flags c) EVP_MD_CTX_FLAG_NO_INIT = 0 /\
  (same_digest (mc_digest c) (Some md) = true ->
    mc_digest c = Some md /\ mc_update c = Some (dg_update md) /\ exists d, mc_md_data c = Some d).

Lemma ctx_at_sane msg c : ctx_at msg c -> ctx_sane c.
Proof using. intros (E1 & E2 & E3 & d & E4 & _). split; [done|]. eauto. Qed.

Lemma zero_sane : ctx_sane (mkMdCtx None 0 None None).
Proof using. by split. Qed.

Lemma clear_cleaned f : Z.land f EVP_MD_CTX_FLAG_NO_INIT = 0 ->
  Z.land (Z.ldiff f EVP_MD_CTX_FLAG_CLEANED) EVP_MD_CTX_FLAG_NO_INIT = 0.
Proof using.
  intros Hf. rewrite Z.ldiff_land, <- Z.land_assoc, (Z.land_comm (Z.lnot _)), Z.land_assoc, Hf. apply Z.land_0_l.
Qed.

Lemma wp_dg_init c (Q : unit -> EVP_MD_CTX D -> Prop) E :
  mc_digest c = Some md -> mc_update c = Some (dg_update md) -> Z.land (mc_flags c) EVP_MD_CTX_FLAG_NO_INIT = 0 ->
  (exists d, mc_md_data c = Some d) -> (forall c', ctx_at [] c' -> Q tt c') ->
  wp (c ← gets id;
      if negb (Z.land (mc_flags c) EVP_MD_CTX_FLAG_NO_INIT =? 0) then mret tt
      else digest ← valid (mc_digest c); on_md_data (dg_init digest)) c Q E.
Proof using.
  intros E1 E2 E3 (d & E4) HQ. apply wp_bind, wp_gets. cbn [id]. rewrite E3. cbn [Z.eqb negb]. apply wp_bind.
  eapply wp_valid; [exact E1|]. destruct (digest_init d) as (d' & Ed & Hat). unfold wp, on_md_data. rewrite E4, Ed.
  apply HQ. split; [done|]. split; [done|]. split; [done|]. by exists d'.
Qed.

Lemma wp_DigestInit c (Q : unit -> EVP_MD_CTX D -> Prop) (E : EVP_MD_CTX D -> Prop) :
  ctx_sane c -> (forall c', ctx_at [] c' -> Q tt c') -> (malloc_ok (dg_ctx_size md) = false -> forall c', E c') ->
  wp (EVP_DigestInit_ex malloc_ok md) c Q E.
Proof using.
  intros [Hf Hs] HQ HE. unfold EVP_DigestInit_ex. apply wp_bind, wp_modify. apply wp_bind, wp_gets. cbn [id].
  pose proof (clear_cleaned _ Hf) as Hf1. set (c1 := EVP_MD_CTX_clear_flags c EVP_MD_CTX_FLAG_CLEANED).
  change (mc_digest c) with (mc_digest c1) in Hs. change (mc_update c) with (mc_update c1) in Hs. change (mc_md_data c) with (mc_md_data c1) in Hs.
  change (Z.ldiff (mc_flags c) EVP_MD_CTX_FLAG_CLEANED) with (mc_flags c1) in Hf1. clearbody c1. clear Hf.
  apply wp_bind. destruct (same_digest (mc_digest c1) (Some md)) eqn:Es; cbn [negb].
  { destruct (Hs eq_refl) as (E1 & E2 & E3). apply wp_ret. by apply wp_dg_init. }
  clear Hs. apply wp_bind.
  apply wp_conseq with (Q' := fun _ c' => mc_flags c' = mc_flags c1) (E' := fun _ => False); [|intros _ c2 Hf2|done].
  { destruct (mc_digest c1), (mc_md_data c1); try by apply wp_ret. destruct (_ && _); [by apply wp_modify|by apply wp_ret]. }
  apply wp_bind, wp_modify. apply wp_bind, wp_gets. cbn [id set_field mc_flags]. rewrite Hf2, Hf1.
  rewrite (proj2 (Z.eqb_neq (dg_ctx_size md) 0)) by apply (digest_sizes (hash := hash)). cbn [Z.eqb negb andb].
  apply wp_bind, wp_modify. destruct (malloc_ok (dg_ctx_size md)) eqn:Em.
  - apply wp_modify. apply wp_dg_init; [done|done|exact Hf1|by eexists|done].
  - apply wp_bind, wp_modify, wp_fail. by apply HE.
Qed.

Lemma wp_DigestUpdate msg c data (Q : unit -> EVP_MD_CTX D -> Prop) E :
  ctx_at msg c -> Forall is_byte data -> (forall c', ctx_at (msg ++ data) c' -> Q tt c') -> wp (EVP_DigestUpdate data) c Q E.
Proof using.
  intros (E1 & E2 & E3 & d & E4 & Hat) Hd HQ. unfold EVP_DigestUpdate. apply wp_bind, wp_gets. cbn [id]. apply wp_bind.
  eapply wp_valid; [exact E2|]. destruct (digest_update _ _ _ Hat Hd) as (d' & Ed & Hat'). unfold wp, on_md_data. rewrite E4, Ed.
  apply HQ. split; [done|]. split; [done|]. split; [done|]. by exists d'.
Qed.

Lemma wp_DigestFinal msg c (Q : list Z -> EVP_MD_CTX D -> Prop) E :
  ctx_at msg c -> (forall c', ctx_sane c' -> Q (hash msg) c') -> wp EVP_DigestFinal_ex c Q E.
Proof using.
  intros (E1 & E2 & E3 & d & E4 & Hat) HQ. unfold EVP_DigestFinal_ex. apply wp_bind, wp_gets. cbn [id]. apply wp_bind.
  eapply wp_valid; [exact E1|]. destruct digest_sizes as (Hs & _). unfold EVP_MAX_MD_SIZE in *.
  apply wp_bind, wp_check; [intros _|rewrite u64_small by lia; intros H%negb_false_iff%Z.ltb_lt; lia].
  apply wp_bind, wp_try. destruct (digest_final _ _ Hat) as (d' & Ed). unfold wp at 1, on_md_data. rewrite E4, Ed.
  apply wp_bind, wp_modify, wp_ret, HQ. split; [done|]. intros _. split; [done|]. split; [done|]. by eexists.
Qed.

Lemma wp_copy_ex from msg c (Q : unit -> EVP_MD_CTX D -> Prop) (E : EVP_MD_CTX D -> Prop) :
  ctx_at msg from -> (forall c', ctx_at msg c' -> Q tt c') -> (malloc_ok (dg_ctx_size md) = false -> forall c', E c') ->
  wp (EVP_MD_CTX_copy_ex malloc_ok from) c Q E.
Proof using.
  intros (E1 & E2 & E3 & d & E4 & Hat) HQ HE. unfold EVP_MD_CTX_copy_ex. rewrite E1, E4.
  apply wp_bind, wp_check; [intros _|done]. apply wp_bind, wp_gets. cbn [id]. apply wp_bind.
  apply wp_conseq with (Q' := fun _ _ => True) (E' := fun _ => False); [|intros tmp c1 _|done].
  { destruct (same_digest _ _); [by apply wp_bind, wp_modify, wp_ret|by apply wp_ret]. }
  apply wp_bind. apply wp_conseq with (Q' := fun _ _ => True) (E' := fun _ => False); [|intros _ c2 _|done].
  { unfold EVP_MD_CTX_cleanup. apply wp_bind, wp_gets. cbn [id]. apply wp_bind.
    destruct (mc_digest c1), (mc_md_data c1); try by apply wp_ret, wp_modify. destruct (_ && _); [by apply wp_modify, wp_modify|by apply wp_ret, wp_modify]. }
  apply wp_bind, wp_modify. rewrite (proj2 (Z.eqb_neq (dg_ctx_size md) 0)) by apply (digest_sizes (hash := hash)). cbn [negb].
  assert (Hend : forall c, mc_digest c = Some md -> Z.land (mc_flags c) EVP_MD_CTX_FLAG_NO_INIT = 0 -> ctx_at msg (c <| mc_md_data := Some d |> <| mc_update := mc_update from |>)).
  { intros c3 Ec Ef. split; [done|]. split; [done|]. split; [done|]. by exists d. }
  assert (Hf : Z.land (mc_flags (EVP_MD_CTX_clear_flags (from <| mc_md_data := None |>) EVP_MD_CTX_FLAG_KEEP_PKEY_CTX)) EVP_MD_CTX_FLAG_NO_INIT = 0).
  { cbn [EVP_MD_CTX_clear_flags set_field mc_flags].
    rewrite Z.ldiff_land, <- Z.land_assoc, (Z.land_comm (Z.lnot _)), Z.land_assoc, E3. apply Z.land_0_l. }
  apply wp_bind, wp_bind. destruct tmp.
  - apply wp_ret, wp_modify, wp_modify, HQ. by apply Hend.
  - apply wp_check; intros Hm; [|by apply HE]. apply wp_modify, wp_modify, HQ. by apply Hend.
Qed.
End digest_ok.
