(* ===== verification/EvpTables.v ===== *)
(** * The method tables of the hash functions

    lib/libcrypto/evp/m_md5.c and the tables of SHA-1 and of the SHA-512 family of
    evp/m_sha1.c (those of SHA-224 and SHA-256 are in EvpDigest.v), each with its
    instance of [DigestLaws]: what is proved against that class, as HMAC, HKDF and the
    key schedule of TLS 1.3 are, holds for them. *)

From S2P Require Import Prelude MdHash ShaLoop Sha256 Sha512 Sha1 Md5 EvpDigest.
Open Scope Z_scope.

(** A hash function on [ctx->md_data]. *)
Definition method_update {C} (update : C -> list Z -> option C) (data : list Z) : M C unit :=
  c ← gets id; c ← valid (update c data); modify (fun _ => c).
Definition method_final {C} (final : C -> option (list Z * C)) : M C (list Z) :=
  c ← gets id; '(md, c) ← valid (final c); modify (fun _ => c);; mret md.
(** One whose return value may be 0. *)
Definition method_final_checked {C} (final : C -> option (option (list Z) * C)) : M C (list Z) :=
  c ← gets id; '(md, c) ← valid (final c);
  modify (fun _ => c);;
  match md with
  | Some md => mret md
  | None => fail
  end.

(** ** m_md5.c *)

Definition NID_md5 : Z := 4.
Definition zero_MD5_CTX : MD5_CTX := zero_md (0, 0, 0, 0).
Definition sizeof_MD5_CTX : Z := 92.

Definition md5_init : M MD5_CTX unit := modify (fun _ => MD5_Init).
Definition md5_update (data : list Z) : M MD5_CTX unit := method_update MD5_Update data.
Definition md5_final : M MD5_CTX (list Z) := method_final MD5_Final.
Definition md5_md : EVP_MD MD5_CTX :=
  mkEVP_MD NID_md5 MD5_DIGEST_LENGTH 64 (8 + sizeof_MD5_CTX) zero_MD5_CTX md5_init md5_update md5_final.
Definition EVP_md5 : EVP_MD MD5_CTX := md5_md.

(** ** m_sha1.c *)

Definition NID_sha1 : Z := 64.
Definition zero_SHA_CTX : SHA_CTX := zero_md (0, 0, 0, 0, 0).
Definition sizeof_SHA_CTX : Z := 96.

Definition sha1_init : M SHA_CTX unit := modify (fun _ => SHA1_Init).
Definition sha1_update (data : list Z) : M SHA_CTX unit := method_update SHA1_Update data.
Definition sha1_final : M SHA_CTX (list Z) := method_final SHA1_Final.
Definition sha1_md : EVP_MD SHA_CTX :=
  mkEVP_MD NID_sha1 SHA_DIGEST_LENGTH 64 (8 + sizeof_SHA_CTX) zero_SHA_CTX sha1_init sha1_update sha1_final.
Definition EVP_sha1 : EVP_MD SHA_CTX := sha1_md.

Definition NID_sha384 : Z := 673.
Definition NID_sha512 : Z := 674.
Definition NID_sha512_224 : Z := 1029.
Definition NID_sha512_256 : Z := 1030.
Definition zero_SHA512_CTX : SHA512_CTX := mkSHA512 (zero_md128 (0, 0, 0, 0, 0, 0, 0, 0)) 0.
Definition sizeof_SHA512_CTX : Z := 216.

Definition sha384_init : M SHA512_CTX unit := modify (fun _ => SHA384_Init).
Definition sha384_update (data : list Z) : M SHA512_CTX unit := method_update SHA512_Update data.
Definition sha384_final : M SHA512_CTX (list Z) := method_final_checked SHA384_Final.
Definition sha384_md : EVP_MD SHA512_CTX :=
  mkEVP_MD NID_sha384 SHA384_DIGEST_LENGTH 128 (8 + sizeof_SHA512_CTX) zero_SHA512_CTX sha384_init sha384_update sha384_final.
Definition EVP_sha384 : EVP_MD SHA512_CTX := sha384_md.

Definition sha512_init : M SHA512_CTX unit := modify (fun _ => SHA512_Init).
Definition sha512_update (data : list Z) : M SHA512_CTX unit := method_update SHA512_Update data.
Definition sha512_final : M SHA512_CTX (list Z) := method_final_checked SHA512_Final.
Definition sha512_md : EVP_MD SHA512_CTX :=
  mkEVP_MD NID_sha512 SHA512_DIGEST_LENGTH 128 (8 + sizeof_SHA512_CTX) zero_SHA512_CTX sha512_init sha512_update sha512_final.
Definition EVP_sha512 : EVP_MD SHA512_CTX := sha512_md.

Definition sha512_224_init : M SHA512_CTX unit := modify (fun _ => SHA512_224_Init).
Definition sha512_224_update (data : list Z) : M SHA512_CTX unit := method_update SHA512_224_Update data.
Definition sha512_224_final : M SHA512_CTX (list Z) := method_final_checked SHA512_224_Final.
Definition sha512_224_md : EVP_MD SHA512_CTX :=
  mkEVP_MD NID_sha512_224 SHA512_224_DIGEST_LENGTH 128 (8 + sizeof_SHA512_CTX) zero_SHA512_CTX sha512_224_init sha512_224_update sha512_224_final.
Definition EVP_sha512_224 : EVP_MD SHA512_CTX := sha512_224_md.

Definition sha512_256_init : M SHA512_CTX unit := modify (fun _ => SHA512_256_Init).
Definition sha512_256_update (data : list Z) : M SHA512_CTX unit := method_update SHA512_256_Update data.
Definition sha512_256_final : M SHA512_CTX (list Z) := method_final_checked SHA512_256_Final.
Definition sha512_256_md : EVP_MD SHA512_CTX :=
  mkEVP_MD NID_sha512_256 SHA512_256_DIGEST_LENGTH 128 (8 + sizeof_SHA512_CTX) zero_SHA512_CTX sha512_256_init sha512_256_update sha512_256_final.
Definition EVP_sha512_256 : EVP_MD SHA512_CTX := sha512_256_md.

(** ** The tables keep what the class promises *)

Lemma method_update_ok {C} (update : C -> list Z -> option C) data d d' :
  update d data = Some d' -> method_update update data d = Ret tt d'.
Proof. intros E. unfold method_update. mstep. unfold id. by rewrite E. Qed.

Lemma method_final_ok {C} (final : C -> option (list Z * C)) out d d' : final d = Some (out, d') -> method_final final d = Ret out d'.
Proof. intros E. unfold method_final. mstep. unfold id. by rewrite E. Qed.

Lemma method_final_checked_ok {C} (final : C -> option (option (list Z) * C)) out d d' :
  final d = Some (Some out, d') -> method_final_checked final d = Ret out d'.
Proof. intros E. unfold method_final_checked. mstep. unfold id. by rewrite E. Qed.

Lemma zlen_concat_le_words (size : nat) ws : zlen (concat (map (le_bytes size) ws)) = Z.of_nat size * Z.of_nat (length ws).
Proof. induction ws as [|w ws IH]; cbn [map concat length]; [by rewrite zlen_nil; lia|]. rewrite zlen_app, zlen_le_bytes, IH. lia. Qed.

Lemma bytes_concat_le_words (size : nat) ws : Forall is_byte (concat (map (le_bytes size) ws)).
Proof. induction ws as [|w ws IH]; cbn [map concat]; [constructor|]. apply Forall_app. split; [apply is_byte_le_bytes|done]. Qed.

#[global] Instance md5_laws : DigestLaws md5_md rfc1321.
Proof.
  refine {| digest_at := md5_at |}.
  - intros d. exists MD5_Init. split; [done|]. apply md5_at_start.
  - intros msg d data Hat Hd. destruct (MD5_Update_ok msg d data Hat Hd) as (d' & E & Hat'). exists d'. split; [by apply method_update_ok|done].
  - intros msg d Hat. destruct (MD5_Final_ok msg d Hat) as (d' & E). exists d'. by apply method_final_ok.
  - intros m. unfold rfc1321. rewrite zlen_concat_le_words. by destruct (md_hash _ _ _ _ _) as [[[? ?] ?] ?].
  - intros m. apply bytes_concat_le_words.
  - by vm_compute.
Defined.

#[global] Instance sha1_laws : DigestLaws sha1_md fips_sha1.
Proof.
  refine {| digest_at := sha1_at |}.
  - intros d. exists SHA1_Init. split; [done|]. apply sha1_at_start.
  - intros msg d data Hat Hd. destruct (SHA1_Update_ok msg d data Hat Hd) as (d' & E & Hat'). exists d'. split; [by apply method_update_ok|done].
  - intros msg d Hat. destruct (SHA1_Final_ok msg d Hat) as (d' & E). exists d'. by apply method_final_ok.
  - intros m. unfold fips_sha1. rewrite zlen_concat_words. by destruct (md_hash _ _ _ _ _) as [[[[? ?] ?] ?] ?].
  - intros m. apply bytes_concat_words.
  - by vm_compute.
Defined.

Lemma sha2_64_ok init m : is_init512 init -> zlen (sha2_64 init m) = s5_md_len init /\ Forall is_byte (sha2_64 init m).
Proof.
  intros Hi. unfold sha2_64, fips_sha512. split; [|apply Forall_ztake, bytes_concat_words].
  destruct (md_hash _ _ _ _ _) as [[[[[[[? ?] ?] ?] ?] ?] ?] ?]. 
  rewrite zlen_ztake; rewrite ?zlen_concat_words; by destruct Hi as [-> |[-> |[-> | ->]]].
Qed.

(** The four tables of the family. *)
Lemma sha512_update_eq init msg d data : sha512_at init msg d -> Forall is_byte data ->
  exists d', method_update SHA512_Update data d = Ret tt d' /\ sha512_at init (msg ++ data) d'.
Proof.
  intros Hat Hd. destruct (SHA512_Update_ok init msg d data Hat Hd) as (d' & E & Hat'). exists d'. split; [by apply method_update_ok|done].
Qed.

Lemma sha512_final_eq init msg d : is_init512 init -> sha512_at init msg d ->
  exists d', method_final_checked SHA512_Final d = Ret (sha2_64 init msg) d'.
Proof. intros Hi Hat. destruct (SHA512_Final_ok init msg d Hi Hat) as (d' & E). exists d'. by apply method_final_checked_ok. Qed.

Definition sha512_family (md : EVP_MD SHA512_CTX) (init : SHA512_CTX) (Hi : is_init512 init)
    (Hinit : dg_init md = modify (fun _ => init)) (Hupd : dg_update md = method_update SHA512_Update) (Hfin : dg_final md = method_final_checked SHA512_Final)
    (Hsize : dg_md_size md = s5_md_len init) (Hb : dg_block_size md = 128) (Hc : dg_ctx_size md <> 0) : DigestLaws md (sha2_64 init).
Proof.
  refine {| digest_at := sha512_at init |}.
  - intros d. exists init. rewrite Hinit. split; [done|]. by apply sha512_at_start.
  - rewrite Hupd. apply sha512_update_eq.
  - rewrite Hfin. intros msg d. by apply sha512_final_eq.
  - rewrite Hsize. intros m. by apply sha2_64_ok.
  - intros m. by apply sha2_64_ok.
  - rewrite Hsize, Hb. split; [|split; [|done]]; by destruct Hi as [-> |[-> |[-> | ->]]].
Defined.

#[global] Instance sha512_laws : DigestLaws sha512_md (sha2_64 SHA512_Init).
Proof. apply sha512_family; try done. by left. Defined.
#[global] Instance sha384_laws : DigestLaws sha384_md (sha2_64 SHA384_Init).
Proof. apply sha512_family; try done. by right; left. Defined.
#[global] Instance sha512_256_laws : DigestLaws sha512_256_md (sha2_64 SHA512_256_Init).
Proof. apply sha512_family; try done. by do 2 right; left. Defined.
#[global] Instance sha512_224_laws : DigestLaws sha512_224_md (sha2_64 SHA512_224_Init).
Proof. apply sha512_family; try done. by do 3 right. Defined.

(** C35. EVP_Digest with any table that keeps [DigestLaws], from any context: it gives the
    hash of the data, and fails only for want of memory. *)
Theorem EVP_Digest_correct {D} (malloc_ok : Z -> bool) (md : EVP_MD D) hash `{!DigestLaws md hash} data c :
  Forall is_byte data ->
  match EVP_Digest malloc_ok data md c with
  | Ret out c' => out = hash data /\ c' = mkMdCtx None 0 None None
  | Fail c' => malloc_ok (dg_ctx_size md) = false /\ c' = mkMdCtx None 0 None None
  | UB => False
  end.
Proof.
  intros Hd.
  assert (Hclean : forall c0 (Q : unit -> EVP_MD_CTX D -> Prop) E, Q tt (mkMdCtx None 0 None None) -> wp (EVP_MD_CTX_cleanup) c0 Q E).
  { intros c0 Q E HQ. unfold EVP_MD_CTX_cleanup. apply wp_bind, wp_gets. cbn [id]. apply wp_bind.
    destruct (mc_digest c0), (mc_md_data c0); try by apply wp_ret, wp_modify. destruct (_ && _); [by apply wp_modify, wp_modify|by apply wp_ret, wp_modify]. }
  change (wp (EVP_Digest malloc_ok data md) c (fun out c' => out = hash data /\ c' = mkMdCtx None 0 None None)
    (fun c' => malloc_ok (dg_ctx_size md) = false /\ c' = mkMdCtx None 0 None None)).
  unfold EVP_Digest. apply wp_bind, wp_modify. apply wp_bind, wp_modify. apply wp_bind, wp_try. apply wp_bind.
  apply (wp_DigestInit malloc_ok md hash); [by split| |].
  - intros c1 Hat. apply wp_bind. apply (wp_DigestUpdate md hash [] c1 data); [done|done|]. intros c2 Hat2.
    apply (wp_DigestFinal md hash ([] ++ data) c2); [done|]. intros c3 _. apply wp_bind, Hclean. by apply wp_ret.
  - intros Hm c1. apply wp_bind, Hclean. by apply wp_fail.
Qed.

(** MD5, SHA-1 and SHA-384 of "abc". *)
Lemma EVP_Digest_correct_witness :
  let digest {D} (md : EVP_MD D) := EVP_Digest (fun _ => true) [97; 98; 99] md (mkMdCtx None 0 None None) in
  match digest md5_md with Ret out _ => be_val out = 191415658344158766168031473277922803570 | _ => False end /\
  match digest sha1_md with Ret out _ => be_val out = 968236873715988614170569073515315707566766479517 | _ => False end /\
  match digest sha384_md with
  | Ret out c' => out = sha2_64 SHA384_Init [97; 98; 99] /\ c' = mkMdCtx None 0 None None
  | Fail c' => true = false /\ c' = mkMdCtx None 0 None None
  | UB => False
  end.
Proof.
  split; [vm_compute; reflexivity|]. split; [vm_compute; reflexivity|].
  apply (EVP_Digest_correct (fun _ => true) sha384_md (sha2_64 SHA384_Init) [97; 98; 99]). by apply (bool_decide_unpack _).
Defined.
