(* ===== verification/EvpCipher.v ===== *)
(** * The EVP_CIPHER interface

    lib/libcrypto/evp/evp_cipher.c: initialisation, the buffering of partial blocks, the
    padding and its check, the accessors of contexts and methods.  A method table acts on
    the fields of the context that methods read and write, [cipher_core]; the table and
    the buffer of the last block are above them.  What is written from [out] on is a
    list; [out] does not overlap the input.  An input is a list of at most INT_MAX
    octets, [in_len] is its length.  [Fail] is the return value 0.  The ASN.1 parameters
    are left out.

    The class [CipherLaws] states what a table promises: a function on whole blocks,
    computed piece by piece.  The theorems of this file hold for any instance. *)

From S2P Require Import Prelude.
Open Scope Z_scope.

Definition EVP_MAX_IV_LENGTH : Z := 16.
Definition EVP_MAX_BLOCK_LENGTH : Z := 32.
Definition EVP_CIPH_STREAM_CIPHER : Z := 0x0.
Definition EVP_CIPH_ECB_MODE : Z := 0x1.
Definition EVP_CIPH_CBC_MODE : Z := 0x2.
Definition EVP_CIPH_CFB_MODE : Z := 0x3.
Definition EVP_CIPH_OFB_MODE : Z := 0x4.
Definition EVP_CIPH_CTR_MODE : Z := 0x5.
Definition EVP_CIPH_CCM_MODE : Z := 0x7.
Definition EVP_CIPH_WRAP_MODE : Z := 0x10002.
Definition EVP_CIPH_MODE : Z := 0xF0007.
Definition EVP_CIPH_VARIABLE_LENGTH : Z := 0x8.
Definition EVP_CIPH_CUSTOM_IV : Z := 0x10.
Definition EVP_CIPH_ALWAYS_CALL_INIT : Z := 0x20.
Definition EVP_CIPH_CTRL_INIT : Z := 0x40.
Definition EVP_CIPH_NO_PADDING : Z := 0x100.
Definition EVP_CIPH_RAND_KEY : Z := 0x200.
Definition EVP_CIPH_CUSTOM_COPY : Z := 0x400.
Definition EVP_CIPH_FLAG_CUSTOM_CIPHER : Z := 0x100000.
Definition EVP_CIPH_FLAG_CUSTOM_IV_LENGTH : Z := 0x400000.
Definition EVP_CIPHER_CTX_FLAG_WRAP_ALLOW : Z := 0x1.
Definition EVP_CTRL_INIT : Z := 0x0.
Definition EVP_CTRL_RAND_KEY : Z := 0x6.
Definition EVP_CTRL_GET_IVLEN : Z := 0x25.
Definition INT_MAX : Z := 2 ^ 31 - 1.
Definition sizeof_EVP_CIPHER_CTX : Z := 160.
Definition sizeof_EVP_CIPHER : Z := 80.

(** The fields methods use. *)
Record cipher_core {D : Type} : Type := mkCore {
  cc_encrypt : Z;
  cc_oiv : list Z;
  cc_iv : list Z;
  cc_buf : list Z;
  cc_num : Z;
  cc_key_len : Z;
  cc_flags : Z;
  cc_cipher_data : option D;
}.
Arguments cipher_core D : clear implicits.
Arguments mkCore {D}.
#[global] Instance core_eta {D} : Eta (cipher_core D) :=
  fun c => mkCore (cc_encrypt c) (cc_oiv c) (cc_iv c) (cc_buf c) (cc_num c) (cc_key_len c) (cc_flags c) (cc_cipher_data c).

(** [ec_do_cipher]: what is written to [out] and the return value; [None] stands for a
    null [in].  [ec_ctrl]: the return value and what is stored through [ptr].
    [ec_copy]: the control EVP_CTRL_COPY, on the new context.  [ec_zero]: what [calloc]
    makes. *)
Record EVP_CIPHER {D : Type} : Type := mkEVP_CIPHER {
  ec_nid : Z;
  ec_block_size : Z;
  ec_key_len : Z;
  ec_iv_len : Z;
  ec_flags : Z;
  ec_init : option (list Z) -> option (list Z) -> Z -> M (cipher_core D) unit;
  ec_do_cipher : option (list Z) -> M (cipher_core D) (list Z * Z);
  ec_cleanup : option (M (cipher_core D) unit);
  ec_ctx_size : Z;
  ec_ctrl : option (Z -> Z -> M (cipher_core D) (Z * Z));
  ec_copy : M (cipher_core D) unit;
  ec_zero : D;
}.
Arguments EVP_CIPHER D : clear implicits.
Arguments mkEVP_CIPHER {D}.

#[global] Instance evp_cipher_eta {D} : Eta (EVP_CIPHER D) :=
  fun c => mkEVP_CIPHER (ec_nid c) (ec_block_size c) (ec_key_len c) (ec_iv_len c) (ec_flags c) (ec_init c) (ec_do_cipher c) (ec_cleanup c) (ec_ctx_size c)
    (ec_ctrl c) (ec_copy c) (ec_zero c).

Record EVP_CIPHER_CTX {D : Type} : Type := mkCipherCtx {
  cx_cipher : option (EVP_CIPHER D);
  cx_core : cipher_core D;
  cx_partial_len : Z;
  cx_final_used : Z;
  cx_final : list Z;
  cx_app_data : Z;
}.
Arguments EVP_CIPHER_CTX D : clear implicits.
Arguments mkCipherCtx {D}.
#[global] Instance cipher_ctx_eta {D} : Eta (EVP_CIPHER_CTX D) :=
  fun c => mkCipherCtx (cx_cipher c) (cx_core c) (cx_partial_len c) (cx_final_used c) (cx_final c) (cx_app_data c).

Definition zero_core {D} : cipher_core D := mkCore 0 (zrep EVP_MAX_IV_LENGTH 0) (zrep EVP_MAX_IV_LENGTH 0) (zrep EVP_MAX_BLOCK_LENGTH 0) 0 0 0 None.
Definition zero_ctx {D} : EVP_CIPHER_CTX D := mkCipherCtx None zero_core 0 0 (zrep EVP_MAX_BLOCK_LENGTH 0) 0.

Section evp_cipher.
Context {D : Type} (malloc_ok : Z -> bool).
Abbreviation CTX := (EVP_CIPHER_CTX D).
Abbreviation upd f := (modify (S := CTX) f).

(** A method on the context. *)
Definition on_core {A} (m : M (cipher_core D) A) : M CTX A := fun c =>
  match m (cx_core c) with
  | Ret a k => Ret a (c <| cx_core := k |>)
  | Fail k => Fail (c <| cx_core := k |>)
  | UB => UB
  end.
Definition upd_core (f : cipher_core D -> cipher_core D) : M CTX unit := upd (fun c => c <| cx_core := f (cx_core c) |>).

(** [ctx->cipher] *)
Definition the_cipher : M CTX (EVP_CIPHER D) := c ← gets id; valid (cx_cipher c).
Definition has_flag (flags flag : Z) : bool := negb (Z.land flags flag =? 0).
Definition EVP_CIPHER_mode (cipher : EVP_CIPHER D) : Z := Z.land (ec_flags cipher) EVP_CIPH_MODE.

(** ** Life cycle *)

Definition EVP_CIPHER_CTX_new : option CTX := if malloc_ok sizeof_EVP_CIPHER_CTX then Some zero_ctx else None.
Definition EVP_CIPHER_CTX_legacy_clear : M CTX unit := upd (fun _ => zero_ctx).

Definition EVP_CIPHER_CTX_cleanup : M CTX unit :=
  c ← gets id;
  (match cx_cipher c with
   | Some cipher =>
       match ec_cleanup cipher with
       | Some cleanup => _ ← try (on_core cleanup); mret tt
       | None => mret tt
       end
   | None => mret tt
   end);;
  upd (fun _ => zero_ctx).
Definition EVP_CIPHER_CTX_init : M CTX unit := EVP_CIPHER_CTX_cleanup.
Definition EVP_CIPHER_CTX_reset : M CTX unit := EVP_CIPHER_CTX_cleanup.
Definition EVP_CIPHER_CTX_free (c : option CTX) : M CTX unit :=
  match c with
  | Some _ => EVP_CIPHER_CTX_cleanup
  | None => mret tt
  end.

Definition EVP_CIPHER_CTX_ctrl (type arg : Z) : M CTX (Z * Z) :=
  c ← gets id;
  match cx_cipher c with
  | None => fail
  | Some cipher =>
      match ec_ctrl cipher with
      | None => fail
      | Some ctrl =>
          '(ret, out) ← on_core (ctrl type arg);
          check (negb (ret =? -1));;
          mret (ret, out)
      end
  end.

(** A call of EVP_CIPHER_CTX_ctrl whose return value is tested for 0. *)
Definition ctrl_ok (type arg : Z) : M CTX Z :=
  '(ret, out) ← EVP_CIPHER_CTX_ctrl type arg;
  check (negb (ret =? 0));;
  mret out.

Definition EVP_CIPHER_CTX_iv_length : M CTX Z :=
  cipher ← the_cipher;
  if negb (has_flag (ec_flags cipher) EVP_CIPH_FLAG_CUSTOM_IV_LENGTH) then mret (ec_iv_len cipher)
  else
    r ← try (EVP_CIPHER_CTX_ctrl EVP_CTRL_GET_IVLEN 0);
    match r with
    | Some (1, iv_length) => mret iv_length
    | _ => mret (-1)
    end.

(** [memcpy(dst, src, n)] into an array of the context. *)
Definition copy_into (dst src : list Z) (n : Z) : option (list Z) := src ← octets_at src n; zwrite dst 0 src.

(** The new cipher of a context. *)
Definition set_cipher (enc : Z) (cipher : EVP_CIPHER D) : M CTX unit :=
  c ← gets id;
  let flags := cc_flags (cx_core c) in
  EVP_CIPHER_CTX_cleanup;;
  upd_core (fun k => k <| cc_encrypt := enc |> <| cc_flags := Z.land flags EVP_CIPHER_CTX_FLAG_WRAP_ALLOW |>);;
  upd (fun c => c <| cx_cipher := Some cipher |>);;
  upd_core (fun k => k <| cc_key_len := ec_key_len cipher |>);;
  (if negb (ec_ctx_size cipher =? 0) then
     check (malloc_ok (ec_ctx_size cipher));;
     upd_core (fun k => k <| cc_cipher_data := Some (ec_zero cipher) |>)
   else mret tt);;
  (if has_flag (ec_flags cipher) EVP_CIPH_CTRL_INIT then _ ← ctrl_ok EVP_CTRL_INIT 0; mret tt else mret tt).

(** The iv, by mode. *)
Definition set_iv (iv : option (list Z)) : M CTX unit :=
  cipher ← the_cipher;
  if negb (has_flag (ec_flags cipher) EVP_CIPH_CUSTOM_IV) then
    let mode := EVP_CIPHER_mode cipher in
    if (mode =? EVP_CIPH_STREAM_CIPHER) || (mode =? EVP_CIPH_ECB_MODE) then mret tt
    else if (mode =? EVP_CIPH_CFB_MODE) || (mode =? EVP_CIPH_OFB_MODE) || (mode =? EVP_CIPH_CBC_MODE) then
      (if (mode =? EVP_CIPH_CFB_MODE) || (mode =? EVP_CIPH_OFB_MODE) then upd_core (fun k => k <| cc_num := 0 |>) else mret tt);;
      iv_len ← EVP_CIPHER_CTX_iv_length;
      check (negb ((iv_len <? 0) || (EVP_MAX_IV_LENGTH <? iv_len)));;
      (match iv with
       | Some iv =>
           c ← gets id;
           oiv ← valid (copy_into (cc_oiv (cx_core c)) iv iv_len);
           upd_core (fun k => k <| cc_oiv := oiv |>)
       | None => mret tt
       end);;
      c ← gets id;
      iv ← valid (copy_into (cc_iv (cx_core c)) (cc_oiv (cx_core c)) iv_len);
      upd_core (fun k => k <| cc_iv := iv |>)
    else if mode =? EVP_CIPH_CTR_MODE then
      upd_core (fun k => k <| cc_num := 0 |>);;
      iv_len ← EVP_CIPHER_CTX_iv_length;
      check (negb ((iv_len <? 0) || (EVP_MAX_IV_LENGTH <? iv_len)));;
      match iv with
      | Some iv =>
          c ← gets id;
          iv ← valid (copy_into (cc_iv (cx_core c)) iv iv_len);
          upd_core (fun k => k <| cc_iv := iv |>)
      | None => mret tt
      end
    else fail
  else mret tt.

Definition EVP_CipherInit_ex (cipher : option (EVP_CIPHER D)) (key iv : option (list Z)) (enc : Z) : M CTX unit :=
  c ← gets id;
  let enc := if enc =? -1 then cc_encrypt (cx_core c) else enc in
  let enc := if negb (enc =? 0) then 1 else enc in
  upd_core (fun k => k <| cc_encrypt := enc |>);;
  c ← gets id;
  (match cipher, cx_cipher c with
   | None, None => fail
   | Some cipher, _ => set_cipher enc cipher
   | None, Some _ => mret tt
   end);;
  cipher ← the_cipher;
  check (negb (negb (ec_block_size cipher =? 1) && negb (ec_block_size cipher =? 8) && negb (ec_block_size cipher =? 16)));;
  c ← gets id;
  check (negb (negb (has_flag (cc_flags (cx_core c)) EVP_CIPHER_CTX_FLAG_WRAP_ALLOW) && (EVP_CIPHER_mode cipher =? EVP_CIPH_WRAP_MODE)));;
  set_iv iv;;
  (if bool_decide (key <> None) || has_flag (ec_flags cipher) EVP_CIPH_ALWAYS_CALL_INIT
   then on_core (ec_init cipher key iv enc) else mret tt);;
  upd (fun c => c <| cx_partial_len := 0 |> <| cx_final_used := 0 |>).
Definition EVP_CipherInit := EVP_CipherInit_ex.
Definition EVP_EncryptInit cipher key iv := EVP_CipherInit cipher key iv 1.
Definition EVP_EncryptInit_ex cipher key iv := EVP_CipherInit_ex cipher key iv 1.
Definition EVP_DecryptInit cipher key iv := EVP_CipherInit cipher key iv 0.
Definition EVP_DecryptInit_ex cipher key iv := EVP_CipherInit_ex cipher key iv 0.

(** ** Encryption and decryption *)

Definition EVP_Cipher (input : option (list Z)) : M CTX (list Z * Z) :=
  cipher ← the_cipher; on_core (ec_do_cipher cipher input).

(** What is written, and [*out_len]. *)
Definition evp_cipher (input : option (list Z)) : M CTX (list Z * Z) :=
  cipher ← the_cipher;
  '(out, ret) ← on_core (ec_do_cipher cipher input);
  if has_flag (ec_flags cipher) EVP_CIPH_FLAG_CUSTOM_CIPHER then
    check (negb (ret <? 0));; mret (out, ret)
  else
    check (negb (ret =? 0));; mret (out, match input with Some data => zlen data | None => 0 end).

(** [memcpy(&ctx->buf[i], in, n)] *)
Definition put_buf (i : Z) (data : list Z) : M CTX unit :=
  c ← gets id;
  buf ← valid (zwrite (cc_buf (cx_core c)) i data);
  upd_core (fun k => k <| cc_buf := buf |>).

(** The buffered octets are completed to a block: what is written, and what is left of
    the input; [None] when the block is still not full. *)
Definition fill_block (block_size partial_len : Z) (input : list Z) : M CTX (option (list Z * Z * list Z)) :=
  let in_len := zlen input in
  if 0 <? partial_len then
    let partial_needed := block_size - partial_len in
    if in_len <? partial_needed then
      put_buf partial_len input;;
      upd (fun c => c <| cx_partial_len := cx_partial_len c + in_len |>);;
      mret None
    else
      check (negb (INT_MAX - block_size <? Z.ldiff (in_len - partial_needed) (block_size - 1)));;
      put_buf partial_len (ztake partial_needed input);;
      c ← gets id;
      block ← valid (octets_at (cc_buf (cx_core c)) block_size);
      '(out, len) ← evp_cipher (Some block);
      mret (Some (ztake len out, len, zdrop partial_needed input))
  else mret (Some ([], 0, input)).

(** The whole blocks, and the rest into the buffer. *)
Definition cipher_blocks (block_size : Z) (out : list Z) (total_len : Z) (input : list Z) : M CTX (list Z * Z) :=
  let partial_len := Z.land (zlen input) (block_size - 1) in
  let in_len := zlen input - partial_len in
  '(out, total_len) ← (if 0 <? in_len then
                         check (negb (INT_MAX - in_len <? total_len));;
                         '(out', len) ← evp_cipher (Some (ztake in_len input));
                         check (negb (INT_MAX - len <? total_len));;
                         mret (out ++ out', total_len + len)
                       else mret (out, total_len));
  upd (fun c => c <| cx_partial_len := partial_len |>);;
  (if 0 <? partial_len then put_buf 0 (zdrop in_len input) else mret tt);;
  mret (out, total_len).

Definition EVP_EncryptUpdate (input : list Z) : M CTX (list Z * Z) :=
  cipher ← the_cipher;
  c ← gets id;
  let block_size := ec_block_size cipher in
  let block_mask := block_size - 1 in
  let partial_len := cx_partial_len c in
  let in_len := zlen input in
  check (Z.land block_size block_mask =? 0);;
  if (in_len =? 0) && negb (EVP_CIPHER_mode cipher =? EVP_CIPH_CCM_MODE) then mret ([], 0)
  else if has_flag (ec_flags cipher) EVP_CIPH_FLAG_CUSTOM_CIPHER then evp_cipher (Some input)
  else if (partial_len =? 0) && (Z.land in_len block_mask =? 0) then evp_cipher (Some input)
  else
    check (negb ((partial_len <? 0) || (block_size <=? partial_len) || (EVP_MAX_BLOCK_LENGTH <? block_size)));;
    r ← fill_block block_size partial_len input;
    match r with
    | None => mret ([], 0)
    | Some (out, total_len, input) => cipher_blocks block_size out total_len input
    end.

Definition EVP_EncryptFinal_ex : M CTX (list Z * Z) :=
  cipher ← the_cipher;
  c ← gets id;
  let block_size := ec_block_size cipher in
  let partial_len := cx_partial_len c in
  if has_flag (ec_flags cipher) EVP_CIPH_FLAG_CUSTOM_CIPHER then evp_cipher None
  else
    check (negb ((partial_len <? 0) || (block_size <=? partial_len) || (EVP_MAX_BLOCK_LENGTH <? block_size)));;
    if block_size =? 1 then mret ([], 0)
    else if has_flag (cc_flags (cx_core c)) EVP_CIPH_NO_PADDING then
      check (partial_len =? 0);; mret ([], 0)
    else
      let pad := block_size - partial_len in
      put_buf partial_len (zrep pad (u8 pad));;
      c ← gets id;
      block ← valid (octets_at (cc_buf (cx_core c)) block_size);
      evp_cipher (Some block).
Definition EVP_EncryptFinal : M CTX (list Z * Z) := EVP_EncryptFinal_ex.

(** The last block is kept back: what is written is more than [*out_len]. *)
Definition keep_last (block_size : Z) (out : list Z) (len : Z) : M CTX Z :=
  c ← gets id;
  if (1 <? block_size) && (cx_partial_len c =? 0) then
    check (negb (len <? block_size));;
    let len := len - block_size in
    final ← valid (copy_into (cx_final c) (zdrop len out) block_size);
    upd (fun c => c <| cx_final := final |> <| cx_final_used := 1 |>);;
    mret len
  else mret len.

Definition EVP_DecryptUpdate (input : list Z) : M CTX (list Z * Z) :=
  cipher ← the_cipher;
  c ← gets id;
  let block_size := ec_block_size cipher in
  let block_mask := block_size - 1 in
  let in_len := zlen input in
  check (Z.land block_size block_mask =? 0);;
  if (in_len =? 0) && negb (EVP_CIPHER_mode cipher =? EVP_CIPH_CCM_MODE) then mret ([], 0)
  else if has_flag (ec_flags cipher) EVP_CIPH_FLAG_CUSTOM_CIPHER then evp_cipher (Some input)
  else if has_flag (cc_flags (cx_core c)) EVP_CIPH_NO_PADDING then EVP_EncryptUpdate input
  else
    check (negb (EVP_MAX_BLOCK_LENGTH <? block_size));;
    '(out, total_len) ← (if negb (cx_final_used c =? 0) then
                           check (negb (INT_MAX - block_size <? Z.ldiff in_len block_mask));;
                           final ← valid (octets_at (cx_final c) block_size);
                           mret (final, block_size)
                         else mret ([], 0));
    upd (fun c => c <| cx_final_used := 0 |>);;
    '(out', len) ← EVP_EncryptUpdate input;
    len ← keep_last block_size out' len;
    check (negb (INT_MAX - total_len <? len));;
    mret (out ++ out', total_len + len).

Definition EVP_DecryptFinal_ex : M CTX (list Z * Z) :=
  cipher ← the_cipher;
  c ← gets id;
  let block_size := ec_block_size cipher in
  let partial_len := cx_partial_len c in
  if has_flag (ec_flags cipher) EVP_CIPH_FLAG_CUSTOM_CIPHER then evp_cipher None
  else if has_flag (cc_flags (cx_core c)) EVP_CIPH_NO_PADDING then
    check (partial_len =? 0);; mret ([], 0)
  else if block_size =? 1 then mret ([], 0)
  else
    check (negb (negb (partial_len =? 0) || (cx_final_used c =? 0)));;
    check (negb (EVP_MAX_BLOCK_LENGTH <? block_size));;
    pad ← valid (zget (cx_final c) (block_size - 1));
    check (negb ((pad <=? 0) || (block_size <? pad)));;
    let plain_len := block_size - pad in
    tail ← valid (octets_at (zdrop plain_len (cx_final c)) pad);
    check (forallb (fun x => x =? pad) tail);;
    out ← valid (octets_at (cx_final c) plain_len);
    mret (out, plain_len).
Definition EVP_DecryptFinal : M CTX (list Z * Z) := EVP_DecryptFinal_ex.

Definition encrypting : M CTX bool := gets (fun c => negb (cc_encrypt (cx_core c) =? 0)).
Definition EVP_CipherUpdate (input : list Z) : M CTX (list Z * Z) :=
  e ← encrypting; if e : bool then EVP_EncryptUpdate input else EVP_DecryptUpdate input.
Definition EVP_CipherFinal_ex : M CTX (list Z * Z) :=
  e ← encrypting; if e : bool then EVP_EncryptFinal_ex else EVP_DecryptFinal_ex.
Definition EVP_CipherFinal : M CTX (list Z * Z) :=
  e ← encrypting; if e : bool then EVP_EncryptFinal_ex else EVP_DecryptFinal_ex.

(** ** Copies, keys and accessors *)

(** The octets arc4random_buf gives are [random]. *)
Definition EVP_CIPHER_CTX_rand_key (random : Z -> list Z) (from_ctrl : list Z) : M CTX (list Z) :=
  cipher ← the_cipher;
  if has_flag (ec_flags cipher) EVP_CIPH_RAND_KEY then _ ← ctrl_ok EVP_CTRL_RAND_KEY 0; mret from_ctrl
  else c ← gets id; mret (random (cc_key_len (cx_core c))).

(** The state is [out].  With [ctx_size] 0 the two contexts share the data. *)
Definition EVP_CIPHER_CTX_copy (from : option CTX) : M CTX unit :=
  match from with
  | None => fail
  | Some from =>
      match cx_cipher from with
      | None => fail
      | Some cipher =>
          EVP_CIPHER_CTX_cleanup;;
          upd (fun _ => from);;
          (match cc_cipher_data (cx_core from) with
           | Some data =>
               if negb (ec_ctx_size cipher =? 0) then
                 (if malloc_ok (ec_ctx_size cipher) then mret tt
                  else upd_core (fun k => k <| cc_cipher_data := None |>);; fail);;
                 upd_core (fun k => k <| cc_cipher_data := Some data |>)
               else mret tt
           | None => mret tt
           end);;
          if has_flag (ec_flags cipher) EVP_CIPH_CUSTOM_COPY then
            r ← try (on_core (ec_copy cipher));
            match r with
            | Some _ => mret tt
            | None => upd_core (fun k => k <| cc_cipher_data := None |>);; fail
            end
          else mret tt
      end
  end.

Definition EVP_CIPHER_CTX_cipher (c : CTX) : option (EVP_CIPHER D) := cx_cipher c.
Definition EVP_CIPHER_CTX_encrypting (c : CTX) : Z := cc_encrypt (cx_core c).
(** The octets written to [iv]; its length is [len]. *)
Definition EVP_CIPHER_CTX_get_iv (iv_given : bool) (len : Z) : M CTX (list Z) :=
  iv_len ← EVP_CIPHER_CTX_iv_length;
  check (len =? u64 iv_len);;
  check (negb (EVP_MAX_IV_LENGTH <? len));;
  if negb (len =? 0) then
    check iv_given;;
    c ← gets id; valid (octets_at (cc_iv (cx_core c)) len)
  else mret [].
Definition EVP_CIPHER_CTX_set_iv (iv : option (list Z)) (len : Z) : M CTX unit :=
  iv_len ← EVP_CIPHER_CTX_iv_length;
  check (len =? u64 iv_len);;
  check (negb (EVP_MAX_IV_LENGTH <? len));;
  if negb (len =? 0) then
    match iv with
    | None => fail
    | Some iv =>
        c ← gets id;
        iv ← valid (copy_into (cc_iv (cx_core c)) iv len);
        upd_core (fun k => k <| cc_iv := iv |>)
    end
  else mret tt.
Definition EVP_CIPHER_CTX_get_app_data (c : CTX) : Z := cx_app_data c.
Definition EVP_CIPHER_CTX_set_app_data (data : Z) : M CTX unit := upd (fun c => c <| cx_app_data := data |>).
Definition EVP_CIPHER_CTX_key_length (c : CTX) : Z := cc_key_len (cx_core c).
Definition EVP_CIPHER_CTX_set_key_length (key_len : Z) : M CTX unit :=
  c ← gets id;
  if cc_key_len (cx_core c) =? key_len then mret tt
  else
    cipher ← the_cipher;
    if (0 <? key_len) && has_flag (ec_flags cipher) EVP_CIPH_VARIABLE_LENGTH then upd_core (fun k => k <| cc_key_len := key_len |>)
    else fail.
Definition EVP_CIPHER_CTX_set_padding (pad : Z) : M CTX unit :=
  if negb (pad =? 0) then upd_core (fun k => k <| cc_flags := Z.ldiff (cc_flags k) EVP_CIPH_NO_PADDING |>)
  else upd_core (fun k => k <| cc_flags := Z.lor (cc_flags k) EVP_CIPH_NO_PADDING |>).
Definition EVP_CIPHER_CTX_set_flags (flags : Z) : M CTX unit := upd_core (fun k => k <| cc_flags := Z.lor (cc_flags k) flags |>).
Definition EVP_CIPHER_CTX_clear_flags (flags : Z) : M CTX unit := upd_core (fun k => k <| cc_flags := Z.ldiff (cc_flags k) flags |>).
Definition EVP_CIPHER_CTX_test_flags (c : CTX) (flags : Z) : Z := Z.land (cc_flags (cx_core c)) flags.
Definition EVP_CIPHER_CTX_get_cipher_data (c : CTX) : option D := cc_cipher_data (cx_core c).
Definition EVP_CIPHER_CTX_set_cipher_data (data : option D) : M CTX (option D) :=
  c ← gets id; upd_core (fun k => k <| cc_cipher_data := data |>);; mret (cc_cipher_data (cx_core c)).
Definition EVP_CIPHER_CTX_nid : M CTX Z := cipher ← the_cipher; mret (ec_nid cipher).
Definition EVP_CIPHER_CTX_block_size : M CTX Z := cipher ← the_cipher; mret (ec_block_size cipher).
Definition EVP_CIPHER_CTX_flags : M CTX Z := cipher ← the_cipher; mret (ec_flags cipher).

(** ** Methods *)

Definition EVP_CIPHER_nid (cipher : EVP_CIPHER D) : Z := ec_nid cipher.
Definition EVP_CIPHER_block_size (cipher : EVP_CIPHER D) : Z := ec_block_size cipher.
Definition EVP_CIPHER_key_length (cipher : EVP_CIPHER D) : Z := ec_key_len cipher.
Definition EVP_CIPHER_iv_length (cipher : EVP_CIPHER D) : Z := ec_iv_len cipher.
Definition EVP_CIPHER_flags (cipher : EVP_CIPHER D) : Z := ec_flags cipher.

(** [calloc]ed methods are null pointers, which must not be called. *)
Definition EVP_CIPHER_meth_new (zero : D) (cipher_type block_size key_len : Z) : option (EVP_CIPHER D) :=
  if (cipher_type <? 0) || (key_len <? 0) then None
  else if negb (block_size =? 1) && negb (block_size =? 8) && negb (block_size =? 16) then None
  else if malloc_ok sizeof_EVP_CIPHER then
    Some (mkEVP_CIPHER cipher_type block_size key_len 0 0 (fun _ _ _ => ub) (fun _ => ub) None 0 None ub zero)
  else None.
Definition EVP_CIPHER_meth_dup (cipher : EVP_CIPHER D) : option (EVP_CIPHER D) :=
  if malloc_ok sizeof_EVP_CIPHER then Some cipher else None.
Definition EVP_CIPHER_meth_set_iv_length (iv_len : Z) (cipher : EVP_CIPHER D) : EVP_CIPHER D := cipher <| ec_iv_len := iv_len |>.
Definition EVP_CIPHER_meth_set_flags (flags : Z) (cipher : EVP_CIPHER D) : EVP_CIPHER D := cipher <| ec_flags := flags |>.
Definition EVP_CIPHER_meth_set_impl_ctx_size (ctx_size : Z) (cipher : EVP_CIPHER D) : EVP_CIPHER D := cipher <| ec_ctx_size := ctx_size |>.
Definition EVP_CIPHER_meth_set_init init (cipher : EVP_CIPHER D) : EVP_CIPHER D := cipher <| ec_init := init |>.
Definition EVP_CIPHER_meth_set_do_cipher do_cipher (cipher : EVP_CIPHER D) : EVP_CIPHER D := cipher <| ec_do_cipher := do_cipher |>.
Definition EVP_CIPHER_meth_set_cleanup cleanup (cipher : EVP_CIPHER D) : EVP_CIPHER D := cipher <| ec_cleanup := cleanup |>.
Definition EVP_CIPHER_meth_set_ctrl ctrl (cipher : EVP_CIPHER D) : EVP_CIPHER D := cipher <| ec_ctrl := ctrl |>.
End evp_cipher.

(** ** What a method table promises *)

(** The modes whose iv EVP_CipherInit_ex stores. *)
Definition takes_iv (mode : Z) : bool :=
  (mode =? EVP_CIPH_CFB_MODE) || (mode =? EVP_CIPH_OFB_MODE) || (mode =? EVP_CIPH_CBC_MODE) || (mode =? EVP_CIPH_CTR_MODE).
Definition ignores_iv (mode : Z) : bool := (mode =? EVP_CIPH_STREAM_CIPHER) || (mode =? EVP_CIPH_ECB_MODE).

(** A new context with [enc] and [iv], before the method [init]. *)
Definition core_ready {D} (cipher : EVP_CIPHER D) (iv : list Z) (enc : Z) (k : cipher_core D) : Prop :=
  cc_encrypt k = enc /\ cc_num k = 0 /\ zlen (cc_iv k) = EVP_MAX_IV_LENGTH /\ cc_buf k = zrep EVP_MAX_BLOCK_LENGTH 0 /\
  (takes_iv (EVP_CIPHER_mode cipher) = true -> ztake (zlen iv) (cc_iv k) = iv) /\
  (ec_ctx_size cipher <> 0 -> cc_cipher_data k = Some (ec_zero cipher)).

(** [F] is what the cipher computes on whole blocks of [B] octets with the key and the iv
    in the direction [enc]; [cipher_at m k]: the context has processed the blocks [m].
    Only stream ciphers may use [cc_buf]. *)
Class CipherLaws {D : Type} (cipher : EVP_CIPHER D) (key iv : list Z) (enc : Z) (F : list Z -> list Z) (B : Z) : Type := {
  cipher_at : list Z -> cipher_core D -> Prop;
  cipher_B : ec_block_size cipher = B /\ (B = 1 \/ B = 8 \/ B = 16);
  cipher_flags : Forall (fun f => has_flag (ec_flags cipher) f = false)
    [EVP_CIPH_FLAG_CUSTOM_CIPHER; EVP_CIPH_CTRL_INIT; EVP_CIPH_CUSTOM_IV; EVP_CIPH_FLAG_CUSTOM_IV_LENGTH];
  cipher_mode : takes_iv (EVP_CIPHER_mode cipher) || ignores_iv (EVP_CIPHER_mode cipher) = true;
  cipher_cleanup : ec_cleanup cipher = None;
  cipher_iv : ec_iv_len cipher = zlen iv /\ zlen iv <= EVP_MAX_IV_LENGTH;
  cipher_nil : F [] = [];
  cipher_start : forall k, core_ready cipher iv enc k ->
    exists k', ec_init cipher (Some key) (Some iv) enc k = Ret tt k' /\ cipher_at [] k' /\ cc_flags k' = cc_flags k /\ zlen (cc_buf k') = zlen (cc_buf k);
  cipher_at_buf : forall m k buf, 1 < B -> cipher_at m k -> cipher_at m (k <| cc_buf := buf |>);
  cipher_at_flags : forall m k f, cipher_at m k -> cipher_at m (k <| cc_flags := f |>);
  cipher_step : forall m k data, cipher_at m k -> zlen (cc_buf k) = EVP_MAX_BLOCK_LENGTH -> Forall is_byte data -> 0 < zlen data <= INT_MAX -> zlen data mod B = 0 ->
    exists out ret k', ec_do_cipher cipher (Some data) k = Ret (out, ret) k' /\ ret <> 0 /\
      F (m ++ data) = F m ++ out /\ zlen out = zlen data /\ Forall is_byte out /\
      cipher_at (m ++ data) k' /\ cc_flags k' = cc_flags k /\ zlen (cc_buf k') = zlen (cc_buf k) /\ (1 < B -> cc_buf k' = cc_buf k);
}.

(** RFC 5652, section 6.3: as many octets as are missing in the last block, each with
    their number. *)
Definition pkcs_pad (B : Z) (m : list Z) : list Z := let k := B - zlen m mod B in m ++ zrep k k.

Lemma block_mask B x : B = 1 \/ B = 8 \/ B = 16 -> Z.land x (B - 1) = x mod B /\ Z.land B (B - 1) = 0 /\ (0 <= x -> 0 <= Z.ldiff x (B - 1) <= x).
Proof.
  intros HB. assert (H : exists n, 0 <= n /\ B = 2 ^ n) by (destruct HB as [-> |[-> | ->]]; [by exists 0|by exists 3|by exists 4]).
  destruct H as (n & Hn & ->). split; [by apply land_ones_mod|]. split.
  { destruct HB as [E|[E|E]]; by rewrite E. }
  intros Hx. replace (2 ^ n - 1) with (Z.ones n) by (rewrite Z.ones_equiv; lia). rewrite Z.ldiff_ones_r, Z.shiftl_mul_pow2, Z.shiftr_div_pow2 by lia.
  assert (0 < 2 ^ n) by lia. split; [apply Z.mul_nonneg_nonneg; [by apply Z.div_pos|lia]|]. rewrite Z.mul_comm. by apply Z.mul_div_le.
Qed.

Lemma mod_add_block B a b : a mod B = 0 -> b mod B = 0 -> (a + b) mod B = 0.
Proof.
  intros Ha Hb. destruct (Z.eq_dec B 0) as [->|HB]; [rewrite !Z.mod_0_r in *; lia|].
  by rewrite Z.add_mod, Ha, Hb by done.
Qed.

Section stream.
Context {D : Type} (cipher : EVP_CIPHER D) (key iv : list Z) (enc : Z) (F : list Z -> list Z) (B : Z) `{HL : !CipherLaws cipher key iv enc F B}.
Abbreviation CTX := (EVP_CIPHER_CTX D).

Lemma no_flags :
  has_flag (ec_flags cipher) EVP_CIPH_FLAG_CUSTOM_CIPHER = false /\ has_flag (ec_flags cipher) EVP_CIPH_CTRL_INIT = false /\
  has_flag (ec_flags cipher) EVP_CIPH_CUSTOM_IV = false /\ has_flag (ec_flags cipher) EVP_CIPH_FLAG_CUSTOM_IV_LENGTH = false.
Proof using HL. pose proof cipher_flags as [? [? [? [? _]%Forall_cons]%Forall_cons]%Forall_cons]%Forall_cons. by split_and!. Qed.

Lemma no_custom : has_flag (ec_flags cipher) EVP_CIPH_FLAG_CUSTOM_CIPHER = false.
Proof using HL. apply no_flags. Qed.

Lemma no_ccm : (EVP_CIPHER_mode cipher =? EVP_CIPH_CCM_MODE) = false.
Proof using HL. pose proof cipher_mode as H. unfold takes_iv, ignores_iv in H. destruct (Z.eqb_spec (EVP_CIPHER_mode cipher) EVP_CIPH_CCM_MODE) as [E|]; [by rewrite E in H|done]. Qed.

(** The context with the whole blocks [full] processed and [rest] in the buffer. *)
Definition buffering (full rest : list Z) (c : CTX) : Prop :=
  cx_cipher c = Some cipher /\ zlen full mod B = 0 /\ zlen rest = cx_partial_len c /\ 0 <= cx_partial_len c < B /\
  cipher_at full (cx_core c) /\ zlen (cc_buf (cx_core c)) = EVP_MAX_BLOCK_LENGTH /\ ztake (cx_partial_len c) (cc_buf (cx_core c)) = rest.

(** The output [out] takes the processed blocks from [full] to [full']. *)
Definition done_blocks (full out full' : list Z) : Prop :=
  F full' = F full ++ out /\ zlen full' = zlen full + zlen out /\ zlen full' mod B = 0 /\ Forall is_byte out.

Lemma done_nil full : zlen full mod B = 0 -> done_blocks full [] full.
Proof using. intros Hm. split; [by rewrite app_nil_r|]. split; [by rewrite zlen_nil, Z.add_0_r|by split]. Qed.

Lemma done_trans f1 o1 f2 o2 f3 : done_blocks f1 o1 f2 -> done_blocks f2 o2 f3 -> done_blocks f1 (o1 ++ o2) f3.
Proof using.
  intros (E1 & L1 & _ & B1) (E2 & L2 & M2 & B2). split; [by rewrite E2, E1, app_assoc|]. split; [rewrite zlen_app; lia|].
  split; [done|by apply Forall_app].
Qed.

(** What calls of encryption leave alone. *)
Definition same_flags (c c' : CTX) : Prop := cc_flags (cx_core c') = cc_flags (cx_core c) /\ cx_final_used c' = cx_final_used c /\ cx_final c' = cx_final c.

Lemma same_flags_refl c : same_flags c c.
Proof using HL. done. Qed.
Lemma same_flags_trans c1 c2 c3 : same_flags c1 c2 -> same_flags c2 c3 -> same_flags c1 c3.
Proof using HL. intros (? & ? & ?) (? & ? & ?). split; [congruence|]. split; congruence. Qed.

Lemma wp_the_cipher c (Q : EVP_CIPHER D -> CTX -> Prop) E : cx_cipher c = Some cipher -> Q cipher c -> wp the_cipher c Q E.
Proof using HL. intros Ec HQ. unfold the_cipher. apply wp_bind, wp_gets. cbn [id]. by eapply wp_valid. Qed.

(** Whole blocks. *)
Lemma wp_evp_cipher full c data (Q : list Z * Z -> CTX -> Prop) E :
  cx_cipher c = Some cipher -> cipher_at full (cx_core c) -> zlen (cc_buf (cx_core c)) = EVP_MAX_BLOCK_LENGTH ->
  Forall is_byte data -> 0 < zlen data <= INT_MAX -> zlen data mod B = 0 ->
  (forall out k', F (full ++ data) = F full ++ out -> zlen out = zlen data -> Forall is_byte out -> cipher_at (full ++ data) k' -> cc_flags k' = cc_flags (cx_core c) ->
     zlen (cc_buf k') = zlen (cc_buf (cx_core c)) -> (1 < B -> cc_buf k' = cc_buf (cx_core c)) -> Q (out, zlen data) (c <| cx_core := k' |>)) ->
  wp (evp_cipher (Some data)) c Q E.
Proof using HL.
  intros Ec Hat Hbuf0 Hb Hpos Hmod HQ. unfold evp_cipher. apply wp_bind, wp_the_cipher; [done|]. apply wp_bind.
  destruct (cipher_step full (cx_core c) data Hat Hbuf0 Hb Hpos Hmod) as (out & ret & k' & Ed & Hret & HF & Hl & Ho & Hat' & Hf & Hbuf & Hbuf').
  unfold wp at 1, on_core. rewrite Ed. rewrite no_custom. apply wp_bind, wp_check; [intros _|intros H; by apply negb_false_iff, Z.eqb_eq in H].
  apply wp_ret. by apply HQ.
Qed.

Lemma wp_put_buf (c : CTX) i data (Q : unit -> CTX -> Prop) E :
  0 <= i -> i + zlen data <= zlen (cc_buf (cx_core c)) ->
  (forall buf, zlen buf = zlen (cc_buf (cx_core c)) -> ztake (i + zlen data) buf = ztake i (cc_buf (cx_core c)) ++ data ->
     Q tt (c <| cx_core := (cx_core c) <| cc_buf := buf |> |>)) ->
  wp (put_buf i data) c Q E.
Proof using HL.
  intros Hi Hroom HQ. unfold put_buf, upd_core. apply wp_bind, wp_gets. cbn [id]. destruct (zwrite_fits (cc_buf (cx_core c)) i data Hi Hroom) as [buf Eb].
  apply wp_bind. eapply wp_valid; [exact Eb|]. apply wp_modify, HQ; [by apply (zlen_zwrite _ _ _ _ Eb)|by apply zwrite_take].
Qed.

(** *** Completing the buffered block *)

Lemma wp_fill_block full rest c data (Q : option (list Z * Z * list Z) -> CTX -> Prop) E :
  buffering full rest c -> Forall is_byte rest -> Forall is_byte data -> zlen data <= INT_MAX - B ->
  (forall c', same_flags c c' -> buffering full (rest ++ data) c' -> Q None c') ->
  (forall out full' data' c', same_flags c c' -> full ++ rest ++ data = full' ++ data' -> Forall is_byte data' -> zlen data' <= zlen data ->
     done_blocks full out full' -> zlen out + zlen data' <= zlen data + B ->
     cx_cipher c' = Some cipher -> cipher_at full' (cx_core c') -> zlen (cc_buf (cx_core c')) = EVP_MAX_BLOCK_LENGTH ->
     Q (Some (out, zlen out, data')) c') ->
  wp (fill_block B (cx_partial_len c) data) c Q E.
Proof using HL.
  intros (Ec & Hmod & Hrest & Hp & Hat & Hbuf & Htake) Hrb Hb Hlen HQ0 HQ1. pose proof (zlen_nonneg data). destruct cipher_B as [_ HB].
  unfold fill_block. destruct (Z.ltb_spec 0 (cx_partial_len c)) as [Hp0|Hp0].
  2: { apply wp_ret. assert (Er : rest = []) by (apply zlen_nil_inv; lia). rewrite Er in HQ1. apply (HQ1 [] full data); try done; [by apply done_nil|by rewrite zlen_nil; lia]. }
  destruct (Z.ltb_spec (zlen data) (B - cx_partial_len c)) as [Hless|Hfull].
  - apply wp_bind, wp_put_buf; [lia|unfold EVP_MAX_BLOCK_LENGTH in *; lia|]. intros buf Lb Tb. apply wp_bind, wp_modify, wp_ret, HQ0; [done|].
    split; [done|]. split; [done|]. cbn [cx_partial_len cx_core set_field cc_buf]. split; [rewrite zlen_app; lia|]. split; [lia|].
    split; [apply cipher_at_buf; [lia|done]|]. split; [lia|]. by rewrite Tb, Htake.
  - set (needed := B - cx_partial_len c) in *.
    assert (Hno : (INT_MAX - B <? Z.ldiff (zlen data - needed) (B - 1)) = false).
    { apply Z.ltb_ge. destruct (block_mask B (zlen data - needed) HB) as (_ & _ & Hld). specialize (Hld ltac:(lia)). lia. }
    rewrite Hno. apply wp_bind, wp_check; [intros _|done].
    assert (Ln : zlen (ztake needed data) = needed) by (apply zlen_ztake; lia).
    apply wp_bind, wp_put_buf; [lia|unfold EVP_MAX_BLOCK_LENGTH in *; lia|]. intros buf Lb Tb. rewrite Ln in Tb. replace (cx_partial_len c + needed) with B in Tb by lia.
    rewrite Htake in Tb. apply wp_bind, wp_gets. cbn [id cx_core cc_buf set_field]. apply wp_bind.
    eapply wp_valid; [apply octets_at_le; unfold EVP_MAX_BLOCK_LENGTH in *; lia|]. rewrite Tb. apply wp_bind.
    assert (Lblock : zlen (rest ++ ztake needed data) = B) by (rewrite zlen_app; lia).
    eapply (wp_evp_cipher full); [done|apply cipher_at_buf; [lia|done]|by rewrite <- Hbuf, <- Lb|apply Forall_app; split; [done|by apply Forall_ztake]|unfold INT_MAX in *; lia|rewrite Lblock; by apply Z.mod_same; lia|].
    intros out k' HF Lo Hob Hat' Hf Hbl Hbeq. rewrite Lblock in *. apply wp_ret.
    rewrite (ztake_all B out) by lia.
    assert (Hdone : done_blocks full out (full ++ rest ++ ztake needed data)).
    { split; [done|]. split; [by rewrite zlen_app, Lblock, Lo|]. split; [|done]. rewrite zlen_app, Lblock. apply mod_add_block; [done|apply Z.mod_same; lia]. }
    specialize (HQ1 out (full ++ rest ++ ztake needed data) (zdrop needed data)). rewrite Lo in HQ1. apply HQ1.
    + split; [exact Hf|done].
    + by rewrite <- !app_assoc, ztake_zdrop.
    + by apply Forall_zdrop.
    + rewrite zlen_zdrop by lia. lia.
    + done.
    + rewrite zlen_zdrop by lia. lia.
    + done.
    + done.
    + rewrite <- Hbuf, <- Lb. exact Hbl.
Qed.

(** *** The whole blocks of an input *)

Lemma wp_cipher_blocks full c out data (Q : list Z * Z -> CTX -> Prop) E :
  cx_cipher c = Some cipher -> zlen full mod B = 0 -> cipher_at full (cx_core c) -> zlen (cc_buf (cx_core c)) = EVP_MAX_BLOCK_LENGTH ->
  Forall is_byte data -> zlen out + zlen data <= INT_MAX ->
  (forall out' full' rest c', same_flags c c' -> full ++ data = full' ++ rest -> done_blocks full out' full' -> Forall is_byte rest ->
     buffering full' rest c' -> Q (out ++ out', zlen (out ++ out')) c') ->
  wp (cipher_blocks B out (zlen out) data) c Q E.
Proof using HL.
  intros Ec Hmod Hat Hbuf Hb Hlen HQ. pose proof (zlen_nonneg data). pose proof (zlen_nonneg out). destruct cipher_B as [_ HB].
  unfold cipher_blocks. destruct (block_mask B (zlen data) HB) as (-> & _ & _). cbv zeta.
  assert (Hr : 0 <= zlen data mod B < B) by (apply Z.mod_pos_bound; lia). pose proof (Z.mod_le (zlen data) B ltac:(lia) ltac:(lia)) as Hle.
  set (r := zlen data mod B) in *. set (n := zlen data - r) in *.
  assert (Hn : n mod B = 0) by (unfold n, r; rewrite Zminus_mod_idemp_r, Z.sub_diag; done).
  (* the buffer at the end *)
  assert (Hend : forall out' full' c1 E', same_flags c c1 -> done_blocks full out' full' -> full' = full ++ ztake n data -> cx_cipher c1 = Some cipher ->
    cipher_at full' (cx_core c1) -> zlen (cc_buf (cx_core c1)) = EVP_MAX_BLOCK_LENGTH ->
    wp (modify (fun c => c <| cx_partial_len := r |>);; (if 0 <? r then put_buf 0 (zdrop n data) else mret tt);; mret (out ++ out', zlen (out ++ out'))) c1 Q E').
  { intros out' full' c1 E' Hs Hd -> Ec1 Hat1 Hbuf1. apply wp_bind, wp_modify. apply wp_bind.
    assert (Lrest : zlen (zdrop n data) = r) by (rewrite zlen_zdrop by lia; lia).
    assert (Hfull : full ++ data = (full ++ ztake n data) ++ zdrop n data) by (by rewrite <- app_assoc, ztake_zdrop).
    destruct (Z.ltb_spec 0 r) as [Hr0|Hr0].
    - apply wp_put_buf; [lia|cbn [cx_core set_field]; unfold EVP_MAX_BLOCK_LENGTH in *; lia|]. intros buf Lb Tb. apply wp_ret.
      apply (HQ out' (full ++ ztake n data) (zdrop n data)); [done|done|done|by apply Forall_zdrop|].
      split; [done|]. split; [apply Hd|]. cbn [cx_partial_len cx_core set_field cc_buf]. split; [done|]. split; [done|].
      split; [apply cipher_at_buf; [lia|done]|]. split; [by rewrite Lb|]. by rewrite Z.add_0_l, Lrest, ztake_0 in Tb.
    - assert (E0 : r = 0) by lia. assert (Er : zdrop n data = []) by (apply zlen_nil_inv; lia). apply wp_ret.
      apply (HQ out' (full ++ ztake n data) (zdrop n data)); [done|done|done|by apply Forall_zdrop|].
      split; [done|]. split; [apply Hd|]. cbn [cx_partial_len cx_core set_field]. rewrite E0. split; [by rewrite Er|]. split; [lia|]. split; [done|]. split; [done|].
      by rewrite Er, ztake_0. }
  apply wp_bind. destruct (Z.ltb_spec 0 n) as [Hn0|Hn0].
  - assert (Ln : zlen (ztake n data) = n) by (apply zlen_ztake; lia).
    apply wp_bind, wp_check; [intros _|intros H1; apply negb_false_iff, Z.ltb_lt in H1; lia]. apply wp_bind.
    eapply (wp_evp_cipher full); [done|done|done|by apply Forall_ztake|lia|by rewrite Ln|].
    intros out' k' HF Lo Hob Hat' Hf Hbl _. rewrite Ln in *. apply wp_bind, wp_check; [intros _|intros H1; apply negb_false_iff, Z.ltb_lt in H1; lia].
    apply wp_ret. replace (zlen out + n) with (zlen (out ++ out')) by (rewrite zlen_app; lia). eapply Hend; [by split| |done|done|done|].
    + split; [done|]. split; [by rewrite zlen_app, Ln, Lo|]. split; [|done]. rewrite zlen_app, Ln. by apply mod_add_block.
    + by rewrite <- Hbuf.
  - apply wp_ret. assert (Et : ztake n data = []) by (replace n with 0 by lia; by rewrite ztake_0).
    pose proof (Hend [] full c E) as H1. rewrite Et, !app_nil_r in H1. apply H1; try done. by apply done_nil.
Qed.

(** *** An update *)

(** The data are behind what went before; whole blocks come out. *)
Lemma EncryptUpdate_ok full rest c data :
  buffering full rest c -> Forall is_byte rest -> Forall is_byte data -> zlen data <= INT_MAX - B ->
  wp (EVP_EncryptUpdate data) c
    (fun '(out, len) c' => exists full' rest', full ++ rest ++ data = full' ++ rest' /\ done_blocks full out full' /\ len = zlen out /\
       Forall is_byte rest' /\ buffering full' rest' c' /\ same_flags c c')
    (fun _ => False).
Proof using HL.
  intros Hbuf Hrb Hb Hlen. pose proof Hbuf as (Ec & Hmod & Hrest & Hp & Hat & Lbuf & Htake). pose proof (zlen_nonneg data).
  destruct cipher_B as [EB HB]. unfold EVP_EncryptUpdate. apply wp_bind, wp_the_cipher; [done|]. apply wp_bind, wp_gets. cbn [id]. rewrite EB.
  destruct (block_mask B (zlen data) HB) as (Emod & EBB & _). apply wp_bind, wp_check; [intros _|by rewrite EBB].
  rewrite no_ccm, andb_true_r, no_custom, Emod. destruct (Z.eqb_spec (zlen data) 0) as [E0|E0].
  { apply wp_ret. apply zlen_nil_inv in E0 as ->. exists full, rest. rewrite app_nil_r. split; [done|]. split; [by apply done_nil|]. by split_and!. }
  destruct (Z.eqb_spec (cx_partial_len c) 0) as [Ep|Ep]; cbn [andb]; [destruct (Z.eqb_spec (zlen data mod B) 0) as [Ed|Ed]|].
  { rewrite Ep in Hrest. apply zlen_nil_inv in Hrest as Er. rewrite Er. cbn [app].
    eapply (wp_evp_cipher full); [done|done|done|done|lia|done|]. intros out k' HF Lo Hob Hat' Hf Hbl _. exists (full ++ data), [].
    rewrite app_nil_r. split; [done|]. split.
    - split; [done|]. split; [by rewrite zlen_app, Lo|]. split; [|done]. rewrite zlen_app. by apply mod_add_block.
    - split; [done|]. split; [constructor|]. split; [|by split]. split; [done|]. split; [rewrite zlen_app; by apply mod_add_block|].
      cbn [cx_partial_len cx_core set_field]. rewrite Ep. split; [done|]. split; [lia|]. split; [done|]. split; [lia|]. by rewrite ztake_0. }
  all: apply wp_bind, wp_check; [intros _|intros H1; apply negb_false_iff in H1; unfold EVP_MAX_BLOCK_LENGTH in H1; exfalso;
    apply orb_prop in H1 as [[H1%Z.ltb_lt|H1%Z.leb_le]%orb_prop|H1%Z.ltb_lt]; lia].
  all: apply wp_bind; eapply wp_fill_block; [exact Hbuf|done|done|done| |].
  all: try (intros c' Hs Hb'; apply wp_ret; exists full, (rest ++ data); split; [done|]; split; [by apply done_nil|]; split; [done|]; split; [by apply Forall_app|by split]).
  all: intros out full' data' c' Hs Heq Hb' Hle Hd Hsum Ec' Hat' Lbuf'; eapply (wp_cipher_blocks full'); [done|apply Hd|done|done|done|lia|].
  all: intros out' full2 rest2 c2 Hs2 Heq2 Hd2 Hb2 Hbuf2; exists full2, rest2; split; [congruence|]; split; [by eapply done_trans|]; split; [done|]; split; [done|]; split; [done|by eapply same_flags_trans].
Qed.

(** *** All updates of a message *)

(** The pieces of a message, and what the calls write. *)
Fixpoint cipher_updates (update : list Z -> M CTX (list Z * Z)) (ms : list (list Z)) : M CTX (list Z) :=
  match ms with
  | [] => mret []
  | m :: ms => '(out, len) ← update m; outs ← cipher_updates update ms; mret (ztake len out ++ outs)
  end.

(** A piece that the calls take. *)
Definition piece (m : list Z) : Prop := Forall is_byte m /\ zlen m <= INT_MAX - B.

Lemma cipher_updates_ok update flags :
  (forall full rest c data, cc_flags (cx_core c) = flags -> buffering full rest c -> Forall is_byte rest -> piece data ->
     wp (update data) c
       (fun '(out, len) c' => exists full' rest', full ++ rest ++ data = full' ++ rest' /\ done_blocks full out full' /\ len = zlen out /\
          Forall is_byte rest' /\ buffering full' rest' c' /\ same_flags c c')
       (fun _ => False)) ->
  forall ms full rest c, cc_flags (cx_core c) = flags -> buffering full rest c -> Forall is_byte rest -> Forall piece ms ->
  wp (cipher_updates update ms) c
    (fun out c' => exists full' rest', full ++ rest ++ concat ms = full' ++ rest' /\ done_blocks full out full' /\
       Forall is_byte rest' /\ buffering full' rest' c' /\ same_flags c c')
    (fun _ => False).
Proof using HL.
  intros Hupdate. induction ms as [|m ms IH]; intros full rest c Hfl Hbuf Hrb Hms; cbn [cipher_updates concat].
  - apply wp_ret. exists full, rest. rewrite app_nil_r. split; [done|]. split; [apply done_nil, Hbuf|]. by split_and!.
  - apply Forall_cons in Hms as [Hm Hms]. apply wp_bind. eapply wp_conseq; [by apply (Hupdate full rest c m)| |done].
    intros [out len] c1 (full1 & rest1 & E1 & Hd1 & -> & Hr1 & Hb1 & Hs1). apply wp_bind.
    eapply wp_conseq; [apply (IH full1 rest1 c1); [by rewrite (proj1 Hs1)|done..]| |done].
    intros outs c2 (full2 & rest2 & E2 & Hd2 & Hr2 & Hb2 & Hs2). apply wp_ret. exists full2, rest2. rewrite ztake_all by done.
    split; [by rewrite <- E2, !app_assoc, <- E1, !app_assoc|]. split; [by eapply done_trans|]. split; [done|]. split; [done|by eapply same_flags_trans].
Qed.

Lemma encrypt_updates ms full rest c :
  buffering full rest c -> Forall is_byte rest -> Forall piece ms ->
  wp (cipher_updates EVP_EncryptUpdate ms) c
    (fun out c' => exists full' rest', full ++ rest ++ concat ms = full' ++ rest' /\ done_blocks full out full' /\
       Forall is_byte rest' /\ buffering full' rest' c' /\ same_flags c c')
    (fun _ => False).
Proof using HL.
  intros. eapply cipher_updates_ok; [|done..]. intros ? ? ? ? _ ? ? [? ?]. by apply EncryptUpdate_ok.
Qed.

(** What is encrypted for a message: nothing is added for a stream cipher and without
    padding. *)
Definition padded (pad : bool) (m : list Z) : option (list Z) :=
  if B =? 1 then Some m
  else if pad then Some (pkcs_pad B m)
  else if zlen m mod B =? 0 then Some m
  else None.

Definition padding (c : CTX) : bool := negb (has_flag (cc_flags (cx_core c)) EVP_CIPH_NO_PADDING).

Lemma rest_mod full rest c : buffering full rest c -> zlen (full ++ rest) mod B = zlen rest.
Proof using HL.
  intros (_ & Hm & Hr & Hp & _). destruct cipher_B as [_ HB]. rewrite zlen_app, Z.add_mod, Hm, Z.add_0_l, Z.mod_mod by lia. apply Z.mod_small. lia.
Qed.

Lemma EncryptFinal_ok full rest c :
  buffering full rest c -> Forall is_byte rest ->
  wp EVP_EncryptFinal_ex c
    (fun '(out, len) c' => len = zlen out /\ exists p, padded (padding c) (full ++ rest) = Some p /\ done_blocks full out p)
    (fun _ => padded (padding c) (full ++ rest) = None).
Proof using HL.
  intros Hbuf Hrb. pose proof (rest_mod full rest c Hbuf) as Hmod'. pose proof Hbuf as (Ec & Hmod & Hrest & Hp & Hat & Lbuf & Htake). destruct cipher_B as [EB HB].
  unfold EVP_EncryptFinal_ex. apply wp_bind, wp_the_cipher; [done|]. apply wp_bind, wp_gets. cbn [id]. rewrite EB, no_custom.
  apply wp_bind, wp_check; [intros _|intros H1; apply negb_false_iff in H1; unfold EVP_MAX_BLOCK_LENGTH in H1; exfalso;
    apply orb_prop in H1 as [[H1%Z.ltb_lt|H1%Z.leb_le]%orb_prop|H1%Z.ltb_lt]; lia].
  unfold padded, padding. rewrite Hmod', Hrest.
  assert (Hnone : cx_partial_len c = 0 -> done_blocks full [] (full ++ rest)).
  { intros E0. assert (rest = []) as -> by (apply zlen_nil_inv; lia). rewrite app_nil_r. by apply done_nil. }
  destruct (Z.eqb_spec B 1) as [E1|E1].
  { apply wp_ret. split; [done|]. exists (full ++ rest). split; [done|]. apply Hnone. lia. }
  destruct (has_flag (cc_flags (cx_core c)) EVP_CIPH_NO_PADDING); cbn [negb].
  { apply wp_bind, wp_check; intros H1; rewrite H1; [|done]. apply wp_ret. split; [done|]. exists (full ++ rest). split; [done|]. apply Hnone. lia. }
  set (k := B - cx_partial_len c). assert (Lk : zlen (zrep k (u8 k)) = k) by (apply zlen_rep; lia).
  assert (Ek : u8 k = k) by (unfold u8; apply Z.mod_small; lia).
  apply wp_bind, wp_put_buf; [lia|unfold EVP_MAX_BLOCK_LENGTH in *; lia|]. intros buf Lb Tb. rewrite Lk, Htake, Ek in Tb. replace (cx_partial_len c + k) with B in Tb by lia.
  apply wp_bind, wp_gets. cbn [id cx_core cc_buf set_field]. apply wp_bind.
  eapply wp_valid; [apply octets_at_le; unfold EVP_MAX_BLOCK_LENGTH in *; lia|]. rewrite Tb.
  assert (Lblock : zlen (rest ++ zrep k k) = B) by (rewrite zlen_app, zlen_rep by lia; lia).
  eapply (wp_evp_cipher full); [done|apply cipher_at_buf; [lia|done]|by rewrite <- Lbuf, <- Lb|apply Forall_app; split; [done|apply is_byte_zrep; unfold is_byte; lia]|unfold INT_MAX; lia|rewrite Lblock; apply Z.mod_same; lia|].
  intros out k' HF Lo Hob _ _ _ _. split; [lia|]. unfold pkcs_pad. rewrite Hmod', Hrest. fold k. exists ((full ++ rest) ++ zrep k k). split; [done|].
  rewrite <- app_assoc. split; [done|]. split; [rewrite zlen_app; lia|]. split; [|done]. rewrite zlen_app, Lblock. apply mod_add_block; [done|apply Z.mod_same; lia].
Qed.

(** A message from initialised context to the end. *)
Definition encrypt_rest (ms : list (list Z)) : M CTX (list Z) :=
  out ← cipher_updates EVP_EncryptUpdate ms; '(last, len) ← EVP_EncryptFinal_ex; mret (out ++ ztake len last).

(** A context as EVP_CipherInit_ex leaves it. *)
Definition ready (c : CTX) : Prop := buffering [] [] c /\ cx_final_used c = 0 /\ zlen (cx_final c) = EVP_MAX_BLOCK_LENGTH.

Lemma encrypt_rest_ok ms c :
  ready c -> Forall piece ms ->
  wp (encrypt_rest ms) c (fun out _ => exists p, padded (padding c) (concat ms) = Some p /\ out = F p /\ zlen out = zlen p /\ zlen p mod B = 0 /\ Forall is_byte out)
    (fun _ => padded (padding c) (concat ms) = None).
Proof using HL.
  intros (Hbuf & _ & _) Hms. unfold encrypt_rest. apply wp_bind. eapply wp_conseq; [by apply (encrypt_updates ms [] [] c)| |done].
  intros out c1 (full & rest & E & Hd & Hr & Hb & (Hf & _ & _)). cbn [app] in E. apply wp_bind.
  assert (Ep : padding c1 = padding c) by (unfold padding; by rewrite Hf).
  eapply wp_conseq; [by apply (EncryptFinal_ok full rest c1)| |]; rewrite <- E, Ep; [|done].
  intros [last len] c2 (-> & p & Hp & Hd2). apply wp_ret. exists p. split; [done|]. rewrite ztake_all by done.
  destruct (done_trans _ _ _ _ _ Hd Hd2) as (HF & HL' & Hm & Hob). rewrite cipher_nil in HF. by rewrite zlen_nil in HL'.
Qed.

(** *** Decryption *)

(** What has come out, [shown], and the block kept back are the decrypted blocks. *)
Definition decrypting (full rest shown : list Z) (c : CTX) : Prop :=
  buffering full rest c /\ Forall is_byte rest /\ Forall is_byte (F full) /\ zlen (F full) = zlen full /\ zlen (cx_final c) = EVP_MAX_BLOCK_LENGTH /\
  F full = shown ++ (if cx_final_used c =? 0 then [] else ztake B (cx_final c)) /\
  (if (1 <? B) && bool_decide (rest = []) && bool_decide (full <> []) then cx_final_used c <> 0 else cx_final_used c = 0).

Lemma wp_keep_last c out (Q : Z -> CTX -> Prop) E :
  zlen (cx_final c) = EVP_MAX_BLOCK_LENGTH -> (1 < B -> cx_partial_len c = 0 -> B <= zlen out) ->
  (((1 <? B) && (cx_partial_len c =? 0)) = false -> Q (zlen out) c) ->
  (forall final, ((1 <? B) && (cx_partial_len c =? 0)) = true -> zlen final = EVP_MAX_BLOCK_LENGTH -> ztake B final = zdrop (zlen out - B) out -> Q (zlen out - B) (c <| cx_final := final |> <| cx_final_used := 1 |>)) ->
  wp (keep_last B out (zlen out)) c Q E.
Proof using HL.
  intros Hfin Hroom HQ0 HQ1. destruct cipher_B as [_ HB]. unfold keep_last. apply wp_bind, wp_gets. cbn [id].
  destruct ((1 <? B) && (cx_partial_len c =? 0)) eqn:Ek; [|by apply wp_ret, HQ0].
  pose proof Ek as [H1%Z.ltb_lt H2%Z.eqb_eq]%andb_prop. specialize (Hroom H1 H2).
  apply wp_bind, wp_check; [intros _|intros H3; apply negb_false_iff, Z.ltb_lt in H3; lia]. apply wp_bind.
  assert (Ld : zlen (zdrop (zlen out - B) out) = B) by (rewrite zlen_zdrop by lia; lia).
  destruct (zwrite_fits (cx_final c) 0 (zdrop (zlen out - B) out) ltac:(lia)) as [final Ef]; [unfold EVP_MAX_BLOCK_LENGTH in Hfin; lia|].
  eapply wp_valid; [unfold copy_into; rewrite octets_at_all by lia; exact Ef|]. apply wp_bind, wp_modify, wp_ret, HQ1; [done| |].
  - by rewrite (zlen_zwrite _ _ _ _ Ef).
  - apply zwrite_take in Ef. by rewrite Z.add_0_l, Ld, ztake_0 in Ef.
Qed.

(** The blocks of the data between two states. *)
Lemma blocks_out full rest data full' rest' out c' :
  full ++ rest ++ data = full' ++ rest' -> done_blocks full out full' -> zlen full mod B = 0 -> buffering full' rest' c' -> 0 < zlen data ->
  zlen out <= zlen rest + zlen data /\ (cx_partial_len c' = 0 -> B <= zlen out).
Proof using HL.
  intros E (_ & L & Hm & _) Hm0 (_ & _ & Hr & Hp & _) Hd. destruct cipher_B as [_ HB].
  apply (f_equal zlen) in E. rewrite !zlen_app in E. pose proof (zlen_nonneg rest). pose proof (zlen_nonneg out).
  split; [lia|]. intros E0. rewrite L, Z.add_mod, Hm0, Z.add_0_l, Z.mod_mod in Hm by lia. apply Z.mod_divide in Hm as [q Hq]; [nia|lia].
Qed.

Lemma DecryptUpdate_ok full rest shown c data :
  decrypting full rest shown c -> padding c = true -> piece data ->
  wp (EVP_DecryptUpdate data) c
    (fun '(out, len) c' => exists full' rest', full ++ rest ++ data = full' ++ rest' /\ decrypting full' rest' (shown ++ ztake len out) c' /\ padding c' = true)
    (fun _ => False).
Proof using HL.
  intros (Hbuf & Hrb & HbF & HlF & Hfin & Hshown & Hused) Hpad [Hb Hlen]. pose proof Hbuf as (Ec & Hmod & Hrest & Hp & _). pose proof (zlen_nonneg data).
  destruct cipher_B as [EB HB]. unfold EVP_DecryptUpdate. apply wp_bind, wp_the_cipher; [done|]. apply wp_bind, wp_gets. cbn [id]. rewrite EB.
  destruct (block_mask B (zlen data) HB) as (_ & EBB & Hld). specialize (Hld ltac:(lia)). apply wp_bind, wp_check; [intros _|by rewrite EBB].
  rewrite no_ccm, andb_true_r, no_custom. destruct (Z.eqb_spec (zlen data) 0) as [E0|E0].
  { apply wp_ret. apply zlen_nil_inv in E0 as ->. exists full, rest. rewrite !app_nil_r. by split_and!. }
  pose proof Hpad as Hpad'. unfold padding in Hpad'. apply negb_true_iff in Hpad'. rewrite Hpad'.
  apply wp_bind, wp_check; [intros _|intros H1; apply negb_false_iff, Z.ltb_lt in H1; unfold EVP_MAX_BLOCK_LENGTH in H1; lia].
  set (held := if cx_final_used c =? 0 then [] else ztake B (cx_final c)) in *.
  assert (Lfin : zlen (ztake B (cx_final c)) = B) by (apply zlen_ztake; unfold EVP_MAX_BLOCK_LENGTH in Hfin; lia).
  assert (Hheld : zlen held = if cx_final_used c =? 0 then 0 else B) by (unfold held; by destruct (cx_final_used c =? 0)).
  apply wp_bind. eapply (wp_conseq _ _ _ (fun p c' => p = (held, zlen held) /\ c' = c) _ (fun _ => False)); [| |done].
  { unfold held. destruct (cx_final_used c =? 0); cbn [negb]; [by apply wp_ret|]. rewrite Lfin.
    apply wp_bind, wp_check; [intros _|intros H1; apply negb_false_iff, Z.ltb_lt in H1; lia].
    apply wp_bind. eapply wp_valid; [apply octets_at_le; unfold EVP_MAX_BLOCK_LENGTH in *; lia|]. by apply wp_ret. }
  intros ? ? [-> ->]. apply wp_bind, wp_modify. apply wp_bind.
  eapply wp_conseq; [apply (EncryptUpdate_ok full rest (c <| cx_final_used := 0 |>) data); [exact Hbuf|done|done|done]| |done].
  intros [out len] c1 (full1 & rest1 & E1 & Hd1 & -> & Hr1 & Hb1 & (Hf1 & Hu1 & Hfin1)).
  destruct (blocks_out _ _ _ _ _ _ _ E1 Hd1 Hmod Hb1 ltac:(lia)) as [Lout Lblock]. pose proof Hd1 as (HF1 & L1 & Hm1 & Hob1).
  pose proof Hb1 as (_ & _ & Hrest1 & Hp1 & _).
  assert (Hsmall : zlen held + zlen out <= INT_MAX + B /\ (zlen held + (zlen out - (if (1 <? B) && (cx_partial_len c1 =? 0) then B else 0)) <= INT_MAX)).
  { rewrite Hheld. destruct (Z.eqb_spec (cx_final_used c) 0) as [Eu|Eu].
    - destruct ((1 <? B) && (cx_partial_len c1 =? 0)); lia.
    - destruct ((1 <? B) && bool_decide (rest = []) && bool_decide (full <> [])) eqn:Eb; [|done].
      apply andb_prop in Eb as [[_ Er%bool_decide_eq_true]%andb_prop _]. rewrite Er, zlen_nil in Lout. destruct ((1 <? B) && (cx_partial_len c1 =? 0)); lia. }
  pose proof (zlen_nonneg held). pose proof (zlen_nonneg out).
  assert (Hpad1 : padding c1 = true) by (unfold padding; rewrite Hf1; exact Hpad).
  assert (Hne : full1 ++ rest1 <> []) by (rewrite <- E1; intros En; apply (f_equal zlen) in En; rewrite !zlen_app, zlen_nil in En; pose proof (zlen_nonneg full); pose proof (zlen_nonneg rest); lia).
  assert (Hdec : forall c2 shown2, buffering full1 rest1 c2 -> zlen (cx_final c2) = EVP_MAX_BLOCK_LENGTH -> 
    (shown ++ held) ++ out = shown2 ++ (if cx_final_used c2 =? 0 then [] else ztake B (cx_final c2)) ->
    (if (1 <? B) && (cx_partial_len c1 =? 0) then cx_final_used c2 <> 0 else cx_final_used c2 = 0) ->
    decrypting full1 rest1 shown2 c2).
  { intros c2 shown2 Hb2 Hl2 Hs2 Hu2. split; [done|]. split; [done|]. split; [rewrite HF1; by apply Forall_app|]. split; [rewrite HF1, zlen_app; lia|]. split; [done|].
    split; [by rewrite HF1, Hshown, Hs2|]. replace ((1 <? B) && bool_decide (rest1 = []) && bool_decide (full1 <> [])) with ((1 <? B) && (cx_partial_len c1 =? 0)); [done|].
    destruct (1 <? B); [cbn [andb]|done]. destruct (Z.eqb_spec (cx_partial_len c1) 0) as [Ep|Ep].
    - assert (rest1 = []) as -> by (apply zlen_nil_inv; lia). rewrite !bool_decide_eq_true_2; [done|by rewrite app_nil_r in Hne|done].
    - rewrite (bool_decide_eq_false_2 (rest1 = [])); [done|]. intros ->. rewrite zlen_nil in Hrest1. lia. }
  apply wp_bind, wp_keep_last.
  - by rewrite Hfin1.
  - intros _ Ep. by apply Lblock.
  - intros Ek. rewrite Ek in *. apply wp_bind, wp_check; [intros _|intros Hc; apply negb_false_iff, Z.ltb_lt in Hc; lia]. apply wp_ret. exists full1, rest1.
    split; [done|]. split; [|exact Hpad1]. apply Hdec; [done|by rewrite Hfin1| |by rewrite Hu1].
    rewrite Hu1. cbn [cx_final_used set_field Z.eqb]. rewrite app_nil_r, (ztake_all _ (held ++ out)) by (rewrite zlen_app; lia). by rewrite app_assoc.
  - intros final Ek Lf Tf. rewrite Ek in *. apply andb_prop in Ek as [_ Ep%Z.eqb_eq]. specialize (Lblock Ep).
    apply wp_bind, wp_check; [intros _|intros Hc; apply negb_false_iff, Z.ltb_lt in Hc; lia]. apply wp_ret. exists full1, rest1.
    split; [done|]. split; [|exact Hpad1]. apply Hdec; [exact Hb1|done| |done].
    cbn [cx_final_used cx_final set_field Z.eqb]. rewrite Tf. rewrite ztake_app_ge by lia. replace (zlen held + (zlen out - B) - zlen held) with (zlen out - B) by lia.
    rewrite <- !app_assoc. do 2 f_equal. by rewrite ztake_zdrop.
Qed.

(** Without padding, decryption is the same as encryption. *)
Lemma DecryptUpdate_raw full rest c data :
  padding c = false -> buffering full rest c -> Forall is_byte rest -> piece data ->
  wp (EVP_DecryptUpdate data) c
    (fun '(out, len) c' => exists full' rest', full ++ rest ++ data = full' ++ rest' /\ done_blocks full out full' /\ len = zlen out /\
       Forall is_byte rest' /\ buffering full' rest' c' /\ same_flags c c')
    (fun _ => False).
Proof using HL.
  intros Hpad Hbuf Hrb [Hb Hl]. pose proof Hbuf as (Ec & Hmod & _). destruct cipher_B as [EB HB].
  unfold EVP_DecryptUpdate. apply wp_bind, wp_the_cipher; [done|]. apply wp_bind, wp_gets. cbn [id]. rewrite EB.
  destruct (block_mask B (zlen data) HB) as (_ & EBB & _). apply wp_bind, wp_check; [intros _|by rewrite EBB].
  rewrite no_ccm, andb_true_r, no_custom. unfold padding in Hpad. apply negb_false_iff in Hpad. rewrite Hpad.
  destruct (Z.eqb_spec (zlen data) 0) as [E0|E0]; [|by apply EncryptUpdate_ok].
  apply wp_ret. apply zlen_nil_inv in E0 as ->. exists full, rest. rewrite app_nil_r. split; [done|]. split; [by apply done_nil|]. by split_and!.
Qed.

Lemma decrypt_updates ms : forall full rest shown c,
  decrypting full rest shown c -> padding c = true -> Forall piece ms ->
  wp (cipher_updates EVP_DecryptUpdate ms) c
    (fun out c' => exists full' rest', full ++ rest ++ concat ms = full' ++ rest' /\ decrypting full' rest' (shown ++ out) c' /\ padding c' = true)
    (fun _ => False).
Proof using HL.
  induction ms as [|m ms IH]; intros full rest shown c Hdec Hpad Hms; cbn [cipher_updates concat].
  - apply wp_ret. exists full, rest. by rewrite !app_nil_r.
  - apply Forall_cons in Hms as [Hm Hms]. apply wp_bind. eapply wp_conseq; [by apply (DecryptUpdate_ok full rest shown c m)| |done].
    intros [out len] c1 (full1 & rest1 & E1 & Hd1 & Hp1). apply wp_bind. eapply wp_conseq; [by apply (IH full1 rest1 (shown ++ ztake len out) c1)| |done].
    intros outs c2 (full2 & rest2 & E2 & Hd2 & Hp2). apply wp_ret. exists full2, rest2. rewrite <- app_assoc in Hd2.
    split; [by rewrite <- E2, !app_assoc, <- E1, !app_assoc|done].
Qed.

(** *** The last block *)

Lemma zget_zrep {A} n i (x : A) : 0 <= i < n -> zget (zrep n x) i = Some x.
Proof using. intros Hi. unfold zget, zrep. rewrite (proj2 (Z.leb_le _ _)) by lia. apply lookup_replicate_2. lia. Qed.

Lemma all_equal (l : list Z) x : forallb (fun y => y =? x) l = true <-> l = zrep (zlen l) x.
Proof using.
  unfold zrep, zlen. rewrite Nat2Z.id. induction l as [|y l IH]; [done|]. cbn [forallb length replicate]. rewrite andb_true_iff, IH, Z.eqb_eq.
  split; [by intros [-> <-]|]. by intros [= -> <-].
Qed.

Lemma pkcs_unpad shown fin pad : 1 < B -> zlen shown mod B = 0 -> zlen fin = B -> zget fin (B - 1) = Some pad ->
  (0 < pad <= B -> zdrop (B - pad) fin = zrep pad pad -> pkcs_pad B (shown ++ ztake (B - pad) fin) = shown ++ fin) /\
  (forall m, pkcs_pad B m = shown ++ fin -> 0 < pad <= B /\ zdrop (B - pad) fin = zrep pad pad).
Proof using.
  intros HB Hmod Hfin Hget. split.
  - intros Hpad Hd. unfold pkcs_pad. rewrite zlen_app, Z.add_mod, Hmod, Z.add_0_l, Z.mod_mod, zlen_ztake by lia.
    rewrite (Z.mod_small (B - pad)) by lia. replace (B - (B - pad)) with pad by lia. rewrite <- Hd, <- app_assoc. by rewrite ztake_zdrop.
  - intros m E. unfold pkcs_pad in E. assert (Hr : 0 <= zlen m mod B < B) by (apply Z.mod_pos_bound; lia). set (k := B - zlen m mod B) in *.
    assert (Hl : zlen m = zlen shown + (B - k)) by (apply (f_equal zlen) in E; rewrite !zlen_app, zlen_rep, Hfin in E; lia).
    assert (Hd : zdrop (B - k) fin = zrep k k).
    { apply (f_equal (zdrop (zlen m))) in E. rewrite zdrop_app_exact, Hl, zdrop_app_ge in E by lia. rewrite E. f_equal. lia. }
    assert (Hk : pad = k).
    { pose proof (zget_zdrop fin (B - k) (k - 1) ltac:(lia) ltac:(lia)) as Hz. rewrite Hd, zget_zrep in Hz by lia. replace (B - k + (k - 1)) with (B - 1) in Hz by lia. congruence. }
    rewrite Hk. split; [lia|done].
Qed.

(** The message that [full], as a ciphertext, stands for. *)
Definition plaintext_of (pad : bool) (ct m : list Z) : Prop :=
  Forall is_byte m /\ zlen ct mod B = 0 /\ padded pad m = Some (F ct).

Lemma DecryptFinal_ok full rest shown c :
  decrypting full rest shown c -> padding c = true ->
  wp EVP_DecryptFinal_ex c (fun '(out, len) _ => len = zlen out /\ plaintext_of true (full ++ rest) (shown ++ out)) (fun _ => forall m, ~ plaintext_of true (full ++ rest) m).
Proof using HL.
  intros (Hbuf & Hrb & HbF & HlF & Hfin & Hshown & Hused) Hpad. pose proof (rest_mod full rest c Hbuf) as Hmod'.
  pose proof Hbuf as (Ec & Hmod & Hrest & Hp & _). destruct cipher_B as [EB HB].
  unfold EVP_DecryptFinal_ex. apply wp_bind, wp_the_cipher; [done|]. apply wp_bind, wp_gets. cbn [id]. rewrite EB, no_custom.
  pose proof Hpad as Hpad'. unfold padding in Hpad'. apply negb_true_iff in Hpad'. rewrite Hpad'. unfold plaintext_of, padded.
  destruct (Z.eqb_spec B 1) as [E1|E1].
  { assert (rest = []) as -> by (apply zlen_nil_inv; lia). rewrite E1 in Hused. cbn in Hused. rewrite Hused in Hshown. cbn [Z.eqb] in Hshown.
    rewrite app_nil_r in Hshown. apply wp_ret. split; [done|]. rewrite !app_nil_r, <- Hshown. by split_and!. }
  rewrite (proj2 (Z.ltb_lt 1 B)) in Hused by lia. cbn [andb] in Hused.
  apply wp_bind, wp_check; [intros Hc|intros Hc].
  2: { apply negb_false_iff in Hc. intros m (_ & Hm & E). rewrite Hmod' in Hm. apply zlen_nil_inv in Hm. rewrite Hm in *.
    apply orb_prop in Hc as [Hc%negb_true_iff%Z.eqb_neq|Hc%Z.eqb_eq]; [rewrite zlen_nil in Hrest; lia|].
    destruct (bool_decide (full <> [])) eqn:Ef; [done|]. apply bool_decide_eq_false in Ef. apply dec_stable in Ef as ->.
    rewrite cipher_nil in E. injection E as E. apply (f_equal zlen) in E. unfold pkcs_pad in E. rewrite zlen_app, zlen_nil in E.
    assert (0 <= zlen m mod B < B) by (apply Z.mod_pos_bound; lia). rewrite zlen_rep in E by lia. pose proof (zlen_nonneg m). lia. }
  apply negb_true_iff, orb_false_elim in Hc as [Hc1%negb_false_iff%Z.eqb_eq Hc2%Z.eqb_neq].
  assert (rest = []) as -> by (apply zlen_nil_inv; lia). rewrite app_nil_r. clear Hused. rewrite (proj2 (Z.eqb_neq _ _) Hc2) in Hshown.
  apply wp_bind, wp_check; [intros _|intros Hc; apply negb_false_iff, Z.ltb_lt in Hc; unfold EVP_MAX_BLOCK_LENGTH in Hc; lia].
  unfold EVP_MAX_BLOCK_LENGTH in *. set (fin := ztake B (cx_final c)) in *. assert (Lfin : zlen fin = B) by (apply zlen_ztake; lia).
  destruct (zget_Some fin (B - 1) ltac:(lia)) as [pad Hget]. assert (Hget' : zget (cx_final c) (B - 1) = Some pad) by (rewrite <- Hget; symmetry; apply zget_ztake; lia).
  assert (Hs : zlen shown mod B = 0) by (rewrite <- HlF, Hshown, zlen_app, Lfin in Hmod; rewrite <- (Z.mod_add _ 1), Z.mul_1_l by lia; done).
  destruct (pkcs_unpad shown fin pad ltac:(lia) Hs Lfin Hget) as [Hunpad Honly].
  apply wp_bind. eapply wp_valid; [exact Hget'|]. apply wp_bind, wp_check; [intros Hc|intros Hc].
  2: { apply negb_false_iff in Hc. intros m (_ & _ & E). injection E as E. rewrite Hshown in E. apply Honly in E as [E _].
    apply orb_prop in Hc as [Hc%Z.leb_le|Hc%Z.ltb_lt]; lia. }
  apply negb_true_iff, orb_false_elim in Hc as [Hc3%Z.leb_gt Hc4%Z.ltb_ge].
  assert (Etail : ztake pad (zdrop (B - pad) (cx_final c)) = zdrop (B - pad) fin) by (unfold fin; rewrite zdrop_ztake by lia; f_equal; lia).
  assert (Ltail : zlen (zdrop (B - pad) fin) = pad) by (rewrite zlen_zdrop by lia; lia).
  apply wp_bind. eapply wp_valid; [apply octets_at_le; rewrite zlen_zdrop by lia; lia|]. rewrite Etail.
  apply wp_bind, wp_check; [intros Hc%all_equal|intros Hc].
  2: { intros m (_ & _ & E). injection E as E. rewrite Hshown in E. apply Honly in E as [_ E]. rewrite <- Ltail in E at 2. apply all_equal in E. congruence. }
  rewrite Ltail in Hc. apply wp_bind. eapply wp_valid; [apply octets_at_le; lia|]. apply wp_ret. split; [by rewrite zlen_ztake by lia|].
  assert (Etk : ztake (B - pad) (cx_final c) = ztake (B - pad) fin) by (unfold fin; by rewrite ztake_ztake by lia). rewrite Etk.
  split; [|split; [done|by rewrite Hshown, Hunpad by done]].
  rewrite Hshown in HbF. apply Forall_app in HbF as [? ?]. apply Forall_app. split; [done|by apply Forall_ztake].
Qed.

Definition decrypt_rest (ms : list (list Z)) : M CTX (list Z) :=
  out ← cipher_updates EVP_DecryptUpdate ms; '(last, len) ← EVP_DecryptFinal_ex; mret (out ++ ztake len last).

Lemma decrypt_rest_ok ms c :
  ready c -> Forall piece ms ->
  wp (decrypt_rest ms) c (fun m _ => plaintext_of (padding c) (concat ms) m) (fun _ => forall m, ~ plaintext_of (padding c) (concat ms) m).
Proof using HL.
  intros (Hbuf & Hused & Hfin) Hms. unfold decrypt_rest. apply wp_bind. destruct (padding c) eqn:Hpad.
  - eapply wp_conseq; [apply (decrypt_updates ms [] [] [] c); [|done|done]| |done].
    + split; [done|]. split; [constructor|]. rewrite cipher_nil. split; [constructor|]. split; [done|]. split; [done|]. rewrite Hused. split; [done|].
      by destruct (1 <? B).
    + intros out c1 (full & rest & E & Hdec & Hp1). cbn [app] in E. rewrite E. apply wp_bind. eapply wp_conseq; [by apply (DecryptFinal_ok full rest out c1)| |done].
      intros [last len] c2 [-> H]. apply wp_ret. by rewrite ztake_all.
  - eapply wp_conseq; [apply (cipher_updates_ok EVP_DecryptUpdate (cc_flags (cx_core c))) with (full := []) (rest := []); [|done..]| |done].
    + intros full rest c1 data Ef Hb1 Hr1 Hm. apply DecryptUpdate_raw; [|done..]. unfold padding in *. by rewrite Ef.
    + intros out c1 (full & rest & E & Hd & Hr & Hb & (Hf & _ & _)). cbn [app] in E. rewrite E. pose proof (rest_mod full rest c1 Hb) as Hmod'.
      pose proof Hb as (Ec & Hmod & Hrest & Hp & _). destruct cipher_B as [EB HB]. apply wp_bind.
      unfold EVP_DecryptFinal_ex. apply wp_bind, wp_the_cipher; [done|]. apply wp_bind, wp_gets. cbn [id]. rewrite EB, no_custom.
      unfold padding in Hpad. apply negb_false_iff in Hpad. rewrite Hf, Hpad. unfold plaintext_of, padded.
      apply wp_bind, wp_check; intros Hc; [apply Z.eqb_eq in Hc|apply Z.eqb_neq in Hc].
      * apply wp_ret, wp_ret. assert (rest = []) as -> by (apply zlen_nil_inv; lia). rewrite !app_nil_r. destruct Hd as (HF & HL' & Hm & Hob).
        rewrite cipher_nil in HF. cbn [app] in HF. rewrite zlen_nil, Z.add_0_l in HL'. rewrite HF, <- HL', Hm. split; [done|]. split; [done|]. by destruct (B =? 1).
      * intros m (_ & Hm & _). lia.
Qed.

(** *** Initialisation *)

Context (malloc_ok : Z -> bool).

(** The cipher of the context before needs no cleaning up. *)
Definition replaceable (c : CTX) : Prop := forall old, cx_cipher c = Some old -> ec_cleanup old = None.
Definition no_memory : Prop := ec_ctx_size cipher <> 0 /\ malloc_ok (ec_ctx_size cipher) = false.

Lemma wp_cleanup c (Q : unit -> CTX -> Prop) E : replaceable c -> Q tt zero_ctx -> wp EVP_CIPHER_CTX_cleanup c Q E.
Proof using.
  intros Hr HQ. unfold EVP_CIPHER_CTX_cleanup. apply wp_bind, wp_gets. cbn [id]. apply wp_bind.
  destruct (cx_cipher c) as [old|] eqn:Eo; [rewrite (Hr old Eo)|]; by apply wp_ret, wp_modify.
Qed.

(** A context whose cipher is set. *)
Definition new_core (k : cipher_core D) : Prop :=
  cc_encrypt k = enc /\ cc_num k = 0 /\ zlen (cc_iv k) = EVP_MAX_IV_LENGTH /\ zlen (cc_oiv k) = EVP_MAX_IV_LENGTH /\
  cc_buf k = zrep EVP_MAX_BLOCK_LENGTH 0 /\ (ec_ctx_size cipher <> 0 -> cc_cipher_data k = Some (ec_zero cipher)).
Definition new_ctx (c : CTX) : Prop := cx_cipher c = Some cipher /\ cx_final c = zrep EVP_MAX_BLOCK_LENGTH 0 /\ new_core (cx_core c).

Lemma wp_set_cipher c :
  replaceable c ->
  wp (set_cipher malloc_ok enc cipher) c
    (fun _ c' => new_ctx c' /\ cc_flags (cx_core c') = Z.land (cc_flags (cx_core c)) EVP_CIPHER_CTX_FLAG_WRAP_ALLOW)
    (fun _ => no_memory).
Proof using HL.
  intros Hr. unfold set_cipher. apply wp_bind, wp_gets. cbn [id]. apply wp_bind, wp_cleanup; [done|]. unfold upd_core.
  apply wp_bind, wp_modify. apply wp_bind, wp_modify. apply wp_bind, wp_modify. destruct no_flags as (_ & -> & _).
  apply wp_bind. destruct (Z.eqb_spec (ec_ctx_size cipher) 0) as [E0|E0]; cbn [negb].
  - apply wp_ret, wp_ret. by split_and!.
  - apply wp_bind, wp_check; intros Hm; [|done]. apply wp_modify, wp_ret. by split_and!.
Qed.

Lemma wp_iv_length c (Q : Z -> CTX -> Prop) E : cx_cipher c = Some cipher -> Q (zlen iv) c -> wp EVP_CIPHER_CTX_iv_length c Q E.
Proof using HL.
  intros Ec HQ. unfold EVP_CIPHER_CTX_iv_length. apply wp_bind, wp_the_cipher; [done|]. destruct no_flags as (_ & _ & _ & ->). cbn [negb].
  apply wp_ret. by rewrite (proj1 cipher_iv).
Qed.

Lemma copy_into_ok dst src n : n = zlen src -> n <= zlen dst -> exists dst', copy_into dst src n = Some dst' /\ zlen dst' = zlen dst /\ ztake n dst' = src.
Proof using.
  intros En Hn. unfold copy_into. rewrite octets_at_all by done. cbn [mbind option_bind]. destruct (zwrite_fits dst 0 src ltac:(lia) ltac:(lia)) as [dst' E].
  exists dst'. split; [done|]. split; [by apply (zlen_zwrite _ _ _ _ E)|]. apply zwrite_take in E. by rewrite Z.add_0_l, <- En, ztake_0 in E.
Qed.

Lemma wp_set_iv c (Q : unit -> CTX -> Prop) E :
  new_ctx c ->
  (forall c', new_ctx c' -> cc_flags (cx_core c') = cc_flags (cx_core c) -> core_ready cipher iv enc (cx_core c') -> Q tt c') ->
  wp (set_iv (Some iv)) c Q E.
Proof using HL.
  intros (Ec & Hfin & He & Hn & Liv & Loiv & Lbuf & Hdata) HQ. destruct cipher_iv as [_ Hiv]. pose proof (zlen_nonneg iv).
  unfold set_iv. apply wp_bind, wp_the_cipher; [done|]. destruct no_flags as (_ & _ & -> & _). cbn [negb]. cbv zeta.
  pose proof cipher_mode as Hmode. unfold core_ready in HQ. unfold takes_iv, ignores_iv in *. set (mode := EVP_CIPHER_mode cipher) in *. clearbody mode.
  destruct ((mode =? EVP_CIPH_STREAM_CIPHER) || (mode =? EVP_CIPH_ECB_MODE)) eqn:Eig.
  { apply wp_ret, HQ; [by split_and!|done|]. split_and!; [done..| |done]. intros Ht. exfalso.
    apply orb_prop in Eig as [->%Z.eqb_eq| ->%Z.eqb_eq]; by vm_compute in Ht. }
  rewrite orb_false_r in Hmode. rewrite Hmode in HQ. unfold upd_core.
  destruct ((mode =? EVP_CIPH_CFB_MODE) || (mode =? EVP_CIPH_OFB_MODE) || (mode =? EVP_CIPH_CBC_MODE)) eqn:Ec3.
  - apply wp_bind. eapply (wp_conseq _ _ _ (fun _ c' => c' = c <| cx_core := (cx_core c) <| cc_num := 0 |> |>) _ (fun _ => False)); [| |done].
    { destruct ((mode =? EVP_CIPH_CFB_MODE) || (mode =? EVP_CIPH_OFB_MODE)); [by apply wp_modify|]. apply wp_ret.
      destruct c as [? [] ? ? ? ?]. cbn in Hn |- *. by rewrite Hn. }
    intros _ ? ->. apply wp_bind, wp_iv_length; [done|]. apply wp_bind, wp_check; [intros _|intros Hc; apply negb_false_iff in Hc; exfalso; apply orb_prop in Hc as [Hc%Z.ltb_lt|Hc%Z.ltb_lt]; lia].
    destruct (copy_into_ok (cc_oiv (cx_core c)) iv (zlen iv) eq_refl ltac:(lia)) as (oiv & Eo & Lo & To).
    apply wp_bind, wp_bind, wp_gets. cbn [id]. apply wp_bind. eapply wp_valid; [exact Eo|]. apply wp_modify.
    apply wp_bind, wp_gets. cbn [id]. apply wp_bind.
    destruct (copy_into_ok (cc_iv (cx_core c)) iv (zlen iv) eq_refl ltac:(lia)) as (iv' & Ei & Li & Ti).
    eapply wp_valid.
    { cbn [cx_core set_field cc_oiv cc_iv]. unfold copy_into in Ei |- *. rewrite octets_at_all in Ei by done. rewrite octets_at_le by lia. rewrite To. exact Ei. }
    apply wp_modify, HQ; [|done|].
    + split; [done|]. split; [done|]. split; [done|]. split; [done|]. split; [exact (eq_trans Li Liv)|]. split; [exact (eq_trans Lo Loiv)|]. by split.
    + split; [done|]. split; [done|]. split; [exact (eq_trans Li Liv)|]. by split_and!.
  - cbn [orb] in Hmode. rewrite Hmode. apply wp_bind, wp_modify. apply wp_bind, wp_iv_length; [done|].
    apply wp_bind, wp_check; [intros _|intros Hc; apply negb_false_iff in Hc; exfalso; apply orb_prop in Hc as [Hc%Z.ltb_lt|Hc%Z.ltb_lt]; lia].
    apply wp_bind, wp_gets. cbn [id]. apply wp_bind.
    destruct (copy_into_ok (cc_iv (cx_core c)) iv (zlen iv) eq_refl ltac:(lia)) as (iv' & Ei & Li & Ti).
    eapply wp_valid; [exact Ei|]. apply wp_modify, HQ; [|done|].
    + split; [done|]. split; [done|]. split; [done|]. split; [done|]. split; [exact (eq_trans Li Liv)|]. by split_and!.
    + split; [done|]. split; [done|]. split; [exact (eq_trans Li Liv)|]. by split_and!.
Qed.

(** EVP_CipherInit_ex with a cipher, a key and an iv forgets all that was in the context
    but one flag. *)
Lemma CipherInit_ok c :
  enc = 0 \/ enc = 1 -> replaceable c ->
  wp (EVP_CipherInit_ex malloc_ok (Some cipher) (Some key) (Some iv) enc) c
    (fun _ c' => ready c' /\ cc_flags (cx_core c') = Z.land (cc_flags (cx_core c)) EVP_CIPHER_CTX_FLAG_WRAP_ALLOW)
    (fun _ => no_memory).
Proof using HL.
  intros Henc Hr. unfold EVP_CipherInit_ex. apply wp_bind, wp_gets. cbn [id].
  assert (En : (if enc =? -1 then cc_encrypt (cx_core c) else enc) = enc) by (destruct Henc as [-> | ->]; done).
  assert (En' : (if negb (enc =? 0) then 1 else enc) = enc) by (destruct Henc as [-> | ->]; done). rewrite En, En'. unfold upd_core.
  apply wp_bind, wp_modify. apply wp_bind, wp_gets. cbn [id]. apply wp_bind.
  eapply wp_conseq; [apply wp_set_cipher; exact Hr| |done]. intros _ c1 [Hnew1 Hf1]. cbn [cx_core set_field cc_flags] in Hf1.
  apply wp_bind, wp_the_cipher; [apply Hnew1|]. destruct cipher_B as [EB HB]. rewrite EB.
  apply wp_bind, wp_check; [intros _|intros Hc; apply negb_false_iff in Hc; exfalso; destruct HB as [-> |[-> | ->]]; done].
  apply wp_bind, wp_gets. cbn [id]. apply wp_bind, wp_check; [intros _|intros Hc; apply negb_false_iff, andb_prop in Hc as [_ Hc%Z.eqb_eq]; exfalso].
  2: { pose proof cipher_mode as Hm. unfold takes_iv, ignores_iv in Hm. by rewrite Hc in Hm. }
  apply wp_bind, wp_set_iv; [done|]. intros c2 Hnew2 Hf2 Hready.
  rewrite (bool_decide_eq_true_2 (Some key <> None)) by done. cbn [orb]. apply wp_bind.
  destruct (cipher_start (cx_core c2) Hready) as (k' & Ei & Hat & Hf & Lb). unfold wp at 1, on_core. rewrite Ei. apply wp_modify.
  destruct Hnew2 as (Ec2 & Hfin2 & (_ & _ & _ & _ & Lbuf2 & _)). split.
  - split; [|split; [done|]].
    + split; [done|]. split; [by apply Z.mod_0_l; lia|]. split; [done|]. cbn [cx_partial_len cx_core set_field]. split; [lia|]. split; [done|]. split; [rewrite Lb, Lbuf2; done|done].
    + cbn [cx_final set_field]. by rewrite Hfin2.
  - cbn [cx_core set_field]. congruence.
Qed.

Lemma set_padding_ok pad c (Q : unit -> CTX -> Prop) E :
  (forall c', padding c' = negb (pad =? 0) -> (ready c -> ready c') -> Q tt c') -> wp (EVP_CIPHER_CTX_set_padding pad) c Q E.
Proof using HL.
  intros HQ. unfold EVP_CIPHER_CTX_set_padding, upd_core.
  assert (Hready : forall f, ready c -> ready (c <| cx_core := (cx_core c) <| cc_flags := f |> |>)).
  { intros f ((Ec & Hm & Hr & Hp & Hat & Lb & Ht) & Hu & Hfin). split; [|by split]. split; [done|]. split; [done|]. split; [done|]. split; [done|].
    split; [by apply cipher_at_flags|]. by split. }
  destruct (Z.eqb_spec pad 0) as [Ep|Ep]; cbn [negb]; apply wp_modify, HQ; [|apply Hready| |apply Hready].
  - unfold padding, has_flag. cbn [cx_core set_field cc_flags]. rewrite Z.land_comm, Z.land_lor_distr_r, Z.land_diag, negb_involutive. apply Z.eqb_neq.
    intros H. apply (f_equal (fun x => Z.testbit x 8)) in H. rewrite Z.lor_spec in H. change (Z.testbit EVP_CIPH_NO_PADDING 8) with true in H. by rewrite orb_true_r in H.
  - unfold padding, has_flag. cbn [cx_core set_field cc_flags]. rewrite negb_involutive. apply Z.eqb_eq. apply Z.bits_inj'. intros n Hn.
    rewrite Z.land_spec, Z.ldiff_spec, Z.bits_0. by destruct (Z.testbit (cc_flags (cx_core c)) n), (Z.testbit EVP_CIPH_NO_PADDING n).
Qed.

(** The first thing done with a context determines the rest. *)
Lemma with_init {A} pad (m : M CTX A) c Q (E : CTX -> Prop) :
  enc = 0 \/ enc = 1 -> replaceable c ->
  (forall c', ready c' -> padding c' = negb (pad =? 0) -> wp m c' Q E) ->
  wp (EVP_CipherInit_ex malloc_ok (Some cipher) (Some key) (Some iv) enc;; EVP_CIPHER_CTX_set_padding pad;; m) c Q (fun c' => no_memory \/ E c').
Proof using HL.
  intros Henc Hr Hm. apply wp_bind. eapply wp_conseq; [by apply CipherInit_ok| |by left]. intros _ c1 [Hready _]. apply wp_bind, set_padding_ok. intros c2 Hp Hready2.
  eapply wp_conseq; [by apply Hm; auto|done|by right].
Qed.

Lemma padded_inj pad m m' p : padded pad m = Some p -> padded pad m' = Some p -> m = m'.
Proof using HL.
  destruct cipher_B as [_ HB]. unfold padded. destruct (Z.eqb_spec B 1) as [E1|E1]; [congruence|]. destruct pad; [|destruct (zlen m mod B =? 0), (zlen m' mod B =? 0); congruence].
  intros [= <-] [= E]. unfold pkcs_pad in E. assert (Hr : 0 <= zlen m mod B < B) by (apply Z.mod_pos_bound; lia). assert (Hr' : 0 <= zlen m' mod B < B) by (apply Z.mod_pos_bound; lia).
  set (k := B - zlen m mod B) in *. set (k' := B - zlen m' mod B) in *.
  assert (Hl : zlen m' + k' = zlen m + k) by (apply (f_equal zlen) in E; rewrite !zlen_app, !zlen_rep in E by lia; lia).
  assert (Hk : k' = k).
  { apply (f_equal (fun l => zget l (zlen m + k - 1))) in E. rewrite !zget_app_r, !zget_zrep in E by lia. congruence. }
  rewrite Hk in E. by apply app_inv_tail in E.
Qed.
End stream.

(** A message under a new key and iv, in pieces. *)
Definition EVP_encrypt {D} (malloc_ok : Z -> bool) (cipher : EVP_CIPHER D) (key iv : list Z) (pad : Z) (ms : list (list Z)) : M (EVP_CIPHER_CTX D) (list Z) :=
  EVP_EncryptInit_ex malloc_ok (Some cipher) (Some key) (Some iv);; EVP_CIPHER_CTX_set_padding pad;; encrypt_rest ms.
Definition EVP_decrypt {D} (malloc_ok : Z -> bool) (cipher : EVP_CIPHER D) (key iv : list Z) (pad : Z) (cs : list (list Z)) : M (EVP_CIPHER_CTX D) (list Z) :=
  EVP_DecryptInit_ex malloc_ok (Some cipher) (Some key) (Some iv);; EVP_CIPHER_CTX_set_padding pad;; decrypt_rest cs.

Section messages.
Context {D : Type} (cipher : EVP_CIPHER D) (key iv : list Z) (B : Z) (malloc_ok : Z -> bool).
Abbreviation CTX := (EVP_CIPHER_CTX D).

Lemma encrypt_ok F `{!CipherLaws cipher key iv 1 F B} pad ms (c : CTX) :
  replaceable c -> Forall (piece B) ms ->
  wp (EVP_encrypt malloc_ok cipher key iv pad ms) c
    (fun out _ => exists p, padded B (negb (pad =? 0)) (concat ms) = Some p /\ out = F p /\ zlen out = zlen p /\ zlen p mod B = 0 /\ Forall is_byte out)
    (fun _ => no_memory cipher malloc_ok \/ padded B (negb (pad =? 0)) (concat ms) = None).
Proof using.
  intros Hr Hms. apply (with_init cipher key iv 1 F B malloc_ok pad (encrypt_rest ms) c); [by right|done|]. intros c' Hready <-. by eapply encrypt_rest_ok.
Qed.

Lemma decrypt_ok F `{!CipherLaws cipher key iv 0 F B} pad cs (c : CTX) :
  replaceable c -> Forall (piece B) cs ->
  wp (EVP_decrypt malloc_ok cipher key iv pad cs) c
    (fun m _ => plaintext_of F B (negb (pad =? 0)) (concat cs) m)
    (fun _ => no_memory cipher malloc_ok \/ forall m, ~ plaintext_of F B (negb (pad =? 0)) (concat cs) m).
Proof using.
  intros Hr Hcs. apply (with_init cipher key iv 0 F B malloc_ok pad (decrypt_rest cs) c); [by left|done|]. intros c' Hready <-. by eapply decrypt_rest_ok.
Qed.

(** Two functions that undo each other on whole blocks. *)
Definition inverse_on_blocks (E D : list Z -> list Z) : Prop := forall p, Forall is_byte p -> zlen p mod B = 0 -> D (E p) = p.

Lemma padded_bytes pad m p : B = 1 \/ B = 8 \/ B = 16 -> Forall is_byte m -> padded B pad m = Some p -> Forall is_byte p.
Proof using.
  intros HB Hm. unfold padded. assert (0 <= zlen m mod B < B) by (apply Z.mod_pos_bound; lia).
  destruct (B =? 1), pad, (zlen m mod B =? 0); intros [= <-]; try done; apply Forall_app; split; try done; apply is_byte_zrep; unfold is_byte; lia.
Qed.

Lemma roundtrip_ok E Dec `{!CipherLaws cipher key iv 1 E B} `{!CipherLaws cipher key iv 0 Dec B} pad ms cs (c c' : CTX) :
  inverse_on_blocks E Dec -> replaceable c -> replaceable c' -> Forall (piece B) ms -> Forall (piece B) cs ->
  match EVP_encrypt malloc_ok cipher key iv pad ms c with
  | Ret ct _ => concat cs = ct ->
      match EVP_decrypt malloc_ok cipher key iv pad cs c' with
      | Ret m _ => m = concat ms
      | Fail _ => no_memory cipher malloc_ok
      | UB => False
      end
  | Fail _ => no_memory cipher malloc_ok \/ padded B (negb (pad =? 0)) (concat ms) = None
  | UB => False
  end.
Proof using.
  intros Hinv Hc Hc' Hms Hcs. pose proof (encrypt_ok E pad ms c Hc Hms) as H1. pose proof (decrypt_ok Dec pad cs c' Hc' Hcs) as H2.
  unfold wp in H1, H2. destruct (EVP_encrypt malloc_ok cipher key iv pad ms c) as [ct c1|c1|]; [|done|done].
  destruct H1 as (p & Hp & -> & L & Hm & Hb). intros Ect. rewrite Ect in H2.
  destruct (@cipher_B _ _ _ _ _ _ _ CipherLaws0) as [_ HB].
  assert (Hbytes : Forall is_byte (concat ms)) by (apply Forall_concat; eapply Forall_impl; [exact Hms|by intros ? []]).
  assert (HpE : Dec (E p) = p) by (apply Hinv; [by eapply padded_bytes|done]).
  destruct (EVP_decrypt malloc_ok cipher key iv pad cs c') as [m c2|c2|]; [| |done].
  - destruct H2 as (_ & _ & H2). rewrite HpE in H2. by eapply (padded_inj cipher key iv 1 E B).
  - destruct H2 as [H2|H2]; [done|]. exfalso. apply (H2 (concat ms)). split; [done|]. rewrite L, HpE. done.
Qed.
End messages.
