(* ===== verification/Modes.v ===== *)
(** * Modes of operation

    lib/libcrypto/modes/cbc128.c, cfb128.c, ofb128.c and ctr128.c over any block function,
    [None] where it or the mode leaves the arrays.  [OPENSSL_SMALL_FOOTPRINT] and
    [__STRICT_ALIGNMENT] are not defined, and memory is little endian; the loops on
    [size_t] are loops on the octets.  [ivec] has 16 octets.  The three stream modes
    have one shape: a step that makes the next block of the key stream, and the use of an
    octet of it.  The specification is NIST SP 800-38A. *)

From S2P Require Import Prelude.
Open Scope Z_scope.

Definition xor_octets (a b : list Z) : list Z := zip_with Z.lxor a b.

(** ** CBC *)

Section cbc.
Context (block : list Z -> option (list Z)).

(** [while (len >= 16)]: what is written, the rest of the input, [iv]. *)
Fixpoint cbc_encrypt_loop (fuel : nat) (input iv : list Z) : option (list Z * list Z * list Z) :=
  match fuel with
  | O => None
  | S fuel =>
      if 16 <=? zlen input then
        c ← block (xor_octets (ztake 16 input) iv);
        '(out, input, iv) ← cbc_encrypt_loop fuel (zdrop 16 input) c;
        Some (c ++ out, input, iv)
      else Some ([], input, iv)
  end.

(** [while (len)], for less than 16 octets: one block, of which all 16 octets are written. *)
Definition cbc_encrypt_tail (input iv : list Z) : option (list Z * list Z) :=
  if zlen input =? 0 then Some ([], iv)
  else
    c ← block (xor_octets input iv ++ zdrop (zlen input) iv);
    Some (c, c).

(** What is written and [ivec]. *)
Definition CRYPTO_cbc128_encrypt (input ivec : list Z) : option (list Z * list Z) :=
  '(out, input, iv) ← cbc_encrypt_loop (S (length input)) input ivec;
  '(out', iv) ← cbc_encrypt_tail input iv;
  Some (out ++ out', iv).

(** [in != out]: [iv] points to the block before. *)
Fixpoint cbc_decrypt_loop (fuel : nat) (input iv : list Z) : option (list Z * list Z * list Z) :=
  match fuel with
  | O => None
  | S fuel =>
      if 16 <=? zlen input then
        p ← block (ztake 16 input);
        '(out, rest, iv') ← cbc_decrypt_loop fuel (zdrop 16 input) (ztake 16 input);
        Some (xor_octets p iv ++ out, rest, iv')
      else Some ([], input, iv)
  end.

(** [c = in[n]; out[n] = tmp[n] ^ ivec[n]; ivec[n] = c;] for the next [n]. *)
Fixpoint swap_octets (input tmp ivec : list Z) : list Z * list Z :=
  match input, tmp, ivec with
  | c :: input, t :: tmp, i :: ivec => let '(out, ivec) := swap_octets input tmp ivec in (Z.lxor t i :: out, c :: ivec)
  | _, _, _ => ([], ivec)
  end.

(** [in == out] *)
Fixpoint cbc_decrypt_in_place (fuel : nat) (input ivec : list Z) : option (list Z * list Z * list Z) :=
  match fuel with
  | O => None
  | S fuel =>
      if 16 <=? zlen input then
        tmp ← block (ztake 16 input);
        let '(out, ivec) := swap_octets (ztake 16 input) tmp ivec in
        '(out', rest, ivec) ← cbc_decrypt_in_place fuel (zdrop 16 input) ivec;
        Some (out ++ out', rest, ivec)
      else Some ([], input, ivec)
  end.

(** [while (len)], for less than 16 octets.  The block is read from the input, [behind]
    are the octets after it. *)
Definition cbc_decrypt_tail (input behind ivec : list Z) : option (list Z * list Z) :=
  if zlen input =? 0 then Some ([], ivec)
  else
    whole ← octets_at (input ++ behind) 16;
    tmp ← block whole;
    let '(out, ivec) := swap_octets input tmp ivec in
    Some (out, ztake (zlen input) ivec ++ zdrop (zlen input) whole).

Definition CRYPTO_cbc128_decrypt (in_place : bool) (input behind ivec : list Z) : option (list Z * list Z) :=
  '(out, input, ivec) ← (if in_place then cbc_decrypt_in_place (S (length input)) input ivec
                         else cbc_decrypt_loop (S (length input)) input ivec);
  '(out', ivec) ← cbc_decrypt_tail input behind ivec;
  Some (out ++ out', ivec).
End cbc.

(** ** The stream modes *)

Section stream128.
Context {St : Type} (refresh : St -> option St) (use : St -> Z -> Z -> option (Z * St)).

(** The octets of the input at [n], [n + 1], ... of a block. *)
Fixpoint use_all (st : St) (n : Z) (input : list Z) : option (list Z * St) :=
  match input with
  | [] => Some ([], st)
  | x :: input => '(y, st) ← use st n x; '(out, st) ← use_all st (n + 1) input; Some (y :: out, st)
  end.

(** [while (n && len)]: what is written, the rest of the input, [n]. *)
Fixpoint use_rest (st : St) (n : Z) (input : list Z) : option (list Z * list Z * Z * St) :=
  match input with
  | [] => Some ([], [], n, st)
  | x :: input' =>
      if n =? 0 then Some ([], input, n, st)
      else
        '(y, st) ← use st n x;
        '(out, rest, n, st) ← use_rest st ((n + 1) mod 16) input';
        Some (y :: out, rest, n, st)
  end.

(** [while (len >= 16)] *)
Fixpoint use_blocks (fuel : nat) (st : St) (n : Z) (input : list Z) : option (list Z * list Z * Z * St) :=
  match fuel with
  | O => None
  | S fuel =>
      if 16 <=? zlen input then
        st ← refresh st;
        '(out, st) ← use_all st n (ztake 16 input);
        '(out', rest, n, st) ← use_blocks fuel st 0 (zdrop 16 input);
        Some (out ++ out', rest, n, st)
      else Some ([], input, n, st)
  end.

(** What is written, the state and [num]. *)
Definition stream128 (st : St) (num : Z) (input : list Z) : option (list Z * St * Z) :=
  '(out1, input, n, st) ← use_rest st num input;
  '(out2, input, n, st) ← use_blocks (S (length input)) st n input;
  if negb (zlen input =? 0) then
    st ← refresh st;
    '(out3, st) ← use_all st n input;
    Some (out1 ++ out2 ++ out3, st, n + zlen input)
  else Some (out1 ++ out2, st, n).

(** The loop that the code has for compilers without the one above: [n] and [st]. *)
Fixpoint by_octet (st : St) (n : Z) (input : list Z) : option (list Z * St * Z) :=
  match input with
  | [] => Some ([], st, n)
  | x :: input =>
      st ← (if n =? 0 then refresh st else Some st);
      '(y, st) ← use st n x;
      '(out, st, n) ← by_octet st ((n + 1) mod 16) input;
      Some (y :: out, st, n)
  end.
End stream128.

(** *** OFB *)

Definition ofb_refresh (block : list Z -> option (list Z)) (ivec : list Z) : option (list Z) := block ivec.
Definition ofb_use (ivec : list Z) (n x : Z) : option (Z * list Z) := i ← zget ivec n; Some (Z.lxor x i, ivec).
Definition CRYPTO_ofb128_encrypt (block : list Z -> option (list Z)) (input ivec : list Z) (num : Z) : option (list Z * list Z * Z) :=
  stream128 (ofb_refresh block) ofb_use ivec num input.

(** *** CFB *)

Definition cfb_refresh (block : list Z -> option (list Z)) (ivec : list Z) : option (list Z) := block ivec.
Definition cfb_encrypt_use (ivec : list Z) (n x : Z) : option (Z * list Z) :=
  i ← zget ivec n; ivec ← zset ivec n (Z.lxor i x); Some (Z.lxor i x, ivec).
Definition cfb_decrypt_use (ivec : list Z) (n c : Z) : option (Z * list Z) :=
  i ← zget ivec n; ivec ← zset ivec n c; Some (Z.lxor i c, ivec).
Definition CRYPTO_cfb128_encrypt (block : list Z -> option (list Z)) (input ivec : list Z) (num enc : Z) : option (list Z * list Z * Z) :=
  if negb (enc =? 0) then stream128 (cfb_refresh block) cfb_encrypt_use ivec num input
  else stream128 (cfb_refresh block) cfb_decrypt_use ivec num input.

(** *** CTR *)

(** The octets of the counter, the last one first. *)
Fixpoint inc_octets (l : list Z) : list Z :=
  match l with
  | [] => []
  | c :: l => let c := u8 (c + 1) in if negb (c =? 0) then c :: l else c :: inc_octets l
  end.
Definition ctr128_inc (counter : list Z) : list Z := rev (inc_octets (rev counter)).
Definition ctr128_inc_aligned (counter : list Z) : list Z := ctr128_inc counter.

(** The state: [ivec] and [ecount_buf]. *)
Definition ctr_refresh (block : list Z -> option (list Z)) (st : list Z * list Z) : option (list Z * list Z) :=
  let '(ivec, ecount_buf) := st in
  e ← block ivec;
  ecount_buf ← zwrite ecount_buf 0 e;
  Some (ctr128_inc_aligned ivec, ecount_buf).
Definition ctr_use (st : list Z * list Z) (n x : Z) : option (Z * (list Z * list Z)) :=
  i ← zget (snd st) n; Some (Z.lxor x i, st).
Definition CRYPTO_ctr128_encrypt (block : list Z -> option (list Z)) (input ivec ecount_buf : list Z) (num : Z) : option (list Z * (list Z * list Z) * Z) :=
  if num <? 16 then stream128 (ctr_refresh block) ctr_use (ivec, ecount_buf) num input else None.

(** ** The loop by blocks is the loop by octets *)

Section stream.
Context {St : Type} (refresh : St -> option St) (use : St -> Z -> Z -> option (Z * St)).
Abbreviation by_octet := (by_octet refresh use).
Abbreviation use_all := (use_all use).

Lemma by_octet_app st n a b :
  by_octet st n (a ++ b) = ('(o1, st, n) ← by_octet st n a; '(o2, st, n) ← by_octet st n b; Some (o1 ++ o2, st, n)).
Proof using.
  revert st n. induction a as [|x a IH]; intros st n; cbn [app Modes.by_octet mbind option_bind].
  - by destruct (by_octet st n b) as [[[? ?] ?]|].
  - destruct (if n =? 0 then refresh st else Some st) as [st1|]; [|done]. cbn [mbind option_bind]. destruct (use st1 n x) as [[y st2]|]; [|done]. cbn [mbind option_bind].
    rewrite IH. destruct (by_octet st2 ((n + 1) mod 16) a) as [[[o1 st3] n3]|]; [|done]. cbn [mbind option_bind].
    by destruct (by_octet st3 n3 b) as [[[? ?] ?]|].
Qed.

(** Up to the end of a block that is begun. *)
Lemma by_octet_use d1 d2 : forall st n, 0 < n -> n + zlen d1 <= 16 ->
  by_octet st (n mod 16) (d1 ++ d2) =
    ('(o1, st) ← use_all st n d1; '(o2, st, n) ← by_octet st ((n + zlen d1) mod 16) d2; Some (o1 ++ o2, st, n)).
Proof using.
  induction d1 as [|x d1 IH]; intros st n Hn Hl.
  - cbn [app Modes.use_all mbind option_bind]. rewrite zlen_nil, Z.add_0_r. by destruct (by_octet st (n mod 16) d2) as [[[? ?] ?]|].
  - rewrite zlen_cons in *. pose proof (zlen_nonneg d1). rewrite (Z.mod_small n) by lia. cbn [app Modes.by_octet Modes.use_all]. rewrite (proj2 (Z.eqb_neq n 0)) by lia.
    cbn [mbind option_bind]. destruct (use st n x) as [[y st1]|]; [|done]. cbn [mbind option_bind]. rewrite IH by lia. replace (n + 1 + zlen d1) with (n + (1 + zlen d1)) by lia.
    destruct (use_all st1 (n + 1) d1) as [[o1 st2]|]; [|done]. cbn [mbind option_bind]. by destruct (by_octet st2 ((n + (1 + zlen d1)) mod 16) d2) as [[[? ?] ?]|].
Qed.

(** A new block. *)
Lemma by_octet_block st d1 d2 : 0 < zlen d1 <= 16 ->
  by_octet st 0 (d1 ++ d2) =
    (st ← refresh st; '(o1, st) ← use_all st 0 d1; '(o2, st, n) ← by_octet st (zlen d1 mod 16) d2; Some (o1 ++ o2, st, n)).
Proof using.
  intros Hl. destruct d1 as [|x d1]; [unfold zlen in Hl; cbn [length] in Hl; lia|]. rewrite zlen_cons in *. cbn [app Modes.by_octet Modes.use_all Z.eqb].
  destruct (refresh st) as [st1|]; [|done]. cbn [mbind option_bind]. destruct (use st1 0 x) as [[y st2]|]; [|done]. cbn [mbind option_bind].
  rewrite by_octet_use by lia. replace (0 + 1) with 1 by lia. destruct (use_all st2 1 d1) as [[o1 st3]|]; [|done]. cbn [mbind option_bind].
  by destruct (by_octet st3 ((1 + zlen d1) mod 16) d2) as [[[? ?] ?]|].
Qed.

Lemma use_rest_ok input : forall st n, 0 <= n < 16 ->
  by_octet st n input = ('(o1, rest, n, st) ← use_rest use st n input; '(o2, st, n) ← by_octet st n rest; Some (o1 ++ o2, st, n)) /\
  (forall o rest n' st', use_rest use st n input = Some (o, rest, n', st') -> 0 <= n' < 16 /\ (rest = [] \/ n' = 0)).
Proof using.
  induction input as [|x input IH]; intros st n Hn; cbn [use_rest].
  - split; [done|]. intros ? ? ? ? [= <- <- <- <-]. split; [done|by left].
  - destruct (Z.eqb_spec n 0) as [->|Hn0].
    + split; [cbn [mbind option_bind]; by destruct (by_octet st 0 (x :: input)) as [[[? ?] ?]|]|]. intros ? ? ? ? [= <- <- <- <-]. split; [done|by right].
    + cbn [Modes.by_octet]. rewrite (proj2 (Z.eqb_neq n 0)) by done. cbn [mbind option_bind]. destruct (use st n x) as [[y st1]|]; [|done]. cbn [mbind option_bind].
      destruct (IH st1 ((n + 1) mod 16)) as [-> H]; [by apply Z.mod_pos_bound|].
      destruct (use_rest use st1 ((n + 1) mod 16) input) as [[[[o rest] n2] st2]|]; [|done]. cbn [mbind option_bind]. split.
      * by destruct (by_octet st2 n2 rest) as [[[? ?] ?]|].
      * intros ? ? ? ? [= <- <- <- <-]. by eapply H.
Qed.

Lemma use_blocks_ok fuel : forall st input, (length input < fuel)%nat ->
  by_octet st 0 input = ('(o1, rest, n, st) ← use_blocks refresh use fuel st 0 input; '(o2, st, n) ← by_octet st n rest; Some (o1 ++ o2, st, n)) /\
  (forall o rest n st', use_blocks refresh use fuel st 0 input = Some (o, rest, n, st') -> n = 0 /\ zlen rest < 16).
Proof using.
  induction fuel as [|fuel IH]; intros st input Hf; [lia|]. cbn [use_blocks]. destruct (Z.leb_spec 16 (zlen input)) as [Hl|Hl].
  - assert (Ht : zlen (ztake 16 input) = 16) by (apply zlen_ztake; lia).
    assert (Hlen : (length (zdrop 16 input) < fuel)%nat) by (unfold zdrop, zlen in *; rewrite length_drop; lia).
    rewrite <- (ztake_zdrop 16 input) at 1. rewrite by_octet_block, Ht by lia. change (16 mod 16) with 0.
    destruct (refresh st) as [st1|]; [|done]. cbn [mbind option_bind]. destruct (use_all st1 0 (ztake 16 input)) as [[o1 st2]|]; [|done]. cbn [mbind option_bind].
    destruct (IH st2 (zdrop 16 input) Hlen) as [-> H].
    destruct (use_blocks refresh use fuel st2 0 (zdrop 16 input)) as [[[[o2 rest] n2] st3]|]; [|done]. cbn [mbind option_bind]. split.
    + destruct (by_octet st3 n2 rest) as [[[? ?] ?]|]; [|done]. cbn [mbind option_bind]. by rewrite app_assoc.
    + intros ? ? ? ? [= <- <- <- <-]. by eapply H.
  - split; [cbn [mbind option_bind]; by destruct (by_octet st 0 input) as [[[? ?] ?]|]|]. by intros ? ? ? ? [= <- <- <- <-].
Qed.

Lemma stream128_ok st num input : 0 <= num < 16 -> stream128 refresh use st num input = by_octet st num input.
Proof using.
  intros Hn. unfold stream128. destruct (use_rest_ok input st num Hn) as [-> H1].
  destruct (use_rest use st num input) as [[[[o1 rest1] n1] st1]|]; [|done]. cbn [mbind option_bind]. destruct (H1 _ _ _ _ eq_refl) as [Hn1 Hor].
  assert (Hblocks : forall n, n = n1 -> rest1 <> [] -> n = 0) by (intros n -> Hne; by destruct Hor).
  destruct (decide (rest1 = [])) as [->|Hne]; [done|]. assert (n1 = 0) as -> by (by destruct Hor).
  destruct (use_blocks_ok (S (length rest1)) st1 rest1 ltac:(lia)) as [-> H2].
  destruct (use_blocks refresh use (S (length rest1)) st1 0 rest1) as [[[[o2 rest2] n2] st2]|]; [|done]. cbn [mbind option_bind]. destruct (H2 _ _ _ _ eq_refl) as [-> Hl2].
  pose proof (zlen_nonneg rest2). destruct (Z.eqb_spec (zlen rest2) 0) as [E0|E0]; cbn [negb].
  - apply zlen_nil_inv in E0 as ->. cbn. by rewrite app_nil_r.
  - pose proof (by_octet_block st2 rest2 [] ltac:(lia)) as E. rewrite app_nil_r in E. rewrite E. clear E. destruct (refresh st2) as [st3|]; [|done]. cbn [mbind option_bind].
    destruct (use_all st3 0 rest2) as [[o3 st4]|]; [|done]. cbn [mbind option_bind Modes.by_octet]. rewrite Z.mod_small by lia. by rewrite app_nil_r.
Qed.

(** *** A run that meets no error *)

Context (Inv : St -> Prop)
  (Hrefresh : forall st, Inv st -> exists st', refresh st = Some st' /\ Inv st')
  (Huse : forall st n x, Inv st -> 0 <= n < 16 -> is_byte x -> exists y st', use st n x = Some (y, st') /\ Inv st' /\ is_byte y).

Lemma by_octet_total input : forall st n, Inv st -> 0 <= n < 16 -> Forall is_byte input ->
  exists out st', by_octet st n input = Some (out, st', (n + zlen input) mod 16) /\ Inv st' /\ zlen out = zlen input /\ Forall is_byte out.
Proof using Hrefresh Huse.
  induction input as [|x input IH]; intros st n Hi Hn Hb.
  - exists [], st. rewrite zlen_nil, Z.add_0_r, Z.mod_small by lia. by split_and!.
  - apply Forall_cons in Hb as [Hx Hb]. cbn [Modes.by_octet].
    assert (Hr : exists st1, (if n =? 0 then refresh st else Some st) = Some st1 /\ Inv st1) by (destruct (n =? 0); [by apply Hrefresh|by exists st]).
    destruct Hr as (st1 & -> & Hi1). cbn [mbind option_bind]. destruct (Huse st1 n x Hi1 Hn Hx) as (y & st2 & -> & Hi2 & Hy). cbn [mbind option_bind].
    destruct (IH st2 ((n + 1) mod 16) Hi2) as (out & st' & -> & Hi' & Hl & Ho); [by apply Z.mod_pos_bound|done|]. cbn [mbind option_bind].
    exists (y :: out), st'. rewrite !zlen_cons, Zplus_mod_idemp_l, Z.add_assoc. split; [done|]. split; [done|]. split; [lia|by constructor].
Qed.
End stream.

(** Two runs in step, the second on the output of the first. *)
Lemma by_octet_inverse {St1 St2} r1 u1 r2 u2 (R : St1 -> St2 -> Prop) :
  (forall s t s', R s t -> r1 s = Some s' -> exists t', r2 t = Some t' /\ R s' t') ->
  (forall s t n x y s', R s t -> 0 <= n < 16 -> u1 s n x = Some (y, s') -> exists t', u2 t n y = Some (x, t') /\ R s' t') ->
  forall input s t n out s' n', R s t -> 0 <= n < 16 -> by_octet r1 u1 s n input = Some (out, s', n') ->
    exists t', by_octet r2 u2 t n out = Some (input, t', n') /\ R s' t'.
Proof.
  intros Hr Hu. induction input as [|x input IH]; intros s t n out s' n' HR Hn; cbn [by_octet].
  - intros [= <- <- <-]. by exists t.
  - destruct (if n =? 0 then r1 s else Some s) as [s1|] eqn:E1; [|done]. cbn [mbind option_bind].
    assert (H1 : exists t1, (if n =? 0 then r2 t else Some t) = Some t1 /\ R s1 t1) by (destruct (n =? 0); [by eapply Hr|injection E1 as <-; by exists t]).
    destruct H1 as (t1 & E1' & HR1). destruct (u1 s1 n x) as [[y s2]|] eqn:E2; [|done]. cbn [mbind option_bind].
    destruct (Hu _ _ _ _ _ _ HR1 Hn E2) as (t2 & E2' & HR2).
    destruct (by_octet r1 u1 s2 ((n + 1) mod 16) input) as [[[o s3] n3]|] eqn:E3; [|done]. cbn [mbind option_bind]. intros [= <- <- <-].
    destruct (IH _ _ _ _ _ _ HR2 ltac:(by apply Z.mod_pos_bound) E3) as (t3 & E3' & HR3). exists t3. split; [|done].
    cbn [by_octet]. rewrite E1'. cbn [mbind option_bind]. rewrite E2'. cbn [mbind option_bind]. by rewrite E3'.
Qed.

(** ** CBC *)

(** The whole blocks of a list. *)
Fixpoint split16 (n : nat) (m : list Z) : list (list Z) :=
  match n with
  | O => []
  | S n => ztake 16 m :: split16 n (zdrop 16 m)
  end.
Definition blocks (m : list Z) : list (list Z) := split16 (Z.to_nat (zlen m / 16)) m.

Lemma blocks_cons p m : zlen p = 16 -> blocks (p ++ m) = p :: blocks m.
Proof.
  intros Hp. pose proof (zlen_nonneg m). unfold blocks. rewrite zlen_app, Hp. replace (16 + zlen m) with (1 * 16 + zlen m) by lia. rewrite Z.div_add_l by lia.
  replace (Z.to_nat (1 + zlen m / 16)) with (S (Z.to_nat (zlen m / 16))) by (pose proof (Z.div_pos (zlen m) 16); lia).
  cbn [split16]. by rewrite ztake_app_exact, zdrop_app_exact.
Qed.

Lemma blocks_concat ps : Forall block16 ps -> blocks (concat ps) = ps.
Proof.
  induction 1 as [|p ps [Hb Hl] _ IH]; [done|]. cbn [concat]. by rewrite blocks_cons, IH.
Qed.

(** A list of whole blocks is the concatenation of its blocks. *)
Lemma whole_blocks m : Forall is_byte m -> zlen m mod 16 = 0 -> exists ps, m = concat ps /\ Forall block16 ps.
Proof.
  intros Hb Hm. assert (Hn : exists n, zlen m = 16 * Z.of_nat n) by (exists (Z.to_nat (zlen m / 16)); pose proof (zlen_nonneg m); Z.to_euclidean_division_equations; lia).
  destruct Hn as [n Hn]. clear Hm. revert m Hb Hn. induction n as [|n IH]; intros m Hb Hn.
  - exists []. split; [by apply zlen_nil_inv|done].
  - destruct (split_at m 16 ltac:(lia)) as (p & m' & -> & Hp). apply Forall_app in Hb as [Hbp Hb]. rewrite zlen_app in Hn.
    destruct (IH m' Hb ltac:(lia)) as (ps & -> & Hps). exists (p :: ps). split; [done|]. constructor; [|done]. split; [exact Hbp|exact (proj1 Hp)].
Qed.

Lemma zlen_concat_blocks ps : Forall block16 ps -> zlen (concat ps) = 16 * zlen ps /\ Forall is_byte (concat ps).
Proof.
  induction 1 as [|p ps [Hb Hl] _ [IH1 IH2]]; [done|]. cbn [concat]. rewrite zlen_app, zlen_cons. split; [lia|by apply Forall_app].
Qed.

Lemma blocks_app a b : Forall is_byte a -> Forall is_byte b -> zlen a mod 16 = 0 -> zlen b mod 16 = 0 -> blocks (a ++ b) = blocks a ++ blocks b.
Proof.
  intros Ha Hb Hma Hmb. destruct (whole_blocks a Ha Hma) as (ps & -> & Hps), (whole_blocks b Hb Hmb) as (qs & -> & Hqs).
  rewrite <- concat_app, !blocks_concat by (done || by apply Forall_app). done.
Qed.

Lemma xor_block a b : block16 a -> block16 b -> block16 (xor_octets a b).
Proof.
  intros [Ha La] [Hb Lb]. split; [|unfold xor_octets, zlen in *; rewrite length_zip_with; lia]. unfold xor_octets.
  clear La Lb. revert b Hb. induction Ha as [|x a Hx Ha IH]; intros b Hb; [constructor|]. destruct Hb as [|y b Hy Hb]; [constructor|].
  cbn [zip_with]. constructor; [by apply lxor_byte|by apply IH].
Qed.

Lemma xor_cancel a b : zlen a = zlen b -> xor_octets (xor_octets a b) b = a.
Proof.
  revert b. induction a as [|x a IH]; intros [|y b] Hl; [done|unfold zlen in Hl; cbn [length] in Hl; lia..|]. rewrite !zlen_cons in Hl.
  cbn [xor_octets zip_with]. f_equal; [by rewrite Z.lxor_assoc, Z.lxor_nilpotent, Z.lxor_0_r|apply IH; lia].
Qed.

(** SP 800-38A, section 6.2. *)
Fixpoint cbc (E : list Z -> list Z) (iv : list Z) (ps : list (list Z)) : list (list Z) :=
  match ps with
  | [] => []
  | p :: ps => let c := E (xor_octets p iv) in c :: cbc E c ps
  end.
Fixpoint cbc_inv (D : list Z -> list Z) (iv : list Z) (cs : list (list Z)) : list (list Z) :=
  match cs with
  | [] => []
  | c :: cs => xor_octets (D c) iv :: cbc_inv D c cs
  end.
(** The last block, if there is one. *)
Definition last_block (iv : list Z) (cs : list (list Z)) : list Z := fold_left (fun _ c => c) cs iv.

Lemma cbc_app E iv a b : cbc E iv (a ++ b) = cbc E iv a ++ cbc E (last_block iv (cbc E iv a)) b.
Proof. revert iv. induction a as [|p a IH]; intros iv; [done|]. cbn [app cbc]. by rewrite IH. Qed.

Lemma cbc_inv_app D iv a b : cbc_inv D iv (a ++ b) = cbc_inv D iv a ++ cbc_inv D (last_block iv a) b.
Proof. revert iv. induction a as [|p a IH]; intros iv; [done|]. cbn [app cbc_inv]. by rewrite IH. Qed.

(** A block function that works. *)
Definition computes (block : list Z -> option (list Z)) (E : list Z -> list Z) : Prop := forall x, block16 x -> block x = Some (E x) /\ block16 (E x).

Lemma last_block16 iv cs : block16 iv -> Forall block16 cs -> block16 (last_block iv cs).
Proof. intros Hiv Hcs. revert iv Hiv. induction Hcs as [|c cs Hc _ IH]; intros iv Hiv; [done|]. by apply IH. Qed.

Section cbc_ok.
Context (block : list Z -> option (list Z)) (E : list Z -> list Z) (HE : computes block E).

Lemma cbc_blocks ps : forall iv, block16 iv -> Forall block16 ps -> Forall block16 (cbc E iv ps).
Proof using HE.
  induction ps as [|p ps IH]; intros iv Hiv Hps; [constructor|]. apply Forall_cons in Hps as [Hp Hps]. destruct (HE (xor_octets p iv)) as [_ H]; [by apply xor_block|].
  cbn [cbc]. constructor; [done|by apply IH].
Qed.

Lemma cbc_encrypt_loop_ok ps : forall fuel iv, block16 iv -> Forall block16 ps -> (length ps < fuel)%nat ->
  cbc_encrypt_loop block fuel (concat ps) iv = Some (concat (cbc E iv ps), [], last_block iv (cbc E iv ps)).
Proof using HE.
  induction ps as [|p ps IH]; intros [|fuel] iv Hiv Hps Hf; cbn [length] in Hf; try lia; [done|]. apply Forall_cons in Hps as [[Hb Hl] Hps].
  destruct (HE (xor_octets p iv)) as [Eb H]; [by apply xor_block|]. cbn [cbc_encrypt_loop concat cbc]. pose proof (zlen_nonneg (concat ps)).
  rewrite (proj2 (Z.leb_le 16 _)) by (rewrite zlen_app; lia). rewrite ztake_app_exact, zdrop_app_exact by done. rewrite Eb. cbn [mbind option_bind].
  by rewrite (IH fuel (E (xor_octets p iv)) H Hps ltac:(lia)).
Qed.

Lemma concat_length_blocks ps : Forall block16 ps -> (length ps <= length (concat ps))%nat.
Proof using. intros Hps. pose proof (zlen_concat_blocks ps Hps) as [H _]. unfold zlen in H. lia. Qed.

Lemma cbc_encrypt_ok ps iv : block16 iv -> Forall block16 ps ->
  CRYPTO_cbc128_encrypt block (concat ps) iv = Some (concat (cbc E iv ps), last_block iv (cbc E iv ps)).
Proof using HE.
  intros Hiv Hps. unfold CRYPTO_cbc128_encrypt. pose proof (concat_length_blocks ps Hps). rewrite cbc_encrypt_loop_ok by (done || lia).
  cbn [mbind option_bind]. unfold cbc_encrypt_tail. change (zlen (@nil Z) =? 0) with true. cbn [mbind option_bind]. by rewrite app_nil_r.
Qed.

Lemma cbc_inv_blocks cs : forall iv, block16 iv -> Forall block16 cs -> Forall block16 (cbc_inv E iv cs).
Proof using HE.
  induction cs as [|c cs IH]; intros iv Hiv Hcs; [constructor|]. apply Forall_cons in Hcs as [Hc Hcs]. destruct (HE c Hc) as [_ H].
  cbn [cbc_inv]. constructor; [by apply xor_block|by apply IH].
Qed.

Lemma swap_ok input tmp ivec : zlen input = zlen tmp -> zlen input = zlen ivec -> swap_octets input tmp ivec = (xor_octets tmp ivec, input).
Proof using.
  revert tmp ivec. induction input as [|c input IH]; intros [|t tmp] [|i ivec] H1 H2; try done; try (unfold zlen in *; cbn [length] in *; lia).
  rewrite !zlen_cons in *. cbn [swap_octets]. by rewrite IH by lia.
Qed.

Lemma cbc_decrypt_loop_ok cs : forall fuel iv, block16 iv -> Forall block16 cs -> (length cs < fuel)%nat ->
  cbc_decrypt_loop block fuel (concat cs) iv = Some (concat (cbc_inv E iv cs), [], last_block iv cs) /\
  cbc_decrypt_in_place block fuel (concat cs) iv = Some (concat (cbc_inv E iv cs), [], last_block iv cs).
Proof using HE.
  induction cs as [|c cs IH]; intros [|fuel] iv Hiv Hcs Hf; cbn [length] in Hf; try lia; [done|]. apply Forall_cons in Hcs as [Hc Hcs]. pose proof Hc as [Hb Hl].
  destruct (HE c Hc) as [Eb H]. cbn [cbc_decrypt_loop cbc_decrypt_in_place concat cbc_inv]. pose proof (zlen_nonneg (concat cs)).
  rewrite (proj2 (Z.leb_le 16 _)) by (rewrite zlen_app; lia). rewrite ztake_app_exact, zdrop_app_exact by done. rewrite Eb. cbn [mbind option_bind].
  destruct (IH fuel c Hc Hcs ltac:(lia)) as [E1 E2]. rewrite E1. destruct H as [_ Ht], Hiv as [_ Hi]. rewrite swap_ok by congruence. by rewrite E2.
Qed.

(** In place or not. *)
Lemma cbc_decrypt_ok in_place cs behind iv : block16 iv -> Forall block16 cs ->
  CRYPTO_cbc128_decrypt block in_place (concat cs) behind iv = Some (concat (cbc_inv E iv cs), last_block iv cs).
Proof using HE.
  intros Hiv Hcs. unfold CRYPTO_cbc128_decrypt. pose proof (concat_length_blocks cs Hcs).
  destruct (cbc_decrypt_loop_ok cs (S (length (concat cs))) iv Hiv Hcs ltac:(lia)) as [E1 E2]. rewrite E1, E2. destruct in_place; cbn [mbind option_bind]; unfold cbc_decrypt_tail; change (zlen (@nil Z) =? 0) with true; cbn [mbind option_bind]; by rewrite app_nil_r.
Qed.
End cbc_ok.

Lemma cbc_inverse block E D iv ps : computes block E -> (forall x, block16 x -> D (E x) = x) -> block16 iv -> Forall block16 ps -> cbc_inv D iv (cbc E iv ps) = ps.
Proof.
  intros HE HD. revert iv. induction ps as [|p ps IH]; intros iv Hiv Hps; [done|]. apply Forall_cons in Hps as [Hp Hps]. cbn [cbc cbc_inv].
  destruct (HE (xor_octets p iv)) as [_ H]; [by apply xor_block|]. rewrite IH by done. rewrite HD by (by apply xor_block). rewrite xor_cancel; [done|]. destruct Hp, Hiv. congruence.
Qed.

(** ** The stream modes of SP 800-38A

    [next v p c]: the input of the block function after [v], for a block [p] of the
    input and [c] of the output.  A message is cut into blocks; the last one may be
    shorter. *)
Fixpoint stream_mode (E : list Z -> list Z) (next : list Z -> list Z -> list Z -> list Z) (v : list Z) (ps : list (list Z)) : list (list Z) :=
  match ps with
  | [] => []
  | p :: ps => let c := xor_octets p (E v) in c :: stream_mode E next (next v p c) ps
  end.
Definition ofb (E : list Z -> list Z) : list Z -> list (list Z) -> list (list Z) := stream_mode E (fun v _ _ => E v).
Definition cfb (E : list Z -> list Z) : list Z -> list (list Z) -> list (list Z) := stream_mode E (fun _ _ c => c).
Definition cfb_inv (E : list Z -> list Z) : list Z -> list (list Z) -> list (list Z) := stream_mode E (fun _ p _ => p).
Definition ctr (E : list Z -> list Z) : list Z -> list (list Z) -> list (list Z) := stream_mode E (fun v _ _ => be_bytes 16 (be_val v + 1)).

Fixpoint cut16 (ps : list (list Z)) : Prop :=
  match ps with
  | [] => True
  | [p] => 0 < zlen p <= 16 /\ Forall is_byte p
  | p :: ps => block16 p /\ cut16 ps
  end.

Section modes.
Context {St : Type} (refresh : St -> option St) (use : St -> Z -> Z -> option (Z * St))
  (E : list Z -> list Z) (next : list Z -> list Z -> list Z -> list Z) (R : St -> list Z -> Prop)
  (Hstep : forall st v, R st v -> block16 v -> exists st1, refresh st = Some st1 /\
     forall p, 0 < zlen p <= 16 -> Forall is_byte p -> exists st2, use_all use st1 0 p = Some (xor_octets p (E v), st2) /\
       (zlen p = 16 -> R st2 (next v p (xor_octets p (E v))) /\ block16 (next v p (xor_octets p (E v))))).

Lemma by_octet_mode ps : forall st v, R st v -> block16 v -> cut16 ps ->
  exists st' n, by_octet refresh use st 0 (concat ps) = Some (concat (stream_mode E next v ps), st', n).
Proof using Hstep.
  induction ps as [|p ps IH]; intros st v HR Hv Hps; [by eexists _, _|]. cbn [concat stream_mode].
  assert (Hp : 0 < zlen p <= 16 /\ Forall is_byte p) by (destruct ps; [done|destruct Hps as [[? Hl] _]; split; [lia|done]]).
  destruct (Hstep st v HR Hv) as (st1 & Er & Hu). destruct (Hu p (proj1 Hp) (proj2 Hp)) as (st2 & Eu & Hnext).
  rewrite by_octet_block by apply Hp. rewrite Er. cbn [mbind option_bind]. rewrite Eu. cbn [mbind option_bind].
  destruct ps as [|q ps]; [cbn; by eexists _, _|]. destruct Hps as [[_ Hl] Hps]. rewrite Hl. change (16 mod 16) with 0. destruct (Hnext Hl) as [HR2 Hv2].
  destruct (IH st2 _ HR2 Hv2 Hps) as (st3 & n & ->). cbn [mbind option_bind]. by eexists _, _.
Qed.
End modes.

(** The octets of a block, used in order. *)
Lemma use_all_ok {St} (use : St -> Z -> Z -> option (Z * St)) (cur : St -> list Z) (store : Z -> Z -> option Z) :
  (forall st n x i, zget (cur st) n = Some i -> exists st', use st n x = Some (Z.lxor x i, st') /\
     match store x (Z.lxor x i) with Some y => zset (cur st) n y = Some (cur st') | None => st' = st end) ->
  forall p st n, 0 <= n -> n + zlen p <= zlen (cur st) ->
  exists st', use_all use st n p = Some (xor_octets p (zdrop n (cur st)), st') /\ zlen (cur st') = zlen (cur st) /\
    ((forall x c, store x c = None) -> st' = st) /\
    ((forall x c, store x c = Some x) -> cur st' = ztake n (cur st) ++ p ++ zdrop (n + zlen p) (cur st)) /\
    ((forall x c, store x c = Some c) -> cur st' = ztake n (cur st) ++ xor_octets p (zdrop n (cur st)) ++ zdrop (n + zlen p) (cur st)).
Proof.
  intros Huse. induction p as [|x p IH]; intros st n Hn Hl.
  - exists st. rewrite zlen_nil, Z.add_0_r. cbn [use_all]. split; [done|]. split; [done|]. split; [done|]. cbn [xor_octets zip_with app]. by rewrite !ztake_zdrop.
  - rewrite zlen_cons in Hl. pose proof (zlen_nonneg p). destruct (zget_Some (cur st) n ltac:(lia)) as [i Ei]. destruct (Huse st n x i Ei) as (st1 & Eu & Hs).
    assert (Hcur : exists y, cur st1 = ztake n (cur st) ++ y :: zdrop (n + 1) (cur st) /\
      ((forall x c, store x c = None) -> st1 = st) /\ ((forall x c, store x c = Some x) -> y = x) /\ ((forall x c, store x c = Some c) -> y = Z.lxor x i)).
    { destruct (store x (Z.lxor x i)) as [y|] eqn:Es.
      - exists y. split; [|split; [intros H1; congruence|split; intros H1; congruence]]. unfold zset in Hs. rewrite zwrite_ok in Hs by (rewrite ?zlen_cons, ?zlen_nil; lia). injection Hs as Hs.
        rewrite zlen_cons, zlen_nil, Z.add_0_r in Hs. by symmetry.
      - subst st1. exists i. split; [|split; [done|split; intros H1; congruence]]. rewrite <- (ztake_zdrop n (cur st)) at 1. f_equal. by apply zdrop_cons_get. }
    destruct Hcur as (y & Ecur & H1 & H2 & H3).
    assert (Ln : zlen (ztake n (cur st)) = n) by (apply zlen_ztake; lia).
    assert (L1 : zlen (cur st1) = zlen (cur st)) by (rewrite Ecur, zlen_app, zlen_cons, zlen_zdrop by lia; lia).
    assert (Ed : zdrop (n + 1) (cur st1) = zdrop (n + 1) (cur st)).
    { rewrite Ecur. rewrite zdrop_app_ge, zdrop_cons by lia. replace (n + 1 - zlen (ztake n (cur st)) - 1) with 0 by lia. by rewrite zdrop_0. }
    assert (Ed2 : zdrop (n + 1 + zlen p) (cur st1) = zdrop (n + (1 + zlen p)) (cur st)).
    { rewrite <- (zdrop_zdrop (zlen p) (n + 1) (cur st1)), Ed, zdrop_zdrop by lia. f_equal. lia. }
    assert (Et : ztake (n + 1) (cur st1) = ztake n (cur st) ++ [y]).
    { rewrite Ecur. rewrite ztake_app_ge by lia. f_equal. replace (n + 1 - zlen (ztake n (cur st))) with 1 by lia. by rewrite ztake_cons, ztake_0 by lia. }
    destruct (IH st1 (n + 1) ltac:(lia) ltac:(lia)) as (st2 & E2 & L2 & G1 & G2 & G3). exists st2. cbn [use_all]. rewrite Eu. cbn [mbind option_bind]. rewrite E2. cbn [mbind option_bind].
    assert (Ex : xor_octets (x :: p) (zdrop n (cur st)) = Z.lxor x i :: xor_octets p (zdrop (n + 1) (cur st))) by (by rewrite (zdrop_cons_get (cur st) n i)).
    rewrite Ex, <- Ed. split; [done|]. split; [lia|]. rewrite zlen_cons. split; [intros Hn0; by rewrite (G1 Hn0), (H1 Hn0)|].
    split; intros Hst; [rewrite (G2 Hst)|rewrite (G3 Hst)]; rewrite Et, Ed2, <- app_assoc; cbn [app]; [by rewrite (H2 Hst)|by rewrite (H3 Hst)].
Qed.

(** *** OFB, CFB and CTR are the modes *)

Section stream_modes.
Context (block : list Z -> option (list Z)) (E : list Z -> list Z) (HE : computes block E).

Lemma xor_short p e : 0 < zlen p <= 16 -> Forall is_byte p -> block16 e -> zlen p = 16 -> block16 (xor_octets p e).
Proof using. intros _ Hb He Hl. by apply xor_block. Qed.

Lemma cfb_use_ok : (forall st n x i, zget st n = Some i -> exists st', cfb_encrypt_use st n x = Some (Z.lxor x i, st') /\ zset st n (Z.lxor x i) = Some st') /\
  (forall st n x i, zget st n = Some i -> exists st', cfb_decrypt_use st n x = Some (Z.lxor x i, st') /\ zset st n x = Some st').
Proof using.
  assert (Hset : forall (st : list Z) n i y, zget st n = Some i -> exists st', zset st n y = Some st').
  { intros st n i y Hi%zget_lt. apply zwrite_fits; [lia|]. rewrite zlen_cons, zlen_nil. lia. }
  split; intros st n x i Hi; unfold cfb_encrypt_use, cfb_decrypt_use; rewrite Hi; cbn [mbind option_bind]; rewrite (Z.lxor_comm i x).
  - destruct (Hset st n i (Z.lxor x i) Hi) as [st' Es]. exists st'. by rewrite Es.
  - destruct (Hset st n i x Hi) as [st' Es]. exists st'. by rewrite Es.
Qed.

(** After a whole block nothing of the old one is left. *)
Lemma whole_block {A} (p old : list A) x : zlen p = 16 -> zlen old = 16 -> ztake 0 old ++ p ++ zdrop (0 + 16) old = x -> p = x.
Proof using. intros Hp Ho. rewrite ztake_0. cbn [app]. assert (Ed : zdrop (0 + 16) old = []) by (apply zlen_nil_inv; rewrite zlen_zdrop; lia). by rewrite Ed, app_nil_r. Qed.

Lemma ofb_ok ps iv : block16 iv -> cut16 ps -> exists st n, CRYPTO_ofb128_encrypt block (concat ps) iv 0 = Some (concat (ofb E iv ps), st, n).
Proof using HE.
  intros Hiv Hps. unfold CRYPTO_ofb128_encrypt. rewrite stream128_ok by lia. apply (by_octet_mode _ _ E (fun v _ _ => E v) eq); [|done|done|done].
  intros st v -> Hv. destruct (HE v Hv) as [Eb Hb]. exists (E v). split; [done|]. intros p Hp Hpb.
  destruct (use_all_ok ofb_use id (fun _ _ => None)) with (p := p) (st := E v) (n := 0) as (st2 & Eu & _ & Es & _).
  - intros st n x i Hi. exists st. unfold ofb_use, id in *. by rewrite Hi.
  - done.
  - destruct Hb as [_ Hl]. unfold id. lia.
  - rewrite Es in * by done. exists (E v). unfold id in Eu. rewrite zdrop_0 in Eu. by split.
Qed.

Lemma cfb_ok ps iv : block16 iv -> cut16 ps ->
  (exists st n, CRYPTO_cfb128_encrypt block (concat ps) iv 0 1 = Some (concat (cfb E iv ps), st, n)) /\
  (exists st n, CRYPTO_cfb128_encrypt block (concat ps) iv 0 0 = Some (concat (cfb_inv E iv ps), st, n)).
Proof using HE.
  intros Hiv Hps. unfold CRYPTO_cfb128_encrypt. cbn [Z.eqb negb]. rewrite !stream128_ok by lia. destruct cfb_use_ok as [He Hd]. split.
  - apply (by_octet_mode _ _ E (fun _ _ c => c) eq); [|done|done|done].
    intros st v -> Hv. destruct (HE v Hv) as [Eb Hb]. exists (E v). split; [done|]. intros p Hp Hpb. pose proof Hb as [_ Hl].
    destruct (use_all_ok cfb_encrypt_use id (fun _ c => Some c)) with (p := p) (st := E v) (n := 0) as (st2 & Eu & L2 & _ & _ & Es); [exact He|done|unfold id; lia|].
    exists st2. unfold id in *. rewrite zdrop_0 in *. split; [done|]. intros Lp. specialize (Es ltac:(done)). rewrite Lp in Es. symmetry in Es.
    apply whole_block in Es; [|by apply xor_block|done]. split; [done|by apply xor_block].
  - apply (by_octet_mode _ _ E (fun _ p _ => p) eq); [|done|done|done].
    intros st v -> Hv. destruct (HE v Hv) as [Eb Hb]. exists (E v). split; [done|]. intros p Hp Hpb. pose proof Hb as [_ Hl].
    destruct (use_all_ok cfb_decrypt_use id (fun x _ => Some x)) with (p := p) (st := E v) (n := 0) as (st2 & Eu & L2 & _ & Es & _); [exact Hd|done|unfold id; lia|].
    exists st2. unfold id in *. rewrite zdrop_0 in *. split; [done|]. intros Lp. specialize (Es ltac:(done)). rewrite Lp in Es. symmetry in Es.
    apply whole_block in Es; [|done|done]. by split.
Qed.

(** The counter. *)
Lemma inc_octets_ok r : Forall is_byte r -> rev (inc_octets r) = be_bytes (length r) (be_val (rev r) + 1).
Proof using.
  induction 1 as [|c r Hc Hr IH]; [done|]. cbn [inc_octets rev length be_bytes]. rewrite be_val_snoc.
  assert (Hrev : be_bytes (length r) (be_val (rev r)) = rev r) by (rewrite <- length_rev; by apply be_bytes_val, Forall_rev).
  unfold u8, is_byte in *. destruct (Z.eqb_spec ((c + 1) mod 2 ^ 8) 0) as [E0|E0]; cbn [negb rev].
  - assert (c = 255) as -> by (Z.to_euclidean_division_equations; lia). rewrite IH.
    replace (be_val (rev r) * 256 + 255 + 1) with ((be_val (rev r) + 1) * 256) by lia. rewrite Z.div_mul, Z.mod_mul by lia. done.
  - assert (Hc' : 0 <= c + 1 < 256) by (Z.to_euclidean_division_equations; lia). change (2 ^ 8) with 256. rewrite Z.mod_small by lia.
    replace (be_val (rev r) * 256 + c + 1) with (be_val (rev r) * 256 + (c + 1)) by lia. rewrite Z.div_add_l, (Z.div_small (c + 1)), Z.add_0_r by lia.
    rewrite (Z.add_comm (_ * 256)), Z.mod_add, Z.mod_small by lia. by rewrite Hrev.
Qed.

Lemma ctr128_inc_ok v : block16 v -> ctr128_inc v = be_bytes 16 (be_val v + 1) /\ block16 (ctr128_inc v).
Proof using.
  intros [Hb Hl]. unfold ctr128_inc. assert (Ei : rev (inc_octets (rev v)) = be_bytes 16 (be_val v + 1)).
  { rewrite inc_octets_ok by (by apply Forall_rev). rewrite length_rev, rev_involutive. f_equal. unfold zlen in Hl. lia. }
  rewrite Ei. split; [done|]. split; [apply is_byte_be_bytes|by rewrite zlen_be_bytes].
Qed.

Lemma xor_ztake n p e : zlen p <= n -> xor_octets p (ztake n e) = xor_octets p e.
Proof using.
  revert n e. induction p as [|x p IH]; intros n e Hl; [done|]. rewrite zlen_cons in Hl. pose proof (zlen_nonneg p).
  destruct e as [|y e]; [unfold ztake; by rewrite take_nil|]. rewrite ztake_cons by lia. cbn [xor_octets zip_with]. f_equal. apply IH. lia.
Qed.

(** The counter is [v], [ecount_buf] has room. *)
Definition at_counter (st : list Z * list Z) (v : list Z) : Prop := fst st = v /\ 16 <= zlen (snd st).

Lemma ctr_ok ps iv ecount_buf : block16 iv -> 16 <= zlen ecount_buf -> cut16 ps ->
  exists st n, CRYPTO_ctr128_encrypt block (concat ps) iv ecount_buf 0 = Some (concat (ctr E iv ps), st, n).
Proof using HE.
  intros Hiv He Hps. unfold CRYPTO_ctr128_encrypt. cbn [Z.ltb Z.compare]. rewrite stream128_ok by lia.
  apply (by_octet_mode _ _ E (fun v _ _ => be_bytes 16 (be_val v + 1)) at_counter); [|done|done|done].
  intros [iv1 e1] v [<- Hl] Hv. cbn [fst snd] in *. destruct (HE iv1 Hv) as [Eb [Hb Lb]]. destruct (ctr128_inc_ok iv1 Hv) as [Ei Hinc].
  destruct (zwrite_fits e1 0 (E iv1) ltac:(lia) ltac:(lia)) as [e2 Ee]. exists (ctr128_inc iv1, e2). split.
  { unfold ctr_refresh. rewrite Eb. cbn [mbind option_bind]. by rewrite Ee. }
  intros p Hp Hpb. assert (Le : zlen e2 = zlen e1) by (by apply (zlen_zwrite _ _ _ _ Ee)). apply zwrite_take in Ee. rewrite Z.add_0_l, Lb, ztake_0 in Ee. cbn [app] in Ee.
  destruct (use_all_ok ctr_use snd (fun _ _ => None)) with (p := p) (st := (ctr128_inc iv1, e2)) (n := 0) as (st2 & Eu & _ & Es & _).
  - intros st n x i Hi. exists st. unfold ctr_use. by rewrite Hi.
  - done.
  - cbn [snd]. lia.
  - rewrite Es in Eu by done. exists (ctr128_inc iv1, e2). cbn [snd] in Eu. rewrite zdrop_0 in Eu. split.
    + by rewrite Eu, <- Ee, xor_ztake by lia.
    + intros _. split; [|rewrite <- Ei; done]. split; [done|]. cbn [snd]. lia.
Qed.
End stream_modes.

(** ** The theorems *)

Lemma by_octet_num {St} refresh (use : St -> Z -> Z -> option (Z * St)) input : forall st n out st' n',
  0 <= n < 16 -> by_octet refresh use st n input = Some (out, st', n') -> 0 <= n' < 16.
Proof.
  induction input as [|x input IH]; intros st n out st' n' Hn; cbn [by_octet]; [by intros [= <- <- <-]|].
  destruct (if n =? 0 then refresh st else Some st) as [st1|]; [|done]. cbn [mbind option_bind]. destruct (use st1 n x) as [[y st2]|]; [|done]. cbn [mbind option_bind].
  destruct (by_octet refresh use st2 ((n + 1) mod 16) input) as [[[o st3] n3]|] eqn:Eo; [|done]. cbn [mbind option_bind]. intros [= <- <- <-].
  eapply IH; [|exact Eo]. by apply Z.mod_pos_bound.
Qed.

Lemma stream128_app {St} refresh (use : St -> Z -> Z -> option (Z * St)) st num a b : 0 <= num < 16 ->
  stream128 refresh use st num (a ++ b) =
    ('(o1, st, n) ← stream128 refresh use st num a; '(o2, st, n) ← stream128 refresh use st n b; Some (o1 ++ o2, st, n)).
Proof.
  intros Hn. rewrite !stream128_ok, by_octet_app by done. destruct (by_octet refresh use st num a) as [[[o1 st1] n1]|] eqn:Ea; [|done]. cbn [mbind option_bind].
  by rewrite stream128_ok by (by eapply by_octet_num).
Qed.

(** What the runs of a mode keep, and that they go on. *)
Definition runs_on {St} (refresh : St -> option St) (use : St -> Z -> Z -> option (Z * St)) (Inv : St -> Prop) : Prop :=
  (forall st, Inv st -> exists st', refresh st = Some st' /\ Inv st') /\
  (forall st n x, Inv st -> 0 <= n < 16 -> is_byte x -> exists y st', use st n x = Some (y, st') /\ Inv st' /\ is_byte y).

Lemma stream_step {St} (refresh : St -> option St) use Inv st0 m o st n data :
  runs_on refresh use Inv -> by_octet refresh use st0 0 m = Some (o, st, n) -> Inv st -> 0 <= n < 16 -> Forall is_byte data ->
  exists out st' n', stream128 refresh use st n data = Some (out, st', n') /\ 0 <= n' < 16 /\ Inv st' /\
    by_octet refresh use st0 0 (m ++ data) = Some (o ++ out, st', n') /\ zlen out = zlen data /\ Forall is_byte out.
Proof.
  intros [Hr Hu] Em Hi Hn Hb. destruct (by_octet_total refresh use Inv Hr Hu data st n Hi Hn Hb) as (out & st' & E & Hi' & Hl & Ho).
  exists out, st', ((n + zlen data) mod 16). rewrite stream128_ok by done. split; [done|]. split; [by apply Z.mod_pos_bound|]. split; [done|].
  split; [|done]. rewrite by_octet_app, Em. cbn [mbind option_bind]. by rewrite E.
Qed.

Lemma zget_block v n : block16 v -> 0 <= n < 16 -> exists i, zget v n = Some i /\ is_byte i.
Proof. intros [Hb Hl] Hn. destruct (zget_Some v n ltac:(lia)) as [i Ei]. exists i. split; [done|by eapply zget_Forall]. Qed.

Lemma zset_block v n y : block16 v -> 0 <= n < 16 -> is_byte y -> exists v', zset v n y = Some v' /\ block16 v'.
Proof.
  intros [Hb Hl] Hn Hy. destruct (zwrite_fits v n [y] ltac:(lia)) as [v' E]; [rewrite zlen_cons, zlen_nil; lia|]. exists v'. split; [done|].
  split; [eapply zwrite_bytes; [exact E|done|by constructor]|by rewrite (zlen_zwrite _ _ _ _ E)].
Qed.

Definition ctr_state (st : list Z * list Z) : Prop := block16 (fst st) /\ Forall is_byte (snd st) /\ zlen (snd st) = 32.

Lemma modes_run_on block E : computes block E ->
  runs_on (ofb_refresh block) ofb_use block16 /\ runs_on (cfb_refresh block) cfb_encrypt_use block16 /\
  runs_on (cfb_refresh block) cfb_decrypt_use block16 /\ runs_on (ctr_refresh block) ctr_use ctr_state.
Proof.
  intros HE. assert (Hr : forall v, block16 v -> exists v', block v = Some v' /\ block16 v') by (intros v Hv; exists (E v); by apply HE).
  split; [|split; [|split]]; (split; [done || idtac|]).
  - intros v n x Hv Hn Hx. destruct (zget_block v n Hv Hn) as (i & Ei & Hi). exists (Z.lxor x i), v. unfold ofb_use. rewrite Ei. split; [done|]. split; [done|by apply lxor_byte].
  - intros v n x Hv Hn Hx. destruct (zget_block v n Hv Hn) as (i & Ei & Hi). assert (Hy : is_byte (Z.lxor i x)) by (by apply lxor_byte).
    destruct (zset_block v n _ Hv Hn Hy) as (v' & Es & Hv'). exists (Z.lxor i x), v'. unfold cfb_encrypt_use. rewrite Ei. cbn [mbind option_bind]. by rewrite Es.
  - intros v n x Hv Hn Hx. destruct (zget_block v n Hv Hn) as (i & Ei & Hi). assert (Hy : is_byte (Z.lxor i x)) by (by apply lxor_byte).
    destruct (zset_block v n _ Hv Hn Hx) as (v' & Es & Hv'). exists (Z.lxor i x), v'. unfold cfb_decrypt_use. rewrite Ei. cbn [mbind option_bind]. by rewrite Es.
  - intros [v e] (Hv & Hb & Hl). destruct (Hr v Hv) as (c & Ec & Hc & Lc). cbn [fst snd] in *.
    destruct (zwrite_fits e 0 c ltac:(lia) ltac:(lia)) as [e' Ee]. exists (ctr128_inc v, e'). unfold ctr_refresh. rewrite Ec. cbn [mbind option_bind]. rewrite Ee.
    split; [done|]. split; [by apply ctr128_inc_ok|]. cbn [snd]. split; [by eapply zwrite_bytes|by rewrite (zlen_zwrite _ _ _ _ Ee)].
  - intros [v e] n x (Hv & Hb & Hl) Hn Hx. cbn [fst snd] in *. destruct (zget_Some e n ltac:(lia)) as [i Ei]. exists (Z.lxor x i), (v, e). unfold ctr_use. cbn [snd]. rewrite Ei.
    split; [done|]. split; [done|]. apply lxor_byte; [done|by eapply zget_Forall].
Qed.

(** What a mode makes of a message. *)
Definition run {St} (refresh : St -> option St) (use : St -> Z -> Z -> option (Z * St)) (st : St) (m : list Z) : list Z :=
  match by_octet refresh use st 0 m with
  | Some (out, _, _) => out
  | None => []
  end.

(** Decryption is the same with the modes that only add the key stream; CFB keeps the
    ciphertext on both sides. *)
Lemma modes_inverse block E v e p : computes block E -> block16 v -> Forall is_byte e -> zlen e = 32 -> Forall is_byte p ->
  run (ofb_refresh block) ofb_use v (run (ofb_refresh block) ofb_use v p) = p /\
  run (cfb_refresh block) cfb_decrypt_use v (run (cfb_refresh block) cfb_encrypt_use v p) = p /\
  run (ctr_refresh block) ctr_use (v, e) (run (ctr_refresh block) ctr_use (v, e) p) = p.
Proof.
  intros HE Hv Hbe He Hp. destruct (modes_run_on block E HE) as (Ro & Rc & _ & Rt).
  assert (Hxx : forall x i, Z.lxor (Z.lxor x i) i = x) by (intros; by rewrite Z.lxor_assoc, Z.lxor_nilpotent, Z.lxor_0_r).
  assert (Hinv : forall (St : Type) (r : St -> option St) u1 u2 Inv st, runs_on r u1 Inv -> Inv st ->
    (forall s n x y s', u1 s n x = Some (y, s') -> u2 s n y = Some (x, s')) -> run r u2 st (run r u1 st p) = p).
  { intros St r u1 u2 Inv st [Hr Hu] Hi H12. destruct (by_octet_total r u1 Inv Hr Hu p st 0 Hi ltac:(lia) Hp) as (out & st' & E1 & _). unfold run. rewrite E1.
    destruct (by_octet_inverse r u1 r u2 eq) with (input := p) (s := st) (t := st) (n := 0) (out := out) (s' := st') (n' := (0 + zlen p) mod 16) as (t' & E2 & _);
      [intros s ? s' <- ?; by exists s'|intros s ? n x y s' <- _ Hu1; exists s'; split; [by apply H12|done]|done|lia|done|by rewrite E2]. }
  split; [|split].
  - apply (Hinv _ _ _ _ block16); [done|done|]. intros s n x y s'. unfold ofb_use. destruct (zget s n) as [i|]; [|done]. cbn [mbind option_bind]. intros [= <- <-]. by rewrite Hxx.
  - apply (Hinv _ _ _ _ block16); [done|done|]. intros s n x y s'. unfold cfb_encrypt_use, cfb_decrypt_use. destruct (zget s n) as [i|]; [|done]. cbn [mbind option_bind].
    destruct (zset s n (Z.lxor i x)) as [s1|] eqn:Es; [|done]. cbn [mbind option_bind]. intros [= <- <-]. rewrite Es. cbn [mbind option_bind]. by rewrite (Z.lxor_comm i x), (Z.lxor_comm i), Hxx.
  - apply (Hinv _ _ _ _ ctr_state); [done|by split|]. intros s n x y s'. unfold ctr_use. destruct (zget (snd s) n) as [i|]; [|done]. cbn [mbind option_bind]. intros [= <- <-]. by rewrite Hxx.
Qed.

(** C40. The OFB, CFB and CTR functions are the modes of SP 800-38A over any block
    function, and calls on the pieces of a message, however it is cut, do what one call
    on the message does: the loops by words and blocks keep the place in the key stream. *)
Theorem stream_modes_correct block E : computes block E ->
  (forall ps iv ecount_buf, block16 iv -> 16 <= zlen ecount_buf -> cut16 ps ->
     (exists st n, CRYPTO_ofb128_encrypt block (concat ps) iv 0 = Some (concat (ofb E iv ps), st, n)) /\
     (exists st n, CRYPTO_cfb128_encrypt block (concat ps) iv 0 1 = Some (concat (cfb E iv ps), st, n)) /\
     (exists st n, CRYPTO_cfb128_encrypt block (concat ps) iv 0 0 = Some (concat (cfb_inv E iv ps), st, n)) /\
     (exists st n, CRYPTO_ctr128_encrypt block (concat ps) iv ecount_buf 0 = Some (concat (ctr E iv ps), st, n))) /\
  (forall a b v ecount_buf n enc, 0 <= n < 16 ->
     CRYPTO_ofb128_encrypt block (a ++ b) v n =
       ('(o1, v, n) ← CRYPTO_ofb128_encrypt block a v n; '(o2, v, n) ← CRYPTO_ofb128_encrypt block b v n; Some (o1 ++ o2, v, n)) /\
     CRYPTO_cfb128_encrypt block (a ++ b) v n enc =
       ('(o1, v, n) ← CRYPTO_cfb128_encrypt block a v n enc; '(o2, v, n) ← CRYPTO_cfb128_encrypt block b v n enc; Some (o1 ++ o2, v, n)) /\
     CRYPTO_ctr128_encrypt block (a ++ b) v ecount_buf n =
       ('(o1, st, n) ← CRYPTO_ctr128_encrypt block a v ecount_buf n;
        '(o2, st, n) ← CRYPTO_ctr128_encrypt block b (fst st) (snd st) n; Some (o1 ++ o2, st, n))).
Proof.
  intros HE. split.
  - intros ps iv ecount_buf Hiv He Hps. split; [by apply ofb_ok|]. split; [by apply cfb_ok|]. split; [by apply cfb_ok|by apply ctr_ok].
  - intros a b v ecount_buf n enc Hn. split; [by apply stream128_app|]. split.
    + unfold CRYPTO_cfb128_encrypt. destruct (negb (enc =? 0)); by apply stream128_app.
    + unfold CRYPTO_ctr128_encrypt. rewrite (proj2 (Z.ltb_lt n 16)) by lia. rewrite stream128_app by done.
      destruct (stream128 (ctr_refresh block) ctr_use (v, ecount_buf) n a) as [[[o1 [v1 e1]] n1]|] eqn:Ea; [|done]. cbn [mbind option_bind fst snd].
      rewrite stream128_ok in Ea by done. apply by_octet_num in Ea; [|done]. by rewrite (proj2 (Z.ltb_lt n1 16)) by lia.
Qed.

(** A block function for the witnesses. *)
Definition mask_block (x : list Z) : list Z := xor_octets x (zrep 16 0x5a).
Lemma mask_computes : computes (fun x => Some (mask_block x)) mask_block.
Proof. intros x Hx. split; [done|]. apply xor_block; [done|]. split; [by apply is_byte_zrep|done]. Qed.
Lemma mask_inverse x : block16 x -> mask_block (mask_block x) = x.
Proof. intros [_ Hl]. apply xor_cancel. by rewrite zlen_rep. Qed.

Lemma stream_modes_correct_witness :
  exists st n, CRYPTO_ctr128_encrypt (fun x => Some (mask_block x)) (concat [zrep 16 1; zrep 5 2]) (zrep 16 255) (zrep 16 0) 0 =
    Some (concat (ctr mask_block (zrep 16 255) [zrep 16 1; zrep 5 2]), st, n).
Proof.
  destruct (stream_modes_correct (fun x => Some (mask_block x)) mask_block mask_computes) as [H _].
  destruct (H [zrep 16 1; zrep 5 2] (zrep 16 255) (zrep 16 0)) as (_ & _ & _ & Hctr);
    [split; [by apply is_byte_zrep|done]|done|split; [split; [by apply is_byte_zrep|done]|split; [done|by apply is_byte_zrep]]|exact Hctr].
Defined.

(** The CBC functions on whole blocks are the mode of SP 800-38A, decryption gives
    back what was encrypted, and it does so in place as well as into another buffer,
    although the two keep the previous block in different ways. *)
Theorem cbc_correct block_e block_d E D iv ps in_place behind :
  computes block_e E -> computes block_d D -> (forall x, block16 x -> D (E x) = x) -> block16 iv -> Forall block16 ps ->
  exists ct last, CRYPTO_cbc128_encrypt block_e (concat ps) iv = Some (ct, last) /\ ct = concat (cbc E iv ps) /\ last = last_block iv (cbc E iv ps) /\
    CRYPTO_cbc128_decrypt block_d in_place ct behind iv = Some (concat ps, last).
Proof.
  intros HE HD Hinv Hiv Hps. exists (concat (cbc E iv ps)), (last_block iv (cbc E iv ps)). split; [by eapply cbc_encrypt_ok|]. split; [done|]. split; [done|].
  rewrite (cbc_decrypt_ok block_d D HD in_place (cbc E iv ps) behind iv Hiv) by (by eapply cbc_blocks).
  by rewrite (cbc_inverse block_e E D).
Qed.

Lemma cbc_correct_witness :
  exists ct last, CRYPTO_cbc128_encrypt (fun x => Some (mask_block x)) (concat [zrep 16 1; zrep 16 2]) (zrep 16 9) = Some (ct, last) /\
    ct = concat (cbc mask_block (zrep 16 9) [zrep 16 1; zrep 16 2]) /\ last = last_block (zrep 16 9) (cbc mask_block (zrep 16 9) [zrep 16 1; zrep 16 2]) /\
    CRYPTO_cbc128_decrypt (fun x => Some (mask_block x)) true ct [] (zrep 16 9) = Some (concat [zrep 16 1; zrep 16 2], last).
Proof.
  apply (cbc_correct (fun x => Some (mask_block x)) (fun x => Some (mask_block x)) mask_block mask_block (zrep 16 9) [zrep 16 1; zrep 16 2] true []);
    [exact mask_computes|exact mask_computes|exact mask_inverse|split; [by apply is_byte_zrep|done]|repeat constructor; done || by apply is_byte_zrep].
Defined.
