(* ===== verification/Sm4.v ===== *)
(** * SM4

    lib/libcrypto/sm4/sm4.c.  A key schedule is the list of its 32 round keys; a read
    outside the block or the key is [None].  The specification is GB/T 32907: a Feistel
    network with the function [T]. *)

From S2P Require Import Prelude.
Open Scope Z_scope.

Definition SM4_BLOCK_SIZE : Z := 16.
Definition SM4_KEY_SCHEDULE : Z := 32.

Definition SM4_S : list Z :=
  [0xD6; 0x90; 0xE9; 0xFE; 0xCC; 0xE1; 0x3D; 0xB7; 0x16; 0xB6; 0x14; 0xC2; 0x28; 0xFB; 0x2C; 0x05;
   0x2B; 0x67; 0x9A; 0x76; 0x2A; 0xBE; 0x04; 0xC3; 0xAA; 0x44; 0x13; 0x26; 0x49; 0x86; 0x06; 0x99;
   0x9C; 0x42; 0x50; 0xF4; 0x91; 0xEF; 0x98; 0x7A; 0x33; 0x54; 0x0B; 0x43; 0xED; 0xCF; 0xAC; 0x62;
   0xE4; 0xB3; 0x1C; 0xA9; 0xC9; 0x08; 0xE8; 0x95; 0x80; 0xDF; 0x94; 0xFA; 0x75; 0x8F; 0x3F; 0xA6;
   0x47; 0x07; 0xA7; 0xFC; 0xF3; 0x73; 0x17; 0xBA; 0x83; 0x59; 0x3C; 0x19; 0xE6; 0x85; 0x4F; 0xA8;
   0x68; 0x6B; 0x81; 0xB2; 0x71; 0x64; 0xDA; 0x8B; 0xF8; 0xEB; 0x0F; 0x4B; 0x70; 0x56; 0x9D; 0x35;
   0x1E; 0x24; 0x0E; 0x5E; 0x63; 0x58; 0xD1; 0xA2; 0x25; 0x22; 0x7C; 0x3B; 0x01; 0x21; 0x78; 0x87;
   0xD4; 0x00; 0x46; 0x57; 0x9F; 0xD3; 0x27; 0x52; 0x4C; 0x36; 0x02; 0xE7; 0xA0; 0xC4; 0xC8; 0x9E;
   0xEA; 0xBF; 0x8A; 0xD2; 0x40; 0xC7; 0x38; 0xB5; 0xA3; 0xF7; 0xF2; 0xCE; 0xF9; 0x61; 0x15; 0xA1;
   0xE0; 0xAE; 0x5D; 0xA4; 0x9B; 0x34; 0x1A; 0x55; 0xAD; 0x93; 0x32; 0x30; 0xF5; 0x8C; 0xB1; 0xE3;
   0x1D; 0xF6; 0xE2; 0x2E; 0x82; 0x66; 0xCA; 0x60; 0xC0; 0x29; 0x23; 0xAB; 0x0D; 0x53; 0x4E; 0x6F;
   0xD5; 0xDB; 0x37; 0x45; 0xDE; 0xFD; 0x8E; 0x2F; 0x03; 0xFF; 0x6A; 0x72; 0x6D; 0x6C; 0x5B; 0x51;
   0x8D; 0x1B; 0xAF; 0x92; 0xBB; 0xDD; 0xBC; 0x7F; 0x11; 0xD9; 0x5C; 0x41; 0x1F; 0x10; 0x5A; 0xD8;
   0x0A; 0xC1; 0x31; 0x88; 0xA5; 0xCD; 0x7B; 0xBD; 0x2D; 0x74; 0xD0; 0x12; 0xB8; 0xE5; 0xB4; 0xB0;
   0x89; 0x69; 0x97; 0x4A; 0x0C; 0x96; 0x77; 0x7E; 0x65; 0xB9; 0xF1; 0x09; 0xC5; 0x6E; 0xC6; 0x84;
   0x18; 0xF0; 0x7D; 0xEC; 0x3A; 0xDC; 0x4D; 0x20; 0x79; 0xEE; 0x5F; 0x3E; 0xD7; 0xCB; 0x39; 0x48].

(** [L] of each octet of [SM4_S], in the top octet. *)
Definition SM4_SBOX_T : list Z :=
  [0x8ED55B5B; 0xD0924242; 0x4DEAA7A7; 0x06FDFBFB; 0xFCCF3333; 0x65E28787; 0xC93DF4F4; 0x6BB5DEDE;
   0x4E165858; 0x6EB4DADA; 0x44145050; 0xCAC10B0B; 0x8828A0A0; 0x17F8EFEF; 0x9C2CB0B0; 0x11051414;
   0x872BACAC; 0xFB669D9D; 0xF2986A6A; 0xAE77D9D9; 0x822AA8A8; 0x46BCFAFA; 0x14041010; 0xCFC00F0F;
   0x02A8AAAA; 0x54451111; 0x5F134C4C; 0xBE269898; 0x6D482525; 0x9E841A1A; 0x1E061818; 0xFD9B6666;
   0xEC9E7272; 0x4A430909; 0x10514141; 0x24F7D3D3; 0xD5934646; 0x53ECBFBF; 0xF89A6262; 0x927BE9E9;
   0xFF33CCCC; 0x04555151; 0x270B2C2C; 0x4F420D0D; 0x59EEB7B7; 0xF3CC3F3F; 0x1CAEB2B2; 0xEA638989;
   0x74E79393; 0x7FB1CECE; 0x6C1C7070; 0x0DABA6A6; 0xEDCA2727; 0x28082020; 0x48EBA3A3; 0xC1975656;
   0x80820202; 0xA3DC7F7F; 0xC4965252; 0x12F9EBEB; 0xA174D5D5; 0xB38D3E3E; 0xC33FFCFC; 0x3EA49A9A;
   0x5B461D1D; 0x1B071C1C; 0x3BA59E9E; 0x0CFFF3F3; 0x3FF0CFCF; 0xBF72CDCD; 0x4B175C5C; 0x52B8EAEA;
   0x8F810E0E; 0x3D586565; 0xCC3CF0F0; 0x7D196464; 0x7EE59B9B; 0x91871616; 0x734E3D3D; 0x08AAA2A2;
   0xC869A1A1; 0xC76AADAD; 0x85830606; 0x7AB0CACA; 0xB570C5C5; 0xF4659191; 0xB2D96B6B; 0xA7892E2E;
   0x18FBE3E3; 0x47E8AFAF; 0x330F3C3C; 0x674A2D2D; 0xB071C1C1; 0x0E575959; 0xE99F7676; 0xE135D4D4;
   0x661E7878; 0xB4249090; 0x360E3838; 0x265F7979; 0xEF628D8D; 0x38596161; 0x95D24747; 0x2AA08A8A;
   0xB1259494; 0xAA228888; 0x8C7DF1F1; 0xD73BECEC; 0x05010404; 0xA5218484; 0x9879E1E1; 0x9B851E1E;
   0x84D75353; 0x00000000; 0x5E471919; 0x0B565D5D; 0xE39D7E7E; 0x9FD04F4F; 0xBB279C9C; 0x1A534949;
   0x7C4D3131; 0xEE36D8D8; 0x0A020808; 0x7BE49F9F; 0x20A28282; 0xD4C71313; 0xE8CB2323; 0xE69C7A7A;
   0x42E9ABAB; 0x43BDFEFE; 0xA2882A2A; 0x9AD14B4B; 0x40410101; 0xDBC41F1F; 0xD838E0E0; 0x61B7D6D6;
   0x2FA18E8E; 0x2BF4DFDF; 0x3AF1CBCB; 0xF6CD3B3B; 0x1DFAE7E7; 0xE5608585; 0x41155454; 0x25A38686;
   0x60E38383; 0x16ACBABA; 0x295C7575; 0x34A69292; 0xF7996E6E; 0xE434D0D0; 0x721A6868; 0x01545555;
   0x19AFB6B6; 0xDF914E4E; 0xFA32C8C8; 0xF030C0C0; 0x21F6D7D7; 0xBC8E3232; 0x75B3C6C6; 0x6FE08F8F;
   0x691D7474; 0x2EF5DBDB; 0x6AE18B8B; 0x962EB8B8; 0x8A800A0A; 0xFE679999; 0xE2C92B2B; 0xE0618181;
   0xC0C30303; 0x8D29A4A4; 0xAF238C8C; 0x07A9AEAE; 0x390D3434; 0x1F524D4D; 0x764F3939; 0xD36EBDBD;
   0x81D65757; 0xB7D86F6F; 0xEB37DCDC; 0x51441515; 0xA6DD7B7B; 0x09FEF7F7; 0xB68C3A3A; 0x932FBCBC;
   0x0F030C0C; 0x03FCFFFF; 0xC26BA9A9; 0xBA73C9C9; 0xD96CB5B5; 0xDC6DB1B1; 0x375A6D6D; 0x15504545;
   0xB98F3636; 0x771B6C6C; 0x13ADBEBE; 0xDA904A4A; 0x57B9EEEE; 0xA9DE7777; 0x4CBEF2F2; 0x837EFDFD;
   0x55114444; 0xBDDA6767; 0x2C5D7171; 0x45400505; 0x631F7C7C; 0x50104040; 0x325B6969; 0xB8DB6363;
   0x220A2828; 0xC5C20707; 0xF531C4C4; 0xA88A2222; 0x31A79696; 0xF9CE3737; 0x977AEDED; 0x49BFF6F6;
   0x992DB4B4; 0xA475D1D1; 0x90D34343; 0x5A124848; 0x58BAE2E2; 0x71E69797; 0x64B6D2D2; 0x70B2C2C2;
   0xAD8B2626; 0xCD68A5A5; 0xCB955E5E; 0x624B2929; 0x3C0C3030; 0xCE945A5A; 0xAB76DDDD; 0x867FF9F9;
   0xF1649595; 0x5DBBE6E6; 0x35F2C7C7; 0x2D092424; 0xD1C61717; 0xD66FB9B9; 0xDEC51B1B; 0x94861212;
   0x78186060; 0x30F3C3C3; 0x897CF5F5; 0x5CEFB3B3; 0xD23AE8E8; 0xACDF7373; 0x794C3535; 0xA0208080;
   0x9D78E5E5; 0x56EDBBBB; 0x235E7D7D; 0xC63EF8F8; 0x8BD45F5F; 0xE7C82F2F; 0xDD39E4E4; 0x68492121].

Definition rotl (a n : Z) : Z := Z.lor (u32 (Z.shiftl a n)) (Z.shiftr a (32 - n)).

Definition load_u32_be (b : list Z) (n : Z) : option Z :=
  b0 ← zget b (4 * n);
  b1 ← zget b (4 * n + 1);
  b2 ← zget b (4 * n + 2);
  b3 ← zget b (4 * n + 3);
  Some (Z.lor (Z.lor (Z.lor (u32 (Z.shiftl b0 24)) (u32 (Z.shiftl b1 16))) (u32 (Z.shiftl b2 8))) b3).

Definition store_u32_be (v : Z) : list Z := [u8 (Z.shiftr v 24); u8 (Z.shiftr v 16); u8 (Z.shiftr v 8); u8 v].

(** Tables of 256 entries at an octet. *)
Definition sbox (x : Z) : Z := nth (Z.to_nat (u8 x)) SM4_S 0.
Definition sbox_T (x : Z) : Z := nth (Z.to_nat (u8 x)) SM4_SBOX_T 0.

(** The four lookups of [SM4_T_slow] and of [SM4_set_key]. *)
Definition sub_octets (X : Z) : Z :=
  Z.lor (Z.lor (Z.lor (u32 (Z.shiftl (sbox (Z.shiftr X 24)) 24)) (u32 (Z.shiftl (sbox (Z.shiftr X 16)) 16)))
    (u32 (Z.shiftl (sbox (Z.shiftr X 8)) 8))) (sbox X).

Definition SM4_T_slow (X : Z) : Z :=
  let t := sub_octets X in
  Z.lxor (Z.lxor (Z.lxor (Z.lxor t (rotl t 2)) (rotl t 10)) (rotl t 18)) (rotl t 24).

Definition SM4_T (X : Z) : Z :=
  Z.lxor (Z.lxor (Z.lxor (sbox_T (Z.shiftr X 24)) (rotl (sbox_T (Z.shiftr X 16)) 24))
    (rotl (sbox_T (Z.shiftr X 8)) 16)) (rotl (sbox_T X) 8).

(** ** The key schedule *)

Definition FK : list Z :=
  [0xa3b1bac6; 0x56aa3350; 0x677d9197; 0xb27022dc].

Definition CK : list Z :=
  [0x00070E15; 0x1C232A31; 0x383F464D; 0x545B6269; 0x70777E85; 0x8C939AA1; 0xA8AFB6BD; 0xC4CBD2D9;
   0xE0E7EEF5; 0xFC030A11; 0x181F262D; 0x343B4249; 0x50575E65; 0x6C737A81; 0x888F969D; 0xA4ABB2B9;
   0xC0C7CED5; 0xDCE3EAF1; 0xF8FF060D; 0x141B2229; 0x30373E45; 0x4C535A61; 0x686F767D; 0x848B9299;
   0xA0A7AEB5; 0xBCC3CAD1; 0xD8DFE6ED; 0xF4FB0209; 0x10171E25; 0x2C333A41; 0x484F565D; 0x646B7279].

(** The loop from [i] on: the round keys it stores. *)
Fixpoint set_key_loop (CK : list Z) (i : Z) (K : list Z) : option (list Z) :=
  match CK with
  | [] => Some []
  | ck :: CK =>
      k1 ← zget K ((i + 1) mod 4);
      k2 ← zget K ((i + 2) mod 4);
      k3 ← zget K ((i + 3) mod 4);
      let X := Z.lxor (Z.lxor (Z.lxor k1 k2) k3) ck in
      let t := sub_octets X in
      let t := Z.lxor (Z.lxor t (rotl t 13)) (rotl t 23) in
      k0 ← zget K (i mod 4);
      K ← zset K (i mod 4) (Z.lxor k0 t);
      rk ← set_key_loop CK (i + 1) K;
      Some (Z.lxor k0 t :: rk)
  end.

Definition SM4_set_key (key : list Z) : option (list Z) :=
  k0 ← load_u32_be key 0;
  k1 ← load_u32_be key 1;
  k2 ← load_u32_be key 2;
  k3 ← load_u32_be key 3;
  set_key_loop CK 0 (zip_with Z.lxor [k0; k1; k2; k3] FK).

(** ** Blocks *)

Definition regs : Type := Z * Z * Z * Z.

Definition SM4_ROUNDS (rk : list Z) (k0 k1 k2 k3 : Z) (F : Z -> Z) (B : regs) : option regs :=
  let '(B0, B1, B2, B3) := B in
  r0 ← zget rk k0;
  let B0 := Z.lxor B0 (F (Z.lxor (Z.lxor (Z.lxor B1 B2) B3) r0)) in
  r1 ← zget rk k1;
  let B1 := Z.lxor B1 (F (Z.lxor (Z.lxor (Z.lxor B0 B2) B3) r1)) in
  r2 ← zget rk k2;
  let B2 := Z.lxor B2 (F (Z.lxor (Z.lxor (Z.lxor B0 B1) B3) r2)) in
  r3 ← zget rk k3;
  let B3 := Z.lxor B3 (F (Z.lxor (Z.lxor (Z.lxor B0 B1) B2) r3)) in
  Some (B0, B1, B2, B3).

Definition load_regs (input : list Z) : option regs :=
  B0 ← load_u32_be input 0;
  B1 ← load_u32_be input 1;
  B2 ← load_u32_be input 2;
  B3 ← load_u32_be input 3;
  Some (B0, B1, B2, B3).

Definition store_regs (B : regs) : list Z :=
  let '(B0, B1, B2, B3) := B in
  store_u32_be B3 ++ store_u32_be B2 ++ store_u32_be B1 ++ store_u32_be B0.

Definition SM4_encrypt (input rk : list Z) : option (list Z) :=
  B ← load_regs input;
  B ← SM4_ROUNDS rk 0 1 2 3 SM4_T_slow B;
  B ← SM4_ROUNDS rk 4 5 6 7 SM4_T B;
  B ← SM4_ROUNDS rk 8 9 10 11 SM4_T B;
  B ← SM4_ROUNDS rk 12 13 14 15 SM4_T B;
  B ← SM4_ROUNDS rk 16 17 18 19 SM4_T B;
  B ← SM4_ROUNDS rk 20 21 22 23 SM4_T B;
  B ← SM4_ROUNDS rk 24 25 26 27 SM4_T B;
  B ← SM4_ROUNDS rk 28 29 30 31 SM4_T_slow B;
  Some (store_regs B).

Definition SM4_decrypt (input rk : list Z) : option (list Z) :=
  B ← load_regs input;
  B ← SM4_ROUNDS rk 31 30 29 28 SM4_T_slow B;
  B ← SM4_ROUNDS rk 27 26 25 24 SM4_T B;
  B ← SM4_ROUNDS rk 23 22 21 20 SM4_T B;
  B ← SM4_ROUNDS rk 19 18 17 16 SM4_T B;
  B ← SM4_ROUNDS rk 15 14 13 12 SM4_T B;
  B ← SM4_ROUNDS rk 11 10 9 8 SM4_T B;
  B ← SM4_ROUNDS rk 7 6 5 4 SM4_T B;
  B ← SM4_ROUNDS rk 3 2 1 0 SM4_T_slow B;
  Some (store_regs B).

(** The first example of GB/T 32907, annex A. *)
Example sm4_example :
  let key := map Z.of_nat [0x01; 0x23; 0x45; 0x67; 0x89; 0xab; 0xcd; 0xef; 0xfe; 0xdc; 0xba; 0x98; 0x76; 0x54; 0x32; 0x10]%nat in
  (rk ← SM4_set_key key; c ← SM4_encrypt key rk; p ← SM4_decrypt c rk; Some (c, bool_decide (p = key))) =
  Some ([0x68; 0x1e; 0xdf; 0x34; 0xd2; 0x06; 0x96; 0x5e; 0x86; 0xb3; 0xe9; 0x4f; 0x53; 0x6e; 0x42; 0x46], true).
Proof. vm_compute. reflexivity. Qed.

(** ** GB/T 32907 *)

(** The non-linear transformation, the linear ones, and the functions of the rounds and
    of the key schedule. *)
Definition tau (X : Z) : Z := be_val (map sbox (be_bytes 4 X)).
Definition lin (t : Z) : Z := Z.lxor (Z.lxor (Z.lxor (Z.lxor t (rotl t 2)) (rotl t 10)) (rotl t 18)) (rotl t 24).
Definition lin' (t : Z) : Z := Z.lxor (Z.lxor t (rotl t 13)) (rotl t 23).
Definition T (X : Z) : Z := lin (tau X).
Definition T' (X : Z) : Z := lin' (tau X).

(** The next word of four. *)
Definition next (f : Z -> Z) (k : Z) (B : regs) : Z :=
  let '(a, b, c, d) := B in Z.lxor a (f (Z.lxor (Z.lxor (Z.lxor b c) d) k)).
Definition shift_in (x : Z) (B : regs) : regs := let '(_, b, c, d) := B in (b, c, d, x).
Definition round (B : regs) (k : Z) : regs := shift_in (next T k B) B.

Definition words (x : list Z) : regs := (be_val (ztake 4 x), be_val (ztake 4 (zdrop 4 x)), be_val (ztake 4 (zdrop 8 x)), be_val (ztake 4 (zdrop 12 x))).
(** The words, the last one first. *)
Definition octets (B : regs) : list Z := let '(a, b, c, d) := B in be_bytes 4 d ++ be_bytes 4 c ++ be_bytes 4 b ++ be_bytes 4 a.

Definition crypt (rk : list Z) (x : list Z) : list Z := octets (fold_left round rk (words x)).

(** The constant of a round is four multiples of seven. *)
Definition ck (i : Z) : Z := be_val (map (fun j => (4 * i + j) * 7 mod 256) [0; 1; 2; 3]).
Fixpoint round_keys (n : nat) (i : Z) (K : regs) : list Z :=
  match n with
  | O => []
  | S n => let k := next T' (ck i) K in k :: round_keys n (i + 1) (shift_in k K)
  end.
Definition family_key : regs := (0xa3b1bac6, 0x56aa3350, 0x677d9197, 0xb27022dc).
Definition key_schedule (key : list Z) : list Z :=
  let '(a, b, c, d) := words key in
  let '(fa, fb, fc, fd) := family_key in
  round_keys 32 0 (Z.lxor a fa, Z.lxor b fb, Z.lxor c fc, Z.lxor d fd).

(** ** Words *)

Definition word32 (x : Z) : Prop := 0 <= x < 2 ^ 32.

Lemma word_ext x y : word32 x -> word32 y -> (forall i, 0 <= i < 32 -> Z.testbit x i = Z.testbit y i) -> x = y.
Proof.
  intros Hx Hy H. apply Z.bits_inj'. intros i Hi. destruct (Z.ltb_spec i 32); [by apply H|].
  unfold word32 in *. rewrite <- (Z.mod_small x (2 ^ 32)), <- (Z.mod_small y (2 ^ 32)), !Z.mod_pow2_bits_high by lia. done.
Qed.

Lemma word_lxor x y : word32 x -> word32 y -> word32 (Z.lxor x y).
Proof.
  unfold word32. intros Hx Hy. rewrite <- (Z.mod_small x (2 ^ 32)), <- (Z.mod_small y (2 ^ 32)), <- mod_lxor by lia. by apply Z.mod_pos_bound.
Qed.

Lemma u32_word x : word32 (u32 x).
Proof. unfold word32, u32. by apply Z.mod_pos_bound. Qed.

Lemma word_lor x y : word32 x -> word32 y -> word32 (Z.lor x y).
Proof.
  unfold word32. intros Hx Hy. assert (E : Z.lor x y = Z.lor x y mod 2 ^ 32).
  { apply Z.bits_inj'. intros i Hi. destruct (Z.ltb_spec i 32); [by rewrite Z.mod_pow2_bits_low by lia|].
    rewrite Z.mod_pow2_bits_high, Z.lor_spec, <- (Z.mod_small x (2 ^ 32)), <- (Z.mod_small y (2 ^ 32)), !Z.mod_pow2_bits_high by lia. done. }
  rewrite E. by apply Z.mod_pos_bound.
Qed.

Lemma word_rotl x n : word32 x -> 0 < n < 32 -> word32 (rotl x n).
Proof.
  intros Hx Hn. apply word_lor; [apply u32_word|]. unfold word32 in *. rewrite Z.shiftr_div_pow2 by lia. split; [apply Z.div_pos; lia|].
  apply Z.div_lt_upper_bound; [lia|]. assert (0 < 2 ^ (32 - n)) by lia. nia.
Qed.

Lemma rotl_spec x n i : word32 x -> 0 < n < 32 -> 0 <= i < 32 -> Z.testbit (rotl x n) i = Z.testbit x ((i - n) mod 32).
Proof.
  intros Hx Hn Hi. unfold rotl, u32. rewrite Z.lor_spec, Z.mod_pow2_bits_low, Z.shiftl_spec, Z.shiftr_spec by lia.
  destruct (Z.ltb_spec i n).
  - rewrite (Z.testbit_neg_r _ (i - n)) by lia. cbn [orb]. f_equal. rewrite <- (Z.mod_add (i - n) 1), Z.mod_small by lia. lia.
  - rewrite Z.mod_small by lia. unfold word32 in Hx. rewrite <- (Z.mod_small x (2 ^ 32)) at 2 by lia. rewrite Z.mod_pow2_bits_high by lia. by rewrite orb_false_r.
Qed.

Lemma rotl_lxor x y n : word32 x -> word32 y -> 0 < n < 32 -> rotl (Z.lxor x y) n = Z.lxor (rotl x n) (rotl y n).
Proof.
  intros Hx Hy Hn. assert (Hxy := word_lxor x y Hx Hy). apply word_ext; [by apply word_rotl|apply word_lxor; by apply word_rotl|].
  intros i Hi. by rewrite Z.lxor_spec, !rotl_spec, Z.lxor_spec.
Qed.

Lemma rotl_comm x n m : word32 x -> 0 < n < 32 -> 0 < m < 32 -> rotl (rotl x n) m = rotl (rotl x m) n.
Proof.
  intros Hx Hn Hm. apply word_ext; [by apply word_rotl; [apply word_rotl|]..|]. intros i Hi.
  assert (Hmod : forall j, 0 <= j mod 32 < 32) by (intros; by apply Z.mod_pos_bound).
  rewrite !rotl_spec by (done || by apply word_rotl). rewrite !Zminus_mod_idemp_l. f_equal. f_equal. lia.
Qed.

Lemma lxor4 a b c d : Z.lxor (Z.lxor a b) (Z.lxor c d) = Z.lxor (Z.lxor a c) (Z.lxor b d).
Proof. apply Z.bits_inj'. intros i Hi. rewrite !Z.lxor_spec. by destruct (Z.testbit a i), (Z.testbit b i), (Z.testbit c i), (Z.testbit d i). Qed.

Lemma lin_word x : word32 x -> word32 (lin x).
Proof. intros Hx. unfold lin. repeat apply word_lxor; try done; apply word_rotl; done || lia. Qed.

Lemma lin_lxor x y : word32 x -> word32 y -> lin (Z.lxor x y) = Z.lxor (lin x) (lin y).
Proof.
  intros Hx Hy. unfold lin. rewrite !rotl_lxor by (done || lia). rewrite !(lxor4 _ _ (rotl x _)). by rewrite !(lxor4 _ (rotl x _)).
Qed.

Lemma lin_rotl x n : word32 x -> 0 < n < 32 -> lin (rotl x n) = rotl (lin x) n.
Proof.
  intros Hx Hn. unfold lin. rewrite !rotl_lxor by (done || lia || (repeat apply word_lxor; try done; apply word_rotl; done || lia)).
  by rewrite (rotl_comm x 2), (rotl_comm x 10), (rotl_comm x 18), (rotl_comm x 24) by (done || lia).
Qed.

(** ** The functions of a round *)

Lemma sbox_byte x : is_byte (sbox x).
Proof.
  unfold sbox. assert (Hx : is_byte (u8 x)) by (unfold is_byte, u8; by apply Z.mod_pos_bound). generalize dependent (u8 x). intros y Hy.
  pose proof (byte_forall (fun y => (0 <=? nth (Z.to_nat y) SM4_S 0) && (nth (Z.to_nat y) SM4_S 0 <? 256)) ltac:(by vm_compute) y Hy) as H.
  apply andb_prop in H as [H1%Z.leb_le H2%Z.ltb_lt]. by split.
Qed.

Lemma shiftl_byte s k : is_byte s -> 0 <= k <= 24 -> u32 (Z.shiftl s k) = s * 2 ^ k.
Proof.
  unfold is_byte, u32. intros Hs Hk. rewrite Z.shiftl_mul_pow2 by lia. apply Z.mod_small. split; [nia|].
  assert (2 ^ k <= 2 ^ 24) by (apply Z.pow_le_mono_r; lia). assert (0 < 2 ^ k) by lia. nia.
Qed.

Lemma lor_low x k b : 0 <= k -> 0 <= b < 2 ^ k -> Z.lor (x * 2 ^ k) b = x * 2 ^ k + b.
Proof. intros Hk Hb. rewrite <- Z.shiftl_mul_pow2 by done. rewrite lor_shiftl_low by done. by rewrite Z.shiftl_mul_pow2. Qed.

(** Four octets put together. *)
Lemma lor_octets a b c d : is_byte a -> is_byte b -> is_byte c -> is_byte d ->
  Z.lor (Z.lor (Z.lor (u32 (Z.shiftl a 24)) (u32 (Z.shiftl b 16))) (u32 (Z.shiftl c 8))) d = be_val [a; b; c; d].
Proof.
  intros Ha Hb Hc Hd. rewrite !shiftl_byte by (done || lia). unfold is_byte in *.
  rewrite (lor_low a 24) by lia.
  replace (a * 2 ^ 24 + b * 2 ^ 16) with ((a * 2 ^ 8 + b) * 2 ^ 16) by lia. rewrite (lor_low _ 16) by lia.
  replace ((a * 2 ^ 8 + b) * 2 ^ 16 + c * 2 ^ 8) with ((a * 2 ^ 16 + b * 2 ^ 8 + c) * 2 ^ 8) by lia. rewrite (lor_low _ 8) by lia.
  unfold be_val. cbn [fold_left]. lia.
Qed.

Lemma be_bytes4 X : be_bytes 4 X = [u8 (Z.shiftr X 24); u8 (Z.shiftr X 16); u8 (Z.shiftr X 8); u8 X].
Proof. unfold u8. rewrite !Z.shiftr_div_pow2 by lia. cbn [be_bytes app]. rewrite !Z.div_div by lia. done. Qed.

Lemma sbox_u8 x : sbox (u8 x) = sbox x.
Proof. unfold sbox, u8. by rewrite Z.mod_mod. Qed.

Lemma sub_octets_tau X : sub_octets X = tau X.
Proof. unfold sub_octets, tau. rewrite lor_octets by apply sbox_byte. rewrite be_bytes4. cbn [map]. by rewrite !sbox_u8. Qed.

Lemma SM4_T_slow_ok X : SM4_T_slow X = T X.
Proof. unfold SM4_T_slow, T, lin. cbv zeta. by rewrite sub_octets_tau. Qed.

Lemma rotl_top s n : is_byte s -> n = 8 \/ n = 16 \/ n = 24 -> rotl (s * 2 ^ 24) n = s * 2 ^ (n - 8).
Proof.
  intros Hs Hn. unfold rotl, u32, is_byte in *.
  destruct Hn as [-> |[-> | ->]]; rewrite Z.shiftl_mul_pow2, Z.shiftr_div_pow2 by lia.
  all: match goal with |- Z.lor ?a ?b = _ => assert (a = 0) as -> by (Z.to_euclidean_division_equations; lia); rewrite Z.lor_0_l end.
  all: Z.to_euclidean_division_equations; lia.
Qed.

Lemma sbox_T_ok x : sbox_T x = lin (sbox x * 2 ^ 24).
Proof.
  unfold sbox_T, sbox. assert (Hx : is_byte (u8 x)) by (unfold is_byte, u8; by apply Z.mod_pos_bound). generalize dependent (u8 x). intros y Hy.
  apply Z.eqb_eq. apply (byte_forall (fun y => nth (Z.to_nat y) SM4_SBOX_T 0 =? lin (nth (Z.to_nat y) SM4_S 0 * 2 ^ 24))); [by vm_compute|done].
Qed.

Lemma tau_lxor X : tau X = Z.lxor (Z.lxor (Z.lxor (sbox (Z.shiftr X 24) * 2 ^ 24) (sbox (Z.shiftr X 16) * 2 ^ 16)) (sbox (Z.shiftr X 8) * 2 ^ 8)) (sbox X).
Proof.
  rewrite <- sub_octets_tau. unfold sub_octets. rewrite !shiftl_byte by (lia || apply sbox_byte).
  pose proof (sbox_byte (Z.shiftr X 24)) as Ha. pose proof (sbox_byte (Z.shiftr X 16)) as Hb. pose proof (sbox_byte (Z.shiftr X 8)) as Hc. pose proof (sbox_byte X) as Hd.
  generalize dependent (sbox (Z.shiftr X 24)). generalize dependent (sbox (Z.shiftr X 16)). generalize dependent (sbox (Z.shiftr X 8)). generalize dependent (sbox X).
  intros d Hd c Hc b Hb a Ha. unfold is_byte in *.
  assert (Hor : forall x k y, 0 <= k -> 0 <= y < 2 ^ k -> Z.lor (x * 2 ^ k) y = Z.lxor (x * 2 ^ k) y).
  { intros x k y Hk Hy. rewrite <- Z.shiftl_mul_pow2 by done. by rewrite <- Z.lxor_lor by (by apply land_shiftl_low). }
  rewrite (Hor a 24) by lia.
  assert (E1 : Z.lxor (a * 2 ^ 24) (b * 2 ^ 16) = (a * 2 ^ 8 + b) * 2 ^ 16).
  { rewrite <- (Hor a 24), (lor_low a 24) by lia. lia. }
  rewrite E1, (Hor _ 16) by lia.
  assert (E2 : Z.lxor ((a * 2 ^ 8 + b) * 2 ^ 16) (c * 2 ^ 8) = (a * 2 ^ 16 + b * 2 ^ 8 + c) * 2 ^ 8).
  { rewrite <- (Hor _ 16), (lor_low _ 16) by lia. lia. }
  by rewrite E2, (Hor _ 8) by lia.
Qed.

Lemma SM4_T_ok X : SM4_T X = T X.
Proof.
  unfold SM4_T, T. rewrite tau_lxor, !sbox_T_ok.
  assert (Hw : forall x, word32 (sbox x * 2 ^ 24)) by (intros x; pose proof (sbox_byte x); unfold word32, is_byte in *; lia).
  rewrite <- !lin_rotl by (done || lia). rewrite !rotl_top by (auto || apply sbox_byte).
  replace (24 - 8) with 16 by lia. replace (16 - 8) with 8 by lia. change (2 ^ (8 - 8)) with 1. rewrite Z.mul_1_r.
  pose proof (sbox_byte (Z.shiftr X 24)) as Ha. pose proof (sbox_byte (Z.shiftr X 16)) as Hb. pose proof (sbox_byte (Z.shiftr X 8)) as Hc. pose proof (sbox_byte X) as Hd.
  generalize dependent (sbox (Z.shiftr X 24)). generalize dependent (sbox (Z.shiftr X 16)). generalize dependent (sbox (Z.shiftr X 8)). generalize dependent (sbox X).
  intros d Hd c Hc b Hb a Ha. clear Hw. unfold is_byte in *.
  assert (W : word32 (a * 2 ^ 24) /\ word32 (b * 2 ^ 16) /\ word32 (c * 2 ^ 8) /\ word32 d) by (unfold word32; lia). destruct W as (Wa & Wb & Wc & Wd).
  by rewrite !lin_lxor by (repeat apply word_lxor; done).
Qed.

Lemma T_word X : word32 (T X).
Proof.
  apply lin_word. rewrite tau_lxor.
  pose proof (sbox_byte (Z.shiftr X 24)). pose proof (sbox_byte (Z.shiftr X 16)). pose proof (sbox_byte (Z.shiftr X 8)). pose proof (sbox_byte X).
  unfold is_byte in *. repeat apply word_lxor; unfold word32; lia.
Qed.

(** ** Blocks and keys *)

Lemma zget_byte l i : Forall is_byte l -> 0 <= i < zlen l -> exists b, zget l i = Some b /\ is_byte b.
Proof. intros Hl Hi. destruct (zget_Some l i Hi) as [b E]. exists b. split; [done|by eapply zget_Forall]. Qed.

Lemma load_ok b n : Forall is_byte b -> 0 <= n -> 4 * n + 4 <= zlen b -> load_u32_be b n = Some (be_val (ztake 4 (zdrop (4 * n) b))).
Proof.
  intros Hb Hn Hl. assert (Ht : zlen (ztake 4 (zdrop (4 * n) b)) = 4) by (rewrite zlen_ztake; rewrite ?zlen_zdrop; lia).
  assert (Hg : forall i, 0 <= i < 4 -> zget b (4 * n + i) = zget (ztake 4 (zdrop (4 * n) b)) i) by (intros i Hi; rewrite zget_ztake, zget_zdrop by lia; done).
  assert (Htb : Forall is_byte (ztake 4 (zdrop (4 * n) b))) by (by apply Forall_ztake, Forall_zdrop).
  unfold load_u32_be. rewrite <- (Z.add_0_r (4 * n)) at 1. rewrite !Hg by lia. clear Hg.
  destruct (ztake 4 (zdrop (4 * n) b)) as [|a [|c [|d [|e [|f l]]]]]; try (unfold zlen in Ht; cbn [length] in Ht; lia).
  repeat apply Forall_cons in Htb as [? Htb]. change (zget [a; c; d; e] 0) with (Some a). change (zget [a; c; d; e] 1) with (Some c).
  change (zget [a; c; d; e] 2) with (Some d). change (zget [a; c; d; e] 3) with (Some e). cbn [mbind option_bind]. by rewrite lor_octets.
Qed.

Lemma store_ok v : store_u32_be v = be_bytes 4 v.
Proof. by rewrite be_bytes4. Qed.

Lemma load_regs_ok x : block16 x -> load_regs x = Some (words x).
Proof. intros [Hb Hl]. unfold load_regs, words. by rewrite !load_ok by (done || lia). Qed.

Lemma store_regs_ok B : store_regs B = octets B.
Proof. destruct B as [[[a b] c] d]. unfold store_regs, octets. by rewrite !store_ok. Qed.

Lemma SM4_ROUNDS_ok rk k0 k1 k2 k3 r0 r1 r2 r3 F B :
  (forall x, F x = T x) -> zget rk k0 = Some r0 -> zget rk k1 = Some r1 -> zget rk k2 = Some r2 -> zget rk k3 = Some r3 ->
  SM4_ROUNDS rk k0 k1 k2 k3 F B = Some (fold_left round [r0; r1; r2; r3] B).
Proof.
  intros HF E0 E1 E2 E3. destruct B as [[[B0 B1] B2] B3]. unfold SM4_ROUNDS. rewrite E0, E1, E2, E3. cbn [mbind option_bind fold_left].
  unfold round, next, shift_in. rewrite !HF. set (C0 := Z.lxor B0 _).
  assert (X1 : Z.lxor (Z.lxor (Z.lxor C0 B2) B3) r1 = Z.lxor (Z.lxor (Z.lxor B2 B3) C0) r1) by (f_equal; by rewrite Z.lxor_assoc, Z.lxor_comm). rewrite X1. clear X1.
  set (C1 := Z.lxor B1 _). assert (X2 : Z.lxor (Z.lxor (Z.lxor C0 C1) B3) r2 = Z.lxor (Z.lxor (Z.lxor B3 C0) C1) r2) by (f_equal; by rewrite Z.lxor_comm, Z.lxor_assoc).
  rewrite X2. by clear X2.
Qed.

Lemma SM4_ROUNDS_bind {A} (m : regs -> option A) rk k0 k1 k2 k3 r0 r1 r2 r3 F B :
  (forall x, F x = T x) -> zget rk k0 = Some r0 -> zget rk k1 = Some r1 -> zget rk k2 = Some r2 -> zget rk k3 = Some r3 ->
  (B ← SM4_ROUNDS rk k0 k1 k2 k3 F B; m B) = m (fold_left round [r0; r1; r2; r3] B).
Proof. intros. by erewrite SM4_ROUNDS_ok by done. Qed.

#[local] Strategy opaque [T SM4_T SM4_T_slow sub_octets].

(** Lists of 32 elements by their elements. *)
Lemma list32 {A} (l : list A) : zlen l = 32 -> exists f : Z -> A, l = map (fun i => f (Z.of_nat i)) (seq 0 32).
Proof.
  intros Hl. unfold zlen in Hl. destruct l as [|x l]; [done|]. exists (fun i => nth (Z.to_nat i) (x :: l) x).
  apply list_eq. intros i. rewrite list_lookup_fmap. destruct (decide (i < 32)%nat).
  - rewrite lookup_seq_lt by done. cbn [fmap option_fmap option_map]. rewrite Nat2Z.id, Nat.add_0_l. destruct (nth_lookup_or_length (x :: l) i x) as [E|E]; [done|lia].
  - rewrite lookup_ge_None_2 by lia. by rewrite lookup_ge_None_2 by (rewrite length_seq; lia).
Qed.

(** The unrolled rounds with the table are the network, in both directions. *)
Lemma SM4_crypt_ok x rk : block16 x -> zlen rk = 32 -> SM4_encrypt x rk = Some (crypt rk x) /\ SM4_decrypt x rk = Some (crypt (rev rk) x).
Proof.
  intros Hx [f ->]%list32. unfold SM4_encrypt, SM4_decrypt. rewrite load_regs_ok by done. unfold crypt. generalize (words x). intros B. split.
  - do 8 (etrans; [eapply SM4_ROUNDS_bind; [first [apply SM4_T_slow_ok|apply SM4_T_ok]|reflexivity..]|]). rewrite store_regs_ok, <- !fold_left_app. do 3 f_equal.
  - do 8 (etrans; [eapply SM4_ROUNDS_bind; [first [apply SM4_T_slow_ok|apply SM4_T_ok]|reflexivity..]|]). rewrite store_regs_ok, <- !fold_left_app. do 3 f_equal.
Qed.

(** *** The inverse *)

Definition reversed (B : regs) : regs := let '(a, b, c, d) := B in (d, c, b, a).
Definition words32 (B : regs) : Prop := let '(a, b, c, d) := B in word32 a /\ word32 b /\ word32 c /\ word32 d.

Lemma lxor_cancel a b : Z.lxor (Z.lxor a b) b = a.
Proof. by rewrite Z.lxor_assoc, Z.lxor_nilpotent, Z.lxor_0_r. Qed.

Lemma round_back B k : round (reversed (round B k)) k = reversed B.
Proof.
  destruct B as [[[a b] c] d]. unfold round, next, shift_in, reversed.
  assert (E : Z.lxor (Z.lxor (Z.lxor d c) b) k = Z.lxor (Z.lxor (Z.lxor b c) d) k) by (f_equal; rewrite (Z.lxor_comm d c), (Z.lxor_comm _ b); by rewrite Z.lxor_assoc). rewrite E. by rewrite lxor_cancel.
Qed.

Lemma rounds_back rk : forall B, fold_left round (rev rk) (reversed (fold_left round rk B)) = reversed B.
Proof.
  induction rk as [|k rk IH]; intros B; [done|]. cbn [rev fold_left]. rewrite fold_left_app, IH. cbn [fold_left]. apply round_back.
Qed.

Lemma round_words rk : forall B, words32 B -> words32 (fold_left round rk B).
Proof.
  induction rk as [|k rk IH]; intros B HB; [done|]. cbn [fold_left]. apply IH. destruct B as [[[a b] c] d], HB as (Ha & Hb & Hc & Hd).
  unfold round, next, shift_in. split; [done|]. split; [done|]. split; [done|]. apply word_lxor; [done|apply T_word].
Qed.

Lemma be_val_word l : Forall is_byte l -> zlen l = 4 -> word32 (be_val l).
Proof. intros Hb Hl. pose proof (be_val_bounds l Hb) as H. rewrite Hl in H. exact H. Qed.

Lemma block_parts x : block16 x -> exists a b c d, x = a ++ b ++ c ++ d /\ (zlen a = 4 /\ Forall is_byte a) /\ (zlen b = 4 /\ Forall is_byte b) /\ (zlen c = 4 /\ Forall is_byte c) /\ (zlen d = 4 /\ Forall is_byte d).
Proof.
  intros [Hb Hl]. destruct (split_at x 4 ltac:(lia)) as (a & y & -> & La). rewrite zlen_app in Hl. apply Forall_app in Hb as [? Hb].
  destruct (split_at y 4 ltac:(lia)) as (b & z & -> & Lb). rewrite zlen_app in Hl. apply Forall_app in Hb as [? Hb].
  destruct (split_at z 4 ltac:(lia)) as (c & d & -> & Lc). rewrite zlen_app in Hl. apply Forall_app in Hb as [? Hb].
  exists a, b, c, d. repeat split; try done; lia.
Qed.

Lemma words_app a b c d : zlen a = 4 -> zlen b = 4 -> zlen c = 4 -> zlen d = 4 -> words (a ++ b ++ c ++ d) = (be_val a, be_val b, be_val c, be_val d).
Proof.
  intros La Lb Lc Ld. unfold words. rewrite ztake_app_exact by done.
  rewrite (zdrop_app_exact 4 a), (ztake_app_exact 4 b) by done. replace 8 with (4 + 4) by lia. rewrite <- (zdrop_zdrop 4 4), (zdrop_app_exact 4 a), (zdrop_app_exact 4 b), (ztake_app_exact 4 c) by (done || lia).
  replace 12 with (4 + 4 + 4) by lia. rewrite <- (zdrop_zdrop 4 (4 + 4)), <- (zdrop_zdrop 4 4), (zdrop_app_exact 4 a), (zdrop_app_exact 4 b), (zdrop_app_exact 4 c), (ztake_all 4 d) by (done || lia). done.
Qed.

Lemma words_octets B : words32 B -> words (octets B) = reversed B.
Proof.
  destruct B as [[[a b] c] d]. intros (Ha & Hb & Hc & Hd). unfold octets, reversed. rewrite words_app by (by rewrite zlen_be_bytes).
  unfold word32 in *. rewrite !be_val_bytes. change (256 ^ Z.of_nat 4) with (2 ^ 32). by rewrite !Z.mod_small.
Qed.

Lemma octets_words x : block16 x -> octets (reversed (words x)) = x.
Proof.
  intros Hx. destruct (block_parts x Hx) as (a & b & c & d & -> & [La Ha] & [Lb Hb] & [Lc Hc] & [Ld Hd]). rewrite words_app by done. unfold reversed, octets.
  assert (Hv : forall l, zlen l = 4 -> Forall is_byte l -> be_bytes 4 (be_val l) = l) by (intros l Hl Hbl; rewrite <- (be_bytes_val l) at 2 by done; f_equal; unfold zlen in Hl; lia).
  by rewrite !Hv.
Qed.

Lemma words_words32 x : block16 x -> words32 (words x).
Proof.
  intros Hx. destruct (block_parts x Hx) as (a & b & c & d & -> & [La Ha] & [Lb Hb] & [Lc Hc] & [Ld Hd]). rewrite words_app by done.
  split; [by apply be_val_word|]. split; [by apply be_val_word|]. split; by apply be_val_word.
Qed.

Lemma octets_block B : block16 (octets B).
Proof.
  destruct B as [[[a b] c] d]. unfold octets. split; [rewrite !Forall_app; split_and!; apply is_byte_be_bytes|]. by rewrite !zlen_app, !zlen_be_bytes.
Qed.

Lemma crypt_block rk x : block16 (crypt rk x).
Proof. apply octets_block. Qed.

Lemma crypt_inverse rk x : block16 x -> crypt (rev rk) (crypt rk x) = x.
Proof.
  intros Hx. unfold crypt. rewrite words_octets by (by apply round_words, words_words32). rewrite rounds_back. by apply octets_words.
Qed.

(** *** The key schedule *)

(** The word at [i mod 4] is the oldest of the four. *)
Definition window (i : Z) (K : list Z) (B : regs) : Prop :=
  let '(a, b, c, d) := B in
  zlen K = 4 /\ zget K (i mod 4) = Some a /\ zget K ((i + 1) mod 4) = Some b /\ zget K ((i + 2) mod 4) = Some c /\ zget K ((i + 3) mod 4) = Some d.

Lemma window_step i K B x : 0 <= i -> window i K B -> exists K', zset K (i mod 4) x = Some K' /\ window (i + 1) K' (shift_in x B).
Proof.
  intros Hi. destruct B as [[[a b] c] d]. intros (Hl & Ea & Eb & Ec & Ed). unfold shift_in.
  destruct K as [|k0 [|k1 [|k2 [|k3 [|k4 K]]]]]; try (unfold zlen in Hl; cbn [length] in Hl; lia).
  assert (Hm : i mod 4 = 0 \/ i mod 4 = 1 \/ i mod 4 = 2 \/ i mod 4 = 3) by (pose proof (Z.mod_pos_bound i 4); lia).
  unfold window. replace (i + 1 + 1) with (i + 2) by lia. replace (i + 1 + 2) with (i + 3) by lia. replace (i + 1 + 3) with (i + 1 * 4) by lia. rewrite Z.mod_add by lia.
  rewrite <- (Zplus_mod_idemp_l i 1), <- (Zplus_mod_idemp_l i 2), <- (Zplus_mod_idemp_l i 3) in *.
  destruct Hm as [Hm|[Hm|[Hm|Hm]]]; rewrite Hm in Ea, Eb, Ec, Ed |- *; cbv in Ea, Eb, Ec, Ed; injection Ea as ->; injection Eb as ->; injection Ec as ->; injection Ed as ->; eexists; by split_and!.
Qed.

Lemma T'_ok X : Z.lxor (Z.lxor (sub_octets X) (rotl (sub_octets X) 13)) (rotl (sub_octets X) 23) = T' X.
Proof. unfold T', lin'. by rewrite sub_octets_tau. Qed.

Lemma set_key_loop_ok n : forall i K B, 0 <= i -> window i K B ->
  set_key_loop (map (fun j => ck (i + Z.of_nat j)) (seq 0 n)) i K = Some (round_keys n i B).
Proof.
  induction n as [|n IH]; intros i K B Hi Hw; [done|]. cbn [seq map set_key_loop round_keys]. pose proof Hw as Hw'. destruct B as [[[a b] c] d]. destruct Hw' as (Hl & Ea & Eb & Ec & Ed).
  rewrite Eb, Ec, Ed. cbn [mbind option_bind]. rewrite Ea. cbn [mbind option_bind]. rewrite Z.add_0_r. cbv zeta. rewrite T'_ok.
  fold (next T' (ck i) (a, b, c, d)). destruct (window_step i K (a, b, c, d) (next T' (ck i) (a, b, c, d)) Hi Hw) as (K' & EK & Hw').
  rewrite EK. cbn [mbind option_bind]. rewrite <- seq_shift, map_map.
  rewrite (map_ext _ (fun j => ck (i + 1 + Z.of_nat j))) by (intros j; f_equal; lia). by rewrite (IH (i + 1) K' _ ltac:(lia) Hw').
Qed.

Lemma CK_ok : CK = map (fun j => ck (0 + Z.of_nat j)) (seq 0 32).
Proof. by vm_compute. Qed.

Lemma SM4_set_key_ok key : block16 key -> SM4_set_key key = Some (key_schedule key).
Proof.
  intros [Hb Hl]. unfold SM4_set_key, key_schedule, words. rewrite !load_ok by (done || lia). cbn [mbind option_bind zip_with FK]. rewrite CK_ok. by apply set_key_loop_ok.
Qed.

Lemma key_schedule_length key : zlen (key_schedule key) = 32.
Proof. unfold key_schedule. by destruct (words key) as [[[a b] c] d]. Qed.

(** ** The theorem *)

(** C39. SM4_set_key, SM4_encrypt and SM4_decrypt, with the lookup table that merges the
    two transformations of a round, are the cipher of GB/T 32907, and decryption undoes
    encryption under every key. *)
Theorem SM4_correct key x : block16 key -> block16 x ->
  exists rk, SM4_set_key key = Some rk /\ rk = key_schedule key /\
    SM4_encrypt x rk = Some (crypt rk x) /\ SM4_decrypt x rk = Some (crypt (rev rk) x) /\
    SM4_decrypt (crypt rk x) rk = Some x.
Proof.
  intros Hk Hx. exists (key_schedule key). pose proof (key_schedule_length key) as Hl. split; [by apply SM4_set_key_ok|]. split; [done|].
  destruct (SM4_crypt_ok x (key_schedule key) Hx Hl) as [-> ->]. split; [done|]. split; [done|].
  destruct (SM4_crypt_ok (crypt (key_schedule key) x) (key_schedule key) (crypt_block _ _) Hl) as [_ ->]. by rewrite crypt_inverse.
Qed.

Lemma SM4_correct_witness :
  exists rk, SM4_set_key (zrep 16 7) = Some rk /\ rk = key_schedule (zrep 16 7) /\
    SM4_encrypt (zrep 16 9) rk = Some (crypt rk (zrep 16 9)) /\ SM4_decrypt (zrep 16 9) rk = Some (crypt (rev rk) (zrep 16 9)) /\
    SM4_decrypt (crypt rk (zrep 16 9)) rk = Some (zrep 16 9).
Proof. apply (SM4_correct (zrep 16 7) (zrep 16 9)); (split; [by apply is_byte_zrep|done]). Defined.
