(* ===== verification/Sm4Cipher.v ===== *)
(** * SM4 as an EVP_CIPHER

    lib/libcrypto/evp/e_sm4.c: the five method tables over Sm4 and Modes, which keep the
    laws of EvpCipher; the theorems on EVP_CIPHER with SM4 as their witness. *)

From S2P Require Import Prelude EvpCipher Modes Sm4.
Open Scope Z_scope.

Definition NID_sm4_ecb : Z := 973.
Definition NID_sm4_cbc : Z := 974.
Definition NID_sm4_ofb128 : Z := 975.
Definition NID_sm4_cfb128 : Z := 976.
Definition NID_sm4_ctr : Z := 979.
Definition EVP_CIPH_FLAG_DEFAULT_ASN1 : Z := 0x1000.
Definition EVP_MAXCHUNK : Z := Z.shiftl 1 62.

(** [ctx->cipher_data]: the round keys. *)
Definition EVP_SM4_KEY : Type := list Z.
Definition sizeof_EVP_SM4_KEY : Z := 128.
Abbreviation core := (cipher_core EVP_SM4_KEY).

Definition sm4_init_key (key iv : option (list Z)) (enc : Z) : M core unit :=
  key ← valid key;
  rk ← valid (SM4_set_key key);
  modify (fun k => k <| cc_cipher_data := Some rk |>).

Definition the_key : M core EVP_SM4_KEY := k ← gets id; valid (cc_cipher_data k).

(** What is written and [ivec]. *)
Definition sm4_cbc_encrypt (input : list Z) (key : EVP_SM4_KEY) (ivec : list Z) (enc : Z) : option (list Z * list Z) :=
  if negb (enc =? 0) then CRYPTO_cbc128_encrypt (fun x => SM4_encrypt x key) input ivec
  else CRYPTO_cbc128_decrypt (fun x => SM4_decrypt x key) false input [] ivec.

Definition sm4_cfb128_encrypt (input : list Z) (key : EVP_SM4_KEY) (ivec : list Z) (num enc : Z) : option (list Z * list Z * Z) :=
  CRYPTO_cfb128_encrypt (fun x => SM4_encrypt x key) input ivec num enc.

Definition sm4_ecb_encrypt (input : list Z) (key : EVP_SM4_KEY) (enc : Z) : option (list Z) :=
  if negb (enc =? 0) then SM4_encrypt input key else SM4_decrypt input key.

Definition sm4_ofb128_encrypt (input : list Z) (key : EVP_SM4_KEY) (ivec : list Z) (num : Z) : option (list Z * list Z * Z) :=
  CRYPTO_ofb128_encrypt (fun x => SM4_encrypt x key) input ivec num.

(** [while (inl >= EVP_MAXCHUNK) { ... } if (inl) ...] *)
Fixpoint in_chunks (fuel : nat) (f : list Z -> M core (list Z)) (input : list Z) : M core (list Z) :=
  match fuel with
  | O => ub
  | S fuel =>
      if EVP_MAXCHUNK <=? zlen input then
        out ← f (ztake EVP_MAXCHUNK input);
        out' ← in_chunks fuel f (zdrop EVP_MAXCHUNK input);
        mret (out ++ out')
      else if negb (zlen input =? 0) then f input
      else mret []
  end.

Definition cbc_chunk (input : list Z) : M core (list Z) :=
  key ← the_key;
  k ← gets id;
  '(out, iv) ← valid (sm4_cbc_encrypt input key (cc_iv k) (cc_encrypt k));
  modify (fun k => k <| cc_iv := iv |>);;
  mret out.
Definition sm4_cbc_cipher (input : option (list Z)) : M core (list Z * Z) :=
  input ← valid input;
  out ← in_chunks (S (length input)) cbc_chunk input;
  mret (out, 1).

Definition cfb_chunk (input : list Z) : M core (list Z) :=
  key ← the_key;
  k ← gets id;
  '(out, iv, num) ← valid (sm4_cfb128_encrypt input key (cc_iv k) (cc_num k) (cc_encrypt k));
  modify (fun k => k <| cc_iv := iv |> <| cc_num := num |>);;
  mret out.
(** [while (inl && inl >= chunk)] *)
Fixpoint cfb_chunks (fuel : nat) (chunk : Z) (input : list Z) : M core (list Z) :=
  match fuel with
  | O => ub
  | S fuel =>
      if negb (zlen input =? 0) && (chunk <=? zlen input) then
        out ← cfb_chunk (ztake chunk input);
        let input := zdrop chunk input in
        let chunk := if zlen input <? chunk then zlen input else chunk in
        out' ← cfb_chunks fuel chunk input;
        mret (out ++ out')
      else mret []
  end.
Definition sm4_cfb128_cipher (input : option (list Z)) : M core (list Z * Z) :=
  input ← valid input;
  let chunk := if zlen input <? EVP_MAXCHUNK then zlen input else EVP_MAXCHUNK in
  out ← cfb_chunks (S (length input)) chunk input;
  mret (out, 1).

(** [for (i = 0; i <= inl; i += bl)], from [in + i] on. *)
Fixpoint ecb_loop (fuel : nat) (bl i inl : Z) (input : list Z) : M core (list Z) :=
  match fuel with
  | O => ub
  | S fuel =>
      if i <=? inl then
        key ← the_key;
        k ← gets id;
        out ← valid (sm4_ecb_encrypt input key (cc_encrypt k));
        out' ← ecb_loop fuel bl (i + bl) inl (zdrop bl input);
        mret (out ++ out')
      else mret []
  end.
(** [bl] is [ctx->cipher->block_size]. *)
Definition sm4_ecb_cipher (bl : Z) (input : option (list Z)) : M core (list Z * Z) :=
  input ← valid input;
  if zlen input <? bl then mret ([], 1)
  else
    out ← ecb_loop (S (length input)) bl 0 (zlen input - bl) input;
    mret (out, 1).

Definition ofb_chunk (input : list Z) : M core (list Z) :=
  key ← the_key;
  k ← gets id;
  '(out, iv, num) ← valid (sm4_ofb128_encrypt input key (cc_iv k) (cc_num k));
  modify (fun k => k <| cc_iv := iv |> <| cc_num := num |>);;
  mret out.
Definition sm4_ofb_cipher (input : option (list Z)) : M core (list Z * Z) :=
  input ← valid input;
  out ← in_chunks (S (length input)) ofb_chunk input;
  mret (out, 1).

Definition sm4_ctr_cipher (input : option (list Z)) : M core (list Z * Z) :=
  input ← valid input;
  key ← the_key;
  k ← gets id;
  '(out, st, num) ← valid (CRYPTO_ctr128_encrypt (fun x => SM4_encrypt x key) input (cc_iv k) (cc_buf k) (cc_num k));
  modify (fun k => k <| cc_iv := fst st |> <| cc_buf := snd st |> <| cc_num := num |>);;
  mret (out, 1).

(** ** The tables *)

Definition sm4_table (nid block_size iv_len flags : Z) (do_cipher : option (list Z) -> M core (list Z * Z)) : EVP_CIPHER EVP_SM4_KEY :=
  mkEVP_CIPHER nid block_size 16 iv_len flags sm4_init_key do_cipher None sizeof_EVP_SM4_KEY None ub (zrep 32 0).

Definition sm4_cbc := sm4_table NID_sm4_cbc 16 16 (Z.lor EVP_CIPH_FLAG_DEFAULT_ASN1 EVP_CIPH_CBC_MODE) sm4_cbc_cipher.
Definition EVP_sm4_cbc := sm4_cbc.
Definition sm4_cfb128 := sm4_table NID_sm4_cfb128 1 16 (Z.lor EVP_CIPH_FLAG_DEFAULT_ASN1 EVP_CIPH_CFB_MODE) sm4_cfb128_cipher.
Definition EVP_sm4_cfb128 := sm4_cfb128.
Definition sm4_ofb := sm4_table NID_sm4_ofb128 1 16 (Z.lor EVP_CIPH_FLAG_DEFAULT_ASN1 EVP_CIPH_OFB_MODE) sm4_ofb_cipher.
Definition EVP_sm4_ofb := sm4_ofb.
Definition sm4_ecb := sm4_table NID_sm4_ecb 16 0 (Z.lor EVP_CIPH_FLAG_DEFAULT_ASN1 EVP_CIPH_ECB_MODE) (sm4_ecb_cipher 16).
Definition EVP_sm4_ecb := sm4_ecb.
Definition sm4_ctr_mode := sm4_table NID_sm4_ctr 1 16 EVP_CIPH_CTR_MODE sm4_ctr_cipher.
Definition EVP_sm4_ctr := sm4_ctr_mode.

(** ** SM4 under a key *)

Definition sm4_E (key : list Z) : list Z -> list Z := crypt (key_schedule key).
Definition sm4_D (key : list Z) : list Z -> list Z := crypt (rev (key_schedule key)).

Lemma sm4_computes key :
  computes (fun x => SM4_encrypt x (key_schedule key)) (sm4_E key) /\ computes (fun x => SM4_decrypt x (key_schedule key)) (sm4_D key).
Proof.
  split; intros x Hx; destruct (SM4_crypt_ok x (key_schedule key) Hx (key_schedule_length key)) as [E1 E2]; (split; [done|apply crypt_block]).
Qed.

Lemma sm4_inverse key x : block16 x -> sm4_D key (sm4_E key x) = x.
Proof. apply crypt_inverse. Qed.

(** The block functions read 16 octets. *)
Lemma load_app p r n : 0 <= n -> 4 * n + 4 <= zlen p -> load_u32_be (p ++ r) n = load_u32_be p n.
Proof. intros Hn Hl. unfold load_u32_be. by rewrite !zget_app_l by lia. Qed.

Lemma sm4_app p r rk : zlen p = 16 -> SM4_encrypt (p ++ r) rk = SM4_encrypt p rk /\ SM4_decrypt (p ++ r) rk = SM4_decrypt p rk.
Proof.
  intros Hl. assert (E : load_regs (p ++ r) = load_regs p) by (unfold load_regs; by rewrite !load_app by lia).
  unfold SM4_encrypt, SM4_decrypt. by rewrite E.
Qed.

#[local] Strategy opaque [sm4_E sm4_D crypt key_schedule SM4_encrypt SM4_decrypt SM4_set_key].

(** The state with the key loaded, in the direction [enc]. *)
Definition keyed (key : list Z) (enc : Z) (k : core) : Prop := cc_cipher_data k = Some (key_schedule key) /\ cc_encrypt k = enc.

Lemma init_ok key iv enc nid B iv_len flags do_cipher k :
  block16 key -> core_ready (sm4_table nid B iv_len flags do_cipher) iv enc k ->
  exists k', sm4_init_key (Some key) (Some iv) enc k = Ret tt k' /\ keyed key enc k' /\
    cc_flags k' = cc_flags k /\ cc_buf k' = cc_buf k /\ cc_iv k' = cc_iv k /\ cc_num k' = cc_num k.
Proof.
  intros Hk (He & _).
  destruct (wp_total (sm4_init_key (Some key) (Some iv) enc) k (fun _ k' => k' = k <| cc_cipher_data := Some (key_schedule key) |>)) as ([] & k' & E & ->).
  - unfold sm4_init_key. apply wp_bind. eapply wp_valid; [done|]. apply wp_bind. eapply wp_valid; [by apply SM4_set_key_ok|]. by apply wp_modify.
  - eexists. split; [exact E|]. by split_and!.
Qed.

Lemma in_chunks_small f input k : 0 < zlen input <= INT_MAX -> in_chunks (S (length input)) f input k = f input k.
Proof.
  intros Hl. cbn [in_chunks]. rewrite (proj2 (Z.leb_gt EVP_MAXCHUNK _)) by (change EVP_MAXCHUNK with (2 ^ 62); unfold INT_MAX in Hl; lia).
  by rewrite (proj2 (Z.eqb_neq (zlen input) 0)) by lia.
Qed.

Lemma iv_whole iv k : block16 iv -> zlen (cc_iv k) = EVP_MAX_IV_LENGTH -> ztake (zlen iv) (cc_iv (D := EVP_SM4_KEY) k) = iv -> cc_iv k = iv.
Proof. intros [_ Hl] Hk E. rewrite ztake_all in E; [done|]. unfold EVP_MAX_IV_LENGTH in Hk. lia. Qed.

(** What [cipher_step] asks of a method on a state that keeps [at_]. *)
Definition steps (at_ : list Z -> core -> Prop) (F : list Z -> list Z) (B : Z) (do_cipher : option (list Z) -> M core (list Z * Z)) : Prop :=
  forall m k data, at_ m k -> zlen (cc_buf k) = EVP_MAX_BLOCK_LENGTH -> Forall is_byte data -> 0 < zlen data <= INT_MAX -> zlen data mod B = 0 ->
    exists out ret k', do_cipher (Some data) k = Ret (out, ret) k' /\ ret <> 0 /\
      F (m ++ data) = F m ++ out /\ zlen out = zlen data /\ Forall is_byte out /\
      at_ (m ++ data) k' /\ cc_flags k' = cc_flags k /\ zlen (cc_buf k') = zlen (cc_buf k) /\ (1 < B -> cc_buf k' = cc_buf k).

(** A method that runs on the state and always returns 1. *)
Lemma steps_intro (at_ : list Z -> core -> Prop) F B do_cipher :
  (forall m k data, at_ m k -> zlen (cc_buf k) = EVP_MAX_BLOCK_LENGTH -> Forall is_byte data -> 0 < zlen data <= INT_MAX -> zlen data mod B = 0 ->
     wp (do_cipher (Some data)) k (fun '(out, ret) k' => ret = 1 /\ F (m ++ data) = F m ++ out /\ zlen out = zlen data /\ Forall is_byte out /\
       at_ (m ++ data) k' /\ cc_flags k' = cc_flags k /\ zlen (cc_buf k') = zlen (cc_buf k) /\ (1 < B -> cc_buf k' = cc_buf k)) (fun _ => False)) ->
  steps at_ F B do_cipher.
Proof.
  intros H m k data Hat Hbuf Hb Hl Hm. destruct (wp_total _ _ _ (H m k data Hat Hbuf Hb Hl Hm)) as ([out ret] & k' & E & -> & Hrest).
  exists out, 1, k'. by split.
Qed.

Section ciphers.
Context (key iv : list Z) (Hkey : block16 key) (Hiv : block16 iv).

Lemma wp_the_key enc k (Q : EVP_SM4_KEY -> core -> Prop) E : keyed key enc k -> Q (key_schedule key) k -> wp the_key k Q E.
Proof using. intros [Ek _] HQ. unfold the_key. apply wp_bind, wp_gets. cbn [id]. by eapply wp_valid. Qed.

Lemma wp_in_chunks f input k (Q : list Z -> core -> Prop) E : 0 < zlen input <= INT_MAX -> wp (f input) k Q E -> wp (in_chunks (S (length input)) f input) k Q E.
Proof using. intros Hl. unfold wp. by rewrite in_chunks_small. Qed.

(** *** CBC *)

Definition cbc_E (m : list Z) : list Z := concat (cbc (sm4_E key) iv (blocks m)).
Definition cbc_D (m : list Z) : list Z := concat (cbc_inv (sm4_D key) iv (blocks m)).

(** The processed blocks and the previous block of the ciphertext. *)
Definition cbc_at (enc : Z) (m : list Z) (k : core) : Prop :=
  keyed key enc k /\ Forall is_byte m /\ zlen m mod 16 = 0 /\
  cc_iv k = last_block iv (if enc =? 0 then blocks m else cbc (sm4_E key) iv (blocks m)).

Lemma whole m : Forall is_byte m -> zlen m mod 16 = 0 -> m = concat (blocks m) /\ Forall block16 (blocks m).
Proof using. intros Hb Hm. destruct (whole_blocks m Hb Hm) as (ps & -> & Hps). by rewrite blocks_concat. Qed.

Lemma last_app iv' a b : last_block iv' (a ++ b) = last_block (last_block iv' a) b.
Proof using. unfold last_block. by rewrite fold_left_app. Qed.

Lemma cbc_steps : steps (cbc_at 1) cbc_E 16 sm4_cbc_cipher /\ steps (cbc_at 0) cbc_D 16 sm4_cbc_cipher.
Proof using Hiv.
  destruct (sm4_computes key) as [HE HD].
  split; apply steps_intro; intros m k data (Hk & Hbm & Hmm & Ev) _ Hb Hl Hm.
  all: destruct (whole data Hb Hm) as [Ed Hps], (whole m Hbm Hmm) as [_ Hms].
  all: assert (Hmod : zlen (m ++ data) mod 16 = 0) by (rewrite zlen_app; by apply mod_add_block).
  all: pose proof (zlen_concat_blocks _ Hps) as [Ld _]; rewrite <- Ed in Ld.
  all: unfold sm4_cbc_cipher; apply wp_bind; (eapply wp_valid; [done|]); apply wp_bind, wp_in_chunks; [done|]; unfold cbc_chunk.
  all: apply wp_bind, (wp_the_key _ _ _ _ Hk), wp_bind, wp_gets; cbn [id]; rewrite (proj2 Hk), Ev, Ed; apply wp_bind; unfold sm4_cbc_encrypt; cbn [Z.eqb negb] in *.
  - assert (Hiv' : block16 (last_block iv (cbc (sm4_E key) iv (blocks m)))) by (apply last_block16; [done|by apply (cbc_blocks _ _ HE)]).
    eapply wp_valid; [by apply (cbc_encrypt_ok _ _ HE)|]. apply wp_bind, wp_modify, wp_ret, wp_ret. split; [done|]. rewrite <- Ed.
    pose proof (zlen_concat_blocks _ (cbc_blocks _ _ HE _ _ Hiv' Hps)) as [Lo Ho].
    assert (Lc : zlen (cbc (sm4_E key) (last_block iv (cbc (sm4_E key) iv (blocks m))) (blocks data)) = zlen (blocks data)).
    { clear. generalize (last_block iv (cbc (sm4_E key) iv (blocks m))). induction (blocks data) as [|p ps IH]; intros v; [done|]. cbn [cbc]. by rewrite !zlen_cons, IH. }
    split; [unfold cbc_E; by rewrite blocks_app, cbc_app, concat_app|]. split; [lia|]. split; [done|]. split; [|done].
    split; [done|]. split; [by apply Forall_app|]. split; [done|]. cbn [Z.eqb]. by rewrite blocks_app, cbc_app, last_app.
  - assert (Hiv' : block16 (last_block iv (blocks m))) by (by apply last_block16).
    eapply wp_valid; [by apply (cbc_decrypt_ok _ _ HD)|]. apply wp_bind, wp_modify, wp_ret, wp_ret. split; [done|]. rewrite <- Ed.
    pose proof (zlen_concat_blocks _ (cbc_inv_blocks _ _ HD _ _ Hiv' Hps)) as [Lo Ho].
    assert (Lc : zlen (cbc_inv (sm4_D key) (last_block iv (blocks m)) (blocks data)) = zlen (blocks data)).
    { clear. generalize (last_block iv (blocks m)). induction (blocks data) as [|p ps IH]; intros v; [done|]. cbn [cbc_inv]. by rewrite !zlen_cons, IH. }
    split; [unfold cbc_D; by rewrite blocks_app, cbc_inv_app, concat_app|]. split; [lia|]. split; [done|]. split; [|done].
    split; [done|]. split; [by apply Forall_app|]. split; [done|]. cbn [Z.eqb]. by rewrite blocks_app, last_app.
Qed.

Lemma cbc_start enc k : core_ready sm4_cbc iv enc k ->
  exists k', sm4_init_key (Some key) (Some iv) enc k = Ret tt k' /\ cbc_at enc [] k' /\ cc_flags k' = cc_flags k /\ zlen (cc_buf k') = zlen (cc_buf k).
Proof using Hkey Hiv.
  intros Hr. destruct (init_ok _ _ _ _ _ _ _ _ _ Hkey Hr) as (k' & E & Hk & Hf & Hbuf & Hv & _). exists k'. split; [done|].
  destruct Hr as (_ & _ & Lv & _ & Ht & _). split; [|by rewrite Hbuf]. split; [done|]. split; [done|]. split; [done|].
  rewrite Hv. rewrite (iv_whole iv k) by (done || by apply Ht). by destruct (enc =? 0).
Qed.

#[global] Instance sm4_cbc_encrypts : CipherLaws sm4_cbc key iv 1 cbc_E 16.
Proof using Hkey Hiv.
  destruct Hiv as [_ Liv]. refine {| cipher_at := cbc_at 1 |}; [split; auto|by repeat apply Forall_cons_2|done|done|rewrite Liv; by split|done|apply cbc_start|done|done|apply cbc_steps].
Qed.

#[global] Instance sm4_cbc_decrypts : CipherLaws sm4_cbc key iv 0 cbc_D 16.
Proof using Hkey Hiv.
  destruct Hiv as [_ Liv]. refine {| cipher_at := cbc_at 0 |}; [split; auto|by repeat apply Forall_cons_2|done|done|rewrite Liv; by split|done|apply cbc_start|done|done|apply cbc_steps].
Qed.

Lemma cbc_inverse_ok : inverse_on_blocks 16 cbc_E cbc_D.
Proof using Hiv.
  intros p Hb Hm. destruct (sm4_computes key) as [HE HD]. destruct (whole p Hb Hm) as [Ep Hps]. unfold cbc_E, cbc_D.
  rewrite blocks_concat by (by apply (cbc_blocks _ _ HE)). rewrite (cbc_inverse _ (sm4_E key) (sm4_D key) iv (blocks p) HE) by (done || intros; by apply sm4_inverse). done.
Qed.

(** *** ECB *)

Definition ecb_at (enc : Z) (m : list Z) (k : core) : Prop := keyed key enc k /\ Forall is_byte m /\ zlen m mod 16 = 0.
Definition ecb_F (f : list Z -> list Z) (m : list Z) : list Z := concat (map f (blocks m)).

(** The function of a direction. *)
Definition direction (enc : Z) : list Z -> list Z := if enc =? 0 then sm4_D key else sm4_E key.

Lemma ecb_encrypt_ok enc p r : block16 p -> sm4_ecb_encrypt (p ++ r) (key_schedule key) enc = Some (direction enc p) /\ block16 (direction enc p).
Proof using.
  intros Hp. destruct (sm4_computes key) as [HE HD]. destruct (sm4_app p r (key_schedule key) (proj2 Hp)) as [E1 E2]. unfold sm4_ecb_encrypt, direction.
  destruct (enc =? 0); cbn [negb]; [rewrite E2; by apply HD|rewrite E1; by apply HE].
Qed.

Lemma wp_ecb_loop enc k ps : forall fuel i inl, keyed key enc k -> Forall block16 ps -> (length ps < fuel)%nat -> inl = i + 16 * zlen ps - 16 ->
  wp (ecb_loop fuel 16 i inl (concat ps)) k (fun out k' => out = concat (map (direction enc) ps) /\ k' = k) (fun _ => False).
Proof using.
  induction ps as [|p ps IH]; intros [|fuel] i inl Hk Hps Hf ->; cbn [length] in Hf; try lia; cbn [ecb_loop concat map].
  - change (zlen (@nil (list Z))) with 0. rewrite (proj2 (Z.leb_gt i _)) by lia. by apply wp_ret.
  - apply Forall_cons in Hps as [Hp Hps]. rewrite zlen_cons. pose proof (zlen_nonneg ps). rewrite (proj2 (Z.leb_le i _)) by lia.
    apply wp_bind, (wp_the_key _ _ _ _ Hk), wp_bind, wp_gets. cbn [id]. rewrite (proj2 Hk). destruct (ecb_encrypt_ok enc p (concat ps) Hp) as [E _].
    apply wp_bind. eapply wp_valid; [exact E|]. apply wp_bind. rewrite zdrop_app_exact by apply Hp.
    eapply wp_conseq; [apply (IH fuel (i + 16)); [done|done|lia|lia]| |done]. intros out k' [-> ->]. by apply wp_ret.
Qed.

Lemma ecb_steps enc : steps (ecb_at enc) (ecb_F (direction enc)) 16 (sm4_ecb_cipher 16).
Proof using.
  apply steps_intro. intros m k data (Hk & Hbm & Hmm) _ Hb Hl Hm. destruct (whole data Hb Hm) as [Ed Hps].
  pose proof (zlen_concat_blocks _ Hps) as [Ld _]. rewrite <- Ed in Ld. pose proof (zlen_nonneg (blocks data)).
  unfold sm4_ecb_cipher. apply wp_bind. eapply wp_valid; [done|]. rewrite (proj2 (Z.ltb_ge (zlen data) 16)) by lia.
  pose proof (wp_ecb_loop enc k (blocks data) (S (length data)) 0 (zlen data - 16) Hk Hps) as Hloop. rewrite <- Ed in Hloop.
  apply wp_bind. eapply wp_conseq; [apply Hloop; [|lia]| |done].
  - pose proof (concat_length_blocks _ Hps) as Hlen. rewrite <- Ed in Hlen. lia.
  - intros out k' [-> ->]. apply wp_ret. split; [done|].
    assert (Hout : Forall block16 (map (direction enc) (blocks data))).
    { clear -Hps. induction Hps as [|p ps Hp _ IH]; [constructor|]. cbn [map]. constructor; [by apply (ecb_encrypt_ok enc p [])|done]. }
    pose proof (zlen_concat_blocks _ Hout) as [Lo Ho].
    assert (Lm : zlen (map (direction enc) (blocks data)) = zlen (blocks data)) by (unfold zlen; by rewrite length_map).
    split; [unfold ecb_F; by rewrite blocks_app, map_app, concat_app|]. split; [lia|]. split; [done|]. split; [|done].
    split; [done|]. split; [by apply Forall_app|]. rewrite zlen_app. by apply mod_add_block.
Qed.

Lemma ecb_start enc k : core_ready sm4_ecb [] enc k ->
  exists k', sm4_init_key (Some key) (Some []) enc k = Ret tt k' /\ ecb_at enc [] k' /\ cc_flags k' = cc_flags k /\ zlen (cc_buf k') = zlen (cc_buf k).
Proof using Hkey.
  intros Hr. destruct (init_ok _ _ _ _ _ _ _ _ _ Hkey Hr) as (k' & E & Hk & Hf & Hbuf & _). exists k'. split; [done|]. rewrite Hbuf. by split_and!.
Qed.

Lemma sm4_ecb_laws enc : CipherLaws sm4_ecb key [] enc (ecb_F (direction enc)) 16.
Proof using Hkey.
  refine {| cipher_at := ecb_at enc |}; [split; auto|by repeat apply Forall_cons_2|done|done|by split|done|apply ecb_start|done|done|apply ecb_steps].
Qed.
#[global] Instance sm4_ecb_encrypts : CipherLaws sm4_ecb key [] 1 (ecb_F (sm4_E key)) 16.
Proof using Hkey. pose proof (sm4_ecb_laws 1) as H. unfold direction in H. cbn [Z.eqb] in H. exact H. Qed.
#[global] Instance sm4_ecb_decrypts : CipherLaws sm4_ecb key [] 0 (ecb_F (sm4_D key)) 16.
Proof using Hkey. pose proof (sm4_ecb_laws 0) as H. unfold direction in H. cbn [Z.eqb] in H. exact H. Qed.

Lemma ecb_inverse_ok : inverse_on_blocks 16 (ecb_F (sm4_E key)) (ecb_F (sm4_D key)).
Proof using.
  intros p Hb Hm. destruct (whole p Hb Hm) as [Ep Hps]. unfold ecb_F. rewrite blocks_concat.
  - rewrite map_map. rewrite Ep at 2. f_equal. clear Ep Hb Hm. induction Hps as [|q ps Hq _ IH]; [done|]. cbn [map]. by rewrite sm4_inverse, IH.
  - clear Ep Hb Hm. induction Hps as [|q ps Hq _ IH]; [constructor|]. cbn [map]. constructor; [by apply (ecb_encrypt_ok 1 q [])|exact IH].
Qed.

(** *** CFB, OFB and CTR *)

Definition blk (x : list Z) : option (list Z) := SM4_encrypt x (key_schedule key).

(** A stream mode: the state of the mode, [st_of], is in the fields of the core. *)
Section stream_cipher.
Context {St : Type} (refresh : St -> option St) (use : St -> Z -> Z -> option (Z * St)) (Inv : St -> Prop) (st0 : St)
  (st_of : core -> St) (do_cipher : option (list Z) -> M core (list Z * Z)) (enc : Z)
  (Hruns : runs_on refresh use Inv) (H0 : Inv st0)
  (Hdo : forall k data out st n, keyed key enc k -> 0 < zlen data <= INT_MAX -> stream128 refresh use (st_of k) (cc_num k) data = Some (out, st, n) ->
     0 <= cc_num k < 16 -> Inv st ->
     wp (do_cipher (Some data)) k (fun '(out', ret) k' => out' = out /\ ret = 1 /\ st_of k' = st /\ cc_num k' = n /\ keyed key enc k' /\
       cc_flags k' = cc_flags k /\ (zlen (cc_buf k) = EVP_MAX_BLOCK_LENGTH -> zlen (cc_buf k') = EVP_MAX_BLOCK_LENGTH)) (fun _ => False)).

Definition stream_at (m : list Z) (k : core) : Prop :=
  keyed key enc k /\ 0 <= cc_num k < 16 /\ Inv (st_of k) /\ exists o, by_octet refresh use st0 0 m = Some (o, st_of k, cc_num k).

Lemma stream_steps : steps stream_at (run refresh use st0) 1 do_cipher.
Proof using Hruns Hdo.
  apply steps_intro. intros m k data (Hk & Hn & Hi & o & Em) Hbuf Hb Hl _.
  destruct (stream_step refresh use Inv st0 m o (st_of k) (cc_num k) data Hruns Em Hi Hn Hb) as (out & st & n & E & Hn' & Hi' & Em' & Lo & Ho).
  eapply wp_conseq; [by eapply Hdo| |done]. intros [out' ret] k' (-> & -> & Est & En & Hk' & Hf & Hbuf'). split; [done|].
  split; [unfold run; by rewrite Em, Em'|]. split; [done|]. split; [done|]. rewrite <- Est, <- En in *. split; [split; [done|]; split; [done|]; split; [done|by eexists]|].
  split; [done|]. split; [by rewrite (Hbuf' Hbuf)|lia].
Qed.

Lemma stream_start k : keyed key enc k -> cc_num k = 0 -> st_of k = st0 -> stream_at [] k.
Proof using H0. intros Hk Hn Hs. split; [done|]. rewrite Hn, Hs. split; [lia|]. split; [done|by exists []]. Qed.
End stream_cipher.

Lemma wp_cfb_chunks f input k (Q : list Z -> core -> Prop) E : cfb_chunk = f -> 0 < zlen input <= INT_MAX ->
  wp (f input) k (fun out k' => Q (out ++ []) k') E ->
  wp (cfb_chunks (S (length input)) (if zlen input <? EVP_MAXCHUNK then zlen input else EVP_MAXCHUNK) input) k Q E.
Proof using.
  intros <- Hl Hw. rewrite (proj2 (Z.ltb_lt _ EVP_MAXCHUNK)) by (change EVP_MAXCHUNK with (2 ^ 62); unfold INT_MAX in Hl; lia).
  assert (Hne : exists n, length input = S n) by (unfold zlen in Hl; destruct (length input) as [|n]; [lia|by exists n]). destruct Hne as [n ->].
  cbn [cfb_chunks]. rewrite (proj2 (Z.eqb_neq (zlen input) 0)), Z.leb_refl by lia. cbn [negb andb]. rewrite (ztake_all (zlen input) input) by lia.
  assert (Ed : zdrop (zlen input) input = []) by (apply zlen_nil_inv; rewrite zlen_zdrop; lia). rewrite Ed.
  apply wp_bind. eapply wp_conseq; [exact Hw| |done]. intros out k' HQ. apply wp_bind. change (zlen (@nil Z) =? 0) with true. cbn [negb andb]. by apply wp_ret, wp_ret.
Qed.

Lemma ofb_do enc k data out st n : keyed key enc k -> 0 < zlen data <= INT_MAX -> stream128 (ofb_refresh blk) ofb_use (cc_iv k) (cc_num k) data = Some (out, st, n) ->
  wp (sm4_ofb_cipher (Some data)) k (fun '(out', ret) k' => out' = out /\ ret = 1 /\ cc_iv k' = st /\ cc_num k' = n /\ keyed key enc k' /\
    cc_flags k' = cc_flags k /\ (zlen (cc_buf k) = EVP_MAX_BLOCK_LENGTH -> zlen (cc_buf k') = EVP_MAX_BLOCK_LENGTH)) (fun _ => False).
Proof using.
  intros Hk Hl E. unfold sm4_ofb_cipher. apply wp_bind. eapply wp_valid; [done|]. apply wp_bind, wp_in_chunks; [done|]. unfold ofb_chunk.
  apply wp_bind, (wp_the_key _ _ _ _ Hk), wp_bind, wp_gets. cbn [id]. apply wp_bind. eapply wp_valid; [exact E|]. apply wp_bind, wp_modify, wp_ret, wp_ret. by split_and!.
Qed.

Lemma cfb_do use enc k data out st n : (if negb (enc =? 0) then cfb_encrypt_use else cfb_decrypt_use) = use ->
  keyed key enc k -> 0 < zlen data <= INT_MAX -> stream128 (cfb_refresh blk) use (cc_iv k) (cc_num k) data = Some (out, st, n) ->
  wp (sm4_cfb128_cipher (Some data)) k (fun '(out', ret) k' => out' = out /\ ret = 1 /\ cc_iv k' = st /\ cc_num k' = n /\ keyed key enc k' /\
    cc_flags k' = cc_flags k /\ (zlen (cc_buf k) = EVP_MAX_BLOCK_LENGTH -> zlen (cc_buf k') = EVP_MAX_BLOCK_LENGTH)) (fun _ => False).
Proof using.
  intros <- Hk Hl E. unfold sm4_cfb128_cipher. apply wp_bind. eapply wp_valid; [done|]. cbv zeta. apply wp_bind. eapply wp_cfb_chunks; [done|done|]. unfold cfb_chunk.
  apply wp_bind, (wp_the_key _ _ _ _ Hk), wp_bind, wp_gets. cbn [id]. apply wp_bind. rewrite (proj2 Hk). eapply wp_valid.
  { unfold sm4_cfb128_encrypt, CRYPTO_cfb128_encrypt. destruct (negb (enc =? 0)); exact E. }
  apply wp_bind, wp_modify, wp_ret, wp_ret. rewrite app_nil_r. by split_and!.
Qed.

Lemma ctr_do enc k data out st n : keyed key enc k -> 0 < zlen data <= INT_MAX ->
  stream128 (ctr_refresh blk) ctr_use (cc_iv k, cc_buf k) (cc_num k) data = Some (out, st, n) -> 0 <= cc_num k < 16 -> ctr_state st ->
  wp (sm4_ctr_cipher (Some data)) k (fun '(out', ret) k' => out' = out /\ ret = 1 /\ (cc_iv k', cc_buf k') = st /\ cc_num k' = n /\ keyed key enc k' /\
    cc_flags k' = cc_flags k /\ (zlen (cc_buf k) = EVP_MAX_BLOCK_LENGTH -> zlen (cc_buf k') = EVP_MAX_BLOCK_LENGTH)) (fun _ => False).
Proof using.
  intros Hk Hl E Hn (_ & _ & Hb). unfold sm4_ctr_cipher. apply wp_bind. eapply wp_valid; [done|].
  apply wp_bind, (wp_the_key _ _ _ _ Hk), wp_bind, wp_gets. cbn [id]. apply wp_bind. eapply wp_valid.
  { unfold CRYPTO_ctr128_encrypt. rewrite (proj2 (Z.ltb_lt _ 16)) by lia. exact E. }
  apply wp_bind, wp_modify, wp_ret. destruct st as [v e]. by split_and!.
Qed.

Lemma stream_init {St} (refresh : St -> option St) use Inv st0 st_of enc nid flags do_cipher k :
  Inv st0 -> takes_iv (Z.land flags EVP_CIPH_MODE) = true ->
  (forall k', cc_iv k' = iv -> cc_buf k' = zrep EVP_MAX_BLOCK_LENGTH 0 -> st_of k' = st0) ->
  core_ready (sm4_table nid 1 16 flags do_cipher) iv enc k ->
  exists k', sm4_init_key (Some key) (Some iv) enc k = Ret tt k' /\ stream_at refresh use Inv st0 st_of enc [] k' /\
    cc_flags k' = cc_flags k /\ zlen (cc_buf k') = zlen (cc_buf k).
Proof using Hkey Hiv.
  intros H0 Hmode Hst Hr. destruct (init_ok _ _ _ _ _ _ _ _ _ Hkey Hr) as (k' & E & Hk & Hf & Hbuf & Hv & Hn). exists k'. split; [done|].
  destruct Hr as (_ & Hn0 & Lv & Lb & Ht & _). split; [|by rewrite Hbuf]. apply stream_start; [done|done|congruence|].
  apply Hst; [|by rewrite Hbuf]. rewrite Hv. apply iv_whole; [done|done|by apply Ht].
Qed.

Lemma stream_laws {St} (refresh : St -> option St) use Inv st0 st_of enc nid flags do_cipher :
  Inv st0 -> takes_iv (Z.land flags EVP_CIPH_MODE) = true ->
  Forall (fun f => has_flag flags f = false) [EVP_CIPH_FLAG_CUSTOM_CIPHER; EVP_CIPH_CTRL_INIT; EVP_CIPH_CUSTOM_IV; EVP_CIPH_FLAG_CUSTOM_IV_LENGTH] ->
  (forall k', cc_iv k' = iv -> cc_buf k' = zrep EVP_MAX_BLOCK_LENGTH 0 -> st_of k' = st0) ->
  (forall k f, st_of (k <| cc_flags := f |>) = st_of k) ->
  steps (stream_at refresh use Inv st0 st_of enc) (run refresh use st0) 1 do_cipher ->
  CipherLaws (sm4_table nid 1 16 flags do_cipher) key iv enc (run refresh use st0) 1.
Proof using Hkey Hiv.
  intros H0 Hmode Hflags Hst Hsf Hsteps. destruct Hiv as [_ Liv]. refine {| cipher_at := stream_at refresh use Inv st0 st_of enc |}.
  - split; auto.
  - exact Hflags.
  - unfold EVP_CIPHER_mode. cbn [ec_flags sm4_table]. by rewrite Hmode.
  - done.
  - rewrite Liv. by split.
  - done.
  - intros k Hr. by eapply stream_init.
  - lia.
  - intros m k f (Hk & Hn & Hi & Ho). split; [done|]. split; [done|]. by rewrite Hsf.
  - exact Hsteps.
Qed.

Definition ofb_F : list Z -> list Z := run (ofb_refresh blk) ofb_use iv.
Definition cfb_E : list Z -> list Z := run (cfb_refresh blk) cfb_encrypt_use iv.
Definition cfb_D : list Z -> list Z := run (cfb_refresh blk) cfb_decrypt_use iv.
Definition ctr_F : list Z -> list Z := run (ctr_refresh blk) ctr_use (iv, zrep EVP_MAX_BLOCK_LENGTH 0).

Lemma blk_runs : runs_on (ofb_refresh blk) ofb_use block16 /\ runs_on (cfb_refresh blk) cfb_encrypt_use block16 /\
  runs_on (cfb_refresh blk) cfb_decrypt_use block16 /\ runs_on (ctr_refresh blk) ctr_use ctr_state.
Proof using. eapply modes_run_on. apply sm4_computes. Qed.

#[global] Instance sm4_ofb_laws enc : CipherLaws sm4_ofb key iv enc ofb_F 1.
Proof using Hkey Hiv.
  apply (stream_laws (ofb_refresh blk) ofb_use block16 iv cc_iv); [done|done|by repeat apply Forall_cons_2|done|done|].
  apply stream_steps; [apply blk_runs|]. intros. by apply ofb_do.
Qed.

#[global] Instance sm4_cfb_encrypts : CipherLaws sm4_cfb128 key iv 1 cfb_E 1.
Proof using Hkey Hiv.
  apply (stream_laws (cfb_refresh blk) cfb_encrypt_use block16 iv cc_iv); [done|done|by repeat apply Forall_cons_2|done|done|].
  apply stream_steps; [apply blk_runs|]. intros. by eapply (cfb_do _ 1).
Qed.

#[global] Instance sm4_cfb_decrypts : CipherLaws sm4_cfb128 key iv 0 cfb_D 1.
Proof using Hkey Hiv.
  apply (stream_laws (cfb_refresh blk) cfb_decrypt_use block16 iv cc_iv); [done|done|by repeat apply Forall_cons_2|done|done|].
  apply stream_steps; [apply blk_runs|]. intros. by eapply (cfb_do _ 0).
Qed.

#[global] Instance sm4_ctr_laws enc : CipherLaws sm4_ctr_mode key iv enc ctr_F 1.
Proof using Hkey Hiv.
  apply (stream_laws (ctr_refresh blk) ctr_use ctr_state (iv, zrep EVP_MAX_BLOCK_LENGTH 0) (fun k => (cc_iv k, cc_buf k)));
    [split; [done|split; [by apply is_byte_zrep|done]]|done|by repeat apply Forall_cons_2|by intros k' -> ->|done|].
  apply stream_steps; [apply blk_runs|]. intros. by apply ctr_do.
Qed.

Lemma stream_inverse_ok : inverse_on_blocks 1 ofb_F ofb_F /\ inverse_on_blocks 1 cfb_E cfb_D /\ inverse_on_blocks 1 ctr_F ctr_F.
Proof using Hiv.
  assert (H : forall p, Forall is_byte p -> ofb_F (ofb_F p) = p /\ cfb_D (cfb_E p) = p /\ ctr_F (ctr_F p) = p).
  { intros p Hp. apply (modes_inverse blk (sm4_E key)); [apply sm4_computes|done|by apply is_byte_zrep|done|done]. }
  split; [|split]; intros p Hp _; by apply H.
Qed.
End ciphers.

(** ** The theorems *)

(** C14. A message under a cipher that keeps the laws, in any pieces and in any context,
    is encrypted to [F] of the message with its padding: nothing is lost or said twice
    at the borders of blocks and pieces.  It fails only without padding, when the message
    is not whole blocks, or for want of memory. *)
Theorem EVP_encrypt_correct {D} (cipher : EVP_CIPHER D) key iv F B `{!CipherLaws cipher key iv 1 F B} malloc_ok pad ms (c : EVP_CIPHER_CTX D) :
  replaceable c -> Forall (piece B) ms ->
  match EVP_encrypt malloc_ok cipher key iv pad ms c with
  | Ret out _ => exists p, padded B (negb (pad =? 0)) (concat ms) = Some p /\ out = F p
  | Fail _ => no_memory cipher malloc_ok \/ padded B (negb (pad =? 0)) (concat ms) = None
  | UB => False
  end.
Proof.
  intros Hc Hms. pose proof (encrypt_ok cipher key iv B malloc_ok F pad ms c Hc Hms) as H. unfold wp in H.
  destruct (EVP_encrypt malloc_ok cipher key iv pad ms c); [|done|done]. destruct H as (p & Hp & E & _). by exists p.
Qed.

(** Two octets and seventeen: three blocks under SM4 in CBC mode, the last one padded. *)
Lemma EVP_encrypt_correct_witness :
  padded 16 true (concat [[1; 2]; zrep 17 3]) = Some ([1; 2] ++ zrep 17 3 ++ zrep 13 13) /\
  match EVP_encrypt (fun _ => true) EVP_sm4_cbc (zrep 16 7) (zrep 16 9) 1 [[1; 2]; zrep 17 3] zero_ctx with
  | Ret out _ => exists p, padded 16 true (concat [[1; 2]; zrep 17 3]) = Some p /\ out = cbc_E (zrep 16 7) (zrep 16 9) p
  | Fail _ => no_memory EVP_sm4_cbc (fun _ => true) \/ padded 16 true (concat [[1; 2]; zrep 17 3]) = None
  | UB => False
  end.
Proof.
  split; [vm_compute; reflexivity|].
  apply (EVP_encrypt_correct EVP_sm4_cbc (zrep 16 7) (zrep 16 9) (cbc_E (zrep 16 7) (zrep 16 9)) 16 (CipherLaws0 := sm4_cbc_encrypts (zrep 16 7) (zrep 16 9)
    (conj (is_byte_zrep 16 7 ltac:(done)) eq_refl) (conj (is_byte_zrep 16 9 ltac:(done)) eq_refl)) (fun _ => true) 1 [[1; 2]; zrep 17 3] zero_ctx);
    [done|repeat constructor; by apply (bool_decide_unpack _)].
Defined.

(** C13. Decryption in any pieces succeeds exactly on a ciphertext of whole blocks whose
    decryption is a message with its padding, and gives that message: every octet of
    the padding is compared, and the last block is kept back until it is known to be the
    last. *)
Theorem EVP_decrypt_correct {D} (cipher : EVP_CIPHER D) key iv F B `{!CipherLaws cipher key iv 0 F B} malloc_ok pad cs (c : EVP_CIPHER_CTX D) :
  replaceable c -> Forall (piece B) cs ->
  match EVP_decrypt malloc_ok cipher key iv pad cs c with
  | Ret m _ => plaintext_of F B (negb (pad =? 0)) (concat cs) m
  | Fail _ => no_memory cipher malloc_ok \/ forall m, ~ plaintext_of F B (negb (pad =? 0)) (concat cs) m
  | UB => False
  end.
Proof. intros Hc Hcs. exact (decrypt_ok cipher key iv B malloc_ok F pad cs c Hc Hcs). Qed.

Lemma EVP_decrypt_correct_witness :
  match EVP_decrypt (fun _ => true) EVP_sm4_cbc (zrep 16 7) (zrep 16 9) 1 [zrep 9 2; zrep 23 3] zero_ctx with
  | Ret m _ => plaintext_of (cbc_D (zrep 16 7) (zrep 16 9)) 16 true (concat [zrep 9 2; zrep 23 3]) m
  | Fail _ => no_memory EVP_sm4_cbc (fun _ => true) \/ forall m, ~ plaintext_of (cbc_D (zrep 16 7) (zrep 16 9)) 16 true (concat [zrep 9 2; zrep 23 3]) m
  | UB => False
  end.
Proof.
  apply (EVP_decrypt_correct EVP_sm4_cbc (zrep 16 7) (zrep 16 9) (cbc_D (zrep 16 7) (zrep 16 9)) 16 (CipherLaws0 := sm4_cbc_decrypts (zrep 16 7) (zrep 16 9)
    (conj (is_byte_zrep 16 7 ltac:(done)) eq_refl) (conj (is_byte_zrep 16 9 ltac:(done)) eq_refl)) (fun _ => true) 1 [zrep 9 2; zrep 23 3] zero_ctx);
    [done|repeat constructor; by apply (bool_decide_unpack _)].
Defined.

(** The ciphers of e_sm4.c, and the iv they take. *)
Definition sm4_cipher (cipher : EVP_CIPHER EVP_SM4_KEY) (iv : list Z) : Prop :=
  (cipher = EVP_sm4_ecb /\ iv = []) \/
  (block16 iv /\ (cipher = EVP_sm4_cbc \/ cipher = EVP_sm4_cfb128 \/ cipher = EVP_sm4_ofb \/ cipher = EVP_sm4_ctr)).

(** C15. What is encrypted with SM4 in any of its five modes is decrypted to the same
    message under the same key and iv, whatever the pieces on the two sides and whatever
    the two contexts held before. *)
Theorem SM4_EVP_roundtrip cipher key iv malloc_ok pad ms cs (c c' : EVP_CIPHER_CTX EVP_SM4_KEY) :
  block16 key -> sm4_cipher cipher iv -> replaceable c -> replaceable c' ->
  Forall (piece (ec_block_size cipher)) ms -> Forall (piece (ec_block_size cipher)) cs ->
  match EVP_encrypt malloc_ok cipher key iv pad ms c with
  | Ret ct _ => concat cs = ct ->
      match EVP_decrypt malloc_ok cipher key iv pad cs c' with
      | Ret m _ => m = concat ms
      | Fail _ => no_memory cipher malloc_ok
      | UB => False
      end
  | Fail _ => no_memory cipher malloc_ok \/ padded (ec_block_size cipher) (negb (pad =? 0)) (concat ms) = None
  | UB => False
  end.
Proof.
  intros Hkey [[-> ->]|[Hiv Hcipher]] Hc Hc' Hms Hcs.
  - pose proof (sm4_ecb_encrypts key Hkey). pose proof (sm4_ecb_decrypts key Hkey).
    by apply (roundtrip_ok EVP_sm4_ecb key [] 16 malloc_ok (ecb_F (sm4_E key)) (ecb_F (sm4_D key)) pad ms cs c c' (ecb_inverse_ok key)).
  - destruct (stream_inverse_ok key iv Hiv) as (Io & Ic & It). destruct Hcipher as [-> |[-> |[-> | ->]]].
    + pose proof (sm4_cbc_encrypts key iv Hkey Hiv). pose proof (sm4_cbc_decrypts key iv Hkey Hiv).
      by apply (roundtrip_ok EVP_sm4_cbc key iv 16 malloc_ok (cbc_E key iv) (cbc_D key iv) pad ms cs c c' (cbc_inverse_ok key iv Hiv)).
    + pose proof (sm4_cfb_encrypts key iv Hkey Hiv). pose proof (sm4_cfb_decrypts key iv Hkey Hiv).
      by apply (roundtrip_ok EVP_sm4_cfb128 key iv 1 malloc_ok (cfb_E key iv) (cfb_D key iv) pad ms cs c c' Ic).
    + pose proof (sm4_ofb_laws key iv Hkey Hiv 1). pose proof (sm4_ofb_laws key iv Hkey Hiv 0).
      by apply (roundtrip_ok EVP_sm4_ofb key iv 1 malloc_ok (ofb_F key iv) (ofb_F key iv) pad ms cs c c' Io).
    + pose proof (sm4_ctr_laws key iv Hkey Hiv 1). pose proof (sm4_ctr_laws key iv Hkey Hiv 0).
      by apply (roundtrip_ok EVP_sm4_ctr key iv 1 malloc_ok (ctr_F key iv) (ctr_F key iv) pad ms cs c c' It).
Qed.

Lemma SM4_EVP_roundtrip_witness :
  match EVP_encrypt (fun _ => true) EVP_sm4_ctr (zrep 16 7) (zrep 16 9) 0 [[1; 2]; [3]] zero_ctx with
  | Ret ct _ => concat [ztake 1 (ctr_F (zrep 16 7) (zrep 16 9) [1; 2; 3]); zdrop 1 (ctr_F (zrep 16 7) (zrep 16 9) [1; 2; 3])] = ct ->
      match EVP_decrypt (fun _ => true) EVP_sm4_ctr (zrep 16 7) (zrep 16 9) 0 [ztake 1 (ctr_F (zrep 16 7) (zrep 16 9) [1; 2; 3]); zdrop 1 (ctr_F (zrep 16 7) (zrep 16 9) [1; 2; 3])] zero_ctx with
      | Ret m _ => m = concat [[1; 2]; [3]]
      | Fail _ => no_memory EVP_sm4_ctr (fun _ => true)
      | UB => False
      end
  | Fail _ => no_memory EVP_sm4_ctr (fun _ => true) \/ padded (ec_block_size EVP_sm4_ctr) false (concat [[1; 2]; [3]]) = None
  | UB => False
  end.
Proof.
  apply (SM4_EVP_roundtrip EVP_sm4_ctr (zrep 16 7) (zrep 16 9) (fun _ => true) 0 [[1; 2]; [3]]
    [ztake 1 (ctr_F (zrep 16 7) (zrep 16 9) [1; 2; 3]); zdrop 1 (ctr_F (zrep 16 7) (zrep 16 9) [1; 2; 3])] zero_ctx zero_ctx);
    [split; [by apply is_byte_zrep|done]|right; split; [split; [by apply is_byte_zrep|done]|auto]|done|done|repeat constructor; by apply (bool_decide_unpack _)|].
  assert (E : ctr_F (zrep 16 7) (zrep 16 9) [1; 2; 3] = [32; 230; 161]) by (vm_compute; reflexivity). rewrite E.
  repeat constructor; by apply (bool_decide_unpack _).
Defined.
