(* ===== verification/Hmac.v ===== *)
(** * HMAC

    lib/libcrypto/hmac/hmac.c over the EVP_MD interface: the context with its three
    digest contexts, initialisation with a new key or the old one, updates and the
    final result; RFC 2104 as the specification.  A key is [None] for NULL; its length
    is a separate [int], as in the code. *)

From S2P Require Import Prelude Sha256 EvpDigest.
Open Scope Z_scope.

Definition HMAC_MAX_MD_CBLOCK : Z := 144.

Record HMAC_CTX {D : Type} : Type := mkHmac {
  hm_md : option (EVP_MD D);
  hm_md_ctx : EVP_MD_CTX D;
  hm_i_ctx : EVP_MD_CTX D;
  hm_o_ctx : EVP_MD_CTX D;
  hm_key_length : Z;
  hm_key : list Z;
}.
Arguments HMAC_CTX D : clear implicits.
Arguments mkHmac {D}.
#[global] Instance hmac_eta {D} : Eta (HMAC_CTX D) := fun c =>
  mkHmac (hm_md c) (hm_md_ctx c) (hm_i_ctx c) (hm_o_ctx c) (hm_key_length c) (hm_key c).

Section hmac.
Context {D : Type} (malloc_ok : Z -> bool).
Abbreviation hmac_upd f := (modify (S := HMAC_CTX D) f).

(** An operation on one of the digest contexts. *)
Definition on_part {A} (get : HMAC_CTX D -> EVP_MD_CTX D) (put : EVP_MD_CTX D -> HMAC_CTX D -> HMAC_CTX D) (m : M (EVP_MD_CTX D) A) :
    M (HMAC_CTX D) A := fun c =>
  match m (get c) with
  | Ret a x => Ret a (put x c)
  | Fail x => Fail (put x c)
  | UB => UB
  end.
Definition on_md_ctx {A} : M (EVP_MD_CTX D) A -> M (HMAC_CTX D) A := on_part hm_md_ctx (fun x c => c <| hm_md_ctx := x |>).
Definition on_i_ctx {A} : M (EVP_MD_CTX D) A -> M (HMAC_CTX D) A := on_part hm_i_ctx (fun x c => c <| hm_i_ctx := x |>).
Definition on_o_ctx {A} : M (EVP_MD_CTX D) A -> M (HMAC_CTX D) A := on_part hm_o_ctx (fun x c => c <| hm_o_ctx := x |>).

(** The key, hashed when it is longer than a block, with zeros behind it. *)
Definition set_key (md : EVP_MD D) (key : list Z) (len : Z) : M (HMAC_CTX D) unit :=
  let j := EVP_MD_block_size md in
  check (negb (HMAC_MAX_MD_CBLOCK <? u64 j));;
  (if j <? len then
     on_md_ctx (EVP_DigestInit_ex malloc_ok md);;
     data ← valid (octets_at key len);
     on_md_ctx (EVP_DigestUpdate data);;
     digest ← on_md_ctx EVP_DigestFinal_ex;
     c ← gets id;
     new ← valid (zwrite (hm_key c) 0 digest);
     hmac_upd (fun c => c <| hm_key := new |> <| hm_key_length := zlen digest |>)
   else
     check (negb ((len <? 0) || (HMAC_MAX_MD_CBLOCK <? u64 len)));;
     data ← valid (octets_at key len);
     c ← gets id;
     new ← valid (zwrite (hm_key c) 0 data);
     hmac_upd (fun c => c <| hm_key := new |> <| hm_key_length := len |>));;
  c ← gets id;
  if negb (hm_key_length c =? HMAC_MAX_MD_CBLOCK) then
    new ← valid (zwrite (hm_key c) (hm_key_length c) (zrep (HMAC_MAX_MD_CBLOCK - hm_key_length c) 0));
    hmac_upd (fun c => c <| hm_key := new |>)
  else mret tt.

(** [pad[i] = b ^ ctx->key[i]] *)
Definition key_pad (b : Z) (key : list Z) : list Z := map (Z.lxor b) key.

(** [if (reset)]: the inner and the outer context start with a block of key and pad. *)
Definition start_pads (md : EVP_MD D) : M (HMAC_CTX D) unit :=
  c ← gets id;
  let pad := key_pad 0x36 (hm_key c) in
  on_i_ctx (EVP_DigestInit_ex malloc_ok md);;
  block ← valid (octets_at pad (EVP_MD_block_size md));
  on_i_ctx (EVP_DigestUpdate block);;
  let pad := key_pad 0x5c (hm_key c) in
  on_o_ctx (EVP_DigestInit_ex malloc_ok md);;
  block ← valid (octets_at pad (EVP_MD_block_size md));
  on_o_ctx (EVP_DigestUpdate block).

Definition HMAC_Init_ex (key : option (list Z)) (len : Z) (md : option (EVP_MD D)) : M (HMAC_CTX D) unit :=
  c ← gets id;
  check (negb (negb (same_digest md None) && negb (same_digest md (hm_md c)) && (bool_decide (key = None) || (len <? 0))));;
  '(md, reset) ← (match md, hm_md c with
                  | Some md, _ => hmac_upd (fun c => c <| hm_md := Some md |>);; mret (md, true)
                  | None, Some md => mret (md, false)
                  | None, None => fail
                  end);
  reset ← (match key with
           | Some key => set_key md key len;; mret true
           | None => mret reset
           end);
  (if (reset : bool) then start_pads md else mret tt);;
  c ← gets id;
  on_md_ctx (EVP_MD_CTX_copy_ex malloc_ok (hm_i_ctx c)).

Definition HMAC_Update (data : list Z) : M (HMAC_CTX D) unit :=
  c ← gets id;
  check (negb (same_digest (hm_md c) None));;
  on_md_ctx (EVP_DigestUpdate data).

(** The result; its length is [*len]. *)
Definition HMAC_Final : M (HMAC_CTX D) (list Z) :=
  c ← gets id;
  check (negb (same_digest (hm_md c) None));;
  buf ← on_md_ctx EVP_DigestFinal_ex;
  c ← gets id;
  on_md_ctx (EVP_MD_CTX_copy_ex malloc_ok (hm_o_ctx c));;
  on_md_ctx (EVP_DigestUpdate buf);;
  on_md_ctx EVP_DigestFinal_ex.

Definition HMAC_CTX_init : M (HMAC_CTX D) unit :=
  on_i_ctx EVP_MD_CTX_legacy_clear;;
  on_o_ctx EVP_MD_CTX_legacy_clear;;
  on_md_ctx EVP_MD_CTX_legacy_clear;;
  hmac_upd (fun c => c <| hm_md := None |>).

(** All zero. *)
Definition zero_HMAC_CTX : HMAC_CTX D :=
  let c := mkMdCtx None 0 None None in mkHmac None c c c 0 (zrep HMAC_MAX_MD_CBLOCK 0).

Definition HMAC_CTX_cleanup : M (HMAC_CTX D) unit :=
  on_i_ctx EVP_MD_CTX_cleanup;;
  on_o_ctx EVP_MD_CTX_cleanup;;
  on_md_ctx EVP_MD_CTX_cleanup;;
  hmac_upd (fun _ => zero_HMAC_CTX).

Definition HMAC_CTX_reset : M (HMAC_CTX D) unit := HMAC_CTX_cleanup;; HMAC_CTX_init.

(** The state is [dctx]. *)
Definition HMAC_CTX_copy (sctx : HMAC_CTX D) : M (HMAC_CTX D) unit :=
  on_i_ctx (EVP_MD_CTX_copy malloc_ok (hm_i_ctx sctx));;
  on_o_ctx (EVP_MD_CTX_copy malloc_ok (hm_o_ctx sctx));;
  on_md_ctx (EVP_MD_CTX_copy malloc_ok (hm_md_ctx sctx));;
  hmac_upd (fun c => c <| hm_key := hm_key sctx |> <| hm_key_length := hm_key_length sctx |> <| hm_md := hm_md sctx |>).

Definition HMAC_CTX_set_flags (flags : Z) : M (HMAC_CTX D) unit :=
  let set := modify (fun c => EVP_MD_CTX_set_flags c flags) in
  on_i_ctx set;; on_o_ctx set;; on_md_ctx set.

Definition HMAC_CTX_get_md (ctx : HMAC_CTX D) : option (EVP_MD D) := hm_md ctx.

(** The context is a local variable without initial value; [Fail] is NULL. *)
Definition HMAC (evp_md : option (EVP_MD D)) (key : option (list Z)) (key_len : Z) (d : list Z) : M (HMAC_CTX D) (list Z) :=
  let '(key, key_len) := match key with Some key => (key, key_len) | None => ([0], 0) end in
  HMAC_CTX_init;;
  r ← try (HMAC_Init_ex (Some key) key_len evp_md;; HMAC_Update d;; HMAC_Final);
  HMAC_CTX_cleanup;;
  match r with
  | Some md => mret md
  | None => fail
  end.
End hmac.

(** ** RFC 2104 *)

(** The key as a block of [B] octets. *)
Definition rfc_key (hash : list Z -> list Z) (B : Z) (key : list Z) : list Z :=
  let k := if B <? zlen key then hash key else key in k ++ zrep (B - zlen k) 0.
Definition rfc_hmac (hash : list Z -> list Z) (B : Z) (key text : list Z) : list Z :=
  let k := rfc_key hash B key in
  hash (map (Z.lxor 0x5c) k ++ hash (map (Z.lxor 0x36) k ++ text)).

(** ** HMAC against any hash *)

Section hmac_ok.
Context {D : Type} (malloc_ok : Z -> bool) (md : EVP_MD D) (hash : list Z -> list Z) `{HL : !DigestLaws md hash}.
Abbreviation B := (dg_block_size md).
Abbreviation ctx_sane := (ctx_sane md).
Abbreviation ctx_at := (ctx_at md hash).

(** The key material is in place and the pads are taken. *)
Definition hmac_keyed (key : list Z) (c : HMAC_CTX D) : Prop :=
  hm_md c = Some md /\
  ctx_at (map (Z.lxor 0x36) (rfc_key hash B key)) (hm_i_ctx c) /\ ctx_at (map (Z.lxor 0x5c) (rfc_key hash B key)) (hm_o_ctx c) /\
  zlen (hm_key c) = HMAC_MAX_MD_CBLOCK /\ Forall is_byte (hm_key c) /\ ctx_sane (hm_md_ctx c).
(** The octets [msg] have been taken. *)
Definition hmac_at (key msg : list Z) (c : HMAC_CTX D) : Prop :=
  hmac_keyed key c /\ ctx_at (map (Z.lxor 0x36) (rfc_key hash B key) ++ msg) (hm_md_ctx c).
(** A context that may be initialised with a key. *)
Definition hmac_sane (c : HMAC_CTX D) : Prop :=
  ctx_sane (hm_md_ctx c) /\ ctx_sane (hm_i_ctx c) /\ ctx_sane (hm_o_ctx c) /\ zlen (hm_key c) = HMAC_MAX_MD_CBLOCK /\ Forall is_byte (hm_key c).

Definition no_memory : Prop := malloc_ok (dg_ctx_size md) = false.

Lemma wp_on_part {A} get put (m : M (EVP_MD_CTX D) A) c (Q : A -> HMAC_CTX D -> Prop) E :
  wp m (get c) (fun a x => Q a (put x c)) (fun x => E (put x c)) -> wp (on_part get put m) c Q E.
Proof using. unfold wp, on_part. by destruct (m (get c)). Qed.

Lemma block_sizes : 0 < B <= HMAC_MAX_MD_CBLOCK /\ dg_md_size md <= B.
Proof using HL. destruct (digest_sizes (hash := hash)) as (? & ? & ?). unfold HMAC_MAX_MD_CBLOCK. lia. Qed.

Lemma hmac_key_ok key : Forall is_byte key -> zlen (rfc_key hash B key) = B /\ Forall is_byte (rfc_key hash B key).
Proof using HL.
  intros Hk. pose proof block_sizes as Hb. unfold rfc_key. destruct (Z.ltb_spec B (zlen key)).
  - rewrite zlen_app, digest_size, zlen_rep, Forall_app by lia. split; [lia|]. split; [apply digest_bytes|by apply is_byte_zrep].
  - rewrite zlen_app, zlen_rep, Forall_app by lia. split; [lia|]. split; [done|by apply is_byte_zrep].
Qed.

(** The tail of the key is cleared, whatever was there. *)
Lemma clear_tail k new len :
  zlen k = HMAC_MAX_MD_CBLOCK -> Forall is_byte k -> zlen new = len -> Forall is_byte new -> 0 <= len <= B ->
  exists k1, zwrite k 0 new = Some k1 /\ zlen k1 = HMAC_MAX_MD_CBLOCK /\ Forall is_byte k1 /\
    exists k2, (if negb (len =? HMAC_MAX_MD_CBLOCK) then zwrite k1 len (zrep (HMAC_MAX_MD_CBLOCK - len) 0) else Some k1) = Some k2 /\
      zlen k2 = HMAC_MAX_MD_CBLOCK /\ Forall is_byte k2 /\ ztake B k2 = new ++ zrep (B - len) 0.
Proof using HL.
  intros Hl Hb Hn Hnb Hlen. pose proof block_sizes as HB.
  destruct (zwrite_fits k 0 new) as [k1 E1]; [lia..|]. exists k1. pose proof (zlen_zwrite _ _ _ _ E1) as L1.
  pose proof (zwrite_bytes _ _ _ _ E1 Hb Hnb) as B1. pose proof (zwrite_take _ _ _ _ E1) as T1. rewrite Z.add_0_l, ztake_0, Hn in T1. cbn [app] in T1.
  split; [done|]. split; [lia|]. split; [done|]. destruct (Z.eqb_spec len HMAC_MAX_MD_CBLOCK) as [E|E]; cbn [negb].
  - exists k1. split; [done|]. split; [lia|]. split; [done|]. replace (B - len) with 0 by lia. rewrite app_nil_r.
    replace B with len by lia. done.
  - assert (Hz : zlen (zrep (HMAC_MAX_MD_CBLOCK - len) 0) = HMAC_MAX_MD_CBLOCK - len) by (apply zlen_rep; lia).
    destruct (zwrite_fits k1 len (zrep (HMAC_MAX_MD_CBLOCK - len) 0)) as [k2 E2]; [lia..|]. exists k2.
    pose proof (zlen_zwrite _ _ _ _ E2) as L2. pose proof (zwrite_take _ _ _ _ E2) as T2. rewrite Hz in T2.
    replace (len + (HMAC_MAX_MD_CBLOCK - len)) with HMAC_MAX_MD_CBLOCK in T2 by lia. rewrite T1, ztake_all in T2 by lia.
    split; [done|]. split; [lia|]. split; [eapply zwrite_bytes; [exact E2|done|by apply is_byte_zrep]|].
    rewrite T2. replace (HMAC_MAX_MD_CBLOCK - len) with ((B - len) + (HMAC_MAX_MD_CBLOCK - B)) by lia.
    rewrite zrep_add, app_assoc by lia. apply ztake_app_exact. rewrite zlen_app, zlen_rep by lia. lia.
Qed.

(** The key of [len] octets is stored and the tail cleared. *)
Lemma wp_store_key key new len c (Q : unit -> HMAC_CTX D -> Prop) E :
  hmac_sane c -> zlen new = len -> Forall is_byte new -> 0 <= len <= B -> new ++ zrep (B - len) 0 = rfc_key hash B key ->
  (forall c', hmac_sane c' -> hm_md c' = hm_md c -> ztake B (hm_key c') = rfc_key hash B key -> Q tt c') ->
  wp (c ← gets id; new ← valid (zwrite (hm_key c) 0 new); modify (fun c => c <| hm_key := new |> <| hm_key_length := len |>)) c
    (fun _ c => wp (c ← gets id;
      if negb (hm_key_length c =? HMAC_MAX_MD_CBLOCK) then
        new ← valid (zwrite (hm_key c) (hm_key_length c) (zrep (HMAC_MAX_MD_CBLOCK - hm_key_length c) 0));
        modify (fun c => c <| hm_key := new |>)
      else mret tt) c Q E) E.
Proof using HL.
  intros (Hs & Hi & Ho & Hl & Hb) Hn Hnb Hlen Er HQ. apply wp_bind, wp_gets. cbn [id].
  destruct (clear_tail (hm_key c) new len Hl Hb Hn Hnb Hlen) as (k1 & E1 & L1 & B1 & k2 & E2 & L2 & B2 & T2). vbind E1. apply wp_modify.
  apply wp_bind, wp_gets. cbn [id set_field hm_key hm_key_length].
  assert (Hq : forall c2, hm_md_ctx c2 = hm_md_ctx c -> hm_i_ctx c2 = hm_i_ctx c -> hm_o_ctx c2 = hm_o_ctx c -> hm_md c2 = hm_md c -> hm_key c2 = k2 -> Q tt c2).
  { intros c2 F1 F2 F3 F4 F5. apply HQ; [|congruence|by rewrite F5, T2]. unfold hmac_sane. rewrite F1, F2, F3, F5.
    split; [done|]. split; [done|]. split; [done|]. by split. }
  destruct (negb (len =? HMAC_MAX_MD_CBLOCK)); [vbind E2; by apply wp_modify, Hq|]. injection E2 as <-. apply wp_ret. by apply Hq.
Qed.

Lemma wp_set_key p key c (Q : unit -> HMAC_CTX D -> Prop) (E : HMAC_CTX D -> Prop) :
  octets_at p (zlen key) = Some key -> hmac_sane c -> Forall is_byte key -> zlen key < 2 ^ 31 ->
  (forall c', hmac_sane c' -> hm_md c' = hm_md c -> ztake B (hm_key c') = rfc_key hash B key -> Q tt c') ->
  (no_memory -> forall c', E c') ->
  wp (set_key malloc_ok md p (zlen key)) c Q E.
Proof using HL.
  intros Hp Hsane Hk Hkl HQ HE. pose proof block_sizes as HB. unfold HMAC_MAX_MD_CBLOCK in HB. pose proof (zlen_nonneg key). unfold set_key, EVP_MD_block_size.
  apply wp_bind, wp_check; [intros _|unfold HMAC_MAX_MD_CBLOCK; rewrite u64_small by lia; intros Hbad%negb_false_iff%Z.ltb_lt; lia].
  apply wp_bind. destruct (Z.ltb_spec B (zlen key)) as [Hlong|Hshort].
  - assert (Er : hash key ++ zrep (B - zlen (hash key)) 0 = rfc_key hash B key) by (unfold rfc_key; by rewrite (proj2 (Z.ltb_lt _ _) Hlong)).
    pose proof Hsane as (Hs & Hrest). apply wp_bind, wp_on_part, (wp_DigestInit malloc_ok md hash); [exact Hs| |intros Hm x; by apply HE]. intros x1 Hx1.
    vbind Hp. apply wp_bind, wp_on_part. eapply (wp_DigestUpdate md hash); [exact Hx1|done|].
    intros x2 Hx2. apply wp_bind, wp_on_part. eapply (wp_DigestFinal md hash); [exact Hx2|]. intros x3 Hx3. cbn [app].
    apply (wp_store_key key); [by split|done|apply digest_bytes|rewrite digest_size; pose proof (digest_sizes (hash := hash)); lia|done|exact HQ].
  - assert (Er : key ++ zrep (B - zlen key) 0 = rfc_key hash B key) by (unfold rfc_key; by rewrite (proj2 (Z.ltb_ge _ _) Hshort)).
    apply wp_bind, wp_check; [intros _|unfold HMAC_MAX_MD_CBLOCK; rewrite u64_small by lia; intros [?%Z.ltb_lt|?%Z.ltb_lt]%negb_false_iff%orb_true_iff; lia].
    vbind Hp. apply (wp_store_key key); [done|done|done|lia|done|exact HQ].
Qed.

(** Both pads are taken. *)
Lemma wp_start_pads key c (Q : unit -> HMAC_CTX D -> Prop) (E : HMAC_CTX D -> Prop) :
  hmac_sane c -> hm_md c = Some md -> ztake B (hm_key c) = rfc_key hash B key ->
  (forall c', hmac_keyed key c' -> Q tt c') -> (no_memory -> forall c', E c') ->
  wp (start_pads malloc_ok md) c Q E.
Proof using HL.
  intros (Hs & Hi & Ho & Hl & Hb) Hmd Hkey HQ HE. pose proof block_sizes as HB. unfold start_pads, EVP_MD_block_size. apply wp_bind, wp_gets. cbn [id].
  assert (Hpad : forall b, is_byte b -> octets_at (key_pad b (hm_key c)) B = Some (map (Z.lxor b) (rfc_key hash B key)) /\ Forall is_byte (map (Z.lxor b) (rfc_key hash B key))).
  { intros b Hbb. split.
    - rewrite octets_at_le by (unfold key_pad, zlen in *; rewrite length_map; lia). unfold key_pad, ztake in *. by rewrite firstn_map, Hkey.
    - apply Forall_map. rewrite <- Hkey. apply (Forall_ztake _ B) in Hb. eapply Forall_impl; [exact Hb|]. intros x Hx. by apply lxor_byte. }
  destruct (Hpad 0x36 ltac:(by vm_compute)) as [Ei Bi]. destruct (Hpad 0x5c ltac:(by vm_compute)) as [Eo Bo].
  apply wp_bind, wp_on_part, (wp_DigestInit malloc_ok md hash); [exact Hi| |intros Hm x; by apply HE]. intros x1 Hx1. vbind Ei.
  apply wp_bind, wp_on_part. eapply (wp_DigestUpdate md hash); [exact Hx1|done|]. intros x2 Hx2.
  apply wp_bind, wp_on_part, (wp_DigestInit malloc_ok md hash); [exact Ho| |intros Hm x; by apply HE]. intros x3 Hx3. vbind Eo.
  apply wp_on_part. eapply (wp_DigestUpdate md hash); [exact Hx3|done|]. intros x4 Hx4. apply HQ.
  split; [done|]. split; [exact Hx2|]. split; [exact Hx4|]. by split.
Qed.

(** The context for the message starts where the inner pad ends. *)
Lemma wp_start_message key c (Q : unit -> HMAC_CTX D -> Prop) (E : HMAC_CTX D -> Prop) :
  hmac_keyed key c -> (forall c', hmac_at key [] c' -> Q tt c') -> (no_memory -> forall c', E c') ->
  wp (c ← gets id; on_md_ctx (EVP_MD_CTX_copy_ex malloc_ok (hm_i_ctx c))) c Q E.
Proof using HL.
  intros (Hmd & Hi & Ho & Hl & Hb & Hs) HQ HE. apply wp_bind, wp_gets. cbn [id]. apply wp_on_part.
  eapply (wp_copy_ex malloc_ok md hash); [exact Hi| |intros Hm x; by apply HE]. intros x Hx. apply HQ.
  split; [|by rewrite app_nil_r]. split; [done|]. split; [done|]. split; [done|]. split; [done|]. split; [done|]. by eapply ctx_at_sane.
Qed.

Lemma wp_HMAC_Init_at p key c (Q : unit -> HMAC_CTX D -> Prop) (E : HMAC_CTX D -> Prop) :
  octets_at p (zlen key) = Some key -> hmac_sane c -> Forall is_byte key -> zlen key < 2 ^ 31 ->
  (forall c', hmac_at key [] c' -> Q tt c') -> (no_memory -> forall c', E c') ->
  wp (HMAC_Init_ex malloc_ok (Some p) (zlen key) (Some md)) c Q E.
Proof using HL.
  intros Hp Hs Hk Hl HQ HE. pose proof (zlen_nonneg key). unfold HMAC_Init_ex. apply wp_bind, wp_gets. cbn [id].
  rewrite (proj2 (Z.ltb_ge _ _)) by lia. rewrite bool_decide_eq_false_2 by done. cbn [orb]. rewrite andb_false_r. apply wp_bind, wp_check; [intros _|done].
  apply wp_bind, wp_bind, wp_modify, wp_ret. apply wp_bind, wp_bind, (wp_set_key p key); [done|exact Hs|done|done| |exact HE].
  intros c1 Hs1 Hmd1 Hk1. apply wp_ret. cbv iota. apply wp_bind, (wp_start_pads key); [exact Hs1|exact Hmd1|exact Hk1| |exact HE]. intros c2 Hc2. by apply (wp_start_message key).
Qed.

Lemma wp_HMAC_Init key c (Q : unit -> HMAC_CTX D -> Prop) (E : HMAC_CTX D -> Prop) :
  hmac_sane c -> Forall is_byte key -> zlen key < 2 ^ 31 ->
  (forall c', hmac_at key [] c' -> Q tt c') -> (no_memory -> forall c', E c') ->
  wp (HMAC_Init_ex malloc_ok (Some key) (zlen key) (Some md)) c Q E.
Proof using HL. intros. apply wp_HMAC_Init_at; [by apply octets_at_all|done..]. Qed.

(** The dummy key. *)
Lemma wp_HMAC_Init_null c (Q : unit -> HMAC_CTX D -> Prop) (E : HMAC_CTX D -> Prop) :
  hmac_sane c -> (forall c', hmac_at [] [] c' -> Q tt c') -> (no_memory -> forall c', E c') ->
  wp (HMAC_Init_ex malloc_ok (Some [0]) 0 (Some md)) c Q E.
Proof using HL. intros. by apply (wp_HMAC_Init_at [0] []). Qed.

(** The same key again. *)
Lemma wp_HMAC_Init_again key c (Q : unit -> HMAC_CTX D -> Prop) (E : HMAC_CTX D -> Prop) :
  hmac_keyed key c -> (forall c', hmac_at key [] c' -> Q tt c') -> (no_memory -> forall c', E c') ->
  wp (HMAC_Init_ex malloc_ok None 0 None) c Q E.
Proof using HL.
  intros Hc HQ HE. unfold HMAC_Init_ex. apply wp_bind, wp_gets. cbn [id same_digest negb andb]. apply wp_bind, wp_check; [intros _|done].
  pose proof Hc as (-> & _). apply wp_bind, wp_ret, wp_bind, wp_ret. cbv iota. apply wp_bind, wp_ret. by apply (wp_start_message key).
Qed.

Lemma wp_HMAC_Update key msg data c (Q : unit -> HMAC_CTX D -> Prop) E :
  hmac_at key msg c -> Forall is_byte data -> (forall c', hmac_at key (msg ++ data) c' -> Q tt c') -> wp (HMAC_Update data) c Q E.
Proof using HL.
  intros [(Hmd & Hi & Ho & Hl & Hb & Hs) Hat] Hd HQ. unfold HMAC_Update. apply wp_bind, wp_gets. cbn [id]. rewrite Hmd.
  apply wp_bind, wp_check; [intros _|done]. apply wp_on_part. eapply (wp_DigestUpdate md hash); [exact Hat|done|]. intros x Hx. apply HQ.
  split; [|by rewrite app_assoc]. split; [done|]. split; [done|]. split; [done|]. split; [done|]. split; [done|]. by eapply ctx_at_sane.
Qed.

Lemma wp_HMAC_Final key msg c (Q : list Z -> HMAC_CTX D -> Prop) (E : HMAC_CTX D -> Prop) :
  hmac_at key msg c -> (forall c', hmac_keyed key c' -> Q (rfc_hmac hash B key msg) c') -> (no_memory -> forall c', E c') ->
  wp (HMAC_Final malloc_ok) c Q E.
Proof using HL.
  intros [(Hmd & Hi & Ho & Hl & Hb & Hs) Hat] HQ HE. unfold HMAC_Final. apply wp_bind, wp_gets. cbn [id]. rewrite Hmd.
  apply wp_bind, wp_check; [intros _|done]. apply wp_bind, wp_on_part. eapply (wp_DigestFinal md hash); [exact Hat|]. intros x1 Hx1.
  apply wp_bind, wp_gets. cbn [id]. apply wp_bind, wp_on_part.
  eapply (wp_copy_ex malloc_ok md hash); [exact Ho| |intros Hm x; by apply HE]. intros x2 Hx2.
  apply wp_bind, wp_on_part. eapply (wp_DigestUpdate md hash); [exact Hx2|apply digest_bytes|]. intros x3 Hx3.
  apply wp_on_part. eapply (wp_DigestFinal md hash); [exact Hx3|]. intros x4 Hx4. apply HQ.
  split; [done|]. split; [done|]. split; [done|]. split; [done|]. by split.
Qed.
End hmac_ok.

(** ** Whole computations *)

Section hmac_runs.
Context {D : Type} (malloc_ok : Z -> bool) (md : EVP_MD D) (hash : list Z -> list Z) `{HL : !DigestLaws md hash}.

Fixpoint HMAC_Updates (ms : list (list Z)) : M (HMAC_CTX D) unit :=
  match ms with
  | [] => mret tt
  | m :: ms => HMAC_Update m;; HMAC_Updates ms
  end.

Lemma wp_HMAC_Updates key ms E : Forall (Forall is_byte) ms -> forall (Q : unit -> HMAC_CTX D -> Prop) msg c,
  hmac_at md hash key msg c -> (forall c', hmac_at md hash key (msg ++ concat ms) c' -> Q tt c') -> wp (HMAC_Updates ms) c Q E.
Proof using HL.
  induction 1 as [|m ms Hm Hms IH]; intros Q msg c Hat HQ; cbn [HMAC_Updates concat] in *.
  - apply wp_ret, HQ. by rewrite app_nil_r.
  - apply wp_bind. eapply (wp_HMAC_Update md hash); [exact Hat|done|]. intros c1 Hc1. apply (IH Q (msg ++ m)); [done|].
    intros c2 Hc2. apply HQ. by rewrite app_assoc.
Qed.

(** [HMAC_CTX_init] on a context of any content. *)
Lemma wp_HMAC_CTX_init c (Q : unit -> HMAC_CTX D -> Prop) E :
  zlen (hm_key c) = HMAC_MAX_MD_CBLOCK -> Forall is_byte (hm_key c) -> (forall c', hmac_sane md c' -> Q tt c') -> wp HMAC_CTX_init c Q E.
Proof using.
  intros Hl Hb HQ. unfold HMAC_CTX_init, EVP_MD_CTX_legacy_clear.
  apply wp_bind, wp_on_part, wp_modify, wp_bind, wp_on_part, wp_modify, wp_bind, wp_on_part, wp_modify, wp_modify, HQ.
  split; [apply zero_sane|]. split; [apply zero_sane|]. split; [apply zero_sane|]. by split.
Qed.

Lemma wp_EVP_cleanup c (Q : unit -> EVP_MD_CTX D -> Prop) E : Q tt (mkMdCtx None 0 None None) -> wp EVP_MD_CTX_cleanup c Q E.
Proof using.
  intros HQ. unfold EVP_MD_CTX_cleanup. apply wp_bind, wp_gets. cbn [id]. apply wp_bind.
  destruct (mc_digest c), (mc_md_data c); try by apply wp_ret, wp_modify. destruct (_ && _); [by apply wp_modify, wp_modify|by apply wp_ret, wp_modify].
Qed.

Lemma wp_HMAC_CTX_cleanup c (Q : unit -> HMAC_CTX D -> Prop) E : Q tt zero_HMAC_CTX -> wp HMAC_CTX_cleanup c Q E.
Proof using.
  intros HQ. unfold HMAC_CTX_cleanup. apply wp_bind, wp_on_part, wp_EVP_cleanup, wp_bind, wp_on_part, wp_EVP_cleanup, wp_bind, wp_on_part, wp_EVP_cleanup.
  by apply wp_modify.
Qed.

(** The one-shot function; NULL is the empty key. *)
Definition key_octets (key : option (list Z)) : list Z := default [] key.

Lemma wp_HMAC key d c (Q : list Z -> HMAC_CTX D -> Prop) (E : HMAC_CTX D -> Prop) :
  zlen (hm_key c) = HMAC_MAX_MD_CBLOCK -> Forall is_byte (hm_key c) -> Forall is_byte (key_octets key) -> zlen (key_octets key) < 2 ^ 31 ->
  Forall is_byte d -> (forall c', Q (rfc_hmac hash (dg_block_size md) (key_octets key) d) c') -> (no_memory malloc_ok md -> forall c', E c') ->
  wp (HMAC malloc_ok (Some md) key (zlen (key_octets key)) d) c Q E.
Proof using HL.
  intros Hl Hb Hk Hkl Hd HQ HE. unfold HMAC.
  assert (Hinit : forall k len c1, (forall (Q : unit -> HMAC_CTX D -> Prop) E, (forall c', hmac_at md hash (key_octets key) [] c' -> Q tt c') ->
      (no_memory malloc_ok md -> forall c', E c') -> wp (HMAC_Init_ex malloc_ok (Some k) len (Some md)) c1 Q E) ->
    wp (r ← try (HMAC_Init_ex malloc_ok (Some k) len (Some md);; HMAC_Update d;; HMAC_Final malloc_ok);
        HMAC_CTX_cleanup;; match r with Some md => mret md | None => fail end) c1 Q E).
  { intros k len c1 Hi. apply wp_bind, wp_try, wp_bind, Hi; [|intros Hm x; by apply wp_bind, wp_HMAC_CTX_cleanup, wp_fail, HE]. intros c2 Hc2.
    apply wp_bind. eapply (wp_HMAC_Update md hash); [exact Hc2|done|]. intros c3 Hc3.
    eapply (wp_HMAC_Final malloc_ok md hash); [exact Hc3| |intros Hm x; by apply wp_bind, wp_HMAC_CTX_cleanup, wp_fail, HE].
    intros c4 _. apply wp_bind, wp_HMAC_CTX_cleanup, wp_ret, HQ. }
  destruct key as [k|]; cbn [key_octets default] in *; apply wp_bind, wp_HMAC_CTX_init; try done; intros c1 Hc1; apply Hinit; intros Q' E' HQ' HE'.
  - by apply (wp_HMAC_Init malloc_ok md hash).
  - by apply (wp_HMAC_Init_null malloc_ok md hash).
Qed.

(** A text under a new key, and another under the same key. *)
Definition two_macs (key : list Z) (ms ms' : list (list Z)) : M (HMAC_CTX D) (list Z * list Z) :=
  HMAC_Init_ex malloc_ok (Some key) (zlen key) (Some md);;
  HMAC_Updates ms;;
  out ← HMAC_Final malloc_ok;
  HMAC_Init_ex malloc_ok None 0 None;;
  HMAC_Updates ms';;
  out' ← HMAC_Final malloc_ok;
  mret (out, out').

(** C9. HMAC is the function of RFC 2104, for every hash function that keeps the promise
    of its method table and however the text is cut into updates; a context gives the
    same function of later texts when it is initialised again without a key; nothing
    but the lack of memory makes a call fail. *)
Theorem HMAC_rfc2104 key ms ms' c :
  hmac_sane md c -> Forall is_byte key -> zlen key < 2 ^ 31 -> Forall (Forall is_byte) ms -> Forall (Forall is_byte) ms' ->
  match two_macs key ms ms' c with
  | Ret (out, out') _ =>
      out = rfc_hmac hash (dg_block_size md) key (concat ms) /\ out' = rfc_hmac hash (dg_block_size md) key (concat ms')
  | Fail _ => malloc_ok (dg_ctx_size md) = false
  | UB => False
  end.
Proof using HL.
  intros Hs Hk Hkl Hms Hms'.
  enough (H : wp (two_macs key ms ms') c
    (fun r _ => r = (rfc_hmac hash (dg_block_size md) key (concat ms), rfc_hmac hash (dg_block_size md) key (concat ms')))
    (fun _ => no_memory malloc_ok md)).
  { unfold wp in H. destruct (two_macs key ms ms' c) as [[out out'] ?|?|]; [|done|done]. by injection H as -> ->. }
  unfold two_macs. apply wp_bind. apply (wp_HMAC_Init malloc_ok md hash); [done|done|done| |done]. intros c1 Hc1.
  apply wp_bind. eapply wp_HMAC_Updates; [done|exact Hc1|]. intros c2 Hc2.
  apply wp_bind. eapply (wp_HMAC_Final malloc_ok md hash); [exact Hc2| |done]. intros c3 Hc3.
  apply wp_bind. eapply (wp_HMAC_Init_again malloc_ok md hash); [exact Hc3| |done]. intros c4 Hc4.
  apply wp_bind. eapply wp_HMAC_Updates; [done|exact Hc4|]. intros c5 Hc5.
  apply wp_bind. eapply (wp_HMAC_Final malloc_ok md hash); [exact Hc5| |done]. intros c6 _. by apply wp_ret.
Qed.
End hmac_runs.

(** HMAC-SHA-256 with the key "Jefe" (RFC 4231, test case 2). *)
Definition jefe : list Z := [74; 101; 102; 101].
Definition jefe_text : list Z := [119; 104; 97; 116; 32; 100; 111; 32; 121; 97; 32; 119; 97; 110; 116; 32; 102; 111; 114; 32; 110; 111; 116; 104; 105; 110; 103; 63].
Lemma HMAC_rfc2104_witness :
  rfc_hmac (sha2_32 SHA256_Init) 64 jefe jefe_text = [91; 220; 193; 70; 191; 96; 117; 78; 106; 4; 36; 38; 8; 149; 117; 199;
    90; 0; 63; 8; 157; 39; 57; 131; 157; 236; 88; 185; 100; 236; 56; 67] /\
  match two_macs (fun _ => true) sha256_md jefe [ztake 5 jefe_text; zdrop 5 jefe_text] [[]] zero_HMAC_CTX with
  | Ret (out, out') _ => out = rfc_hmac (sha2_32 SHA256_Init) 64 jefe jefe_text /\ out' = rfc_hmac (sha2_32 SHA256_Init) 64 jefe []
  | Fail _ => true = false
  | UB => False
  end.
Proof.
  split; [vm_compute; reflexivity|].
  apply (HMAC_rfc2104 (fun _ => true) sha256_md (sha2_32 SHA256_Init) jefe [ztake 5 jefe_text; zdrop 5 jefe_text] [[]] zero_HMAC_CTX);
    [|by apply (bool_decide_unpack _)|by vm_compute|by apply (bool_decide_unpack _)|by apply (bool_decide_unpack _)].
  split; [apply zero_sane|]. split; [apply zero_sane|]. split; [apply zero_sane|]. split; [done|by apply is_byte_zrep].
Defined.
