(* ===== verification/Hkdf.v ===== *)
(** * HKDF

    lib/libcrypto/hkdf/hkdf.c: extraction and expansion over HMAC and a CBB on the
    buffer of the caller, against RFC 5869.  The state of [HKDF_expand] is that
    buffer; the builder and the HMAC context are local. *)

From S2P Require Import Prelude Cbb Sha256 EvpDigest Hmac.
Open Scope Z_scope.

(** Conversion of [size_t] to [int]. *)
Definition int_of_size (n : Z) : Z := (n + 2 ^ 31) mod 2 ^ 32 - 2 ^ 31.

Record hkdf_locals {D : Type} : Type := mkHkdf { hk_cbb : heap; hk_hmac : HMAC_CTX D }.
Arguments hkdf_locals D : clear implicits.
Arguments mkHkdf {D}.

Section hkdf.
Context {D : Type} (malloc_ok : Z -> bool).

Definition sizeof_HMAC_CTX : Z := 288.
(** [calloc] *)
Definition HMAC_CTX_new : option (HMAC_CTX D) := if malloc_ok sizeof_HMAC_CTX then Some zero_HMAC_CTX else None.

Definition on_cbb {A} (m : M heap A) : M (hkdf_locals D) A := fun st =>
  match m (hk_cbb st) with
  | Ret a h => Ret a (mkHkdf h (hk_hmac st))
  | Fail h => Fail (mkHkdf h (hk_hmac st))
  | UB => UB
  end.
Definition on_hmac {A} (m : M (HMAC_CTX D) A) : M (hkdf_locals D) A := fun st =>
  match m (hk_hmac st) with
  | Ret a c => Ret a (mkHkdf (hk_cbb st) c)
  | Fail c => Fail (mkHkdf (hk_cbb st) c)
  | UB => UB
  end.

(** [salt]: [None] is NULL. The local context [c] has no initial value. *)
Definition HKDF_extract (c : HMAC_CTX D) (digest : EVP_MD D) (secret : list Z) (salt : option (list Z)) (salt_len : Z) : outcome unit (list Z) :=
  match HMAC malloc_ok (Some digest) salt (int_of_size salt_len) secret c with
  | Ret md _ => Ret md tt
  | Fail _ => Fail tt
  | UB => UB
  end.

(** The loop; [ctr] ends it after at most 255 rounds. *)
Fixpoint expand_loop (fuel : nat) (digest_len : Z) (info : list Z) (ctr remaining : Z) : M (hkdf_locals D) unit :=
  match fuel with
  | O => ub
  | S fuel =>
      if negb (0 <? remaining) then mret tt else
      let ctr := u8 (ctr + 1) in
      check (negb (ctr =? 0));;
      on_hmac (HMAC_Update info);;
      on_hmac (HMAC_Update [ctr]);;
      out_hmac ← on_hmac (HMAC_Final malloc_ok);
      let n := if digest_len <? remaining then digest_len else remaining in
      data ← valid (octets_at out_hmac n);
      on_cbb (CBB_add_bytes malloc_ok 0 data);;
      let remaining := remaining - n in
      (if 0 <? remaining then
         on_hmac (HMAC_Init_ex malloc_ok None 0 None);;
         data ← valid (octets_at out_hmac digest_len);
         on_hmac (HMAC_Update data)
       else mret tt);;
      expand_loop fuel digest_len info ctr remaining
  end.

Definition expand_body (out_key : list Z) (out_len : Z) (digest : EVP_MD D) (prk info : list Z) : M (hkdf_locals D) unit :=
  on_cbb (CBB_init_fixed malloc_ok 0 out_key out_len);;
  hmac ← (fun st => match HMAC_CTX_new with Some c => Ret c st | None => Fail st end);
  modify (fun st => mkHkdf (hk_cbb st) hmac);;
  on_hmac (HMAC_Init_ex malloc_ok (Some prk) (int_of_size (zlen prk)) (Some digest));;
  expand_loop 256 (EVP_MD_size (Some digest)) info 0 out_len.

(** What the builder has stored in the buffer. *)
Definition stored (h : heap) (out_key : list Z) : list Z :=
  match cbbs h !! 0%nat with
  | Some c => match cbb_base c with
              | Some b => match bases h !! b with Some st => base_buf st | None => out_key end
              | None => out_key
              end
  | None => out_key
  end.

(** The buffer has [out_len] octets. *)
Definition HKDF_expand (digest : EVP_MD D) (prk info : list Z) : M (list Z) unit := fun out_key =>
  match expand_body out_key (zlen out_key) digest prk info (mkHkdf (mkHeap ∅ ∅) zero_HMAC_CTX) with
  | Ret _ st => Ret tt (stored (hk_cbb st) out_key)
  | Fail st => Fail (stored (hk_cbb st) out_key)
  | UB => UB
  end.

Definition HKDF (c : HMAC_CTX D) (digest : EVP_MD D) (secret : list Z) (salt : option (list Z)) (salt_len : Z) (info : list Z) : M (list Z) unit :=
  fun out_key =>
  match HKDF_extract c digest secret salt salt_len with
  | Ret prk _ => HKDF_expand digest prk info out_key
  | Fail _ => Fail out_key
  | UB => UB
  end.
End hkdf.

(** ** RFC 5869 *)

Section rfc.
Context (hmac : list Z -> list Z -> list Z) (hash_len : Z).

(** T(i) | T(i+1) | ..., [n] of them, from the one before. *)
Fixpoint rfc_blocks (prk info : list Z) (n : nat) (i : Z) (prev : list Z) : list Z :=
  match n with
  | O => []
  | S n => let t := hmac prk (prev ++ info ++ [i]) in t ++ rfc_blocks prk info n (i + 1) t
  end.

(** [ceil (L / hash_len)] blocks, the first [L] octets. *)
Definition rfc_expand (prk info : list Z) (L : Z) : list Z :=
  ztake L (rfc_blocks prk info (Z.to_nat ((L + hash_len - 1) / hash_len)) 1 []).
End rfc.
(** Without a salt, [hash_len] zeros. *)
Definition rfc_extract (hmac : list Z -> list Z -> list Z) (hash_len : Z) (salt : option (list Z)) (ikm : list Z) : list Z :=
  hmac (default (zrep hash_len 0) salt) ikm.

(** ** A builder on a fixed buffer *)

Definition fixed_at (h : heap) (b : ptr) (buf : list Z) (len : Z) : Prop :=
  cbbs h !! 0%nat = Some (mkCBB (Some b) 0 None 0 false true) /\ bases h !! b = Some (mkBuffer buf len (zlen buf) false) /\
  0 <= len <= zlen buf /\ zlen buf < 2 ^ 64.

Lemma fixed_stored h b buf len out_key : fixed_at h b buf len -> stored h out_key = buf.
Proof. intros (E1 & E2 & _). unfold stored. by rewrite E1; cbn; rewrite E2. Qed.

Lemma wp_init_fixed malloc_ok buf (Q : unit -> heap -> Prop) (E : heap -> Prop) :
  zlen buf < 2 ^ 64 -> (forall h b, fixed_at h b buf 0 -> Q tt h) ->
  (malloc_ok sizeof_cbb_buffer_st = false -> forall h, stored h buf = buf -> E h) ->
  wp (CBB_init_fixed malloc_ok 0 buf (zlen buf)) (mkHeap ∅ ∅) Q E.
Proof.
  intros Hl HQ HE. unfold CBB_init_fixed, cbb_init. apply wp_bind, wp_store_cbb. apply wp_bind, wp_bind, wp_check; [intros _|intros Hm; by apply HE].
  apply wp_bind, wp_gets, wp_bind, wp_store_base. apply wp_bind. eapply wp_load_cbb; [apply lookup_insert_eq|]. apply wp_store_cbb.
  apply wp_bind. eapply wp_load_cbb; [apply lookup_insert_eq|]. apply wp_bind. eapply wp_valid; [reflexivity|].
  apply wp_bind. eapply wp_load_base; [apply lookup_insert_eq|]. apply wp_store_base. eapply HQ.
  split; [apply lookup_insert_eq|]. split; [apply lookup_insert_eq|]. pose proof (zlen_nonneg buf). lia.
Qed.

Lemma wp_add_bytes_fixed malloc_ok h b buf len data (Q : unit -> heap -> Prop) E :
  fixed_at h b buf len -> len + zlen data <= zlen buf ->
  (forall h', fixed_at h' b (ztake len buf ++ data ++ zdrop (len + zlen data) buf) (len + zlen data) -> Q tt h') ->
  wp (CBB_add_bytes malloc_ok 0 data) h Q E.
Proof.
  intros (E1 & E2 & Hl & Hmax) Hfit HQ. pose proof (zlen_nonneg data). unfold CBB_add_bytes. apply wp_bind.
  apply wp_conseq with (Q' := fun _ h' => h' = h) (E' := fun _ => False); [|intros _ ? ->|done].
  { unfold CBB_flush, wp. cbn [cbb_flush_rec]. mstep. unfold load_cbb, valid. rewrite E1. by cbn. }
  apply wp_bind. eapply wp_load_cbb; [exact E1|]. apply wp_bind. cbn [cbb_base]. unfold cbb_buffer_add.
  apply wp_bind. eapply wp_load_base; [exact E2|]. cbn [base_len base_cap base_can_resize base_buf]. rewrite u64_small by lia.
  apply wp_bind, wp_check; [intros _|intros Hbad%negb_false_iff%Z.ltb_lt; lia]. rewrite (proj2 (Z.ltb_ge _ _)) by lia.
  apply wp_bind, wp_ret, wp_bind. eapply wp_load_base; [exact E2|]. cbn [base_len base_cap base_can_resize base_buf]. apply wp_bind, wp_store_base, wp_ret.
  apply wp_bind. eapply wp_valid; [reflexivity|]. unfold base_write. apply wp_bind. eapply wp_load_base; [apply lookup_insert_eq|].
  cbn [base_buf base_len base_cap base_can_resize]. apply wp_bind. eapply wp_valid; [apply zwrite_ok; lia|]. apply wp_store_base, HQ.
  assert (Hz : zlen (ztake len buf ++ data ++ zdrop (len + zlen data) buf) = zlen buf).
  { rewrite !zlen_app, zlen_ztake, zlen_zdrop by lia. lia. }
  split; [done|]. split; [cbn [bases]; rewrite insert_insert_eq, Hz; apply lookup_insert_eq|]. lia.
Qed.

(** ** HKDF over any hash *)

Section hkdf_ok.
Context {D : Type} (malloc_ok : Z -> bool) (md : EVP_MD D) (hash : list Z -> list Z) `{HL : !DigestLaws md hash}.
Abbreviation hl := (dg_md_size md).
Abbreviation hmac := (rfc_hmac hash (dg_block_size md)).

(** What is needed of memory. *)
Definition memory_lacks : Prop :=
  no_memory malloc_ok md \/ malloc_ok sizeof_HMAC_CTX = false \/ malloc_ok sizeof_cbb_buffer_st = false.

Lemma wp_on_cbb {A} (m : M heap A) (st : hkdf_locals D) (Q : A -> hkdf_locals D -> Prop) E :
  wp m (hk_cbb st) (fun a h => Q a (mkHkdf h (hk_hmac st))) (fun h => E (mkHkdf h (hk_hmac st))) -> wp (on_cbb m) st Q E.
Proof using. unfold wp, on_cbb. by destruct (m (hk_cbb st)). Qed.

Lemma wp_on_hmac {A} (m : M (HMAC_CTX D) A) (st : hkdf_locals D) (Q : A -> hkdf_locals D -> Prop) E :
  wp m (hk_hmac st) (fun a c => Q a (mkHkdf (hk_cbb st) c)) (fun c => E (mkHkdf (hk_cbb st) c)) -> wp (on_hmac m) st Q E.
Proof using. unfold wp, on_hmac. by destruct (m (hk_hmac st)). Qed.

Lemma hl_pos : 0 < hl.
Proof using HL. apply (digest_sizes (hash := hash)). Qed.

Lemma hmac_ok key text : zlen (hmac key text) = hl /\ Forall is_byte (hmac key text).
Proof using HL. unfold rfc_hmac. split; [apply digest_size|apply digest_bytes]. Qed.

(** The number of blocks. *)
Lemma blocks_needed r : 0 < r -> Z.to_nat ((r + hl - 1) / hl) = S (Z.to_nat ((Z.max 0 (r - hl) + hl - 1) / hl)).
Proof using HL.
  intros Hr. pose proof hl_pos. destruct (Z.le_gt_cases r hl).
  - rewrite Z.max_l by lia. rewrite (Z.div_small (0 + hl - 1)) by lia. change (Z.to_nat 0) with O.
    replace ((r + hl - 1) / hl) with 1; [done|]. apply Z.div_unique with (r - 1); lia.
  - rewrite Z.max_r by lia. replace (r + hl - 1) with ((r - hl + hl - 1) + 1 * hl) by lia. rewrite Z.div_add by lia.
    assert (0 <= (r - hl + hl - 1) / hl) by (apply Z.div_pos; lia). lia.
Qed.

Definition okm (prk info : list Z) (ctr : Z) (prev : list Z) (r : Z) : list Z :=
  ztake r (rfc_blocks hmac prk info (Z.to_nat ((r + hl - 1) / hl)) (ctr + 1) prev).

(** One more block. *)
Lemma okm_step prk info ctr prev r :
  0 < r -> let t := hmac prk (prev ++ info ++ [ctr + 1]) in
  okm prk info ctr prev r = ztake (Z.min hl r) t ++ okm prk info (ctr + 1) t (Z.max 0 (r - hl)).
Proof using HL.
  intros Hr t. unfold okm. rewrite blocks_needed by done. cbn [rfc_blocks]. fold t. destruct (hmac_ok prk (prev ++ info ++ [ctr + 1])) as [Ht _]. fold t in Ht.
  destruct (Z.le_gt_cases r hl).
  - rewrite Z.min_r, Z.max_l by lia. rewrite (ztake_0 (rfc_blocks _ _ _ _ _ _)), app_nil_r. apply ztake_app_le. lia.
  - rewrite Z.min_l, Z.max_r by lia. rewrite (ztake_all hl t) by lia. rewrite ztake_app_ge by lia. by rewrite Ht.
Qed.

Lemma rfc_blocks_ok prk info n : forall i prev,
  zlen (rfc_blocks hmac prk info n i prev) = Z.of_nat n * hl /\ Forall is_byte (rfc_blocks hmac prk info n i prev).
Proof using HL.
  induction n as [|n IH]; intros i prev; cbn [rfc_blocks]; [by split|]. destruct (hmac_ok prk (prev ++ info ++ [i])) as [Hl Hb].
  destruct (IH (i + 1) (hmac prk (prev ++ info ++ [i]))) as [Hl' Hb']. rewrite zlen_app, Hl, Hl'. split; [lia|by apply Forall_app].
Qed.

(** The octets asked for. *)
Lemma rfc_expand_ok prk info L : 0 <= L -> zlen (rfc_expand hmac hl prk info L) = L /\ Forall is_byte (rfc_expand hmac hl prk info L).
Proof using HL.
  intros HL0. unfold rfc_expand. destruct (rfc_blocks_ok prk info (Z.to_nat ((L + hl - 1) / hl)) 1 []) as [Hl Hb].
  pose proof hl_pos. split; [|by apply Forall_ztake]. apply zlen_ztake. rewrite Hl.
  assert (0 <= (L + hl - 1) / hl) by (apply Z.div_pos; lia). rewrite Z2Nat.id by done. split; [done|].
  pose proof (Z.mod_pos_bound (L + hl - 1) hl ltac:(lia)). pose proof (Z.div_mod (L + hl - 1) hl ltac:(lia)). nia.
Qed.

Lemma okm_0 prk info ctr prev : okm prk info ctr prev 0 = [].
Proof using. apply ztake_0. Qed.

Lemma wp_expand_loop prk info b : Forall is_byte info -> forall fuel ctr remaining prev buf w st
    (Q : unit -> hkdf_locals D -> Prop) (E : hkdf_locals D -> Prop),
  0 <= ctr <= 255 -> 256 - ctr <= Z.of_nat fuel -> 0 <= remaining -> (0 < remaining -> hmac_at md hash prk prev (hk_hmac st)) ->
  fixed_at (hk_cbb st) b buf w -> w + remaining = zlen buf ->
  (forall st', fixed_at (hk_cbb st') b (ztake w buf ++ okm prk info ctr prev remaining) (zlen buf) -> remaining <= (255 - ctr) * hl -> Q tt st') ->
  (forall st' buf' w', fixed_at (hk_cbb st') b buf' w' -> zlen buf' = zlen buf -> (255 - ctr) * hl < remaining \/ no_memory malloc_ok md -> E st') ->
  wp (expand_loop malloc_ok fuel hl info ctr remaining) st Q E.
Proof using HL.
  intros Hinfo. induction fuel as [|fuel IH]; intros ctr remaining prev buf w st Q E Hctr Hfuel Hrem Hat Hfix Hw HQ HE; [lia|].
  pose proof hl_pos as Hhl. pose proof Hfix as (_ & _ & Hw0 & _). cbn [expand_loop]. destruct (Z.ltb_spec 0 remaining) as [Hpos|Hzero]; cbn [negb].
  2: { assert (remaining = 0) as -> by lia. apply wp_ret, HQ; [|nia]. rewrite okm_0, app_nil_r, ztake_all by lia. by replace (zlen buf) with w by lia. }
  specialize (Hat Hpos). apply wp_bind, wp_check; [intros Hno|intros Hbad%negb_false_iff%Z.eqb_eq].
  2: { eapply HE; [exact Hfix|done|left]. unfold u8 in Hbad. assert (ctr = 255) as -> by (Z.to_euclidean_division_equations; lia). lia. }
  assert (Hctr1 : ctr < 255 /\ u8 (ctr + 1) = ctr + 1).
  { unfold u8 in *. apply negb_true_iff, Z.eqb_neq in Hno. split; [|apply Z.mod_small]; Z.to_euclidean_division_equations; lia. }
  destruct Hctr1 as [Hctr1 ->]. set (t := hmac prk (prev ++ info ++ [ctr + 1])) in *.
  destruct (hmac_ok prk (prev ++ info ++ [ctr + 1])) as [Ht Htb]. fold t in Ht, Htb. rewrite (okm_step prk info ctr prev remaining Hpos) in HQ. fold t in HQ.
  apply wp_bind, wp_on_hmac. eapply (wp_HMAC_Update md hash); [exact Hat|done|]. intros c1 Hc1.
  apply wp_bind, wp_on_hmac. eapply (wp_HMAC_Update md hash); [exact Hc1|apply Forall_singleton; unfold is_byte; lia|]. intros c2 Hc2. rewrite <- app_assoc in Hc2.
  apply wp_bind, wp_on_hmac. eapply (wp_HMAC_Final malloc_ok md hash); [exact Hc2| |intros Hm c; eapply HE; [exact Hfix|done|by right]]. intros c3 Hc3. fold t.
  replace (if hl <? remaining then hl else remaining) with (Z.min hl remaining) by (destruct (Z.ltb_spec hl remaining); lia).
  set (n := Z.min hl remaining) in *. apply wp_bind. eapply wp_valid; [apply octets_at_le; lia|].
  assert (Hn : zlen (ztake n t) = n) by (apply zlen_ztake; lia).
  apply wp_bind, wp_on_cbb. eapply wp_add_bytes_fixed; [exact Hfix|lia|]. intros h Hh. rewrite Hn in Hh.
  set (buf1 := ztake w buf ++ ztake n t ++ zdrop (w + n) buf) in *.
  assert (Hb1 : zlen buf1 = zlen buf) by (unfold buf1; rewrite !zlen_app, Hn, zlen_ztake, zlen_zdrop by lia; lia).
  assert (Ht1 : ztake (w + n) buf1 = ztake w buf ++ ztake n t).
  { unfold buf1. rewrite app_assoc. apply ztake_app_exact. rewrite zlen_app, Hn, zlen_ztake by lia. lia. }
  replace (Z.max 0 (remaining - hl)) with (remaining - n) in HQ by lia.
  assert (Hrec : forall c, (0 < remaining - n -> hmac_at md hash prk t c) ->
    wp (expand_loop malloc_ok fuel hl info (ctr + 1) (remaining - n)) (mkHkdf h c) Q E).
  { intros c Hc. apply (IH (ctr + 1) (remaining - n) t buf1 (w + n) (mkHkdf h c)); [lia|lia|lia|exact Hc|exact Hh|lia| |].
    - intros st' Hst' Hle. rewrite Ht1, <- app_assoc, Hb1 in Hst'. apply HQ; [done|nia].
    - intros st' buf' w' Hst' Hl' Hor. eapply HE; [exact Hst'|lia|]. destruct Hor; [left; nia|by right]. }
  apply wp_bind. destruct (Z.ltb_spec 0 (remaining - n)).
  - apply wp_bind, wp_on_hmac. eapply (wp_HMAC_Init_again malloc_ok md hash); [exact Hc3| |intros Hm c; eapply HE; [exact Hh|done|by right]]. intros c4 Hc4.
    apply wp_bind. eapply wp_valid; [apply octets_at_all; lia|]. apply wp_on_hmac. eapply (wp_HMAC_Update md hash); [exact Hc4|done|]. intros c5 Hc5.
    by apply Hrec.
  - apply wp_ret, Hrec. lia.
Qed.

Lemma zero_hmac_sane : hmac_sane md (zero_HMAC_CTX (D := D)).
Proof using. split; [apply zero_sane|]. split; [apply zero_sane|]. split; [apply zero_sane|]. split; [done|by apply is_byte_zrep]. Qed.

Lemma int_of_size_small n : 0 <= n < 2 ^ 31 -> int_of_size n = n.
Proof using. intros. unfold int_of_size. rewrite Z.mod_small; lia. Qed.

(** The octets of the output, or why there are none. *)
Lemma HKDF_expand_ok prk info out_key :
  Forall is_byte prk -> zlen prk < 2 ^ 31 -> Forall is_byte info -> zlen out_key < 2 ^ 64 ->
  match HKDF_expand malloc_ok md prk info out_key with
  | Ret _ out => out = rfc_expand hmac hl prk info (zlen out_key) /\ zlen out_key <= 255 * hl
  | Fail out => zlen out = zlen out_key /\ (255 * hl < zlen out_key \/ memory_lacks)
  | UB => False
  end.
Proof using HL.
  intros Hp Hpl Hi Ho. unfold HKDF_expand. pose proof (zlen_nonneg prk) as Hp0. pose proof (zlen_nonneg out_key) as Ho0.
  enough (H : wp (expand_body malloc_ok out_key (zlen out_key) md prk info) (mkHkdf (mkHeap ∅ ∅) zero_HMAC_CTX)
    (fun _ st => stored (hk_cbb st) out_key = rfc_expand hmac hl prk info (zlen out_key) /\ zlen out_key <= 255 * hl)
    (fun st => zlen (stored (hk_cbb st) out_key) = zlen out_key /\ (255 * hl < zlen out_key \/ memory_lacks))).
  { unfold wp in H. by destruct (expand_body _ _ _ _ _ _ _). }
  unfold expand_body. apply wp_bind, wp_on_cbb, wp_init_fixed; [done| |intros Hm h Hst; cbn [hk_cbb]; rewrite Hst; split; [done|by right; right; right]]. intros h b Hh. cbn [hk_cbb hk_hmac].
  assert (HE : memory_lacks -> zlen (stored h out_key) = zlen out_key /\ (255 * hl < zlen out_key \/ memory_lacks)).
  { intros Hm. split; [by rewrite (fixed_stored _ _ _ _ _ Hh)|by right]. }
  apply wp_bind. unfold wp at 1, HMAC_CTX_new. destruct (malloc_ok sizeof_HMAC_CTX) eqn:Em; [|by apply HE; right; left].
  apply wp_bind, wp_modify. rewrite int_of_size_small by lia. apply wp_bind, wp_on_hmac. cbn [hk_cbb hk_hmac].
  apply (wp_HMAC_Init malloc_ok md hash); [apply zero_hmac_sane|done|done| |intros Hm c; by apply HE; left]. intros c Hc.
  change (EVP_MD_size (Some md)) with hl. eapply (wp_expand_loop prk info b Hi 256 0 (zlen out_key) [] out_key 0); [lia|lia|lia|intros _; exact Hc|exact Hh|lia| |].
  - intros st' Hst' Hle. split; [|done]. rewrite (fixed_stored _ _ _ _ _ Hst'), ztake_0. done.
  - intros st' buf' w' Hst' Hl' Hor. split; [by rewrite (fixed_stored _ _ _ _ _ Hst')|]. destruct Hor; [by left|by right; left].
Qed.

Lemma rfc_key_zeros : rfc_key hash (dg_block_size md) [] = rfc_key hash (dg_block_size md) (zrep hl 0).
Proof using HL.
  pose proof hl_pos. destruct (digest_sizes (hash := hash)) as (_ & Hb & _). unfold rfc_key; cbn zeta. rewrite !(zlen_rep hl) by lia. change (zlen (@nil Z)) with 0.
  rewrite (proj2 (Z.ltb_ge (dg_block_size md) 0)), (proj2 (Z.ltb_ge (dg_block_size md) hl)) by lia. rewrite !(zlen_rep hl) by lia. cbn [app]. change (zlen (@nil Z)) with 0.
  rewrite <- (zrep_add hl (dg_block_size md - hl) 0) by lia. by replace (dg_block_size md - 0) with (hl + (dg_block_size md - hl)) by lia.
Qed.

Lemma HKDF_extract_ok secret salt c :
  zlen (hm_key c) = HMAC_MAX_MD_CBLOCK -> Forall is_byte (hm_key c) -> Forall is_byte secret -> Forall is_byte (key_octets salt) ->
  zlen (key_octets salt) < 2 ^ 31 ->
  match HKDF_extract malloc_ok c md secret salt (zlen (key_octets salt)) with
  | Ret prk _ => prk = rfc_extract hmac hl salt secret
  | Fail _ => memory_lacks
  | UB => False
  end.
Proof using HL.
  intros Hc Hcb Hs Hk Hkl. pose proof (zlen_nonneg (key_octets salt)) as Hk0. unfold HKDF_extract. rewrite int_of_size_small by lia.
  enough (H : wp (HMAC malloc_ok (Some md) salt (zlen (key_octets salt)) secret) c
    (fun prk _ => prk = rfc_extract hmac hl salt secret) (fun _ => memory_lacks)).
  { unfold wp in H. by destruct (HMAC _ _ _ _ _ _). }
  apply (wp_HMAC malloc_ok md hash); [done..| |by left]. intros _. unfold rfc_extract. destruct salt as [salt|]; [done|].
  cbn [key_octets default]. unfold rfc_hmac. by rewrite rfc_key_zeros.
Qed.

(** C8. HKDF is the function of RFC 5869 over any hash that keeps the promise of its
    method table: the output buffer, whatever its content, gets the octets of the
    standard when it asks for at most 255 digests; a longer output fails (the counter
    wraps), and so does the lack of memory, without an access outside the buffer. *)
Theorem HKDF_rfc5869 secret salt info c out_key :
  zlen (hm_key c) = HMAC_MAX_MD_CBLOCK -> Forall is_byte (hm_key c) -> Forall is_byte secret -> Forall is_byte (key_octets salt) ->
  zlen (key_octets salt) < 2 ^ 31 -> Forall is_byte info -> zlen out_key < 2 ^ 64 ->
  match HKDF malloc_ok c md secret salt (zlen (key_octets salt)) info out_key with
  | Ret _ out => out = rfc_expand hmac hl (rfc_extract hmac hl salt secret) info (zlen out_key) /\ zlen out_key <= 255 * hl
  | Fail out => zlen out = zlen out_key /\ (255 * hl < zlen out_key \/ memory_lacks)
  | UB => False
  end.
Proof using HL.
  intros Hc Hcb Hs Hk Hkl Hi Ho. unfold HKDF. pose proof (HKDF_extract_ok secret salt c Hc Hcb Hs Hk Hkl) as H.
  destruct (HKDF_extract _ _ _ _ _ _) as [prk ?|?|]; [subst prk|split; [done|by right]|done].
  assert (Hprk : zlen (rfc_extract hmac hl salt secret) = hl /\ Forall is_byte (rfc_extract hmac hl salt secret)) by apply hmac_ok.
  destruct Hprk as [Hpl Hpb]. apply HKDF_expand_ok; [done| |done|done]. rewrite Hpl.
  destruct (digest_sizes (hash := hash)) as ([_ Hm] & _). unfold EVP_MAX_MD_SIZE in Hm. lia.
Qed.
End hkdf_ok.

(** RFC 5869, test case 3: no salt and no info. *)
Lemma HKDF_rfc5869_witness :
  let ikm := zrep 22 11 in
  HKDF (fun _ => true) zero_HMAC_CTX sha256_md ikm (Some []) 0 [] (zrep 42 7) = Ret tt [141; 164; 231; 117; 165; 99; 193; 143; 113; 95; 128; 42; 6;
    60; 90; 49; 184; 161; 31; 92; 94; 225; 135; 158; 195; 69; 78; 95; 60; 115; 141; 45; 157; 32; 19; 149; 250; 164; 182; 26; 150; 200] /\
  match HKDF (fun _ => true) zero_HMAC_CTX sha256_md ikm (Some []) (zlen (key_octets (Some []))) [] (zrep 42 7) with
  | Ret _ out => out = rfc_expand (rfc_hmac (sha2_32 SHA256_Init) 64) 32 (rfc_extract (rfc_hmac (sha2_32 SHA256_Init) 64) 32 (Some []) ikm) []
                   (zlen (zrep 42 7)) /\ zlen (zrep 42 7) <= 255 * 32
  | Fail out => zlen out = zlen (zrep 42 7) /\ (255 * 32 < zlen (zrep 42 7) \/ memory_lacks (fun _ => true) sha256_md)
  | UB => False
  end.
Proof.
  intros ikm. split; [vm_compute; reflexivity|].
  apply (HKDF_rfc5869 (fun _ => true) sha256_md (sha2_32 SHA256_Init) ikm (Some []) [] zero_HMAC_CTX (zrep 42 7));
    [by vm_compute|by apply is_byte_zrep|by apply is_byte_zrep|constructor|by vm_compute|constructor|by vm_compute].
Defined.
