(* ===== verification/Tls13KeySchedule.v ===== *)
(** * The TLS 1.3 key schedule

    lib/libssl/tls13_key_schedule.c: secrets, HKDF-Expand-Label over the builder of
    bs_cbb.c and HKDF, the derivations of RFC 8446, section 7.1, with the flags that
    order them, the traffic key update and the exporter.  The state of a derivation
    is the [struct tls13_secrets], in the code's own layout. *)

From Stdlib Require Import (notations) Ascii String.
From S2P Require Import Prelude Cbs Cbb Builder Sha256 EvpDigest Hmac Hkdf.
Open Scope Z_scope.

(** ** Secrets *)

Record tls13_secret : Type := mkSecret { ts_data : option (list Z); ts_len : Z }.

(** Octets of string literals. *)
Definition str (s : String.string) : list Z := map (fun c => Z.of_N (Ascii.N_of_ascii c)) (String.list_ascii_of_string s).
Arguments str s%_string.

Section secrets.
Context (malloc_ok : Z -> bool).

Definition tls13_secret_init (len : Z) : M tls13_secret unit :=
  secret ← gets id;
  check (bool_decide (ts_data secret = None));;
  check (malloc_ok len);;
  modify (fun _ => mkSecret (Some (zrep len 0)) len).

Definition tls13_secret_cleanup : M tls13_secret unit := modify (fun _ => mkSecret None 0).
End secrets.

(** What a secret holds. *)
Definition octets_of (s : tls13_secret) : option (list Z) := octets_at (default [] (ts_data s)) (ts_len s).

Record tls13_secrets {D : Type} : Type := mkSecrets {
  ks_digest : option (EVP_MD D);
  ks_resumption : bool;
  ks_init_done : bool;
  ks_early_done : bool;
  ks_handshake_done : bool;
  ks_schedule_done : bool;
  ks_insecure : bool;
  zeros : tls13_secret;
  empty_hash : tls13_secret;
  extracted_early : tls13_secret;
  binder_key : tls13_secret;
  client_early_traffic : tls13_secret;
  early_exporter_master : tls13_secret;
  derived_early : tls13_secret;
  extracted_handshake : tls13_secret;
  client_handshake_traffic : tls13_secret;
  server_handshake_traffic : tls13_secret;
  derived_handshake : tls13_secret;
  extracted_master : tls13_secret;
  client_application_traffic : tls13_secret;
  server_application_traffic : tls13_secret;
  exporter_master : tls13_secret;
  resumption_master : tls13_secret;
}.
Arguments tls13_secrets D : clear implicits.
Arguments mkSecrets {D}.
#[global] Instance secrets_eta {D} : Eta (tls13_secrets D) := fun s =>
  mkSecrets (ks_digest s) (ks_resumption s) (ks_init_done s) (ks_early_done s) (ks_handshake_done s) (ks_schedule_done s) (ks_insecure s)
    (zeros s) (empty_hash s) (extracted_early s) (binder_key s) (client_early_traffic s) (early_exporter_master s) (derived_early s)
    (extracted_handshake s) (client_handshake_traffic s) (server_handshake_traffic s) (derived_handshake s) (extracted_master s)
    (client_application_traffic s) (server_application_traffic s) (exporter_master s) (resumption_master s).

(** Run [m] on a field. *)
Definition at_field {D A} (field : tls13_secrets D -> tls13_secret) `{!Setter field} (m : M tls13_secret A) : M (tls13_secrets D) A := fun st =>
  match m (field st) with
  | Ret a s => Ret a (st <| field := s |>)
  | Fail s => Fail (st <| field := s |>)
  | UB => UB
  end.

Section key_schedule.
Context {D : Type} (malloc_ok : Z -> bool).
(** What the stack holds where [HMAC] puts its context. *)
Context (stack : HMAC_CTX D).
Abbreviation secrets := (tls13_secrets D).

Definition tls13_plabel : list Z := str "tls13 ".

(** The [HkdfLabel] of [tls13_hkdf_expand_label_with_length]; the builder is object
    0, the child object 1. *)
Definition hkdf_label_body (out : tls13_secret) (label : list Z) (context : tls13_secret) : M heap (list Z * Z) :=
  CBB_init malloc_ok 0 256;;
  check (negb (bool_decide (ts_data out = None) || (ts_len out =? 0)));;
  CBB_add_u16 malloc_ok 0 (ts_len out);;
  CBB_add_u8_length_prefixed malloc_ok 0 1;;
  CBB_add_bytes malloc_ok 1 tls13_plabel;;
  CBB_add_bytes malloc_ok 1 label;;
  CBB_add_u8_length_prefixed malloc_ok 0 1;;
  data ← valid (octets_of context);
  CBB_add_bytes malloc_ok 1 data;;
  CBB_finish malloc_ok 0 (Some false) true.

(** [goto err], where the builder is cleaned up. *)
Definition hkdf_label (out : tls13_secret) (label : list Z) (context : tls13_secret) : outcome unit (list Z) :=
  match hkdf_label_body out label context (mkHeap ∅ ∅) with
  | Ret (buf, len) _ => match octets_at buf len with Some l => Ret l tt | None => UB end
  | Fail h => match CBB_cleanup 0 h with Ret _ _ => Fail tt | _ => UB end
  | UB => UB
  end.

(** [HKDF_expand] on the [len] octets at [data]. *)
Definition expand_into (digest : EVP_MD D) (prk info : list Z) : M tls13_secret unit := fun out =>
  match octets_at (default [] (ts_data out)) (ts_len out) with
  | None => UB
  | Some key =>
      let put k := mkSecret (Some (k ++ zdrop (ts_len out) (default [] (ts_data out)))) (ts_len out) in
      match HKDF_expand malloc_ok digest prk info key with
      | Ret _ k => Ret tt (put k)
      | Fail k => Fail (put k)
      | UB => UB
      end
  end.

(** A secret without data is the NULL key that [HMAC_Init_ex] refuses. *)
Definition tls13_hkdf_expand_label_with_length (digest : EVP_MD D) (secret : tls13_secret) (label : list Z) (context : tls13_secret) :
    M tls13_secret unit := fun out =>
  match hkdf_label out label context with
  | Ret l _ =>
      match ts_data secret with
      | None => Fail out
      | Some _ => (prk ← valid (octets_of secret); expand_into digest prk l) out
      end
  | Fail _ => Fail out
  | UB => UB
  end.

(** The label is a string: [strlen] gives its length. *)
Definition tls13_hkdf_expand_label := tls13_hkdf_expand_label_with_length.
Definition tls13_derive_secret := tls13_hkdf_expand_label.
Definition tls13_derive_secret_with_label_length := tls13_hkdf_expand_label_with_length.

(** ** The set of secrets *)

Definition zero_secret : tls13_secret := mkSecret None 0.
Definition zero_secrets : secrets :=
  mkSecrets None false false false false false false zero_secret zero_secret zero_secret zero_secret zero_secret zero_secret zero_secret
    zero_secret zero_secret zero_secret zero_secret zero_secret zero_secret zero_secret zero_secret zero_secret.

Definition sizeof_tls13_secrets : Z := 288.
Definition sizeof_EVP_MD_CTX : Z := 48.
Definition empty_MD_CTX : EVP_MD_CTX D := mkMdCtx None 0 None None.

Definition init_secrets (hash_length : Z) : M secrets unit :=
  let init := tls13_secret_init malloc_ok hash_length in
  at_field zeros init;;
  at_field empty_hash init;;
  at_field extracted_early init;;
  at_field binder_key init;;
  at_field client_early_traffic init;;
  at_field early_exporter_master init;;
  at_field derived_early init;;
  at_field extracted_handshake init;;
  at_field client_handshake_traffic init;;
  at_field server_handshake_traffic init;;
  at_field derived_handshake init;;
  at_field extracted_master init;;
  at_field client_application_traffic init;;
  at_field server_application_traffic init;;
  at_field exporter_master init;;
  at_field resumption_master init.

(** A digest in a new context. *)
Definition hash_once (digest : EVP_MD D) (data : list Z) : M (EVP_MD_CTX D) (list Z) :=
  check (malloc_ok sizeof_EVP_MD_CTX);;
  modify (fun _ => empty_MD_CTX);;
  EVP_DigestInit_ex malloc_ok digest;;
  EVP_DigestUpdate data;;
  EVP_DigestFinal_ex.

(** The [mdlen] octets written at [data]. *)
Definition put_digest (md : list Z) : M tls13_secret unit :=
  s ← gets id;
  data ← valid (ts_data s);
  data ← valid (zwrite data 0 md);
  modify (fun _ => mkSecret (Some data) (ts_len s)).

Definition create_body (digest : EVP_MD D) (resumption : bool) : M secrets unit :=
  let hash_length := EVP_MD_size (Some digest) in
  check (malloc_ok sizeof_tls13_secrets);;
  init_secrets hash_length;;
  '(md, _) ← on_local (hash_once digest []) empty_MD_CTX;
  at_field empty_hash (put_digest md);;
  st ← gets id;
  check (ts_len (empty_hash st) =? zlen md);;
  modify (fun st => st <| ks_digest := Some digest |> <| ks_resumption := resumption |> <| ks_init_done := true |>).

Definition tls13_secrets_destroy : M secrets unit :=
  at_field zeros tls13_secret_cleanup;;
  at_field empty_hash tls13_secret_cleanup;;
  at_field extracted_early tls13_secret_cleanup;;
  at_field binder_key tls13_secret_cleanup;;
  at_field client_early_traffic tls13_secret_cleanup;;
  at_field early_exporter_master tls13_secret_cleanup;;
  at_field derived_early tls13_secret_cleanup;;
  at_field extracted_handshake tls13_secret_cleanup;;
  at_field client_handshake_traffic tls13_secret_cleanup;;
  at_field server_handshake_traffic tls13_secret_cleanup;;
  at_field derived_handshake tls13_secret_cleanup;;
  at_field extracted_master tls13_secret_cleanup;;
  at_field client_application_traffic tls13_secret_cleanup;;
  at_field server_application_traffic tls13_secret_cleanup;;
  at_field exporter_master tls13_secret_cleanup;;
  at_field resumption_master tls13_secret_cleanup;;
  modify (fun _ => zero_secrets).

(** The state is what [calloc] returns; [Fail] is NULL. *)
Definition tls13_secrets_create (digest : EVP_MD D) (resumption : bool) : outcome secrets unit :=
  match create_body digest resumption zero_secrets with
  | Ret _ st => Ret tt st
  | Fail st => match tls13_secrets_destroy st with Ret _ st => Fail st | _ => UB end
  | UB => UB
  end.

(** ** The derivations *)

(** [HKDF_extract] into the field [target]; the digest is not NULL. *)
Definition extract_into (target : secrets -> tls13_secret) `{!Setter target} (ikm : list Z) (salt : tls13_secret) : M secrets unit := fun st =>
  match ks_digest st, ts_data salt with
  | Some digest, Some salt_data =>
      match octets_at salt_data (ts_len salt) with
      | None => UB
      | Some salt_octets =>
          match HKDF_extract malloc_ok stack digest ikm (Some salt_octets) (ts_len salt) with
          | Ret prk _ =>
              (data ← valid (ts_data (target st));
               data ← valid (zwrite data 0 prk);
               modify (fun st => st <| target := mkSecret (Some data) (zlen prk) |>)) st
          | Fail _ => Fail st
          | UB => UB
          end
      end
  | _, _ => UB
  end.

(** [tls13_derive_secret] into the field [target]. *)
Definition derive_into (target : secrets -> tls13_secret) `{!Setter target} (source : secrets -> tls13_secret) (label : list Z)
    (context : secrets -> tls13_secret) : M secrets unit :=
  st ← gets id;
  digest ← valid (ks_digest st);
  at_field target (tls13_derive_secret digest (source st) label (context st)).

(** [if (!secrets->insecure) explicit_bzero(...)] *)
Definition wipe (target : secrets -> tls13_secret) `{!Setter target} : M secrets unit :=
  st ← gets id;
  if ks_insecure st then mret tt else
  at_field target (
    s ← gets id;
    data ← valid (ts_data s);
    data ← valid (zwrite data 0 (zrep (ts_len s) 0));
    modify (fun _ => mkSecret (Some data) (ts_len s))).

Definition same_length (a b : secrets -> tls13_secret) : M secrets unit :=
  st ← gets id;
  check (ts_len (a st) =? ts_len (b st)).

Definition tls13_derive_early_secrets (psk : list Z) (context : tls13_secret) : M secrets unit :=
  st ← gets id;
  check (negb (negb (ks_init_done st) || ks_early_done st));;
  extract_into extracted_early psk (zeros st);;
  same_length extracted_early zeros;;
  derive_into binder_key extracted_early (if ks_resumption st then str "res binder" else str "ext binder") empty_hash;;
  derive_into client_early_traffic extracted_early (str "c e traffic") (fun _ => context);;
  derive_into early_exporter_master extracted_early (str "e exp master") (fun _ => context);;
  derive_into derived_early extracted_early (str "derived") empty_hash;;
  wipe extracted_early;;
  modify (fun st => st <| ks_early_done := true |>).

Definition tls13_derive_handshake_secrets (ecdhe : list Z) (context : tls13_secret) : M secrets unit :=
  st ← gets id;
  check (negb (negb (ks_init_done st) || negb (ks_early_done st) || ks_handshake_done st));;
  extract_into extracted_handshake ecdhe (derived_early st);;
  same_length extracted_handshake zeros;;
  wipe derived_early;;
  derive_into client_handshake_traffic extracted_handshake (str "c hs traffic") (fun _ => context);;
  derive_into server_handshake_traffic extracted_handshake (str "s hs traffic") (fun _ => context);;
  derive_into derived_handshake extracted_handshake (str "derived") empty_hash;;
  wipe extracted_handshake;;
  modify (fun st => st <| ks_handshake_done := true |>).

Definition tls13_derive_application_secrets (context : tls13_secret) : M secrets unit :=
  st ← gets id;
  check (negb (negb (ks_init_done st) || negb (ks_early_done st) || negb (ks_handshake_done st) || ks_schedule_done st));;
  ikm ← valid (octets_of (zeros st));
  extract_into extracted_master ikm (derived_handshake st);;
  same_length extracted_master zeros;;
  wipe derived_handshake;;
  derive_into client_application_traffic extracted_master (str "c ap traffic") (fun _ => context);;
  derive_into server_application_traffic extracted_master (str "s ap traffic") (fun _ => context);;
  derive_into exporter_master extracted_master (str "exp master") (fun _ => context);;
  derive_into resumption_master extracted_master (str "res master") (fun _ => context);;
  wipe extracted_master;;
  modify (fun st => st <| ks_schedule_done := true |>).

(** The literal ["" ] is one NUL octet, of which none is used. *)
Definition no_context : tls13_secret := mkSecret (Some [0]) 0.

Definition schedule_complete (st : secrets) : bool :=
  negb (negb (ks_init_done st) || negb (ks_early_done st) || negb (ks_handshake_done st) || negb (ks_schedule_done st)).

(** [HMAC_Init_ex] has read the secret before [HKDF_expand] writes over it. *)
Definition tls13_update_client_traffic_secret : M secrets unit :=
  st ← gets id;
  check (schedule_complete st);;
  digest ← valid (ks_digest st);
  at_field client_application_traffic (
    tls13_hkdf_expand_label digest (client_application_traffic st) (str "traffic upd") no_context).

Definition tls13_update_server_traffic_secret : M secrets unit :=
  st ← gets id;
  check (schedule_complete st);;
  digest ← valid (ks_digest st);
  at_field server_application_traffic (
    tls13_hkdf_expand_label digest (server_application_traffic st) (str "traffic upd") no_context).

(** [export_out] is the buffer of the caller. *)
Definition export_into (digest : EVP_MD D) (export_secret context : tls13_secret) : M (list Z) unit := fun out =>
  match tls13_hkdf_expand_label digest export_secret (str "exporter") context (mkSecret (Some out) (zlen out)) with
  | Ret _ s => Ret tt (default [] (ts_data s))
  | Fail s => Fail (default [] (ts_data s))
  | UB => UB
  end.

(** The state is the output buffer; [context_value]: [None] is NULL. *)
Definition tls13_exporter (handshake_completed : bool) (st : secrets) (label : list Z) (context_value : option (list Z)) : M (list Z) unit :=
  check handshake_completed;;
  let md_len := EVP_MD_size (ks_digest st) in
  check (negb ((md_len <=? 0) || (EVP_MAX_MD_SIZE <? md_len)));;
  '(_, export_secret) ← on_local (tls13_secret_init malloc_ok md_len) zero_secret;
  '(_, context) ← on_local (tls13_secret_init malloc_ok md_len) zero_secret;
  digest ← valid (ks_digest st);
  '(md, _) ← on_local (hash_once digest (default [] context_value)) empty_MD_CTX;
  '(_, context) ← on_local (put_digest md) context;
  check (md_len =? zlen md);;
  '(_, export_secret) ← on_local (tls13_derive_secret_with_label_length digest (exporter_master st) label (empty_hash st)) export_secret;
  export_into digest export_secret context.
End key_schedule.

(** ** RFC 8446, section 7.1 *)

(** The [HkdfLabel] for [n] octets. *)
Definition label_octets (n : Z) (label context : list Z) : list Z :=
  be_bytes 2 n ++ [zlen (tls13_plabel ++ label)] ++ (tls13_plabel ++ label) ++ [zlen context] ++ context.

Definition label_fits (n : Z) (label context : list Z) : bool :=
  (n <? 2 ^ 16) && (zlen (tls13_plabel ++ label) <? 256) && (zlen context <? 256).

Section rfc8446.
Context (hmac : list Z -> list Z -> list Z) (hash : list Z -> list Z) (hl : Z).

Definition HKDF_Expand_Label (secret label context : list Z) (n : Z) : list Z := rfc_expand hmac hl secret (label_octets n label context) n.
(** From a transcript hash. *)
Definition Derive_Secret (secret label transcript : list Z) : list Z := HKDF_Expand_Label secret label transcript hl.
Definition Extract (salt ikm : list Z) : list Z := rfc_extract hmac hl (Some salt) ikm.

(** Section 7.5. *)
Definition Exporter (secret label context : list Z) (n : Z) : list Z :=
  HKDF_Expand_Label (Derive_Secret secret label (hash [])) (str "exporter") (hash context) n.
End rfc8446.

(** The chain of secrets, from HKDF-Extract, Derive-Secret, the hash of nothing and as
    many zeros as a digest has octets. *)
Section chain.
Context (extract : list Z -> list Z -> list Z) (derive : list Z -> list Z -> list Z -> list Z) (nothing zs : list Z).

Definition early_secret (psk : list Z) : list Z := extract zs psk.
Definition handshake_secret (psk ecdhe : list Z) : list Z := extract (derive (early_secret psk) (str "derived") nothing) ecdhe.
Definition master_secret (psk ecdhe : list Z) : list Z := extract (derive (handshake_secret psk ecdhe) (str "derived") nothing) zs.

(** Section 7.2: the secret after [n] updates. *)
Fixpoint updated (n : nat) (secret : list Z) : list Z :=
  match n with
  | O => secret
  | S n => derive (updated n secret) (str "traffic upd") []
  end.
End chain.

(** ** The label *)

Definition label_cmds (n : Z) (label context : list Z) : list cmd :=
  [U16 0 n; U8_prefixed 0 1; Bytes 1 tls13_plabel; Bytes 1 label] ++ Flush 0 :: U8_prefixed 0 1 :: [Bytes 1 context].

Lemma root_open bs : zlen bs + 1 < 2 ^ 64 -> a_open 0%nat 1%nat [] (Fixed 1) ([], 0%nat, bs) = Ret tt ([(0%nat, bs, Fixed 1)], 1%nat, []).
Proof.
  intros Hb. unfold a_open, a_at. cbn [locate]. rewrite decide_True by done. cbn [forallb].
  rewrite bool_decide_eq_true_2 by (unfold eptrs; set_solver). cbn [andb eclose app]. unfold a_store. rewrite app_nil_r.
  cbn [esize fold_right hole]. change (zlen (@nil Z)) with 0. by rewrite (proj2 (Z.ltb_lt _ _)) by lia.
Qed.

Lemma child_append bs c data : zlen bs + 1 + zlen c + zlen data < 2 ^ 64 ->
  a_append 1%nat data ([(0%nat, bs, Fixed 1)], 1%nat, c) = Ret tt ([(0%nat, bs, Fixed 1)], 1%nat, c ++ data).
Proof. intros Hb. apply append_step; [by set_solver|]. cbn [esize fold_right hole]. lia. Qed.

Lemma root_append bs c data : zlen bs + 1 + zlen c + zlen data < 2 ^ 64 ->
  a_append 0%nat data ([(0%nat, bs, Fixed 1)], 1%nat, c) =
  if zlen c <? 256 then Ret tt ([], 0%nat, bs ++ [zlen c] ++ c ++ data) else Fail ([(0%nat, bs, Fixed 1)], 1%nat, c).
Proof.
  intros Hb. pose proof (zlen_nonneg c). unfold a_append, a_at. cbn [locate fst snd]. rewrite decide_True by done.
  cbn [forallb eclose prefix mbind option_bind]. change (256 ^ 1) with 256. destruct (Z.ltb_spec (zlen c) 256); [|done].
  change (Z.to_nat 1) with 1%nat. cbn [be_bytes option_bind app]. rewrite Z.mod_small by lia. unfold a_store.
  change (Some [zlen c] ≫= λ px : list Z, Some (bs ++ px ++ c)) with (Some (bs ++ [zlen c] ++ c)). cbv iota.
  assert (E : (bs ++ [zlen c] ++ c) ++ data = bs ++ [zlen c] ++ c ++ data) by (by rewrite <- !app_assoc). rewrite E. cbn [esize fold_right].
  rewrite (proj2 (Z.ltb_lt _ _)); [done|]. rewrite !zlen_app. change (zlen [zlen c]) with 1. lia.
Qed.

Lemma build_label n label context :
  0 <= n < 2 ^ 64 -> zlen label < 2 ^ 62 -> zlen context < 2 ^ 62 ->
  match build 0 (label_cmds n label context) with
  | Ret l _ => l = label_octets n label context /\ label_fits n label context = true
  | Fail _ => label_fits n label context = false
  | UB => False
  end.
Proof.
  intros Hn Hl Hc. pose proof (zlen_nonneg label). pose proof (zlen_nonneg context).
  assert (Hp : zlen tls13_plabel = 6) by done. rewrite build_eq. unfold label_cmds, label_fits. cbn [denote_all denote app].
  rewrite !bind_run. unfold check at 1. destruct (n <? 2 ^ 16); [|done]. cbn [andb].
  rewrite (append_step [] 0%nat) by (try set_solver; cbn [esize fold_right]; rewrite zlen_be_bytes; change (zlen (@nil Z)) with 0; lia).
  cbn [app]. assert (Hb : zlen (be_bytes 2 n) = 2) by apply zlen_be_bytes. set (bs := be_bytes 2 n) in *.
  rewrite !bind_run, root_open by lia. rewrite !bind_run, child_append by (change (zlen (@nil Z)) with 0; lia).
  cbn [app]. rewrite !bind_run, child_append by lia. rewrite !bind_run, root_append by (rewrite zlen_app; change (zlen (@nil Z)) with 0; lia).
  destruct (Z.ltb_spec (zlen (tls13_plabel ++ label)) 256); [|done]. rewrite app_nil_r.
  set (bs' := bs ++ _). assert (Hb' : zlen bs' <= 2 + 1 + 256) by (unfold bs'; rewrite !zlen_app; change (zlen [_]) with 1; rewrite zlen_app in *; lia).
  rewrite !bind_run, root_open by lia. rewrite !bind_run, child_append by (change (zlen (@nil Z)) with 0; lia). cbn [app denote_all].
  unfold mret, M_ret. rewrite root_append by (change (zlen (@nil Z)) with 0; lia). cbn [andb].
  destruct (Z.ltb_spec (zlen context) 256); [|done]. split; [|done]. cbn [snd]. rewrite app_nil_r. unfold bs', label_octets. by rewrite <- !app_assoc.
Qed.

Section label.
Context (malloc_ok : Z -> bool).

(** Some allocation is. *)
Definition refused : Prop := ~ forall n, malloc_ok n = true.

Lemma label_body_eq out label context c h :
  ts_data out <> None -> 0 < ts_len out < 2 ^ 64 -> octets_of context = Some c -> zlen label < 2 ^ 62 -> zlen c < 2 ^ 62 ->
  hkdf_label_body malloc_ok out label context h =
  (CBB_init malloc_ok 0 256;; exec_all malloc_ok (label_cmds (ts_len out) label c);; CBB_finish malloc_ok 0 (Some false) true) h.
Proof.
  intros Hd Hn Hc Hl Hcl. unfold hkdf_label_body. rewrite bool_decide_eq_false_2 by done. rewrite (proj2 (Z.eqb_neq _ _)) by lia. cbn [orb negb].
  rewrite !(bind_run (CBB_init malloc_ok 0 256)). pose proof (CBB_init_spec malloc_ok h 0 256 ltac:(lia)) as Hw. unfold wp in Hw.
  destruct (CBB_init malloc_ok 0 256 h) as [[] h1|h1|]; [|done..]. destruct Hw as (b & _ & Hh & _). rewrite Hc.
  assert (Hok : Forall cmd_ok (label_cmds (ts_len out) label c)).
  { unfold label_cmds. cbn [app]. assert (zlen tls13_plabel = 6) by done. pose proof (zlen_nonneg label).
    repeat apply Forall_cons_2; cbn [cmd_ok]; try done; lia. }
  pose proof (exec_reopen malloc_ok [U16 0 (ts_len out); U8_prefixed 0 1; Bytes 1 tls13_plabel; Bytes 1 label] [Bytes 1 c] 1 h1 b true ([], 0%nat, [])) as E.
  change (eroot ([], 0%nat, [])) with 0%nat in E. rewrite (bind_run (exec_all malloc_ok (label_cmds (ts_len out) label c))). unfold label_cmds at 1. rewrite <- E; [| |  |exact Hh].
  - cbn [app exec_all exec]. rewrite (bind_run (check true)). cbn [check].
    do 5 (rewrite !bind_run; match goal with |- match ?m with _ => _ end = _ => destruct m as [[] ?|?|]; [|done..] end).
    rewrite (bind_run (valid _)). cbn [valid]. rewrite !bind_run. by destruct (CBB_add_bytes malloc_ok 1 c _) as [[] ?|?|].
  - by apply Forall_app in Hok as [? _].
  - intros Hub. pose proof (build_label (ts_len out) label c ltac:(lia) Hl Hcl) as Hb. rewrite build_eq in Hb. unfold label_cmds in Hb.
    revert Hb Hub. generalize [U16 0 (ts_len out); U8_prefixed 0 1; Bytes 1 tls13_plabel; Bytes 1 label] as cs. intros cs Hb Hub.
    assert (E2 : denote_all (cs ++ [Flush 0; U8_prefixed 0 1; Bytes 1 c]) ([], 0%nat, []) = UB).
    { clear -Hub. revert Hub. generalize (@nil (ptr * list Z * kind), 0%nat, @nil Z) as B. induction cs as [|x cs IH]; intros B; [done|].
      cbn [app denote_all]. rewrite !bind_run. destruct (denote x B) as [[] B1|B1|]; [apply IH|done..]. }
    by rewrite E2 in Hb.
Qed.

(** The label, or the reason there is none; the builder is cleaned up. *)
Lemma hkdf_label_ok out label context c :
  ts_data out <> None -> 0 < ts_len out < 2 ^ 64 -> octets_of context = Some c -> zlen label < 2 ^ 62 -> zlen c < 2 ^ 62 ->
  match hkdf_label malloc_ok out label context with
  | Ret l _ => l = label_octets (ts_len out) label c /\ label_fits (ts_len out) label c = true
  | Fail _ => label_fits (ts_len out) label c = false \/ refused
  | UB => False
  end.
Proof.
  intros Hd Hn Hc Hl Hcl. unfold hkdf_label. rewrite (label_body_eq out label context c) by done.
  pose proof (build_label (ts_len out) label c ltac:(lia) Hl Hcl) as Hb.
  assert (Hok : Forall cmd_ok (label_cmds (ts_len out) label c)).
  { unfold label_cmds. cbn [app]. assert (zlen tls13_plabel = 6) by done.
    repeat apply Forall_cons_2; cbn [cmd_ok]; try done; lia. }
  pose proof (builder_wp malloc_ok (mkHeap ∅ ∅) 0 256 (label_cmds (ts_len out) label c) ltac:(lia) Hok ltac:(by intros E; rewrite E in Hb)) as Hw.
  unfold wp in Hw. match type of Hw with match ?x with _ => _ end => destruct x as [[buf len] h'|h'|] end; [| |done].
  - destruct Hw as ((B & E) & Hlen & _). rewrite E in Hb. pose proof (zlen_nonneg (ztake len buf)).
    rewrite octets_at_le; [done|]. rewrite Hlen at 2. split; [lia|]. unfold ztake, zlen. rewrite length_take. lia.
  - destruct Hw as ((h2 & E & _) & Hw). rewrite E. destruct (build 0 _); [|by left|done]. right. intros Hm. by destruct (Hw Hm).
Qed.

(** Without room for output there is no label. *)
Lemma hkdf_label_empty out label context : ts_len out = 0 -> hkdf_label malloc_ok out label context = Fail tt.
Proof.
  intros Hn. unfold hkdf_label, hkdf_label_body. rewrite bind_run. pose proof (CBB_init_spec malloc_ok (mkHeap ∅ ∅) 0 256 ltac:(lia)) as Hw. unfold wp in Hw.
  destruct (CBB_init malloc_ok 0 256 _) as [[] h1|h1|]; [| |done].
  - destruct Hw as (b & _ & (fs & q & c & E & Hr) & _). rewrite Hn, Z.eqb_refl, orb_true_r. cbn [negb]. rewrite bind_run. cbn [check].
    destruct (CBB_cleanup_alive h1 b 0) as (h2 & -> & _); [|done]. pose proof (repr_alive _ _ _ _ _ _ _ _ Hr) as Ha.
    replace (root fs q) with 0%nat in Ha; [done|]. rewrite <- (eroot_erase fs q c), <- E. done.
  - destruct Hw as ((c & Hp & Hc) & _). by destruct (CBB_cleanup_null _ _ _ Hp Hc) as (h2 & -> & _).
Qed.
End label.

(** ** HKDF-Expand-Label *)

(** A secret that holds the octets [l]. *)
Definition secret_of (l : list Z) : tls13_secret := mkSecret (Some l) (zlen l).

Lemma octets_of_secret l : octets_of (secret_of l) = Some l.
Proof. by apply octets_at_all. Qed.

Lemma is_byte_str s : Forall is_byte (str s).
Proof.
  unfold str. apply Forall_map, Forall_forall. intros c _. unfold is_byte. pose proof (Ascii.N_ascii_bounded c). lia.
Qed.

Section expand_label.
Context {D : Type} (malloc_ok : Z -> bool) (md : EVP_MD D) (hash : list Z -> list Z) `{HL : !DigestLaws md hash}.
Abbreviation hl := (dg_md_size md).
Abbreviation hmac := (rfc_hmac hash (dg_block_size md)).

Lemma memory_lacks_refused : memory_lacks malloc_ok md -> refused malloc_ok.
Proof using. unfold memory_lacks, no_memory, refused. intros H Hm. rewrite !Hm in H. naive_solver. Qed.

Lemma is_byte_label n label c :
  Forall is_byte label -> Forall is_byte c -> label_fits n label c = true -> Forall is_byte (label_octets n label c).
Proof using.
  intros Hl Hc [[_ H1]%andb_true_iff H2]%andb_true_iff. apply Z.ltb_lt in H1, H2. pose proof (zlen_nonneg (tls13_plabel ++ label)). pose proof (zlen_nonneg c).
  unfold label_octets. apply Forall_app. split; [apply is_byte_be_bytes|]. apply Forall_app. split; [by apply Forall_singleton|].
  apply Forall_app. split; [apply Forall_app; split; [apply is_byte_str|done]|]. apply Forall_app. split; [by apply Forall_singleton|done].
Qed.

(** A secret as long as a key may be. *)
Definition key_like (k : list Z) : Prop := Forall is_byte k /\ zlen k < 2 ^ 31.

Lemma wp_expand_label k label context c o (Q : unit -> tls13_secret -> Prop) E :
  key_like k -> Forall is_byte label -> zlen label < 2 ^ 62 -> octets_of context = Some c -> Forall is_byte c -> zlen c < 2 ^ 62 -> zlen o < 2 ^ 64 ->
  (0 < zlen o <= 255 * hl -> label_fits (zlen o) label c = true -> Q tt (secret_of (HKDF_Expand_Label hmac hl k label c (zlen o)))) ->
  (forall o', zlen o = 0 \/ 255 * hl < zlen o \/ label_fits (zlen o) label c = false \/ refused malloc_ok -> zlen o' = zlen o -> E (secret_of o')) ->
  wp (tls13_hkdf_expand_label malloc_ok md (secret_of k) label context) (secret_of o) Q E.
Proof using HL.
  intros [Hk Hkl] Hl Hll Hc Hcb Hcl Ho HQ HE. unfold wp, tls13_hkdf_expand_label, tls13_hkdf_expand_label_with_length. pose proof (zlen_nonneg o) as Ho0.
  destruct (Z.eq_dec (zlen o) 0) as [Hz|Hnz]; [rewrite hkdf_label_empty by done; apply HE; [by left|done]|].
  pose proof (hkdf_label_ok malloc_ok (secret_of o) label context c ltac:(done) ltac:(cbn; lia) Hc Hll Hcl) as Hw. cbn [ts_len secret_of] in Hw.
  destruct (hkdf_label _ _ _ _) as [l u|u|]; [|apply HE; [by right; right|done]|done]. destruct Hw as [-> Hfit].
  cbn [ts_data secret_of]. rewrite bind_run. change (mkSecret (Some k) (zlen k)) with (secret_of k). rewrite octets_of_secret. cbn [valid].
  unfold expand_into. cbn [ts_data ts_len secret_of default]. rewrite (octets_at_all o) by done.
  pose proof (HKDF_expand_ok malloc_ok md hash k (label_octets (zlen o) label c) o Hk Hkl ltac:(by apply is_byte_label) Ho) as Hx.
  assert (Hput : forall o', zlen o' = zlen o -> mkSecret (Some (o' ++ zdrop (zlen o) o)) (zlen o) = secret_of o').
  { intros o' Hl'. unfold zdrop. rewrite drop_ge, app_nil_r by (unfold zlen; lia). unfold secret_of. by rewrite Hl'. }
  destruct (HKDF_expand _ _ _ _ _) as [[] o'|o'|]; [| |done].
  - destruct Hx as [-> Hle]. rewrite Hput; [apply HQ; [lia|done]|]. by apply rfc_expand_ok.
  - destruct Hx as [Hl' Hno]. rewrite Hput by done. apply HE; [|done]. right. destruct Hno; [by left|]. right. right. by apply memory_lacks_refused.
Qed.

(** *** The parts of a derivation *)

Abbreviation secrets := (tls13_secrets D).

(** As many octets as a digest. *)
Definition digest_like (k : list Z) : Prop := zlen k = hl /\ Forall is_byte k.

Lemma digest_like_key k : digest_like k -> key_like k.
Proof using HL. intros [Hl Hb]. split; [done|]. destruct (digest_sizes (hash := hash)) as ([_ Hm] & _). unfold EVP_MAX_MD_SIZE in Hm. lia. Qed.

Lemma digest_like_zeros : digest_like (zrep hl 0).
Proof using HL. split; [apply zlen_rep; pose proof (hl_pos md hash); lia|by apply is_byte_zrep]. Qed.

Lemma digest_like_hash m : digest_like (hash m).
Proof using HL. split; [apply digest_size|apply digest_bytes]. Qed.

Lemma digest_like_extract salt ikm : digest_like (Extract hmac hl salt ikm).
Proof using HL. apply digest_like_hash. Qed.

Lemma digest_like_expand k label c : digest_like (Derive_Secret hmac hl k label c).
Proof using HL. apply (rfc_expand_ok md hash). pose proof (hl_pos md hash). lia. Qed.

Lemma wp_at_field {A} field `{!Setter field} (m : M tls13_secret A) (st : secrets) (Q : A -> secrets -> Prop) E :
  wp m (field st) (fun a s => Q a (st <| field := s |>)) (fun s => E (st <| field := s |>)) -> wp (at_field field m) st Q E.
Proof using. unfold wp, at_field. by destruct (m (field st)). Qed.

Lemma label_fits_digest label c : zlen label <= 249 -> zlen c <= 255 -> label_fits hl label c = true.
Proof using HL.
  intros H1 H2. unfold label_fits. destruct (digest_sizes (hash := hash)) as ([_ Hm] & _). unfold EVP_MAX_MD_SIZE in Hm.
  assert (Hp : zlen tls13_plabel = 6) by done. rewrite zlen_app, !(proj2 (Z.ltb_lt _ _)) by lia. done.
Qed.

Lemma wp_derive_secret k label context c o (Q : unit -> tls13_secret -> Prop) (E : tls13_secret -> Prop) :
  digest_like k -> Forall is_byte label -> zlen label <= 249 -> octets_of context = Some c -> Forall is_byte c -> zlen c < 2 ^ 62 -> zlen o = hl ->
  (zlen c <= 255 -> Q tt (secret_of (Derive_Secret hmac hl k label c))) -> (refused malloc_ok \/ 255 < zlen c -> forall o', E (secret_of o')) ->
  wp (tls13_derive_secret malloc_ok md (secret_of k) label context) (secret_of o) Q E.
Proof using HL.
  intros Hk Hlb Hll Hc Hcb Hcl Ho HQ HE. pose proof (hl_pos md hash). destruct (digest_sizes (hash := hash)) as ([_ Hm] & _). unfold EVP_MAX_MD_SIZE in Hm.
  apply (wp_expand_label k label context c o); [by apply digest_like_key|done|lia|done|done|lia|lia| |]; rewrite Ho.
  - intros _ Hfit. apply HQ. apply andb_true_iff in Hfit as [_ Hfit]. lia.
  - intros o' [Hno|[Hno|[Hno|Hno]]] _; [lia|lia| |apply HE; by left].
    destruct (Z.le_gt_cases (zlen c) 255); [by rewrite label_fits_digest in Hno|apply HE; by right].
Qed.

Lemma wp_wipe target `{!Setter target} o (st : secrets) (Q : unit -> secrets -> Prop) E :
  target st = secret_of o -> Q tt (if ks_insecure st then st else st <| target := secret_of (zrep (zlen o) 0) |>) -> wp (wipe target) st Q E.
Proof using.
  intros Ht HQ. unfold wipe. apply wp_bind, wp_gets. unfold id. destruct (ks_insecure st); [by apply wp_ret|].
  apply wp_at_field. rewrite Ht. apply wp_bind, wp_gets, wp_bind. eapply wp_valid; [done|]. pose proof (zlen_nonneg o).
  assert (Hz : zlen (zrep (zlen o) 0) = zlen o) by (apply zlen_rep; lia).
  apply wp_bind. eapply wp_valid; [apply zwrite_ok; unfold id; cbn [ts_len secret_of]; lia|]. apply wp_modify. unfold id. cbn [ts_len secret_of].
  rewrite ztake_0, app_nil_l. unfold zdrop. rewrite drop_ge, app_nil_r by (unfold zlen in *; lia).
  unfold secret_of in HQ. by rewrite Hz in HQ.
Qed.

Lemma wp_same_length a b o o' (st : secrets) (Q : unit -> secrets -> Prop) E :
  a st = secret_of o -> b st = secret_of o' -> zlen o = zlen o' -> Q tt st -> wp (same_length a b) st Q E.
Proof using.
  intros Ha Hb Hl HQ. unfold same_length. apply wp_bind, wp_gets. unfold id. rewrite Ha, Hb. cbn [ts_len secret_of]. rewrite Hl, Z.eqb_refl.
  by apply wp_check.
Qed.
Context (stack : HMAC_CTX D).
Hypothesis Hstack : zlen (hm_key stack) = HMAC_MAX_MD_CBLOCK /\ Forall is_byte (hm_key stack).

Lemma wp_extract_into target `{!Setter target} ikm salt s o (st : secrets) (Q : unit -> secrets -> Prop) (E : secrets -> Prop) :
  ks_digest st = Some md -> target st = secret_of o -> zlen o = hl -> salt = secret_of s -> digest_like s -> Forall is_byte ikm ->
  Q tt (st <| target := secret_of (Extract hmac hl s ikm) |>) -> (refused malloc_ok -> E st) ->
  wp (extract_into malloc_ok stack target ikm salt) st Q E.
Proof using HL Hstack.
  intros Hd Ht Ho -> Hs Hi HQ HE. unfold wp, extract_into. rewrite Hd. cbn [ts_data ts_len secret_of]. rewrite octets_at_all by done.
  pose proof (digest_like_key s Hs) as [Hsb Hsl].
  pose proof (HKDF_extract_ok malloc_ok md hash ikm (Some s) stack (proj1 Hstack) (proj2 Hstack) Hi Hsb Hsl) as Hx.
  cbn [key_octets default] in Hx. destruct (HKDF_extract _ _ _ _ _ _) as [prk u|u|]; [|by apply HE, memory_lacks_refused|done]. subst prk.
  rewrite !bind_run, Ht. cbn [valid ts_data secret_of]. change (rfc_extract hmac hl (Some s) ikm) with (Extract hmac hl s ikm).
  destruct (digest_like_extract s ikm) as [Hl _]. set (prk := Extract hmac hl s ikm) in *. rewrite bind_run, zwrite_ok by lia. cbn [valid].
  rewrite ztake_0, app_nil_l. unfold zdrop. rewrite drop_ge, app_nil_r by (unfold zlen in *; lia). exact HQ.
Qed.

End expand_label.

(** ** The schedule as a machine *)

(** How far it is, with what the derivations were given; the last stage counts the
    updates of the client's and the server's traffic secret. *)
Inductive stage : Type :=
  | Fresh
  | Early (psk c1 : list Z)
  | Handshake (psk c1 ecdhe c2 : list Z)
  | Application (psk c1 ecdhe c2 c3 : list Z) (nc ns : nat).

Inductive derivation : Type :=
  | DeriveEarly (psk c : list Z)
  | DeriveHandshake (ecdhe c : list Z)
  | DeriveApplication (c : list Z)
  | UpdateClient
  | UpdateServer.

(** The order of RFC 8446, Figure in section 7.1. *)
Definition spec_call (s : stage) (c : derivation) : option stage :=
  match s, c with
  | Fresh, DeriveEarly psk c1 => Some (Early psk c1)
  | Early psk c1, DeriveHandshake ecdhe c2 => Some (Handshake psk c1 ecdhe c2)
  | Handshake psk c1 ecdhe c2, DeriveApplication c3 => Some (Application psk c1 ecdhe c2 c3 0 0)
  | Application psk c1 ecdhe c2 c3 nc ns, UpdateClient => Some (Application psk c1 ecdhe c2 c3 (S nc) ns)
  | Application psk c1 ecdhe c2 c3 nc ns, UpdateServer => Some (Application psk c1 ecdhe c2 c3 nc (S ns))
  | _, _ => None
  end.

(** The calls that succeed, and where they lead. *)
Fixpoint spec_calls (s : stage) (cs : list derivation) : list bool * stage :=
  match cs with
  | [] => ([], s)
  | c :: cs =>
      match spec_call s c with
      | Some s' => let '(rs, s'') := spec_calls s' cs in (true :: rs, s'')
      | None => let '(rs, s'') := spec_calls s cs in (false :: rs, s'')
      end
  end.

(** The octets a call puts into HKDF labels. *)
Definition label_context (c : derivation) : list Z :=
  match c with DeriveEarly _ c | DeriveHandshake _ c | DeriveApplication c => c | UpdateClient | UpdateServer => [] end.

(** Arguments that are octets. *)
Definition call_octets (c : derivation) : Prop :=
  Forall is_byte (label_context c) /\ zlen (label_context c) < 2 ^ 62 /\
  match c with DeriveEarly ikm _ | DeriveHandshake ikm _ => Forall is_byte ikm | _ => True end.

(** A context that does not fit in a label. *)
Definition too_long (c : derivation) : Prop := 255 < zlen (label_context c).

(** Transcript hashes and key shares as long as the callers' are. *)
Definition call_ok (c : derivation) : Prop :=
  match c with
  | DeriveEarly ikm c | DeriveHandshake ikm c => Forall is_byte ikm /\ Forall is_byte c /\ zlen c <= 255
  | DeriveApplication c => Forall is_byte c /\ zlen c <= 255
  | UpdateClient | UpdateServer => True
  end.

#[global] Instance call_ok_dec c : Decision (call_ok c).
Proof. destruct c; apply _. Defined.
#[global] Instance call_octets_dec c : Decision (call_octets c).
Proof. destruct c; apply _. Defined.

Lemma call_ok_octets c : call_ok c -> call_octets c /\ ~ too_long c.
Proof.
  unfold call_ok, call_octets, too_long. destruct c; cbn [label_context]; intros Hc; (split; [split; [|split]|]); first [apply Hc|lia|constructor|done].
Qed.

(** *** The calls *)

Section calls.
Context {D : Type} (malloc_ok : Z -> bool) (stack : HMAC_CTX D).
Abbreviation secrets := (tls13_secrets D).

Definition exec_call (c : derivation) : M secrets unit :=
  match c with
  | DeriveEarly psk c => tls13_derive_early_secrets malloc_ok stack psk (secret_of c)
  | DeriveHandshake ecdhe c => tls13_derive_handshake_secrets malloc_ok stack ecdhe (secret_of c)
  | DeriveApplication c => tls13_derive_application_secrets malloc_ok stack (secret_of c)
  | UpdateClient => tls13_update_client_traffic_secret malloc_ok
  | UpdateServer => tls13_update_server_traffic_secret malloc_ok
  end.

(** A caller that goes on after a failure. *)
Fixpoint exec_calls (cs : list derivation) : M secrets (list bool) :=
  match cs with
  | [] => mret []
  | c :: cs => r ← try (exec_call c); rs ← exec_calls cs; mret (bool_decide (r <> None) :: rs)
  end.

End calls.

(** *** What the struct holds *)

Section struct.
Context {D : Type} (md : EVP_MD D).
Context (extract : list Z -> list Z -> list Z) (derive : list Z -> list Z -> list Z -> list Z) (nothing zs : list Z).
Context (resumption insecure : bool).
Abbreviation secrets := (tls13_secrets D).

Definition binder_label : list Z := if resumption then str "res binder" else str "ext binder".
Definition traffic (n : nat) (secret : list Z) : list Z := updated derive n secret.

(** A secret that is overwritten once it is used up. *)
Definition used (l : list Z) : tls13_secret := secret_of (if insecure then l else zs).

(** The whole struct at a stage. *)
Definition state_at (s : stage) : secrets :=
  let z := secret_of zs in
  let e := early_secret extract zs in
  let h := handshake_secret extract derive nothing zs in
  let m := master_secret extract derive nothing zs in
  let derived x := derive x (str "derived") nothing in
  match s with
  | Fresh => mkSecrets (Some md) resumption true false false false insecure z (secret_of nothing) z z z z z z z z z z z z z z
  | Early psk c1 =>
      mkSecrets (Some md) resumption true true false false insecure z (secret_of nothing)
        (used (e psk)) (secret_of (derive (e psk) binder_label nothing)) (secret_of (derive (e psk) (str "c e traffic") c1))
        (secret_of (derive (e psk) (str "e exp master") c1)) (secret_of (derived (e psk))) z z z z z z z z z
  | Handshake psk c1 ecdhe c2 =>
      mkSecrets (Some md) resumption true true true false insecure z (secret_of nothing)
        (used (e psk)) (secret_of (derive (e psk) binder_label nothing)) (secret_of (derive (e psk) (str "c e traffic") c1))
        (secret_of (derive (e psk) (str "e exp master") c1)) (used (derived (e psk)))
        (used (h psk ecdhe)) (secret_of (derive (h psk ecdhe) (str "c hs traffic") c2)) (secret_of (derive (h psk ecdhe) (str "s hs traffic") c2))
        (secret_of (derived (h psk ecdhe))) z z z z z
  | Application psk c1 ecdhe c2 c3 nc ns =>
      mkSecrets (Some md) resumption true true true true insecure z (secret_of nothing)
        (used (e psk)) (secret_of (derive (e psk) binder_label nothing)) (secret_of (derive (e psk) (str "c e traffic") c1))
        (secret_of (derive (e psk) (str "e exp master") c1)) (used (derived (e psk)))
        (used (h psk ecdhe)) (secret_of (derive (h psk ecdhe) (str "c hs traffic") c2)) (secret_of (derive (h psk ecdhe) (str "s hs traffic") c2))
        (used (derived (h psk ecdhe)))
        (used (m psk ecdhe)) (secret_of (traffic nc (derive (m psk ecdhe) (str "c ap traffic") c3)))
        (secret_of (traffic ns (derive (m psk ecdhe) (str "s ap traffic") c3)))
        (secret_of (derive (m psk ecdhe) (str "exp master") c3)) (secret_of (derive (m psk ecdhe) (str "res master") c3))
  end.

End struct.

(** *** The refinement, from what the parts do *)

Section refine.
Context {D : Type} (malloc_ok : Z -> bool) (stack : HMAC_CTX D) (md : EVP_MD D).
Context (extract : list Z -> list Z -> list Z) (derive : list Z -> list Z -> list Z -> list Z) (nothing zs : list Z).
Context (resumption insecure : bool).
Abbreviation secrets := (tls13_secrets D).
Abbreviation digest_like := (digest_like md).
Abbreviation at_stage := (state_at md extract derive nothing zs resumption insecure).
Abbreviation used := (used zs insecure).

Hypothesis extract_like : forall s i, digest_like (extract s i).
Hypothesis derive_like : forall k l c, digest_like (derive k l c).
Hypothesis zs_like : digest_like zs.
Hypothesis zs_eq : zs = zrep (dg_md_size md) 0.
Hypothesis nothing_ok : Forall is_byte nothing /\ zlen nothing <= 255.
Hypothesis wp_extract_step : forall target `{!Setter target} ikm salt s o (st : secrets) (Q : unit -> secrets -> Prop) (E : secrets -> Prop),
  ks_digest st = Some md -> target st = secret_of o -> digest_like o -> salt = secret_of s -> digest_like s -> Forall is_byte ikm ->
  Q tt (st <| target := secret_of (extract s ikm) |>) -> (refused malloc_ok -> E st) ->
  wp (extract_into malloc_ok stack target ikm salt) st Q E.
Hypothesis wp_derive_secret_step : forall k label context c o (Q : unit -> tls13_secret -> Prop) (E : tls13_secret -> Prop),
  digest_like k -> Forall is_byte label -> zlen label <= 249 -> octets_of context = Some c -> Forall is_byte c -> zlen c < 2 ^ 62 -> digest_like o ->
  (zlen c <= 255 -> Q tt (secret_of (derive k label c))) -> (refused malloc_ok \/ 255 < zlen c -> forall o', E (secret_of o')) ->
  wp (tls13_derive_secret malloc_ok md (secret_of k) label context) (secret_of o) Q E.

Lemma wp_derive_step target `{!Setter target} source k label context c o (st : secrets) (Q : unit -> secrets -> Prop) (E : secrets -> Prop) :
  ks_digest st = Some md -> target st = secret_of o -> digest_like o -> source st = secret_of k -> digest_like k ->
  octets_of (context st) = Some c -> Forall is_byte label -> zlen label <= 249 -> Forall is_byte c -> zlen c < 2 ^ 62 ->
  (zlen c <= 255 -> Q tt (st <| target := secret_of (derive k label c) |>)) -> (refused malloc_ok \/ 255 < zlen c -> forall st', E st') ->
  wp (derive_into malloc_ok target source label context) st Q E.
Proof using wp_derive_secret_step.
  intros Hd Ht Ho Hs Hk Hc Hlb Hll Hcb Hcl HQ HE. unfold derive_into. apply wp_bind, wp_gets. unfold id. rewrite Hd. apply wp_bind. eapply wp_valid; [done|].
  apply wp_at_field. rewrite Hs, Ht. apply (wp_derive_secret_step k label _ c o); [done..|]. intros Hr o'. by apply HE.
Qed.

Lemma wp_wipe_used target `{!Setter target} o (st : secrets) (Q : unit -> secrets -> Prop) E :
  target st = secret_of o -> digest_like o -> ks_insecure st = insecure -> st <| target := secret_of o |> = st ->
  Q tt (st <| target := used o |>) -> wp (wipe target) st Q E.
Proof using zs_eq.
  intros Ht [Hl _] Hi Hs HQ. apply (wp_wipe target o); [done|]. rewrite Hi, Hl, <- zs_eq. unfold used in HQ. destruct insecure; [by rewrite <- Hs|done].
Qed.

Definition call_post (s : stage) (c : derivation) (Q : unit -> secrets -> Prop) (E : secrets -> Prop) : Prop :=
  (forall s', spec_call s c = Some s' -> Q tt (at_stage s')) /\
  (spec_call s c = None -> E (at_stage s)) /\ (spec_call s c <> None -> refused malloc_ok \/ too_long c -> forall st, E st).

Lemma binder_ok : Forall is_byte (binder_label resumption) /\ zlen (binder_label resumption) <= 249.
Proof using. unfold binder_label. split; destruct resumption; (apply is_byte_str || by vm_compute). Qed.

Lemma nothing_short : zlen nothing < 2 ^ 62.
Proof using nothing_ok. lia. Qed.

(** The state in front as a struct. *)
Ltac norm := match goal with |- wp _ ?st _ _ =>
  let st' := eval cbv beta iota zeta delta [set_field used state_at zeros empty_hash extracted_early binder_key client_early_traffic early_exporter_master
    derived_early extracted_handshake client_handshake_traffic server_handshake_traffic derived_handshake extracted_master client_application_traffic
    server_application_traffic exporter_master resumption_master ks_digest ks_resumption ks_init_done ks_early_done ks_handshake_done ks_schedule_done ks_insecure] in st in
  change st with st' end.
Ltac digest := first [apply extract_like|apply derive_like|exact zs_like].
Ltac octets := first [assumption|apply is_byte_str|apply nothing_ok|apply binder_ok].
Ltac short := first [assumption|apply binder_ok|apply nothing_short|by vm_compute].
(** Want of memory and, when it is the caller's, a context that is too long. *)
Ltac no_memory HE :=
  let Hr := fresh in intros Hr; intros; apply HE; [done|]; first
    [ left; exact Hr | destruct Hr as [Hr|Hr]; [by left|first [right; exact Hr|exfalso; pose proof nothing_ok; lia|exfalso; revert Hr; by vm_compute]] ].
Ltac extract_step HE :=
  norm; apply wp_bind; eapply wp_extract_step; [reflexivity|reflexivity|digest|reflexivity|digest|octets| |no_memory HE];
  norm; apply wp_bind; eapply wp_same_length; [reflexivity|reflexivity|etrans; [apply extract_like|symmetry; apply zs_like]|].
Ltac derive_step HE :=
  norm; apply wp_bind; eapply wp_derive_step; [reflexivity|reflexivity|digest|reflexivity|digest|apply octets_of_secret|octets|short|octets|short|intros _|no_memory HE].
Ltac wipe_step := norm; apply wp_bind; eapply wp_wipe_used; [reflexivity|digest|reflexivity|reflexivity|].

Lemma call_early psk c1 Q E : call_octets (DeriveEarly psk c1) -> call_post Fresh (DeriveEarly psk c1) Q E ->
  wp (tls13_derive_early_secrets malloc_ok stack psk (secret_of c1)) (at_stage Fresh) Q E.
Proof using All.
  intros (Hb & Hl & Hp) (HQ & _ & HE). cbn [label_context] in *. unfold tls13_derive_early_secrets. apply wp_bind, wp_gets. unfold id.
  change (if ks_resumption (at_stage Fresh) then _ else _) with (binder_label resumption).
  apply wp_bind, wp_check; [intros _|done]. extract_step HE.
  do 4 derive_step HE. wipe_step. norm. apply wp_modify. exact (HQ _ eq_refl).
Qed.

Lemma call_handshake psk c1 ecdhe c2 Q E : call_octets (DeriveHandshake ecdhe c2) -> call_post (Early psk c1) (DeriveHandshake ecdhe c2) Q E ->
  wp (tls13_derive_handshake_secrets malloc_ok stack ecdhe (secret_of c2)) (at_stage (Early psk c1)) Q E.
Proof using All.
  intros (Hb & Hl & Hp) (HQ & _ & HE). cbn [label_context] in *. unfold tls13_derive_handshake_secrets. apply wp_bind, wp_gets. unfold id.
  apply wp_bind, wp_check; [intros _|done]. extract_step HE. wipe_step.
  do 3 derive_step HE. wipe_step. norm. apply wp_modify. exact (HQ _ eq_refl).
Qed.

Lemma call_application psk c1 ecdhe c2 c3 Q E : call_octets (DeriveApplication c3) -> call_post (Handshake psk c1 ecdhe c2) (DeriveApplication c3) Q E ->
  wp (tls13_derive_application_secrets malloc_ok stack (secret_of c3)) (at_stage (Handshake psk c1 ecdhe c2)) Q E.
Proof using All.
  intros (Hb & Hl & _) (HQ & _ & HE). cbn [label_context] in *. unfold tls13_derive_application_secrets. apply wp_bind, wp_gets. unfold id.
  assert (Hp : Forall is_byte zs) by apply zs_like.
  apply wp_bind, wp_check; [intros _|done]. apply wp_bind. eapply wp_valid; [apply octets_of_secret|].
  extract_step HE. wipe_step.
  do 4 derive_step HE. wipe_step. norm. apply wp_modify. exact (HQ _ eq_refl).
Qed.

Lemma digest_like_updated n k : digest_like k -> digest_like (updated derive n k).
Proof using derive_like. intros Hk. destruct n; [done|apply derive_like]. Qed.

Lemma call_update psk c1 ecdhe c2 c3 nc ns c Q E : call_post (Application psk c1 ecdhe c2 c3 nc ns) c Q E -> c = UpdateClient \/ c = UpdateServer ->
  wp (exec_call malloc_ok stack c) (at_stage (Application psk c1 ecdhe c2 c3 nc ns)) Q E.
Proof using All.
  intros (HQ & _ & HE) [-> | ->]; cbn [exec_call]; unfold tls13_update_client_traffic_secret, tls13_update_server_traffic_secret;
    apply wp_bind, wp_gets, wp_bind; unfold id; (apply wp_check; [intros _|done]); (apply wp_bind; eapply wp_valid; [reflexivity|]); apply wp_at_field; norm.
  - eapply (wp_derive_secret_step _ _ _ []); [apply (digest_like_updated nc), derive_like|apply is_byte_str|by vm_compute|reflexivity|constructor|by vm_compute|
      apply (digest_like_updated nc), derive_like|intros _|no_memory HE].
    exact (HQ _ eq_refl).
  - eapply (wp_derive_secret_step _ _ _ []); [apply (digest_like_updated ns), derive_like|apply is_byte_str|by vm_compute|reflexivity|constructor|by vm_compute|
      apply (digest_like_updated ns), derive_like|intros _|no_memory HE].
    exact (HQ _ eq_refl).
Qed.

(** A call out of order is refused and changes nothing. *)
Lemma call_refused s c : spec_call s c = None -> exec_call malloc_ok stack c (at_stage s) = Fail (at_stage s).
Proof using. by destruct s, c. Qed.

Lemma wp_call s c Q E : call_octets c -> call_post s c Q E -> wp (exec_call malloc_ok stack c) (at_stage s) Q E.
Proof using All.
  intros Hok Hpost. destruct (spec_call s c) eqn:Es.
  - destruct s, c; try discriminate Es; clear Es.
    + by apply call_early.
    + by apply call_handshake.
    + by apply call_application.
    + apply call_update; [done|by left].
    + apply call_update; [done|by right].
  - unfold wp. rewrite call_refused by done. destruct Hpost as (_ & HN & _). by apply HN.
Qed.

(** A call in order leads to the next stage unless memory is refused or its context
    does not fit; one out of order is refused. *)
Lemma exec_call_ok s c : call_octets c ->
  match spec_call s c with
  | Some s' => exec_call malloc_ok stack c (at_stage s) = Ret tt (at_stage s') \/
      (refused malloc_ok \/ too_long c) /\ exists st, exec_call malloc_ok stack c (at_stage s) = Fail st
  | None => exec_call malloc_ok stack c (at_stage s) = Fail (at_stage s)
  end.
Proof using All.
  intros Hc. destruct (spec_call s c) as [s'|] eqn:Es; [|by apply call_refused].
  assert (Hw : wp (exec_call malloc_ok stack c) (at_stage s) (fun _ st => st = at_stage s') (fun _ => refused malloc_ok \/ too_long c)).
  { apply wp_call; [done|]. split; [intros s0 E; by simplify_eq|]. split; [intros E; by simplify_eq|]. by intros _ Hr st. }
  unfold wp in Hw. destruct (exec_call malloc_ok stack c (at_stage s)) as [[] st|st|]; [left; by subst|right; split; [done|by exists st]|done].
Qed.

(** A sequence of calls, up to the first in order that fails. *)
Lemma exec_calls_until cs : forall s, Forall call_octets cs ->
  exists calls rest, cs = calls ++ rest /\
    exec_calls malloc_ok stack calls (at_stage s) = (let '(rs, s') := spec_calls s calls in Ret rs (at_stage s')) /\
    match rest with
    | [] => True
    | c :: _ => let s' := (spec_calls s calls).2 in spec_call s' c <> None /\ (refused malloc_ok \/ too_long c) /\
        exists st, exec_call malloc_ok stack c (at_stage s') = Fail st
    end.
Proof using All.
  induction cs as [|c cs IH]; intros s Hok; [by exists [], []|]. apply Forall_cons_1 in Hok as [Hc Hcs].
  pose proof (exec_call_ok s c Hc) as Hx. destruct (spec_call s c) as [s'|] eqn:Es.
  - destruct Hx as [Hx|Hx].
    + destruct (IH s' Hcs) as (calls & rest & -> & E & Hr). exists (c :: calls), rest. split; [done|].
      cbn [exec_calls spec_calls]. rewrite Es, bind_run. unfold try at 1. rewrite Hx, bind_run, E.
      destruct (spec_calls s' calls) as [rs s'']. split; [done|exact Hr].
    + exists [], (c :: cs). split; [done|]. split; [done|]. cbv zeta. cbn [spec_calls snd]. rewrite Es. split; [done|exact Hx].
  - destruct (IH s Hcs) as (calls & rest & -> & E & Hr). exists (c :: calls), rest. split; [done|].
    cbn [exec_calls spec_calls]. rewrite Es, bind_run. unfold try at 1. rewrite Hx, bind_run, E.
    destruct (spec_calls s calls) as [rs s'']. split; [done|exact Hr].
Qed.
End refine.

(** ** The schedule of RFC 8446 *)

Section schedule.
Context {D : Type} (malloc_ok : Z -> bool) (md : EVP_MD D) (hash : list Z -> list Z) `{HL : !DigestLaws md hash}.
Abbreviation hl := (dg_md_size md).
Abbreviation hmac := (rfc_hmac hash (dg_block_size md)).
Abbreviation secrets := (tls13_secrets D).

(** The struct at a stage, with HKDF over the hash. *)
Definition rfc_state (resumption insecure : bool) : stage -> secrets :=
  state_at md (Extract hmac hl) (Derive_Secret hmac hl) (hash []) (zrep hl 0) resumption insecure.

Lemma wp_hash_once data (Q : list Z -> EVP_MD_CTX D -> Prop) (E : EVP_MD_CTX D -> Prop) c :
  Forall is_byte data -> (forall c', Q (hash data) c') -> (refused malloc_ok -> forall c', E c') -> wp (hash_once malloc_ok md data) c Q E.
Proof using HL.
  intros Hd HQ HE. unfold hash_once. apply wp_bind, wp_check; [intros _|intros Hm; apply HE; intros Hall; by rewrite Hall in Hm].
  apply wp_bind, wp_modify. apply wp_bind. apply (wp_DigestInit malloc_ok md hash); [apply zero_sane| |].
  - intros c1 Hc1. apply wp_bind. eapply (wp_DigestUpdate md hash); [exact Hc1|done|]. intros c2 Hc2. rewrite app_nil_l in Hc2.
    eapply (wp_DigestFinal md hash); [exact Hc2|]. intros c3 _. apply HQ.
  - intros Hm c1. apply HE. intros Hall. by rewrite Hall in Hm.
Qed.

Lemma wp_secret_init n (Q : unit -> tls13_secret -> Prop) (E : tls13_secret -> Prop) :
  0 <= n -> Q tt (secret_of (zrep n 0)) -> (refused malloc_ok -> E zero_secret) -> wp (tls13_secret_init malloc_ok n) zero_secret Q E.
Proof using.
  intros Hn HQ HE. unfold tls13_secret_init. apply wp_bind, wp_gets. unfold id. apply wp_bind, wp_check; [intros _|done].
  apply wp_bind, wp_check; [intros _|intros Hm; apply HE; intros Hall; by rewrite Hall in Hm]. apply wp_modify.
  unfold secret_of in HQ. by rewrite zlen_rep in HQ.
Qed.

Lemma wp_put_digest m o (Q : unit -> tls13_secret -> Prop) E :
  zlen m = zlen o -> Q tt (secret_of m) -> wp (put_digest m) (secret_of o) Q E.
Proof using.
  intros Hl HQ. unfold put_digest. apply wp_bind, wp_gets, wp_bind. unfold id. eapply wp_valid; [reflexivity|].
  apply wp_bind. eapply wp_valid; [apply zwrite_ok; lia|]. apply wp_modify. rewrite ztake_0, app_nil_l. unfold zdrop.
  rewrite drop_ge, app_nil_r by (unfold zlen in *; lia). cbn [ts_len secret_of]. unfold secret_of in HQ. by rewrite Hl in HQ.
Qed.

Ltac norm_secrets := match goal with |- wp _ ?st _ _ =>
  let st' := eval cbv beta iota zeta delta [set_field zero_secrets zeros empty_hash extracted_early binder_key client_early_traffic early_exporter_master
    derived_early extracted_handshake client_handshake_traffic server_handshake_traffic derived_handshake extracted_master client_application_traffic
    server_application_traffic exporter_master resumption_master ks_digest ks_resumption ks_init_done ks_early_done ks_handshake_done ks_schedule_done ks_insecure] in st in
  change st with st' end.

(** Cleaning up needs nothing. *)
Lemma destroy_ok (st : secrets) : tls13_secrets_destroy st = Ret tt zero_secrets.
Proof using. done. Qed.

Lemma create_ok resumption :
  match tls13_secrets_create malloc_ok md resumption with
  | Ret _ st => st = rfc_state resumption false Fresh
  | Fail _ => refused malloc_ok
  | UB => False
  end.
Proof using HL.
  enough (H : wp (create_body malloc_ok md resumption) zero_secrets (fun _ st => st = rfc_state resumption false Fresh) (fun _ => refused malloc_ok)).
  { unfold wp, tls13_secrets_create in *. destruct (create_body _ _ _ _) as [[] st|st|]; [done| |done]. by rewrite destroy_ok. }
  pose proof (hl_pos md hash). unfold create_body. cbv zeta. change (EVP_MD_size (Some md)) with hl.
  apply wp_bind, wp_check; [intros _|intros Hm Hall; by rewrite Hall in Hm]. unfold init_secrets. cbv zeta. apply wp_bind.
  do 15 (norm_secrets; apply wp_bind, wp_at_field; apply wp_secret_init; [lia| |done]).
  norm_secrets. apply wp_at_field, wp_secret_init; [lia| |done]. apply wp_bind. norm_secrets.
  apply wp_on_local, wp_hash_once; [constructor| |done]. intros _. destruct (digest_like_hash md hash []) as [Hl _].
  apply wp_bind, wp_at_field. apply wp_put_digest; [rewrite zlen_rep by lia; exact Hl|]. norm_secrets.
  apply wp_bind, wp_gets, wp_bind. unfold id. apply wp_check; [intros _|cbn [empty_hash ts_len secret_of]; by rewrite Z.eqb_refl]. norm_secrets. apply wp_modify.
  reflexivity.
Qed.

Context (stack : HMAC_CTX D).
Hypothesis Hstack : zlen (hm_key stack) = HMAC_MAX_MD_CBLOCK /\ Forall is_byte (hm_key stack).

Lemma calls_until resumption insecure cs s : Forall call_octets cs ->
  exists calls rest, cs = calls ++ rest /\
    exec_calls malloc_ok stack calls (rfc_state resumption insecure s) =
      (let '(rs, s') := spec_calls s calls in Ret rs (rfc_state resumption insecure s')) /\
    match rest with
    | [] => True
    | c :: _ => let s' := (spec_calls s calls).2 in spec_call s' c <> None /\ (refused malloc_ok \/ too_long c) /\
        exists st, exec_call malloc_ok stack c (rfc_state resumption insecure s') = Fail st
    end.
Proof using HL Hstack.
  intros Hcs. apply (exec_calls_until malloc_ok stack md (Extract hmac hl) (Derive_Secret hmac hl) (hash []) (zrep hl 0) resumption insecure); [..|done].
  - intros s0 i. by apply digest_like_extract.
  - intros k l c. by apply digest_like_expand.
  - by apply (digest_like_zeros md hash).
  - done.
  - destruct (digest_like_hash md hash []) as [Hl Hb]. split; [done|]. rewrite Hl. destruct (digest_sizes (hash := hash)) as ([_ Hx] & _).
    clear stack Hstack. unfold EVP_MAX_MD_SIZE in Hx. lia.
  - intros target Ht ikm salt s0 o st Q E Hd Hto [Ho _] Hs0 Hd0 Hi HQ HE. by eapply (wp_extract_into malloc_ok md hash stack Hstack).
  - intros k label context c o Q E Hk Hb Hl Hc Hcb Hcl [Ho _] HQ HE. by eapply (wp_derive_secret malloc_ok md hash).
Qed.

(** With memory and contexts that fit, the sequence runs to its end. *)
Lemma calls_ok resumption insecure cs s : (forall n, malloc_ok n = true) -> Forall call_ok cs ->
  exec_calls malloc_ok stack cs (rfc_state resumption insecure s) =
  let '(rs, s') := spec_calls s cs in Ret rs (rfc_state resumption insecure s').
Proof using HL Hstack.
  intros Hm Hcs. destruct (calls_until resumption insecure cs s) as (calls & [|c rest] & -> & E & Hr).
  - eapply Forall_impl; [exact Hcs|]. intros c Hc. by apply call_ok_octets.
  - by rewrite app_nil_r.
  - destruct Hr as (_ & [Hr|Hr] & _); [by destruct Hr|]. apply Forall_app in Hcs as [_ [Hc _]%Forall_cons_1]. by apply call_ok_octets in Hc as [_ []].
Qed.

(** C6. The key schedule is that of RFC 8446, section 7.1, over any hash that keeps the
    promise of its method table, whatever memory the allocator refuses.  The secrets are
    created, or memory was refused.  Then any calls of the three derivations and the two
    traffic updates are made, in any order and number, up to the first call that the
    RFC's order has next and that fails: every call before it succeeds exactly when it
    is next in that order, a call out of order changes nothing, and the whole struct is
    what the RFC gives for the calls that succeeded, with the secrets that are used up
    overwritten.  A call that is next in order fails only when memory is refused or its
    context is longer than the 255 octets a label holds; the struct is then partly
    derived, and nothing is said of later calls.  Without such a call the sequence runs
    to its end. *)
Theorem tls13_key_schedule_rfc8446 resumption cs :
  Forall call_octets cs ->
  match tls13_secrets_create malloc_ok md resumption with
  | UB => False
  | Fail _ => refused malloc_ok
  | Ret _ st => exists calls rest, cs = calls ++ rest /\
      exec_calls malloc_ok stack calls st = (let '(rs, s) := spec_calls Fresh calls in Ret rs (rfc_state resumption false s)) /\
      match rest with
      | [] => True
      | c :: _ => let s := (spec_calls Fresh calls).2 in spec_call s c <> None /\ (refused malloc_ok \/ too_long c) /\
          exists st', exec_call malloc_ok stack c (rfc_state resumption false s) = Fail st'
      end
  end.
Proof using HL Hstack.
  intros Hcs. pose proof (create_ok resumption) as Hc. destruct (tls13_secrets_create _ _ _) as [[] st|st|]; [|done..].
  subst st. by apply calls_until.
Qed.

(** C33. The exporter is that of RFC 8446, section 7.5, on the secrets of a completed
    schedule: the buffer gets the exported octets, none and the empty context being
    the same.  It fails before the handshake is completed, on a label that does not fit, on an
    empty output or one longer than HKDF or the length field allows, and when memory
    is refused; it never has undefined behaviour. *)
Theorem tls13_exporter_rfc8446 resumption insecure psk c1 ecdhe c2 c3 nc ns completed label context_value out :
  Forall is_byte label -> zlen label < 2 ^ 62 -> Forall is_byte (default [] context_value) -> zlen out < 2 ^ 64 ->
  let ms := master_secret (Extract hmac hl) (Derive_Secret hmac hl) (hash []) (zrep hl 0) psk ecdhe in
  match tls13_exporter malloc_ok completed (rfc_state resumption insecure (Application psk c1 ecdhe c2 c3 nc ns)) label context_value out with
  | Ret _ out' => completed = true /\
      out' = Exporter hmac hash hl (Derive_Secret hmac hl ms (str "exp master") c3) label (default [] context_value) (zlen out)
  | Fail out' => zlen out' = zlen out /\
      (completed = false \/ 249 < zlen label \/ zlen out = 0 \/ 255 * hl < zlen out \/ 2 ^ 16 <= zlen out \/ refused malloc_ok)
  | UB => False
  end.
Proof using HL.
  clear stack Hstack. intros Hlb Hll Hcb Ho ms. set (st := rfc_state _ _ _).
  assert (Hst : ks_digest st = Some md /\ exporter_master st = secret_of (Derive_Secret hmac hl ms (str "exp master") c3) /\ empty_hash st = secret_of (hash [])) by done.
  destruct Hst as (Hd & He & Hh). clearbody st. pose proof (digest_like_expand md hash ms (str "exp master") c3) as Hem. set (em := Derive_Secret _ _ ms _ c3) in *.
  clearbody em. pose proof (hl_pos md hash) as Hpos. destruct (digest_sizes (hash := hash)) as ([_ Hmax] & _).
  assert (Hs : EVP_MD_size (Some md) = hl) by done.
  enough (H : wp (tls13_exporter malloc_ok completed st label context_value) out (fun _ out' => completed = true /\
      out' = Exporter hmac hash hl em label (default [] context_value) (zlen out))
    (fun out' => zlen out' = zlen out /\ (completed = false \/ 249 < zlen label \/ zlen out = 0 \/ 255 * hl < zlen out \/ 2 ^ 16 <= zlen out \/ refused malloc_ok))).
  { unfold wp in H. by destruct (tls13_exporter _ _ _ _ _ _). }
  unfold tls13_exporter. apply wp_bind, wp_check; [intros Hcomp|intros Hcomp; split; [done|by left]]. cbv zeta. rewrite Hd, Hs.
  assert (HE : refused malloc_ok -> zlen out = zlen out /\ (completed = false \/ 249 < zlen label \/ zlen out = 0 \/ 255 * hl < zlen out \/ 2 ^ 16 <= zlen out \/ refused malloc_ok)).
  { intros Hr. split; [done|]. by do 5 right. }
  apply wp_bind, wp_check; [intros _|intros Hbad%negb_false_iff%orb_true_iff; destruct Hbad as [Hbad%Z.leb_le|Hbad%Z.ltb_lt]; lia].
  apply wp_bind, wp_on_local, wp_secret_init; [lia| |done]. apply wp_bind, wp_on_local, wp_secret_init; [lia| |done].
  apply wp_bind. eapply wp_valid; [reflexivity|]. apply wp_bind, wp_on_local, wp_hash_once; [done| |intros Hr c'; by apply HE]. intros _.
  assert (Hz : zlen (zrep hl 0) = hl) by (apply zlen_rep; lia).
  destruct (digest_like_hash md hash (default [] context_value)) as [Hcl Hcxb]. apply wp_bind, wp_on_local, wp_put_digest; [by rewrite Hz|].
  apply wp_bind, wp_check; [intros _|rewrite Hcl, Z.eqb_refl; done].
  destruct (digest_like_hash md hash []) as [Hel Heb]. unfold EVP_MAX_MD_SIZE in Hmax.
  apply wp_bind, wp_on_local. rewrite He, Hh.
  eapply (wp_expand_label malloc_ok md hash em label _ (hash []) (zrep hl 0)); [by apply (digest_like_key md hash)|done|lia|apply octets_of_secret|done|lia|lia| |].
  - intros _ _. rewrite Hz. change (HKDF_Expand_Label hmac hl em label (hash []) hl) with (Derive_Secret hmac hl em label (hash [])).
    set (es := Derive_Secret hmac hl em label (hash [])). unfold export_into.
    enough (H : wp (tls13_hkdf_expand_label malloc_ok md (secret_of es) (str "exporter") (secret_of (hash (default [] context_value)))) (secret_of out)
      (fun _ s => completed = true /\ default [] (ts_data s) = Exporter hmac hash hl em label (default [] context_value) (zlen out))
      (fun s => zlen (default [] (ts_data s)) = zlen out /\
        (completed = false \/ 249 < zlen label \/ zlen out = 0 \/ 255 * hl < zlen out \/ 2 ^ 16 <= zlen out \/ refused malloc_ok))).
    { unfold wp in *. change (mkSecret (Some out) (zlen out)) with (secret_of out). by destruct (tls13_hkdf_expand_label _ _ _ _ _ _). }
    eapply (wp_expand_label malloc_ok md hash es); [apply (digest_like_key md hash), (digest_like_expand md hash)|apply is_byte_str|by vm_compute|apply octets_of_secret|done|lia|done| |].
    + intros _ _. by split.
    + intros o' Hno Hl'. split; [done|]. destruct Hno as [Hno|[Hno|[Hno|Hno]]]; [by do 2 right; left|by do 3 right; left| |by do 5 right].
      do 4 right. left. unfold label_fits in Hno. assert (E : zlen (tls13_plabel ++ str "exporter") = 14) by done.
      rewrite E, Hcl, !andb_false_iff in Hno. destruct Hno as [[Hno%Z.ltb_ge|Hno]|Hno%Z.ltb_ge]; [lia|done|lia].
  - intros o' Hno _. rewrite Hz in Hno. split; [done|]. destruct Hno as [Hno|[Hno|[Hno|Hno]]]; [lia|lia| |by do 5 right]. right. left.
    unfold label_fits in Hno. assert (E : zlen tls13_plabel = 6) by done. rewrite zlen_app, E, Hel, !andb_false_iff in Hno.
    destruct Hno as [[Hno%Z.ltb_ge|Hno%Z.ltb_ge]|Hno%Z.ltb_ge]; lia.
Qed.
End schedule.

(** ** A concrete run *)

Abbreviation sha256 := (sha2_32 SHA256_Init).
Abbreviation sha256_extract := (Extract (rfc_hmac sha256 64) 32).
Abbreviation sha256_derive := (Derive_Secret (rfc_hmac sha256 64) 32).

(** The key share of RFC 8448, section 3. *)
Definition sample_ecdhe : list Z := be_bytes 32 0x8bd4054fb55b9d63fdfbacf9f04b9f0d35e6d63f537563efd46272900f89492d.

(** Out of order, in order, twice, and the updates. *)
Definition sample_calls : list derivation :=
  [DeriveHandshake sample_ecdhe (zrep 32 2); DeriveEarly (zrep 32 0) []; UpdateClient; DeriveHandshake sample_ecdhe (zrep 32 2);
   DeriveHandshake sample_ecdhe (zrep 32 2); DeriveApplication (zrep 32 3); UpdateClient; UpdateServer; UpdateClient].

Lemma zero_stack_ok {D} : zlen (hm_key (zero_HMAC_CTX (D := D))) = HMAC_MAX_MD_CBLOCK /\ Forall is_byte (hm_key (zero_HMAC_CTX (D := D))).
Proof. split; [done|by apply is_byte_zrep]. Qed.

(** A handshake secret is wiped before the derivations that need it are done: a call that
    fails after that, here on its context, and is made again succeeds from zeros. *)
Lemma retried_derivation_from_zeros :
  match tls13_secrets_create (fun _ => true) sha256_md false with
  | Ret _ st =>
      match exec_calls (fun _ => true) zero_HMAC_CTX
        [DeriveEarly (zrep 32 0) []; DeriveHandshake sample_ecdhe (zrep 256 2); DeriveHandshake sample_ecdhe (zrep 32 2)] st with
      | Ret rs st => rs = [true; false; true] /\
          client_handshake_traffic st = secret_of (sha256_derive (sha256_extract (zrep 32 0) sample_ecdhe) (str "c hs traffic") (zrep 32 2))
      | _ => False
      end
  | _ => False
  end.
Proof. vm_compute. by split. Qed.

(** The handshake secret is that of RFC 8448. *)
Lemma tls13_key_schedule_rfc8446_witness :
  let hs := handshake_secret sha256_extract sha256_derive (sha256 []) (zrep 32 0) (zrep 32 0) sample_ecdhe in
  be_val hs = 0x1dc826e93606aa6fdc0aadc12f741b01046aa6b99f691ed221a9f0ca043fbeac /\
  spec_calls Fresh sample_calls = ([false; true; false; true; false; true; true; true; true],
    Application (zrep 32 0) [] sample_ecdhe (zrep 32 2) (zrep 32 3) 2 1) /\
  Forall call_octets sample_calls /\
  match tls13_secrets_create (fun _ => true) sha256_md true with
  | UB => False
  | Fail _ => refused (fun _ => true)
  | Ret _ st => exists calls rest, sample_calls = calls ++ rest /\
      exec_calls (fun _ => true) zero_HMAC_CTX calls st =
        (let '(rs, s) := spec_calls Fresh calls in Ret rs (rfc_state sha256_md sha256 true false s)) /\
      match rest with
      | [] => True
      | c :: _ => let s := (spec_calls Fresh calls).2 in spec_call s c <> None /\ (refused (fun _ => true) \/ too_long c) /\
          exists st', exec_call (fun _ => true) zero_HMAC_CTX c (rfc_state sha256_md sha256 true false s) = Fail st'
      end
  end.
Proof.
  intros hs. split; [vm_compute; reflexivity|]. split; [reflexivity|].
  assert (Hok : Forall call_octets sample_calls) by (apply (bool_decide_unpack _); vm_compute; exact I).
  split; [exact Hok|].
  apply (tls13_key_schedule_rfc8446 (fun _ => true) sha256_md sha256 zero_HMAC_CTX zero_stack_ok true sample_calls). exact Hok.
Defined.

Lemma tls13_exporter_rfc8446_witness :
  let st := rfc_state sha256_md sha256 true false (Application (zrep 32 0) [] sample_ecdhe (zrep 32 2) (zrep 32 3) 0 0) in
  let ms := master_secret sha256_extract sha256_derive (sha256 []) (zrep 32 0) (zrep 32 0) sample_ecdhe in
  match tls13_exporter (fun _ => true) true st (str "label") None (zrep 33 7) with Ret _ out' => zlen out' = 33 | _ => False end /\
  match tls13_exporter (fun _ => true) true st (str "label") None (zrep 33 7) with
  | Ret _ out' => true = true /\
      out' = Exporter (rfc_hmac sha256 64) sha256 32 (sha256_derive ms (str "exp master") (zrep 32 3)) (str "label") [] (zlen (zrep 33 7))
  | Fail out' => zlen out' = zlen (zrep 33 7) /\ (true = false \/ 249 < zlen (str "label") \/ zlen (zrep 33 7) = 0 \/ 255 * 32 < zlen (zrep 33 7) \/
      2 ^ 16 <= zlen (zrep 33 7) \/ refused (fun _ => true))
  | UB => False
  end.
Proof.
  intros st ms. split; [vm_compute; reflexivity|].
  apply (tls13_exporter_rfc8446 (fun _ => true) sha256_md sha256 true false (zrep 32 0) [] sample_ecdhe (zrep 32 2) (zrep 32 3) 0 0 true (str "label") None (zrep 33 7));
    [apply is_byte_str|by vm_compute|constructor|by vm_compute].
Defined.
