(* ===== verification/BnWord.v ===== *)
(** * Word primitives of libcrypto/bn/bn_internal.h and bn_primitives.c

    A [BN_ULONG] is a 64-bit word ([BN_BITS2] is 64), a [Z] with explicit
    wrap-around.  These are the portable definitions, those compiled when the
    architecture provides no assembly ([HAVE_BN_*] unset) and there is no
    double-word type ([BN_ULLONG] unset).  Output parameters are results, in
    the order of the C parameter lists. *)

From S2P Require Import Prelude.
Open Scope Z_scope.

Definition BN_BITS2 : Z := 64.
Definition BN_BITS4 : Z := 32.
Definition BN_MASK2 : Z := 0xffffffffffffffff.
Definition BN_MASK2l : Z := 0xffffffff.
Definition BN_MASK2h : Z := 0xffffffff00000000.

(** [~w], [w << n], [w >> n] on words. *)
Definition wnot (w : Z) : Z := u64 (Z.lnot w).
Definition wshl (w n : Z) : Z := u64 (Z.shiftl w n).
Definition wshr (w n : Z) : Z := Z.shiftr w n.

(** ** Definitions *)

Definition bn_ct_ne_zero (w : Z) : Z := wshr (Z.lor w (wnot (u64 (w - 1)))) (BN_BITS2 - 1).
Definition bn_ct_ne_zero_mask (w : Z) : Z := u64 (0 - bn_ct_ne_zero w).
Definition bn_ct_eq_zero (w : Z) : Z := 1 - bn_ct_ne_zero w.
Definition bn_ct_eq_zero_mask (w : Z) : Z := u64 (0 - bn_ct_eq_zero w).

(** The loop [while ((shift >>= 1) != 0)]: from [shift = 64] it makes six
    iterations; the fuel is the number of bits of [shift]. *)
Fixpoint bn_word_clz_loop (fuel : nat) (w bits mask shift : Z) : Z * Z :=
  match fuel with
  | O => (bits, mask)
  | S fuel =>
      let shift := wshr shift 1 in
      if shift =? 0 then (bits, mask)
      else
        let bits := u64 (bits + u64 (Z.land shift mask - Z.land shift (wnot mask))) in
        let mask := bn_ct_ne_zero_mask (wshr w bits) in
        bn_word_clz_loop fuel w bits mask shift
  end.

Definition bn_word_clz (w : Z) : Z :=
  let '(bits, mask) := bn_word_clz_loop 7 w BN_BITS2 0 BN_BITS2 in
  let bits := u64 (bits + Z.land 1 mask) in
  let bits := u64 (bits - bn_ct_eq_zero w) in
  u64 (BN_BITS2 - bits).

Definition bn_clzw (w : Z) : Z := bn_word_clz w.
Definition BN_num_bits_word (w : Z) : Z := BN_BITS2 - bn_clzw w.

(** (r1, r0) *)
Definition bn_addw (a b : Z) : Z * Z :=
  let c1 := Z.lor a b in
  let c2 := Z.land a b in
  let r0 := u64 (a + b) in
  let r1 := wshr (Z.lor (Z.land c1 (wnot r0)) c2) (BN_BITS2 - 1) in
  (r1, r0).

(** (r1, r0) *)
Definition bn_addw_addw (a b c : Z) : Z * Z :=
  let '(r1, r0) := bn_addw a b in
  let '(carry, r0) := bn_addw r0 c in
  let r1 := u64 (r1 + carry) in
  (r1, r0).

(** (carry, r3, r2, r1, r0) *)
Definition bn_qwaddqw (a3 a2 a1 a0 b3 b2 b1 b0 carry : Z) : Z * Z * Z * Z * Z :=
  let '(carry, r0) := bn_addw_addw a0 b0 carry in
  let '(carry, r1) := bn_addw_addw a1 b1 carry in
  let '(carry, r2) := bn_addw_addw a2 b2 carry in
  let '(carry, r3) := bn_addw_addw a3 b3 carry in
  (carry, r3, r2, r1, r0).

(** (borrow, r0) *)
Definition bn_subw (a b : Z) : Z * Z :=
  let r0 := u64 (a - b) in
  let borrow :=
    wshr (Z.land (Z.lor r0 (Z.land b (wnot a))) (Z.lor b (wnot a))) (BN_BITS2 - 1) in
  (borrow, r0).

(** (borrow, r0) *)
Definition bn_subw_subw (a b c : Z) : Z * Z :=
  let '(b1, r0) := bn_subw a b in
  let '(b2, r0) := bn_subw r0 c in
  (u64 (b1 + b2), r0).

(** (borrow, r3, r2, r1, r0) *)
Definition bn_qwsubqw (a3 a2 a1 a0 b3 b2 b1 b0 borrow : Z) : Z * Z * Z * Z * Z :=
  let '(borrow, r0) := bn_subw_subw a0 b0 borrow in
  let '(borrow, r1) := bn_subw_subw a1 b1 borrow in
  let '(borrow, r2) := bn_subw_subw a2 b2 borrow in
  let '(borrow, r3) := bn_subw_subw a3 b3 borrow in
  (borrow, r3, r2, r1, r0).

(** (r1, r0) *)
Definition bn_mulw (a b : Z) : Z * Z :=
  let a1 := wshr a BN_BITS4 in
  let a0 := Z.land a BN_MASK2l in
  let b1 := wshr b BN_BITS4 in
  let b0 := Z.land b BN_MASK2l in
  let r1 := u64 (a1 * b1) in
  let r0 := u64 (a0 * b0) in
  let x := u64 (a1 * b0) in
  let r1 := u64 (r1 + wshr x BN_BITS4) in
  let '(carry, r0) := bn_addw r0 (wshl x BN_BITS4) in
  let r1 := u64 (r1 + carry) in
  let x := u64 (b1 * a0) in
  let r1 := u64 (r1 + wshr x BN_BITS4) in
  let '(carry, r0) := bn_addw r0 (wshl x BN_BITS4) in
  let r1 := u64 (r1 + carry) in
  (r1, r0).

Definition bn_mulw_lo (a b : Z) : Z := u64 (a * b).
Definition bn_mulw_hi (a b : Z) : Z := let '(h, _) := bn_mulw a b in h.

(** (r1, r0) *)
Definition bn_mulw_addw (a b c : Z) : Z * Z :=
  let '(r1, r0) := bn_mulw a b in
  let '(carry, r0) := bn_addw r0 c in
  let r1 := u64 (r1 + carry) in
  (r1, r0).

(** (r1, r0) *)
Definition bn_mulw_addw_addw (a b c d : Z) : Z * Z :=
  let '(r1, r0) := bn_mulw_addw a b c in
  let '(carry, r0) := bn_addw r0 d in
  let r1 := u64 (r1 + carry) in
  (r1, r0).

(** (r2, r1, r0) *)
Definition bn_mulw_addtw (a b c2 c1 c0 : Z) : Z * Z * Z :=
  let '(x1, r0) := bn_mulw_addw a b c0 in
  let '(carry, r1) := bn_addw c1 x1 in
  let r2 := u64 (c2 + carry) in
  (r2, r1, r0).

(** (r2, r1, r0) *)
Definition bn_mul2_mulw_addtw (a b c2 c1 c0 : Z) : Z * Z * Z :=
  let '(x1, x0) := bn_mulw a b in
  let '(carry, r0) := bn_addw c0 x0 in
  let '(r2, r1) := bn_addw c1 (u64 (x1 + carry)) in
  let '(carry, r2) := bn_addw c2 r2 in
  let '(carry, r0) := bn_addw r0 x0 in
  let '(carry, r1) := bn_addw r1 (u64 (x1 + carry)) in
  let r2 := u64 (r2 + carry) in
  (r2, r1, r0).

(** (r4, r3, r2, r1, r0) *)
Definition bn_qwmulw_addw (a3 a2 a1 a0 b c : Z) : Z * Z * Z * Z * Z :=
  let '(c, r0) := bn_mulw_addw a0 b c in
  let '(c, r1) := bn_mulw_addw a1 b c in
  let '(c, r2) := bn_mulw_addw a2 b c in
  let '(c, r3) := bn_mulw_addw a3 b c in
  (c, r3, r2, r1, r0).

(** (r4, r3, r2, r1, r0) *)
Definition bn_qwmulw_addqw_addw (a3 a2 a1 a0 b c3 c2 c1 c0 d : Z) : Z * Z * Z * Z * Z :=
  let '(d, r0) := bn_mulw_addw_addw a0 b c0 d in
  let '(d, r1) := bn_mulw_addw_addw a1 b c1 d in
  let '(d, r2) := bn_mulw_addw_addw a2 b c2 d in
  let '(d, r3) := bn_mulw_addw_addw a3 b c3 d in
  (d, r3, r2, r1, r0).

(** ** Lemmas: words and their bits *)

Abbreviation W := (2 ^ 64) (only parsing).

Lemma u64_word x : is_word (u64 x).
Proof. apply Z.mod_pos_bound. lia. Qed.

Lemma u64_cases x : - W <= x < 2 * W ->
  (x < 0 /\ u64 x = x + W) \/ (0 <= x < W /\ u64 x = x) \/ (W <= x /\ u64 x = x - W).
Proof.
  intros Hx. unfold u64. destruct (Z.lt_ge_cases x 0); [|destruct (Z.lt_ge_cases x W)].
  - left. split; [done|]. symmetry. apply Z.mod_unique with (-1); lia.
  - right; left. split; [lia|]. apply Z.mod_small. lia.
  - right; right. split; [done|]. symmetry. apply Z.mod_unique with 1; lia.
Qed.

Lemma wnot_word w : is_word w -> wnot w = W - 1 - w.
Proof.
  intros Hw. unfold wnot, u64, is_word in *. unfold Z.lnot. symmetry. apply Z.mod_unique with (-1); lia.
Qed.

Lemma testbit_top_word w : is_word w -> Z.testbit w 63 = (2 ^ 63 <=? w).
Proof. intros Hw. apply testbit_top; [lia|]. exact Hw. Qed.

Lemma testbit_top_wnot w : is_word w -> Z.testbit (wnot w) 63 = negb (2 ^ 63 <=? w).
Proof.
  intros Hw. rewrite testbit_top_word by apply u64_word. rewrite wnot_word by done.
  unfold is_word in Hw. destruct (Z.leb_spec (2 ^ 63) w), (Z.leb_spec (2 ^ 63) (W - 1 - w)); cbn; try done; lia.
Qed.

Lemma word_high_bits w i : is_word w -> 64 <= i -> Z.testbit w i = false.
Proof.
  intros [H0 H1] Hi. destruct (Z.eq_dec w 0) as [->|]; [apply Z.bits_0|].
  apply Z.bits_above_log2; [done|]. assert (Z.log2 w < 64) by (apply Z.log2_lt_pow2; lia). lia.
Qed.

Lemma is_word_bits w : 0 <= w -> (forall i, 64 <= i -> Z.testbit w i = false) -> is_word w.
Proof.
  intros H0 H. split; [done|]. destruct (Z.eq_dec w 0) as [->|]; [lia|].
  apply Z.log2_lt_pow2; [lia|]. apply Z.nle_gt. intros Hl.
  specialize (H (Z.log2 w) Hl). rewrite Z.bit_log2 in H by lia. done.
Qed.

Lemma is_word_land a b : is_word a -> is_word b -> is_word (Z.land a b).
Proof.
  intros Ha Hb. apply is_word_bits; [apply Z.land_nonneg; left; apply Ha|].
  intros. rewrite Z.land_spec, (word_high_bits a) by done. done.
Qed.

Lemma is_word_lor a b : is_word a -> is_word b -> is_word (Z.lor a b).
Proof.
  intros Ha Hb. apply is_word_bits; [apply Z.lor_nonneg; split; [apply Ha|apply Hb]|].
  intros. by rewrite Z.lor_spec, (word_high_bits a), (word_high_bits b) by done.
Qed.

(** The sign bit of a word. *)
Lemma shr_63 w : is_word w -> wshr w 63 = Z.b2z (Z.testbit w 63).
Proof.
  intros Hw. unfold wshr. rewrite testbit_top_word by done. unfold is_word in Hw.
  rewrite Z.shiftr_div_pow2 by lia. destruct (Z.leb_spec (2 ^ 63) w).
  - symmetry. apply Z.div_unique with (w - 2 ^ 63); cbn [Z.b2z]; lia.
  - apply Z.div_small. lia.
Qed.

(** Name the results of a call from what its lemma says of them. *)
Ltac call lem :=
  let H := fresh "Hcall" in
  pose proof lem as H;
  lazymatch type of H with
  | let '(_, _) := ?t in _ => destruct t as [? ?]
  end; cbv beta iota zeta in H.

(** ** Lemmas: what the primitives compute *)

Lemma bn_ct_ne_zero_spec w : is_word w -> bn_ct_ne_zero w = if w =? 0 then 0 else 1.
Proof.
  intros Hw. unfold bn_ct_ne_zero. change (BN_BITS2 - 1) with 63.
  rewrite shr_63 by (apply is_word_lor; [done|apply u64_word]).
  rewrite Z.lor_spec, testbit_top_wnot by apply u64_word. rewrite !testbit_top_word by (done || apply u64_word).
  destruct (u64_cases (w - 1)) as [[? ->]|[[? ->]|[? _]]]; unfold is_word in Hw; try lia;
    destruct (Z.eqb_spec w 0); try lia;
    destruct (Z.leb_spec (2 ^ 63) w), (Z.leb_spec (2 ^ 63) (w - 1)); cbn; try lia;
    destruct (Z.leb_spec (2 ^ 63) (w - 1 + W)); cbn; lia.
Qed.

Lemma bn_addw_spec a b :
  is_word a -> is_word b ->
  let '(r1, r0) := bn_addw a b in
  is_word r0 /\ 0 <= r1 <= 1 /\ r1 * W + r0 = a + b.
Proof.
  intros Ha Hb. unfold bn_addw. change (BN_BITS2 - 1) with 63. cbv zeta.
  assert (Hr : is_word (u64 (a + b))) by apply u64_word.
  split; [done|]. rewrite shr_63 by (apply is_word_lor; [apply is_word_land; [by apply is_word_lor|apply u64_word]|by apply is_word_land]).
  rewrite !Z.lor_spec, !Z.land_spec, Z.lor_spec, testbit_top_wnot, !testbit_top_word by done.
  unfold is_word in Ha, Hb.
  destruct (u64_cases (a + b)) as [[? ->]|[[? ->]|[? ->]]]; try lia;
    destruct (Z.leb_spec (2 ^ 63) a), (Z.leb_spec (2 ^ 63) b); cbn [orb andb];
    rewrite ?andb_true_l, ?andb_false_l, ?orb_true_r, ?orb_false_r; cbn [Z.b2z negb]; try lia;
    match goal with |- context [?x <=? ?y] => destruct (Z.leb_spec x y) end; cbn [Z.b2z negb]; lia.
Qed.

Lemma bn_subw_spec a b :
  is_word a -> is_word b ->
  let '(borrow, r0) := bn_subw a b in
  is_word r0 /\ 0 <= borrow <= 1 /\ r0 - borrow * W = a - b.
Proof.
  intros Ha Hb. unfold bn_subw. change (BN_BITS2 - 1) with 63. cbv zeta.
  assert (Hr : is_word (u64 (a - b))) by apply u64_word.
  assert (Hn : is_word (wnot a)) by apply u64_word.
  split; [done|].
  rewrite shr_63 by (apply is_word_land; apply is_word_lor; try done; by apply is_word_land).
  rewrite !Z.land_spec, !Z.lor_spec, Z.land_spec, testbit_top_wnot, !testbit_top_word by done.
  unfold is_word in Ha, Hb.
  destruct (u64_cases (a - b)) as [[? ->]|[[? ->]|[? ->]]]; try lia;
    destruct (Z.leb_spec (2 ^ 63) a), (Z.leb_spec (2 ^ 63) b); cbn [negb andb orb];
    match goal with |- context [?x <=? ?y] => destruct (Z.leb_spec x y) end; cbn [Z.b2z negb orb andb]; lia.
Qed.

Lemma is_word_carry c : 0 <= c <= 1 -> is_word c.
Proof. unfold is_word. lia. Qed.

Lemma u64_mod_eq x y q : is_word y -> x = y + q * W -> u64 x = y.
Proof. intros Hy ->. unfold u64. rewrite Z_mod_plus_full. by apply Z.mod_small. Qed.

Lemma u64_add_l x y : u64 (u64 x + y) = u64 (x + y).
Proof. apply Zplus_mod_idemp_l. Qed.

Lemma bn_addw_addw_spec a b c :
  is_word a -> is_word b -> is_word c ->
  let '(r1, r0) := bn_addw_addw a b c in
  is_word r0 /\ 0 <= r1 <= 2 /\ r1 * W + r0 = a + b + c.
Proof.
  intros Ha Hb Hc. unfold bn_addw_addw.
  call (bn_addw_spec a b Ha Hb). destruct Hcall as (Hr & Hc1 & E1).
  call (bn_addw_spec _ c Hr Hc). destruct Hcall as (Hr' & Hc2 & E2).
  rewrite u64_small by (unfold is_word; lia). split; [done|]. lia.
Qed.

Lemma bn_subw_subw_spec a b c :
  is_word a -> is_word b -> is_word c ->
  let '(borrow, r0) := bn_subw_subw a b c in
  is_word r0 /\ 0 <= borrow <= 2 /\ r0 - borrow * W = a - b - c.
Proof.
  intros Ha Hb Hc. unfold bn_subw_subw.
  call (bn_subw_spec a b Ha Hb). destruct Hcall as (Hr & Hc1 & E1).
  call (bn_subw_spec _ c Hr Hc). destruct Hcall as (Hr' & Hc2 & E2).
  rewrite u64_small by (unfold is_word; lia). split; [done|]. lia.
Qed.

(** Four words, least significant first. *)
Definition quad (w3 w2 w1 w0 : Z) : Z := w0 + W * (w1 + W * (w2 + W * w3)).

Lemma bn_qwaddqw_spec a3 a2 a1 a0 b3 b2 b1 b0 c :
  Forall is_word [a3; a2; a1; a0; b3; b2; b1; b0] -> 0 <= c <= 1 ->
  let '(c', r3, r2, r1, r0) := bn_qwaddqw a3 a2 a1 a0 b3 b2 b1 b0 c in
  Forall is_word [r3; r2; r1; r0] /\ 0 <= c' <= 1 /\
  quad r3 r2 r1 r0 + c' * W ^ 4 = quad a3 a2 a1 a0 + quad b3 b2 b1 b0 + c.
Proof.
  intros Hw Hc. rewrite !Forall_cons in Hw. destruct Hw as (? & ? & ? & ? & ? & ? & ? & ? & _).
  unfold bn_qwaddqw, quad.
  call (bn_addw_addw_spec a0 b0 c ltac:(done) ltac:(done) (is_word_carry _ Hc)). destruct Hcall as (? & ? & ?).
  assert (Hc0 : 0 <= z <= 1) by (unfold is_word in *; lia).
  call (bn_addw_addw_spec a1 b1 z ltac:(done) ltac:(done) (is_word_carry _ Hc0)). destruct Hcall as (? & ? & ?).
  assert (Hc1 : 0 <= z1 <= 1) by (unfold is_word in *; lia).
  call (bn_addw_addw_spec a2 b2 z1 ltac:(done) ltac:(done) (is_word_carry _ Hc1)). destruct Hcall as (? & ? & ?).
  assert (Hc2 : 0 <= z3 <= 1) by (unfold is_word in *; lia).
  call (bn_addw_addw_spec a3 b3 z3 ltac:(done) ltac:(done) (is_word_carry _ Hc2)). destruct Hcall as (? & ? & ?).
  split; [by rewrite !Forall_cons|]. split; [unfold is_word in *; lia|].
  change (W ^ 4) with (W * (W * (W * W))). lia.
Qed.

Lemma bn_qwsubqw_spec a3 a2 a1 a0 b3 b2 b1 b0 c :
  Forall is_word [a3; a2; a1; a0; b3; b2; b1; b0] -> 0 <= c <= 1 ->
  let '(c', r3, r2, r1, r0) := bn_qwsubqw a3 a2 a1 a0 b3 b2 b1 b0 c in
  Forall is_word [r3; r2; r1; r0] /\ 0 <= c' <= 1 /\
  quad r3 r2 r1 r0 - c' * W ^ 4 = quad a3 a2 a1 a0 - quad b3 b2 b1 b0 - c.
Proof.
  intros Hw Hc. rewrite !Forall_cons in Hw. destruct Hw as (? & ? & ? & ? & ? & ? & ? & ? & _).
  unfold bn_qwsubqw, quad.
  call (bn_subw_subw_spec a0 b0 c ltac:(done) ltac:(done) (is_word_carry _ Hc)). destruct Hcall as (? & ? & ?).
  assert (Hc0 : 0 <= z <= 1) by (unfold is_word in *; lia).
  call (bn_subw_subw_spec a1 b1 z ltac:(done) ltac:(done) (is_word_carry _ Hc0)). destruct Hcall as (? & ? & ?).
  assert (Hc1 : 0 <= z1 <= 1) by (unfold is_word in *; lia).
  call (bn_subw_subw_spec a2 b2 z1 ltac:(done) ltac:(done) (is_word_carry _ Hc1)). destruct Hcall as (? & ? & ?).
  assert (Hc2 : 0 <= z3 <= 1) by (unfold is_word in *; lia).
  call (bn_subw_subw_spec a3 b3 z3 ltac:(done) ltac:(done) (is_word_carry _ Hc2)). destruct Hcall as (? & ? & ?).
  split; [by rewrite !Forall_cons|]. split; [unfold is_word in *; lia|].
  change (W ^ 4) with (W * (W * (W * W))). lia.
Qed.

(** The halves of a word. *)
Lemma halves a : is_word a ->
  0 <= wshr a BN_BITS4 < 2 ^ 32 /\ 0 <= Z.land a BN_MASK2l < 2 ^ 32 /\
  a = wshr a BN_BITS4 * 2 ^ 32 + Z.land a BN_MASK2l.
Proof.
  intros [H0 H1]. unfold wshr, BN_BITS4, BN_MASK2l. rewrite Z.shiftr_div_pow2 by lia.
  change 0xffffffff with (2 ^ 32 - 1). rewrite land_ones_mod by lia.
  pose proof (Z.mod_pos_bound a (2 ^ 32)). pose proof (Z.div_mod a (2 ^ 32)).
  split; [split; [apply Z.div_pos; lia|apply Z.div_lt_upper_bound; lia]|]. lia.
Qed.

(** A partial product moved up by half a word. *)
Lemma wshl_half x : is_word x ->
  is_word (wshl x BN_BITS4) /\ wshr x BN_BITS4 * W + wshl x BN_BITS4 = x * 2 ^ 32.
Proof.
  intros Hx. split; [apply u64_word|]. destruct (halves x Hx) as (Hh & Hl & E).
  unfold wshl. rewrite Z.shiftl_mul_pow2 by (unfold BN_BITS4; lia). change (2 ^ BN_BITS4) with (2 ^ 32).
  rewrite (u64_mod_eq _ (Z.land x BN_MASK2l * 2 ^ 32) (wshr x BN_BITS4)); unfold is_word; lia.
Qed.

Lemma bn_mulw_spec a b :
  is_word a -> is_word b ->
  let '(r1, r0) := bn_mulw a b in
  is_word r1 /\ is_word r0 /\ r1 * W + r0 = a * b.
Proof.
  intros Ha Hb. unfold bn_mulw. destruct (halves a Ha) as (Ha1 & Ha0 & Ea).
  destruct (halves b Hb) as (Hb1 & Hb0 & Eb).
  set (a1 := wshr a BN_BITS4) in *. set (a0 := Z.land a BN_MASK2l) in *.
  set (b1 := wshr b BN_BITS4) in *. set (b0 := Z.land b BN_MASK2l) in *.
  assert (Hp : forall x y, 0 <= x < 2 ^ 32 -> 0 <= y < 2 ^ 32 -> is_word (x * y)) by (unfold is_word; nia).
  cbv zeta. rewrite !(u64_small (_ * _)) by (by apply Hp).
  destruct (wshl_half (a1 * b0) (Hp _ _ Ha1 Hb0)) as [Hw1 Ex1].
  destruct (wshl_half (b1 * a0) (Hp _ _ Hb1 Ha0)) as [Hw2 Ex2].
  call (bn_addw_spec (a0 * b0) (wshl (a1 * b0) BN_BITS4) (Hp _ _ Ha0 Hb0) Hw1). destruct Hcall as (Hr & Hc & E1).
  call (bn_addw_spec _ (wshl (b1 * a0) BN_BITS4) Hr Hw2). destruct Hcall as (Hr' & Hc' & E2).
  split; [apply u64_word|]. split; [done|].
  assert (Hprod : a * b < W * W) by (unfold is_word in *; nia).
  assert (Hnn : 0 <= a * b) by (unfold is_word in *; nia).
  assert (Hab : a * b = a1 * b1 * W + a1 * b0 * 2 ^ 32 + b1 * a0 * 2 ^ 32 + a0 * b0) by (rewrite Ea, Eb; ring).
  set (t := a1 * b1 + wshr (a1 * b0) BN_BITS4 + z + wshr (b1 * a0) BN_BITS4 + z1).
  assert (Ht : t * W + z2 = a * b) by (unfold t; lia).
  assert (Hs : u64 (u64 (u64 (u64 (a1 * b1 + wshr (a1 * b0) BN_BITS4) + z) + wshr (b1 * a0) BN_BITS4) + z1) = u64 t).
  { unfold t. by rewrite (u64_add_l (_ * _ + _)), (u64_add_l (_ * _ + _ + _)), (u64_add_l (_ * _ + _ + _ + _)). }
  rewrite Hs, u64_small; [lia|]. unfold is_word in *. lia.
Qed.

Lemma bn_mulw_addw_spec a b c :
  is_word a -> is_word b -> is_word c ->
  let '(r1, r0) := bn_mulw_addw a b c in
  is_word r1 /\ is_word r0 /\ r1 * W + r0 = a * b + c.
Proof.
  intros Ha Hb Hc. unfold bn_mulw_addw.
  call (bn_mulw_spec a b Ha Hb). destruct Hcall as (H1 & H0 & E1).
  call (bn_addw_spec _ c H0 Hc). destruct Hcall as (Hr & Hk & E2).
  assert (a * b <= (W - 1) * (W - 1)) by (unfold is_word in *; nia).
  assert (is_word (z + z1)) by (unfold is_word in *; lia).
  rewrite u64_small by done. split; [done|]. split; [done|]. lia.
Qed.

Lemma bn_mulw_addw_addw_spec a b c d :
  is_word a -> is_word b -> is_word c -> is_word d ->
  let '(r1, r0) := bn_mulw_addw_addw a b c d in
  is_word r1 /\ is_word r0 /\ r1 * W + r0 = a * b + c + d.
Proof.
  intros Ha Hb Hc Hd. unfold bn_mulw_addw_addw.
  call (bn_mulw_addw_spec a b c Ha Hb Hc). destruct Hcall as (H1 & H0 & E1).
  call (bn_addw_spec _ d H0 Hd). destruct Hcall as (Hr & Hk & E2).
  assert (a * b <= (W - 1) * (W - 1)) by (unfold is_word in *; nia).
  assert (is_word (z + z1)) by (unfold is_word in *; lia).
  rewrite u64_small by done. split; [done|]. split; [done|]. lia.
Qed.

Lemma bn_mulw_lo_hi a b :
  is_word a -> is_word b -> bn_mulw_hi a b * W + bn_mulw_lo a b = a * b.
Proof.
  intros Ha Hb. unfold bn_mulw_hi, bn_mulw_lo.
  call (bn_mulw_spec a b Ha Hb). destruct Hcall as (H1 & H0 & E).
  rewrite (u64_mod_eq _ z0 z); lia || done.
Qed.

(** Three words, least significant first. *)
Definition triple (w2 w1 w0 : Z) : Z := w0 + W * (w1 + W * w2).

Lemma bn_mulw_addtw_spec a b c2 c1 c0 :
  is_word a -> is_word b -> is_word c2 -> is_word c1 -> is_word c0 ->
  triple c2 c1 c0 + a * b < W ^ 3 ->
  let '(r2, r1, r0) := bn_mulw_addtw a b c2 c1 c0 in
  is_word r2 /\ is_word r1 /\ is_word r0 /\ triple r2 r1 r0 = triple c2 c1 c0 + a * b.
Proof.
  intros Ha Hb H2 H1 H0 Hmax. unfold bn_mulw_addtw, triple in *.
  change (W ^ 3) with (W * (W * W)) in Hmax.
  call (bn_mulw_addw_spec a b c0 Ha Hb H0). destruct Hcall as (Hx & Hr & E1).
  call (bn_addw_spec c1 z H1 Hx). destruct Hcall as (Hr1 & Hk & E2).
  rewrite (u64_small (c2 + z1)) by (unfold is_word in *; lia).
  split; [unfold is_word in *; lia|]. split; [done|]. split; [done|]. lia.
Qed.

Lemma bn_mul2_mulw_addtw_spec a b c2 c1 c0 :
  is_word a -> is_word b -> is_word c2 -> is_word c1 -> is_word c0 ->
  triple c2 c1 c0 + 2 * (a * b) < W ^ 3 ->
  let '(r2, r1, r0) := bn_mul2_mulw_addtw a b c2 c1 c0 in
  is_word r2 /\ is_word r1 /\ is_word r0 /\ triple r2 r1 r0 = triple c2 c1 c0 + 2 * (a * b).
Proof.
  intros Ha Hb H2 H1 H0 Hmax. unfold bn_mul2_mulw_addtw, triple in *.
  change (W ^ 3) with (W * (W * W)) in Hmax.
  assert (Hab : a * b <= (W - 1) * (W - 1)) by (unfold is_word in *; nia).
  call (bn_mulw_spec a b Ha Hb). destruct Hcall as (Hx1 & Hx0 & E).
  call (bn_addw_spec c0 z0 H0 Hx0). destruct Hcall as (Hr0 & Hk & E1).
  assert (Hs1 : is_word (z + z1)) by (unfold is_word in *; lia). rewrite (u64_small (z + z1)) by done.
  call (bn_addw_spec c1 (z + z1) H1 Hs1). destruct Hcall as (Hr1 & Hk1 & E2).
  assert (Hz3 : is_word z3) by (unfold is_word; lia).
  call (bn_addw_spec c2 z3 H2 Hz3). destruct Hcall as (Hr2 & Hk2 & E3).
  call (bn_addw_spec z2 z0 Hr0 Hx0). destruct Hcall as (Hr0' & Hk3 & E4).
  assert (Hs2 : is_word (z + z7)) by (unfold is_word in *; lia). rewrite (u64_small (z + z7)) by done.
  call (bn_addw_spec z4 (z + z7) Hr1 Hs2). destruct Hcall as (Hr1' & Hk4 & E5).
  assert (Htot : z8 + W * (z10 + W * (z6 + z9)) + W * (W * (W * z5)) =
    c0 + W * (c1 + W * c2) + 2 * (a * b)) by lia.
  assert (Hw : is_word (z6 + z9) /\ z5 = 0).
  { unfold is_word in *. clear - Htot Hmax Hr0' Hr1' Hr2 Hk2 Hk4. lia. }
  destruct Hw as [Hw ->]. rewrite u64_small by done. split_and!; [done..|]. lia.
Qed.

Lemma bn_qwmulw_addw_spec a3 a2 a1 a0 b c :
  Forall is_word [a3; a2; a1; a0] -> is_word b -> is_word c ->
  let '(r4, r3, r2, r1, r0) := bn_qwmulw_addw a3 a2 a1 a0 b c in
  Forall is_word [r3; r2; r1; r0] /\ is_word r4 /\
  quad r3 r2 r1 r0 + r4 * W ^ 4 = quad a3 a2 a1 a0 * b + c.
Proof.
  intros Ha Hb Hc. rewrite !Forall_cons in Ha. destruct Ha as (? & ? & ? & ? & _).
  unfold bn_qwmulw_addw, quad.
  call (bn_mulw_addw_spec a0 b c ltac:(done) Hb Hc). destruct Hcall as (Hc0 & ? & E0).
  call (bn_mulw_addw_spec a1 b z ltac:(done) Hb Hc0). destruct Hcall as (Hc1 & ? & E1).
  call (bn_mulw_addw_spec a2 b z1 ltac:(done) Hb Hc1). destruct Hcall as (Hc2 & ? & E2).
  call (bn_mulw_addw_spec a3 b z3 ltac:(done) Hb Hc2). destruct Hcall as (Hc3 & ? & E3).
  split; [by rewrite !Forall_cons|]. split; [done|].
  change (W ^ 4) with (W * (W * (W * W))). lia.
Qed.

Lemma bn_qwmulw_addqw_addw_spec a3 a2 a1 a0 b c3 c2 c1 c0 d :
  Forall is_word [a3; a2; a1; a0; c3; c2; c1; c0] -> is_word b -> is_word d ->
  let '(r4, r3, r2, r1, r0) := bn_qwmulw_addqw_addw a3 a2 a1 a0 b c3 c2 c1 c0 d in
  Forall is_word [r3; r2; r1; r0] /\ is_word r4 /\
  quad r3 r2 r1 r0 + r4 * W ^ 4 = quad a3 a2 a1 a0 * b + quad c3 c2 c1 c0 + d.
Proof.
  intros Ha Hb Hd. rewrite !Forall_cons in Ha. destruct Ha as (? & ? & ? & ? & ? & ? & ? & ? & _).
  unfold bn_qwmulw_addqw_addw, quad.
  call (bn_mulw_addw_addw_spec a0 b c0 d ltac:(done) Hb ltac:(done) Hd). destruct Hcall as (Hd0 & ? & E0).
  call (bn_mulw_addw_addw_spec a1 b c1 z ltac:(done) Hb ltac:(done) Hd0). destruct Hcall as (Hd1 & ? & E1).
  call (bn_mulw_addw_addw_spec a2 b c2 z1 ltac:(done) Hb ltac:(done) Hd1). destruct Hcall as (Hd2 & ? & E2).
  call (bn_mulw_addw_addw_spec a3 b c3 z3 ltac:(done) Hb ltac:(done) Hd2). destruct Hcall as (Hd3 & ? & E3).
  split; [by rewrite !Forall_cons|]. split; [done|].
  change (W ^ 4) with (W * (W * (W * W))). lia.
Qed.

(** *** Leading zeros *)

Lemma bn_ct_eq_zero_spec w : is_word w -> bn_ct_eq_zero w = if w =? 0 then 1 else 0.
Proof. intros Hw. unfold bn_ct_eq_zero. rewrite bn_ct_ne_zero_spec by done. by destruct (w =? 0). Qed.

Lemma bn_ct_ne_zero_mask_spec w : is_word w -> bn_ct_ne_zero_mask w = if w =? 0 then 0 else BN_MASK2.
Proof. intros Hw. unfold bn_ct_ne_zero_mask. rewrite bn_ct_ne_zero_spec by done. by destruct (w =? 0). Qed.

Lemma land_mask_word x : is_word x -> Z.land x BN_MASK2 = x.
Proof. intros Hx. change BN_MASK2 with (W - 1). rewrite land_ones_mod by lia. apply Z.mod_small, Hx. Qed.

(** The number of significant bits of a word. *)
Definition bit_length (w : Z) : Z := if w =? 0 then 0 else Z.log2 w + 1.

Lemma bit_length_word w : is_word w -> 0 <= bit_length w <= 64.
Proof.
  intros Hw. unfold bit_length. destruct (Z.eqb_spec w 0); [lia|]. unfold is_word in Hw.
  pose proof (Z.log2_nonneg w). assert (Z.log2 w < 64) by (apply Z.log2_lt_pow2; lia). lia.
Qed.

Lemma shr_is_zero w n : is_word w -> 0 <= n -> (wshr w n =? 0) = (bit_length w <=? n).
Proof.
  intros Hw Hn. unfold wshr, bit_length. rewrite Z.shiftr_div_pow2 by done. unfold is_word in Hw.
  pose proof (Z.pow_pos_nonneg 2 n). destruct (Z.eqb_spec w 0) as [->|].
  - rewrite Z.div_0_l by lia. cbn. symmetry. apply Z.leb_le. done.
  - destruct (Z.leb_spec (Z.log2 w + 1) n).
    + rewrite Z.div_small; [done|]. split; [lia|]. apply Z.log2_lt_pow2; lia.
    + apply Z.eqb_neq. assert (2 ^ n <= w) by (apply Z.log2_le_pow2; lia).
      assert (1 <= w / 2 ^ n); [|lia]. apply Z.div_le_lower_bound; lia.
Qed.

Lemma is_word_wshr w n : is_word w -> 0 <= n -> is_word (wshr w n).
Proof.
  intros Hw Hn. unfold wshr, is_word in *. rewrite Z.shiftr_div_pow2 by done.
  pose proof (Z.pow_pos_nonneg 2 n). split; [apply Z.div_pos; lia|].
  apply Z.le_lt_trans with w; [|lia]. apply Z.div_le_upper_bound; [lia|]. nia.
Qed.

(** The binary search: [bits] is off by less than the next step. *)
Lemma bn_word_clz_loop_spec (k : nat) fuel w bits (m : bool) :
  is_word w -> (k <= 6)%nat -> (k < fuel)%nat -> 2 ^ Z.of_nat k <= bits <= 128 - 2 ^ Z.of_nat k ->
  (if m then bits < bit_length w <= bits + 2 ^ Z.of_nat k
   else bits - 2 ^ Z.of_nat k < bit_length w <= bits \/ bit_length w = 0 /\ bits = 2 ^ Z.of_nat k) ->
  exists bits' (m' : bool),
    bn_word_clz_loop fuel w bits (if m then BN_MASK2 else 0) (2 ^ Z.of_nat k) =
      (bits', if m' then BN_MASK2 else 0) /\
    bits' + Z.b2z m' = (if w =? 0 then 1 else bit_length w) /\ 0 <= bits' <= 128.
Proof.
  revert fuel bits m. induction k as [|k IH]; intros fuel bits m Hw Hk Hf Hb Hinv;
    (destruct fuel as [|fuel]; [lia|]); cbn [bn_word_clz_loop].
  - exists bits, m. change (wshr (2 ^ Z.of_nat 0) 1 =? 0) with true. cbv iota. split; [done|].
    change (2 ^ Z.of_nat 0) with 1 in *.
    unfold bit_length in *. pose proof (Z.log2_nonneg w).
    destruct m, (Z.eqb_spec w 0); cbn [Z.b2z]; lia.
  - assert (Hs : wshr (2 ^ Z.of_nat (S k)) 1 = 2 ^ Z.of_nat k).
    { unfold wshr. rewrite Z.shiftr_div_pow2, Nat2Z.inj_succ, Z.pow_succ_r by lia.
      change (2 ^ 1) with 2. rewrite Z.mul_comm, Z.div_mul by lia. done. }
    rewrite Hs. rewrite Nat2Z.inj_succ, Z.pow_succ_r in Hb, Hinv by lia.
    assert (Hp : 1 <= 2 ^ Z.of_nat k <= 32).
    { split; [pose proof (Z.pow_pos_nonneg 2 (Z.of_nat k)); lia|].
      change 32 with (2 ^ 5). apply Z.pow_le_mono_r; lia. }
    set (s := 2 ^ Z.of_nat k) in *. rewrite (proj2 (Z.eqb_neq s 0)) by lia.
    assert (Hsw : is_word s) by (unfold is_word; lia).
    assert (Hbits : u64 (bits + u64 (Z.land s (if m then BN_MASK2 else 0) -
      Z.land s (wnot (if m then BN_MASK2 else 0)))) = if m then bits + s else bits - s).
    { destruct m.
      - change (wnot BN_MASK2) with 0. rewrite land_mask_word, Z.land_0_r, Z.sub_0_r by done.
        rewrite (u64_small s), u64_small by (unfold is_word; lia). done.
      - change (wnot 0) with BN_MASK2. rewrite land_mask_word, Z.land_0_r by done.
        rewrite (u64_mod_eq (0 - s) (W - s) (-1)) by (unfold is_word; lia).
        apply (u64_mod_eq _ _ 1); unfold is_word; lia. }
    rewrite Hbits. set (bits1 := if m then bits + s else bits - s).
    assert (Hb1 : s <= bits1 <= 128 - s) by (unfold bits1; destruct m; lia).
    rewrite bn_ct_ne_zero_mask_spec by (apply is_word_wshr; [done|lia]).
    rewrite shr_is_zero by (done || lia).
    replace (if bit_length w <=? bits1 then 0 else BN_MASK2)
      with (if bits1 <? bit_length w then BN_MASK2 else 0).
    2: { rewrite Z.ltb_antisym. by destruct (bit_length w <=? bits1). }
    apply IH; [done|lia|lia|done|].
    unfold bits1 in *.
    destruct m; [destruct (Z.ltb_spec (bits + s) (bit_length w))|destruct (Z.ltb_spec (bits - s) (bit_length w))]; lia.
Qed.

(** The count of leading zeros of a word. *)
Lemma bn_word_clz_spec w : is_word w -> bn_word_clz w = 64 - bit_length w.
Proof.
  intros Hw. unfold bn_word_clz. pose proof (bit_length_word w Hw) as Hl.
  destruct (bn_word_clz_loop_spec 6 7 w BN_BITS2 false Hw) as (bits & m & E & Hb & Hr);
    [lia|lia|unfold BN_BITS2; cbn; lia| |].
  { unfold BN_BITS2. change (2 ^ Z.of_nat 6) with 64.
    unfold bit_length in *. pose proof (Z.log2_nonneg w). destruct (Z.eqb_spec w 0); lia. }
  change (2 ^ Z.of_nat 6) with BN_BITS2 in E. rewrite E.
  replace (Z.land 1 (if m then BN_MASK2 else 0)) with (Z.b2z m) by (by destruct m).
  rewrite bn_ct_eq_zero_spec, Hb by done. unfold BN_BITS2. destruct (Z.eqb_spec w 0) as [->|].
  - done.
  - rewrite Z.sub_0_r, (u64_small (bit_length w)), (u64_small (bit_length w)), u64_small; unfold is_word; lia.
Qed.

Lemma BN_num_bits_word_spec w : is_word w -> BN_num_bits_word w = bit_length w.
Proof. intros Hw. unfold BN_num_bits_word, bn_clzw. rewrite bn_word_clz_spec by done. unfold BN_BITS2. lia. Qed.
