(* ===== verification/BnWords.v ===== *)
(** * Word arrays: bn_add.c, bn_mul.c and bn_sqr.c below the BIGNUM level

    An array of words is a list, least significant word first.  The loops
    read words [i] of their arguments before they write word [i] of the
    result, so a result array that is also an argument changes nothing: the
    definitions take the arguments as lists and return the words written.
    [None] is an access outside an array (or a failed [assert]).  The tests
    [n & ~3] for four more words are patterns on the count. *)

From S2P Require Import Prelude BnWord.
Open Scope Z_scope.

(** [n] words at offset [i]. *)
Definition zslice {A} (l : list A) (i n : Z) : option (list A) :=
  if (0 <=? i) && (0 <=? n) && (i + n <=? zlen l) then Some (ztake n (zdrop i l)) else None.

(** ** Addition and subtraction *)

Fixpoint bn_add_words_loop (n : nat) (a b : list Z) (carry : Z) : option (list Z * Z) :=
  match n with
  | S (S (S (S n'))) =>
      match a, b with
      | a0 :: a1 :: a2 :: a3 :: a', b0 :: b1 :: b2 :: b3 :: b' =>
          let '(carry, r3, r2, r1, r0) := bn_qwaddqw a3 a2 a1 a0 b3 b2 b1 b0 carry in
          '(r, carry) ← bn_add_words_loop n' a' b' carry;
          Some (r0 :: r1 :: r2 :: r3 :: r, carry)
      | _, _ => None
      end
  | S n' =>
      match a, b with
      | a0 :: a', b0 :: b' =>
          let '(carry, r0) := bn_addw_addw a0 b0 carry in
          '(r, carry) ← bn_add_words_loop n' a' b' carry;
          Some (r0 :: r, carry)
      | _, _ => None
      end
  | O => Some ([], carry)
  end.

(** The words written to [r] and the carry. *)
Definition bn_add_words (a b : list Z) (n : Z) : option (list Z * Z) :=
  if n <? 0 then None else bn_add_words_loop (Z.to_nat n) a b 0.

(** The loops of [bn_add] for the words of the longer argument. *)
Fixpoint bn_add_tail (n : nat) (b : list Z) (carry : Z) : option (list Z * Z) :=
  match n with
  | O => Some ([], carry)
  | S n' =>
      match b with
      | b0 :: b' =>
          let '(carry, r0) := bn_addw b0 carry in
          '(r, carry) ← bn_add_tail n' b' carry;
          Some (r0 :: r, carry)
      | [] => None
      end
  end.

Definition bn_add (a : list Z) (a_len : Z) (b : list Z) (b_len : Z) : option (list Z * Z) :=
  let min_len := if b_len <? a_len then b_len else a_len in
  let diff_len := a_len - b_len in
  '(r, carry) ← bn_add_words a b min_len;
  let a := zdrop min_len a in
  let b := zdrop min_len b in
  '(r1, carry) ← bn_add_tail (Z.to_nat (- diff_len)) b carry;
  '(r2, carry) ← bn_add_tail (Z.to_nat diff_len) a carry;
  Some (r ++ r1 ++ r2, carry).

Fixpoint bn_sub_words_loop (n : nat) (a b : list Z) (borrow : Z) : option (list Z * Z) :=
  match n with
  | S (S (S (S n'))) =>
      match a, b with
      | a0 :: a1 :: a2 :: a3 :: a', b0 :: b1 :: b2 :: b3 :: b' =>
          let '(borrow, r3, r2, r1, r0) := bn_qwsubqw a3 a2 a1 a0 b3 b2 b1 b0 borrow in
          '(r, borrow) ← bn_sub_words_loop n' a' b' borrow;
          Some (r0 :: r1 :: r2 :: r3 :: r, borrow)
      | _, _ => None
      end
  | S n' =>
      match a, b with
      | a0 :: a', b0 :: b' =>
          let '(borrow, r0) := bn_subw_subw a0 b0 borrow in
          '(r, borrow) ← bn_sub_words_loop n' a' b' borrow;
          Some (r0 :: r, borrow)
      | _, _ => None
      end
  | O => Some ([], borrow)
  end.

Definition bn_sub_words (a b : list Z) (n : Z) : option (list Z * Z) :=
  if n <? 0 then None else bn_sub_words_loop (Z.to_nat n) a b 0.

(** [bn_subw(0 - b[0], borrow, &borrow, &r[0])] for the rest of [b]. *)
Fixpoint bn_sub_tail_b (n : nat) (b : list Z) (borrow : Z) : option (list Z * Z) :=
  match n with
  | O => Some ([], borrow)
  | S n' =>
      match b with
      | b0 :: b' =>
          let '(borrow, r0) := bn_subw (u64 (0 - b0)) borrow in
          '(r, borrow) ← bn_sub_tail_b n' b' borrow;
          Some (r0 :: r, borrow)
      | [] => None
      end
  end.

(** [bn_subw(a[0], borrow, &borrow, &r[0])] for the rest of [a]. *)
Fixpoint bn_sub_tail_a (n : nat) (a : list Z) (borrow : Z) : option (list Z * Z) :=
  match n with
  | O => Some ([], borrow)
  | S n' =>
      match a with
      | a0 :: a' =>
          let '(borrow, r0) := bn_subw a0 borrow in
          '(r, borrow) ← bn_sub_tail_a n' a' borrow;
          Some (r0 :: r, borrow)
      | [] => None
      end
  end.

Definition bn_sub (a : list Z) (a_len : Z) (b : list Z) (b_len : Z) : option (list Z * Z) :=
  let min_len := if b_len <? a_len then b_len else a_len in
  let diff_len := a_len - b_len in
  '(r, borrow) ← bn_sub_words a b min_len;
  let a := zdrop min_len a in
  let b := zdrop min_len b in
  '(r1, borrow) ← bn_sub_tail_b (Z.to_nat (- diff_len)) b borrow;
  '(r2, borrow) ← bn_sub_tail_a (Z.to_nat diff_len) a borrow;
  Some (r ++ r1 ++ r2, borrow).

(** ** Multiplication by a word *)

Fixpoint bn_mul_words_loop (n : nat) (a : list Z) (w carry : Z) : option (list Z * Z) :=
  match n with
  | S (S (S (S n'))) =>
      match a with
      | a0 :: a1 :: a2 :: a3 :: a' =>
          let '(carry, r3, r2, r1, r0) := bn_qwmulw_addw a3 a2 a1 a0 w carry in
          '(r, carry) ← bn_mul_words_loop n' a' w carry;
          Some (r0 :: r1 :: r2 :: r3 :: r, carry)
      | _ => None
      end
  | S n' =>
      match a with
      | a0 :: a' =>
          let '(carry, r0) := bn_mulw_addw a0 w carry in
          '(r, carry) ← bn_mul_words_loop n' a' w carry;
          Some (r0 :: r, carry)
      | _ => None
      end
  | O => Some ([], carry)
  end.

Definition bn_mul_words (a : list Z) (num w : Z) : option (list Z * Z) :=
  if num <? 0 then None else bn_mul_words_loop (Z.to_nat num) a w 0.

(** [r]: the words that are there before. *)
Fixpoint bn_mul_add_words_loop (n : nat) (r a : list Z) (w carry : Z) : option (list Z * Z) :=
  match n with
  | S (S (S (S n'))) =>
      match a, r with
      | a0 :: a1 :: a2 :: a3 :: a', r0 :: r1 :: r2 :: r3 :: r' =>
          let '(carry, r3, r2, r1, r0) := bn_qwmulw_addqw_addw a3 a2 a1 a0 w r3 r2 r1 r0 carry in
          '(r, carry) ← bn_mul_add_words_loop n' r' a' w carry;
          Some (r0 :: r1 :: r2 :: r3 :: r, carry)
      | _, _ => None
      end
  | S n' =>
      match a, r with
      | a0 :: a', r0 :: r' =>
          let '(carry, r0) := bn_mulw_addw_addw a0 w r0 carry in
          '(r, carry) ← bn_mul_add_words_loop n' r' a' w carry;
          Some (r0 :: r, carry)
      | _, _ => None
      end
  | O => Some ([], carry)
  end.

Definition bn_mul_add_words (r a : list Z) (num w : Z) : option (list Z * Z) :=
  if num <? 0 then None else bn_mul_add_words_loop (Z.to_nat num) r a w 0.

(** ** Schoolbook multiplication

    From here on [r] is an array apart from the arguments: the functions
    take its contents and return the new ones. *)

(** [r[i + na] = bn_mul_add_words(&r[i], a, na, b[i])] for the rest of [b];
    the source's loop body has four copies of this step. *)
Fixpoint bn_mul_normal_loop (r : list Z) (i : Z) (a : list Z) (na : Z) (b : list Z) (nb : nat)
    {struct nb} : option (list Z) :=
  match nb with
  | O => Some r
  | S nb' =>
      match b with
      | b0 :: b' =>
          ri ← zslice r i na;
          '(w, carry) ← bn_mul_add_words ri a na b0;
          r ← zwrite r i (w ++ [carry]);
          bn_mul_normal_loop r (i + 1) a na b' nb'
      | [] => None
      end
  end.

Definition bn_mul_normal (r a : list Z) (na : Z) (b : list Z) (nb : Z) : option (list Z) :=
  let '(a, na, b, nb) := if na <? nb then (b, nb, a, na) else (a, na, b, nb) in
  if nb <=? 0 then
    '(w, _) ← bn_mul_words a na 0;
    zwrite r 0 w
  else
    match b with
    | b0 :: b' =>
        '(w, carry) ← bn_mul_words a na b0;
        r ← zwrite r 0 (w ++ [carry]);
        bn_mul_normal_loop r 1 a na b' (Z.to_nat (nb - 1))
    | [] => None
    end.

(** ** Comba multiplication

    The calls of [bn_mul_comba4] and [bn_mul_comba8] in their order, column
    by column: the indices into [a] and [b] of each [bn_mulw_addtw].  The
    first call of a column shifts the carry, [(0, c2, c1)]; the last one
    stores [c0] as the next word of [r]. *)

Fixpoint comba_column (a b : list Z) (calls : list (nat * nat)) (c2 c1 c0 : Z) :
    option (Z * Z * Z) :=
  match calls with
  | [] => Some (c2, c1, c0)
  | (i, j) :: calls' =>
      ai ← a !! i;
      bj ← b !! j;
      let '(c2, c1, c0) := bn_mulw_addtw ai bj c2 c1 c0 in
      comba_column a b calls' c2 c1 c0
  end.

(** The words of [r]; the last call stores [c1] too, and drops [c2]. *)
Fixpoint comba (a b : list Z) (columns : list (list (nat * nat))) (c2 c1 : Z) : option (list Z) :=
  match columns with
  | [] => Some [c1]
  | calls :: columns' =>
      '(c2, c1, c0) ← comba_column a b calls 0 c2 c1;
      r ← comba a b columns' c2 c1;
      Some (c0 :: r)
  end.

Definition bn_mul_comba4_calls : list (list (nat * nat)) :=
    ([ [(0, 0)];
      [(0, 1); (1, 0)];
      [(2, 0); (1, 1); (0, 2)];
      [(0, 3); (1, 2); (2, 1); (3, 0)];
      [(3, 1); (2, 2); (1, 3)];
      [(2, 3); (3, 2)];
      [(3, 3)] ])%nat.

Definition bn_mul_comba4 (a b : list Z) : option (list Z) := comba a b bn_mul_comba4_calls 0 0.

Definition bn_mul_comba8_calls : list (list (nat * nat)) :=
    ([ [(0, 0)];
      [(0, 1); (1, 0)];
      [(2, 0); (1, 1); (0, 2)];
      [(0, 3); (1, 2); (2, 1); (3, 0)];
      [(4, 0); (3, 1); (2, 2); (1, 3); (0, 4)];
      [(0, 5); (1, 4); (2, 3); (3, 2); (4, 1); (5, 0)];
      [(6, 0); (5, 1); (4, 2); (3, 3); (2, 4); (1, 5); (0, 6)];
      [(0, 7); (1, 6); (2, 5); (3, 4); (4, 3); (5, 2); (6, 1); (7, 0)];
      [(7, 1); (6, 2); (5, 3); (4, 4); (3, 5); (2, 6); (1, 7)];
      [(2, 7); (3, 6); (4, 5); (5, 4); (6, 3); (7, 2)];
      [(7, 3); (6, 4); (5, 5); (4, 6); (3, 7)];
      [(4, 7); (5, 6); (6, 5); (7, 4)];
      [(7, 5); (6, 6); (5, 7)];
      [(6, 7); (7, 6)];
      [(7, 7)] ])%nat.

Definition bn_mul_comba8 (a b : list Z) : option (list Z) := comba a b bn_mul_comba8_calls 0 0.

(** ** Squaring

    The calls of [bn_sqr_comba4] and [bn_sqr_comba8]: [true] is a
    [bn_mul2_mulw_addtw]. *)

Fixpoint comba_sqr_column (a : list Z) (calls : list (bool * nat * nat)) (c2 c1 c0 : Z) :
    option (Z * Z * Z) :=
  match calls with
  | [] => Some (c2, c1, c0)
  | (twice, i, j) :: calls' =>
      ai ← a !! i;
      aj ← a !! j;
      let '(c2, c1, c0) :=
        if twice then bn_mul2_mulw_addtw ai aj c2 c1 c0 else bn_mulw_addtw ai aj c2 c1 c0 in
      comba_sqr_column a calls' c2 c1 c0
  end.

Fixpoint comba_sqr (a : list Z) (columns : list (list (bool * nat * nat))) (c2 c1 : Z) :
    option (list Z) :=
  match columns with
  | [] => Some [c1]
  | calls :: columns' =>
      '(c2, c1, c0) ← comba_sqr_column a calls 0 c2 c1;
      r ← comba_sqr a columns' c2 c1;
      Some (c0 :: r)
  end.

Definition bn_sqr_comba4_calls : list (list (bool * nat * nat)) :=
    ([ [(false, 0, 0)];
      [(true, 1, 0)];
      [(false, 1, 1); (true, 2, 0)];
      [(true, 3, 0); (true, 2, 1)];
      [(false, 2, 2); (true, 3, 1)];
      [(true, 3, 2)];
      [(false, 3, 3)] ])%nat.

Definition bn_sqr_comba4 (a : list Z) : option (list Z) := comba_sqr a bn_sqr_comba4_calls 0 0.

Definition bn_sqr_comba8_calls : list (list (bool * nat * nat)) :=
    ([ [(false, 0, 0)];
      [(true, 1, 0)];
      [(false, 1, 1); (true, 2, 0)];
      [(true, 3, 0); (true, 2, 1)];
      [(false, 2, 2); (true, 3, 1); (true, 4, 0)];
      [(true, 5, 0); (true, 4, 1); (true, 3, 2)];
      [(false, 3, 3); (true, 4, 2); (true, 5, 1); (true, 6, 0)];
      [(true, 7, 0); (true, 6, 1); (true, 5, 2); (true, 4, 3)];
      [(false, 4, 4); (true, 5, 3); (true, 6, 2); (true, 7, 1)];
      [(true, 7, 2); (true, 6, 3); (true, 5, 4)];
      [(false, 5, 5); (true, 6, 4); (true, 7, 3)];
      [(true, 7, 4); (true, 6, 5)];
      [(false, 6, 6); (true, 7, 5)];
      [(true, 7, 6)];
      [(false, 7, 7)] ])%nat.

Definition bn_sqr_comba8 (a : list Z) : option (list Z) := comba_sqr a bn_sqr_comba8_calls 0 0.

(** Two words of [r] for each word of [a]. *)
Fixpoint bn_sqr_add_words_loop (n : nat) (r a : list Z) (carry : Z) : option (list Z) :=
  match n with
  | S (S (S (S n'))) =>
      match a, r with
      | a0 :: a1 :: a2 :: a3 :: a', r0 :: r1 :: r2 :: r3 :: r4 :: r5 :: r6 :: r7 :: r' =>
          let '(x1, x0) := bn_mulw a0 a0 in
          let '(x3, x2) := bn_mulw a1 a1 in
          let '(carry, r3, r2, r1, r0) := bn_qwaddqw x3 x2 x1 x0 r3 r2 r1 r0 carry in
          let '(x1, x0) := bn_mulw a2 a2 in
          let '(x3, x2) := bn_mulw a3 a3 in
          let '(carry, r7, r6, r5, r4) := bn_qwaddqw x3 x2 x1 x0 r7 r6 r5 r4 carry in
          r ← bn_sqr_add_words_loop n' r' a' carry;
          Some (r0 :: r1 :: r2 :: r3 :: r4 :: r5 :: r6 :: r7 :: r)
      | _, _ => None
      end
  | S n' =>
      match a, r with
      | a0 :: a', r0 :: r1 :: r' =>
          let '(carry, r0) := bn_mulw_addw_addw a0 a0 r0 carry in
          let '(carry, r1) := bn_addw r1 carry in
          r ← bn_sqr_add_words_loop n' r' a' carry;
          Some (r0 :: r1 :: r)
      | _, _ => None
      end
  | O => Some []
  end.

Definition bn_sqr_add_words (r a : list Z) (n : Z) : option (list Z) :=
  if n <? 0 then None else bn_sqr_add_words_loop (Z.to_nat n) r a 0.

(** [rp[n] = bn_mul_add_words(rp, ap, n, w); rp += 2; n--]. *)
Fixpoint bn_sqr_normal_loop (r : list Z) (rp : Z) (ap : list Z) (n : nat) {struct n} :
    option (list Z) :=
  match n with
  | O => Some r
  | S n' =>
      match ap with
      | w :: ap' =>
          ri ← zslice r rp (Z.of_nat n);
          '(x, carry) ← bn_mul_add_words ri ap' (Z.of_nat n) w;
          r ← zwrite r rp (x ++ [carry]);
          bn_sqr_normal_loop r (rp + 2) ap' n'
      | [] => None
      end
  end.

Definition bn_sqr_normal (r : list Z) (r_len : Z) (a : list Z) (a_len : Z) : option (list Z) :=
  if a_len <=? 0 then Some r
  else
    match a with
    | w :: ap =>
        r ← zset r 0 0;
        r ← zset r (r_len - 1) 0;
        let n := a_len - 1 in
        r ←
          (if 0 <? n then
             '(x, carry) ← bn_mul_words ap n w;
             zwrite r 1 (x ++ [carry])
           else Some r);
        r ← bn_sqr_normal_loop r 3 ap (Z.to_nat (n - 1));
        '(x, _) ← bn_add_words r r r_len;
        r ← zwrite r 0 x;
        x ← bn_sqr_add_words r a a_len;
        zwrite r 0 x
    | [] => None
    end.

(** ** The number a word array stands for *)

Definition words_ok (l : list Z) : Prop := Forall is_word l.
Definition val (l : list Z) : Z := fold_right (fun w acc => w + W * acc) 0 l.

Lemma val_cons w l : val (w :: l) = w + W * val l.
Proof. reflexivity. Qed.

Lemma pow_W_pos n : 0 <= n -> 0 < W ^ n.
Proof. intros. apply Z.pow_pos_nonneg; lia. Qed.

Lemma pow_W_succ n : 0 <= n -> W ^ (1 + n) = W * W ^ n.
Proof. intros. by rewrite Z.pow_add_r, Z.pow_1_r by lia. Qed.

Lemma val_app l k : val (l ++ k) = val l + W ^ zlen l * val k.
Proof.
  induction l as [|w l IH]; cbn [app]; [change (zlen []) with 0; rewrite Z.pow_0_r; cbn [val fold_right]; lia|].
  rewrite !val_cons, IH, zlen_cons, pow_W_succ by apply zlen_nonneg. ring.
Qed.

Lemma val_bounds l : words_ok l -> 0 <= val l < W ^ zlen l.
Proof.
  induction 1 as [|w l Hw Hl IH]; [by change (0 <= 0 < 1); lia|].
  rewrite val_cons, zlen_cons, pow_W_succ by apply zlen_nonneg. unfold is_word in Hw. nia.
Qed.

Lemma val_rep n : val (zrep n 0) = 0.
Proof. unfold zrep. induction (Z.to_nat n) as [|m IH]; [done|]. cbn [replicate]. rewrite val_cons, IH. lia. Qed.

Lemma val_quad w0 w1 w2 w3 l :
  val (w0 :: w1 :: w2 :: w3 :: l) = quad w3 w2 w1 w0 + W ^ 4 * val l.
Proof. rewrite !val_cons. unfold quad. ring. Qed.

Lemma val_inj l k : words_ok l -> words_ok k -> zlen l = zlen k -> val l = val k -> l = k.
Proof.
  intros Hl. revert k. induction Hl as [|w l Hw Hl IH]; intros k Hk Hlen Hval.
  - symmetry in Hlen. by apply zlen_nil_inv in Hlen.
  - destruct Hk as [|x k Hx Hk]; [rewrite zlen_cons in Hlen; pose proof (zlen_nonneg l); change (zlen []) with 0 in Hlen; lia|].
    rewrite !zlen_cons in Hlen. rewrite !val_cons in Hval. unfold is_word in Hw, Hx.
    assert (val l = val k) by lia. f_equal; [lia|]. apply IH; [done|lia|done].
Qed.

(** Induction on a count in steps of four, as the loops go. *)
Lemma four_ind (P : nat -> Prop) :
  P 0%nat -> (forall n, (n < 3)%nat -> P n -> P (S n)) -> (forall n, P n -> P (S (S (S (S n))))) ->
  forall n, P n.
Proof.
  intros H0 H1 H4 n. induction (lt_wf n) as [n _ IH].
  destruct n as [|[|[|[|n]]]]; [done|..].
  - apply H1; [lia|]. done.
  - apply H1; [lia|]. apply IH; lia.
  - apply H1; [lia|]. apply IH; lia.
  - apply H4, IH. lia.
Qed.

(** What a loop over [n] words returns: [n] words [r] and a carry, with
    [val r + c * W^n] the number [v]. *)
Definition carries (o : option (list Z * Z)) (n : Z) (bound v : Z) : Prop :=
  exists r c, o = Some (r, c) /\ zlen r = n /\ words_ok r /\ 0 <= c <= bound /\
    val r + c * W ^ n = v.
Definition borrows (o : option (list Z * Z)) (n : Z) (v : Z) : Prop :=
  exists r c, o = Some (r, c) /\ zlen r = n /\ words_ok r /\ 0 <= c <= 1 /\
    val r - c * W ^ n = v.

Ltac explode4 a Ha Hok :=
  destruct a as [|?a0 [|?a1 [|?a2 [|?a3 a]]]]; try (cbn in Ha; lia);
  unfold words_ok in Hok; rewrite !Forall_cons in Hok; destruct Hok as (? & ? & ? & ? & Hok).

Ltac explode1 a Ha Hok :=
  destruct a as [|?a0 a]; try (cbn in Ha; lia);
  unfold words_ok in Hok; rewrite !Forall_cons in Hok; destruct Hok as (? & Hok).

Lemma zlen_four {A} (w0 w1 w2 w3 : A) l : zlen (w0 :: w1 :: w2 :: w3 :: l) = 4 + zlen l.
Proof. rewrite !zlen_cons. lia. Qed.

(** One more word, or four more, in front of a result. *)
Ltac word_step :=
  rewrite zlen_cons, !val_cons; split_and!; [done|lia|by constructor|lia|lia|];
  rewrite Nat2Z.inj_succ, <- Z.add_1_l, pow_W_succ by lia; lia.

Ltac quad_step Hr :=
  rewrite zlen_four, !val_quad;
  rewrite !Forall_cons in Hr; destruct Hr as (? & ? & ? & ? & _);
  split_and!; [done|lia|by unfold words_ok; rewrite !Forall_cons|lia|lia|];
  match goal with
  | |- context [Z.of_nat (S (S (S (S ?n))))] =>
      replace (Z.of_nat (S (S (S (S n))))) with (4 + Z.of_nat n) by lia
  end; rewrite Z.pow_add_r by lia; lia.

Lemma bn_add_words_loop_spec n a b xa xb c :
  length a = n -> length b = n -> words_ok a -> words_ok b -> 0 <= c <= 1 ->
  carries (bn_add_words_loop n (a ++ xa) (b ++ xb) c) (Z.of_nat n) 1 (val a + val b + c).
Proof.
  revert n a b c. refine (four_ind _ _ _ _).
  - intros a b c Ha Hb _ _ Hc. apply nil_length_inv in Ha, Hb. subst.
    exists [], c. cbn. split_and!; [done..|constructor|lia|lia|lia].
  - intros n Hn IH a b c Ha Hb Hoka Hokb Hc. explode1 a Ha Hoka. explode1 b Hb Hokb.
    assert (E : bn_add_words_loop (S n) ((a0 :: a) ++ xa) ((a1 :: b) ++ xb) c =
      let '(carry, r0) := bn_addw_addw a0 a1 c in
      '(r, carry) ← bn_add_words_loop n (a ++ xa) (b ++ xb) carry; Some (r0 :: r, carry))
      by (destruct n as [|[|[|?]]]; [done..|lia]).
    rewrite E. call (bn_addw_addw_spec a0 a1 c ltac:(done) ltac:(done) (is_word_carry _ Hc)).
    destruct Hcall as (Hr & _ & Ev). assert (Hz : 0 <= z <= 1) by (unfold is_word in *; lia).
    destruct (IH a b z) as (r & c' & -> & Hlen & Hrok & Hc' & Hv); [cbn in *; lia|cbn in *; lia|done..|].
    exists (z0 :: r), c'. word_step.
  - intros n IH a b c Ha Hb Hoka Hokb Hc. explode4 a Ha Hoka. explode4 b Hb Hokb.
    cbn [app bn_add_words_loop].
    pose proof (bn_qwaddqw_spec a3 a2 a1 a0 a7 a6 a5 a4 c) as Hq.
    destruct (bn_qwaddqw _ _ _ _ _ _ _ _ _) as [[[[c1 r3] r2] r1] r0].
    destruct Hq as (Hr & Hc1 & Hv1); [by rewrite !Forall_cons|done|].
    destruct (IH a b c1) as (r & c' & -> & Hlen & Hrok & Hc' & Hv); [cbn in *; lia|cbn in *; lia|done..|].
    exists (r0 :: r1 :: r2 :: r3 :: r), c'. quad_step Hr.
Qed.

Lemma bn_sub_words_loop_spec n a b xa xb c :
  length a = n -> length b = n -> words_ok a -> words_ok b -> 0 <= c <= 1 ->
  borrows (bn_sub_words_loop n (a ++ xa) (b ++ xb) c) (Z.of_nat n) (val a - val b - c).
Proof.
  revert n a b c. refine (four_ind _ _ _ _).
  - intros a b c Ha Hb _ _ Hc. apply nil_length_inv in Ha, Hb. subst.
    exists [], c. cbn. split_and!; [done..|constructor|lia|lia|lia].
  - intros n Hn IH a b c Ha Hb Hoka Hokb Hc. explode1 a Ha Hoka. explode1 b Hb Hokb.
    assert (E : bn_sub_words_loop (S n) ((a0 :: a) ++ xa) ((a1 :: b) ++ xb) c =
      let '(borrow, r0) := bn_subw_subw a0 a1 c in
      '(r, borrow) ← bn_sub_words_loop n (a ++ xa) (b ++ xb) borrow; Some (r0 :: r, borrow))
      by (destruct n as [|[|[|?]]]; [done..|lia]).
    rewrite E. call (bn_subw_subw_spec a0 a1 c ltac:(done) ltac:(done) (is_word_carry _ Hc)).
    destruct Hcall as (Hr & _ & Ev). assert (Hz : 0 <= z <= 1) by (unfold is_word in *; lia).
    destruct (IH a b z) as (r & c' & -> & Hlen & Hrok & Hc' & Hv); [cbn in *; lia|cbn in *; lia|done..|].
    exists (z0 :: r), c'. word_step.
  - intros n IH a b c Ha Hb Hoka Hokb Hc. explode4 a Ha Hoka. explode4 b Hb Hokb.
    cbn [app bn_sub_words_loop].
    pose proof (bn_qwsubqw_spec a3 a2 a1 a0 a7 a6 a5 a4 c) as Hq.
    destruct (bn_qwsubqw _ _ _ _ _ _ _ _ _) as [[[[c1 r3] r2] r1] r0].
    destruct Hq as (Hr & Hc1 & Hv1); [by rewrite !Forall_cons|done|].
    destruct (IH a b c1) as (r & c' & -> & Hlen & Hrok & Hc' & Hv); [cbn in *; lia|cbn in *; lia|done..|].
    exists (r0 :: r1 :: r2 :: r3 :: r), c'. quad_step Hr.
Qed.

Lemma bn_mul_words_loop_spec n a xa w c :
  length a = n -> words_ok a -> is_word w -> is_word c ->
  carries (bn_mul_words_loop n (a ++ xa) w c) (Z.of_nat n) (W - 1) (val a * w + c).
Proof.
  revert n a c. refine (four_ind _ _ _ _).
  - intros a c Ha _ Hw Hc. apply nil_length_inv in Ha. subst. unfold is_word in Hc.
    exists [], c. cbn. split_and!; [done..|constructor|lia|lia|lia].
  - intros n Hn IH a c Ha Hoka Hw Hc. explode1 a Ha Hoka.
    assert (E : bn_mul_words_loop (S n) ((a0 :: a) ++ xa) w c =
      let '(carry, r0) := bn_mulw_addw a0 w c in
      '(r, carry) ← bn_mul_words_loop n (a ++ xa) w carry; Some (r0 :: r, carry))
      by (destruct n as [|[|[|?]]]; [done..|lia]).
    rewrite E. call (bn_mulw_addw_spec a0 w c ltac:(done) Hw Hc). destruct Hcall as (Hz & Hr & Ev).
    destruct (IH a z) as (r & c' & -> & Hlen & Hrok & Hc' & Hv); [cbn in *; lia|done..|].
    exists (z0 :: r), c'. word_step.
  - intros n IH a c Ha Hoka Hw Hc. explode4 a Ha Hoka. cbn [app bn_mul_words_loop].
    pose proof (bn_qwmulw_addw_spec a3 a2 a1 a0 w c) as Hq.
    destruct (bn_qwmulw_addw _ _ _ _ _ _) as [[[[c1 r3] r2] r1] r0].
    destruct Hq as (Hr & Hc1 & Hv1); [by rewrite !Forall_cons|done..|].
    destruct (IH a c1) as (r & c' & -> & Hlen & Hrok & Hc' & Hv); [cbn in *; lia|done..|].
    exists (r0 :: r1 :: r2 :: r3 :: r), c'. quad_step Hr.
Qed.

Lemma bn_mul_add_words_loop_spec n r0 a xr xa w c :
  length r0 = n -> length a = n -> words_ok r0 -> words_ok a -> is_word w -> is_word c ->
  carries (bn_mul_add_words_loop n (r0 ++ xr) (a ++ xa) w c) (Z.of_nat n) (W - 1) (val a * w + val r0 + c).
Proof.
  revert n r0 a c. refine (four_ind _ _ _ _).
  - intros r0 a c Hr0 Ha _ _ Hw Hc. apply nil_length_inv in Ha, Hr0. subst. unfold is_word in Hc.
    exists [], c. cbn. split_and!; [done..|constructor|lia|lia|lia].
  - intros n Hn IH q a c Hq Ha Hokq Hoka Hw Hc. explode1 a Ha Hoka. explode1 q Hq Hokq.
    assert (E : bn_mul_add_words_loop (S n) ((a1 :: q) ++ xr) ((a0 :: a) ++ xa) w c =
      let '(carry, r0) := bn_mulw_addw_addw a0 w a1 c in
      '(r, carry) ← bn_mul_add_words_loop n (q ++ xr) (a ++ xa) w carry; Some (r0 :: r, carry))
      by (destruct n as [|[|[|?]]]; [done..|lia]).
    rewrite E. call (bn_mulw_addw_addw_spec a0 w a1 c ltac:(done) Hw ltac:(done) Hc). destruct Hcall as (Hz & Hr & Ev).
    destruct (IH q a z) as (r & c' & -> & Hlen & Hrok & Hc' & Hv); [cbn in *; lia|cbn in *; lia|done..|].
    exists (z0 :: r), c'. word_step.
  - intros n IH q a c Hq Ha Hokq Hoka Hw Hc. explode4 a Ha Hoka. explode4 q Hq Hokq.
    cbn [app bn_mul_add_words_loop].
    pose proof (bn_qwmulw_addqw_addw_spec a3 a2 a1 a0 w a7 a6 a5 a4 c) as Hs.
    destruct (bn_qwmulw_addqw_addw _ _ _ _ _ _ _ _ _ _) as [[[[c1 r3] r2] r1] r0].
    destruct Hs as (Hr & Hc1 & Hv1); [by rewrite !Forall_cons|done..|].
    destruct (IH q a c1) as (r & c' & -> & Hlen & Hrok & Hc' & Hv); [cbn in *; lia|cbn in *; lia|done..|].
    exists (r0 :: r1 :: r2 :: r3 :: r), c'. quad_step Hr.
Qed.

Lemma words_ok_app a b : words_ok (a ++ b) <-> words_ok a /\ words_ok b.
Proof. apply Forall_app. Qed.

Lemma bn_add_words_spec a b n :
  words_ok a -> words_ok b -> 0 <= n <= zlen a -> n <= zlen b ->
  carries (bn_add_words a b n) n 1 (val (ztake n a) + val (ztake n b)).
Proof.
  intros Ha Hb Hn Hnb. unfold bn_add_words. rewrite (proj2 (Z.ltb_ge _ _)) by lia.
  destruct (split_at a n) as (a1 & a2 & -> & _ & Hl1 & -> & _); [lia|].
  destruct (split_at b n) as (b1 & b2 & -> & _ & Hl2 & -> & _); [lia|].
  apply words_ok_app in Ha as [Ha _], Hb as [Hb _].
  pose proof (bn_add_words_loop_spec (Z.to_nat n) a1 b1 a2 b2 0 Hl1 Hl2 Ha Hb) as H.
  rewrite Z2Nat.id, Z.add_0_r in H by lia. apply H. lia.
Qed.

Lemma bn_sub_words_spec a b n :
  words_ok a -> words_ok b -> 0 <= n <= zlen a -> n <= zlen b ->
  borrows (bn_sub_words a b n) n (val (ztake n a) - val (ztake n b)).
Proof.
  intros Ha Hb Hn Hnb. unfold bn_sub_words. rewrite (proj2 (Z.ltb_ge _ _)) by lia.
  destruct (split_at a n) as (a1 & a2 & -> & _ & Hl1 & -> & _); [lia|].
  destruct (split_at b n) as (b1 & b2 & -> & _ & Hl2 & -> & _); [lia|].
  apply words_ok_app in Ha as [Ha _], Hb as [Hb _].
  pose proof (bn_sub_words_loop_spec (Z.to_nat n) a1 b1 a2 b2 0 Hl1 Hl2 Ha Hb) as H.
  rewrite Z2Nat.id, Z.sub_0_r in H by lia. apply H. lia.
Qed.

Lemma bn_mul_words_spec a n w :
  words_ok a -> is_word w -> 0 <= n <= zlen a ->
  carries (bn_mul_words a n w) n (W - 1) (val (ztake n a) * w).
Proof.
  intros Ha Hw Hn. unfold bn_mul_words. rewrite (proj2 (Z.ltb_ge _ _)) by lia.
  destruct (split_at a n) as (a1 & a2 & -> & _ & Hl1 & -> & _); [lia|].
  apply words_ok_app in Ha as [Ha _].
  pose proof (bn_mul_words_loop_spec (Z.to_nat n) a1 a2 w 0 Hl1 Ha Hw) as H.
  rewrite Z2Nat.id, Z.add_0_r in H by lia. apply H. unfold is_word. lia.
Qed.

Lemma bn_mul_add_words_spec r a n w :
  words_ok r -> words_ok a -> is_word w -> 0 <= n <= zlen a -> n <= zlen r ->
  carries (bn_mul_add_words r a n w) n (W - 1) (val (ztake n a) * w + val (ztake n r)).
Proof.
  intros Hr Ha Hw Hn Hnr. unfold bn_mul_add_words. rewrite (proj2 (Z.ltb_ge _ _)) by lia.
  destruct (split_at a n) as (a1 & a2 & -> & _ & Hl1 & -> & _); [lia|].
  destruct (split_at r n) as (r1 & r2 & -> & _ & Hl2 & -> & _); [lia|].
  apply words_ok_app in Ha as [Ha _], Hr as [Hr _].
  pose proof (bn_mul_add_words_loop_spec (Z.to_nat n) r1 a1 r2 a2 w 0 Hl2 Hl1 Hr Ha Hw) as H.
  rewrite Z2Nat.id, Z.add_0_r in H by lia. apply H. unfold is_word. lia.
Qed.

Lemma bn_add_tail_spec b xb c :
  words_ok b -> 0 <= c <= 1 ->
  carries (bn_add_tail (length b) (b ++ xb) c) (zlen b) 1 (val b + c).
Proof.
  unfold zlen. revert c. induction b as [|b0 b IH]; intros c Hok Hc.
  - exists [], c. cbn. split_and!; [done..|constructor|lia|lia|lia].
  - apply Forall_cons in Hok as [Hb0 Hok]. cbn [length app bn_add_tail].
    call (bn_addw_spec b0 c Hb0 (is_word_carry _ Hc)). destruct Hcall as (Hr & Hz & Ev).
    destruct (IH z Hok Hz) as (r & c' & -> & Hlen & Hrok & Hc' & Hv).
    exists (z0 :: r), c'. word_step.
Qed.

Lemma bn_sub_tail_a_spec a xa c :
  words_ok a -> 0 <= c <= 1 ->
  borrows (bn_sub_tail_a (length a) (a ++ xa) c) (zlen a) (val a - c).
Proof.
  unfold zlen. revert c. induction a as [|a0 a IH]; intros c Hok Hc.
  - exists [], c. cbn. split_and!; [done..|constructor|lia|lia|lia].
  - apply Forall_cons in Hok as [Ha0 Hok]. cbn [length app bn_sub_tail_a].
    call (bn_subw_spec a0 c Ha0 (is_word_carry _ Hc)). destruct Hcall as (Hr & Hz & Ev).
    destruct (IH z Hok Hz) as (r & c' & -> & Hlen & Hrok & Hc' & Hv).
    exists (z0 :: r), c'. word_step.
Qed.

Lemma val_split l n : 0 <= n <= zlen l -> val l = val (ztake n l) + W ^ n * val (zdrop n l).
Proof.
  intros Hn. rewrite <- (ztake_zdrop n l) at 1. rewrite val_app, zlen_ztake by done. done.
Qed.

Lemma words_ok_ztake n l : words_ok l -> words_ok (ztake n l).
Proof. apply Forall_ztake. Qed.
Lemma words_ok_zdrop n l : words_ok l -> words_ok (zdrop n l).
Proof. apply Forall_zdrop. Qed.
#[export] Hint Resolve words_ok_ztake words_ok_zdrop : core.

(** Continue a result with more words. *)
Lemma carries_app r c n v r1 c1 m v1 :
  zlen r = n -> words_ok r -> val r + c * W ^ n = v ->
  zlen r1 = m -> words_ok r1 -> 0 <= c1 <= 1 -> val r1 + c1 * W ^ m = v1 + c ->
  carries (Some (r ++ r1, c1)) (n + m) 1 (v + W ^ n * v1).
Proof.
  intros Hl Hr Hv Hl1 Hr1 Hc1 Hv1. exists (r ++ r1), c1.
  pose proof (zlen_nonneg r). pose proof (zlen_nonneg r1).
  rewrite zlen_app, val_app, Z.pow_add_r, Hl by lia.
  split_and!; [done|lia|by apply words_ok_app|lia|lia|].
  replace (c1 * (W ^ n * W ^ m)) with (W ^ n * (c1 * W ^ m)) by ring. nia.
Qed.

Lemma bn_add_spec a b :
  words_ok a -> words_ok b ->
  carries (bn_add a (zlen a) b (zlen b)) (Z.max (zlen a) (zlen b)) 1 (val a + val b).
Proof.
  intros Ha Hb. unfold bn_add. cbv zeta.
  set (m := if zlen b <? zlen a then zlen b else zlen a).
  assert (Hm : m = Z.min (zlen a) (zlen b)) by (unfold m; destruct (Z.ltb_spec (zlen b) (zlen a)); lia).
  pose proof (zlen_nonneg a). pose proof (zlen_nonneg b).
  destruct (bn_add_words_spec a b m Ha Hb) as (r & c & -> & Hl & Hr & Hc & Hv); [lia..|]. cbn [mbind option_bind].
  destruct (split_at a m) as (a1 & a2 & Ea & Hla & _ & Hta & Hda); [lia|].
  destruct (split_at b m) as (b1 & b2 & Eb & Hlb & _ & Htb & Hdb); [lia|].
  rewrite Hta, Htb in Hv. rewrite Hda, Hdb. subst a b. rewrite !zlen_app in *.
  apply words_ok_app in Ha as [Ha1 Ha2], Hb as [Hb1 Hb2]. rewrite !val_app, Hla, Hlb.
  pose proof (zlen_nonneg a2). pose proof (zlen_nonneg b2).
  destruct (Z.le_gt_cases (zlen a2) (zlen b2)).
  - assert (zlen a2 = 0) as E%zlen_nil_inv by lia. subst a2. change (zlen []) with 0 in *.
    replace (Z.to_nat (- (m + 0 - (m + zlen b2)))) with (length b2) by (unfold zlen in *; lia).
    replace (Z.to_nat (m + 0 - (m + zlen b2))) with 0%nat by lia.
    destruct (bn_add_tail_spec b2 [] c Hb2) as (r1 & c1 & E & Hl1 & Hr1 & Hc1 & Hv1); [lia|].
    rewrite app_nil_r in E. rewrite E. cbn [mbind option_bind bn_add_tail]. rewrite app_nil_r.
    replace (Z.max _ _) with (m + zlen b2) by lia.
    replace (_ + _ + _) with (val a1 + val b1 + W ^ m * val b2) by (cbn [val fold_right]; lia).
    eapply carries_app; eauto.
  - assert (zlen b2 = 0) as E%zlen_nil_inv by lia. subst b2. change (zlen []) with 0 in *.
    replace (Z.to_nat (- (m + zlen a2 - (m + 0)))) with 0%nat by lia.
    replace (Z.to_nat (m + zlen a2 - (m + 0))) with (length a2) by (unfold zlen in *; lia).
    destruct (bn_add_tail_spec a2 [] c Ha2) as (r1 & c1 & E & Hl1 & Hr1 & Hc1 & Hv1); [lia|].
    rewrite app_nil_r in E. cbn [mbind option_bind bn_add_tail]. rewrite E. cbn [mbind option_bind app].
    replace (Z.max _ _) with (m + zlen a2) by lia.
    replace (_ + _ + _) with (val a1 + val b1 + W ^ m * val a2) by (cbn [val fold_right]; lia).
    eapply carries_app; eauto.
Qed.

(** Subtraction of an array that is not longer. *)
Lemma bn_sub_spec a b :
  words_ok a -> words_ok b -> zlen b <= zlen a ->
  borrows (bn_sub a (zlen a) b (zlen b)) (zlen a) (val a - val b).
Proof.
  intros Ha Hb Hle. unfold bn_sub. cbv zeta.
  set (m := if zlen b <? zlen a then zlen b else zlen a).
  assert (Hm : m = zlen b) by (unfold m; destruct (Z.ltb_spec (zlen b) (zlen a)); lia).
  pose proof (zlen_nonneg b).
  destruct (bn_sub_words_spec a b m Ha Hb) as (r & c & -> & Hl & Hr & Hc & Hv); [lia..|]. cbn [mbind option_bind].
  destruct (split_at a m) as (a1 & a2 & Ea & Hla & _ & Hta & Hda); [lia|].
  rewrite Hta, (ztake_all m b) in Hv by lia. rewrite Hda. subst a. rewrite !zlen_app in *.
  apply words_ok_app in Ha as [Ha1 Ha2]. rewrite val_app, Hla.
  replace (Z.to_nat (- (m + zlen a2 - zlen b))) with 0%nat by (pose proof (zlen_nonneg a2); lia).
  replace (Z.to_nat (m + zlen a2 - zlen b)) with (length a2) by (unfold zlen in *; lia).
  destruct (bn_sub_tail_a_spec a2 [] c Ha2) as (r1 & c1 & E & Hl1 & Hr1 & Hc1 & Hv1); [lia|].
  rewrite app_nil_r in E. cbn [mbind option_bind bn_sub_tail_b]. rewrite E. cbn [mbind option_bind app].
  exists (r ++ r1), c1. pose proof (zlen_nonneg a2). rewrite zlen_app, val_app, Z.pow_add_r, Hl by lia.
  split_and!; [done|lia|by apply words_ok_app|lia|lia|].
  replace (c1 * (W ^ m * W ^ zlen a2)) with (W ^ m * (c1 * W ^ zlen a2)) by ring. nia.
Qed.

(** ** Products *)

Lemma zdrop_more {A} k m (l l' : list A) :
  zdrop k l = zdrop k l' -> 0 <= k <= m -> zdrop m l = zdrop m l'.
Proof.
  intros H Hm. replace m with (k + (m - k)) by lia. rewrite <- !zdrop_zdrop by lia. by rewrite H.
Qed.

Lemma zslice_mid {A} (p m t : list A) :
  zslice (p ++ m ++ t) (zlen p) (zlen m) = Some m.
Proof.
  unfold zslice. rewrite !zlen_app. pose proof (zlen_nonneg p). pose proof (zlen_nonneg m).
  pose proof (zlen_nonneg t). rewrite !(proj2 (Z.leb_le _ _)) by lia. cbn [andb].
  by rewrite zdrop_app_exact, ztake_app_exact by done.
Qed.

(** An array around the words [i] to [i + n] and one more. *)
Lemma split_window (r : list Z) i n :
  0 <= i -> 0 <= n -> i + n < zlen r ->
  exists p m x t, r = p ++ m ++ x :: t /\ zlen p = i /\ zlen m = n.
Proof.
  intros Hi Hn Hr. destruct (split_at r i) as (p & r1 & -> & Hp & _); [lia|]. rewrite zlen_app in Hr.
  destruct (split_at r1 n) as (m & t & -> & Hm & _); [lia|]. rewrite zlen_app in Hr.
  destruct t as [|x t]; [change (zlen []) with 0 in Hr; lia|]. by exists p, m, x, t.
Qed.

(** [n] words and a carry stored at offset [i]. *)
Lemma store_words r i n w c v :
  words_ok r -> 0 <= i -> 0 <= n -> i + n < zlen r ->
  zlen w = n -> words_ok w -> is_word c -> val w + c * W ^ n = v ->
  exists r', zwrite r i (w ++ [c]) = Some r' /\ words_ok r' /\ zlen r' = zlen r /\
    val (ztake (i + n + 1) r') = val (ztake i r) + W ^ i * v /\
    zdrop (i + n + 1) r' = zdrop (i + n + 1) r /\ ztake i r' = ztake i r.
Proof.
  intros Hr Hi Hn Hlen Hw Hwok Hc Hv.
  destruct (split_window r i n Hi Hn Hlen) as (p & m & x & t & -> & Hp & Hm).
  replace (p ++ m ++ x :: t) with (p ++ (m ++ [x]) ++ t) in * by (by rewrite <- app_assoc).
  exists (p ++ (w ++ [c]) ++ t). rewrite !words_ok_app in Hr. destruct Hr as (Hpok & _ & Htok).
  assert (Hl : zlen (w ++ [c]) = zlen (m ++ [x])) by (rewrite !zlen_app, Hw, Hm; done).
  assert (Hl1 : zlen (w ++ [c]) = n + 1) by (rewrite zlen_app, Hw; done).
  rewrite <- Hp at 1. rewrite zwrite_mid by done. split_and!; [done| | | | |].
  - rewrite !words_ok_app. split_and!; [done..| |done]. by apply Forall_singleton.
  - rewrite !zlen_app. rewrite !zlen_app in Hl. lia.
  - rewrite (app_assoc p (w ++ [c])), (ztake_app_exact (i + n + 1)) by (rewrite zlen_app; lia).
    rewrite ztake_app_exact, val_app, Hp, val_app, Hw by done.
    rewrite val_cons. change (val []) with 0. rewrite <- Hv. ring.
  - rewrite (app_assoc p (w ++ [c])), (app_assoc p (m ++ [x])).
    rewrite !zdrop_app_exact; rewrite ?(zlen_app p); [done|lia..].
  - by rewrite !ztake_app_exact.
Qed.

(** One row of the product. *)
Lemma mul_add_step r i a n b0 :
  words_ok r -> words_ok a -> is_word b0 -> 0 <= i -> 0 <= n <= zlen a -> i + n < zlen r ->
  exists ri w c r', zslice r i n = Some ri /\ bn_mul_add_words ri a n b0 = Some (w, c) /\
    zwrite r i (w ++ [c]) = Some r' /\ words_ok r' /\ zlen r' = zlen r /\
    val (ztake (i + n + 1) r') = val (ztake (i + n) r) + W ^ i * (val (ztake n a) * b0) /\
    zdrop (i + n + 1) r' = zdrop (i + n + 1) r.
Proof.
  intros Hr Ha Hb Hi Hn Hlen.
  destruct (split_window r i n Hi ltac:(lia) Hlen) as (p & m & x & t & E & Hp & Hm).
  assert (Hmok : words_ok m) by (subst r; rewrite !words_ok_app in Hr; tauto).
  destruct (bn_mul_add_words_spec m a n b0 Hmok Ha Hb) as (w & c & Hmul & Hw & Hwok & Hc & Hv); [lia..|].
  rewrite (ztake_all n m) in Hv by lia.
  destruct (store_words r i n w c _ Hr Hi ltac:(lia) Hlen Hw Hwok ltac:(unfold is_word; lia) Hv)
    as (r' & Hst & Hr' & Hl' & Hval & Hd & _).
  exists m, w, c, r'. split_and!; [|done..| |done].
  - subst r. rewrite <- Hp, <- Hm. apply zslice_mid.
  - rewrite Hval. subst r. rewrite (app_assoc p m), (ztake_app_exact (i + n)) by (rewrite zlen_app; lia).
    rewrite <- app_assoc, ztake_app_exact, val_app, Hp by done. ring.
Qed.

Lemma bn_mul_normal_loop_spec r i a n b xb :
  words_ok r -> words_ok a -> words_ok b -> 0 <= i -> 0 <= n <= zlen a -> i + n + zlen b <= zlen r ->
  exists r', bn_mul_normal_loop r i a n (b ++ xb) (length b) = Some r' /\ words_ok r' /\ zlen r' = zlen r /\
    val (ztake (i + n + zlen b) r') = val (ztake (i + n) r) + W ^ i * (val (ztake n a) * val b) /\
    zdrop (i + n + zlen b) r' = zdrop (i + n + zlen b) r.
Proof.
  intros Hr Ha Hb. revert r i Hr. induction b as [|b0 b IH]; intros r i Hr Hi Hn Hlen.
  - exists r. change (zlen []) with 0 in *. cbn [length app bn_mul_normal_loop].
    change (val []) with 0. rewrite !Z.add_0_r, !Z.mul_0_r, Z.add_0_r. by split_and!.
  - apply Forall_cons in Hb as [Hb0 Hb]. rewrite zlen_cons in *. pose proof (zlen_nonneg b).
    cbn [length app bn_mul_normal_loop].
    destruct (mul_add_step r i a n b0 Hr Ha Hb0 Hi Hn) as (ri & w & c & r1 & -> & E2 & E3 & Hr1 & Hl1 & Hv1 & Hd1); [lia|].
    cbn [mbind option_bind]. rewrite E2. cbn [mbind option_bind]. rewrite E3. cbn [mbind option_bind].
    destruct (IH Hb r1 (i + 1) Hr1) as (r' & -> & Hr' & Hl' & Hv' & Hd'); [lia..|].
    replace (i + 1 + n + zlen b) with (i + n + (1 + zlen b)) in * by lia.
    replace (i + 1 + n) with (i + n + 1) in * by lia.
    exists r'. split_and!; [done|done|lia| |].
    + rewrite Hv', Hv1, val_cons, Z.pow_add_r, Z.pow_1_r by lia. ring.
    + rewrite Hd'. apply (zdrop_more (i + n + 1)); [done|lia].
Qed.

Lemma bn_mul_normal_spec r a b :
  words_ok r -> words_ok a -> words_ok b -> zlen a + zlen b <= zlen r ->
  exists r', bn_mul_normal r a (zlen a) b (zlen b) = Some r' /\ words_ok r' /\ zlen r' = zlen r /\
    val (ztake (zlen a + zlen b) r') = val a * val b /\
    zdrop (zlen a + zlen b) r' = zdrop (zlen a + zlen b) r.
Proof.
  intros Hr. revert a b.
  cut (forall a b, words_ok a -> words_ok b -> zlen b <= zlen a -> zlen a + zlen b <= zlen r ->
    exists r', (if zlen b <=? 0 then '(w, _) ← bn_mul_words a (zlen a) 0; zwrite r 0 w
      else match b with
      | b0 :: b' =>
        '(w, carry) ← bn_mul_words a (zlen a) b0;
        r ← zwrite r 0 (w ++ [carry]);
        bn_mul_normal_loop r 1 a (zlen a) b' (Z.to_nat (zlen b - 1))
      | [] => None end) = Some r' /\ words_ok r' /\ zlen r' = zlen r /\
    val (ztake (zlen a + zlen b) r') = val a * val b /\
    zdrop (zlen a + zlen b) r' = zdrop (zlen a + zlen b) r).
  { intros H a b Ha Hb Hlen. unfold bn_mul_normal. destruct (Z.ltb_spec (zlen a) (zlen b)).
    - rewrite Z.add_comm, Z.mul_comm. apply H; auto; lia.
    - apply H; auto. }
  intros a b Ha Hb Hle Hlen. pose proof (zlen_nonneg a). pose proof (zlen_nonneg b).
  destruct (Z.leb_spec (zlen b) 0).
  - assert (zlen b = 0) as ->%zlen_nil_inv by lia. change (zlen []) with 0 in *. rewrite Z.add_0_r in *.
    destruct (bn_mul_words_spec a (zlen a) 0 Ha) as (w & c & -> & Hw & Hwok & Hc & Hv); [unfold is_word; lia|lia|].
    cbn [mbind option_bind]. rewrite Z.mul_0_r in Hv.
    destruct (split_at r (zlen a)) as (p & t & -> & Hp & _); [lia|].
    exists (w ++ t). pose proof (zwrite_mid [] p t w) as E. cbn [app] in E.
    rewrite words_ok_app in Hr. pose proof (pow_W_pos (zlen a)). pose proof (val_bounds w Hwok).
    split_and!.
    + apply E. lia.
    + rewrite words_ok_app. tauto.
    + rewrite !zlen_app. lia.
    + rewrite ztake_app_exact by lia. cbn [val fold_right]. fold (val w). nia.
    + rewrite !zdrop_app_exact by lia. done.
  - destruct b as [|b0 b]; [change (zlen []) with 0 in *; lia|].
    apply Forall_cons in Hb as [Hb0 Hb]. rewrite zlen_cons in *.
    destruct (bn_mul_words_spec a (zlen a) b0 Ha Hb0) as (w & c & -> & Hw & Hwok & Hc & Hv); [lia|].
    cbn [mbind option_bind]. pose proof (zlen_nonneg b).
    destruct (store_words r 0 (zlen a) w c (val (ztake (zlen a) a) * b0) Hr) as (r1 & -> & Hr1 & Hl1 & Hv1 & Hd1 & _);
      [lia..|done|done|unfold is_word; lia|exact Hv|]. cbn [mbind option_bind].
    change (ztake 0 r) with (@nil Z) in Hv1. rewrite (ztake_all (zlen a) a) in Hv1 by lia.
    change (val []) with 0 in Hv1. rewrite Z.pow_0_r in Hv1.
    replace (Z.to_nat (1 + zlen b - 1)) with (length b) by (unfold zlen; lia).
    pose proof (bn_mul_normal_loop_spec r1 1 a (zlen a) b [] Hr1 Ha Hb) as Hloop. rewrite app_nil_r in Hloop.
    destruct Hloop as (r' & -> & Hr' & Hl' & Hv' & Hd'); [lia..|].
    replace (1 + zlen a + zlen b) with (zlen a + (1 + zlen b)) in * by lia.
    exists r'. split_and!; [done|done|lia| |].
    + replace (0 + zlen a + 1) with (1 + zlen a) in Hv1 by lia.
      rewrite Hv', Hv1, (ztake_all (zlen a) a), val_cons, Z.pow_1_r by lia. ring.
    + rewrite Hd'. apply (zdrop_more (0 + zlen a + 1)); [done|lia].
Qed.

(** *** Comba *)

Definition term (a b : list Z) (ij : nat * nat) : Z := nth ij.1 a 0 * nth ij.2 b 0.
Definition column_sum (a b : list Z) (calls : list (nat * nat)) : Z :=
  fold_right (fun ij s => term a b ij + s) 0 calls.
Definition columns_val (a b : list Z) (columns : list (list (nat * nat))) : Z :=
  fold_right (fun calls v => column_sum a b calls + W * v) 0 columns.

Definition term_sqr (a : list Z) (c : bool * nat * nat) : Z :=
  (if c.1.1 then 2 else 1) * (nth c.1.2 a 0 * nth c.2 a 0).
Definition column_sum_sqr (a : list Z) (calls : list (bool * nat * nat)) : Z :=
  fold_right (fun c s => term_sqr a c + s) 0 calls.
Definition columns_val_sqr (a : list Z) (columns : list (list (bool * nat * nat))) : Z :=
  fold_right (fun calls v => column_sum_sqr a calls + W * v) 0 columns.

Lemma lookup_word a i : words_ok a -> (i < length a)%nat -> a !! i = Some (nth i a 0) /\ is_word (nth i a 0).
Proof.
  intros Ha Hi. destruct (lookup_lt_is_Some_2 a i Hi) as [x Hx].
  rewrite (nth_lookup_Some a i 0 x Hx). split; [done|]. by eapply Forall_lookup_1.
Qed.

Lemma triple_word c2 c1 c0 : is_word c2 -> is_word c1 -> is_word c0 -> 0 <= triple c2 c1 c0 < W ^ 3.
Proof. unfold triple, is_word. change (W ^ 3) with (W * (W * W)). lia. Qed.

(** Room for the sums of at most 16 products. *)
Definition small_columns {A} (columns : list (list A)) : Prop := Forall (fun calls => (length calls <= 8)%nat) columns.

Lemma comba_column_spec a b calls c2 c1 c0 :
  words_ok a -> words_ok b ->
  Forall (fun ij => (ij.1 < length a)%nat /\ (ij.2 < length b)%nat) calls ->
  is_word c2 -> is_word c1 -> is_word c0 ->
  triple c2 c1 c0 + Z.of_nat (length calls) * ((W - 1) * (W - 1)) < W ^ 3 ->
  exists t2 t1 t0, comba_column a b calls c2 c1 c0 = Some (t2, t1, t0) /\
    is_word t2 /\ is_word t1 /\ is_word t0 /\ triple t2 t1 t0 = triple c2 c1 c0 + column_sum a b calls.
Proof.
  intros Ha Hb Hcalls. revert c2 c1 c0.
  induction Hcalls as [|[i j] calls [Hi Hj] Hcalls IH]; intros c2 c1 c0 H2 H1 H0 Hmax.
  - exists c2, c1, c0. split_and!; [done..|]. cbn. lia.
  - cbn [comba_column]. destruct (lookup_word a i Ha Hi) as [-> Hai]. destruct (lookup_word b j Hb Hj) as [-> Hbj].
    cbn [mbind option_bind]. cbn [fst snd] in *.
    assert (Hprod : nth i a 0 * nth j b 0 <= (W - 1) * (W - 1)) by (unfold is_word in *; nia).
    cbn [length] in Hmax. rewrite Nat2Z.inj_succ in Hmax.
    assert (0 <= Z.of_nat (length calls) * ((W - 1) * (W - 1))) by lia.
    pose proof (bn_mulw_addtw_spec (nth i a 0) (nth j b 0) c2 c1 c0 Hai Hbj H2 H1 H0) as Hs.
    destruct (bn_mulw_addtw _ _ _ _ _) as [[r2 r1] r0]. destruct Hs as (Hr2 & Hr1 & Hr0 & Ev); [lia|].
    destruct (IH r2 r1 r0 Hr2 Hr1 Hr0) as (t2 & t1 & t0 & -> & ? & ? & ? & Et); [lia|].
    exists t2, t1, t0. split_and!; [done..|]. cbn [column_sum fold_right]. fold (column_sum a b calls).
    unfold term. cbn [fst snd]. lia.
Qed.

Lemma comba_sqr_column_spec a calls c2 c1 c0 :
  words_ok a -> Forall (fun c => (c.1.2 < length a)%nat /\ (c.2 < length a)%nat) calls ->
  is_word c2 -> is_word c1 -> is_word c0 ->
  triple c2 c1 c0 + Z.of_nat (length calls) * (2 * ((W - 1) * (W - 1))) < W ^ 3 ->
  exists t2 t1 t0, comba_sqr_column a calls c2 c1 c0 = Some (t2, t1, t0) /\
    is_word t2 /\ is_word t1 /\ is_word t0 /\ triple t2 t1 t0 = triple c2 c1 c0 + column_sum_sqr a calls.
Proof.
  intros Ha Hcalls. revert c2 c1 c0.
  induction Hcalls as [|[[twice i] j] calls [Hi Hj] Hcalls IH]; intros c2 c1 c0 H2 H1 H0 Hmax.
  - exists c2, c1, c0. split_and!; [done..|]. cbn. lia.
  - cbn [comba_sqr_column]. cbn [fst snd] in *.
    destruct (lookup_word a i Ha Hi) as [-> Hai]. destruct (lookup_word a j Ha Hj) as [-> Haj].
    cbn [mbind option_bind].
    assert (Hprod : 0 <= nth i a 0 * nth j a 0 <= (W - 1) * (W - 1)) by (unfold is_word in *; nia).
    cbn [length] in Hmax. rewrite Nat2Z.inj_succ in Hmax.
    assert (0 <= Z.of_nat (length calls) * ((W - 1) * (W - 1))) by lia.
    pose proof (bn_mulw_addtw_spec (nth i a 0) (nth j a 0) c2 c1 c0 Hai Haj H2 H1 H0) as Hs1.
    pose proof (bn_mul2_mulw_addtw_spec (nth i a 0) (nth j a 0) c2 c1 c0 Hai Haj H2 H1 H0) as Hs2.
    assert (Hstep : let '(r2, r1, r0) := if twice then bn_mul2_mulw_addtw (nth i a 0) (nth j a 0) c2 c1 c0
        else bn_mulw_addtw (nth i a 0) (nth j a 0) c2 c1 c0 in
      is_word r2 /\ is_word r1 /\ is_word r0 /\
      triple r2 r1 r0 = triple c2 c1 c0 + term_sqr a (twice, i, j)).
    { unfold term_sqr. cbn [fst snd]. destruct twice.
      - destruct (bn_mul2_mulw_addtw _ _ _ _ _) as [[r2 r1] r0]. apply Hs2. lia.
      - destruct (bn_mulw_addtw _ _ _ _ _) as [[r2 r1] r0]. rewrite Z.mul_1_l. apply Hs1. lia. }
    destruct (if twice then _ else _) as [[r2 r1] r0]. destruct Hstep as (Hr2 & Hr1 & Hr0 & Ev).
    assert (term_sqr a (twice, i, j) <= 2 * ((W - 1) * (W - 1)))
      by (unfold term_sqr; cbn [fst snd]; destruct twice; lia).
    destruct (IH r2 r1 r0 Hr2 Hr1 Hr0) as (t2 & t1 & t0 & -> & ? & ? & ? & Et); [lia|].
    exists t2, t1, t0. split_and!; [done..|]. cbn [column_sum_sqr fold_right].
    fold (column_sum_sqr a calls). lia.
Qed.

(** The words of all columns; [top] is the word the last call drops. *)
Definition comba_result (o : option (list Z)) (n : Z) (v : Z) : Prop :=
  exists r top, o = Some r /\ words_ok r /\ zlen r = n /\ is_word top /\ val r + W ^ n * top = v.

(** One more word in front. *)
Lemma comba_result_cons o n v c2 c1 c0 s :
  comba_result o n v -> is_word c0 -> 0 <= n -> triple c2 c1 c0 = s -> 
  forall v', v = c1 + W * c2 + v' ->
  comba_result (r ← o; Some (c0 :: r)) (1 + n) (s + W * v').
Proof.
  intros (r & top & -> & Hr & Hl & Ht & Hv) H0 Hn Hs v' Hv'. exists (c0 :: r), top.
  rewrite zlen_cons, val_cons, pow_W_succ by done. unfold triple in Hs.
  split_and!; [done|by constructor|lia|done|]. nia.
Qed.

Lemma comba_spec a b columns c2 c1 :
  words_ok a -> words_ok b -> small_columns columns ->
  Forall (Forall (fun ij => (ij.1 < length a)%nat /\ (ij.2 < length b)%nat)) columns ->
  is_word c2 -> is_word c1 ->
  comba_result (comba a b columns c2 c1) (1 + zlen columns) (c1 + W * c2 + columns_val a b columns).
Proof.
  intros Ha Hb Hsmall Hcols. revert c2 c1 Hsmall.
  induction Hcols as [|calls columns Hcalls Hcols IH]; intros c2 c1 Hsmall H2 H1.
  - exists [c1], c2. cbn [columns_val fold_right]. change (zlen [c1]) with 1. change (1 + zlen (@nil (list (nat * nat)))) with 1.
    rewrite Z.pow_1_r, val_cons. change (val []) with 0.
    split_and!; [done|by apply Forall_singleton|done|done|lia].
  - apply Forall_cons in Hsmall as [Hs Hsmall]. cbn [comba].
    destruct (comba_column_spec a b calls 0 c2 c1 Ha Hb Hcalls) as (t2 & t1 & t0 & -> & Ht2 & Ht1 & Ht0 & Et);
      [unfold is_word; lia|done|done| |].
    { unfold triple, is_word in *. change (W ^ 3) with (W * (W * W)). nia. }
    cbn [mbind option_bind columns_val fold_right]. fold (columns_val a b columns). rewrite zlen_cons.
    rewrite (Z.add_assoc (c1 + _)). pose proof (zlen_nonneg columns). 
    eapply comba_result_cons; [by apply IH|done|lia| |reflexivity].
    rewrite Et. unfold triple. lia.
Qed.

Lemma comba_sqr_spec a columns c2 c1 :
  words_ok a -> small_columns columns ->
  Forall (Forall (fun c => (c.1.2 < length a)%nat /\ (c.2 < length a)%nat)) columns ->
  is_word c2 -> is_word c1 ->
  comba_result (comba_sqr a columns c2 c1) (1 + zlen columns) (c1 + W * c2 + columns_val_sqr a columns).
Proof.
  intros Ha Hsmall Hcols. revert c2 c1 Hsmall.
  induction Hcols as [|calls columns Hcalls Hcols IH]; intros c2 c1 Hsmall H2 H1.
  - exists [c1], c2. cbn [columns_val_sqr fold_right]. change (zlen [c1]) with 1.
    change (1 + zlen (@nil (list (bool * nat * nat)))) with 1.
    rewrite Z.pow_1_r, val_cons. change (val []) with 0.
    split_and!; [done|by apply Forall_singleton|done|done|lia].
  - apply Forall_cons in Hsmall as [Hs Hsmall]. cbn [comba_sqr].
    destruct (comba_sqr_column_spec a calls 0 c2 c1 Ha Hcalls) as (t2 & t1 & t0 & -> & Ht2 & Ht1 & Ht0 & Et);
      [unfold is_word; lia|done|done| |].
    { unfold triple, is_word in *. change (W ^ 3) with (W * (W * W)). nia. }
    cbn [mbind option_bind columns_val_sqr fold_right]. fold (columns_val_sqr a columns). rewrite zlen_cons.
    rewrite (Z.add_assoc (c1 + _)). pose proof (zlen_nonneg columns).
    eapply comba_result_cons; [by apply IH|done|lia| |reflexivity].
    rewrite Et. unfold triple. lia.
Qed.

(** A result that fits has nothing dropped. *)
Lemma comba_result_fits o n v :
  comba_result o n v -> 0 <= n -> v < W ^ n ->
  exists r, o = Some r /\ words_ok r /\ zlen r = n /\ val r = v.
Proof.
  intros (r & top & -> & Hr & Hl & Ht & Hv) Hn Hfit. exists r.
  pose proof (val_bounds r Hr). pose proof (pow_W_pos n Hn). unfold is_word in Ht.
  assert (top < 1) by (apply (Z.mul_lt_mono_pos_l (W ^ n)); lia).
  assert (top = 0) as -> by lia. split_and!; [done..|]. lia.
Qed.

Lemma val_mul_bounds a b n : words_ok a -> words_ok b -> zlen a + zlen b = n -> val a * val b < W ^ n.
Proof.
  intros Ha Hb <-. rewrite Z.pow_add_r by apply zlen_nonneg.
  pose proof (val_bounds a Ha). pose proof (val_bounds b Hb). nia.
Qed.

(** The tables are well formed: at most eight calls per column, and indices
    below [n]. *)
Definition calls_ok {A} (n : nat) (i j : A -> nat) (columns : list (list A)) : bool :=
  forallb (fun calls => (length calls <=? 8)%nat &&
    forallb (fun c => (i c <? n)%nat && (j c <? n)%nat) calls) columns.

Lemma calls_ok_spec {A} n (i j : A -> nat) columns :
  calls_ok n i j columns = true ->
  small_columns columns /\ Forall (Forall (fun c => (i c < n)%nat /\ (j c < n)%nat)) columns.
Proof.
  unfold calls_ok, small_columns. rewrite forallb_forall, !List.Forall_forall. intros H. split.
  - intros calls Hin. specialize (H calls Hin). apply andb_prop in H as [H _]. by apply Nat.leb_le.
  - intros calls Hin. specialize (H calls Hin). apply andb_prop in H as [_ H].
    rewrite forallb_forall in H. rewrite List.Forall_forall. intros c Hc. specialize (H c Hc).
    apply andb_prop in H as [H1 H2]. apply Nat.ltb_lt in H1, H2. done.
Qed.

Lemma mul_comba_spec n columns a b :
  words_ok a -> words_ok b -> length a = n -> length b = n ->
  calls_ok n fst snd columns = true -> columns_val a b columns = val a * val b ->
  1 + zlen columns = 2 * Z.of_nat n ->
  exists r, comba a b columns 0 0 = Some r /\ words_ok r /\ zlen r = 2 * Z.of_nat n /\
    val r = val a * val b.
Proof.
  intros Ha Hb Hla Hlb [Hs Hc]%calls_ok_spec Hv Hn. apply comba_result_fits; [|lia|].
  2: { apply val_mul_bounds; unfold zlen; lia || done. }
  assert (H0 : is_word 0) by (unfold is_word; lia).
  pose proof (comba_spec a b columns 0 0 Ha Hb Hs) as H. rewrite Hla, Hlb, Hv, Hn in H. by apply H.
Qed.

Lemma sqr_comba_spec n columns a :
  words_ok a -> length a = n ->
  calls_ok n (fun c => c.1.2) snd columns = true -> columns_val_sqr a columns = val a * val a ->
  1 + zlen columns = 2 * Z.of_nat n ->
  exists r, comba_sqr a columns 0 0 = Some r /\ words_ok r /\ zlen r = 2 * Z.of_nat n /\
    val r = val a * val a.
Proof.
  intros Ha Hla [Hs Hc]%calls_ok_spec Hv Hn. apply comba_result_fits; [|lia|].
  2: { apply val_mul_bounds; unfold zlen; lia || done. }
  assert (H0 : is_word 0) by (unfold is_word; lia).
  pose proof (comba_sqr_spec a columns 0 0 Ha Hs) as H. rewrite Hla, Hv, Hn in H. by apply H.
Qed.

Lemma bn_mul_comba4_spec a b :
  words_ok a -> words_ok b -> zlen a = 4 -> zlen b = 4 ->
  exists r, bn_mul_comba4 a b = Some r /\ words_ok r /\ zlen r = 8 /\ val r = val a * val b.
Proof.
  intros Ha Hb Hla Hlb. apply (mul_comba_spec 4); try done; try (unfold zlen in *; lia).
  destruct a as [|? [|? [|? [|? [|]]]]]; unfold zlen in Hla; cbn in Hla; try lia.
  destruct b as [|? [|? [|? [|? [|]]]]]; unfold zlen in Hlb; cbn in Hlb; try lia.
  unfold columns_val, bn_mul_comba4_calls, column_sum, term. cbn -[Z.mul Z.add Z.pow]. ring.
Qed.

Lemma bn_sqr_comba4_spec a :
  words_ok a -> zlen a = 4 ->
  exists r, bn_sqr_comba4 a = Some r /\ words_ok r /\ zlen r = 8 /\ val r = val a * val a.
Proof.
  intros Ha Hla. apply (sqr_comba_spec 4); try done; try (unfold zlen in *; lia).
  destruct a as [|? [|? [|? [|? [|]]]]]; unfold zlen in Hla; cbn in Hla; try lia.
  unfold columns_val_sqr, bn_sqr_comba4_calls, column_sum_sqr, term_sqr. cbn -[Z.mul Z.add Z.pow]. ring.
Qed.

Lemma bn_mul_comba8_spec a b :
  words_ok a -> words_ok b -> zlen a = 8 -> zlen b = 8 ->
  exists r, bn_mul_comba8 a b = Some r /\ words_ok r /\ zlen r = 16 /\ val r = val a * val b.
Proof.
  intros Ha Hb Hla Hlb. apply (mul_comba_spec 8); try done; try (unfold zlen in *; lia).
  destruct a as [|? [|? [|? [|? [|? [|? [|? [|? [|]]]]]]]]]; unfold zlen in Hla; cbn in Hla; try lia.
  destruct b as [|? [|? [|? [|? [|? [|? [|? [|? [|]]]]]]]]]; unfold zlen in Hlb; cbn in Hlb; try lia.
  unfold columns_val, bn_mul_comba8_calls, column_sum, term. cbn -[Z.mul Z.add Z.pow].
  generalize W. intros w. ring.
Qed.

Lemma bn_sqr_comba8_spec a :
  words_ok a -> zlen a = 8 ->
  exists r, bn_sqr_comba8 a = Some r /\ words_ok r /\ zlen r = 16 /\ val r = val a * val a.
Proof.
  intros Ha Hla. apply (sqr_comba_spec 8); try done; try (unfold zlen in *; lia).
  destruct a as [|? [|? [|? [|? [|? [|? [|? [|? [|]]]]]]]]]; unfold zlen in Hla; cbn in Hla; try lia.
  unfold columns_val_sqr, bn_sqr_comba8_calls, column_sum_sqr, term_sqr. cbn -[Z.mul Z.add Z.pow].
  generalize W. intros w. ring.
Qed.

(** *** Squaring in general *)

(** The sum of the products of two different words, and of the squares. *)
Fixpoint cross (a : list Z) : Z :=
  match a with [] => 0 | w :: a' => W * (w * val a') + W * (W * cross a') end.
Fixpoint squares (a : list Z) : Z :=
  match a with [] => 0 | w :: a' => w * w + W * (W * squares a') end.

Lemma square_split a : val a * val a = 2 * cross a + squares a.
Proof. induction a as [|w a IH]; [done|]. cbn [cross squares]. rewrite val_cons. nia. Qed.

Lemma squares_nonneg a : words_ok a -> 0 <= squares a.
Proof. induction 1 as [|w a Hw Ha IH]; [done|]. cbn [squares]. unfold is_word in Hw. nia. Qed.

Lemma cross_nonneg a : words_ok a -> 0 <= cross a.
Proof.
  induction 1 as [|w a Hw Ha IH]; [done|]. cbn [cross]. pose proof (val_bounds a Ha).
  unfold is_word in Hw. assert (0 <= w * val a) by nia. lia.
Qed.

Definition sqr_result (o : option (list Z)) (n v : Z) : Prop :=
  exists r c, o = Some r /\ words_ok r /\ zlen r = n /\ 0 <= c /\ val r + c * W ^ n = v.

Lemma bn_sqr_add_words_loop_spec n r xr a c :
  length a = n -> zlen r = 2 * Z.of_nat n -> words_ok r -> words_ok a -> 0 <= c <= 1 ->
  sqr_result (bn_sqr_add_words_loop n (r ++ xr) a c) (2 * Z.of_nat n) (val r + squares a + c).
Proof.
  revert n r a c. refine (four_ind _ _ _ _).
  - intros r a c Ha Hr _ _ Hc. apply nil_length_inv in Ha. subst. apply zlen_nil_inv in Hr. subst.
    exists [], c. cbn. split_and!; [done|constructor|done|lia|lia].
  - intros n Hn IH r a c Ha Hr Hokr Hoka Hc. explode1 a Ha Hoka.
    destruct r as [|r0 [|r1 r]]; [rewrite ?zlen_cons, ?zlen_nil in Hr; lia..|].
    rewrite !zlen_cons in Hr. unfold words_ok in Hokr. rewrite !Forall_cons in Hokr. destruct Hokr as (Hr0 & Hr1 & Hokr).
    assert (E : bn_sqr_add_words_loop (S n) ((r0 :: r1 :: r) ++ xr) (a0 :: a) c =
      let '(carry, r0) := bn_mulw_addw_addw a0 a0 r0 c in
      let '(carry, r1) := bn_addw r1 carry in
      r ← bn_sqr_add_words_loop n (r ++ xr) a carry; Some (r0 :: r1 :: r))
      by (destruct n as [|[|[|?]]]; [done..|lia]).
    rewrite E.
    call (bn_mulw_addw_addw_spec a0 a0 r0 c ltac:(done) ltac:(done) Hr0 (is_word_carry _ Hc)).
    destruct Hcall as (Hz & Hz0 & E1). call (bn_addw_spec r1 z Hr1 Hz). destruct Hcall as (Hz2 & Hz1 & E2).
    destruct (IH r a z1) as (r' & c' & -> & Hr' & Hl' & Hc' & Hv'); [cbn in *; lia|lia|done..|].
    exists (z0 :: z2 :: r'), c'. rewrite !zlen_cons, !val_cons. cbn [squares].
    split_and!; [done|unfold words_ok; by rewrite !Forall_cons|lia|lia|].
    replace (2 * Z.of_nat (S n)) with (1 + (1 + 2 * Z.of_nat n)) by lia. rewrite !pow_W_succ by lia. lia.
  - intros n IH r a c Ha Hr Hokr Hoka Hc. explode4 a Ha Hoka.
    destruct r as [|r0 [|r1 [|r2 [|r3 [|r4 [|r5 [|r6 [|r7 r]]]]]]]]; rewrite ?zlen_cons, ?zlen_nil in Hr; try lia.
    unfold words_ok in Hokr. rewrite !Forall_cons in Hokr. destruct Hokr as (? & ? & ? & ? & ? & ? & ? & ? & Hokr).
    cbn [app bn_sqr_add_words_loop].
    call (bn_mulw_spec a0 a0 ltac:(done) ltac:(done)). destruct Hcall as (? & ? & E0).
    call (bn_mulw_spec a1 a1 ltac:(done) ltac:(done)). destruct Hcall as (? & ? & E1).
    pose proof (bn_qwaddqw_spec z1 z2 z z0 r3 r2 r1 r0 c) as Hq.
    destruct (bn_qwaddqw _ _ _ _ _ _ _ _ _) as [[[[c1 q3] q2] q1] q0].
    destruct Hq as (Hq & Hc1 & Hv1); [by rewrite !Forall_cons|done|].
    call (bn_mulw_spec a2 a2 ltac:(done) ltac:(done)). destruct Hcall as (? & ? & E2).
    call (bn_mulw_spec a3 a3 ltac:(done) ltac:(done)). destruct Hcall as (? & ? & E3).
    pose proof (bn_qwaddqw_spec z5 z6 z3 z4 r7 r6 r5 r4 c1) as Hp.
    destruct (bn_qwaddqw _ _ _ _ _ _ _ _ _) as [[[[c2 q7] q6] q5] q4].
    destruct Hp as (Hp & Hc2 & Hv2); [by rewrite !Forall_cons|done|].
    destruct (IH r a c2) as (r' & c' & -> & Hr' & Hl' & Hc' & Hv'); [cbn in *; lia|lia|done..|].
    exists (q0 :: q1 :: q2 :: q3 :: q4 :: q5 :: q6 :: q7 :: r'), c'.
    rewrite !Forall_cons in Hq, Hp. destruct Hq as (? & ? & ? & ? & _), Hp as (? & ? & ? & ? & _).
    split_and!; [done|unfold words_ok; by rewrite !Forall_cons|rewrite !zlen_cons; lia|lia|].
    rewrite !val_quad. cbn [squares].
    replace (2 * Z.of_nat (S (S (S (S n))))) with (8 + 2 * Z.of_nat n) by lia. rewrite Z.pow_add_r by lia.
    change (W ^ 8) with (W ^ 4 * W ^ 4). unfold quad in *. change (W ^ 4) with (W * (W * (W * W))) in *. lia.
Qed.

Lemma bn_sqr_normal_loop_spec r rp ap n :
  words_ok r -> words_ok ap -> 1 <= rp -> (length ap = S n \/ n = 0%nat /\ ap = []) ->
  rp + 2 * Z.of_nat n <= zlen r ->
  exists r', bn_sqr_normal_loop r rp ap n = Some r' /\ words_ok r' /\ zlen r' = zlen r /\
    val (ztake (rp + 2 * Z.of_nat n) r') = val (ztake (rp + Z.of_nat n) r) + W ^ (rp - 1) * cross ap /\
    zdrop (rp + 2 * Z.of_nat n) r' = zdrop (rp + 2 * Z.of_nat n) r.
Proof.
  revert r rp ap. induction n as [|n IH]; intros r rp ap Hr Hap Hrp Hlen Hroom.
  - exists r. cbn [bn_sqr_normal_loop]. split_and!; [done..| |done].
    replace (cross ap) with 0; [change (Z.of_nat 0) with 0; by rewrite !Z.mul_0_r, !Z.add_0_r|]. destruct ap as [|w [|]]; [done| |by destruct Hlen as [?|[_ ?]]].
    cbn [cross]. change (val []) with 0. lia.
  - destruct Hlen as [Hlen|[? _]]; [|lia]. destruct ap as [|w ap]; [done|].
    apply Forall_cons in Hap as [Hw Hap]. cbn [bn_sqr_normal_loop].
    assert (Hz : zlen ap = Z.of_nat (S n)) by (unfold zlen; cbn in Hlen; lia).
    destruct (mul_add_step r rp ap (Z.of_nat (S n)) w Hr Hap Hw) as
      (ri & x & c & r1 & -> & E2 & E3 & Hr1 & Hl1 & Hv1 & Hd1); [lia..|].
    cbn [mbind option_bind]. rewrite E2. cbn [mbind option_bind]. rewrite E3. cbn [mbind option_bind].
    destruct (IH r1 (rp + 2) ap Hr1 Hap) as (r' & -> & Hr' & Hl' & Hv' & Hd'); [lia|left; cbn in Hlen; lia|lia|].
    replace (rp + 2 + 2 * Z.of_nat n) with (rp + 2 * Z.of_nat (S n)) in * by lia.
    replace (rp + 2 + Z.of_nat n) with (rp + Z.of_nat (S n) + 1) in * by lia.
    exists r'. split_and!; [done|done|lia| |].
    + rewrite Hv', Hv1, (ztake_all (Z.of_nat (S n)) ap) by lia. cbn [cross].
      replace (rp + 2 - 1) with (1 + (1 + (rp - 1))) by lia.
      replace rp with (1 + (rp - 1)) at 2 by lia. rewrite !pow_W_succ by lia. ring.
    + rewrite Hd'. apply (zdrop_more (rp + Z.of_nat (S n) + 1)); [done|lia].
Qed.

(** Storing one word. *)
Lemma store_word r i x :
  words_ok r -> 0 <= i < zlen r -> is_word x ->
  exists r', zset r i x = Some r' /\ words_ok r' /\ zlen r' = zlen r /\
    ztake i r' = ztake i r /\ zdrop (i + 1) r' = zdrop (i + 1) r /\ zget r' i = Some x.
Proof.
  intros Hr Hi Hx. destruct (split_window r i 0) as (p & m & y & t & -> & Hp & Hm); [lia..|].
  apply zlen_nil_inv in Hm. subst m. cbn [app] in *. unfold zset.
  exists (p ++ [x] ++ t). rewrite <- Hp. change (p ++ y :: t) with (p ++ [y] ++ t) in *.
  rewrite zwrite_mid by done. rewrite !words_ok_app in Hr. destruct Hr as (? & _ & ?).
  split_and!; [done| |by rewrite !zlen_app|by rewrite !ztake_app_exact| |].
  - rewrite !words_ok_app. split_and!; [done|by apply Forall_singleton|done].
  - rewrite !(app_assoc p), !zdrop_app_exact; rewrite ?zlen_app; done.
  - rewrite zget_app_r, Z.sub_diag by lia. done.
Qed.

(** The first [n] words read from those before and a last one. *)
Lemma ztake_snoc {A} n (l : list A) x :
  zget l n = Some x -> ztake (n + 1) l = ztake n l ++ [x].
Proof.
  intros H. pose proof (zget_lt _ _ _ H). pose proof (zdrop_cons_get _ _ _ H) as Hd.
  rewrite <- (ztake_zdrop n l) at 1. rewrite ztake_app_ge; rewrite zlen_ztake; [|lia..].
  rewrite Hd. replace (n + 1 - n) with 1 by lia. rewrite ztake_cons by lia. done.
Qed.

Lemma zget_zdrop_eq {A} n (l l' : list A) : 0 <= n -> zdrop n l = zdrop n l' -> zget l n = zget l' n.
Proof.
  intros Hn H. rewrite <- (Z.add_0_r n), <- !zget_zdrop by lia. by rewrite H.
Qed.

(** Before the doubling [r] holds the sum of the mixed products. *)
Lemma sqr_products r w ap :
  words_ok r -> is_word w -> words_ok ap -> 2 * (1 + zlen ap) <= zlen r ->
  exists r', 
    (r ← zset r 0 0;
     r ← zset r (2 * (1 + zlen ap) - 1) 0;
     r ← (if 0 <? zlen ap then '(x, carry) ← bn_mul_words ap (zlen ap) w; zwrite r 1 (x ++ [carry])
          else Some r);
     bn_sqr_normal_loop r 3 ap (Z.to_nat (zlen ap - 1))) = Some r' /\
    words_ok r' /\ zlen r' = zlen r /\ val (ztake (2 * (1 + zlen ap)) r') = cross (w :: ap).
Proof.
  intros Hr Hw Hap Hroom. pose proof (zlen_nonneg ap).
  assert (H0 : is_word 0) by (unfold is_word; lia). set (R := 2 * (1 + zlen ap)) in *.
  destruct (store_word r 0 0 Hr ltac:(lia) H0) as (r1 & -> & Hr1 & Hl1 & _ & Hd1 & Hg1). cbn [mbind option_bind].
  destruct (store_word r1 (R - 1) 0 Hr1 ltac:(lia) H0) as (r2 & -> & Hr2 & Hl2 & Ht2 & Hd2 & Hg2). cbn [mbind option_bind].
  assert (Hg20 : zget r2 0 = Some 0).
  { rewrite <- Hg1. transitivity (zget (ztake (R - 1) r2) 0); [by rewrite zget_ztake by lia|].
    rewrite Ht2. by rewrite zget_ztake by lia. }
  assert (Hpre : val (ztake 1 r2) = 0).
  { change 1 with (0 + 1). by rewrite (ztake_snoc 0 r2 0). }
  destruct (Z.ltb_spec 0 (zlen ap)).
  - destruct (bn_mul_words_spec ap (zlen ap) w Hap Hw) as (x & c & -> & Hx & Hxok & Hc & Hv); [lia|].
    cbn [mbind option_bind]. rewrite (ztake_all (zlen ap) ap) in Hv by lia.
    destruct (store_words r2 1 (zlen ap) x c (val ap * w) Hr2) as (r3 & -> & Hr3 & Hl3 & Hv3 & Hd3 & _);
      [lia..|done|done|unfold is_word; lia|exact Hv|]. cbn [mbind option_bind].
    destruct (bn_sqr_normal_loop_spec r3 3 ap (Z.to_nat (zlen ap - 1)) Hr3 Hap) as
      (r4 & -> & Hr4 & Hl4 & Hv4 & Hd4); [lia|left; unfold zlen in *; lia|lia|].
    rewrite Z2Nat.id in * by lia. exists r4. split_and!; [done|done|lia|].
    replace (3 + 2 * (zlen ap - 1)) with (R - 1) in * by lia.
    replace (3 + (zlen ap - 1)) with (1 + zlen ap + 1) in Hv4 by lia.
    assert (Hg4 : zget r4 (R - 1) = Some 0).
    { rewrite <- Hg2. rewrite (zget_zdrop_eq (R - 1) r4 r3) by (lia || done).
      apply zget_zdrop_eq; [lia|]. apply (zdrop_more (1 + zlen ap + 1)); [done|lia]. }
    replace R with (R - 1 + 1) by lia. rewrite (ztake_snoc _ _ _ Hg4), val_app, Hv4, Hv3, Hpre.
    change (val [0]) with 0. cbn [cross]. change (W ^ (3 - 1)) with (W * W). rewrite Z.pow_1_r. ring.
  - assert (zlen ap = 0) as E by lia. apply zlen_nil_inv in E. subst ap. change (zlen []) with 0 in *.
    exists r2. cbn [mbind option_bind]. split_and!; [done..|lia|].
    change R with (1 + 1). change (zget r2 1 = Some 0) in Hg2.
    rewrite (ztake_snoc 1 r2 0), val_app, Hpre by exact Hg2. cbn [cross]. change (val [0]) with 0. change (val []) with 0. lia.
Qed.

Lemma bn_sqr_normal_spec r a :
  words_ok r -> words_ok a -> 2 * zlen a <= zlen r ->
  exists r', bn_sqr_normal r (2 * zlen a) a (zlen a) = Some r' /\ words_ok r' /\ zlen r' = zlen r /\
    val (ztake (2 * zlen a) r') = val a * val a.
Proof.
  intros Hr Ha Hroom. unfold bn_sqr_normal. destruct (Z.leb_spec (zlen a) 0).
  { pose proof (zlen_nonneg a). assert (zlen a = 0) as E by lia. apply zlen_nil_inv in E. subst a. by exists r. }
  destruct a as [|w ap]; [change (zlen []) with 0 in *; lia|]. pose proof Ha as Ha'.
  apply Forall_cons in Ha as [Hw Hap]. pose proof (zlen_nonneg ap).
  rewrite zlen_cons in *. replace (1 + zlen ap - 1) with (zlen ap) by lia.
  destruct (sqr_products r w ap Hr Hw Hap Hroom) as (r1 & E & Hr1 & Hl1 & Hv1).
  set (R := 2 * (1 + zlen ap)) in *. set (a := w :: ap) in *.
  destruct (zset r 0 0) as [q1|]; [|done]. cbn [mbind option_bind] in E |- *.
  destruct (zset q1 (R - 1) 0) as [q2|]; [|done]. cbn [mbind option_bind] in E |- *.
  destruct (if 0 <? zlen ap then _ else _) as [q3|]; [|done]. cbn [mbind option_bind] in E |- *.
  rewrite E. cbn [mbind option_bind]. clear E.
  pose proof (square_split a) as Hsq. pose proof (squares_nonneg a Ha'). pose proof (cross_nonneg a Ha').
  assert (Hfit : val a * val a < W ^ R) by (apply val_mul_bounds; auto; unfold a; rewrite zlen_cons; lia).
  destruct (bn_add_words_spec r1 r1 R Hr1 Hr1) as (x & c & -> & Hx & Hxok & Hc & Hv); [lia..|]. cbn [mbind option_bind].
  pose proof (val_bounds x Hxok) as Hxb. rewrite Hx in Hxb. rewrite Hv1 in Hv.
  assert (Hvx : val x = 2 * cross a).
  { assert (c = 0) as -> by nia. lia. }
  destruct (split_at r1 R) as (p & t & -> & Hp & _ & _ & _); [lia|]. rewrite words_ok_app in Hr1. destruct Hr1 as [_ Ht].
  pose proof (zwrite_mid [] p t x) as Ew. cbn [app] in Ew. change (zlen []) with 0 in Ew.
  rewrite Ew by lia. cbn [mbind option_bind]. unfold bn_sqr_add_words.
  rewrite (proj2 (Z.ltb_ge _ _)) by lia.
  assert (Hn : length a = Z.to_nat (1 + zlen ap)) by (unfold a, zlen; cbn [length]; lia).
  destruct (bn_sqr_add_words_loop_spec (Z.to_nat (1 + zlen ap)) x t a 0 Hn) as
    (y & c2 & -> & Hy & Hly & Hc2 & Hvy); [lia|done|done|lia|]. cbn [mbind option_bind].
  rewrite Z2Nat.id in Hly, Hvy by lia. fold R in Hly, Hvy.
  pose proof (zwrite_mid [] x t y) as Ew2. cbn [app] in Ew2. change (zlen []) with 0 in Ew2.
  rewrite Ew2 by lia. exists (y ++ t). split_and!; [done|by apply words_ok_app| |].
  - rewrite !zlen_app in *. lia.
  - rewrite ztake_app_exact by done. pose proof (val_bounds y Hy) as Hyb. rewrite Hly in Hyb.
    assert (c2 = 0) as -> by nia. lia.
Qed.

(** ** The routines agree *)

Lemma bn_mul_normal_exact r a b :
  words_ok r -> words_ok a -> words_ok b -> zlen r = zlen a + zlen b ->
  exists r', bn_mul_normal r a (zlen a) b (zlen b) = Some r' /\ words_ok r' /\ zlen r' = zlen r /\ val r' = val a * val b.
Proof.
  intros Hr Ha Hb Hl. destruct (bn_mul_normal_spec r a b) as (r' & E & Hr' & Hl' & Hv & _); [done..|lia|].
  exists r'. split_and!; [done|done|done|]. rewrite <- Hv, ztake_all by lia. done.
Qed.

Lemma same_words (o1 o2 : option (list Z)) n v :
  (exists r, o1 = Some r /\ words_ok r /\ zlen r = n /\ val r = v) ->
  (exists r, o2 = Some r /\ words_ok r /\ zlen r = n /\ val r = v) -> o1 = o2.
Proof. intros (r1 & -> & H1 & L1 & V1) (r2 & -> & H2 & L2 & V2). f_equal. by apply val_inj; [..|lia|lia]. Qed.

(** The unrolled multiplications bn_mul_comba4 and bn_mul_comba8 produce, for
    operands of 4 and of 8 words, the words that the schoolbook bn_mul_normal
    writes over any array of the right length, and they are the product. *)
Theorem bn_mul_comba_equivalent r a b :
  words_ok r -> words_ok a -> words_ok b -> zlen b = zlen a -> zlen r = 2 * zlen a ->
  (zlen a = 4 -> bn_mul_comba4 a b = bn_mul_normal r a 4 b 4) /\
  (zlen a = 8 -> bn_mul_comba8 a b = bn_mul_normal r a 8 b 8) /\
  option_map val (bn_mul_normal r a (zlen a) b (zlen b)) = Some (val a * val b).
Proof.
  intros Hr Ha Hb Hlb Hlr. pose proof (bn_mul_normal_exact r a b Hr Ha Hb ltac:(lia)) as H. split_and!.
  - intros E. rewrite Hlb, E in H. eapply (same_words _ _ 8); [by apply bn_mul_comba4_spec; [..|lia]|].
    by replace 8 with (zlen r) by lia.
  - intros E. rewrite Hlb, E in H. eapply (same_words _ _ 16); [by apply bn_mul_comba8_spec; [..|lia]|].
    by replace 16 with (zlen r) by lia.
  - destruct H as (r' & -> & _ & _ & Hv). cbn. by rewrite Hv.
Qed.

(** The squaring routines, bn_sqr_normal and the unrolled bn_sqr_comba4 and
    bn_sqr_comba8, produce the words of multiplying the operand by itself. *)
Theorem bn_sqr_equivalent r a :
  words_ok r -> words_ok a -> zlen r = 2 * zlen a ->
  bn_sqr_normal r (2 * zlen a) a (zlen a) = bn_mul_normal r a (zlen a) a (zlen a) /\
  (zlen a = 4 -> bn_sqr_comba4 a = bn_mul_normal r a 4 a 4) /\
  (zlen a = 8 -> bn_sqr_comba8 a = bn_mul_normal r a 8 a 8).
Proof.
  intros Hr Ha Hlr. pose proof (bn_mul_normal_exact r a a Hr Ha Ha ltac:(lia)) as H. split_and!.
  - eapply (same_words _ _ (zlen r)); [|exact H].
    destruct (bn_sqr_normal_spec r a) as (r' & E & Hr' & Hl' & Hv); [done|done|lia|].
    exists r'. split_and!; [done|done|done|]. rewrite <- Hv, ztake_all by lia. done.
  - intros E. rewrite E in H. eapply (same_words _ _ 8); [by apply bn_sqr_comba4_spec; [..|lia]|].
    by replace 8 with (zlen r) by lia.
  - intros E. rewrite E in H. eapply (same_words _ _ 16); [by apply bn_sqr_comba8_spec; [..|lia]|].
    by replace 16 with (zlen r) by lia.
Qed.

(** bn_add returns the words of the sum and its carry, whichever operand
    is the longer; bn_sub returns the words of the difference modulo the word
    length and its borrow when the first operand is not the shorter. *)
Theorem bn_add_sub_correct a b :
  words_ok a -> words_ok b ->
  (exists r c, bn_add a (zlen a) b (zlen b) = Some (r, c) /\ words_ok r /\ (c = 0 \/ c = 1) /\
     zlen r = Z.max (zlen a) (zlen b) /\ val r + c * W ^ zlen r = val a + val b) /\
  (zlen b <= zlen a ->
   exists r c, bn_sub a (zlen a) b (zlen b) = Some (r, c) /\ words_ok r /\ (c = 0 \/ c = 1) /\
     zlen r = zlen a /\ val r - c * W ^ zlen r = val a - val b).
Proof.
  intros Ha Hb. split.
  - destruct (bn_add_spec a b Ha Hb) as (r & c & E & Hl & Hr & Hc & Hv). exists r, c. rewrite Hl.
    by split_and!; [..|lia| |].
  - intros Hle. destruct (bn_sub_spec a b Ha Hb Hle) as (r & c & E & Hl & Hr & Hc & Hv). exists r, c. rewrite Hl.
    by split_and!; [..|lia| |].
Qed.

(** bn_sub with a shorter first operand loses the borrow of its last
    loop: for a nonzero word, 0 - x has the right word but borrow 0. *)
Theorem bn_sub_short_loses_borrow x : 0 < x < W -> bn_sub [] 0 [x] 1 = Some ([W - x], 0).
Proof.
  intros Hx. transitivity (let '(borrow, r0) := bn_subw (u64 (0 - x)) 0 in Some ([r0], borrow)); [done|].
  assert (E : u64 (0 - x) = W - x) by (apply (u64_mod_eq _ _ (-1)); unfold is_word; lia). rewrite E.
  pose proof (bn_subw_spec (W - x) 0 ltac:(unfold is_word; lia) ltac:(done)) as H.
  destruct (bn_subw (W - x) 0) as [c r0]. cbn. unfold is_word in H.
  assert (c = 0 /\ r0 = W - x) as [-> ->] by lia. done.
Qed.

Definition words_a : list Z := [1; 2; 3; 2 ^ 64 - 1].
Definition words_b : list Z := [2 ^ 64 - 1; 0; 5; 7].

Lemma words_ok_dec l : forallb (fun w => (0 <=? w) && (w <? W)) l = true -> words_ok l.
Proof.
  rewrite forallb_forall. intros H. apply Forall_forall. intros w Hw%list_elem_of_In. specialize (H w Hw).
  unfold is_word. lia.
Qed.

Lemma bn_mul_comba_equivalent_witness :
  words_ok words_a /\ words_ok words_b /\ bn_mul_comba4 words_a words_b = bn_mul_normal (zrep 8 0) words_a 4 words_b 4.
Proof.
  assert (Ha : words_ok words_a) by (by apply words_ok_dec). assert (Hb : words_ok words_b) by (by apply words_ok_dec).
  split; [exact Ha|split; [exact Hb|]].
  exact (proj1 (bn_mul_comba_equivalent (zrep 8 0) words_a words_b (words_ok_dec (zrep 8 0) eq_refl) Ha Hb eq_refl eq_refl) eq_refl).
Defined.

Lemma bn_sqr_equivalent_witness :
  words_ok words_a /\ bn_sqr_normal (zrep 8 0) 8 words_a 4 = bn_mul_normal (zrep 8 0) words_a 4 words_a 4.
Proof.
  assert (Ha : words_ok words_a) by (by apply words_ok_dec). split; [exact Ha|].
  exact (proj1 (bn_sqr_equivalent (zrep 8 0) words_a (words_ok_dec (zrep 8 0) eq_refl) Ha eq_refl)).
Defined.

Lemma bn_add_sub_correct_witness :
  words_ok words_a /\ words_ok [1] /\
  exists r c, bn_sub words_a 4 [1] 1 = Some (r, c) /\ words_ok r /\ (c = 0 \/ c = 1) /\
    zlen r = 4 /\ val r - c * W ^ zlen r = val words_a - val [1].
Proof.
  assert (Ha : words_ok words_a) by (by apply words_ok_dec). assert (H1 : words_ok [1]) by (by apply words_ok_dec).
  split; [exact Ha|split; [exact H1|]].
  exact (proj2 (bn_add_sub_correct words_a [1] Ha H1) ltac:(done)).
Defined.

Lemma bn_sub_short_loses_borrow_witness : 0 < 5 < W /\ bn_sub [] 0 [5] 1 = Some ([W - 5], 0).
Proof. split; [lia|]. apply (bn_sub_short_loses_borrow 5). lia. Defined.
