(* ===== verification/Bn.v ===== *)
(** * BIGNUMs: libcrypto/bn/bn_lib.c, bn_ctx.c, bn_add.c, bn_mul.c, bn_sqr.c

    The state is the store of BIGNUMs, by address, and the BN_CTX in use.
    Functions take addresses, so results that are also arguments behave as in
    C.  [alloc_ok n] says whether an allocation of [n] octets succeeds.  The
    array [d] of a BIGNUM has [dmax] words: the length of the list. *)

From S2P Require Import Prelude BnWord BnWords.
From stdpp Require Export gmap.
Open Scope Z_scope.

Record BIGNUM : Type := mkBN {
  bn_d : list Z;
  bn_top : Z;
  bn_neg : Z;
  bn_flags : Z;
}.

Record bignum_ctx : Type := mkCtx {
  ctx_bignums : list (option nat);
  ctx_groups : list Z;
  ctx_group : Z;
  ctx_index : Z;
  ctx_error : bool;
}.

Record bn_state : Type := mkState {
  nums : gmap nat BIGNUM;
  bctx : bignum_ctx;
}.

Definition BN_FLG_MALLOCED : Z := 0x01.
Definition BN_FLG_STATIC_DATA : Z := 0x02.
Definition BN_FLG_CONSTTIME : Z := 0x04.
Definition INT_MAX : Z := 2 ^ 31 - 1.
Definition BN_BYTES : Z := 8.
(** The limit of [bn_expand_internal]. *)
Definition BN_MAX_WORDS : Z := Z.quot INT_MAX (4 * BN_BITS2).

(** ** Memory *)

Definition bn_load (p : nat) : M bn_state BIGNUM := fun s => valid (nums s !! p) s.
Definition bn_store (p : nat) (n : BIGNUM) : M bn_state unit :=
  modify (fun s => mkState (<[p := n]> (nums s)) (bctx s)).
Definition bn_update (p : nat) (f : BIGNUM -> BIGNUM) : M bn_state unit :=
  n ← bn_load p; bn_store p (f n).
Definition set_d (d : list Z) (n : BIGNUM) : BIGNUM := mkBN d (bn_top n) (bn_neg n) (bn_flags n).
Definition set_top (top : Z) (n : BIGNUM) : BIGNUM := mkBN (bn_d n) top (bn_neg n) (bn_flags n).
Definition set_neg (neg : Z) (n : BIGNUM) : BIGNUM := mkBN (bn_d n) (bn_top n) neg (bn_flags n).
(** Store words from index [i] of [p->d] on. *)
Definition bn_write (p : nat) (i : Z) (ws : list Z) : M bn_state unit :=
  n ← bn_load p;
  d ← valid (zwrite (bn_d n) i ws);
  bn_store p (set_d d n).

(** The [top] words of a BIGNUM, which is what [d] and [top] pass to a
    function on word arrays. *)
Definition bn_words (n : BIGNUM) : list Z := ztake (bn_top n) (bn_d n).

Section bn_lib.
Context (alloc_ok : Z -> bool).

(** The address of a new BIGNUM. *)
Definition BN_new : M bn_state nat :=
  check (alloc_ok 24);;
  p ← gets (fun s => fresh (dom (nums s)));
  bn_store p (mkBN [] 0 0 BN_FLG_MALLOCED);;
  mret p.

Definition BN_init (a : nat) : M bn_state unit := bn_store a (mkBN [] 0 0 0).

Definition BN_clear (a : nat) : M bn_state unit :=
  bn_update a (fun n => mkBN (zrep (zlen (bn_d n)) 0) 0 0 (bn_flags n)).

Definition BN_get_flags (n : BIGNUM) (f : Z) : Z := Z.land (bn_flags n) f.
Definition BN_set_flags (b : nat) (f : Z) : M bn_state unit :=
  bn_update b (fun n => mkBN (bn_d n) (bn_top n) (bn_neg n) (Z.lor (bn_flags n) f)).

Definition BN_free (bn : option nat) : M bn_state unit :=
  match bn with
  | None => mret tt
  | Some p =>
      n ← bn_load p;
      if BN_get_flags n BN_FLG_MALLOCED =? 0
      then bn_store p (mkBN [] 0 0 0)
      else modify (fun s => mkState (delete p (nums s)) (bctx s))
  end.
Definition BN_clear_free := BN_free.

(** [while (a->top > 0 && a->d[a->top - 1] == 0) a->top--;] *)
Fixpoint correct_top_loop (fuel : nat) (d : list Z) (top : Z) : option Z :=
  match fuel with
  | O => Some top
  | S fuel =>
      if 0 <? top then
        w ← zget d (top - 1);
        if w =? 0 then correct_top_loop fuel d (top - 1) else Some top
      else Some top
  end.

Definition bn_correct_top (a : nat) : M bn_state unit :=
  n ← bn_load a;
  top ← valid (correct_top_loop (Z.to_nat (bn_top n)) (bn_d n) (bn_top n));
  bn_store a (set_top top n).

Definition bn_expand_internal (bn : nat) (words : Z) : M bn_state unit :=
  n ← bn_load bn;
  check (negb (words <? 0));;
  check (negb (BN_MAX_WORDS <? words));;
  check (BN_get_flags n BN_FLG_STATIC_DATA =? 0);;
  check (alloc_ok (words * BN_BYTES));;
  (* recallocarray: the old words, then zeros *)
  bn_store bn (set_d (ztake words (bn_d n) ++ zrep (words - zlen (bn_d n)) 0) n).

Definition bn_wexpand (bn : nat) (words : Z) : M bn_state unit :=
  n ← bn_load bn;
  check (negb (words <? 0));;
  if words <=? zlen (bn_d n) then mret tt else bn_expand_internal bn words.

Definition bn_expand_bits (bn : nat) (bits : Z) : M bn_state unit :=
  check (negb (INT_MAX - BN_BITS2 + 1 <? bits));;
  bn_wexpand bn (Z.quot (bits + BN_BITS2 - 1) BN_BITS2).

Definition bn_expand_bytes (bn : nat) (bytes : Z) : M bn_state unit :=
  check (negb (INT_MAX - BN_BYTES + 1 <? bytes));;
  bn_wexpand bn (Z.quot (bytes + BN_BYTES - 1) BN_BYTES).

(** [bn_copy_words] *)
Definition bn_copy_words (bp : list Z) (n : Z) : option (list Z) := zslice bp 0 n.

Definition BN_copy (a b : nat) : M bn_state unit :=
  if (a =? b)%nat then mret tt
  else
    nb ← bn_load b;
    bn_wexpand a (bn_top nb);;
    ws ← valid (bn_copy_words (bn_d nb) (Z.max 0 (bn_top nb)));
    bn_write a 0 ws;;
    bn_update a (fun na => mkBN (bn_d na) (bn_top nb) (bn_neg nb)
      (Z.lor (bn_flags na) (Z.land (bn_flags nb) BN_FLG_CONSTTIME))).

Definition bn_copy (dst src : nat) : M bn_state unit := BN_copy dst src.

Definition BN_dup (a : option nat) : M bn_state nat :=
  match a with
  | None => fail
  | Some a =>
      t ← BN_new;
      ok ← try (bn_copy t a);
      match ok with
      | Some _ => mret t
      | None => BN_free (Some t);; fail
      end
  end.

Definition BN_swap (a b : nat) : M bn_state unit :=
  na ← bn_load a;
  nb ← bn_load b;
  let flags_a := Z.lor (Z.land (bn_flags na) BN_FLG_MALLOCED) (Z.land (bn_flags nb) BN_FLG_STATIC_DATA) in
  let flags_b := Z.lor (Z.land (bn_flags nb) BN_FLG_MALLOCED) (Z.land (bn_flags na) BN_FLG_STATIC_DATA) in
  bn_store a (mkBN (bn_d nb) (bn_top nb) (bn_neg nb) flags_a);;
  bn_store b (mkBN (bn_d na) (bn_top na) (bn_neg na) flags_b).

Definition BN_get_word (n : BIGNUM) : option Z :=
  if 1 <? bn_top n then Some BN_MASK2
  else if bn_top n =? 1 then zget (bn_d n) 0
  else Some 0.

Definition BN_set_word (a : nat) (w : Z) : M bn_state unit :=
  bn_wexpand a 1;;
  bn_write a 0 [w];;
  bn_update a (fun n => mkBN (bn_d n) (if w =? 0 then 0 else 1) 0 (bn_flags n)).

Definition BN_zero (a : nat) : M bn_state unit :=
  bn_update a (fun n => mkBN (bn_d n) 0 0 (bn_flags n)).
Definition BN_one (a : nat) : M bn_state unit := BN_set_word a 1.

Definition BN_is_zero (n : BIGNUM) : bool := fold_left Z.lor (bn_words n) 0 =? 0.
Definition BN_abs_is_word (n : BIGNUM) (w : Z) : bool :=
  (bn_top n =? 1) && bool_decide (zget (bn_d n) 0 = Some w) || (w =? 0) && (bn_top n =? 0).
Definition BN_is_word (n : BIGNUM) (w : Z) : bool :=
  BN_abs_is_word n w && ((w =? 0) || (bn_neg n =? 0)).
Definition BN_is_one (n : BIGNUM) : bool := BN_abs_is_word n 1 && (bn_neg n =? 0).
Definition BN_is_odd (n : BIGNUM) : bool :=
  (0 <? bn_top n) && negb (Z.land (default 0 (zget (bn_d n) 0)) 1 =? 0).
Definition BN_is_negative (n : BIGNUM) : bool := negb (bn_neg n =? 0).

(** [bn->neg = ~BN_is_zero(bn) & bn_ct_ne_zero(neg)] *)
Definition BN_set_negative (bn : nat) (neg : Z) : M bn_state unit :=
  bn_update bn (fun n =>
    set_neg (Z.land (Z.lnot (Z.b2z (BN_is_zero n))) (bn_ct_ne_zero (u64 neg))) n).

(** [for (i = a->top - 1; i >= 0; i--)] *)
Fixpoint ucmp_loop (n : nat) (a b : list Z) : option Z :=
  match n with
  | O => Some 0
  | S i =>
      x ← a !! i;
      y ← b !! i;
      if x =? y then ucmp_loop i a b else Some (if y <? x then 1 else -1)
  end.

Definition BN_ucmp (a b : BIGNUM) : option Z :=
  if bn_top a <? bn_top b then Some (-1)
  else if bn_top b <? bn_top a then Some 1
  else ucmp_loop (Z.to_nat (bn_top a)) (bn_d a) (bn_d b).

Definition BN_cmp (a b : BIGNUM) : option Z :=
  if negb (bn_neg a =? bn_neg b) then Some (bn_neg b - bn_neg a)
  else if negb (bn_neg a =? 0) then BN_ucmp b a
  else BN_ucmp a b.

Definition BN_set_bit (a : nat) (n : Z) : M bn_state unit :=
  check (negb (n <? 0));;
  let i := Z.quot n BN_BITS2 in
  let j := Z.rem n BN_BITS2 in
  na ← bn_load a;
  (if bn_top na <=? i then
     bn_wexpand a (i + 1);;
     bn_write a (bn_top na) (zrep (i + 1 - bn_top na) 0);;
     bn_update a (set_top (i + 1))
   else mret tt);;
  na ← bn_load a;
  w ← valid (zget (bn_d na) i);
  bn_write a i [Z.lor w (wshl 1 j)].

Definition BN_clear_bit (a : nat) (n : Z) : M bn_state unit :=
  check (negb (n <? 0));;
  let i := Z.quot n BN_BITS2 in
  let j := Z.rem n BN_BITS2 in
  na ← bn_load a;
  check (negb (bn_top na <=? i));;
  w ← valid (zget (bn_d na) i);
  bn_write a i [Z.land w (wnot (wshl 1 j))];;
  bn_correct_top a;;
  na ← bn_load a;
  BN_set_negative a (bn_neg na).

Definition BN_is_bit_set (a : BIGNUM) (n : Z) : option Z :=
  if n <? 0 then Some 0
  else
    let i := Z.quot n BN_BITS2 in
    let j := Z.rem n BN_BITS2 in
    if bn_top a <=? i then Some 0
    else w ← zget (bn_d a) i; Some (Z.land (wshr w j) 1).

Definition BN_mask_bits (a : nat) (n : Z) : M bn_state unit :=
  check (negb (n <? 0));;
  let w := Z.quot n BN_BITS2 in
  let b := Z.rem n BN_BITS2 in
  na ← bn_load a;
  check (negb (bn_top na <=? w));;
  (if b =? 0 then bn_update a (set_top w)
   else
     bn_update a (set_top (w + 1));;
     x ← valid (zget (bn_d na) w);
     bn_write a w [Z.land x (wnot (wshl BN_MASK2 b))]);;
  bn_correct_top a;;
  na ← bn_load a;
  BN_set_negative a (bn_neg na).

(** [while (i < bn->top)] of [bn_bitsize]: the final [n] and [x]. *)
Fixpoint bitsize_loop (i : Z) (ws : list Z) (n x : Z) : Z * Z :=
  match ws with
  | [] => (n, x)
  | w :: ws' =>
      let mask := bn_ct_ne_zero_mask w in
      bitsize_loop (i + 1) ws'
        (Z.lor (Z.land i mask) (Z.land n (wnot mask)))
        (Z.lor (Z.land w mask) (Z.land x (wnot mask)))
  end.

Definition bn_bitsize (bn : BIGNUM) : Z :=
  let '(n, x) := bitsize_loop 0 (bn_words bn) 0 0 in
  u64 (u64 (n + 1) * BN_BITS2) - bn_clzw x.

Definition BN_num_bits (bn : BIGNUM) : Z := bn_bitsize bn.

(** *** BN_CTX *)

Definition ctx_update (f : bignum_ctx -> bignum_ctx) : M bn_state unit :=
  modify (fun s => mkState (nums s) (f (bctx s))).

Definition BN_CTX_INITIAL_LEN : Z := 8.

(** [groups_init]: what [reallocarray] leaves in the new part of [groups]. *)
Definition bn_ctx_grow (groups_init : Z) : M bn_state unit :=
  c ← gets bctx;
  let len := zlen (ctx_bignums c) in
  (if len =? 0 then mret tt else check (negb (SIZE_MAX - len <? len)));;
  let new_len := if len =? 0 then BN_CTX_INITIAL_LEN else len * 2 in
  check (alloc_ok (new_len * 8));;
  check (alloc_ok new_len);;
  ctx_update (fun c => mkCtx (ctx_bignums c ++ zrep (new_len - len) None)
    (ctx_groups c ++ zrep (new_len - len) groups_init) (ctx_group c) (ctx_index c) (ctx_error c)).

Definition BN_CTX_start : M bn_state unit :=
  ctx_update (fun c =>
    let group := u8 (ctx_group c + 1) in
    mkCtx (ctx_bignums c) (ctx_groups c) group (ctx_index c) (if group =? 0 then true else ctx_error c)).

Definition ctx_set_error (c : bignum_ctx) : bignum_ctx :=
  mkCtx (ctx_bignums c) (ctx_groups c) (ctx_group c) (ctx_index c) true.

(** [bctx->error = 1] when [m] fails. *)
Definition or_error {A} (m : M bn_state A) : M bn_state A :=
  o ← try m;
  match o with
  | Some a => mret a
  | None => ctx_update ctx_set_error;; fail
  end.

Definition BN_CTX_get : M bn_state nat :=
  c ← gets bctx;
  check (negb (ctx_error c));;
  or_error (check (negb (ctx_group c =? 0)));;
  (if ctx_index c =? zlen (ctx_bignums c) then or_error (bn_ctx_grow 0) else mret tt);;
  c ← gets bctx;
  slot ← valid (zget (ctx_bignums c) (ctx_index c));
  bn ←
    (match slot with
     | Some bn => mret bn
     | None =>
         bn ← or_error BN_new;
         bs ← valid (zset (ctx_bignums c) (ctx_index c) (Some bn));
         ctx_update (fun c => mkCtx bs (ctx_groups c) (ctx_group c) (ctx_index c) (ctx_error c));;
         mret bn
     end);
  gs ← valid (zset (ctx_groups c) (ctx_index c) (ctx_group c));
  ctx_update (fun c => mkCtx (ctx_bignums c) gs (ctx_group c) (ctx_index c + 1) (ctx_error c));;
  BN_zero bn;;
  mret bn.

(** [while (index > 0 && groups[index - 1] == group)] *)
Fixpoint ctx_end_loop (fuel : nat) : M bn_state unit :=
  match fuel with
  | O => mret tt
  | S fuel =>
      c ← gets bctx;
      if 0 <? ctx_index c then
        g ← valid (zget (ctx_groups c) (ctx_index c - 1));
        if g =? ctx_group c then
          slot ← valid (zget (ctx_bignums c) (ctx_index c - 1));
          bn ← valid slot;
          BN_zero bn;;
          gs ← valid (zset (ctx_groups c) (ctx_index c - 1) 0);
          ctx_update (fun c => mkCtx (ctx_bignums c) gs (ctx_group c) (ctx_index c - 1) (ctx_error c));;
          ctx_end_loop fuel
        else mret tt
      else mret tt
  end.

Definition BN_CTX_end : M bn_state unit :=
  c ← gets bctx;
  if ctx_error c || (ctx_group c =? 0) then mret tt
  else
    ctx_end_loop (Z.to_nat (ctx_index c));;
    ctx_update (fun c => mkCtx (ctx_bignums c) (ctx_groups c) (ctx_group c - 1) (ctx_index c) (ctx_error c)).

(** [BN_CTX_start], a body with [goto err] on failure, [BN_CTX_end]: the
    result of the body, if it succeeds. *)
Definition in_ctx {A} (body : M bn_state A) : M bn_state (option A) :=
  BN_CTX_start;;
  o ← try body;
  BN_CTX_end;;
  mret o.

(** [return ret]. *)
Definition returning {A} (m : M bn_state (option A)) : M bn_state A :=
  o ← m;
  match o with Some a => mret a | None => fail end.

(** *** Addition and subtraction *)

Definition BN_uadd (r a b : nat) : M bn_state unit :=
  na ← bn_load a;
  nb ← bn_load b;
  let rn := if bn_top na <? bn_top nb then bn_top nb else bn_top na in
  check (negb (rn =? INT_MAX));;
  bn_wexpand r (rn + 1);;
  na ← bn_load a;
  nb ← bn_load b;
  '(ws, carry) ← valid (bn_add (bn_words na) (bn_top na) (bn_words nb) (bn_top nb));
  bn_write r 0 ws;;
  bn_write r rn [carry];;
  bn_update r (fun n => mkBN (bn_d n) (rn + Z.land carry 1) 0 (bn_flags n)).

Definition BN_usub (r a b : nat) : M bn_state unit :=
  na ← bn_load a;
  nb ← bn_load b;
  check (negb (bn_top na <? bn_top nb));;
  let rn := bn_top na in
  bn_wexpand r rn;;
  na ← bn_load a;
  nb ← bn_load b;
  '(ws, borrow) ← valid (bn_sub (bn_words na) (bn_top na) (bn_words nb) (bn_top nb));
  bn_write r 0 ws;;
  check (negb (0 <? borrow));;
  bn_update r (fun n => mkBN (bn_d n) rn 0 (bn_flags n));;
  bn_correct_top r.

(** [BN_set_negative(r, r_neg); return ret;] *)
Definition finish_sign (r : nat) (r_neg : Z) (m : M bn_state unit) : M bn_state unit :=
  ret ← try m;
  BN_set_negative r r_neg;;
  match ret with Some _ => mret tt | None => fail end.

Definition BN_add (r a b : nat) : M bn_state unit :=
  na ← bn_load a;
  nb ← bn_load b;
  if bn_neg na =? bn_neg nb then finish_sign r (bn_neg na) (BN_uadd r a b)
  else
    cmp ← valid (BN_ucmp na nb);
    if 0 <? cmp then finish_sign r (bn_neg na) (BN_usub r a b)
    else if cmp <? 0 then finish_sign r (bn_neg nb) (BN_usub r b a)
    else finish_sign r 0 (BN_zero r).

Definition BN_sub (r a b : nat) : M bn_state unit :=
  na ← bn_load a;
  nb ← bn_load b;
  if negb (bn_neg na =? bn_neg nb) then finish_sign r (bn_neg na) (BN_uadd r a b)
  else
    cmp ← valid (BN_ucmp na nb);
    if 0 <? cmp then finish_sign r (bn_neg na) (BN_usub r a b)
    else if cmp <? 0 then finish_sign r (if bn_neg nb =? 0 then 1 else 0) (BN_usub r b a)
    else finish_sign r 0 (BN_zero r).

(** *** Multiplication *)

Definition bn_mul (r a b : nat) : M bn_state unit :=
  nr ← bn_load r;
  na ← bn_load a;
  nb ← bn_load b;
  d ← valid (bn_mul_normal (bn_d nr) (bn_words na) (bn_top na) (bn_words nb) (bn_top nb));
  bn_update r (set_d d).

Definition BN_mul (r a b : nat) : M bn_state unit :=
  returning (in_ctx (
    na ← bn_load a;
    nb ← bn_load b;
    if BN_is_zero na || BN_is_zero nb then BN_zero r
    else
      rr ← (if (r =? a)%nat || (r =? b)%nat then BN_CTX_get else mret r);
      na ← bn_load a;
      nb ← bn_load b;
      let rn := bn_top na + bn_top nb in
      must (rn <=? INT_MAX);;
      check (negb (rn <? bn_top na));;
      bn_wexpand rr rn;;
      (if (bn_top na =? 4) && (bn_top nb =? 4) then
         ws ← valid (bn_mul_comba4 (bn_words na) (bn_words nb)); bn_write rr 0 ws
       else if (bn_top na =? 8) && (bn_top nb =? 8) then
         ws ← valid (bn_mul_comba8 (bn_words na) (bn_words nb)); bn_write rr 0 ws
       else bn_mul rr a b);;
      bn_update rr (set_top rn);;
      bn_correct_top rr;;
      BN_set_negative rr (Z.lxor (bn_neg na) (bn_neg nb));;
      bn_copy r rr)).

Definition bn_sqr (r a : nat) (r_len : Z) : M bn_state unit :=
  nr ← bn_load r;
  na ← bn_load a;
  d ← valid (bn_sqr_normal (bn_d nr) r_len (bn_words na) (bn_top na));
  bn_update r (set_d d).

(** [ret] is 1 from the start: the error paths return 1 too. *)
Definition BN_sqr (r a : nat) : M bn_state unit :=
  _ ← in_ctx (
    na ← bn_load a;
    if bn_top na <? 1 then BN_zero r
    else
      rr ← (if (r =? a)%nat then BN_CTX_get else mret r);
      na ← bn_load a;
      let r_len := bn_top na * 2 in
      must (r_len <=? INT_MAX);;
      check (negb (r_len <? bn_top na));;
      bn_wexpand rr r_len;;
      (if bn_top na =? 4 then
         ws ← valid (bn_sqr_comba4 (bn_words na)); bn_write rr 0 ws
       else if bn_top na =? 8 then
         ws ← valid (bn_sqr_comba8 (bn_words na)); bn_write rr 0 ws
       else bn_sqr rr a r_len);;
      bn_update rr (set_top r_len);;
      bn_correct_top rr;;
      bn_update rr (set_neg 0);;
      bn_copy r rr);
  mret tt.
End bn_lib.

(** ** The number a BIGNUM stands for *)

Definition mag (n : BIGNUM) : Z := val (bn_words n).
Definition bn_val (n : BIGNUM) : Z := if bn_neg n =? 0 then mag n else - mag n.

Definition bn_ok (n : BIGNUM) : Prop :=
  words_ok (bn_d n) /\ 0 <= bn_top n <= zlen (bn_d n) /\ zlen (bn_d n) <= BN_MAX_WORDS /\
  (bn_neg n = 0 \/ bn_neg n = 1).

(** No leading zero words, and zero is not negative. *)
Definition bn_normal (n : BIGNUM) : Prop :=
  bn_ok n /\ (0 < bn_top n -> zget (bn_d n) (bn_top n - 1) <> Some 0) /\ (mag n = 0 -> bn_neg n = 0).

(** Only the BIGNUM at [r] changes. *)
Definition only_num (s s' : bn_state) (r : nat) : Prop :=
  (forall p, p <> r -> nums s' !! p = nums s !! p) /\ bctx s' = bctx s.

(** Room for [words] words can be had. *)
Definition can_grow (alloc_ok : Z -> bool) (n : BIGNUM) (words : Z) : Prop :=
  words <= zlen (bn_d n) \/
  (words <= BN_MAX_WORDS /\ BN_get_flags n BN_FLG_STATIC_DATA = 0 /\
   alloc_ok (words * BN_BYTES) = true).

(** ** Lemmas *)

Lemma only_num_refl s r : only_num s s r.
Proof. done. Qed.

Lemma only_num_trans s1 s2 s3 r : only_num s1 s2 r -> only_num s2 s3 r -> only_num s1 s3 r.
Proof. intros [H1 E1] [H2 E2]. split; [|congruence]. intros p Hp. by rewrite H2, H1. Qed.

Lemma wp_bn_load p n s (Q : BIGNUM -> bn_state -> Prop) E :
  nums s !! p = Some n -> Q n s -> wp (bn_load p) s Q E.
Proof. unfold wp, bn_load, valid. by intros ->. Qed.

Lemma wp_bn_store p n s (Q : unit -> bn_state -> Prop) E :
  (forall s', nums s' !! p = Some n -> only_num s s' p -> Q tt s') -> wp (bn_store p n) s Q E.
Proof.
  intros H. apply wp_modify, H; cbn; [apply lookup_insert_eq|]. split; [|done].
  intros q Hq. cbn. by rewrite lookup_insert_ne.
Qed.

Lemma wp_bn_update p n f s (Q : unit -> bn_state -> Prop) E :
  nums s !! p = Some n ->
  (forall s', nums s' !! p = Some (f n) -> only_num s s' p -> Q tt s') -> wp (bn_update p f) s Q E.
Proof. intros Hp H. apply wp_bind. eapply wp_bn_load; [exact Hp|]. by apply wp_bn_store. Qed.

Lemma wp_bn_write p n i ws d s (Q : unit -> bn_state -> Prop) E :
  nums s !! p = Some n -> zwrite (bn_d n) i ws = Some d ->
  (forall s', nums s' !! p = Some (set_d d n) -> only_num s s' p -> Q tt s') ->
  wp (bn_write p i ws) s Q E.
Proof.
  intros Hp Hd H. apply wp_bind. eapply wp_bn_load; [exact Hp|]. apply wp_bind.
  eapply wp_valid; [exact Hd|]. by apply wp_bn_store.
Qed.

Lemma bn_words_len n : bn_ok n -> zlen (bn_words n) = bn_top n.
Proof. intros (_ & ? & _). by apply zlen_ztake. Qed.

Lemma bn_words_ok n : bn_ok n -> words_ok (bn_words n).
Proof. intros (? & _). by apply words_ok_ztake. Qed.

Lemma mag_bounds n : bn_ok n -> 0 <= mag n < W ^ bn_top n.
Proof. intros Hn. rewrite <- (bn_words_len n Hn). apply val_bounds. by apply bn_words_ok. Qed.

Section specs.
Context (alloc_ok : Z -> bool).

(** Growing keeps the number. *)
Lemma wp_bn_wexpand p n words s :
  nums s !! p = Some n -> bn_ok n -> 0 <= words ->
  wp (bn_wexpand alloc_ok p words) s
    (fun _ s' => exists d, nums s' !! p = Some (set_d d n) /\ only_num s s' p /\
       bn_ok (set_d d n) /\ bn_words (set_d d n) = bn_words n /\ words <= zlen d)
    (fun s' => s' = s /\ ~ can_grow alloc_ok n words).
Proof.
  intros Hp Hok Hw. unfold bn_wexpand. apply wp_bind. eapply wp_bn_load; [exact Hp|].
  apply wp_bind, wp_check; [intros _|destruct (Z.ltb_spec words 0); [lia|done]].
  destruct (Z.leb_spec words (zlen (bn_d n))).
  - apply wp_ret. exists (bn_d n). by destruct n.
  - apply wp_bind. eapply wp_bn_load; [exact Hp|]. unfold can_grow.
    apply wp_bind, wp_check; [intros _|destruct (Z.ltb_spec words 0); [lia|done]].
    apply wp_bind, wp_check; [intros H1|].
    2: { intros H1. split; [done|]. destruct (Z.ltb_spec BN_MAX_WORDS words); [lia|done]. }
    destruct (Z.ltb_spec BN_MAX_WORDS words) as [|H1']; [done|].
    apply wp_bind, wp_check; [intros H2|].
    2: { intros H2%Z.eqb_neq. split; [done|]. intros [?|(_ & ? & _)]; [lia|done]. }
    apply wp_bind, wp_check; [intros H3|].
    2: { intros H3. split; [done|]. intros [?|(_ & _ & ?)]; [lia|congruence]. }
    apply wp_bn_store. intros s' Hs' Ho. eexists. split; [exact Hs'|]. split; [done|].
    destruct Hok as (Hd & Ht & Hm & Hn). rewrite (ztake_all words) by lia.
    assert (Hz : zlen (bn_d n ++ zrep (words - zlen (bn_d n)) 0) = words) by (rewrite zlen_app, zlen_rep; lia).
    split; [|split; [|lia]].
    + split_and!; cbn; [|lia|lia| |done].
      * apply words_ok_app. split; [done|]. apply Forall_replicate. unfold is_word. lia.
      * by rewrite Hz.
    + unfold bn_words. cbn. by rewrite ztake_app_le by lia.
Qed.

(** *** Leading zeros, sign, comparison *)

Lemma correct_top_loop_spec k d top :
  words_ok d -> 0 <= top <= zlen d -> top <= Z.of_nat k ->
  exists top', correct_top_loop k d top = Some top' /\ 0 <= top' <= top /\
    val (ztake top' d) = val (ztake top d) /\ (0 < top' -> zget d (top' - 1) <> Some 0).
Proof.
  intros Hd. revert top. induction k as [|k IH]; intros top Ht Hk; cbn [correct_top_loop].
  - exists top. split_and!; [done|lia|lia|done|lia].
  - destruct (Z.ltb_spec 0 top); [|exists top; split_and!; [done|lia|lia|done|lia]].
    destruct (zget_Some d (top - 1)) as [w Hw]; [lia|]. rewrite Hw. cbn [mbind option_bind].
    destruct (Z.eqb_spec w 0) as [->|].
    + destruct (IH (top - 1)) as (top' & -> & H1 & H2 & H3); [lia..|].
      exists top'. split_and!; [done|lia|lia| |done].
      rewrite H2. replace top with (top - 1 + 1) at 2 by lia.
      rewrite (ztake_snoc _ _ _ Hw), val_app. change (val [0]) with 0. lia.
    + exists top. split_and!; [done|lia|lia|done|]. intros _. rewrite Hw. congruence.
Qed.

Lemma wp_bn_correct_top p n s :
  nums s !! p = Some n -> bn_ok n ->
  wp (bn_correct_top p) s
    (fun _ s' => exists top', let n' := set_top top' n in
       nums s' !! p = Some n' /\ only_num s s' p /\ bn_ok n' /\ mag n' = mag n /\
       (0 < top' -> zget (bn_d n') (top' - 1) <> Some 0) /\ top' <= bn_top n)
    (fun _ => False).
Proof.
  intros Hp (Hd & Ht & Hm & Hn). apply wp_bind. eapply wp_bn_load; [exact Hp|].
  destruct (correct_top_loop_spec (Z.to_nat (bn_top n)) (bn_d n) (bn_top n) Hd Ht) as
    (top' & E & H1 & H2 & H3); [lia|].
  apply wp_bind. eapply wp_valid; [exact E|]. apply wp_bn_store. intros s' Hs' Ho.
  exists top'. cbv zeta. split_and!; [done|done| |exact H2|exact H3|lia].
  split_and!; cbn; [done|lia|lia|lia|done].
Qed.

Lemma fold_lor_zero l acc :
  words_ok l -> 0 <= acc -> (fold_left Z.lor l acc =? 0) = (acc =? 0) && (val l =? 0).
Proof.
  intros Hl. revert acc. induction Hl as [|w l Hw Hl IH]; intros acc Hacc; cbn [fold_left].
  - change (val []) with 0. by rewrite andb_true_r.
  - pose proof (val_bounds l Hl). unfold is_word in Hw.
    rewrite IH by (apply Z.lor_nonneg; lia). rewrite val_cons.
    destruct (Z.eqb_spec (Z.lor acc w) 0) as [E|E].
    + apply Z.lor_eq_0_iff in E as [-> ->]. cbn [andb Z.eqb]. destruct (Z.eqb_spec (val l) 0); destruct (Z.eqb_spec (0 + W * val l) 0); lia.
    + cbn [andb]. symmetry. apply andb_false_iff. rewrite !Z.eqb_neq.
      destruct (Z.eq_dec acc 0) as [->|]; [|by left]. right. rewrite Z.lor_0_l in E. lia.
Qed.

Lemma BN_is_zero_spec n : bn_ok n -> BN_is_zero n = (mag n =? 0).
Proof. intros Hn. unfold BN_is_zero. rewrite fold_lor_zero; [done|by apply bn_words_ok|lia]. Qed.

Lemma wp_BN_set_negative p n neg s :
  nums s !! p = Some n -> bn_ok n -> neg = 0 \/ neg = 1 ->
  wp (BN_set_negative p neg) s
    (fun _ s' => exists n', n' = set_neg (if mag n =? 0 then 0 else neg) n /\
       nums s' !! p = Some n' /\ only_num s s' p /\ bn_ok n')
    (fun _ => False).
Proof.
  intros Hp Hok Hneg. eapply wp_bn_update; [exact Hp|]. intros s' Hs' Ho. rewrite BN_is_zero_spec in Hs' by done.
  eexists. split; [reflexivity|].
  assert (E : Z.land (Z.lnot (Z.b2z (mag n =? 0))) (bn_ct_ne_zero (u64 neg)) = if mag n =? 0 then 0 else neg).
  { destruct Hneg as [-> | ->]; by destruct (mag n =? 0). }
  rewrite E in Hs'. split_and!; [done|done|]. destruct Hok as (Hd & Ht & Hm & _).
  split_and!; cbn; [done|lia|lia|lia|]. destruct (mag n =? 0); tauto.
Qed.

Definition cmp_z (x y : Z) : Z := if x <? y then -1 else if y <? x then 1 else 0.

Lemma ucmp_loop_spec k a b :
  words_ok a -> words_ok b -> Z.of_nat k <= zlen a -> Z.of_nat k <= zlen b ->
  ucmp_loop k a b = Some (cmp_z (val (ztake (Z.of_nat k) a)) (val (ztake (Z.of_nat k) b))).
Proof.
  intros Ha Hb. induction k as [|k IH]; intros Hka Hkb; [done|]. cbn [ucmp_loop].
  destruct (zget_Some a (Z.of_nat k)) as [x Hx]; [lia|]. destruct (zget_Some b (Z.of_nat k)) as [y Hy]; [lia|].
  assert (Hxw : is_word x) by (by eapply zget_Forall in Hx). assert (Hyw : is_word y) by (by eapply zget_Forall in Hy).
  pose proof Hx as Hx'. pose proof Hy as Hy'. unfold zget in Hx', Hy'.
  rewrite (proj2 (Z.leb_le _ _)), Nat2Z.id in Hx', Hy' by lia. rewrite Hx', Hy'. cbn [mbind option_bind].
  rewrite Nat2Z.inj_succ, <- Z.add_1_r, (ztake_snoc _ _ _ Hx), (ztake_snoc _ _ _ Hy), !val_app.
  rewrite !zlen_ztake by lia. rewrite !val_cons. change (val []) with 0. rewrite !Z.mul_0_r, !Z.add_0_r.
  pose proof (val_bounds (ztake (Z.of_nat k) a)) as Hba. pose proof (val_bounds (ztake (Z.of_nat k) b)) as Hbb.
  rewrite !zlen_ztake in Hba, Hbb by lia. specialize (Hba ltac:(auto)). specialize (Hbb ltac:(auto)).
  set (P := W ^ Z.of_nat k) in *. unfold is_word in *.
  destruct (Z.eqb_spec x y) as [->|].
  - rewrite IH by lia. f_equal. unfold cmp_z.
    set (u := val (ztake (Z.of_nat k) a)) in *. set (v := val (ztake (Z.of_nat k) b)) in *.
    destruct (Z.ltb_spec u v), (Z.ltb_spec (u + P * y) (v + P * y)), (Z.ltb_spec v u), (Z.ltb_spec (v + P * y) (u + P * y)); lia.
  - f_equal. unfold cmp_z. destruct (Z.ltb_spec y x).
    + rewrite (proj2 (Z.ltb_ge _ _)) by nia. rewrite (proj2 (Z.ltb_lt _ _)) by nia. done.
    + rewrite (proj2 (Z.ltb_lt _ _)) by nia. done.
Qed.

(** Without leading zeros the longer number is the larger. *)
Lemma mag_lower n : bn_ok n -> 0 < bn_top n -> zget (bn_d n) (bn_top n - 1) <> Some 0 ->
  W ^ (bn_top n - 1) <= mag n.
Proof.
  intros (Hd & Ht & _) Hpos Hnz. destruct (zget_Some (bn_d n) (bn_top n - 1)) as [w Hw]; [lia|].
  assert (Hww : is_word w) by (by eapply zget_Forall in Hw). unfold mag, bn_words.
  replace (bn_top n) with (bn_top n - 1 + 1) at 2 by lia. rewrite (ztake_snoc _ _ _ Hw), val_app, zlen_ztake by lia.
  rewrite val_cons. change (val []) with 0.
  pose proof (val_bounds (ztake (bn_top n - 1) (bn_d n)) ltac:(auto)).
  assert (w <> 0) by congruence. pose proof (pow_W_pos (bn_top n - 1)). unfold is_word in Hww. nia.
Qed.

Lemma BN_ucmp_spec a b :
  bn_normal a -> bn_normal b -> BN_ucmp a b = Some (cmp_z (mag a) (mag b)).
Proof.
  intros (Ha & Hza & _) (Hb & Hzb & _). unfold BN_ucmp.
  assert (Hlt : forall x y, bn_ok x -> bn_ok y -> (0 < bn_top y -> zget (bn_d y) (bn_top y - 1) <> Some 0) ->
    bn_top x < bn_top y -> mag x < mag y).
  { intros x y Hx Hy Hzy Hlt. pose proof (mag_bounds x Hx). pose proof Hx as (_ & ? & _).
    pose proof (mag_lower y Hy ltac:(lia) (Hzy ltac:(lia))).
    assert (W ^ bn_top x <= W ^ (bn_top y - 1)) by (apply Z.pow_le_mono_r; lia). lia. }
  destruct (Z.ltb_spec (bn_top a) (bn_top b)).
  { unfold cmp_z. by rewrite (proj2 (Z.ltb_lt _ _)) by auto. }
  destruct (Z.ltb_spec (bn_top b) (bn_top a)).
  { pose proof (Hlt b a). unfold cmp_z. rewrite (proj2 (Z.ltb_ge _ _)) by (apply Z.lt_le_incl; auto).
    by rewrite (proj2 (Z.ltb_lt _ _)) by auto. }
  pose proof Ha as (Hda & Hta & _). pose proof Hb as (Hdb & Htb & _).
  rewrite ucmp_loop_spec by (done || lia). rewrite Z2Nat.id by lia. unfold mag, bn_words.
  by replace (bn_top b) with (bn_top a) by lia.
Qed.

(** *** The view of the BIGNUMs a growing result leaves *)

Definition same_num (n n' : BIGNUM) : Prop :=
  bn_words n' = bn_words n /\ bn_top n' = bn_top n /\ bn_neg n' = bn_neg n /\
  bn_flags n' = bn_flags n /\ bn_ok n'.

Lemma same_num_refl n : bn_ok n -> same_num n n.
Proof. intros H. by split_and!. Qed.

(** After [bn_wexpand] of [r] every BIGNUM is the number it was. *)
Lemma wp_bn_wexpand_view r nr words s :
  nums s !! r = Some nr -> bn_ok nr -> 0 <= words ->
  wp (bn_wexpand alloc_ok r words) s
    (fun _ s' => only_num s s' r /\
       (forall p n, bn_ok n -> nums s !! p = Some n -> exists n', nums s' !! p = Some n' /\ same_num n n' /\
          (p = r -> words <= zlen (bn_d n'))))
    (fun s' => s' = s /\ ~ can_grow alloc_ok nr words).
Proof.
  intros Hr Hok Hw. eapply wp_conseq; [by apply wp_bn_wexpand| |auto].
  intros _ s' (d & Hs' & Ho & Hok' & Hws & Hlen). split; [done|]. intros p n Hnok Hp.
  destruct (decide (p = r)) as [->|Hne].
  - rewrite Hr in Hp. injection Hp as <-. exists (set_d d nr). by split_and!.
  - exists n. rewrite (proj1 Ho) by done. split_and!; [done|by apply same_num_refl|done].
Qed.

Lemma top_nonzero n :
  bn_ok n -> W ^ (bn_top n - 1) <= mag n -> 0 < bn_top n -> zget (bn_d n) (bn_top n - 1) <> Some 0.
Proof.
  intros (Hd & Ht & _) Hm Hpos Hz. unfold mag, bn_words in Hm.
  replace (ztake (bn_top n) (bn_d n)) with (ztake (bn_top n - 1 + 1) (bn_d n)) in Hm by (f_equal; lia).
  rewrite (ztake_snoc _ _ _ Hz), val_app in Hm. change (val [0]) with 0 in Hm.
  pose proof (val_bounds (ztake (bn_top n - 1) (bn_d n)) ltac:(auto)) as Hb.
  rewrite zlen_ztake in Hb by lia. lia.
Qed.

(** Writing [ws] at the start of [d] and setting [top]. *)
Lemma written d ws top neg flags d' :
  words_ok d -> zlen d <= BN_MAX_WORDS -> neg = 0 \/ neg = 1 ->
  words_ok ws -> zwrite d 0 ws = Some d' -> 0 <= top <= zlen ws ->
  bn_ok (mkBN d' top neg flags) /\ bn_words (mkBN d' top neg flags) = ztake top ws.
Proof.
  intros Hd Hm Hn Hws Hw Ht. pose proof (zlen_zwrite _ _ _ _ Hw) as Hl.
  assert (zlen ws <= zlen d /\ d' = ws ++ zdrop (zlen ws) d) as [Hle ->].
  { unfold zwrite in Hw. rewrite Z.leb_refl, Z.add_0_l, ztake_0 in Hw. cbn in Hw.
    destruct (Z.leb_spec (zlen ws) (zlen d)); [|done]. split; [done|congruence]. }
  split.
  - split_and!; cbn; [|lia|lia|lia|done]. apply words_ok_app. auto.
  - unfold bn_words. cbn. by rewrite ztake_app_le by lia.
Qed.

Lemma zwrite_front {A} (l ws : list A) : zlen ws <= zlen l -> exists l', zwrite l 0 ws = Some l'.
Proof using. intros. apply zwrite_fits; lia. Qed.

Lemma zwrite_snoc {A} (l ws l1 : list A) x : zwrite l 0 ws = Some l1 ->
  zwrite l1 (zlen ws) [x] = zwrite l 0 (ws ++ [x]).
Proof.
  intros H. pose proof (zlen_zwrite _ _ _ _ H) as Hl. revert H. unfold zwrite at 1 3.
  rewrite Z.leb_refl, !Z.add_0_l, !ztake_0, zlen_app. cbn [andb app].
  destruct (Z.leb_spec (zlen ws) (zlen l)); [|done]. intros [= <-]. pose proof (zlen_nonneg ws).
  unfold zwrite. rewrite Hl, (proj2 (Z.leb_le 0 _)) by lia. cbn [andb]. change (zlen [x]) with 1.
  destruct (Z.leb_spec (zlen ws + 1) (zlen l)); [|done]. f_equal.
  rewrite ztake_app_exact by done. rewrite zdrop_app_ge by lia.
  rewrite zdrop_zdrop by lia. rewrite <- app_assoc. do 3 f_equal. lia.
Qed.

Lemma wp_BN_uadd r a b nr na nb s :
  nums s !! r = Some nr -> nums s !! a = Some na -> nums s !! b = Some nb ->
  bn_ok nr -> bn_ok na -> bn_ok nb ->
  wp (BN_uadd alloc_ok r a b) s
    (fun _ s' => only_num s s' r /\ exists n', nums s' !! r = Some n' /\ bn_ok n' /\
       mag n' = mag na + mag nb /\ bn_neg n' = 0 /\ bn_flags n' = bn_flags nr /\
       Z.max (bn_top na) (bn_top nb) <= bn_top n' <= Z.max (bn_top na) (bn_top nb) + 1 /\
       (bn_top n' = Z.max (bn_top na) (bn_top nb) + 1 -> W ^ (bn_top n' - 1) <= mag n'))
    (fun s' => s' = s /\ ~ can_grow alloc_ok nr (Z.max (bn_top na) (bn_top nb) + 1)).
Proof.
  intros Hr Ha Hb Hrok Haok Hbok. unfold BN_uadd.
  apply wp_bind. eapply wp_bn_load; [exact Ha|]. apply wp_bind. eapply wp_bn_load; [exact Hb|]. cbv zeta.
  assert (Em : (if bn_top na <? bn_top nb then bn_top nb else bn_top na) = Z.max (bn_top na) (bn_top nb))
    by (destruct (Z.ltb_spec (bn_top na) (bn_top nb)); lia).
  rewrite Em. set (rn := Z.max (bn_top na) (bn_top nb)).
  pose proof Haok as (_ & Hta & Hma & _). pose proof Hbok as (_ & Htb & Hmb & _). pose proof Hrok as (_ & Htr & Hmr & _).
  apply wp_bind, wp_check; intros Hi.
  2: { split; [done|]. destruct (Z.eqb_spec rn INT_MAX) as [E|]; [|done].
       unfold can_grow, BN_MAX_WORDS in *. change (Z.quot INT_MAX (4 * BN_BITS2)) with 8388607 in *.
       unfold INT_MAX in *. lia. }
  apply wp_bind. eapply wp_conseq; [apply (wp_bn_wexpand_view r nr); [done|done|lia]| |by intros s' [-> ?]].
  intros _ s1 (Ho1 & Hview). cbv beta.
  destruct (Hview a na) as (na' & Ha1 & (Ewa & Eta & _ & _ & Haok1) & _); [done|done|].
  destruct (Hview b nb) as (nb' & Hb1 & (Ewb & Etb & _ & _ & Hbok1) & _); [done|done|].
  destruct (Hview r nr) as (nr' & Hr1 & (_ & _ & _ & Efr & Hrok1) & Hroom); [done|done|]. specialize (Hroom eq_refl).
  apply wp_bind. eapply wp_bn_load; [exact Ha1|]. apply wp_bind. eapply wp_bn_load; [exact Hb1|].
  rewrite Ewa, Ewb, Eta, Etb.
  pose proof (bn_words_len na Haok) as Hla. pose proof (bn_words_len nb Hbok) as Hlb.
  destruct (bn_add_spec (bn_words na) (bn_words nb)) as (ws & c & E & Hws & Hwok & Hc & Hv); [by apply bn_words_ok..|].
  rewrite Hla, Hlb in E, Hws, Hv. fold rn in Hws, Hv. apply wp_bind. eapply wp_valid; [exact E|]. cbv beta iota.
  destruct (zwrite_front (bn_d nr') ws) as (d1 & Hd1); [lia|].
  destruct (zwrite_front (bn_d nr') (ws ++ [c])) as (d2 & Hd2);
    [rewrite zlen_app; change (zlen [c]) with 1; lia|].
  apply wp_bind. eapply wp_bn_write; [exact Hr1|exact Hd1|]. intros s2 Hr2 Ho2.
  apply wp_bind. eapply wp_bn_write; [exact Hr2| |].
  { cbn. rewrite <- Hws, <- Hd2. by apply zwrite_snoc. }
  intros s3 Hr3 Ho3. eapply wp_bn_update; [exact Hr3|]. intros s4 Hr4 Ho4. cbn [bn_d bn_flags set_d] in Hr4.
  assert (Ec : Z.land c 1 = c) by (destruct (Z.eq_dec c 0) as [->|]; [done|by replace c with 1 by lia]).
  rewrite Ec in Hr4. split; [by do 3 (eapply only_num_trans; [eassumption|])|].
  pose proof Hrok1 as (Hdr & _ & Hmr' & _).
  destruct (written (bn_d nr') (ws ++ [c]) (rn + c) 0 (bn_flags nr') d2) as [Hok2 Hw2];
    [done|done|by left|apply words_ok_app; split; [done|constructor; [unfold is_word; lia|constructor]]|done
    |rewrite zlen_app; change (zlen [c]) with 1; lia|].
  eexists. split; [exact Hr4|]. assert (Hmag : mag (mkBN d2 (rn + c) 0 (bn_flags nr')) = mag na + mag nb).
  { unfold mag at 1. rewrite Hw2. unfold mag. rewrite <- Hv. destruct (Z.eq_dec c 0) as [->|].
    - rewrite ztake_app_exact by lia. lia.
    - replace c with 1 in * by lia. rewrite ztake_all by (rewrite zlen_app; change (zlen [1]) with 1; lia).
      rewrite val_app, Hws. change (val [1]) with 1. lia. }
  split_and!; [done|exact Hmag|done|done|cbn; lia|cbn; lia|]. intros Ht. cbn in Ht.
  assert (c = 1) as -> by lia. rewrite Hmag. cbn [bn_top]. unfold mag. rewrite <- Hv.
  pose proof (val_bounds ws Hwok). replace (rn + 1 - 1) with rn by lia. lia.
Qed.

Lemma wp_BN_usub r a b nr na nb s :
  nums s !! r = Some nr -> nums s !! a = Some na -> nums s !! b = Some nb ->
  bn_ok nr -> bn_ok na -> bn_ok nb ->
  wp (BN_usub alloc_ok r a b) s
    (fun _ s' => only_num s s' r /\ mag nb <= mag na /\ exists n', nums s' !! r = Some n' /\ bn_ok n' /\
       mag n' = mag na - mag nb /\ bn_neg n' = 0 /\ bn_flags n' = bn_flags nr /\
       (0 < bn_top n' -> zget (bn_d n') (bn_top n' - 1) <> Some 0))
    (fun s' => only_num s s' r /\ (exists n', nums s' !! r = Some n' /\ bn_ok n') /\
       (bn_top na < bn_top nb \/ mag na < mag nb \/ ~ can_grow alloc_ok nr (bn_top na))).
Proof.
  intros Hr Ha Hb Hrok Haok Hbok. unfold BN_usub.
  apply wp_bind. eapply wp_bn_load; [exact Ha|]. apply wp_bind. eapply wp_bn_load; [exact Hb|]. cbv zeta.
  pose proof Haok as (_ & Hta & _). pose proof Hbok as (_ & Htb & _).
  apply wp_bind, wp_check; intros Hle.
  2: { split; [done|]. split; [by eauto|]. left. destruct (Z.ltb_spec (bn_top na) (bn_top nb)); [lia|done]. }
  destruct (Z.ltb_spec (bn_top na) (bn_top nb)) as [|Hle']; [done|].
  apply wp_bind. eapply wp_conseq; [apply (wp_bn_wexpand_view r nr); [done|done|lia]| |].
  2: { intros s' [-> ?]. split; [done|]. split; [by eauto|tauto]. }
  intros _ s1 (Ho1 & Hview). cbv beta.
  destruct (Hview a na) as (na' & Ha1 & (Ewa & Eta & _ & _ & Haok1) & _); [done|done|].
  destruct (Hview b nb) as (nb' & Hb1 & (Ewb & Etb & _ & _ & Hbok1) & _); [done|done|].
  destruct (Hview r nr) as (nr' & Hr1 & (_ & Etr & Enr & Efr & Hrok1) & Hroom); [done|done|]. specialize (Hroom eq_refl).
  apply wp_bind. eapply wp_bn_load; [exact Ha1|]. apply wp_bind. eapply wp_bn_load; [exact Hb1|].
  rewrite Ewa, Ewb, Eta, Etb.
  pose proof (bn_words_len na Haok) as Hla. pose proof (bn_words_len nb Hbok) as Hlb.
  destruct (bn_sub_spec (bn_words na) (bn_words nb)) as (ws & c & E & Hws & Hwok & Hc & Hv);
    [by apply bn_words_ok..|lia|].
  rewrite Hla, Hlb in E. rewrite Hla in Hws, Hv. fold (mag na) (mag nb) in Hv.
  apply wp_bind. eapply wp_valid; [exact E|]. cbv beta iota.
  destruct (zwrite_front (bn_d nr') ws) as (d1 & Hd1); [lia|].
  apply wp_bind. eapply wp_bn_write; [exact Hr1|exact Hd1|]. intros s2 Hr2 Ho2.
  pose proof Hrok1 as (Hdr & Htr & Hmr & Hnr). pose proof (val_bounds ws Hwok) as Hvb. rewrite Hws in Hvb.
  pose proof (mag_bounds na Haok). pose proof (mag_bounds nb Hbok).
  assert (Hd1ok : words_ok d1 /\ zlen d1 = zlen (bn_d nr')).
  { destruct (written (bn_d nr') ws 0 0 0 d1) as [(? & _) _]; try done; [by left|pose proof (zlen_nonneg ws); lia|].
    split; [done|by eapply zlen_zwrite]. }
  apply wp_bind, wp_check; intros Hbor.
  2: { split; [by eapply only_num_trans|]. split.
       - eexists. split; [exact Hr2|]. destruct Hd1ok as [? Hl]. split_and!; cbn; [done|lia..|done].
       - right; left. destruct (Z.ltb_spec 0 c); [|done]. nia. }
  assert (c = 0) as -> by (destruct (Z.ltb_spec 0 c); [done|lia]).
  apply wp_bind. eapply wp_bn_update; [exact Hr2|]. intros s3 Hr3 Ho3. cbn [bn_d bn_flags set_d] in Hr3.
  destruct (written (bn_d nr') ws (bn_top na) 0 (bn_flags nr') d1) as [Hok3 Hw3]; [done|done|by left|done|done|lia|].
  eapply wp_conseq; [by eapply wp_bn_correct_top|cbn beta; intros _ s4|by intros ? []].
  intros (top' & Hr4 & Ho4 & Hok4 & Hm4 & Hnz & _). split; [by do 3 (eapply only_num_trans; [eassumption|])|].
  split; [lia|]. eexists. split; [exact Hr4|].
  split_and!; [done| |done|done|exact Hnz].
  rewrite Hm4. unfold mag at 1. rewrite Hw3, ztake_all by lia. lia.
Qed.

Lemma wp_finish_sign r r_neg m s (Q : unit -> bn_state -> Prop) (E : bn_state -> Prop) :
  r_neg = 0 \/ r_neg = 1 ->
  wp m s
    (fun _ s' => exists n, nums s' !! r = Some n /\ bn_ok n /\
       forall s'', only_num s' s'' r -> nums s'' !! r = Some (set_neg (if mag n =? 0 then 0 else r_neg) n) ->
         bn_ok (set_neg (if mag n =? 0 then 0 else r_neg) n) -> Q tt s'')
    (fun s' => exists n, nums s' !! r = Some n /\ bn_ok n /\
       forall s'', only_num s' s'' r -> nums s'' !! r = Some (set_neg (if mag n =? 0 then 0 else r_neg) n) ->
         bn_ok (set_neg (if mag n =? 0 then 0 else r_neg) n) -> E s'') ->
  wp (finish_sign r r_neg m) s Q E.
Proof.
  intros Hneg. unfold wp at 1. unfold finish_sign, try. destruct (m s) as [[] s1|s1|] eqn:Em; [| |done].
  all: intros (n & Hn & Hok & H); unfold wp; mstep; rewrite Em;
    pose proof (wp_BN_set_negative r n r_neg s1 Hn Hok Hneg) as Hs; unfold wp in Hs;
    destruct (BN_set_negative r r_neg s1) as [[] s2|s2|]; try done;
    destruct Hs as (n' & -> & Hn' & Ho & Hok'); mstep; by apply H.
Qed.

Lemma bn_val_signed n neg :
  neg = 0 \/ neg = 1 ->
  bn_val (set_neg (if mag n =? 0 then 0 else neg) n) = if neg =? 0 then mag n else - mag n.
Proof.
  intros Hneg. unfold bn_val. change (mag (set_neg _ n)) with (mag n). cbn [bn_neg set_neg].
  destruct (Z.eqb_spec (mag n) 0) as [->|]; [by destruct (neg =? 0)|done].
Qed.

Lemma bn_normal_signed n neg :
  bn_ok (set_neg (if mag n =? 0 then 0 else neg) n) ->
  (0 < bn_top n -> zget (bn_d n) (bn_top n - 1) <> Some 0) ->
  bn_normal (set_neg (if mag n =? 0 then 0 else neg) n).
Proof.
  intros Hok Hnz. split_and!; [done|done|]. change (mag (set_neg _ n)) with (mag n).
  intros ->. done.
Qed.

(** What a signed operation that stores [v] in [r] ensures. *)
Definition stores (s : bn_state) (r : nat) (v : Z) (s' : bn_state) : Prop :=
  only_num s s' r /\ exists n, nums s' !! r = Some n /\ bn_normal n /\ bn_val n = v.

(** How it can fail: the room for at most [words] words could not be had. *)
Definition no_room (s : bn_state) (r : nat) (nr : BIGNUM) (words : Z) (s' : bn_state) : Prop :=
  only_num s s' r /\ (exists n, nums s' !! r = Some n /\ bn_ok n) /\
  exists w, 0 <= w <= words /\ ~ can_grow alloc_ok nr w.

Section binary.
Context (r a b : nat) (nr na nb : BIGNUM) (s : bn_state).
Context (Hr : nums s !! r = Some nr) (Ha : nums s !! a = Some na) (Hb : nums s !! b = Some nb).
Context (Hrok : bn_ok nr) (Han : bn_normal na) (Hbn : bn_normal nb).

Let words : Z := Z.max (bn_top na) (bn_top nb) + 1.

(** Adding the magnitudes. *)
Lemma wp_signed_uadd neg v :
  neg = 0 \/ neg = 1 -> v = (if neg =? 0 then mag na + mag nb else - (mag na + mag nb)) ->
  wp (finish_sign r neg (BN_uadd alloc_ok r a b)) s (fun _ => stores s r v) (no_room s r nr words).
Proof using Hr Ha Hb Hrok Han Hbn.
  intros Hneg ->. destruct Han as (Haok & Hza & _). destruct Hbn as (Hbok & Hzb & _).
  pose proof Haok as (_ & Hta & _). pose proof Hbok as (_ & Htb & _).
  apply wp_finish_sign; [done|]. eapply wp_conseq; [by eapply wp_BN_uadd| |].
  - cbn beta. intros _ s1 (Ho & n & Hn & Hok & Hm & _ & _ & Htop & Hbig). exists n. split_and!; [done..|].
    intros s2 Ho2 Hn2 Hok2. split; [by eapply only_num_trans|]. eexists. split; [exact Hn2|].
    split; [|by rewrite bn_val_signed, Hm]. apply bn_normal_signed; [done|]. intros Hpos.
    apply top_nonzero; [done| |done]. rewrite Hm.
    pose proof (mag_bounds na Haok). pose proof (mag_bounds nb Hbok).
    destruct (Z.eq_dec (bn_top n) (Z.max (bn_top na) (bn_top nb) + 1)) as [E|]; [rewrite <- Hm; auto|].
    replace (bn_top n) with (Z.max (bn_top na) (bn_top nb)) in * by lia.
    destruct (Z.max_spec (bn_top na) (bn_top nb)) as [[Hlt E]|[Hlt E]]; rewrite E in *.
    + pose proof (mag_lower nb Hbok Hpos (Hzb Hpos)). lia.
    + pose proof (mag_lower na Haok Hpos (Hza Hpos)). lia.
  - cbn beta. intros s1 [-> Hg]. exists nr. split_and!; [done..|]. intros s2 Ho2 Hn2 Hok2.
    split; [done|]. split; [by eauto|]. exists words. subst words. split; [lia|done].
Qed.
End binary.

(** Subtracting the smaller magnitude from the larger. *)
Lemma wp_signed_usub r a b nr na nb s neg v words :
  nums s !! r = Some nr -> nums s !! a = Some na -> nums s !! b = Some nb ->
  bn_ok nr -> bn_normal na -> bn_normal nb -> bn_top na <= words ->
  neg = 0 \/ neg = 1 -> mag nb < mag na ->
  v = (if neg =? 0 then mag na - mag nb else - (mag na - mag nb)) ->
  wp (finish_sign r neg (BN_usub alloc_ok r a b)) s (fun _ => stores s r v) (no_room s r nr words).
Proof.
  intros Hr Ha Hb Hrok Han Hbn Hw Hneg Hlt ->.
  pose proof (BN_ucmp_spec na nb Han Hbn) as Hcmp.
  destruct Han as (Haok & Hza & _). destruct Hbn as (Hbok & Hzb & _). pose proof Haok as (_ & Hta & _).
  apply wp_finish_sign; [done|]. eapply wp_conseq; [by eapply wp_BN_usub| |].
  - cbn beta. intros _ s1 (Ho & _ & n & Hn & Hok & Hm & _ & _ & Hnz). exists n. split_and!; [done..|].
    intros s2 Ho2 Hn2 Hok2. split; [by eapply only_num_trans|]. eexists. split; [exact Hn2|].
    split; [by apply bn_normal_signed|by rewrite bn_val_signed, Hm].
  - cbn beta. intros s1 (Ho & (n & Hn & Hok) & Hwhy). exists n. split_and!; [done..|]. intros s2 Ho2 Hn2 Hok2.
    split; [by eapply only_num_trans|]. split; [by eauto|]. exists (bn_top na).
    split; [lia|]. destruct Hwhy as [Ht|[?|?]]; [|lia|done]. exfalso.
    unfold BN_ucmp in Hcmp. rewrite (proj2 (Z.ltb_lt _ _) Ht) in Hcmp. unfold cmp_z in Hcmp.
    by rewrite (proj2 (Z.ltb_ge _ _)), (proj2 (Z.ltb_lt _ _)) in Hcmp by lia.
Qed.

Lemma wp_signed_zero r nr s words :
  nums s !! r = Some nr -> bn_ok nr ->
  wp (finish_sign r 0 (BN_zero r)) s (fun _ => stores s r 0) (no_room s r nr words).
Proof.
  intros Hr (Hd & Ht & Hm & _). apply wp_finish_sign; [by left|].
  eapply wp_bn_update; [done|]. intros s1 Hs1 Ho1. eexists. split; [exact Hs1|].
  assert (bn_ok (mkBN (bn_d nr) 0 0 (bn_flags nr))) as Hok0 by (split_and!; cbn; [done|lia..|by left]).
  split; [done|]. intros s2 Ho2 Hn2 Hok2. split; [by eapply only_num_trans|]. eexists. split; [exact Hn2|].
  split; [by apply bn_normal_signed|]. by rewrite bn_val_signed; [|left].
Qed.

(** The three ways [BN_add] and [BN_sub] combine two magnitudes. *)
Lemma wp_signed_diff r a b nr na nb s neg neg' v :
  nums s !! r = Some nr -> nums s !! a = Some na -> nums s !! b = Some nb ->
  bn_ok nr -> bn_normal na -> bn_normal nb -> neg = 0 /\ neg' = 1 \/ neg = 1 /\ neg' = 0 ->
  v = (if neg =? 0 then mag na - mag nb else - (mag na - mag nb)) ->
  wp (cmp ← valid (BN_ucmp na nb);
      if 0 <? cmp then finish_sign r neg (BN_usub alloc_ok r a b)
      else if cmp <? 0 then finish_sign r neg' (BN_usub alloc_ok r b a)
      else finish_sign r 0 (BN_zero r)) s
    (fun _ => stores s r v) (no_room s r nr (Z.max (bn_top na) (bn_top nb) + 1)).
Proof.
  intros Hr Ha Hb Hrok Han Hbn Hneg ->. apply wp_bind.
  eapply wp_valid; [by apply BN_ucmp_spec|]. unfold cmp_z.
  destruct (Z.ltb_spec (mag na) (mag nb)); [|destruct (Z.ltb_spec (mag nb) (mag na))]; cbn [Z.ltb Z.compare].
  - eapply wp_signed_usub; try done; [lia|tauto|]. destruct Hneg as [[-> ->]|[-> ->]]; cbn; lia.
  - eapply wp_signed_usub; try done; [lia|tauto].
  - replace (if neg =? 0 then _ else _) with 0 by (destruct (neg =? 0); lia). by apply wp_signed_zero.
Qed.

(** C25. BN_add: for operands without leading zeros, whatever the aliasing
    among [r], [a] and [b], [r] becomes the sum of the two signed values, again
    without leading zeros and never as minus zero, and no other BIGNUM changes;
    the call fails only when the room for the result cannot be had. *)
Theorem BN_add_correct r a b nr na nb s :
  nums s !! r = Some nr -> nums s !! a = Some na -> nums s !! b = Some nb ->
  bn_ok nr -> bn_normal na -> bn_normal nb ->
  wp (BN_add alloc_ok r a b) s
    (fun _ s' => stores s r (bn_val na + bn_val nb) s')
    (fun s' => no_room s r nr (Z.max (bn_top na) (bn_top nb) + 1) s').
Proof.
  intros Hr Ha Hb Hrok Han Hbn. unfold BN_add.
  apply wp_bind. eapply wp_bn_load; [exact Ha|]. apply wp_bind. eapply wp_bn_load; [exact Hb|].
  pose proof Han as ((_ & _ & _ & Hna) & _). pose proof Hbn as ((_ & _ & _ & Hnb) & _).
  destruct (Z.eqb_spec (bn_neg na) (bn_neg nb)) as [E|E].
  - apply wp_signed_uadd; try done. unfold bn_val. rewrite <- E. destruct (bn_neg na =? 0); lia.
  - eapply wp_signed_diff; try done; [lia|]. unfold bn_val.
    destruct Hna as [E1|E1], Hnb as [E2|E2]; rewrite E1, E2 in *; cbn; lia.
Qed.

(** BN_sub: likewise [r] becomes the difference of the two signed values. *)
Theorem BN_sub_correct r a b nr na nb s :
  nums s !! r = Some nr -> nums s !! a = Some na -> nums s !! b = Some nb ->
  bn_ok nr -> bn_normal na -> bn_normal nb ->
  wp (BN_sub alloc_ok r a b) s
    (fun _ s' => stores s r (bn_val na - bn_val nb) s')
    (fun s' => no_room s r nr (Z.max (bn_top na) (bn_top nb) + 1) s').
Proof.
  intros Hr Ha Hb Hrok Han Hbn. unfold BN_sub.
  apply wp_bind. eapply wp_bn_load; [exact Ha|]. apply wp_bind. eapply wp_bn_load; [exact Hb|].
  pose proof Han as ((_ & _ & _ & Hna) & _). pose proof Hbn as ((_ & _ & _ & Hnb) & _).
  destruct (Z.eqb_spec (bn_neg na) (bn_neg nb)) as [E|E]; cbn [negb].
  - eapply wp_signed_diff; try done; [|unfold bn_val]; destruct Hna as [E1|E1]; rewrite <- E, E1 in *; cbn; lia.
  - apply wp_signed_uadd; try done. unfold bn_val.
    destruct Hna as [E1|E1], Hnb as [E2|E2]; rewrite E1, E2 in *; cbn; lia.
Qed.

(** *** The size in bits *)

Lemma select_word (c : bool) x y : is_word x -> is_word y ->
  Z.lor (Z.land x (if c then 0 else BN_MASK2)) (Z.land y (wnot (if c then 0 else BN_MASK2))) = if c then y else x.
Proof.
  intros Hx Hy. destruct c.
  - change (wnot 0) with BN_MASK2. by rewrite Z.land_0_r, land_mask_word.
  - change (wnot BN_MASK2) with 0. by rewrite Z.land_0_r, land_mask_word, Z.lor_0_r.
Qed.

(** The position and the value of the last word that is not zero. *)
Lemma bitsize_loop_spec ws : forall i n x,
  words_ok ws -> 0 <= i -> i + zlen ws < W -> is_word n -> is_word x ->
  if val ws =? 0 then bitsize_loop i ws n x = (n, x)
  else exists k y, bitsize_loop i ws n x = (i + k, y) /\ 0 <= k < zlen ws /\ 0 < y < W /\
    W ^ k * y <= val ws < W ^ k * (y + 1).
Proof.
  induction ws as [|w ws IH]; intros i n x Hws Hi Hlen Hn Hx; cbn [bitsize_loop]; [done|].
  apply Forall_cons in Hws as [Hw Hws]. rewrite zlen_cons in Hlen. pose proof (zlen_nonneg ws).
  assert (Hiw : is_word i) by (unfold is_word; lia).
  rewrite bn_ct_ne_zero_mask_spec by done.
  replace (if w =? 0 then 0 else BN_MASK2) with (if (w =? 0) then 0 else BN_MASK2) by done.
  rewrite !select_word by done. rewrite val_cons. pose proof (val_bounds ws Hws). unfold is_word in Hw.
  specialize (IH (i + 1) (if w =? 0 then n else i) (if w =? 0 then x else w) Hws).
  assert (Hn' : is_word (if w =? 0 then n else i)) by (by destruct (w =? 0)).
  assert (Hx' : is_word (if w =? 0 then x else w)) by (by destruct (w =? 0)).
  specialize (IH ltac:(lia) ltac:(lia) Hn' Hx').
  destruct (Z.eqb_spec (val ws) 0) as [E|E].
  - rewrite E, Z.mul_0_r, Z.add_0_r. rewrite IH. destruct (Z.eqb_spec w 0); [done|].
    exists 0, w. rewrite zlen_cons, Z.pow_0_r, Z.add_0_r. split_and!; [done|lia..].
  - rewrite (proj2 (Z.eqb_neq _ 0)) by lia. destruct IH as (k & y & Hr & Hk & Hy & Hv).
    exists (k + 1), y. rewrite zlen_cons, Z.pow_add_r, Z.pow_1_r by lia.
    split_and!; [rewrite Hr; f_equal; lia|lia..|nia|nia].
Qed.

Lemma bit_length_shift k y v :
  0 <= k -> 0 < y < W -> W ^ k * y <= v < W ^ k * (y + 1) -> bit_length v = 64 * k + bit_length y.
Proof.
  intros Hk Hy Hv. pose proof (pow_W_pos k). unfold bit_length.
  rewrite !(proj2 (Z.eqb_neq _ 0)) by nia. pose proof (Z.log2_spec y ltac:(lia)) as [Hl1 Hl2].
  pose proof (Z.log2_nonneg y). rewrite Z.pow_succ_r in Hl2 by lia.
  enough (Z.log2 v = 64 * k + Z.log2 y) by lia. apply Z.log2_unique; [lia|].
  rewrite Z.pow_succ_r by lia. rewrite Z.pow_add_r by lia.
  replace (2 ^ (64 * k)) with (W ^ k) by (by rewrite <- Z.pow_mul_r by lia). nia.
Qed.

(** BN_num_bits, with the constant-time loops of bn_bitsize and
    bn_word_clz, is the length of the magnitude in bits. *)
Theorem BN_num_bits_correct n : bn_ok n -> BN_num_bits n = bit_length (mag n).
Proof.
  intros Hok. pose proof (bn_words_len n Hok) as Hl. pose proof (bn_words_ok n Hok) as Hw.
  pose proof Hok as (_ & Ht & Hm & _). change BN_MAX_WORDS with 8388607 in Hm.
  unfold BN_num_bits, bn_bitsize, mag.
  pose proof (bitsize_loop_spec (bn_words n) 0 0 0 Hw ltac:(lia) ltac:(lia) ltac:(done) ltac:(done)) as H.
  destruct (Z.eqb_spec (val (bn_words n)) 0) as [E|E].
  - rewrite H, E. done.
  - destruct H as (k & y & -> & Hk & Hy & Hv). rewrite (bit_length_shift k y) by (done || lia).
    unfold bn_clzw. rewrite bn_word_clz_spec by (unfold is_word; lia). unfold BN_BITS2.
    rewrite (u64_small (0 + k + 1)), u64_small by (unfold is_word; lia). lia.
Qed.

(** BN_cmp is the three-way comparison of the signed values. *)
Theorem BN_cmp_correct a b :
  bn_normal a -> bn_normal b -> BN_cmp a b = Some (cmp_z (bn_val a) (bn_val b)).
Proof.
  intros Ha Hb. unfold BN_cmp. rewrite !BN_ucmp_spec by done.
  destruct Ha as (Haok & _ & Hza), Hb as (Hbok & _ & Hzb).
  pose proof (mag_bounds a Haok). pose proof (mag_bounds b Hbok).
  pose proof Haok as (_ & _ & _ & Hna). pose proof Hbok as (_ & _ & _ & Hnb).
  assert (bn_neg a = 1 -> mag a <> 0) by (intros E1 E2; specialize (Hza E2); lia).
  assert (bn_neg b = 1 -> mag b <> 0) by (intros E1 E2; specialize (Hzb E2); lia).
  unfold bn_val. destruct Hna as [E1|E1], Hnb as [E2|E2]; rewrite E1, E2 in *; cbn [Z.eqb negb].
  - done.
  - f_equal. unfold cmp_z. cbn. destruct (Z.ltb_spec (mag a) (- mag b)), (Z.ltb_spec (- mag b) (mag a)); lia.
  - f_equal. unfold cmp_z. cbn. destruct (Z.ltb_spec (- mag a) (mag b)), (Z.ltb_spec (mag b) (- mag a)); lia.
  - f_equal. unfold cmp_z. destruct (Z.ltb_spec (mag b) (mag a)), (Z.ltb_spec (- mag a) (- mag b)),
      (Z.ltb_spec (mag a) (mag b)), (Z.ltb_spec (- mag b) (- mag a)); lia.
Qed.

(** *** Single bits *)

Lemma testbit_val ws i j w :
  words_ok ws -> zget ws i = Some w -> 0 <= j < 64 -> Z.testbit (val ws) (64 * i + j) = Z.testbit w j.
Proof.
  intros Hws Hw Hj. pose proof (zget_lt _ _ _ Hw) as Hi.
  rewrite <- (ztake_zdrop i ws), val_app, zlen_ztake, (zdrop_cons_get _ _ _ Hw), val_cons by lia.
  pose proof (val_bounds (ztake i ws) ltac:(auto)) as Hb. rewrite zlen_ztake in Hb by lia.
  replace (W ^ i) with (2 ^ (64 * i)) in * by (rewrite <- Z.pow_mul_r by lia; done).
  rewrite Z.add_comm, Z.mul_comm, <- lor_shiftl_low by lia.
  rewrite Z.lor_spec, Z.shiftl_spec by lia. replace (64 * i + j - 64 * i) with j by lia.
  replace (Z.testbit (val (ztake i ws)) (64 * i + j)) with false.
  2: { symmetry. destruct (Z.eq_dec (val (ztake i ws)) 0) as [->|]; [apply Z.bits_0|].
       apply Z.bits_above_log2; [lia|]. apply Z.lt_le_trans with (64 * i); [apply Z.log2_lt_pow2; lia|lia]. }
  rewrite orb_false_r, Z.add_comm, Z.mul_comm.
  pose proof (zget_Forall _ _ _ _ Hws Hw) as Hww. unfold is_word in Hww.
  rewrite <- (lor_shiftl_low 64) by lia. by rewrite Z.lor_spec, Z.shiftl_spec, (Z.testbit_neg_r _ (j - 64)) by lia.
Qed.

Lemma testbit_val_high ws i j : words_ok ws -> zlen ws <= i -> 0 <= j -> Z.testbit (val ws) (64 * i + j) = false.
Proof.
  intros Hws Hi Hj. pose proof (val_bounds ws Hws) as Hb. pose proof (zlen_nonneg ws).
  rewrite <- (Z.mod_small (val ws) (2 ^ (64 * zlen ws))); [apply Z.mod_pow2_bits_high; lia|].
  rewrite Z.pow_mul_r by lia. done.
Qed.

Lemma bit_index n : 0 <= n -> n = 64 * Z.quot n BN_BITS2 + Z.rem n BN_BITS2 /\
  0 <= Z.quot n BN_BITS2 /\ 0 <= Z.rem n BN_BITS2 < 64.
Proof.
  intros Hn. unfold BN_BITS2. pose proof (Z.quot_rem n 64 ltac:(lia)). pose proof (Z.rem_bound_pos n 64 Hn ltac:(lia)).
  pose proof (Z.quot_pos n 64 Hn ltac:(lia)). lia.
Qed.

(** BN_is_bit_set reads the bit of the magnitude, and no bit at a negative
    position or beyond the words. *)
Theorem BN_is_bit_set_correct a n :
  bn_ok a -> BN_is_bit_set a n = Some (Z.b2z (Z.testbit (mag a) n)).
Proof.
  intros Hok. unfold BN_is_bit_set. destruct (Z.ltb_spec n 0) as [Hn|Hn]; [by rewrite Z.testbit_neg_r|].
  destruct (bit_index n Hn) as (E & Hi & Hj). set (i := Z.quot n BN_BITS2) in *. set (j := Z.rem n BN_BITS2) in *.
  cbv zeta. pose proof (bn_words_len a Hok) as Hl. pose proof (bn_words_ok a Hok) as Hw.
  pose proof Hok as (Hd & Ht & _).
  destruct (Z.leb_spec (bn_top a) i) as [Hti|Hti].
  { unfold mag. by rewrite E, testbit_val_high by (done || lia). }
  destruct (zget_Some (bn_d a) i) as [w Hwi]; [lia|]. rewrite Hwi. cbn [mbind option_bind].
  unfold mag. rewrite E, (testbit_val (bn_words a) i j w); [|done|unfold bn_words; by rewrite zget_ztake|done].
  f_equal. unfold wshr. pose proof (land_pow2 (Z.shiftr w j) 0 ltac:(lia)) as H1. change (2 ^ 0) with 1 in H1.
  rewrite H1, Z.shiftr_spec, Z.add_0_l by lia. by destruct (Z.testbit w j).
Qed.

Lemma testbit_ext_words x y :
  0 <= x -> 0 <= y -> (forall i j, 0 <= i -> 0 <= j < 64 -> Z.testbit x (64 * i + j) = Z.testbit y (64 * i + j)) -> x = y.
Proof.
  intros Hx Hy H. apply Z.bits_inj'. intros n Hn. destruct (bit_index n Hn) as (E & Hi & Hj). rewrite E. by apply H.
Qed.

Lemma zget_store l i x l' k :
  words_ok l -> 0 <= i < zlen l -> is_word x -> zset l i x = Some l' ->
  words_ok l' /\ zlen l' = zlen l /\ zget l' k = if k =? i then Some x else zget l k.
Proof.
  intros Hl Hi Hx Hs. destruct (store_word l i x Hl Hi Hx) as (r & E & Hr & Hlen & Ht & Hd & Hg).
  rewrite Hs in E. injection E as <-. split_and!; [done|done|].
  destruct (Z.eqb_spec k i) as [->|Hne]; [done|]. destruct (Z.leb_spec 0 k).
  - destruct (Z.ltb_spec k i).
    + by rewrite <- (zget_ztake l' i), <- (zget_ztake l i), Ht by lia.
    + pose proof (zget_zdrop l' (i + 1) (k - (i + 1)) ltac:(lia) ltac:(lia)) as E1.
      pose proof (zget_zdrop l (i + 1) (k - (i + 1)) ltac:(lia) ltac:(lia)) as E2.
      replace (i + 1 + (k - (i + 1))) with k in * by lia. by rewrite <- E1, <- E2, Hd.
  - unfold zget. by rewrite (proj2 (Z.leb_gt _ _)).
Qed.

(** The bits of the first [top] words. *)
Lemma testbit_prefix d top i j :
  words_ok d -> 0 <= top <= zlen d -> 0 <= i -> 0 <= j < 64 ->
  Z.testbit (val (ztake top d)) (64 * i + j) = (i <? top) && Z.testbit (default 0 (zget d i)) j.
Proof.
  intros Hd Ht Hi Hj. destruct (Z.ltb_spec i top).
  - destruct (zget_Some d i) as [w Hw]; [lia|]. rewrite Hw. cbn [andb default].
    apply testbit_val; [auto|by rewrite zget_ztake|done].
  - cbn [andb]. apply testbit_val_high; [auto|rewrite zlen_ztake; lia|lia].
Qed.

Lemma wshl_1 j : 0 <= j < 64 -> wshl 1 j = 2 ^ j.
Proof.
  intros Hj. unfold wshl. rewrite Z.shiftl_1_l. apply u64_small. unfold is_word.
  split; [apply Z.pow_nonneg; lia|]. apply Z.pow_lt_mono_r; lia.
Qed.

(** Setting a bit of a word below [top]. *)
Lemma wp_set_bit_in_word a na i j s :
  nums s !! a = Some na -> bn_ok na -> 0 <= i < bn_top na -> 0 <= j < 64 ->
  wp (na ← bn_load a; w ← valid (zget (bn_d na) i); bn_write a i [Z.lor w (wshl 1 j)]) s
    (fun _ s' => only_num s s' a /\ exists n', nums s' !! a = Some n' /\ bn_ok n' /\
       bn_top n' = bn_top na /\ bn_neg n' = bn_neg na /\ bn_flags n' = bn_flags na /\
       mag n' = Z.lor (mag na) (2 ^ (64 * i + j)) /\
       zget (bn_d n') i = Some (Z.lor (default 0 (zget (bn_d na) i)) (2 ^ j)) /\
       (forall k, k <> i -> zget (bn_d n') k = zget (bn_d na) k))
    (fun _ => False).
Proof.
  intros Ha (Hd & Ht & Hm & Hn) Hi Hj. apply wp_bind. eapply wp_bn_load; [exact Ha|].
  destruct (zget_Some (bn_d na) i) as [w Hw]; [lia|]. rewrite wshl_1 by done.
  pose proof (zget_Forall _ _ _ _ Hd Hw) as Hww.
  assert (Hx : is_word (Z.lor w (2 ^ j))).
  { apply is_word_lor; [done|]. split; [apply Z.pow_nonneg; lia|]. apply Z.pow_lt_mono_r; lia. }
  destruct (store_word (bn_d na) i (Z.lor w (2 ^ j)) Hd) as (d & Es & _); [lia|done|].
  assert (Hg := fun k => zget_store (bn_d na) i (Z.lor w (2 ^ j)) d k Hd ltac:(lia) Hx Es).
  destruct (Hg i) as (Hdok & Hdl & Hgi). rewrite Z.eqb_refl in Hgi.
  apply wp_bind. eapply wp_valid; [exact Hw|]. eapply wp_bn_write; [exact Ha|exact Es|]. intros s' Hs' Ho.
  split; [done|]. eexists. split; [exact Hs'|]. cbn [bn_d bn_top bn_neg bn_flags set_d].
  split_and!; try done.
  - split_and!; cbn; [done|lia|lia|lia|done].
  - unfold mag, bn_words. cbn [bn_d bn_top set_d].
    assert (0 <= 2 ^ (64 * i + j)) by (apply Z.pow_nonneg; lia).
    apply testbit_ext_words; [apply val_bounds; auto|apply Z.lor_nonneg; split; [apply val_bounds; auto|done]|].
    intros i' j' Hi' Hj'. rewrite Z.lor_spec, !testbit_prefix, Z.pow2_bits_eqb by (done || lia).
    destruct (Hg i') as (_ & _ & ->). destruct (Z.eqb_spec i' i) as [->|Hne].
    + rewrite (proj2 (Z.ltb_lt _ _)), Hw by lia. cbn [default from_option andb]. unfold id. rewrite Z.lor_spec, Z.pow2_bits_eqb by lia.
      f_equal. destruct (Z.eqb_spec j j'), (Z.eqb_spec (64 * i + j) (64 * i + j')); lia.
    + rewrite (proj2 (Z.eqb_neq (64 * i + j) _)) by lia. by rewrite orb_false_r.
  - by rewrite Hw, Hgi.
  - intros k Hk. destruct (Hg k) as (_ & _ & ->). by rewrite (proj2 (Z.eqb_neq _ _)).
Qed.

(** BN_set_bit sets the bit of the magnitude and keeps the sign; a number
    without leading zeros stays one.  It fails for a negative position and when
    the room cannot be had, changing nothing. *)
Theorem BN_set_bit_correct a na n s :
  nums s !! a = Some na -> bn_normal na ->
  wp (BN_set_bit alloc_ok a n) s
    (fun _ s' => only_num s s' a /\ exists n', nums s' !! a = Some n' /\ bn_normal n' /\
       mag n' = Z.lor (mag na) (2 ^ n) /\ bn_neg n' = bn_neg na)
    (fun s' => s' = s /\ (n < 0 \/ ~ can_grow alloc_ok na (Z.quot n BN_BITS2 + 1))).
Proof.
  intros Ha (Hok & Hz & Hneg). unfold BN_set_bit. apply wp_bind, wp_check; intros Hn.
  2: { split; [done|]. left. destruct (Z.ltb_spec n 0); [lia|done]. }
  assert (Hn0 : 0 <= n) by (destruct (Z.ltb_spec n 0); [done|lia]).
  destruct (bit_index n Hn0) as (E & Hi & Hj). cbv zeta.
  set (i := Z.quot n BN_BITS2) in *. set (j := Z.rem n BN_BITS2) in *. rewrite E.
  apply wp_bind. eapply wp_bn_load; [exact Ha|].
  assert (Hfin : forall s1 n1, only_num s s1 a -> nums s1 !! a = Some n1 -> bn_ok n1 -> i < bn_top n1 ->
    mag n1 = mag na -> bn_neg n1 = bn_neg na -> (i < bn_top n1 - 1 -> zget (bn_d n1) (bn_top n1 - 1) <> Some 0) ->
    wp (na ← bn_load a; w ← valid (zget (bn_d na) i); bn_write a i [Z.lor w (wshl 1 j)]) s1
      (fun _ s' => only_num s s' a /\ exists n', nums s' !! a = Some n' /\ bn_normal n' /\
         mag n' = Z.lor (mag na) (2 ^ (64 * i + j)) /\ bn_neg n' = bn_neg na)
      (fun s' => s' = s /\ (64 * i + j < 0 \/ ~ can_grow alloc_ok na (i + 1)))).
  { intros s1 n1 Ho1 H1 Hok1 Hi1 Hm1 Hn1 Hz1.
    eapply wp_conseq; [apply (wp_set_bit_in_word a n1 i j s1); try done| |done].
    cbn beta. intros _ s2 (Ho2 & n2 & H2 & Hok2 & Ht2 & Hn2 & _ & Hm2 & Hgi & Hgk).
    split; [by eapply only_num_trans|]. exists n2. rewrite <- Hm1, <- Hn1. split_and!; try done.
    assert (Hpow : 0 < 2 ^ j) by (apply Z.pow_pos_nonneg; lia).
    assert (Hpow2 : 0 < 2 ^ (64 * i + j)) by (apply Z.pow_pos_nonneg; lia).
    split; [done|]. split.
    - intros _. rewrite Ht2. destruct (Z.eq_dec (bn_top n1 - 1) i) as [->|Hne].
      + rewrite Hgi. intros [= E0%Z.lor_eq_0_iff]. lia.
      + rewrite Hgk by done. apply Hz1. lia.
    - rewrite Hm2. intros E0%Z.lor_eq_0_iff. lia. }
  apply wp_bind. destruct (Z.leb_spec (bn_top na) i) as [Hti|Hti].
  2: { apply wp_ret. apply (Hfin s na); try done. intros Hi2. apply Hz. lia. }
  apply wp_bind. eapply wp_conseq; [apply (wp_bn_wexpand a na (i + 1)); [done|done|lia]| |by intros s' [-> ?]; auto].
  cbn beta. intros _ s1 (d1 & H1 & Ho1 & Hok1 & Hw1 & Hl1).
  destruct Hok1 as (Hd1 & Ht1 & Hm1 & Hn1). cbn [bn_d bn_top bn_neg set_d] in *.
  set (k := i + 1 - bn_top na) in *. assert (Hk : 0 < k) by lia.
  destruct (split_at d1 (bn_top na)) as (p & q & Ed & Hp & _ & Htp & _); [lia|].
  destruct (split_at q k) as (q1 & q2 & Eq & Hq1 & _).
  { pose proof (f_equal zlen Ed) as E1. rewrite zlen_app in E1. lia. }
  subst q d1. apply words_ok_app in Hd1 as [Hpo Hq]. apply words_ok_app in Hq as [_ Hq2].
  assert (Hzr : words_ok (zrep k 0)) by (apply Forall_replicate; unfold is_word; lia).
  assert (Ew : zwrite (p ++ q1 ++ q2) (bn_top na) (zrep k 0) = Some (p ++ zrep k 0 ++ q2)).
  { rewrite <- Hp. apply zwrite_mid. rewrite zlen_rep by lia. done. }
  apply wp_bind. eapply wp_bn_write; [exact H1|exact Ew|]. intros s2 H2 Ho2.
  eapply wp_bn_update; [exact H2|]. intros s3 H3 Ho3.
  rewrite !zlen_app in *. pose proof (zlen_rep k 0 ltac:(lia)).
  apply (Hfin s3 (set_top (i + 1) (set_d (p ++ zrep k 0 ++ q2) (set_d (p ++ q1 ++ q2) na)))).
  - do 2 (eapply only_num_trans; [eassumption|]). done.
  - done.
  - split_and!; cbn; [apply words_ok_app; split; [done|]; by apply words_ok_app|lia|rewrite !zlen_app; lia|rewrite !zlen_app; lia|done].
  - cbn. lia.
  - unfold mag, bn_words in *. cbn [bn_d bn_top set_d set_top] in *. rewrite <- Hw1, Htp.
    rewrite app_assoc, ztake_app_le, ztake_all by (rewrite zlen_app; lia).
    rewrite val_app. rewrite val_rep. lia.
  - done.
  - cbn. lia.
Qed.

Lemma land_low_mask x b : is_word x -> 0 <= b < 64 -> Z.land x (wnot (wshl BN_MASK2 b)) = x mod 2 ^ b.
Proof.
  intros Hx Hb. apply Z.bits_inj'. intros k Hk. unfold wnot, wshl, u64, is_word in *.
  rewrite Z.land_spec. destruct (Z.ltb_spec k 64).
  - rewrite Z.mod_pow2_bits_low, Z.lnot_spec, Z.mod_pow2_bits_low, Z.shiftl_spec by lia.
    destruct (Z.ltb_spec k b).
    + rewrite Z.mod_pow2_bits_low, (Z.testbit_neg_r _ (k - b)) by lia. apply andb_true_r.
    + rewrite Z.mod_pow2_bits_high by lia. change BN_MASK2 with (Z.ones 64). rewrite Z.ones_spec_low by lia.
      apply andb_false_r.
  - rewrite (Z.mod_pow2_bits_high (Z.lnot _)), andb_false_r, Z.mod_pow2_bits_high by lia. done.
Qed.

(** [bn_correct_top] and [BN_set_negative(a, a->neg)] keep the magnitude and
    make the number normal. *)
Lemma wp_normalise a n s :
  nums s !! a = Some n -> bn_ok n ->
  wp (bn_correct_top a;; na ← bn_load a; BN_set_negative a (bn_neg na)) s
    (fun _ s' => only_num s s' a /\ exists n', nums s' !! a = Some n' /\ bn_normal n' /\
       mag n' = mag n /\ (mag n <> 0 -> bn_neg n' = bn_neg n))
    (fun _ => False).
Proof.
  intros Ha Hok. apply wp_bind. eapply wp_conseq; [by apply (wp_bn_correct_top a n)| |done].
  cbn beta zeta. intros _ s1 (top' & H1 & Ho1 & Hok1 & Hm1 & Hz1 & _).
  apply wp_bind. eapply wp_bn_load; [exact H1|].
  eapply wp_conseq; [eapply wp_BN_set_negative; [exact H1|done|apply Hok1]| |done].
  cbn beta. intros _ s2 (n2 & -> & H2 & Ho2 & Hok2). split; [by eapply only_num_trans|].
  eexists. split; [exact H2|]. split; [by apply bn_normal_signed|]. split; [exact Hm1|].
  intros Hm. rewrite Hm1. cbn [bn_neg set_neg set_top]. by rewrite (proj2 (Z.eqb_neq _ _)).
Qed.

Lemma mag_prefix d d' top neg flags n k :
  bn_ok n -> words_ok d' -> 0 <= top <= zlen d' -> zlen d' <= BN_MAX_WORDS -> neg = 0 \/ neg = 1 -> 0 <= k ->
  d = bn_d n ->
  (forall i j, 0 <= i -> 0 <= j < 64 ->
     (i <? top) && Z.testbit (default 0 (zget d' i)) j =
     (64 * i + j <? k) && ((i <? bn_top n) && Z.testbit (default 0 (zget d i)) j)) ->
  bn_ok (mkBN d' top neg flags) /\ mag (mkBN d' top neg flags) = mag n mod 2 ^ k.
Proof.
  intros (Hd & Ht & Hm & Hn) Hd' Ht' Hm' Hneg Hk -> H. split; [split_and!; cbn; [done|lia|lia|lia|done]|].
  unfold mag, bn_words. cbn [bn_d bn_top]. assert (0 < 2 ^ k) by (apply Z.pow_pos_nonneg; lia).
  apply testbit_ext_words; [apply val_bounds; auto|apply Z.mod_pos_bound; lia|].
  intros i j Hi Hj. rewrite testbit_prefix, H by (done || lia).
  destruct (Z.ltb_spec (64 * i + j) k).
  - rewrite Z.mod_pow2_bits_low, testbit_prefix by (done || lia). done.
  - by rewrite Z.mod_pow2_bits_high by lia.
Qed.

(** BN_mask_bits reduces the magnitude modulo [2^n] and keeps the sign
    unless the result is zero; it fails, changing nothing, when [n] is negative
    or is not below the number of words. *)
Theorem BN_mask_bits_correct a na n s :
  nums s !! a = Some na -> bn_ok na ->
  wp (BN_mask_bits a n) s
    (fun _ s' => only_num s s' a /\ exists n', nums s' !! a = Some n' /\ bn_normal n' /\
       mag n' = mag na mod 2 ^ n /\ (mag n' <> 0 -> bn_neg n' = bn_neg na))
    (fun s' => s' = s /\ (n < 0 \/ bn_top na <= Z.quot n BN_BITS2)).
Proof.
  intros Ha Hok. unfold BN_mask_bits. apply wp_bind, wp_check; intros Hn.
  2: { split; [done|]. left. destruct (Z.ltb_spec n 0); [lia|done]. }
  assert (Hn0 : 0 <= n) by (destruct (Z.ltb_spec n 0); [done|lia]).
  destruct (bit_index n Hn0) as (E & Hi & Hj). cbv zeta.
  set (w := Z.quot n BN_BITS2) in *. set (b := Z.rem n BN_BITS2) in *.
  apply wp_bind. eapply wp_bn_load; [exact Ha|]. apply wp_bind, wp_check; intros Hw.
  2: { split; [done|]. right. destruct (Z.leb_spec (bn_top na) w); [done|lia]. }
  assert (Hwt : w < bn_top na) by (destruct (Z.leb_spec (bn_top na) w); [done|lia]).
  pose proof Hok as (Hd & Ht & Hm & Hneg).
  assert (Hfin : forall s1 n1, only_num s s1 a -> nums s1 !! a = Some n1 -> bn_ok n1 ->
    mag n1 = mag na mod 2 ^ n -> bn_neg n1 = bn_neg na ->
    wp (bn_correct_top a;; na ← bn_load a; BN_set_negative a (bn_neg na)) s1
      (fun _ s' => only_num s s' a /\ exists n', nums s' !! a = Some n' /\ bn_normal n' /\
         mag n' = mag na mod 2 ^ n /\ (mag n' <> 0 -> bn_neg n' = bn_neg na))
      (fun s' => s' = s /\ (n < 0 \/ bn_top na <= w))).
  { intros s1 n1 Ho1 H1 Hok1 Hm1 Hn1. eapply wp_conseq; [by apply (wp_normalise a n1)| |done].
    cbn beta. intros _ s2 (Ho2 & n2 & H2 & Hno2 & Hm2 & Hs2). split; [by eapply only_num_trans|].
    exists n2. rewrite Hm2, Hm1, Hn1 in *. by split_and!. }
  apply wp_bind. destruct (Z.eqb_spec b 0) as [Eb|Eb].
  - eapply wp_bn_update; [exact Ha|]. intros s1 H1 Ho1.
    destruct (mag_prefix (bn_d na) (bn_d na) w (bn_neg na) (bn_flags na) na n) as [Hok1 Hm1]; try done; try lia.
    { intros i j Hi0 Hj0. destruct (Z.ltb_spec i w), (Z.ltb_spec (64 * i + j) n), (Z.ltb_spec i (bn_top na)); try lia; done. }
    by apply (Hfin s1 (set_top w na)).
  - apply wp_bind. eapply wp_bn_update; [exact Ha|]. intros s1 H1 Ho1.
    destruct (zget_Some (bn_d na) w) as [x Hx]; [lia|]. pose proof (zget_Forall _ _ _ _ Hd Hx) as Hxw. cbn beta in Hxw.
    apply wp_bind. eapply wp_valid; [exact Hx|]. rewrite land_low_mask by (done || lia).
    assert (Hx' : is_word (x mod 2 ^ b)).
    { assert (0 < 2 ^ b) by (apply Z.pow_pos_nonneg; lia). unfold is_word in *.
      pose proof (Z.mod_pos_bound x (2 ^ b)). pose proof (Z.mod_le x (2 ^ b)). lia. }
    destruct (store_word (bn_d na) w (x mod 2 ^ b) Hd) as (d & Es & _); [lia|done|].
    assert (Hg := fun k => zget_store (bn_d na) w (x mod 2 ^ b) d k Hd ltac:(lia) Hx' Es).
    destruct (Hg w) as (Hdok & Hdl & _).
    eapply wp_bn_write; [exact H1|exact Es|]. intros s2 H2 Ho2.
    destruct (mag_prefix (bn_d na) d (w + 1) (bn_neg na) (bn_flags na) na n) as [Hok1 Hm1]; try done; try lia.
    { intros i j Hi0 Hj0. destruct (Hg i) as (_ & _ & ->). destruct (Z.eqb_spec i w) as [->|Hne].
      - rewrite Hx, !(proj2 (Z.ltb_lt w _)) by lia. cbn [default from_option andb]. unfold id.
        destruct (Z.ltb_spec (64 * w + j) n).
        + by rewrite Z.mod_pow2_bits_low by lia.
        + by rewrite Z.mod_pow2_bits_high by lia.
      - destruct (Z.ltb_spec i (w + 1)), (Z.ltb_spec (64 * i + j) n), (Z.ltb_spec i (bn_top na)); try lia; done. }
    apply (Hfin s2 (set_d d (set_top (w + 1) na))); [by eapply only_num_trans|done..].
Qed.
End specs.

(** ** Concrete runs *)

Definition always (_ : Z) : bool := true.
Definition never (_ : Z) : bool := false.

(** Three BIGNUMs: 0 (no array), 5 and -2^64 - 3. *)
Definition bn_sample : bn_state :=
  mkState (<[0%nat := mkBN [] 0 0 0]> (<[1%nat := mkBN [5] 1 0 0]> (<[2%nat := mkBN [3; 1; 0] 2 1 0]> ∅)))
    (mkCtx [] [] 0 0 false).

Lemma bn_ok_0 : bn_ok (mkBN [] 0 0 0).
Proof. split_and!; [constructor|by cbn..|by left]. Qed.

Lemma bn_normal_5 : bn_normal (mkBN [5] 1 0 0).
Proof.
  split; [|by split].
  split_and!; cbn; [by apply (bool_decide_unpack (Forall is_word [5]))|done..|by left].
Qed.

Lemma bn_normal_m3 : bn_normal (mkBN [3; 1; 0] 2 1 0).
Proof.
  split; [|by split].
  split_and!; cbn; [by apply (bool_decide_unpack (Forall is_word [3; 1; 0]))|done..|by right].
Qed.

Lemma BN_add_correct_witness :
  bn_normal (mkBN [5] 1 0 0) /\ bn_normal (mkBN [3; 1; 0] 2 1 0) /\
  wp (BN_add always 0 1 2) bn_sample
    (fun _ s' => stores bn_sample 0 (5 + - (2 ^ 64 + 3)) s')
    (fun s' => no_room always bn_sample 0 (mkBN [] 0 0 0) 3 s').
Proof.
  split; [exact bn_normal_5|split; [exact bn_normal_m3|]].
  exact (BN_add_correct always 0 1 2 (mkBN [] 0 0 0) (mkBN [5] 1 0 0) (mkBN [3; 1; 0] 2 1 0) bn_sample
    eq_refl eq_refl eq_refl bn_ok_0 bn_normal_5 bn_normal_m3).
Defined.

Lemma BN_sub_correct_witness :
  bn_normal (mkBN [5] 1 0 0) /\ bn_normal (mkBN [3; 1; 0] 2 1 0) /\
  wp (BN_sub always 1 1 2) bn_sample
    (fun _ s' => stores bn_sample 1 (5 - - (2 ^ 64 + 3)) s')
    (fun s' => no_room always bn_sample 1 (mkBN [5] 1 0 0) 3 s').
Proof.
  split; [exact bn_normal_5|split; [exact bn_normal_m3|]].
  exact (BN_sub_correct always 1 1 2 (mkBN [5] 1 0 0) (mkBN [5] 1 0 0) (mkBN [3; 1; 0] 2 1 0) bn_sample
    eq_refl eq_refl eq_refl (proj1 bn_normal_5) bn_normal_5 bn_normal_m3).
Defined.

Lemma BN_num_bits_correct_witness :
  bn_ok (mkBN [3; 1; 0] 2 1 0) /\ BN_num_bits (mkBN [3; 1; 0] 2 1 0) = bit_length (2 ^ 64 + 3).
Proof. split; [exact (proj1 bn_normal_m3)|]. exact (BN_num_bits_correct (mkBN [3; 1; 0] 2 1 0) (proj1 bn_normal_m3)). Defined.

Lemma BN_cmp_correct_witness :
  bn_normal (mkBN [5] 1 0 0) /\ bn_normal (mkBN [3; 1; 0] 2 1 0) /\
  BN_cmp (mkBN [5] 1 0 0) (mkBN [3; 1; 0] 2 1 0) = Some 1.
Proof.
  split; [exact bn_normal_5|split; [exact bn_normal_m3|]].
  exact (BN_cmp_correct (mkBN [5] 1 0 0) (mkBN [3; 1; 0] 2 1 0) bn_normal_5 bn_normal_m3).
Defined.

Lemma BN_is_bit_set_correct_witness :
  bn_ok (mkBN [3; 1; 0] 2 1 0) /\ BN_is_bit_set (mkBN [3; 1; 0] 2 1 0) 64 = Some 1.
Proof.
  split; [exact (proj1 bn_normal_m3)|].
  exact (BN_is_bit_set_correct (mkBN [3; 1; 0] 2 1 0) 64 (proj1 bn_normal_m3)).
Defined.

Lemma BN_set_bit_correct_witness :
  bn_normal (mkBN [5] 1 0 0) /\
  wp (BN_set_bit always 1 65) bn_sample
    (fun _ s' => only_num bn_sample s' 1 /\ exists n', nums s' !! 1%nat = Some n' /\ bn_normal n' /\
       mag n' = Z.lor 5 (2 ^ 65) /\ bn_neg n' = 0)
    (fun s' => s' = bn_sample /\ (65 < 0 \/ ~ can_grow always (mkBN [5] 1 0 0) (Z.quot 65 BN_BITS2 + 1))).
Proof.
  split; [exact bn_normal_5|].
  exact (BN_set_bit_correct always 1 (mkBN [5] 1 0 0) 65 bn_sample eq_refl bn_normal_5).
Defined.

Lemma BN_mask_bits_correct_witness :
  bn_ok (mkBN [3; 1; 0] 2 1 0) /\
  wp (BN_mask_bits 2 65) bn_sample
    (fun _ s' => only_num bn_sample s' 2 /\ exists n', nums s' !! 2%nat = Some n' /\ bn_normal n' /\
       mag n' = (2 ^ 64 + 3) mod 2 ^ 65 /\ (mag n' <> 0 -> bn_neg n' = 1))
    (fun s' => s' = bn_sample /\ (65 < 0 \/ 2 <= Z.quot 65 BN_BITS2)).
Proof.
  split; [exact (proj1 bn_normal_m3)|].
  exact (BN_mask_bits_correct always 2 (mkBN [3; 1; 0] 2 1 0) 65 bn_sample eq_refl (proj1 bn_normal_m3)).
Defined.
