(* ===== verification/BnCtx.v ===== *)
(** * The BN_CTX as a stack of frames, and BN_mul and BN_sqr on top of it

    [BN_CTX_start] pushes an empty frame, [BN_CTX_get] adds a BIGNUM that
    nobody else uses to the topmost frame, [BN_CTX_end] pops that frame.
    [ctx_repr s fs free] says that the BN_CTX of [s] is the stack [fs]
    (oldest frame first) with the BIGNUMs [free] to be handed out again. *)

From S2P Require Import Prelude BnWord BnWords Bn.
Open Scope Z_scope.

(** The group numbers stored for the BIGNUMs of the frames. *)
Definition frame_groups (fs : list (list nat)) : list Z :=
  concat (imap (fun i f => replicate (length f) (Z.of_nat (S i))) fs).

(** A BIGNUM the context may hand out. *)
Definition pooled (s : bn_state) (h : nat) : Prop :=
  exists n, nums s !! h = Some n /\ bn_ok n /\ BN_get_flags n BN_FLG_STATIC_DATA = 0.

Record ctx_repr (s : bn_state) (fs : list (list nat)) (free : list nat) : Prop := {
  cr_error : ctx_error (bctx s) = false;
  cr_group : ctx_group (bctx s) = zlen fs;
  cr_small : zlen fs < 256;
  cr_index : ctx_index (bctx s) = zlen (concat fs);
  cr_bignums : exists rest grest,
    ctx_bignums (bctx s) = map Some (concat fs) ++ rest /\ omap id rest = free /\
    ctx_groups (bctx s) = frame_groups fs ++ grest /\ zlen grest = zlen rest;
  cr_nodup : NoDup (concat fs ++ free);
  cr_pooled : Forall (pooled s) (concat fs ++ free);
}.

(** Everything outside [hs] is as before. *)
Definition others_kept (s s' : bn_state) (hs : list nat) : Prop :=
  forall p, p ∉ hs -> is_Some (nums s !! p) -> nums s' !! p = nums s !! p.

Lemma frame_groups_snoc fs f :
  frame_groups (fs ++ [f]) = frame_groups fs ++ replicate (length f) (Z.of_nat (S (length fs))).
Proof.
  unfold frame_groups. rewrite imap_app, concat_app. cbn. by rewrite app_nil_r, Nat.add_0_r.
Qed.

Lemma concat_snoc {A} (fs : list (list A)) f : concat (fs ++ [f]) = concat fs ++ f.
Proof. rewrite concat_app. cbn. by rewrite app_nil_r. Qed.

Lemma length_frame_groups fs : length (frame_groups fs) = length (concat fs).
Proof.
  induction fs as [|f fs IH] using rev_ind; [done|].
  by rewrite frame_groups_snoc, concat_snoc, !length_app, length_replicate, IH.
Qed.

Lemma frame_groups_le fs : Forall (fun g => 0 < g <= zlen fs) (frame_groups fs).
Proof.
  induction fs as [|f fs IH] using rev_ind; [constructor|].
  rewrite frame_groups_snoc, zlen_app. change (zlen [f]) with 1. apply Forall_app. split.
  - eapply Forall_impl; [exact IH|]. cbn. lia.
  - apply Forall_replicate. unfold zlen. lia.
Qed.

Lemma zlen_map {A B} (f : A -> B) l : zlen (map f l) = zlen l.
Proof. unfold zlen. by rewrite length_map. Qed.

Lemma zlen_frame_groups fs : zlen (frame_groups fs) = zlen (concat fs).
Proof. unfold zlen. by rewrite length_frame_groups. Qed.

Lemma zget_mid {A} (l : list A) x k : zget (l ++ x :: k) (zlen l) = Some x.
Proof. rewrite zget_app_r by lia. by rewrite Z.sub_diag. Qed.

Lemma zset_mid {A} (l : list A) x k y : zset (l ++ x :: k) (zlen l) y = Some (l ++ y :: k).
Proof. exact (zwrite_mid l [x] k [y] eq_refl). Qed.

Lemma Forall_middle {A} (P : A -> Prop) l x k : Forall P (l ++ x :: k) <-> P x /\ Forall P (l ++ k).
Proof. rewrite !Forall_app, Forall_cons. tauto. Qed.

(** Only the numbers of the pool have to stay valid. *)
Lemma ctx_repr_pooled s s' fs free :
  ctx_repr s fs free -> bctx s' = bctx s ->
  (forall h, h ∈ concat fs ++ free -> pooled s h -> pooled s' h) -> ctx_repr s' fs free.
Proof.
  intros [He Hg Hsm Hi Hb Hnd Hp] Hc Hpool. split; rewrite ?Hc; try done.
  rewrite Forall_forall in *. auto.
Qed.

Section frames.
Context (alloc_ok : Z -> bool).

Lemma wp_BN_CTX_start s fs free :
  ctx_repr s fs free -> zlen fs < 255 ->
  wp BN_CTX_start s (fun _ s' => ctx_repr s' (fs ++ [[]]) free /\ nums s' = nums s /\
    ctx_bignums (bctx s') = ctx_bignums (bctx s)) (fun _ => False).
Proof.
  intros [He Hg Hsm Hi (rest & grest & Hb & Hf & Hgs & Hl) Hnd Hp] Hlt.
  apply wp_modify. split; [|done]. pose proof (zlen_nonneg fs).
  assert (Hu : u8 (zlen fs + 1) = zlen fs + 1) by (unfold u8; rewrite Z.mod_small; lia).
  split; cbn; rewrite ?Hg, ?Hu, ?zlen_app, ?concat_snoc, ?app_nil_r; try done.
  - rewrite (proj2 (Z.eqb_neq _ _)) by lia. done.
  - change (zlen [[]]) with 1. lia.
  - exists rest, grest. by rewrite frame_groups_snoc, app_nil_r.
Qed.

(** How getting a BIGNUM can fail. *)
Definition no_memory (s : bn_state) : Prop :=
  (exists w, alloc_ok w = false) \/ SIZE_MAX < 2 * zlen (ctx_bignums (bctx s)).

Lemma omap_id_None n : omap id (zrep n (@None nat)) = [].
Proof. unfold zrep. by induction (Z.to_nat n). Qed.

Lemma wp_bn_ctx_grow g s fs free :
  ctx_repr s fs free ->
  wp (bn_ctx_grow alloc_ok g) s
    (fun _ s' => ctx_repr s' fs free /\ nums s' = nums s /\
       zlen (ctx_bignums (bctx s)) < zlen (ctx_bignums (bctx s')))
    (fun s' => s' = s /\ no_memory s).
Proof.
  intros [He Hg Hsm Hi (rest & grest & Hb & Hf & Hgs & Hl) Hnd Hp].
  unfold bn_ctx_grow. apply wp_bind, wp_gets. cbv zeta.
  set (len := zlen (ctx_bignums (bctx s))). pose proof (zlen_nonneg (ctx_bignums (bctx s))) as Hlen. fold len in Hlen.
  set (k := (if len =? 0 then BN_CTX_INITIAL_LEN else len * 2) - len).
  assert (0 < k) by (unfold k, BN_CTX_INITIAL_LEN; destruct (Z.eqb_spec len 0); lia).
  cut (wp (check (alloc_ok ((if len =? 0 then BN_CTX_INITIAL_LEN else len * 2) * 8));;
           check (alloc_ok (if len =? 0 then BN_CTX_INITIAL_LEN else len * 2));;
           ctx_update (fun c => mkCtx (ctx_bignums c ++ zrep k None) (ctx_groups c ++ zrep k g)
             (ctx_group c) (ctx_index c) (ctx_error c))) s
         (fun _ s' => ctx_repr s' fs free /\ nums s' = nums s /\ len < zlen (ctx_bignums (bctx s')))
         (fun s' => s' = s /\ no_memory s)).
  { intros H0. apply wp_bind. destruct (len =? 0); [by apply wp_ret|]. apply wp_check; [done|].
    intros Hc. split; [done|]. right. fold len. destruct (Z.ltb_spec (SIZE_MAX - len) len); [lia|done]. }
  apply wp_bind, wp_check; [intros _|by intros ?; split; [|left; eauto]].
  apply wp_bind, wp_check; [intros _|by intros ?; split; [|left; eauto]].
  apply wp_modify. split; [|split; [done|cbn; rewrite zlen_app, zlen_rep; fold len; lia]].
  split; cbn; try done. exists (rest ++ zrep k None), (grest ++ zrep k g).
  rewrite Hb, Hgs, <- !app_assoc, omap_app, Hf, omap_id_None, app_nil_r.
  split_and!; try done. rewrite !zlen_app, !zlen_rep; lia.
Qed.

Lemma wp_or_error {A} (m : M bn_state A) s Q (E : bn_state -> Prop) :
  wp m s Q (fun s' => E (mkState (nums s') (ctx_set_error (bctx s')))) -> wp (or_error m) s Q E.
Proof. unfold wp, or_error, ctx_update. mstep. by destruct (m s). Qed.

(** Handing out the BIGNUM [h] of a slot that is filled. *)
Lemma ctx_repr_get s fs f h rest grest c' :
  ctx_repr s (fs ++ [f]) (omap id (Some h :: rest)) ->
  c' = mkCtx (map Some (concat (fs ++ [f])) ++ Some h :: rest)
             (frame_groups (fs ++ [f]) ++ zlen (fs ++ [f]) :: grest)
             (ctx_group (bctx s)) (ctx_index (bctx s) + 1) (ctx_error (bctx s)) ->
  zlen grest = zlen rest ->
  ctx_repr (mkState (nums s) c') (fs ++ [f ++ [h]]) (omap id rest).
Proof.
  intros [He Hg Hsm Hi _ Hnd Hp] -> Hl. cbn [omap list_omap id] in *.
  rewrite concat_snoc in *.
  split; cbn [bctx nums ctx_error ctx_group ctx_index ctx_bignums ctx_groups]; try done.
  - rewrite Hg, !zlen_app. done.
  - rewrite zlen_app in *. done.
  - rewrite concat_snoc, Hi, app_assoc, !zlen_app. change (zlen [h]) with 1. lia.
  - exists rest, grest. rewrite concat_snoc, !frame_groups_snoc, length_app. cbn [length].
    rewrite Nat.add_1_r, replicate_S_end, app_assoc, map_app, <- !app_assoc. cbn [app map].
    replace (zlen (fs ++ [f])) with (Z.of_nat (S (length fs))); [split_and!; try done; by rewrite !map_app, <- !app_assoc|].
    rewrite zlen_app. change (zlen [f]) with 1. unfold zlen. lia.
  - by rewrite concat_snoc, app_assoc, <- app_assoc.
  - by rewrite concat_snoc, app_assoc, <- app_assoc.
Qed.

Lemma wp_BN_CTX_get s fs f free :
  ctx_repr s (fs ++ [f]) free ->
  wp (BN_CTX_get alloc_ok) s
    (fun h s' => exists free', ctx_repr s' (fs ++ [f ++ [h]]) free' /\
       (h :: free' = free \/ nums s !! h = None /\ free' = free) /\
       others_kept s s' [h] /\
       exists n, nums s' !! h = Some n /\ bn_ok n /\ bn_top n = 0 /\ bn_neg n = 0)
    (fun s' => nums s' = nums s /\ ctx_error (bctx s') = true /\ no_memory s).
Proof.
  intros H. unfold BN_CTX_get. apply wp_bind, wp_gets. rewrite (cr_error _ _ _ H), (cr_group _ _ _ H).
  apply wp_bind, wp_check; [intros _|done]. apply wp_bind, wp_or_error, wp_check.
  2: { rewrite zlen_app. change (zlen [f]) with 1. pose proof (zlen_nonneg fs).
       rewrite (proj2 (Z.eqb_neq _ _)) by lia. done. }
  intros _.
  (* room for one more *)
  apply wp_bind. apply wp_conseq with
    (Q' := fun _ s1 => ctx_repr s1 (fs ++ [f]) free /\ nums s1 = nums s /\
             ctx_index (bctx s1) < zlen (ctx_bignums (bctx s1)))
    (E' := fun s' => nums s' = nums s /\ ctx_error (bctx s') = true /\ no_memory s); [| |done].
  { destruct (cr_bignums _ _ _ H) as (rest & grest & Hb & _). pose proof (cr_index _ _ _ H) as Hi.
    assert (zlen (ctx_bignums (bctx s)) = ctx_index (bctx s) + zlen rest)
      by (rewrite Hb, zlen_app, zlen_map; lia). pose proof (zlen_nonneg rest).
    destruct (Z.eqb_spec (ctx_index (bctx s)) (zlen (ctx_bignums (bctx s)))) as [E|E].
    - apply wp_or_error. eapply wp_conseq; [by apply wp_bn_ctx_grow| |].
      + cbn beta. intros _ s1 (Hx & Hn1 & Hl1). split_and!; [done|done|].
        rewrite (cr_index _ _ _ Hx), <- Hi. lia.
      + cbn beta. intros s1 [-> Hm]. done.
    - apply wp_ret. split_and!; [done|done|lia]. }
  cbn beta. intros _ s1 (H1 & Hn1 & Hlt). apply wp_bind, wp_gets.
  destruct (cr_bignums _ _ _ H1) as (rest & grest & Hb & Hf & Hgs & Hl). pose proof (cr_index _ _ _ H1) as Hi.
  set (live := concat (fs ++ [f])) in *.
  destruct rest as [|slot rest]; [rewrite app_nil_r in Hb; rewrite Hb, Hi, zlen_map in Hlt; lia|].
  destruct grest as [|g0 grest]; [rewrite zlen_cons in Hl; pose proof (zlen_nonneg rest); change (zlen []) with 0 in Hl; lia|].
  rewrite !zlen_cons in Hl.
  assert (Hi1 : ctx_index (bctx s1) = zlen (map Some live)) by (rewrite zlen_map; done).
  assert (Hi2 : ctx_index (bctx s1) = zlen (frame_groups (fs ++ [f]))) by (rewrite zlen_frame_groups; done).
  apply wp_bind. eapply wp_valid; [rewrite Hb, Hi1; apply zget_mid|].
  (* the slot is filled *)
  apply wp_bind. apply wp_conseq with
    (Q' := fun h s2 => ctx_repr s2 (fs ++ [f]) (h :: omap id rest) /\
             (slot = Some h /\ s2 = s1 \/ slot = None /\ nums s1 !! h = None /\ nums s2 = <[h := mkBN [] 0 0 BN_FLG_MALLOCED]> (nums s1)) /\
             bctx s2 = mkCtx (map Some live ++ Some h :: rest) (ctx_groups (bctx s1)) (ctx_group (bctx s1)) (ctx_index (bctx s1)) (ctx_error (bctx s1)))
    (E' := fun s' => nums s' = nums s /\ ctx_error (bctx s') = true /\ no_memory s); [| |done].
  { destruct slot as [h|].
    - apply wp_ret. subst free. split_and!; [done|by left|]. destruct (bctx s1). cbn in *. by subst.
    - cbn in Hf. apply wp_bind, wp_or_error. unfold BN_new.
      apply wp_bind, wp_check; [intros _|intros Ha; split_and!; [done|done|left; eauto]].
      apply wp_bind, wp_gets. set (h := fresh (dom (nums s1))).
      assert (Hh : nums s1 !! h = None) by (apply not_elem_of_dom, is_fresh).
      apply wp_bind, wp_modify, wp_ret. apply wp_bind. eapply wp_valid; [rewrite Hb, Hi1; apply zset_mid|].
      apply wp_bind, wp_modify, wp_ret. split_and!; [|by right|done].
      destruct H1 as [He1 Hg1 Hs1 _ _ Hnd1 Hp1]. fold live in Hnd1, Hp1. subst free.
      assert (Hnew : h ∉ live ++ omap id rest).
      { intros Hin. rewrite Forall_forall in Hp1. destruct (Hp1 h Hin) as (n & Hn & _); congruence. }
      split; cbn; fold live; try done.
      + exists (Some h :: rest), (g0 :: grest). split_and!; [done|done|done|rewrite !zlen_cons; lia].
      + rewrite <- Permutation_middle. by apply NoDup_cons.
      + apply Forall_middle. split.
        * exists (mkBN [] 0 0 BN_FLG_MALLOCED). cbn. rewrite lookup_insert_eq. split_and!; try done.
          split_and!; cbn; [constructor|lia|done|done|by left].
        * rewrite Forall_forall in *. intros p Hp. destruct (Hp1 p Hp) as (n & Hn & Hrest).
          exists n. cbn. by rewrite lookup_insert_ne by congruence. }
  cbn beta. intros h s2 (H2 & Hslot & Hc2). apply wp_bind.
  rewrite Hi2, Hgs. eapply wp_valid; [apply zset_mid|]. apply wp_bind, wp_modify. apply wp_bind.
  rewrite (cr_group _ _ _ H1), Hc2. cbn [ctx_index ctx_bignums ctx_groups ctx_group ctx_error]. rewrite Hi2.
  assert (H3 : ctx_repr (mkState (nums s2) (mkCtx (map Some live ++ Some h :: rest)
      (frame_groups (fs ++ [f]) ++ zlen (fs ++ [f]) :: grest) (ctx_group (bctx s1))
      (zlen (frame_groups (fs ++ [f])) + 1) (ctx_error (bctx s1)))) (fs ++ [f ++ [h]]) (omap id rest)).
  { apply (ctx_repr_get s2 fs f h rest grest); [done| |lia]. rewrite Hc2. cbn. by rewrite Hi2. }
  assert (Hp3 : pooled s2 h).
  { pose proof (cr_pooled _ _ _ H2) as Hp%Forall_middle. tauto. }
  destruct Hp3 as (n & Hn & (Hd & Ht & Hm & _) & Hst).
  eapply wp_bn_update; [exact Hn|]. cbn [bn_d bn_flags]. intros s4 Hs4 Ho4. apply wp_ret.
  assert (Hok4 : bn_ok (mkBN (bn_d n) 0 0 (bn_flags n))) by (split_and!; cbn; [done|lia|lia|done|by left]).
  exists (omap id rest). split_and!.
  - eapply ctx_repr_pooled; [exact H3|exact (proj2 Ho4)|]. intros p _ (m & Hpm & Hm3). cbn in Hpm.
    destruct (decide (p = h)) as [->|Hne]; [by eexists|]. exists m. by rewrite (proj1 Ho4).
  - destruct Hslot as [[-> _]|(-> & Hnone & _)]; [left; by rewrite <- Hf|right; split; [by rewrite <- Hn1|exact Hf]].
  - intros p Hp [m Hpm]. rewrite list_elem_of_singleton in Hp. rewrite (proj1 Ho4) by done. cbn. rewrite <- Hn1.
    destruct Hslot as [[_ ->]|(_ & Hnone & Hn2)]; [done|]. by rewrite Hn2, lookup_insert_ne by congruence.
  - by eexists.
Qed.

Lemma others_kept_trans s1 s2 s3 hs : others_kept s1 s2 hs -> others_kept s2 s3 hs -> others_kept s1 s3 hs.
Proof. intros H1 H2 p Hp Hs. rewrite H2; [by apply H1|done|]. by rewrite H1. Qed.

Lemma others_kept_mono s1 s2 hs hs' : hs ⊆ hs' -> others_kept s1 s2 hs -> others_kept s1 s2 hs'.
Proof. intros Hsub H p Hp. apply H. set_solver. Qed.

(** Zeroing a BIGNUM of the pool. *)
Lemma wp_BN_zero_pooled h s (Q : unit -> bn_state -> Prop) E :
  pooled s h ->
  (forall s', bctx s' = bctx s -> others_kept s s' [h] -> (forall p, pooled s p -> pooled s' p) -> Q tt s') ->
  wp (BN_zero h) s Q E.
Proof.
  intros (n & Hn & (Hd & Ht & Hm & Hneg) & Hst) H. eapply wp_bn_update; [exact Hn|]. intros s' Hs' Ho.
  apply H; [exact (proj2 Ho)| |].
  - intros p Hp _. apply (proj1 Ho). by rewrite list_elem_of_singleton in Hp.
  - intros p (m & Hpm & Hrest). destruct (decide (p = h)) as [->|Hne].
    + eexists. split; [exact Hs'|]. split; [|done]. split_and!; cbn; [done|lia|lia|done|by left].
    + exists m. by rewrite (proj1 Ho).
Qed.

Lemma ctx_end_loop_spec l gl G f : forall fuel s rest grest,
  bctx s = mkCtx (map Some (l ++ f) ++ rest) (gl ++ replicate (length f) G ++ grest) G (zlen (l ++ f)) false ->
  zlen gl = zlen l -> Forall (fun g => g <> G) gl -> Forall (pooled s) f ->
  zlen (l ++ f) <= Z.of_nat fuel ->
  wp (ctx_end_loop fuel) s
    (fun _ s' => exists grest', zlen grest' = zlen f + zlen grest /\
       bctx s' = mkCtx (map Some (l ++ f) ++ rest) (gl ++ grest') G (zlen l) false /\
       others_kept s s' f /\ (forall p, pooled s p -> pooled s' p))
    (fun _ => False).
Proof.
  induction f as [|h f IH] using rev_ind; intros fuel s rest grest Hc Hgl Hne Hp Hfuel.
  - rewrite app_nil_r in *. cbn [length replicate app] in Hc.
    assert (Hpost : exists grest', zlen grest' = zlen (@nil nat) + zlen grest /\
       bctx s = mkCtx (map Some l ++ rest) (gl ++ grest') G (zlen l) false /\
       others_kept s s [] /\ (forall p, pooled s p -> pooled s p)).
    { exists grest. by split_and!. }
    destruct fuel as [|fuel]; cbn [ctx_end_loop]; [by apply wp_ret|].
    apply wp_bind, wp_gets. rewrite Hc. cbn [ctx_index ctx_groups ctx_group ctx_bignums ctx_error].
    destruct (Z.ltb_spec 0 (zlen l)); [|by apply wp_ret].
    destruct (zget_Some gl (zlen l - 1)) as [g Hg]; [lia|]. apply wp_bind.
    eapply wp_valid; [rewrite zget_app_l by lia; exact Hg|].
    pose proof (zget_Forall _ _ _ _ Hne Hg) as Hgne. cbn beta in Hgne. rewrite (proj2 (Z.eqb_neq _ _)) by done. by apply wp_ret.
  - assert (Hidx : zlen (l ++ f ++ [h]) = zlen (l ++ f) + 1) by (rewrite !zlen_app; change (zlen [h]) with 1; lia).
    pose proof (zlen_nonneg (l ++ f)). destruct fuel as [|fuel]; [lia|]. cbn [ctx_end_loop].
    apply wp_bind, wp_gets. rewrite Hc. cbn [ctx_index ctx_groups ctx_group ctx_bignums ctx_error]. rewrite Hidx.
    rewrite (proj2 (Z.ltb_lt _ _)) by lia. replace (zlen (l ++ f) + 1 - 1) with (zlen (l ++ f)) by lia.
    assert (Hgs : gl ++ replicate (length (f ++ [h])) G ++ grest = (gl ++ replicate (length f) G) ++ G :: grest).
    { rewrite length_app. cbn [length]. by rewrite Nat.add_1_r, replicate_S_end, <- !app_assoc. }
    assert (Hbs : map Some (l ++ f ++ [h]) ++ rest = map Some (l ++ f) ++ Some h :: rest).
    { by rewrite !map_app, <- !app_assoc. }
    assert (Hlg : zlen (gl ++ replicate (length f) G) = zlen (l ++ f)).
    { rewrite !zlen_app, Hgl. unfold zlen. rewrite length_replicate. lia. }
    rewrite Hgs, Hbs. apply wp_bind. eapply wp_valid; [rewrite <- Hlg; apply zget_mid|]. rewrite Z.eqb_refl.
    apply wp_bind. eapply wp_valid; [rewrite <- (zlen_map Some (l ++ f)); apply zget_mid|].
    apply wp_bind. eapply wp_valid; [reflexivity|].
    apply Forall_app in Hp as [Hpf Hph]. rewrite Forall_singleton in Hph.
    apply wp_bind, wp_BN_zero_pooled; [done|]. intros s1 Hc1 Ho1 Hp1.
    apply wp_bind. eapply wp_valid; [rewrite <- Hlg; apply zset_mid|]. apply wp_bind, wp_modify.
    eapply wp_conseq; [eapply (IH fuel _ (Some h :: rest) (0 :: grest))| |done].
    + cbn. rewrite Hc1, Hc. cbn. rewrite Hbs, <- app_assoc. f_equal; lia.
    + done.
    + done.
    + eapply Forall_impl; [exact Hpf|]. intros p Hp. exact (Hp1 p Hp).
    + lia.
    + cbn beta. intros _ s2 (grest' & Hl' & Hc2 & Ho2 & Hp2). exists grest'. split_and!.
      * rewrite Hl', zlen_app, zlen_cons. change (zlen [h]) with 1. lia.
      * exact Hc2.
      * eapply others_kept_trans; [eapply others_kept_mono; [|exact Ho1]; set_solver|].
        eapply others_kept_mono; [|exact Ho2]. set_solver.
      * intros p Hp. by apply Hp2, Hp1.
Qed.

Lemma wp_BN_CTX_end s fs f free :
  ctx_repr s (fs ++ [f]) free ->
  wp BN_CTX_end s
    (fun _ s' => ctx_repr s' fs (f ++ free) /\ others_kept s s' f)
    (fun _ => False).
Proof.
  intros H. pose proof H as [He Hg Hsm Hi (rest & grest & Hb & Hf & Hgs & Hl) Hnd Hp].
  unfold BN_CTX_end. apply wp_bind, wp_gets. rewrite He, Hg. cbn [orb].
  rewrite zlen_app in *. change (zlen [f]) with 1 in *. pose proof (zlen_nonneg fs).
  rewrite (proj2 (Z.eqb_neq _ _)) by lia. apply wp_bind.
  rewrite concat_snoc in *. rewrite frame_groups_snoc in Hgs.
  assert (HG : Z.of_nat (S (length fs)) = zlen fs + 1) by (unfold zlen; lia). rewrite HG in Hgs.
  eapply wp_conseq; [eapply (ctx_end_loop_spec (concat fs) (frame_groups fs) (zlen fs + 1) f _ s rest grest)| |done].
  - destruct (bctx s) as [bs gs g ix e]. cbn in *. subst. by rewrite <- app_assoc.
  - apply zlen_frame_groups.
  - eapply Forall_impl; [apply frame_groups_le|]. cbn. lia.
  - rewrite !Forall_app in Hp. tauto.
  - rewrite Hi. lia.
  - cbn beta. intros _ s1 (grest' & Hl' & Hc1 & Ho1 & Hp1). apply wp_modify. split; [|exact Ho1].
    rewrite Hc1. split; cbn; try done.
    + lia.
    + lia.
    + exists (map Some f ++ rest), grest'. rewrite map_app, <- app_assoc, omap_app. split_and!; try done.
      * rewrite Hf. f_equal. clear. induction f as [|h f IH]; [done|]. cbn. by f_equal.
      * rewrite Hl', zlen_app, zlen_map. lia.
    + by rewrite app_assoc.
    + rewrite app_assoc. eapply Forall_impl; [exact Hp|]. intros p Hpp. exact (Hp1 p Hpp).
Qed.

(** A body between [BN_CTX_start] and [BN_CTX_end] leaves the stack as it was. *)
Lemma wp_in_ctx {A} (body : M bn_state A) s fs free Q E :
  ctx_repr s fs free -> zlen fs < 255 ->
  (forall s1, nums s1 = nums s -> ctx_bignums (bctx s1) = ctx_bignums (bctx s) -> ctx_repr s1 (fs ++ [[]]) free ->
     wp body s1
       (fun a s2 => exists f free', ctx_repr s2 (fs ++ [f]) free' /\
          forall s3, ctx_repr s3 fs (f ++ free') -> others_kept s2 s3 f -> Q (Some a) s3)
       (fun s2 => (exists f free', ctx_repr s2 (fs ++ [f]) free' /\
          forall s3, ctx_repr s3 fs (f ++ free') -> others_kept s2 s3 f -> Q None s3) \/
          ctx_error (bctx s2) = true /\ Q None s2)) ->
  wp (in_ctx body) s Q E.
Proof.
  intros Hs Hlt Hbody. apply wp_bind. eapply wp_conseq; [by apply wp_BN_CTX_start| |done].
  cbn beta. intros _ s1 (H1 & Hn1 & Hb1). specialize (Hbody s1 Hn1 Hb1 H1). apply wp_bind. unfold try, wp at 1.
  assert (Hend : forall o s2 f free', ctx_repr s2 (fs ++ [f]) free' ->
    (forall s3, ctx_repr s3 fs (f ++ free') -> others_kept s2 s3 f -> Q o s3) ->
    wp (BN_CTX_end;; mret o) s2 Q E).
  { intros o s2 f free' H2 HQ. apply wp_bind. eapply wp_conseq; [by eapply wp_BN_CTX_end| |done].
    cbn beta. intros _ s3 [H3 Ho3]. apply wp_ret. auto. }
  unfold wp in Hbody. destruct (body s1) as [a s2|s2|]; [| |done].
  - destruct Hbody as (f & free' & H2 & HQ). by eapply Hend.
  - destruct Hbody as [(f & free' & H2 & HQ)|[He HQ]]; [by eapply Hend|].
    apply wp_bind. unfold BN_CTX_end. apply wp_bind, wp_gets. rewrite He. cbn [orb]. apply wp_ret. by apply wp_ret.
Qed.

(** *** The words of a product *)

Lemma write_words rr nrr ws s :
  nums s !! rr = Some nrr -> bn_ok nrr -> words_ok ws -> zlen ws <= zlen (bn_d nrr) ->
  wp (bn_write rr 0 ws) s
    (fun _ s' => exists d, nums s' !! rr = Some (set_d d nrr) /\ only_num s s' rr /\ words_ok d /\
       zlen d = zlen (bn_d nrr) /\ ztake (zlen ws) d = ws)
    (fun _ => False).
Proof.
  intros Hrr (Hd & _) Hws Hle. destruct (zwrite_front (bn_d nrr) ws Hle) as (d & Hdw).
  pose proof (zlen_zwrite _ _ _ _ Hdw). eapply wp_bn_write; [done|exact Hdw|]. intros s' Hs' Ho.
  exists d. split_and!; [done|done| |done|]; unfold zwrite in Hdw;
    rewrite Z.leb_refl, Z.add_0_l, ztake_0, (proj2 (Z.leb_le _ _)) in Hdw by done; injection Hdw as <-; cbn [app].
  - apply words_ok_app. auto.
  - by apply ztake_app_exact.
Qed.

Section product.
Context (rr a b : nat) (nrr na nb : BIGNUM) (s : bn_state).
Context (Hrr : nums s !! rr = Some nrr) (Ha : nums s !! a = Some na) (Hb : nums s !! b = Some nb).
Context (Hrok : bn_ok nrr) (Haok : bn_ok na) (Hbok : bn_ok nb).

Definition holds_words (v n : Z) (s' : bn_state) : Prop :=
  exists d, nums s' !! rr = Some (set_d d nrr) /\ only_num s s' rr /\ words_ok d /\
    zlen d = zlen (bn_d nrr) /\ val (ztake n d) = v.

Lemma wp_mul_words :
  bn_top na + bn_top nb <= zlen (bn_d nrr) ->
  wp (if (bn_top na =? 4) && (bn_top nb =? 4) then
       ws ← valid (bn_mul_comba4 (bn_words na) (bn_words nb)); bn_write rr 0 ws
     else if (bn_top na =? 8) && (bn_top nb =? 8) then
       ws ← valid (bn_mul_comba8 (bn_words na) (bn_words nb)); bn_write rr 0 ws
     else bn_mul rr a b) s
    (fun _ => holds_words (mag na * mag nb) (bn_top na + bn_top nb)) (fun _ => False).
Proof using Hrr Ha Hb Hrok Haok Hbok.
  intros Hroom. pose proof (bn_words_len na Haok) as Hla. pose proof (bn_words_len nb Hbok) as Hlb.
  pose proof (bn_words_ok na Haok) as Hwa. pose proof (bn_words_ok nb Hbok) as Hwb.
  assert (Hcomba : forall o n, (exists r, o = Some r /\ words_ok r /\ zlen r = n /\ val r = mag na * mag nb) ->
    bn_top na + bn_top nb = n ->
    wp (ws ← valid o; bn_write rr 0 ws) s
      (fun _ => holds_words (mag na * mag nb) (bn_top na + bn_top nb)) (fun _ => False)).
  { intros o n (ws & -> & Hws & Hl & Hv) Hn. apply wp_bind. eapply wp_valid; [done|].
    eapply wp_conseq; [apply (write_words rr nrr ws); [done|done|done|lia]| |done].
    cbn beta. intros _ s' (d & H1 & H2 & H3 & H4 & H5). exists d. split_and!; try done.
    by rewrite Hn, <- Hl, H5. }
  destruct (Z.eqb_spec (bn_top na) 4), (Z.eqb_spec (bn_top nb) 4); cbn [andb].
  1: { apply (Hcomba _ 8); [|lia]. apply bn_mul_comba4_spec; [done|done|lia|lia]. }
  all: destruct (Z.eqb_spec (bn_top na) 8), (Z.eqb_spec (bn_top nb) 8); cbn [andb]; try lia.
  all: try by (apply (Hcomba _ 16); [|lia]; apply bn_mul_comba8_spec; [done|done|lia|lia]).
  all: unfold bn_mul; apply wp_bind; (eapply wp_bn_load; [exact Hrr|]); apply wp_bind; (eapply wp_bn_load; [exact Ha|]);
    apply wp_bind; (eapply wp_bn_load; [exact Hb|]); destruct Hrok as (Hdok & _);
    destruct (bn_mul_normal_spec (bn_d nrr) (bn_words na) (bn_words nb)) as (d & E & Hd & Hl & Hv & _); [done..|lia|];
    rewrite Hla, Hlb in E, Hv; apply wp_bind; (eapply wp_valid; [exact E|]);
    (eapply wp_bn_update; [exact Hrr|]); intros s' Hs' Ho; by exists d.
Qed.

Lemma wp_sqr_words :
  bn_top na * 2 <= zlen (bn_d nrr) ->
  wp (if bn_top na =? 4 then
       ws ← valid (bn_sqr_comba4 (bn_words na)); bn_write rr 0 ws
     else if bn_top na =? 8 then
       ws ← valid (bn_sqr_comba8 (bn_words na)); bn_write rr 0 ws
     else bn_sqr rr a (bn_top na * 2)) s
    (fun _ => holds_words (mag na * mag na) (bn_top na * 2)) (fun _ => False).
Proof using Hrr Ha Hrok Haok.
  intros Hroom. pose proof (bn_words_len na Haok) as Hla. pose proof (bn_words_ok na Haok) as Hwa.
  assert (Hcomba : forall o n, (exists r, o = Some r /\ words_ok r /\ zlen r = n /\ val r = mag na * mag na) ->
    bn_top na * 2 = n ->
    wp (ws ← valid o; bn_write rr 0 ws) s
      (fun _ => holds_words (mag na * mag na) (bn_top na * 2)) (fun _ => False)).
  { intros o n (ws & -> & Hws & Hl & Hv) Hn. apply wp_bind. eapply wp_valid; [done|].
    eapply wp_conseq; [apply (write_words rr nrr ws); [done|done|done|lia]| |done].
    cbn beta. intros _ s' (d & H1 & H2 & H3 & H4 & H5). exists d. split_and!; try done.
    by rewrite Hn, <- Hl, H5. }
  destruct (Z.eqb_spec (bn_top na) 4).
  { apply (Hcomba _ 8); [|lia]. apply bn_sqr_comba4_spec; [done|lia]. }
  destruct (Z.eqb_spec (bn_top na) 8).
  { apply (Hcomba _ 16); [|lia]. apply bn_sqr_comba8_spec; [done|lia]. }
  unfold bn_sqr. apply wp_bind. eapply wp_bn_load; [exact Hrr|]. apply wp_bind. eapply wp_bn_load; [exact Ha|].
  destruct Hrok as (Hdok & _).
  destruct (bn_sqr_normal_spec (bn_d nrr) (bn_words na)) as (d & E & Hd & Hl & Hv); [done..|lia|].
  rewrite Hla in E, Hv. rewrite Z.mul_comm in E, Hv. apply wp_bind. eapply wp_valid; [exact E|].
  eapply wp_bn_update; [exact Hrr|]. intros s' Hs' Ho. by exists d.
Qed.
End product.

(** *** Changes that keep the pool usable *)

Definition is_static (n : BIGNUM) : bool := negb (BN_get_flags n BN_FLG_STATIC_DATA =? 0).

Definition touches (s s' : bn_state) (hs : list nat) : Prop :=
  bctx s' = bctx s /\ (forall p, p ∉ hs -> nums s' !! p = nums s !! p) /\
  (forall p, pooled s p -> pooled s' p).

Lemma touches_refl s hs : touches s s hs.
Proof. done. Qed.

Lemma touches_trans s1 s2 s3 hs : touches s1 s2 hs -> touches s2 s3 hs -> touches s1 s3 hs.
Proof.
  intros (C1 & N1 & P1) (C2 & N2 & P2). split_and!; [congruence| |auto].
  intros p Hp. by rewrite N2, N1.
Qed.

Lemma touches_mono s s' hs hs' : hs ⊆ hs' -> touches s s' hs -> touches s s' hs'.
Proof. intros Hsub (C & N & P). split_and!; [done| |done]. intros p Hp. apply N. set_solver. Qed.

Lemma touches_only s s' r n n' hs :
  only_num s s' r -> nums s !! r = Some n -> nums s' !! r = Some n' -> bn_ok n' ->
  is_static n' = is_static n -> r ∈ hs -> touches s s' hs.
Proof.
  intros [Ho Hc] Hn Hn' Hok Hst Hr. split_and!; [done| |].
  - intros p Hp. apply Ho. intros ->. done.
  - intros p (m & Hp & Hmok & Hmst). destruct (decide (p = r)) as [->|Hne].
    + rewrite Hn in Hp. injection Hp as <-. exists n'. split_and!; [done|done|].
      unfold is_static in Hst. rewrite Hmst in Hst. cbn in Hst.
      by destruct (Z.eqb_spec (BN_get_flags n' BN_FLG_STATIC_DATA) 0).
    + exists m. by rewrite Ho.
Qed.

Lemma ctx_repr_touches s s' hs fs free : touches s s' hs -> ctx_repr s fs free -> ctx_repr s' fs free.
Proof. intros (C & _ & P) H. eapply ctx_repr_pooled; [done|done|]. intros h _. apply P. Qed.

Lemma not_can_grow n words :
  ~ can_grow alloc_ok n words -> is_static n = false -> words <= BN_MAX_WORDS -> exists w, alloc_ok w = false.
Proof.
  unfold can_grow, is_static. intros H Hst Hw. exists (words * BN_BYTES).
  destruct (alloc_ok (words * BN_BYTES)) eqn:E; [|done]. destruct H. right. split_and!; [done| |done].
  by destruct (Z.eqb_spec (BN_get_flags n BN_FLG_STATIC_DATA) 0).
Qed.

(** *** Copies *)

Lemma zget_bn_words n i : i < bn_top n -> zget (bn_words n) i = zget (bn_d n) i.
Proof. intros. by apply zget_ztake. Qed.

Lemma bn_normal_same n n' :
  bn_normal n -> bn_ok n' -> bn_words n' = bn_words n -> bn_top n' = bn_top n -> bn_neg n' = bn_neg n -> bn_normal n'.
Proof.
  intros (Hok & Hz & Hm) Hok' Hw Ht Hn. split_and!; [done| |].
  - rewrite Ht. intros Hpos. rewrite <- (zget_bn_words n') by lia. rewrite Hw, zget_bn_words by lia. auto.
  - unfold mag in *. rewrite Hw, Hn. done.
Qed.

Lemma wp_BN_copy a b na nb s :
  nums s !! a = Some na -> nums s !! b = Some nb -> bn_ok na -> bn_ok nb ->
  wp (BN_copy alloc_ok a b) s
    (fun _ s' => only_num s s' a /\ exists n', nums s' !! a = Some n' /\ bn_ok n' /\
       bn_words n' = bn_words nb /\ bn_top n' = bn_top nb /\ bn_neg n' = bn_neg nb /\
       is_static n' = is_static na)
    (fun s' => s' = s /\ a <> b /\ ~ can_grow alloc_ok na (bn_top nb)).
Proof.
  intros Ha Hb Haok Hbok. unfold BN_copy. destruct (Nat.eqb_spec a b) as [->|Hne].
  { apply wp_ret. split; [done|]. exists nb. rewrite Ha in Hb. injection Hb as ->. by split_and!. }
  pose proof Hbok as (Hdb & Htb & Hmb & Hnegb). apply wp_bind. eapply wp_bn_load; [exact Hb|].
  apply wp_bind. eapply wp_conseq; [apply wp_bn_wexpand; [exact Ha|done|lia]| |by intros s' [-> ?]].
  cbn beta. intros _ s1 (d1 & Ha1 & Ho1 & Hok1 & _ & Hl1).
  assert (Hsl : bn_copy_words (bn_d nb) (Z.max 0 (bn_top nb)) = Some (bn_words nb)).
  { unfold bn_copy_words, zslice. rewrite Z.max_r by lia. rewrite !(proj2 (Z.leb_le _ _)) by lia. done. }
  apply wp_bind. eapply wp_valid; [exact Hsl|]. apply wp_bind.
  pose proof (bn_words_len nb Hbok) as Hlw.
  eapply wp_conseq; [apply (write_words a (set_d d1 na) (bn_words nb)); [exact Ha1|exact Hok1|by apply bn_words_ok|cbn; lia]| |done].
  cbn beta. intros _ s2 (d2 & Ha2 & Ho2 & Hd2 & Hl2 & Hw2). cbn [bn_d set_d] in Hl2.
  eapply wp_bn_update; [exact Ha2|]. intros s3 Ha3 Ho3.
  split; [do 2 (eapply only_num_trans; [eassumption|]); done|].
  eexists. split; [exact Ha3|]. destruct Hok1 as (_ & _ & Hm1 & _). cbn in Hm1.
  rewrite Hlw in Hw2. split_and!; try done.
  - split_and!; cbn; [done|lia|lia|lia|done].
  - unfold is_static, BN_get_flags, BN_FLG_STATIC_DATA, BN_FLG_CONSTTIME. cbn [bn_flags set_d].
    rewrite Z.land_lor_distr_l, <- Z.land_assoc. change (Z.land 4 2) with 0. by rewrite Z.land_0_r, Z.lor_0_r.
Qed.

Definition holds (s : bn_state) (r : nat) (v : Z) : Prop :=
  exists n, nums s !! r = Some n /\ bn_normal n /\ bn_val n = v.

(** The end of [BN_mul] and [BN_sqr]. *)
Lemma wp_product_tail r rr nr nrr d n v neg (sgn : M bn_state unit) s :
  nums s !! rr = Some (set_d d nrr) -> words_ok d -> 0 <= n <= zlen d -> zlen d <= BN_MAX_WORDS ->
  bn_ok nrr -> val (ztake n d) = v -> (rr <> r -> nums s !! r = Some nr /\ bn_ok nr) ->
  neg = 0 \/ neg = 1 ->
  (forall s0 m0, nums s0 !! rr = Some m0 -> bn_ok m0 ->
     wp sgn s0 (fun _ s' => nums s' !! rr = Some (set_neg (if mag m0 =? 0 then 0 else neg) m0) /\ only_num s0 s' rr)
       (fun _ => False)) ->
  wp (bn_update rr (set_top n);; bn_correct_top rr;; sgn;; bn_copy alloc_ok r rr) s
    (fun _ s' => touches s s' [r; rr] /\ holds s' r (if neg =? 0 then v else - v))
    (fun s' => rr <> r /\ touches s s' [rr] /\ exists w, 0 <= w <= n /\ ~ can_grow alloc_ok nr w).
Proof.
  intros Hrr Hd Hn Hmax (_ & _ & _ & Hneg0) Hv Hr Hneg Hsgn.
  apply wp_bind. eapply wp_bn_update; [exact Hrr|]. intros s1 H1 Ho1.
  set (m1 := set_top n (set_d d nrr)) in *.
  assert (Hok1 : bn_ok m1) by (split_and!; cbn; [done|lia|lia|lia|done]).
  assert (Hm1 : mag m1 = v) by done.
  apply wp_bind. eapply wp_conseq; [by apply (wp_bn_correct_top rr m1)| |done].
  cbn beta. intros _ s2 (top' & H2 & Ho2 & Hok2 & Hm2 & Hz2 & Hle2). cbv zeta in *.
  apply wp_bind. eapply wp_conseq; [by apply Hsgn| |done]. cbn beta. intros _ s3 [H3 Ho3].
  set (m3 := set_neg (if mag (set_top top' m1) =? 0 then 0 else neg) (set_top top' m1)) in *.
  assert (Hok3 : bn_ok m3).
  { destruct Hok2 as (A1 & A2 & A3 & _). split_and!; [exact A1|exact (proj1 A2)|exact (proj2 A2)|exact A3|].
    cbn. destruct (mag (set_top top' m1) =? 0); tauto. }
  assert (Hn3 : bn_normal m3) by (by apply bn_normal_signed).
  assert (Hv3 : bn_val m3 = if neg =? 0 then v else - v) by (unfold m3; by rewrite bn_val_signed, Hm2, Hm1).
  assert (Ho : only_num s s3 rr) by (by do 2 (eapply only_num_trans; [eassumption|])).
  assert (Ht : touches s s3 [rr]) by (eapply touches_only; [exact Ho|exact Hrr|exact H3|done|done|set_solver]).
  destruct (decide (rr = r)) as [->|Hne].
  - unfold bn_copy, BN_copy. rewrite Nat.eqb_refl. apply wp_ret. split; [|by exists m3].
    eapply touches_mono; [|exact Ht]. set_solver.
  - destruct (Hr Hne) as [Hr0 Hrok]. assert (Hr3 : nums s3 !! r = Some nr) by (by rewrite (proj1 Ho)).
    eapply wp_conseq; [by apply (wp_BN_copy r rr nr m3)| |].
    + cbn beta. intros _ s4 (Ho4 & n4 & H4 & Hok4 & Hw4 & Ht4 & Hn4 & Hst4). split.
      * eapply touches_trans; [eapply touches_mono; [|exact Ht]; set_solver|].
        eapply touches_only; [exact Ho4|exact Hr3|exact H4|done|done|set_solver].
      * exists n4. split_and!; [done|by eapply bn_normal_same|]. rewrite <- Hv3.
        unfold bn_val, mag. by rewrite Hn4, Hw4.
    + cbn beta. intros s4 (-> & _ & Hg). split_and!; [done|done|]. exists (bn_top m3). split; [|done].
      destruct Hok2 as (_ & ? & _). cbn in *. lia.
Qed.

Section mul.
Context (r a b : nat) (nr na nb : BIGNUM) (s : bn_state) (fs : list (list nat)) (free : list nat).
Context (Hr : nums s !! r = Some nr) (Ha : nums s !! a = Some na) (Hb : nums s !! b = Some nb).
Context (Hrok : bn_ok nr) (Haok : bn_ok na) (Hbok : bn_ok nb).
Context (Hctx : ctx_repr s fs free) (Hlt : zlen fs < 255).
Context (Hrf : r ∉ free) (Haf : a ∉ free) (Hbf : b ∉ free).

(** Why a multiplication whose result has [n] words can fail. *)
Definition refused (n : Z) : Prop := no_memory s \/ is_static nr = true \/ BN_MAX_WORDS < n.

Lemma refused_grow n0 w n :
  ~ can_grow alloc_ok n0 w -> is_static n0 = false \/ n0 = nr -> w <= n -> refused n.
Proof using.
  intros Hg Hst Hw. destruct (Z.leb_spec n BN_MAX_WORDS); [|by right; right].
  destruct (is_static n0) eqn:E.
  - destruct Hst as [|Hst]; [done|]. subst n0. by right; left.
  - left; left. apply (not_can_grow n0 w); [done|done|lia].
Qed.

(** Choosing the BIGNUM that receives the product. *)
Lemma wp_choose (p : bool) s1 (E : bn_state -> Prop) Q :
  nums s1 = nums s -> ctx_repr s1 (fs ++ [[]]) free ->
  zlen (ctx_bignums (bctx s1)) = zlen (ctx_bignums (bctx s)) ->
  (forall rr f free' s2 nrr, ctx_repr s2 (fs ++ [f]) free' -> f ++ free' ⊆ rr :: free ->
     nums s2 !! rr = Some nrr -> bn_ok nrr -> is_static nrr = false \/ nrr = nr ->
     (rr = r /\ p = false /\ s2 = s1 /\ f = [] /\ nrr = nr \/ rr <> r /\ rr <> a /\ rr <> b /\ f = [rr] /\ (rr ∈ free \/ nums s !! rr = None)) ->
     (forall q, q <> rr -> is_Some (nums s !! q) -> nums s2 !! q = nums s !! q) ->
     Q rr s2) ->
  (forall s2, nums s2 = nums s -> ctx_error (bctx s2) = true -> no_memory s -> E s2) ->
  wp (if p then BN_CTX_get alloc_ok else mret r) s1 Q E.
Proof using All.
  intros Hn1 H1 Hl1 HQ HE. destruct p.
  - eapply wp_conseq; [eapply wp_BN_CTX_get; exact H1| |].
    + cbn beta. intros h s2 (free' & H2 & Hfree & Ho2 & n & Hn & Hok & _ & _). cbn [app] in H2.
      pose proof (cr_pooled _ _ _ H2) as Hp. rewrite concat_snoc, <- app_assoc in Hp. cbn in Hp.
      apply Forall_middle in Hp as [(m & Hm & _ & Hst) _]. rewrite Hn in Hm. injection Hm as <-. rewrite Hn1 in *.
      assert (Hhne : forall q nq, nums s !! q = Some nq -> q ∉ free -> h <> q).
      { intros q nq Hq Hqf ->. destruct Hfree as [<-|[? _]]; [set_solver|congruence]. }
      eapply (HQ h [h] free' s2 n); [exact H2| |done|done| | |].
      * destruct Hfree as [<-|[_ ->]]; set_solver.
      * left. unfold is_static. by rewrite Hst.
      * right. split_and!; [by eapply Hhne..|done|]. destruct Hfree as [<-|[? _]]; [left; set_solver|by right].
      * intros q Hq Hqs. rewrite Ho2; [by rewrite Hn1|by rewrite list_elem_of_singleton|by rewrite Hn1].
    + cbn beta. intros s2 (Hn2 & He & Hm). apply HE; [by rewrite Hn2|done|].
      unfold no_memory in *. by rewrite <- Hl1.
  - apply wp_ret. apply (HQ r [] free s1 nr); [done|set_solver|by rewrite Hn1|done|by right|by left; split_and!|].
    intros q _ _. by rewrite Hn1.
Qed.

(** From the BIGNUM that receives the product on. *)
Lemma wp_mul_into rr nrr s2 n v neg (words sgn : M bn_state unit) :
  nums s2 !! rr = Some nrr -> bn_ok nrr -> 0 <= n <= INT_MAX ->
  (rr <> r -> nums s2 !! r = Some nr) -> is_static nrr = false \/ nrr = nr -> (rr = r -> nrr = nr) ->
  neg = 0 \/ neg = 1 ->
  (forall s3 d, only_num s2 s3 rr -> nums s3 !! rr = Some (set_d d nrr) -> bn_ok (set_d d nrr) -> n <= zlen d ->
     wp words s3 (fun _ => holds_words rr (set_d d nrr) s3 v n) (fun _ => False)) ->
  (forall s0 m0, nums s0 !! rr = Some m0 -> bn_ok m0 ->
     wp sgn s0 (fun _ s' => nums s' !! rr = Some (set_neg (if mag m0 =? 0 then 0 else neg) m0) /\ only_num s0 s' rr)
       (fun _ => False)) ->
  wp (bn_wexpand alloc_ok rr n;; words;; bn_update rr (set_top n);; bn_correct_top rr;; sgn;; bn_copy alloc_ok r rr) s2
    (fun _ s' => touches s2 s' [r; rr] /\ holds s' r (if neg =? 0 then v else - v))
    (fun s' => touches s2 s' [rr] /\ (rr = r -> s' = s2) /\ refused n).
Proof using All.
  intros Hrr Hrrok Hn Hr2 Hst Hsame Hneg Hwords Hsgn.
  apply wp_bind. eapply wp_conseq; [apply (wp_bn_wexpand _ rr nrr); [done|done|lia]| |].
  2: { cbn beta. intros s' [-> Hg]. split_and!; [done|done|]. by eapply refused_grow. }
  cbn beta. intros _ s3 (d & H3 & Ho3 & Hok3 & _ & Hl3).
  apply wp_bind. eapply wp_conseq; [by apply (Hwords s3 d)| |done].
  cbn beta. intros _ s4 (d4 & H4 & Ho4 & Hd4 & Hl4 & Hv4). cbn [bn_d set_d] in Hl4.
  assert (Ht : touches s2 s4 [rr]).
  { eapply (touches_only s2 s4 rr nrr (set_d d4 nrr)); [by eapply only_num_trans|done|done| |done|set_solver].
    destruct Hok3 as (_ & A2 & A3 & A4). cbn in A2, A3, A4. split_and!; cbn; [done|lia|lia|lia|done]. }
  destruct Hok3 as (_ & _ & Hm3 & _). cbn in Hm3.
  eapply wp_conseq; [apply (wp_product_tail r rr nr nrr d4 n v neg sgn); try done; try lia| |].
  - intros Hne. split; [|done]. rewrite (proj1 Ho4), (proj1 Ho3) by done. by apply Hr2.
  - cbn beta. intros _ s5 [Ht5 Hh]. split; [|done].
    eapply touches_trans; [|exact Ht5]. eapply touches_mono; [|exact Ht]. set_solver.
  - cbn beta. intros s5 (Hne & Ht5 & w & Hw & Hg). split_and!; [by eapply touches_trans|by intros ->|].
    eapply refused_grow; [exact Hg|by right|lia].
Qed.

(** What a multiplication leaves when it succeeds and when it fails. *)
Definition product_done (v : Z) (s' : bn_state) : Prop :=
  holds s' r v /\ others_kept s s' (r :: free) /\ exists free', ctx_repr s' fs free'.
Definition product_refused (n : Z) (s' : bn_state) : Prop :=
  others_kept s s' free /\ refused n.

Lemma kept_in_frame s2 s3 rr f hs :
  others_kept s2 s3 f -> (forall q, q <> rr -> is_Some (nums s !! q) -> nums s2 !! q = nums s !! q) ->
  f ⊆ hs -> (rr ∈ hs \/ nums s2 !! rr = nums s !! rr \/ nums s !! rr = None) -> others_kept s s3 hs.
Proof using All.
  intros Ho H2 Hf Hrr q Hq Hs.
  assert (nums s2 !! q = nums s !! q) as E.
  { destruct (decide (q = rr)) as [->|]; [|auto]. destruct Hrr as [?|[?|Hn]]; [done|done|].
    rewrite Hn in Hs. by destruct Hs. }
  rewrite Ho; [done|set_solver|by rewrite E].
Qed.

(** The product is zero. *)
Lemma wp_mul_zero s1 :
  nums s1 = nums s -> ctx_repr s1 (fs ++ [[]]) free ->
  wp (BN_zero r) s1
    (fun _ s2 => exists f free', ctx_repr s2 (fs ++ [f]) free' /\
       forall s3, ctx_repr s3 fs (f ++ free') -> others_kept s2 s3 f -> product_done 0 s3)
    (fun _ => False).
Proof using All.
  intros Hn1 H1. pose proof Hrok as (Hd & Ht & Hm & _). eapply wp_bn_update; [by rewrite Hn1|].
  intros s2 Hs2 Ho2. exists [], free.
  assert (Hok0 : bn_ok (mkBN (bn_d nr) 0 0 (bn_flags nr))) by (split_and!; cbn; [done|lia|lia|done|by left]).
  split.
  - eapply ctx_repr_touches; [|exact H1]. eapply (touches_only s1 s2 r nr _ [r]); [done|by rewrite Hn1|done|done|done|set_solver].
  - intros s3 H3 Ho3. split_and!; [|eapply (kept_in_frame s2 s3 r []); [exact Ho3| |set_solver|left; set_solver]|by eauto].
    + eexists. split; [rewrite (Ho3 r) by (done || set_solver); exact Hs2|]. by split_and!.
    + intros q Hq _. rewrite (proj1 Ho2) by done. by rewrite Hn1.
Qed.

(** Leaving the frame after the product was computed. *)
Lemma product_after s1 s2 s3 s4 rr f free' v :
  nums s1 = nums s -> ctx_repr s2 (fs ++ [f]) free' -> f ++ free' ⊆ rr :: free ->
  rr = r /\ f = [] \/ rr <> r /\ f = [rr] /\ (rr ∈ free \/ nums s !! rr = None) ->
  (forall q, q <> rr -> is_Some (nums s !! q) -> nums s2 !! q = nums s !! q) ->
  touches s2 s3 [r; rr] -> holds s3 r v ->
  ctx_repr s4 fs (f ++ free') -> others_kept s3 s4 f -> product_done v s4.
Proof using All.
  intros Hn1 H2 Hsub Hrr H2k (Hc & Htk & Hp) (n & Hn & Hnn & Hv) H4 Ho4. split_and!; [| |by eauto].
  - exists n. split_and!; [|done|done]. rewrite Ho4; [done| |by rewrite Hn].
    destruct Hrr as [[_ ->]|(? & -> & _)]; set_solver.
  - intros q Hq Hqs. assert (q <> rr) as Hqr.
    { intros ->. destruct Hrr as [[-> _]|(_ & _ & [?|E])]; [set_solver..|]. rewrite E in Hqs. by destruct Hqs. }
    assert (E : nums s3 !! q = nums s !! q) by (rewrite Htk by set_solver; auto).
    rewrite Ho4; [done| |by rewrite E]. destruct Hrr as [[_ ->]|(? & -> & _)]; set_solver.
Qed.

Lemma refused_after s1 s2 s3 s4 rr f n :
  nums s1 = nums s ->
  rr = r /\ f = [] /\ s2 = s1 \/ rr <> r /\ f = [rr] /\ (rr ∈ free \/ nums s !! rr = None) ->
  (forall q, q <> rr -> is_Some (nums s !! q) -> nums s2 !! q = nums s !! q) ->
  touches s2 s3 [rr] -> (rr = r -> s3 = s2) -> refused n ->
  others_kept s3 s4 f -> product_refused n s4.
Proof using All.
  intros Hn1 Hrr H2k (_ & Htk & _) Hsame Href Ho4. split; [|done]. intros q Hq Hqs.
  destruct Hrr as [(-> & -> & ->)|(Hne & -> & Hrr)].
  - rewrite (Hsame eq_refl) in Ho4. rewrite <- Hn1. apply Ho4; [set_solver|by rewrite Hn1].
  - assert (q <> rr) as Hqr.
    { intros ->. destruct Hrr as [?|E]; [done|]. rewrite E in Hqs. by destruct Hqs. }
    assert (E : nums s3 !! q = nums s !! q) by (rewrite Htk by set_solver; auto).
    rewrite Ho4; [done|set_solver|by rewrite E].
Qed.
End mul.

(** C19. BN_mul: for operands without leading zeros, and whatever the
    aliasing of [r], [a] and [b], [r] becomes the signed product, without
    leading zeros; the BN_CTX is again the same stack of frames, and apart from
    [r] only BIGNUMs that were free in the pool of the BN_CTX changed.  When
    it fails, [r] is unchanged too, and memory was refused, [r] has static
    data, or the result exceeds the limit of bn_expand. *)
Theorem BN_mul_correct r a b nr na nb s fs free :
  nums s !! r = Some nr -> nums s !! a = Some na -> nums s !! b = Some nb ->
  bn_ok nr -> bn_normal na -> bn_normal nb ->
  ctx_repr s fs free -> zlen fs < 255 -> r ∉ free -> a ∉ free -> b ∉ free ->
  wp (BN_mul alloc_ok r a b) s
    (fun _ s' => holds s' r (bn_val na * bn_val nb) /\ others_kept s s' (r :: free) /\
       exists free', ctx_repr s' fs free')
    (fun s' => others_kept s s' free /\
       (no_memory s \/ is_static nr = true \/ BN_MAX_WORDS < bn_top na + bn_top nb)).
Proof.
  intros Hr Ha Hb Hrok (Haok & _ & Hazn) (Hbok & _ & Hbzn) Hctx Hlt Hrf Haf Hbf.
  unfold BN_mul, returning. apply wp_bind. eapply wp_in_ctx; [done|done|]. intros s1 Hn1 Hb1' H1.
  assert (Ha1 : nums s1 !! a = Some na) by (by rewrite Hn1). assert (Hb1 : nums s1 !! b = Some nb) by (by rewrite Hn1).
  apply wp_bind. eapply wp_bn_load; [exact Ha1|]. apply wp_bind. eapply wp_bn_load; [exact Hb1|].
  rewrite !BN_is_zero_spec by done.
  pose proof Haok as (_ & Hta & Hma & Hna). pose proof Hbok as (_ & Htb & Hmb & Hnb).
  assert (HMAX : 2 * BN_MAX_WORDS <= INT_MAX) by done.
  assert (Hsg : (Z.lxor (bn_neg na) (bn_neg nb) =? 0) = (bn_neg na =? bn_neg nb))
    by (destruct Hna as [E1|E1], Hnb as [E2|E2]; by rewrite E1, E2).
  assert (Hval : (if Z.lxor (bn_neg na) (bn_neg nb) =? 0 then mag na * mag nb else - (mag na * mag nb)) = bn_val na * bn_val nb).
  { rewrite Hsg. unfold bn_val. generalize (mag na), (mag nb). intros.
    destruct Hna as [E1|E1], Hnb as [E2|E2]; rewrite E1, E2; cbn; lia. }
  assert (Hxor : Z.lxor (bn_neg na) (bn_neg nb) = 0 \/ Z.lxor (bn_neg na) (bn_neg nb) = 1)
    by (destruct Hna as [E1|E1], Hnb as [E2|E2]; rewrite E1, E2; auto).
  destruct ((mag na =? 0) || (mag nb =? 0)) eqn:Ez.
  { assert (bn_val na * bn_val nb = 0) as E0.
    { rewrite <- Hval. apply orb_true_iff in Ez as [E%Z.eqb_eq|E%Z.eqb_eq]; rewrite E; destruct (_ =? 0); lia. }
    eapply wp_conseq; [eapply (wp_mul_zero r a b nr na nb s fs free); eassumption| |done].
    cbn beta. intros [] s2 (f & free' & H2 & HQ). exists f, free'. split; [done|]. intros s3 H3 Ho3.
    apply wp_ret. rewrite E0. by apply HQ. }
  apply wp_bind. eapply (wp_choose r a b nr na nb s fs free); try eassumption.
  { by rewrite Hb1'. }
  2: { intros s2 Hn2 He Hm. right. split; [done|]. apply wp_fail. split; [|by left]. intros q _ _. by rewrite Hn2. }
  intros rr f free' s2 nrr H2 Hsub Hrr Hrrok Hst Hrole H2k.
  assert (Ha2 : nums s2 !! a = Some na).
  { destruct Hrole as [(-> & _ & -> & _)|(_ & Hne & _)]; [done|]. by rewrite H2k. }
  assert (Hrr_ab : rr <> a /\ rr <> b).
  { destruct Hrole as [(-> & Hp & _)|(_ & ? & ? & _)]; [|done].
    apply orb_false_iff in Hp as [?%Nat.eqb_neq ?%Nat.eqb_neq]. done. }
  destruct Hrr_ab as [Hrra Hrrb].
  assert (Hb2 : nums s2 !! b = Some nb).
  { destruct Hrole as [(-> & _ & -> & _)|(_ & _ & Hne & _)]; [done|]. by rewrite H2k. }
  apply wp_bind. eapply wp_bn_load; [exact Ha2|]. apply wp_bind. eapply wp_bn_load; [exact Hb2|]. cbv zeta.
  apply wp_bind, wp_must; [by apply Z.leb_le; lia|]. apply wp_bind, wp_check; [intros _|intros E%negb_false_iff%Z.ltb_lt; lia].
  eapply wp_conseq; [eapply (wp_mul_into r a b nr na nb s fs free) with (v := mag na * mag nb)
    (neg := Z.lxor (bn_neg na) (bn_neg nb)); try eassumption; try lia| |].
  - intros Hne. destruct Hrole as [(-> & _)|_]; [done|]. rewrite H2k; [done|done|by rewrite Hr].
  - intros ->. destruct Hrole as [(_ & _ & _ & _ & ->)|(Hne & _)]; done.
  - intros s3 d Ho3 H3 Hok3 Hl3. apply wp_mul_words; try done; by rewrite (proj1 Ho3).
  - intros s0 m0 Hm0 Hok0. eapply wp_conseq; [by apply wp_BN_set_negative| |done].
    cbn beta. intros _ s3 (n' & -> & ? & ? & _). done.
  - cbn beta. intros [] s3 [Ht3 Hh3]. exists f, free'. split; [by eapply ctx_repr_touches|].
    intros s4 H4 Ho4. apply wp_ret. rewrite <- Hval. eapply (product_after r a b nr na nb s fs free); try eassumption.
    destruct Hrole as [(? & _ & _ & ? & _)|(? & _ & _ & ? & ?)]; tauto.
  - cbn beta. intros s3 (Ht3 & Hsame & Href). left. exists f, free'. split; [by eapply ctx_repr_touches|].
    intros s4 H4 Ho4. apply wp_fail. eapply (refused_after r a b nr na nb s fs free) with (rr := rr); try eassumption.
    destruct Hrole as [(? & _ & ? & ? & _)|(? & _ & _ & ? & ?)]; tauto.
Qed.

(** C29. BN_sqr: it always returns 1, and either [r] became the square of [a],
    with the BN_CTX as it was and only free pool BIGNUMs besides [r] changed, or
    the room for the square was refused and [r] is left as it was: the caller is
    not told. *)
Theorem BN_sqr_correct r a nr na s fs free :
  nums s !! r = Some nr -> nums s !! a = Some na ->
  bn_ok nr -> bn_normal na ->
  ctx_repr s fs free -> zlen fs < 255 -> r ∉ free -> a ∉ free ->
  wp (BN_sqr alloc_ok r a) s
    (fun _ s' =>
       holds s' r (bn_val na * bn_val na) /\ others_kept s s' (r :: free) /\ (exists free', ctx_repr s' fs free') \/
       others_kept s s' free /\ (no_memory s \/ is_static nr = true \/ BN_MAX_WORDS < bn_top na * 2))
    (fun _ => False).
Proof.
  intros Hr Ha Hrok (Haok & _ & Hazn) Hctx Hlt Hrf Haf.
  unfold BN_sqr. apply wp_bind. eapply wp_in_ctx; [done|done|]. intros s1 Hn1 Hb1' H1.
  assert (Ha1 : nums s1 !! a = Some na) by (by rewrite Hn1).
  apply wp_bind. eapply wp_bn_load; [exact Ha1|].
  pose proof Haok as (_ & Hta & Hma & Hna).
  assert (HMAX : 2 * BN_MAX_WORDS <= INT_MAX) by done.
  assert (Hval : mag na * mag na = bn_val na * bn_val na).
  { unfold bn_val. generalize (mag na). intros. destruct (bn_neg na =? 0); lia. }
  destruct (Z.ltb_spec (bn_top na) 1) as [Ht1|Ht1].
  { assert (bn_val na * bn_val na = 0) as E0.
    { rewrite <- Hval. unfold mag, bn_words. replace (bn_top na) with 0 by lia. done. }
    eapply wp_conseq; [eapply (wp_mul_zero r a a nr na na s fs free); eassumption| |done].
    cbn beta. intros [] s2 (f & free' & H2 & HQ). exists f, free'. split; [done|]. intros s3 H3 Ho3.
    apply wp_ret. left. rewrite E0. by apply HQ. }
  apply wp_bind. eapply (wp_choose r a a nr na na s fs free); try eassumption.
  { by rewrite Hb1'. }
  2: { intros s2 Hn2 He Hm. right. split; [done|]. apply wp_ret. right. split; [|by left]. intros q _ _. by rewrite Hn2. }
  intros rr f free' s2 nrr H2 Hsub Hrr Hrrok Hst Hrole H2k.
  assert (Hrra : rr <> a).
  { destruct Hrole as [(-> & Hp & _)|(_ & ? & _)]; [|done]. by apply Nat.eqb_neq in Hp. }
  assert (Ha2 : nums s2 !! a = Some na).
  { destruct Hrole as [(-> & _ & -> & _)|_]; [done|]. by rewrite H2k. }
  apply wp_bind. eapply wp_bn_load; [exact Ha2|]. cbv zeta.
  apply wp_bind, wp_must; [by apply Z.leb_le; lia|]. apply wp_bind, wp_check; [intros _|intros E%negb_false_iff%Z.ltb_lt; lia].
  eapply wp_conseq; [eapply (wp_mul_into r a a nr na na s fs free) with (v := mag na * mag na) (neg := 0);
    try eassumption; try lia| |].
  - intros Hne. destruct Hrole as [(-> & _)|_]; [done|]. rewrite H2k; [done|done|by rewrite Hr].
  - intros ->. destruct Hrole as [(_ & _ & _ & _ & ->)|(Hne & _)]; done.
  - intros s3 d Ho3 H3 Hok3 Hl3. eapply wp_sqr_words; try done; by rewrite (proj1 Ho3).
  - intros s0 m0 Hm0 Hok0. eapply wp_bn_update; [exact Hm0|]. intros s3 Hs3 Ho3.
    rewrite Hs3. by destruct (mag m0 =? 0).
  - cbn beta. intros [] s3 [Ht3 Hh3]. exists f, free'. split; [by eapply ctx_repr_touches|].
    intros s4 H4 Ho4. apply wp_ret. left. rewrite <- Hval.
    eapply (product_after r a a nr na na s fs free) with (s1 := s1) (s2 := s2); try eassumption.
    destruct Hrole as [(? & _ & _ & ? & _)|(? & _ & _ & ? & ?)]; tauto.
  - cbn beta. intros s3 (Ht3 & Hsame & Href). left. exists f, free'. split; [by eapply ctx_repr_touches|].
    intros s4 H4 Ho4. apply wp_ret. right.
    eapply (refused_after r a a nr na na s fs free) with (rr := rr) (s1 := s1) (s2 := s2); try eassumption.
    destruct Hrole as [(? & _ & ? & ? & _)|(? & _ & _ & ? & ?)]; tauto.
Qed.

(** [n] calls of [BN_CTX_get]. *)
Fixpoint ctx_get_n (n : nat) : M bn_state (list nat) :=
  match n with
  | O => mret []
  | S n => h ← BN_CTX_get alloc_ok; hs ← ctx_get_n n; mret (h :: hs)
  end.

Definition is_zero_num (s : bn_state) (h : nat) : Prop :=
  exists m, nums s !! h = Some m /\ bn_normal m /\ bn_val m = 0.

Lemma wp_ctx_get_n n : forall s fs f free,
  ctx_repr s (fs ++ [f]) free ->
  wp (ctx_get_n n) s
    (fun hs s' => length hs = n /\ NoDup hs /\ (exists free', ctx_repr s' (fs ++ [f ++ hs]) free') /\
       Forall (fun h => h ∈ free \/ nums s !! h = None) hs /\
       Forall (is_zero_num s') hs /\ others_kept s s' hs)
    (fun s' => ctx_error (bctx s') = true).
Proof.
  induction n as [|n IH]; intros s fs f free H; cbn [ctx_get_n].
  { apply wp_ret. rewrite app_nil_r. split_and!; [done|constructor|by eauto|constructor|constructor|done]. }
  apply wp_bind. eapply wp_conseq; [by eapply wp_BN_CTX_get| |by intros s' (_ & ? & _)].
  cbn beta. intros h s1 (free1 & H1 & Hfree & Ho1 & m & Hm & Hok & Htop & Hneg). apply wp_bind.
  eapply wp_conseq; [by eapply IH| |done]. cbn beta.
  intros hs s2 (Hl & Hnd & (free2 & H2) & Hfrom & Hz & Ho2). apply wp_ret.
  assert (Hh : h ∉ hs).
  { pose proof (cr_nodup _ _ _ H2) as Hn2. rewrite concat_snoc, <- !app_assoc in Hn2.
    apply NoDup_app in Hn2 as (_ & _ & Hn2). apply NoDup_app in Hn2 as (_ & _ & Hn2). cbn in Hn2.
    apply NoDup_cons in Hn2 as [Hn2 _]. set_solver. }
  assert (Hsub : free1 ⊆ free) by (destruct Hfree as [<-|[_ ->]]; set_solver).
  split_and!.
  - cbn. lia.
  - by constructor.
  - exists free2. by rewrite <- app_assoc in H2.
  - constructor; [destruct Hfree as [<-|[? _]]; [left; set_solver|by right]|].
    rewrite Forall_forall in *. intros p Hp. destruct (Hfrom p Hp) as [?|Hnone]; [left; set_solver|].
    destruct (nums s !! p) as [k|] eqn:E; [|by right]. rewrite Ho1 in Hnone; [congruence| |by rewrite E].
    rewrite list_elem_of_singleton. intros ->. done.
  - constructor; [|done]. exists m. rewrite Ho2 by (done || by rewrite Hm). split; [done|].
    assert (mag m = 0) as Hmag by (unfold mag, bn_words; by rewrite Htop).
    assert (bn_normal m) by (split; [done|split; [lia|done]]). split; [done|]. unfold bn_val. by rewrite Hneg.
  - eapply others_kept_trans; eapply others_kept_mono; [|exact Ho1| |exact Ho2]; set_solver.
Qed.

(** C27. A BN_CTX frame: after [BN_CTX_start] any number of [BN_CTX_get] calls
    hand out distinct BIGNUMs, each zero and none of them one that any older
    frame holds or the caller owns, and nothing else changes; [BN_CTX_end] then gives
    exactly these back, the older frames being as before, and leaves everything
    else alone.  A failing call leaves the BN_CTX marked as in error. *)
Theorem BN_CTX_frame_correct n s fs free :
  ctx_repr s fs free -> zlen fs < 255 ->
  wp (BN_CTX_start;; ctx_get_n n) s
    (fun hs s' => length hs = n /\ NoDup hs /\
       Forall (fun h => h ∈ free \/ nums s !! h = None) hs /\ (forall h, h ∈ hs -> h ∉ concat fs) /\
       Forall (is_zero_num s') hs /\ others_kept s s' hs /\
       wp BN_CTX_end s' (fun _ s'' => (exists free', ctx_repr s'' fs (hs ++ free')) /\ others_kept s s'' hs)
         (fun _ => False))
    (fun s' => ctx_error (bctx s') = true).
Proof.
  intros H Hlt. apply wp_bind. eapply wp_conseq; [by apply wp_BN_CTX_start| |done].
  cbn beta. intros _ s1 (H1 & Hn1 & _). eapply wp_conseq; [by eapply wp_ctx_get_n| |done].
  cbn beta. intros hs s2 (Hl & Hnd & (free2 & H2) & Hfrom & Hz & Ho2). cbn [app] in H2.
  assert (Ho : others_kept s s2 hs) by (intros q Hq Hs; rewrite <- Hn1 in *; auto).
  rewrite Hn1 in Hfrom. split_and!; try done.
  - intros h Hh. pose proof (cr_nodup _ _ _ H2) as Hn2. rewrite concat_snoc, <- app_assoc in Hn2.
    apply NoDup_app in Hn2 as (_ & Hn2 & _). intros Hc. apply (Hn2 h Hc). set_solver.
  - eapply wp_conseq; [by eapply wp_BN_CTX_end| |done]. cbn beta. intros _ s3 [H3 Ho3].
    split; [by eauto|]. by eapply others_kept_trans.
Qed.
End frames.

(** ** Concrete runs *)

Lemma bn_sample_ctx : ctx_repr bn_sample [] [].
Proof. split; try done; [|constructor]. by exists [], []. Qed.

Lemma BN_mul_correct_witness :
  bn_normal (mkBN [5] 1 0 0) /\ bn_normal (mkBN [3; 1; 0] 2 1 0) /\
  wp (BN_mul always 1 1 2) bn_sample
    (fun _ s' => holds s' 1 (5 * - (2 ^ 64 + 3)) /\ others_kept bn_sample s' [1%nat] /\
       exists free', ctx_repr s' [] free')
    (fun s' => others_kept bn_sample s' [] /\ (no_memory always bn_sample \/ false = true \/ BN_MAX_WORDS < 3)).
Proof.
  split; [exact bn_normal_5|split; [exact bn_normal_m3|]].
  exact (BN_mul_correct always 1 1 2 (mkBN [5] 1 0 0) (mkBN [5] 1 0 0) (mkBN [3; 1; 0] 2 1 0) bn_sample [] []
    eq_refl eq_refl eq_refl (proj1 bn_normal_5) bn_normal_5 bn_normal_m3 bn_sample_ctx eq_refl
    (not_elem_of_nil 1%nat) (not_elem_of_nil 1%nat) (not_elem_of_nil 2%nat)).
Defined.

Lemma BN_sqr_correct_witness :
  bn_normal (mkBN [5] 1 0 0) /\
  wp (BN_sqr never 0 1) bn_sample
    (fun _ s' =>
       holds s' 0 (5 * 5) /\ others_kept bn_sample s' [0%nat] /\ (exists free', ctx_repr s' [] free') \/
       others_kept bn_sample s' [] /\ (no_memory never bn_sample \/ false = true \/ BN_MAX_WORDS < 2))
    (fun _ => False).
Proof.
  split; [exact bn_normal_5|].
  exact (BN_sqr_correct never 0 1 (mkBN [] 0 0 0) (mkBN [5] 1 0 0) bn_sample [] []
    eq_refl eq_refl bn_ok_0 bn_normal_5 bn_sample_ctx eq_refl
    (not_elem_of_nil 0%nat) (not_elem_of_nil 1%nat)).
Defined.

Lemma BN_CTX_frame_correct_witness :
  ctx_repr bn_sample [] [] /\
  wp (BN_CTX_start;; ctx_get_n always 2) bn_sample
    (fun hs s' => length hs = 2%nat /\ NoDup hs /\
       Forall (fun h => h ∈ [] \/ nums bn_sample !! h = None) hs /\ (forall h, h ∈ hs -> h ∉ concat []) /\
       Forall (is_zero_num s') hs /\ others_kept bn_sample s' hs /\
       wp BN_CTX_end s' (fun _ s'' => (exists free', ctx_repr s'' [] (hs ++ free')) /\ others_kept bn_sample s'' hs)
         (fun _ => False))
    (fun s' => ctx_error (bctx s') = true).
Proof.
  split; [exact bn_sample_ctx|].
  exact (BN_CTX_frame_correct always 2 bn_sample [] [] bn_sample_ctx eq_refl).
Defined.

(** BN_sqr when no memory can be had: it returns 1 although [r], which
    should be 25, is still 0. *)
Theorem BN_sqr_reports_success_without_result :
  exists s', BN_sqr never 0 1 bn_sample = Ret tt s' /\
    option_map bn_val (nums s' !! 1%nat) = Some 5 /\ option_map bn_val (nums s' !! 0%nat) = Some 0.
Proof. eexists. split; [reflexivity|]. split; reflexivity. Qed.
