(* ===== verification/TlsBuffer.v ===== *)
(** * TLS buffers: libssl/tls_buffer.c and tls_content.c

    A [tls_buffer] owns an array of [capacity] octets: the list [tb_data],
    whose length is the capacity.  The octets from [tb_offset] to [tb_len] wait
    to be read.  A [tls_content] holds the content of one record and the CBS
    that still has to be read from it.  Functions that return [ssize_t] return
    the value and, where they store octets for the caller, these octets. *)

From S2P Require Import Prelude Cbs.
Open Scope Z_scope.

Definition TLS_IO_SUCCESS : Z := 1.
Definition TLS_IO_EOF : Z := 0.
Definition TLS_IO_FAILURE : Z := -1.
Definition TLS_IO_ALERT : Z := -2.
Definition TLS_IO_WANT_POLLIN : Z := -3.
Definition TLS_IO_WANT_POLLOUT : Z := -4.
Definition TLS_IO_WANT_RETRY : Z := -5.

Definition TLS_BUFFER_CAPACITY_LIMIT : Z := 1024 * 1024.

Record tls_buffer : Type := mkTlsBuffer {
  tb_capacity_limit : Z;
  tb_data : list Z;
  tb_len : Z;
  tb_offset : Z;
}.

Definition tb_capacity (buf : tls_buffer) : Z := zlen (tb_data buf).

(** Run [m] on the first component of the state. *)
Definition on_fst {S T A} (m : M S A) : M (S * T) A := fun st =>
  match m st.1 with
  | Ret a s => Ret a (s, st.2)
  | Fail s => Fail (s, st.2)
  | UB => UB
  end.

(** A read callback, [tls_read_cb]: asked for at most [n] octets, it returns its
    result, the octets it stored in the buffer, and its new state. *)
Definition tls_read_cb (C : Type) : Type := Z -> C -> Z * list Z * C.

Section tls_buffer.
Context (alloc_ok : Z -> bool).

Definition tls_buffer_resize (capacity : Z) : M tls_buffer unit :=
  buf ← gets id;
  if tb_capacity buf =? capacity then mret tt
  else
    check (negb (tb_capacity_limit buf <? capacity));;
    check (alloc_ok capacity);;
    let data := ztake capacity (tb_data buf) ++ zrep (capacity - tb_capacity buf) 0 in
    let len := if capacity <? tb_len buf then capacity else tb_len buf in
    let offset := if len <? tb_offset buf then len else tb_offset buf in
    modify (fun _ => mkTlsBuffer (tb_capacity_limit buf) data len offset).

Definition tls_buffer_new (init_size : Z) : option tls_buffer :=
  if alloc_ok 40 then
    match tls_buffer_resize init_size (mkTlsBuffer TLS_BUFFER_CAPACITY_LIMIT [] 0 0) with
    | Ret _ buf => Some buf
    | _ => None
    end
  else None.

Definition tls_buffer_clear : M tls_buffer unit :=
  modify (fun buf => mkTlsBuffer (tb_capacity_limit buf) [] 0 0).

Definition tls_buffer_grow (capacity : Z) : M tls_buffer unit :=
  buf ← gets id;
  if capacity <=? tb_capacity buf then mret tt else tls_buffer_resize capacity.

Definition tls_buffer_set_capacity_limit (limit : Z) : M tls_buffer unit :=
  modify (fun buf => mkTlsBuffer limit (tb_data buf) (tb_len buf) (tb_offset buf)).

Section extend.
Context {C : Type} (read_cb : tls_read_cb C).

(** [for (;;)]: every iteration that goes on adds to [len]. *)
Fixpoint extend_loop (fuel : nat) : M (tls_buffer * C) Z :=
  match fuel with
  | O => ub
  | S fuel =>
      st ← gets id;
      let '(buf, c) := st in
      let room := tb_capacity buf - tb_len buf in
      let '(ret, octets, c') := read_cb room c in
      must (zlen octets <=? room);;
      data ← valid (zwrite (tb_data buf) (tb_len buf) octets);
      modify (fun _ => (mkTlsBuffer (tb_capacity_limit buf) data (tb_len buf) (tb_offset buf), c'));;
      if ret <=? 0 then mret ret
      else if room <? ret then mret TLS_IO_FAILURE
      else
        let len := tb_len buf + ret in
        modify (fun _ => (mkTlsBuffer (tb_capacity_limit buf) data len (tb_offset buf), c'));;
        if len =? tb_capacity buf then mret len else extend_loop fuel
  end.

Definition tls_buffer_extend (len : Z) : M (tls_buffer * C) Z :=
  st ← gets id;
  let '(buf, _) := st in
  if len =? tb_len buf then mret (tb_len buf)
  else if len <? tb_len buf then mret TLS_IO_FAILURE
  else
    ok ← try (on_fst (tls_buffer_resize len));
    match ok with
    | None => mret TLS_IO_FAILURE
    | Some _ => extend_loop (Z.to_nat len)
    end.
End extend.

Definition tls_buffer_remaining (buf : tls_buffer) : Z :=
  if tb_len buf <? tb_offset buf then 0 else tb_len buf - tb_offset buf.

(** The result and the octets stored in [rbuf]. *)
Definition tls_buffer_read (n : Z) : M tls_buffer (Z * list Z) :=
  buf ← gets id;
  if tb_len buf <? tb_offset buf then mret (TLS_IO_FAILURE, [])
  else if tb_offset buf =? tb_len buf then mret (TLS_IO_WANT_POLLIN, [])
  else
    let n := if tb_len buf - tb_offset buf <? n then tb_len buf - tb_offset buf else n in
    octets ← read_bytes (zdrop (tb_offset buf) (tb_data buf)) n;
    modify (fun _ => mkTlsBuffer (tb_capacity_limit buf) (tb_data buf) (tb_len buf) (tb_offset buf + n));;
    mret (n, octets).

Definition tls_buffer_write (wbuf : list Z) (n : Z) : M tls_buffer Z :=
  buf ← gets id;
  if tb_len buf <? tb_offset buf then mret TLS_IO_FAILURE
  else
    (if tb_offset buf =? tb_len buf
     then modify (fun buf => mkTlsBuffer (tb_capacity_limit buf) (tb_data buf) 0 0)
     else mret tt);;
    buf ← gets id;
    (if 4096 <=? tb_offset buf then
       octets ← read_bytes (zdrop (tb_offset buf) (tb_data buf)) (tb_len buf - tb_offset buf);
       data ← valid (zwrite (tb_data buf) 0 octets);
       modify (fun buf => mkTlsBuffer (tb_capacity_limit buf) data (tb_len buf - tb_offset buf) 0)
     else mret tt);;
    buf ← gets id;
    if SIZE_MAX - n <? tb_len buf then mret TLS_IO_FAILURE
    else
      ok ← try (tls_buffer_grow (tb_len buf + n));
      match ok with
      | None => mret TLS_IO_FAILURE
      | Some _ =>
          buf ← gets id;
          octets ← read_bytes wbuf n;
          data ← valid (zwrite (tb_data buf) (tb_len buf) octets);
          modify (fun buf => mkTlsBuffer (tb_capacity_limit buf) data (tb_len buf + n) (tb_offset buf));;
          mret n
      end.

Definition tls_buffer_append (wbuf : list Z) (n : Z) : M tls_buffer bool :=
  ret ← tls_buffer_write wbuf n;
  mret (u64 ret =? n).

Definition tls_buffer_data (buf : tls_buffer) : option CBS :=
  match CBS_skip (tb_offset buf) (CBS_init (tb_data buf) (tb_len buf)) with
  | Ret _ cbs => Some (CBS_dup cbs)
  | _ => None
  end.

(** [*out] and [*out_len]. *)
Definition tls_buffer_finish : M tls_buffer (list Z * Z) :=
  buf ← gets id;
  modify (fun buf => mkTlsBuffer (tb_capacity_limit buf) [] 0 0);;
  mret (tb_data buf, tb_len buf).
End tls_buffer.

(** ** Record content *)

Record tls_content : Type := mkContent {
  tc_type : Z;
  tc_epoch : Z;
  tc_data : list Z;
  tc_data_len : Z;
  tc_cbs : CBS;
}.

Definition tls_content_new (alloc_ok : Z -> bool) : option tls_content :=
  if alloc_ok 48 then Some (mkContent 0 0 [] 0 (mkCBS [] 0 0)) else None.

Definition tls_content_clear : M tls_content unit :=
  modify (fun _ => mkContent 0 0 [] 0 (mkCBS [] 0 0)).

Definition tls_content_cbs (c : tls_content) : CBS := tc_cbs c.
Definition tls_content_remaining (c : tls_content) : Z := CBS_len (tc_cbs c).
Definition tls_content_type (c : tls_content) : Z := tc_type c.
Definition tls_content_epoch (c : tls_content) : Z := tc_epoch c.

Definition tls_content_set_cbs (cbs : CBS) (c : tls_content) : tls_content :=
  mkContent (tc_type c) (tc_epoch c) (tc_data c) (tc_data_len c) cbs.

(** A CBS operation on [content->cbs]. *)
Definition on_cbs {A} (m : M CBS A) : M tls_content A := fun c =>
  match m (tc_cbs c) with
  | Ret a cbs => Ret a (tls_content_set_cbs cbs c)
  | Fail cbs => Fail (tls_content_set_cbs cbs c)
  | UB => UB
  end.

Definition tls_content_equal (buf : list Z) (n : Z) : M tls_content bool := on_cbs (CBS_mem_equal buf n).

Definition tls_content_set_epoch (epoch : Z) : M tls_content unit :=
  modify (fun c => mkContent (tc_type c) epoch (tc_data c) (tc_data_len c) (tc_cbs c)).

Definition tls_content_set_data (type : Z) (data : list Z) (data_len : Z) : M tls_content unit :=
  tls_content_clear;;
  modify (fun c => mkContent type (tc_epoch c) data data_len (CBS_init data data_len)).

Definition tls_content_dup_data (alloc_ok : Z -> bool) (type : Z) (data : list Z) (data_len : Z) :
    M tls_content unit :=
  check (alloc_ok data_len);;
  dup ← read_bytes data data_len;
  tls_content_set_data type dup data_len.

Definition tls_content_set_bounds (offset len : Z) : M tls_content unit :=
  c ← gets id;
  let content_len := u64 (offset + len) in
  check (negb (content_len <? len));;
  check (negb (tc_data_len c <? content_len));;
  modify (tls_content_set_cbs (CBS_init (tc_data c) content_len));;
  on_cbs (CBS_skip offset).

(** The result and the octets stored in [buf]. *)
Definition tls_content_read_internal (n : Z) (peek : bool) : M tls_content (Z * list Z) :=
  c ← gets id;
  let n := if CBS_len (tc_cbs c) <? n then CBS_len (tc_cbs c) else n in
  octets ← read_bytes (CBS_data (tc_cbs c)) n;
  if peek then mret (n, octets)
  else
    ok ← try (on_cbs (CBS_skip n));
    match ok with
    | None => mret (-1, octets)
    | Some _ => mret (n, octets)
    end.

Definition tls_content_peek (n : Z) : M tls_content (Z * list Z) := tls_content_read_internal n true.
Definition tls_content_read (n : Z) : M tls_content (Z * list Z) := tls_content_read_internal n false.

(** ** A tls_buffer is a queue of octets *)

Definition pending (buf : tls_buffer) : list Z := zdrop (tb_offset buf) (ztake (tb_len buf) (tb_data buf)).

Definition buffer_ok (buf : tls_buffer) : Prop :=
  0 <= tb_offset buf <= tb_len buf /\ tb_len buf <= tb_capacity buf.

Inductive fifo_call : Type :=
  | Write (octets : list Z)
  | Read (n : Z).

Definition fifo_call_ok (c : fifo_call) : Prop :=
  match c with Write octets => zlen octets <= SIZE_MAX | Read n => 0 <= n end.

(** The calls as the buffer answers them: each result with the octets read. *)
Definition buffer_call (alloc_ok : Z -> bool) (c : fifo_call) : M tls_buffer (Z * list Z) :=
  match c with
  | Write octets => ret ← tls_buffer_write alloc_ok octets (zlen octets); mret (ret, [])
  | Read n => tls_buffer_read n
  end.

Fixpoint buffer_calls (alloc_ok : Z -> bool) (cs : list fifo_call) : M tls_buffer (list (Z * list Z)) :=
  match cs with
  | [] => mret []
  | c :: cs => r ← buffer_call alloc_ok c; rs ← buffer_calls alloc_ok cs; mret (r :: rs)
  end.

(** When a write may be refused: up to 4095 octets already read are kept. *)
Definition fifo_full (alloc_ok : Z -> bool) (limit : Z) (q octets : list Z) : Prop :=
  Z.min limit SIZE_MAX < 4095 + zlen q + zlen octets \/ exists c, alloc_ok c = false.

Inductive fifo_step (full : list Z -> list Z -> Prop) : list Z -> fifo_call -> Z * list Z -> list Z -> Prop :=
  | fifo_write q octets : fifo_step full q (Write octets) (zlen octets, []) (q ++ octets)
  | fifo_refused q octets : full q octets -> fifo_step full q (Write octets) (TLS_IO_FAILURE, []) q
  | fifo_read q n : q <> [] -> fifo_step full q (Read n) (Z.min n (zlen q), ztake n q) (zdrop n q)
  | fifo_empty n : fifo_step full [] (Read n) (TLS_IO_WANT_POLLIN, []) [].

Inductive fifo_run (full : list Z -> list Z -> Prop) : list Z -> list fifo_call -> list (Z * list Z) -> list Z -> Prop :=
  | fifo_done q : fifo_run full q [] [] q
  | fifo_next q c r q1 cs rs q2 :
      fifo_step full q c r q1 -> fifo_run full q1 cs rs q2 -> fifo_run full q (c :: cs) (r :: rs) q2.

(** What was accepted and what was delivered in a run. *)
Fixpoint accepted (cs : list fifo_call) (rs : list (Z * list Z)) : list Z :=
  match cs, rs with
  | Write octets :: cs, (ret, _) :: rs => (if ret =? TLS_IO_FAILURE then [] else octets) ++ accepted cs rs
  | Read _ :: cs, _ :: rs => accepted cs rs
  | _, _ => []
  end.
Definition delivered (rs : list (Z * list Z)) : list Z := concat (map snd rs).

(** The shape of a valid buffer: octets read, octets waiting, free room. *)
Definition tb_of (limit : Z) (p q t : list Z) : tls_buffer :=
  mkTlsBuffer limit (p ++ q ++ t) (zlen p + zlen q) (zlen p).

Lemma buffer_cases buf : buffer_ok buf -> exists p q t, buf = tb_of (tb_capacity_limit buf) p q t.
Proof.
  destruct buf as [limit data len off]. unfold buffer_ok, tb_capacity. cbn. intros [Ho Hl].
  destruct (split_at data len) as (pq & t & -> & Hpq & _); [lia|].
  destruct (split_at pq off) as (p & q & -> & Hp & _); [lia|].
  rewrite zlen_app in Hpq. exists p, q, t. unfold tb_of. rewrite <- app_assoc. f_equal; lia.
Qed.

Lemma tb_of_ok limit p q t : buffer_ok (tb_of limit p q t).
Proof. unfold buffer_ok, tb_capacity, tb_of. cbn. zlen_solve. Qed.

Lemma pending_tb_of limit p q t : pending (tb_of limit p q t) = q.
Proof.
  unfold pending, tb_of. cbn. rewrite app_assoc, ztake_app_exact by (rewrite zlen_app; lia).
  by apply zdrop_app_exact.
Qed.

Lemma wp_read_bytes {S} data n (s : S) (Q : list Z -> S -> Prop) E :
  n <= zlen data -> Q (ztake n data) s -> wp (read_bytes data n) s Q E.
Proof. intros Hn HQ. apply wp_bind, wp_must; [by apply Z.leb_le|]. by apply wp_ret. Qed.

Lemma wp_tls_buffer_read n limit p q t :
  0 <= n ->
  wp (tls_buffer_read n) (tb_of limit p q t)
    (fun r buf' => exists p' q', buf' = tb_of limit p' q' t /\
       if decide (q = []) then r = (TLS_IO_WANT_POLLIN, []) /\ q' = []
       else r = (Z.min n (zlen q), ztake n q) /\ q' = zdrop n q)
    (fun _ => False).
Proof.
  intros Hn. unfold tls_buffer_read. apply wp_bind, wp_gets. cbn [id tb_of tb_len tb_offset tb_data].
  pose proof (zlen_nonneg q). rewrite (proj2 (Z.ltb_ge _ _)) by lia.
  destruct (decide (q = [])) as [->|Hq].
  { change (zlen []) with 0. rewrite (proj2 (Z.eqb_eq _ _)) by lia. apply wp_ret. by exists p, []. }
  assert (zlen q <> 0) by (intros E%zlen_nil_inv; done).
  rewrite (proj2 (Z.eqb_neq _ _)) by lia. replace (zlen p + zlen q - zlen p) with (zlen q) by lia.
  set (k := if zlen q <? n then zlen q else n).
  assert (Hk : k = Z.min n (zlen q)) by (unfold k; destruct (Z.ltb_spec (zlen q) n); lia).
  destruct (split_at q k) as (q1 & q2 & Eq & Hq1 & _); [lia|].
  rewrite zdrop_app_exact by done. apply wp_bind, wp_read_bytes; [rewrite zlen_app; pose proof (zlen_nonneg t); lia|].
  apply wp_bind, wp_modify, wp_ret. exists (p ++ q1), q2. split.
  - subst q. unfold tb_of. rewrite !zlen_app, <- !app_assoc. f_equal; lia.
  - rewrite <- Hk. clearbody k. subst q. rewrite <- app_assoc, ztake_app_exact by done. rewrite zlen_app in Hk. pose proof (zlen_nonneg q2). destruct (Z.leb_spec n k).
    + rewrite ztake_app_exact, zdrop_app_exact by lia. done.
    + assert (q2 = []) as -> by (apply zlen_nil_inv; lia). rewrite app_nil_r in *.
      rewrite ztake_all by lia. split; [done|]. symmetry. rewrite <- (app_nil_r q1). rewrite zdrop_app_ge by lia. by unfold zdrop; destruct (Z.to_nat _).
Qed.

Lemma zdrop_all {A} n (l : list A) : zlen l <= n -> zdrop n l = [].
Proof. unfold zlen, zdrop. intros. apply drop_ge. lia. Qed.

Section fifo.
Context (alloc_ok : Z -> bool).

(** Growing keeps the octets, adds free room. *)
Lemma wp_tls_buffer_grow capacity limit p q t :
  0 <= capacity ->
  wp (tls_buffer_grow alloc_ok capacity) (tb_of limit p q t)
    (fun _ buf' => exists t', buf' = tb_of limit p q t' /\ capacity <= zlen p + zlen q + zlen t')
    (fun buf' => buf' = tb_of limit p q t /\ (limit < capacity \/ alloc_ok capacity = false)).
Proof.
  intros Hc. unfold tls_buffer_grow. apply wp_bind, wp_gets. cbn [id]. unfold tb_capacity. cbn [tb_of tb_data].
  rewrite !zlen_app. destruct (Z.leb_spec capacity (zlen p + (zlen q + zlen t))) as [Hle|Hgt].
  { apply wp_ret. exists t. split; [done|lia]. }
  unfold tls_buffer_resize. apply wp_bind, wp_gets. cbn [id]. unfold tb_capacity.
  cbn [tb_of tb_data tb_capacity_limit tb_len tb_offset]. rewrite !zlen_app.
  rewrite (proj2 (Z.eqb_neq _ _)) by lia.
  apply wp_bind, wp_check; intros H1; [|split; [done|left; destruct (Z.ltb_spec limit capacity); [done|done]]].
  apply wp_bind, wp_check; intros H2; [|split; [done|by right]].
  apply wp_modify. pose proof (zlen_nonneg p). pose proof (zlen_nonneg q). pose proof (zlen_nonneg t).
  exists (t ++ zrep (capacity - (zlen p + (zlen q + zlen t))) 0).
  rewrite zlen_app, zlen_rep by lia. split; [|lia]. unfold tb_of.
  rewrite ztake_all by (rewrite !zlen_app; lia). rewrite <- !app_assoc.
  rewrite (proj2 (Z.ltb_ge _ (zlen p + zlen q))) by lia. by rewrite (proj2 (Z.ltb_ge _ _)) by lia.
Qed.

Lemma wp_tls_buffer_write octets limit p q t :
  zlen octets <= SIZE_MAX ->
  wp (tls_buffer_write alloc_ok octets (zlen octets)) (tb_of limit p q t)
    (fun ret buf' => exists p' q' t', buf' = tb_of limit p' q' t' /\
       (ret = zlen octets /\ q' = q ++ octets \/
        ret = TLS_IO_FAILURE /\ q' = q /\ fifo_full alloc_ok limit q octets))
    (fun _ => False).
Proof.
  intros Hn. unfold tls_buffer_write. apply wp_bind, wp_gets. cbn [id tb_of tb_len tb_offset tb_data].
  pose proof (zlen_nonneg q). rewrite (proj2 (Z.ltb_ge _ _)) by lia.
  pose proof (zlen_nonneg octets) as Hw. pose proof (zlen_nonneg p). pose proof (zlen_nonneg t).
  (* the compaction *)
  set (rest := fun buf => wp (
    if SIZE_MAX - zlen octets <? tb_len buf then mret TLS_IO_FAILURE
    else ok ← try (tls_buffer_grow alloc_ok (tb_len buf + zlen octets));
         match ok with
         | None => mret TLS_IO_FAILURE
         | Some _ =>
             buf ← gets id;
             octets' ← read_bytes octets (zlen octets);
             data ← valid (zwrite (tb_data buf) (tb_len buf) octets');
             modify (fun buf => mkTlsBuffer (tb_capacity_limit buf) data (tb_len buf + zlen octets) (tb_offset buf));;
             mret (zlen octets)
         end) buf
    (fun ret buf' => exists p' q' t', buf' = tb_of limit p' q' t' /\
       (ret = zlen octets /\ q' = q ++ octets \/
        ret = TLS_IO_FAILURE /\ q' = q /\ fifo_full alloc_ok limit q octets)) (fun _ => False)).
  assert (Hrest : forall p1 t1, zlen p1 <= 4095 -> rest (tb_of limit p1 q t1)).
  { intros p1 t1 Hp1. unfold rest. cbn [tb_of tb_len].
    destruct (Z.ltb_spec (SIZE_MAX - zlen octets) (zlen p1 + zlen q)).
    { apply wp_ret. exists p1, q, t1. split; [done|right]. split; [done|]. split; [done|left; lia]. }
    apply wp_bind. pose proof (zlen_nonneg p1).
    pose proof (wp_tls_buffer_grow (zlen p1 + zlen q + zlen octets) limit p1 q t1 ltac:(lia)) as Hg.
    unfold try, wp at 1. unfold wp in Hg.
    destruct (tls_buffer_grow alloc_ok (zlen p1 + zlen q + zlen octets) (tb_of limit p1 q t1)) as [[] b|b|]; [| |done].
    - destruct Hg as (t2 & -> & Hroom). apply wp_bind, wp_gets. cbn [id tb_of tb_data tb_len].
      apply wp_bind, wp_read_bytes; [lia|]. rewrite ztake_all by lia.
      destruct (split_at t2 (zlen octets)) as (t3 & t4 & -> & Ht3 & _); [lia|].
      apply wp_bind. eapply wp_valid.
      { rewrite app_assoc, <- (zlen_app p1 q). by apply zwrite_mid. }
      apply wp_bind, wp_modify, wp_ret. exists p1, (q ++ octets), t4. split; [|by left].
      unfold tb_of. cbn. rewrite !zlen_app, <- !app_assoc. f_equal. lia.
    - destruct Hg as [-> Hwhy]. apply wp_ret. exists p1, q, t1. split; [done|right]. split; [done|]. split; [done|].
      destruct Hwhy as [?|?]; [left; lia|right; eauto]. }
  apply wp_bind. apply wp_conseq with
    (Q' := fun _ b => exists p1 t1, b = tb_of limit p1 q t1) (E' := fun _ => False); [| |done].
  { destruct (Z.eqb_spec (zlen p) (zlen p + zlen q)) as [E|E].
    - apply wp_modify. assert (q = []) as -> by (apply zlen_nil_inv; lia). by exists [], (p ++ t).
    - apply wp_ret. by exists p, t. }
  cbn beta. intros _ b (p1 & t1 & ->). apply wp_bind, wp_gets. cbn [id tb_of tb_len tb_offset tb_data].
  apply wp_bind. apply wp_conseq with
    (Q' := fun _ b => exists p2 t2, b = tb_of limit p2 q t2 /\ zlen p2 <= 4095) (E' := fun _ => False); [| |done].
  { destruct (Z.leb_spec 4096 (zlen p1)) as [Hbig|Hsmall]; [|apply wp_ret; exists p1, t1; split; [done|lia]].
    replace (zlen p1 + zlen q - zlen p1) with (zlen q) by lia. rewrite zdrop_app_exact by done.
    pose proof (zlen_nonneg t1). apply wp_bind, wp_read_bytes; [rewrite zlen_app; lia|].
    rewrite ztake_app_exact by done.
    destruct (split_at (p1 ++ q ++ t1) (zlen q)) as (l2 & l3 & E & Hl2 & _); [rewrite !zlen_app; lia|].
    apply wp_bind. eapply wp_valid; [rewrite E; exact (zwrite_mid [] l2 l3 q (eq_sym Hl2))|].
    apply wp_modify. exists [], l3. split; [|done]. unfold tb_of. change (zlen []) with 0. cbn. f_equal; lia. }
  cbn beta. intros _ b (p2 & t2 & -> & Hp2). apply wp_bind, wp_gets. exact (Hrest p2 t2 Hp2).
Qed.

Lemma buffer_call_step c limit p q t :
  fifo_call_ok c ->
  wp (buffer_call alloc_ok c) (tb_of limit p q t)
    (fun r buf' => exists p' q' t', buf' = tb_of limit p' q' t' /\ fifo_step (fifo_full alloc_ok limit) q c r q')
    (fun _ => False).
Proof.
  destruct c as [octets|n]; cbn [buffer_call fifo_call_ok]; intros Hok.
  - apply wp_bind. eapply wp_conseq; [by apply wp_tls_buffer_write| |done]. cbn beta.
    intros ret b (p' & q' & t' & -> & Hr). apply wp_ret. exists p', q', t'. split; [done|].
    destruct Hr as [[-> ->]|(-> & -> & Hf)]; by constructor.
  - eapply wp_conseq; [by apply wp_tls_buffer_read| |done]. cbn beta.
    intros r b (p' & q' & -> & Hr). exists p', q', t. split; [done|].
    destruct (decide (q = [])) as [->|Hq]; destruct Hr as [-> ->]; by constructor.
Qed.

(** What was accepted comes out, in order, once. *)
Lemma fifo_run_conserves full q cs rs q' :
  fifo_run full q cs rs q' -> q ++ accepted cs rs = delivered rs ++ q'.
Proof.
  induction 1 as [q|q c r q1 cs rs q2 Hs Hr IH]; [by rewrite app_nil_r|].
  unfold delivered in *. destruct Hs as [q octets|q octets Hf|q n Hq|n]; cbn [accepted map concat snd].
  - pose proof (zlen_nonneg octets). rewrite (proj2 (Z.eqb_neq _ _)) by (unfold TLS_IO_FAILURE; lia).
    by rewrite app_assoc.
  - by rewrite Z.eqb_refl.
  - by rewrite <- app_assoc, <- IH, app_assoc, ztake_zdrop.
  - done.
Qed.

(** C21. A tls_buffer is a bounded FIFO queue: any sequence of writes and
    reads on a valid buffer runs without undefined behaviour and gives the results
    of a queue, a write being refused only when the queue is near the capacity limit
    or memory is; so the octets read are, in order and each once, those that
    were accepted, through every compaction and reallocation. *)
Theorem tls_buffer_is_fifo buf cs :
  buffer_ok buf -> Forall fifo_call_ok cs ->
  exists rs buf', buffer_calls alloc_ok cs buf = Ret rs buf' /\ buffer_ok buf' /\
    fifo_run (fifo_full alloc_ok (tb_capacity_limit buf)) (pending buf) cs rs (pending buf') /\
    pending buf ++ accepted cs rs = delivered rs ++ pending buf'.
Proof.
  intros Hok Hcs. enough (exists rs buf', buffer_calls alloc_ok cs buf = Ret rs buf' /\ buffer_ok buf' /\
    fifo_run (fifo_full alloc_ok (tb_capacity_limit buf)) (pending buf) cs rs (pending buf')) as (rs & b & ? & ? & Hrun).
  { exists rs, b. split_and!; try done. eapply fifo_run_conserves. exact Hrun. }
  apply buffer_cases in Hok as (p & q & t & ->). cbn [tb_of tb_capacity_limit].
  set (limit := tb_capacity_limit buf). clearbody limit. rewrite pending_tb_of.
  revert p q t. induction Hcs as [|c cs Hc Hcs IH]; intros p q t; cbn [buffer_calls].
  - exists [], (tb_of limit p q t). split_and!; [done|apply tb_of_ok|]. rewrite pending_tb_of. constructor.
  - destruct (wp_total _ _ _ (buffer_call_step c limit p q t Hc)) as (r & b & E & p' & q' & t' & -> & Hs).
    destruct (IH p' q' t') as (rs & b & E' & Hok & Hrun).
    exists (r :: rs), b. split_and!; [|done|by econstructor].
    mstep. rewrite E. cbn. by rewrite E'.
Qed.
End fifo.

(** ** Extending a buffer from a reader *)

(** What a read callback promises: the octets it will still deliver, in order,
    and how often it will make its caller wait before it delivers them. *)
Class Reader {C : Type} (read_cb : tls_read_cb C) : Type := {
  incoming : C -> list Z;
  stalls : C -> nat;
  reader_law : forall n c ret octets c', 0 < n -> read_cb n c = (ret, octets, c') ->
    (stalls c' <= stalls c)%nat /\
    (0 < ret <= n /\ zlen octets = ret /\ incoming c = octets ++ incoming c' \/
     ret <= 0 /\ zlen octets <= n /\ incoming c' = incoming c /\
       (incoming c = [] \/ (stalls c' < stalls c)%nat /\ ret = TLS_IO_WANT_POLLIN));
}.

Section extend.
Context (alloc_ok : Z -> bool) {C : Type} (read_cb : tls_read_cb C) `{!Reader read_cb}.

(** The state after some octets [got] were appended to [q]. *)
Definition extended (limit : Z) (p q : list Z) (c : C) (got : list Z) (st : tls_buffer * C) : Prop :=
  (exists t, st.1 = tb_of limit p (q ++ got) t) /\ incoming c = got ++ incoming st.2 /\
  (stalls st.2 <= stalls c)%nat.

(** Why a buffer was not extended all the way. *)
Definition not_yet (ret : Z) (c c' : C) : Prop :=
  incoming c' = [] \/ (stalls c' < stalls c)%nat /\ ret = TLS_IO_WANT_POLLIN.

Lemma wp_extend_loop fuel : forall limit p q t c,
  0 < zlen t -> zlen t <= Z.of_nat fuel ->
  wp (extend_loop read_cb fuel) (tb_of limit p q t, c)
    (fun ret st => exists got, extended limit p q c got st /\ zlen got <= zlen t /\
       (zlen got = zlen t /\ ret = zlen p + zlen q + zlen t \/
        zlen got < zlen t /\ ret <= 0 /\ not_yet ret c st.2))
    (fun _ => False).
Proof.
  induction fuel as [|fuel IH]; intros limit p q t c Ht Hf; [lia|]. cbn [extend_loop].
  apply wp_bind, wp_gets. cbn [id]. unfold tb_capacity. cbn [tb_of tb_data tb_len tb_offset tb_capacity_limit].
  rewrite !zlen_app. replace (zlen p + (zlen q + zlen t) - (zlen p + zlen q)) with (zlen t) by lia.
  destruct (read_cb (zlen t) c) as [[ret octets] c'] eqn:E.
  pose proof (reader_law _ _ _ _ _ Ht E) as [Hst Hlaw].
  assert (Hfit : zlen octets <= zlen t) by (destruct Hlaw as [(?&?&_)|(?&?&_)]; lia).
  apply wp_bind, wp_must; [by apply Z.leb_le|].
  destruct (split_at t (zlen octets)) as (t1 & t2 & -> & Ht1 & _); [pose proof (zlen_nonneg octets); lia|].
  rewrite zlen_app in *. pose proof (zlen_nonneg t2).
  apply wp_bind. eapply wp_valid.
  { rewrite app_assoc, <- (zlen_app p q). by apply zwrite_mid. }
  apply wp_bind, wp_modify.
  destruct Hlaw as [(Hret & Hlen & Hin)|(Hret & _ & Hin & Hwhy)].
  - rewrite (proj2 (Z.leb_gt ret 0)), (proj2 (Z.ltb_ge _ _)) by lia. cbv zeta.
    apply wp_bind, wp_modify. subst ret. rewrite <- !app_assoc.
    assert (Eb : mkTlsBuffer limit (p ++ q ++ octets ++ t2) (zlen p + zlen q + zlen octets) (zlen p) =
                 tb_of limit p (q ++ octets) t2)
      by (unfold tb_of; rewrite zlen_app, <- app_assoc; f_equal; lia).
    rewrite Eb. destruct (Z.eqb_spec (zlen p + zlen q + zlen octets) (zlen p + (zlen q + (zlen t1 + zlen t2)))) as [E2|E2].
    + apply wp_ret. exists octets. split; [|split; [lia|left; split; lia]]. split_and!; [by exists t2|done|done].
    + eapply wp_conseq; [apply IH; lia| |done]. cbn beta.
      intros ret st (got & ((t' & Hb) & Hin' & Hst') & Hle & Hr). exists (octets ++ got).
      rewrite zlen_app in *. split.
      * split_and!; [exists t'; by rewrite app_assoc|by rewrite Hin, Hin', app_assoc|lia].
      * split; [lia|]. destruct Hr as [[? ->]|(? & ? & Hny)]; [left; lia|right; split; [lia|split; [lia|]]].
        unfold not_yet in *. destruct Hny as [?|[??]]; [by left|right; split; [lia|done]].
  - rewrite (proj2 (Z.leb_le ret 0)) by lia. apply wp_ret. exists [].
    change (zlen []) with 0. split.
    + split_and!; [exists (octets ++ t2); cbn; unfold tb_of; by rewrite app_nil_r, <- app_assoc|by cbn; rewrite Hin|done].
    + split; [lia|]. right. split; [lia|]. split; [lia|]. unfold not_yet. cbn. rewrite Hin. tauto.
Qed.

(** Making room for the octets up to [len]. *)
Lemma wp_resize_room len limit p q t (c : C) :
  zlen p + zlen q < len ->
  wp (try (on_fst (tls_buffer_resize alloc_ok len))) (tb_of limit p q t, c)
    (fun ok st => match ok with
       | Some _ => exists t', st = (tb_of limit p q t', c) /\ zlen p + zlen q + zlen t' = len /\
           (Forall is_byte t -> Forall is_byte t')
       | None => st = (tb_of limit p q t, c) /\ (limit < len \/ alloc_ok len = false) end)
    (fun _ => False).
Proof using.
  intros Hlt. pose proof (zlen_nonneg p). pose proof (zlen_nonneg q). pose proof (zlen_nonneg t).
  unfold wp, try, on_fst. cbn [fst]. unfold tls_buffer_resize, tb_capacity. mstep. cbn [id tb_of tb_data tb_capacity_limit].
  rewrite !zlen_app. destruct (Z.eqb_spec (zlen p + (zlen q + zlen t)) len) as [E2|E2]; [exists t; split_and!; [done|lia|done]|].
  destruct (Z.ltb_spec limit len); cbn [negb]; [by split; [|left]|].
  destruct (alloc_ok len); [|by split; [|right]]. cbn [tb_of tb_len tb_offset tb_data].
  destruct (Z.leb_spec (zlen p + (zlen q + zlen t)) len) as [Hup|Hdown].
  - exists (t ++ zrep (len - (zlen p + (zlen q + zlen t))) 0). rewrite zlen_app, zlen_rep by lia.
    split; [|split; [lia|]]; [|intros Ht; apply Forall_app; split; [done|by apply Forall_replicate]].
    unfold tb_of. rewrite ztake_all by (rewrite !zlen_app; lia). rewrite <- !app_assoc.
    rewrite (proj2 (Z.ltb_ge len _)) by lia. by rewrite (proj2 (Z.ltb_ge _ (zlen p))) by lia.
  - destruct (split_at t (len - zlen p - zlen q)) as (t1 & t2 & -> & Ht1 & _); [lia|]. exists t1. split; [|split; [lia|by intros [? _]%Forall_app]].
    rewrite zlen_app in *. unfold tb_of.
    rewrite (proj2 (Z.ltb_ge len _)) by lia. rewrite (proj2 (Z.ltb_ge _ (zlen p))) by lia.
    replace (len - (zlen p + (zlen q + (zlen t1 + zlen t2)))) with (- zlen t2) by lia.
    rewrite !app_assoc.
    rewrite ztake_app_exact by (rewrite !zlen_app; lia). unfold zrep. replace (Z.to_nat (- zlen t2)) with 0%nat by lia.
    by rewrite app_nil_r.
Qed.

Lemma wp_tls_buffer_extend len limit p q t c :
  0 <= len -> zlen p + zlen q <= len ->
  wp (tls_buffer_extend alloc_ok read_cb len) (tb_of limit p q t, c)
    (fun ret st => exists got, extended limit p q c got st /\
       (zlen p + zlen q + zlen got = len /\ ret = len \/
        zlen p + zlen q + zlen got < len /\ ret <= 0 /\
        (not_yet ret c st.2 \/ limit < len \/ alloc_ok len = false)))
    (fun _ => False).
Proof.
  intros H0 Hle. unfold tls_buffer_extend. apply wp_bind, wp_gets. cbn [id tb_of tb_len].
  destruct (Z.eqb_spec len (zlen p + zlen q)) as [E|E].
  { apply wp_ret. exists []. change (zlen []) with 0. split; [|left; lia].
    split_and!; [exists t; by rewrite app_nil_r|done|done]. }
  rewrite (proj2 (Z.ltb_ge _ _)) by lia. apply wp_bind.
  pose proof (zlen_nonneg p). pose proof (zlen_nonneg q). pose proof (zlen_nonneg t).
  eapply wp_conseq; [apply wp_resize_room; lia| |done].
  cbn beta. intros [[]|] st.
  - intros (t' & -> & Hlen & _). eapply wp_conseq; [apply (wp_extend_loop (Z.to_nat len)); lia| |done].
    cbn beta. intros ret st' (got & Hx & Hle' & Hr). exists got. split; [done|].
    destruct Hr as [[? ->]|(? & ? & ?)]; [left; lia|right]. split; [lia|]. split; [done|by left].
  - intros [-> Hwhy]. apply wp_ret. exists []. change (zlen []) with 0. split; [|right; unfold TLS_IO_FAILURE; split; [lia|split; [lia|tauto]]].
    split_and!; [exists t; by rewrite app_nil_r|done|done].
Qed.
End extend.

(** ** Record content stays inside the record *)

Definition content_ok (c : tls_content) : Prop :=
  Forall is_byte (tc_data c) /\ tc_data_len c = zlen (tc_data c) /\ zlen (tc_data c) < 2 ^ 64 /\ CBS_ok (tc_cbs c).

Lemma CBS_skip_eq n cbs :
  CBS_ok cbs -> 0 <= n -> CBS_skip n cbs = if n <=? cbs_len cbs then Ret tt (cbs_advance n cbs) else Fail cbs.
Proof. intros Hok Hn. unfold CBS_skip. mstep. rewrite cbs_get_spec by done. by destruct (n <=? cbs_len cbs). Qed.

(** tls_content_set_bounds accepts exactly the windows that lie in the
    record, also when [offset + len] overflows; after that a read delivers at most
    the octets of the window, in order, and leaves the rest of it to be read. *)
Theorem tls_content_bounds_respected c offset len n :
  content_ok c -> 0 <= offset < 2 ^ 64 -> 0 <= len < 2 ^ 64 -> 0 <= n ->
  match (tls_content_set_bounds offset len;; tls_content_read n) c with
  | Ret (ret, octets) c' =>
      offset + len <= tc_data_len c /\ ret = Z.min n len /\ content_ok c' /\
      octets ++ contents (tc_cbs c') = ztake len (zdrop offset (tc_data c)) /\ zlen octets = ret
  | Fail c' => tc_data_len c < offset + len /\ tc_data c' = tc_data c
  | UB => False
  end.
Proof.
  intros (Hb & Hl & Hw & Hcbs) Ho Hlen Hn. unfold tls_content_set_bounds. mstep. cbn [id].
  assert (Hsum : u64 (offset + len) = offset + len /\ offset + len < 2 ^ 64 \/
                 u64 (offset + len) = offset + len - 2 ^ 64 /\ 2 ^ 64 <= offset + len).
  { unfold u64. destruct (Z.ltb_spec (offset + len) (2 ^ 64)); [left; by rewrite Z.mod_small by lia|right].
    split; [|done]. symmetry. apply Z.mod_unique_pos with 1; lia. }
  destruct (Z.ltb_spec (u64 (offset + len)) len) as [H1|H1]; cbn [negb]; [split; [lia|done]|].
  destruct Hsum as [[-> Hs]|[E _]]; [|lia].
  destruct (Z.ltb_spec (tc_data_len c) (offset + len)) as [H2|H2]; cbn [negb]; [by split; [lia|]|].
  unfold on_cbs. cbn [tls_content_set_cbs tc_cbs].
  assert (Hok1 : CBS_ok (CBS_init (tc_data c) (offset + len))) by (apply CBS_init_ok; auto; lia).
  rewrite CBS_skip_eq by (done || lia). cbn [CBS_init cbs_len].
  rewrite (proj2 (Z.leb_le _ _)) by lia. unfold tls_content_set_cbs. cbn [tc_type tc_epoch tc_data tc_data_len].
  set (cbs := cbs_advance offset (CBS_init (tc_data c) (offset + len))).
  assert (Hok2 : CBS_ok cbs) by (apply cbs_advance_ok; [done|cbn; lia]).
  assert (Hcont : contents cbs = ztake len (zdrop offset (tc_data c))).
  { unfold contents, cbs. cbn. f_equal. lia. }
  assert (Hcl : cbs_len cbs = len) by (cbn; lia).
  unfold tls_content_read, tls_content_read_internal. mstep. cbn [id tc_cbs]. unfold CBS_len, CBS_data.
  rewrite Hcl. set (k := if len <? n then len else n).
  assert (Hk : k = Z.min n len) by (unfold k; destruct (Z.ltb_spec len n); lia).
  unfold read_bytes. mstep. pose proof Hok2 as (Hb2 & Hl2 & Hd2 & Hi2). rewrite (proj2 (Z.leb_le _ _)) by lia.
  unfold on_cbs. cbn [tc_cbs]. rewrite CBS_skip_eq by (done || lia). rewrite Hcl, (proj2 (Z.leb_le _ _)) by lia.
  split; [lia|]. split; [done|]. split.
  { split_and!; cbn [tc_data tc_data_len tc_cbs tls_content_set_cbs]; try done. apply cbs_advance_ok; [done|lia]. }
  cbn [tc_cbs tls_content_set_cbs]. rewrite contents_advance by lia. rewrite Hcont.
  split; [|rewrite zlen_ztake; lia]. rewrite <- (ztake_ztake k len) by lia. apply ztake_zdrop.
Qed.

(** ** Concrete runs *)

Definition sample_buffer : tls_buffer := mkTlsBuffer 16 [7; 8; 9] 3 1.

Lemma tls_buffer_is_fifo_witness :
  buffer_calls (fun _ => true) [Read 1; Write [1; 2; 3]; Read 9; Read 9] sample_buffer =
    Ret [(1, [8]); (3, []); (4, [9; 1; 2; 3]); (TLS_IO_WANT_POLLIN, [])] (mkTlsBuffer 16 [7; 8; 9; 1; 2; 3] 6 6) /\
  exists rs buf', buffer_calls (fun _ => true) [Read 1; Write [1; 2; 3]; Read 9; Read 9] sample_buffer = Ret rs buf' /\
    buffer_ok buf' /\
    fifo_run (fifo_full (fun _ => true) 16) [8; 9] [Read 1; Write [1; 2; 3]; Read 9; Read 9] rs (pending buf') /\
    [8; 9] ++ accepted [Read 1; Write [1; 2; 3]; Read 9; Read 9] rs = delivered rs ++ pending buf'.
Proof.
  split; [reflexivity|].
  apply (tls_buffer_is_fifo (fun _ => true) sample_buffer [Read 1; Write [1; 2; 3]; Read 9; Read 9]).
  - by unfold buffer_ok.
  - repeat (apply Forall_cons; split; [done|]). constructor.
Defined.

Lemma tls_content_bounds_respected_witness :
  content_ok (mkContent 23 0 [1; 2; 3; 4; 5] 5 (mkCBS [] 0 0)) /\
  (tls_content_set_bounds 1 3;; tls_content_read 2) (mkContent 23 0 [1; 2; 3; 4; 5] 5 (mkCBS [] 0 0)) =
    Ret (2, [2; 3]) (mkContent 23 0 [1; 2; 3; 4; 5] 5 (mkCBS [4; 5] 4 1)) /\
  1 + 3 <= 5.
Proof.
  assert (Hok : content_ok (mkContent 23 0 [1; 2; 3; 4; 5] 5 (mkCBS [] 0 0))).
  { split; [bytes_tac|]. split; [done|]. split; [done|]. by split; [constructor|]. }
  split; [exact Hok|]. split; [reflexivity|].
  exact (proj1 (tls_content_bounds_respected (mkContent 23 0 [1; 2; 3; 4; 5] 5 (mkCBS [] 0 0)) 1 3 2 Hok
    ltac:(lia) ltac:(lia) ltac:(lia))).
Defined.
