(* ===== verification/Tls13Msg.v ===== *)
(** * TLS 1.3 handshake messages: libssl/tls13_handshake_msg.c

    A message is built with a CBB and sent, or reassembled from what the record
    layer delivers and then parsed with a CBS.  The record layer is known by
    its interface only: the callbacks [read_cb] and [write_cb], with the
    classes [Reader] and [Writer] for what they promise.  The CBB of a message
    is the object at the address [hm_cbb]. *)

From S2P Require Import Prelude Cbs Cbb Builder TlsBuffer.
Open Scope Z_scope.

Definition TLS13_HANDSHAKE_MSG_HEADER_LEN : Z := 4.
Definition TLS13_HANDSHAKE_MSG_INITIAL_LEN : Z := 256.
Definition TLS13_HANDSHAKE_MSG_MAX_LEN : Z := 256 * 1024.

Definition TLS13_IO_SUCCESS : Z := 1.
Definition TLS13_IO_FAILURE : Z := -1.

Record tls13_handshake_msg : Type := mkMsg {
  hm_type : Z;
  hm_len : Z;
  hm_data : option (list Z);
  hm_data_len : Z;
  hm_buf : tls_buffer;
  hm_cbs : CBS;
  hm_cbb : ptr;
}.

Definition null_CBS : CBS := mkCBS [] 0 0.

(** Run [m] on the second component of the state. *)
Definition on_snd {S T A} (m : M T A) : M (S * T) A := fun st =>
  match m st.2 with
  | Ret a t => Ret a (st.1, t)
  | Fail t => Fail (st.1, t)
  | UB => UB
  end.

(** An operation on [msg->buf] and the record layer. *)
Definition on_buf {C A} (m : M (tls_buffer * C) A) : M (tls13_handshake_msg * C) A := fun st =>
  let '(msg, c) := st in
  let set_buf buf := mkMsg (hm_type msg) (hm_len msg) (hm_data msg) (hm_data_len msg) buf (hm_cbs msg) (hm_cbb msg) in
  match m (hm_buf msg, c) with
  | Ret a (buf, c') => Ret a (set_buf buf, c')
  | Fail (buf, c') => Fail (set_buf buf, c')
  | UB => UB
  end.

Section handshake_msg.
Context (malloc_ok : Z -> bool).

(** The new message has its CBB at [cbb]. *)
Definition tls13_handshake_msg_new (cbb : ptr) : M heap tls13_handshake_msg :=
  check (malloc_ok 88);;
  store_cbb cbb zeroed_CBB;;
  match tls_buffer_new malloc_ok 0 with
  | Some buf => mret (mkMsg 0 0 None 0 buf null_CBS cbb)
  | None => fail
  end.

(** The CBB object goes with the message. *)
Definition tls13_handshake_msg_free (msg : tls13_handshake_msg) : M heap unit :=
  CBB_cleanup (hm_cbb msg);;
  modify (fun h => mkHeap (bases h) (delete (hm_cbb msg) (cbbs h))).

(** A null pointer has no octets. *)
Definition tls13_handshake_msg_data (msg : tls13_handshake_msg) : CBS :=
  CBS_init (default [] (hm_data msg)) (hm_data_len msg).

Definition tls13_handshake_msg_type (msg : tls13_handshake_msg) : Z := hm_type msg.

Definition tls13_handshake_msg_content (msg : tls13_handshake_msg) : outcome CBS unit :=
  CBS_skip TLS13_HANDSHAKE_MSG_HEADER_LEN (tls13_handshake_msg_data msg).

Definition tls13_handshake_msg_start (body : ptr) (msg_type : Z) : M (heap * tls13_handshake_msg) unit :=
  msg ← gets snd;
  on_fst (CBB_init malloc_ok (hm_cbb msg) TLS13_HANDSHAKE_MSG_INITIAL_LEN);;
  on_fst (CBB_add_u8 malloc_ok (hm_cbb msg) msg_type);;
  on_fst (CBB_add_u24_length_prefixed malloc_ok (hm_cbb msg) body).

Definition tls13_handshake_msg_finish : M (heap * tls13_handshake_msg) unit :=
  msg ← gets snd;
  '(data, data_len) ← on_fst (CBB_finish malloc_ok (hm_cbb msg) (Some (bool_decide (hm_data msg <> None))) true);
  modify (fun '(h, msg) => (h, mkMsg (hm_type msg) (hm_len msg) (Some data) data_len (hm_buf msg)
                               (CBS_init data data_len) (hm_cbb msg))).

(** *** Receiving *)

Section recv.
Context {C : Type} (read_cb : tls_read_cb C).

(** The header: [None] to go on, [Some ret] to return. *)
Definition msg_recv_header : M (tls13_handshake_msg * C) (option Z) :=
  msg ← gets fst;
  if hm_type msg =? 0 then
    ret ← on_buf (tls_buffer_extend malloc_ok read_cb TLS13_HANDSHAKE_MSG_HEADER_LEN);
    if ret <=? 0 then mret (Some ret)
    else
      msg ← gets fst;
      match tls_buffer_data (hm_buf msg) with
      | None => mret (Some TLS13_IO_FAILURE)
      | Some cbs =>
          match (t ← CBS_get_u8; l ← CBS_get_u24; mret (t, l)) cbs with
          | Ret (msg_type, msg_len) _ =>
              if TLS13_HANDSHAKE_MSG_MAX_LEN <? msg_len then mret (Some TLS13_IO_FAILURE)
              else
                modify (fun '(msg, c) => (mkMsg msg_type msg_len (hm_data msg) (hm_data_len msg) (hm_buf msg)
                                            (hm_cbs msg) (hm_cbb msg), c));;
                mret None
          | Fail _ => mret (Some TLS13_IO_FAILURE)
          | UB => ub
          end
      end
  else mret None.

Definition tls13_handshake_msg_recv : M (tls13_handshake_msg * C) Z :=
  msg ← gets fst;
  match hm_data msg with
  | Some _ => mret TLS13_IO_FAILURE
  | None =>
      header ← msg_recv_header;
      match header with
      | Some ret => mret ret
      | None =>
          msg ← gets fst;
          ret ← on_buf (tls_buffer_extend malloc_ok read_cb (TLS13_HANDSHAKE_MSG_HEADER_LEN + hm_len msg));
          if ret <=? 0 then mret ret
          else
            '(data, data_len) ← on_buf (on_fst tls_buffer_finish);
            modify (fun '(msg, c) => (mkMsg (hm_type msg) (hm_len msg) (Some data) data_len (hm_buf msg)
                                        (hm_cbs msg) (hm_cbb msg), c));;
            mret TLS13_IO_SUCCESS
      end
  end.
End recv.

(** *** Sending *)

(** A write callback: given the octets, its result and its new state. *)
Definition tls_write_cb (C : Type) : Type := list Z -> C -> Z * C.

Section send.
Context {C : Type} (write_cb : tls_write_cb C).

(** [while (CBS_len(&msg->cbs) > 0)] *)
Fixpoint msg_send_loop (fuel : nat) : M (tls13_handshake_msg * C) Z :=
  st ← gets id;
  let '(msg, c) := st in
  if 0 <? CBS_len (hm_cbs msg) then
    match fuel with
    | O => ub
    | S fuel =>
        octets ← read_bytes (CBS_data (hm_cbs msg)) (CBS_len (hm_cbs msg));
        let '(ret, c') := write_cb octets c in
        modify (fun _ => (msg, c'));;
        if ret <=? 0 then mret ret
        else
          match CBS_skip ret (hm_cbs msg) with
          | Ret _ cbs =>
              modify (fun _ => (mkMsg (hm_type msg) (hm_len msg) (hm_data msg) (hm_data_len msg) (hm_buf msg)
                                  cbs (hm_cbb msg), c'));;
              msg_send_loop fuel
          | Fail _ => mret TLS13_IO_FAILURE
          | UB => ub
          end
    end
  else mret TLS13_IO_SUCCESS.

Definition tls13_handshake_msg_send : M (tls13_handshake_msg * C) Z :=
  msg ← gets fst;
  match hm_data msg with
  | None => mret TLS13_IO_FAILURE
  | Some _ =>
      if CBS_len (hm_cbs msg) =? 0 then mret TLS13_IO_FAILURE
      else msg_send_loop (Z.to_nat (CBS_len (hm_cbs msg)))
  end.
End send.
End handshake_msg.

(** ** What the record layer promises *)

Class Writer {C : Type} (write_cb : tls_write_cb C) : Type := {
  outgoing : C -> list Z;
  wstalls : C -> nat;
  writer_law : forall octets c ret c', octets <> [] -> write_cb octets c = (ret, c') ->
    (wstalls c' <= wstalls c)%nat /\
    (0 < ret <= zlen octets /\ outgoing c' = outgoing c ++ ztake ret octets \/
     ret = TLS_IO_WANT_POLLOUT /\ outgoing c' = outgoing c /\ (wstalls c' < wstalls c)%nat);
}.

(** ** Reassembly *)

Section reassembly.
Context (malloc_ok : Z -> bool) {C : Type} (read_cb : tls_read_cb C) `{!Reader read_cb}.
(** The message on the wire, and what follows it. *)
Context (ty : Z) (body later : list Z).
Context (Hty : is_byte ty) (Hty0 : ty <> 0) (Hbody : Forall is_byte body).
Context (Hlen : zlen body <= TLS13_HANDSHAKE_MSG_MAX_LEN).

Definition wire : list Z := ty :: be_bytes 3 (zlen body) ++ body.

(** The octets [got] of the message have arrived, the rest is still to come. *)
Definition arriving (msg : tls13_handshake_msg) (c : C) (got : list Z) : Prop :=
  hm_data msg = None /\ (exists t, hm_buf msg = tb_of TLS_BUFFER_CAPACITY_LIMIT [] got t) /\
  got ++ incoming c = wire ++ later /\ zlen got < zlen wire /\
  (hm_type msg = 0 /\ zlen got < 4 \/ hm_type msg = ty /\ hm_len msg = zlen body /\ 4 <= zlen got).

Definition arrived (msg : tls13_handshake_msg) : Prop :=
  hm_type msg = ty /\ hm_len msg = zlen body /\ hm_data_len msg = zlen wire /\
  exists t, hm_data msg = Some (wire ++ t).

Definition refused_memory : Prop := exists n, malloc_ok n = false.

Lemma zlen_wire : zlen wire = 4 + zlen body.
Proof using. unfold wire. rewrite zlen_cons, zlen_app, zlen_be_bytes. lia. Qed.

Lemma wire_bytes : Forall is_byte wire.
Proof using Hty Hbody. apply Forall_cons. split; [done|]. apply Forall_app. split; [apply is_byte_be_bytes|done]. Qed.

Lemma wp_on_buf {A} (m : M (tls_buffer * C) A) msg c Q E :
  wp m (hm_buf msg, c)
    (fun a st => Q a (mkMsg (hm_type msg) (hm_len msg) (hm_data msg) (hm_data_len msg) st.1 (hm_cbs msg) (hm_cbb msg), st.2))
    (fun st => E (mkMsg (hm_type msg) (hm_len msg) (hm_data msg) (hm_data_len msg) st.1 (hm_cbs msg) (hm_cbb msg), st.2)) ->
  wp (on_buf m) (msg, c) Q E.
Proof using. unfold wp, on_buf. by destruct (m (hm_buf msg, c)) as [a [b c']|[b c']|]. Qed.

Lemma prefix_of_wire (got rest : list Z) n :
  got ++ rest = wire ++ later -> zlen got = n -> n <= zlen wire -> got = ztake n wire.
Proof using.
  intros E Hn Hle. rewrite <- (ztake_app_exact n got rest Hn), E. by rewrite ztake_app_le.
Qed.

Lemma header_of_wire : ztake 4 wire = ty :: be_bytes 3 (zlen body).
Proof using.
  unfold wire. rewrite ztake_cons by lia. rewrite ztake_app_exact; [done|]. by rewrite zlen_be_bytes.
Qed.

Lemma cbs_u_loop_prefix {S} h t n : forall i r (s : S),
  0 <= i -> i + Z.of_nat n <= zlen h -> cbs_u_loop (h ++ t) i n r s = cbs_u_loop h i n r s.
Proof using.
  induction n as [|n IH]; intros i r s Hi Hn; [done|]. cbn [cbs_u_loop]. mstep.
  rewrite zget_app_l by lia. destruct (zget h i); [apply IH; lia|done].
Qed.

(** The header is parsed whatever the octets after it are. *)
Lemma parse_header t :
  exists cbs cbs',
    tls_buffer_data (tb_of TLS_BUFFER_CAPACITY_LIMIT [] (ty :: be_bytes 3 (zlen body)) t) = Some cbs /\
    (t ← CBS_get_u8; l ← CBS_get_u24; mret (t, l)) cbs = Ret (ty, zlen body) cbs'.
Proof using Hty Hlen.
  set (b := be_bytes 3 (zlen body)). assert (Hb : zlen b = 3) by apply zlen_be_bytes.
  assert (Hbv : be_val b = zlen body).
  { unfold b. rewrite be_val_bytes. apply Z.mod_small. unfold TLS13_HANDSHAKE_MSG_MAX_LEN in Hlen. pose proof (zlen_nonneg body).
    change (256 ^ Z.of_nat 3) with 16777216. lia. }
  pose proof (is_byte_be_bytes 3 (zlen body)) as Hbb. fold b in Hbb. clearbody b.
  unfold tls_buffer_data, tb_of. cbn [tb_offset tb_data tb_len app]. change (zlen []) with 0.
  rewrite zlen_cons, Hb. change (0 + (1 + 3)) with 4. pose proof (zlen_nonneg t).
  unfold CBS_skip, cbs_get, CBS_get_u8, CBS_get_u24, cbs_get_u, cbs_get. mstep.
  cbn [CBS_init id cbs_len cbs_data]. rewrite zlen_cons, zlen_app, Hb.
  rewrite !(proj2 (Z.leb_le 0 _)) by lia. eexists _, _. split; [reflexivity|].
  cbn [cbs_advance CBS_dup CBS_init CBS_data CBS_len cbs_data cbs_len cbs_initial_len id]. rewrite zdrop_0.
  rewrite zlen_cons, zlen_app, Hb, !(proj2 (Z.leb_le _ _)) by lia. cbn -[cbs_u_loop zlen app zdrop Z.to_nat Z.add Z.leb].
  change (zget (ty :: b ++ t) 0) with (Some ty). cbv beta iota.
  set (c1 := cbs_advance 1 _). assert (Hc1 : cbs_data c1 = b ++ t) by (cbn; by rewrite zdrop_0, zdrop_cons, zdrop_0 by lia).
  change (cbs_len c1) with 3. rewrite Hc1, zlen_app, Hb, !(proj2 (Z.leb_le _ _)) by lia.
  change (Z.to_nat 3) with 3%nat. rewrite cbs_u_loop_prefix by (cbn; lia).
  rewrite cbs_u_loop_spec by (done || cbn; lia). rewrite zdrop_0, ztake_all by (cbn; lia).
  rewrite Hbv. reflexivity.
Qed.

Definition missing (msg : tls13_handshake_msg) (c : C) : Prop := exists got, arriving msg c got.

(** One call made some progress or was told to wait. *)
Definition waiting (ret : Z) (c : C) (st : tls13_handshake_msg * C) : Prop :=
  ret <= 0 /\ missing st.1 st.2 /\
  ((stalls st.2 < stalls c)%nat /\ ret = TLS_IO_WANT_POLLIN \/ refused_memory).

(** A message of which some octets are missing cannot be stuck at the end of
    the stream. *)
Lemma not_yet_waiting ret msg c c' got :
  arriving msg c' got -> not_yet read_cb ret c c' \/ refused_memory ->
  (stalls c' < stalls c)%nat /\ ret = TLS_IO_WANT_POLLIN \/ refused_memory.
Proof using.
  intros (_ & _ & E & Hlt & _) [[Hin|?]|?]; [|by left|by right].
  rewrite Hin, app_nil_r in E. apply (f_equal zlen) in E. rewrite zlen_app in E.
  pose proof (zlen_nonneg later). lia.
Qed.

Lemma wp_msg_recv_header msg c got :
  arriving msg c got ->
  wp (msg_recv_header malloc_ok read_cb) (msg, c)
    (fun r st => match r with
       | Some ret => waiting ret c st
       | None => exists got', (arriving st.1 st.2 got' \/ body = [] /\ got' = wire /\ incoming st.2 = later /\
                    hm_data st.1 = None /\ exists t, hm_buf st.1 = tb_of TLS_BUFFER_CAPACITY_LIMIT [] wire t) /\
                  hm_type st.1 = ty /\ hm_len st.1 = zlen body /\ 4 <= zlen got' /\ (stalls st.2 <= stalls c)%nat
       end)
    (fun _ => False).
Proof using Hty Hty0 Hbody Hlen.
  intros Harr. pose proof Harr as (Hd & (t & Hbuf) & Ew & Hlt & Hph). pose proof zlen_wire as Hzw.
  unfold msg_recv_header. apply wp_bind, wp_gets. cbn [fst].
  destruct Hph as [[Ht Hg]|(Ht & Hl & Hg)]; rewrite Ht.
  2: { rewrite (proj2 (Z.eqb_neq _ _)) by done. apply wp_ret. exists got. split_and!; [by left|done|done|done|done]. }
  rewrite Z.eqb_refl. apply wp_bind, wp_on_buf. rewrite Hbuf. pose proof (zlen_nonneg body).
  eapply wp_conseq; [apply (wp_tls_buffer_extend malloc_ok read_cb 4); [lia|change (zlen []) with 0; lia]| |done].
  cbn beta. intros ret [b c'] (got' & ((t' & Hb) & Hin & Hst) & Hret). cbn [fst snd] in *. subst b.
  change (zlen []) with 0 in Hret. cbn [app] in *.
  assert (Ew' : (got ++ got') ++ incoming c' = wire ++ later) by (by rewrite <- app_assoc, <- Hin).
  assert (Hzg : zlen (got ++ got') = zlen got + zlen got') by apply zlen_app.
  destruct Hret as [[Hfull ->]|(Hpart & Hret & Hwhy)].
  - cbn [Z.leb Z.compare]. apply wp_bind, wp_gets. cbn [fst hm_buf].
    assert (Eg : got ++ got' = ty :: be_bytes 3 (zlen body)).
    { rewrite <- header_of_wire. eapply prefix_of_wire; [exact Ew'|lia|lia]. }
    rewrite Eg. destruct (parse_header t') as (cbs & cbs' & -> & ->).
    rewrite (proj2 (Z.ltb_ge _ _)) by done. apply wp_bind, wp_modify, wp_ret. cbn [fst snd hm_type hm_len hm_data hm_buf].
    exists (got ++ got'). rewrite <- Eg. split; [|split; [done|split; [done|split; [lia|done]]]].
    destruct (Z.eq_dec (zlen body) 0) as [E0|E0].
    + right. apply zlen_nil_inv in E0. assert (Ewire : got ++ got' = wire) by (rewrite Eg; unfold wire; by rewrite E0, app_nil_r).
      rewrite Ewire in *. apply app_inv_head in Ew'. split_and!; try done. by exists t'.
    + left. split_and!; try done; [by exists t'|lia|right; split_and!; [done|done|lia]].
  - rewrite (proj2 (Z.leb_le _ _)) by lia. apply wp_ret. split; [done|].
    assert (Harr' : arriving (mkMsg (hm_type msg) (hm_len msg) (hm_data msg) (hm_data_len msg)
      (tb_of TLS_BUFFER_CAPACITY_LIMIT [] (got ++ got') t') (hm_cbs msg) (hm_cbb msg)) c' (got ++ got')).
    { split_and!; cbn; try done; [by exists t'|lia|left; split; [done|lia]]. }
    split; [by eexists|]. cbn [snd]. eapply not_yet_waiting; [exact Harr'|].
    destruct Hwhy as [?|[?|?]]; [by left|unfold TLS_BUFFER_CAPACITY_LIMIT in *; lia|right; by eexists].
Qed.

Lemma wp_msg_recv msg c got :
  arriving msg c got ->
  wp (tls13_handshake_msg_recv malloc_ok read_cb) (msg, c)
    (fun ret st => ret = TLS13_IO_SUCCESS /\ arrived st.1 /\ incoming st.2 = later \/ waiting ret c st)
    (fun _ => False).
Proof using Hty Hty0 Hbody Hlen.
  intros Harr. unfold tls13_handshake_msg_recv. apply wp_bind, wp_gets. cbn [fst].
  rewrite (proj1 Harr). apply wp_bind. eapply wp_conseq; [exact (wp_msg_recv_header msg c got Harr)| |done].
  cbn beta. intros [ret|] [msg1 c1]; cbn [fst snd].
  { intros Hw. apply wp_ret. by right. }
  intros (got1 & Hgot & Ht & Hl & Hg4 & Hst). pose proof zlen_wire as Hzw.
  assert (exists t, hm_buf msg1 = tb_of TLS_BUFFER_CAPACITY_LIMIT [] got1 t) as (t & Hbuf).
  { destruct Hgot as [(_ & (t & ?) & _)|(_ & -> & _ & _ & t & ?)]; by exists t. }
  assert (Hd1 : hm_data msg1 = None) by (destruct Hgot as [(? & _)|(_ & _ & _ & ? & _)]; done).
  assert (Ew : got1 ++ incoming c1 = wire ++ later).
  { destruct Hgot as [(_ & _ & ? & _)|(_ & -> & -> & _)]; done. }
  assert (Hle : zlen got1 <= zlen wire) by (destruct Hgot as [(_ & _ & _ & ? & _)|(_ & -> & _)]; lia).
  apply wp_bind, wp_gets. cbn [fst]. rewrite Hl. apply wp_bind, wp_on_buf. rewrite Hbuf.
  unfold TLS13_HANDSHAKE_MSG_HEADER_LEN. pose proof (zlen_nonneg body).
  eapply wp_conseq; [apply (wp_tls_buffer_extend malloc_ok read_cb (4 + zlen body)); [lia|change (zlen []) with 0; lia]| |done].
  cbn beta. intros ret [b c2] (got2 & ((t2 & Hb) & Hin & Hst2) & Hret). cbn [fst snd] in *. subst b.
  change (zlen []) with 0 in Hret. cbn [app] in *.
  assert (Ew2 : (got1 ++ got2) ++ incoming c2 = wire ++ later) by (by rewrite <- app_assoc, <- Hin).
  assert (Hzg : zlen (got1 ++ got2) = zlen got1 + zlen got2) by apply zlen_app.
  destruct Hret as [[Hfull ->]|(Hpart & Hret & Hwhy)].
  - rewrite (proj2 (Z.leb_gt _ 0)) by lia. apply wp_bind, wp_on_buf. cbn [hm_buf].
    unfold wp, on_fst, tls_buffer_finish. mstep. cbn [fst snd id hm_type hm_len hm_data hm_data_len hm_buf hm_cbs hm_cbb tb_of tb_data tb_len].
    left. split; [done|]. assert (Eg : got1 ++ got2 = wire).
    { rewrite <- (ztake_all (zlen wire) wire) by lia. eapply prefix_of_wire; [exact Ew2|lia|lia]. }
    split; [|rewrite Eg in Ew2; by apply app_inv_head in Ew2].
    split_and!; cbn; [done|done|change (zlen []) with 0; lia|]. exists t2. by rewrite Eg.
  - rewrite (proj2 (Z.leb_le _ _)) by lia. apply wp_ret. right. split; [done|].
    match goal with |- missing ?m _ /\ _ => assert (Harr2 : arriving m c2 (got1 ++ got2)) end.
    { pose proof (zlen_nonneg got2). split_and!; cbn; try done; [by exists t2|lia|right; split_and!; [done|done|lia]]. }
    split; [by eexists|]. cbn [snd].
    assert (Hwhy' : not_yet read_cb ret c1 c2 \/ refused_memory).
    { destruct Hwhy as [?|[?|?]]; [by left|unfold TLS_BUFFER_CAPACITY_LIMIT, TLS13_HANDSHAKE_MSG_MAX_LEN in *; lia|right; by eexists]. }
    destruct (not_yet_waiting _ _ _ _ _ Harr2 Hwhy') as [[??]|?]; [left; split; [lia|done]|by right].
Qed.

(** The caller of the state machine: it calls again when it was told to wait for
    input. *)
Fixpoint recv_retry (n : nat) : M (tls13_handshake_msg * C) Z :=
  ret ← tls13_handshake_msg_recv malloc_ok read_cb;
  match n with
  | O => mret ret
  | S n => if ret =? TLS_IO_WANT_POLLIN then recv_retry n else mret ret
  end.

Lemma recv_retry_arrives n : forall msg c,
  missing msg c -> (stalls c <= n)%nat -> (forall k, malloc_ok k = true) ->
  exists st, recv_retry n (msg, c) = Ret TLS13_IO_SUCCESS st /\ arrived st.1 /\ incoming st.2 = later.
Proof using Hty Hty0 Hbody Hlen.
  induction n as [|n IH]; intros msg c (got & Harr) Hn Hm; cbn [recv_retry];
    destruct (wp_total _ _ _ (wp_msg_recv msg c got Harr)) as (ret & st & E & Hst); mstep; rewrite E.
  - destruct Hst as [(-> & Ha & Hi)|(_ & _ & [[??]|(k & Hk)])]; [by exists st|lia|by rewrite Hm in Hk].
  - destruct Hst as [(-> & Ha & Hi)|(_ & Hmiss & [[Hs ->]|(k & Hk)])]; [by exists st| |by rewrite Hm in Hk].
    rewrite Z.eqb_refl. destruct st as [msg' c']. apply IH; [done|cbn in Hs; lia|done].
Qed.
End reassembly.

(** ** Sending *)

(** The window of a CBS lies in its buffer. *)
Definition window_ok (cbs : CBS) : Prop := 0 <= cbs_len cbs <= zlen (cbs_data cbs).

Lemma zlen_window cbs : window_ok cbs -> zlen (contents cbs) = cbs_len cbs.
Proof. apply zlen_ztake. Qed.

Lemma skip_window n cbs :
  window_ok cbs -> 0 <= n <= cbs_len cbs ->
  CBS_skip n cbs = Ret tt (cbs_advance n cbs) /\ window_ok (cbs_advance n cbs).
Proof.
  unfold window_ok. intros Hw Hn. split.
  - unfold CBS_skip, cbs_get. mstep. cbn [id]. by rewrite !(proj2 (Z.leb_le _ _)) by lia.
  - cbn. rewrite zlen_zdrop; lia.
Qed.

Section sending.
Context {C : Type} (write_cb : tls_write_cb C) `{!Writer write_cb}.

(** A finished message, some octets of which wait to be sent. *)
Definition sending (msg : tls13_handshake_msg) (rest : list Z) : Prop :=
  hm_data msg <> None /\ window_ok (hm_cbs msg) /\ contents (hm_cbs msg) = rest.

(** The octets written since [c], and what is left. *)
Definition progress (rest : list Z) (c : C) (ret : Z) (st : tls13_handshake_msg * C) : Prop :=
  exists sent left, rest = sent ++ left /\ sending st.1 left /\ outgoing st.2 = outgoing c ++ sent /\
    (left = [] /\ ret = TLS13_IO_SUCCESS \/
     left <> [] /\ ret = TLS_IO_WANT_POLLOUT /\ (wstalls st.2 < wstalls c)%nat).

Lemma wp_msg_send_loop fuel : forall msg c rest,
  sending msg rest -> zlen rest <= Z.of_nat fuel ->
  wp (msg_send_loop write_cb fuel) (msg, c) (progress rest c) (fun _ => False).
Proof using Type*.
  induction fuel as [|fuel IH]; intros msg c rest (Hd & Hok & Hr) Hf; cbn [msg_send_loop];
    apply wp_bind, wp_gets; cbn [id]; pose proof (zlen_window _ Hok) as Hl; rewrite Hr in Hl; unfold CBS_len;
    destruct (Z.ltb_spec 0 (cbs_len (hm_cbs msg))) as [Hpos|Hz].
  1: lia.
  1, 3: apply wp_ret; exists [], []; assert (rest = []) as -> by (apply zlen_nil_inv; pose proof (zlen_nonneg rest); lia);
    split; [done|split; [by split|split; [by rewrite app_nil_r|by left]]].
  apply wp_bind, wp_read_bytes; [by apply Hok|].
  change (ztake (cbs_len (hm_cbs msg)) (CBS_data (hm_cbs msg))) with (contents (hm_cbs msg)). rewrite Hr.
  assert (Hne : rest <> []) by (intros ->; change (zlen []) with 0 in Hl; lia).
  destruct (write_cb rest c) as [ret c'] eqn:E. apply wp_bind, wp_modify.
  destruct (writer_law _ _ _ _ Hne E) as [Hst [[Hret Hout]|(-> & Hout & Hlt)]].
  - rewrite (proj2 (Z.leb_gt _ 0)) by lia.
    destruct (skip_window ret _ Hok) as [-> Hok']; [lia|]. apply wp_bind, wp_modify.
    destruct (split_at rest ret) as (sent & rest' & -> & Hs & _ & _ & _); [lia|].
    rewrite zlen_app in *. rewrite ztake_app_exact in Hout by done.
    eapply wp_conseq; [apply (IH _ _ rest'); [|lia]| |done].
    + split; [done|]. split; [exact Hok'|].
      cbn [hm_cbs]. rewrite contents_advance by (pose proof (zlen_nonneg rest'); lia). rewrite Hr. by apply zdrop_app_exact.
    + intros ret' st (sent' & left & -> & Hsend & Ho & Hwhy). exists (sent ++ sent'), left.
      split; [by rewrite app_assoc|]. split; [done|]. split; [by rewrite Ho, Hout, app_assoc|].
      destruct Hwhy as [?|(? & ? & ?)]; [by left|right; split_and!; [done|done|lia]].
  - cbn [Z.leb Z.compare TLS_IO_WANT_POLLOUT]. apply wp_ret. exists [], rest.
    split; [done|]. split; [by split|]. split; [by rewrite app_nil_r|by right].
Qed.

Lemma wp_msg_send msg c rest :
  sending msg rest -> rest <> [] ->
  wp (tls13_handshake_msg_send write_cb) (msg, c) (progress rest c) (fun _ => False).
Proof using Type*.
  intros Hs Hne. pose proof Hs as (Hd & Hok & Hr). unfold tls13_handshake_msg_send. apply wp_bind, wp_gets. cbn [fst].
  destruct (hm_data msg) as [d|]; [|done]. unfold CBS_len.
  pose proof (zlen_window _ Hok) as Hl. rewrite Hr in Hl.
  rewrite (proj2 (Z.eqb_neq _ _)) by (intros E0; rewrite E0 in Hl; by apply zlen_nil_inv in Hl).
  apply wp_msg_send_loop; [done|]. pose proof (zlen_nonneg rest). lia.
Qed.

(** The caller that calls again when it was told to wait for output. *)
Fixpoint send_retry (n : nat) : M (tls13_handshake_msg * C) Z :=
  ret ← tls13_handshake_msg_send write_cb;
  match n with
  | O => mret ret
  | S n => if ret =? TLS_IO_WANT_POLLOUT then send_retry n else mret ret
  end.

Lemma send_retry_sends n : forall msg c rest,
  sending msg rest -> rest <> [] -> (wstalls c <= n)%nat ->
  exists st, send_retry n (msg, c) = Ret TLS13_IO_SUCCESS st /\ outgoing st.2 = outgoing c ++ rest.
Proof using Type*.
  induction n as [|n IH]; intros msg c rest Hs Hne Hn; cbn [send_retry];
    destruct (wp_total _ _ _ (wp_msg_send msg c rest Hs Hne)) as (ret & st & E & sent & left & -> & Hs' & Ho & Hst);
    mstep; rewrite E.
  - destruct Hst as [[-> ->]|(_ & _ & ?)]; [|lia]. exists st. by rewrite app_nil_r.
  - destruct Hst as [[-> ->]|(Hl & -> & ?)].
    + rewrite app_nil_r. by exists st.
    + rewrite Z.eqb_refl. destruct st as [msg' c']. cbn [snd fst] in *.
      destruct (IH msg' c' left Hs' Hl ltac:(lia)) as (st & -> & Ho'). exists st. split; [done|].
      by rewrite Ho', Ho, app_assoc.
Qed.
End sending.

(** ** Building *)

Section building.
Context (cbb body_cbb : ptr) (ty : Z) (cs : list cmd) (body : list Z).
Context (Hne : cbb <> body_cbb) (Hty : is_byte ty) (Hlen : zlen body < 2 ^ 24) (Hcs : Forall cmd_ok cs).
(** The calls of the caller write [body] to the body's CBB. *)
Context (Hbody : denote_all cs ([(cbb, [ty], Fixed 3)], body_cbb, []) = Ret tt ([(cbb, [ty], Fixed 3)], body_cbb, body)).

Definition msg_cmds : list cmd := U8 cbb ty :: U24_prefixed cbb body_cbb :: cs.

Lemma build_msg : exists B, build cbb msg_cmds = Ret (wire ty body) B.
Proof using Hne Hty Hlen Hbody Hcs.
  rewrite build_eq. unfold msg_cmds. cbn [denote_all denote]. unfold is_byte in Hty.
  pose proof (zlen_nonneg body). mstep. rewrite (proj2 (Z.ltb_lt _ _)) by lia.
  unfold a_append, a_open, a_at. cbn [locate]. rewrite decide_True by done. cbn [eclose forallb].
  change (be_bytes 1 ty) with [ty mod 256]. rewrite Z.mod_small by lia. cbn [app].
  unfold a_store at 1. change (esize ([], cbb, [ty])) with 1. cbn [Z.ltb Z.compare]. change (1 <? 2 ^ 64) with true. cbv iota.
  cbn [locate]. rewrite decide_True by done. cbn [eclose app forallb].
  rewrite (bool_decide_eq_true_2 (body_cbb ∉ _)) by (cbn; set_solver). cbn [andb]. unfold a_store at 1.
  change (esize ([(cbb, [ty], Fixed 3)], body_cbb, [])) with 4. change (4 <? 2 ^ 64) with true. cbv iota.
  rewrite Hbody. cbn [locate fst]. rewrite decide_True by done. cbn [eclose forallb prefix mbind option_bind].
  rewrite (proj2 (Z.ltb_lt _ _)) by (change (256 ^ Z.of_nat 3) with (2 ^ 24); lia). cbn [mbind option_bind app]. unfold a_store.
  rewrite app_nil_r. unfold wire. eexists. rewrite (proj2 (Z.ltb_lt _ _)); [reflexivity|].
  cbn [app esize fold_right]. rewrite zlen_cons, zlen_app, zlen_be_bytes. lia.
Qed.

(** The calls that build a message, on a new one. *)
Definition msg_build (malloc_ok : Z -> bool) : M (heap * tls13_handshake_msg) unit :=
  tls13_handshake_msg_start malloc_ok body_cbb ty;;
  on_fst (exec_all malloc_ok cs);;
  tls13_handshake_msg_finish malloc_ok.

Lemma msg_build_builds h msg :
  hm_cbb msg = cbb -> hm_data msg = None ->
  exists h' msg', msg_build (fun _ => true) (h, msg) = Ret tt (h', msg') /\ bases h' = bases h /\ sending msg' (wire ty body) /\ hm_cbb msg' = cbb.
Proof using Hne Hty Hlen Hbody Hcs.
  intros Hp Hd. destruct build_msg as [B HB].
  assert (Hall : Forall cmd_ok msg_cmds).
  { unfold is_byte in Hty. constructor; [cbn; lia|]. by constructor. }
  pose proof (builder_wp (fun _ => true) h cbb 256 msg_cmds ltac:(lia) Hall ltac:(by rewrite HB)) as Hw. rewrite HB in Hw.
  unfold msg_build, tls13_handshake_msg_start, tls13_handshake_msg_finish, wp, on_fst in *. revert Hw.
  unfold TLS13_HANDSHAKE_MSG_INITIAL_LEN, msg_cmds. cbn [exec_all exec]. mstep. cbn [fst snd]. rewrite Hp.
  destruct (CBB_init (fun _ => true) cbb 256 h) as [[] h1|h1|]; [|by intros [_ HF]; destruct (HF (fun _ => eq_refl))|done]; cbn [fst snd].
  destruct (CBB_add_u8 (fun _ => true) cbb ty h1) as [[] h2|h2|]; [|by intros [_ HF]; destruct (HF (fun _ => eq_refl))|done]; cbn [fst snd].
  destruct (CBB_add_u24_length_prefixed (fun _ => true) cbb body_cbb h2) as [[] h3|h3|]; [|by intros [_ HF]; destruct (HF (fun _ => eq_refl))|done]; cbn [fst snd].
  cbn [fst snd]. destruct (exec_all (fun _ => true) cs h3) as [[] h4|h4|]; [|by intros [_ HF]; destruct (HF (fun _ => eq_refl))|done]; cbn [fst snd].
  cbn [fst snd]. rewrite ?Hp, Hd, (bool_decide_eq_false_2 (None <> None)) by (intros []; done).
  destruct (CBB_finish (fun _ => true) cbb (Some false) true h4) as [[data n] h5|h5|]; [|by intros [_ HF]; destruct (HF (fun _ => eq_refl))|done]; cbn [fst snd].
  intros ((B' & E) & Hn & Hb). injection E as Ew _. cbn [fst snd]. eexists _, _. split; [reflexivity|].
  split; [done|]. split; [|done]. split; [done|]. cbn [hm_cbs]. split; [|by rewrite Ew].
  unfold window_ok. cbn. unfold ztake, zlen in *. rewrite length_take in Hn. lia.
Qed.
End building.

(** ** Safety with an arbitrary record layer

    Whatever the record layer answers, as long as it stores octets and no more of
    them than asked for, receiving and sending stay inside their buffers. *)

Definition bounded_reader {C} (read_cb : tls_read_cb C) : Prop :=
  forall n c, 0 < n -> zlen (read_cb n c).1.2 <= n /\ Forall is_byte (read_cb n c).1.2.

(** The invariant of a message between calls. *)
Definition msg_ok (msg : tls13_handshake_msg) : Prop :=
  window_ok (hm_cbs msg) /\ window_ok (tls13_handshake_msg_data msg) /\ 0 <= hm_len msg /\
  exists q t, hm_buf msg = tb_of TLS_BUFFER_CAPACITY_LIMIT [] q t /\ Forall is_byte (q ++ t).

Section safety.
Context (malloc_ok : Z -> bool) {C : Type} (read_cb : tls_read_cb C) (Hread : bounded_reader read_cb).

Lemma extend_loop_safe fuel : forall limit p q t c,
  0 < zlen t -> zlen t <= Z.of_nat fuel -> Forall is_byte (q ++ t) ->
  wp (extend_loop read_cb fuel) (tb_of limit p q t, c)
    (fun ret st => exists q' t', st.1 = tb_of limit p q' t' /\ Forall is_byte (q' ++ t') /\ zlen q' <= zlen q + zlen t /\
       (0 < ret -> zlen q' = zlen q + zlen t))
    (fun _ => False).
Proof using Hread.
  induction fuel as [|fuel IH]; intros limit p q t c Ht Hf Hqt; [lia|]. cbn [extend_loop].
  apply wp_bind, wp_gets. cbn [id]. unfold tb_capacity. cbn [tb_of tb_data tb_len tb_offset tb_capacity_limit].
  rewrite !zlen_app. replace (zlen p + (zlen q + zlen t) - (zlen p + zlen q)) with (zlen t) by lia.
  destruct (Hread (zlen t) c Ht) as [Hb Hby]. destruct (read_cb (zlen t) c) as [[ret octets] c']. cbn [fst snd] in Hb, Hby.
  apply wp_bind, wp_must; [by apply Z.leb_le|].
  destruct (split_at t (zlen octets)) as (t1 & t2 & -> & Ht1 & _); [pose proof (zlen_nonneg octets); lia|].
  apply wp_bind. eapply wp_valid. { rewrite app_assoc, <- (zlen_app p q). by apply zwrite_mid. }
  apply wp_bind, wp_modify. set (w := octets ++ t2).
  assert (Hw : zlen w = zlen (t1 ++ t2)) by (unfold w; rewrite !zlen_app; lia). rewrite <- app_assoc.
  assert (Hqw : Forall is_byte (q ++ w)).
  { apply Forall_app in Hqt as [Hq [_ Ht2]%Forall_app]. apply Forall_app. split; [done|]. by apply Forall_app. }
  clearbody w.
  assert (Eb : forall r, 0 <= r <= zlen w -> mkTlsBuffer limit (p ++ q ++ w) (zlen p + zlen q + r) (zlen p) =
                 tb_of limit p (q ++ ztake r w) (zdrop r w)).
  { intros r Hr. unfold tb_of. rewrite zlen_app, zlen_ztake, <- app_assoc, ztake_zdrop by lia. f_equal; lia. }
  pose proof (zlen_nonneg q). destruct (Z.leb_spec ret 0).
  { apply wp_ret. exists q, w. unfold tb_of. split_and!; [done|done|lia|lia]. }
  destruct (Z.ltb_spec (zlen (t1 ++ t2)) ret).
  { apply wp_ret. exists q, w. split_and!; [done|done|lia|unfold TLS_IO_FAILURE; lia]. }
  cbv zeta. apply wp_bind, wp_modify. rewrite Eb by lia.
  destruct (Z.eqb_spec (zlen p + zlen q + ret) (zlen p + (zlen q + zlen (t1 ++ t2)))).
  - apply wp_ret. eexists _, _. split; [reflexivity|]. rewrite <- app_assoc, ztake_zdrop, zlen_app, zlen_ztake by lia.
    split; [done|]. lia.
  - eapply wp_conseq; [apply IH; [rewrite zlen_zdrop by lia; lia..|by rewrite <- app_assoc, ztake_zdrop]| |done]. cbn beta.
    intros r st (q' & t' & E & Hby' & Hle & Hret). exists q', t'. split; [done|]. split; [done|].
    rewrite zlen_app, zlen_ztake, zlen_zdrop in * by lia. split; [lia|]. intros Hr. specialize (Hret Hr). lia.
Qed.

Lemma extend_safe len limit q t c :
  Forall is_byte (q ++ t) ->
  wp (tls_buffer_extend malloc_ok read_cb len) (tb_of limit [] q t, c)
    (fun ret st => exists q' t', st.1 = tb_of limit [] q' t' /\ Forall is_byte (q' ++ t') /\ (0 < ret -> zlen q' = len))
    (fun _ => False).
Proof using Hread.
  intros Hqt. unfold tls_buffer_extend. apply wp_bind, wp_gets. cbn [id tb_of tb_len]. change (zlen []) with 0.
  pose proof (zlen_nonneg q). pose proof (zlen_nonneg t).
  destruct (Z.eqb_spec len (0 + zlen q)) as [E|E].
  { apply wp_ret. exists q, t. split_and!; [done|done|lia]. }
  destruct (Z.ltb_spec len (0 + zlen q)).
  { apply wp_ret. exists q, t. split_and!; [done|done|unfold TLS_IO_FAILURE; lia]. }
  apply wp_bind.
  eapply wp_conseq; [apply wp_resize_room; change (zlen []) with 0; lia| |done]. cbn beta. intros [[]|] st.
  - intros (t' & -> & Hlen & Ht'). change (zlen []) with 0 in Hlen.
    apply Forall_app in Hqt as [Hq Ht].
    eapply wp_conseq; [apply extend_loop_safe; [lia|lia|apply Forall_app; auto]| |done]. cbn beta.
    intros ret st' (q' & t2 & E' & Hby & Hq' & Hr). exists q', t2. split; [done|]. split; [done|].
    intros Hret. specialize (Hr Hret). lia.
  - intros [-> _]. apply wp_ret. exists q, t. split_and!; [done|done|unfold TLS_IO_FAILURE; lia].
Qed.

(** Parsing the header of whatever was received. *)
Lemma parse_any_header q t :
  zlen q = 4 -> Forall is_byte (q ++ t) -> exists cbs,
    tls_buffer_data (tb_of TLS_BUFFER_CAPACITY_LIMIT [] q t) = Some cbs /\
    exists msg_type msg_len cbs', (t ← CBS_get_u8; l ← CBS_get_u24; mret (t, l)) cbs = Ret (msg_type, msg_len) cbs' /\ 0 <= msg_len.
Proof using.
  intros Hq Hb. unfold tls_buffer_data, tb_of. cbn [tb_offset tb_data tb_len app]. change (zlen []) with 0.
  assert (Hok : CBS_ok (CBS_init (q ++ t) (0 + zlen q))).
  { apply CBS_init_ok; [done| |lia]. rewrite zlen_app. pose proof (zlen_nonneg t). lia. }
  set (c := CBS_init (q ++ t) (0 + zlen q)) in *. assert (Hc4 : cbs_len c = 4) by (cbn; lia).
  rewrite CBS_skip_eq, (proj2 (Z.leb_le _ _)) by (done || lia). eexists. split; [reflexivity|].
  set (d := CBS_dup (cbs_advance 0 c)). assert (Hd : CBS_ok d).
  { unfold d, CBS_dup, c. cbn. destruct Hok as (? & ? & ? & ?). unfold c in *. cbn in *. split_and!; cbn; [by rewrite zdrop_0|lia|lia|rewrite zdrop_0; lia|lia]. }
  assert (Hd4 : cbs_len d = 4) by (unfold d; cbn in *; lia). clearbody d.
  pose proof (zlen_contents d Hd) as Hl. rewrite Hd4 in Hl.
  mstep. rewrite CBS_get_u8_spec by done. destruct (contents d) as [|b l] eqn:El; [done|].
  assert (Ha : CBS_ok (cbs_advance 1 d)) by (apply cbs_advance_ok; [done|lia]).
  unfold CBS_get_u24. rewrite cbs_get_u_spec, (proj2 (Z.leb_le _ _)) by (done || (cbn; lia)).
  eexists _, _, _. split; [reflexivity|].
  apply be_val_bounds, Forall_ztake, contents_byte. done.
Qed.

Lemma msg_recv_header_safe msg c :
  msg_ok msg -> hm_data msg = None ->
  wp (msg_recv_header malloc_ok read_cb) (msg, c)
    (fun r st => msg_ok st.1 /\ hm_cbb st.1 = hm_cbb msg /\ hm_data st.1 = None /\ hm_cbs st.1 = hm_cbs msg /\
       match r with Some ret => ret <= 0 | None => True end)
    (fun _ => False).
Proof using Hread.
  intros (Hcbs & Hdata & Hlen & q & t & Hbuf & Hby) Hd. unfold msg_recv_header. apply wp_bind, wp_gets. cbn [fst].
  destruct (Z.eqb_spec (hm_type msg) 0) as [E0|E0].
  2: { apply wp_ret. split; [|done]. split_and!; [done|done|done|by exists q, t]. }
  apply wp_bind, wp_on_buf. rewrite Hbuf. eapply wp_conseq; [apply extend_safe; exact Hby| |done]. cbn beta.
  intros ret [b c'] (q' & t' & Eb & Hby' & Hr). cbn [fst snd] in *. subst b.
  assert (Hok : forall mt ml, 0 <= ml -> msg_ok (mkMsg mt ml (hm_data msg) (hm_data_len msg)
            (tb_of TLS_BUFFER_CAPACITY_LIMIT [] q' t') (hm_cbs msg) (hm_cbb msg))).
  { intros mt ml Hml. split_and!; [exact Hcbs|exact Hdata|exact Hml|by exists q', t']. }
  destruct (Z.leb_spec ret 0) as [Hret|Hret].
  { apply wp_ret. cbn [fst hm_data hm_cbb]. split; [by apply Hok|done]. }
  apply wp_bind, wp_gets. cbn [fst hm_buf].
  destruct (parse_any_header q' t' (Hr Hret) Hby') as (cbs & -> & mt & ml & cbs' & -> & Hml).
  destruct (TLS13_HANDSHAKE_MSG_MAX_LEN <? ml).
  - apply wp_ret. cbn [fst hm_data hm_cbb]. split; [by apply Hok|]. split_and!; [done|done|done|unfold TLS13_IO_FAILURE; lia].
  - apply wp_bind, wp_modify, wp_ret. cbn [fst hm_data hm_cbb]. split; [by apply Hok|done].
Qed.

Lemma msg_recv_safe msg c :
  msg_ok msg ->
  wp (tls13_handshake_msg_recv malloc_ok read_cb) (msg, c)
    (fun ret st => msg_ok st.1 /\ hm_cbb st.1 = hm_cbb msg /\ (0 < ret -> 4 <= hm_data_len st.1))
    (fun _ => False).
Proof using Hread.
  intros Hok. unfold tls13_handshake_msg_recv. apply wp_bind, wp_gets. cbn [fst].
  destruct (hm_data msg) as [d|] eqn:Ed.
  { apply wp_ret. split; [done|]. split; [done|unfold TLS13_IO_FAILURE; lia]. }
  apply wp_bind. eapply wp_conseq; [by apply msg_recv_header_safe| |done].
  cbn beta. intros [ret|] [msg1 c1]; cbn [fst snd].
  { intros (? & ? & _ & _ & ?). apply wp_ret. split; [done|]. split; [done|lia]. }
  intros ((Hcbs1 & Hdata1 & Hlen1 & q1 & t1 & Hbuf1 & Hby1) & Hp & Ed1 & _).
  apply wp_bind, wp_gets. cbn [fst]. apply wp_bind, wp_on_buf. rewrite Hbuf1.
  eapply wp_conseq; [apply extend_safe; exact Hby1| |done].
  cbn beta. intros ret [b c2] (q2 & t2 & Eb & Hby2 & Hr). cbn [fst snd] in *. subst b.
  destruct (Z.leb_spec ret 0) as [Hret|Hret].
  - apply wp_ret. cbn [fst hm_cbb]. split; [|split; [done|lia]]. split_and!; [done|done|done|by exists q2, t2].
  - specialize (Hr Hret). apply wp_bind, wp_on_buf. cbn [hm_buf].
    unfold wp, on_fst, tls_buffer_finish. mstep.
    cbn [fst snd id hm_type hm_len hm_data hm_data_len hm_buf hm_cbs hm_cbb tb_of tb_data tb_len app]. change (zlen []) with 0.
    pose proof (zlen_nonneg q2). pose proof (zlen_nonneg t2). unfold TLS13_HANDSHAKE_MSG_HEADER_LEN in Hr.
    split; [|split; [done|lia]]. split_and!; [done| |done|by exists [], []].
    unfold window_ok. cbn [tls13_handshake_msg_data hm_data hm_data_len from_option CBS_init cbs_len cbs_data id].
    rewrite zlen_app. lia.
Qed.
End safety.

(** Sending, with any writer. *)
Lemma msg_send_safe {C} (write_cb : tls_write_cb C) msg c :
  msg_ok msg ->
  wp (tls13_handshake_msg_send write_cb) (msg, c)
    (fun ret st => msg_ok st.1 /\ hm_cbb st.1 = hm_cbb msg /\ hm_data st.1 = hm_data msg /\ hm_data_len st.1 = hm_data_len msg)
    (fun _ => False).
Proof.
  intros Hok. unfold tls13_handshake_msg_send. apply wp_bind, wp_gets. cbn [fst].
  destruct (hm_data msg) as [d|] eqn:Ed; [|by apply wp_ret].
  destruct (CBS_len (hm_cbs msg) =? 0); [by apply wp_ret|]. rewrite <- Ed. clear Ed d.
  assert (Hf : cbs_len (hm_cbs msg) <= Z.of_nat (Z.to_nat (CBS_len (hm_cbs msg)))) by (unfold CBS_len; lia).
  revert Hf. generalize (Z.to_nat (CBS_len (hm_cbs msg))) as fuel. intros fuel.
  revert msg c Hok. induction fuel as [|fuel IH]; intros msg c Hok Hf; cbn [msg_send_loop];
    apply wp_bind, wp_gets; cbn [id]; unfold CBS_len at 1; destruct (Z.ltb_spec 0 (cbs_len (hm_cbs msg))); try lia; try by apply wp_ret.
  pose proof Hok as (Hw & Hdata & Hlen & Hbuf).
  apply wp_bind, wp_read_bytes; [apply Hw|]. destruct (write_cb _ c) as [ret c']. apply wp_bind, wp_modify.
  destruct (Z.leb_spec ret 0); [by apply wp_ret|].
  destruct (Z.leb_spec ret (cbs_len (hm_cbs msg))) as [Hr|Hr].
  - destruct (skip_window ret _ Hw) as [-> Hw']; [lia|]. apply wp_bind, wp_modify.
    eapply wp_conseq; [apply IH| |done].
    + split_and!; [exact Hw'|exact Hdata|exact Hlen|exact Hbuf].
    + cbn [hm_cbs cbs_advance cbs_len]. lia.
    + cbn beta. cbn [hm_cbb hm_data hm_data_len]. done.
  - unfold CBS_skip, cbs_get. mstep. cbn [id]. rewrite (proj2 (Z.leb_gt _ _)) by lia. by apply wp_ret.
Qed.

(** ** The properties *)

(** The octets of the message and its body, as the handlers read them. *)
Definition carries (msg : tls13_handshake_msg) (ty : Z) (body : list Z) : Prop :=
  tls13_handshake_msg_type msg = ty /\ contents (tls13_handshake_msg_data msg) = wire ty body /\
  exists cbs, tls13_handshake_msg_content msg = Ret tt cbs /\ contents cbs = body.

Lemma arrived_carries ty body msg : arrived ty body msg -> carries msg ty body.
Proof.
  intros (Ht & _ & Hl & t & Hd). unfold carries, tls13_handshake_msg_content, tls13_handshake_msg_data.
  rewrite Hd, Hl. cbn [from_option id]. pose proof (zlen_wire ty body) as Hw. pose proof (zlen_nonneg t). pose proof (zlen_nonneg body).
  assert (Hc : contents (CBS_init (wire ty body ++ t) (zlen (wire ty body))) = wire ty body) by (by apply ztake_app_exact).
  split; [done|]. split; [exact Hc|].
  destruct (skip_window 4 (CBS_init (wire ty body ++ t) (zlen (wire ty body)))) as [E _].
  { unfold window_ok. cbn [CBS_init cbs_len cbs_data]. rewrite zlen_app. lia. }
  { cbn [CBS_init cbs_len]. lia. }
  unfold TLS13_HANDSHAKE_MSG_HEADER_LEN. rewrite E. eexists. split; [reflexivity|].
  rewrite contents_advance, Hc by (cbn [CBS_init cbs_len]; lia). unfold wire. rewrite zdrop_cons by lia. by apply zdrop_app_exact.
Qed.

(** A message with nothing received. *)
Definition empty_msg (msg : tls13_handshake_msg) : Prop :=
  hm_type msg = 0 /\ hm_data msg = None /\ hm_buf msg = mkTlsBuffer TLS_BUFFER_CAPACITY_LIMIT [] 0 0.

Lemma empty_arriving {C} (read_cb : tls_read_cb C) `{!Reader read_cb} ty body later msg c :
  empty_msg msg -> incoming c = wire ty body ++ later -> missing read_cb ty body later msg c.
Proof.
  intros (Ht & Hd & Hb) Hin. exists []. pose proof (zlen_wire ty body). pose proof (zlen_nonneg body).
  split_and!; [done|by exists []|done|change (zlen []) with 0; lia|left; change (zlen []) with 0; split; [done|lia]].
Qed.

(** C22. Reassembly is live and does not depend on fragmentation: whatever way
    the record layer cuts a message into reads, and however often it asks the
    caller to wait, a caller that calls again after each wait receives the message
    after at most as many calls as there were waits, with its type and its
    body, and no octet of what follows it is consumed. *)
Theorem tls13_handshake_msg_recv_reassembles {C} (read_cb : tls_read_cb C) `{!Reader read_cb} ty body later msg c :
  is_byte ty -> ty <> 0 -> Forall is_byte body -> zlen body <= TLS13_HANDSHAKE_MSG_MAX_LEN ->
  empty_msg msg -> incoming c = wire ty body ++ later ->
  exists st, recv_retry (fun _ => true) read_cb (stalls c) (msg, c) = Ret TLS13_IO_SUCCESS st /\
    carries st.1 ty body /\ incoming st.2 = later.
Proof.
  intros Hty Hty0 Hbody Hlen Hmsg Hin.
  destruct (recv_retry_arrives (fun _ => true) read_cb ty body later Hty Hty0 Hbody Hlen (stalls c) msg c) as (st & E & Ha & Hi).
  - by apply empty_arriving.
  - done.
  - done.
  - exists st. split; [done|]. split; [by apply arrived_carries|done].
Qed.

(** Sending terminates: a caller that calls again after each wait has
    sent the whole message, each octet once and in order, after at most as
    many calls as the record layer makes it wait, however it splits the
    writes. *)
Theorem tls13_handshake_msg_send_completes {C} (write_cb : tls_write_cb C) `{!Writer write_cb} msg c :
  hm_data msg <> None -> 0 < cbs_len (hm_cbs msg) <= zlen (cbs_data (hm_cbs msg)) ->
  exists st, send_retry write_cb (wstalls c) (msg, c) = Ret TLS13_IO_SUCCESS st /\
    outgoing st.2 = outgoing c ++ ztake (cbs_len (hm_cbs msg)) (cbs_data (hm_cbs msg)).
Proof.
  intros Hd Hw. apply send_retry_sends; [|intros E|done].
  - split; [done|]. split; [unfold window_ok; lia|done].
  - assert (Hz : zlen (contents (hm_cbs msg)) = cbs_len (hm_cbs msg)) by (apply zlen_window; unfold window_ok; lia).
    unfold contents in Hz. rewrite E in Hz. change (zlen []) with 0 in Hz. lia.
Qed.

(** End to end: a message built with [tls13_handshake_msg_start], any
    builder calls that write the body, and [tls13_handshake_msg_finish], sent over
    any record layer and received from any record layer that delivers what was
    sent, arrives with its type and its body. *)
Theorem tls13_handshake_msg_roundtrip {C} (write_cb : tls_write_cb C) `{!Writer write_cb}
    {D} (read_cb : tls_read_cb D) `{!Reader read_cb} body_cbb ty cs body h msg c :
  let header := ([(hm_cbb msg, [ty], Fixed 3)], body_cbb) in
  hm_cbb msg <> body_cbb -> hm_data msg = None -> is_byte ty -> ty <> 0 ->
  Forall is_byte body -> zlen body <= TLS13_HANDSHAKE_MSG_MAX_LEN -> Forall cmd_ok cs ->
  denote_all cs (header, []) = Ret tt (header, body) ->
  exists sent st1 st2,
    msg_build body_cbb ty cs (fun _ => true) (h, msg) = Ret tt st1 /\
    send_retry write_cb (wstalls c) (st1.2, c) = Ret TLS13_IO_SUCCESS st2 /\ outgoing st2.2 = outgoing c ++ sent /\
    forall msg' d later, empty_msg msg' -> incoming d = sent ++ later ->
      exists st3, recv_retry (fun _ => true) read_cb (stalls d) (msg', d) = Ret TLS13_IO_SUCCESS st3 /\
        carries st3.1 ty body /\ incoming st3.2 = later.
Proof.
  intros header Hne Hd Hty Hty0 Hb Hlen Hcs Hbody.
  assert (Hlen' : zlen body < 2 ^ 24) by (unfold TLS13_HANDSHAKE_MSG_MAX_LEN in Hlen; lia).
  destruct (msg_build_builds (hm_cbb msg) body_cbb ty cs body Hne Hty Hlen' Hcs Hbody h msg eq_refl Hd)
    as (h' & msg1 & Hbuild & _ & Hsend & _).
  destruct (send_retry_sends write_cb (wstalls c) msg1 c (wire ty body) Hsend ltac:(done) ltac:(done)) as (st2 & E2 & Hout).
  exists (wire ty body), (h', msg1), st2. do 3 (split; [done|]). intros msg' d later Hmsg' Hin.
  destruct (recv_retry_arrives (fun _ => true) read_cb ty body later Hty Hty0 Hb Hlen (stalls d) msg' d) as (st3 & E3 & Ha & Hi);
    [by apply empty_arriving|done..|].
  exists st3. split; [done|]. split; [by apply arrived_carries|done].
Qed.

(** ** Concrete runs *)

(** A reader of a stream cut into chunks: an empty chunk is a wait. *)
Definition chunk_read : tls_read_cb (list (list Z)) := fun n c =>
  match c with
  | [] => (TLS_IO_EOF, [], [])
  | [] :: c => (TLS_IO_WANT_POLLIN, [], c)
  | chunk :: c =>
      if zlen chunk <=? n then (zlen chunk, chunk, c) else (n, ztake n chunk, zdrop n chunk :: c)
  end.

Definition is_wait (chunk : list Z) : bool := match chunk with [] => true | _ => false end.

#[global] Instance chunk_reader : Reader chunk_read.
Proof.
  refine {| incoming := fun c => concat c; stalls := fun c => length (List.filter is_wait c) |}.
  intros n c ret octets c' Hn. unfold chunk_read. destruct c as [|[|x chunk] c]; cbn [concat List.filter is_wait length app].
  - intros [= <- <- <-]. split; [done|]. right. change (zlen []) with 0. unfold TLS_IO_EOF. split; [lia|]. split; [lia|]. split; [done|by left].
  - intros [= <- <- <-]. split; [lia|]. right. change (zlen []) with 0. unfold TLS_IO_WANT_POLLIN.
    split; [lia|]. split; [lia|]. split; [done|]. right. split; [lia|done].
  - pose proof (zlen_nonneg chunk). assert (Hx : zlen (x :: chunk) = 1 + zlen chunk) by apply zlen_cons.
    destruct (Z.leb_spec (zlen (x :: chunk)) n); intros [= <- <- <-].
    + split; [lia|]. left. split; [lia|]. split; done.
    + destruct (split_at (x :: chunk) n) as (l1 & l2 & E & Hl1 & _ & -> & ->); [lia|].
      assert (l2 <> []) by (intros ->; rewrite E, app_nil_r in *; lia).
      split; [by destruct l2|]. left. split; [lia|]. split; [done|]. cbn [concat]. rewrite app_assoc, <- E. done.
Defined.

(** A writer with a quota for each call, [0] for a wait, then without bound. *)
Definition quota_write : tls_write_cb (list Z * list Z) := fun octets '(quotas, sent) =>
  match quotas with
  | [] => (zlen octets, ([], sent ++ octets))
  | q :: quotas =>
      if q <=? 0 then (TLS_IO_WANT_POLLOUT, (quotas, sent))
      else (Z.min q (zlen octets), (quotas, sent ++ ztake q octets))
  end.

#[global] Instance quota_writer : Writer quota_write.
Proof.
  refine {| outgoing := snd; wstalls := fun c => length (List.filter (fun q => q <=? 0) c.1) |}.
  intros octets [quotas sent] ret c' Hne. unfold quota_write.
  assert (Hz : 0 < zlen octets).
  { pose proof (zlen_nonneg octets). assert (zlen octets <> 0) by (intros E%zlen_nil_inv; done). lia. }
  destruct quotas as [|q quotas]; cbn [fst snd List.filter].
  - intros [= <- <-]. split; [done|]. left. cbn [snd]. rewrite ztake_all by lia. split; [lia|done].
  - destruct (Z.leb_spec q 0); intros [= <- <-]; cbn [fst snd length].
    + split; [lia|]. right. split; [done|]. split; [done|lia].
    + split; [done|]. left. split; [lia|]. f_equal. destruct (Z.le_gt_cases q (zlen octets)).
      * by rewrite Z.min_l by lia.
      * by rewrite Z.min_r, !ztake_all by lia.
Defined.

Definition new_msg : tls13_handshake_msg := mkMsg 0 0 None 0 (mkTlsBuffer TLS_BUFFER_CAPACITY_LIMIT [] 0 0) null_CBS 0.

(** A message and the start of the next, in three records with two waits. *)
Definition chunks : list (list Z) := [[20; 0]; []; [0; 2; 7]; []; [8; 24; 0]].

Lemma tls13_handshake_msg_recv_reassembles_witness :
  recv_retry (fun _ => true) chunk_read (stalls chunks) (new_msg, chunks) =
    Ret TLS13_IO_SUCCESS (mkMsg 20 2 (Some [20; 0; 0; 2; 7; 8]) 6 (mkTlsBuffer TLS_BUFFER_CAPACITY_LIMIT [] 0 0) null_CBS 0, [[24; 0]]) /\
  exists st, recv_retry (fun _ => true) chunk_read (stalls chunks) (new_msg, chunks) = Ret TLS13_IO_SUCCESS st /\
    carries st.1 20 [7; 8] /\ incoming st.2 = [24; 0].
Proof.
  split; [by vm_compute|]. apply (tls13_handshake_msg_recv_reassembles chunk_read 20 [7; 8] [24; 0] new_msg chunks).
  - unfold is_byte. lia.
  - lia.
  - bytes_tac.
  - unfold TLS13_HANDSHAKE_MSG_MAX_LEN. zlen_lia.
  - by unfold empty_msg.
  - reflexivity.
Defined.

Definition finished_msg : tls13_handshake_msg :=
  mkMsg 0 0 (Some [20; 0; 0; 1; 9; 0; 0; 0]) 5 (mkTlsBuffer TLS_BUFFER_CAPACITY_LIMIT [] 0 0) (CBS_init [20; 0; 0; 1; 9; 0; 0; 0] 5) 0.

Definition quotas : list Z * list Z := ([0; 2; 0; 1], [1]).

Lemma tls13_handshake_msg_send_completes_witness :
  (exists msg, send_retry quota_write (wstalls quotas) (finished_msg, quotas) = Ret TLS13_IO_SUCCESS (msg, ([], [1; 20; 0; 0; 1; 9]))) /\
  exists st, send_retry quota_write (wstalls quotas) (finished_msg, quotas) = Ret TLS13_IO_SUCCESS st /\
    outgoing st.2 = outgoing quotas ++ [20; 0; 0; 1; 9].
Proof.
  split; [eexists; by vm_compute|].
  exact (tls13_handshake_msg_send_completes quota_write finished_msg quotas ltac:(done) ltac:(cbn; unfold zlen; cbn; lia)).
Defined.

Lemma tls13_handshake_msg_roundtrip_witness :
  exists sent st1 st2,
    msg_build 1 20 [U8 1 7; U16_prefixed 1 2; U8 2 8; Flush 1] (fun _ => true) (mkHeap ∅ ∅, new_msg) = Ret tt st1 /\
    send_retry quota_write (wstalls quotas) (st1.2, quotas) = Ret TLS13_IO_SUCCESS st2 /\ outgoing st2.2 = outgoing quotas ++ sent /\
    forall msg' d later, empty_msg msg' -> incoming d = sent ++ later ->
      exists st3, recv_retry (fun _ => true) chunk_read (stalls d) (msg', d) = Ret TLS13_IO_SUCCESS st3 /\
        carries st3.1 20 [7; 0; 1; 8] /\ incoming st3.2 = later.
Proof.
  apply (tls13_handshake_msg_roundtrip quota_write chunk_read 1 20 [U8 1 7; U16_prefixed 1 2; U8 2 8; Flush 1] [7; 0; 1; 8]
    (mkHeap ∅ ∅) new_msg quotas).
  - done.
  - done.
  - unfold is_byte. lia.
  - lia.
  - bytes_tac.
  - unfold TLS13_HANDSHAKE_MSG_MAX_LEN. zlen_lia.
  - repeat constructor; cbn; lia.
  - by vm_compute.
Defined.
