(* ===== verification/Tls13Handshake.v ===== *)
(** * The TLS 1.3 handshake: libssl/tls13_handshake.c

    The tables of the state machine, and [tls13_handshake_perform] with the
    functions it calls.  The two tables are literal; the functions of
    tls13_client.c and tls13_server.c that [state_machine] points to are names,
    run by [run_send], [run_sent] and [run_recv]; the record layer and the
    transcript are the operations of an [environment], whose state [E] is part of
    the context.  What these parameters promise is stated by classes below. *)

From stdpp Require Import gmap.
From S2P Require Import Prelude Cbs Cbb Builder TlsBuffer Tls13Msg.
Open Scope Z_scope.

(** ** Messages and flags: tls13_handshake.h *)

Definition INITIAL : Z := 0x00.
Definition NEGOTIATED : Z := 0x01.
Definition WITHOUT_HRR : Z := 0x02.
Definition WITHOUT_CR : Z := 0x04.
Definition WITH_PSK : Z := 0x08.
Definition WITH_CCV : Z := 0x10.

Inductive message_type : Type :=
  | INVALID
  | CLIENT_HELLO
  | SERVER_HELLO_RETRY_REQUEST
  | CLIENT_HELLO_RETRY
  | SERVER_HELLO
  | SERVER_ENCRYPTED_EXTENSIONS
  | SERVER_CERTIFICATE_REQUEST
  | SERVER_CERTIFICATE
  | SERVER_CERTIFICATE_VERIFY
  | SERVER_FINISHED
  | CLIENT_END_OF_EARLY_DATA
  | CLIENT_CERTIFICATE
  | CLIENT_CERTIFICATE_VERIFY
  | CLIENT_FINISHED
  | APPLICATION_DATA.

#[global] Instance message_type_eq_dec : EqDecision message_type.
Proof. solve_decision. Defined.

Definition TLS13_NUM_MESSAGE_TYPES : Z := 15.

Definition TLS13_MT_CLIENT_HELLO : Z := 1.
Definition TLS13_MT_SERVER_HELLO : Z := 2.
Definition TLS13_MT_END_OF_EARLY_DATA : Z := 5.
Definition TLS13_MT_ENCRYPTED_EXTENSIONS : Z := 8.
Definition TLS13_MT_CERTIFICATE : Z := 11.
Definition TLS13_MT_CERTIFICATE_REQUEST : Z := 13.
Definition TLS13_MT_CERTIFICATE_VERIFY : Z := 15.
Definition TLS13_MT_FINISHED : Z := 20.

Definition TLS13_HS_CLIENT : Z := 1.
Definition TLS13_HS_SERVER : Z := 2.

Definition TLS13_IO_USE_LEGACY : Z := -6.
Definition TLS13_ERR_TRAILING_DATA : Z := 18.
Definition TLS13_ALERT_UNEXPECTED_MESSAGE : Z := 10.
Definition TLS13_ALERT_DECODE_ERROR : Z := 50.
Definition TLS1_3_VERSION : Z := 0x0304.

(** ** The actions *)

Inductive send_handler : Type :=
  | tls13_client_hello_send
  | tls13_client_hello_retry_send
  | tls13_client_end_of_early_data_send
  | tls13_client_certificate_send
  | tls13_client_certificate_verify_send
  | tls13_client_finished_send
  | tls13_server_hello_send
  | tls13_server_hello_retry_request_send
  | tls13_server_encrypted_extensions_send
  | tls13_server_certificate_send
  | tls13_server_certificate_request_send
  | tls13_server_certificate_verify_send
  | tls13_server_finished_send.

Inductive sent_handler : Type :=
  | tls13_client_hello_sent
  | tls13_client_finished_sent
  | tls13_server_hello_sent
  | tls13_server_hello_retry_request_sent
  | tls13_server_finished_sent.

Inductive recv_handler : Type :=
  | tls13_client_hello_recv
  | tls13_client_hello_retry_recv
  | tls13_client_end_of_early_data_recv
  | tls13_client_certificate_recv
  | tls13_client_certificate_verify_recv
  | tls13_client_finished_recv
  | tls13_server_hello_recv
  | tls13_server_hello_retry_request_recv
  | tls13_server_encrypted_extensions_recv
  | tls13_server_certificate_recv
  | tls13_server_certificate_request_recv
  | tls13_server_certificate_verify_recv
  | tls13_server_finished_recv.

Record tls13_handshake_action : Type := mkAction {
  a_handshake_type : Z;
  a_sender : Z;
  a_handshake_complete : bool;
  a_send_preserve_transcript_hash : bool;
  a_recv_preserve_transcript_hash : bool;
  a_send : option send_handler;
  a_sent : option sent_handler;
  a_recv : option recv_handler;
}.

Definition state_machine (mt : message_type) : tls13_handshake_action :=
  match mt with
  | CLIENT_HELLO => mkAction TLS13_MT_CLIENT_HELLO TLS13_HS_CLIENT false false false
      (Some tls13_client_hello_send) (Some tls13_client_hello_sent) (Some tls13_client_hello_recv)
  | CLIENT_HELLO_RETRY => mkAction TLS13_MT_CLIENT_HELLO TLS13_HS_CLIENT false false false
      (Some tls13_client_hello_retry_send) None (Some tls13_client_hello_retry_recv)
  | CLIENT_END_OF_EARLY_DATA => mkAction TLS13_MT_END_OF_EARLY_DATA TLS13_HS_CLIENT false false false
      (Some tls13_client_end_of_early_data_send) None (Some tls13_client_end_of_early_data_recv)
  | CLIENT_CERTIFICATE => mkAction TLS13_MT_CERTIFICATE TLS13_HS_CLIENT false true false
      (Some tls13_client_certificate_send) None (Some tls13_client_certificate_recv)
  | CLIENT_CERTIFICATE_VERIFY => mkAction TLS13_MT_CERTIFICATE_VERIFY TLS13_HS_CLIENT false false true
      (Some tls13_client_certificate_verify_send) None (Some tls13_client_certificate_verify_recv)
  | CLIENT_FINISHED => mkAction TLS13_MT_FINISHED TLS13_HS_CLIENT false false true
      (Some tls13_client_finished_send) (Some tls13_client_finished_sent) (Some tls13_client_finished_recv)
  | SERVER_HELLO => mkAction TLS13_MT_SERVER_HELLO TLS13_HS_SERVER false false false
      (Some tls13_server_hello_send) (Some tls13_server_hello_sent) (Some tls13_server_hello_recv)
  | SERVER_HELLO_RETRY_REQUEST => mkAction TLS13_MT_SERVER_HELLO TLS13_HS_SERVER false false false
      (Some tls13_server_hello_retry_request_send) (Some tls13_server_hello_retry_request_sent)
      (Some tls13_server_hello_retry_request_recv)
  | SERVER_ENCRYPTED_EXTENSIONS => mkAction TLS13_MT_ENCRYPTED_EXTENSIONS TLS13_HS_SERVER false false false
      (Some tls13_server_encrypted_extensions_send) None (Some tls13_server_encrypted_extensions_recv)
  | SERVER_CERTIFICATE => mkAction TLS13_MT_CERTIFICATE TLS13_HS_SERVER false true false
      (Some tls13_server_certificate_send) None (Some tls13_server_certificate_recv)
  | SERVER_CERTIFICATE_REQUEST => mkAction TLS13_MT_CERTIFICATE_REQUEST TLS13_HS_SERVER false false false
      (Some tls13_server_certificate_request_send) None (Some tls13_server_certificate_request_recv)
  | SERVER_CERTIFICATE_VERIFY => mkAction TLS13_MT_CERTIFICATE_VERIFY TLS13_HS_SERVER false false true
      (Some tls13_server_certificate_verify_send) None (Some tls13_server_certificate_verify_recv)
  | SERVER_FINISHED => mkAction TLS13_MT_FINISHED TLS13_HS_SERVER false true true
      (Some tls13_server_finished_send) (Some tls13_server_finished_sent) (Some tls13_server_finished_recv)
  | APPLICATION_DATA => mkAction 0 0 true false false None None None
  | INVALID => mkAction 0 0 false false false None None None
  end.

(** The rows of [handshakes]; the entries not written in the source are 0,
    that is [INVALID]. *)
Definition handshakes (hs_type : Z) : list message_type :=
  let row l := l ++ replicate (15 - length l) INVALID in
  if hs_type =? INITIAL then
    row [CLIENT_HELLO; SERVER_HELLO_RETRY_REQUEST; CLIENT_HELLO_RETRY; SERVER_HELLO]
  else if hs_type =? NEGOTIATED then
    row [CLIENT_HELLO; SERVER_HELLO_RETRY_REQUEST; CLIENT_HELLO_RETRY; SERVER_HELLO; SERVER_ENCRYPTED_EXTENSIONS;
         SERVER_CERTIFICATE_REQUEST; SERVER_CERTIFICATE; SERVER_CERTIFICATE_VERIFY; SERVER_FINISHED;
         CLIENT_CERTIFICATE; CLIENT_FINISHED; APPLICATION_DATA]
  else if hs_type =? Z.lor NEGOTIATED WITHOUT_HRR then
    row [CLIENT_HELLO; SERVER_HELLO; SERVER_ENCRYPTED_EXTENSIONS; SERVER_CERTIFICATE_REQUEST; SERVER_CERTIFICATE;
         SERVER_CERTIFICATE_VERIFY; SERVER_FINISHED; CLIENT_CERTIFICATE; CLIENT_FINISHED; APPLICATION_DATA]
  else if hs_type =? Z.lor NEGOTIATED WITHOUT_CR then
    row [CLIENT_HELLO; SERVER_HELLO_RETRY_REQUEST; CLIENT_HELLO_RETRY; SERVER_HELLO; SERVER_ENCRYPTED_EXTENSIONS;
         SERVER_CERTIFICATE; SERVER_CERTIFICATE_VERIFY; SERVER_FINISHED; CLIENT_FINISHED; APPLICATION_DATA]
  else if hs_type =? Z.lor (Z.lor NEGOTIATED WITHOUT_HRR) WITHOUT_CR then
    row [CLIENT_HELLO; SERVER_HELLO; SERVER_ENCRYPTED_EXTENSIONS; SERVER_CERTIFICATE; SERVER_CERTIFICATE_VERIFY;
         SERVER_FINISHED; CLIENT_FINISHED; APPLICATION_DATA]
  else if hs_type =? Z.lor NEGOTIATED WITH_PSK then
    row [CLIENT_HELLO; SERVER_HELLO_RETRY_REQUEST; CLIENT_HELLO_RETRY; SERVER_HELLO; SERVER_ENCRYPTED_EXTENSIONS;
         SERVER_FINISHED; CLIENT_FINISHED; APPLICATION_DATA]
  else if hs_type =? Z.lor (Z.lor NEGOTIATED WITHOUT_HRR) WITH_PSK then
    row [CLIENT_HELLO; SERVER_HELLO; SERVER_ENCRYPTED_EXTENSIONS; SERVER_FINISHED; CLIENT_FINISHED; APPLICATION_DATA]
  else if hs_type =? Z.lor NEGOTIATED WITH_CCV then
    row [CLIENT_HELLO; SERVER_HELLO_RETRY_REQUEST; CLIENT_HELLO_RETRY; SERVER_HELLO; SERVER_ENCRYPTED_EXTENSIONS;
         SERVER_CERTIFICATE_REQUEST; SERVER_CERTIFICATE; SERVER_CERTIFICATE_VERIFY; SERVER_FINISHED;
         CLIENT_CERTIFICATE; CLIENT_CERTIFICATE_VERIFY; CLIENT_FINISHED; APPLICATION_DATA]
  else if hs_type =? Z.lor (Z.lor NEGOTIATED WITHOUT_HRR) WITH_CCV then
    row [CLIENT_HELLO; SERVER_HELLO; SERVER_ENCRYPTED_EXTENSIONS; SERVER_CERTIFICATE_REQUEST; SERVER_CERTIFICATE;
         SERVER_CERTIFICATE_VERIFY; SERVER_FINISHED; CLIENT_CERTIFICATE; CLIENT_CERTIFICATE_VERIFY; CLIENT_FINISHED;
         APPLICATION_DATA]
  else row [].

(** One more than the largest index of the initializer. *)
Definition handshake_count : Z := Z.lor (Z.lor NEGOTIATED WITHOUT_HRR) WITH_CCV + 1.

(** ** The context *)

Record tls13_handshake_stage : Type := mkStage { hs_type : Z; message_number : Z }.

(** The members of [tls13_ctx] that the handshake uses; [ctx->hs->state] is
    [cx_state], the code of [ctx->error] is [cx_error]. *)
Record tls13_ctx {E : Type} : Type := mkCtx {
  cx_mode : Z;
  cx_stage : tls13_handshake_stage;
  cx_started : bool;
  cx_completed : bool;
  cx_need_flush : bool;
  cx_send_dummy_ccs : bool;
  cx_send_dummy_ccs_after : bool;
  cx_hs_msg : option tls13_handshake_msg;
  cx_alert : Z;
  cx_error : Z;
  cx_state : Z;
  cx_heap : heap;
  cx_env : E;
}.
Arguments tls13_ctx E : clear implicits.
Arguments mkCtx {E}.
#[global] Instance ctx_eta {E} : Eta (tls13_ctx E) := fun c =>
  mkCtx (cx_mode c) (cx_stage c) (cx_started c) (cx_completed c) (cx_need_flush c) (cx_send_dummy_ccs c)
    (cx_send_dummy_ccs_after c) (cx_hs_msg c) (cx_alert c) (cx_error c) (cx_state c) (cx_heap c) (cx_env c).

(** The record layer, the transcript and the application's callbacks, which see
    the context and may change what the environment holds. *)
Record environment {E : Type} : Type := mkEnvironment {
  tls13_record_layer_flush : E -> Z * E;
  tls13_record_layer_handshake_completed : E -> E;
  tls13_send_dummy_ccs : E -> Z * E;
  tls13_send_alert : Z -> E -> Z * E;
  tls13_read_handshake_data : tls_read_cb E;
  tls13_write_handshake_data : tls_write_cb E;
  tls1_transcript_record : list Z -> E -> bool * E;
  tls1_transcript_hash_value : E -> bool * E;
  method_version : E -> Z;
  handshake_message_sent_cb : option (tls13_ctx E -> E);
  handshake_message_recv_cb : option (tls13_ctx E -> E);
  info_cb : option (tls13_ctx E -> Z -> Z -> E);
}.
Arguments environment E : clear implicits.
Arguments mkEnvironment {E}.

Section setters.
Context {E : Type}.
Implicit Types ctx : tls13_ctx E.

Definition set_stage (x : tls13_handshake_stage) ctx : tls13_ctx E := ctx <| cx_stage := x |>.
Definition set_started (x : bool) ctx : tls13_ctx E := ctx <| cx_started := x |>.
Definition set_completed (x : bool) ctx : tls13_ctx E := ctx <| cx_completed := x |>.
Definition set_need_flush (x : bool) ctx : tls13_ctx E := ctx <| cx_need_flush := x |>.
Definition set_send_dummy_ccs (x : bool) ctx : tls13_ctx E := ctx <| cx_send_dummy_ccs := x |>.
Definition set_send_dummy_ccs_after (x : bool) ctx : tls13_ctx E := ctx <| cx_send_dummy_ccs_after := x |>.
Definition set_hs_msg (x : option tls13_handshake_msg) ctx : tls13_ctx E := ctx <| cx_hs_msg := x |>.
Definition set_alert (x : Z) ctx : tls13_ctx E := ctx <| cx_alert := x |>.
Definition set_error (x : Z) ctx : tls13_ctx E := ctx <| cx_error := x |>.
Definition set_state (x : Z) ctx : tls13_ctx E := ctx <| cx_state := x |>.
Definition set_heap (x : heap) ctx : tls13_ctx E := ctx <| cx_heap := x |>.
Definition set_env (x : E) ctx : tls13_ctx E := ctx <| cx_env := x |>.

(** An operation on the CBB objects. *)
Definition on_heap {A} (m : M heap A) : M (tls13_ctx E) A := fun ctx =>
  match m (cx_heap ctx) with
  | Ret a h => Ret a (set_heap h ctx)
  | Fail h => Fail (set_heap h ctx)
  | UB => UB
  end.

(** An operation on [ctx->hs_msg], which is dereferenced, and CBB objects. *)
Definition on_msg {A} (m : M (heap * tls13_handshake_msg) A) : M (tls13_ctx E) A := fun ctx =>
  match cx_hs_msg ctx with
  | None => UB
  | Some msg =>
      match m (cx_heap ctx, msg) with
      | Ret a (h, msg) => Ret a (set_heap h (set_hs_msg (Some msg) ctx))
      | Fail (h, msg) => Fail (set_heap h (set_hs_msg (Some msg) ctx))
      | UB => UB
      end
  end.

(** An operation on [ctx->hs_msg] and [ctx->rl]. *)
Definition on_msg_rl {A} (m : M (tls13_handshake_msg * E) A) : M (tls13_ctx E) A := fun ctx =>
  match cx_hs_msg ctx with
  | None => UB
  | Some msg =>
      match m (msg, cx_env ctx) with
      | Ret a (msg, e) => Ret a (set_env e (set_hs_msg (Some msg) ctx))
      | Fail (msg, e) => Fail (set_env e (set_hs_msg (Some msg) ctx))
      | UB => UB
      end
  end.

(** An operation of the environment. *)
Definition on_env {A} (f : E -> A * E) : M (tls13_ctx E) A := fun ctx =>
  let '(a, e) := f (cx_env ctx) in Ret a (set_env e ctx).
End setters.

(** ** The functions *)

Section handshake.
Context (malloc_ok : Z -> bool) {E : Type} (env : environment E).
Context (run_send : send_handler -> ptr -> M (tls13_ctx E) unit).
Context (run_sent : sent_handler -> M (tls13_ctx E) unit).
(** A receive handler returns the CBS as it leaves it. *)
Context (run_recv : recv_handler -> CBS -> M (tls13_ctx E) CBS).
Implicit Types ctx : tls13_ctx E.

Definition stage_state (hs : tls13_handshake_stage) : message_type :=
  if handshake_count <=? hs_type hs then INVALID
  else if TLS13_NUM_MESSAGE_TYPES <=? message_number hs then INVALID
  else default INVALID (zget (handshakes (hs_type hs)) (message_number hs)).

Definition tls13_handshake_active_state ctx : message_type := stage_state (cx_stage ctx).

Definition tls13_handshake_active_action ctx : option tls13_handshake_action :=
  let mt := tls13_handshake_active_state ctx in
  if decide (mt = INVALID) then None else Some (state_machine mt).

(** [message_number] is a [uint8_t]. *)
Definition tls13_handshake_advance_state_machine : M (tls13_ctx E) bool :=
  modify (fun ctx => set_stage (mkStage (hs_type (cx_stage ctx)) (u8 (message_number (cx_stage ctx) + 1))) ctx);;
  gets (fun ctx => negb (TLS13_NUM_MESSAGE_TYPES <=? message_number (cx_stage ctx))).

Definition tls13_handshake_end_of_flight (previous : tls13_handshake_action) ctx : bool :=
  match tls13_handshake_active_action ctx with
  | None => true
  | Some current => negb (a_sender current =? a_sender previous)
  end.

Definition tls13_handshake_msg_record : M (tls13_ctx E) bool :=
  msg ← gets cx_hs_msg;
  msg ← valid msg;
  let cbs := tls13_handshake_msg_data msg in
  octets ← read_bytes (CBS_data cbs) (CBS_len cbs);
  on_env (tls1_transcript_record env octets).

Definition SSL_ST_CONNECT : Z := 0x1000.
Definition SSL_ST_ACCEPT : Z := 0x2000.
Definition SSL_ST_OK : Z := 0x03.

(** [legacy_states]: the members [recv] and [send]. *)
Definition legacy_states (mt : message_type) : Z * Z :=
  match mt with
  | CLIENT_HELLO => (Z.lor 0x110 SSL_ST_ACCEPT, Z.lor 0x110 SSL_ST_CONNECT)
  | SERVER_HELLO_RETRY_REQUEST => (Z.lor 0x120 SSL_ST_CONNECT, Z.lor 0x130 SSL_ST_ACCEPT)
  | CLIENT_HELLO_RETRY => (Z.lor 0x110 SSL_ST_ACCEPT, Z.lor 0x110 SSL_ST_CONNECT)
  | SERVER_HELLO => (Z.lor 0x120 SSL_ST_CONNECT, Z.lor 0x130 SSL_ST_ACCEPT)
  | SERVER_CERTIFICATE_REQUEST => (Z.lor 0x150 SSL_ST_CONNECT, Z.lor 0x160 SSL_ST_ACCEPT)
  | SERVER_CERTIFICATE => (Z.lor 0x130 SSL_ST_CONNECT, Z.lor 0x140 SSL_ST_ACCEPT)
  | SERVER_FINISHED => (Z.lor 0x1D0 SSL_ST_CONNECT, Z.lor 0x1E0 SSL_ST_ACCEPT)
  | CLIENT_CERTIFICATE => (Z.lor 0x1A0 SSL_ST_ACCEPT, Z.lor 0x191 SSL_ST_CONNECT)
  | CLIENT_FINISHED => (Z.lor 0x1C0 SSL_ST_ACCEPT, Z.lor 0x1B0 SSL_ST_CONNECT)
  | _ => (0, 0)
  end.

(** [None]: the function returns 0. *)
Definition tls13_handshake_legacy_state ctx : option Z :=
  if negb (cx_started ctx) then
    Some (if cx_mode ctx =? TLS13_HS_CLIENT then SSL_ST_CONNECT else SSL_ST_ACCEPT)
  else if cx_completed ctx then Some SSL_ST_OK
  else
    let mt := tls13_handshake_active_state ctx in
    if decide (mt = INVALID) then None
    else
      match tls13_handshake_active_action ctx with
      | None => None
      | Some action =>
          Some (if a_sender action =? cx_mode ctx then (legacy_states mt).2 else (legacy_states mt).1)
      end.

Definition TLS13_INFO_HANDSHAKE_STARTED : Z := 0x10.
Definition TLS13_INFO_HANDSHAKE_COMPLETED : Z := 0x20.
Definition TLS13_INFO_ACCEPT_LOOP : Z := Z.lor SSL_ST_ACCEPT 0x01.
Definition TLS13_INFO_CONNECT_LOOP : Z := Z.lor SSL_ST_CONNECT 0x01.

Definition tls13_handshake_info_position ctx : Z :=
  if negb (cx_started ctx) then TLS13_INFO_HANDSHAKE_STARTED
  else if cx_completed ctx then TLS13_INFO_HANDSHAKE_COMPLETED
  else if cx_mode ctx =? TLS13_HS_CLIENT then TLS13_INFO_CONNECT_LOOP
  else TLS13_INFO_ACCEPT_LOOP.

Definition tls13_handshake_legacy_info_callback : M (tls13_ctx E) bool :=
  ctx ← gets id;
  match tls13_handshake_legacy_state ctx with
  | None => mret false
  | Some state =>
      if state =? 0 then mret true
      else
        (match info_cb env with
         | Some cb => modify (set_env (cb ctx (tls13_handshake_info_position ctx) 1))
         | None => mret tt
         end);;
        mret true
  end.

Definition tls13_handshake_set_legacy_state : M (tls13_ctx E) bool :=
  ctx ← gets id;
  match tls13_handshake_legacy_state ctx with
  | None => mret false
  | Some state => (if state =? 0 then mret tt else modify (set_state state));; mret true
  end.

(** [None] to go on, [Some ret] to return [ret]. *)
Definition early {S} (m : M S (option Z)) (k : M S Z) : M S Z :=
  r ← m;
  match r with Some ret => mret ret | None => k end.
Definition return_unless {S} (b : bool) (ret : Z) : M S (option Z) := mret (if b then None else Some ret).
(** [if (!f(ctx)) return TLS13_IO_FAILURE;] *)
Definition or_failure {S} (m : M S bool) : M S (option Z) := ok ← m; return_unless ok TLS13_IO_FAILURE.

(** An address for a new CBB object. *)
Definition fresh_cbb : M (tls13_ctx E) ptr := gets (fun ctx => fresh (dom (cbbs (cx_heap ctx)))).
(** The end of the block of a local CBB. *)
Definition drop_cbb (cbb : ptr) : M (tls13_ctx E) unit :=
  modify (fun ctx => set_heap (mkHeap (bases (cx_heap ctx)) (delete cbb (cbbs (cx_heap ctx)))) ctx).

(** [(ctx->hs_msg = tls13_handshake_msg_new()) != NULL] *)
Definition hs_msg_new : M (tls13_ctx E) bool :=
  p ← fresh_cbb;
  msg ← try (on_heap (tls13_handshake_msg_new malloc_ok p));
  modify (set_hs_msg msg);;
  mret (bool_decide (msg <> None)).

(** [tls13_handshake_msg_free(ctx->hs_msg); ctx->hs_msg = NULL;] *)
Definition hs_msg_free : M (tls13_ctx E) unit :=
  msg ← gets cx_hs_msg;
  (match msg with Some msg => on_heap (tls13_handshake_msg_free msg) | None => mret tt end);;
  modify (set_hs_msg None).

(** *** Sending *)

Definition send_pending_ccs : M (tls13_ctx E) (option Z) :=
  ctx ← gets id;
  if cx_send_dummy_ccs ctx then
    ret ← on_env (tls13_send_dummy_ccs env);
    if negb (ret =? TLS13_IO_SUCCESS) then mret (Some ret)
    else
      modify (set_send_dummy_ccs false);;
      if cx_send_dummy_ccs_after ctx then
        modify (set_send_dummy_ccs_after false);; mret (Some TLS13_IO_SUCCESS)
      else mret None
  else mret None.

Definition send_build (action : tls13_handshake_action) : M (tls13_ctx E) (option Z) :=
  msg ← gets cx_hs_msg;
  match msg with
  | Some _ => mret None
  | None =>
      ok ← hs_msg_new;
      if negb ok then mret (Some TLS13_IO_FAILURE)
      else
        cbb ← fresh_cbb;
        built ← try (on_msg (tls13_handshake_msg_start malloc_ok cbb (a_handshake_type action));;
                     send ← valid (a_send action);
                     run_send send cbb;;
                     on_msg (tls13_handshake_msg_finish malloc_ok));
        drop_cbb cbb;;
        return_unless (bool_decide (built <> None)) TLS13_IO_FAILURE
  end.

Definition preserve_transcript_hash (preserve : bool) : M (tls13_ctx E) (option Z) :=
  if preserve then or_failure (on_env (tls1_transcript_hash_value env)) else mret None.

Definition message_cb (cb : option (tls13_ctx E -> E)) : M (tls13_ctx E) unit :=
  match cb with Some cb => modify (fun ctx => set_env (cb ctx) ctx) | None => mret tt end.

Definition send_ccs_after : M (tls13_ctx E) Z :=
  ctx ← gets id;
  if cx_send_dummy_ccs_after ctx then
    modify (set_send_dummy_ccs true);;
    ret ← on_env (tls13_send_dummy_ccs env);
    if negb (ret =? TLS13_IO_SUCCESS) then mret ret
    else
      modify (set_send_dummy_ccs false);;
      modify (set_send_dummy_ccs_after false);;
      mret TLS13_IO_SUCCESS
  else mret TLS13_IO_SUCCESS.

Definition tls13_handshake_send_action (action : tls13_handshake_action) : M (tls13_ctx E) Z :=
  early send_pending_ccs (
  early (send_build action) (
  ret ← on_msg_rl (tls13_handshake_msg_send (tls13_write_handshake_data env));
  if ret <=? 0 then mret ret
  else
    early (or_failure tls13_handshake_msg_record) (
    early (preserve_transcript_hash (a_send_preserve_transcript_hash action)) (
    message_cb (handshake_message_sent_cb env);;
    hs_msg_free;;
    sent ← (match a_sent action with Some sent => try (run_sent sent) | None => mret (Some tt) end);
    match sent with
    | None => mret TLS13_IO_FAILURE
    | Some _ => send_ccs_after
    end)))).

(** *** Receiving *)

Definition unexpected (msg_type : Z) (action : tls13_handshake_action) : bool :=
  negb (msg_type =? a_handshake_type action) &&
  (negb (msg_type =? TLS13_MT_CERTIFICATE) || negb (a_handshake_type action =? TLS13_MT_CERTIFICATE_REQUEST)).

(** From the handler to the label [err]. *)
Definition recv_handle (action : tls13_handshake_action) (cbs : CBS) : M (tls13_ctx E) Z :=
  recv ← valid (a_recv action);
  handled ← try (run_recv recv cbs);
  ret ← (match handled with
         | None => mret TLS13_IO_FAILURE
         | Some cbs =>
             if negb (CBS_len cbs =? 0) then
               modify (set_error TLS13_ERR_TRAILING_DATA);;
               modify (set_alert TLS13_ALERT_DECODE_ERROR);;
               mret TLS13_IO_FAILURE
             else
               version ← gets (fun ctx => method_version env (cx_env ctx));
               mret (if version <? TLS1_3_VERSION then TLS13_IO_USE_LEGACY else TLS13_IO_SUCCESS)
         end);
  hs_msg_free;;
  mret ret.

Definition tls13_handshake_recv_action (action : tls13_handshake_action) : M (tls13_ctx E) Z :=
  msg ← gets cx_hs_msg;
  early (match msg with None => or_failure hs_msg_new | Some _ => mret None end) (
  ret ← on_msg_rl (tls13_handshake_msg_recv malloc_ok (tls13_read_handshake_data env));
  if ret <=? 0 then mret ret
  else
    early (preserve_transcript_hash (a_recv_preserve_transcript_hash action)) (
    early (or_failure tls13_handshake_msg_record) (
    message_cb (handshake_message_recv_cb env);;
    msg ← gets cx_hs_msg;
    msg ← valid msg;
    if unexpected (tls13_handshake_msg_type msg) action then
      on_env (tls13_send_alert env TLS13_ALERT_UNEXPECTED_MESSAGE)
    else
      match tls13_handshake_msg_content msg with
      | Ret _ cbs => recv_handle action cbs
      | Fail _ => mret TLS13_IO_FAILURE
      | UB => ub
      end))).

(** *** The loop *)

Definition perform_start : M (tls13_ctx E) (option Z) :=
  ctx ← gets id;
  if negb (cx_started ctx) then
    ok ← tls13_handshake_set_legacy_state;
    if negb ok then mret (Some TLS13_IO_FAILURE)
    else
      ok ← tls13_handshake_legacy_info_callback;
      if negb ok then mret (Some TLS13_IO_FAILURE)
      else
        modify (set_started true);;
        or_failure tls13_handshake_set_legacy_state
  else mret None.

Definition perform_flush : M (tls13_ctx E) (option Z) :=
  ctx ← gets id;
  if cx_need_flush ctx then
    ret ← on_env (tls13_record_layer_flush env);
    if negb (ret =? TLS13_IO_SUCCESS) then mret (Some ret)
    else modify (set_need_flush false);; mret None
  else mret None.

Definition perform_complete : M (tls13_ctx E) Z :=
  modify (set_completed true);;
  modify (fun ctx => set_env (tls13_record_layer_handshake_completed env (cx_env ctx)) ctx);;
  early (or_failure tls13_handshake_set_legacy_state) (
  early (or_failure tls13_handshake_legacy_info_callback) (
  mret TLS13_IO_SUCCESS)).

(** [if (ctx->alert != 0) return tls13_send_alert(ctx->rl, ctx->alert);] *)
Definition perform_alert : M (tls13_ctx E) (option Z) :=
  ctx ← gets id;
  if negb (cx_alert ctx =? 0) then
    ret ← on_env (tls13_send_alert env (cx_alert ctx));
    mret (Some ret)
  else mret None.

(** The rest of an iteration after the action succeeded. *)
Definition perform_advance (action : tls13_handshake_action) (sending : bool) : M (tls13_ctx E) (option Z) :=
  ok ← tls13_handshake_legacy_info_callback;
  if negb ok then mret (Some TLS13_IO_FAILURE)
  else
    ok ← tls13_handshake_advance_state_machine;
    if negb ok then mret (Some TLS13_IO_FAILURE)
    else
      (if sending then modify (fun ctx => set_need_flush (tls13_handshake_end_of_flight action ctx) ctx) else mret tt);;
      or_failure tls13_handshake_set_legacy_state.

(** One iteration of [for (;;)], going on with [k]. *)
Definition perform_iteration (k : M (tls13_ctx E) Z) : M (tls13_ctx E) Z :=
  action ← gets tls13_handshake_active_action;
  match action with
  | None => mret TLS13_IO_FAILURE
  | Some action =>
      early perform_flush (
      if a_handshake_complete action then perform_complete
      else
        sending ← gets (fun ctx => a_sender action =? cx_mode ctx);
        early perform_alert (
        ret ← (if sending then tls13_handshake_send_action action else tls13_handshake_recv_action action);
        early perform_alert (
        if ret <=? 0 then mret ret
        else early (perform_advance action sending) k)))
  end.

Fixpoint perform_loop (fuel : nat) : M (tls13_ctx E) Z :=
  match fuel with
  | O => ub
  | S fuel => perform_iteration (perform_loop fuel)
  end.

(** Each iteration that goes on advances [message_number]. *)
Definition tls13_handshake_perform : M (tls13_ctx E) Z :=
  early perform_start (perform_loop (Z.to_nat TLS13_NUM_MESSAGE_TYPES)).
End handshake.

(** ** What the handlers and the environment promise *)

(** The flags a handler may add to [hs_type] when it succeeds, as in
    tls13_client.c and tls13_server.c. *)
Definition send_flags (f : send_handler) : list Z :=
  match f with
  | tls13_client_certificate_send => [0; WITH_CCV]
  | _ => [0]
  end.

Definition sent_flags (f : sent_handler) : list Z :=
  match f with
  | tls13_server_hello_sent => [NEGOTIATED; Z.lor NEGOTIATED WITHOUT_CR]
  | _ => [0]
  end.

Definition recv_flags (f : recv_handler) : list Z :=
  match f with
  | tls13_server_hello_retry_request_recv => [0; Z.lor WITHOUT_HRR NEGOTIATED]
  | tls13_server_hello_recv => [NEGOTIATED]
  | tls13_server_certificate_request_recv => [0; WITHOUT_CR]
  | tls13_client_hello_recv => [0; Z.lor NEGOTIATED WITHOUT_HRR]
  | tls13_client_certificate_recv => [0; WITH_CCV]
  | _ => [0]
  end.

Section promises.
Context {E : Type}.
Implicit Types ctx : tls13_ctx E.

(** What no handler changes. *)
Definition framed ctx ctx' : Prop :=
  cx_mode ctx' = cx_mode ctx /\ message_number (cx_stage ctx') = message_number (cx_stage ctx) /\
  cx_hs_msg ctx' = cx_hs_msg ctx.

Definition flagged (flags : list Z) ctx ctx' : Prop :=
  exists f, f ∈ flags /\ hs_type (cx_stage ctx') = Z.lor (hs_type (cx_stage ctx)) f.

Definition same_ccs ctx ctx' : Prop :=
  cx_send_dummy_ccs ctx' = cx_send_dummy_ccs ctx /\ cx_send_dummy_ccs_after ctx' = cx_send_dummy_ccs_after ctx.

(** Whose message a receive handler is for, and the types the message may have:
    a client takes a Certificate where a CertificateRequest may come. *)
Definition recv_expects (f : recv_handler) : Z * list Z :=
  match f with
  | tls13_client_hello_recv | tls13_client_hello_retry_recv => (TLS13_HS_CLIENT, [TLS13_MT_CLIENT_HELLO])
  | tls13_client_end_of_early_data_recv => (TLS13_HS_CLIENT, [TLS13_MT_END_OF_EARLY_DATA])
  | tls13_client_certificate_recv => (TLS13_HS_CLIENT, [TLS13_MT_CERTIFICATE])
  | tls13_client_certificate_verify_recv => (TLS13_HS_CLIENT, [TLS13_MT_CERTIFICATE_VERIFY])
  | tls13_client_finished_recv => (TLS13_HS_CLIENT, [TLS13_MT_FINISHED])
  | tls13_server_hello_recv | tls13_server_hello_retry_request_recv => (TLS13_HS_SERVER, [TLS13_MT_SERVER_HELLO])
  | tls13_server_encrypted_extensions_recv => (TLS13_HS_SERVER, [TLS13_MT_ENCRYPTED_EXTENSIONS])
  | tls13_server_certificate_recv => (TLS13_HS_SERVER, [TLS13_MT_CERTIFICATE])
  | tls13_server_certificate_request_recv => (TLS13_HS_SERVER, [TLS13_MT_CERTIFICATE_REQUEST; TLS13_MT_CERTIFICATE])
  | tls13_server_certificate_verify_recv => (TLS13_HS_SERVER, [TLS13_MT_CERTIFICATE_VERIFY])
  | tls13_server_finished_recv => (TLS13_HS_SERVER, [TLS13_MT_FINISHED])
  end.

(** What a receive handler may rely on: it sees the whole body of a message of
    the peer, of a type it is for. *)
Definition delivered (f : recv_handler) (cbs : CBS) ctx : Prop :=
  (recv_expects f).1 <> cx_mode ctx /\
  exists msg, cx_hs_msg ctx = Some msg /\ tls13_handshake_msg_type msg ∈ (recv_expects f).2 /\
    tls13_handshake_msg_content msg = Ret tt cbs.

(** The builder calls of a handler, on the CBB of the body. *)
Definition writes ctx (cbb : ptr) (cs : list cmd) : Prop :=
  Forall cmd_ok cs /\
  forall msg ty, cx_hs_msg ctx = Some msg -> hm_cbb msg <> cbb -> is_byte ty -> build (hm_cbb msg) (msg_cmds (hm_cbb msg) cbb ty cs) <> UB.

Class Handlers (malloc_ok : Z -> bool) (env : environment E)
    (run_send : send_handler -> ptr -> M (tls13_ctx E) unit)
    (run_sent : sent_handler -> M (tls13_ctx E) unit)
    (run_recv : recv_handler -> CBS -> M (tls13_ctx E) CBS) : Prop := {
  send_law : forall f cbb ctx, exists cs, writes ctx cbb cs /\
    (exec_all malloc_ok cs (cx_heap ctx) <> UB ->
     wp (run_send f cbb) ctx
      (fun _ ctx' => framed ctx ctx' /\ flagged (send_flags f) ctx ctx' /\ same_ccs ctx ctx' /\
         exec_all malloc_ok cs (cx_heap ctx) = Ret tt (cx_heap ctx'))
      (fun ctx' => framed ctx ctx' /\
         (exec_all malloc_ok cs (cx_heap ctx) = Ret tt (cx_heap ctx') \/
          exec_all malloc_ok cs (cx_heap ctx) = Fail (cx_heap ctx'))));
  sent_law : forall f ctx,
    wp (run_sent f) ctx
      (fun _ ctx' => framed ctx ctx' /\ flagged (sent_flags f) ctx ctx' /\ cx_heap ctx' = cx_heap ctx)
      (fun ctx' => framed ctx ctx' /\ cx_heap ctx' = cx_heap ctx);
  (** A handler that fell back to the legacy stack is not followed by another
      message of this state machine. *)
  recv_law : forall f cbs ctx, delivered f cbs ctx ->
    wp (run_recv f cbs) ctx
      (fun _ ctx' => framed ctx ctx' /\ cx_heap ctx' = cx_heap ctx /\
         (TLS1_3_VERSION <= method_version env (cx_env ctx') -> flagged (recv_flags f) ctx ctx' /\ same_ccs ctx ctx'))
      (fun ctx' => framed ctx ctx' /\ cx_heap ctx' = cx_heap ctx);
}.

Class Environment (env : environment E) : Prop := {
  read_bounded : bounded_reader (tls13_read_handshake_data env);
  (** The change of cipher spec is sent or not. *)
  ccs_result : forall e, (tls13_send_dummy_ccs env e).1 = TLS13_IO_SUCCESS \/ (tls13_send_dummy_ccs env e).1 <= 0;
  (** An alert for an unexpected message is fatal. *)
  alert_fatal : forall e, (tls13_send_alert env TLS13_ALERT_UNEXPECTED_MESSAGE e).1 <= 0;
}.
End promises.

(** ** The handshakes of RFC 8446 *)

(** Section 2 of the RFC: with a HelloRetryRequest or not, with a pre-shared
    key, with a certificate request, with a client certificate. *)
Definition rfc8446 (hrr psk cr cv : bool) : list message_type :=
  [CLIENT_HELLO] ++ (if hrr then [SERVER_HELLO_RETRY_REQUEST; CLIENT_HELLO_RETRY] else []) ++
  [SERVER_HELLO; SERVER_ENCRYPTED_EXTENSIONS] ++
  (if psk then []
   else (if cr then [SERVER_CERTIFICATE_REQUEST] else []) ++ [SERVER_CERTIFICATE; SERVER_CERTIFICATE_VERIFY]) ++
  [SERVER_FINISHED] ++
  (if cr then [CLIENT_CERTIFICATE] ++ (if cv then [CLIENT_CERTIFICATE_VERIFY] else []) else []) ++
  [CLIENT_FINISHED; APPLICATION_DATA].

Definition history (st : tls13_handshake_stage) : list message_type :=
  ztake (message_number st) (handshakes (hs_type st)).

(** The stages in which a handshake that did not fail can be. *)
Definition stages : list (Z * Z * Z) :=
  [(INITIAL, 0, 3); (NEGOTIATED, 3, 11); (Z.lor NEGOTIATED WITHOUT_HRR, 0, 9); (Z.lor NEGOTIATED WITHOUT_CR, 3, 9);
   (Z.lor (Z.lor NEGOTIATED WITHOUT_HRR) WITHOUT_CR, 1, 7); (Z.lor NEGOTIATED WITH_CCV, 9, 12);
   (Z.lor (Z.lor NEGOTIATED WITHOUT_HRR) WITH_CCV, 7, 10)].

Definition ready (st : tls13_handshake_stage) : bool :=
  existsb (fun '(h, lo, hi) => (hs_type st =? h) && (lo <=? message_number st) && (message_number st <=? hi)) stages.

Definition next_stage (st : tls13_handshake_stage) : tls13_handshake_stage :=
  mkStage (hs_type st) (message_number st + 1).

(** All flags of the message are set: the next one may follow. *)
Definition advanceable (st : tls13_handshake_stage) : bool :=
  ready st && ready (next_stage st) &&
  bool_decide (history (next_stage st) = history st ++ [stage_state st]).

Definition add_flags (f : Z) (st : tls13_handshake_stage) : tls13_handshake_stage :=
  mkStage (Z.lor (hs_type st) f) (message_number st).

Definition all_stages : list tls13_handshake_stage :=
  concat (map (fun '(h, lo, hi) => map (fun i => mkStage h (Z.of_nat i)) (seq (Z.to_nat lo) (Z.to_nat (hi - lo + 1)))) stages).

Lemma ready_in st : ready st = true -> st ∈ all_stages.
Proof.
  destruct st as [h n]. unfold ready. intros H. apply existsb_exists in H as ([[h' lo] hi] & Hin & Hb). cbn in Hb.
  apply list_elem_of_In, in_concat. eexists. split.
  - apply in_map_iff. exists (h', lo, hi). split; [reflexivity|exact Hin].
  - assert (Hlo : forallb (fun '(_, lo, _) => 0 <=? lo) stages = true) by reflexivity.
    rewrite forallb_forall in Hlo. specialize (Hlo _ Hin). cbn in Hlo.
    apply in_map_iff. exists (Z.to_nat n). split; [f_equal; lia|]. apply in_seq. lia.
Qed.

(** What holds in all these stages, by evaluation. *)
Lemma stages_forall (P : tls13_handshake_stage -> bool) :
  forallb P all_stages = true -> forall st, ready st = true -> P st = true.
Proof.
  intros H st Hst%ready_in. rewrite forallb_forall in H. apply H. by apply list_elem_of_In.
Qed.

Definition check_flags (ok : tls13_handshake_stage -> bool) (flags : list Z) (st : tls13_handshake_stage) : bool :=
  forallb (fun f => ready (add_flags f st) && bool_decide (history (add_flags f st) = history st) && ok (add_flags f st)) flags.

Definition check_stage (st : tls13_handshake_stage) : bool :=
  let mt := stage_state st in
  let action := state_machine mt in
  (message_number st <? 15) && bool_decide (mt <> INVALID) &&
  (if a_handshake_complete action then bool_decide (mt = APPLICATION_DATA)
   else
     check_flags (fun st' => bool_decide (stage_state st' = mt)) (match a_send action with Some f => send_flags f | None => [] end) st &&
     check_flags (fun st' => bool_decide (stage_state st' = mt) && advanceable st') (match a_sent action with Some f => sent_flags f | None => [0] end) st &&
     check_flags advanceable (match a_recv action with Some f => recv_flags f | None => [] end) st).

Lemma stages_checked : forallb check_stage all_stages = true.
Proof. by vm_compute. Qed.

(** The stages are those of the handshakes of the RFC. *)
Definition in_rfc (st : tls13_handshake_stage) : bool :=
  existsb (fun '(hrr, cr, cv) =>
      bool_decide (history st = take (length (history st)) (rfc8446 hrr false cr cv)) &&
      (negb (bool_decide (stage_state st = APPLICATION_DATA)) ||
       bool_decide (history st ++ [APPLICATION_DATA] = rfc8446 hrr false cr cv)))
    [(true, true, true); (true, true, false); (true, false, false); (false, true, true); (false, true, false); (false, false, false)].

Lemma stages_in_rfc : forallb in_rfc all_stages = true.
Proof. by vm_compute. Qed.

(** ** One call of tls13_handshake_perform *)

(** [CBB_cleanup] of [p] is safe. *)
Definition cleanable (p : ptr) (h : heap) : Prop :=
  exists c, cbbs h !! p = Some c /\ forall b, cbb_base c = Some b -> is_Some (bases h !! b).

Lemma cleanup_cleanable p h : cleanable p h -> exists h', CBB_cleanup p h = Ret tt h' /\ cleanable p h'.
Proof.
  intros (c & Hc & Hb). unfold CBB_cleanup, load_cbb, load_base, free_base, store_cbb. mstep. rewrite Hc.
  destruct (cbb_base c) as [b|].
  - destruct (Hb b eq_refl) as [st ->]. eexists. split; [reflexivity|]. eexists. cbn. rewrite lookup_insert_eq. by split.
  - eexists. split; [reflexivity|]. eexists. cbn. rewrite lookup_insert_eq. by split.
Qed.

Lemma cleanable_inv p h h' : CBB_cleanup p h = Ret tt h' -> cleanable p h.
Proof.
  unfold CBB_cleanup, load_cbb, load_base, free_base, store_cbb. mstep.
  destruct (cbbs h !! p) as [c|] eqn:Hc; [|done]. intros H. exists c. split; [done|]. intros b Hb. rewrite Hb in H.
  destruct (bases h !! b); [by eexists|done].
Qed.

Lemma finish_cleanable malloc_ok p od ol h r h' : CBB_finish malloc_ok p od ol h = Ret r h' -> cleanable p h'.
Proof.
  unfold CBB_finish, load_cbb, load_base. mstep.
  destruct (cbbs h !! p) as [c|]; [|done]. destruct (cbb_is_top_level c); [|done].
  destruct (CBB_flush malloc_ok p h) as [[] h1|h1|]; [|done..].
  destruct (cbbs h1 !! p) as [c1|]; [|done]. destruct (cbb_base c1) as [b|]; [|done].
  destruct (bases h1 !! b) as [st|]; [|done]. do 2 (match goal with |- context [if ?b then _ else _] => destruct b end; [|done]).
  destruct (CBB_cleanup p h1) as [[] h2|h2|] eqn:E; [|done..]. intros [= _ <-].
  apply cleanable_inv in E as Hc. destruct (cleanup_cleanable _ _ Hc) as (h3 & E3 & H3). congruence.
Qed.

(** Building a message leaves its CBB in a state that can be cleaned up,
    wherever it stops. *)
Lemma build_safe malloc_ok p cap cs h :
  0 <= cap < 2 ^ 64 -> Forall cmd_ok cs -> build p cs <> UB ->
  wp (CBB_init malloc_ok p cap;; exec_all malloc_ok cs) h
    (fun _ h1 => cleanable p h1 /\
       wp (CBB_finish malloc_ok p (Some false) true) h1
         (fun r h2 => 0 <= r.2 <= zlen r.1 /\ cleanable p h2) (cleanable p))
    (cleanable p).
Proof.
  intros Hcap Hcs Hub. rewrite build_eq in Hub.
  assert (Halive : forall h2 b, alive h2 b p -> cleanable p h2).
  { intros h2 b Ha. destruct (CBB_cleanup_alive _ _ _ Ha) as (h3 & E & _). by eapply cleanable_inv. }
  apply wp_bind. eapply wp_conseq; [by apply CBB_init_spec| |].
  2: { intros h1 ((c & Hp & Hc) & _). exists c. split; [done|]. congruence. }
  intros _ h1 (b & _ & Hh & _).
  eapply wp_conseq; [apply (exec_all_refines malloc_ok cs Hcs _ _ _ _ Hh); by destruct (denote_all _ _)| |].
  - intros [] h2 (B & E & Hh2 & Hroot & _). change (eroot ([], p, [])) with p in Hroot.
    split.
    + destruct Hh2 as (fs & q & c & -> & Hr). rewrite eroot_erase in Hroot. subst p.
      eapply (Halive h2 b). by apply (repr_alive _ _ _ _ _ _ _ _ Hr).
    + pose proof (CBB_finish_spec malloc_ok _ _ _ _ Hh2) as Hf. rewrite Hroot in Hf. unfold wp in *.
      destruct (CBB_finish malloc_ok p (Some false) true h2) as [[buf len] h3|h3|] eqn:Ef; [|by eapply (Halive h3 b), Hf|done].
      split; [|by eapply finish_cleanable]. destruct Hf as (out & _ & Hout & Hlen & _). cbn [fst snd].
      subst out. pose proof (zlen_nonneg (ztake len buf)). unfold ztake, zlen in *. rewrite length_take in *. lia.
  - intros h2 (Ha & _). change (eroot ([], p, [])) with p in Ha. by eapply Halive.
Qed.

Lemma start_eq malloc_ok body ty h msg :
  tls13_handshake_msg_start malloc_ok body ty (h, msg) =
  match (CBB_init malloc_ok (hm_cbb msg) 256;;
         exec_all malloc_ok [U8 (hm_cbb msg) ty; U24_prefixed (hm_cbb msg) body]) h with
  | Ret _ h' => Ret tt (h', msg)
  | Fail h' => Fail (h', msg)
  | UB => UB
  end.
Proof.
  unfold tls13_handshake_msg_start, on_fst, TLS13_HANDSHAKE_MSG_INITIAL_LEN. cbn [exec_all exec]. mstep. cbn [fst snd].
  destruct (CBB_init malloc_ok (hm_cbb msg) 256 h) as [[] h1|h1|]; [|done..]. cbn [fst snd].
  destruct (CBB_add_u8 malloc_ok (hm_cbb msg) ty h1) as [[] h2|h2|]; [|done..]. cbn [fst snd].
  by destruct (CBB_add_u24_length_prefixed malloc_ok (hm_cbb msg) body h2) as [[] h3|h3|].
Qed.

Lemma exec_all_app malloc_ok cs1 cs2 h :
  exec_all malloc_ok (cs1 ++ cs2) h = (exec_all malloc_ok cs1;; exec_all malloc_ok cs2) h.
Proof.
  revert h. induction cs1 as [|c cs1 IH]; intros h; [done|]. cbn [app exec_all]. mstep.
  destruct (exec malloc_ok c h) as [[] h1|h1|]; [|done..]. apply IH.
Qed.

Lemma start_build malloc_ok body ty cs h msg h1 :
  tls13_handshake_msg_start malloc_ok body ty (h, msg) = Ret tt (h1, msg) ->
  (CBB_init malloc_ok (hm_cbb msg) 256;; exec_all malloc_ok (msg_cmds (hm_cbb msg) body ty cs)) h = exec_all malloc_ok cs h1.
Proof.
  rewrite start_eq. unfold msg_cmds. change (U8 ?p ty :: U24_prefixed ?p body :: cs) with ([U8 p ty; U24_prefixed p body] ++ cs).
  mstep. destruct (CBB_init malloc_ok (hm_cbb msg) 256 h) as [[] h2|h2|]; [|done..].
  rewrite exec_all_app. mstep. destruct (exec_all malloc_ok _ h2) as [[] h3|h3|]; [|done..]. by intros [= ->].
Qed.

Lemma cleanable_delete p q h : p <> q -> cleanable p h -> cleanable p (mkHeap (bases h) (delete q (cbbs h))).
Proof. intros Hpq (c & Hc & Hb). exists c. cbn. rewrite lookup_delete_ne by done. by split. Qed.

Lemma start_safe malloc_ok body ty h msg :
  is_byte ty -> body <> hm_cbb msg ->
  wp (tls13_handshake_msg_start malloc_ok body ty) (h, msg)
    (fun _ st => st.2 = msg /\ cleanable (hm_cbb msg) st.1) (fun st => st.2 = msg /\ cleanable (hm_cbb msg) st.1).
Proof.
  intros Hty Hne. destruct (build_msg (hm_cbb msg) body ty [] []) as [B HB]; try done.
  pose proof (build_safe malloc_ok (hm_cbb msg) 256 (msg_cmds (hm_cbb msg) body ty []) h ltac:(lia)) as Hw.
  unfold wp in *. rewrite start_eq. unfold msg_cmds in *. unfold is_byte in Hty.
  specialize (Hw ltac:(repeat constructor; cbn; lia) ltac:(by rewrite HB)).
  destruct ((CBB_init malloc_ok (hm_cbb msg) 256;; _) h) as [[] h1|h1|]; [|by cbn|done]. by split; [|apply Hw].
Qed.

Section perform.
Context (malloc_ok : Z -> bool) {E : Type} (env : environment E).
Context (run_send : send_handler -> ptr -> M (tls13_ctx E) unit).
Context (run_sent : sent_handler -> M (tls13_ctx E) unit).
Context (run_recv : recv_handler -> CBS -> M (tls13_ctx E) CBS).
Context `{!Handlers malloc_ok env run_send run_sent run_recv, !Environment env}.
Implicit Types ctx : tls13_ctx E.

Definition hs_msg_ok ctx : Prop :=
  match cx_hs_msg ctx with
  | Some msg => msg_ok msg /\ cleanable (hm_cbb msg) (cx_heap ctx)
  | None => True
  end.

(** What every call needs and keeps. *)
Definition ctx_ok ctx : Prop := 0 <= message_number (cx_stage ctx) < 256 /\ hs_msg_ok ctx.

(** A context whose handshake has not failed. *)
Definition on_track ctx : Prop :=
  ready (cx_stage ctx) = true /\
  (cx_send_dummy_ccs ctx = true -> cx_send_dummy_ccs_after ctx = true ->
   advanceable (cx_stage ctx) = true /\ a_sender (state_machine (tls13_handshake_active_state ctx)) = cx_mode ctx).

(** The same point of the same handshake. *)
Definition same_point ctx ctx' : Prop :=
  cx_mode ctx' = cx_mode ctx /\ message_number (cx_stage ctx') = message_number (cx_stage ctx) /\
  history (cx_stage ctx') = history (cx_stage ctx).

(** The result of [tls13_handshake_send_action] and [tls13_handshake_recv_action]. *)
Definition action_post ctx (ret : Z) ctx' : Prop :=
  ctx_ok ctx' /\ cx_mode ctx' = cx_mode ctx /\ message_number (cx_stage ctx') = message_number (cx_stage ctx) /\
  (on_track ctx -> ret = TLS13_IO_FAILURE \/ ret = TLS13_IO_USE_LEGACY \/
     on_track ctx' /\ same_point ctx ctx' /\
     (0 < ret -> advanceable (cx_stage ctx') = true /\
        ~ (cx_send_dummy_ccs ctx' = true /\ cx_send_dummy_ccs_after ctx' = true))).

(** Changes of the context that matter to none of this. *)
Definition same_control ctx ctx' : Prop :=
  cx_mode ctx' = cx_mode ctx /\ cx_stage ctx' = cx_stage ctx /\ same_ccs ctx ctx'.

Lemma on_track_same ctx ctx' : same_control ctx ctx' -> on_track ctx -> on_track ctx' /\ same_point ctx ctx'.
Proof using.
  intros (Hm & Hs & Hd & Ha) (Hr & Hc). unfold on_track, same_point, tls13_handshake_active_state in *.
  rewrite Hm, Hs, Hd, Ha. done.
Qed.

(** *** Pieces of the actions *)

Lemma wp_early {S} (m : M S (option Z)) k (s : S) Q F :
  wp m s (fun r s' => match r with Some ret => Q ret s' | None => wp k s' Q F end) F -> wp (early m k) s Q F.
Proof using.
  intros H. apply wp_bind. eapply wp_conseq; [exact H| |done]. intros [ret|] s'; done.
Qed.

Lemma wp_on_env {A} (f : E -> A * E) ctx Q F :
  Q (f (cx_env ctx)).1 (set_env (f (cx_env ctx)).2 ctx) -> wp (on_env f) ctx Q F.
Proof using. unfold wp, on_env. by destruct (f (cx_env ctx)). Qed.

Lemma wp_on_msg_rl {A} (m : M (tls13_handshake_msg * E) A) ctx msg Q F :
  cx_hs_msg ctx = Some msg ->
  wp m (msg, cx_env ctx)
    (fun a st => Q a (set_env st.2 (set_hs_msg (Some st.1) ctx))) (fun st => F (set_env st.2 (set_hs_msg (Some st.1) ctx))) ->
  wp (on_msg_rl m) ctx Q F.
Proof using. unfold wp, on_msg_rl. intros ->. by destruct (m (msg, cx_env ctx)) as [a [? ?]|[? ?]|]. Qed.

(** [ctx->hs_msg] is changed by [set_hs_msg], the rest of the context counts for
    [same_control] only. *)
Lemma hs_msg_free_safe ctx :
  hs_msg_ok ctx ->
  wp hs_msg_free ctx (fun _ ctx' => exists h, ctx' = set_hs_msg None (set_heap h ctx)) (fun _ => False).
Proof using.
  intros Hok. unfold hs_msg_free. apply wp_bind, wp_gets. unfold hs_msg_ok in Hok. destruct (cx_hs_msg ctx) as [msg|] eqn:Em.
  - destruct Hok as [_ Hc]. destruct (cleanup_cleanable _ _ Hc) as (h' & E' & _).
    unfold wp, on_heap, tls13_handshake_msg_free. mstep. rewrite E'. by eexists.
  - apply wp_bind, wp_ret, wp_modify. exists (cx_heap ctx). by destruct ctx.
Qed.

Lemma hs_msg_new_safe ctx :
  wp (hs_msg_new malloc_ok) ctx
    (fun ok ctx' => exists h m, ctx' = set_hs_msg m (set_heap h ctx) /\ hs_msg_ok ctx' /\
       (ok = true -> exists msg, m = Some msg /\ hm_data msg = None /\ hm_cbb msg ∈ dom (cbbs h)))
    (fun _ => False).
Proof using.
  unfold hs_msg_new. apply wp_bind, wp_gets. set (p := fresh _). apply wp_bind, wp_try.
  assert (Hnew : wp (tls13_handshake_msg_new malloc_ok p) (cx_heap ctx)
    (fun msg h => h = mkHeap (bases (cx_heap ctx)) (<[p := zeroed_CBB]> (cbbs (cx_heap ctx))) /\
       msg = mkMsg 0 0 None 0 (mkTlsBuffer TLS_BUFFER_CAPACITY_LIMIT [] 0 0) null_CBS p)
    (fun _ => True)).
  { unfold tls13_handshake_msg_new, tls_buffer_new. apply wp_bind, wp_check; [intros _|done].
    apply wp_bind, wp_modify. destruct (malloc_ok 40); [|done]. by apply wp_ret. }
  unfold wp, on_heap in *. destruct (tls13_handshake_msg_new malloc_ok p (cx_heap ctx)) as [msg h|h|]; [| |done].
  - destruct Hnew as [-> ->]. mstep. eexists _, _. split; [reflexivity|].
    assert (Hp : (<[p := zeroed_CBB]> (cbbs (cx_heap ctx))) !! p = Some zeroed_CBB) by apply lookup_insert_eq.
    split.
    + unfold hs_msg_ok. cbn. split.
      * split_and!; try done. by exists [], [].
      * exists zeroed_CBB. split; [exact Hp|done].
    + intros _. eexists. split; [reflexivity|]. split; [done|]. apply elem_of_dom. by exists zeroed_CBB.
  - mstep. eexists _, _. split; [reflexivity|]. split; [done|]. done.
Qed.

Lemma wp_eq {S A} (m : M S A) (s : S) Q F : wp m s Q F -> wp m s (fun a s' => Q a s' /\ m s = Ret a s') F.
Proof using. unfold wp. by destruct (m s). Qed.

Lemma wp_on_msg {A} (m : M (heap * tls13_handshake_msg) A) ctx msg Q F :
  cx_hs_msg ctx = Some msg ->
  wp m (cx_heap ctx, msg)
    (fun a st => Q a (set_heap st.1 (set_hs_msg (Some st.2) ctx))) (fun st => F (set_heap st.1 (set_hs_msg (Some st.2) ctx))) ->
  wp (on_msg m) ctx Q F.
Proof using. unfold wp, on_msg. intros ->. by destruct (m (cx_heap ctx, msg)) as [a [? ?]|[? ?]|]. Qed.

(** The message under construction in [ctx'] is the one of [ctx]. *)
Definition building ctx (p : ptr) ctx' : Prop :=
  cx_mode ctx' = cx_mode ctx /\ message_number (cx_stage ctx') = message_number (cx_stage ctx) /\
  exists msg, cx_hs_msg ctx' = Some msg /\ msg_ok msg /\ hm_cbb msg = p /\ cleanable p (cx_heap ctx').

Lemma build_message_safe f cbb ty ctx msg :
  cx_hs_msg ctx = Some msg -> hm_data msg = None -> msg_ok msg -> cbb <> hm_cbb msg -> is_byte ty ->
  wp (on_msg (tls13_handshake_msg_start malloc_ok cbb ty);;
      send ← valid (Some f);
      run_send send cbb;;
      on_msg (tls13_handshake_msg_finish malloc_ok)) ctx
    (fun _ ctx' => building ctx (hm_cbb msg) ctx' /\ flagged (send_flags f) ctx ctx' /\ same_ccs ctx ctx')
    (building ctx (hm_cbb msg)).
Proof using Handlers0.
  intros Hmsg Hd Hok Hne Hty. apply wp_bind. eapply wp_on_msg; [exact Hmsg|].
  eapply wp_conseq; [apply wp_eq; by apply start_safe| |].
  2: { intros [h1 m1] [Em Hc]. cbn in Em, Hc |- *. subst m1. split_and!; [done|done|]. by exists msg. }
  intros [] [h1 m1] [[Em Hc] Es]. cbn in Em, Hc |- *. subst m1. set (ctx1 := set_heap h1 _).
  apply wp_bind. eapply wp_valid; [reflexivity|].
  destruct (send_law f cbb ctx1) as (cs & [Hcs Hub] & Hsend). specialize (Hub msg ty eq_refl (not_eq_sym Hne) Hty).
  assert (Hall : Forall cmd_ok (msg_cmds (hm_cbb msg) cbb ty cs)).
  { unfold is_byte in Hty. constructor; [cbn; lia|]. by constructor. }
  pose proof (build_safe malloc_ok (hm_cbb msg) 256 _ (cx_heap ctx) ltac:(lia) Hall Hub) as Hb.
  unfold wp in Hb. rewrite (start_build _ _ _ cs _ _ _ Es) in Hb. change (cx_heap ctx1) with h1 in Hsend.
  specialize (Hsend ltac:(intros Eu; by rewrite Eu in Hb)).
  apply wp_bind. eapply wp_conseq; [exact Hsend| |].
  - cbn beta. intros [] ctx2 ((Hm2 & Hn2 & Hs2) & Hfl & Hccs & Ex). rewrite Ex in Hb.
    destruct Hb as [_ Hfin]. eapply wp_on_msg; [exact Hs2|].
    unfold wp, tls13_handshake_msg_finish, on_fst in *. mstep. cbn [fst snd]. rewrite Hd.
    rewrite (bool_decide_eq_false_2 (None <> None)) by (intros []; done).
    destruct (CBB_finish malloc_ok (hm_cbb msg) (Some false) true (cx_heap ctx2)) as [[data len] h3|h3|]; [| |done]; cbn [fst snd] in *.
    + destruct Hfin as [Hl Hc3]. split; [|split; [exact Hfl|exact Hccs]].
      split_and!; [exact Hm2|exact Hn2|]. eexists. split; [reflexivity|]. split; [|by split].
      destruct Hok as (_ & _ & Hlen & Hbuf). split_and!; [exact Hl|exact Hl|exact Hlen|exact Hbuf].
    + split_and!; [exact Hm2|exact Hn2|]. by exists msg.
  - cbn beta. intros ctx2 ((Hm2 & Hn2 & Hs2) & Hex). split_and!; [exact Hm2|exact Hn2|]. exists msg. split; [exact Hs2|].
    split; [done|]. split; [done|]. destruct Hex as [Ex|Ex]; rewrite Ex in Hb; [apply Hb|exact Hb].
Qed.

Lemma flagged_same flags ctx ctx' : 0 ∈ flags -> cx_stage ctx' = cx_stage ctx -> flagged flags ctx ctx'.
Proof using. intros H0 Hs. exists 0. split; [done|]. by rewrite Hs, Z.lor_0_r. Qed.

Lemma send_flags_0 f : 0 ∈ send_flags f.
Proof using. destruct f; constructor. Qed.

Lemma send_build_safe action f ctx :
  ctx_ok ctx -> a_send action = Some f -> is_byte (a_handshake_type action) ->
  wp (send_build malloc_ok run_send action) ctx
    (fun r ctx' => ctx_ok ctx' /\ cx_mode ctx' = cx_mode ctx /\ message_number (cx_stage ctx') = message_number (cx_stage ctx) /\
       match r with
       | Some ret => ret = TLS13_IO_FAILURE
       | None => cx_hs_msg ctx' <> None /\ flagged (send_flags f) ctx ctx' /\ same_ccs ctx ctx'
       end)
    (fun _ => False).
Proof using Handlers0.
  intros [Hn Hok] Hf Hty. unfold send_build. apply wp_bind, wp_gets. destruct (cx_hs_msg ctx) as [msg|] eqn:Em.
  { apply wp_ret. split; [done|]. split; [done|]. split; [done|]. rewrite Em. split; [done|]. split; [|done].
    apply flagged_same; [apply send_flags_0|done]. }
  apply wp_bind. eapply wp_conseq; [apply hs_msg_new_safe| |done].
  cbn beta. intros ok ctx1 (h & m & Ec & Hok1 & Hm). destruct ok; cbn [negb].
  2: { apply wp_ret. subst ctx1. split; [by split|]. done. }
  destruct (Hm eq_refl) as (msg & -> & Hd & Hdom). apply wp_bind, wp_gets. set (cbb := fresh _).
  assert (Hne : cbb <> hm_cbb msg).
  { intros Heq. subst ctx1. apply (is_fresh (dom (cbbs h))). cbn in cbb. fold cbb. by rewrite Heq. }
  clearbody cbb. assert (Hm1 : cx_hs_msg ctx1 = Some msg) by (by subst ctx1).
  assert (Hmode : cx_mode ctx1 = cx_mode ctx /\ cx_stage ctx1 = cx_stage ctx /\ same_ccs ctx ctx1) by (by subst ctx1).
  clear Ec. unfold hs_msg_ok in Hok1. rewrite Hm1 in Hok1. destruct Hok1 as [Hmok Hcl].
  apply wp_bind, wp_try. rewrite Hf.
  assert (Hdrop : forall ctx2, building ctx1 (hm_cbb msg) ctx2 ->
    exists ctx3, drop_cbb cbb ctx2 = Ret tt ctx3 /\ ctx_ok ctx3 /\ cx_mode ctx3 = cx_mode ctx /\ cx_stage ctx3 = cx_stage ctx2 /\
      message_number (cx_stage ctx3) = message_number (cx_stage ctx) /\ cx_hs_msg ctx3 <> None /\ same_ccs ctx2 ctx3).
  { intros ctx2 (Hmode2 & Hn2 & msg2 & Hm2 & Hok2 & Hp2 & Hc2). eexists. split; [reflexivity|].
    destruct Hmode as (Hmode & Hst & _). rewrite Hst in Hn2. split; [split|].
    - cbn. lia.
    - unfold hs_msg_ok. cbn. rewrite Hm2. split; [done|]. rewrite Hp2. apply cleanable_delete; congruence.
    - cbn. split; [congruence|]. split; [done|]. split; [congruence|]. split; [congruence|done]. }
  eapply wp_conseq; [by apply build_message_safe| |].
  - cbn beta. intros [] ctx2 (Hb & (fl & Hin & Hfl) & Hccs). destruct (Hdrop ctx2 Hb) as (ctx3 & E3 & Hok3 & ? & Hst3 & Hn3 & Hm3 & Hc3).
    apply wp_bind. unfold wp at 1. rewrite E3. apply wp_ret. split; [done|]. split; [done|]. split; [done|].
    rewrite bool_decide_eq_true_2 by done. split; [done|]. destruct Hmode as (_ & Hst & Hc). unfold same_ccs in *.
    split; [exists fl; split; [done|]; congruence|]. split; etransitivity; [apply Hc3|etransitivity; [apply Hccs|apply Hc]|apply Hc3|etransitivity; [apply Hccs|apply Hc]].
  - cbn beta. intros ctx2 Hb. destruct (Hdrop ctx2 Hb) as (ctx3 & E3 & Hok3 & ? & _ & Hn3 & _).
    apply wp_bind. unfold wp at 1. rewrite E3. apply wp_ret. rewrite bool_decide_eq_false_2 by (intros HF; by apply HF).
    split_and!; done.
Qed.

(** *** What the flags of a handler do to the stage *)

Lemma flagged_add flags ctx ctx' :
  flagged flags ctx ctx' -> message_number (cx_stage ctx') = message_number (cx_stage ctx) ->
  exists f, f ∈ flags /\ cx_stage ctx' = add_flags f (cx_stage ctx).
Proof using.
  intros (f & Hf & Hh) Hn. exists f. split; [done|]. unfold add_flags. rewrite <- Hh, <- Hn. by destruct (cx_stage ctx').
Qed.

Lemma check_flags_in ok flags st f :
  check_flags ok flags st = true -> f ∈ flags ->
  ready (add_flags f st) = true /\ history (add_flags f st) = history st /\ ok (add_flags f st) = true.
Proof using.
  unfold check_flags. rewrite forallb_forall. intros H Hf%list_elem_of_In. specialize (H f Hf).
  apply andb_true_iff in H as [[H1 H2]%andb_true_iff H3]. apply bool_decide_eq_true_1 in H2. done.
Qed.

Lemma ready_checked st : ready st = true -> check_stage st = true.
Proof using. apply stages_forall, stages_checked. Qed.

Lemma ready_send st f fl :
  ready st = true -> a_send (state_machine (stage_state st)) = Some f -> fl ∈ send_flags f ->
  ready (add_flags fl st) = true /\ history (add_flags fl st) = history st /\ stage_state (add_flags fl st) = stage_state st.
Proof using.
  intros Hr Hf Hfl. pose proof (ready_checked st Hr) as Hc. unfold check_stage in Hc.
  destruct (a_handshake_complete (state_machine (stage_state st))) eqn:Ec; [by destruct (stage_state st)|].
  rewrite Hf in Hc. rewrite !andb_true_iff in Hc. destruct Hc as [_ [[Hc _] _]].
  destruct (check_flags_in _ _ _ fl Hc Hfl) as (H1 & H2 & H3). apply bool_decide_eq_true_1 in H3. done.
Qed.

Lemma ready_sent st fl :
  ready st = true -> a_handshake_complete (state_machine (stage_state st)) = false ->
  fl ∈ match a_sent (state_machine (stage_state st)) with Some f => sent_flags f | None => [0] end ->
  ready (add_flags fl st) = true /\ history (add_flags fl st) = history st /\
  stage_state (add_flags fl st) = stage_state st /\ advanceable (add_flags fl st) = true.
Proof using.
  intros Hr Ec Hfl. pose proof (ready_checked st Hr) as Hc. unfold check_stage in Hc. rewrite Ec in Hc.
  rewrite !andb_true_iff in Hc. destruct Hc as [_ [[_ Hc] _]].
  destruct (check_flags_in _ _ _ fl Hc Hfl) as (H1 & H2 & [H3 H4]%andb_true_iff). apply bool_decide_eq_true_1 in H3. done.
Qed.

Lemma ready_recv st f fl :
  ready st = true -> a_recv (state_machine (stage_state st)) = Some f -> fl ∈ recv_flags f ->
  ready (add_flags fl st) = true /\ history (add_flags fl st) = history st /\ advanceable (add_flags fl st) = true.
Proof using.
  intros Hr Hf Hfl. pose proof (ready_checked st Hr) as Hc. unfold check_stage in Hc.
  destruct (a_handshake_complete (state_machine (stage_state st))) eqn:Ec; [by destruct (stage_state st)|].
  rewrite Hf in Hc. rewrite !andb_true_iff in Hc. destruct Hc as [_ [_ Hc]].
  exact (check_flags_in _ _ _ fl Hc Hfl).
Qed.

(** *** Sending *)

(** [ctx'] is still at the message of [ctx]. *)
Definition kept ctx ctx' : Prop :=
  ctx_ok ctx' /\ cx_mode ctx' = cx_mode ctx /\ message_number (cx_stage ctx') = message_number (cx_stage ctx) /\
  (on_track ctx -> on_track ctx' /\ same_point ctx ctx' /\ tls13_handshake_active_state ctx' = tls13_handshake_active_state ctx).

Lemma kept_failure ctx ctx' : kept ctx ctx' -> action_post ctx TLS13_IO_FAILURE ctx'.
Proof using. intros (? & ? & ? & _). split_and!; [apply H..|done|done|by left]. Qed.

Lemma kept_refl ctx : ctx_ok ctx -> kept ctx ctx.
Proof using. intros. split_and!; [apply H..|done|done|]. intros. split; [done|]. by split_and!. Qed.

Lemma kept_control ctx ctx1 ctx2 : kept ctx ctx1 -> same_control ctx1 ctx2 -> hs_msg_ok ctx2 -> kept ctx ctx2.
Proof using.
  intros ([Hn _] & Hm & Hnn & Ht) Hc Hok. pose proof Hc as (Hm' & Hs' & _).
  split; [split; [by rewrite Hs'|done]|]. split; [congruence|]. split; [congruence|].
  intros Htr. destruct (Ht Htr) as (Ht1 & (? & ? & ?) & Ha). destruct (on_track_same _ _ Hc Ht1) as [? (? & ? & ?)].
  split; [done|]. split; [split_and!; congruence|]. unfold tls13_handshake_active_state in *. by rewrite Hs'.
Qed.

Lemma env_control e ctx : same_control ctx (set_env e ctx).
Proof using. done. Qed.

Lemma kept_env ctx ctx1 e : kept ctx ctx1 -> kept ctx (set_env e ctx1).
Proof using. intros Hk. eapply kept_control; [exact Hk|apply env_control|apply Hk]. Qed.

Lemma msg_record_safe ctx ctx1 :
  kept ctx ctx1 -> cx_hs_msg ctx1 <> None ->
  wp (or_failure (tls13_handshake_msg_record env)) ctx1
    (fun r ctx2 => kept ctx ctx2 /\ cx_hs_msg ctx2 = cx_hs_msg ctx1 /\ same_ccs ctx1 ctx2 /\ (r = None \/ r = Some TLS13_IO_FAILURE)) (fun _ => False).
Proof using.
  intros Hk Hm. unfold or_failure, tls13_handshake_msg_record. apply wp_bind, wp_bind, wp_gets.
  destruct (cx_hs_msg ctx1) as [msg|] eqn:Em; [|done]. apply wp_bind. eapply wp_valid; [done|].
  assert (Hok : msg_ok msg) by (destruct Hk as [[_ Hok] _]; unfold hs_msg_ok in Hok; rewrite Em in Hok; apply Hok).
  apply wp_bind, wp_read_bytes; [apply Hok|]. apply wp_on_env. apply wp_ret.
  split; [by apply kept_env|]. split; [done|]. split; [done|]. destruct (_.1); [by left|by right].
Qed.

Lemma preserve_safe ctx ctx1 b :
  kept ctx ctx1 ->
  wp (preserve_transcript_hash env b) ctx1
    (fun r ctx2 => kept ctx ctx2 /\ cx_hs_msg ctx2 = cx_hs_msg ctx1 /\ same_ccs ctx1 ctx2 /\ (r = None \/ r = Some TLS13_IO_FAILURE)) (fun _ => False).
Proof using.
  intros Hk. unfold preserve_transcript_hash. destruct b.
  - unfold or_failure. apply wp_bind, wp_on_env, wp_ret. split; [by apply kept_env|]. split; [done|]. split; [done|]. destruct (_.1); [by left|by right].
  - apply wp_ret. split; [done|]. split; [done|]. split; [done|]. by left.
Qed.

Lemma message_cb_safe ctx ctx1 cb :
  kept ctx ctx1 ->
  wp (message_cb cb) ctx1 (fun _ ctx2 => kept ctx ctx2 /\ cx_hs_msg ctx2 = cx_hs_msg ctx1 /\ same_ccs ctx1 ctx2) (fun _ => False).
Proof using.
  intros Hk. destruct cb; [apply wp_modify|apply wp_ret]; (split; [|by split]); [by apply kept_env|done].
Qed.

Lemma hs_msg_free_kept ctx ctx1 :
  kept ctx ctx1 ->
  wp hs_msg_free ctx1 (fun _ ctx2 => kept ctx ctx2 /\ cx_hs_msg ctx2 = None /\ same_ccs ctx1 ctx2) (fun _ => False).
Proof using.
  intros Hk. eapply wp_conseq; [apply hs_msg_free_safe; apply Hk| |done]. cbn beta. intros _ ctx2 (h & ->).
  split; [|by split]. eapply kept_control; [exact Hk|done|done].
Qed.

(** The change of cipher spec after a message whose flags are set. *)
Lemma send_ccs_after_safe ctx ctx1 :
  kept ctx ctx1 ->
  (on_track ctx -> advanceable (cx_stage ctx1) = true /\ a_sender (state_machine (tls13_handshake_active_state ctx1)) = cx_mode ctx1) ->
  wp (send_ccs_after env) ctx1 (action_post ctx) (fun _ => False).
Proof using Environment0.
  intros ([Hn Hok] & Hm & Hnn & Ht) Hadv. unfold send_ccs_after. apply wp_bind, wp_gets. cbn [id].
  assert (Hpoint : forall ctx2 ret, cx_mode ctx2 = cx_mode ctx1 -> cx_stage ctx2 = cx_stage ctx1 -> hs_msg_ok ctx2 ->
    (0 < ret -> cx_send_dummy_ccs_after ctx2 = false) -> action_post ctx ret ctx2).
  { intros ctx2 ret Em Es Hok2 Ha. split; [split; [by rewrite Es|done]|]. split; [congruence|]. split; [congruence|].
    intros Htr. right. right. destruct (Ht Htr) as ([Hr _] & (? & ? & ?) & _). destruct (Hadv Htr) as [Hadv1 Hs].
    split; [|split].
    - split; [by rewrite Es|]. intros _ _. unfold tls13_handshake_active_state in *. by rewrite Es, Em.
    - split_and!; congruence.
    - intros Hpos. rewrite Es. split; [done|]. intros [_ ?]. by rewrite Ha in *. }
  destruct (cx_send_dummy_ccs_after ctx1) eqn:Ea.
  - apply wp_bind, wp_modify, wp_bind, wp_on_env. set (r := tls13_send_dummy_ccs env _).
    destruct (ccs_result (cx_env (set_send_dummy_ccs true ctx1))) as [Hr|Hr]; fold r in Hr.
    + rewrite Hr. cbn [Z.eqb Pos.eqb TLS13_IO_SUCCESS negb]. apply wp_bind, wp_modify, wp_bind, wp_modify, wp_ret.
      by apply Hpoint.
    + rewrite (proj2 (Z.eqb_neq _ _)) by (unfold TLS13_IO_SUCCESS; lia). apply wp_ret. apply Hpoint; [done..|lia].
  - apply wp_ret. by apply Hpoint.
Qed.

(** From the message sent to the end of the action. *)
Lemma send_done_safe ctx ctx1 :
  kept ctx ctx1 -> cx_hs_msg ctx1 <> None ->
  a_handshake_complete (state_machine (tls13_handshake_active_state ctx)) = false ->
  a_sender (state_machine (tls13_handshake_active_state ctx)) = cx_mode ctx ->
  let action := state_machine (tls13_handshake_active_state ctx) in
  wp (early (or_failure (tls13_handshake_msg_record env)) (
      early (preserve_transcript_hash env (a_send_preserve_transcript_hash action)) (
      message_cb (handshake_message_sent_cb env);;
      hs_msg_free;;
      sent ← (match a_sent action with Some sent => try (run_sent sent) | None => mret (Some tt) end);
      match sent with
      | None => mret TLS13_IO_FAILURE
      | Some _ => send_ccs_after env
      end))) ctx1 (action_post ctx) (fun _ => False).
Proof using Handlers0 Environment0.
  intros Hk Hm Hnc Hs action. apply wp_early. eapply wp_conseq; [by apply msg_record_safe| |done].
  cbn beta. intros r ctx2 (Hk2 & Em2 & _ & [->| ->]); [|by apply kept_failure]. apply wp_early.
  eapply wp_conseq; [by apply preserve_safe| |done].
  cbn beta. intros r ctx3 (Hk3 & Em3 & _ & [->| ->]); [|by apply kept_failure]. apply wp_bind.
  eapply wp_conseq; [by apply message_cb_safe| |done]. cbn beta. intros _ ctx4 (Hk4 & _ & _). apply wp_bind.
  eapply wp_conseq; [by apply hs_msg_free_kept| |done]. cbn beta. intros _ ctx5 (Hk5 & Em5 & _).
  clear ctx1 ctx2 ctx3 ctx4 Hk Hm Hk2 Em2 Hk3 Em3 Hk4.
  pose proof Hk5 as ([Hn5 Hok5] & Hm5 & Hnn5 & Ht5).
  assert (Hnext : forall ctx6, framed ctx5 ctx6 -> cx_heap ctx6 = cx_heap ctx5 ->
    ctx_ok ctx6 /\ cx_mode ctx6 = cx_mode ctx /\ message_number (cx_stage ctx6) = message_number (cx_stage ctx)).
  { intros ctx6 (Em6 & En6 & Eh6) Hh6. split; [split; [lia|]|split; congruence]. unfold hs_msg_ok. by rewrite Eh6, Em5. }
  assert (Hsent : forall ctx6, framed ctx5 ctx6 -> cx_heap ctx6 = cx_heap ctx5 ->
    flagged (match a_sent action with Some f => sent_flags f | None => [0] end) ctx5 ctx6 ->
    wp (send_ccs_after env) ctx6 (action_post ctx) (fun _ => False)).
  { intros ctx6 Hf6 Hh6 Hfl. destruct (Hnext ctx6 Hf6 Hh6) as (Hok6 & Hm6 & Hn6).
    assert (Hadv : on_track ctx -> ready (cx_stage ctx6) = true /\ same_point ctx ctx6 /\
      tls13_handshake_active_state ctx6 = tls13_handshake_active_state ctx /\ advanceable (cx_stage ctx6) = true).
    { intros Htr. destruct (Ht5 Htr) as ([Hr5 _] & (_ & _ & Hh5) & Ha5).
      destruct (flagged_add _ _ _ Hfl ltac:(apply Hf6)) as (fl & Hin & Es6). unfold tls13_handshake_active_state in *.
      destruct (ready_sent (cx_stage ctx5) fl Hr5) as (R1 & R2 & R3 & R4); [by rewrite Ha5|by rewrite Ha5|].
      rewrite <- Es6 in *. split; [done|]. split; [split_and!; congruence|]. split; [congruence|done]. }
    assert (Hsend : on_track ctx -> advanceable (cx_stage ctx6) = true /\
      a_sender (state_machine (tls13_handshake_active_state ctx6)) = cx_mode ctx6).
    { intros Htr. destruct (Hadv Htr) as (_ & _ & Ha6 & ?). split; [done|]. by rewrite Ha6, Hm6. }
    apply send_ccs_after_safe; [|exact Hsend]. split; [done|]. split; [done|]. split; [done|].
    intros Htr. destruct (Hadv Htr) as (R1 & R2 & R3 & R4). split; [|done]. split; [done|]. intros _ _. by apply Hsend. }
  apply wp_bind. destruct (a_sent action) as [f|].
  - apply wp_try. eapply wp_conseq; [apply (sent_law f)| |].
    + cbn beta. intros _ ctx6 (Hf6 & Hfl & Hh6). by apply Hsent.
    + cbn beta. intros ctx6 (Hf6 & Hh6). apply wp_ret. destruct (Hnext ctx6 Hf6 Hh6) as (Hok6 & Hm6 & Hn6).
      split; [done|]. split; [done|]. split; [done|]. by left.
  - apply wp_ret. apply Hsent; [done|done|]. by apply flagged_same; [constructor|].
Qed.

Lemma send_action_safe f ctx :
  let action := state_machine (tls13_handshake_active_state ctx) in
  ctx_ok ctx -> a_send action = Some f -> is_byte (a_handshake_type action) ->
  a_handshake_complete action = false -> a_sender action = cx_mode ctx ->
  wp (tls13_handshake_send_action malloc_ok env run_send run_sent action) ctx (action_post ctx) (fun _ => False).
Proof using Handlers0 Environment0.
  intros action Hok Hf Hty Hnc Hs. unfold tls13_handshake_send_action. apply wp_early.
  apply wp_conseq with (E' := fun _ => False) (Q' := fun r ctx1 => match r with
     | Some ret => action_post ctx ret ctx1
     | None => kept ctx ctx1 /\ cx_send_dummy_ccs ctx1 = false /\ cx_stage ctx1 = cx_stage ctx end); [| |done].
  { unfold send_pending_ccs. apply wp_bind, wp_gets. cbn [id]. destruct (cx_send_dummy_ccs ctx) eqn:Ed.
    2: { apply wp_ret. split; [by apply kept_refl|done]. }
    apply wp_bind, wp_on_env. set (r := tls13_send_dummy_ccs env (cx_env ctx)).
    assert (Hpost : forall ctx1 ret, cx_mode ctx1 = cx_mode ctx -> cx_stage ctx1 = cx_stage ctx -> hs_msg_ok ctx1 ->
      (on_track ctx -> on_track ctx1 /\ (0 < ret -> advanceable (cx_stage ctx) = true /\ cx_send_dummy_ccs_after ctx1 = false)) ->
      action_post ctx ret ctx1).
    { intros ctx1 ret Em Es Hok1 Ht. destruct Hok as [Hn _]. split; [split; [by rewrite Es|done]|]. split; [done|]. split; [by rewrite Es|].
      intros Htr. destruct (Ht Htr) as [Ht1 Hadv]. right. right. split; [done|]. split; [split_and!; by rewrite ?Es|].
      intros Hpos. destruct (Hadv Hpos) as [? Ha]. rewrite Es, Ha. split; [done|]. by intros [_ ?]. }
    destruct (ccs_result (cx_env ctx)) as [Hr|Hr]; fold r in Hr.
    - rewrite Hr. cbn [Z.eqb Pos.eqb TLS13_IO_SUCCESS negb]. apply wp_bind, wp_modify.
      destruct (cx_send_dummy_ccs_after ctx) eqn:Ea.
      + apply wp_bind, wp_modify, wp_ret. apply Hpost; [done|done|apply Hok|]. intros [Htr Hadv].
        split; [by split|]. intros _. split; [by apply Hadv|done].
      + apply wp_ret. split; [|done]. split; [apply Hok|]. split; [done|]. split; [done|].
        intros [Htr Hadv]. split; [by split|]. split; [by split_and!|done].
    - rewrite (proj2 (Z.eqb_neq _ _)) by (unfold TLS13_IO_SUCCESS; lia). apply wp_ret.
      apply Hpost; [done|done|apply Hok|]. intros Htr. split; [exact Htr|lia]. }
  cbn beta. intros [ret|] ctx1; [done|]. intros (Hk1 & Hd1 & Es1). apply wp_early.
  eapply wp_conseq; [apply (send_build_safe _ f); [apply Hk1|done|done]| |done].
  cbn beta. intros r ctx2 (Hok2 & Hm2 & Hn2 & Hr). pose proof Hk1 as (_ & Hm1 & Hn1 & Ht1). destruct r as [ret|].
  { subst ret. split; [done|]. split; [congruence|]. split; [congruence|]. by left. }
  destruct Hr as (Hmsg & Hfl & Hccs).
  assert (Hk2 : kept ctx ctx2).
  { split; [done|]. split; [congruence|]. split; [congruence|]. intros Htr. destruct (Ht1 Htr) as ([Hr1 _] & (_ & _ & Hh1) & Ha1).
    destruct (flagged_add _ _ _ Hfl Hn2) as (fl & Hin & Es2). unfold tls13_handshake_active_state in *.
    destruct (ready_send (cx_stage ctx1) f fl Hr1) as (R1 & R2 & R3); [by rewrite Ha1|done|].
    rewrite <- Es2 in *. split; [split; [done|]|split; [split_and!; congruence|congruence]].
    intros Hdd. destruct Hccs as [Hd2 _]. congruence. }
  destruct (cx_hs_msg ctx2) as [msg|] eqn:Em; [|done]. apply wp_bind. eapply wp_on_msg_rl; [exact Em|].
  assert (Hmok : msg_ok msg /\ cleanable (hm_cbb msg) (cx_heap ctx2)).
  { destruct Hok2 as [_ H]. unfold hs_msg_ok in H. by rewrite Em in H. }
  eapply wp_conseq; [apply msg_send_safe, Hmok| |done]. cbn beta. intros ret [msg' e] (Hmok' & Hp' & _). cbn [fst snd] in *.
  set (ctx3 := set_env e _). assert (Hk3 : kept ctx ctx3).
  { eapply kept_control; [exact Hk2|done|]. unfold hs_msg_ok. cbn. split; [done|]. rewrite Hp'. apply Hmok. }
  destruct (Z.leb_spec ret 0) as [Hret|Hret].
  - apply wp_ret. destruct Hk3 as (? & ? & ? & Ht3). split; [done|]. split; [done|]. split; [done|].
    intros Htr. right. right. destruct (Ht3 Htr) as (? & ? & _). split; [done|]. split; [done|lia].
  - by apply send_done_safe.
Qed.

(** *** Receiving *)

Lemma kept_wait ctx ctx1 ret : kept ctx ctx1 -> ret <= 0 -> action_post ctx ret ctx1.
Proof using.
  intros (? & ? & ? & Ht) Hret. split; [done|]. split; [done|]. split; [done|]. intros Htr. right. right.
  destruct (Ht Htr) as (? & ? & _). split; [done|]. split; [done|lia].
Qed.

Lemma expected_type mt f ty :
  a_recv (state_machine mt) = Some f -> unexpected ty (state_machine mt) = false ->
  (recv_expects f).1 = a_sender (state_machine mt) /\ ty ∈ (recv_expects f).2.
Proof using.
  intros Hf Hu. unfold unexpected in Hu.
  destruct mt; cbn in Hf; simplify_eq; cbn [recv_expects fst snd]; (split; [done|]); cbn [state_machine a_handshake_type] in Hu;
    repeat match type of Hu with context [?x =? ?c] => is_var x; destruct (Z.eqb_spec x c); [subst x|] end; first [done|by repeat constructor].
Qed.

Lemma recv_handle_safe f ctx ctx1 cbs :
  let action := state_machine (tls13_handshake_active_state ctx) in
  kept ctx ctx1 -> a_recv action = Some f -> a_sender action <> cx_mode ctx -> delivered f cbs ctx1 ->
  wp (recv_handle env run_recv action cbs) ctx1 (action_post ctx) (fun _ => False).
Proof using Handlers0.
  intros action Hk Hf Hs Hdel. pose proof Hk as ([Hn1 Hok1] & Hm1 & Hnn1 & Ht1). unfold recv_handle. rewrite Hf.
  apply wp_bind. eapply wp_valid; [reflexivity|]. apply wp_bind, wp_try.
  assert (Hend : forall ctx2 ret, framed ctx1 ctx2 -> cx_heap ctx2 = cx_heap ctx1 ->
    (on_track ctx -> ret = TLS13_IO_FAILURE \/ ret = TLS13_IO_USE_LEGACY \/ flagged (recv_flags f) ctx1 ctx2 /\ same_ccs ctx1 ctx2) ->
    wp (hs_msg_free;; mret ret) ctx2 (action_post ctx) (fun _ => False)).
  { intros ctx2 ret Hfr Hh2 Hwhy. pose proof Hfr as (Em2 & En2 & Eh2). apply wp_bind. eapply wp_conseq; [apply hs_msg_free_safe| |done].
    { unfold hs_msg_ok in *. by rewrite Eh2, Hh2. }
    cbn beta. intros _ ctx3 (h & ->). apply wp_ret. split; [split; [cbn; lia|done]|]. split; [cbn; congruence|]. split; [cbn; congruence|].
    intros Htr. destruct (Hwhy Htr) as [?|[?|[Hfl [Hd2 Ha2]]]]; [by left|by right; left|right; right].
    destruct (Ht1 Htr) as ([Hr1 Hc1] & (_ & _ & Hh1) & Ha1). destruct (flagged_add _ _ _ Hfl En2) as (fl & Hin & Es2).
    unfold tls13_handshake_active_state in *. destruct (ready_recv (cx_stage ctx1) f fl Hr1) as (R1 & R2 & R3); [by rewrite Ha1|done|].
    rewrite <- Es2 in *. unfold on_track, same_point. cbn [set_hs_msg set_heap set_field cx_mode cx_stage cx_send_dummy_ccs cx_send_dummy_ccs_after].
    assert (Hno : ~ (cx_send_dummy_ccs ctx2 = true /\ cx_send_dummy_ccs_after ctx2 = true)).
    { rewrite Hd2, Ha2. intros [Hd Ha]. destruct (Hc1 Hd Ha) as [_ Hs1]. rewrite Ha1, Hm1 in Hs1. done. }
    split; [split; [done|intros; by destruct Hno]|]. split; [split_and!; congruence|]. intros _. by split. }
  eapply wp_conseq; [by apply (recv_law f cbs)| |].
  - cbn beta. intros cbs' ctx2 (Hfr & Hh2 & Hfl). apply wp_bind. destruct (Z.eqb_spec (CBS_len cbs') 0); cbn [negb].
    + apply wp_bind, wp_gets, wp_ret. apply Hend; [done|done|]. intros _. destruct (Z.ltb_spec (method_version env (cx_env ctx2)) TLS1_3_VERSION).
      * by right; left.
      * right. right. by apply Hfl.
    + apply wp_bind, wp_modify, wp_bind, wp_modify, wp_ret. apply Hend; [done|done|]. intros _. by left.
  - cbn beta. intros ctx2 (Hfr & Hh2). apply wp_bind, wp_ret. apply Hend; [done|done|]. intros _. by left.
Qed.

Lemma recv_action_safe f ctx :
  let action := state_machine (tls13_handshake_active_state ctx) in
  ctx_ok ctx -> a_recv action = Some f -> a_sender action <> cx_mode ctx ->
  wp (tls13_handshake_recv_action malloc_ok env run_recv action) ctx (action_post ctx) (fun _ => False).
Proof using Handlers0 Environment0.
  intros action Hok Hf Hs. unfold tls13_handshake_recv_action. apply wp_bind, wp_gets. apply wp_early.
  apply wp_conseq with (E' := fun _ => False)
    (Q' := fun r ctx1 => kept ctx ctx1 /\ match r with Some ret => ret = TLS13_IO_FAILURE | None => cx_hs_msg ctx1 <> None end); [| |done].
  { destruct (cx_hs_msg ctx) eqn:Em; [apply wp_ret; split; [by apply kept_refl|congruence]|].
    unfold or_failure. apply wp_bind. eapply wp_conseq; [apply hs_msg_new_safe| |done].
    cbn beta. intros ok ctx1 (h & m & -> & Hok1 & Hm). apply wp_ret. split.
    - eapply kept_control; [by apply kept_refl|done|done].
    - unfold return_unless. destruct ok; [|done]. by destruct (Hm eq_refl) as (msg & -> & _). }
  cbn beta. intros r ctx1 [Hk1 Hr]. destruct r as [ret|]; [subst ret; by apply kept_failure|].
  destruct (cx_hs_msg ctx1) as [msg|] eqn:Em; [|done]. apply wp_bind. eapply wp_on_msg_rl; [exact Em|].
  assert (Hmok : msg_ok msg /\ cleanable (hm_cbb msg) (cx_heap ctx1)).
  { destruct Hk1 as [[_ H] _]. unfold hs_msg_ok in H. by rewrite Em in H. }
  eapply wp_conseq; [apply msg_recv_safe; [apply read_bounded|apply Hmok]| |done].
  cbn beta. intros ret [msg2 e] (Hmok2 & Hp2 & Hlen). cbn [fst snd] in *. set (ctx2 := set_env e _).
  assert (Hk2 : kept ctx ctx2).
  { eapply kept_control; [exact Hk1|done|]. unfold hs_msg_ok. cbn. split; [done|]. rewrite Hp2. apply Hmok. }
  assert (Em2 : cx_hs_msg ctx2 = Some msg2) by done. clearbody ctx2. clear Hk1 Em Hmok Hp2.
  destruct (Z.leb_spec ret 0) as [Hret|Hret]; [apply wp_ret; by apply kept_wait|]. specialize (Hlen Hret).
  apply wp_early. eapply wp_conseq; [by apply preserve_safe| |done].
  cbn beta. intros r ctx3 (Hk3 & Em3 & _ & [->| ->]); [|by apply kept_failure].
  apply wp_early. eapply wp_conseq; [apply msg_record_safe; [done|congruence]| |done].
  cbn beta. intros r ctx4 (Hk4 & Em4 & _ & [->| ->]); [|by apply kept_failure].
  apply wp_bind. eapply wp_conseq; [by apply message_cb_safe| |done]. cbn beta. intros _ ctx5 (Hk5 & Em5 & _).
  apply wp_bind, wp_gets. assert (E5 : cx_hs_msg ctx5 = Some msg2) by congruence. rewrite E5. apply wp_bind. eapply wp_valid; [done|].
  destruct (unexpected (tls13_handshake_msg_type msg2) action) eqn:Eu.
  - apply wp_on_env. apply kept_wait; [by apply kept_env|apply alert_fatal].
  - destruct (expected_type _ _ _ Hf Eu) as [Ef Hty].
    destruct (skip_window TLS13_HANDSHAKE_MSG_HEADER_LEN (tls13_handshake_msg_data msg2)) as [Ec _]; [apply Hmok2|split; [done|exact Hlen]|].
    fold (tls13_handshake_msg_content msg2) in Ec. rewrite Ec. apply (recv_handle_safe f); [done..|].
    split; [rewrite Ef; destruct Hk5 as (_ & -> & _); exact Hs|]. by exists msg2.
Qed.

(** *** The loop *)

(** What [tls13_handshake_perform] promises of its result: a handshake that has
    to wait or has succeeded is on track, the messages exchanged so far are those
    exchanged before the call and some more. *)
Definition perform_post ctx (ret : Z) ctx' : Prop :=
  ctx_ok ctx' /\
  (on_track ctx -> cx_alert ctx' = 0 ->
   ret = TLS13_IO_SUCCESS \/ ret = TLS_IO_WANT_POLLIN \/ ret = TLS_IO_WANT_POLLOUT ->
   on_track ctx' /\ cx_mode ctx' = cx_mode ctx /\ (exists new, history (cx_stage ctx') = history (cx_stage ctx) ++ new) /\
   (ret = TLS13_IO_SUCCESS -> cx_completed ctx' = true /\ tls13_handshake_active_state ctx' = APPLICATION_DATA)).

Lemma legacy_info_safe ctx :
  hs_msg_ok ctx ->
  wp (tls13_handshake_legacy_info_callback env) ctx
    (fun _ ctx' => same_control ctx ctx' /\ hs_msg_ok ctx' /\ cx_completed ctx' = cx_completed ctx /\ cx_alert ctx' = cx_alert ctx) (fun _ => False).
Proof using.
  intros Hok. unfold tls13_handshake_legacy_info_callback. apply wp_bind, wp_gets. cbn [id].
  destruct (tls13_handshake_legacy_state ctx) as [st|]; [|by apply wp_ret]. destruct (st =? 0); [by apply wp_ret|].
  apply wp_bind. destruct (info_cb env); [apply wp_modify|apply wp_ret]; by apply wp_ret.
Qed.

Lemma set_legacy_safe ctx :
  hs_msg_ok ctx ->
  wp tls13_handshake_set_legacy_state ctx
    (fun _ ctx' => same_control ctx ctx' /\ hs_msg_ok ctx' /\ cx_completed ctx' = cx_completed ctx /\ cx_alert ctx' = cx_alert ctx) (fun _ => False).
Proof using.
  intros Hok. unfold tls13_handshake_set_legacy_state. apply wp_bind, wp_gets. cbn [id].
  destruct (tls13_handshake_legacy_state ctx) as [st|]; [|by apply wp_ret].
  apply wp_bind. destruct (st =? 0); [apply wp_ret|apply wp_modify]; by apply wp_ret.
Qed.

(** A return without another message. *)
Lemma perform_return ctx ctx' ret :
  ctx_ok ctx' ->
  (on_track ctx -> cx_alert ctx' = 0 ->
   ret = TLS13_IO_FAILURE \/ ret = TLS13_IO_USE_LEGACY \/
   on_track ctx' /\ cx_mode ctx' = cx_mode ctx /\ history (cx_stage ctx') = history (cx_stage ctx) /\
   (ret = TLS13_IO_SUCCESS -> cx_completed ctx' = true /\ tls13_handshake_active_state ctx' = APPLICATION_DATA)) ->
  perform_post ctx ret ctx'.
Proof using.
  intros Hok H. split; [done|]. intros Htr Hal Hret.
  destruct (H Htr Hal) as [->|[->|(H1 & H2 & H3 & H4)]]; [by destruct Hret as [?|[?|?]]..|].
  split; [done|]. split; [done|]. split; [exists []; by rewrite app_nil_r|done].
Qed.

Lemma perform_trans ctx ctx1 ret ctx' :
  (on_track ctx -> on_track ctx1 /\ cx_mode ctx1 = cx_mode ctx /\ exists new, history (cx_stage ctx1) = history (cx_stage ctx) ++ new) ->
  perform_post ctx1 ret ctx' -> perform_post ctx ret ctx'.
Proof using.
  intros H1 [Hok H]. split; [done|]. intros Htr Hal Hret. destruct (H1 Htr) as (Htr1 & Hm1 & new1 & E1).
  destruct (H Htr1 Hal Hret) as (? & ? & (new & E2) & ?). split; [done|]. split; [congruence|]. split; [|done].
  exists (new1 ++ new). by rewrite E2, E1, app_assoc.
Qed.

Lemma same_control_track ctx ctx1 :
  same_control ctx ctx1 -> on_track ctx ->
  on_track ctx1 /\ cx_mode ctx1 = cx_mode ctx /\ history (cx_stage ctx1) = history (cx_stage ctx).
Proof using. intros Hc Ht. destruct (on_track_same _ _ Hc Ht) as (? & ? & ? & ?). done. Qed.

Lemma same_control_ok ctx ctx1 : same_control ctx ctx1 -> hs_msg_ok ctx1 -> ctx_ok ctx -> ctx_ok ctx1.
Proof using. intros (_ & Hs & _) Hm [Hn _]. split; [by rewrite Hs|done]. Qed.

Lemma same_control_refl ctx : same_control ctx ctx.
Proof using. done. Qed.

Lemma same_control_trans ctx ctx1 ctx2 : same_control ctx ctx1 -> same_control ctx1 ctx2 -> same_control ctx ctx2.
Proof using. unfold same_control, same_ccs. intros (? & ? & ? & ?) (? & ? & ? & ?). split_and!; congruence. Qed.

Lemma perform_alert_safe ctx ctx1 (k : M (tls13_ctx E) Z) :
  ctx_ok ctx1 -> (cx_alert ctx1 = 0 -> wp k ctx1 (perform_post ctx) (fun _ => False)) ->
  wp (early (perform_alert env) k) ctx1 (perform_post ctx) (fun _ => False).
Proof using.
  intros Hok Hk. apply wp_early. unfold perform_alert. apply wp_bind, wp_gets. cbn [id].
  destruct (Z.eqb_spec (cx_alert ctx1) 0) as [E0|E0]; cbn [negb].
  - apply wp_ret. auto.
  - apply wp_bind, wp_on_env, wp_ret. apply perform_return; [done|]. intros _ Hal. cbn in Hal. done.
Qed.

(** Every message that can be active has its functions. *)
Lemma action_handlers mt :
  mt <> INVALID -> a_handshake_complete (state_machine mt) = false ->
  exists f g, a_send (state_machine mt) = Some f /\ a_recv (state_machine mt) = Some g /\ is_byte (a_handshake_type (state_machine mt)).
Proof using.
  intros Hi Hc. destruct mt; try done; cbn; eexists _, _; (split; [reflexivity|]); (split; [reflexivity|]); split; by vm_compute.
Qed.

Lemma perform_complete_safe ctx ctx1 :
  ctx_ok ctx -> hs_msg_ok ctx1 -> same_control ctx ctx1 -> tls13_handshake_active_state ctx = APPLICATION_DATA ->
  wp (perform_complete env) ctx1 (perform_post ctx) (fun _ => False).
Proof using.
  intros Hok Hm1 Hc Ha. unfold perform_complete. apply wp_bind, wp_modify, wp_bind, wp_modify. set (ctx2 := set_env _ _).
  assert (Hc2 : same_control ctx ctx2) by (eapply same_control_trans; [exact Hc|done]).
  assert (Hm2 : hs_msg_ok ctx2) by apply Hm1. assert (Hcomp : cx_completed ctx2 = true) by done. clearbody ctx2.
  assert (Hret : forall ctx3 ret, same_control ctx ctx3 -> hs_msg_ok ctx3 -> cx_completed ctx3 = true -> perform_post ctx ret ctx3).
  { intros ctx3 ret Hc3 Hm3 Hco3. apply perform_return; [by eapply same_control_ok|]. intros Htr _. right. right.
    destruct (same_control_track _ _ Hc3 Htr) as (? & ? & ?). split; [done|]. split; [done|]. split; [done|]. intros _.
    split; [done|]. destruct Hc3 as (_ & Hs3 & _). unfold tls13_handshake_active_state in *. by rewrite Hs3. }
  apply wp_early. unfold or_failure at 1. apply wp_bind.
  eapply wp_conseq; [by apply set_legacy_safe| |done]. cbn beta. intros ok ctx3 (Hc3 & Hm3 & Ec3 & _). apply wp_ret.
  assert (Hcc : same_control ctx ctx3) by (by eapply same_control_trans).
  destruct ok; [|apply Hret; [done|done|congruence]]. cbn [return_unless]. apply wp_early. unfold or_failure. apply wp_bind.
  eapply wp_conseq; [by apply legacy_info_safe| |done]. cbn beta. intros ok ctx4 (Hc4 & Hm4 & Ec4 & _). apply wp_ret.
  assert (Hcc4 : same_control ctx ctx4) by (by eapply same_control_trans).
  destruct ok; [apply wp_ret|]; apply Hret; try done; congruence.
Qed.

(** An action that succeeded, up to the next iteration. *)
Lemma perform_advance_safe ctx ctx1 action sending ret (k : M (tls13_ctx E) Z) :
  action_post ctx ret ctx1 -> 0 < ret -> 0 <= message_number (cx_stage ctx) < 15 ->
  (forall ctx2, ctx_ok ctx2 -> message_number (cx_stage ctx2) = message_number (cx_stage ctx) + 1 -> message_number (cx_stage ctx2) < 15 ->
     wp k ctx2 (perform_post ctx2) (fun _ => False)) ->
  wp (early (perform_advance env action sending) k) ctx1 (perform_post ctx) (fun _ => False).
Proof using.
  intros ([Hn1 Hm1] & Hmode1 & Hnn1 & Ht1) Hret Hnum Hk. unfold perform_advance. apply wp_early, wp_bind.
  assert (Hfail : forall ctx2, ctx_ok ctx2 -> perform_post ctx TLS13_IO_FAILURE ctx2).
  { intros ctx2 Hok2. apply perform_return; [done|]. intros _ _. by left. }
  eapply wp_conseq; [by apply legacy_info_safe| |done]. cbn beta. intros ok ctx2 (Hc2 & Hm2 & _).
  assert (Hs2 : cx_stage ctx2 = cx_stage ctx1) by apply Hc2.
  destruct ok; cbn [negb]; [|apply wp_ret, Hfail; split; [by rewrite Hs2|done]].
  unfold tls13_handshake_advance_state_machine. apply wp_bind, wp_bind, wp_modify, wp_gets.
  set (ctx3 := set_stage _ ctx2). assert (Hs3 : cx_stage ctx3 = mkStage (hs_type (cx_stage ctx1)) (u8 (message_number (cx_stage ctx1) + 1))).
  { unfold ctx3. cbn. by rewrite Hs2. }
  assert (Hm3 : hs_msg_ok ctx3) by apply Hm2.
  assert (Hmode3 : cx_mode ctx3 = cx_mode ctx1) by (unfold ctx3; cbn; apply Hc2).
  assert (Hccs3 : same_ccs ctx1 ctx3) by apply Hc2. clearbody ctx3.
  assert (Hok3 : ctx_ok ctx3).
  { split; [|done]. rewrite Hs3. cbn. unfold u8. apply Z.mod_pos_bound. lia. }
  unfold TLS13_NUM_MESSAGE_TYPES. destruct (Z.leb_spec 15 (message_number (cx_stage ctx3))) as [H15|H15]; cbn [negb]; [by apply wp_ret, Hfail|].
  apply wp_bind. assert (Hnext : on_track ctx -> on_track ctx3 /\ cx_mode ctx3 = cx_mode ctx /\
      exists new, history (cx_stage ctx3) = history (cx_stage ctx) ++ new).
  { intros Htr. destruct (Ht1 Htr) as [->|[->|([Hr1 Hdd] & (Hmd & Hnn & Hh) & Hadv)]]; [by unfold TLS13_IO_FAILURE in Hret|by unfold TLS13_IO_USE_LEGACY in Hret|].
    destruct (Hadv Hret) as [Had Hno]. unfold advanceable in Had. rewrite !andb_true_iff in Had. destruct Had as [[_ Hr3] Hh3].
    apply bool_decide_eq_true_1 in Hh3.
    assert (E3 : cx_stage ctx3 = next_stage (cx_stage ctx1)).
    { rewrite Hs3. unfold next_stage, u8. f_equal. apply Z.mod_small.
      pose proof (ready_checked _ Hr1) as Hc. unfold check_stage in Hc. rewrite !andb_true_iff in Hc. lia. }
    split; [split; [by rewrite E3|]|].
    - destruct Hccs3 as [-> ->]. intros Hd Ha. by destruct Hno.
    - split; [congruence|]. eexists. rewrite E3, Hh3, Hh. done. }
  apply wp_conseq with (E' := fun _ => False) (Q' := fun _ ctx4 => same_control ctx3 ctx4 /\ hs_msg_ok ctx4);
    [destruct sending; [apply wp_modify|apply wp_ret]; by split| |done].
  cbn beta. intros _ ctx4 [Hc4 Hm4]. unfold or_failure. apply wp_bind. eapply wp_conseq; [by apply set_legacy_safe| |done].
  cbn beta. intros ok ctx5 (Hc5 & Hm5 & _). apply wp_ret. assert (Hc35 : same_control ctx3 ctx5) by (by eapply same_control_trans).
  assert (Hok5 : ctx_ok ctx5) by (by eapply same_control_ok).
  destruct ok; cbn [return_unless]; [|by apply Hfail].
  eapply wp_conseq; [apply Hk; [done| |]| |done].
  - destruct Hc35 as (_ & -> & _). rewrite Hs3. cbn. unfold u8. rewrite Hnn1. apply Z.mod_small. lia.
  - destruct Hc35 as (_ & -> & _). exact H15.
  - cbn beta. intros r ctx6 Hpost. eapply perform_trans; [|exact Hpost]. intros Htr. destruct (Hnext Htr) as (Htr3 & Hmd3 & new & E3).
    destruct (same_control_track _ _ Hc35 Htr3) as (? & ? & E5). split; [done|]. split; [congruence|]. exists new. congruence.
Qed.

Lemma perform_iteration_safe ctx (k : M (tls13_ctx E) Z) :
  ctx_ok ctx ->
  (forall ctx2, ctx_ok ctx2 -> message_number (cx_stage ctx2) = message_number (cx_stage ctx) + 1 -> message_number (cx_stage ctx2) < 15 ->
     wp k ctx2 (perform_post ctx2) (fun _ => False)) ->
  wp (perform_iteration malloc_ok env run_send run_sent run_recv k) ctx (perform_post ctx) (fun _ => False).
Proof using Handlers0 Environment0.
  intros Hok Hk. unfold perform_iteration. apply wp_bind, wp_gets. unfold tls13_handshake_active_action.
  destruct (decide (tls13_handshake_active_state ctx = INVALID)) as [Hi|Hi].
  { apply wp_ret. apply perform_return; [done|]. by left. }
  assert (Hnum : 0 <= message_number (cx_stage ctx) < 15).
  { destruct Hok as [Hn _]. unfold tls13_handshake_active_state, stage_state, TLS13_NUM_MESSAGE_TYPES in Hi.
    destruct (handshake_count <=? _); [done|]. destruct (Z.leb_spec 15 (message_number (cx_stage ctx))); [done|lia]. }
  apply wp_early. apply wp_conseq with (E' := fun _ => False)
    (Q' := fun r ctx1 => same_control ctx ctx1 /\ hs_msg_ok ctx1 /\ r <> Some TLS13_IO_SUCCESS); [| |done].
  { unfold perform_flush. apply wp_bind, wp_gets. cbn [id]. destruct (cx_need_flush ctx); [|apply wp_ret; split; [done|split; [apply Hok|done]]].
    apply wp_bind, wp_on_env. destruct (Z.eqb_spec (tls13_record_layer_flush env (cx_env ctx)).1 TLS13_IO_SUCCESS) as [Er|Er]; cbn [negb].
    - apply wp_bind, wp_modify, wp_ret. split; [done|split; [apply Hok|done]].
    - apply wp_ret. split; [done|split; [apply Hok|congruence]]. }
  cbn beta. intros r ctx1 (Hc1 & Hm1 & Hr). assert (Hok1 : ctx_ok ctx1) by (by eapply same_control_ok).
  destruct r as [ret|].
  { apply perform_return; [done|]. intros Htr _. right. right. destruct (same_control_track _ _ Hc1 Htr) as (? & ? & ?).
    split; [done|]. split; [done|]. split; [done|]. congruence. }
  assert (Ha1 : tls13_handshake_active_state ctx1 = tls13_handshake_active_state ctx).
  { unfold tls13_handshake_active_state. by destruct Hc1 as (_ & -> & _). }
  destruct (a_handshake_complete (state_machine (tls13_handshake_active_state ctx))) eqn:Ec.
  { apply perform_complete_safe; [done|done|done|]. by destruct (tls13_handshake_active_state ctx). }
  destruct (action_handlers _ Hi Ec) as (f & g & Hf & Hg & Hty).
  apply wp_bind, wp_gets. apply perform_alert_safe; [done|]. intros _.
  rewrite <- Ha1 in *. apply wp_bind.
  apply wp_conseq with (E' := fun _ => False) (Q' := action_post ctx1); [| |done].
  { destruct (Z.eqb_spec (a_sender (state_machine (tls13_handshake_active_state ctx1))) (cx_mode ctx1)).
    - by apply (send_action_safe f).
    - by apply (recv_action_safe g). }
  cbn beta. intros ret ctx2 Hpost.
  assert (Hfrom : forall ret' ctx', perform_post ctx1 ret' ctx' -> perform_post ctx ret' ctx').
  { intros ret' ctx'. apply perform_trans. intros Htr. destruct (same_control_track _ _ Hc1 Htr) as (? & ? & ->).
    split; [done|]. split; [done|]. exists []. by rewrite app_nil_r. }
  assert (Hs1 : cx_stage ctx1 = cx_stage ctx) by apply Hc1.
  apply wp_conseq with (Q' := perform_post ctx1) (E' := fun _ => False); [|exact Hfrom|done]. apply perform_alert_safe; [apply Hpost|]. intros _.
  destruct (Z.leb_spec ret 0) as [Hret|Hret].
  - apply wp_ret. apply perform_return; [apply Hpost|]. intros Htr _. destruct Hpost as (_ & _ & _ & Ht).
    destruct (Ht Htr) as [?|[?|(? & (? & ? & ?) & _)]]; [by left|by right; left|right; right].
    split; [done|]. split; [done|]. split; [done|]. unfold TLS13_IO_SUCCESS. lia.
  - eapply perform_advance_safe; [exact Hpost|lia|by rewrite Hs1|]. intros ctx3 Hok3 Hn3. apply Hk; [done|by rewrite <- Hs1].
Qed.

Lemma perform_loop_safe fuel : forall ctx,
  ctx_ok ctx -> (0 < fuel)%nat -> 15 <= message_number (cx_stage ctx) + Z.of_nat fuel ->
  wp (perform_loop malloc_ok env run_send run_sent run_recv fuel) ctx (perform_post ctx) (fun _ => False).
Proof using Handlers0 Environment0.
  induction fuel as [|fuel IH]; intros ctx Hok Hf Hn; [lia|]. cbn [perform_loop].
  apply perform_iteration_safe; [done|]. intros ctx2 Hok2 Hn2 H15. apply IH; [done|lia|lia].
Qed.

Lemma perform_start_safe ctx :
  ctx_ok ctx ->
  wp (perform_start env) ctx
    (fun r ctx1 => same_control ctx ctx1 /\ hs_msg_ok ctx1 /\ (r = None \/ r = Some TLS13_IO_FAILURE)) (fun _ => False).
Proof using.
  intros [Hn Hok]. unfold perform_start. apply wp_bind, wp_gets. cbn [id].
  destruct (cx_started ctx); cbn [negb]; [apply wp_ret; split; [done|split; [done|by left]]|].
  apply wp_bind. eapply wp_conseq; [by apply set_legacy_safe| |done]. cbn beta. intros ok ctx1 (Hc1 & Hm1 & _).
  destruct ok; cbn [negb]; [|apply wp_ret; split; [done|split; [done|by right]]]. apply wp_bind.
  eapply wp_conseq; [by apply legacy_info_safe| |done]. cbn beta. intros ok ctx2 (Hc2 & Hm2 & _).
  assert (Hcc : same_control ctx ctx2) by (by eapply same_control_trans).
  destruct ok; cbn [negb]; [|apply wp_ret; split; [done|split; [done|by right]]].
  apply wp_bind, wp_modify. unfold or_failure. apply wp_bind. eapply wp_conseq; [by apply set_legacy_safe| |done].
  cbn beta. intros ok ctx3 (Hc3 & Hm3 & _). apply wp_ret. split; [|split; [done|destruct ok; [by left|by right]]].
  eapply same_control_trans; [exact Hcc|]. eapply same_control_trans; [|exact Hc3]. done.
Qed.

Lemma perform_safe ctx :
  ctx_ok ctx ->
  wp (tls13_handshake_perform malloc_ok env run_send run_sent run_recv) ctx (perform_post ctx) (fun _ => False).
Proof using Handlers0 Environment0.
  intros Hok. unfold tls13_handshake_perform. apply wp_early. eapply wp_conseq; [by apply perform_start_safe| |done].
  cbn beta. intros r ctx1 (Hc1 & Hm1 & Hr). assert (Hok1 : ctx_ok ctx1) by (by eapply same_control_ok).
  destruct Hr as [->| ->].
  - eapply wp_conseq; [apply perform_loop_safe; [done|unfold TLS13_NUM_MESSAGE_TYPES; lia|]| |done].
    { destruct Hok1 as [Hn1 _]. unfold TLS13_NUM_MESSAGE_TYPES. lia. }
    intros ret ctx2. apply perform_trans. intros Htr. destruct (same_control_track _ _ Hc1 Htr) as (? & ? & ->).
    split; [done|]. split; [done|]. exists []. by rewrite app_nil_r.
  - apply perform_return; [done|]. by left.
Qed.
End perform.

(** ** The properties *)

(** The flags of a handshake. *)
Definition rfc_flags (hrr psk cr cv : bool) : Z :=
  Z.lor (Z.lor (Z.lor NEGOTIATED (if hrr then 0 else WITHOUT_HRR)) (if psk then WITH_PSK else if cr then 0 else WITHOUT_CR))
    (if cv then WITH_CCV else 0).

(** The table [handshakes] is the grammar of RFC 8446: for every kind of
    handshake (with a retry, with a pre-shared key, with a certificate request, with
    a client certificate) the row of its flags lists the messages of the RFC in their
    order, and every row that reaches the application data is such a row. *)
Theorem handshakes_follow_rfc8446 h :
  (forall hrr psk cr cv, (psk = true -> cr = false) -> (cv = true -> cr = true) -> h = rfc_flags hrr psk cr cv ->
     let messages := rfc8446 hrr psk cr cv in handshakes h = messages ++ replicate (15 - length messages) INVALID) /\
  (APPLICATION_DATA ∈ handshakes h ->
     exists hrr psk cr cv, (psk = true -> cr = false) /\ (cv = true -> cr = true) /\ h = rfc_flags hrr psk cr cv).
Proof.
  split.
  - intros hrr psk cr cv Hp Hv ->. destruct psk, cr; try (by discriminate Hp); destruct cv; try (by discriminate Hv);
      destruct hrr; reflexivity.
  - unfold handshakes. cbv zeta.
    repeat match goal with
    | |- context [if ?a =? ?b then _ else _] => destruct (Z.eqb_spec a b) as [->|_]
    end.
    all: intros Ha; try (exfalso; apply list_elem_of_In in Ha; vm_compute in Ha; by intuition discriminate); clear Ha.
    + exists true, false, true, false; (split; [done|]); (split; [done|]); done.
    + exists false, false, true, false; (split; [done|]); (split; [done|]); done.
    + exists true, false, false, false; (split; [done|]); (split; [done|]); done.
    + exists false, false, false, false; (split; [done|]); (split; [done|]); done.
    + exists true, true, false, false; (split; [done|]); (split; [done|]); done.
    + exists false, true, false, false; (split; [done|]); (split; [done|]); done.
    + exists true, false, true, true; (split; [done|]); (split; [done|]); done.
    + exists false, false, true, true; (split; [done|]); (split; [done|]); done.
Qed.

(** C23. A call of [tls13_handshake_perform] ends: whatever the peer sends,
    the record layer answers and the handlers decide, and however much memory there
    is, a receive handler runs only on the whole body of a message of a type it is for, at most [TLS13_NUM_MESSAGE_TYPES] iterations give a result; no pointer,
    buffer or table is misused, and the context can be used for the next call. *)
Theorem tls13_handshake_perform_terminates malloc_ok {E} (env : environment E) run_send run_sent run_recv
    `{!Handlers malloc_ok env run_send run_sent run_recv, !Environment env} ctx :
  ctx_ok ctx ->
  exists ret ctx', tls13_handshake_perform malloc_ok env run_send run_sent run_recv ctx = Ret ret ctx' /\ ctx_ok ctx'.
Proof.
  intros Hok. destruct (wp_total _ _ _ (perform_safe malloc_ok env run_send run_sent run_recv ctx Hok)) as (ret & ctx' & ? & [? _]).
  by exists ret, ctx'.
Qed.

Lemma ready_rfc st :
  ready st = true ->
  exists hrr cr cv, history st = take (length (history st)) (rfc8446 hrr false cr cv) /\
    (stage_state st = APPLICATION_DATA -> history st ++ [APPLICATION_DATA] = rfc8446 hrr false cr cv).
Proof.
  intros Hr. pose proof (stages_forall in_rfc stages_in_rfc st Hr) as H. unfold in_rfc in H.
  apply existsb_exists in H as ([[hrr cr] cv] & _ & H). exists hrr, cr, cv.
  rewrite andb_true_iff, orb_true_iff, negb_true_iff, !bool_decide_eq_true, bool_decide_eq_false in H. tauto.
Qed.

(** C16. The messages are exchanged in the order of RFC 8446: from a context
    that is on track (a new one is), a call that has to wait or succeeds leaves the
    context on track, with the messages exchanged before the call followed by new
    ones; together they begin a handshake of the RFC, and they are a whole one,
    up to the application data, when the call succeeds. *)
Theorem tls13_handshake_perform_order malloc_ok {E} (env : environment E) run_send run_sent run_recv
    `{!Handlers malloc_ok env run_send run_sent run_recv, !Environment env} ctx ret ctx' :
  ctx_ok ctx -> on_track ctx ->
  tls13_handshake_perform malloc_ok env run_send run_sent run_recv ctx = Ret ret ctx' -> cx_alert ctx' = 0 ->
  ret = TLS13_IO_SUCCESS \/ ret = TLS_IO_WANT_POLLIN \/ ret = TLS_IO_WANT_POLLOUT ->
  on_track ctx' /\
  exists new hrr cr cv, history (cx_stage ctx') = history (cx_stage ctx) ++ new /\
    (exists rest, rfc8446 hrr false cr cv = history (cx_stage ctx') ++ rest) /\
    (ret = TLS13_IO_SUCCESS -> cx_completed ctx' = true /\
       history (cx_stage ctx') ++ [APPLICATION_DATA] = rfc8446 hrr false cr cv).
Proof.
  intros Hok Htr Hrun Hal Hret.
  destruct (wp_Ret _ _ _ _ _ _ (perform_safe malloc_ok env run_send run_sent run_recv ctx Hok) Hrun) as [_ H].
  destruct (H Htr Hal Hret) as (Htr' & _ & (new & Enew) & Hs). split; [done|].
  destruct (ready_rfc (cx_stage ctx') (proj1 Htr')) as (hrr & cr & cv & Hpre & Hfull).
  exists new, hrr, cr, cv. split; [done|]. split.
  - exists (drop (length (history (cx_stage ctx'))) (rfc8446 hrr false cr cv)). rewrite Hpre at 1. symmetry. apply take_drop.
  - intros Hsucc. destruct (Hs Hsucc) as [? Ha]. split; [done|]. by apply Hfull.
Qed.

(** ** A concrete client *)

Section client.
(** What arrives in chunks, and what was sent. *)
Definition link : Type := list (list Z) * list Z.

Definition link_env : environment link :=
  mkEnvironment (fun e => (TLS13_IO_SUCCESS, e)) (fun e => e) (fun e => (TLS13_IO_SUCCESS, e))
    (fun _ e => (TLS_IO_ALERT, e)) (fun n e => let '(ret, octets, c) := chunk_read n e.1 in (ret, map u8 octets, (c, e.2)))
    (fun octets e => (zlen octets, (e.1, e.2 ++ octets))) (fun _ e => (true, e)) (fun e => (true, e))
    (fun _ => TLS1_3_VERSION) None None None.

Definition add_to_stage (f : Z) : M (tls13_ctx link) unit := modify (fun ctx => set_stage (add_flags f (cx_stage ctx)) ctx).

Definition link_send (f : send_handler) (cbb : ptr) : M (tls13_ctx link) unit := on_heap (CBB_add_u8 (fun _ => true) cbb 7).
Definition link_sent (f : sent_handler) : M (tls13_ctx link) unit := add_to_stage (hd 0 (sent_flags f)).
(** The body of each message is one octet; the server sends no retry and no
    certificate request. The handlers rely on the type of the message. *)
Definition link_recv (f : recv_handler) (cbs : CBS) : M (tls13_ctx link) CBS :=
  msg ← gets cx_hs_msg;
  msg ← valid msg;
  must (bool_decide (tls13_handshake_msg_type msg ∈ (recv_expects f).2));;
  check (CBS_len cbs =? 1);;
  add_to_stage (List.last (recv_flags f) 0);;
  mret (cbs_advance 1 cbs).
End client.

#[global] Instance link_env_ok : Environment link_env.
Proof.
  split.
  - intros n [c out] Hn. pose proof (reader_law (read_cb := chunk_read) n c) as Hl. cbn.
    destruct (chunk_read n c) as [[ret octets] c'] eqn:Er. destruct (Hl _ _ _ Hn eq_refl) as [_ Hl']. cbn. split.
    + unfold zlen. rewrite length_map. change (Z.of_nat (length octets)) with (zlen octets). destruct Hl' as [(? & ? & _)|(_ & ? & _)]; lia.
    + apply Forall_forall. intros b (x & -> & _)%list_elem_of_fmap. unfold is_byte, u8. by apply Z.mod_pos_bound.
  - intros e. by left.
  - intros e. cbn. unfold TLS_IO_ALERT. lia.
Qed.

#[global] Instance link_handlers : Handlers (fun _ => true) link_env link_send link_sent link_recv.
Proof.
  split.
  - intros f cbb ctx. exists [U8 cbb 7]. split.
    + split; [repeat constructor; cbn; lia|]. intros msg ty Em Hne Hty.
      assert (Hb : denote_all [U8 cbb 7] ([(hm_cbb msg, [ty], Fixed 3)], cbb, []) =
                   Ret tt ([(hm_cbb msg, [ty], Fixed 3)], cbb, [7])).
      { cbn [denote_all denote]. mstep. change (7 <? 2 ^ 8) with true. cbv iota. unfold a_append, a_at. cbn [locate fst].
        rewrite decide_False, decide_True by congruence. done. }
      destruct (build_msg (hm_cbb msg) cbb ty [U8 cbb 7] [7] Hne Hty ltac:(by vm_compute) ltac:(repeat constructor; cbn; lia) Hb) as [B HB].
      by rewrite HB.
    + cbn [exec_all exec]. mstep. unfold wp, link_send, on_heap.
      destruct (CBB_add_u8 (fun _ => true) cbb 7 (cx_heap ctx)) as [[] h|h|]; [| |done]; intros _.
      * split; [done|]. split; [|done]. by apply flagged_same; [apply send_flags_0|].
      * split; [done|]. by right.
  - intros f ctx. apply wp_modify. split; [done|]. split; [|done]. exists (hd 0 (sent_flags f)). split; [by destruct f; constructor|done].
  - intros f cbs ctx (_ & msg & Em & Hty & _). unfold link_recv. apply wp_bind, wp_gets, wp_bind. eapply wp_valid; [done|].
    apply wp_bind, wp_must; [by apply bool_decide_eq_true|]. apply wp_bind, wp_check; [intros _|done]. apply wp_bind, wp_modify, wp_ret.
    split; [done|]. split; [done|]. intros _. split; [|done]. exists (List.last (recv_flags f) 0). split; [|done].
    destruct f; cbn; repeat constructor.
Qed.

(** ServerHello, EncryptedExtensions, Certificate, CertificateVerify and
    Finished, with a wait in the second. *)
Definition server_flight : list (list Z) := [[2; 0; 0; 1; 7; 8; 0; 0]; []; [1; 7; 11; 0; 0; 1; 7]; [15; 0; 0; 1; 7; 20; 0; 0; 1; 7]].

Definition new_client : tls13_ctx link :=
  mkCtx TLS13_HS_CLIENT (mkStage INITIAL 0) false false false false false None 0 0 0 (mkHeap ∅ ∅) (server_flight, []).

Definition client_perform : M (tls13_ctx link) Z := tls13_handshake_perform (fun _ => true) link_env link_send link_sent link_recv.

Definition after_wait : tls13_ctx link :=
  match client_perform new_client with Ret _ ctx => ctx | _ => new_client end.

Lemma new_client_ok : ctx_ok new_client /\ on_track new_client.
Proof. split; [split; [cbn; lia|done]|]. split; [by vm_compute|done]. Qed.

Lemma tls13_handshake_perform_terminates_witness :
  client_perform new_client = Ret TLS_IO_WANT_POLLIN after_wait /\
  history (cx_stage after_wait) = [CLIENT_HELLO; SERVER_HELLO] /\
  exists ret ctx', client_perform new_client = Ret ret ctx' /\ ctx_ok ctx'.
Proof.
  split; [by vm_compute|]. split; [by vm_compute|].
  apply (tls13_handshake_perform_terminates (fun _ => true) link_env link_send link_sent link_recv new_client (proj1 new_client_ok)).
Defined.

Lemma tls13_handshake_perform_order_witness :
  (exists ctx', client_perform after_wait = Ret TLS13_IO_SUCCESS ctx' /\
     history (cx_stage ctx') =
       [CLIENT_HELLO; SERVER_HELLO; SERVER_ENCRYPTED_EXTENSIONS; SERVER_CERTIFICATE; SERVER_CERTIFICATE_VERIFY;
        SERVER_FINISHED; CLIENT_FINISHED]) /\
  on_track after_wait /\
  exists new hrr cr cv, history (cx_stage after_wait) = history (cx_stage new_client) ++ new /\
    (exists rest, rfc8446 hrr false cr cv = history (cx_stage after_wait) ++ rest) /\
    (TLS_IO_WANT_POLLIN = TLS13_IO_SUCCESS -> cx_completed after_wait = true /\
       history (cx_stage after_wait) ++ [APPLICATION_DATA] = rfc8446 hrr false cr cv).
Proof.
  split; [eexists; split; by vm_compute|].
  apply (tls13_handshake_perform_order (fun _ => true) link_env link_send link_sent link_recv new_client TLS_IO_WANT_POLLIN after_wait).
  - apply new_client_ok.
  - apply new_client_ok.
  - by vm_compute.
  - by vm_compute.
  - right. by left.
Defined.
