(* ===== verification/Tls13Record.v ===== *)
(** * TLS 1.3 records: libssl/tls13_record.c

    A record is received from the wire into a [tls_buffer] and then owned as
    [data], or set by its builder and sent from its CBS.  The two directions have
    the structure of the handshake messages of Tls13Msg.v. *)

From S2P Require Import Prelude Cbs TlsBuffer Tls13Msg.
Open Scope Z_scope.

Definition TLS13_RECORD_HEADER_LEN : Z := 5.
Definition TLS13_RECORD_MAX_AEAD_OVERHEAD : Z := 255.
Definition TLS13_RECORD_MAX_PLAINTEXT_LEN : Z := 16384.
Definition TLS13_RECORD_MAX_INNER_PLAINTEXT_LEN : Z := TLS13_RECORD_MAX_PLAINTEXT_LEN + 1.
Definition TLS13_RECORD_MAX_CIPHERTEXT_LEN : Z := TLS13_RECORD_MAX_INNER_PLAINTEXT_LEN + TLS13_RECORD_MAX_AEAD_OVERHEAD.
Definition TLS13_RECORD_MAX_LEN : Z := TLS13_RECORD_HEADER_LEN + TLS13_RECORD_MAX_CIPHERTEXT_LEN.

Definition SSL3_VERSION_MAJOR : Z := 3.
Definition TLS13_IO_RECORD_VERSION : Z := -7.
Definition TLS13_IO_RECORD_OVERFLOW : Z := -8.

Record tls13_record : Type := mkRecord {
  rec_version : Z;
  rec_content_type : Z;
  rec_len : Z;
  rec_data : option (list Z);
  rec_data_len : Z;
  rec_cbs : CBS;
  rec_buf : tls_buffer;
}.

Section record.
Context (alloc_ok : Z -> bool).

Definition tls13_record_new : option tls13_record :=
  if alloc_ok 64 then
    match tls_buffer_new alloc_ok TLS13_RECORD_MAX_LEN with
    | Some buf => Some (mkRecord 0 0 0 None 0 null_CBS buf)
    | None => None
    end
  else None.

Definition tls13_record_version (rec : tls13_record) : Z := rec_version rec.
Definition tls13_record_content_type (rec : tls13_record) : Z := rec_content_type rec.

(** A null pointer has no octets. *)
Definition tls13_record_data (rec : tls13_record) : CBS := CBS_init (default [] (rec_data rec)) (rec_data_len rec).

Definition tls13_record_header (rec : tls13_record) : option CBS :=
  if rec_data_len rec <? TLS13_RECORD_HEADER_LEN then None
  else Some (CBS_init (default [] (rec_data rec)) TLS13_RECORD_HEADER_LEN).

Definition tls13_record_content (rec : tls13_record) : option CBS :=
  match CBS_skip TLS13_RECORD_HEADER_LEN (tls13_record_data rec) with
  | Ret _ content => Some (CBS_dup content)
  | _ => None
  end.

Definition tls13_record_set_data (data : list Z) (data_len : Z) : M tls13_record unit :=
  check (negb (TLS13_RECORD_MAX_LEN <? data_len));;
  modify (fun rec => mkRecord (rec_version rec) (rec_content_type rec) (rec_len rec) (Some data) data_len
                       (CBS_init data data_len) (rec_buf rec)).

(** An operation on [rec->buf] and the wire. *)
Definition on_rec_buf {W A} (m : M (tls_buffer * W) A) : M (tls13_record * W) A := fun st =>
  let '(rec, w) := st in
  let set_buf buf := mkRecord (rec_version rec) (rec_content_type rec) (rec_len rec) (rec_data rec) (rec_data_len rec)
                       (rec_cbs rec) buf in
  match m (rec_buf rec, w) with
  | Ret a (buf, w') => Ret a (set_buf buf, w')
  | Fail (buf, w') => Fail (set_buf buf, w')
  | UB => UB
  end.

Section recv.
Context {W : Type} (wire_read : tls_read_cb W).

(** The header: [None] to go on, [Some ret] to return. *)
Definition record_recv_header : M (tls13_record * W) (option Z) :=
  rec ← gets fst;
  if rec_content_type rec =? 0 then
    ret ← on_rec_buf (tls_buffer_extend alloc_ok wire_read TLS13_RECORD_HEADER_LEN);
    if ret <=? 0 then mret (Some ret)
    else
      rec ← gets fst;
      match tls_buffer_data (rec_buf rec) with
      | None => mret (Some TLS_IO_FAILURE)
      | Some cbs =>
          match (t ← CBS_get_u8; v ← CBS_get_u16; l ← CBS_get_u16; mret (t, v, l)) cbs with
          | Ret (content_type, version, len) _ =>
              if negb (Z.shiftr version 8 =? SSL3_VERSION_MAJOR) then mret (Some TLS13_IO_RECORD_VERSION)
              else if TLS13_RECORD_MAX_CIPHERTEXT_LEN <? len then mret (Some TLS13_IO_RECORD_OVERFLOW)
              else
                modify (fun '(rec, w) => (mkRecord version content_type len (rec_data rec) (rec_data_len rec)
                                            (rec_cbs rec) (rec_buf rec), w));;
                mret None
          | Fail _ => mret (Some TLS_IO_FAILURE)
          | UB => ub
          end
      end
  else mret None.

Definition tls13_record_recv : M (tls13_record * W) Z :=
  rec ← gets fst;
  match rec_data rec with
  | Some _ => mret TLS_IO_FAILURE
  | None =>
      header ← record_recv_header;
      match header with
      | Some ret => mret ret
      | None =>
          rec ← gets fst;
          ret ← on_rec_buf (tls_buffer_extend alloc_ok wire_read (TLS13_RECORD_HEADER_LEN + rec_len rec));
          if ret <=? 0 then mret ret
          else
            '(data, data_len) ← on_rec_buf (on_fst tls_buffer_finish);
            modify (fun '(rec, w) => (mkRecord (rec_version rec) (rec_content_type rec) (rec_len rec) (Some data) data_len
                                        (rec_cbs rec) (rec_buf rec), w));;
            mret data_len
      end
  end.
End recv.

Section send.
Context {W : Type} (wire_write : tls_write_cb W).

(** [while (CBS_len(&rec->cbs) > 0)] *)
Fixpoint record_send_loop (fuel : nat) : M (tls13_record * W) Z :=
  st ← gets id;
  let '(rec, w) := st in
  if 0 <? CBS_len (rec_cbs rec) then
    match fuel with
    | O => ub
    | S fuel =>
        octets ← read_bytes (CBS_data (rec_cbs rec)) (CBS_len (rec_cbs rec));
        let '(ret, w') := wire_write octets w in
        modify (fun _ => (rec, w'));;
        if ret <=? 0 then mret ret
        else
          match CBS_skip ret (rec_cbs rec) with
          | Ret _ cbs =>
              modify (fun _ => (mkRecord (rec_version rec) (rec_content_type rec) (rec_len rec) (rec_data rec)
                                  (rec_data_len rec) cbs (rec_buf rec), w'));;
              record_send_loop fuel
          | Fail _ => mret TLS_IO_FAILURE
          | UB => ub
          end
    end
  else mret (rec_data_len rec).

Definition tls13_record_send : M (tls13_record * W) Z :=
  rec ← gets fst;
  match rec_data rec with
  | None => mret TLS_IO_FAILURE
  | Some _ => record_send_loop (Z.to_nat (CBS_len (rec_cbs rec)))
  end.
End send.
End record.

(** ** Receiving *)

(** A record on the wire. *)
Definition record_wire (ty ver : Z) (payload : list Z) : list Z :=
  ty :: be_bytes 2 ver ++ be_bytes 2 (zlen payload) ++ payload.

Lemma zlen_record_wire ty ver payload : zlen (record_wire ty ver payload) = 5 + zlen payload.
Proof. unfold record_wire. rewrite zlen_cons, !zlen_app, !zlen_be_bytes. lia. Qed.

(** Two octets of a CBS, whatever follows its window. *)
Lemma get_u16_prefix x y l n i :
  is_byte x -> is_byte y -> 2 <= n -> n <= zlen (x :: y :: l) ->
  CBS_get_u16 (mkCBS (x :: y :: l) i n) = Ret (be_val [x; y]) (mkCBS l i (n - 2)).
Proof.
  intros Hx Hy Hn Hl. unfold CBS_get_u16, cbs_get_u, cbs_get. mstep.
  change (negb ((2 <? 1) || (4 <? 2))) with true. cbn [id cbs_len cbs_data].
  rewrite !zlen_cons in *. pose proof (zlen_nonneg l). rewrite !(proj2 (Z.leb_le _ _)) by lia.
  cbn [cbs_advance cbs_data cbs_initial_len cbs_len]. change (Z.to_nat 2) with 2%nat.
  change (x :: y :: l) with ([x; y] ++ l). rewrite cbs_u_loop_prefix by zlen_lia.
  rewrite cbs_u_loop_spec; [|lia|zlen_lia|by apply Forall_cons; split; [|apply Forall_cons; split; [|constructor]]|lia|cbn; lia].
  rewrite zdrop_0, (ztake_all _ [x; y]) by zlen_lia. unfold is_byte in *.
  change (be_val [x; y]) with ((0 * 256 + x) * 256 + y). unfold u16. rewrite Z.mod_small by lia. unfold cbs_advance. cbn [cbs_data cbs_initial_len cbs_len].
  cbn [app]. by rewrite !zdrop_cons by lia.
Qed.

(** The header is parsed whatever the octets after it are. *)
Lemma parse_record_header a b c d e t :
  Forall is_byte [a; b; c; d; e] -> exists cbs cbs',
    tls_buffer_data (tb_of TLS_BUFFER_CAPACITY_LIMIT [] [a; b; c; d; e] t) = Some cbs /\
    (t ← CBS_get_u8; v ← CBS_get_u16; l ← CBS_get_u16; mret (t, v, l)) cbs = Ret (a, be_val [b; c], be_val [d; e]) cbs'.
Proof.
  intros H. repeat (apply Forall_cons in H as [? H]). pose proof (zlen_nonneg t).
  unfold tls_buffer_data, tb_of. cbn [tb_offset tb_data tb_len app]. change (zlen []) with 0.
  change (0 + zlen [a; b; c; d; e]) with 5.
  unfold CBS_skip, cbs_get. mstep. cbn [id CBS_init cbs_len cbs_data]. rewrite !zlen_cons, !(proj2 (Z.leb_le _ _)) by lia.
  change (CBS_dup (cbs_advance 0 (CBS_init (a :: b :: c :: d :: e :: t) 5))) with (mkCBS (a :: b :: c :: d :: e :: t) 5 5).
  eexists _, (mkCBS t 5 0). split; [reflexivity|]. unfold CBS_get_u8, cbs_get. mstep. cbn [id cbs_len cbs_data].
  rewrite !zlen_cons, !(proj2 (Z.leb_le _ _)) by lia. rewrite zget_cons_0.
  unfold cbs_advance. cbn [cbs_data cbs_initial_len cbs_len]. rewrite zdrop_cons by lia. change (1 - 1) with 0. rewrite zdrop_0.
  rewrite get_u16_prefix by (done || lia || (rewrite !zlen_cons; lia)).
  by rewrite get_u16_prefix by (done || lia || (rewrite !zlen_cons; lia)).
Qed.

Lemma wp_on_rec_buf {W A} (m : M (tls_buffer * W) A) rec (w : W) Q E :
  wp m (rec_buf rec, w)
    (fun a st => Q a (mkRecord (rec_version rec) (rec_content_type rec) (rec_len rec) (rec_data rec) (rec_data_len rec)
                        (rec_cbs rec) st.1, st.2))
    (fun st => E (mkRecord (rec_version rec) (rec_content_type rec) (rec_len rec) (rec_data rec) (rec_data_len rec)
                    (rec_cbs rec) st.1, st.2)) ->
  wp (on_rec_buf m) (rec, w) Q E.
Proof. unfold wp, on_rec_buf. by destruct (m (rec_buf rec, w)) as [a [b w']|[b w']|]. Qed.

Section receiving.
Context (alloc_ok : Z -> bool) {W : Type} (wire_read : tls_read_cb W) `{!Reader wire_read}.
(** The record on the wire, and what follows it. *)
Context (ty ver : Z) (payload later : list Z).
Context (Hty : is_byte ty) (Hty0 : ty <> 0) (Hver : 0x300 <= ver < 0x400).
Context (Hlen : zlen payload <= TLS13_RECORD_MAX_CIPHERTEXT_LEN).
Abbreviation rwire := (record_wire ty ver payload).

(** The octets [got] of the record have arrived. *)
Definition rec_arriving (rec : tls13_record) (w : W) (got : list Z) : Prop :=
  rec_data rec = None /\ (exists t, rec_buf rec = tb_of TLS_BUFFER_CAPACITY_LIMIT [] got t) /\
  got ++ incoming w = rwire ++ later /\ zlen got < zlen rwire /\
  (rec_content_type rec = 0 /\ zlen got < 5 \/
   rec_content_type rec = ty /\ rec_version rec = ver /\ rec_len rec = zlen payload /\ 5 <= zlen got).

Definition rec_arrived (rec : tls13_record) : Prop :=
  rec_content_type rec = ty /\ rec_version rec = ver /\ rec_data_len rec = zlen rwire /\
  exists t, rec_data rec = Some (rwire ++ t).

Definition no_memory : Prop := exists n, alloc_ok n = false.

(** One call was told to wait. *)
Definition rec_waiting (ret : Z) (w : W) (st : tls13_record * W) : Prop :=
  ret <= 0 /\ (exists got, rec_arriving st.1 st.2 got) /\
  ((stalls st.2 < stalls w)%nat /\ ret = TLS_IO_WANT_POLLIN \/ no_memory).

Lemma record_header_of_wire : ztake 5 rwire = ty :: be_bytes 2 ver ++ be_bytes 2 (zlen payload).
Proof using.
  unfold record_wire. rewrite ztake_cons by lia. rewrite app_assoc, ztake_app_exact; [done|].
  by rewrite zlen_app, !zlen_be_bytes.
Qed.

Lemma prefix_of_record (got rest : list Z) n :
  got ++ rest = rwire ++ later -> zlen got = n -> n <= zlen rwire -> got = ztake n rwire.
Proof using.
  intros E Hn Hle. rewrite <- (ztake_app_exact n got rest Hn), E. by rewrite ztake_app_le.
Qed.

Lemma parse_wire_header t :
  exists cbs cbs',
    tls_buffer_data (tb_of TLS_BUFFER_CAPACITY_LIMIT [] (ztake 5 rwire) t) = Some cbs /\
    (t ← CBS_get_u8; v ← CBS_get_u16; l ← CBS_get_u16; mret (t, v, l)) cbs = Ret (ty, ver, zlen payload) cbs'.
Proof using Hty Hver Hlen.
  rewrite record_header_of_wire. pose proof (zlen_nonneg payload).
  unfold TLS13_RECORD_MAX_CIPHERTEXT_LEN, TLS13_RECORD_MAX_INNER_PLAINTEXT_LEN, TLS13_RECORD_MAX_PLAINTEXT_LEN,
    TLS13_RECORD_MAX_AEAD_OVERHEAD in Hlen.
  assert (E : forall v, 0 <= v < 65536 -> be_val (be_bytes 2 v) = v).
  { intros v Hv. rewrite be_val_bytes. apply Z.mod_small. by change (256 ^ Z.of_nat 2) with 65536. }
  pose proof (E ver ltac:(lia)) as E1. pose proof (E (zlen payload) ltac:(lia)) as E2.
  pose proof (is_byte_be_bytes 2 ver) as Hb1. pose proof (is_byte_be_bytes 2 (zlen payload)) as Hb2.
  cbn [be_bytes app] in *.
  lazymatch type of E1 with be_val ?l1 = _ => lazymatch type of E2 with be_val ?l2 = _ =>
    assert (Hb : Forall is_byte (ty :: l1 ++ l2)) by (apply Forall_cons; split; [done|by apply Forall_app]) end end.
  cbn [app] in Hb. destruct (parse_record_header _ _ _ _ _ t Hb) as (cbs & cbs' & E3 & E4).
  exists cbs, cbs'. split; [exact E3|]. by rewrite E4, E1, E2.
Qed.

Lemma rec_not_yet ret rec w w' got :
  rec_arriving rec w' got -> not_yet wire_read ret w w' \/ no_memory ->
  (stalls w' < stalls w)%nat /\ ret = TLS_IO_WANT_POLLIN \/ no_memory.
Proof using.
  intros (_ & _ & E & Hlt & _) [[Hin|?]|?]; [|by left|by right].
  rewrite Hin, app_nil_r in E. apply (f_equal zlen) in E. rewrite zlen_app in E.
  pose proof (zlen_nonneg later). lia.
Qed.

(** What the header leaves: the type, the version and the length, and maybe the
    whole of an empty record. *)
Definition rec_started (rec : tls13_record) (w : W) (got : list Z) : Prop :=
  rec_data rec = None /\ (exists t, rec_buf rec = tb_of TLS_BUFFER_CAPACITY_LIMIT [] got t) /\
  got ++ incoming w = rwire ++ later /\ 5 <= zlen got <= zlen rwire /\
  rec_content_type rec = ty /\ rec_version rec = ver /\ rec_len rec = zlen payload.

Lemma wp_record_recv_header rec w got :
  rec_arriving rec w got ->
  wp (record_recv_header alloc_ok wire_read) (rec, w)
    (fun r st => match r with
       | Some ret => rec_waiting ret w st
       | None => exists got', rec_started st.1 st.2 got' /\ (stalls st.2 <= stalls w)%nat
       end)
    (fun _ => False).
Proof using Hty Hty0 Hver Hlen.
  intros Harr. pose proof Harr as (Hd & (t & Hbuf) & Ew & Hlt & Hph). pose proof (zlen_record_wire ty ver payload) as Hzw.
  unfold record_recv_header. apply wp_bind, wp_gets. cbn [fst]. pose proof (zlen_nonneg payload).
  destruct Hph as [[Ht Hg]|(Ht & Hv & Hl & Hg)]; rewrite Ht.
  2: { rewrite (proj2 (Z.eqb_neq _ _)) by done. apply wp_ret. exists got. split; [|done]. split_and!; try done; [by exists t|lia]. }
  rewrite Z.eqb_refl. apply wp_bind, wp_on_rec_buf. rewrite Hbuf.
  eapply wp_conseq; [apply (wp_tls_buffer_extend alloc_ok wire_read 5); [lia|change (zlen []) with 0; lia]| |done].
  cbn beta. intros ret [b w'] (got' & ((t' & Hb) & Hin & Hst) & Hret). cbn [fst snd] in *. subst b.
  change (zlen []) with 0 in Hret. cbn [app] in *.
  assert (Ew' : (got ++ got') ++ incoming w' = rwire ++ later) by (by rewrite <- app_assoc, <- Hin).
  assert (Hzg : zlen (got ++ got') = zlen got + zlen got') by apply zlen_app.
  destruct Hret as [[Hfull ->]|(Hpart & Hret & Hwhy)].
  - cbn [Z.leb Z.compare]. apply wp_bind, wp_gets. cbn [fst rec_buf].
    assert (Eg : got ++ got' = ztake 5 rwire) by (eapply prefix_of_record; [exact Ew'|lia|lia]).
    rewrite Eg. destruct (parse_wire_header t') as (cbs & cbs' & -> & ->).
    replace (Z.shiftr ver 8) with 3 by (rewrite Z.shiftr_div_pow2 by lia; apply Z.div_unique with (ver - 768); lia).
    change (negb (3 =? SSL3_VERSION_MAJOR)) with false. rewrite (proj2 (Z.ltb_ge _ _)) by done. cbv iota.
    apply wp_bind, wp_modify, wp_ret. cbn [fst snd]. exists (got ++ got'). split; [|done]. rewrite <- Eg.
    split_and!; cbn; try done; [by exists t'|lia..].
  - rewrite (proj2 (Z.leb_le _ _)) by lia. apply wp_ret. split; [done|].
    assert (Harr' : rec_arriving (mkRecord (rec_version rec) (rec_content_type rec) (rec_len rec) (rec_data rec) (rec_data_len rec)
      (rec_cbs rec) (tb_of TLS_BUFFER_CAPACITY_LIMIT [] (got ++ got') t')) w' (got ++ got')).
    { split_and!; cbn; try done; [by exists t'|lia|left; split; [done|lia]]. }
    split; [by eexists|]. cbn [snd]. eapply rec_not_yet; [exact Harr'|].
    destruct Hwhy as [?|[?|?]]; [by left|unfold TLS_BUFFER_CAPACITY_LIMIT in *; lia|right; by eexists].
Qed.

Lemma wp_record_recv rec w got :
  rec_arriving rec w got ->
  wp (tls13_record_recv alloc_ok wire_read) (rec, w)
    (fun ret st => ret = zlen rwire /\ rec_arrived st.1 /\ incoming st.2 = later /\ (stalls st.2 <= stalls w)%nat \/ rec_waiting ret w st)
    (fun _ => False).
Proof using Hty Hty0 Hver Hlen.
  intros Harr. unfold tls13_record_recv. apply wp_bind, wp_gets. cbn [fst].
  rewrite (proj1 Harr). apply wp_bind. eapply wp_conseq; [exact (wp_record_recv_header rec w got Harr)| |done].
  cbn beta. intros [ret|] [rec1 w1]; cbn [fst snd].
  { intros Hw. apply wp_ret. by right. }
  intros (got1 & (Hd1 & (t & Hbuf) & Ew & Hg & Ht & Hv & Hl) & Hst). pose proof (zlen_record_wire ty ver payload) as Hzw.
  apply wp_bind, wp_gets. cbn [fst]. rewrite Hl. apply wp_bind, wp_on_rec_buf. rewrite Hbuf.
  unfold TLS13_RECORD_HEADER_LEN. pose proof (zlen_nonneg payload).
  eapply wp_conseq; [apply (wp_tls_buffer_extend alloc_ok wire_read (5 + zlen payload)); [lia|change (zlen []) with 0; lia]| |done].
  cbn beta. intros ret [b w2] (got2 & ((t2 & Hb) & Hin & Hst2) & Hret). cbn [fst snd] in *. subst b.
  change (zlen []) with 0 in Hret. cbn [app] in *.
  assert (Ew2 : (got1 ++ got2) ++ incoming w2 = rwire ++ later) by (by rewrite <- app_assoc, <- Hin).
  assert (Hzg : zlen (got1 ++ got2) = zlen got1 + zlen got2) by apply zlen_app.
  destruct Hret as [[Hfull ->]|(Hpart & Hret & Hwhy)].
  - rewrite (proj2 (Z.leb_gt _ 0)) by lia. apply wp_bind, wp_on_rec_buf. cbn [rec_buf].
    unfold wp, on_fst, tls_buffer_finish. mstep. cbn [fst snd id tb_of tb_data tb_len rec_content_type rec_version rec_data rec_data_len].
    change (zlen []) with 0. cbn [app]. left. split; [lia|].
    assert (Eg : got1 ++ got2 = rwire).
    { rewrite <- (ztake_all (zlen rwire) rwire) by lia. eapply prefix_of_record; [exact Ew2|lia|lia]. }
    split; [|split; [rewrite Eg in Ew2; by apply app_inv_head in Ew2|lia]].
    split_and!; cbn; [done|done|lia|]. exists t2. by rewrite Eg.
  - rewrite (proj2 (Z.leb_le _ _)) by lia. apply wp_ret. right. split; [done|].
    match goal with |- (exists got, rec_arriving ?m _ got) /\ _ => assert (Harr2 : rec_arriving m w2 (got1 ++ got2)) end.
    { pose proof (zlen_nonneg got2). split_and!; cbn; try done; [by exists t2|lia|right; split_and!; [done|done|done|lia]]. }
    split; [by eexists|]. cbn [snd].
    assert (Hwhy' : not_yet wire_read ret w1 w2 \/ no_memory).
    { destruct Hwhy as [?|[Hlim|?]]; [by left| |right; by eexists]. exfalso. revert Hlim Hlen. clear.
      unfold TLS_BUFFER_CAPACITY_LIMIT, TLS13_RECORD_MAX_CIPHERTEXT_LEN, TLS13_RECORD_MAX_INNER_PLAINTEXT_LEN,
        TLS13_RECORD_MAX_PLAINTEXT_LEN, TLS13_RECORD_MAX_AEAD_OVERHEAD. lia. }
    destruct (rec_not_yet _ _ _ _ _ Harr2 Hwhy') as [[??]|?]; [left; split; [lia|done]|by right].
Qed.

(** A new record has room for the largest one. *)
Lemma new_rec_arriving rec w :
  tls13_record_new alloc_ok = Some rec -> incoming w = rwire ++ later -> rec_arriving rec w [].
Proof using.
  unfold tls13_record_new, tls_buffer_new. destruct (alloc_ok 64); [|done]. destruct (alloc_ok 40); [|done].
  unfold tls_buffer_resize. mstep. cbn [id].
  change (tb_capacity (mkTlsBuffer TLS_BUFFER_CAPACITY_LIMIT [] 0 0) =? TLS13_RECORD_MAX_LEN) with false.
  change (tb_capacity_limit (mkTlsBuffer TLS_BUFFER_CAPACITY_LIMIT [] 0 0) <? TLS13_RECORD_MAX_LEN) with false. cbn [negb].
  destruct (alloc_ok TLS13_RECORD_MAX_LEN); [|done]. intros [= <-] Hin. pose proof (zlen_record_wire ty ver payload). pose proof (zlen_nonneg payload).
  change (zlen []) with 0. unfold rec_arriving. cbn [rec_data rec_buf rec_content_type].
  split; [done|]. split; [eexists; reflexivity|]. split; [done|]. change (zlen []) with 0. split; [lia|]. left. split; [done|lia].
Qed.
End receiving.

(** ** Sending *)

Section sending_records.
Context {W : Type} (wire_write : tls_write_cb W) `{!Writer wire_write}.

(** A sealed record of [len] octets, of which [rest] wait to be sent. *)
Definition rec_sending (rec : tls13_record) (len : Z) (rest : list Z) : Prop :=
  rec_data rec <> None /\ rec_data_len rec = len /\ window_ok (rec_cbs rec) /\ contents (rec_cbs rec) = rest.

(** The octets written since [w], and what is left. *)
Definition rec_progress (len : Z) (rest : list Z) (w : W) (ret : Z) (st : tls13_record * W) : Prop :=
  exists sent left, rest = sent ++ left /\ rec_sending st.1 len left /\ outgoing st.2 = outgoing w ++ sent /\
    (left = [] /\ ret = len /\ (wstalls st.2 <= wstalls w)%nat \/
     left <> [] /\ ret = TLS_IO_WANT_POLLOUT /\ (wstalls st.2 < wstalls w)%nat).

Lemma wp_record_send_loop fuel : forall rec w len rest,
  rec_sending rec len rest -> zlen rest <= Z.of_nat fuel ->
  wp (record_send_loop wire_write fuel) (rec, w) (rec_progress len rest w) (fun _ => False).
Proof using Type*.
  induction fuel as [|fuel IH]; intros rec w len rest (Hd & Hlen & Hok & Hr) Hf; cbn [record_send_loop];
    apply wp_bind, wp_gets; cbn [id]; pose proof (zlen_window _ Hok) as Hl; rewrite Hr in Hl; unfold CBS_len;
    destruct (Z.ltb_spec 0 (cbs_len (rec_cbs rec))) as [Hpos|Hz].
  1: lia.
  1, 3: apply wp_ret; exists [], []; assert (rest = []) as -> by (apply zlen_nil_inv; pose proof (zlen_nonneg rest); lia);
    split; [done|split; [by split|split; [by rewrite app_nil_r|by left]]].
  apply wp_bind, wp_read_bytes; [by apply Hok|].
  change (ztake (cbs_len (rec_cbs rec)) (CBS_data (rec_cbs rec))) with (contents (rec_cbs rec)). rewrite Hr.
  assert (Hne : rest <> []) by (intros ->; change (zlen []) with 0 in Hl; lia).
  destruct (wire_write rest w) as [ret w'] eqn:E. apply wp_bind, wp_modify.
  destruct (writer_law _ _ _ _ Hne E) as [Hst [[Hret Hout]|(-> & Hout & Hlt)]].
  - rewrite (proj2 (Z.leb_gt _ 0)) by lia.
    destruct (skip_window ret _ Hok) as [-> Hok']; [lia|]. apply wp_bind, wp_modify.
    destruct (split_at rest ret) as (sent & rest' & -> & Hs & _ & _ & _); [lia|].
    rewrite zlen_app in *. rewrite ztake_app_exact in Hout by done.
    eapply wp_conseq; [apply (IH _ _ len rest'); [|lia]| |done].
    + split; [done|]. split; [done|]. split; [exact Hok'|].
      cbn [rec_cbs]. rewrite contents_advance by (pose proof (zlen_nonneg rest'); lia). rewrite Hr. by apply zdrop_app_exact.
    + intros ret' st (sent' & left & -> & Hsend & Ho & Hwhy). exists (sent ++ sent'), left.
      split; [by rewrite app_assoc|]. split; [done|]. split; [by rewrite Ho, Hout, app_assoc|].
      destruct Hwhy as [(? & ? & ?)|(? & ? & ?)]; [left|right]; split_and!; (done || lia).
  - cbn [Z.leb Z.compare TLS_IO_WANT_POLLOUT]. apply wp_ret. exists [], rest.
    split; [done|]. split; [by split|]. split; [by rewrite app_nil_r|by right].
Qed.

Lemma wp_record_send rec w len rest :
  rec_sending rec len rest ->
  wp (tls13_record_send wire_write) (rec, w) (rec_progress len rest w) (fun _ => False).
Proof using Type*.
  intros Hs. pose proof Hs as (Hd & _ & Hok & Hr). unfold tls13_record_send. apply wp_bind, wp_gets. cbn [fst].
  destruct (rec_data rec) as [d|]; [|done]. apply wp_record_send_loop; [done|].
  pose proof (zlen_window _ Hok) as Hl. rewrite Hr in Hl. unfold CBS_len. pose proof (zlen_nonneg rest). lia.
Qed.
End sending_records.

(** ** Safety with an arbitrary wire *)

(** The invariant of a record between calls. *)
Definition record_ok (rec : tls13_record) : Prop :=
  window_ok (rec_cbs rec) /\ window_ok (tls13_record_data rec) /\ 0 <= rec_len rec < 65536 /\
  (forall d, rec_data rec = Some d -> Forall is_byte d) /\
  exists q t, rec_buf rec = tb_of TLS_BUFFER_CAPACITY_LIMIT [] q t /\ Forall is_byte (q ++ t).

Section record_safety.
Context (alloc_ok : Z -> bool) {W : Type} (wire_read : tls_read_cb W) (Hread : bounded_reader wire_read).

Lemma record_new_ok rec : tls13_record_new alloc_ok = Some rec -> record_ok rec /\ rec_data rec = None.
Proof using.
  unfold tls13_record_new, tls_buffer_new. destruct (alloc_ok 64); [|done]. destruct (alloc_ok 40); [|done].
  unfold tls_buffer_resize. mstep. cbn [id].
  change (tb_capacity (mkTlsBuffer TLS_BUFFER_CAPACITY_LIMIT [] 0 0) =? TLS13_RECORD_MAX_LEN) with false.
  change (tb_capacity_limit (mkTlsBuffer TLS_BUFFER_CAPACITY_LIMIT [] 0 0) <? TLS13_RECORD_MAX_LEN) with false. cbn [negb].
  destruct (alloc_ok TLS13_RECORD_MAX_LEN); [|done]. intros [= <-].
  generalize (TLS13_RECORD_MAX_LEN - tb_capacity (mkTlsBuffer TLS_BUFFER_CAPACITY_LIMIT [] 0 0)). intros n.
  split; [|done]. split; [done|]. split; [done|]. split; [done|]. split; [done|].
  exists [], (zrep n 0). split; [done|]. apply Forall_app. split; [constructor|by apply Forall_replicate].
Qed.

Lemma record_recv_header_safe rec w :
  record_ok rec -> rec_data rec = None ->
  wp (record_recv_header alloc_ok wire_read) (rec, w)
    (fun r st => record_ok st.1 /\ rec_data st.1 = None /\ match r with Some ret => ret <= 0 | None => True end)
    (fun _ => False).
Proof using Hread.
  intros (Hcbs & Hdata & Hlen & Hd & q & t & Hbuf & Hby) Hnone. unfold record_recv_header. apply wp_bind, wp_gets. cbn [fst].
  destruct (Z.eqb_spec (rec_content_type rec) 0) as [E0|E0].
  2: { apply wp_ret. split; [|done]. split; [done|]. split; [done|]. split; [done|]. split; [done|by exists q, t]. }
  apply wp_bind, wp_on_rec_buf. rewrite Hbuf. eapply wp_conseq; [apply extend_safe; [exact Hread|exact Hby]| |done]. cbn beta.
  intros ret [b w'] (q' & t' & Eb & Hby' & Hr). cbn [fst snd] in *. subst b.
  assert (Hok : forall v ct l, 0 <= l < 65536 -> record_ok (mkRecord v ct l (rec_data rec) (rec_data_len rec) (rec_cbs rec)
            (tb_of TLS_BUFFER_CAPACITY_LIMIT [] q' t'))).
  { intros v ct l Hl. split; [exact Hcbs|]. split; [exact Hdata|]. split; [exact Hl|]. split; [done|by exists q', t']. }
  destruct (Z.leb_spec ret 0) as [Hret|Hret].
  { apply wp_ret. cbn [fst rec_data]. split; [by apply Hok|done]. }
  specialize (Hr Hret). unfold TLS13_RECORD_HEADER_LEN in Hr.
  destruct q' as [|a [|b [|c [|d [|e [|]]]]]]; try (unfold zlen in Hr; cbn [length] in Hr; lia).
  apply wp_bind, wp_gets. cbn [fst rec_buf]. pose proof Hby' as [Hby5 _]%Forall_app.
  destruct (parse_record_header a b c d e t' Hby5) as (cbs & cbs' & -> & ->).
  destruct (negb (Z.shiftr _ _ =? _)); [apply wp_ret; cbn [fst rec_data]; split; [by apply Hok|done]|].
  destruct (TLS13_RECORD_MAX_CIPHERTEXT_LEN <? _); [apply wp_ret; cbn [fst rec_data]; split; [by apply Hok|done]|].
  apply wp_bind, wp_modify, wp_ret. cbn [fst rec_data]. split; [|done]. apply Hok.
  assert (Hde : Forall is_byte [d; e]) by (do 3 apply Forall_cons in Hby5 as [_ Hby5]; exact Hby5).
  apply be_val_bounds in Hde. change (256 ^ zlen [d; e]) with 65536 in Hde. exact Hde.
Qed.

Lemma record_recv_safe rec w :
  record_ok rec ->
  wp (tls13_record_recv alloc_ok wire_read) (rec, w)
    (fun ret st => record_ok st.1 /\ (0 < ret -> 5 <= rec_data_len st.1 /\ rec_data st.1 <> None)) (fun _ => False).
Proof using Hread.
  intros Hok. unfold tls13_record_recv. apply wp_bind, wp_gets. cbn [fst].
  destruct (rec_data rec) as [d|] eqn:Ed.
  { apply wp_ret. split; [done|]. unfold TLS_IO_FAILURE. lia. }
  apply wp_bind. eapply wp_conseq; [by apply record_recv_header_safe| |done].
  cbn beta. intros [ret|] [rec1 w1]; cbn [fst snd].
  { intros (? & _ & ?). apply wp_ret. split; [done|lia]. }
  intros ((Hcbs1 & Hdata1 & Hlen1 & Hd1 & q1 & t1 & Hbuf1 & Hby1) & Ed1 & _).
  apply wp_bind, wp_gets. cbn [fst]. apply wp_bind, wp_on_rec_buf. rewrite Hbuf1.
  eapply wp_conseq; [apply extend_safe; [exact Hread|exact Hby1]| |done].
  cbn beta. intros ret [b w2] (q2 & t2 & Eb & Hby2 & Hr). cbn [fst snd] in *. subst b.
  destruct (Z.leb_spec ret 0) as [Hret|Hret].
  - apply wp_ret. cbn [fst]. split; [|lia]. split; [done|]. split; [done|]. split; [done|]. split; [done|by exists q2, t2].
  - specialize (Hr Hret). apply wp_bind, wp_on_rec_buf. cbn [rec_buf].
    unfold wp, on_fst, tls_buffer_finish. mstep.
    cbn [fst snd id rec_version rec_content_type rec_len rec_data rec_data_len rec_buf rec_cbs tb_of tb_data tb_len app]. change (zlen []) with 0.
    pose proof (zlen_nonneg q2). pose proof (zlen_nonneg t2). unfold TLS13_RECORD_HEADER_LEN in Hr.
    split; [|split; [lia|done]]. split; [done|]. split.
    { unfold window_ok. cbn. rewrite zlen_app. lia. }
    split; [done|]. split; [by intros ? [= <-]|by exists [], []].
Qed.
End record_safety.

Lemma record_send_safe {W} (wire_write : tls_write_cb W) rec w :
  window_ok (rec_cbs rec) ->
  wp (tls13_record_send wire_write) (rec, w) (fun _ st => window_ok (rec_cbs st.1)) (fun _ => False).
Proof.
  intros Hok. unfold tls13_record_send. apply wp_bind, wp_gets. cbn [fst].
  destruct (rec_data rec) as [d|]; [|by apply wp_ret].
  assert (Hf : cbs_len (rec_cbs rec) <= Z.of_nat (Z.to_nat (CBS_len (rec_cbs rec)))) by (unfold CBS_len; lia).
  revert Hf. generalize (Z.to_nat (CBS_len (rec_cbs rec))) as fuel. intros fuel.
  revert rec w Hok. induction fuel as [|fuel IH]; intros rec w Hok Hf; cbn [record_send_loop];
    apply wp_bind, wp_gets; cbn [id]; unfold CBS_len at 1; destruct (Z.ltb_spec 0 (cbs_len (rec_cbs rec))); try lia; try by apply wp_ret.
  apply wp_bind, wp_read_bytes; [apply Hok|]. destruct (wire_write _ w) as [ret w']. apply wp_bind, wp_modify.
  destruct (Z.leb_spec ret 0); [by apply wp_ret|].
  destruct (Z.leb_spec ret (cbs_len (rec_cbs rec))) as [Hr|Hr].
  - destruct (skip_window ret _ Hok) as [-> Hw']; [lia|]. apply wp_bind, wp_modify.
    apply IH; [exact Hw'|]. cbn [rec_cbs cbs_advance cbs_len]. lia.
  - unfold CBS_skip, cbs_get. mstep. cbn [id]. rewrite (proj2 (Z.leb_gt _ _)) by lia. by apply wp_ret.
Qed.
