(* ===== verification/Tls13RecordLayer.v ===== *)
(** * The TLS 1.3 record layer: libssl/tls13_record_layer.c

    The AEAD, the key derivation and the callbacks of the owner are operations
    of the records [aead_ops] and [callbacks], over the state [W] of the wire
    and of the owner; everything between them is modelled, over the pair of a
    record layer and a [W].  Functions that return 0 on error fail, functions that
    return [ssize_t] return their value. *)

From stdpp Require Import gmap.
From S2P Require Import Prelude Cbs Cbb Builder TlsBuffer Tls13Msg Tls13Record.
Open Scope Z_scope.

Definition TLS13_RECORD_SEQ_NUM_LEN : Z := 8.
Definition TLS1_2_VERSION : Z := 0x0303.

Definition SSL3_RT_CHANGE_CIPHER_SPEC : Z := 20.
Definition SSL3_RT_ALERT : Z := 21.
Definition SSL3_RT_HANDSHAKE : Z := 22.
Definition SSL3_RT_APPLICATION_DATA : Z := 23.

Definition TLS13_ALERT_LEVEL_WARNING : Z := 1.
Definition TLS13_ALERT_LEVEL_FATAL : Z := 2.
Definition TLS13_ALERT_CLOSE_NOTIFY : Z := 0.
Definition TLS13_ALERT_UNEXPECTED_MESSAGE : Z := 10.
Definition TLS13_ALERT_RECORD_OVERFLOW : Z := 22.
Definition TLS13_ALERT_ILLEGAL_PARAMETER : Z := 47.
Definition TLS13_ALERT_DECODE_ERROR : Z := 50.
Definition TLS13_ALERT_PROTOCOL_VERSION : Z := 70.
Definition TLS13_ALERT_USER_CANCELED : Z := 90.

(** ** Sequence numbers and nonces *)

Definition tls13_max_seq_num : list Z := zrep 8 0xff.

(** [for (i = TLS13_RECORD_SEQ_NUM_LEN - 1; i >= 0; i--)], on the octets in
    reverse order. *)
Fixpoint inc_seq_num_loop (rev_seq_num : list Z) : list Z :=
  match rev_seq_num with
  | [] => []
  | b :: rest => if negb (u8 (b + 1) =? 0) then u8 (b + 1) :: rest else u8 (b + 1) :: inc_seq_num_loop rest
  end.

(** [None]: the function returns 0. *)
Definition tls13_record_layer_inc_seq_num (seq_num : list Z) : option (list Z) :=
  if bool_decide (seq_num = tls13_max_seq_num) then None
  else Some (reverse (inc_seq_num_loop (reverse seq_num))).

(** The two indices of the loop run down together: [seq] is what is left of the
    sequence number, in reverse order. *)
Fixpoint update_nonce_loop (rev_iv rev_seq : list Z) : list Z :=
  match rev_iv with
  | [] => []
  | b :: iv => Z.lxor b (hd 0 rev_seq) :: update_nonce_loop iv (tl rev_seq)
  end.

Definition tls13_record_layer_update_nonce (nonce iv seq_num : list Z) : option (list Z) :=
  if negb (zlen nonce =? zlen iv) then None
  else Some (reverse (update_nonce_loop (reverse iv) (reverse seq_num))).

(** ** The state *)

(** [A] and [H] are the types of the [EVP_AEAD] and [EVP_MD] objects, [K] that of
    keyed AEAD contexts. *)
Record aead_ops {A H K : Type} : Type := mkAead {
  EVP_AEAD_nonce_length : A -> Z;
  EVP_AEAD_key_length : A -> Z;
  EVP_AEAD_max_tag_len : A -> Z;
  EVP_AEAD_CTX_init : A -> list Z -> option K;
  (** Key, nonce, plaintext and additional data. *)
  EVP_AEAD_CTX_seal : K -> list Z -> list Z -> list Z -> option (list Z);
  EVP_AEAD_CTX_open : K -> list Z -> list Z -> list Z -> option (list Z);
  (** The secret, the label and the length of the output. *)
  tls13_hkdf_expand_label : H -> list Z -> list Z -> Z -> option (list Z);
}.
Arguments aead_ops A H K : clear implicits.

Record tls13_record_protection {K : Type} : Type := mkProtection {
  rp_aead_ctx : option K;
  rp_iv : list Z;
  rp_nonce : list Z;
  rp_seq_num : list Z;
}.
Arguments tls13_record_protection K : clear implicits.
Arguments mkProtection {K}.
#[global] Instance protection_eta {K} : Eta (tls13_record_protection K) := fun p =>
  mkProtection (rp_aead_ctx p) (rp_iv p) (rp_nonce p) (rp_seq_num p).

Record tls13_record_layer {A H K : Type} : Type := mkRecordLayer {
  rl_legacy_version : Z;
  rl_ccs_allowed : bool;
  rl_ccs_seen : Z;
  rl_ccs_sent : bool;
  rl_handshake_completed : bool;
  rl_legacy_alerts_allowed : bool;
  rl_phh : bool;
  rl_phh_retry : bool;
  rl_read_closed : bool;
  rl_write_closed : bool;
  rl_rrec : option tls13_record;
  rl_wrec : option tls13_record;
  rl_wrec_content_type : Z;
  rl_wrec_appdata_len : Z;
  rl_wrec_content_len : Z;
  rl_alert : Z;
  rl_alert_data : option (list Z);
  rl_alert_len : Z;
  rl_alert_level : Z;
  rl_alert_desc : Z;
  rl_phh_cbs : CBS;
  rl_phh_data : option (list Z);
  rl_phh_len : Z;
  rl_rcontent : tls_content;
  rl_hash : option H;
  rl_aead : option A;
  rl_read : tls13_record_protection K;
  rl_write : tls13_record_protection K;
}.
Arguments tls13_record_layer A H K : clear implicits.
Arguments mkRecordLayer {A H K}.
#[global] Instance record_layer_eta {A H K} : Eta (tls13_record_layer A H K) := fun r =>
  mkRecordLayer (rl_legacy_version r) (rl_ccs_allowed r) (rl_ccs_seen r) (rl_ccs_sent r) (rl_handshake_completed r)
    (rl_legacy_alerts_allowed r) (rl_phh r) (rl_phh_retry r) (rl_read_closed r) (rl_write_closed r) (rl_rrec r) (rl_wrec r)
    (rl_wrec_content_type r) (rl_wrec_appdata_len r) (rl_wrec_content_len r) (rl_alert r) (rl_alert_data r) (rl_alert_len r)
    (rl_alert_level r) (rl_alert_desc r) (rl_phh_cbs r) (rl_phh_data r) (rl_phh_len r) (rl_rcontent r) (rl_hash r) (rl_aead r)
    (rl_read r) (rl_write r).

(** The callbacks of the owner; [phh_recv] may use the record layer. *)
Record tls13_record_layer_callbacks {A H K W : Type} : Type := mkCallbacks {
  wire_read : tls_read_cb W;
  wire_write : tls_write_cb W;
  wire_flush : W -> Z * W;
  handshake_read : option (tls_read_cb W);
  handshake_write : option (tls_write_cb W);
  set_read_traffic_key : option (list Z -> Z -> W -> bool * W);
  set_write_traffic_key : option (list Z -> Z -> W -> bool * W);
  alert_send : option (Z -> W -> Z * W);
  alert_recv : Z -> Z -> W -> W;
  alert_sent : Z -> Z -> W -> W;
  phh_recv : option (M (tls13_record_layer A H K * W) Z);
  phh_sent : W -> W;
}.
Arguments tls13_record_layer_callbacks A H K W : clear implicits.

(** ** Operations *)

Section record_layer.
Context (alloc_ok : Z -> bool) {A H K W : Type}.
Context (ops : aead_ops A H K) (cb : tls13_record_layer_callbacks A H K W).
Abbreviation record_layer := (tls13_record_layer A H K).
Abbreviation state := (tls13_record_layer A H K * W)%type.

Definition tls13_record_protection_clear : tls13_record_protection K := mkProtection None [] [] (zrep 8 0).

Definition tls13_record_protection_new : option (tls13_record_protection K) :=
  if alloc_ok 48 then Some tls13_record_protection_clear else None.

Definition tls13_record_layer_new : option record_layer :=
  if alloc_ok 272 then
    rcontent ← tls_content_new alloc_ok;
    read ← tls13_record_protection_new;
    write ← tls13_record_protection_new;
    Some (mkRecordLayer TLS1_2_VERSION false 0 false false false false false false false None None 0 0 0 0 None 0 0 0
            null_CBS None 0 rcontent None None read write)
  else None.

(** Change the record layer. *)
Definition upd (f : record_layer -> record_layer) : M state unit := modify (fun '(rl, w) => (f rl, w)).
Definition look {T} (f : record_layer -> T) : M state T := gets (fun st => f st.1).
(** A callback. *)
Definition call {T} (f : W -> T * W) : M state T := fun '(rl, w) => let '(a, w') := f w in Ret a (rl, w').

Definition tls13_record_layer_rrec_free : M state unit := upd (fun rl => rl <| rl_rrec := None |>).
Definition tls13_record_layer_wrec_free : M state unit := upd (fun rl => rl <| rl_wrec := None |>).

Definition tls13_record_layer_rcontent (rl : record_layer) : CBS := CBS_dup (tls_content_cbs (rl_rcontent rl)).

Definition tls13_record_layer_allow_ccs (allow : bool) : M state unit := upd (fun rl => rl <| rl_ccs_allowed := allow |>).
Definition tls13_record_layer_allow_legacy_alerts (allow : bool) : M state unit :=
  upd (fun rl => rl <| rl_legacy_alerts_allowed := allow |>).
Definition tls13_record_layer_set_aead (aead : A) : M state unit := upd (fun rl => rl <| rl_aead := Some aead |>).
Definition tls13_record_layer_set_hash (hash : H) : M state unit := upd (fun rl => rl <| rl_hash := Some hash |>).
Definition tls13_record_layer_set_legacy_version (version : Z) : M state unit :=
  upd (fun rl => rl <| rl_legacy_version := version |>).
Definition tls13_record_layer_handshake_completed : M state unit := upd (fun rl => rl <| rl_handshake_completed := true |>).
Definition tls13_record_layer_set_retry_after_phh (retry : bool) : M state unit := upd (fun rl => rl <| rl_phh_retry := retry |>).

(** An operation on the content. *)
Definition on_rcontent {T} (m : M tls_content T) : M state T := fun '(rl, w) =>
  match m (rl_rcontent rl) with
  | Ret a c => Ret a (rl <| rl_rcontent := c |>, w)
  | Fail c => Fail (rl <| rl_rcontent := c |>, w)
  | UB => UB
  end.

(** An operation on the record read or written, which is dereferenced. *)
Definition on_rrec {T} (m : M (tls13_record * W) T) : M state T := fun '(rl, w) =>
  match rl_rrec rl with
  | None => UB
  | Some rec =>
      match m (rec, w) with
      | Ret a (rec, w) => Ret a (rl <| rl_rrec := Some rec |>, w)
      | Fail (rec, w) => Fail (rl <| rl_rrec := Some rec |>, w)
      | UB => UB
      end
  end.
Definition on_wrec {T} (m : M (tls13_record * W) T) : M state T := fun '(rl, w) =>
  match rl_wrec rl with
  | None => UB
  | Some rec =>
      match m (rec, w) with
      | Ret a (rec, w) => Ret a (rl <| rl_wrec := Some rec |>, w)
      | Fail (rec, w) => Fail (rl <| rl_wrec := Some rec |>, w)
      | UB => UB
      end
  end.

(** What a local CBB of capacity [cap] builds. *)
Definition cbb_build {S} (cap : Z) (cs : list cmd) : M S (list Z * Z) :=
  '(r, _) ← on_local (CBB_init alloc_ok 0 cap;; exec_all alloc_ok cs;; CBB_finish alloc_ok 0 (Some false) true) (mkHeap ∅ ∅);
  mret r.

(** *** Record protection *)

Definition iv_label : list Z := [105; 118].
Definition key_label : list Z := [107; 101; 121].

Definition sizeof_EVP_AEAD_CTX : Z := 16.

(** The result and the protection as the function leaves it.  A context that was
    allocated and not initialised, which the function may leave behind, is as little
    use as none: [rp_aead_ctx] is [None] then. *)
Definition tls13_record_layer_set_traffic_key (aead : A) (hash : H) (traffic_key : list Z) :
    bool * tls13_record_protection K :=
  let rp := tls13_record_protection_clear in
  let iv_len := EVP_AEAD_nonce_length ops aead in
  let key_len := EVP_AEAD_key_length ops aead in
  if negb (alloc_ok sizeof_EVP_AEAD_CTX) then (false, rp)
  else if negb (alloc_ok iv_len) then (false, rp)
  else
    let rp := rp <| rp_iv := zrep iv_len 0 |> in
    if negb (alloc_ok iv_len) then (false, rp)
    else
      let rp := rp <| rp_nonce := zrep iv_len 0 |> in
      if negb (alloc_ok key_len) then (false, rp)
      else
        match tls13_hkdf_expand_label ops hash traffic_key iv_label iv_len with
        | None => (false, rp)
        | Some iv =>
            let rp := rp <| rp_iv := iv |> in
            match tls13_hkdf_expand_label ops hash traffic_key key_label key_len with
            | None => (false, rp)
            | Some key =>
                match EVP_AEAD_CTX_init ops aead key with
                | None => (false, rp)
                | Some k => (true, rp <| rp_aead_ctx := Some k |>)
                end
            end
        end.

(** [rl->aead] and [rl->hash] are dereferenced. *)
Definition tls13_record_layer_set_read_traffic_key (read_key : list Z) (read_level : Z) : M state bool :=
  match set_read_traffic_key cb with
  | Some f => call (f read_key read_level)
  | None =>
      rl ← look id;
      aead ← valid (rl_aead rl);
      hash ← valid (rl_hash rl);
      let '(ret, rp) := tls13_record_layer_set_traffic_key aead hash read_key in
      upd (fun rl => rl <| rl_read := rp |>);;
      mret ret
  end.

Definition tls13_record_layer_set_write_traffic_key (write_key : list Z) (write_level : Z) : M state bool :=
  match set_write_traffic_key cb with
  | Some f => call (f write_key write_level)
  | None =>
      rl ← look id;
      aead ← valid (rl_aead rl);
      hash ← valid (rl_hash rl);
      let '(ret, rp) := tls13_record_layer_set_traffic_key aead hash write_key in
      upd (fun rl => rl <| rl_write := rp |>);;
      mret ret
  end.

Definition tls13_record_layer_open_record_plaintext : M state unit :=
  rl ← look id;
  check (bool_decide (rl_aead rl = None));;
  rec ← valid (rl_rrec rl);
  match tls13_record_content rec with
  | None => fail
  | Some cbs =>
      if TLS13_RECORD_MAX_PLAINTEXT_LEN <? CBS_len cbs then
        upd (fun rl => rl <| rl_alert := TLS13_ALERT_RECORD_OVERFLOW |>);; fail
      else on_rcontent (tls_content_dup_data alloc_ok (tls13_record_content_type rec) (CBS_data cbs) (CBS_len cbs))
  end.

(** [while (CBS_get_last_u8(&inner, &content_type)) if (content_type != 0) break;]:
    the type found and the CBS left. *)
Fixpoint find_content_type {S} (fuel : nat) (inner : CBS) (content_type : Z) : M S (Z * CBS) :=
  match fuel with
  | O => ub
  | S fuel =>
      match CBS_get_last_u8 inner with
      | Ret t inner => if negb (t =? 0) then mret (t, inner) else find_content_type fuel inner t
      | Fail inner => mret (content_type, inner)
      | UB => ub
      end
  end.

Definition set_rl_alert (alert : Z) : M state unit := upd (fun rl => rl <| rl_alert := alert |>).

Definition tls13_record_layer_open_record_protected : M state unit :=
  rl ← look id;
  check (bool_decide (rl_aead rl <> None));;
  rec ← valid (rl_rrec rl);
  match tls13_record_header rec, tls13_record_content rec with
  | Some header, Some enc_record =>
      check (alloc_ok (CBS_len enc_record));;
      match tls13_record_layer_update_nonce (rp_nonce (rl_read rl)) (rp_iv (rl_read rl)) (rp_seq_num (rl_read rl)) with
      | None => fail
      | Some nonce =>
          upd (fun rl => rl <| rl_read := (rl_read rl) <| rp_nonce := nonce |> |>);;
          k ← valid (rp_aead_ctx (rl_read rl));
          enc ← read_bytes (CBS_data enc_record) (CBS_len enc_record);
          ad ← read_bytes (CBS_data header) (CBS_len header);
          match EVP_AEAD_CTX_open ops k nonce enc ad with
          | None => fail
          | Some content =>
              let out_len := zlen content in
              must (out_len <=? CBS_len enc_record);;
              if TLS13_RECORD_MAX_INNER_PLAINTEXT_LEN <? out_len then
                set_rl_alert TLS13_ALERT_RECORD_OVERFLOW;; fail
              else
                match tls13_record_layer_inc_seq_num (rp_seq_num (rl_read rl)) with
                | None => fail
                | Some seq_num =>
                    upd (fun rl => rl <| rl_read := (rl_read rl) <| rp_seq_num := seq_num |> |>);;
                    '(content_type, inner) ← find_content_type (S (length content)) (CBS_init content out_len) 0;
                    if content_type =? 0 then
                      set_rl_alert TLS13_ALERT_UNEXPECTED_MESSAGE;; fail
                    else if TLS13_RECORD_MAX_PLAINTEXT_LEN <? CBS_len inner then
                      set_rl_alert TLS13_ALERT_RECORD_OVERFLOW;; fail
                    else on_rcontent (tls_content_set_data content_type (CBS_data inner) (CBS_len inner))
                end
          end
      end
  | _, _ => fail
  end.

Definition tls13_record_layer_open_record : M state unit :=
  rl ← look id;
  check (negb (rl_handshake_completed rl && bool_decide (rl_aead rl = None)));;
  if bool_decide (rl_aead rl = None) then tls13_record_layer_open_record_plaintext
  else tls13_record_layer_open_record_protected.

Definition set_wrec_data (data : list Z) (data_len : Z) : M state unit :=
  on_wrec (on_fst (tls13_record_set_data data data_len)).

(** The commands of the record in plaintext; 1 is the address of [body]. *)
Definition plaintext_cmds (content_type version : Z) (content : list Z) : list cmd :=
  [U8 0 content_type; U16 0 version; U16_prefixed 0 1; Bytes 1 content].

Definition tls13_record_layer_seal_record_plaintext (content_type : Z) (content : list Z) (content_len : Z) : M state unit :=
  rl ← look id;
  check (negb (rl_handshake_completed rl));;
  check (negb (bool_decide (rl_aead rl <> None) && negb (content_type =? SSL3_RT_CHANGE_CIPHER_SPEC)));;
  octets ← read_bytes content content_len;
  '(data, data_len) ← cbb_build (TLS13_RECORD_HEADER_LEN + content_len)
                        (plaintext_cmds content_type (rl_legacy_version rl) octets);
  set_wrec_data data data_len;;
  upd (fun rl => rl <| rl_wrec_content_len := content_len |> <| rl_wrec_content_type := content_type |>).

Definition tls13_record_layer_seal_record_protected (content_type : Z) (content : list Z) (content_len : Z) : M state unit :=
  rl ← look id;
  match rl_aead rl with
  | None => fail
  | Some aead =>
      octets ← read_bytes content content_len;
      '(inner, inner_len) ← cbb_build (content_len + 1) [Bytes 0 octets; U8 0 content_type];
      check (negb (TLS13_RECORD_MAX_INNER_PLAINTEXT_LEN <? inner_len));;
      let enc_record_len := inner_len + EVP_AEAD_max_tag_len ops aead in
      check (negb (TLS13_RECORD_MAX_CIPHERTEXT_LEN <? enc_record_len));;
      '(header, header_len) ← cbb_build TLS13_RECORD_HEADER_LEN
                                [U8 0 SSL3_RT_APPLICATION_DATA; U16 0 TLS1_2_VERSION; U16 0 enc_record_len];
      ad ← read_bytes header header_len;
      '(data, data_len) ← cbb_build (TLS13_RECORD_HEADER_LEN + enc_record_len) [Bytes 0 ad; Space 0 enc_record_len];
      match tls13_record_layer_update_nonce (rp_nonce (rl_write rl)) (rp_iv (rl_write rl)) (rp_seq_num (rl_write rl)) with
      | None => fail
      | Some nonce =>
          upd (fun rl => rl <| rl_write := (rl_write rl) <| rp_nonce := nonce |> |>);;
          k ← valid (rp_aead_ctx (rl_write rl));
          plain ← read_bytes inner inner_len;
          match EVP_AEAD_CTX_seal ops k nonce plain ad with
          | None => fail
          | Some enc =>
              check (zlen enc =? enc_record_len);;
              (* [enc_record] points behind the header: the CBB had its whole capacity from the start. *)
              data ← valid (zwrite data header_len enc);
              match tls13_record_layer_inc_seq_num (rp_seq_num (rl_write rl)) with
              | None => fail
              | Some seq_num =>
                  upd (fun rl => rl <| rl_write := (rl_write rl) <| rp_seq_num := seq_num |> |>);;
                  set_wrec_data data data_len;;
                  upd (fun rl => rl <| rl_wrec_content_len := content_len |> <| rl_wrec_content_type := content_type |>)
              end
          end
      end
  end.

Definition tls13_record_layer_seal_record (content_type : Z) (content : list Z) (content_len : Z) : M state unit :=
  rl ← look id;
  check (negb (rl_handshake_completed rl && bool_decide (rl_aead rl = None)));;
  tls13_record_layer_wrec_free;;
  upd (fun rl => rl <| rl_wrec := tls13_record_new alloc_ok |>);;
  check (bool_decide (tls13_record_new alloc_ok <> None));;
  if bool_decide (rl_aead rl = None) || (content_type =? SSL3_RT_CHANGE_CIPHER_SPEC)
  then tls13_record_layer_seal_record_plaintext content_type content content_len
  else tls13_record_layer_seal_record_protected content_type content content_len.

(** *** Writing *)

(** Push out the record being written. *)
Definition push_wrec : M state Z := on_wrec (tls13_record_send (wire_write cb)).

Definition seal_and_push (content_type : Z) (content : list Z) (content_len : Z) : M state Z :=
  if TLS13_RECORD_MAX_PLAINTEXT_LEN <? content_len then mret TLS_IO_FAILURE
  else
    sealed ← try (tls13_record_layer_seal_record content_type content content_len);
    match sealed with
    | None => mret TLS_IO_FAILURE
    | Some _ =>
        ret ← push_wrec;
        if ret <=? 0 then mret ret
        else
          tls13_record_layer_wrec_free;;
          mret content_len
    end.

Definition tls13_record_layer_write_record (content_type : Z) (content : list Z) (content_len : Z) : M state Z :=
  rl ← look id;
  if rl_write_closed rl then mret TLS_IO_EOF
  else if (content_type =? SSL3_RT_APPLICATION_DATA) && negb (rl_wrec_appdata_len rl =? 0) then
    upd (fun rl => rl <| rl_wrec_appdata_len := 0 |>);;
    mret (rl_wrec_appdata_len rl)
  else
    match rl_wrec rl with
    | None => seal_and_push content_type content content_len
    | Some _ =>
        ret ← push_wrec;
        if ret <=? 0 then mret ret
        else
          tls13_record_layer_wrec_free;;
          rl ← look id;
          if rl_wrec_content_type rl =? content_type then
            upd (fun rl => rl <| rl_wrec_content_len := 0 |> <| rl_wrec_content_type := 0 |>);;
            mret (rl_wrec_content_len rl)
          else if negb (rl_wrec_content_type rl =? SSL3_RT_APPLICATION_DATA) then mret TLS_IO_FAILURE
          else
            upd (fun rl => rl <| rl_wrec_appdata_len := rl_wrec_content_len rl |>);;
            seal_and_push content_type content content_len
    end.

Definition tls13_record_layer_write_chunk (content_type : Z) (buf : list Z) (n : Z) : M state Z :=
  let n := if TLS13_RECORD_MAX_PLAINTEXT_LEN <? n then TLS13_RECORD_MAX_PLAINTEXT_LEN else n in
  tls13_record_layer_write_record content_type buf n.

(** *** Pending alerts and post-handshake messages *)

Definition tls13_record_layer_alert_sent (alert_level alert_desc : Z) : M state unit :=
  call (fun w => (tt, alert_sent cb alert_level alert_desc w)).

Definition tls13_record_layer_send_alert : M state Z :=
  rl ← look id;
  data ← valid (rl_alert_data rl);
  ret ← tls13_record_layer_write_record SSL3_RT_ALERT data (rl_alert_len rl);
  if negb (ret =? rl_alert_len rl) then mret (if ret =? TLS_IO_EOF then TLS_IO_ALERT else ret)
  else
    upd (fun rl => rl <| rl_alert_data := None |> <| rl_alert_len := 0 |>);;
    rl ← look id;
    ret ← (if rl_alert_desc rl =? TLS13_ALERT_CLOSE_NOTIFY then
             upd (fun rl => rl <| rl_write_closed := true |>);; mret TLS_IO_SUCCESS
           else if rl_alert_desc rl =? TLS13_ALERT_USER_CANCELED then mret TLS_IO_SUCCESS
           else
             upd (fun rl => rl <| rl_read_closed := true |> <| rl_write_closed := true |>);; mret TLS_IO_ALERT);
    tls13_record_layer_alert_sent (rl_alert_level rl) (rl_alert_desc rl);;
    mret ret.

Definition tls13_record_layer_send_phh : M state Z :=
  rl ← look id;
  ret ← tls13_record_layer_write_chunk SSL3_RT_HANDSHAKE (CBS_data (rl_phh_cbs rl)) (CBS_len (rl_phh_cbs rl));
  if ret <=? 0 then mret ret
  else
    rl ← look id;
    match CBS_skip ret (rl_phh_cbs rl) with
    | UB => ub
    | Fail _ => mret TLS_IO_FAILURE
    | Ret _ cbs =>
        upd (fun rl => rl <| rl_phh_cbs := cbs |>);;
        if negb (CBS_len cbs =? 0) then mret TLS_IO_WANT_RETRY
        else
          upd (fun rl => rl <| rl_phh_data := None |> <| rl_phh_len := 0 |> <| rl_phh_cbs := null_CBS |>);;
          call (fun w => (tt, phh_sent cb w));;
          mret TLS_IO_SUCCESS
    end.

Definition tls13_record_layer_send_pending : M state Z :=
  rl ← look id;
  if bool_decide (rl_phh_data rl <> None) && negb (CBS_len (rl_phh_cbs rl) =? rl_phh_len rl) then tls13_record_layer_send_phh
  else if bool_decide (rl_alert_data rl <> None) then tls13_record_layer_send_alert
  else if bool_decide (rl_phh_data rl <> None) then tls13_record_layer_send_phh
  else mret TLS_IO_SUCCESS.

Definition tls13_record_layer_enqueue_alert (alert_level alert_desc : Z) : M state Z :=
  rl ← look id;
  match rl_alert_data rl with
  | Some _ => mret TLS_IO_FAILURE
  | None =>
      built ← try (cbb_build 0 [U8 0 alert_level; U8 0 alert_desc]);
      match built with
      | None => mret TLS_IO_FAILURE
      | Some (data, data_len) =>
          upd (fun rl => rl <| rl_alert_data := Some data |> <| rl_alert_len := data_len |>
                           <| rl_alert_level := alert_level |> <| rl_alert_desc := alert_desc |>);;
          tls13_record_layer_send_pending
      end
  end.

(** Run [m] again while it returns [TLS13_IO_WANT_RETRY], at most [n] times.  [Fail]
    means that the loop has not ended by then; the functions that return [ssize_t]
    fail in no other way. *)
Fixpoint while_retry {S T} (retry : T -> bool) (n : nat) (m : M S T) : M S T :=
  match n with
  | O => fail
  | Datatypes.S n => ret ← m; if retry ret then while_retry retry n m else mret ret
  end.
Definition wants_retry (ret : Z) : bool := ret =? TLS_IO_WANT_RETRY.

(** The second [tls13_record_layer_enqueue_alert] would find the alert of the first. *)
Definition tls13_send_alert (alert_desc : Z) : M state Z :=
  match alert_send cb with
  | Some f => call (f alert_desc)
  | None =>
      let alert_level :=
        if (alert_desc =? TLS13_ALERT_CLOSE_NOTIFY) || (alert_desc =? TLS13_ALERT_USER_CANCELED)
        then TLS13_ALERT_LEVEL_WARNING else TLS13_ALERT_LEVEL_FATAL in
      while_retry wants_retry 2 (tls13_record_layer_enqueue_alert alert_level alert_desc)
  end.

Definition tls13_record_layer_phh (cbs : CBS) : M state Z :=
  rl ← look id;
  match rl_phh_data rl with
  | Some _ => mret TLS_IO_FAILURE
  | None =>
      match CBS_stow alloc_ok cbs with
      | Ret (data, len) _ =>
          upd (fun rl => rl <| rl_phh_data := data |> <| rl_phh_len := len |>
                           <| rl_phh_cbs := CBS_init (default [] data) len |>);;
          tls13_record_layer_send_pending
      | Fail _ => mret TLS_IO_FAILURE
      | UB => ub
      end
  end.

(** *** Reading *)

Definition tls13_record_layer_process_alert : M state Z :=
  rl ← look id;
  if negb (tls_content_type (rl_rcontent rl) =? SSL3_RT_ALERT) then mret TLS_IO_FAILURE
  else
    alert ← try (on_rcontent (on_cbs (level ← CBS_get_u8; desc ← CBS_get_u8; mret (level, desc))));
    match alert with
    | None => tls13_send_alert TLS13_ALERT_DECODE_ERROR
    | Some (alert_level, alert_desc) =>
        rl ← look id;
        if negb (tls_content_remaining (rl_rcontent rl) =? 0) then tls13_send_alert TLS13_ALERT_DECODE_ERROR
        else
          on_rcontent tls_content_clear;;
          let recv ret := call (fun w => (tt, alert_recv cb alert_level alert_desc w));; mret ret in
          if alert_desc =? TLS13_ALERT_CLOSE_NOTIFY then
            upd (fun rl => rl <| rl_read_closed := true |>);; recv TLS_IO_EOF
          else if alert_desc =? TLS13_ALERT_USER_CANCELED then recv TLS_IO_WANT_RETRY
          else if alert_level =? TLS13_ALERT_LEVEL_FATAL then
            upd (fun rl => rl <| rl_read_closed := true |> <| rl_write_closed := true |>);; recv TLS_IO_ALERT
          else if rl_legacy_alerts_allowed rl && (alert_level =? TLS13_ALERT_LEVEL_WARNING) then mret TLS_IO_WANT_RETRY
          else tls13_send_alert TLS13_ALERT_ILLEGAL_PARAMETER
    end.

(** A change cipher spec record. *)
Definition read_ccs (rec : tls13_record) : M state Z :=
  rl ← look id;
  if negb (rl_ccs_allowed rl) || (2 <=? rl_ccs_seen rl) then tls13_send_alert TLS13_ALERT_UNEXPECTED_MESSAGE
  else
    match tls13_record_content rec with
    | None => tls13_send_alert TLS13_ALERT_DECODE_ERROR
    | Some cbs =>
        match CBS_get_u8 cbs with
        | UB => ub
        | Fail _ => tls13_send_alert TLS13_ALERT_DECODE_ERROR
        | Ret ccs cbs =>
            if negb (ccs =? 1) then tls13_send_alert TLS13_ALERT_ILLEGAL_PARAMETER
            else if negb (CBS_len cbs =? 0) then tls13_send_alert TLS13_ALERT_DECODE_ERROR
            else
              upd (fun rl => rl <| rl_ccs_seen := rl_ccs_seen rl + 1 |>);;
              tls13_record_layer_rrec_free;;
              mret TLS_IO_WANT_RETRY
        end
    end.

(** From the opened record to the end of the function. *)
Definition read_opened : M state Z :=
  tls13_record_layer_rrec_free;;
  rl ← look id;
  let type := tls_content_type (rl_rcontent rl) in
  if (tls_content_remaining (rl_rcontent rl) =? 0) && ((type =? SSL3_RT_ALERT) || (type =? SSL3_RT_HANDSHAKE)) then
    tls13_send_alert TLS13_ALERT_UNEXPECTED_MESSAGE
  else if type =? SSL3_RT_ALERT then tls13_record_layer_process_alert
  else if type =? SSL3_RT_HANDSHAKE then mret TLS_IO_SUCCESS
  else if type =? SSL3_RT_APPLICATION_DATA then
    if negb (rl_handshake_completed rl) then tls13_send_alert TLS13_ALERT_UNEXPECTED_MESSAGE else mret TLS_IO_SUCCESS
  else tls13_send_alert TLS13_ALERT_UNEXPECTED_MESSAGE.

(** The record received: its checks and its opening. *)
Definition read_received : M state Z :=
  rl ← look id;
  rec ← valid (rl_rrec rl);
  let content_type := tls13_record_content_type rec in
  if (rl_legacy_version rl =? TLS1_2_VERSION) && negb (tls13_record_version rec =? TLS1_2_VERSION) &&
     (negb (content_type =? SSL3_RT_ALERT) || negb (rl_legacy_alerts_allowed rl)) then
    tls13_send_alert TLS13_ALERT_PROTOCOL_VERSION
  else if content_type =? SSL3_RT_CHANGE_CIPHER_SPEC then read_ccs rec
  else if bool_decide (rl_aead rl <> None) && negb (content_type =? SSL3_RT_APPLICATION_DATA) then
    tls13_send_alert TLS13_ALERT_UNEXPECTED_MESSAGE
  else
    opened ← try tls13_record_layer_open_record;
    match opened with
    | None => mret TLS_IO_FAILURE
    | Some _ => read_opened
    end.

Definition tls13_record_layer_read_record : M state Z :=
  rl ← look id;
  (match rl_rrec rl with
   | None => upd (fun rl => rl <| rl_rrec := tls13_record_new alloc_ok |>)
   | Some _ => mret tt
   end);;
  rl ← look id;
  match rl_rrec rl with
  | None => mret TLS_IO_FAILURE
  | Some _ =>
      ret ← on_rrec (tls13_record_recv alloc_ok (wire_read cb));
      if ret <=? 0 then
        if ret =? TLS13_IO_RECORD_VERSION then tls13_send_alert TLS13_ALERT_PROTOCOL_VERSION
        else if ret =? TLS13_IO_RECORD_OVERFLOW then tls13_send_alert TLS13_ALERT_RECORD_OVERFLOW
        else mret ret
      else read_received
  end.

Definition tls13_record_layer_pending (content_type : Z) (rl : record_layer) : Z :=
  if negb (tls_content_type (rl_rcontent rl) =? content_type) then 0 else tls_content_remaining (rl_rcontent rl).

Definition tls13_record_layer_recv_phh : M state Z :=
  upd (fun rl => rl <| rl_phh := true |>);;
  ret ← (match phh_recv cb with Some f => f | None => mret TLS_IO_FAILURE end);
  on_rcontent tls_content_clear;;
  (if negb (ret =? TLS_IO_WANT_POLLIN) then upd (fun rl => rl <| rl_phh := false |>) else mret tt);;
  rl ← look id;
  mret (if ret =? TLS_IO_SUCCESS then if rl_phh_retry rl then TLS_IO_WANT_RETRY else TLS_IO_WANT_POLLIN else ret).

Definition no_octets (m : M state Z) : M state (Z * list Z) := ret ← m; mret (ret, []).

(** The content of the record that is there. *)
Definition read_content (content_type n : Z) (peek : bool) : M state (Z * list Z) :=
  rl ← look id;
  let type := tls_content_type (rl_rcontent rl) in
  if rl_phh rl && negb (type =? SSL3_RT_HANDSHAKE) then no_octets (tls13_send_alert TLS13_ALERT_UNEXPECTED_MESSAGE)
  else if negb (type =? content_type) then
    if (type =? SSL3_RT_HANDSHAKE) && rl_handshake_completed rl then no_octets tls13_record_layer_recv_phh
    else no_octets (tls13_send_alert TLS13_ALERT_UNEXPECTED_MESSAGE)
  else if peek then on_rcontent (tls_content_peek n)
  else on_rcontent (tls_content_read n).

(** The result and the octets stored in [buf]. *)
Definition tls13_record_layer_read_internal (content_type n : Z) (peek : bool) : M state (Z * list Z) :=
  ret ← tls13_record_layer_send_pending;
  if negb (ret =? TLS_IO_SUCCESS) then mret (ret, [])
  else
    rl ← look id;
    if rl_read_closed rl then mret (TLS_IO_EOF, [])
    else if tls_content_remaining (rl_rcontent rl) =? 0 then
      ret ← tls13_record_layer_read_record;
      if ret <=? 0 then mret (ret, [])
      else
        rl ← look id;
        if tls_content_remaining (rl_rcontent rl) =? 0 then mret (TLS_IO_WANT_POLLIN, [])
        else read_content content_type n peek
    else read_content content_type n peek.

(** How often a call may be asked to retry at once: by the wire, by warnings
    of the peer and by post-handshake messages. *)
Context (retries : nat).

Definition tls13_record_layer_read_or_peek (content_type n : Z) (peek : bool) : M state (Z * list Z) :=
  r ← while_retry (fun r => wants_retry r.1) retries (tls13_record_layer_read_internal content_type n peek);
  rl ← look id;
  if negb (rl_alert rl =? 0) then no_octets (tls13_send_alert (rl_alert rl))
  else mret r.

Definition tls13_record_layer_peek (content_type n : Z) := tls13_record_layer_read_or_peek content_type n true.
Definition tls13_record_layer_read (content_type n : Z) := tls13_record_layer_read_or_peek content_type n false.

Definition tls13_record_layer_write (content_type : Z) (buf : list Z) (n : Z) : M state Z :=
  ret ← while_retry wants_retry retries tls13_record_layer_send_pending;
  if negb (ret =? TLS_IO_SUCCESS) then mret ret
  else while_retry wants_retry retries (tls13_record_layer_write_chunk content_type buf n).

Definition tls13_record_layer_flush : M state Z := call (wire_flush cb).

Definition tls13_dummy_ccs : list Z := [1].

Definition tls13_send_dummy_ccs : M state Z :=
  rl ← look id;
  if rl_ccs_sent rl then mret TLS_IO_FAILURE
  else
    ret ← tls13_record_layer_write SSL3_RT_CHANGE_CIPHER_SPEC tls13_dummy_ccs 1;
    if ret <=? 0 then mret ret
    else
      upd (fun rl => rl <| rl_ccs_sent := true |>);;
      mret TLS_IO_SUCCESS.

(** *** The interface *)

Definition tls13_read_handshake_data (n : Z) : M state (Z * list Z) :=
  match handshake_read cb with
  | Some f => call (fun w => let '(ret, octets, w) := f n w in ((ret, octets), w))
  | None => tls13_record_layer_read SSL3_RT_HANDSHAKE n
  end.

Definition tls13_write_handshake_data (buf : list Z) (n : Z) : M state Z :=
  match handshake_write cb with
  | Some f => call (f (ztake n buf))
  | None => tls13_record_layer_write SSL3_RT_HANDSHAKE buf n
  end.

Definition tls13_pending_application_data (rl : record_layer) : Z :=
  if negb (rl_handshake_completed rl) then 0 else tls13_record_layer_pending SSL3_RT_APPLICATION_DATA rl.

Definition tls13_peek_application_data (n : Z) : M state (Z * list Z) :=
  rl ← look id;
  if negb (rl_handshake_completed rl) then mret (TLS_IO_FAILURE, [])
  else tls13_record_layer_peek SSL3_RT_APPLICATION_DATA n.

Definition tls13_read_application_data (n : Z) : M state (Z * list Z) :=
  rl ← look id;
  if negb (rl_handshake_completed rl) then mret (TLS_IO_FAILURE, [])
  else tls13_record_layer_read SSL3_RT_APPLICATION_DATA n.

Definition tls13_write_application_data (buf : list Z) (n : Z) : M state Z :=
  rl ← look id;
  if negb (rl_handshake_completed rl) then mret TLS_IO_FAILURE
  else tls13_record_layer_write SSL3_RT_APPLICATION_DATA buf n.
End record_layer.
