(* ===== verification/Tls13Seal.v ===== *)
(** * Sealing and opening of TLS 1.3 records

    Theorems about the record protection of Tls13RecordLayer.v: the sequence
    numbers and nonces, what a sealed record looks like on the wire, and that the
    peer opens what was sealed. *)

From stdpp Require Import gmap.
From S2P Require Import Prelude Cbs Cbb Builder TlsBuffer Tls13Msg Tls13Record Tls13RecordLayer.
Open Scope Z_scope.

(** ** Sequence numbers *)

Lemma inc_seq_num_loop_be n : forall v, inc_seq_num_loop (reverse (be_bytes n v)) = reverse (be_bytes n (v + 1)).
Proof.
  induction n as [|n IH]; intros v; [done|]. cbn [be_bytes]. rewrite !reverse_app. cbn [reverse rev_append app inc_seq_num_loop].
  pose proof (Z.div_mod v 256 ltac:(lia)). pose proof (Z.mod_pos_bound v 256 ltac:(lia)).
  unfold u8. change (2 ^ 8) with 256. destruct (Z.eq_dec (v mod 256) 255) as [E|E].
  - rewrite E. change ((255 + 1) mod 256) with 0. change (negb (0 =? 0)) with false. cbv iota.
    rewrite (IH (v / 256)). f_equal; [|f_equal; f_equal]; [apply Z.mod_unique_pos with (v / 256 + 1)|apply Z.div_unique with 0]; lia.
  - rewrite (Z.mod_small (v mod 256 + 1)) by lia. rewrite (proj2 (Z.eqb_neq _ _)) by lia. cbn [negb].
    f_equal; [apply Z.mod_unique_pos with (v / 256)|f_equal; f_equal; apply Z.div_unique with (v mod 256 + 1)]; lia.
Qed.

Lemma be_bytes_inj n v v' :
  0 <= v < 256 ^ Z.of_nat n -> 0 <= v' < 256 ^ Z.of_nat n -> be_bytes n v = be_bytes n v' -> v = v'.
Proof. intros Hv Hv' E%(f_equal be_val). rewrite !be_val_bytes, !Z.mod_small in E by done. done. Qed.

Lemma inc_seq_num_be s :
  0 <= s < 2 ^ 64 ->
  tls13_record_layer_inc_seq_num (be_bytes 8 s) = if s =? 2 ^ 64 - 1 then None else Some (be_bytes 8 (s + 1)).
Proof.
  intros Hs. unfold tls13_record_layer_inc_seq_num.
  assert (E : tls13_max_seq_num = be_bytes 8 (2 ^ 64 - 1)) by reflexivity.
  destruct (Z.eqb_spec s (2 ^ 64 - 1)) as [->|Hne].
  - by rewrite bool_decide_eq_true_2.
  - rewrite bool_decide_eq_false_2 by (rewrite E; intros ?%be_bytes_inj; [done|by change (256 ^ Z.of_nat 8) with (2 ^ 64)|done]).
    by rewrite inc_seq_num_loop_be, reverse_involutive.
Qed.

(** ** Nonces *)

(** RFC 8446, section 5.3: the sequence number padded to the length of the IV,
    exclusive-or the IV. *)
Definition record_nonce (iv : list Z) (s : Z) : list Z := zip_with Z.lxor iv (be_bytes (length iv) s).

Lemma update_nonce_loop_nil iv : update_nonce_loop iv [] = zip_with Z.lxor iv (replicate (length iv) 0).
Proof. induction iv as [|b iv IH]; [done|]. cbn. by rewrite IH. Qed.

Lemma update_nonce_loop_pad iv l :
  (length l <= length iv)%nat ->
  update_nonce_loop iv l = zip_with Z.lxor iv (l ++ replicate (length iv - length l) 0).
Proof.
  revert l. induction iv as [|b iv IH]; intros l Hl; [by destruct l|].
  destruct l as [|x l]; [apply update_nonce_loop_nil|].
  cbn [length] in *. cbn [update_nonce_loop hd tl app zip_with]. f_equal. apply IH. lia.
Qed.

Lemma be_bytes_pad n m v : 0 <= v < 256 ^ Z.of_nat n -> be_bytes (m + n) v = replicate m 0 ++ be_bytes n v.
Proof.
  intros Hv. rewrite be_bytes_app, Z.div_small by done. f_equal.
  induction m as [|m IH]; [done|]. rewrite be_bytes_cons, IH. by rewrite Z.div_0_l by (apply Z.pow_nonzero; lia).
Qed.

Lemma zip_with_reverse {A B C} (f : A -> B -> C) l k :
  length l = length k -> reverse (zip_with f l k) = zip_with f (reverse l) (reverse k).
Proof.
  intros H%Forall2_same_length. induction H as [|x y l k _ H IH]; [done|].
  cbn [zip_with]. rewrite !reverse_cons, IH.
  by rewrite zip_with_app by (rewrite !length_reverse; by eapply Forall2_length).
Qed.

Lemma update_nonce_be nonce iv s :
  length nonce = length iv -> (8 <= length iv)%nat -> 0 <= s < 2 ^ 64 ->
  tls13_record_layer_update_nonce nonce iv (be_bytes 8 s) = Some (record_nonce iv s).
Proof.
  intros Hn Hiv Hs. unfold tls13_record_layer_update_nonce, zlen. rewrite Hn, Z.eqb_refl. cbn [negb]. f_equal.
  rewrite update_nonce_loop_pad by (rewrite !length_reverse, length_be_bytes; lia).
  rewrite !length_reverse, length_be_bytes. unfold record_nonce.
  assert (Hpad : be_bytes (length iv) s = replicate (length iv - 8) 0 ++ be_bytes 8 s).
  { replace (length iv) with ((length iv - 8) + 8)%nat at 1 by lia.
    apply be_bytes_pad. by change (256 ^ Z.of_nat 8) with (2 ^ 64). }
  rewrite Hpad, zip_with_reverse.
  - by rewrite reverse_involutive, reverse_app, reverse_involutive, reverse_replicate.
  - rewrite length_app, !length_reverse, length_replicate, length_be_bytes. lia.
Qed.

Lemma lxor_cancel_l b x y : Z.lxor b x = Z.lxor b y -> x = y.
Proof.
  intros E. rewrite <- (Z.lxor_0_l x), <- (Z.lxor_0_l y), <- !(Z.lxor_nilpotent b), !Z.lxor_assoc. by rewrite E.
Qed.

Lemma zip_with_lxor_inj l : forall k k',
  length k = length l -> length k' = length l -> zip_with Z.lxor l k = zip_with Z.lxor l k' -> k = k'.
Proof.
  induction l as [|b l IH]; intros [|x k] [|y k'] Hk Hk'; try done. cbn in *.
  intros [= E%lxor_cancel_l E']. f_equal; [done|]. apply IH; congruence.
Qed.

(** Different sequence numbers give different nonces. *)
Lemma record_nonce_inj iv s s' :
  (8 <= length iv)%nat -> 0 <= s < 2 ^ 64 -> 0 <= s' < 2 ^ 64 -> record_nonce iv s = record_nonce iv s' -> s = s'.
Proof.
  intros Hiv Hs Hs' E%zip_with_lxor_inj; [|by rewrite length_be_bytes..].
  assert (Hle : 2 ^ 64 <= 256 ^ Z.of_nat (length iv)).
  { change (2 ^ 64) with (256 ^ 8). apply Z.pow_le_mono_r; lia. }
  apply be_bytes_inj in E; lia.
Qed.

Lemma length_record_nonce iv s : length (record_nonce iv s) = length iv.
Proof. unfold record_nonce. rewrite length_zip_with, length_be_bytes. lia. Qed.

(** ** The builders of the record layer *)

Lemma append_leaf p c octets :
  zlen (c ++ octets) < 2 ^ 64 -> a_append p octets ([], p, c) = Ret tt ([], p, c ++ octets).
Proof.
  intros Hlen. unfold a_append, a_at. cbn [locate]. rewrite decide_True by done. cbn [forallb eclose app].
  unfold a_store, esize. cbn [fold_right]. by rewrite (proj2 (Z.ltb_lt _ _)) by lia.
Qed.

Lemma build_leaf p cs c : zlen c < 2 ^ 64 -> denote_all cs ([], p, []) = Ret tt ([], p, c) -> build p cs = Ret c ([], p, c).
Proof. intros Hlen E. rewrite build_eq, E, append_leaf by (by rewrite app_nil_r). by rewrite app_nil_r. Qed.

Lemma u8_be v : 0 <= v < 256 -> be_bytes 1 v = [v].
Proof. intros. change (be_bytes 1 v) with [v mod 256]. by rewrite Z.mod_small by lia. Qed.

(** Commands that write to the leaf [p]. *)
Definition leaf_octets (c : cmd) : option (list Z) :=
  match c with
  | Bytes _ data => Some data
  | Space _ n => Some (zrep n 0)
  | U8 _ v => if v <? 2 ^ 8 then Some (be_bytes 1 v) else None
  | U16 _ v => if v <? 2 ^ 16 then Some (be_bytes 2 v) else None
  | _ => None
  end.
Definition leaf_of (c : cmd) : option ptr :=
  match c with Bytes p _ | Space p _ | U8 p _ | U16 p _ => Some p | _ => None end.

Lemma denote_leaf p c cs l octets :
  leaf_of c = Some p -> leaf_octets c = Some octets -> zlen (l ++ octets) < 2 ^ 64 ->
  denote_all (c :: cs) ([], p, l) = denote_all cs ([], p, l ++ octets).
Proof.
  intros Hp Ho Hl. cbn [denote_all]. pose proof (append_leaf p l octets Hl) as E.
  destruct c as [|q ?|q ?|q v|q v| | | | | | | | | |]; try discriminate Hp; cbn [leaf_of] in Hp; injection Hp as ->; cbn [leaf_octets] in Ho; cbn [denote]; mstep.
  - injection Ho as ->. by rewrite E.
  - injection Ho as ->. by rewrite E.
  - destruct (v <? 2 ^ 8); [|done]. apply (inj Some) in Ho as <-. by rewrite E.
  - destruct (v <? 2 ^ 16); [|done]. apply (inj Some) in Ho as <-. by rewrite E.
Qed.

Lemma build_inner ct content :
  0 <= ct < 256 -> zlen content < 65536 -> exists B, build 0 [Bytes 0 content; U8 0 ct] = Ret (content ++ [ct]) B.
Proof.
  intros Hct Hlen. pose proof (zlen_nonneg content). eexists. apply build_leaf; [rewrite zlen_app, zlen_cons, zlen_nil; lia|].
  rewrite (denote_leaf 0 _ _ [] content) by (done || (cbn [app]; lia)). cbn [app].
  erewrite denote_leaf; [|done|cbn [leaf_octets]; by rewrite (proj2 (Z.ltb_lt _ _)) by lia|rewrite zlen_app, zlen_be_bytes; lia].
  by rewrite u8_be by lia.
Qed.

Lemma build_header n :
  0 <= n < 65536 -> exists B, build 0 [U8 0 SSL3_RT_APPLICATION_DATA; U16 0 TLS1_2_VERSION; U16 0 n] =
    Ret (SSL3_RT_APPLICATION_DATA :: be_bytes 2 TLS1_2_VERSION ++ be_bytes 2 n) B.
Proof.
  intros Hn. eexists. apply build_leaf; [rewrite zlen_cons, zlen_app, !zlen_be_bytes; lia|].
  rewrite (denote_leaf 0 _ _ [] [SSL3_RT_APPLICATION_DATA]) by done. cbn [app].
  rewrite (denote_leaf 0 _ _ _ (be_bytes 2 TLS1_2_VERSION)) by done.
  erewrite denote_leaf; [|done|cbn [leaf_octets]; by rewrite (proj2 (Z.ltb_lt _ _)) by lia|rewrite !zlen_app, zlen_be_bytes; done].
  done.
Qed.

Lemma build_room ad n :
  zlen ad = 5 -> 0 <= n < 65536 -> exists B, build 0 [Bytes 0 ad; Space 0 n] = Ret (ad ++ zrep n 0) B.
Proof.
  intros Ha Hn. eexists. apply build_leaf; [rewrite zlen_app, zlen_rep by lia; lia|].
  rewrite (denote_leaf 0 _ _ [] ad) by (done || (cbn [app]; lia)). cbn [app].
  rewrite (denote_leaf 0 _ _ ad (zrep n 0)) by (done || (rewrite zlen_app, zlen_rep by lia; lia)). done.
Qed.

Lemma build_alert level desc :
  0 <= level < 256 -> 0 <= desc < 256 -> exists B, build 0 [U8 0 level; U8 0 desc] = Ret [level; desc] B.
Proof.
  intros Hl Hd. eexists. apply build_leaf; [done|].
  erewrite denote_leaf; [|done|cbn [leaf_octets]; by rewrite (proj2 (Z.ltb_lt _ _)) by lia|by rewrite u8_be by lia].
  erewrite denote_leaf; [|done|cbn [leaf_octets]; by rewrite (proj2 (Z.ltb_lt _ _)) by lia|by rewrite !u8_be by lia].
  by rewrite !u8_be by lia.
Qed.

Lemma build_plaintext ct version content :
  0 <= ct < 256 -> 0 <= version < 65536 -> zlen content < 65536 ->
  exists B, build 0 (plaintext_cmds ct version content) = Ret (record_wire ct version content) B.
Proof.
  intros Hct Hv Hlen. pose proof (zlen_nonneg content). unfold plaintext_cmds. rewrite build_eq.
  erewrite denote_leaf; [|done|cbn [leaf_octets]; by rewrite (proj2 (Z.ltb_lt _ _)) by lia|by rewrite u8_be by lia].
  erewrite denote_leaf; [|done|cbn [leaf_octets]; by rewrite (proj2 (Z.ltb_lt _ _)) by lia|by rewrite u8_be by lia].
  rewrite u8_be by lia. cbn [app]. set (h := ct :: be_bytes 2 version).
  assert (Hh : zlen h = 3) by (unfold h; rewrite zlen_cons, zlen_be_bytes; lia).
  assert (Hs : forall l, zlen l < 65536 -> (esize ([(0%nat, h, Fixed 2)], 1%nat, l) <? 2 ^ 64) = true).
  { intros l Hl. unfold esize. cbn [fold_right hole]. apply Z.ltb_lt. lia. }
  cbn [denote_all denote]. mstep. unfold a_append, a_open, a_at. cbn [locate].
  rewrite decide_True by done. cbn [eclose forallb]. rewrite bool_decide_eq_true_2 by (cbn; set_solver). cbn [andb app].
  unfold a_store. rewrite Hs by done. cbn [locate fst]. rewrite (decide_False (P := 1%nat = 0%nat)), (decide_True (P := 1%nat = 1%nat)) by done.
  cbn [mbind option_bind forallb eclose app]. rewrite Hs by done. cbn [locate fst].
  rewrite decide_True by done. cbn [mbind option_bind forallb eclose app prefix].
  rewrite (proj2 (Z.ltb_lt (zlen content) _)) by (change (256 ^ 2) with 65536; lia). cbn [mbind option_bind].
  change (Z.to_nat 2) with 2%nat. rewrite app_nil_r. unfold h, record_wire. eexists. rewrite (proj2 (Z.ltb_lt _ _)); [reflexivity|].
  unfold esize. cbn [fold_right]. rewrite !zlen_app, zlen_cons, !zlen_be_bytes. change (zlen []) with 0. lia.
Qed.

(** A local CBB builds what the abstract builder does, or memory is refused. *)
Lemma wp_cbb_build alloc_ok {S} cap cs out (s : S) (Q : list Z * Z -> S -> Prop) E :
  0 <= cap < 2 ^ 64 -> Forall cmd_ok cs -> (exists B, build 0 cs = Ret out B) ->
  (forall buf, ztake (zlen out) buf = out -> zlen out <= zlen buf -> Q (buf, zlen out) s) ->
  (~ (forall n, alloc_ok n = true) -> E s) ->
  wp (cbb_build alloc_ok cap cs) s Q E.
Proof.
  intros Hcap Hcs [B HB] HQ HE.
  pose proof (builder_wp alloc_ok (mkHeap ∅ ∅) 0 cap cs Hcap Hcs ltac:(by rewrite HB)) as Hw. rewrite HB in Hw.
  unfold cbb_build. apply wp_bind, wp_on_local. eapply wp_conseq; [exact Hw| |]; cbn beta.
  - intros [buf len] h ([B' E1] & E2 & _). injection E1 as E1 _. apply wp_ret. rewrite <- E1 in E2. subst len. apply HQ; [done|].
    rewrite E1 at 1. unfold ztake, zlen. rewrite length_take. lia.
  - intros h [_ Hno]. apply HE. intros Hall. by destruct (Hno Hall).
Qed.

(** ** Sealing *)

(** The whole header of a protected record whose ciphertext has [n] octets. *)
Definition protected_header (n : Z) : list Z := SSL3_RT_APPLICATION_DATA :: be_bytes 2 TLS1_2_VERSION ++ be_bytes 2 n.

Lemma protected_wire enc :
  record_wire SSL3_RT_APPLICATION_DATA TLS1_2_VERSION enc = protected_header (zlen enc) ++ enc.
Proof. unfold record_wire, protected_header. cbn [app]. by rewrite <- app_assoc. Qed.

Lemma zlen_protected_header n : zlen (protected_header n) = 5.
Proof. unfold protected_header. rewrite zlen_cons, zlen_app, !zlen_be_bytes. lia. Qed.

Lemma is_byte_protected_header n : Forall is_byte (protected_header n).
Proof.
  constructor; [unfold is_byte, SSL3_RT_APPLICATION_DATA; lia|]. apply Forall_app. split; apply is_byte_be_bytes.
Qed.

(** Key, IV and nonce are in place and the sequence number is [s]. *)
Definition keyed {K} (p : tls13_record_protection K) (k : K) (s : Z) : Prop :=
  rp_aead_ctx p = Some k /\ (8 <= length (rp_iv p))%nat /\ length (rp_nonce p) = length (rp_iv p) /\
  rp_seq_num p = be_bytes 8 s /\ 0 <= s < 2 ^ 64.

(** The AEAD under the key [k] never fails to seal a record with the nonces of the
    IV, and adds its tag. *)
Definition seals {A H K} (ops : aead_ops A H K) (aead : A) (k : K) (iv : list Z) : Prop :=
  forall s plain ad, Forall is_byte plain -> zlen plain <= TLS13_RECORD_MAX_INNER_PLAINTEXT_LEN -> Forall is_byte ad ->
    exists enc, EVP_AEAD_CTX_seal ops k (record_nonce iv s) plain ad = Some enc /\
      zlen enc = zlen plain + EVP_AEAD_max_tag_len ops aead.

Class AeadLaws {A H K} (ops : aead_ops A H K) : Type := {
  max_tag_len_law : forall aead, 0 <= EVP_AEAD_max_tag_len ops aead < 2 ^ 32;
  open_seal_law : forall k nonce plain ad enc, Forall is_byte plain ->
    EVP_AEAD_CTX_seal ops k nonce plain ad = Some enc -> EVP_AEAD_CTX_open ops k nonce enc ad = Some plain;
  open_len_law : forall k nonce enc ad plain,
    EVP_AEAD_CTX_open ops k nonce enc ad = Some plain -> zlen plain <= zlen enc;
}.

Ltac max_lia :=
  unfold TLS13_RECORD_MAX_LEN, TLS13_RECORD_MAX_CIPHERTEXT_LEN, TLS13_RECORD_MAX_INNER_PLAINTEXT_LEN,
    TLS13_RECORD_MAX_PLAINTEXT_LEN, TLS13_RECORD_MAX_AEAD_OVERHEAD, TLS13_RECORD_HEADER_LEN in *; lia.

Ltac cmds_tac :=
  repeat (apply Forall_cons; split;
    [cbn [cmd_ok]; unfold SSL3_RT_APPLICATION_DATA, TLS1_2_VERSION; try rewrite zlen_protected_header; max_lia|]); constructor.

Section sealing.
Context (alloc_ok : Z -> bool) {A H K W : Type}.
Context (ops : aead_ops A H K) `{!AeadLaws ops}.
Abbreviation record_layer := (tls13_record_layer A H K).
Abbreviation state := (tls13_record_layer A H K * W)%type.
Implicit Types (rl : record_layer) (w : W).

Definition memory_never_refused : Prop := forall n, alloc_ok n = true.

(** The record layer with a record sealed. *)
Definition put_wrec (rec : tls13_record) (content_type content_len : Z) (rl : record_layer) : record_layer :=
  rl <| rl_wrec := Some rec |> <| rl_wrec_content_len := content_len |> <| rl_wrec_content_type := content_type |>.

Lemma wp_look {T} (f : record_layer -> T) (st : state) (Q : T -> state -> Prop) E :
  Q (f st.1) st -> wp (look f) st Q E.
Proof using. done. Qed.

Lemma wp_upd (f : record_layer -> record_layer) rl w (Q : unit -> state -> Prop) E :
  Q tt (f rl, w) -> wp (upd f) (rl, w) Q E.
Proof using. done. Qed.

(** Octets in a large enough buffer become the record to send. *)
Lemma wp_set_wrec_data data out rl w rec0 (Q : unit -> state -> Prop) E :
  rl_wrec rl = Some rec0 -> ztake (zlen out) data = out -> zlen out <= zlen data -> zlen out <= TLS13_RECORD_MAX_LEN ->
  (forall rec, rec_sending rec (zlen out) out -> Q tt (rl <| rl_wrec := Some rec |>, w)) ->
  wp (set_wrec_data data (zlen out)) (rl, w) Q E.
Proof using.
  intros Hrec Hd Hle Hmax HQ. unfold wp, set_wrec_data, on_wrec, on_fst, tls13_record_set_data. rewrite Hrec. mstep.
  rewrite (proj2 (Z.ltb_ge _ _)) by done. cbn [negb fst snd]. apply HQ.
  split; [done|]. split; [done|]. split; [|done]. unfold window_ok. cbn. split; [apply zlen_nonneg|done].
Qed.

Lemma wp_seal_plaintext content_type content rl w rec0 (Q : unit -> state -> Prop) (E : state -> Prop) :
  rl_wrec rl = Some rec0 -> 0 <= content_type < 256 -> 0 <= rl_legacy_version rl < 65536 ->
  zlen content <= TLS13_RECORD_MAX_PLAINTEXT_LEN ->
  (forall rec, let wire := record_wire content_type (rl_legacy_version rl) content in
     rl_handshake_completed rl = false -> rec_sending rec (zlen wire) wire ->
     Q tt (put_wrec rec content_type (zlen content) rl, w)) ->
  (rl_handshake_completed rl = true \/ rl_aead rl <> None /\ content_type <> SSL3_RT_CHANGE_CIPHER_SPEC \/
   ~ memory_never_refused -> E (rl, w)) ->
  wp (tls13_record_layer_seal_record_plaintext alloc_ok content_type content (zlen content)) (rl, w) Q E.
Proof using.
  intros Hrec Hct Hv Hlen HQ HE. unfold tls13_record_layer_seal_record_plaintext. apply wp_bind, wp_look. cbn [id fst].
  apply wp_bind, wp_check; intros H1; [|apply HE; left; by apply negb_false_iff].
  apply wp_bind, wp_check; intros H2.
  2: { apply HE. right. left. apply negb_false_iff, andb_true_iff in H2 as [H2 H3].
       apply bool_decide_eq_true in H2. by apply negb_true_iff, Z.eqb_neq in H3. }
  apply wp_bind, wp_read_bytes; [lia|]. rewrite ztake_all by lia. pose proof (zlen_nonneg content).
  apply wp_bind. eapply wp_cbb_build with (out := record_wire content_type (rl_legacy_version rl) content); [max_lia| | | |].
  - cmds_tac.
  - apply build_plaintext; max_lia.
  - intros buf Hb Hle. apply wp_bind. eapply wp_set_wrec_data; [done..|rewrite zlen_record_wire; max_lia|].
    intros rec Hsend. apply wp_upd. apply (HQ rec); [by apply negb_true_iff|done].
  - intros Hno. apply HE. by right; right.
Qed.

(** Sealing under the protection [p] of the write direction. *)
Definition step_protection (p : tls13_record_protection K) (s : Z) : tls13_record_protection K :=
  p <| rp_nonce := record_nonce (rp_iv p) s |> <| rp_seq_num := be_bytes 8 (s + 1) |>.

Lemma step_keyed p k s : keyed p k s -> s < 2 ^ 64 - 1 -> keyed (step_protection p s) k (s + 1).
Proof using. intros (? & ? & ? & ? & ?) ?. split_and!; cbn; try done; [by rewrite length_record_nonce|lia..]. Qed.

(** The protection after a failure: only the nonce may differ. *)
Definition same_protection (p p' : tls13_record_protection K) : Prop :=
  exists nonce, length nonce = length (rp_nonce p) /\ p' = p <| rp_nonce := nonce |>.

Lemma same_keyed p p' k s : keyed p k s -> same_protection p p' -> keyed p' k s.
Proof using. intros (? & ? & Hn & ? & ?) (nonce & Hl & ->). split_and!; cbn; try done; [by rewrite Hl|lia..]. Qed.

Lemma same_protection_refl p : same_protection p p.
Proof using. exists (rp_nonce p). split; [done|by destruct p]. Qed.

Lemma wp_seal_protected content_type content rl w rec0 aead k s (Q : unit -> state -> Prop) (E : state -> Prop) :
  rl_wrec rl = Some rec0 -> rl_aead rl = Some aead -> keyed (rl_write rl) k s -> 0 <= content_type < 256 ->
  zlen content <= TLS13_RECORD_MAX_PLAINTEXT_LEN ->
  (forall rec enc, let wire := record_wire SSL3_RT_APPLICATION_DATA TLS1_2_VERSION enc in
     EVP_AEAD_CTX_seal ops k (record_nonce (rp_iv (rl_write rl)) s) (content ++ [content_type]) (protected_header (zlen enc)) = Some enc ->
     zlen enc = zlen content + 1 + EVP_AEAD_max_tag_len ops aead -> zlen enc <= TLS13_RECORD_MAX_CIPHERTEXT_LEN ->
     s < 2 ^ 64 - 1 -> rec_sending rec (zlen wire) wire ->
     Q tt (put_wrec rec content_type (zlen content) (rl <| rl_write := step_protection (rl_write rl) s |>), w)) ->
  (forall p, same_protection (rl_write rl) p ->
     ~ (memory_never_refused /\ Forall is_byte content /\ seals ops aead k (rp_iv (rl_write rl)) /\ s < 2 ^ 64 - 1 /\ EVP_AEAD_max_tag_len ops aead <= TLS13_RECORD_MAX_AEAD_OVERHEAD) ->
     E (rl <| rl_write := p |>, w)) ->
  wp (tls13_record_layer_seal_record_protected alloc_ok ops content_type content (zlen content)) (rl, w) Q E.
Proof using AeadLaws0.
  intros Hrec Haead Hk Hct Hlen HQ HE. pose proof Hk as (Hctx & Hiv & Hn & Hs & Hs64).
  pose proof (max_tag_len_law aead) as Htag. pose proof (zlen_nonneg content). set (tag := EVP_AEAD_max_tag_len ops aead) in *.
  assert (Erl : rl = rl <| rl_write := rl_write rl |>) by (by destruct rl).
  assert (HE0 : ~ (memory_never_refused /\ Forall is_byte content /\ seals ops aead k (rp_iv (rl_write rl)) /\ s < 2 ^ 64 - 1 /\ tag <= TLS13_RECORD_MAX_AEAD_OVERHEAD) -> E (rl, w)).
  { intros Hno. rewrite Erl. apply HE; [apply same_protection_refl|done]. }
  unfold tls13_record_layer_seal_record_protected. apply wp_bind, wp_look. cbn [id fst]. rewrite Haead.
  apply wp_bind, wp_read_bytes; [lia|]. rewrite ztake_all by lia.
  assert (Hzi : zlen (content ++ [content_type]) = zlen content + 1) by (rewrite zlen_app; done).
  apply wp_bind. eapply wp_cbb_build with (out := content ++ [content_type]); [max_lia|cmds_tac|
    apply build_inner; max_lia| |intros Hno; apply HE0; tauto].
  intros inner Hinner Hinner_len. rewrite Hzi in *.
  apply wp_bind, wp_check; intros H1; [|apply negb_false_iff, Z.ltb_lt in H1; max_lia].
  apply wp_bind, wp_check; intros H2; [apply negb_true_iff, Z.ltb_ge in H2|apply negb_false_iff, Z.ltb_lt in H2; apply HE0; max_lia].
  fold tag in H2 |- *. set (n := zlen content + 1 + tag) in *.
  apply wp_bind. eapply wp_cbb_build with (out := protected_header n); [max_lia|cmds_tac|
    apply build_header; max_lia| |intros Hno; apply HE0; tauto].
  intros header Hheader Hheader_len. rewrite zlen_protected_header in *. apply wp_bind, wp_read_bytes; [done|]. rewrite Hheader.
  assert (Hzd : zlen (protected_header n ++ zrep n 0) = 5 + n) by (rewrite zlen_app, zlen_protected_header, zlen_rep by lia; lia).
  apply wp_bind. eapply wp_cbb_build with (out := protected_header n ++ zrep n 0); [max_lia| |apply build_room; [apply zlen_protected_header|max_lia]| |
    intros Hno; apply HE0; tauto].
  { cmds_tac. }
  intros data Hdata Hdata_len. rewrite Hzd in *.
  rewrite Hs, update_nonce_be by done. set (nonce := record_nonce (rp_iv (rl_write rl)) s).
  assert (HE1 : ~ (memory_never_refused /\ Forall is_byte content /\ seals ops aead k (rp_iv (rl_write rl)) /\ s < 2 ^ 64 - 1 /\ tag <= TLS13_RECORD_MAX_AEAD_OVERHEAD) ->
    E (rl <| rl_write := (rl_write rl) <| rp_nonce := nonce |> |>, w)).
  { intros Hno. apply HE; [|done]. exists nonce. split; [unfold nonce; by rewrite length_record_nonce|done]. }
  apply wp_bind, wp_upd. apply wp_bind. eapply wp_valid; [exact Hctx|].
  apply wp_bind, wp_read_bytes; [done|]. rewrite Hinner.
  assert (Hsealed : Forall is_byte content -> seals ops aead k (rp_iv (rl_write rl)) ->
    exists enc, EVP_AEAD_CTX_seal ops k nonce (content ++ [content_type]) (protected_header n) = Some enc /\ zlen enc = zlen (content ++ [content_type]) + tag).
  { intros Hb Hse. apply Hse; [|rewrite Hzi; max_lia|apply is_byte_protected_header].
    apply Forall_app. split; [done|]. constructor; [exact Hct|constructor]. }
  destruct (EVP_AEAD_CTX_seal ops k nonce (content ++ [content_type]) (protected_header n)) as [enc|] eqn:Eseal.
  2: { apply HE1. intros (_ & Hb & Hseals & _). destruct (Hsealed Hb Hseals) as (enc & E' & _). congruence. }
  apply wp_bind, wp_check; intros H3; [apply Z.eqb_eq in H3|].
  2: { apply HE1. intros (_ & Hb & Hseals & _). destruct (Hsealed Hb Hseals) as (enc' & E' & Hl).
       apply Z.eqb_neq in H3. apply (inj Some) in E' as <-. rewrite Hzi in Hl. unfold n in H3. lia. }
  assert (Hz : exists tail, zwrite data 5 enc = Some (protected_header n ++ enc ++ tail)).
  { exists (zdrop (5 + n) data). rewrite <- (ztake_zdrop (5 + n) data), Hdata, <- app_assoc at 1.
    rewrite <- (zlen_protected_header n). apply zwrite_mid. by rewrite zlen_rep by lia. }
  destruct Hz as [tail Hz]. apply wp_bind. eapply wp_valid; [exact Hz|].
  rewrite inc_seq_num_be by done. destruct (Z.eqb_spec s (2 ^ 64 - 1)) as [E2|E2]; [apply HE1; lia|].
  apply wp_bind, wp_upd, wp_bind.
  replace (5 + n) with (zlen (record_wire SSL3_RT_APPLICATION_DATA TLS1_2_VERSION enc)) by (rewrite zlen_record_wire; lia).
  eapply wp_set_wrec_data; [exact Hrec| | | |].
  - rewrite protected_wire, H3, app_assoc. by apply ztake_app_exact.
  - rewrite protected_wire, H3, app_assoc, (zlen_app (_ ++ enc)). pose proof (zlen_nonneg tail). lia.
  - rewrite zlen_record_wire. max_lia.
  - intros rec Hsend. apply wp_upd. apply (HQ rec enc); [by rewrite H3|lia|lia|lia|done].
Qed.

(** What sealing leaves: a record with these octets to send. *)
Definition sealed_plain (content_type : Z) (content : list Z) (rl rl' : record_layer) : Prop :=
  (rl_aead rl = None \/ content_type = SSL3_RT_CHANGE_CIPHER_SPEC) /\ rl_handshake_completed rl = false /\
  exists rec, let wire := record_wire content_type (rl_legacy_version rl) content in
    rec_sending rec (zlen wire) wire /\ rl' = put_wrec rec content_type (zlen content) rl.

Definition sealed_protected (content_type : Z) (content : list Z) (k : K) (s : Z) (rl rl' : record_layer) : Prop :=
  exists rec enc, let wire := record_wire SSL3_RT_APPLICATION_DATA TLS1_2_VERSION enc in
    EVP_AEAD_CTX_seal ops k (record_nonce (rp_iv (rl_write rl)) s) (content ++ [content_type]) (protected_header (zlen enc)) = Some enc /\
    zlen enc <= TLS13_RECORD_MAX_CIPHERTEXT_LEN /\ s < 2 ^ 64 - 1 /\ rec_sending rec (zlen wire) wire /\
    rl' = put_wrec rec content_type (zlen content) (rl <| rl_write := step_protection (rl_write rl) s |>).

(** What a failure leaves. *)
Definition not_sealed (rl rl' : record_layer) : Prop :=
  rl' = rl \/
  exists p, same_protection (rl_write rl) p /\ rl' = rl <| rl_write := p |> <| rl_wrec := tls13_record_new alloc_ok |>.

Definition fits (content_type : Z) (content : list Z) : Prop :=
  0 <= content_type < 256 /\ zlen content <= TLS13_RECORD_MAX_PLAINTEXT_LEN.

(** Sealing under the present protection does not fail. *)
Definition can_seal (rl : record_layer) : Prop :=
  rl_aead rl = None /\ rl_handshake_completed rl = false \/
  exists aead k s, rl_aead rl = Some aead /\ keyed (rl_write rl) k s /\ seals ops aead k (rp_iv (rl_write rl)) /\ s < 2 ^ 64 - 1 /\
    EVP_AEAD_max_tag_len ops aead <= TLS13_RECORD_MAX_AEAD_OVERHEAD.

Lemma not_sealed_wrec rl : not_sealed rl (rl <| rl_wrec := tls13_record_new alloc_ok |>).
Proof using. right. exists (rl_write rl). split; [apply same_protection_refl|by destruct rl]. Qed.

Lemma wp_seal_record content_type content rl w (Q : unit -> state -> Prop) (E : state -> Prop) :
  fits content_type content -> 0 <= rl_legacy_version rl < 65536 ->
  (rl_aead rl = None \/ exists k s, keyed (rl_write rl) k s) ->
  (forall rl', sealed_plain content_type content rl rl' -> Q tt (rl', w)) ->
  (forall k s rl', keyed (rl_write rl) k s -> rl_aead rl <> None -> content_type <> SSL3_RT_CHANGE_CIPHER_SPEC ->
     sealed_protected content_type content k s rl rl' -> Q tt (rl', w)) ->
  (forall rl', not_sealed rl rl' ->
     ~ (memory_never_refused /\ Forall is_byte content /\ content_type <> SSL3_RT_CHANGE_CIPHER_SPEC /\ can_seal rl) -> E (rl', w)) ->
  wp (tls13_record_layer_seal_record alloc_ok ops content_type content (zlen content)) (rl, w) Q E.
Proof using AeadLaws0.
  intros [Hct Hlen] Hv Hk HP HS HE. unfold tls13_record_layer_seal_record. apply wp_bind, wp_look. cbn [id fst].
  apply wp_bind, wp_check; intros H1.
  2: { apply HE; [by left|]. apply negb_false_iff, andb_true_iff in H1 as [H0 H1]. apply bool_decide_eq_true in H1.
       intros (_ & _ & _ & [[_ Hc]|(aead & k & s & Ha & _)]); congruence. }
  apply wp_bind, wp_upd. apply wp_bind, wp_upd. apply wp_bind, wp_check; intros H2.
  2: { apply bool_decide_eq_false in H2. apply HE; [apply (not_sealed_wrec rl)|]. intros (Hm & _). apply H2.
       unfold tls13_record_new, tls_buffer_new. rewrite !Hm. unfold tls_buffer_resize. mstep. by rewrite Hm. }
  apply bool_decide_eq_true in H2. destruct (tls13_record_new alloc_ok) as [rec0|] eqn:Erec; [|done].
  set (rl1 := rl <| rl_wrec := None |> <| rl_wrec := Some rec0 |>).
  destruct (bool_decide (rl_aead rl = None) || (content_type =? SSL3_RT_CHANGE_CIPHER_SPEC)) eqn:Epath.
  - assert (Hpath : rl_aead rl = None \/ content_type = SSL3_RT_CHANGE_CIPHER_SPEC).
    { apply orb_true_iff in Epath as [Hp|Hp]; [left; by apply bool_decide_eq_true in Hp|right; by apply Z.eqb_eq]. }
    apply (wp_seal_plaintext content_type content rl1 w rec0); [done..| |].
    + intros rec wire Hc Hs. apply HP. split; [exact Hpath|]. split; [exact Hc|]. exists rec. split; [exact Hs|done].
    + intros Hwhy. apply HE; [unfold rl1; rewrite <- Erec; apply (not_sealed_wrec rl)|]. intros (Hmem & _ & Hne & [[Ha Hc]|(aead & k & s & Ha & _)]); [|destruct Hpath; congruence].
      destruct Hwhy as [Hc'|[[Ha' _]|Hno]]; [change (rl_handshake_completed rl = true) in Hc'; congruence|done|done].
  - apply orb_false_iff in Epath as [Ha Hne]. apply bool_decide_eq_false in Ha. apply Z.eqb_neq in Hne.
    destruct Hk as [?|(k & s & Hk)]; [done|]. destruct (rl_aead rl) as [aead|] eqn:Eaead; [|done].
    apply (wp_seal_protected content_type content rl1 w rec0 aead k s); [done|exact Eaead|exact Hk|done|done| |].
    + intros rec enc wire Hseal _ Hmax Hs Hsend. apply (HS k s); [exact Hk|done|done|]. by exists rec, enc.
    + intros p Hp Hno. apply HE; [right; exists p; by rewrite Erec|]. intros (Hm & Hb & _ & [[Ha' _]|(aead' & k' & s' & Ea' & Hk' & Hrest)]); [congruence|]. apply Hno.
      assert (aead' = aead) as -> by congruence.
      destruct Hk as (E1 & _ & _ & E2 & E3), Hk' as (E1' & _ & _ & E2' & E3').
      assert (k' = k) as -> by congruence. assert (s' = s) as ->; [|tauto].
      apply (be_bytes_inj 8); [done..|congruence].
Qed.

(** *** Every nonce is used once *)

(** Seal the contents one after the other, with whatever becomes of each record:
    the nonces under which the protected ones were sealed. *)
Fixpoint seal_all (ms : list (Z * list Z)) : M state (list (list Z)) :=
  match ms with
  | [] => mret []
  | (content_type, content) :: ms =>
      sealed ← try (tls13_record_layer_seal_record alloc_ok ops content_type content (zlen content));
      rl ← look id;
      nonces ← seal_all ms;
      mret (match sealed with
            | Some _ => if content_type =? SSL3_RT_CHANGE_CIPHER_SPEC then nonces else rp_nonce (rl_write rl) :: nonces
            | None => nonces
            end)
  end.

Lemma wp_seal_all ms : forall rl w aead k s,
  Forall (fun m => fits m.1 m.2) ms -> 0 <= rl_legacy_version rl < 65536 -> rl_aead rl = Some aead -> keyed (rl_write rl) k s ->
  wp (seal_all ms) (rl, w)
    (fun nonces st => exists s', keyed (rl_write st.1) k s' /\ s <= s' /\
       nonces = map (record_nonce (rp_iv (rl_write rl))) (seqZ s (s' - s)))
    (fun _ => False).
Proof using AeadLaws0.
  induction ms as [|[content_type content] ms IH]; intros rl w aead k s Hms Hv Ha Hk; cbn [seal_all].
  { apply wp_ret. exists s. split; [done|]. split; [lia|]. by rewrite Z.sub_diag. }
  apply Forall_cons in Hms as [Hm Hms]. cbn [fst snd] in Hm. apply wp_bind, wp_try, wp_seal_record; [done..|by right; exists k, s| | |].
  - intros rl' ([? | ->] & _ & rec & _ & ->); [congruence|]. apply wp_bind, wp_look. apply wp_bind.
    eapply wp_conseq; [by apply (IH _ _ aead k s)| |done]. cbn beta. intros nonces st Hst. by apply wp_ret.
  - intros k' s' rl' Hk' _ Hne (rec & enc & _ & _ & Hs & _ & ->).
    assert (k' = k /\ s' = s) as [-> ->].
    { destruct Hk as (E1 & _ & _ & E2 & E3), Hk' as (E1' & _ & _ & E2' & E3'). split; [congruence|]. apply (be_bytes_inj 8); [done..|congruence]. }
    apply wp_bind, wp_look. apply wp_bind.
    eapply wp_conseq; [apply (IH _ _ aead k (s + 1)); [done..|by apply step_keyed]| |done].
    cbn beta. intros nonces st (s' & Hk1 & Hle & ->). rewrite (proj2 (Z.eqb_neq _ _)) by done. apply wp_ret. exists s'.
    split; [done|]. split; [lia|]. rewrite (seqZ_cons s) by lia. cbn [map]. f_equal. f_equal. f_equal; lia.
  - intros rl' Hno _. apply wp_bind, wp_look. apply wp_bind. destruct Hno as [->|(p & Hp & ->)].
    { eapply wp_conseq; [by apply (IH _ _ aead k s)| |done]. cbn beta. intros nonces st Hst. by apply wp_ret. }
    assert (Eiv : rp_iv p = rp_iv (rl_write rl)) by (by destruct Hp as (nonce & _ & ->)).
    eapply wp_conseq; [apply (IH _ _ aead k s); [done..|by eapply same_keyed]| |done].
    cbn beta. intros nonces st (s' & Hk1 & Hle & ->). apply wp_ret. exists s'. split; [done|]. split; [done|].
    cbn. by rewrite Eiv.
Qed.
End sealing.

(** C17. No nonce is ever used twice under one key: whatever contents are sealed one
    after the other, in whatever order and whichever of them fail, the protected
    records use the nonces of RFC 8446, section 5.3, for consecutive sequence
    numbers, which are pairwise distinct; the last sequence number is never
    used, so the counter does not wrap. *)
Theorem record_nonces_never_repeat {A H K W} alloc_ok (ops : aead_ops A H K) `{!AeadLaws ops} ms rl (w : W) aead k s :
  Forall (fun m => fits m.1 m.2) ms -> 0 <= rl_legacy_version rl < 65536 -> rl_aead rl = Some aead -> keyed (rl_write rl) k s ->
  exists nonces st, seal_all alloc_ok ops ms (rl, w) = Ret nonces st /\
    nonces = map (record_nonce (rp_iv (rl_write rl))) (seqZ s (zlen nonces)) /\ NoDup nonces /\
    s + zlen nonces < 2 ^ 64 /\ keyed (rl_write st.1) k (s + zlen nonces).
Proof.
  intros Hms Hv Ha Hk.
  destruct (wp_total _ _ _ (wp_seal_all alloc_ok ops ms rl w aead k s Hms Hv Ha Hk)) as (nonces & st & E & s' & Hk' & Hle & En).
  pose proof Hk as (_ & Hiv & _ & _ & Hs). pose proof Hk' as (_ & _ & _ & _ & Hs').
  assert (Hl : zlen nonces = s' - s) by (rewrite En; unfold zlen; rewrite length_map, length_seqZ; lia).
  exists nonces, st. rewrite Hl. replace (s + (s' - s)) with s' by lia.
  split; [done|]. split; [done|]. split; [|split; [lia|done]]. rewrite En. apply NoDup_fmap_2_strong; [|apply NoDup_seqZ].
  intros x y Hx%elem_of_seqZ Hy%elem_of_seqZ. apply record_nonce_inj; lia.
Qed.

(** ** Opening *)

(** The content type of an inner plaintext is its last octet that is not 0. *)
Lemma wp_find_content_type {S} fuel : forall inner (s : S),
  window_ok inner -> cbs_len inner < Z.of_nat fuel ->
  wp (find_content_type fuel inner 0) s
    (fun '(t, inner') s' => s' = s /\ window_ok inner' /\ cbs_data inner' = cbs_data inner /\
       if t =? 0 then contents inner = zrep (cbs_len inner) 0
       else exists n, 0 <= n /\ contents inner = contents inner' ++ t :: zrep n 0 /\ cbs_len inner' + 1 + n = cbs_len inner)
    (fun _ => False).
Proof.
  induction fuel as [|fuel IH]; intros inner s Hw Hf; [unfold window_ok in Hw; lia|]. cbn [find_content_type].
  unfold CBS_get_last_u8. mstep. cbn [id]. unfold window_ok in Hw.
  destruct (Z.eqb_spec (cbs_len inner) 0) as [E|E]; cbn [negb].
  { unfold wp. split; [done|]. split; [done|]. split; [done|]. unfold contents. by rewrite E. }
  destruct (zget_Some (cbs_data inner) (cbs_len inner - 1)) as [t Ht]; [lia|]. rewrite Ht.
  set (inner1 := mkCBS (cbs_data inner) (cbs_initial_len inner) (cbs_len inner - 1)).
  assert (Ec : contents inner = contents inner1 ++ [t]).
  { unfold contents. cbn [inner1 cbs_len cbs_data]. rewrite <- (ztake_zdrop (cbs_len inner - 1) (ztake (cbs_len inner) (cbs_data inner))) at 1.
    rewrite ztake_ztake by lia. f_equal. rewrite zdrop_ztake by lia. rewrite (zdrop_cons_get _ _ _ Ht), ztake_cons by lia.
    replace (cbs_len inner - (cbs_len inner - 1) - 1) with 0 by lia. by rewrite ztake_0. }
  destruct (Z.eqb_spec t 0) as [->|Ht0]; cbn [negb].
  - eapply wp_conseq; [apply (IH inner1 s); [unfold window_ok; cbn; lia|cbn; lia]| |done]. cbn beta.
    intros [t' inner'] s' (-> & Hw' & Hd & Hr). split; [done|]. split; [done|]. split; [done|]. rewrite Ec. destruct (t' =? 0).
    + rewrite Hr. cbn [inner1 cbs_len]. unfold zrep. replace (Z.to_nat (cbs_len inner)) with (Z.to_nat (cbs_len inner - 1) + 1)%nat by lia.
      by rewrite replicate_add.
    + destruct Hr as (n & Hn & E1 & E2). exists (n + 1). split; [lia|]. cbn [inner1 cbs_len] in E2. split; [|lia].
      rewrite E1, <- app_assoc. f_equal. cbn [app]. f_equal. unfold zrep. replace (Z.to_nat (n + 1)) with (Z.to_nat n + 1)%nat by lia.
      by rewrite replicate_add.
  - apply wp_ret. split; [done|]. split; [unfold window_ok; cbn; lia|]. split; [done|]. rewrite (proj2 (Z.eqb_neq _ _)) by done.
    exists 0. split; [lia|]. split; [exact Ec|cbn; lia].
Qed.

(** Header and content of a record that has arrived. *)
Lemma arrived_parts ty ver payload rec :
  rec_arrived ty ver payload rec ->
  exists t, tls13_record_header rec = Some (CBS_init (record_wire ty ver payload ++ t) 5) /\
    tls13_record_content rec = Some (mkCBS (payload ++ t) (5 + zlen payload) (zlen payload)).
Proof.
  intros (_ & _ & Hl & t & Hd). exists t. pose proof (zlen_record_wire ty ver payload) as Hz. pose proof (zlen_nonneg payload). pose proof (zlen_nonneg t).
  unfold tls13_record_header, tls13_record_content, tls13_record_data. rewrite Hd, Hl, Hz. cbn [from_option id].
  unfold TLS13_RECORD_HEADER_LEN. rewrite (proj2 (Z.ltb_ge _ _)) by lia. split; [done|].
  destruct (skip_window 5 (CBS_init (record_wire ty ver payload ++ t) (5 + zlen payload))) as [-> _].
  { unfold window_ok. cbn [CBS_init cbs_len cbs_data]. rewrite zlen_app. lia. }
  { cbn [CBS_init cbs_len]. lia. }
  unfold cbs_advance, CBS_dup, CBS_init, CBS_data, CBS_len. cbn [cbs_data cbs_len cbs_initial_len].
  by replace (5 + zlen payload - 5) with (zlen payload) by lia.
Qed.

(** The record layer with a content to read. *)
Definition content_of (content_type : Z) (content : list Z) (c : tls_content) : Prop :=
  tc_type c = content_type /\ contents (tc_cbs c) = content /\ window_ok (tc_cbs c).

Section opening.
Context (alloc_ok : Z -> bool) {A H K W : Type} (Hm : forall n, alloc_ok n = true).
Context (ops : aead_ops A H K) `{!AeadLaws ops}.
Abbreviation record_layer := (tls13_record_layer A H K).
Abbreviation state := (tls13_record_layer A H K * W)%type.
Implicit Types (rl : record_layer) (w : W).

Lemma wp_on_rcontent {T} (m : M tls_content T) rl w (Q : T -> state -> Prop) E :
  wp m (rl_rcontent rl) (fun a c => Q a (rl <| rl_rcontent := c |>, w)) (fun c => E (rl <| rl_rcontent := c |>, w)) ->
  wp (on_rcontent m) (rl, w) Q E.
Proof using. unfold wp, on_rcontent. by destruct (m (rl_rcontent rl)). Qed.

Lemma wp_open_plaintext ver content_type content rl w rec (Q : unit -> state -> Prop) E :
  rl_aead rl = None -> rl_rrec rl = Some rec -> rec_arrived content_type ver content rec ->
  zlen content <= TLS13_RECORD_MAX_PLAINTEXT_LEN ->
  (forall c, content_of content_type content c -> Q tt (rl <| rl_rcontent := c |>, w)) ->
  wp (tls13_record_layer_open_record_plaintext alloc_ok) (rl, w) Q E.
Proof using Hm.
  intros Ha Hrec Harr Hmax HQ. unfold tls13_record_layer_open_record_plaintext. apply wp_bind, wp_look. cbn [id fst].
  rewrite Ha. apply wp_bind, wp_check; [intros _|by rewrite bool_decide_eq_true_2 by done].
  apply wp_bind. eapply wp_valid; [exact Hrec|]. destruct (arrived_parts _ _ _ _ Harr) as (t & _ & ->). unfold CBS_len, CBS_data. cbn [cbs_len cbs_data].
  rewrite (proj2 (Z.ltb_ge _ _)) by done. apply wp_on_rcontent. unfold tls_content_dup_data.
  apply wp_bind, wp_check; intros Hc; [|by rewrite Hm in Hc]. pose proof (zlen_nonneg content). pose proof (zlen_nonneg t).
  apply wp_bind, wp_read_bytes; [rewrite zlen_app; lia|]. rewrite ztake_app_exact by done.
  unfold tls_content_set_data. apply wp_bind, wp_modify, wp_modify. apply HQ.
  destruct Harr as (Hty & _). unfold tls13_record_content_type, content_of. rewrite Hty. cbn [tc_type tc_cbs].
  split; [done|]. split; [apply ztake_all; cbn; lia|]. unfold window_ok. cbn. lia.
Qed.

Lemma wp_open_protected content_type content enc rl w rec k s (Q : unit -> state -> Prop) E :
  rl_aead rl <> None -> rl_rrec rl = Some rec -> rec_arrived SSL3_RT_APPLICATION_DATA TLS1_2_VERSION enc rec ->
  keyed (rl_read rl) k s -> s < 2 ^ 64 - 1 -> content_type <> 0 -> is_byte content_type -> Forall is_byte content -> zlen content <= TLS13_RECORD_MAX_PLAINTEXT_LEN ->
  EVP_AEAD_CTX_seal ops k (record_nonce (rp_iv (rl_read rl)) s) (content ++ [content_type]) (protected_header (zlen enc)) = Some enc ->
  (forall c, content_of content_type content c -> Q tt (rl <| rl_read := step_protection (rl_read rl) s |> <| rl_rcontent := c |>, w)) ->
  wp (tls13_record_layer_open_record_protected alloc_ok ops) (rl, w) Q E.
Proof using Hm AeadLaws0.
  intros Ha Hrec Harr (Hctx & Hiv & Hn & Hs & Hs64) Hlast Hct Hbt Hbc Hmax Hseal HQ.
  unfold tls13_record_layer_open_record_protected. apply wp_bind, wp_look. cbn [id fst].
  apply wp_bind, wp_check; [intros _|by rewrite bool_decide_eq_true_2 by done].
  apply wp_bind. eapply wp_valid; [exact Hrec|]. destruct (arrived_parts _ _ _ _ Harr) as (t & -> & ->).
  apply wp_bind, wp_check; intros Hc; [|by rewrite Hm in Hc].
  rewrite Hs, update_nonce_be by done. apply wp_bind, wp_upd, wp_bind. eapply wp_valid; [exact Hctx|].
  unfold CBS_len, CBS_data. cbn [cbs_len cbs_data CBS_init]. pose proof (zlen_nonneg t). pose proof (zlen_nonneg enc).
  apply wp_bind, wp_read_bytes; [rewrite zlen_app; lia|]. rewrite ztake_app_exact by done.
  rewrite protected_wire. apply wp_bind, wp_read_bytes; [rewrite !zlen_app, zlen_protected_header; lia|].
  rewrite <- app_assoc, ztake_app_exact by apply zlen_protected_header.
  assert (Hinner : Forall is_byte (content ++ [content_type])) by (apply Forall_app; split; [done|by apply Forall_singleton]).
  rewrite (open_seal_law _ _ _ _ _ Hinner Hseal). pose proof (open_len_law _ _ _ _ _ (open_seal_law _ _ _ _ _ Hinner Hseal)) as Hlen.
  assert (Hz : zlen (content ++ [content_type]) = zlen content + 1) by (by rewrite zlen_app).
  cbv zeta. apply wp_bind, wp_must; [by apply Z.leb_le|]. pose proof (zlen_nonneg content).
  rewrite (proj2 (Z.ltb_ge _ _)) by max_lia. rewrite inc_seq_num_be by done. rewrite (proj2 (Z.eqb_neq _ _)) by lia.
  apply wp_bind, wp_upd, wp_bind.
  set (inner := CBS_init (content ++ [content_type]) (zlen (content ++ [content_type]))).
  assert (Hcont : contents inner = content ++ [content_type]) by (apply ztake_all; cbn; lia).
  eapply wp_conseq; [apply wp_find_content_type; [unfold window_ok; cbn; lia|unfold inner; cbn [CBS_init cbs_len]; unfold zlen; lia]| |done].
  cbn beta. intros [t' inner'] st (-> & Hw & Hd & Hr). rewrite Hcont in Hr.
  assert (Htl : t' = content_type /\ contents inner' = content).
  { destruct (Z.eqb_spec t' 0) as [->|Ht'].
    - exfalso. assert (Hin : content_type ∈ zrep (cbs_len inner) 0) by (rewrite <- Hr; apply elem_of_app; right; by apply list_elem_of_singleton).
      by apply elem_of_replicate in Hin as [-> _].
    - destruct Hr as (n & Hn0 & E1 & E2). destruct (Z.eq_dec n 0) as [->|Hne].
      + apply app_inj_tail in E1 as [-> ->]. done.
      + exfalso. unfold zrep in E1. replace (Z.to_nat n) with (Z.to_nat (n - 1) + 1)%nat in E1 by lia.
        rewrite replicate_add in E1. cbn [replicate] in E1. rewrite app_comm_cons, app_assoc in E1. by apply app_inj_tail in E1 as [_ ?]. }
  destruct Htl as [-> Hin]. rewrite (proj2 (Z.eqb_neq _ _)) by done.
  pose proof (zlen_window _ Hw) as Hzw. rewrite Hin in Hzw.
  rewrite (proj2 (Z.ltb_ge _ _)) by (unfold CBS_len; max_lia).
  apply wp_on_rcontent. unfold tls_content_set_data. apply wp_bind, wp_modify, wp_modify.
  apply (HQ (mkContent content_type 0 (CBS_data inner') (CBS_len inner') (CBS_init (CBS_data inner') (CBS_len inner')))).
  unfold content_of. cbn [tc_type tc_cbs]. by split.
Qed.
End opening.

(** ** Concrete runs *)

(** An AEAD with a checksum for its tag. *)
Definition checksum (k : Z) (nonce plain ad : list Z) : Z := fold_left Z.lxor (nonce ++ plain ++ ad) k.
Definition sum_seal (k : Z) (nonce plain ad : list Z) : option (list Z) := Some (plain ++ [checksum k nonce plain ad]).
Definition sum_open (k : Z) (nonce enc ad : list Z) : option (list Z) :=
  let plain := ztake (zlen enc - 1) enc in
  if bool_decide (sum_seal k nonce plain ad = Some enc) then Some plain else None.

Definition sum_aead : aead_ops unit unit Z :=
  mkAead unit unit Z (fun _ => 12) (fun _ => 1) (fun _ => 1) (fun _ key => zget key 0) sum_seal sum_open
    (fun _ secret label n => Some (zrep n (fold_left Z.lxor (secret ++ label) 0))).

#[global] Instance sum_aead_laws : AeadLaws sum_aead.
Proof.
  split.
  - by split.
  - change (forall k nonce plain ad enc, Forall is_byte plain -> sum_seal k nonce plain ad = Some enc -> sum_open k nonce enc ad = Some plain).
    intros k nonce plain ad enc _ E. unfold sum_open.
    assert (Ep : ztake (zlen enc - 1) enc = plain).
    { unfold sum_seal in E. apply (inj Some) in E as <-. apply ztake_app_exact. rewrite zlen_app, zlen_cons, zlen_nil. lia. }
    rewrite Ep. by rewrite bool_decide_eq_true_2.
  - change (forall k nonce enc ad plain, sum_open k nonce enc ad = Some plain -> zlen plain <= zlen enc).
    unfold sum_open. intros k nonce enc ad plain. case_bool_decide as E; [|done]. intros [= <-].
    apply (f_equal (fun o => zlen (default [] o))) in E. cbn [from_option sum_seal id] in E.
    rewrite zlen_app, zlen_cons, zlen_nil in E. lia.
Qed.

Lemma sum_seals k iv : seals sum_aead tt k iv.
Proof. intros s plain ad _ _ _. eexists. split; [reflexivity|]. by rewrite zlen_app. Qed.

Definition sum_protection (s : Z) : tls13_record_protection Z := mkProtection (Some 7) (zrep 12 5) (zrep 12 0) (be_bytes 8 s).

Lemma sum_keyed s : 0 <= s < 2 ^ 64 -> keyed (sum_protection s) 7 s.
Proof. intros Hs. split; [done|]. split; [vm_compute; lia|]. split; [done|]. by split. Qed.

(** A record layer whose handshake is complete, both ways under the same key. *)
Definition sum_layer (s : Z) : tls13_record_layer unit unit Z :=
  mkRecordLayer TLS1_2_VERSION false 0 false true false false false false false None None 0 0 0 0 None 0 0 0
    null_CBS None 0 (mkContent 0 0 [] 0 null_CBS) (Some tt) (Some tt) (sum_protection s) (sum_protection s).

(** Three contents at the end of the sequence numbers: the second and the
    third are refused. *)
Definition last_contents : list (Z * list Z) := [(SSL3_RT_HANDSHAKE, [1; 2]); (SSL3_RT_APPLICATION_DATA, [3]); (SSL3_RT_HANDSHAKE, [4])].

Lemma record_nonces_never_repeat_witness :
  (exists st, seal_all (fun _ => true) sum_aead last_contents (sum_layer (2 ^ 64 - 2), tt) =
    Ret [[5; 5; 5; 5; 250; 250; 250; 250; 250; 250; 250; 251]] st) /\
  exists nonces st, seal_all (fun _ => true) sum_aead last_contents (sum_layer (2 ^ 64 - 2), tt) = Ret nonces st /\
    nonces = map (record_nonce (zrep 12 5)) (seqZ (2 ^ 64 - 2) (zlen nonces)) /\ NoDup nonces /\
    2 ^ 64 - 2 + zlen nonces < 2 ^ 64 /\ keyed (rl_write st.1) 7 (2 ^ 64 - 2 + zlen nonces).
Proof.
  split; [eexists; by vm_compute|].
  apply (record_nonces_never_repeat (fun _ => true) sum_aead last_contents (sum_layer (2 ^ 64 - 2)) tt tt 7 (2 ^ 64 - 2)).
  - repeat (apply Forall_cons; split; [split; [by split; vm_compute|by vm_compute]|]). constructor.
  - by split; vm_compute.
  - reflexivity.
  - apply sum_keyed. lia.
Defined.
