(* ===== verification/Tls13Channel.v ===== *)
(** * Two TLS 1.3 record layers over a wire

    What one record layer of Tls13RecordLayer.v accepts to write, its peer
    reads: the records go over any [Writer] and come back from any [Reader], in
    plaintext or under a common key.  [epoch] is the state the two ends share. *)

From stdpp Require Import gmap.
From S2P Require Import Prelude Cbs Cbb Builder TlsBuffer Tls13Msg Tls13Record Tls13RecordLayer Tls13Seal.
Open Scope Z_scope.

(** The field [f] of an updated record layer is [v]. *)
Ltac field_is f v := match goal with |- context [f ?r] => progress change (f r) with v end.

(** What protects the next record: nothing but its version, or a key, an IV and a
    sequence number. *)
Inductive epoch {K : Type} : Type :=
  | Plain (version : Z)
  | Protected (k : K) (iv : list Z) (s : Z).
Arguments epoch K : clear implicits.

Definition next_epoch {K} (e : epoch K) : epoch K :=
  match e with Plain v => Plain v | Protected k iv s => Protected k iv (s + 1) end.

(** The sequence number can be used [n] times more. *)
Definition epoch_lasts {K} (e : epoch K) (n : Z) : Prop :=
  match e with Plain _ => True | Protected _ _ s => s + n < 2 ^ 64 end.

(** A content the peer reads as such: handshake messages, and application data
    once the handshake is complete. *)
Definition deliverable (completed : bool) (m : Z * list Z) : Prop :=
  fits m.1 m.2 /\ Forall is_byte m.2 /\ m.2 <> [] /\
  (m.1 = SSL3_RT_HANDSHAKE \/ m.1 = SSL3_RT_APPLICATION_DATA /\ completed = true).

Section channel.
Context (alloc_ok : Z -> bool) {A H K : Type} (Hm : forall n, alloc_ok n = true).
Context (ops : aead_ops A H K) `{!AeadLaws ops}.
Abbreviation record_layer := (tls13_record_layer A H K).
Implicit Types (rl : record_layer) (e : epoch K).

(** The record of a content in an epoch. *)
Definition wire_of (e : epoch K) (m : Z * list Z) (wire : list Z) : Prop :=
  match e with
  | Plain v => wire = record_wire m.1 v m.2
  | Protected k iv s => exists enc,
      EVP_AEAD_CTX_seal ops k (record_nonce iv s) (m.2 ++ [m.1]) (protected_header (zlen enc)) = Some enc /\
      zlen enc <= TLS13_RECORD_MAX_CIPHERTEXT_LEN /\ wire = record_wire SSL3_RT_APPLICATION_DATA TLS1_2_VERSION enc
  end.

Lemma wire_of_nonempty e m wire : wire_of e m wire -> wire <> [].
Proof using. destruct e as [v|k iv s]; [by intros ->|by intros (enc & _ & _ & ->)]. Qed.

Fixpoint epoch_after (e : epoch K) (n : nat) : epoch K :=
  match n with O => e | S n => epoch_after (next_epoch e) n end.

(** The octets of a sequence of contents. *)
Inductive wires_of : epoch K -> list (Z * list Z) -> list Z -> Prop :=
  | wires_nil e : wires_of e [] []
  | wires_cons e m ms wire sent :
      wire_of e m wire -> wires_of (next_epoch e) ms sent -> wires_of e (m :: ms) (wire ++ sent).

Lemma epoch_lasts_next e n : epoch_lasts e (1 + n) -> epoch_lasts (next_epoch e) n.
Proof using. destruct e; cbn; [done|lia]. Qed.

Lemma epoch_lasts_le e n n' : n' <= n -> epoch_lasts e n -> epoch_lasts e n'.
Proof using. destruct e; cbn; [done|lia]. Qed.

(** ** The sender *)

Section sender.
Context {W : Type} (cb : tls13_record_layer_callbacks A H K W) `{!Writer (wire_write cb)} (retries : nat).
Abbreviation state := (record_layer * W)%type.
Implicit Types (w : W).

(** The write direction is open and no record is half written. *)
Definition write_idle rl : Prop :=
  rl_write_closed rl = false /\ rl_wrec rl = None /\ rl_wrec_appdata_len rl = 0.

Definition sender_idle rl : Prop :=
  rl_write_closed rl = false /\ rl_wrec rl = None /\ rl_wrec_appdata_len rl = 0 /\
  rl_alert_data rl = None /\ rl_phh_data rl = None.

Definition writes_in rl e : Prop :=
  match e with
  | Plain v => rl_aead rl = None /\ rl_handshake_completed rl = false /\ rl_legacy_version rl = v /\ 0x300 <= v < 0x400
  | Protected k iv s => exists aead, rl_aead rl = Some aead /\ keyed (rl_write rl) k s /\ rp_iv (rl_write rl) = iv /\
      0 <= rl_legacy_version rl < 65536 /\ seals ops aead k iv /\ EVP_AEAD_max_tag_len ops aead <= TLS13_RECORD_MAX_AEAD_OVERHEAD
  end.

(** The state of the write direction replaced. *)
Definition put_write (p : tls13_record_protection K) (rec : option tls13_record) (len ty : Z) rl : record_layer :=
  rl <| rl_write := p |> <| rl_wrec := rec |> <| rl_wrec_content_len := len |> <| rl_wrec_content_type := ty |>.

Definition next_write (p : tls13_record_protection K) e : tls13_record_protection K :=
  match e with Plain _ => p | Protected _ _ s => step_protection p s end.

Lemma put_write_next rl e len ty :
  sender_idle rl -> writes_in rl e -> epoch_lasts e 1 ->
  sender_idle (put_write (next_write (rl_write rl) e) None len ty rl) /\
  writes_in (put_write (next_write (rl_write rl) e) None len ty rl) (next_epoch e).
Proof using.
  intros (? & ? & ? & ? & ?) Hw Hl. split; [by split_and!|].
  destruct e as [v|k iv s]; [done|]. destruct Hw as (aead & ? & ? & ? & ?). exists aead.
  split; [done|]. split; [apply step_keyed; [done|cbn in Hl; lia]|]. by split.
Qed.

(** After a call with [rest] to write: what was written of it, and whether some is left. *)
Definition pushed (p : tls13_record_protection K) rl w (m : Z * list Z) (rest : list Z) (ret : Z) (st : state) : Prop :=
  exists sent left, rest = sent ++ left /\ outgoing st.2 = outgoing w ++ sent /\
    (left = [] /\ ret = zlen m.2 /\ (wstalls st.2 <= wstalls w)%nat /\ (exists len ty, st.1 = put_write p None len ty rl) \/
     left <> [] /\ ret = TLS_IO_WANT_POLLOUT /\ (wstalls st.2 < wstalls w)%nat /\
     exists rec wl, rec_sending rec wl left /\ 0 < wl /\ st.1 = put_write p (Some rec) (zlen m.2) m.1 rl).

Lemma sender_write_idle rl : sender_idle rl -> write_idle rl.
Proof using. by intros (? & ? & ? & _). Qed.

Lemma wp_push_wrec rl w rec len rest :
  rl_wrec rl = Some rec -> rec_sending rec len rest ->
  wp (push_wrec cb) (rl, w)
    (fun ret st => exists rec', st.1 = rl <| rl_wrec := Some rec' |> /\ rec_progress _ len rest w ret (rec', st.2)) (fun _ => False).
Proof using Type*.
  intros Hrec Hs. pose proof (wp_record_send (wire_write cb) rec w len rest Hs) as Hw. revert Hw.
  unfold wp, push_wrec, on_wrec. rewrite Hrec. destruct (tls13_record_send (wire_write cb) (rec, w)) as [ret [rec' w']| |]; [|done..].
  intros Hp. by exists rec'.
Qed.

(** Going on with a record of which some was written. *)
Lemma wp_write_more p rl w m rec wl rest :
  write_idle rl -> m.2 <> [] -> rec_sending rec wl rest -> 0 < wl ->
  wp (tls13_record_layer_write_record alloc_ok ops cb m.1 m.2 (zlen m.2)) (put_write p (Some rec) (zlen m.2) m.1 rl, w)
    (pushed p rl w m rest) (fun _ => False).
Proof using Type*.
  intros (Hc & _ & Happ) Hne Hs Hwl. unfold tls13_record_layer_write_record. apply wp_bind, wp_look. cbn [id fst].
  change (rl_write_closed (put_write _ _ _ _ rl)) with (rl_write_closed rl). rewrite Hc.
  change (rl_wrec_appdata_len (put_write _ _ _ _ rl)) with (rl_wrec_appdata_len rl). rewrite Happ, Z.eqb_refl, andb_false_r. cbn [negb].
  change (rl_wrec (put_write p (Some rec) (zlen m.2) m.1 rl)) with (Some rec). cbv iota.
  apply wp_bind. eapply wp_conseq; [eapply wp_push_wrec; [reflexivity|exact Hs]|cbn beta|done].
  intros ret [rl' w']. cbn [fst snd]. intros (rec' & -> & sent & left & -> & Hsend & Ho & Hst). cbn [fst snd] in *.
  destruct Hst as [(-> & -> & Hw)|(Hl & -> & Hw)].
  - rewrite (proj2 (Z.leb_gt _ 0)) by done. apply wp_bind, wp_upd, wp_bind, wp_look. cbn [id fst].
    change (rl_wrec_content_type _ =? m.1) with (m.1 =? m.1). rewrite Z.eqb_refl.
    apply wp_bind, wp_upd, wp_ret. exists sent, []. split; [done|]. split; [done|]. left.
    split; [done|]. split; [done|]. split; [done|]. by exists 0, 0.
  - change (TLS_IO_WANT_POLLOUT <=? 0) with true. cbv iota. apply wp_ret. exists sent, left. split; [done|]. split; [done|]. right.
    split; [done|]. split; [done|]. split; [done|]. by exists rec', wl.
Qed.

Lemma keyed_unique (p : tls13_record_protection K) k s k' s' : keyed p k s -> keyed p k' s' -> k' = k /\ s' = s.
Proof using.
  intros (E1 & _ & _ & E2 & E3) (E1' & _ & _ & E2' & E3'). split; [congruence|]. apply (be_bytes_inj 8); [done..|congruence].
Qed.

(** Sealing in an epoch. *)
Lemma wp_seal_epoch rl w m e (Q : unit -> state -> Prop) E :
  writes_in rl e -> epoch_lasts e 1 -> fits m.1 m.2 -> Forall is_byte m.2 -> m.1 <> SSL3_RT_CHANGE_CIPHER_SPEC ->
  (forall rec wire, wire_of e m wire -> rec_sending rec (zlen wire) wire ->
     Q tt (put_write (next_write (rl_write rl) e) (Some rec) (zlen m.2) m.1 rl, w)) ->
  wp (tls13_record_layer_seal_record alloc_ok ops m.1 m.2 (zlen m.2)) (rl, w) Q E.
Proof using Type*.
  intros Hw He Hf Hbytes Hccs HQ. apply wp_seal_record; [done|done| | | | |].
  - destruct e; [destruct Hw as (_ & _ & -> & ?); lia|by destruct Hw as (? & _ & _ & _ & ? & _)].
  - destruct e as [v|k iv s]; [left; by destruct Hw|right; exists k, s; by destruct Hw as (? & _ & ? & _)].
  - intros rl' ([Ha|?] & _ & rec & Hs & ->); [|done]. destruct e as [v|k iv s].
    + destruct Hw as (_ & _ & <- & _). apply (HQ rec _ eq_refl Hs).
    + destruct Hw as (aead & ? & _). congruence.
  - intros k' s' rl' Hk' Ha _ (rec & enc & Hseal & Hmax & _ & Hs & ->). destruct e as [v|k iv s].
    + by destruct Hw as [? _].
    + destruct Hw as (aead & _ & Hk & <- & _). destruct (keyed_unique _ _ _ _ _ Hk Hk') as [-> ->].
      apply (HQ rec (record_wire SSL3_RT_APPLICATION_DATA TLS1_2_VERSION enc)); [by exists enc|done].
  - intros rl' _ Hno. exfalso. apply Hno. split; [done|]. split; [done|]. split; [done|]. destruct e as [v|k iv s]; [left|right].
    + by destruct Hw as (? & ? & _).
    + destruct Hw as (aead & Ha & Hk & <- & _ & ? & ?). exists aead, k, s. cbn in He. by repeat (split; [done || lia|]).
Qed.
(** A write that starts with nothing pending. *)
Lemma wp_write_first rl w m e :
  write_idle rl -> writes_in rl e -> epoch_lasts e 1 -> fits m.1 m.2 -> Forall is_byte m.2 -> m.1 <> SSL3_RT_CHANGE_CIPHER_SPEC -> m.2 <> [] ->
  wp (tls13_record_layer_write_record alloc_ok ops cb m.1 m.2 (zlen m.2)) (rl, w)
    (fun ret st => exists wire, wire_of e m wire /\ pushed (next_write (rl_write rl) e) rl w m wire ret st) (fun _ => False).
Proof using Type*.
  intros (Hc & Hwrec & Happ) Hw He Hf Hbytes Hccs Hne. unfold tls13_record_layer_write_record. apply wp_bind, wp_look. cbn [id fst].
  rewrite Hc, Happ, Z.eqb_refl, andb_false_r, Hwrec. cbn [negb]. unfold seal_and_push.
  rewrite (proj2 (Z.ltb_ge _ _)) by apply Hf. apply wp_bind, wp_try. eapply wp_seal_epoch; [done..|].
  intros rec wire Hwire Hs. pose proof (wire_of_nonempty _ _ _ Hwire) as Hwne.
  assert (Hwl : 0 < zlen wire).
  { pose proof (zlen_nonneg wire). assert (zlen wire <> 0) by (by intros ?%zlen_nil_inv). lia. }
  apply wp_bind. eapply wp_conseq; [eapply wp_push_wrec; [reflexivity|exact Hs]|cbn beta|done].
  intros ret [rl' w']. cbn [fst snd]. intros (rec' & -> & sent & left & E & Hsend & Ho & Hst). cbn [fst snd] in *.
  destruct Hst as [(-> & -> & Hw')|(Hl & -> & Hw')].
  - rewrite (proj2 (Z.leb_gt _ 0)) by done. apply wp_bind, wp_upd, wp_ret. exists wire. split; [done|]. exists sent, [].
    split; [done|]. split; [done|]. left. split; [done|]. split; [done|]. split; [done|]. by exists (zlen m.2), m.1.
  - change (TLS_IO_WANT_POLLOUT <=? 0) with true. cbv iota. apply wp_ret. exists wire. split; [done|].
    exists sent, left. split; [done|]. split; [done|]. right. split; [done|]. split; [done|]. split; [done|]. by exists rec', (zlen wire).
Qed.

(** Nothing is pending. *)
Lemma wp_nothing_pending rl w (Q : Z -> state -> Prop) E :
  rl_alert_data rl = None -> rl_phh_data rl = None -> Q TLS_IO_SUCCESS (rl, w) ->
  wp (tls13_record_layer_send_pending alloc_ok ops cb) (rl, w) Q E.
Proof using.
  intros Ha Hp HQ. unfold tls13_record_layer_send_pending. apply wp_bind, wp_look. cbn [id fst]. by rewrite Ha, Hp.
Qed.

Lemma wp_while_retry_once {S T} (retry : T -> bool) (n : nat) (m : M S T) s (Q : T -> S -> Prop) E :
  (0 < n)%nat -> wp m s (fun a s' => retry a = false /\ Q a s') E -> wp (while_retry retry n m) s Q E.
Proof using.
  intros Hn Hw. destruct n as [|n]; [lia|]. cbn [while_retry]. apply wp_bind. eapply wp_conseq; [exact Hw| |done].
  cbn beta. intros a s' [-> HQ]. by apply wp_ret.
Qed.

(** A call of the interface, first or not. *)
Lemma wp_write_call rl1 w m (Q : Z -> state -> Prop) :
  (0 < retries)%nat -> rl_alert_data rl1 = None -> rl_phh_data rl1 = None -> fits m.1 m.2 ->
  wp (tls13_record_layer_write_record alloc_ok ops cb m.1 m.2 (zlen m.2)) (rl1, w)
    (fun ret st => ret <> TLS_IO_WANT_RETRY /\ Q ret st) (fun _ => False) ->
  wp (tls13_record_layer_write alloc_ok ops cb retries m.1 m.2 (zlen m.2)) (rl1, w) Q (fun _ => False).
Proof using.
  intros Hr Ha Hp Hf Hw. unfold tls13_record_layer_write. apply wp_bind, wp_while_retry_once; [done|].
  apply wp_nothing_pending; [done..|]. split; [done|]. rewrite Z.eqb_refl. cbn [negb].
  apply wp_while_retry_once; [done|]. unfold tls13_record_layer_write_chunk. rewrite (proj2 (Z.ltb_ge _ _)) by apply Hf.
  eapply wp_conseq; [exact Hw| |done]. cbn beta. intros ret st [Hret HQ]. split; [by apply Z.eqb_neq|done].
Qed.

(** The caller that calls again with the same content when it was told to wait for
    output. *)
Fixpoint write_retry (n : nat) (m : Z * list Z) : M state Z :=
  ret ← tls13_record_layer_write alloc_ok ops cb retries m.1 m.2 (zlen m.2);
  match n with
  | O => mret ret
  | S n => if ret =? TLS_IO_WANT_POLLOUT then write_retry n m else mret ret
  end.

(** The whole of [rest] is written, whether the record was started or not. *)
Definition all_written (p : tls13_record_protection K) rl (w : W) (m : Z * list Z) rest (ret : Z) (st : state) : Prop :=
  ret = zlen m.2 /\ outgoing st.2 = outgoing w ++ rest /\ (wstalls st.2 <= wstalls w)%nat /\
  exists len ty, st.1 = put_write p None len ty rl.

Lemma wp_write_retry n : forall rl1 w m rl p (Rest : list Z -> Prop),
  (0 < retries)%nat -> sender_idle rl -> fits m.1 m.2 -> m.2 <> [] -> (wstalls w <= n)%nat ->
  rl_alert_data rl1 = None -> rl_phh_data rl1 = None ->
  wp (tls13_record_layer_write_record alloc_ok ops cb m.1 m.2 (zlen m.2)) (rl1, w)
    (fun ret st => exists rest, Rest rest /\ pushed p rl w m rest ret st) (fun _ => False) ->
  wp (write_retry n m) (rl1, w) (fun ret st => exists rest, Rest rest /\ all_written p rl w m rest ret st) (fun _ => False).
Proof using Type*.
  induction n as [|n IH]; intros rl1 w m rl p Rest Hr Hidle Hf Hne Hn Ha Hp Hw; cbn [write_retry]; apply wp_bind;
    apply wp_write_call; try done; eapply wp_conseq; [exact Hw|cbn beta|done|exact Hw|cbn beta|done];
    intros ret [rl' w'] (rest & HR & sent & left & -> & Ho & Hst); cbn [fst snd] in *; pose proof (zlen_nonneg m.2);
    destruct Hst as [(-> & -> & Hs & len & ty & ->)|(Hl & -> & Hs & rec & wl & Hsend & Hwl & ->)].
  - split; [unfold TLS_IO_WANT_RETRY; lia|]. apply wp_ret. exists (sent ++ []). split; [done|]. rewrite app_nil_r.
    split; [done|]. split; [done|]. split; [done|]. by exists len, ty.
  - lia.
  - split; [unfold TLS_IO_WANT_RETRY; lia|]. rewrite (proj2 (Z.eqb_neq _ _)) by (unfold TLS_IO_WANT_POLLOUT; lia).
    apply wp_ret. exists (sent ++ []). split; [done|]. rewrite app_nil_r. split; [done|]. split; [done|]. split; [done|]. by exists len, ty.
  - split; [done|]. rewrite Z.eqb_refl.
    eapply wp_conseq; [apply (IH _ w' m rl p (fun rest => rest = left))|cbn beta|done]; try done.
    + lia.
    + by destruct Hidle as (_ & _ & _ & ? & _).
    + by destruct Hidle as (_ & _ & _ & _ & ?).
    + eapply wp_conseq; [eapply wp_write_more; [by apply sender_write_idle|done|exact Hsend|done]|cbn beta|done]. intros ret st Hpushed. by exists left.
    + intros ret st (_ & -> & Hret & Ho' & Hs' & Hfin). exists (sent ++ left). split; [done|]. split; [done|].
      split; [by rewrite Ho', Ho, app_assoc|]. split; [lia|done].
Qed.

Lemma wp_write_message n rl w m e completed :
  (0 < retries)%nat -> sender_idle rl -> writes_in rl e -> epoch_lasts e 1 -> deliverable completed m -> (wstalls w <= n)%nat ->
  wp (write_retry n m) (rl, w)
    (fun ret st => ret = zlen m.2 /\ (wstalls st.2 <= wstalls w)%nat /\ sender_idle st.1 /\ writes_in st.1 (next_epoch e) /\
       exists wire, wire_of e m wire /\ outgoing st.2 = outgoing w ++ wire)
    (fun _ => False).
Proof using Type*.
  intros Hr Hidle Hw He (Hf & Hbytes & Hne & Hty) Hn.
  assert (m.1 <> SSL3_RT_CHANGE_CIPHER_SPEC) by (destruct Hty as [->|[-> _]]; done).
  eapply wp_conseq; [apply (wp_write_retry n rl w m rl (next_write (rl_write rl) e) (wire_of e m)); try done|cbn beta|done].
  - by destruct Hidle as (_ & _ & _ & ? & _).
  - by destruct Hidle as (_ & _ & _ & _ & ?).
  - apply wp_write_first; [by apply sender_write_idle|done..].
  - intros ret st (wire & Hwire & -> & Ho & Hs & len & ty & ->). split; [done|]. split; [done|].
    destruct (put_write_next rl e len ty Hidle Hw He) as [? ?]. split; [done|]. split; [done|]. by exists wire.
Qed.

(** Write the contents one after the other. *)
Fixpoint write_all (n : nat) (ms : list (Z * list Z)) : M state (list Z) :=
  match ms with
  | [] => mret []
  | m :: ms => ret ← write_retry n m; rets ← write_all n ms; mret (ret :: rets)
  end.

Lemma wp_write_all n completed ms : forall rl w e,
  (0 < retries)%nat -> sender_idle rl -> writes_in rl e -> epoch_lasts e (zlen ms) -> Forall (deliverable completed) ms -> (wstalls w <= n)%nat ->
  wp (write_all n ms) (rl, w)
    (fun rets st => rets = map (fun m => zlen m.2) ms /\ sender_idle st.1 /\ writes_in st.1 (epoch_after e (length ms)) /\
       exists sent, wires_of e ms sent /\ outgoing st.2 = outgoing w ++ sent)
    (fun _ => False).
Proof using Type*.
  induction ms as [|m ms IH]; intros rl w e Hr Hs Hw He Hms Hn; cbn [write_all].
  { apply wp_ret. split; [done|]. split; [done|]. split; [done|]. exists []. split; [constructor|]. by rewrite app_nil_r. }
  apply Forall_cons in Hms as [Hm1 Hms]. rewrite zlen_cons in He. pose proof (zlen_nonneg ms).
  apply wp_bind. eapply wp_conseq; [eapply (wp_write_message n rl w m e completed); try done|cbn beta|done].
  { eapply epoch_lasts_le; [|exact He]. lia. }
  intros ret [rl' w'] (-> & Hst & Hs' & Hw' & wire & Hwire & Ho). cbn [fst snd] in *. apply wp_bind.
  eapply wp_conseq; [apply (IH rl' w' (next_epoch e)); try done; [by apply epoch_lasts_next|lia]|cbn beta|done].
  intros rets st (-> & Hs2 & Hw2 & sent & Hsent & Ho2). apply wp_ret. split; [done|]. split; [done|]. split; [done|].
  exists (wire ++ sent). split; [by constructor|]. by rewrite Ho2, Ho, app_assoc.
Qed.
End sender.

(** ** The receiver *)

Section receiver.
Context {W : Type} (cb : tls13_record_layer_callbacks A H K W) `{!Reader (wire_read cb)} (retries : nat).
Abbreviation state := (record_layer * W)%type.
Implicit Types (w : W).

Definition receiver_idle rl : Prop :=
  rl_read_closed rl = false /\ rl_rrec rl = None /\ rl_alert_data rl = None /\ rl_phh_data rl = None /\
  rl_phh rl = false /\ rl_alert rl = 0 /\ tls_content_remaining (rl_rcontent rl) = 0.

Definition reads_in rl e : Prop :=
  match e with
  | Plain v => rl_aead rl = None /\ rl_handshake_completed rl = false /\ 0x300 <= v < 0x400 /\
      (rl_legacy_version rl = TLS1_2_VERSION -> v = TLS1_2_VERSION)
  | Protected k iv s => rl_aead rl <> None /\ keyed (rl_read rl) k s /\ rp_iv (rl_read rl) = iv
  end.

(** The state of the read direction replaced. *)
Definition put_read (p : tls13_record_protection K) (rec : option tls13_record) (c : tls_content) rl : record_layer :=
  rl <| rl_read := p |> <| rl_rrec := rec |> <| rl_rcontent := c |>.

Definition next_read (p : tls13_record_protection K) e : tls13_record_protection K :=
  match e with Plain _ => p | Protected _ _ s => step_protection p s end.

Lemma put_read_next rl e c :
  receiver_idle rl -> reads_in rl e -> epoch_lasts e 1 -> tls_content_remaining c = 0 ->
  receiver_idle (put_read (next_read (rl_read rl) e) None c rl) /\
  reads_in (put_read (next_read (rl_read rl) e) None c rl) (next_epoch e).
Proof using.
  intros (? & ? & ? & ? & ? & ? & ?) Hr Hl Hc. split; [by split_and!|].
  destruct e as [v|k iv s]; [done|]. destruct Hr as (? & ? & ?). split; [done|].
  split; [apply step_keyed; [done|cbn in Hl; lia]|]. done.
Qed.

(** What a record looks like from outside. *)
Lemma wire_of_record e m wire rl :
  wire_of e m wire -> reads_in rl e -> deliverable (rl_handshake_completed rl) m ->
  exists ty ver payload, wire = record_wire ty ver payload /\ is_byte ty /\ ty <> 0 /\ ty <> SSL3_RT_CHANGE_CIPHER_SPEC /\
    0x300 <= ver < 0x400 /\ zlen payload <= TLS13_RECORD_MAX_CIPHERTEXT_LEN /\
    (rl_legacy_version rl = TLS1_2_VERSION -> ver = TLS1_2_VERSION) /\ (rl_aead rl <> None -> ty = SSL3_RT_APPLICATION_DATA) /\
    match e with
    | Plain v => ty = m.1 /\ ver = v /\ payload = m.2
    | Protected k iv s => ty = SSL3_RT_APPLICATION_DATA /\ ver = TLS1_2_VERSION /\
        EVP_AEAD_CTX_seal ops k (record_nonce iv s) (m.2 ++ [m.1]) (protected_header (zlen payload)) = Some payload
    end.
Proof using.
  intros Hw Hr ((Hb & Hlen) & _ & _ & Hty). destruct e as [v|k iv s].
  - destruct Hr as (Ha & Hc & Hv & Hl). exists m.1, v, m.2. destruct Hty as [E|[_ ?]]; [|congruence].
    cbn in Hw. rewrite E in *. unfold SSL3_RT_HANDSHAKE, is_byte in *. split_and!; try done; solve [max_lia | intros; congruence].
  - destruct Hw as (enc & Hseal & Hmax & ->). exists SSL3_RT_APPLICATION_DATA, TLS1_2_VERSION, enc. by split_and!.
Qed.

(** The record has arrived: it is opened and its content is there. *)
Lemma wp_read_arrived rl w rec e m ty ver payload :
  reads_in rl e -> epoch_lasts e 1 -> deliverable (rl_handshake_completed rl) m ->
  ty <> SSL3_RT_CHANGE_CIPHER_SPEC -> (rl_legacy_version rl = TLS1_2_VERSION -> ver = TLS1_2_VERSION) ->
  (rl_aead rl <> None -> ty = SSL3_RT_APPLICATION_DATA) ->
  match e with
  | Plain v => ty = m.1 /\ ver = v /\ payload = m.2
  | Protected k iv s => ty = SSL3_RT_APPLICATION_DATA /\ ver = TLS1_2_VERSION /\
      EVP_AEAD_CTX_seal ops k (record_nonce iv s) (m.2 ++ [m.1]) (protected_header (zlen payload)) = Some payload
  end ->
  rl_rrec rl = Some rec -> rec_arrived ty ver payload rec ->
  wp (read_received alloc_ok ops cb) (rl, w)
    (fun ret st => ret = TLS_IO_SUCCESS /\ exists c, content_of m.1 m.2 c /\ st = (put_read (next_read (rl_read rl) e) None c rl, w))
    (fun _ => False).
Proof using Hm AeadLaws0.
  intros Hr He ((Hb & Hlen) & Hbytes & Hne & Hdel) Hccs Hver Haead Hmode Hrec Harr.
  pose proof Harr as (Ety & Ever & _). unfold read_received. apply wp_bind, wp_look. cbn [id fst].
  apply wp_bind. eapply wp_valid; [exact Hrec|]. unfold tls13_record_version, tls13_record_content_type. rewrite Ety, Ever.
  replace ((rl_legacy_version rl =? TLS1_2_VERSION) && negb (ver =? TLS1_2_VERSION) &&
    (negb (ty =? SSL3_RT_ALERT) || negb (rl_legacy_alerts_allowed rl))) with false.
  2: { destruct (Z.eqb_spec (rl_legacy_version rl) TLS1_2_VERSION) as [E|E]; [|done]. by rewrite (Hver E), Z.eqb_refl. }
  rewrite (proj2 (Z.eqb_neq ty SSL3_RT_CHANGE_CIPHER_SPEC)) by done.
  replace (bool_decide (rl_aead rl <> None) && negb (ty =? SSL3_RT_APPLICATION_DATA)) with false.
  2: { case_bool_decide as Ha; [|done]. by rewrite (Haead Ha), Z.eqb_refl. }
  apply wp_bind, wp_try. unfold tls13_record_layer_open_record. apply wp_bind, wp_look. cbn [id fst].
  assert (Hopened : forall c, content_of m.1 m.2 c ->
    wp (read_opened alloc_ok ops cb) (rl <| rl_read := next_read (rl_read rl) e |> <| rl_rcontent := c |>, w)
      (fun ret st => ret = TLS_IO_SUCCESS /\ exists c, content_of m.1 m.2 c /\ st = (put_read (next_read (rl_read rl) e) None c rl, w))
      (fun _ => False)).
  { intros c Hc. pose proof Hc as (Hct & Hcc & Hcw). unfold read_opened. apply wp_bind, wp_upd, wp_bind, wp_look. cbn [id fst].
    field_is (@rl_rcontent A H K) c. unfold tls_content_type, tls_content_remaining, CBS_len. rewrite Hct.
    pose proof (zlen_window _ Hcw) as Hz. rewrite Hcc in Hz.
    rewrite (proj2 (Z.eqb_neq (cbs_len (tc_cbs c)) 0)) by (intros E; rewrite E in Hz; by apply zlen_nil_inv in Hz). cbn [andb].
    try field_is (@rl_handshake_completed A H K) (rl_handshake_completed rl).
    destruct Hdel as [E|[E Ec]]; rewrite E in Hc |- *; rewrite ?Ec; cbv [SSL3_RT_HANDSHAKE SSL3_RT_ALERT SSL3_RT_APPLICATION_DATA] in *; cbn [Z.eqb Pos.eqb negb];
      (apply wp_ret; split; [done|]; exists c; by split). }
  apply wp_bind, wp_check; intros Hck.
  2: { exfalso. apply negb_false_iff, andb_true_iff in Hck as [Hc Ha]. apply bool_decide_eq_true in Ha.
       destruct e as [v|k iv s]; [destruct Hr as (_ & ? & _); congruence|by destruct Hr as (? & _)]. }
  destruct e as [v|k iv s].
  - destruct Hmode as (-> & -> & ->), Hr as (Ha & _). rewrite bool_decide_eq_true_2 by done.
    eapply (wp_open_plaintext alloc_ok Hm); [done..|]. exact Hopened.
  - destruct Hmode as (-> & -> & Hseal), Hr as (Ha & Hk & <-). rewrite bool_decide_eq_false_2 by done.
    eapply (wp_open_protected alloc_ok Hm ops m.1 m.2 payload rl w rec k s); try done; [cbn in He; lia|].
    by destruct Hdel as [->|[-> _]].
Qed.

Section one_record.
(** The record, as [wire_of_record] finds it, and what follows it. *)
Context (e : epoch K) (m : Z * list Z) rl (ty ver : Z) (payload later : list Z).
Context (Hin : reads_in rl e) (He : epoch_lasts e 1) (Hidle : receiver_idle rl) (Hdel : deliverable (rl_handshake_completed rl) m).
Context (Hty : is_byte ty) (Hty0 : ty <> 0) (Hccs : ty <> SSL3_RT_CHANGE_CIPHER_SPEC) (Hver : 0x300 <= ver < 0x400).
Context (Hlen : zlen payload <= TLS13_RECORD_MAX_CIPHERTEXT_LEN) (Hlegacy : rl_legacy_version rl = TLS1_2_VERSION -> ver = TLS1_2_VERSION).
Context (Haead : rl_aead rl <> None -> ty = SSL3_RT_APPLICATION_DATA).
Context (Hmode : match e with
  | Plain v => ty = m.1 /\ ver = v /\ payload = m.2
  | Protected k iv s => ty = SSL3_RT_APPLICATION_DATA /\ ver = TLS1_2_VERSION /\
      EVP_AEAD_CTX_seal ops k (record_nonce iv s) (m.2 ++ [m.1]) (protected_header (zlen payload)) = Some payload
  end).

(** It has still to arrive, or some of it has. *)
Definition receiving (st : state) : Prop :=
  exists o, st.1 = put_read (rl_read rl) o (rl_rcontent rl) rl /\
    match o with
    | None => incoming st.2 = record_wire ty ver payload ++ later
    | Some rec => exists got, rec_arriving (wire_read cb) ty ver payload later rec st.2 got
    end.

(** It has arrived; its content is in [c]. *)
Definition received (c : tls_content) (w : W) (st : state) : Prop :=
  st.1 = put_read (next_read (rl_read rl) e) None c rl /\ incoming st.2 = later /\ (stalls st.2 <= stalls w)%nat.

Definition must_wait (ret : Z) (w : W) (st : state) : Prop :=
  ret = TLS_IO_WANT_POLLIN /\ (stalls st.2 < stalls w)%nat /\ receiving st.

Lemma wp_read_record st :
  receiving st ->
  wp (tls13_record_layer_read_record alloc_ok ops cb) st
    (fun ret st' => ret = TLS_IO_SUCCESS /\ (exists c, content_of m.1 m.2 c /\ received c st.2 st') \/ must_wait ret st.2 st')
    (fun _ => False).
Proof using Type*.
  destruct st as [rl1 w]. intros (o & E & Ho). cbn [fst snd] in *. subst rl1. unfold tls13_record_layer_read_record. apply wp_bind, wp_look. cbn [id fst].
  assert (Hnew : exists rec0, tls13_record_new alloc_ok = Some rec0).
  { unfold tls13_record_new, tls_buffer_new. rewrite !Hm. unfold tls_buffer_resize. mstep. cbn [id].
    change (tb_capacity (mkTlsBuffer TLS_BUFFER_CAPACITY_LIMIT [] 0 0) =? TLS13_RECORD_MAX_LEN) with false.
    change (tb_capacity_limit (mkTlsBuffer TLS_BUFFER_CAPACITY_LIMIT [] 0 0) <? TLS13_RECORD_MAX_LEN) with false. cbn [negb]. rewrite Hm. by eexists. }
  enough (Hgo : forall rec got, rec_arriving (wire_read cb) ty ver payload later rec w got ->
    wp (rl ← look id;
        match rl_rrec rl with
        | None => mret TLS_IO_FAILURE
        | Some _ =>
            ret ← on_rrec (tls13_record_recv alloc_ok (wire_read cb));
            if ret <=? 0 then
              if ret =? TLS13_IO_RECORD_VERSION then tls13_send_alert alloc_ok ops cb TLS13_ALERT_PROTOCOL_VERSION
              else if ret =? TLS13_IO_RECORD_OVERFLOW then tls13_send_alert alloc_ok ops cb TLS13_ALERT_RECORD_OVERFLOW
              else mret ret
            else read_received alloc_ok ops cb
        end) (put_read (rl_read rl) (Some rec) (rl_rcontent rl) rl, w)
    (fun ret st' => ret = TLS_IO_SUCCESS /\ (exists c, content_of m.1 m.2 c /\ received c w st') \/ must_wait ret w st')
    (fun _ => False)).
  { destruct o as [rec|].
    - destruct Ho as [got Harr]. apply wp_bind, wp_ret. by apply (Hgo rec got).
    - destruct Hnew as [rec0 Hrec0]. apply wp_bind, wp_upd. rewrite Hrec0. apply (Hgo rec0 []).
      by apply (new_rec_arriving alloc_ok (wire_read cb) ty ver payload later rec0 w). }
  clear o Ho Hnew. intros rec got Harr. apply wp_bind, wp_look. cbn [id fst].
  change (rl_rrec (put_read _ (Some rec) _ rl)) with (Some rec). cbv iota.
  apply wp_bind. pose proof (wp_record_recv alloc_ok (wire_read cb) ty ver payload later Hty Hty0 Hver Hlen rec w got Harr) as Hw.
  unfold wp at 1. unfold on_rrec. change (rl_rrec (put_read _ (Some rec) _ rl)) with (Some rec). cbv iota. unfold wp in Hw.
  destruct (tls13_record_recv alloc_ok (wire_read cb) (rec, w)) as [ret [rec' w']| |]; [|done..]. cbn [fst snd] in Hw.
  destruct Hw as [(-> & Harr' & Hlater & Hst)|(Hret & Harr' & Hwhy)].
  - pose proof (zlen_record_wire ty ver payload). pose proof (zlen_nonneg payload). rewrite (proj2 (Z.leb_gt _ 0)) by lia.
    eapply wp_conseq; [eapply (wp_read_arrived _ w' rec' e m ty ver payload); try done|cbn beta|done].
    intros ret st (-> & c & Hc & ->). left. split; [done|]. exists c. split; [done|]. by split.
  - destruct Hwhy as [[Hlt ->]|[n Hn]]; [|by rewrite Hm in Hn].
    apply wp_ret. right. split; [done|]. split; [exact Hlt|]. exists (Some rec'). by split.
Qed.

(** Reading the whole of a content. *)
Lemma wp_take_content c n rl1 w :
  content_of m.1 m.2 c -> zlen m.2 <= n ->
  wp (on_rcontent (tls_content_read n)) (rl1 <| rl_rcontent := c |>, w)
    (fun r st => r = (zlen m.2, m.2) /\ exists c', tls_content_remaining c' = 0 /\ st = (rl1 <| rl_rcontent := c' |>, w)) (fun _ => False).
Proof using.
  intros (_ & Hc & Hw) Hn. apply wp_on_rcontent. change (rl_rcontent (rl1 <| rl_rcontent := c |>)) with c.
  pose proof (zlen_window _ Hw) as Hz. rewrite Hc in Hz.
  unfold tls_content_read, tls_content_read_internal. apply wp_bind, wp_gets. cbn [id]. unfold CBS_len. rewrite <- Hz.
  replace (if zlen m.2 <? n then zlen m.2 else n) with (zlen m.2) by (destruct (Z.ltb_spec (zlen m.2) n); lia).
  unfold window_ok in Hw. apply wp_bind, wp_read_bytes; [unfold CBS_data; lia|].
  replace (ztake (zlen m.2) (CBS_data (tc_cbs c))) with m.2 by (rewrite <- Hc at 1; unfold contents; by rewrite <- Hz).
  apply wp_bind, wp_try. destruct (skip_window (zlen m.2) (tc_cbs c) Hw) as [E _]; [pose proof (zlen_nonneg m.2); lia|].
  unfold wp, on_cbs. rewrite E. mstep. split; [done|]. eexists. split; [|done]. unfold tls_content_remaining, CBS_len. cbn. lia.
Qed.

(** What a call to read leaves. *)
Definition read_done (w : W) (r : Z * list Z) (st : state) : Prop :=
  r = (zlen m.2, m.2) /\ incoming st.2 = later /\ (stalls st.2 <= stalls w)%nat /\
  exists c, tls_content_remaining c = 0 /\ st.1 = put_read (next_read (rl_read rl) e) None c rl.

Lemma wp_read_call st n :
  (0 < retries)%nat -> receiving st -> zlen m.2 <= n ->
  wp (tls13_record_layer_read alloc_ok ops cb retries m.1 n) st
    (fun r st' => read_done st.2 r st' \/ must_wait r.1 st.2 st') (fun _ => False).
Proof using Type*.
  intros Hr Hst Hn. pose proof Hidle as (Hrc & _ & Hal & Hph & Hphh & Halert & Hrem). pose proof Hdel as (_ & _ & Hne & _).
  unfold tls13_record_layer_read, tls13_record_layer_read_or_peek. apply wp_bind.
  apply wp_conseq with (Q' := fun (r : Z * list Z) (st' : state) => (read_done st.2 r st' \/ must_wait r.1 st.2 st') /\ rl_alert st'.1 = 0) (E' := fun _ => False); [| |done].
  2: { intros r st' [HQ Ha]. apply wp_bind, wp_look. cbn [id]. rewrite Ha. cbn [Z.eqb negb]. by apply wp_ret. }
  assert (Hwait : forall (r : Z * list Z) (st' : state), must_wait r.1 st.2 st' -> rl_alert st'.1 = 0).
  { intros r st' (_ & _ & o & -> & _). exact Halert. }
  apply wp_while_retry_once; [done|]. destruct st as [rl1 w]. cbn [snd] in *. pose proof Hst as (o & E & _). cbn [fst] in E.
  unfold tls13_record_layer_read_internal. apply wp_bind, wp_nothing_pending; [by subst rl1..|].
  rewrite Z.eqb_refl. cbn [negb]. apply wp_bind, wp_look. cbn [id fst].
  replace (rl_read_closed rl1) with false by (by subst rl1). replace (rl_rcontent rl1) with (rl_rcontent rl) by (by subst rl1).
  rewrite Hrem, Z.eqb_refl. apply wp_bind. eapply wp_conseq; [exact (wp_read_record _ Hst)|cbn beta|done]. cbn [snd].
  intros ret st' [(-> & c & Hc & Hrcv)|Hw].
  - pose proof Hrcv as (E' & Hl & Hs). destruct st' as [rl' w']. cbn [fst snd] in *. subst rl'.
    change (TLS_IO_SUCCESS <=? 0) with false. cbv iota. apply wp_bind, wp_look. cbn [id fst].
    change (rl_rcontent (put_read _ None c rl)) with c. pose proof Hc as (Hct & Hcc & Hcw). pose proof (zlen_window _ Hcw) as Hz. rewrite Hcc in Hz.
    unfold tls_content_remaining, CBS_len. rewrite (proj2 (Z.eqb_neq _ 0)) by (intros E2; rewrite E2 in Hz; by apply zlen_nil_inv in Hz).
    unfold read_content. apply wp_bind, wp_look. cbn [id fst]. change (rl_phh (put_read _ None c rl)) with (rl_phh rl). rewrite Hphh. cbn [andb].
    change (rl_rcontent (put_read _ None c rl)) with c. unfold tls_content_type. rewrite Hct, Z.eqb_refl. cbn [negb].
    eapply wp_conseq; [apply (wp_take_content c n (rl <| rl_read := next_read (rl_read rl) e |> <| rl_rrec := None |>) w' Hc Hn)|cbn beta|done].
    intros r st' (-> & c' & Hc' & ->). cbn [fst]. split; [apply Z.eqb_neq; unfold TLS_IO_WANT_RETRY; pose proof (zlen_nonneg m.2); lia|].
    split; [|exact Halert]. left. split; [done|]. split; [done|]. split; [done|]. by exists c'.
  - pose proof Hw as (-> & _). change (TLS_IO_WANT_POLLIN <=? 0) with true. cbv iota. apply wp_ret. cbn [fst]. split; [done|].
    split; [by right|by apply (Hwait (TLS_IO_WANT_POLLIN, []))].
Qed.
End one_record.

(** The caller that calls again when it was told to wait for input. *)
Fixpoint read_retry (n : nat) (content_type len : Z) : M state (Z * list Z) :=
  r ← tls13_record_layer_read alloc_ok ops cb retries content_type len;
  match n with
  | O => mret r
  | S n => if r.1 =? TLS_IO_WANT_POLLIN then read_retry n content_type len else mret r
  end.

Lemma wp_read_message n rl w e m wire later len :
  (0 < retries)%nat -> receiver_idle rl -> reads_in rl e -> epoch_lasts e 1 -> deliverable (rl_handshake_completed rl) m ->
  wire_of e m wire -> incoming w = wire ++ later -> zlen m.2 <= len -> (stalls w <= n)%nat ->
  wp (read_retry n m.1 len) (rl, w)
    (fun r st => r = (zlen m.2, m.2) /\ incoming st.2 = later /\ (stalls st.2 <= stalls w)%nat /\
       receiver_idle st.1 /\ reads_in st.1 (next_epoch e) /\ rl_handshake_completed st.1 = rl_handshake_completed rl)
    (fun _ => False).
Proof using Type*.
  intros Hr Hidle Hin He Hdel Hwire Hw Hlen Hn.
  destruct (wire_of_record _ _ _ _ Hwire Hin Hdel) as (ty & ver & payload & -> & Hty & Hty0 & Hccs & Hver & Hpl & Hlegacy & Haead & Hmode).
  assert (Hst : receiving rl ty ver payload later (rl, w)).
  { exists None. split; [|exact Hw]. cbn [fst]. destruct Hidle as (_ & <- & _). by destruct rl. }
  change w with (rl, w).2 in Hn |- * at 2. revert Hst Hn. generalize (rl, w) as st. intros st Hst Hn. clear w Hw.
  revert st Hst Hn. induction n as [|n IH]; intros st Hst Hn; cbn [read_retry]; apply wp_bind;
    (eapply wp_conseq; [apply (wp_read_call e m rl ty ver payload later); done|cbn beta|done]);
    intros r st' [(-> & Hl & Hs & c & Hc & Ec)|(Ewait & Hs & Hst')].
  2: lia.
  3: rewrite Ewait, Z.eqb_refl; eapply wp_conseq; [apply (IH st' Hst'); lia|cbn beta|done];
     intros r' st2 (? & ? & ? & ?); split_and!; [done|done|lia|tauto..].
  2: cbn [fst]; rewrite (proj2 (Z.eqb_neq _ _)) by (unfold TLS_IO_WANT_POLLIN; pose proof (zlen_nonneg m.2); lia).
  all: apply wp_ret; split; [done|]; split; [done|]; split; [done|]; rewrite Ec;
    destruct (put_read_next rl e c Hidle Hin He Hc) as [? ?]; by split_and!.
Qed.

(** Read contents of the given types, one after the other. *)
Fixpoint read_all (n : nat) (len : Z) (content_types : list Z) : M state (list (list Z)) :=
  match content_types with
  | [] => mret []
  | ty :: tys => r ← read_retry n ty len; rs ← read_all n len tys; mret (r.2 :: rs)
  end.

Lemma wp_read_all n e ms sent later :
  wires_of e ms sent -> forall rl w,
  (0 < retries)%nat -> receiver_idle rl -> reads_in rl e -> epoch_lasts e (zlen ms) ->
  Forall (deliverable (rl_handshake_completed rl)) ms -> incoming w = sent ++ later -> (stalls w <= n)%nat ->
  wp (read_all n TLS13_RECORD_MAX_PLAINTEXT_LEN (map fst ms)) (rl, w)
    (fun rs st => rs = map snd ms /\ incoming st.2 = later /\ receiver_idle st.1 /\ reads_in st.1 (epoch_after e (length ms)))
    (fun _ => False).
Proof using Type*.
  induction 1 as [e|e m ms wire sent Hwire Hwires IH]; intros rl w Hr Hs Hrd He Hms Hin Hn; cbn [map read_all].
  { by apply wp_ret. }
  apply Forall_cons in Hms as [Hm1 Hms]. rewrite zlen_cons in He. pose proof (zlen_nonneg ms). rewrite <- app_assoc in Hin.
  apply wp_bind. eapply wp_conseq; [eapply (wp_read_message n rl w e m wire (sent ++ later)); try done|cbn beta|done].
  { eapply epoch_lasts_le; [|exact He]. lia. }
  { apply Hm1. }
  intros r [rl' w'] (-> & Hin' & Hst & Hs' & Hrd' & Hc). cbn [fst snd] in *. apply wp_bind.
  eapply wp_conseq; [apply (IH rl' w'); try done; [by apply epoch_lasts_next|by rewrite Hc|lia]|cbn beta|done].
  intros rs st (-> & Hl & Hs2 & Hrd2). by apply wp_ret.
Qed.
End receiver.

End channel.

(** What one end writes the other end reads. *)
Lemma record_layers_run {A H K W1 W2} (ops : aead_ops A H K) `{!AeadLaws ops}
    (cb1 : tls13_record_layer_callbacks A H K W1) `{!Writer (wire_write cb1)}
    (cb2 : tls13_record_layer_callbacks A H K W2) `{!Reader (wire_read cb2)} e ms snd rcv w1 :
  sender_idle snd -> writes_in ops snd e -> receiver_idle rcv -> reads_in rcv e ->
  epoch_lasts e (zlen ms) -> Forall (deliverable (rl_handshake_completed rcv)) ms ->
  exists st1 sent, write_all (fun _ => true) ops cb1 1 (wstalls w1) ms (snd, w1) = Ret (map (fun m => zlen m.2) ms) st1 /\
    outgoing st1.2 = outgoing w1 ++ sent /\
    forall w2 later, incoming w2 = sent ++ later -> exists st2,
      read_all (fun _ => true) ops cb2 1 (stalls w2) TLS13_RECORD_MAX_PLAINTEXT_LEN (map fst ms) (rcv, w2) =
        Ret (map Datatypes.snd ms) st2 /\ incoming st2.2 = later /\
      sender_idle st1.1 /\ writes_in ops st1.1 (epoch_after e (length ms)) /\
      receiver_idle st2.1 /\ reads_in st2.1 (epoch_after e (length ms)).
Proof.
  intros Hs Hw Hr Hrd He Hms.
  destruct (wp_total _ _ _ (wp_write_all (fun _ => true) ltac:(done) ops cb1 1 (wstalls w1) _ ms snd w1 e ltac:(lia) Hs Hw He Hms ltac:(done)))
    as (rets & st1 & E1 & -> & Hs1 & Hw1 & sent & Hsent & Ho).
  exists st1, sent. split; [done|]. split; [done|]. intros w2 later Hin.
  destruct (wp_total _ _ _ (wp_read_all (fun _ => true) ltac:(done) ops cb2 1 (stalls w2) e ms sent later Hsent rcv w2 ltac:(lia) Hr Hrd He Hms Hin ltac:(done)))
    as (rs & st2 & E2 & -> & Hl & Hr2 & Hrd2).
  by exists st2.
Qed.

(** C2. What one end writes the other end reads: between two idle record layers in
    the same epoch, in plaintext or under the same key, IV and sequence number,
    every sequence of handshake messages and (once the handshake is complete)
    application data is written in full and read back content by content, in order,
    with its type, whatever way the wire cuts the records and however often it
    makes the writer or the reader wait; both ends are then in the same next epoch. *)
Theorem record_layers_deliver {A H K W1 W2} (ops : aead_ops A H K) `{!AeadLaws ops}
    (cb1 : tls13_record_layer_callbacks A H K W1) `{!Writer (wire_write cb1)}
    (cb2 : tls13_record_layer_callbacks A H K W2) `{!Reader (wire_read cb2)} e ms snd rcv w1 :
  sender_idle snd -> writes_in ops snd e -> receiver_idle rcv -> reads_in rcv e ->
  epoch_lasts e (zlen ms) -> Forall (deliverable (rl_handshake_completed rcv)) ms ->
  exists st1 sent, write_all (fun _ => true) ops cb1 1 (wstalls w1) ms (snd, w1) = Ret (map (fun m => zlen m.2) ms) st1 /\
    outgoing st1.2 = outgoing w1 ++ sent /\
    forall w2 later, incoming w2 = sent ++ later -> exists st2,
      read_all (fun _ => true) ops cb2 1 (stalls w2) TLS13_RECORD_MAX_PLAINTEXT_LEN (map fst ms) (rcv, w2) =
        Ret (map Datatypes.snd ms) st2 /\ incoming st2.2 = later /\
      exists e', sender_idle st1.1 /\ writes_in ops st1.1 e' /\ receiver_idle st2.1 /\ reads_in st2.1 e'.
Proof.
  intros Hs Hw Hr Hrd He Hms. destruct (record_layers_run ops cb1 cb2 e ms snd rcv w1 Hs Hw Hr Hrd He Hms) as (st1 & sent & E1 & Ho & Hrun).
  exists st1, sent. split; [done|]. split; [done|]. intros w2 later Hin. destruct (Hrun w2 later Hin) as (st2 & E2 & El & Hend).
  exists st2. split; [done|]. split; [done|]. by exists (epoch_after e (length ms)).
Qed.

(** ** Concrete runs *)

Definition quota_callbacks : tls13_record_layer_callbacks unit unit Z (list Z * list Z) :=
  mkCallbacks unit unit Z _ (fun _ w => (TLS_IO_EOF, [], w)) quota_write (fun w => (TLS_IO_SUCCESS, w)) None None None None None
    (fun _ _ w => w) (fun _ _ w => w) None (fun w => w).

Definition chunk_callbacks : tls13_record_layer_callbacks unit unit Z (list (list Z)) :=
  mkCallbacks unit unit Z _ chunk_read (fun _ w => (TLS_IO_EOF, w)) (fun w => (TLS_IO_SUCCESS, w)) None None None None None
    (fun _ _ w => w) (fun _ _ w => w) None (fun w => w).

#[global] Instance quota_callbacks_writer : Writer (wire_write quota_callbacks) := quota_writer.
#[global] Instance chunk_callbacks_reader : Reader (wire_read chunk_callbacks) := chunk_reader.

Definition sample_contents : list (Z * list Z) := [(SSL3_RT_HANDSHAKE, [1; 2]); (SSL3_RT_APPLICATION_DATA, [3])].
Definition sample_wire : list Z * list Z := ([3; 0; 2; 0], []).

Lemma record_layers_deliver_witness :
  (exists st, write_all (fun _ => true) sum_aead quota_callbacks 1 2 sample_contents (sum_layer 255, sample_wire) =
     Ret [2; 1] st /\ st.2.2 = [23; 3; 3; 0; 4; 1; 2; 22; 254; 23; 3; 3; 0; 3; 3; 23; 6]) /\
  exists st1 sent, write_all (fun _ => true) sum_aead quota_callbacks 1 (wstalls (write_cb := wire_write quota_callbacks) sample_wire)
      sample_contents (sum_layer 255, sample_wire) = Ret (map (fun m => zlen m.2) sample_contents) st1 /\
    outgoing (write_cb := wire_write quota_callbacks) st1.2 = outgoing (write_cb := wire_write quota_callbacks) sample_wire ++ sent /\
    forall w2 later, incoming (read_cb := wire_read chunk_callbacks) w2 = sent ++ later -> exists st2,
      read_all (fun _ => true) sum_aead chunk_callbacks 1 (stalls (read_cb := wire_read chunk_callbacks) w2) TLS13_RECORD_MAX_PLAINTEXT_LEN
        (map fst sample_contents) (sum_layer 255, w2) = Ret (map Datatypes.snd sample_contents) st2 /\
      incoming (read_cb := wire_read chunk_callbacks) st2.2 = later /\
      exists e', sender_idle st1.1 /\ writes_in sum_aead st1.1 e' /\ receiver_idle st2.1 /\ reads_in st2.1 e'.
Proof.
  split; [eexists; split; by vm_compute|].
  apply (record_layers_deliver sum_aead quota_callbacks chunk_callbacks (Protected 7 (zrep 12 5) 255) sample_contents
    (sum_layer 255) (sum_layer 255) sample_wire).
  - by split_and!.
  - exists tt. split; [done|]. split; [apply (sum_keyed 255); lia|]. split; [done|]. split; [by split; vm_compute|]. split; [apply sum_seals|by vm_compute].
  - by split_and!.
  - split; [done|]. split; [apply (sum_keyed 255); lia|done].
  - by vm_compute.
  - repeat (apply Forall_cons; split; [split; [split; [by split; vm_compute|by vm_compute]|split; [by repeat constructor|split; [done|by (left + right)]]]|]). constructor.
Defined.
