(* ===== verification/Tls13RecordSafety.v ===== *)
(** * Safety of the TLS 1.3 record layer

    Theorems about Tls13RecordLayer.v with an arbitrary peer and an arbitrary
    wire: no call is undefined behaviour, a closed record layer is silent, and
    what becomes of an alert that is sent. *)

From stdpp Require Import gmap.
From S2P Require Import Prelude Cbs Cbb Builder TlsBuffer Tls13Msg Tls13Record Tls13RecordLayer Tls13Seal Tls13Channel.
Open Scope Z_scope.

(** ** The invariant of a record layer *)

Section invariant.
Context {A H K : Type}.
Abbreviation record_layer := (tls13_record_layer A H K).
Implicit Types (rl : record_layer).

Definition protection_ok (p : tls13_record_protection K) : Prop := exists k s, keyed p k s.

(** What waits to be sent or read lies in its buffer, and both directions have
    their keys once there is an AEAD. *)
Record layer_ok rl : Prop := mkLayerOk {
  ok_version : 0 <= rl_legacy_version rl < 65536;
  ok_rrec : forall rec, rl_rrec rl = Some rec -> record_ok rec;
  ok_wrec : forall rec, rl_wrec rl = Some rec -> window_ok (rec_cbs rec);
  ok_alert : 0 <= rl_alert rl < 256;
  ok_alert_data : forall d, rl_alert_data rl = Some d -> rl_alert_len rl = 2 /\ 2 <= zlen d;
  ok_phh : window_ok (rl_phh_cbs rl);
  ok_content : window_ok (tc_cbs (rl_rcontent rl));
  ok_keys : rl_aead rl <> None -> protection_ok (rl_read rl) /\ protection_ok (rl_write rl);
}.
End invariant.

Section safety.
Context (alloc_ok : Z -> bool) {A H K W : Type}.
Context (ops : aead_ops A H K) `{!AeadLaws ops} (cb : tls13_record_layer_callbacks A H K W).
Abbreviation record_layer := (tls13_record_layer A H K).
Abbreviation state := (tls13_record_layer A H K * W)%type.
Implicit Types (rl : record_layer) (w : W).

(** The callbacks of the owner: the wire stores no more octets than asked for,
    and the handler of post-handshake messages preserves the invariant; [stuck] is
    where it may be when one of its loops does not end. *)
Context (Hread : bounded_reader (wire_read cb)) (stuck : state -> Prop).
Context (Hphh : forall f, phh_recv cb = Some f -> forall rl w, layer_ok rl ->
  wp f (rl, w) (fun _ st => layer_ok st.1) stuck).

(** A call that ends with the invariant. *)
Definition safe_call {T} (m : M state T) : Prop :=
  forall rl w, layer_ok rl -> wp m (rl, w) (fun _ st => layer_ok st.1) (fun st => layer_ok st.1).
Definition total_call {T} (m : M state T) : Prop :=
  forall rl w, layer_ok rl -> wp m (rl, w) (fun _ st => layer_ok st.1) (fun _ => False).
(** One that ends with it or in a loop. *)
Definition looping_call {T} (m : M state T) : Prop :=
  forall rl w, layer_ok rl -> wp m (rl, w) (fun _ st => layer_ok st.1) stuck.

Lemma total_looping {T} (m : M state T) : total_call m -> looping_call m.
Proof using. intros Hm rl w Hok. eapply wp_conseq; [by apply Hm|done|done]. Qed.

(** The two differ in the state of the write direction only. *)
Definition write_only rl rl' : Prop :=
  exists p rec len ty appdata, rl' = rl <| rl_write := p |> <| rl_wrec := rec |> <| rl_wrec_content_len := len |>
    <| rl_wrec_content_type := ty |> <| rl_wrec_appdata_len := appdata |>.

Lemma write_only_refl rl : write_only rl rl.
Proof using. by exists (rl_write rl), (rl_wrec rl), (rl_wrec_content_len rl), (rl_wrec_content_type rl), (rl_wrec_appdata_len rl); destruct rl. Qed.

Lemma write_only_trans rl rl1 rl2 : write_only rl rl1 -> write_only rl1 rl2 -> write_only rl rl2.
Proof using. intros (p & o & a & b & c & ->) (p' & o' & a' & b' & c' & ->). by exists p', o', a', b', c'. Qed.

(** A call that changes nothing else. *)
Definition write_call {T} (m : M state T) : Prop :=
  forall rl w, layer_ok rl -> wp m (rl, w) (fun _ st => layer_ok st.1 /\ write_only rl st.1) (fun _ => False).

Ltac write_only_tac := by eexists _, _, _, _, _.

(** The octets after the first [n] do not matter. *)
Lemma read_bytes_take {S} data n : 0 <= n <= zlen data -> @read_bytes S data n = @read_bytes S (ztake n data) n.
Proof using. intros Hn. unfold read_bytes. rewrite zlen_ztake, (ztake_ztake n n) by lia. by rewrite !(proj2 (Z.leb_le _ _)) by lia. Qed.

Lemma seal_take content_type content n :
  0 <= n <= zlen content ->
  tls13_record_layer_seal_record (W := W) alloc_ok ops content_type content n =
  tls13_record_layer_seal_record alloc_ok ops content_type (ztake n content) n.
Proof using.
  intros Hn. unfold tls13_record_layer_seal_record, tls13_record_layer_seal_record_plaintext, tls13_record_layer_seal_record_protected.
  by rewrite (read_bytes_take content n Hn).
Qed.

Lemma write_take content_type content n :
  0 <= n <= zlen content ->
  tls13_record_layer_write_record alloc_ok ops cb content_type content n =
  tls13_record_layer_write_record alloc_ok ops cb content_type (ztake n content) n.
Proof using.
  intros Hn. unfold tls13_record_layer_write_record, seal_and_push. by rewrite (seal_take content_type content n Hn).
Qed.

Lemma push_safe rl w rec :
  layer_ok rl -> rl_wrec rl = Some rec ->
  wp (push_wrec cb) (rl, w) (fun _ st => layer_ok st.1 /\ write_only rl st.1) (fun _ => False).
Proof using.
  intros Hok Hrec. pose proof (record_send_safe (wire_write cb) rec w (ok_wrec _ Hok _ Hrec)) as Hs.
  revert Hs. unfold wp, push_wrec, on_wrec. rewrite Hrec. destruct (tls13_record_send (wire_write cb) (rec, w)) as [ret [rec' w']| |]; [|done..].
  cbn [fst]. intros Hw. split; [|by exists (rl_write rl), (Some rec'), (rl_wrec_content_len rl), (rl_wrec_content_type rl), (rl_wrec_appdata_len rl)].
  destruct Hok. constructor; try done. cbn. by intros rec2 [= <-].
Qed.

Lemma seal_safe content_type content rl w :
  layer_ok rl -> fits content_type content ->
  wp (tls13_record_layer_seal_record alloc_ok ops content_type content (zlen content)) (rl, w)
    (fun _ st => layer_ok st.1 /\ write_only rl st.1 /\ rl_wrec st.1 <> None) (fun st => layer_ok st.1 /\ write_only rl st.1).
Proof using AeadLaws0.
  intros Hok Hf. pose proof Hok as [Hv Hr Hwr Ha Had Hph Hc Hk]. apply wp_seal_record; [done|done|done| | | |].
  - destruct (rl_aead rl) as [aead|] eqn:E; [right|by left]. by destruct (Hk ltac:(done)) as [_ ?].
  - intros rl' (_ & _ & rec & (_ & _ & Hw & _) & ->). split; [|split; [|done]]; [|by exists (rl_write rl), (Some rec), (zlen content), content_type, (rl_wrec_appdata_len rl)].
    constructor; try done. cbn. by intros rec2 [= <-].
  - intros k s rl' Hks Haead _ (rec & enc & _ & _ & Hs & (_ & _ & Hw & _) & ->).
    split; [|split; [|done]]; [|by exists (step_protection (rl_write rl) s), (Some rec), (zlen content), content_type, (rl_wrec_appdata_len rl)].
    constructor; try done; cbn; [by intros rec2 [= <-]|]. intros _. split; [by apply Hk|]. exists k, (s + 1). by apply step_keyed.
  - intros rl' [->|(p & Hp & ->)] _; [split; [done|apply write_only_refl]|].
    split; [|by exists p, (tls13_record_new alloc_ok), (rl_wrec_content_len rl), (rl_wrec_content_type rl), (rl_wrec_appdata_len rl)].
    constructor; try done; cbn.
    + intros rec Hrec. apply record_new_ok in Hrec as [(? & _) _]. done.
    + intros Haead. destruct (Hk Haead) as [? (k & s & Hks)]. split; [done|]. exists k, s. by eapply same_keyed.
Qed.

(** An update of fields the invariant does not constrain, or constrains by
    facts at hand. *)
Ltac keep_ok :=
  match goal with Hok : layer_ok ?rl |- layer_ok _ => destruct Hok; constructor; try done end.

Lemma seal_and_push_safe content_type content : fits content_type content ->
  write_call (seal_and_push alloc_ok ops cb content_type content (zlen content)).
Proof using AeadLaws0.
  intros Hf rl w Hok. unfold seal_and_push. destruct (_ <? _); [apply wp_ret; split; [done|apply write_only_refl]|].
  apply wp_bind, wp_try. eapply wp_conseq; [by apply seal_safe|cbn beta|cbn beta].
  - intros [] [rl1 w1] (Hok1 & Hsame & Hrec). cbn [fst] in *. destruct (rl_wrec rl1) as [rec|] eqn:E; [|done].
    apply wp_bind. eapply wp_conseq; [by eapply push_safe|cbn beta|done].
    intros ret [rl2 w2] [Hok2 Hsame2]. cbn [fst] in *. pose proof (write_only_trans _ _ _ Hsame Hsame2) as Hs.
    destruct (ret <=? 0); [by apply wp_ret|].
    apply wp_bind, wp_upd, wp_ret. cbn [fst]. split; [by keep_ok|]. destruct Hs as (p & o & a & b & c & ->). by exists p, None, a, b, c.
  - intros st [Hok1 Hs]. by apply wp_ret.
Qed.

Lemma write_record_safe content_type content : fits content_type content ->
  write_call (tls13_record_layer_write_record alloc_ok ops cb content_type content (zlen content)).
Proof using AeadLaws0.
  intros Hf rl w Hok. unfold tls13_record_layer_write_record. apply wp_bind, wp_look. cbn [id fst].
  destruct (rl_write_closed rl); [apply wp_ret; split; [done|apply write_only_refl]|].
  destruct (_ && _).
  { apply wp_bind, wp_upd, wp_ret; cbn [fst]. split; [by keep_ok|].
    by exists (rl_write rl), (rl_wrec rl), (rl_wrec_content_len rl), (rl_wrec_content_type rl), 0. }
  destruct (rl_wrec rl) as [rec|] eqn:E; [|by apply seal_and_push_safe].
  apply wp_bind. eapply wp_conseq; [by eapply push_safe|cbn beta|done].
  intros ret [rl2 w2] [Hok2 Hs]. cbn [fst] in *. destruct (ret <=? 0); [by apply wp_ret|].
  assert (Hfree : layer_ok (rl2 <| rl_wrec := None |>) /\ write_only rl (rl2 <| rl_wrec := None |>)).
  { split; [by keep_ok|]. eapply write_only_trans; [exact Hs|].
    by exists (rl_write rl2), None, (rl_wrec_content_len rl2), (rl_wrec_content_type rl2), (rl_wrec_appdata_len rl2). }
  apply wp_bind, wp_upd. revert Hfree. generalize (rl2 <| rl_wrec := None |>). clear rl2 Hok2 Hs. intros rl2 [Hok2 Hs].
  apply wp_bind, wp_look. cbn [id fst]. destruct (_ =? content_type).
  { apply wp_bind, wp_upd, wp_ret. cbn [fst]. split; [by keep_ok|]. eapply write_only_trans; [exact Hs|].
    by exists (rl_write rl2), (rl_wrec rl2), 0, 0, (rl_wrec_appdata_len rl2). }
  destruct (negb _); [by apply wp_ret|].
  apply wp_bind, wp_upd. eapply wp_conseq; [apply seal_and_push_safe; [done|by keep_ok]|cbn beta|done].
  intros _ st [? Hs2]. split; [done|]. eapply write_only_trans; [exact Hs|]. eapply write_only_trans; [|exact Hs2].
  by exists (rl_write rl2), (rl_wrec rl2), (rl_wrec_content_len rl2), (rl_wrec_content_type rl2), (rl_wrec_content_len rl2).
Qed.

Lemma write_chunk_safe content_type buf n :
  0 <= content_type < 256 -> 0 <= n <= zlen buf ->
  write_call (tls13_record_layer_write_chunk alloc_ok ops cb content_type buf n).
Proof using AeadLaws0.
  intros Hct Hn rl w Hok. unfold tls13_record_layer_write_chunk.
  set (n' := if TLS13_RECORD_MAX_PLAINTEXT_LEN <? n then TLS13_RECORD_MAX_PLAINTEXT_LEN else n).
  assert (Hn' : 0 <= n' <= zlen buf /\ n' <= TLS13_RECORD_MAX_PLAINTEXT_LEN).
  { unfold n'. destruct (Z.ltb_spec TLS13_RECORD_MAX_PLAINTEXT_LEN n); max_lia. }
  rewrite write_take by lia. replace n' with (zlen (ztake n' buf)) at 2 by (apply zlen_ztake; lia).
  apply write_record_safe; [|done]. split; [done|]. cbn [snd]. rewrite zlen_ztake; lia.
Qed.

(** *** Pending alerts and messages *)

Lemma alert_sent_safe level desc : total_call (tls13_record_layer_alert_sent cb level desc).
Proof using. by intros rl w Hok. Qed.

(** The alert is dropped only when it was sent. *)
Definition alert_kept rl (ret : Z) rl' : Prop :=
  rl_alert_data rl' = rl_alert_data rl \/ ret = TLS_IO_SUCCESS \/ ret = TLS_IO_ALERT.

Lemma send_alert_safe rl w :
  layer_ok rl -> rl_alert_data rl <> None ->
  wp (tls13_record_layer_send_alert alloc_ok ops cb) (rl, w) (fun ret st => layer_ok st.1 /\ alert_kept rl ret st.1) (fun _ => False).
Proof using AeadLaws0.
  intros Hok Hd. unfold tls13_record_layer_send_alert. apply wp_bind, wp_look. cbn [id fst].
  destruct (rl_alert_data rl) as [d|] eqn:E; [|done]. apply wp_bind. eapply wp_valid; [done|].
  destruct (ok_alert_data _ Hok _ E) as [Hl Hd2]. rewrite Hl. apply wp_bind.
  rewrite write_take by lia. replace 2 with (zlen (ztake 2 d)) at 2 by (apply zlen_ztake; lia).
  eapply wp_conseq; [apply write_record_safe; [split; [done|]|exact Hok]|cbn beta|done].
  { cbn [snd]. rewrite zlen_ztake by lia. done. }
  intros ret [rl1 w1] [Hok1 Hs]. cbn [fst] in *. destruct (negb _).
  { apply wp_ret. split; [done|]. left. by destruct Hs as (p & o & a & b & c & ->). }
  apply wp_bind, wp_upd, wp_bind, wp_look. cbn [id fst]. apply wp_bind.
  assert (Hsent : forall rl2 (ret : Z), layer_ok rl2 -> ret = TLS_IO_SUCCESS \/ ret = TLS_IO_ALERT ->
    wp (A := Z) (tls13_record_layer_alert_sent cb (rl_alert_level rl1) (rl_alert_desc rl1);; mret ret) (rl2, w1)
    (fun ret st => layer_ok st.1 /\ alert_kept rl ret st.1) (fun _ => False)) by (by intros rl2 r Hok2 Hr; split; [|right]).
  destruct (_ =? TLS13_ALERT_CLOSE_NOTIFY); [apply wp_bind, wp_upd, wp_ret, Hsent; [by keep_ok|by left]|].
  destruct (_ =? TLS13_ALERT_USER_CANCELED); [apply wp_ret, Hsent; [by keep_ok|by left]|].
  apply wp_bind, wp_upd, wp_ret, Hsent; [by keep_ok|by right].
Qed.

Lemma send_phh_safe rl w :
  layer_ok rl ->
  wp (tls13_record_layer_send_phh alloc_ok ops cb) (rl, w)
    (fun ret st => layer_ok st.1 /\ rl_alert_data st.1 = rl_alert_data rl) (fun _ => False).
Proof using AeadLaws0.
  intros Hok. unfold tls13_record_layer_send_phh. apply wp_bind, wp_look. cbn [id fst]. apply wp_bind.
  eapply wp_conseq; [apply write_chunk_safe; [done|apply ok_phh, Hok|exact Hok]|cbn beta|done].
  intros ret [rl1 w1] [Hok1 Hs]. cbn [fst] in *.
  assert (Ha : rl_alert_data rl1 = rl_alert_data rl) by (by destruct Hs as (p & o & a & b & c & ->)). clear Hs.
  destruct (Z.leb_spec ret 0); [by apply wp_ret|].
  apply wp_bind, wp_look. cbn [id fst]. pose proof (ok_phh _ Hok1) as Hw.
  destruct (Z.leb_spec ret (cbs_len (rl_phh_cbs rl1))) as [Hr|Hr].
  - destruct (skip_window ret _ Hw) as [-> Hw1]; [lia|]. apply wp_bind, wp_upd.
    destruct (negb _); [apply wp_ret; cbn [fst]; split; [by keep_ok|done]|].
    apply wp_bind, wp_upd. apply wp_bind. cbn. split; [by keep_ok|done].
  - unfold CBS_skip, cbs_get. mstep. cbn [id]. rewrite (proj2 (Z.leb_gt _ _)) by lia. by apply wp_ret.
Qed.

Lemma send_pending_safe rl w :
  layer_ok rl ->
  wp (tls13_record_layer_send_pending alloc_ok ops cb) (rl, w)
    (fun ret st => layer_ok st.1 /\ alert_kept rl ret st.1) (fun _ => False).
Proof using AeadLaws0.
  intros Hok. unfold tls13_record_layer_send_pending. apply wp_bind, wp_look. cbn [id fst].
  assert (Hp : wp (tls13_record_layer_send_phh alloc_ok ops cb) (rl, w)
    (fun ret st => layer_ok st.1 /\ alert_kept rl ret st.1) (fun _ => False)).
  { eapply wp_conseq; [by apply send_phh_safe|cbn beta|done]. intros ret st [??]. split; [done|by left]. }
  destruct (_ && _); [done|].
  case_bool_decide as Ha; [by apply send_alert_safe|]. case_bool_decide; [done|]. apply wp_ret. split; [done|by left].
Qed.

(** An alert that was queued and is asked to be retried is still there, so the second
    attempt is refused. *)
Lemma enqueue_alert_safe level desc rl w :
  0 <= level < 256 -> 0 <= desc < 256 -> layer_ok rl ->
  wp (tls13_record_layer_enqueue_alert alloc_ok ops cb level desc) (rl, w)
    (fun ret st => layer_ok st.1 /\ (ret = TLS_IO_WANT_RETRY -> rl_alert_data st.1 <> None)) (fun _ => False).
Proof using AeadLaws0.
  intros Hl Hd Hok. unfold tls13_record_layer_enqueue_alert. apply wp_bind, wp_look. cbn [id fst].
  destruct (rl_alert_data rl) as [d|] eqn:E; [apply wp_ret; by split|]. apply wp_bind, wp_try.
  eapply wp_cbb_build; [lia| |by apply build_alert| |].
  - repeat (apply Forall_cons; split; [cbn; lia|]). constructor.
  - intros buf Hb Hz. apply wp_bind, wp_upd. eapply wp_conseq; [apply send_pending_safe|cbn beta|done].
    + keep_ok. cbn. intros d [= <-]. by split.
    + intros ret st [Hok' Hkept]. split; [done|]. intros ->. destruct Hkept as [->|[?|?]]; done.
  - intros _. by apply wp_ret.
Qed.

Lemma tls13_send_alert_safe desc : 0 <= desc < 256 -> total_call (tls13_send_alert alloc_ok ops cb desc).
Proof using AeadLaws0.
  intros Hd rl w Hok. unfold tls13_send_alert. destruct (alert_send cb) as [f|].
  { unfold wp, call. by destruct (f desc w). }
  cbv zeta. lazymatch goal with |- wp (while_retry _ _ (tls13_record_layer_enqueue_alert _ _ _ ?l _)) _ _ _ =>
    assert (Hl : 0 <= l < 256) by (by destruct (_ || _)); generalize dependent l; intros level Hl end.
  cbn [while_retry]. apply wp_bind. eapply wp_conseq; [by apply enqueue_alert_safe|cbn beta|done].
  intros ret [rl1 w1] [Hok1 Hkept]. cbn [fst] in *. unfold wants_retry at 1.
  destruct (Z.eqb_spec ret TLS_IO_WANT_RETRY) as [E|E]; [|by apply wp_ret].
  apply wp_bind. unfold tls13_record_layer_enqueue_alert. apply wp_bind, wp_look. cbn [id fst].
  destruct (rl_alert_data rl1); [|by destruct (Hkept E)]. by apply wp_ret.
Qed.

(** *** Reading *)

Lemma record_parts_safe rec :
  record_ok rec ->
  (forall h, tls13_record_header rec = Some h -> window_ok h) /\ (forall c, tls13_record_content rec = Some c -> window_ok c).
Proof using.
  intros (_ & Hw & _). unfold tls13_record_header, tls13_record_content, window_ok, tls13_record_data in *. cbn [CBS_init cbs_len cbs_data] in Hw. split.
  - intros h. destruct (Z.ltb_spec (rec_data_len rec) TLS13_RECORD_HEADER_LEN); [done|]. intros [= <-]. cbn. max_lia.
  - intros c. unfold CBS_skip, cbs_get. mstep. cbn [id CBS_init cbs_len cbs_data].
    destruct (Z.leb_spec TLS13_RECORD_HEADER_LEN (rec_data_len rec)); [|done]. rewrite (proj2 (Z.leb_le _ _)) by lia. intros [= <-].
    cbn. rewrite zlen_zdrop; max_lia.
Qed.

Lemma content_ok rl c : layer_ok rl -> window_ok (tc_cbs c) -> layer_ok (rl <| rl_rcontent := c |>).
Proof using. intros Hok Hc. by keep_ok. Qed.

Lemma open_plaintext_safe rl w rec :
  layer_ok rl -> rl_rrec rl = Some rec ->
  wp (tls13_record_layer_open_record_plaintext alloc_ok) (rl, w) (fun _ st => layer_ok st.1) (fun st => layer_ok st.1).
Proof using.
  intros Hok Hrec. unfold tls13_record_layer_open_record_plaintext. apply wp_bind, wp_look. cbn [id fst].
  apply wp_bind, wp_check; intros _; [|done]. apply wp_bind. eapply wp_valid; [done|].
  destruct (record_parts_safe rec (ok_rrec _ Hok _ Hrec)) as [_ Hc]. destruct (tls13_record_content rec) as [cbs|]; [|done].
  specialize (Hc cbs eq_refl). destruct (_ <? _); [apply wp_bind, wp_upd, wp_fail; cbn [fst]; by keep_ok|].
  apply wp_on_rcontent. unfold tls_content_dup_data. unfold window_ok in Hc.
  apply wp_bind, wp_check; intros _; [|apply content_ok, (ok_content _ Hok); done].
  apply wp_bind, wp_read_bytes; [apply Hc|]. unfold tls_content_set_data. apply wp_bind, wp_modify, wp_modify.
  apply content_ok; [done|]. unfold window_ok, CBS_data, CBS_len. cbn [tc_cbs CBS_init cbs_len cbs_data]. rewrite zlen_ztake; lia.
Qed.

Lemma open_protected_safe rl w rec :
  layer_ok rl -> rl_rrec rl = Some rec ->
  wp (tls13_record_layer_open_record_protected alloc_ok ops) (rl, w) (fun _ st => layer_ok st.1) (fun st => layer_ok st.1).
Proof using AeadLaws0.
  intros Hok Hrec. unfold tls13_record_layer_open_record_protected. apply wp_bind, wp_look. cbn [id fst].
  apply wp_bind, wp_check; intros Ha; [|done]. apply bool_decide_eq_true in Ha. apply wp_bind. eapply wp_valid; [done|].
  destruct (record_parts_safe rec (ok_rrec _ Hok _ Hrec)) as [Hh Hc].
  destruct (tls13_record_header rec) as [header|]; [|done]. destruct (tls13_record_content rec) as [enc_record|]; [|done].
  specialize (Hh _ eq_refl). specialize (Hc _ eq_refl). unfold window_ok in Hh, Hc.
  apply wp_bind, wp_check; intros _; [|done].
  destruct (ok_keys _ Hok Ha) as [(k & s & Hk) Hkw]. pose proof Hk as (Hctx & Hiv & Hn & Hs & Hs64).
  rewrite Hs, update_nonce_be by done. apply wp_bind, wp_upd.
  assert (Hput : forall p s', keyed p k s' -> forall a c, 0 <= a < 256 -> window_ok (tc_cbs c) -> layer_ok (rl <| rl_read := p |> <| rl_alert := a |> <| rl_rcontent := c |>)).
  { intros p s' Hp a c Hal Hcc. destruct Hok; constructor; try done. cbn. intros _. split; [by exists k, s'|done]. }
  set (nonce := record_nonce (rp_iv (rl_read rl)) s).
  assert (Hk1 : keyed ((rl_read rl) <| rp_nonce := nonce |>) k s).
  { eapply same_keyed; [exact Hk|]. exists nonce. split; [unfold nonce; by rewrite length_record_nonce|done]. }
  pose proof (ok_content _ Hok) as Hcont. pose proof (ok_alert _ Hok) as Hal.
  apply wp_bind. eapply wp_valid; [exact Hctx|]. apply wp_bind, wp_read_bytes; [apply Hc|]. apply wp_bind, wp_read_bytes; [apply Hh|].
  destruct (EVP_AEAD_CTX_open ops k _ _ _) as [content|] eqn:Eopen; [|exact (Hput _ s Hk1 _ _ Hal Hcont)].
  pose proof (open_len_law _ _ _ _ _ Eopen) as Hlen. rewrite zlen_ztake in Hlen by apply Hc. cbv zeta.
  apply wp_bind, wp_must; [by apply Z.leb_le|].
  destruct (_ <? zlen content); [apply wp_bind, wp_upd, wp_fail; exact (Hput _ s Hk1 TLS13_ALERT_RECORD_OVERFLOW _ ltac:(done) Hcont)|].
  rewrite inc_seq_num_be by done. destruct (Z.eqb_spec s (2 ^ 64 - 1)) as [E|E]; [exact (Hput _ s Hk1 _ _ Hal Hcont)|].
  apply wp_bind, wp_upd, wp_bind.
  assert (Hk2 : keyed (step_protection (rl_read rl) s) k (s + 1)) by (apply step_keyed; [done|lia]).
  set (inner := CBS_init content (zlen content)). pose proof (zlen_nonneg content).
  eapply wp_conseq; [apply wp_find_content_type; [unfold window_ok; cbn; lia|unfold inner; cbn [CBS_init cbs_len]; unfold zlen; lia]| |done].
  cbn beta. intros [t inner'] st (-> & Hw & _ & _).
  destruct (t =? 0); [apply wp_bind, wp_upd, wp_fail; exact (Hput _ _ Hk2 TLS13_ALERT_UNEXPECTED_MESSAGE _ ltac:(done) Hcont)|].
  destruct (_ <? _); [apply wp_bind, wp_upd, wp_fail; exact (Hput _ _ Hk2 TLS13_ALERT_RECORD_OVERFLOW _ ltac:(done) Hcont)|].
  apply wp_on_rcontent. unfold tls_content_set_data. apply wp_bind, wp_modify, wp_modify.
  exact (Hput _ _ Hk2 (rl_alert rl) (mkContent t 0 (CBS_data inner') (CBS_len inner') (CBS_init (CBS_data inner') (CBS_len inner'))) Hal Hw).
Qed.

Lemma open_record_safe rl w rec :
  layer_ok rl -> rl_rrec rl = Some rec ->
  wp (tls13_record_layer_open_record alloc_ok ops) (rl, w) (fun _ st => layer_ok st.1) (fun st => layer_ok st.1).
Proof using AeadLaws0.
  intros Hok Hrec. unfold tls13_record_layer_open_record. apply wp_bind, wp_look. cbn [id fst].
  apply wp_bind, wp_check; intros _; [|done]. case_bool_decide; [by eapply open_plaintext_safe|by eapply open_protected_safe].
Qed.

(** Reading an octet of a window. *)
Lemma get_u8_safe cbs : window_ok cbs -> wp CBS_get_u8 cbs (fun _ c => window_ok c) window_ok.
Proof using.
  intros Hw. unfold window_ok in Hw. unfold CBS_get_u8, cbs_get. unfold wp. mstep. cbn [id].
  destruct (Z.leb_spec 1 (cbs_len cbs)); [|done]. rewrite (proj2 (Z.leb_le _ _)) by lia.
  destruct (zget_Some (cbs_data cbs) 0) as [b ->]; [lia|]. unfold window_ok. cbn. rewrite zlen_zdrop; lia.
Qed.

Lemma process_alert_safe : total_call (tls13_record_layer_process_alert alloc_ok ops cb).
Proof using AeadLaws0.
  intros rl w Hok. unfold tls13_record_layer_process_alert. apply wp_bind, wp_look. cbn [id fst].
  destruct (negb _); [by apply wp_ret|]. apply wp_bind, wp_try, wp_on_rcontent.
  pose proof (ok_content _ Hok) as Hc.
  assert (Hparse : wp (on_cbs (level ← CBS_get_u8; desc ← CBS_get_u8; mret (level, desc))) (rl_rcontent rl)
    (fun _ c => window_ok (tc_cbs c)) (fun c => window_ok (tc_cbs c))).
  { pose proof (get_u8_safe _ Hc) as H1. revert H1. unfold wp, on_cbs. mstep.
    destruct (CBS_get_u8 (tc_cbs (rl_rcontent rl))) as [level c1|c1|]; [|done|done]. intros H1.
    pose proof (get_u8_safe _ H1) as H2. revert H2. unfold wp. by destruct (CBS_get_u8 c1). }
  eapply wp_conseq; [exact Hparse|cbn beta|cbn beta].
  2: { intros c Hcc. apply tls13_send_alert_safe; [done|by apply content_ok]. }
  intros [alert_level alert_desc] c Hcc. apply wp_bind, wp_look. cbn [id fst].
  destruct (negb _); [apply tls13_send_alert_safe; [done|by apply content_ok]|].
  apply wp_bind, wp_on_rcontent. unfold tls_content_clear. apply wp_modify.
  set (rl1 := _ <| rl_rcontent := mkContent _ _ _ _ _ |>). assert (Hok1 : layer_ok rl1) by (by apply content_ok; [apply content_ok|]).
  destruct (_ =? TLS13_ALERT_CLOSE_NOTIFY); [apply wp_bind, wp_upd; apply wp_bind; cbn; by keep_ok|].
  destruct (_ =? TLS13_ALERT_USER_CANCELED); [apply wp_bind; cbn; by keep_ok|].
  destruct (_ =? TLS13_ALERT_LEVEL_FATAL); [apply wp_bind, wp_upd; apply wp_bind; cbn; by keep_ok|].
  destruct (_ && _); [by apply wp_ret|]. by apply tls13_send_alert_safe.
Qed.

Lemma read_ccs_safe rl w rec : layer_ok rl -> record_ok rec ->
  wp (read_ccs alloc_ok ops cb rec) (rl, w) (fun _ st => layer_ok st.1) (fun _ => False).
Proof using AeadLaws0.
  intros Hok Hrec. unfold read_ccs. apply wp_bind, wp_look. cbn [id fst].
  destruct (_ || _); [by apply tls13_send_alert_safe|].
  destruct (record_parts_safe rec Hrec) as [_ Hc]. destruct (tls13_record_content rec) as [cbs|]; [|by apply tls13_send_alert_safe].
  pose proof (get_u8_safe cbs (Hc _ eq_refl)) as H1. revert H1. unfold wp at 1.
  destruct (CBS_get_u8 cbs) as [ccs cbs'|cbs'|]; [intros _|intros _|done]; [|by apply tls13_send_alert_safe].
  destruct (negb _); [by apply tls13_send_alert_safe|]. destruct (negb _); [by apply tls13_send_alert_safe|].
  apply wp_bind, wp_upd, wp_bind, wp_upd, wp_ret. cbn [fst]. by keep_ok.
Qed.

Lemma read_opened_safe : total_call (read_opened alloc_ok ops cb).
Proof using AeadLaws0.
  intros rl w Hok. unfold read_opened. apply wp_bind, wp_upd, wp_bind, wp_look. cbn [id fst].
  assert (Hok1 : layer_ok (rl <| rl_rrec := None |>)) by (by keep_ok).
  repeat (match goal with |- wp (if ?b then _ else _) _ _ _ => destruct b end);
    first [by apply wp_ret|by apply tls13_send_alert_safe|by apply process_alert_safe].
Qed.

Lemma read_received_safe rl w rec : layer_ok rl -> rl_rrec rl = Some rec ->
  wp (read_received alloc_ok ops cb) (rl, w) (fun _ st => layer_ok st.1) (fun _ => False).
Proof using AeadLaws0.
  intros Hok Hrec. unfold read_received. apply wp_bind, wp_look. cbn [id fst]. apply wp_bind. eapply wp_valid; [done|].
  destruct (_ && _ && _); [by apply tls13_send_alert_safe|]. destruct (_ =? _); [apply read_ccs_safe; [done|by apply (ok_rrec _ Hok)]|].
  destruct (_ && _); [by apply tls13_send_alert_safe|]. apply wp_bind, wp_try.
  eapply wp_conseq; [by eapply open_record_safe|cbn beta|cbn beta].
  - intros [] [rl1 w1] Hok1. by apply read_opened_safe.
  - intros st Hok1. by apply wp_ret.
Qed.

Lemma read_record_safe : total_call (tls13_record_layer_read_record alloc_ok ops cb).
Proof using AeadLaws0 Hread.
  intros rl w Hok. unfold tls13_record_layer_read_record. apply wp_bind, wp_look. cbn [id fst]. apply wp_bind.
  apply wp_conseq with (Q' := fun (_ : unit) (st : state) => layer_ok st.1) (E' := fun _ => False); [|cbn beta|done].
  { destruct (rl_rrec rl); [by apply wp_ret|]. apply wp_upd. cbn [fst]. keep_ok. cbn. intros rec Hr. by apply record_new_ok in Hr as [? _]. }
  intros [] [rl1 w1] Hok1. cbn [fst] in Hok1. clear rl w Hok. apply wp_bind, wp_look. cbn [id fst].
  destruct (rl_rrec rl1) as [rec|] eqn:Erec; [|by apply wp_ret]. apply wp_bind.
  pose proof (record_recv_safe alloc_ok (wire_read cb) Hread rec w1 (ok_rrec _ Hok1 _ Erec)) as Hw. revert Hw.
  unfold wp at 1 2. unfold on_rrec. rewrite Erec.
  destruct (tls13_record_recv alloc_ok (wire_read cb) (rec, w1)) as [ret [rec' w']| |]; [|done..]. cbn [fst]. intros [Hrec' _].
  assert (Hok2 : layer_ok (rl1 <| rl_rrec := Some rec' |>)) by (keep_ok; cbn; by intros ? [= <-]).
  destruct (ret <=? 0); [|by eapply read_received_safe].
  repeat (match goal with |- wp (if ?b then _ else _) _ _ _ => destruct b end);
    first [by apply wp_ret|by apply tls13_send_alert_safe].
Qed.

Lemma recv_phh_safe : looping_call (tls13_record_layer_recv_phh cb).
Proof using Hphh.
  intros rl w Hok. unfold tls13_record_layer_recv_phh. apply wp_bind, wp_upd, wp_bind.
  apply wp_conseq with (Q' := fun (_ : Z) (st : state) => layer_ok st.1) (E' := stuck); [|cbn beta|done].
  { destruct (phh_recv cb) as [f|]; [apply (Hphh f eq_refl)|apply wp_ret; cbn [fst]]; by keep_ok. }
  intros ret [rl1 w1] Hok1. cbn [fst] in Hok1. apply wp_bind, wp_on_rcontent. unfold tls_content_clear. apply wp_modify. apply wp_bind.
  assert (Hok2 : layer_ok (rl1 <| rl_rcontent := mkContent 0 0 [] 0 (mkCBS [] 0 0) |>)) by (by apply content_ok).
  destruct (negb _); [apply wp_upd|apply wp_ret]; apply wp_bind, wp_look, wp_ret; cbn [fst]; [|done].
  destruct Hok1. by constructor.
Qed.

Lemma content_read_safe n peek rl w : layer_ok rl -> 0 <= n ->
  wp (on_rcontent (tls_content_read_internal n peek)) (rl, w) (fun r st => layer_ok st.1 /\ zlen r.2 <= n) (fun _ => False).
Proof using.
  intros Hok Hn. apply wp_on_rcontent. pose proof (ok_content _ Hok) as Hc. unfold tls_content_read_internal. apply wp_bind, wp_gets. cbn [id].
  set (k := if _ <? n then _ else n). unfold window_ok in Hc.
  assert (Hk : 0 <= k <= cbs_len (tc_cbs (rl_rcontent rl)) /\ k <= n) by (unfold k, CBS_len; destruct (Z.ltb_spec (cbs_len (tc_cbs (rl_rcontent rl))) n); lia).
  apply wp_bind, wp_read_bytes; [unfold CBS_data; lia|].
  assert (Hz : zlen (ztake k (CBS_data (tc_cbs (rl_rcontent rl)))) <= n) by (unfold CBS_data; rewrite zlen_ztake; lia).
  destruct peek; [apply wp_ret; split; [apply content_ok, Hc; done|exact Hz]|]. apply wp_bind, wp_try.
  destruct (skip_window k (tc_cbs (rl_rcontent rl))) as [E Hw]; [done|lia|].
  unfold wp, on_cbs. rewrite E. mstep. split; [by apply content_ok|exact Hz].
Qed.

(** The octets of a read fit in the caller's buffer. *)
Definition read_fits (n : Z) (m : M state (Z * list Z)) : Prop :=
  forall rl w, layer_ok rl -> wp m (rl, w) (fun r st => layer_ok st.1 /\ zlen r.2 <= n) stuck.

Lemma no_octets_safe n m : 0 <= n -> looping_call m -> read_fits n (no_octets m).
Proof using. intros Hn Hm rl w Hok. unfold no_octets. apply wp_bind. eapply wp_conseq; [by apply Hm|cbn beta|done]. intros ret st Hok1. by apply wp_ret. Qed.

Lemma read_content_safe content_type n peek : 0 <= n -> read_fits n (read_content alloc_ok ops cb content_type n peek).
Proof using AeadLaws0 Hphh.
  intros Hn rl w Hok. unfold read_content. apply wp_bind, wp_look. cbn [id fst].
  destruct (_ && _); [apply no_octets_safe; [done|by apply total_looping, tls13_send_alert_safe|done]|].
  destruct (negb _); [destruct (_ && _); apply no_octets_safe; try done; [apply recv_phh_safe|by apply total_looping, tls13_send_alert_safe]|].
  destruct peek; (eapply wp_conseq; [by apply content_read_safe|done|done]).
Qed.

Lemma read_internal_safe content_type n peek : 0 <= n -> read_fits n (tls13_record_layer_read_internal alloc_ok ops cb content_type n peek).
Proof using AeadLaws0 Hread Hphh.
  intros Hn rl w Hok. unfold tls13_record_layer_read_internal. apply wp_bind. eapply wp_conseq; [by apply send_pending_safe|cbn beta|by intros ?].
  intros ret [rl1 w1] [Hok1 _]. cbn [fst] in Hok1. destruct (negb _); [by apply wp_ret|].
  apply wp_bind, wp_look. cbn [id fst]. destruct (rl_read_closed rl1); [by apply wp_ret|].
  destruct (_ =? 0); [|by apply read_content_safe].
  apply wp_bind. eapply wp_conseq; [by apply read_record_safe|cbn beta|by intros ?]. intros ret2 [rl2 w2] Hok2. cbn [fst] in Hok2.
  destruct (ret2 <=? 0); [by apply wp_ret|]. apply wp_bind, wp_look. cbn [id fst].
  destruct (_ =? 0); [by apply wp_ret|]. by apply read_content_safe.
Qed.

(** *** Sequences of calls *)

(** Calls of the record layer: [Try_read] and [Try_write] are one pass through the
    loops of [tls13_record_layer_read], [_peek] and [_write], and the others do not
    touch the keys.  Tls13RecordOwner.v has the loops, the keys and the rest of the
    interface. *)
Inductive layer_call : Type :=
  | Try_read (content_type n : Z) (peek : bool)
  | Try_write (content_type : Z) (buf : list Z) (n : Z)
  | Pending
  | Alert (desc : Z)
  | Queue_phh (cbs : CBS)
  | Allow_ccs (allow : bool)
  | Allow_legacy_alerts (allow : bool)
  | Set_legacy_version (version : Z)
  | Handshake_completed.

Definition call_ok (c : layer_call) : Prop :=
  match c with
  | Try_read _ n _ => 0 <= n
  | Try_write content_type buf n => 0 <= content_type < 256 /\ 0 <= n <= zlen buf
  | Alert desc => 0 <= desc < 256
  | Queue_phh cbs => window_ok cbs
  | Set_legacy_version version => 0 <= version < 65536
  | _ => True
  end.

(** The result of a call and the octets it stored. *)
Definition run_call (c : layer_call) : M state (Z * list Z) :=
  match c with
  | Try_read content_type n peek => tls13_record_layer_read_internal alloc_ok ops cb content_type n peek
  | Try_write content_type buf n => no_octets (tls13_record_layer_write_chunk alloc_ok ops cb content_type buf n)
  | Pending => no_octets (tls13_record_layer_send_pending alloc_ok ops cb)
  | Alert desc => no_octets (tls13_send_alert alloc_ok ops cb desc)
  | Queue_phh cbs => no_octets (tls13_record_layer_phh alloc_ok ops cb cbs)
  | Allow_ccs allow => tls13_record_layer_allow_ccs allow;; mret (0, [])
  | Allow_legacy_alerts allow => tls13_record_layer_allow_legacy_alerts allow;; mret (0, [])
  | Set_legacy_version version => tls13_record_layer_set_legacy_version version;; mret (0, [])
  | Handshake_completed => tls13_record_layer_handshake_completed;; mret (0, [])
  end.

Fixpoint run_calls (cs : list layer_call) : M state (list (Z * list Z)) :=
  match cs with
  | [] => mret []
  | c :: cs => r ← run_call c; rs ← run_calls cs; mret (r :: rs)
  end.

(** The octets stored fit in the buffer of the caller. *)
Definition call_fits (c : layer_call) (r : Z * list Z) : Prop :=
  zlen r.2 <= match c with Try_read _ n _ => n | _ => 0 end.

Lemma stow_safe cbs : window_ok cbs ->
  match CBS_stow alloc_ok cbs with
  | Ret (data, len) _ => window_ok (CBS_init (default [] data) len)
  | Fail _ => True
  | UB => False
  end.
Proof using.
  intros Hw. unfold window_ok in *. unfold CBS_stow, read_bytes. mstep. cbn [id].
  destruct (Z.eqb_spec (cbs_len cbs) 0); [done|]. destruct (alloc_ok (cbs_len cbs)); [|done].
  rewrite (proj2 (Z.leb_le _ _)) by lia. cbn [from_option id CBS_init cbs_len cbs_data]. rewrite zlen_ztake; lia.
Qed.

Lemma phh_safe cbs : window_ok cbs -> total_call (tls13_record_layer_phh alloc_ok ops cb cbs).
Proof using AeadLaws0.
  intros Hw rl w Hok. unfold tls13_record_layer_phh. apply wp_bind, wp_look. cbn [id fst].
  destruct (rl_phh_data rl); [by apply wp_ret|]. pose proof (stow_safe cbs Hw) as Hs.
  destruct (CBS_stow alloc_ok cbs) as [[data len] c|c|]; [|by apply wp_ret|done].
  apply wp_bind, wp_upd. eapply wp_conseq; [apply send_pending_safe; by keep_ok|cbn beta|done]. by intros ret st [? _].
Qed.

Lemma run_call_safe c rl w : call_ok c -> layer_ok rl ->
  wp (run_call c) (rl, w) (fun r st => layer_ok st.1 /\ call_fits c r) stuck.
Proof using AeadLaws0 Hread Hphh.
  intros Hc Hok. unfold call_fits. destruct c as [ct n peek|ct buf n| |desc|cbs|b|b|v|]; cbn [run_call call_ok] in *.
  - by apply read_internal_safe.
  - apply no_octets_safe; [done|apply total_looping|done]. intros rl1 w1 Hok1. eapply wp_conseq; [apply write_chunk_safe; [apply Hc|apply Hc|done]|cbn beta|done]. by intros ? ? [? _].
  - apply no_octets_safe; [done|apply total_looping|done]. intros rl1 w1 Hok1. eapply wp_conseq; [by apply send_pending_safe|cbn beta|done]. by intros ? ? [? _].
  - apply no_octets_safe; [done|by apply total_looping, tls13_send_alert_safe|done].
  - apply no_octets_safe; [done|by apply total_looping, phh_safe|done].
  - apply wp_bind, wp_upd, wp_ret. cbn [fst]. split; [by keep_ok|done].
  - apply wp_bind, wp_upd, wp_ret. cbn [fst]. split; [by keep_ok|done].
  - apply wp_bind, wp_upd, wp_ret. cbn [fst]. split; [by keep_ok|done].
  - apply wp_bind, wp_upd, wp_ret. cbn [fst]. split; [by keep_ok|done].
Qed.

Lemma run_calls_safe cs : forall rl w, Forall call_ok cs -> layer_ok rl ->
  wp (run_calls cs) (rl, w) (fun rs st => layer_ok st.1 /\ Forall2 call_fits cs rs) stuck.
Proof using AeadLaws0 Hread Hphh.
  induction cs as [|c cs IH]; intros rl w Hcs Hok; cbn [run_calls]; [apply wp_ret; by split|].
  apply Forall_cons in Hcs as [Hc Hcs]. apply wp_bind. eapply wp_conseq; [by apply run_call_safe|cbn beta|done].
  intros r [rl1 w1] [Hok1 Hr]. apply wp_bind. eapply wp_conseq; [by apply IH|cbn beta|done].
  intros rs st [Hok2 Hrs]. apply wp_ret. split; [done|by constructor].
Qed.

(** *** Closed record layers *)

Definition closed rl : Prop := rl_read_closed rl = true /\ rl_write_closed rl = true.

(** The calls that move data. *)
Definition moves_data (c : layer_call) : bool :=
  match c with Try_read _ _ _ | Try_write _ _ _ => true | _ => false end.

Lemma closed_write content_type content n rl w :
  closed rl -> tls13_record_layer_write_record alloc_ok ops cb content_type content n (rl, w) = Ret TLS_IO_EOF (rl, w).
Proof using. intros [_ Hc]. unfold tls13_record_layer_write_record, look. mstep. cbn [fst id]. by rewrite Hc. Qed.

Lemma closed_pending rl w :
  closed rl -> layer_ok rl -> exists ret, tls13_record_layer_send_pending alloc_ok ops cb (rl, w) = Ret ret (rl, w) /\
    (ret = TLS_IO_EOF \/ ret = TLS_IO_ALERT \/ ret = TLS_IO_SUCCESS).
Proof using.
  intros Hc Hok. unfold tls13_record_layer_send_pending, look. mstep. cbn [fst id].
  assert (Hp : tls13_record_layer_send_phh alloc_ok ops cb (rl, w) = Ret TLS_IO_EOF (rl, w)).
  { unfold tls13_record_layer_send_phh, tls13_record_layer_write_chunk, look. mstep. cbn [fst id]. by rewrite closed_write. }
  destruct (_ && _); [eexists; split; [exact Hp|by left]|]. case_bool_decide as Ha.
  - unfold tls13_record_layer_send_alert, look. mstep. cbn [fst id].
    destruct (rl_alert_data rl) as [d|] eqn:E; [|done]. rewrite closed_write by done.
    destruct (ok_alert_data _ Hok _ E) as [-> _]. eexists. split; [reflexivity|by right; left].
  - case_bool_decide; [eexists; split; [exact Hp|by left]|]. eexists. split; [reflexivity|by right; right].
Qed.

Lemma closed_run_call c rl w :
  alert_send cb = None -> closed rl -> layer_ok rl -> call_ok c ->
  wp (run_call c) (rl, w) (fun r st => closed st.1 /\ st.2 = w /\ (moves_data c = true -> r.1 <= 0 /\ r.2 = [])) (fun _ => False).
Proof using.
  intros Hsend Hcl Hok Hc. destruct c as [ct n peek|ct buf n| |desc|cbs|b|b|v|]; cbn [run_call call_ok moves_data] in *.
  - destruct (closed_pending rl w Hcl Hok) as (ret & E & Hret). unfold wp, tls13_record_layer_read_internal, look. mstep. rewrite E.
    destruct Hret as [-> | [-> | ->]]; [by split_and!..|]. rewrite Z.eqb_refl. cbn [negb fst id]. rewrite (proj1 Hcl). by split_and!.
  - unfold wp, no_octets, tls13_record_layer_write_chunk. mstep. rewrite closed_write by done. by split_and!.
  - destruct (closed_pending rl w Hcl Hok) as (ret & E & Hret). unfold wp, no_octets. mstep. rewrite E. by split_and!.
  - unfold no_octets. apply wp_bind. unfold tls13_send_alert. rewrite Hsend. cbv zeta.
    lazymatch goal with |- wp (while_retry _ _ (tls13_record_layer_enqueue_alert _ _ _ ?l _)) _ _ _ =>
      assert (Hl : 0 <= l < 256) by (by destruct (_ || _)); generalize dependent l; intros level Hl end.
    cbn [while_retry]. apply wp_bind. unfold tls13_record_layer_enqueue_alert at 1. apply wp_bind, wp_look. cbn [fst id].
    destruct (rl_alert_data rl) as [d|]; [apply wp_ret; by split_and!|]. apply wp_bind, wp_try.
    eapply wp_cbb_build; [lia| |by apply build_alert| |].
    + repeat (apply Forall_cons; split; [cbn; lia|]). constructor.
    + intros buf Hb Hz. apply wp_bind, wp_upd.
      set (rl1 := _ <| rl_alert_desc := desc |>). assert (Hok1 : layer_ok rl1) by (keep_ok; cbn; intros d [= <-]; by split).
      destruct (closed_pending rl1 w ltac:(done) Hok1) as (ret & E & Hret). unfold wp at 1. rewrite E.
      destruct Hret as [-> | [-> | ->]]; by split_and!.
    + intros _. apply wp_ret. by split_and!.
  - unfold no_octets. apply wp_bind. unfold tls13_record_layer_phh. apply wp_bind, wp_look. cbn [fst id].
    destruct (rl_phh_data rl); [by apply wp_ret|]. pose proof (stow_safe cbs Hc) as Hs.
    destruct (CBS_stow alloc_ok cbs) as [[data len] c'|c'|]; [|by apply wp_ret|done].
    apply wp_bind, wp_upd. set (rl1 := _ <| rl_phh_cbs := _ |>). assert (Hok1 : layer_ok rl1) by (by keep_ok).
    destruct (closed_pending rl1 w ltac:(done) Hok1) as (ret & E & Hret). unfold wp. rewrite E. by split_and!.
  - done.
  - done.
  - done.
  - done.
Qed.

Lemma closed_run_calls cs : forall rl w,
  alert_send cb = None -> closed rl -> layer_ok rl -> Forall call_ok cs ->
  wp (run_calls cs) (rl, w)
    (fun rs st => closed st.1 /\ st.2 = w /\ Forall2 (fun c r => moves_data c = true -> r.1 <= 0 /\ r.2 = []) cs rs) (fun _ => False).
Proof using AeadLaws0 Hread Hphh.
  induction cs as [|c cs IH]; intros rl w Hs Hcl Hok Hcs; cbn [run_calls]; [apply wp_ret; by split_and!|].
  apply Forall_cons in Hcs as [Hc Hcs]. apply wp_bind.
  eapply wp_conseq; [exact (wp_and _ _ _ _ _ _ (closed_run_call c rl w Hs Hcl Hok Hc) (run_call_safe c rl w Hc Hok))|cbn beta|by intros ? []].
  intros r [rl1 w1] [(Hcl1 & E & Hr) [Hok1 _]]. cbn [fst snd] in *. subst w1. apply wp_bind. eapply wp_conseq; [by apply IH|cbn beta|done].
  intros rs st (? & ? & ?). apply wp_ret. split_and!; [done..|]. by constructor.
Qed.
End safety.

(** ** An alert that is sent *)

Section alert.
Context (alloc_ok : Z -> bool) {A H K W : Type} (Hm : forall n, alloc_ok n = true).
Context (ops : aead_ops A H K) `{!AeadLaws ops} (cb : tls13_record_layer_callbacks A H K W) `{!Writer (wire_write cb)}.
Context (Hsent : forall level desc w, outgoing (alert_sent cb level desc w) = outgoing w).
Abbreviation record_layer := (tls13_record_layer A H K).
Abbreviation state := (tls13_record_layer A H K * W)%type.
Implicit Types (rl : record_layer) (w : W).

(** The record layer with an alert queued. *)
Definition with_alert (buf : list Z) (level desc : Z) rl : record_layer :=
  rl <| rl_alert_data := Some buf |> <| rl_alert_len := 2 |> <| rl_alert_level := level |> <| rl_alert_desc := desc |>.

(** A fatal alert that was sent, or is being sent. *)
Definition alert_gone rl w wire (ret : Z) (st : state) : Prop :=
  ret = TLS_IO_ALERT /\ closed st.1 /\ outgoing st.2 = outgoing w ++ wire.

Definition alert_going p level desc rl w rest (ret : Z) (st : state) : Prop :=
  ret = TLS_IO_WANT_POLLOUT /\ (wstalls st.2 < wstalls w)%nat /\
  exists buf sent left rec wl, ztake 2 buf = [level; desc] /\ 2 <= zlen buf /\
    rest = sent ++ left /\ outgoing st.2 = outgoing w ++ sent /\ rec_sending rec wl left /\ 0 < wl /\
    st.1 = put_write p (Some rec) 2 SSL3_RT_ALERT (with_alert buf level desc rl).

(** Sending the queued alert, once its record is started or to be started. *)
Lemma wp_send_queued p buf level desc rl rl1 w (Rest : list Z -> Prop) :
  ztake 2 buf = [level; desc] -> 2 <= zlen buf -> desc <> TLS13_ALERT_CLOSE_NOTIFY -> desc <> TLS13_ALERT_USER_CANCELED ->
  rl_alert_data rl1 = Some buf -> rl_alert_len rl1 = 2 -> rl_phh_data rl1 = None ->
  wp (tls13_record_layer_write_record alloc_ok ops cb SSL3_RT_ALERT [level; desc] 2) (rl1, w)
    (fun ret st => exists wire, Rest wire /\ pushed cb p (with_alert buf level desc rl) w (SSL3_RT_ALERT, [level; desc]) wire ret st) (fun _ => False) ->
  wp (tls13_record_layer_send_pending alloc_ok ops cb) (rl1, w)
    (fun ret st => exists wire, Rest wire /\ (alert_gone rl w wire ret st \/ alert_going p level desc rl w wire ret st)) (fun _ => False).
Proof using Hsent.
  intros Hb Hz Hd1 Hd2 Ha Hal Hp Hw. unfold tls13_record_layer_send_pending. apply wp_bind, wp_look. cbn [id fst].
  rewrite Hp, Ha. cbn [andb bool_decide]. rewrite bool_decide_eq_false_2 by (intros []; done). rewrite bool_decide_eq_true_2 by done. cbn [andb].
  unfold tls13_record_layer_send_alert. apply wp_bind, wp_look. cbn [id fst]. rewrite Ha. apply wp_bind. eapply wp_valid; [done|].
  rewrite Hal. apply wp_bind. rewrite write_take by lia. rewrite Hb. eapply wp_conseq; [exact Hw|cbn beta|done].
  intros ret [rl2 w2] (wire & HR & sent & left & -> & Ho & Hst). cbn [fst snd] in *.
  destruct Hst as [(-> & -> & _ & len & ty & ->)|(Hl & -> & Hlt & rec & wl & Hs & Hwl & ->)].
  - change (zlen [level; desc] =? 2) with true. cbn [negb]. apply wp_bind, wp_upd, wp_bind, wp_look. cbn [id fst].
    set (rl3 := _ <| rl_alert_len := 0 |>). change (rl_alert_desc rl3) with desc. change (rl_alert_level rl3) with level.
    rewrite (proj2 (Z.eqb_neq desc _)), (proj2 (Z.eqb_neq desc _)) by done.
    apply wp_bind, wp_bind, wp_upd, wp_ret, wp_bind. unfold wp, tls13_record_layer_alert_sent, call. mstep.
    exists (sent ++ []). split; [done|left]. rewrite app_nil_r. split; [done|]. split; [done|]. cbn [snd]. by rewrite Hsent.
  - change (negb (TLS_IO_WANT_POLLOUT =? 2)) with true. cbv iota. apply wp_ret. exists (sent ++ left). split; [done|right].
    split; [done|]. split; [done|]. by exists buf, sent, left, rec, wl.
Qed.

(** The owner that flushes what is pending when it was told to wait for output. *)
Fixpoint pending_retry (n : nat) (m : M state Z) : M state Z :=
  ret ← m;
  match n with
  | O => mret ret
  | S n => if ret =? TLS_IO_WANT_POLLOUT then pending_retry n (tls13_record_layer_send_pending alloc_ok ops cb) else mret ret
  end.

Lemma wp_pending_retry n p level desc rl (m : M state Z) rl1 : forall w (Rest : list Z -> Prop),
  desc <> TLS13_ALERT_CLOSE_NOTIFY -> desc <> TLS13_ALERT_USER_CANCELED ->
  write_idle rl -> rl_phh_data rl = None -> (wstalls w <= n)%nat ->
  wp m (rl1, w) (fun ret st => exists wire, Rest wire /\ (alert_gone rl w wire ret st \/ alert_going p level desc rl w wire ret st)) (fun _ => False) ->
  wp (pending_retry n m) (rl1, w) (fun ret st => exists wire, Rest wire /\ alert_gone rl w wire ret st) (fun _ => False).
Proof using Type*.
  revert m rl1. induction n as [|n IH]; intros m rl1 w Rest Hd1 Hd2 Hi Hp Hn Hw; cbn [pending_retry]; apply wp_bind;
    (eapply wp_conseq; [exact Hw|cbn beta|done]); intros ret [rl2 w2] (wire & HR & [Hg|Hg]).
  - apply wp_ret. by exists wire.
  - destruct Hg as (_ & ? & _). cbn [snd] in *. lia.
  - rewrite (proj2 (Z.eqb_neq _ _)) by (by destruct Hg as (-> & _)). apply wp_ret. by exists wire.
  - destruct Hg as (-> & Hlt & buf & sent & left & rec & wl & Hb & Hz & -> & Ho & Hs & Hwl & E). cbn [fst snd] in *. subst rl2. rewrite Z.eqb_refl.
    eapply wp_conseq; [apply (IH _ _ w2 (fun rest => rest = left)); try done|cbn beta|done].
    + lia.
    + eapply (wp_send_queued p buf level desc rl); [done..|].
      eapply wp_conseq; [apply (wp_write_more alloc_ok Hm ops cb p (with_alert buf level desc rl) w2 (SSL3_RT_ALERT, [level; desc]) rec wl left); try done|cbn beta|done].
      intros ret st Hpushed. by exists left.
    + intros ret st (_ & -> & -> & Hc & Ho2). exists (sent ++ left). split; [done|]. split; [done|]. split; [done|]. by rewrite Ho2, Ho, app_assoc.
Qed.

Lemma wp_send_fatal n desc rl w e :
  alert_send cb = None -> 0 <= desc < 256 -> desc <> TLS13_ALERT_CLOSE_NOTIFY -> desc <> TLS13_ALERT_USER_CANCELED ->
  sender_idle rl -> writes_in ops rl e -> epoch_lasts e 1 -> (wstalls w <= n)%nat ->
  wp (pending_retry n (tls13_send_alert alloc_ok ops cb desc)) (rl, w)
    (fun ret st => exists wire, wire_of ops e (SSL3_RT_ALERT, [TLS13_ALERT_LEVEL_FATAL; desc]) wire /\ alert_gone rl w wire ret st) (fun _ => False).
Proof using Type*.
  intros Hcb Hd Hd1 Hd2 Hidle Hw He Hn. pose proof (sender_write_idle _ Hidle) as Hwi. destruct Hidle as (_ & _ & _ & Ha & Hp).
  unfold tls13_send_alert. rewrite Hcb, (proj2 (Z.eqb_neq desc _)), (proj2 (Z.eqb_neq desc _)) by done. cbn [orb]. cbv zeta.
  eapply (wp_pending_retry n (next_write (rl_write rl) e) TLS13_ALERT_LEVEL_FATAL desc rl); [done..|].
  apply wp_while_retry_once; [lia|].
  apply wp_conseq with (Q' := fun (ret : Z) (st : state) => exists wire, wire_of ops e (SSL3_RT_ALERT, [TLS13_ALERT_LEVEL_FATAL; desc]) wire /\
    (alert_gone rl w wire ret st \/ alert_going (next_write (rl_write rl) e) TLS13_ALERT_LEVEL_FATAL desc rl w wire ret st)) (E' := fun _ => False); [| |done].
  2: { cbn beta. intros ret st (wire & Hwire & Hr). split; [|by exists wire]. by destruct Hr as [(-> & _)|(-> & _)]. }
  unfold tls13_record_layer_enqueue_alert. apply wp_bind, wp_look. cbn [id fst]. rewrite Ha. apply wp_bind, wp_try.
  eapply wp_cbb_build; [lia| |by apply build_alert| |].
  - repeat (apply Forall_cons; split; [cbn [cmd_ok]; unfold TLS13_ALERT_LEVEL_FATAL; lia|]). constructor.
  - intros buf Hb Hz. change (zlen [TLS13_ALERT_LEVEL_FATAL; desc]) with 2 in *. apply wp_bind, wp_upd.
    eapply (wp_send_queued (next_write (rl_write rl) e) buf TLS13_ALERT_LEVEL_FATAL desc rl (with_alert buf TLS13_ALERT_LEVEL_FATAL desc rl)); [done..|].
    assert (Hf : fits SSL3_RT_ALERT [TLS13_ALERT_LEVEL_FATAL; desc]) by (by split).
    assert (Hw' : writes_in ops (with_alert buf TLS13_ALERT_LEVEL_FATAL desc rl) e) by (by destruct e).
    eapply wp_conseq; [apply (wp_write_first alloc_ok Hm ops cb (with_alert buf TLS13_ALERT_LEVEL_FATAL desc rl) w (SSL3_RT_ALERT, [TLS13_ALERT_LEVEL_FATAL; desc]) e); try done|cbn beta|done].
    { cbn [snd]. apply Forall_cons. split; [by unfold is_byte, TLS13_ALERT_LEVEL_FATAL|by apply Forall_singleton]. }
    intros ret st (wire & Hwire & Hpushed). by exists wire.
  - intros Hno. by destruct Hno.
Qed.
End alert.

(** A CBS of two octets. *)
Lemma get_two_octets x y c :
  contents c = [x; y] -> window_ok c ->
  exists c', (level ← CBS_get_u8; desc ← CBS_get_u8; mret (level, desc)) c = Ret (x, y) c' /\ cbs_len c' = 0.
Proof.
  intros Hc Hw. pose proof (zlen_window _ Hw) as Hz. rewrite Hc in Hz. change (zlen [x; y]) with 2 in Hz.
  unfold contents, window_ok in *. rewrite <- Hz in *. destruct c as [cdata cinit clen]. cbn [cbs_data cbs_len] in *. subst clen.
  destruct cdata as [|a [|b cdata]]; try (unfold zlen in Hw; cbn [length] in Hw; lia). rewrite !ztake_cons in Hc by lia.
  injection Hc as -> ->. pose proof (zlen_nonneg cdata). unfold CBS_get_u8, cbs_get. mstep. cbn [id cbs_len cbs_data]. change (1 <=? 2) with true. cbv iota.
  rewrite (proj2 (Z.leb_le 1 _)) by (rewrite !zlen_cons; lia). rewrite zget_cons_0. cbn [cbs_advance cbs_data cbs_len cbs_initial_len]. change (1 <=? 2 - 1) with true. cbv iota.
  rewrite zdrop_cons by lia. change (1 - 1) with 0. rewrite zdrop_0, (proj2 (Z.leb_le 1 _)) by (rewrite !zlen_cons; lia). rewrite zget_cons_0.
  by eexists.
Qed.

Lemma wp_fatal_alert {A H K W} alloc_ok (ops : aead_ops A H K) (cb : tls13_record_layer_callbacks A H K W) desc rl w :
  content_of SSL3_RT_ALERT [TLS13_ALERT_LEVEL_FATAL; desc] (rl_rcontent rl) ->
  desc <> TLS13_ALERT_CLOSE_NOTIFY -> desc <> TLS13_ALERT_USER_CANCELED ->
  wp (tls13_record_layer_process_alert alloc_ok ops cb) (rl, w)
    (fun ret st => ret = TLS_IO_ALERT /\ st.2 = alert_recv cb TLS13_ALERT_LEVEL_FATAL desc w /\ closed st.1) (fun _ => False).
Proof.
  intros (Hty & Hc & Hw) Hd1 Hd2. unfold tls13_record_layer_process_alert. apply wp_bind, wp_look. cbn [id fst].
  unfold tls_content_type. rewrite Hty. change (negb (SSL3_RT_ALERT =? SSL3_RT_ALERT)) with false. cbv iota.
  apply wp_bind, wp_try, wp_on_rcontent. destruct (get_two_octets _ _ _ Hc Hw) as (c' & E & Hl).
  unfold wp at 1, on_cbs. rewrite E. apply wp_bind, wp_look. cbn [id fst].
  unfold tls_content_remaining, CBS_len. field_is (@rl_rcontent A H K) (tls_content_set_cbs c' (rl_rcontent rl)). cbn [tls_content_set_cbs tc_cbs].
  rewrite Hl, Z.eqb_refl. cbn [negb]. apply wp_bind, wp_on_rcontent. unfold tls_content_clear. apply wp_modify.
  rewrite (proj2 (Z.eqb_neq desc _)), (proj2 (Z.eqb_neq desc _)) by done. change (TLS13_ALERT_LEVEL_FATAL =? TLS13_ALERT_LEVEL_FATAL) with true. cbv iota.
  apply wp_bind, wp_upd. apply wp_bind. unfold wp, call. mstep. done.
Qed.

(** ** The properties *)

(** C20. A fatal alert of the peer ends the connection: processing it reports it to
    the owner and closes both directions, and from then on no sequence of calls
    reads from the wire, writes to it or delivers data; every attempt to read or
    write data returns end of file or an error. *)
Theorem fatal_alert_silences {A H K W} alloc_ok (ops : aead_ops A H K) `{!AeadLaws ops} (cb : tls13_record_layer_callbacks A H K W) desc rl w :
  bounded_reader (wire_read cb) ->
  (forall f, phh_recv cb = Some f -> forall rl w, layer_ok rl -> wp f (rl, w) (fun _ st => layer_ok st.1) (fun _ => False)) ->
  alert_send cb = None -> layer_ok rl ->
  content_of SSL3_RT_ALERT [TLS13_ALERT_LEVEL_FATAL; desc] (rl_rcontent rl) ->
  desc <> TLS13_ALERT_CLOSE_NOTIFY -> desc <> TLS13_ALERT_USER_CANCELED ->
  exists rl1, let w1 := alert_recv cb TLS13_ALERT_LEVEL_FATAL desc w in
    tls13_record_layer_process_alert alloc_ok ops cb (rl, w) = Ret TLS_IO_ALERT (rl1, w1) /\
    forall cs, Forall call_ok cs -> exists rs st, run_calls alloc_ok ops cb cs (rl1, w1) = Ret rs st /\
      st.2 = w1 /\ closed st.1 /\ Forall2 (fun c r => moves_data c = true -> r.1 <= 0 /\ r.2 = []) cs rs.
Proof.
  intros Hread Hphh Hsend Hok (Hty & Hc & Hw) Hd1 Hd2.
  pose proof (wp_fatal_alert alloc_ok ops cb desc rl w (conj Hty (conj Hc Hw)) Hd1 Hd2) as Hproc.
  apply wp_total in Hproc as (ret & [rl1 w1] & E & -> & E1 & Hcl). cbn [fst snd] in *. subst w1.
  exists rl1. split; [exact E|]. intros cs Hcs.
  pose proof (wp_Ret _ _ _ _ _ _ (process_alert_safe alloc_ok ops cb rl w Hok) E) as Hok1. cbn [fst] in Hok1.
  destruct (wp_total _ _ _ (closed_run_calls alloc_ok ops cb Hread (fun _ => False) Hphh cs rl1 (alert_recv cb TLS13_ALERT_LEVEL_FATAL desc w) Hsend Hcl Hok1 Hcs)) as (rs & st & E2 & ? & ? & ?).
  by exists rs, st.
Qed.

(** C30. A fatal alert is delivered: sent on an idle record layer and flushed when
    the wire makes the caller wait, after at most as many calls as there are waits
    exactly one record with the alert is on the wire, the record layer is closed in
    both directions and the caller is told. *)
Theorem fatal_alert_is_delivered {A H K W} (ops : aead_ops A H K) `{!AeadLaws ops}
    (cb : tls13_record_layer_callbacks A H K W) `{!Writer (wire_write cb)} desc rl w e :
  (forall level desc w, outgoing (alert_sent cb level desc w) = outgoing w) -> alert_send cb = None ->
  0 <= desc < 256 -> desc <> TLS13_ALERT_CLOSE_NOTIFY -> desc <> TLS13_ALERT_USER_CANCELED ->
  sender_idle rl -> writes_in ops rl e -> epoch_lasts e 1 ->
  exists st wire, pending_retry (fun _ => true) ops cb (wstalls w) (tls13_send_alert (fun _ => true) ops cb desc) (rl, w) = Ret TLS_IO_ALERT st /\
    wire_of ops e (SSL3_RT_ALERT, [TLS13_ALERT_LEVEL_FATAL; desc]) wire /\ outgoing st.2 = outgoing w ++ wire /\ closed st.1.
Proof.
  intros Hsent Hcb Hd Hd1 Hd2 Hidle Hw He.
  destruct (wp_total _ _ _ (wp_send_fatal (fun _ => true) ltac:(done) ops cb Hsent (wstalls w) desc rl w e Hcb Hd Hd1 Hd2 Hidle Hw He ltac:(done)))
    as (ret & st & E & wire & Hwire & -> & Hcl & Ho). by exists st, wire.
Qed.

(** C31. The loop of tls13_send_alert never retries: when the alert has to wait for a
    post-handshake message that is partly sent and does not fit in one more record,
    the attempt to send it again is refused because the alert of the first attempt is
    still queued, so the function fails although the alert stays pending. *)
Theorem tls13_send_alert_gives_up {A H K W} alloc_ok (ops : aead_ops A H K) `{!AeadLaws ops} (cb : tls13_record_layer_callbacks A H K W)
    desc rl w st :
  alert_send cb = None -> 0 <= desc < 256 -> desc <> TLS13_ALERT_CLOSE_NOTIFY -> desc <> TLS13_ALERT_USER_CANCELED -> layer_ok rl ->
  tls13_record_layer_enqueue_alert alloc_ok ops cb TLS13_ALERT_LEVEL_FATAL desc (rl, w) = Ret TLS_IO_WANT_RETRY st ->
  tls13_send_alert alloc_ok ops cb desc (rl, w) = Ret TLS_IO_FAILURE st /\ rl_alert_data st.1 <> None.
Proof.
  intros Hcb Hd Hd1 Hd2 Hok E.
  pose proof (wp_Ret _ _ _ _ _ _ (enqueue_alert_safe alloc_ok ops cb TLS13_ALERT_LEVEL_FATAL desc rl w ltac:(done) Hd Hok) E) as [_ Ha].
  specialize (Ha eq_refl). split; [|done].
  unfold tls13_send_alert. rewrite Hcb, (proj2 (Z.eqb_neq desc _)), (proj2 (Z.eqb_neq desc _)) by done. cbn [orb]. cbv zeta.
  cbn [while_retry]. mstep. rewrite E. change (wants_retry TLS_IO_WANT_RETRY) with true. cbv iota.
  unfold tls13_record_layer_enqueue_alert, look. mstep. cbn [id]. by destruct (rl_alert_data st.1).
Qed.

(** ** Concrete runs *)

(** A wire on which any octets arrive and that takes all that is written. *)
Definition any_read : tls_read_cb (list Z * list Z) := fun n '(arrived, sent) =>
  (Z.min n (zlen arrived), map u8 (ztake n arrived), (zdrop n arrived, sent)).
Definition any_write : tls_write_cb (list Z * list Z) := fun octets '(arrived, sent) => (zlen octets, (arrived, sent ++ octets)).
Definition any_callbacks : tls13_record_layer_callbacks unit unit Z (list Z * list Z) :=
  mkCallbacks unit unit Z _ any_read any_write (fun w => (TLS_IO_SUCCESS, w)) None None None None None
    (fun _ _ w => w) (fun _ _ w => w) None (fun w => w).

Lemma any_read_bounded : bounded_reader (wire_read any_callbacks).
Proof.
  intros n [arrived sent] Hn. cbn [any_callbacks wire_read any_read fst snd]. split.
  - unfold zlen, ztake. rewrite length_map, length_take. lia.
  - apply Forall_forall. intros x (y & <- & _)%list_elem_of_In%in_map_iff. unfold is_byte, u8. apply Z.mod_pos_bound. lia.
Qed.

Lemma no_phh_recv : forall f, phh_recv any_callbacks = Some f -> forall rl w, layer_ok rl -> wp f (rl, w) (fun _ st => layer_ok st.1) (fun _ => False).
Proof. done. Qed.

Lemma sum_layer_ok s : 0 <= s < 2 ^ 64 -> layer_ok (sum_layer s).
Proof.
  intros Hs. constructor; try done. intros _. split; exists 7, s; by apply sum_keyed.
Qed.

(** Octets that are no record. *)
Definition garbage : list Z * list Z := ([23; 3; 3; 0; 2; 9; 9; 300; -1], []).

Definition alerted_layer : tls13_record_layer unit unit Z :=
  (sum_layer 255) <| rl_rcontent := mkContent SSL3_RT_ALERT 0 [2; 40] 2 (CBS_init [2; 40] 2) |>.

Lemma fatal_alert_silences_witness :
  exists rl1, let w1 := alert_recv any_callbacks TLS13_ALERT_LEVEL_FATAL 40 garbage in
    tls13_record_layer_process_alert (fun _ => true) sum_aead any_callbacks (alerted_layer, garbage) = Ret TLS_IO_ALERT (rl1, w1) /\
    forall cs, Forall call_ok cs -> exists rs st, run_calls (fun _ => true) sum_aead any_callbacks cs (rl1, w1) = Ret rs st /\
      st.2 = w1 /\ closed st.1 /\ Forall2 (fun c r => moves_data c = true -> r.1 <= 0 /\ r.2 = []) cs rs.
Proof.
  apply (fatal_alert_silences (fun _ => true) sum_aead any_callbacks 40 alerted_layer garbage).
  - exact any_read_bounded.
  - exact no_phh_recv.
  - reflexivity.
  - apply content_ok; [apply (sum_layer_ok 255); lia|done].
  - done.
  - done.
  - done.
Defined.

Lemma fatal_alert_is_delivered_witness :
  (exists st, pending_retry (fun _ => true) sum_aead quota_callbacks 2 (tls13_send_alert (fun _ => true) sum_aead quota_callbacks TLS13_ALERT_DECODE_ERROR)
     (sum_layer 255, sample_wire) = Ret TLS_IO_ALERT st /\ st.2.2 = [23; 3; 3; 0; 4; 2; 50; 21; 206]) /\
  exists st wire, pending_retry (fun _ => true) sum_aead quota_callbacks (wstalls (write_cb := wire_write quota_callbacks) sample_wire)
      (tls13_send_alert (fun _ => true) sum_aead quota_callbacks TLS13_ALERT_DECODE_ERROR) (sum_layer 255, sample_wire) = Ret TLS_IO_ALERT st /\
    wire_of sum_aead (Protected 7 (zrep 12 5) 255) (SSL3_RT_ALERT, [TLS13_ALERT_LEVEL_FATAL; TLS13_ALERT_DECODE_ERROR]) wire /\
    outgoing (write_cb := wire_write quota_callbacks) st.2 = outgoing (write_cb := wire_write quota_callbacks) sample_wire ++ wire /\ closed st.1.
Proof.
  split; [eexists; split; by vm_compute|].
  apply (fatal_alert_is_delivered sum_aead quota_callbacks TLS13_ALERT_DECODE_ERROR (sum_layer 255) sample_wire (Protected 7 (zrep 12 5) 255)).
  - done.
  - reflexivity.
  - by split; vm_compute.
  - done.
  - done.
  - by split_and!.
  - exists tt. split; [done|]. split; [apply (sum_keyed 255); lia|]. split; [done|]. split; [by split; vm_compute|]. split; [apply sum_seals|by vm_compute].
  - by vm_compute.
Defined.

(** A post-handshake message of which one octet is sent and two records are left. *)
Definition long_phh : list Z := zrep 16386 0.
Definition phh_layer : tls13_record_layer unit unit Z :=
  (sum_layer 255) <| rl_phh_data := Some long_phh |> <| rl_phh_len := 16386 |> <| rl_phh_cbs := mkCBS (zdrop 1 long_phh) 16386 16385 |>.

Lemma phh_layer_ok : layer_ok phh_layer.
Proof.
  unfold phh_layer. generalize (sum_layer_ok 255 ltac:(lia)). generalize (sum_layer 255). intros rl Hok.
  assert (Hw : window_ok (mkCBS (zdrop 1 long_phh) 16386 16385)).
  { unfold window_ok. cbn [cbs_len cbs_data]. unfold long_phh. rewrite zlen_zdrop; rewrite zlen_rep; lia. }
  revert Hw. generalize (mkCBS (zdrop 1 long_phh) 16386 16385). intros cbs Hw. destruct Hok. by constructor.
Qed.

Lemma tls13_send_alert_gives_up_witness :
  exists st, tls13_record_layer_enqueue_alert (fun _ => true) sum_aead any_callbacks TLS13_ALERT_LEVEL_FATAL TLS13_ALERT_DECODE_ERROR
      (phh_layer, ([], [])) = Ret TLS_IO_WANT_RETRY st /\
    tls13_send_alert (fun _ => true) sum_aead any_callbacks TLS13_ALERT_DECODE_ERROR (phh_layer, ([], [])) = Ret TLS_IO_FAILURE st /\
    rl_alert_data st.1 <> None.
Proof.
  assert (Hrun : match tls13_record_layer_enqueue_alert (fun _ => true) sum_aead any_callbacks TLS13_ALERT_LEVEL_FATAL TLS13_ALERT_DECODE_ERROR
      (phh_layer, ([], [])) with Ret ret _ => ret =? TLS_IO_WANT_RETRY | _ => false end = true) by (vm_compute; reflexivity).
  destruct (tls13_record_layer_enqueue_alert _ _ _ _ _ _) as [ret st| |] eqn:E; [|done..]. apply Z.eqb_eq in Hrun as ->.
  exists st. split; [done|].
  apply (tls13_send_alert_gives_up (fun _ => true) sum_aead any_callbacks TLS13_ALERT_DECODE_ERROR phh_layer ([], []) st).
  - reflexivity.
  - by split; vm_compute.
  - done.
  - done.
  - exact phh_layer_ok.
  - exact E.
Defined.
