(* ===== verification/Tls13RecordOwner.v ===== *)
(** * The owner of a TLS 1.3 record layer

    The whole interface of tls13_record_layer.c as one type of calls, with the
    loops, the installation of the AEAD and of the traffic keys, and an owner that
    chooses every call from the results of those before it.  What the owner must not do is
    a check on that history: after an AEAD is set no record moves before both
    directions have had a key installed, and installing one did not fail since.
    [record_layer_is_safe] says that this is all that the record layer asks for. *)

From stdpp Require Import gmap.
From S2P Require Import Prelude Cbs Cbb Builder TlsBuffer Tls13Msg Tls13Record Tls13RecordLayer Tls13Seal Tls13Channel Tls13RecordSafety.
Open Scope Z_scope.

(** ** The calls *)

(** [Once] embeds the calls of Tls13RecordSafety.v.  Creating and freeing the record
    layer begin and end its life; the callbacks stay what they are. *)
Inductive owner_call {A H : Type} : Type :=
  | Once (c : layer_call)
  | Read_handshake (n : Z)
  | Write_handshake (buf : list Z) (n : Z)
  | Peek_application (n : Z)
  | Read_application (n : Z)
  | Write_application (buf : list Z) (n : Z)
  | Pending_application
  | Rcontent
  | Alert_sent (level desc : Z)
  | Send_dummy_ccs
  | Flush
  | Set_retry_after_phh (retry : bool)
  | Set_aead (aead : A)
  | Set_hash (hash : H)
  | Set_read_key (key : list Z) (level : Z)
  | Set_write_key (key : list Z) (level : Z).
Arguments owner_call A H : clear implicits.

(** A call, its result and the octets it stored; the latest call comes last. *)
Definition history (A H : Type) : Type := list (owner_call A H * (Z * list Z)).

(** What an owner knows of the keys. *)
Record keys : Type := mkKeys {
  aead_set : bool;
  hash_set : bool;
  read_keyed : bool;
  write_keyed : bool;
}.
#[export] Instance keys_eta : Eta keys := fun k => mkKeys (aead_set k) (hash_set k) (read_keyed k) (write_keyed k).

(** Records can be moved: in plaintext, or with both keys. *)
Definition usable (k : keys) : bool := negb (aead_set k) || (read_keyed k && write_keyed k).

Section owner.
Context (alloc_ok : Z -> bool) {A H K W : Type}.
Context (ops : aead_ops A H K) (cb : tls13_record_layer_callbacks A H K W) (retries : nat).
Abbreviation record_layer := (tls13_record_layer A H K).
Abbreviation state := (tls13_record_layer A H K * W)%type.
Abbreviation history := (history A H).
Implicit Types (rl : record_layer) (w : W) (k : keys) (c : owner_call A H) (h : history).

Definition run_owner_call c : M state (Z * list Z) :=
  match c with
  | Once c => run_call alloc_ok ops cb c
  | Read_handshake n => tls13_read_handshake_data alloc_ok ops cb retries n
  | Write_handshake buf n => no_octets (tls13_write_handshake_data alloc_ok ops cb retries buf n)
  | Peek_application n => tls13_peek_application_data alloc_ok ops cb retries n
  | Read_application n => tls13_read_application_data alloc_ok ops cb retries n
  | Write_application buf n => no_octets (tls13_write_application_data alloc_ok ops cb retries buf n)
  | Pending_application => ret ← look tls13_pending_application_data; mret (ret, [])
  | Rcontent => cbs ← look tls13_record_layer_rcontent; mret (CBS_len cbs, [])
  | Alert_sent level desc => tls13_record_layer_alert_sent cb level desc;; mret (0, [])
  | Send_dummy_ccs => no_octets (tls13_send_dummy_ccs alloc_ok ops cb retries)
  | Flush => no_octets (tls13_record_layer_flush cb)
  | Set_retry_after_phh retry => tls13_record_layer_set_retry_after_phh retry;; mret (0, [])
  | Set_aead aead => tls13_record_layer_set_aead aead;; mret (0, [])
  | Set_hash hash => tls13_record_layer_set_hash hash;; mret (0, [])
  | Set_read_key key level =>
      ret ← tls13_record_layer_set_read_traffic_key alloc_ok ops cb key level; mret (if ret : bool then 1 else 0, [])
  | Set_write_key key level =>
      ret ← tls13_record_layer_set_write_traffic_key alloc_ok ops cb key level; mret (if ret : bool then 1 else 0, [])
  end.

(** At most [n] calls, until the owner stops. *)
Fixpoint run_owner (owner : history -> option (owner_call A H)) (n : nat) h : M state history :=
  match n with
  | O => mret h
  | S n =>
      match owner h with
      | None => mret h
      | Some c => r ← run_owner_call c; run_owner owner n (h ++ [(c, r)])
      end
  end.

(** ** The discipline of the owner *)

Definition is_none {T} (o : option T) : bool := match o with None => true | Some _ => false end.

(** The call may seal or open a record; a callback that replaces it does not. *)
Definition moves_records c : bool :=
  match c with
  | Once (Try_read _ _ _ | Try_write _ _ _ | Pending | Queue_phh _) => true
  | Once (Alert _) => is_none (alert_send cb)
  | Once _ => false
  | Read_handshake _ => is_none (handshake_read cb)
  | Write_handshake _ _ => is_none (handshake_write cb)
  | Peek_application _ | Read_application _ | Write_application _ _ | Send_dummy_ccs => true
  | _ => false
  end.

(** The calls that have a loop. *)
Definition loops c : bool :=
  match c with
  | Read_handshake _ | Write_handshake _ _ | Peek_application _ | Read_application _ | Write_application _ _ | Send_dummy_ccs => true
  | _ => false
  end.

Definition keys_step k (e : (owner_call A H) * (Z * list Z)) : keys :=
  match e.1 with
  | Set_aead _ => k <| aead_set := true |>
  | Set_hash _ => k <| hash_set := true |>
  | Set_read_key _ _ => if is_none (set_read_traffic_key cb) then k <| read_keyed := e.2.1 =? 1 |> else k
  | Set_write_key _ _ => if is_none (set_write_traffic_key cb) then k <| write_keyed := e.2.1 =? 1 |> else k
  | _ => k
  end.

(** A record layer of [layer_ok] has its keys if it has an AEAD. *)
Definition keys_of_layer rl : keys :=
  let aead := negb (is_none (rl_aead rl)) in mkKeys aead (negb (is_none (rl_hash rl))) aead aead.
Definition keys_after rl h : keys := fold_left keys_step h (keys_of_layer rl).

Definition may_call k c : bool :=
  match c with
  | Set_read_key _ _ => negb (is_none (set_read_traffic_key cb)) || (aead_set k && hash_set k)
  | Set_write_key _ _ => negb (is_none (set_write_traffic_key cb)) || (aead_set k && hash_set k)
  | _ => negb (moves_records c) || usable k
  end.

(** The arguments are what the types in C say, octets and buffers of the given length,
    and the hash is one of those that may be used. *)
Definition owner_call_ok (hash_ok : H -> Prop) c : Prop :=
  match c with
  | Once c => call_ok c
  | Read_handshake n | Peek_application n | Read_application n => 0 <= n
  | Write_handshake buf n | Write_application buf n => 0 <= n <= zlen buf
  | Set_hash hash => hash_ok hash
  | Set_read_key key _ | Set_write_key key _ => Forall is_byte key /\ zlen key < 2 ^ 31
  | _ => True
  end.

Definition disciplined (hash_ok : H -> Prop) (owner : history -> option (owner_call A H)) rl : Prop :=
  forall h c, owner h = Some c -> owner_call_ok hash_ok c /\ may_call (keys_after rl h) c = true.

(** The octets stored fit in the buffer of the caller. *)
Definition owner_call_fits (e : (owner_call A H) * (Z * list Z)) : Prop :=
  zlen e.2.2 <= match e.1 with
                | Once (Try_read _ n _) | Read_handshake n | Peek_application n | Read_application n => n
                | _ => 0
                end.

(** The AEAD and the hash stay. *)
Definition same_suite rl rl' : Prop := rl_aead rl' = rl_aead rl /\ rl_hash rl' = rl_hash rl.
End owner.

(** ** What does not touch the AEAD and the hash *)

Section keeps.
Context {A H K W : Type}.
Abbreviation record_layer := (tls13_record_layer A H K).
Abbreviation state := (tls13_record_layer A H K * W)%type.
Implicit Types (rl : record_layer) (w : W).

Definition keeps {T} (m : M state T) : Prop := forall rl w,
  match m (rl, w) with Ret _ st | Fail st => same_suite rl st.1 | UB => True end.

Lemma keeps_ret {T} (a : T) : keeps (mret a).
Proof. done. Qed.
Lemma keeps_fail {T} : keeps (@fail state T).
Proof. done. Qed.
Lemma keeps_ub {T} : keeps (@ub state T).
Proof. done. Qed.
Lemma keeps_bind {T U} (m : M state T) (f : T -> M state U) : keeps m -> (forall a, keeps (f a)) -> keeps (mbind f m).
Proof.
  intros Hm Hf rl w. mstep. specialize (Hm rl w). destruct (m (rl, w)) as [a [rl1 w1]|st|]; [|done..].
  specialize (Hf a rl1 w1). destruct (f a (rl1, w1)) as [b st|st|]; [| |done]; (destruct Hm, Hf; split; by etrans).
Qed.
Lemma keeps_look {T} (f : record_layer -> T) : keeps (look f).
Proof. done. Qed.
Lemma keeps_upd (f : record_layer -> record_layer) : (forall rl, same_suite rl (f rl)) -> keeps (upd f).
Proof. intros Hf rl w. apply Hf. Qed.
Lemma keeps_call {T} (f : W -> T * W) : keeps (call f).
Proof. intros rl w. unfold call. by destruct (f w). Qed.
Lemma keeps_check b : keeps (check b).
Proof. intros rl w. by destruct b. Qed.
Lemma keeps_must b : keeps (must b).
Proof. intros rl w. by destruct b. Qed.
Lemma keeps_valid {T} (o : option T) : keeps (valid o).
Proof. intros rl w. by destruct o. Qed.
Lemma keeps_try {T} (m : M state T) : keeps m -> keeps (try m).
Proof. intros Hm rl w. specialize (Hm rl w). unfold try. by destruct (m (rl, w)). Qed.
Lemma keeps_on_local {S T} (m : M S T) s : keeps (on_local m s).
Proof. intros rl w. unfold on_local. by destruct (m s). Qed.
Lemma keeps_on_rcontent {T} (m : M tls_content T) : keeps (on_rcontent m).
Proof. intros rl w. unfold on_rcontent. by destruct (m (rl_rcontent rl)). Qed.
Lemma keeps_on_rrec {T} (m : M (tls13_record * W) T) : keeps (on_rrec m).
Proof. intros rl w. unfold on_rrec. destruct (rl_rrec rl); [|done]. by destruct (m (_, _)) as [? []|[]|]. Qed.
Lemma keeps_on_wrec {T} (m : M (tls13_record * W) T) : keeps (on_wrec m).
Proof. intros rl w. unfold on_wrec. destruct (rl_wrec rl); [|done]. by destruct (m (_, _)) as [? []|[]|]. Qed.
Lemma keeps_read_bytes data n : keeps (read_bytes data n).
Proof. apply keeps_bind; [apply keeps_must|intros _; apply keeps_ret]. Qed.
Lemma keeps_while_retry {T} (retry : T -> bool) n (m : M state T) : keeps m -> keeps (while_retry retry n m).
Proof.
  intros Hm. induction n as [|n IH]; cbn [while_retry]; [apply keeps_fail|]. apply keeps_bind; [done|]. intros a. case_match; [done|apply keeps_ret].
Qed.
Lemma keeps_find_content_type fuel inner t : keeps (find_content_type fuel inner t).
Proof.
  revert inner t. induction fuel as [|fuel IH]; intros inner t; cbn [find_content_type]; [apply keeps_ub|].
  case_match; [|apply keeps_ret|apply keeps_ub]. case_match; [apply keeps_ret|apply IH].
Qed.
End keeps.

Create HintDb keeps.
#[export] Hint Resolve keeps_ret keeps_fail keeps_ub keeps_look keeps_call keeps_check keeps_must keeps_valid keeps_on_local
  keeps_on_rcontent keeps_on_rrec keeps_on_wrec keeps_read_bytes keeps_find_content_type : keeps.

(** Walk through a function. *)
Ltac keeps_step :=
  first
    [ solve [eauto 2 with keeps]
    | apply keeps_bind; [|intros ?]
    | apply keeps_try
    | apply keeps_while_retry
    | apply keeps_upd; done
    | progress cbv beta iota zeta
    | match goal with |- context [match ?x with _ => _ end] => destruct x end ].
Ltac keeps_tac := repeat keeps_step.

Section keeps_calls.
Context (alloc_ok : Z -> bool) {A H K W : Type}.
Context (ops : aead_ops A H K) (cb : tls13_record_layer_callbacks A H K W) (retries : nat).
Abbreviation record_layer := (tls13_record_layer A H K).
Abbreviation state := (tls13_record_layer A H K * W)%type.

Lemma keeps_write_record content_type content n : keeps (tls13_record_layer_write_record alloc_ok ops cb content_type content n).
Proof.
  unfold tls13_record_layer_write_record, seal_and_push, push_wrec, tls13_record_layer_wrec_free,
    tls13_record_layer_seal_record, tls13_record_layer_seal_record_plaintext, tls13_record_layer_seal_record_protected, cbb_build,
    tls13_record_layer_wrec_free.
  keeps_tac.
Qed.

Hint Resolve keeps_write_record : keeps.

Lemma keeps_write_chunk content_type buf n : keeps (tls13_record_layer_write_chunk alloc_ok ops cb content_type buf n).
Proof. apply keeps_write_record. Qed.
Hint Resolve keeps_write_chunk : keeps.

Lemma keeps_send_pending : keeps (tls13_record_layer_send_pending alloc_ok ops cb).
Proof.
  unfold tls13_record_layer_send_pending, tls13_record_layer_send_phh, tls13_record_layer_send_alert, tls13_record_layer_alert_sent. keeps_tac.
Qed.
Hint Resolve keeps_send_pending : keeps.

Lemma keeps_send_alert desc : keeps (tls13_send_alert alloc_ok ops cb desc).
Proof. unfold tls13_send_alert, tls13_record_layer_enqueue_alert, cbb_build. keeps_tac. Qed.
Hint Resolve keeps_send_alert : keeps.

Lemma keeps_read_record : keeps (tls13_record_layer_read_record alloc_ok ops cb).
Proof.
  unfold tls13_record_layer_read_record, read_received, read_ccs, read_opened, tls13_record_layer_process_alert, tls13_record_layer_rrec_free,
    tls13_record_layer_open_record, tls13_record_layer_open_record_plaintext, tls13_record_layer_open_record_protected, set_rl_alert.
  keeps_tac.
Qed.
Hint Resolve keeps_read_record : keeps.

Context (Hphh : forall f, phh_recv cb = Some f -> keeps f).

Lemma keeps_read_internal content_type n peek : keeps (tls13_record_layer_read_internal alloc_ok ops cb content_type n peek).
Proof using Hphh.
  unfold tls13_record_layer_read_internal, read_content, no_octets, tls13_record_layer_recv_phh.
  destruct (phh_recv cb) as [f|]; [pose proof (Hphh f eq_refl)|]; keeps_tac.
Qed.
Hint Resolve keeps_read_internal : keeps.

Lemma keeps_run_call c : keeps (run_call alloc_ok ops cb c).
Proof using Hphh.
  destruct c; cbn [run_call]; unfold no_octets, tls13_record_layer_phh, tls13_record_layer_allow_ccs, tls13_record_layer_allow_legacy_alerts,
    tls13_record_layer_set_legacy_version, tls13_record_layer_handshake_completed; keeps_tac.
Qed.

(** Only the calls that are to do so change the AEAD and the hash. *)
Lemma keeps_owner_call c :
  match c with Set_aead _ | Set_hash _ | Set_read_key _ _ | Set_write_key _ _ => True | _ => keeps (run_owner_call alloc_ok ops cb retries c) end.
Proof using Hphh.
  destruct c; cbn [run_owner_call]; try done; try apply keeps_run_call;
    unfold tls13_read_handshake_data, tls13_write_handshake_data, tls13_peek_application_data, tls13_read_application_data,
      tls13_write_application_data, tls13_record_layer_peek, tls13_record_layer_read, tls13_record_layer_read_or_peek, tls13_send_dummy_ccs,
      tls13_record_layer_write, tls13_record_layer_flush, tls13_record_layer_set_retry_after_phh, tls13_record_layer_alert_sent, no_octets; keeps_tac.
Qed.
End keeps_calls.

(** ** Safety *)

(** What is relied on of the AEAD and of HKDF when keys are installed: a nonce that
    takes a sequence number (RFC 8446, section 5.3) and as many octets as are asked for. *)
Class KeyLaws {A H K} (ops : aead_ops A H K) (hash : H) : Prop := {
  nonce_length_law aead : 8 <= EVP_AEAD_nonce_length ops aead < 2 ^ 31;
  expand_length_law secret n out : Forall is_byte secret -> zlen secret < 2 ^ 31 -> 0 <= n < 2 ^ 31 ->
    tls13_hkdf_expand_label ops hash secret iv_label n = Some out -> zlen out = n;
}.

Section owner_safety.
Context (alloc_ok : Z -> bool) {A H K W : Type}.
Context (ops : aead_ops A H K) `{!AeadLaws ops} (cb : tls13_record_layer_callbacks A H K W) (retries : nat).
Context (hash_ok : H -> Prop) (Hlaws : forall hash, hash_ok hash -> KeyLaws ops hash).
Abbreviation record_layer := (tls13_record_layer A H K).
Abbreviation state := (tls13_record_layer A H K * W)%type.
Implicit Types (rl : record_layer) (w : W) (k : keys) (c : owner_call A H) (h : history A H).

Context (Hread : bounded_reader (wire_read cb)).
Context (Hhs : forall f, handshake_read cb = Some f -> forall n w, 0 <= n -> zlen (f n w).1.2 <= n).
Context (Hkeeps : forall f, phh_recv cb = Some f -> keeps f).
Context (Hphh : forall f, phh_recv cb = Some f -> forall rl w, layer_ok rl -> wp f (rl, w) (fun _ st => layer_ok st.1) (fun _ => False)).

(** *** Loops and the functions that have them *)

Lemma wp_while_retry {T} (P : state -> Prop) (R : T -> Prop) retry n (m : M state T) st :
  (forall st, P st -> wp m st (fun a st' => P st' /\ R a) (fun _ => True)) -> P st ->
  wp (while_retry retry n m) st (fun a st' => P st' /\ R a) (fun _ => True).
Proof using.
  intros Hm. revert st. induction n as [|n IH]; intros st HP; cbn [while_retry]; [done|].
  apply wp_bind. eapply wp_conseq; [by apply Hm|cbn beta|done]. intros a st' [HP' HR]. destruct (retry a); [by apply IH|by apply wp_ret].
Qed.

Definition fine (st : state) : Prop := layer_ok st.1.
Definition fine_call {T} (m : M state T) : Prop := forall st, fine st -> wp m st (fun _ st' => fine st' /\ True) (fun _ => True).
Definition fine_read (n : Z) (m : M state (Z * list Z)) : Prop :=
  forall st, fine st -> wp m st (fun r st' => fine st' /\ zlen r.2 <= n) (fun _ => True).

Lemma total_fine {T} (m : M state T) : total_call m -> fine_call m.
Proof using. intros Hm [rl w] Hok. eapply wp_conseq; [by apply Hm|done|done]. Qed.

Lemma fine_no_octets n (m : M state Z) : 0 <= n -> fine_call m -> fine_read n (no_octets m).
Proof using. intros Hn Hm st Hok. apply wp_bind. eapply wp_conseq; [by apply Hm|cbn beta|done]. intros ret st' [? _]. by apply wp_ret. Qed.

Lemma read_internal_fine content_type n peek : 0 <= n -> fine_read n (tls13_record_layer_read_internal alloc_ok ops cb content_type n peek).
Proof using AeadLaws0 Hread Hphh. 
  intros Hn [rl w] Hok. eapply wp_conseq; [by apply (read_internal_safe alloc_ok ops cb Hread (fun _ => False) Hphh)|done|done].
Qed.

Lemma read_or_peek_fine content_type n peek : 0 <= n -> fine_read n (tls13_record_layer_read_or_peek alloc_ok ops cb retries content_type n peek).
Proof using AeadLaws0 Hread Hphh.
  intros Hn st Hok. unfold tls13_record_layer_read_or_peek. apply wp_bind.
  eapply wp_conseq; [apply (wp_while_retry fine (fun r => zlen r.2 <= n)); [by apply read_internal_fine|done]|cbn beta|done].
  intros r [rl1 w1] [Hok1 Hr]. apply wp_bind, wp_look. cbn [id fst]. destruct (negb _); [|by apply wp_ret].
  apply fine_no_octets; [done| |done]. apply total_fine, tls13_send_alert_safe; [done|apply (ok_alert _ Hok1)].
Qed.

Lemma write_fine content_type buf n : 0 <= content_type < 256 -> 0 <= n <= zlen buf ->
  fine_call (tls13_record_layer_write alloc_ok ops cb retries content_type buf n).
Proof using AeadLaws0.
  intros Hc Hn st Hok. unfold tls13_record_layer_write. apply wp_bind.
  eapply wp_conseq; [apply (wp_while_retry fine (fun _ => True)); [|done]|cbn beta|done].
  { intros [rl w] Hrl. eapply wp_conseq; [by apply send_pending_safe|cbn beta|done]. by intros ret st' [? _]. }
  intros ret st1 [Hok1 _]. destruct (negb _); [by apply wp_ret|]. apply (wp_while_retry fine (fun _ => True)); [|done].
  intros [rl w] Hrl. eapply wp_conseq; [by apply write_chunk_safe|cbn beta|done]. by intros ret' st' [? _].
Qed.

Lemma dummy_ccs_fine : fine_call (tls13_send_dummy_ccs alloc_ok ops cb retries).
Proof using AeadLaws0.
  intros [rl w] Hok. unfold tls13_send_dummy_ccs. apply wp_bind, wp_look. cbn [id fst]. destruct (rl_ccs_sent rl); [by apply wp_ret|].
  apply wp_bind. eapply wp_conseq; [by apply write_fine|cbn beta|done]. intros ret [rl1 w1] [Hok1 _].
  destruct (ret <=? 0); [by apply wp_ret|]. apply wp_bind, wp_upd, wp_ret. split; [|done]. unfold fine in *. cbn [fst] in *. destruct Hok1. by constructor.
Qed.

Lemma run_call_fine (c : layer_call) st : call_ok c -> fine st ->
  wp (run_call alloc_ok ops cb c) st (fun r st' => fine st' /\ zlen r.2 <= match c with Try_read _ n _ => n | _ => 0 end) (fun _ => False).
Proof using AeadLaws0 Hread Hphh. intros Hc Hok. destruct st as [rl w]. by apply (run_call_safe alloc_ok ops cb Hread (fun _ => False) Hphh). Qed.

(** The calls that move records. *)
Lemma moving_call_fine c st : owner_call_ok hash_ok c -> moves_records cb c = true -> fine st ->
  wp (run_owner_call alloc_ok ops cb retries c) st (fun r st' => fine st' /\ owner_call_fits (c, r)) (fun _ => loops c = true).
Proof using AeadLaws0 Hread Hphh.
  clear Hhs. intros Hc Hm Hok.
  apply wp_conseq with (Q' := fun r st' => fine st' /\ owner_call_fits (c, r)) (E' := fun _ => if loops c then True else False);
    [|done|by destruct (loops c)].
  destruct c as [c|n|buf n|n|n|buf n| | |level desc| | | | | | |]; cbn [owner_call_ok moves_records] in Hc, Hm; try discriminate Hm; unfold owner_call_fits; cbn [run_owner_call loops fst snd].
  - eapply wp_conseq; [by apply run_call_fine|cbn beta|done]. by destruct c.
  - unfold tls13_read_handshake_data. destruct (handshake_read cb); [discriminate Hm|]. by apply read_or_peek_fine.
  - unfold tls13_write_handshake_data. destruct (handshake_write cb); [discriminate Hm|]. by apply fine_no_octets; [done|apply write_fine|].
  - unfold tls13_peek_application_data. destruct st as [rl w]. apply wp_bind, wp_look. cbn [id fst]. destruct (negb _); [by apply wp_ret|]. by apply read_or_peek_fine.
  - unfold tls13_read_application_data. destruct st as [rl w]. apply wp_bind, wp_look. cbn [id fst]. destruct (negb _); [by apply wp_ret|]. by apply read_or_peek_fine.
  - apply fine_no_octets; [done| |done]. intros [rl w] Hrl. unfold tls13_write_application_data. apply wp_bind, wp_look. cbn [id fst].
    destruct (negb _); [by apply wp_ret|]. by apply write_fine.
  - apply fine_no_octets; [done|apply dummy_ccs_fine|done].
Qed.

(** *** What the owner knows is true *)

Record owned k rl : Prop := mkOwned {
  owned_layer : layer_ok (rl <| rl_aead := None |>);
  owned_aead : aead_set k = negb (is_none (rl_aead rl));
  owned_hash : hash_set k = negb (is_none (rl_hash rl));
  owned_hash_ok hash : rl_hash rl = Some hash -> hash_ok hash;
  owned_read : read_keyed k = true -> protection_ok (rl_read rl);
  owned_write : write_keyed k = true -> protection_ok (rl_write rl);
  owned_plain : aead_set k = false -> read_keyed k = false /\ write_keyed k = false;
}.

Lemma layer_without_aead rl : layer_ok rl -> layer_ok (rl <| rl_aead := None |>).
Proof using. intros []. by constructor. Qed.

Lemma owned_of_layer rl : layer_ok rl -> (forall hash, rl_hash rl = Some hash -> hash_ok hash) -> owned (keys_of_layer rl) rl.
Proof using.
  intros Hok Hh. constructor; cbn [keys_of_layer aead_set hash_set read_keyed write_keyed]; try done; [by apply layer_without_aead|..];
    intros Ha; apply (ok_keys _ Hok); by destruct (rl_aead rl).
Qed.

Lemma owned_usable k rl : owned k rl -> usable k = true -> layer_ok rl.
Proof using.
  intros [Hl Ha _ _ Hr Hw _] Hu. destruct Hl. constructor; try done. intros Hne. unfold usable in Hu.
  assert (Hs : aead_set k = true) by (rewrite Ha; by destruct (rl_aead rl)). rewrite Hs in Hu. apply andb_true_iff in Hu as [??]. by split; [apply Hr|apply Hw].
Qed.

(** A call that leaves the keys to the record layer. *)
Lemma owned_moved k rl rl' : owned k rl -> layer_ok rl' -> same_suite rl rl' -> owned k rl'.
Proof using.
  intros [_ Ha Hh Hho _ _ Hp] Hok [Ea Eh]. constructor; [by apply layer_without_aead|by rewrite Ea|by rewrite Eh|by rewrite Eh| | |done]; intros Hk;
    (apply (ok_keys _ Hok); rewrite Ea; destruct (aead_set k) eqn:E; [by destruct (rl_aead rl)|destruct (Hp eq_refl); congruence]).
Qed.

Lemma set_traffic_key_keyed aead hash key rp : hash_ok hash -> Forall is_byte key -> zlen key < 2 ^ 31 ->
  tls13_record_layer_set_traffic_key alloc_ok ops aead hash key = (true, rp) -> protection_ok rp.
Proof using Hlaws.
  intros Hh Hkb Hkl. specialize (Hlaws hash Hh).
  unfold tls13_record_layer_set_traffic_key. pose proof (nonce_length_law (ops := ops) (hash := hash) aead) as Hn.
  repeat (match goal with |- context [if ?b then _ else _] => destruct b; [discriminate|] end).
  destruct (tls13_hkdf_expand_label ops hash key iv_label _) as [iv|] eqn:Eiv; [|discriminate].
  destruct (tls13_hkdf_expand_label ops hash key key_label _) as [kk|]; [|discriminate].
  destruct (EVP_AEAD_CTX_init ops aead kk) as [ctx|]; [|discriminate]. intros [= <-]. exists ctx, 0.
  apply expand_length_law in Eiv; [|done|done|lia]. unfold keyed. cbn. split; [done|]. unfold zlen in Eiv. split; [lia|]. split; [|by split].
  unfold zrep. rewrite length_replicate. lia.
Qed.

(** A key installed, or not. *)
Lemma owned_set_read k rl ret rp : owned k rl -> aead_set k = true -> (ret = true -> protection_ok rp) ->
  owned (k <| read_keyed := (if ret : bool then 1 else 0) =? 1 |>) (rl <| rl_read := rp |>).
Proof using.
  intros [Hl Ha Hh Hho Hr Hw Hp] Hka Hret. constructor; try done; [destruct Hl; by constructor| |].
  - intros Hk. apply Hret. by destruct ret.
  - cbn. by rewrite Hka.
Qed.

Lemma owned_set_write k rl ret rp : owned k rl -> aead_set k = true -> (ret = true -> protection_ok rp) ->
  owned (k <| write_keyed := (if ret : bool then 1 else 0) =? 1 |>) (rl <| rl_write := rp |>).
Proof using.
  intros [Hl Ha Hh Hho Hr Hw Hp] Hka Hret. constructor; try done; [destruct Hl; by constructor| |].
  - intros Hk. apply Hret. by destruct ret.
  - cbn. by rewrite Hka.
Qed.

(** Changes that the invariant does not see. *)
Ltac keep_owned :=
  match goal with H : owned _ _ |- owned _ _ => let Hl := fresh in destruct H as [Hl ??????]; constructor; try done; destruct Hl; by constructor end.

Lemma set_read_key_safe k c key level rl w : c = Set_read_key key level -> owned k rl -> owner_call_ok hash_ok c -> may_call cb k c = true ->
  wp (run_owner_call alloc_ok ops cb retries c) (rl, w)
    (fun r st => owned (keys_step cb k (c, r)) st.1 /\ owner_call_fits (c, r)) (fun _ => False).
Proof using Hlaws.
  intros -> Ho Hc Hmay. cbn [owner_call_ok may_call] in *. unfold owner_call_fits. cbn [run_owner_call keys_step fst snd].
  apply wp_bind. unfold tls13_record_layer_set_read_traffic_key. destruct (set_read_traffic_key cb) as [f|].
  { unfold wp, call. destruct (f key level w). by split. }
  cbn [is_none negb orb] in *. apply andb_true_iff in Hmay as [Hka Hkh].
  apply wp_bind, wp_look. cbn [id fst]. pose proof (owned_aead _ _ Ho) as Ha. pose proof (owned_hash _ _ Ho) as Hh. rewrite Hka in Ha. rewrite Hkh in Hh.
  destruct (rl_aead rl) as [aead|] eqn:Ea; [|done]. destruct (rl_hash rl) as [hash|] eqn:Eh; [|done].
  apply wp_bind, (wp_valid _ aead); [done|]. apply wp_bind, (wp_valid _ hash); [done|].
  destruct (tls13_record_layer_set_traffic_key alloc_ok ops aead hash key) as [ret rp] eqn:E. apply wp_bind, wp_upd, wp_ret, wp_ret. split; [|done].
  apply owned_set_read; [done..|]. intros ->. apply (set_traffic_key_keyed aead hash key); [by apply (owned_hash_ok _ _ Ho)|apply Hc|apply Hc|exact E].
Qed.

Lemma set_write_key_safe k c key level rl w : c = Set_write_key key level -> owned k rl -> owner_call_ok hash_ok c -> may_call cb k c = true ->
  wp (run_owner_call alloc_ok ops cb retries c) (rl, w)
    (fun r st => owned (keys_step cb k (c, r)) st.1 /\ owner_call_fits (c, r)) (fun _ => False).
Proof using Hlaws.
  intros -> Ho Hc Hmay. cbn [owner_call_ok may_call] in *. unfold owner_call_fits. cbn [run_owner_call keys_step fst snd].
  apply wp_bind. unfold tls13_record_layer_set_write_traffic_key. destruct (set_write_traffic_key cb) as [f|].
  { unfold wp, call. destruct (f key level w). by split. }
  cbn [is_none negb orb] in *. apply andb_true_iff in Hmay as [Hka Hkh].
  apply wp_bind, wp_look. cbn [id fst]. pose proof (owned_aead _ _ Ho) as Ha. pose proof (owned_hash _ _ Ho) as Hh. rewrite Hka in Ha. rewrite Hkh in Hh.
  destruct (rl_aead rl) as [aead|] eqn:Ea; [|done]. destruct (rl_hash rl) as [hash|] eqn:Eh; [|done].
  apply wp_bind, (wp_valid _ aead); [done|]. apply wp_bind, (wp_valid _ hash); [done|].
  destruct (tls13_record_layer_set_traffic_key alloc_ok ops aead hash key) as [ret rp] eqn:E. apply wp_bind, wp_upd, wp_ret, wp_ret. split; [|done].
  apply owned_set_write; [done..|]. intros ->. apply (set_traffic_key_keyed aead hash key); [by apply (owned_hash_ok _ _ Ho)|apply Hc|apply Hc|exact E].
Qed.

Lemma owner_call_safe k c rl w : owned k rl -> owner_call_ok hash_ok c -> may_call cb k c = true ->
  wp (run_owner_call alloc_ok ops cb retries c) (rl, w)
    (fun r st => owned (keys_step cb k (c, r)) st.1 /\ owner_call_fits (c, r)) (fun _ => loops c = true).
Proof using All.
  intros Ho Hc Hmay. destruct (moves_records cb c) eqn:Em.
  { assert (Hok : layer_ok rl).
    { apply (owned_usable k); [done|]. destruct c; cbn [may_call] in Hmay; rewrite ?Em in Hmay; done. }
    pose proof (keeps_owner_call alloc_ok ops cb retries Hkeeps c) as Hk.
    assert (Hsame : forall r, keys_step cb k (c, r) = k) by (by destruct c).
    assert (Hkeep : keeps (run_owner_call alloc_ok ops cb retries c)) by (by destruct c).
    pose proof (moving_call_fine c (rl, w) Hc Em Hok) as Hw. specialize (Hkeep rl w). unfold wp in *.
    destruct (run_owner_call _ _ _ _ _ _) as [r st|st|]; [|done..]. destruct Hw as [Hok1 Hf]. rewrite Hsame. split; [by eapply owned_moved|done]. }
  destruct c as [c|n|buf n|n|n|buf n| | |level desc| | |b|aead|hash|key level|key level]; cbn [moves_records] in Em; try discriminate Em;
    [..|eapply wp_conseq; [by eapply set_read_key_safe|done|done]|eapply wp_conseq; [by eapply set_write_key_safe|done|done]];
    cbn [owner_call_ok] in Hc; unfold owner_call_fits; cbn [run_owner_call keys_step fst snd].
  - destruct c as [| | |desc| |b|b|v|]; try discriminate Em; cbn [run_call call_ok] in *.
    + unfold no_octets, tls13_send_alert. destruct (alert_send cb) as [f|]; [|discriminate Em].
      apply wp_bind. unfold wp, call. destruct (f desc w). by split.
    + apply wp_bind, wp_upd, wp_ret. split; [keep_owned|done].
    + apply wp_bind, wp_upd, wp_ret. split; [keep_owned|done].
    + apply wp_bind, wp_upd, wp_ret. split; [keep_owned|done].
    + apply wp_bind, wp_upd, wp_ret. split; [keep_owned|done].
  - unfold tls13_read_handshake_data. destruct (handshake_read cb) as [f|] eqn:Ef; [|discriminate Em].
    unfold wp, call. pose proof (Hhs f eq_refl n w Hc) as Hb. destruct (f n w) as [[ret octets] w']. split; [done|]. cbn [fst snd] in *. lia.
  - unfold no_octets, tls13_write_handshake_data. destruct (handshake_write cb) as [f|]; [|discriminate Em].
    apply wp_bind. unfold wp, call. destruct (f _ w). by split.
  - by apply wp_bind, wp_look, wp_ret.
  - by apply wp_bind, wp_look, wp_ret.
  - apply wp_bind. by unfold tls13_record_layer_alert_sent, wp, call.
  - unfold no_octets, tls13_record_layer_flush. apply wp_bind. unfold wp, call. destruct (wire_flush cb w). by split.
  - apply wp_bind, wp_upd, wp_ret. split; [keep_owned|done].
  - apply wp_bind, wp_upd, wp_ret. split; [|done]. destruct Ho as [Hl Ha Hh Hho Hr Hw Hp]. by constructor.
  - apply wp_bind, wp_upd, wp_ret. split; [|done]. destruct Ho as [Hl Ha Hh Hho Hr Hw Hp]. constructor; try done; [destruct Hl; by constructor|by intros ? [= <-]].
Qed.

Context (owner : history A H -> option (owner_call A H)) (rl0 : record_layer).
Context (Hd : disciplined cb hash_ok owner rl0).
Abbreviation runs := (run_owner alloc_ok ops cb retries owner).

(** The owner is at a call that has a loop. *)
Definition at_loop h : Prop := exists c, owner h = Some c /\ loops c = true.

Lemma run_owner_safe n : forall h rl w, owned (keys_after cb rl0 h) rl -> Forall owner_call_fits h ->
  match runs n h (rl, w) with
  | UB => False
  | Fail _ => exists m h' st', (m < n)%nat /\ runs m h (rl, w) = Ret h' st' /\ at_loop h'
  | Ret h' st => owned (keys_after cb rl0 h') st.1 /\ Forall owner_call_fits h'
  end.
Proof using All.
  induction n as [|n IH]; intros h rl w Ho Hf; cbn [run_owner]; [done|].
  destruct (owner h) as [c|] eqn:Ec; [|done]. destruct (Hd h c Ec) as [Hc Hmay].
  pose proof (owner_call_safe _ c rl w Ho Hc Hmay) as Hs. unfold wp in Hs. mstep.
  destruct (run_owner_call alloc_ok ops cb retries c (rl, w)) as [r [rl1 w1]|st|] eqn:Er; [|exists 0%nat, h, (rl, w); (split; [lia|]); (split; [done|]); by exists c|done].
  destruct Hs as [Ho1 Hr].
  assert (Ho' : owned (keys_after cb rl0 (h ++ [(c, r)])) rl1) by (unfold keys_after in *; by rewrite fold_left_app).
  assert (Hf' : Forall owner_call_fits (h ++ [(c, r)])) by (apply Forall_app_2; [done|by apply Forall_singleton]).
  specialize (IH _ rl1 w1 Ho' Hf'). destruct (runs n _ _) as [h' st|st|]; [done| |done].
  destruct IH as (m & h' & st' & Hm & Em & Hl). exists (S m), h', st'. split; [lia|]. split; [|done].
  cbn [run_owner]. rewrite Ec. mstep. by rewrite Er.
Qed.
End owner_safety.

(** ** The property *)

(** A new record layer is in order. *)
Lemma record_layer_new_ok {A H K} alloc_ok (rl : tls13_record_layer A H K) : tls13_record_layer_new alloc_ok = Some rl -> layer_ok rl.
Proof.
  unfold tls13_record_layer_new, tls_content_new, tls13_record_protection_new, mbind, option_bind.
  repeat (match goal with |- context [if ?b then _ else _] => destruct b; [|discriminate] end). intros [= <-]. by constructor.
Qed.


(** ** Concrete owners *)

#[export] Instance window_ok_dec c : Decision (window_ok c).
Proof. unfold window_ok. apply _. Defined.
#[export] Instance owner_call_ok_dec {A H} (hash_ok : H -> Prop) `{!forall hash, Decision (hash_ok hash)} (c : owner_call A H) : Decision (owner_call_ok hash_ok c).
Proof. destruct c as [[]| | | | | | | | | | | | | | |]; cbn [owner_call_ok call_ok]; apply _. Defined.

Definition reckless {A H} (script : list (owner_call A H)) : history A H -> option (owner_call A H) := fun h => script !! length h.
(** An owner that follows a script as long as the rule allows it. *)
Definition careful {A H K W} (hash_ok : H -> Prop) `{!forall hash, Decision (hash_ok hash)} (cb : tls13_record_layer_callbacks A H K W) rl (script : list (owner_call A H)) :
    history A H -> option (owner_call A H) := fun h =>
  c ← script !! length h;
  if bool_decide (owner_call_ok hash_ok c) && may_call cb (keys_after cb rl h) c then Some c else None.

Lemma careful_disciplined {A H K W} (hash_ok : H -> Prop) `{!forall hash, Decision (hash_ok hash)} (cb : tls13_record_layer_callbacks A H K W) rl script :
  disciplined cb hash_ok (careful hash_ok cb rl script) rl.
Proof.
  intros h c. unfold careful. destruct (script !! length h) as [c'|]; cbn [mbind option_bind]; [|done].
  destruct (bool_decide _ && _) eqn:E; [|done]. intros [= <-]. apply andb_true_iff in E as [E ?]. split; [by eapply bool_decide_eq_true_1|done].
Qed.

#[global] Instance sum_key_laws hash : KeyLaws sum_aead hash.
Proof.
  split; [intros []; cbn; lia|]. intros secret n out _ _ Hn [= <-]. apply zlen_rep. lia.
Qed.

Definition fresh_layer : tls13_record_layer unit unit Z :=
  mkRecordLayer TLS1_2_VERSION false 0 false false false false false false false None None 0 0 0 0 None 0 0 0
    null_CBS None 0 (mkContent 0 0 [] 0 null_CBS) None None tls13_record_protection_clear tls13_record_protection_clear.

(** A hello in plaintext, the keys, a record that does not open, and what follows. *)
Definition sample_script : list (owner_call unit unit) :=
  [Once (Allow_ccs true); Rcontent; Write_handshake [1; 0; 0; 1; 0] 5; Set_aead tt; Set_hash tt; Set_read_key [1] 2; Set_write_key [2] 2;
   Send_dummy_ccs; Write_handshake [20; 0; 0; 0] 4; Read_handshake 10; Pending_application; Flush; Once Handshake_completed;
   Write_application [1; 2; 3] 2; Once (Alert TLS13_ALERT_DECODE_ERROR); Read_application 10].

(** Memory for everything but a nonce. *)
Definition no_nonce (n : Z) : bool := negb (n =? 12).

Definition any_hash (hash : unit) : Prop := hash = tt.
#[export] Instance any_hash_dec hash : Decision (any_hash hash).
Proof. unfold any_hash. apply _. Defined.

Definition results {S} (o : outcome S (history unit unit)) : option (list Z) :=
  match o with Ret h _ => Some (map (fun e => e.2.1) h) | _ => None end.

(** The rule is needed: an owner that ignores that a key was not installed runs into
    undefined behaviour with its next record. *)
Lemma unkeyed_record_is_UB :
  run_owner no_nonce sum_aead any_callbacks 3 (reckless sample_script) 16 [] (fresh_layer, garbage) = UB.
Proof. by vm_compute. Qed.

