(* ===== verification/Tls13ChaCha.v ===== *)
(** * TLS 1.3 records under ChaCha20-Poly1305

    The AEAD of Aead.v and the [tls13_hkdf_expand_label] of Tls13KeySchedule.v as the
    record layer of Tls13RecordLayer.v calls them, the laws the record layer relies
    on, and the theorem that two ends whose key schedules agree deliver their
    contents under the traffic secrets they derive. *)

From Stdlib Require Import (notations) Ascii String.
From stdpp Require Import gmap.
From S2P Require Import Tls13RecordOwner.
From S2P Require Import Prelude Cbs Cbb Builder ChaCha Poly1305 Aead Sha256 EvpDigest Hmac Hkdf Tls13KeySchedule TlsBuffer Tls13Msg Tls13Record Tls13RecordLayer Tls13Seal Tls13Channel.
Open Scope Z_scope.

#[global] Instance octets_ok_dec n l : Decision (octets_ok n l).
Proof. unfold octets_ok. apply _. Defined.
#[global] Instance c20_ok_dec c : Decision (c20_ok c).
Proof. unfold c20_ok. apply _. Defined.

(** A context in the state [EVP_AEAD_CTX_init] leaves. *)
Definition chacha_state : Type := { c : aead_chacha20_poly1305_ctx | bool_decide (c20_ok c) = true }.

Lemma chacha_state_ok (k : chacha_state) : c20_ok (proj1_sig k).
Proof. destruct k as [c Hc]. exact (proj1 (bool_decide_eq_true _) Hc). Qed.

Definition as_state (c : aead_chacha20_poly1305_ctx) : option chacha_state :=
  match Sumbool.sumbool_of_bool (bool_decide (c20_ok c)) with
  | left Hc => Some (exist _ c Hc)
  | right _ => None
  end.

Lemma as_state_ok c : c20_ok c -> exists k, as_state c = Some k /\ proj1_sig k = c.
Proof.
  intros Hc. unfold as_state. destruct (Sumbool.sumbool_of_bool _) as [E|E]; [by eexists|].
  by rewrite bool_decide_eq_true_2 in E.
Qed.

Section chacha_ops.
Context (malloc_ok : Z -> bool) {H : Type} (hkdf_expand_label : H -> list Z -> list Z -> Z -> option (list Z)).

Abbreviation chacha_aead := (variant_aead malloc_ok ChaCha20_Poly1305).
Abbreviation chacha_ctx_of k := (variant_ctx malloc_ok ChaCha20_Poly1305 (proj1_sig k)).

(** [EVP_AEAD_CTX_init(..., EVP_AEAD_DEFAULT_TAG_LENGTH, NULL)]. Octets are
    [unsigned char]. *)
Definition chacha_init (_ : unit) (key : list Z) : option chacha_state :=
  match Aead.EVP_AEAD_CTX_init chacha_aead key 0 (mkAeadCtx None None) with
  | Ret _ ctx =>
      match aead_state ctx with
      | Some c => as_state c
      | None => None
      end
  | _ => None
  end.

Definition is_octets (l : list Z) : bool := bool_decide (Forall is_byte l).

(** The output goes to a buffer of its own that has room for the ciphertext. *)
Definition chacha_seal (k : chacha_state) (nonce plain ad : list Z) : option (list Z) :=
  if is_octets nonce && is_octets plain && is_octets ad then
    match Aead.EVP_AEAD_CTX_seal (chacha_ctx_of k) 0 (zlen plain) nonce plain ad (mkOut (zrep (zlen plain + max_tag_len chacha_aead) 0) 0) with
    | Ret _ o => Some (ztake (out_len o) (out o))
    | _ => None
    end
  else None.

Definition chacha_open (k : chacha_state) (nonce enc ad : list Z) : option (list Z) :=
  if is_octets nonce && is_octets enc && is_octets ad then
    match Aead.EVP_AEAD_CTX_open (chacha_ctx_of k) 0 (zlen enc) nonce enc ad (mkOut (zrep (zlen enc) 0) 0) with
    | Ret _ o => Some (ztake (out_len o) (out o))
    | _ => None
    end
  else None.

Definition chacha_ops : aead_ops unit H chacha_state :=
  mkAead unit H chacha_state (fun _ => Aead.EVP_AEAD_nonce_length chacha_aead) (fun _ => Aead.EVP_AEAD_key_length chacha_aead)
    (fun _ => Aead.EVP_AEAD_max_tag_len chacha_aead) chacha_init chacha_seal chacha_open hkdf_expand_label.

Lemma filled_take bs o : ztake (out_len (filled bs o)) (out (filled bs o)) = bs.
Proof using. by apply ztake_app_exact. Qed.

Lemma is_octets_spec l : is_octets l = true <-> Forall is_byte l.
Proof using. apply bool_decide_eq_true. Qed.

(** Sealing gives the AEAD of RFC 8439, on nonces of 12 octets. *)
Lemma chacha_seal_ok k nonce plain ad enc :
  zlen plain + 16 < 2 ^ 64 ->
  chacha_seal k nonce plain ad = Some enc <->
  octets_ok 12 nonce /\ Forall is_byte plain /\ Forall is_byte ad /\
  enc = variant_core ChaCha20_Poly1305 (c20_key (proj1_sig k)) nonce plain ad (c20_tag_len (proj1_sig k)).
Proof using.
  intros Hsize. unfold chacha_seal. pose proof (chacha_state_ok k) as Hk. pose proof (zlen_nonneg plain).
  destruct (is_octets nonce) eqn:En; [|split; [done|intros [[_ Hn] _]; apply is_octets_spec in Hn; congruence]].
  destruct (is_octets plain) eqn:Ep; [|split; [done|intros (_ & Hn & _); apply is_octets_spec in Hn; congruence]].
  destruct (is_octets ad) eqn:Ea; [|split; [done|intros (_ & _ & Hn & _); apply is_octets_spec in Hn; congruence]].
  apply is_octets_spec in En, Ep, Ea. cbn [andb]. set (o := mkOut _ 0).
  assert (Ho : zlen (out o) = zlen plain + 16) by (apply zlen_rep; cbn; lia).
  assert (Halias : check_alias 0 (zlen plain) (zlen plain) = true).
  { unfold check_alias. rewrite Z.add_0_l, Z.leb_refl. by destruct (zlen plain <=? 0). }
  pose proof Hk as [_ Ht]. unfold POLY1305_TAG_LEN in Ht.
  enough (Hw : wp (Aead.EVP_AEAD_CTX_seal (chacha_ctx_of k) 0 (zlen plain) nonce plain ad) o
    (fun _ o' => zlen nonce = 12 /\ o' = filled (variant_core ChaCha20_Poly1305 (c20_key (proj1_sig k)) nonce plain ad (c20_tag_len (proj1_sig k))) o)
    (fun _ => zlen nonce <> 12)).
  { unfold wp in Hw. destruct (Aead.EVP_AEAD_CTX_seal _ _ _ _ _ _ _) as [[] o'|o'|]; [|split; [done|by intros [[? _] _]]|done].
    destruct Hw as [Hn ->]. rewrite filled_take. split; [intros [= <-]|by intros (_ & _ & _ & ->)]. split; [by split|]. by split. }
  apply wp_EVP_seal; [done..| |].
  - by split.
  - intros Hno Hn. destruct Hno as [Hno|[Hno|Hno]]; [by apply Hno|lia|congruence].
Qed.

(** A length that overflows with the tag is refused. *)
Lemma chacha_seal_size k nonce plain ad : 2 ^ 64 <= zlen plain + 16 -> chacha_seal k nonce plain ad = None.
Proof using.
  intros Hsize. unfold chacha_seal. destruct (_ && _ && _); [|done]. set (o := mkOut _ 0).
  enough (Hw : wp (Aead.EVP_AEAD_CTX_seal (chacha_ctx_of k) 0 (zlen plain) nonce plain ad) o (fun _ _ => False) (fun _ => True)).
  { unfold wp in Hw. by destruct (Aead.EVP_AEAD_CTX_seal _ _ _ _ _ _ _). }
  unfold Aead.EVP_AEAD_CTX_seal. apply wp_bind. eapply wp_valid; [reflexivity|]. apply wp_or_clear. cbv zeta.
  apply wp_bind, wp_check; [intros Hc|intros _; by split]. apply negb_true_iff, Z.ltb_ge in Hc. change (overhead _) with 16 in Hc.
  clear hkdf_expand_label H. unfold u64 in Hc. exfalso. pose proof (zlen_nonneg plain). Z.to_euclidean_division_equations. lia.
Qed.

Lemma chacha_open_seal k nonce plain ad enc :
  chacha_seal k nonce plain ad = Some enc -> chacha_open k nonce enc ad = Some plain.
Proof using.
  intros E. destruct (Z.lt_ge_cases (zlen plain + 16) (2 ^ 64)) as [Hsize|Hsize]; [|by rewrite chacha_seal_size in E].
  apply chacha_seal_ok in E as ([Hn Bn] & Bp & Ba & ->); [|done].
  pose proof (chacha_state_ok k) as Hk. pose proof Hk as [_ Ht]. unfold POLY1305_TAG_LEN in Ht.
  set (c := proj1_sig k) in *. pose proof (zlen_nonneg plain).
  pose proof (zlen_variant_core ChaCha20_Poly1305 (c20_key c) nonce plain ad (c20_tag_len c) ltac:(lia)) as Hz.
  assert (Be : Forall is_byte (variant_core ChaCha20_Poly1305 (c20_key c) nonce plain ad (c20_tag_len c))).
  { apply Forall_app. split; [by apply is_byte_encrypt|]. apply Forall_ztake, is_byte_le_bytes. }
  set (enc := variant_core _ _ _ _ _ _) in *. unfold chacha_open. fold c.
  rewrite !(proj2 (is_octets_spec _)) by done. cbn [andb]. set (o := mkOut _ 0).
  assert (Ho : zlen (out o) = zlen enc) by (apply zlen_rep; lia).
  assert (Halias : check_alias 0 (zlen enc) (zlen enc) = true).
  { unfold check_alias. rewrite Z.add_0_l, Z.leb_refl. by destruct (zlen enc <=? 0). }
  enough (Hw : wp (Aead.EVP_AEAD_CTX_open (variant_ctx malloc_ok ChaCha20_Poly1305 c) 0 (zlen enc) nonce enc ad) o
    (fun _ o' => o' = filled plain o) (fun _ => False)).
  { unfold wp in Hw. destruct (Aead.EVP_AEAD_CTX_open _ _ _ _ _ _ _) as [[] o'|o'|]; [|done..]. by rewrite Hw, filled_take. }
  apply wp_EVP_open; [done..| |].
  - intros plain' _ _ _ E' _. f_equal. symmetry. by apply (core_seal_inj (c20_key c) (zdrop 4 nonce) (le_val (ztake 4 nonce) * 2 ^ 32) (c20_tag_len c) ltac:(lia) ad).
  - intros [?|[?|Hno]]; [done|congruence|]. apply (Hno plain); [done|lia|done].
Qed.

Lemma chacha_open_len k nonce enc ad plain : chacha_open k nonce enc ad = Some plain -> zlen plain <= zlen enc.
Proof using.
  unfold chacha_open. pose proof (chacha_state_ok k) as Hk. pose proof Hk as [_ Ht]. unfold POLY1305_TAG_LEN in Ht.
  destruct (is_octets nonce) eqn:En; [|done]. destruct (is_octets enc) eqn:Ep; [|done]. destruct (is_octets ad) eqn:Ea; [|done].
  apply is_octets_spec in En, Ep, Ea. cbn [andb]. set (o := mkOut _ 0). pose proof (zlen_nonneg enc).
  enough (Hw : wp (Aead.EVP_AEAD_CTX_open (chacha_ctx_of k) 0 (zlen enc) nonce enc ad) o
    (fun _ o' => exists plain, o' = filled plain o /\ zlen plain <= zlen enc) (fun _ => True)).
  { unfold wp in Hw. destruct (Aead.EVP_AEAD_CTX_open _ _ _ _ _ _ _) as [[] o'|o'|]; [|done..]. destruct Hw as (p & -> & Hp).
    rewrite filled_take. by intros [= <-]. }
  apply wp_EVP_open; [done..| |done]. intros p _ _ _ E _. exists p. split; [done|].
  apply (f_equal zlen) in E. rewrite zlen_variant_core in E by lia. lia.
Qed.
End chacha_ops.

(** ** The laws *)

#[global] Instance chacha_laws malloc_ok {H} (hkdf : H -> list Z -> list Z -> Z -> option (list Z)) : AeadLaws (chacha_ops malloc_ok hkdf).
Proof.
  split.
  - intros []. by split.
  - intros k nonce plain ad enc _ E. by apply (chacha_open_seal malloc_ok).
  - intros k nonce enc ad plain E. by apply (chacha_open_len malloc_ok k nonce enc ad).
Qed.

Lemma is_byte_record_nonce iv s : Forall is_byte iv -> Forall is_byte (record_nonce iv s).
Proof. intros Hiv. apply (is_byte_xor iv); [done|apply is_byte_be_bytes]. Qed.

(** With a hash, [tls13_hkdf_expand_label] gives octets, as many as asked for. *)
Class HkdfLaws {H} (hkdf : H -> list Z -> list Z -> Z -> option (list Z)) (hash : H) : Prop :=
  hkdf_law : forall secret label n, key_like secret -> Forall is_byte label -> zlen label <= 249 -> 0 < n <= 255 ->
    exists out, hkdf hash secret label n = Some out /\ octets_ok n out.

Section deliver.
Context {H : Type} (hkdf : H -> list Z -> list Z -> Z -> option (list Z)).
Abbreviation ops := (chacha_ops (fun _ => true) hkdf).

(** With the default tag length and an IV of 12 octets sealing never fails. *)
Lemma chacha_seals k iv : octets_ok 12 iv -> c20_tag_len (proj1_sig k) = 16 -> seals ops tt k iv.
Proof using.
  intros [Hl Hb] Ht s plain ad Bp Hp Ba. unfold TLS13_RECORD_MAX_INNER_PLAINTEXT_LEN, TLS13_RECORD_MAX_PLAINTEXT_LEN in Hp.
  exists (variant_core ChaCha20_Poly1305 (c20_key (proj1_sig k)) (record_nonce iv s) plain ad (c20_tag_len (proj1_sig k))). split.
  - change (chacha_seal (fun _ => true) k (record_nonce iv s) plain ad = Some (variant_core ChaCha20_Poly1305 (c20_key (proj1_sig k))
      (record_nonce iv s) plain ad (c20_tag_len (proj1_sig k)))).
    apply chacha_seal_ok; [lia|]. split; [split; [|by apply is_byte_record_nonce]|done].
    unfold zlen in *. by rewrite length_record_nonce.
  - rewrite zlen_variant_core by lia. by rewrite Ht.
Qed.

Context (hash : H) `{HL : !HkdfLaws hkdf hash}.

(** A traffic secret installed. *)
Lemma set_traffic_key_ok secret :
  key_like secret -> exists k iv, tls13_record_layer_set_traffic_key (fun _ => true) ops tt hash secret =
      (true, mkProtection (Some k) iv (zrep 12 0) (zrep 8 0)) /\
    octets_ok 12 iv /\ c20_tag_len (proj1_sig k) = 16.
Proof using HL.
  intros Hs. unfold tls13_record_layer_set_traffic_key. cbn [negb].
  assert (Hb : Forall is_byte iv_label /\ Forall is_byte key_label) by (split; apply (bool_decide_unpack _); by vm_compute).
  destruct (hkdf_law secret iv_label 12 Hs (proj1 Hb) ltac:(by vm_compute) ltac:(lia)) as (iv & Eiv & Hiv).
  destruct (hkdf_law secret key_label 32 Hs (proj2 Hb) ltac:(by vm_compute) ltac:(lia)) as (key & Ekey & Hkey).
  change (EVP_AEAD_nonce_length ops tt) with 12. change (EVP_AEAD_key_length ops tt) with 32.
  change (tls13_hkdf_expand_label ops) with hkdf. rewrite Eiv, Ekey.
  change (EVP_AEAD_CTX_init ops tt key) with (chacha_init (fun _ => true) tt key). unfold chacha_init.
  pose proof (EVP_AEAD_CTX_init_ok (fun _ => true) ChaCha20_Poly1305 key 0 (mkAeadCtx None None) Hkey ltac:(lia)) as Hw. unfold wp in Hw.
  destruct (Aead.EVP_AEAD_CTX_init _ _ _ _) as [[] ctx|ctx|]; [|destruct Hw; [by unfold POLY1305_TAG_LEN in *|done]|done].
  destruct Hw as (c & -> & Hc & Ek & Et). cbn [variant_ctx aead_state].
  destruct (as_state_ok c Hc) as (k & -> & Ek'). do 2 eexists. split; [reflexivity|]. split; [done|]. by rewrite Ek'.
Qed.

(** Two idle record layers that install the same traffic secret, one for writing and
    one for reading, deliver. *)
Definition layers_deliver {W1 W2} (cb1 : tls13_record_layer_callbacks unit H chacha_state W1) `{!Writer (wire_write cb1)}
    (cb2 : tls13_record_layer_callbacks unit H chacha_state W2) `{!Reader (wire_read cb2)} secret secret' level ms snd rcv w1 : Prop :=
  exists snd' rcv',
    tls13_record_layer_set_write_traffic_key (fun _ => true) ops cb1 secret level (snd, w1) = Ret true (snd', w1) /\
    (forall w2, tls13_record_layer_set_read_traffic_key (fun _ => true) ops cb2 secret' level (rcv, w2) = Ret true (rcv', w2)) /\
    exists st1 sent, write_all (fun _ => true) ops cb1 1 (wstalls w1) ms (snd', w1) = Ret (map (fun m => zlen m.2) ms) st1 /\
      outgoing st1.2 = outgoing w1 ++ sent /\
      forall w2 later, incoming w2 = sent ++ later -> exists st2,
        read_all (fun _ => true) ops cb2 1 (stalls w2) TLS13_RECORD_MAX_PLAINTEXT_LEN (map fst ms) (rcv', w2) =
          Ret (map Datatypes.snd ms) st2 /\ incoming st2.2 = later.

(** A record layer before its keys are set. *)
Definition may_send (snd : tls13_record_layer unit H chacha_state) : Prop :=
  sender_idle snd /\ rl_aead snd = Some tt /\ rl_hash snd = Some hash /\ 0 <= rl_legacy_version snd < 65536.
Definition may_receive (rcv : tls13_record_layer unit H chacha_state) : Prop :=
  receiver_idle rcv /\ rl_aead rcv = Some tt /\ rl_hash rcv = Some hash.

Lemma same_secret_delivers {W1 W2} (cb1 : tls13_record_layer_callbacks unit H chacha_state W1) `{!Writer (wire_write cb1)}
    (cb2 : tls13_record_layer_callbacks unit H chacha_state W2) `{!Reader (wire_read cb2)} secret level ms snd rcv w1 :
  key_like secret -> set_write_traffic_key cb1 = None -> set_read_traffic_key cb2 = None ->
  may_send snd -> may_receive rcv -> zlen ms < 2 ^ 64 -> Forall (deliverable (rl_handshake_completed rcv)) ms ->
  layers_deliver cb1 cb2 secret secret level ms snd rcv w1.
Proof using HL.
  intros Hk Hcb1 Hcb2 (Hs & Has & Hhs & Hv) (Hr & Har & Hhr) Hlen Hms.
  destruct (set_traffic_key_ok secret Hk) as (k & iv & Ekey & [Hl Hb] & Ht).
  set (p := mkProtection (Some k) iv (zrep 12 0) (zrep 8 0)) in *.
  assert (Hkeyed : keyed p k 0).
  { assert (Hl' : length iv = 12%nat) by (unfold zlen in Hl; lia).
    split; [done|]. split; [cbn; lia|]. split; [by cbn [p rp_nonce rp_iv]; rewrite Hl'|]. by split. }
  exists (snd <| rl_write := p |>), (rcv <| rl_read := p |>). split; [|split].
  - unfold tls13_record_layer_set_write_traffic_key. rewrite Hcb1. unfold look, upd, on_fst. mstep. cbn [id fst]. rewrite Has, Hhs. cbv iota. rewrite Ekey. done.
  - intros w2. unfold tls13_record_layer_set_read_traffic_key. rewrite Hcb2. unfold look, upd, on_fst. mstep. cbn [id fst]. rewrite Har, Hhr. cbv iota. rewrite Ekey. done.
  - destruct (record_layers_run ops cb1 cb2 (Protected k iv 0) ms (snd <| rl_write := p |>) (rcv <| rl_read := p |>) w1)
      as (st1 & sent & E1 & Ho & Hrun); [by destruct Hs|exists tt|by destruct Hr|split; [change (rl_aead rcv <> None); by rewrite Har|done]|cbn; lia|done|].
    + split; [done|]. split; [done|]. split; [done|]. split; [done|]. split; [by apply chacha_seals|done].
    + exists st1, sent. split; [done|]. split; [done|]. intros w2 later Hin. destruct (Hrun w2 later Hin) as (st2 & E2 & El & _). by exists st2.
Qed.
End deliver.

(** ** With the key schedule *)

Section peers.
Context {D : Type} (md : EVP_MD D) (hash : list Z -> list Z) `{HL : !DigestLaws md hash}.

(** [tls13_hkdf_expand_label] into a secret of [n] octets, without context. *)
Definition expand_label_op (malloc_ok : Z -> bool) (digest : EVP_MD D) (secret label : list Z) (n : Z) : option (list Z) :=
  match Tls13KeySchedule.tls13_hkdf_expand_label malloc_ok digest (secret_of secret) label no_context (mkSecret (Some (zrep n 0)) n) with
  | Ret _ s => ts_data s
  | _ => None
  end.

#[export] Instance expand_label_laws : HkdfLaws (expand_label_op (fun _ => true)) md.
Proof using HL.
  intros secret label n Hs Hb Hl Hn. assert (Hz : zlen (zrep n 0) = n) by (apply zlen_rep; lia).
  exists (HKDF_Expand_Label (rfc_hmac hash (dg_block_size md)) (dg_md_size md) secret label [] n). split; [|apply (rfc_expand_ok md hash); lia].
  unfold expand_label_op. replace (mkSecret (Some (zrep n 0)) n) with (secret_of (zrep n 0)) by (unfold secret_of; by rewrite Hz).
  enough (Hw : wp (Tls13KeySchedule.tls13_hkdf_expand_label (fun _ => true) md (secret_of secret) label no_context) (secret_of (zrep n 0))
    (fun _ s => ts_data s = Some (HKDF_Expand_Label (rfc_hmac hash (dg_block_size md)) (dg_md_size md) secret label [] n)) (fun _ => False)).
  { unfold wp in Hw. by destruct (Tls13KeySchedule.tls13_hkdf_expand_label _ _ _ _ _ _). }
  pose proof (hl_pos md hash) as Hp. eapply (wp_expand_label (fun _ => true) md hash secret label no_context []); [done|done|lia|done|constructor|by vm_compute|lia| |].
  - intros _ _. cbn [ts_data secret_of]. by rewrite Hz.
  - intros o' Hno _. rewrite Hz in Hno. destruct Hno as [Hno|[Hno|[Hno|Hno]]]; [lia|nia| |by apply Hno].
    unfold label_fits in Hno. assert (E : zlen tls13_plabel = 6) by done. rewrite zlen_app, E, !andb_false_iff in Hno.
    destruct Hno as [[Hno%Z.ltb_ge|Hno%Z.ltb_ge]|Hno]; [lia|lia|done].
Qed.

(** What the owner of a record layer relies on when it installs keys, whatever memory
    is refused. *)
#[export] Instance chacha_key_laws malloc_ok : KeyLaws (chacha_ops malloc_ok (expand_label_op malloc_ok)) md.
Proof using HL.
  split; [intros []; by split; vm_compute|]. intros secret n out Hb Hl Hn. change (tls13_hkdf_expand_label (chacha_ops malloc_ok (expand_label_op malloc_ok))) with (expand_label_op malloc_ok).
  assert (Hz : zlen (zrep n 0) = n) by (apply zlen_rep; lia).
  unfold expand_label_op. replace (mkSecret (Some (zrep n 0)) n) with (secret_of (zrep n 0)) by (unfold secret_of; by rewrite Hz).
  enough (Hw : wp (Tls13KeySchedule.tls13_hkdf_expand_label malloc_ok md (secret_of secret) iv_label no_context) (secret_of (zrep n 0))
    (fun _ s => forall l, ts_data s = Some l -> zlen l = n) (fun _ => True)).
  { unfold wp in Hw. destruct (Tls13KeySchedule.tls13_hkdf_expand_label _ _ _ _ _ _); [apply Hw|done..]. }
  assert (Hib : Forall is_byte iv_label) by (apply (bool_decide_unpack _); by vm_compute).
  eapply (wp_expand_label malloc_ok md hash secret iv_label no_context []); [done|done|by vm_compute|done|constructor|by vm_compute|lia| |done].
  rewrite Hz. intros Hle _ l [= <-]. apply (rfc_expand_ok md hash). lia.
Qed.

(** The secrets after a sequence of calls. *)
Definition schedule_run (stack : HMAC_CTX D) (resumption : bool) (cs : list derivation) : outcome (tls13_secrets D) (list bool) :=
  match tls13_secrets_create (fun _ => true) md resumption with
  | Ret _ st => exec_calls (fun _ => true) stack cs st
  | Fail st => Fail st
  | UB => UB
  end.

Definition stack_ok (stack : HMAC_CTX D) : Prop := zlen (hm_key stack) = HMAC_MAX_MD_CBLOCK /\ Forall is_byte (hm_key stack).

Lemma schedule_run_ok stack resumption cs : stack_ok stack -> Forall call_ok cs ->
  schedule_run stack resumption cs = let '(rs, s) := spec_calls Fresh cs in Ret rs (rfc_state md hash resumption false s).
Proof using HL.
  intros Hs Hcs. unfold schedule_run. pose proof (create_ok (fun _ => true) md hash resumption) as Hc.
  destruct (tls13_secrets_create _ _ _) as [[] st|st|]; [|by destruct Hc|done]. subst st. by apply (calls_ok (fun _ => true) md hash stack Hs).
Qed.

(** The traffic secret of a direction. *)
Definition traffic_secret (from_client : bool) (st : tls13_secrets D) : option (list Z) :=
  ts_data (if from_client then client_application_traffic st else server_application_traffic st).

(** C5. End to end: a client and a server run the key schedule, each with any calls in
    any order, on the same hash.  If both complete it with the same PSK, the same key
    share and the same final transcript, and a direction's secret is updated equally
    often, then the two record layers that install the traffic secrets found in the
    two structs deliver, under ChaCha20-Poly1305 and in that direction, every sequence
    of handshake messages and application data, content by content and in order, over
    any fragmentation and any waits of the wire. *)
Theorem tls13_peers_deliver {W1 W2} (cb1 : tls13_record_layer_callbacks unit (EVP_MD D) chacha_state W1) `{!Writer (wire_write cb1)}
    (cb2 : tls13_record_layer_callbacks unit (EVP_MD D) chacha_state W2) `{!Reader (wire_read cb2)}
    stack1 stack2 resumption1 resumption2 cs1 cs2 psk ecdhe c1 c1' c2 c2' c3 nc nc' ns ns' (from_client : bool) level ms snd rcv w1 :
  stack_ok stack1 -> stack_ok stack2 -> Forall call_ok cs1 -> Forall call_ok cs2 ->
  (spec_calls Fresh cs1).2 = Application psk c1 ecdhe c2 c3 nc ns -> (spec_calls Fresh cs2).2 = Application psk c1' ecdhe c2' c3 nc' ns' ->
  (if from_client then nc = nc' else ns = ns') ->
  set_write_traffic_key cb1 = None -> set_read_traffic_key cb2 = None ->
  may_send md snd -> may_receive md rcv -> zlen ms < 2 ^ 64 -> Forall (deliverable (rl_handshake_completed rcv)) ms ->
  exists rs1 st1 rs2 st2 secret1 secret2,
    schedule_run stack1 resumption1 cs1 = Ret rs1 st1 /\ schedule_run stack2 resumption2 cs2 = Ret rs2 st2 /\
    traffic_secret from_client st1 = Some secret1 /\ traffic_secret from_client st2 = Some secret2 /\
    layers_deliver (expand_label_op (fun _ => true)) cb1 cb2 secret1 secret2 level ms snd rcv w1.
Proof using HL.
  intros Hs1 Hs2 Hc1 Hc2 E1 E2 Hn Hcb1 Hcb2 Hsnd Hrcv Hlen Hms.
  pose proof (schedule_run_ok stack1 resumption1 cs1 Hs1 Hc1) as R1. pose proof (schedule_run_ok stack2 resumption2 cs2 Hs2 Hc2) as R2.
  destruct (spec_calls Fresh cs1) as [rs1 s1]. destruct (spec_calls Fresh cs2) as [rs2 s2]. cbn [Datatypes.snd] in E1, E2. subst s1 s2.
  set (derive := Derive_Secret (rfc_hmac hash (dg_block_size md)) (dg_md_size md)).
  set (secret := updated derive (if from_client then nc else ns)
    (derive (master_secret (Extract (rfc_hmac hash (dg_block_size md)) (dg_md_size md)) derive (hash []) (zrep (dg_md_size md) 0) psk ecdhe)
       (if from_client then str "c ap traffic" else str "s ap traffic") c3)).
  exists rs1, (rfc_state md hash resumption1 false (Application psk c1 ecdhe c2 c3 nc ns)),
    rs2, (rfc_state md hash resumption2 false (Application psk c1' ecdhe c2' c3 nc' ns')), secret, secret.
  split; [exact R1|]. split; [exact R2|]. split; [by destruct from_client|]. split; [destruct from_client; by subst|].
  apply (same_secret_delivers (expand_label_op (fun _ => true)) md); [|done..].
  apply (digest_like_key md hash), (digest_like_updated md derive); [intros; apply (digest_like_expand md hash)|apply (digest_like_expand md hash)].
Qed.
End peers.

(** ** A concrete run *)

Definition quiet_callbacks {H W} (rd : tls_read_cb W) (wr : tls_write_cb W) : tls13_record_layer_callbacks unit H chacha_state W :=
  mkCallbacks unit H chacha_state W rd wr (fun w => (TLS_IO_SUCCESS, w)) None None None None None (fun _ _ w => w) (fun _ _ w => w) None (fun w => w).
Definition chacha_writer : tls13_record_layer_callbacks unit (EVP_MD SHA256_CTX) chacha_state _ := quiet_callbacks (fun _ w => (TLS_IO_EOF, [], w)) quota_write.
Definition chacha_reader : tls13_record_layer_callbacks unit (EVP_MD SHA256_CTX) chacha_state _ := quiet_callbacks chunk_read (fun _ w => (TLS_IO_EOF, w)).

#[global] Instance chacha_writer_writer : Writer (wire_write chacha_writer) := quota_writer.
#[global] Instance chacha_reader_reader : Reader (wire_read chacha_reader) := chunk_reader.

(** A record layer whose handshake is complete, before its keys are set. *)
Definition keyless_layer : tls13_record_layer unit (EVP_MD SHA256_CTX) chacha_state :=
  mkRecordLayer TLS1_2_VERSION false 0 false true false false false false false None None 0 0 0 0 None 0 0 0
    null_CBS None 0 (mkContent 0 0 [] 0 null_CBS) (Some sha256_md) (Some tt) tls13_record_protection_clear tls13_record_protection_clear.

(** The client tries everything twice; the server knows what it does. *)
Definition client_calls : list derivation :=
  [DeriveEarly (zrep 32 0) []; DeriveEarly (zrep 32 1) []; DeriveHandshake sample_ecdhe (zrep 32 2); DeriveHandshake sample_ecdhe (zrep 32 9);
   UpdateClient; DeriveApplication (zrep 32 3); UpdateClient].
Definition server_calls : list derivation :=
  [DeriveEarly (zrep 32 0) []; DeriveHandshake sample_ecdhe (zrep 32 2); DeriveApplication (zrep 32 3); UpdateServer; UpdateClient].

Lemma tls13_peers_deliver_witness :
  (spec_calls Fresh client_calls).2 = Application (zrep 32 0) [] sample_ecdhe (zrep 32 2) (zrep 32 3) 1 0 /\
  (spec_calls Fresh server_calls).2 = Application (zrep 32 0) [] sample_ecdhe (zrep 32 2) (zrep 32 3) 1 1 /\
  exists rs1 st1 rs2 st2 secret1 secret2,
    schedule_run sha256_md zero_HMAC_CTX false client_calls = Ret rs1 st1 /\ schedule_run sha256_md zero_HMAC_CTX false server_calls = Ret rs2 st2 /\
    traffic_secret true st1 = Some secret1 /\ traffic_secret true st2 = Some secret2 /\
    layers_deliver (expand_label_op (fun _ => true)) chacha_writer chacha_reader secret1 secret2 0 sample_contents keyless_layer keyless_layer sample_wire.
Proof.
  split; [reflexivity|]. split; [reflexivity|].
  apply (tls13_peers_deliver sha256_md sha256 chacha_writer chacha_reader zero_HMAC_CTX zero_HMAC_CTX false false client_calls server_calls (zrep 32 0) sample_ecdhe
    [] [] (zrep 32 2) (zrep 32 2) (zrep 32 3) 1 1 0 1 true 0 sample_contents keyless_layer keyless_layer sample_wire).
  - exact zero_stack_ok.
  - exact zero_stack_ok.
  - apply (bool_decide_unpack _). vm_compute. exact I.
  - apply (bool_decide_unpack _). vm_compute. exact I.
  - reflexivity.
  - reflexivity.
  - reflexivity.
  - reflexivity.
  - reflexivity.
  - split; [by split_and!|]. split; [reflexivity|]. split; [reflexivity|by split; vm_compute].
  - split; [by split_and!|]. split; reflexivity.
  - by vm_compute.
  - repeat (apply Forall_cons; split; [split; [split; [by split; vm_compute|by vm_compute]|split; [by repeat constructor|split; [done|by (left + right)]]]|]). constructor.
Defined.
